(* ===== verification/_CoqProject ===== *)
-Q . S2P
Prelude.v
DefStr.v
Mem.v
MemSpec.v
Memp.v
LinkedList.v
Ip6Addr.v
RouteTable.v
World.v
Netif.v
Pbuf.v
Ip6Hdr.v
Custody.v
Buffer.v
Storage.v
StorageSpec.v
Routing.v
RoutingSpec.v
ContactPlan.v
InetChksum.v
ChksumPart.v
RawSocket.v
RawSocketOne.v
Ip6Out.v
Icmp6.v
Ip6In.v
Ip6Spec.v
Mld6.v
Nd6.v
PbufRest.v
Nd6Send.v
Nd6In.v
Ip6Frag.v
Tracking.v
DtnIcmp.v
Controller.v
ControllerSpec.v
Offer.v
Transfer.v
Timeouts.v
Main.v
Setup.v
Stack.v
MldSpec.v
Nd6Inv.v
Nd6Spec.v
Nd6Live.v
Nd6Dad.v
FragSpec.v
Traffic.v
