(* ===== verification/Prelude.v ===== *)
(** * lwIP-tun-dtn: a model of the DTN node and its correctness

    The program is an IPv6 node with delay-tolerant networking.  A TUN device
    delivers packets to [main]'s loop; the DTN controller decides for each
    packet whether it is for the node itself (handed to lwIP), for a
    destination outside the DTN (sent on a raw socket as it is), for a DTN node
    that can be reached now (sent to the next hop with the node's custody
    header) or for one that cannot (stored on the heap and on disk).  Stored
    packets are tried again when a contact opens; PCK-RECEIVED reports
    acknowledge packets to the previous custodian, which then deletes its copy.

    ** Files

    - [Prelude]: machine integers, outcomes and the state monad with its
      weakest preconditions, loops with fuel, bytes and buffers, [err_t];
    - [DefStr]: lwIP's string functions (lwip/src/core/def.c);
    - [Mem], [MemSpec]: lwIP's heap, byte for byte (lwip/src/core/mem.c);
    - [Memp]: lwIP's memory pools, byte for byte (lwip/src/core/memp.c);
    - [LinkedList]: singly linked lists in a heap and the three list idioms of
      the C code (append at the end, search, unlink);
    - [Ip6Addr]: lwIP's IPv6 addresses and their text form
      (lwip/src/core/ipv6/ip6_addr.c, ip6_addr.h);
    - [RouteTable]: the static IPv6 routes
      (lwip/contrib/addons/ipv6_static_routing/ip6_route_table.c);
    - [World]: the memory of the program (one record) and its environment;
    - [Netif]: lwIP's network interfaces, their address slots and zones
      (lwip/src/core/netif.c, ip6_addr.h, ip6_zone.h);
    - [Pbuf]: lwIP's packet buffers (lwip/src/core/pbuf.c), with the heap and
      the pool as allocators that may fail; [PbufRest]: the functions for chains that
      the node does not use;
    - [Ip6Hdr]: IPv6 header fields in a packet buffer (lwip/prot/ip6.h);
    - [Custody]: the custody option (src/dtn_custody.c);
    - [Buffer]: rules for filling a packet buffer and for moving its payload;
    - [Storage], [StorageSpec]: stored packets (src/dtn_storage.c);
    - [Routing], [RoutingSpec]: contacts, contact plan, node numbers, next hop
      (src/dtn_routing.c); [ContactPlan]: what the text of a contact plan means;
    - [InetChksum], [ChksumPart]: the Internet checksum, of whole packets and of parts
      (lwip/src/core/inet_chksum.c);
    - [RawSocket]: the two raw sockets (src/raw_socket.c); [RawSocketOne]: the variant
      with one interface, which is not built (src/raw_socket_one_interface.c);
    - [Ip6Out]: routing, source address selection and output, and [Ip6In]: input,
      forwarding and extension headers (lwip/src/core/ipv6/ip6.c); [Icmp6]: echo
      and error messages (icmp6.c); [Ip6Spec]: what they do to the node;
    - [Mld6], [MldSpec]: multicast listener discovery (mld6.c) with the router
      alert option of ip6.c;
    - [Nd6], [Nd6In]: neighbour discovery (nd6.c), the tables and the messages sent,
      then the messages received and the timer; [Nd6Send]: the bytes of the messages
      that are sent; [Nd6Inv], [Nd6Spec]: the invariant of the tables, function by
      function; [Nd6Live]: the timer over many ticks and the answer to a solicitation;
      [Nd6Dad]: duplicate address detection;
    - [Ip6Frag], [FragSpec]: fragmentation (ip6_frag.c);
    - [Tracking]: the controller's table of forwarding attempts
      (src/dtn_controller.c, first part);
    - [DtnIcmp]: DTN reports over ICMPv6 (src/dtn_icmpv6.c);
    - [Controller], [ControllerSpec]: incoming packets and the pass over the
      stored ones (src/dtn_controller.c, second part); [Offer]: ICMPv6 messages
      and reports through the controller; [Transfer]: a packet and its
      acknowledgement between two nodes;
    - [Timeouts]: lwIP's timers (lwip/src/core/timeouts.c);
    - [Main]: the module, the TUN interface, start-up, main loop, shut-down
      (src/dtn_module.c, src/main.c); [Setup]: the configuration of the
      interface in [main];
    - [Stack]: lwIP's input path on the TUN interface, below the controller;
    - [Traffic]: the main loop with everything below it, under traffic.

    ** How the code is modelled

    The state of the program is the record [world]: the pbuf heap, the heaps of
    storage entries and of contacts (a C pointer is an [option loc], null is
    [None]), the three components, the static variables of the contact check,
    the files, the pending timeouts, the sockets and the trace of what was sent.  A C function is a
    definition of the same name in the monad [M world]: it returns a value and
    a world ([Ret]), or is [Stuck] (undefined behaviour: a null or dangling
    pointer, an access outside a buffer, a failed assertion), or runs out of
    fuel ([Hang]).  Long functions are split at their blocks.  Unsigned
    integers are [Z] with the wrap-around written out ([u8], [u16], [u32]); a
    buffer is a list of bytes, read and written through [rd] and [wr], which
    check the bounds.

    What the program asks for (memory, clock, files, sockets, [select], [read],
    [write], the Python route computation) is answered by the class [Env]: the
    n-th request gets the n-th answer, and the theorems hold for every
    environment, with the contracts of [sendto] and [write] as hypotheses where
    they are used.  The controller reaches lwIP's [ip6_input] through the class
    [Ip6Input] with the law [Ip6InputOk], which the model of [ip6_input] keeps
    ([Stack]).  What the stack in turn asks of the driver, of fragmentation and of
    neighbour and multicast listener discovery is the class [LowerLayers] with the
    laws [LowerLayersOk]; the functions the timers call are [TimerFunctions] with
    [TimerFunctionsOk], and [SteadyClock] is what the timers ask of the clock.
    Concrete instances show that the laws can hold.

    ** What is shown

    - [StorageSpec]: a well-formed list of entries, each owning a buffer, is
      the list of its records ([stores]); store, retrieve, delete, start-up and
      shut-down implement operations on that list in every environment, store
      and retrieve are inverse, and files load back to what was stored.
    - [RoutingSpec]: the same for contacts; the next hop on every answer of the
      route computation.  [ContactPlan]: loading the printed text of a plan appends
      the contacts the plan describes.
    - [Custody]: adding, reading and removing the custody header are inverse on
      well-formed packets; the walk over extension headers is decided by its
      fuel, and when it does not end; two accesses outside a buffer.
    - [InetChksum], [ChksumPart], [DtnIcmp]: the checksum is the one of RFC 1071; a report is
      sent complete with a verifying checksum or not at all, and its receiver
      deletes exactly the packet it confirms.
    - [Tracking]: the retry decision on every branch, the table invariant over
      all reachable states, retries at most ten and 30 s apart.
    - [RawSocketOne]: it sends as the built variant does on the first interface, and uses
      uninitialised variables for the second.
    - [RawSocket], [Main]: what reaches the wire, no descriptor lost, the TUN
      interface, start-up of the whole node, and the invariant of the main loop.
    - [Timeouts]: the list of timeouts is a queue ordered by due times that do not
      wrap; which timer functions [sys_check_timeouts] calls, and when the timers are
      due again.
    - [ControllerSpec], [Offer]: each branch for an arriving packet (on which the
      walk for a custodian ends: on others the code does not return), a report
      that confirms a stored one, the pass over the stored packets, and a node's
      own acknowledgement stopping its receiver.  [Transfer]: the acknowledgement
      one node sends for a packet it stored makes the node it came from remove
      exactly that packet, and what its walk for a custodian reads.
    - [PbufRest]: reading, writing, searching and removing by position are what they are
      on the bytes of a packet, and joining a chain keeps them.
    - [DefStr]: comparing and searching decide what they say, and decimal output reads
      back to the number.
    - [MemSpec]: the bytes of lwIP's heap represent a list of blocks; allocation is
      first fit, freeing joins neighbours, shrinking cuts off, and nothing touches
      the data of other blocks, over all reachable heaps.
    - [Memp]: the free elements of a pool are the list its links lead through; what
      is handed out overlaps nothing held, over all reachable states and placements
      of the pools; a double free makes a circle, which the check for circles finds.
    - [Mld6], [MldSpec]: joining and leaving count uses of an address; the groups of
      the interfaces are well formed in every reachable state and every call
      returns; a query is answered in time with reports that verify; and the
      contract that ip6.c has with the module.
    - [Nd6Spec], [Nd6Live], [Nd6Dad]: the tables of neighbour discovery are well formed
      in every reachable state, and every call returns, whatever arrives, as long as no
      packet waits for an address to be resolved, which the TUN interface never asks
      for; which neighbour makes room for another; when an unheard neighbour is
      forgotten; a solicitation is answered with an advertisement that verifies; a new
      address is announced and then used; a static address that another node
      advertises to all nodes is not used any more.
    - [FragSpec]: the fragments of a packet are what is sent, in order and within the
      path MTU, and reassemble to it; the law the IPv6 output asks of fragmentation
      holds for path MTUs of 56 and more; with one of 48 to 55 it does not end, and
      a Packet Too Big message sets such an MTU.
    - [RouteTable]: lookup is longest prefix match; adding and removing keep the
      table sorted, and what removing from a full table leaves behind.
    - [Netif], [Setup]: interface numbers are unique and the search for them ends;
      where an added address goes; the interface, its addresses and the default
      route when the main loop starts.
    - [Ip6Out], [Ip6Spec], [Stack]: the source address is the best one by the rules
      of RFC 6724 that ip6.c says it follows; [ip6_input] returns on every packet
      with two bytes of its buffer behind it and releases it, with everything else of
      the node unchanged; an echo request through the whole node is answered.
    - [Traffic]: under every sequence of packets the node copes with, all rounds of
      the main loop return and keep the components well-formed: packets of any
      length as long as no report quotes a packet with a custody header, and such
      reports too as long as stored packets are shorter than 280 bytes.

    Some theorems state what the code does where it does not do what it means
    to (a leak, loops without progress, wrapped counts, retries that never
    happen); their comments say so.

    ** Fuel

    Loops over lists use the size of the heap as fuel, which their invariants
    show is enough; [load_lines] the length of the text, the pool allocation
    the length of the packet; the walk over the extension headers the bytes left
    in the packet and the one over options the length of their header ([Ip6Spec]
    shows that this is enough); the search for an interface number the 256 values
    it can take; the walks over lwIP's heap the number of blocks of the least width
    it has room for; the loops over a pool the number of its elements and one, the walks
    over groups the size of their memory and one; the loop over the options of a router
    advertisement the length of the packet; [ip6_frag] one more than the bytes a packet can
    have, as each fragment has some, and its inner loop the bytes of a fragment;
    [sys_check_timeouts] runs each of the two timers at most twice, and has fuel for that.  The custodian walk of [dtn_extract_custodian_option]
    and the search of [dtn_storage_delete_packet_by_icmp_data] need not end:
    [extract_fuel_enough] shows that the fuel of the first (more than any buffer
    has bytes) decides it, and the theorems on divergence are for every fuel.

    ** Not modelled

    The output of [printf] and [perror]; reassembly, which is configured out; what
    happens to packets queued for a neighbour that is being resolved (only interfaces
    with link-layer addresses queue, and their drivers are not built); that the
    timers and ip6.c run on the same state as neighbour and multicast listener
    discovery, whose models, as that of fragmentation, have a state of their own
    around [world] and are reached from there through [LowerLayers] and
    [TimerFunctions]; the counters of lwIP's statistics outside its memory; the
    vendored parts the configuration leaves out (IPv4, TCP, UDP, sockets, PPP,
    applications); the Python library py_cgr, which is the parameter [env_cgr].
    The machine is little-endian and [ip6_addr_t] has its zone (LWIP_IPV6_SCOPES), as the
    configuration in include/lwipopts.h gives. *)

From Stdlib Require Export ZArith Lia.
From stdpp Require Export strings numbers gmap list.

#[export] Set Default Goal Selector "!".
Open Scope Z_scope.

(** ** Machine integers

    A [w]-bit unsigned integer is a [Z]; every C conversion or arithmetic
    operation that can wrap is written with one of these functions. *)

Definition u8 (x : Z) : Z := x mod 256.
Definition u16 (x : Z) : Z := x mod 65536.
Definition u32 (x : Z) : Z := x mod 4294967296.
Definition u64 (x : Z) : Z := x mod 18446744073709551616.

(** [zlia] is [lia] on goals with [u8], [u16], [u32], [/] and [mod]. *)
Ltac zlia :=
  unfold u8, u16, u32 in *; Z.div_mod_to_equations; lia.

Lemma u8_small x : 0 <= x < 256 -> u8 x = x.
Proof. intros; unfold u8; now apply Z.mod_small. Qed.
Lemma u16_small x : 0 <= x < 65536 -> u16 x = x.
Proof. intros; unfold u16; now apply Z.mod_small. Qed.
Lemma u32_small x : 0 <= x < 4294967296 -> u32 x = x.
Proof. intros; unfold u32; now apply Z.mod_small. Qed.
Lemma u8_range x : 0 <= u8 x < 256.
Proof. unfold u8; apply Z.mod_pos_bound; lia. Qed.
Lemma u16_range x : 0 <= u16 x < 65536.
Proof. unfold u16; apply Z.mod_pos_bound; lia. Qed.
Lemma u32_range x : 0 <= u32 x < 4294967296.
Proof. unfold u32; apply Z.mod_pos_bound; lia. Qed.

Create HintDb ints discriminated.
#[export] Hint Resolve u8_range u16_range u32_range : ints.

(** Rounding up to the alignment (lwip/arch.h). *)
Definition MEM_ALIGNMENT : Z := 4.
Definition LWIP_MEM_ALIGN_SIZE (n : Z) : Z :=
  Z.land (u32 (n + MEM_ALIGNMENT - 1)) (u32 (Z.lnot (MEM_ALIGNMENT - 1))).

Lemma land_round4 x k :
  0 <= k -> 0 <= x < 4 * 2 ^ k -> Z.land x (Z.shiftl (Z.ones k) 2) = 4 * (x / 4).
Proof.
  intros Hk Hx.
  assert (E : Z.land x (Z.shiftl (Z.ones k) 2) = Z.shiftl (Z.land (Z.shiftr x 2) (Z.ones k)) 2).
  { apply Z.bits_inj'. intros i Hi. rewrite Z.land_spec, !Z.shiftl_spec by done.
    destruct (Z.lt_ge_cases i 2).
    - rewrite !(Z.testbit_neg_r _ (i - 2)) by lia. by rewrite andb_false_r.
    - rewrite Z.land_spec, Z.shiftr_spec by lia. do 2 f_equal. lia. }
  rewrite E, Z.land_ones, Z.shiftr_div_pow2, Z.shiftl_mul_pow2 by lia.
  change (2 ^ 2) with 4. rewrite Z.mod_small; [lia|].
  split; [apply Z.div_pos; lia|]. apply Z.div_lt_upper_bound; lia.
Qed.

Lemma mem_align_eq n : 0 <= n < 4294967292 -> LWIP_MEM_ALIGN_SIZE n = 4 * ((n + 3) / 4).
Proof.
  intros Hn. unfold LWIP_MEM_ALIGN_SIZE, MEM_ALIGNMENT. rewrite u32_small by lia.
  replace (n + 4 - 1) with (n + 3) by lia. change (u32 (Z.lnot (4 - 1))) with (Z.shiftl (Z.ones 30) 2).
  apply land_round4; simpl; lia.
Qed.

(** ** Outcomes and the state monad

    [Ret a] is a normal return; [Stuck] is undefined behaviour or a failed
    assertion (a null or dangling pointer, an access outside a buffer, an
    [LWIP_ASSERT] that does not hold); [Hang] is a loop that used up its
    fuel. *)

Inductive outcome (A : Type) : Type :=
| Ret (a : A)
| Stuck
| Hang.
Arguments Ret {A} a.
Arguments Stuck {A}.
Arguments Hang {A}.

#[export] Instance outcome_ret : MRet outcome := fun A a => Ret a.
#[export] Instance outcome_bind : MBind outcome :=
  fun A B f m => match m with Ret a => f a | Stuck => Stuck | Hang => Hang end.
#[export] Instance outcome_fmap : FMap outcome :=
  fun A B f m => match m with Ret a => Ret (f a) | Stuck => Stuck | Hang => Hang end.

Definition M (S A : Type) : Type := S -> outcome (A * S).

#[export] Instance M_ret {S} : MRet (M S) := fun A a s => Ret (a, s).
#[export] Instance M_bind {S} : MBind (M S) :=
  fun A B f m s => match m s with
                   | Ret (a, s') => f a s'
                   | Stuck => Stuck
                   | Hang => Hang
                   end.

Definition get {S} : M S S := fun s => Ret (s, s).
Definition gets {S A} (f : S -> A) : M S A := fun s => Ret (f s, s).
Definition modify {S} (f : S -> S) : M S unit := fun s => Ret (tt, f s).
Definition lift {S A} (o : outcome A) : M S A :=
  fun s => match o with Ret a => Ret (a, s) | Stuck => Stuck | Hang => Hang end.
Definition stuck {S A} : M S A := fun _ => Stuck.

(** Dereferencing a pointer that may be null or dangling. *)
Definition deref {A} (o : option A) : outcome A :=
  match o with Some a => Ret a | None => Stuck end.

(** [LWIP_ASSERT]: the process aborts when the condition is false. *)
Definition c_assert {S} (b : bool) : M S unit :=
  if b then mret tt else stuck.

(** A [while]/[for] loop: the body returns [inl] to go round again and [inr]
    to leave the loop. *)
Fixpoint loop {S A B} (fuel : nat) (body : A -> M S (A + B)) (a : A) : M S B :=
  match fuel with
  | O => fun _ => Hang
  | Datatypes.S n =>
      r ← body a;
      match r with
      | inl a' => loop n body a'
      | inr b => mret b
      end
  end.

(** The same loop over read-only data. *)
Fixpoint oloop {A B} (fuel : nat) (body : A -> outcome (A + B)) (a : A) : outcome B :=
  match fuel with
  | O => Hang
  | Datatypes.S n =>
      r ← body a;
      match r with
      | inl a' => oloop n body a'
      | inr b => Ret b
      end
  end.

(** Weakest precondition, total correctness: the computation returns, and its
    result and final state satisfy the postcondition. *)
Definition wp {S A} (m : M S A) (s : S) (Q : A -> S -> Prop) : Prop :=
  match m s with Ret (a, s') => Q a s' | _ => False end.

Section wp_rules.
Context {S : Type}.

Lemma wp_ret {A} (a : A) (s : S) Q : Q a s -> wp (mret a) s Q.
Proof. done. Qed.

Lemma wp_bind {A B} (m : M S A) (f : A -> M S B) s Q :
  wp m s (fun a s' => wp (f a) s' Q) -> wp (m ≫= f) s Q.
Proof.
  unfold wp, mbind, M_bind. destruct (m s) as [[a s']| |]; done.
Qed.

Lemma wp_mono {A} (m : M S A) s (P Q : A -> S -> Prop) :
  wp m s P -> (forall a s', P a s' -> Q a s') -> wp m s Q.
Proof. unfold wp. destruct (m s) as [[a s']| |]; naive_solver. Qed.

Lemma wp_lift {A} (o : outcome A) a (s : S) Q :
  o = Ret a -> Q a s -> wp (lift o) s Q.
Proof. intros -> H. done. Qed.

Lemma wp_get (s : S) Q : Q s s -> wp get s Q.
Proof. done. Qed.

Lemma wp_modify f (s : S) Q : Q tt (f s) -> wp (modify f) s Q.
Proof. done. Qed.

Lemma wp_exec {A} (m : M S A) s a s' Q : m s = Ret (a, s') -> Q a s' -> wp m s Q.
Proof. intros H HQ. unfold wp. by rewrite H. Qed.

Lemma wp_elim {A} (m : M S A) s Q :
  wp m s Q -> exists a s', m s = Ret (a, s') /\ Q a s'.
Proof. unfold wp. destruct (m s) as [[a s']| |]; naive_solver. Qed.

Lemma bind_exec {A B} (m : M S A) (f : A -> M S B) s a s' :
  m s = Ret (a, s') -> (m ≫= f) s = f a s'.
Proof. intros H. unfold mbind, M_bind. by rewrite H. Qed.

Lemma bind_stuck {A B} (m : M S A) (f : A -> M S B) s :
  m s = Stuck -> (m ≫= f) s = Stuck.
Proof. intros H. unfold mbind, M_bind. by rewrite H. Qed.

Lemma bind_hang {A B} (m : M S A) (f : A -> M S B) s :
  m s = Hang -> (m ≫= f) s = Hang.
Proof. intros H. unfold mbind, M_bind. by rewrite H. Qed.

(** Loop rule: an invariant and a measure that decreases on every round
    below the fuel. *)
Lemma wp_loop {A B} (I : A -> S -> Prop) (mu : A -> S -> nat)
    (body : A -> M S (A + B)) fuel a s Q :
  I a s -> (mu a s < fuel)%nat ->
  (forall a s, I a s ->
     wp (body a) s (fun r s' =>
       match r with
       | inl a' => I a' s' /\ (mu a' s' < mu a s)%nat
       | inr b => Q b s'
       end)) ->
  wp (loop fuel body a) s Q.
Proof.
  intros HI Hf Hbody. revert a s HI Hf.
  induction fuel as [|fuel IH]; intros a s HI Hf; [lia|].
  simpl. apply wp_bind. eapply wp_mono; [by apply Hbody|].
  intros [a'|b] s' Hr; [|done].
  apply IH; [naive_solver | destruct Hr; lia].
Qed.

(** A loop whose body makes no progress never returns, whatever the fuel. *)
Lemma loop_hang {A B} (body : A -> M S (A + B)) fuel a s :
  body a s = Ret (inl a, s) -> loop fuel body a s = Hang.
Proof.
  intros H. induction fuel as [|fuel IH]; [done|].
  simpl. by rewrite (bind_exec _ _ _ _ _ H).
Qed.
End wp_rules.

Lemma loop_S {S A B} fuel (body : A -> M S (A + B)) a s :
  loop (Datatypes.S fuel) body a s =
    (r ← body a; match r with inl a' => loop fuel body a' | inr v => mret v end) s.
Proof. done. Qed.

Lemma oloop_S {A B} (body : A -> outcome (A + B)) n a :
  oloop (S n) body a =
    r ← body a; match r with inl a' => oloop n body a' | inr b => Ret b end.
Proof. done. Qed.
Lemma oloop_step {A B} (body : A -> outcome (A + B)) n a a' :
  body a = Ret (inl a') -> oloop (S n) body a = oloop n body a'.
Proof. intros H. simpl. by rewrite H. Qed.
Lemma oloop_exit {A B} (body : A -> outcome (A + B)) n a b :
  body a = Ret (inr b) -> oloop (S n) body a = Ret b.
Proof. intros H. simpl. by rewrite H. Qed.
Lemma oloop_stuck {A B} (body : A -> outcome (A + B)) n a :
  body a = Stuck -> oloop (S n) body a = Stuck.
Proof. intros H. simpl. by rewrite H. Qed.

Lemma oloop_hang {A B} (body : A -> outcome (A + B)) fuel a :
  body a = Ret (inl a) -> oloop fuel body a = Hang.
Proof.
  intros H. induction fuel as [|fuel IH]; [done|].
  simpl. by rewrite H.
Qed.

(** More fuel never changes an answer. *)
Lemma oloop_hang_inv {A B} (I : A -> Prop) (body : A -> outcome (A + B)) fuel a :
  (forall x, I x -> exists y, I y /\ body x = Ret (inl y)) -> I a -> oloop fuel body a = Hang.
Proof.
  intros H. revert a. induction fuel as [|fuel IH]; intros a Ha; [done|].
  destruct (H a Ha) as (y & Hy & E). rewrite (oloop_step _ _ _ _ E). by apply IH.
Qed.

Lemma oloop_mono {A B} (body : A -> outcome (A + B)) fuel fuel' a r :
  oloop fuel body a = r -> r <> Hang -> (fuel <= fuel')%nat ->
  oloop fuel' body a = r.
Proof.
  revert fuel' a. induction fuel as [|fuel IH]; intros fuel' a H Hr Hle.
  { simpl in H. congruence. }
  destruct fuel' as [|fuel']; [lia|]. simpl in *.
  destruct (body a) as [[a'|b]| |]; simpl in *; try done.
  apply IH; [done|done|lia].
Qed.

Arguments oloop : simpl never.
Arguments loop : simpl never.

Lemma obind_ret {A B} (m : outcome A) (f : A -> outcome B) b :
  m ≫= f = Ret b <-> exists a, m = Ret a /\ f a = Ret b.
Proof. unfold mbind, outcome_bind. destruct m; naive_solver. Qed.

Lemma Forall_sublist {A} (P : A -> Prop) l1 l2 : l1 `sublist_of` l2 -> Forall P l2 -> Forall P l1.
Proof. rewrite !Forall_forall. intros Hs HP x Hx. by eapply HP, elem_of_sublist. Qed.

(** ** Bytes and buffers *)

Definition is_byte (b : Z) : Prop := 0 <= b < 256.
#[export] Instance is_byte_dec b : Decision (is_byte b).
Proof. unfold is_byte. apply _. Defined.

Definition slice (off n : nat) (l : list Z) : list Z := take n (drop off l).
Definition splice (off : nat) (new l : list Z) : list Z :=
  take off l ++ new ++ drop (off + length new) l.

(** [memcpy] out of and into a buffer; [Stuck] outside of it. *)
Definition rd (off n : Z) (buf : list Z) : outcome (list Z) :=
  if (0 <=? off) && (0 <=? n) && (off + n <=? Z.of_nat (length buf))
  then Ret (slice (Z.to_nat off) (Z.to_nat n) buf) else Stuck.
Definition wr (off : Z) (new buf : list Z) : outcome (list Z) :=
  if (0 <=? off) && (off + Z.of_nat (length new) <=? Z.of_nat (length buf))
  then Ret (splice (Z.to_nat off) new buf) else Stuck.

Section buffers.
Implicit Types l new : list Z.

Lemma rd_ok off n l :
  0 <= off -> 0 <= n -> off + n <= Z.of_nat (length l) ->
  rd off n l = Ret (slice (Z.to_nat off) (Z.to_nat n) l).
Proof.
  intros. unfold rd.
  by rewrite (proj2 (Z.leb_le 0 off)), (proj2 (Z.leb_le 0 n)),
     (proj2 (Z.leb_le _ _)) by lia.
Qed.

Lemma rd_oob off n l :
  off < 0 \/ n < 0 \/ Z.of_nat (length l) < off + n -> rd off n l = Stuck.
Proof.
  intros H. unfold rd.
  destruct (Z.leb_spec 0 off), (Z.leb_spec 0 n),
    (Z.leb_spec (off + n) (Z.of_nat (length l))); simpl; try done; lia.
Qed.

Lemma wr_ok off new l :
  0 <= off -> off + Z.of_nat (length new) <= Z.of_nat (length l) ->
  wr off new l = Ret (splice (Z.to_nat off) new l).
Proof.
  intros. unfold wr.
  by rewrite (proj2 (Z.leb_le 0 off)), (proj2 (Z.leb_le _ _)) by lia.
Qed.

Lemma wr_oob off new l :
  off < 0 \/ Z.of_nat (length l) < off + Z.of_nat (length new) -> wr off new l = Stuck.
Proof.
  intros H. unfold wr.
  destruct (Z.leb_spec 0 off),
    (Z.leb_spec (off + Z.of_nat (length new)) (Z.of_nat (length l)));
    simpl; try done; lia.
Qed.

Lemma length_slice off n l :
  (off + n <= length l)%nat -> length (slice off n l) = n.
Proof. intros. unfold slice. rewrite length_take, length_drop. lia. Qed.

Lemma length_splice off new l :
  (off + length new <= length l)%nat -> length (splice off new l) = length l.
Proof.
  intros. unfold splice. rewrite !length_app, length_take, length_drop. lia.
Qed.

Lemma slice_all l n : n = length l -> slice 0 n l = l.
Proof. intros ->. unfold slice. rewrite drop_0. by rewrite take_ge. Qed.

Lemma slice_app_l off n l1 l2 :
  (off + n <= length l1)%nat -> slice off n (l1 ++ l2) = slice off n l1.
Proof.
  intros. unfold slice. rewrite drop_app_le by lia.
  rewrite take_app_le; [done|]. rewrite length_drop. lia.
Qed.

Lemma slice_app_r off n l1 l2 :
  (length l1 <= off)%nat -> slice off n (l1 ++ l2) = slice (off - length l1) n l2.
Proof. intros. unfold slice. by rewrite drop_app_ge by lia. Qed.

Lemma slice_app_mid l1 l2 l3 :
  slice (length l1) (length l2) (l1 ++ l2 ++ l3) = l2.
Proof.
  rewrite slice_app_r by lia. rewrite Nat.sub_diag, slice_app_l by lia.
  by apply slice_all.
Qed.

Lemma slice_slice off n off' n' l :
  (off' + n' <= n)%nat -> slice off' n' (slice off n l) = slice (off + off') n' l.
Proof.
  intros. unfold slice. rewrite skipn_firstn_comm, take_take, drop_drop.
  f_equal. lia.
Qed.

Lemma slice_take off n m (l : list Z) : (off + n <= m)%nat -> slice off n (take m l) = slice off n l.
Proof. intros. by apply (slice_slice 0 m off n l). Qed.

Lemma slice_splice_same off new l :
  (off + length new <= length l)%nat -> slice off (length new) (splice off new l) = new.
Proof.
  intros. unfold splice.
  replace off with (length (take off l)) at 1 by (rewrite length_take; lia).
  apply slice_app_mid.
Qed.

Lemma slice_splice_before off new l off' n' :
  (off <= length l)%nat -> (off' + n' <= off)%nat ->
  slice off' n' (splice off new l) = slice off' n' l.
Proof.
  intros. unfold splice. rewrite slice_app_l by (rewrite length_take; lia).
  unfold slice. rewrite skipn_firstn_comm, take_take. f_equal. lia.
Qed.

Lemma slice_splice_after off new l off' n' :
  (off + length new <= length l)%nat -> (off + length new <= off')%nat ->
  slice off' n' (splice off new l) = slice off' n' l.
Proof.
  intros. unfold splice.
  rewrite slice_app_r by (rewrite length_take; lia).
  rewrite length_take, slice_app_r by lia.
  unfold slice. rewrite drop_drop. do 2 f_equal. lia.
Qed.

Lemma slice_splice_in P L O new l :
  (O + length new <= L)%nat -> (P + L <= length l)%nat ->
  slice P L (splice (P + O) new l) = splice O new (slice P L l).
Proof.
  intros. unfold splice, slice.
  rewrite drop_app_le by (rewrite length_take; lia).
  rewrite skipn_firstn_comm. replace (P + O - P)%nat with O by lia.
  rewrite take_app_ge by (rewrite length_take, length_drop; lia).
  rewrite take_app_ge by (rewrite length_take, length_drop; lia).
  rewrite take_take, skipn_firstn_comm, drop_drop, length_take, length_drop.
  f_equal; [f_equal; lia|]. f_equal. f_equal; [lia|]. f_equal. lia.
Qed.

Lemma splice_0 new l : splice 0 new l = new ++ drop (length new) l.
Proof. done. Qed.

Lemma splice_0_all new l : length new = length l -> splice 0 new l = new.
Proof.
  intros. unfold splice. rewrite take_0, drop_ge by lia. by rewrite app_nil_r.
Qed.

Lemma splice_splice_adj off new1 new2 l :
  (off + length new1 + length new2 <= length l)%nat ->
  splice (off + length new1) new2 (splice off new1 l) = splice off (new1 ++ new2) l.
Proof.
  intros. unfold splice.
  assert (Hl : length (take off l ++ new1) = (off + length new1)%nat)
    by (rewrite length_app, length_take; lia).
  rewrite !(app_assoc (take off l) new1 (drop _ _)).
  rewrite take_app_length' by lia. rewrite drop_app_ge by lia.
  rewrite Hl, drop_drop, <-!app_assoc, length_app.
  do 4 f_equal. lia.
Qed.

Lemma splice_app_l off new l1 l2 :
  (off + length new <= length l1)%nat -> splice off new (l1 ++ l2) = splice off new l1 ++ l2.
Proof.
  intros. unfold splice. rewrite take_app_le, drop_app_le by lia.
  by rewrite <-!app_assoc.
Qed.

Lemma splice_app_r off new l1 l2 :
  length l1 = off -> splice off new (l1 ++ l2) = l1 ++ splice 0 new l2.
Proof.
  intros <-. unfold splice. rewrite take_app_length, drop_app_ge by lia.
  rewrite take_0. simpl. do 2 f_equal. f_equal. lia.
Qed.

Lemma Forall_slice P off n l : Forall P l -> Forall P (slice off n l).
Proof. intros. unfold slice. by apply Forall_take, Forall_drop. Qed.

Lemma Forall_splice P off new l :
  Forall P l -> Forall P new -> Forall P (splice off new l).
Proof.
  intros. unfold splice. rewrite !Forall_app.
  auto using Forall_take, Forall_drop.
Qed.
End buffers.

#[export] Hint Resolve Forall_slice Forall_splice : ints.
Create Rewrite HintDb len.
#[export] Hint Rewrite @length_app @length_take @length_drop @length_replicate
  @length_fmap : len.
(** [len]: length side conditions of buffer lemmas. *)
Ltac len_side := repeat first
  [ rewrite length_splice by len_side | rewrite length_slice by len_side
  | progress autorewrite with len ]; cbn [length]; lia.
Ltac len := repeat first
  [ rewrite length_splice in * by len_side | rewrite length_slice in * by len_side
  | progress autorewrite with len in * ]; cbn [length] in *; try lia.

(** ** Byte order *)

Fixpoint le_bytes (n : nat) (x : Z) : list Z :=
  match n with
  | O => []
  | S n => x mod 256 :: le_bytes n (x / 256)
  end.
Fixpoint le_val (l : list Z) : Z :=
  match l with
  | [] => 0
  | b :: l => b + 256 * le_val l
  end.

Lemma length_le_bytes n x : length (le_bytes n x) = n.
Proof. revert x. induction n; intros; simpl; auto. Qed.
#[export] Hint Rewrite length_le_bytes : len.

Lemma le_bytes_byte n x : Forall is_byte (le_bytes n x).
Proof.
  revert x. induction n; intros x; simpl; constructor; [|done].
  unfold is_byte. apply Z.mod_pos_bound. lia.
Qed.
#[export] Hint Resolve le_bytes_byte : ints.

Lemma le_val_bytes n x : 0 <= x < 256 ^ Z.of_nat n -> le_val (le_bytes n x) = x.
Proof.
  revert x. induction n as [|n IH]; intros x Hx; simpl.
  { simpl in Hx. lia. }
  rewrite IH.
  - pose proof (Z.div_mod x 256). lia.
  - rewrite Nat2Z.inj_succ, Z.pow_succ_r in Hx by lia.
    split; [apply Z.div_pos; lia|]. apply Z.div_lt_upper_bound; lia.
Qed.

Lemma le_val_range l :
  Forall is_byte l -> 0 <= le_val l < 256 ^ Z.of_nat (length l).
Proof.
  induction 1 as [|b l Hb _ IH]; simpl; [lia|].
  replace (Z.of_nat (S (length l))) with (Z.succ (Z.of_nat (length l))) by lia.
  rewrite Z.pow_succ_r by lia. unfold is_byte in Hb. lia.
Qed.

Lemma le_bytes_val n l :
  length l = n -> Forall is_byte l -> le_bytes n (le_val l) = l.
Proof.
  intros <-. induction 1 as [|b l Hb _ IH]; simpl; [done|].
  unfold is_byte in Hb. f_equal.
  - zlia.
  - by replace ((b + 256 * le_val l) / 256) with (le_val l) by zlia.
Qed.

(** [lwip_htons] / [lwip_htonl] (def.c) on a little-endian machine. *)
Definition lwip_htons (n : Z) : Z :=
  Z.lor (Z.shiftl (Z.land n 0xff) 8) (Z.shiftr (Z.land n 0xff00) 8).
Definition lwip_htonl (n : Z) : Z :=
  Z.lor (Z.lor (Z.lor (Z.shiftl (Z.land n 0xff) 24) (Z.shiftl (Z.land n 0xff00) 8))
               (Z.shiftr (Z.land n 0xff0000) 8))
        (Z.shiftr (Z.land n 0xff000000) 24).

Lemma lor_shift_add x y k :
  0 <= k -> 0 <= y < 2 ^ k -> Z.lor (Z.shiftl x k) y = x * 2 ^ k + y.
Proof.
  intros Hk Hy.
  assert (Z.land (Z.shiftl x k) y = 0) as Hl.
  { apply Z.bits_inj'. intros i Hi. rewrite Z.land_spec, Z.bits_0.
    destruct (Z.lt_ge_cases i k).
    - by rewrite Z.shiftl_spec_low.
    - rewrite <-(Z.mod_small y (2 ^ k)), Z.mod_pow2_bits_high by lia. apply andb_false_r. }
  rewrite <-Z.lxor_lor, <-Z.add_nocarry_lxor by done.
  by rewrite Z.shiftl_mul_pow2.
Qed.

Lemma land_byte x k :
  0 <= k -> Z.land x (Z.shiftl 0xff k) = (x / 2 ^ k) mod 256 * 2 ^ k.
Proof.
  intros Hk.
  assert (Z.land x (Z.shiftl 0xff k) = Z.shiftl (Z.land (Z.shiftr x k) (Z.ones 8)) k) as ->.
  { apply Z.bits_inj'. intros i Hi.
    destruct (Z.lt_ge_cases i k).
    - rewrite Z.land_spec, !Z.shiftl_spec_low by lia. apply andb_false_r.
    - rewrite Z.land_spec, !Z.shiftl_spec, Z.land_spec, Z.shiftr_spec by lia.
      do 2 f_equal. lia. }
  rewrite Z.shiftl_mul_pow2, Z.land_ones, Z.shiftr_div_pow2 by lia. done.
Qed.

(** The arithmetic content of the two byte swaps. *)
Lemma lwip_htons_eq n : lwip_htons n = n mod 256 * 256 + (n / 256) mod 256.
Proof.
  unfold lwip_htons.
  change 0xff00 with (Z.shiftl 0xff 8). rewrite land_byte by lia.
  change 0xff with (Z.shiftl 0xff 0) at 1. rewrite land_byte by lia.
  rewrite Z.shiftr_div_pow2 by lia. change (2 ^ 8) with 256. change (2 ^ 0) with 1.
  rewrite Z.div_1_r, Z.mul_1_r, Z.div_mul by lia.
  rewrite lor_shift_add by zlia. done.
Qed.

Lemma lwip_htonl_eq n :
  lwip_htonl n = n mod 256 * 16777216 + (n / 256) mod 256 * 65536
                 + (n / 65536) mod 256 * 256 + (n / 16777216) mod 256.
Proof.
  unfold lwip_htonl.
  change 0xff000000 with (Z.shiftl 0xff 24). change 0xff0000 with (Z.shiftl 0xff 16).
  change 0xff00 with (Z.shiftl 0xff 8). change 0xff with (Z.shiftl 0xff 0) at 1.
  rewrite !land_byte by lia. rewrite !Z.shiftr_div_pow2 by lia.
  rewrite (Z.shiftl_mul_pow2 (_ * 2 ^ 8)) by lia.
  change (2 ^ 0) with 1. change (2 ^ 8) with 256. change (2 ^ 16) with 65536.
  change (2 ^ 24) with 16777216. rewrite Z.div_1_r, Z.mul_1_r, Z.div_mul by lia.
  set (a := n mod 256). set (b := (n / 256) mod 256).
  set (c := (n / 65536) mod 256). set (d := (n / 16777216) mod 256).
  assert (0 <= a < 256 /\ 0 <= b < 256 /\ 0 <= c < 256 /\ 0 <= d < 256)
    by (subst a b c d; split_and!; apply Z.mod_pos_bound; lia).
  rewrite (lor_shift_add a) by (change (2 ^ 24) with 16777216; lia).
  replace (c * 65536 / 256) with (c * 256) by (rewrite <-(Z.div_mul (c * 256) 256) by lia; f_equal; lia).
  rewrite <-(Z.shiftl_mul_pow2 _ 24) by lia. change (2 ^ 24) with 16777216.
  replace (Z.shiftl a 24 + b * 256 * 256) with (Z.shiftl (a * 256 + b) 16)
    by (rewrite !Z.shiftl_mul_pow2 by lia; lia).
  rewrite (lor_shift_add _ (c * 256)) by (change (2 ^ 16) with 65536; lia).
  replace ((a * 256 + b) * 2 ^ 16 + c * 256) with (Z.shiftl ((a * 256 + b) * 256 + c) 8)
    by (rewrite Z.shiftl_mul_pow2 by lia; lia).
  rewrite lor_shift_add by (change (2 ^ 8) with 256; lia). lia.
Qed.

Lemma lwip_htons_range n : 0 <= lwip_htons n < 65536.
Proof. rewrite lwip_htons_eq. zlia. Qed.
Lemma lwip_htonl_range n : 0 <= lwip_htonl n < 4294967296.
Proof.
  rewrite lwip_htonl_eq.
  pose proof (Z.mod_pos_bound n 256). pose proof (Z.mod_pos_bound (n / 256) 256).
  pose proof (Z.mod_pos_bound (n / 65536) 256). pose proof (Z.mod_pos_bound (n / 16777216) 256).
  lia.
Qed.
Lemma lwip_htons_invol n : 0 <= n < 65536 -> lwip_htons (lwip_htons n) = n.
Proof. intros. rewrite !lwip_htons_eq. zlia. Qed.

Lemma byte_mod a r : 0 <= a < 256 -> (a + 256 * r) mod 256 = a.
Proof. intros. zlia. Qed.
Lemma byte_div a r : 0 <= a < 256 -> (a + 256 * r) / 256 = r.
Proof. intros. zlia. Qed.

(** Both swaps reverse the bytes of the little-endian representation. *)
Lemma lwip_htons_le a b :
  is_byte a -> is_byte b -> lwip_htons (le_val [a; b]) = le_val [b; a].
Proof. unfold is_byte. intros. rewrite lwip_htons_eq. simpl. zlia. Qed.

Lemma lwip_htonl_le a b c d :
  is_byte a -> is_byte b -> is_byte c -> is_byte d ->
  lwip_htonl (le_val [a; b; c; d]) = le_val [d; c; b; a].
Proof.
  unfold is_byte. intros. rewrite lwip_htonl_eq. cbn [le_val].
  change 65536 with (256 * 256) at 2. change 16777216 with (256 * 256 * 256) at 2.
  rewrite <-!Z.div_div by lia. rewrite !byte_div by lia.
  rewrite !byte_mod by lia. lia.
Qed.

Lemma lwip_htonl_invol n : 0 <= n < 4294967296 -> lwip_htonl (lwip_htonl n) = n.
Proof.
  intros Hn. rewrite <-(le_val_bytes 4 n) at 1 by (simpl; lia).
  pose proof (le_bytes_byte 4 n) as Hb.
  change (le_bytes 4 n) with [n mod 256; n / 256 mod 256; n / 256 / 256 mod 256;
    n / 256 / 256 / 256 mod 256] in *.
  rewrite !Forall_cons in Hb. destruct Hb as (?&?&?&?&_).
  rewrite !lwip_htonl_le by done.
  by apply (le_val_bytes 4 n).
Qed.

(** ** C strings: the character codes before the terminating zero *)

Fixpoint str (s : string) : list Z :=
  match s with
  | EmptyString => []
  | String a s => Z.of_N (Ascii.N_of_ascii a) :: str s
  end.

(** printf's [%u] for a 32-bit value *)
Fixpoint dec_digits (fuel : nat) (n : Z) (acc : list Z) : list Z :=
  match fuel with
  | O => acc
  | S fuel =>
      let acc := 48 + n mod 10 :: acc in
      if n / 10 =? 0 then acc else dec_digits fuel (n / 10) acc
  end.
Definition fmt_u (n : Z) : list Z := dec_digits 10 n [].

(** ** [err_t] (lwip/err.h) *)

Inductive err_t :=
| ERR_OK | ERR_MEM | ERR_BUF | ERR_RTE | ERR_VAL | ERR_WOULDBLOCK
| ERR_CONN | ERR_IF | ERR_ARG.
#[export] Instance err_t_eq_dec : EqDecision err_t.
Proof. solve_decision. Defined.
