(* ===== verification/DefStr.v ===== *)
(** * Strings and numbers (lwip/src/core/def.c)

    The string functions lwIP brings along: searching and comparing without regard to
    case, decimal output, and comparison in constant time.  A string is the list of its
    bytes before the final zero.  The theorems: each decides what its name says, and
    decimal output reads back to the number. *)

From S2P Require Import Prelude.

(** ** Operations *)

(** [*str++], with zero at the end. *)
Definition next_char (s : list Z) : Z := nth 0 s 0.

(** Whether two characters differ for the comparison. *)
Definition differs (c1 c2 : Z) : bool :=
  if c1 =? c2 then false
  else
    let c1_upc := Z.lor c1 0x20 in
    if (97 <=? c1_upc) && (c1_upc <=? 122) then negb (c1_upc =? Z.lor c2 0x20) else true.

(** The string [str1] is walked; its end is the last round. *)
Fixpoint lwip_stricmp (str1 str2 : list Z) : Z :=
  match str1 with
  | [] => if differs 0 (next_char str2) then 1 else 0
  | c1 :: str1 => if differs c1 (next_char str2) then 1 else lwip_stricmp str1 (drop 1 str2)
  end.

(** [len] is a [size_t]; it is decremented before it is tested. *)
Fixpoint lwip_strnicmp (str1 str2 : list Z) (len : Z) : Z :=
  match str1 with
  | [] => if differs 0 (next_char str2) then 1 else 0
  | c1 :: str1 =>
      if differs c1 (next_char str2) then 1
      else let len := u64 (len - 1) in if len =? 0 then 0 else lwip_strnicmp str1 (drop 1 str2) len
  end.

(** [for (p = buffer; *p && (p + tokenlen <= buffer + n); p++)]: the place of the first [p]
    that passes the test. *)
Fixpoint scan_from (test : list Z -> bool) (tokenlen n : Z) (i : nat) (p : list Z) : option nat :=
  match p with
  | [] => None
  | _ :: rest => if Z.of_nat i + tokenlen <=? n then if test p then Some i else scan_from test tokenlen n (S i) rest else None
  end.
Definition strncmp_eq (p token : list Z) (n : nat) : bool := bool_decide (take n p = take n token).
Definition lwip_strnstr (buffer token : list Z) (n : Z) : option nat :=
  let tokenlen := Z.of_nat (length token) in
  if tokenlen =? 0 then Some 0%nat
  else scan_from (fun p => (next_char p =? next_char token) && strncmp_eq p token (length token)) tokenlen n 0 buffer.
Definition lwip_strnistr (buffer token : list Z) (n : Z) : option nat :=
  let tokenlen := Z.of_nat (length token) in
  if tokenlen =? 0 then Some 0%nat
  else scan_from (fun p => lwip_strnicmp p token tokenlen =? 0) tokenlen n 0 buffer.

(** The digits are written from the end of the buffer towards [res]. *)
Definition itoa_body (res : Z) (st : Z * Z * list Z) : outcome (Z * Z * list Z + Z * Z * list Z) :=
  let '(n, tmp, buf) := st in
  if negb (n =? 0) && (res <? tmp) then
    buf ← wr (tmp - 1) [48 + n mod 10] buf; Ret (inl (n / 10, tmp - 1, buf))
  else Ret (inr st).
(** [result] is the memory of the buffer, of [bufsize] bytes.  [-number] is undefined for the
    least [int]. *)
Definition lwip_itoa (result : list Z) (number : Z) : outcome (list Z) :=
  let bufsize := Z.of_nat (length result) in
  if number =? - 2147483648 then Stuck
  else
    let n := Z.abs number in
    if bufsize <? 2 then (if bufsize =? 1 then wr 0 [0] result else Ret result)
    else
      buf ← (if number <? 0 then wr 0 [45] result else Ret result);
      let res := if number <? 0 then 1 else 0 in
      buf ← wr (bufsize - 1) [0] buf;
      r ← oloop 12 (itoa_body res) (n, bufsize - 1, buf);
      let '(n, tmp, buf) := r in
      if negb (n =? 0) then wr 0 [0] buf
      else
        c ← rd tmp 1 buf;
        if le_val c =? 0 then wr res [48; 0] buf
        else moved ← rd tmp (bufsize - tmp) buf; wr res moved buf.

Definition lwip_memcmp_consttime (s1 s2 : list Z) : Z := foldl (fun ret ab => Z.lor ret (Z.lxor ab.1 ab.2)) 0 (zip s1 s2).

(** ** Comparing *)

Definition lower (c : Z) : Z := if (65 <=? c) && (c <=? 90) then c + 32 else c.
(** The bytes of a string. *)
Definition is_char (c : Z) : Prop := 0 < c < 256.

Lemma differs_lower c1 c2 : is_byte c1 -> is_byte c2 -> differs c1 c2 = negb (lower c1 =? lower c2).
Proof.
  intros H1 H2. unfold is_byte in *.
  assert (H : forallb (fun a => forallb (fun b => Bool.eqb (differs (Z.of_nat a) (Z.of_nat b)) (negb (lower (Z.of_nat a) =? lower (Z.of_nat b)))) (seq 0 256)) (seq 0 256) = true)
    by (vm_compute; reflexivity).
  rewrite forallb_forall in H. specialize (H (Z.to_nat c1)). rewrite in_seq, forallb_forall in H. specialize (H ltac:(lia) (Z.to_nat c2)). rewrite in_seq in H.
  specialize (H ltac:(lia)). apply Bool.eqb_prop in H. by rewrite !Z2Nat.id in H by lia.
Qed.
Lemma lower_nonzero c : is_char c -> lower c <> 0.
Proof. unfold is_char, lower. destruct ((65 <=? c) && (c <=? 90)); lia. Qed.
Lemma char_byte c : is_char c -> is_byte c.
Proof. unfold is_char, is_byte. lia. Qed.

Lemma cons_eq_if (x : Z) (a b : list Z) : (if decide (x :: a = x :: b) then 0 else 1) = if decide (a = b) then 0 else 1.
Proof. by destruct (decide (a = b)), (decide (x :: a = x :: b)); simplify_eq. Qed.

(** One character of each string. *)
Lemma differs_next c1 s2 : is_byte c1 -> Forall is_char s2 ->
  differs c1 (next_char s2) = match s2 with [] => negb (lower c1 =? 0) | c2 :: _ => negb (lower c1 =? lower c2) end.
Proof.
  intros H1 H2. destruct s2 as [|c2 s2]; cbn [next_char nth].
  - by rewrite differs_lower by (done || unfold is_byte; lia).
  - apply Forall_cons in H2 as [H2 _]. by apply differs_lower; [|apply char_byte].
Qed.

(** [lwip_stricmp] is zero exactly for strings that are equal without regard to case. *)
Theorem stricmp_ok s1 : forall s2, Forall is_char s1 -> Forall is_char s2 ->
  lwip_stricmp s1 s2 = if decide (lower <$> s1 = lower <$> s2) then 0 else 1.
Proof.
  induction s1 as [|c1 s1 IH]; intros s2 H1 H2; cbn [lwip_stricmp].
  - rewrite differs_next by (done || unfold is_byte; lia). destruct s2 as [|c2 s2]; [done|]. apply Forall_cons in H2 as [H2 _].
    pose proof (lower_nonzero c2 H2). change (lower 0) with 0. rewrite (proj2 (Z.eqb_neq _ _)) by done. done.
  - apply Forall_cons in H1 as [Hc1 H1]. rewrite differs_next by (done || by apply char_byte). pose proof (lower_nonzero c1 Hc1). destruct s2 as [|c2 s2].
    + rewrite (proj2 (Z.eqb_neq _ _)) by done. done.
    + destruct (Z.eqb_spec (lower c1) (lower c2)) as [E|E]; cbn [negb drop].
      * apply Forall_cons in H2 as [_ H2]. by rewrite IH, !fmap_cons, E, cons_eq_if by done.
      * rewrite decide_False; [done|]. intros [= ?]. done.
Qed.

(** [lwip_strnicmp] is the same for the first [len] characters. *)
Theorem strnicmp_ok s1 : forall s2 len, Forall is_char s1 -> Forall is_char s2 -> (0 < len)%nat -> Z.of_nat len < 18446744073709551616 ->
  lwip_strnicmp s1 s2 (Z.of_nat len) = if decide (lower <$> take len s1 = lower <$> take len s2) then 0 else 1.
Proof.
  induction s1 as [|c1 s1 IH]; intros s2 [|len] H1 H2 Hl Hmax; try lia; cbn [lwip_strnicmp take].
  - rewrite differs_next by (done || unfold is_byte; lia). destruct s2 as [|c2 s2]; [done|]. apply Forall_cons in H2 as [H2 _].
    pose proof (lower_nonzero c2 H2). change (lower 0) with 0. rewrite (proj2 (Z.eqb_neq _ _)) by done. done.
  - apply Forall_cons in H1 as [Hc1 H1]. rewrite differs_next by (done || by apply char_byte). pose proof (lower_nonzero c1 Hc1). destruct s2 as [|c2 s2].
    + rewrite (proj2 (Z.eqb_neq _ _)) by done. done.
    + destruct (Z.eqb_spec (lower c1) (lower c2)) as [E|E]; cbn [negb drop].
      * apply Forall_cons in H2 as [_ H2]. replace (u64 (Z.of_nat (S len) - 1)) with (Z.of_nat len) by (unfold u64; rewrite Z.mod_small; lia).
        destruct (Z.eqb_spec (Z.of_nat len) 0) as [E0|E0].
        { replace len with 0%nat by lia. cbn. rewrite E. by rewrite decide_True. }
        by rewrite IH, !firstn_cons, !fmap_cons, E, cons_eq_if by (done || lia).
      * rewrite decide_False; [done|]. intros [= ?]. done.
Qed.

(** With [len] 0 it compares the strings to their end: the count is decremented first. *)
Theorem strnicmp_zero_len c1 s1 c2 s2 :
  is_char c1 -> is_char c2 -> lower c1 <> lower c2 -> lwip_strnicmp (c1 :: s1) (c2 :: s2) 0 = 1.
Proof. intros H1 H2 Hne. cbn [lwip_strnicmp next_char nth]. rewrite differs_lower by (by apply char_byte). by rewrite (proj2 (Z.eqb_neq _ _)). Qed.

(** [lwip_memcmp_consttime] is zero exactly for equal memory. *)
Theorem memcmp_consttime_ok s1 : forall s2, length s1 = length s2 -> lwip_memcmp_consttime s1 s2 = 0 <-> s1 = s2.
Proof.
  assert (H : forall l r, foldl (fun ret (ab : Z * Z) => Z.lor ret (Z.lxor ab.1 ab.2)) r l = 0 <-> r = 0 /\ Forall (fun ab => ab.1 = ab.2) l).
  { induction l as [|[a b] l IH]; intros r; cbn [foldl fst snd]; [rewrite Forall_nil; tauto|]. rewrite IH, Forall_cons, Z.lor_eq_0_iff, Z.lxor_eq_0_iff. cbn. tauto. }
  intros s2 Hl. unfold lwip_memcmp_consttime. rewrite H. split; [|intros ->; split; [done|]].
  - intros [_ Ha]. revert s2 Hl Ha. induction s1 as [|a s1 IH]; intros [|b s2] Hl Ha; try done. cbn in Ha. apply Forall_cons in Ha as [Hab Ha]. cbn in Hab. subst b. f_equal. by apply IH; [cbn in Hl; lia|].
  - clear Hl. induction s2; constructor; done.
Qed.

(** ** Searching *)

(** The first place in [buffer] that passes [P], with the token in its first [n] bytes. *)
Definition first_place (P : list Z -> Prop) (tokenlen n : Z) (buffer : list Z) (r : option nat) : Prop :=
  match r with
  | Some i => Z.of_nat i + tokenlen <= n /\ P (drop i buffer) /\ forall j, (j < i)%nat -> ~ P (drop j buffer)
  | None => forall j, Z.of_nat j + tokenlen <= n -> ~ P (drop j buffer)
  end.

Lemma scan_ok (test : list Z -> bool) (P : list Z -> Prop) tokenlen n buffer i :
  (forall j, test (drop j buffer) = true <-> P (drop j buffer)) -> ~ P [] -> (forall j, (j < i)%nat -> ~ P (drop j buffer)) ->
  first_place P tokenlen n buffer (scan_from test tokenlen n i (drop i buffer)).
Proof.
  intros Ht Hnil. remember (length buffer - i)%nat as k eqn:Hk. revert i Hk. induction k as [|k IH]; intros i Hk Hno.
  - rewrite drop_ge by lia. cbn. intros j Hj. destruct (decide (j < i)%nat); [by apply Hno|]. by rewrite drop_ge by lia.
  - destruct (drop i buffer) as [|x rest] eqn:Ed; [apply (f_equal length) in Ed; rewrite length_drop in Ed; cbn in Ed; lia|]. cbn [scan_from].
    destruct (Z.leb_spec (Z.of_nat i + tokenlen) n) as [Hin|Hout].
    + rewrite <-Ed. destruct (test (drop i buffer)) eqn:Et; [split_and!; [done|by apply Ht|done]|].
      replace rest with (drop (S i) buffer) by (rewrite <-Nat.add_1_r, <-drop_drop, Ed; done).
      apply IH; [lia|]. intros j Hj. destruct (decide (j = i)) as [->|]; [by rewrite <-Ht, Et|]. apply Hno. lia.
    + intros j Hj. destruct (decide (j < i)%nat); [by apply Hno|lia].
Qed.

(** [lwip_strnstr] finds the first place of the token within the first [n] bytes, and
    [lwip_strnistr] the same without regard to case. *)
Theorem strnstr_ok buffer token n : token <> [] ->
  first_place (fun p => take (length token) p = token) (Z.of_nat (length token)) n buffer (lwip_strnstr buffer token n).
Proof.
  intros Hne. assert (Hl : (0 < length token)%nat) by (destruct token; [done|cbn; lia]). unfold lwip_strnstr. rewrite (proj2 (Z.eqb_neq _ _)) by lia. change buffer with (drop 0 buffer) at 2.
  apply scan_ok; [|by rewrite take_nil|lia]. intros j. unfold strncmp_eq. rewrite andb_true_iff, bool_decide_eq_true, (take_ge token) by lia. split; [by intros [_ ?]|].
  intros E. split; [|done]. rewrite <-E. destruct token as [|t token]; [done|]. destruct (drop j buffer); [done|]. cbn. apply Z.eqb_refl.
Qed.
Theorem strnistr_ok buffer token n : token <> [] -> Forall is_char buffer -> Forall is_char token -> Z.of_nat (length token) < 18446744073709551616 ->
  first_place (fun p => lower <$> take (length token) p = lower <$> token) (Z.of_nat (length token)) n buffer (lwip_strnistr buffer token n).
Proof.
  intros Hne Hb Ht Hmax. assert (Hl : (0 < length token)%nat) by (destruct token; [done|cbn; lia]). unfold lwip_strnistr. rewrite (proj2 (Z.eqb_neq _ _)) by lia. change buffer with (drop 0 buffer) at 2.
  apply scan_ok; [|rewrite take_nil; by destruct token|lia]. intros j. rewrite strnicmp_ok by (done || by apply Forall_drop). rewrite (take_ge token) by lia.
  destruct (decide _) as [E|E]; [by rewrite Z.eqb_refl|]. split; [done|]. intros. by destruct E.
Qed.

(** ** Decimal output *)

(** The digits of [n], the last first. *)
Fixpoint rdigits (fuel : nat) (n : Z) : list Z :=
  match fuel with
  | O => []
  | S fuel => if n =? 0 then [] else (48 + n mod 10) :: rdigits fuel (n / 10)
  end.
Definition digits (n : Z) : list Z := if n =? 0 then [48] else rev (rdigits 11 n).
Definition decimal (number : Z) : list Z := (if number <? 0 then [45] else []) ++ digits (Z.abs number).

(** Reading a number. *)
Definition digits_val (ds : list Z) : Z := foldl (fun v d => 10 * v + (d - 48)) 0 ds.
Definition parse (s : list Z) : Z := match s with 45 :: ds => - digits_val ds | ds => digits_val ds end.

(** The string in a buffer. *)
Fixpoint c_string (buf : list Z) : list Z := match buf with [] => [] | c :: buf => if c =? 0 then [] else c :: c_string buf end.

Lemma rdigits_val fuel : forall n, 0 <= n < 10 ^ Z.of_nat fuel -> digits_val (rev (rdigits fuel n)) = n.
Proof.
  unfold digits_val. induction fuel as [|fuel IH]; intros n Hn; [cbn in *; lia|]. cbn [rdigits]. destruct (Z.eqb_spec n 0) as [->|Hne]; [done|].
  cbn [rev]. rewrite foldl_app. cbn [foldl]. rewrite IH; [zlia|]. rewrite Nat2Z.inj_succ, Z.pow_succ_r in Hn by lia. zlia.
Qed.
Lemma rdigits_chars fuel : forall n, 0 <= n -> Forall (fun d => 48 <= d <= 57) (rdigits fuel n).
Proof. induction fuel as [|fuel IH]; intros n Hn; cbn [rdigits]; [constructor|]. destruct (n =? 0); constructor; [zlia|apply IH; zlia]. Qed.

Lemma c_string_app s rest : Forall (fun c => c <> 0) s -> c_string (s ++ 0 :: rest) = s.
Proof. induction s as [|c s IH]; intros Hs; [done|]. apply Forall_cons in Hs as [Hc Hs]. cbn. by rewrite (proj2 (Z.eqb_neq _ _)), IH. Qed.

Lemma splice_before off (a b l : list Z) : (off + length a + length b <= length l)%nat ->
  splice off a (splice (off + length a) b l) = splice off (a ++ b) l.
Proof.
  intros Hl. unfold splice. rewrite take_app_le by (rewrite length_take; lia). rewrite take_take, Nat.min_l by lia. f_equal. rewrite <-app_assoc. f_equal.
  rewrite drop_app_ge by (rewrite length_take; lia). rewrite length_take, Nat.min_l, Nat.sub_diag, length_app by lia. rewrite drop_0. do 2 f_equal. lia.
Qed.
Lemma take_splice off k (new l : list Z) : (off <= length l)%nat -> (k <= off)%nat -> take k (splice off new l) = take k l.
Proof. intros Hl Hk. unfold splice. rewrite take_app_le by (rewrite length_take; lia). by rewrite take_take, Nat.min_l. Qed.

Lemma splice_nil off (l : list Z) : splice off [] l = l.
Proof. unfold splice. by rewrite Nat.add_0_r, app_nil_l, take_drop. Qed.

Lemma itoa_step res n tmp buf : itoa_body res (n, tmp, buf) =
  if negb (n =? 0) && (res <? tmp) then buf ← wr (tmp - 1) [48 + n mod 10] buf; Ret (inl (n / 10, tmp - 1, buf)) else Ret (inr (n, tmp, buf)).
Proof. done. Qed.

(** The digits that fit are written in front of [tmp]. *)
Lemma itoa_loop res fuel : forall n tmp buf, 0 <= n < 10 ^ Z.of_nat fuel -> (res <= tmp)%nat -> (tmp <= length buf)%nat ->
  let ds := rdigits fuel n in let k := Nat.min (length ds) (tmp - res) in
  oloop (S fuel) (itoa_body (Z.of_nat res)) (n, Z.of_nat tmp, buf) =
    Ret (n / 10 ^ Z.of_nat k, Z.of_nat (tmp - k), splice (tmp - k) (rev (take k ds)) buf).
Proof.
  induction fuel as [|fuel IH]; intros n tmp buf Hn Hr Ht.
  { cbn in Hn. replace n with 0 by lia. cbn [rdigits length Nat.min take rev]. by rewrite splice_nil, Nat.sub_0_r. }
  cbn [rdigits]. rewrite oloop_S, itoa_step. destruct (Z.eqb_spec n 0) as [->|Hne].
  { cbn [length Nat.min take rev negb andb]. by rewrite splice_nil, Nat.sub_0_r. }
  destruct (Z.ltb_spec (Z.of_nat res) (Z.of_nat tmp)) as [Hlt|Hge]; cbn [negb andb].
  2: { replace tmp with res by lia. rewrite Nat.sub_diag, Nat.min_0_r, Nat.sub_0_r. cbn [take rev]. rewrite splice_nil. change (10 ^ Z.of_nat 0) with 1. by rewrite Z.div_1_r. }
  rewrite wr_ok by (cbn; lia). cbn [mbind outcome_bind]. replace (Z.of_nat tmp - 1) with (Z.of_nat (tmp - 1)) by lia. rewrite Nat2Z.id.
  assert (Hn' : 0 <= n / 10 < 10 ^ Z.of_nat fuel) by (rewrite Nat2Z.inj_succ, Z.pow_succ_r in Hn by lia; zlia).
  rewrite IH; [|done|lia|rewrite length_splice; cbn; lia]. cbv zeta. cbn [length]. set (ds := rdigits fuel (n / 10)). set (k := Nat.min (length ds) (tmp - 1 - res)).
  replace (Nat.min (S (length ds)) (tmp - res)) with (S k) by lia. cbn [take rev]. f_equal. f_equal; [f_equal|].
  - rewrite Nat2Z.inj_succ, Z.pow_succ_r by lia. rewrite Z.div_div by lia. done.
  - lia.
  - replace (tmp - 1)%nat with ((tmp - S k) + length (rev (take k ds)))%nat at 2 by (rewrite length_rev, length_take; lia).
    replace (tmp - 1 - k)%nat with (tmp - S k)%nat by lia. apply splice_before. rewrite length_rev, length_take. cbn. lia.
Qed.

Lemma rdigits_div fuel : forall n k, 0 <= n < 10 ^ Z.of_nat fuel -> (n / 10 ^ Z.of_nat k =? 0) = (length (rdigits fuel n) <=? k)%nat.
Proof.
  induction fuel as [|fuel IH]; intros n k Hn; [cbn in Hn; replace n with 0 by lia; by rewrite Z.div_0_l by lia|].
  cbn [rdigits]. destruct (Z.eqb_spec n 0) as [->|Hne]; [by rewrite Z.div_0_l by lia|]. cbn [length].
  destruct k as [|k]; [change (10 ^ Z.of_nat 0) with 1; rewrite Z.div_1_r; by apply Z.eqb_neq|]. rewrite Nat2Z.inj_succ, Z.pow_succ_r in * by lia.
  rewrite <-Z.div_div, IH by (lia || zlia). done.
Qed.

(** The memory when the digits [ds] have been written in front of the end, with the sign before [res]. *)
Lemma itoa_moved res (ds buf1 : list Z) :
  let B := length buf1 in let k := length ds in (k + res <= B - 1)%nat -> (2 <= B)%nat -> ds <> [] -> Forall (fun d => 48 <= d <= 57) ds ->
  let buf3 := splice (B - 1 - k) (rev ds) (splice (B - 1) [0] buf1) in
  exists buf', (c ← rd (Z.of_nat (B - 1 - k)) 1 buf3;
    if le_val c =? 0 then wr (Z.of_nat res) [48; 0] buf3
    else moved ← rd (Z.of_nat (B - 1 - k)) (Z.of_nat B - Z.of_nat (B - 1 - k)) buf3; wr (Z.of_nat res) moved buf3) = Ret buf' /\
    length buf' = B /\ exists rest, buf' = take res buf1 ++ rev ds ++ 0 :: rest.
Proof.
  intros B k Hfit HB Hne Hds buf3. assert (Hk : (0 < k)%nat) by (unfold k; destruct ds; [done|cbn; lia]).
  assert (E3 : buf3 = splice (B - 1 - k) (rev ds ++ [0]) buf1).
  { unfold buf3. replace (B - 1)%nat with (B - 1 - k + length (rev ds))%nat at 2 by (rewrite length_rev; fold k; lia). apply splice_before. rewrite length_rev. fold k B. cbn. lia. }
  assert (Hl0 : length (rev ds ++ [0]) = S k) by (rewrite length_app, length_rev; cbn; fold k; lia).
  assert (Hl3 : length buf3 = B) by (rewrite E3, length_splice; [done|rewrite Hl0; fold B; lia]).
  assert (Hs : slice (B - 1 - k) (S k) buf3 = rev ds ++ [0]) by (rewrite E3, <-Hl0; apply slice_splice_same; rewrite Hl0; fold B; lia).
  rewrite (rd_ok _ 1) by lia. rewrite Nat2Z.id. cbn [mbind outcome_bind].
  assert (Hd0 : exists d, slice (B - 1 - k) (Z.to_nat 1) buf3 = [d] /\ d <> 0).
  { pose proof (slice_slice (B - 1 - k) (S k) 0 1 buf3 ltac:(lia)) as E. rewrite Hs, Nat.add_0_r in E. change (Z.to_nat 1) with 1%nat. rewrite <-E.
    assert (Hrev : Forall (fun d => 48 <= d <= 57) (rev ds)) by (by apply Forall_rev). destruct (rev ds) as [|d r] eqn:Er; [apply (f_equal length) in Er; rewrite length_rev in Er; fold k in Er; cbn in Er; lia|].
    exists d. split; [done|]. apply Forall_cons in Hrev as [? _]. lia. }
  destruct Hd0 as (d & -> & Hd). cbn [le_val]. rewrite Z.mul_0_r, Z.add_0_r, (proj2 (Z.eqb_neq _ _)) by done. rewrite rd_ok by lia. cbn [mbind outcome_bind]. rewrite Nat2Z.id.
  replace (Z.to_nat (Z.of_nat B - Z.of_nat (B - 1 - k))) with (S k) by lia. rewrite Hs, wr_ok by (rewrite ?Hl0; lia). rewrite Nat2Z.id.
  eexists. split; [done|]. split; [rewrite length_splice; [done|rewrite Hl0; lia]|]. eexists. unfold splice at 1. rewrite <-!app_assoc. f_equal.
  rewrite E3. apply take_splice; fold B; lia.
Qed.

(** [lwip_itoa] writes the number in decimal and stays inside the buffer; what does not fit gives
    the empty string. *)
Theorem itoa_ok buf number :
  (2 <= length buf)%nat -> - 2147483648 < number < 2147483648 ->
  exists buf', lwip_itoa buf number = Ret buf' /\ length buf' = length buf /\
    c_string buf' = if decide (length (decimal number) < length buf)%nat then decimal number else [].
Proof.
  intros HB Hn. unfold lwip_itoa. rewrite (proj2 (Z.eqb_neq _ _)), (proj2 (Z.ltb_ge _ _)) by lia.
  set (res := if number <? 0 then 1%nat else 0%nat). set (sign := if number <? 0 then [45] else [] : list Z).
  assert (H1 : exists buf1, (if number <? 0 then wr 0 [45] buf else Ret buf) = Ret buf1 /\ length buf1 = length buf /\ take res buf1 = sign).
  { unfold res, sign. destruct (number <? 0); [|by exists buf]. rewrite wr_ok by (cbn; lia). eexists. split; [done|]. split; [apply length_splice; cbn; lia|]. done. }
  destruct H1 as (buf1 & -> & Hl1 & Hsign). cbn [mbind outcome_bind]. replace (if number <? 0 then 1 else 0) with (Z.of_nat res) by (unfold res; by destruct (number <? 0)).
  rewrite <-Hl1 in *. set (B := length buf1) in *. rewrite wr_ok by (fold B; cbn; lia). cbn [mbind outcome_bind]. replace (Z.of_nat B - 1) with (Z.of_nat (B - 1)) by lia. rewrite Nat2Z.id.
  assert (Hres : (res <= 1)%nat) by (unfold res; destruct (number <? 0); lia). assert (Hl2 : length (splice (B - 1) [0] buf1) = B) by (apply length_splice; fold B; cbn; lia).
  assert (Habs : 0 <= Z.abs number < 10 ^ Z.of_nat 11) by (change (10 ^ Z.of_nat 11) with 100000000000; lia).
  rewrite (itoa_loop res 11) by (done || lia). cbv zeta. cbn [mbind outcome_bind]. set (ds := rdigits 11 (Z.abs number)). set (k := Nat.min (length ds) (B - 1 - res)).
  rewrite (rdigits_div 11) by done. fold ds. assert (Hlen : length (decimal number) = (res + length (digits (Z.abs number)))%nat) by (unfold decimal, res; destruct (number <? 0); rewrite length_app; cbn; lia).
  destruct (decide (number = 0)) as [->|Hnz].
  { assert (Eds : ds = []) by done. rewrite Eds in *. cbn [length Nat.min] in *. change (res) with 0%nat in *. cbn [length Nat.leb negb take rev]. rewrite splice_nil, Nat.sub_0_r.
    rewrite (rd_ok _ 1) by lia. rewrite Nat2Z.id. cbn [mbind outcome_bind]. change (Z.to_nat 1) with (length [0]). rewrite slice_splice_same by (fold B; cbn; lia).
    change (le_val [0] =? 0) with true. cbv iota. rewrite wr_ok by (rewrite ?Hl2; cbn; lia). eexists. split; [done|]. split; [rewrite length_splice; [done|rewrite Hl2; cbn; lia]|].
    rewrite Hlen. change (length (digits (Z.abs 0))) with 1%nat. by rewrite decide_True by lia. }
  assert (Hdig : digits (Z.abs number) = rev ds) by (unfold digits; by rewrite (proj2 (Z.eqb_neq _ _)) by lia). rewrite Hlen, Hdig, length_rev.
  assert (Hds : Forall (fun d => 48 <= d <= 57) ds) by (apply rdigits_chars; lia).
  destruct (Nat.leb_spec (length ds) k) as [Hfit|Hbig]; cbn [negb].
  - rewrite decide_True by lia. replace k with (length ds) by lia. rewrite firstn_all.
    destruct (itoa_moved res ds buf1) as (buf' & Em & Hl' & rest & Eb); [fold B; lia|fold B; lia| |done|].
    { intros E. pose proof (rdigits_val 11 (Z.abs number) Habs) as Hv. fold ds in Hv. rewrite E in Hv. cbn in Hv. lia. }
    exists buf'. split; [exact Em|]. split; [exact Hl'|]. rewrite Eb, Hsign, app_assoc, c_string_app; [unfold decimal; by rewrite Hdig|].
    apply Forall_app. split; [unfold sign; destruct (number <? 0); repeat constructor; done|]. apply Forall_rev. eapply Forall_impl; [exact Hds|]. cbn. lia.
  - rewrite decide_False by lia. rewrite wr_ok; [|lia|rewrite length_splice; [rewrite Hl2; cbn; lia|rewrite length_rev, length_take; lia]].
    eexists. split; [done|]. split; [|done]. rewrite length_splice, length_splice; rewrite ?length_splice; rewrite ?length_rev, ?length_take; cbn; lia.
Qed.

Lemma digits_ok n : 0 <= n < 10000000000 -> (length (digits n) <= 10)%nat /\ digits_val (digits n) = n /\ Forall (fun d => 48 <= d <= 57) (digits n).
Proof.
  intros Hn. unfold digits. destruct (Z.eqb_spec n 0) as [->|Hne]; [split_and!; [cbn; lia|done|by repeat constructor]|].
  assert (Hn' : 0 <= n < 10 ^ Z.of_nat 11) by (change (10 ^ Z.of_nat 11) with 100000000000; lia). split_and!.
  - rewrite length_rev. apply Nat.leb_le. rewrite <-rdigits_div by done. apply Z.eqb_eq, Z.div_small. change (10 ^ Z.of_nat 10) with 10000000000. lia.
  - by apply rdigits_val.
  - apply Forall_rev, rdigits_chars. lia.
Qed.
Lemma parse_digits ds : Forall (fun d => 48 <= d <= 57) ds -> parse ds = digits_val ds.
Proof.
  intros Hd. destruct ds as [|d ds]; [done|]. apply Forall_cons in Hd as [Hd _]. unfold parse. destruct d as [|p|p]; try lia.
  do 6 (destruct p as [p|p|]; try done; try lia).
Qed.

(** Reading back what was written gives the number. *)
Theorem itoa_roundtrip buf number :
  (12 <= length buf)%nat -> - 2147483648 < number < 2147483648 ->
  exists buf', lwip_itoa buf number = Ret buf' /\ parse (c_string buf') = number.
Proof.
  intros HB Hn. destruct (itoa_ok buf number ltac:(lia) Hn) as (buf' & E & _ & Hs). exists buf'. split; [done|]. rewrite Hs.
  destruct (digits_ok (Z.abs number)) as (Hl & Hv & Hc); [lia|]. rewrite decide_True by (unfold decimal; rewrite length_app; destruct (number <? 0); cbn; lia).
  unfold decimal. destruct (Z.ltb_spec number 0) as [Hneg|Hpos]; cbn [app].
  - cbn [parse]. rewrite Hv. lia.
  - rewrite parse_digits, Hv by done. lia.
Qed.

Lemma itoa_roundtrip_witness : exists buf', lwip_itoa (replicate 12 7) (-2048) = Ret buf' /\ parse (c_string buf') = -2048.
Proof. apply (itoa_roundtrip (replicate 12 7) (-2048)); [cbn; lia|lia]. Defined.
Example itoa_runs : lwip_itoa (replicate 6 7) (-2048) = Ret [45; 50; 48; 52; 56; 0] /\ lwip_itoa (replicate 5 7) (-2048) = Ret [0; 48; 52; 56; 0].
Proof. by vm_compute. Qed.
