(* ===== verification/Mem.v ===== *)
(** * lwIP's heap

    The allocator of lwip/src/core/mem.c in the configuration of
    include/lwipopts.h (MEM_SIZE 32768, alignment 4, no overflow or sanity
    regions, no free from other contexts): one array of bytes cut into blocks,
    each with a [struct mem] in front, linked both ways by offsets.  The state is
    the bytes, the lowest free block and the statistics.  A pointer into the
    heap is its offset from [ram], which is aligned.

    The specification is a list of blocks, each a width and whether it is in use:
    [mem_malloc] is first fit with splitting, [mem_free] joins neighbours,
    [mem_trim] moves or creates the free block behind.  What is in the blocks in
    use is never touched. *)

From S2P Require Import Prelude.

(** ** State *)

Definition MEM_SIZE : Z := 16 * 2048.
Definition MIN_SIZE : Z := 12.
(** [struct mem]: two [mem_size_t], here [u16_t], and an [u8_t]. *)
Definition sizeof_mem : Z := 6.
Definition MIN_SIZE_ALIGNED : Z := Eval vm_compute in LWIP_MEM_ALIGN_SIZE MIN_SIZE.
Definition SIZEOF_STRUCT_MEM : Z := Eval vm_compute in LWIP_MEM_ALIGN_SIZE sizeof_mem.
Definition MEM_SIZE_ALIGNED : Z := Eval vm_compute in LWIP_MEM_ALIGN_SIZE MEM_SIZE.
(** The bytes of [ram_heap]: room for one more [struct mem] at the end. *)
Definition RAM_LEN : Z := MEM_SIZE_ALIGNED + 2 * SIZEOF_STRUCT_MEM.

Record stats_mem := mk_stats {
  st_err : Z;
  st_avail : Z;
  st_used : Z;
  st_max : Z
}.

Record mem_state := mk_mem {
  ram : gmap Z Z;
  lfree : Z;
  stats : stats_mem
}.

Definition ram_end : Z := MEM_SIZE_ALIGNED.

(** The bytes: zero where nothing was written ([ram_heap] is static). *)
Definition byte (m : gmap Z Z) (i : Z) : Z := default 0 (m !! i).
Definition half (m : gmap Z Z) (i : Z) : Z := byte m i + 256 * byte m (i + 1).
Definition put8 (i v : Z) (m : gmap Z Z) : gmap Z Z := <[i := v mod 256]> m.
Definition put16 (i v : Z) (m : gmap Z Z) : gmap Z Z :=
  <[i := v mod 256]> (<[i + 1 := v / 256 mod 256]> m).

(** Fields of the [struct mem] at an offset; outside [ram_heap] is undefined. *)
Definition in_ram (mem : Z) : bool := (0 <=? mem) && (mem + sizeof_mem <=? RAM_LEN).
Definition field {A} (f : gmap Z Z -> A) (mem : Z) : M mem_state A :=
  c_assert (in_ram mem);; s ← get; mret (f (ram s)).
Definition set_field (f : gmap Z Z -> gmap Z Z) (mem : Z) : M mem_state unit :=
  c_assert (in_ram mem);; modify (fun s => mk_mem (f (ram s)) (lfree s) (stats s)).

Definition next (mem : Z) : M mem_state Z := field (fun m => half m mem) mem.
Definition prev (mem : Z) : M mem_state Z := field (fun m => half m (mem + 2)) mem.
Definition used (mem : Z) : M mem_state Z := field (fun m => byte m (mem + 4)) mem.
Definition set_next (mem v : Z) : M mem_state unit := set_field (put16 mem v) mem.
Definition set_prev (mem v : Z) : M mem_state unit := set_field (put16 (mem + 2) v) mem.
Definition set_used (mem v : Z) : M mem_state unit := set_field (put8 (mem + 4) v) mem.
Definition set_lfree (p : Z) : M mem_state unit := modify (fun s => mk_mem (ram s) p (stats s)).
Definition set_stats (f : stats_mem -> stats_mem) : M mem_state unit :=
  modify (fun s => mk_mem (ram s) (lfree s) (f (stats s))).

Definition MEM_STATS_AVAIL (y : Z) : M mem_state unit :=
  set_stats (fun t => mk_stats (st_err t) (u16 y) (st_used t) (st_max t)).
Definition MEM_STATS_INC_err : M mem_state unit :=
  set_stats (fun t => mk_stats (u16 (st_err t + 1)) (st_avail t) (st_used t) (st_max t)).
Definition STATS_INC_USED (y : Z) : M mem_state unit :=
  set_stats (fun t => let u := u16 (st_used t + y) in
                      mk_stats (st_err t) (st_avail t) u (if st_max t <? u then u else st_max t)).
Definition MEM_STATS_DEC_USED (y : Z) : M mem_state unit :=
  set_stats (fun t => mk_stats (st_err t) (st_avail t) (u16 (st_used t - y)) (st_max t)).

Definition when {S} (b : bool) (m : M S unit) : M S unit := if b then m else mret tt.

(** ** Operations *)

Definition ptr_to_mem (ptr : Z) : Z := ptr.
Definition mem_to_ptr (mem : Z) : Z := u16 mem.

(** [ptr_to_mem(n)->prev = p] unless [n] is the end of the heap. *)
Definition link_back (n p : Z) : M mem_state unit :=
  when (negb (n =? MEM_SIZE_ALIGNED)) (set_prev (ptr_to_mem n) p).

Definition plug_forward (mem : Z) : M mem_state unit :=
  n ← next mem;
  c_assert (n <=? MEM_SIZE_ALIGNED);;
  let nmem := ptr_to_mem n in
  free ← (if mem =? nmem then mret false else u ← used nmem; mret ((u =? 0) && negb (nmem =? ram_end)));
  if (free : bool) then
    s ← get;
    when (lfree s =? nmem) (set_lfree mem);;
    nn ← next nmem;
    set_next mem nn;;
    nn ← next nmem;
    link_back nn (mem_to_ptr mem)
  else mret tt.

Definition plug_backward (mem : Z) : M mem_state unit :=
  p ← prev mem;
  let pmem := ptr_to_mem p in
  free ← (if pmem =? mem then mret false else u ← used pmem; mret (u =? 0));
  if (free : bool) then
    s ← get;
    when (lfree s =? mem) (set_lfree pmem);;
    n ← next mem;
    set_next pmem n;;
    n ← next mem;
    link_back n (mem_to_ptr pmem)
  else mret tt.

Definition plug_holes (mem : Z) : M mem_state unit :=
  c_assert (0 <=? mem);;
  c_assert (mem <? ram_end);;
  u ← used mem;
  c_assert (u =? 0);;
  plug_forward mem;;
  plug_backward mem.

Definition mem_init : M mem_state unit :=
  set_next 0 MEM_SIZE_ALIGNED;;
  set_prev 0 0;;
  set_used 0 0;;
  set_used ram_end 1;;
  set_next ram_end MEM_SIZE_ALIGNED;;
  set_prev ram_end MEM_SIZE_ALIGNED;;
  set_lfree 0;;
  MEM_STATS_AVAIL MEM_SIZE_ALIGNED.

Definition mem_link_valid (mem : Z) : M mem_state bool :=
  let rmem_idx := mem_to_ptr mem in
  n ← next mem;
  p ← prev mem;
  let nmem := ptr_to_mem n in
  let pmem := ptr_to_mem p in
  if (MEM_SIZE_ALIGNED <? n) || (MEM_SIZE_ALIGNED <? p) then mret false
  else
    back ← (if p =? rmem_idx then mret true else pn ← next pmem; mret (pn =? rmem_idx));
    if negb back then mret false
    else if nmem =? ram_end then mret true
    else np ← prev nmem; mret (np =? rmem_idx).

(** [LWIP_MEM_ILLEGAL_FREE] is an assertion: an illegal pointer, or one that is
    freed twice, ends the process. *)
Definition mem_free (rmem : option Z) : M mem_state unit :=
  match rmem with
  | None => mret tt
  | Some r =>
      c_assert (Z.land r (MEM_ALIGNMENT - 1) =? 0);;
      let mem := r - SIZEOF_STRUCT_MEM in
      c_assert (negb ((mem <? 0) || (ram_end <? r + MIN_SIZE_ALIGNED)));;
      u ← used mem;
      c_assert (negb (u =? 0));;
      ok ← mem_link_valid mem;
      c_assert ok;;
      set_used mem 0;;
      s ← get;
      when (mem <? lfree s) (set_lfree mem);;
      n ← next mem;
      MEM_STATS_DEC_USED (n - mem);;
      plug_holes mem
  end.

(** The aligned size of a request. *)
Definition request_size (size_in : Z) : Z :=
  let size := u16 (LWIP_MEM_ALIGN_SIZE size_in) in
  if size <? MIN_SIZE_ALIGNED then MIN_SIZE_ALIGNED else size.

(** The next struct is unused: it is moved. *)
Definition trim_move (mem ptr mem2 newsize size : Z) : M mem_state unit :=
  n ← next mem;
  c_assert (negb (n =? MEM_SIZE_ALIGNED));;
  nxt ← next mem2;
  let ptr2 := u16 (ptr + SIZEOF_STRUCT_MEM + newsize) in
  s ← get;
  when (lfree s =? mem2) (set_lfree (ptr_to_mem ptr2));;
  let mem2 := ptr_to_mem ptr2 in
  set_used mem2 0;;
  set_next mem2 nxt;;
  set_prev mem2 ptr;;
  set_next mem ptr2;;
  n2 ← next mem2;
  link_back n2 ptr2;;
  MEM_STATS_DEC_USED (size - newsize).

(** The next struct is used and there is room for a struct before it. *)
Definition trim_split (mem ptr newsize size : Z) : M mem_state unit :=
  let ptr2 := u16 (ptr + SIZEOF_STRUCT_MEM + newsize) in
  n ← next mem;
  c_assert (negb (n =? MEM_SIZE_ALIGNED));;
  let mem2 := ptr_to_mem ptr2 in
  s ← get;
  when (mem2 <? lfree s) (set_lfree mem2);;
  set_used mem2 0;;
  n ← next mem;
  set_next mem2 n;;
  set_prev mem2 ptr;;
  set_next mem ptr2;;
  n2 ← next mem2;
  link_back n2 ptr2;;
  MEM_STATS_DEC_USED (size - newsize).

Definition mem_trim (rmem new_size : Z) : M mem_state (option Z) :=
  let newsize := request_size new_size in
  if (MEM_SIZE_ALIGNED <? newsize) || (newsize <? new_size) then mret None
  else
    c_assert ((0 <=? rmem) && (rmem <? ram_end));;
    let mem := rmem - SIZEOF_STRUCT_MEM in
    let ptr := mem_to_ptr mem in
    n ← next mem;
    let size := u16 (u16 (n - ptr) - SIZEOF_STRUCT_MEM) in
    c_assert (newsize <=? size);;
    if newsize =? size then mret (Some rmem)
    else
      n ← next mem;
      let mem2 := ptr_to_mem n in
      u ← used mem2;
      (if u =? 0 then trim_move mem ptr mem2 newsize size
       else if newsize + SIZEOF_STRUCT_MEM + MIN_SIZE_ALIGNED <=? size then trim_split mem ptr newsize size
       else mret tt);;
      mret (Some rmem).

(** The free block is taken: split, or used as it is. *)
Definition take_block (mem ptr size : Z) : M mem_state unit :=
  n ← next mem;
  if size + SIZEOF_STRUCT_MEM + MIN_SIZE_ALIGNED <=? u64 (n - (ptr + SIZEOF_STRUCT_MEM)) then
    let ptr2 := u16 (ptr + SIZEOF_STRUCT_MEM + size) in
    c_assert (negb (ptr2 =? MEM_SIZE_ALIGNED));;
    let mem2 := ptr_to_mem ptr2 in
    set_used mem2 0;;
    n ← next mem;
    set_next mem2 n;;
    set_prev mem2 ptr;;
    set_next mem ptr2;;
    set_used mem 1;;
    n2 ← next mem2;
    link_back n2 ptr2;;
    STATS_INC_USED (size + SIZEOF_STRUCT_MEM)
  else
    set_used mem 1;;
    n ← next mem;
    STATS_INC_USED (n - mem_to_ptr mem).

(** Rounds of a walk over the blocks: each is at least this wide. *)
Definition heap_fuel : nat := Z.to_nat (MEM_SIZE_ALIGNED / (SIZEOF_STRUCT_MEM + MIN_SIZE_ALIGNED) + 2).

Definition lfree_body (cur : Z) : M mem_state (Z + Z) :=
  u ← used cur;
  if negb (u =? 0) && negb (cur =? ram_end) then n ← next cur; mret (inl (ptr_to_mem n)) else mret (inr cur).

Definition adjust_lfree (mem : Z) : M mem_state unit :=
  s ← get;
  if mem =? lfree s then
    cur ← loop heap_fuel lfree_body (lfree s);
    set_lfree cur;;
    ok ← (if cur =? ram_end then mret true else u ← used cur; mret (u =? 0));
    c_assert ok
  else mret tt.

Definition malloc_body (size ptr : Z) : M mem_state (Z + option Z) :=
  if ptr <? MEM_SIZE_ALIGNED - size then
    let mem := ptr_to_mem ptr in
    u ← used mem;
    n ← next mem;
    if (u =? 0) && (size <=? u64 (n - (ptr + SIZEOF_STRUCT_MEM))) then
      take_block mem ptr size;;
      adjust_lfree mem;;
      c_assert (mem + SIZEOF_STRUCT_MEM + size <=? ram_end);;
      c_assert ((mem + SIZEOF_STRUCT_MEM) mod MEM_ALIGNMENT =? 0);;
      c_assert (Z.land mem (MEM_ALIGNMENT - 1) =? 0);;
      mret (inr (Some (mem + SIZEOF_STRUCT_MEM)))
    else n ← next (ptr_to_mem ptr); mret (inl n)
  else MEM_STATS_INC_err;; mret (inr None).

Definition mem_malloc (size_in : Z) : M mem_state (option Z) :=
  if size_in =? 0 then mret None
  else
    let size := request_size size_in in
    if (MEM_SIZE_ALIGNED <? size) || (size <? size_in) then mret None
    else s ← get; loop heap_fuel (malloc_body size) (mem_to_ptr (lfree s)).

(** [memset(p, 0, n)] and, for the users of the memory, any write. *)
Definition fill (off : Z) (bs : list Z) (m : gmap Z Z) : gmap Z Z :=
  foldr (fun x m => <[off + Z.of_nat x.1 := x.2]> m) m (imap pair bs).
Definition write_bytes (off : Z) (bs : list Z) : M mem_state unit :=
  c_assert ((0 <=? off) && (off + Z.of_nat (length bs) <=? RAM_LEN));;
  modify (fun s => mk_mem (fill off bs (ram s)) (lfree s) (stats s)).

Definition mem_calloc (count size : Z) : M mem_state (option Z) :=
  let alloc_size := count * size in
  if negb (u16 alloc_size =? alloc_size) then mret None
  else
    p ← mem_malloc (u16 alloc_size);
    match p with
    | Some r => write_bytes r (replicate (Z.to_nat alloc_size) 0);; mret p
    | None => mret None
    end.

(** The sanity check of the source, which the configuration leaves out. *)
Definition sanity_body (st : Z * Z) : M mem_state (Z * Z + Z) :=
  let '(mem, last_used) := st in
  if (0 <? mem) && (mem <? ram_end) then
    c_assert (mem mod MEM_ALIGNMENT =? 0);;
    p ← prev mem;
    n ← next mem;
    u ← used mem;
    c_assert (p <=? MEM_SIZE_ALIGNED);;
    c_assert (n <=? MEM_SIZE_ALIGNED);;
    c_assert (if last_used =? 0 then u =? 1 else (u =? 0) || (u =? 1));;
    ok ← mem_link_valid mem;
    c_assert ok;;
    mret (inl (ptr_to_mem n, u))
  else mret (inr mem).

Definition mem_sanity : M mem_state unit :=
  u ← used 0;
  c_assert ((u =? 0) || (u =? 1));;
  p ← prev 0;
  c_assert (p =? 0);;
  n ← next 0;
  c_assert (n <=? MEM_SIZE_ALIGNED);;
  mem ← loop heap_fuel sanity_body (ptr_to_mem n, u);
  c_assert (mem =? ptr_to_mem MEM_SIZE_ALIGNED);;
  u ← used mem;
  c_assert (u =? 1);;
  p ← prev mem;
  c_assert (p =? MEM_SIZE_ALIGNED);;
  n ← next mem;
  c_assert (n =? MEM_SIZE_ALIGNED).

(** ** Writing bytes *)

Lemma byte_fill_ne off bs m i : i < off \/ off + Z.of_nat (length bs) <= i -> byte (fill off bs m) i = byte m i.
Proof.
  unfold fill. intros Hi. assert (Hx : Forall (fun x : nat * Z => i <> off + Z.of_nat x.1) (imap pair bs)).
  { apply Forall_lookup_2. intros k x Hk. rewrite list_lookup_imap in Hk.
    destruct (bs !! k) eqn:E; simplify_eq/=. apply lookup_lt_Some in E. lia. }
  induction Hx as [|x l Hx _ IH]; [done|]. cbn [foldr]. unfold byte in *. by rewrite lookup_insert_ne.
Qed.

Lemma byte_fill_in off bs m k x : bs !! k = Some x -> byte (fill off bs m) (off + Z.of_nat k) = x.
Proof.
  unfold fill. intros Hk. apply list_elem_of_split_length in Hk as (l1 & l2 & -> & ->).
  rewrite imap_app, foldr_app. cbn [imap foldr]. rewrite Nat.add_0_r.
  assert (Hx : Forall (fun y : nat * Z => y.1 <> length l1) (imap pair l1)).
  { apply Forall_lookup_2. intros i y Hi. rewrite list_lookup_imap in Hi.
    destruct (l1 !! i) eqn:E; simplify_eq/=. apply lookup_lt_Some in E. lia. }
  induction Hx as [|y l Hy _ IH]; cbn [foldr]; unfold byte in *; [by rewrite lookup_insert_eq|].
  rewrite lookup_insert_ne by lia. exact IH.
Qed.
