(* ===== verification/MemSpec.v ===== *)
(** * The heap as a list of blocks

    What the allocator of [Mem] promises: the abstract heap is a list of blocks
    (width with the header, in use or not) that fills the heap; [heap_ok] says
    that the bytes represent it.  Every operation is shown to return, to
    implement an operation on the list and to leave the contents of the blocks in
    use alone. *)

From S2P Require Import Prelude Mem.

Abbreviation blocks := (list (Z * bool)).

(** ** The abstract heap *)

Fixpoint total (bl : blocks) : Z :=
  match bl with [] => 0 | (w, _) :: l => w + total l end.

(** Where the lowest free block is; the end if there is none. *)
Fixpoint first_free (p : Z) (bl : blocks) : Z :=
  match bl with
  | [] => p
  | (w, u) :: l => if (u : bool) then first_free (p + w) l else p
  end.

(** No two free blocks in a row; [f]: the block before is free. *)
Fixpoint separate (f : bool) (bl : blocks) : Prop :=
  match bl with
  | [] => True
  | (_, u) :: l => (u = true \/ f = false) /\ separate (negb u) l
  end.
Fixpoint ends_free (f : bool) (bl : blocks) : bool :=
  match bl with [] => f | (_, u) :: l => ends_free (negb u) l end.

Fixpoint used_bytes (bl : blocks) : Z :=
  match bl with [] => 0 | (w, u) :: l => (if (u : bool) then w else 0) + used_bytes l end.

(** The offset [i] is in the data of a block in use. *)
Fixpoint in_use (p : Z) (bl : blocks) (i : Z) : Prop :=
  match bl with
  | [] => False
  | (w, u) :: l => (u = true /\ p + 8 <= i < p + w) \/ in_use (p + w) l i
  end.

Definition width_ok (b : Z * bool) : Prop := 20 <= b.1 /\ b.1 mod 4 = 0.

(** First fit: the blocks before, the width of the block and the blocks behind. *)
Fixpoint first_fit (size : Z) (bl : blocks) : option (blocks * Z * blocks) :=
  match bl with
  | [] => None
  | (w, u) :: l =>
      if negb u && (size <=? w - 8) then Some ([], w, l)
      else '(l1, wd, l2) ← first_fit size l; Some ((w, u) :: l1, wd, l2)
  end.

(** A free block of width [w] taken for [size] bytes. *)
Definition split_block (size w : Z) : blocks :=
  if size + 20 <=? w - 8 then [(size + 8, true); (w - 8 - size, false)] else [(w, true)].

(** A block of width [w] in front of [l] becomes free. *)
Definition free_before (w : Z) (l : blocks) : blocks :=
  match l with (w2, false) :: l' => (w + w2, false) :: l' | _ => (w, false) :: l end.
(** The same behind the blocks [l1]. *)
Fixpoint free_between (l1 : blocks) (w : Z) (l2 : blocks) : blocks :=
  match l1 with
  | [] => free_before w l2
  | [(w0, false)] => free_before (w0 + w) l2
  | b :: l => b :: free_between l w l2
  end.

(** A block in use of width [w] shrunk to [size] bytes. *)
Definition shrink (size w : Z) (l : blocks) : blocks :=
  match l with
  | (w2, false) :: l' => (size + 8, true) :: (w2 + (w - 8 - size), false) :: l'
  | _ => if size + 20 <=? w - 8 then (size + 8, true) :: (w - 8 - size, false) :: l else (w, true) :: l
  end.

(** ** Facts about the lists *)

Lemma total_app l1 l2 : total (l1 ++ l2) = total l1 + total l2.
Proof. induction l1 as [|[w u] l1 IH]; simpl; lia. Qed.
Lemma used_bytes_app l1 l2 : used_bytes (l1 ++ l2) = used_bytes l1 + used_bytes l2.
Proof. induction l1 as [|[w u] l1 IH]; simpl; lia. Qed.
Lemma separate_app f l1 l2 : separate f (l1 ++ l2) <-> separate f l1 /\ separate (ends_free f l1) l2.
Proof. revert f. induction l1 as [|[w u] l1 IH]; intros f; simpl; [tauto|]. rewrite IH. tauto. Qed.
Lemma ends_free_app f l1 l2 : ends_free f (l1 ++ l2) = ends_free (ends_free f l1) l2.
Proof. revert f. induction l1 as [|[w u] l1 IH]; intros f; simpl; [done|]. apply IH. Qed.
Lemma in_use_app p l1 l2 i : in_use p (l1 ++ l2) i <-> in_use p l1 i \/ in_use (p + total l1) l2 i.
Proof.
  revert p. induction l1 as [|[w u] l1 IH]; intros p; simpl; [rewrite Z.add_0_r; tauto|].
  rewrite IH, Z.add_assoc. tauto.
Qed.
Lemma in_use_at p q l i : p = q -> in_use p l i -> in_use q l i.
Proof. by intros ->. Qed.
Lemma total_pos bl : Forall width_ok bl -> 20 * Z.of_nat (length bl) <= total bl.
Proof. induction 1 as [|[w u] l [Hw _] _ IH]; simpl in *; lia. Qed.
Lemma total_mod4 bl : Forall width_ok bl -> total bl mod 4 = 0.
Proof. induction 1 as [|[w u] l [_ Hw] _ IH]; simpl in *; [done|]. rewrite Z.add_mod, Hw, IH by lia. done. Qed.
Lemma in_use_range p l i : Forall width_ok l -> in_use p l i -> p + 8 <= i < p + total l.
Proof.
  intros Hw. revert p. induction Hw as [|[w u] l [H20 _] Hl IH]; intros p; simpl in *; [done|].
  pose proof (total_pos l Hl). intros [[_ ?]|Hi]; [lia|]. apply IH in Hi. lia.
Qed.

(** All blocks in use. *)
Abbreviation full := (Forall (fun b : Z * bool => b.2 = true)).
#[export] Instance full_dec l : Decision (full l).
Proof. apply _. Defined.

Lemma first_free_full p l1 l2 : full l1 -> first_free p (l1 ++ l2) = first_free (p + total l1) l2.
Proof.
  intros Hf. revert p. induction Hf as [|[w u] l1 Hu _ IH]; intros p; simpl in *; [f_equal; lia|].
  rewrite Hu, IH. f_equal. lia.
Qed.
Lemma first_free_some p l1 l2 : Forall width_ok l1 -> ~ full l1 ->
  first_free p (l1 ++ l2) = first_free p l1 /\ p <= first_free p l1 <= p + total l1 - 20.
Proof.
  intros Hw Hf. revert p. induction Hw as [|[w u] l1 [H20 _] Hl IH]; intros p; simpl in *; [by destruct Hf|].
  pose proof (total_pos l1 Hl). destruct u; [|lia].
  destruct (IH (fun H => Hf ltac:(by constructor)) (p + w)) as [-> ?]. split; [done|lia].
Qed.
Lemma first_free_range p l : Forall width_ok l -> p <= first_free p l <= p + total l.
Proof.
  intros Hw. revert p. induction Hw as [|[w u] l [H20 _] Hl IH]; intros p; simpl in *; [lia|].
  pose proof (total_pos l Hl). destruct u; [|lia]. specialize (IH (p + w)). lia.
Qed.

Lemma first_fit_split size bl l1 w l2 :
  first_fit size bl = Some (l1, w, l2) -> bl = l1 ++ (w, false) :: l2 /\ size <= w - 8.
Proof.
  revert l1. induction bl as [|[w' u] bl IH]; intros l1; simpl; [done|].
  destruct (negb u && (size <=? w' - 8)) eqn:E.
  - intros [= <- <- <-]. apply andb_true_iff in E as [Hu%negb_true_iff ?%Z.leb_le]. by subst u.
  - destruct (first_fit size bl) as [[[la wd] lb]|]; simpl; [|done]. intros [= <- <- <-].
    destruct (IH la eq_refl) as [-> ?]. done.
Qed.
Lemma first_fit_full size l1 l2 :
  full l1 -> first_fit size (l1 ++ l2) = '(la, w, lb) ← first_fit size l2; Some (l1 ++ la, w, lb).
Proof.
  induction 1 as [|[w u] l1 Hu _ IH]; simpl in *; [by destruct (first_fit size l2) as [[[? ?] ?]|]|].
  rewrite Hu, IH. simpl. by destruct (first_fit size l2) as [[[? ?] ?]|].
Qed.
Lemma first_fit_small size l : Forall width_ok l -> total l < size + 8 -> first_fit size l = None.
Proof.
  induction 1 as [|[w u] l [H20 _] Hl IH]; simpl in *; [done|]. intros Ht. pose proof (total_pos l Hl).
  rewrite (proj2 (Z.leb_gt _ _)) by lia. rewrite andb_false_r, IH by lia. done.
Qed.

(** ** Headers in memory *)

Section bytes.
Implicit Types m : gmap Z Z.

Lemma byte_put8 i v m j : byte (put8 i v m) j = if decide (j = i) then v mod 256 else byte m j.
Proof.
  unfold byte, put8. destruct (decide (j = i)) as [->|?]; [by rewrite lookup_insert_eq|by rewrite lookup_insert_ne].
Qed.
Lemma byte_put16 i v m j :
  byte (put16 i v m) j = if decide (j = i) then v mod 256 else if decide (j = i + 1) then v / 256 mod 256 else byte m j.
Proof.
  unfold byte, put16. destruct (decide (j = i)) as [->|?]; [by rewrite lookup_insert_eq|]. rewrite lookup_insert_ne by done.
  destruct (decide (j = i + 1)) as [->|?]; [by rewrite lookup_insert_eq|by rewrite lookup_insert_ne].
Qed.
Lemma half_put16 i v m : 0 <= v < 65536 -> half (put16 i v m) i = v.
Proof.
  intros Hv. unfold half. rewrite !byte_put16, decide_True by done. rewrite decide_False, decide_True by lia. zlia.
Qed.
Lemma half_put16_ne i v m j : j + 1 < i \/ i + 1 < j -> half (put16 i v m) j = half m j.
Proof. intros. unfold half. rewrite !byte_put16, !decide_False by lia. done. Qed.
Lemma half_put8_ne i v m j : j + 1 < i \/ i < j -> half (put8 i v m) j = half m j.
Proof. intros. unfold half. rewrite !byte_put8, !decide_False by lia. done. Qed.
Lemma byte_put16_ne i v m j : j < i \/ i + 1 < j -> byte (put16 i v m) j = byte m j.
Proof. intros. rewrite byte_put16, !decide_False by lia. done. Qed.
Lemma byte_put8_ne i v m j : j <> i -> byte (put8 i v m) j = byte m j.
Proof. intros. by rewrite byte_put8, decide_False. Qed.
Lemma byte_put8_eq i v m : 0 <= v < 256 -> byte (put8 i v m) i = v.
Proof. intros. rewrite byte_put8, decide_True by done. zlia. Qed.
End bytes.

Create Rewrite HintDb heap.
#[export] Hint Rewrite half_put16_ne half_put8_ne byte_put16_ne byte_put8_ne half_put16 byte_put8_eq using lia : heap.
Ltac heap := autorewrite with heap.

(** The header at [p]: next, previous, used. *)
Definition hdr (m : gmap Z Z) (p : Z) : Z * Z * Z := (half m p, half m (p + 2), byte m (p + 4)).
Definition flag (u : bool) : Z := if u then 1 else 0.

(** The blocks [bl] from offset [p] on; [pv] is the block before. *)
Fixpoint seg (m : gmap Z Z) (pv p : Z) (bl : blocks) : Prop :=
  match bl with
  | [] => True
  | (w, u) :: l => hdr m p = (p + w, pv, flag u) /\ seg m p (p + w) l
  end.
Fixpoint last_ptr (pv p : Z) (bl : blocks) : Z :=
  match bl with [] => pv | (w, _) :: l => last_ptr p (p + w) l end.

Lemma seg_app m pv p l1 l2 : seg m pv p (l1 ++ l2) <-> seg m pv p l1 /\ seg m (last_ptr pv p l1) (p + total l1) l2.
Proof.
  revert pv p. induction l1 as [|[w u] l1 IH]; intros pv p; simpl; [rewrite Z.add_0_r; tauto|].
  rewrite IH, Z.add_assoc. tauto.
Qed.
Lemma last_ptr_app pv p l1 l2 : last_ptr pv p (l1 ++ l2) = last_ptr (last_ptr pv p l1) (p + total l1) l2.
Proof.
  revert pv p. induction l1 as [|[w u] l1 IH]; intros pv p; simpl; [f_equal; lia|]. rewrite IH. f_equal. lia.
Qed.
Lemma last_ptr_range p l : Forall width_ok l -> l <> [] -> forall pv, p <= last_ptr pv p l <= p + total l - 20.
Proof.
  intros Hw. revert p. induction Hw as [|[w u] l [H20 _] Hl IH]; intros p Hn pv; simpl in *; [done|].
  pose proof (total_pos l Hl). destruct l as [|b l]; [simpl in *; lia|]. specialize (IH (p + w) ltac:(done) p). lia.
Qed.

(** Writing elsewhere keeps the blocks. *)
Lemma seg_frame m m' pv p bl :
  Forall width_ok bl -> (forall q, p <= q <= p + total bl - 20 -> hdr m' q = hdr m q) -> seg m pv p bl -> seg m' pv p bl.
Proof.
  intros Hw. revert pv p. induction Hw as [|[w u] l [H20 _] Hl IH]; intros pv p Hq; simpl in *; [done|].
  pose proof (total_pos l Hl). intros [<- Hs]. split; [apply Hq; lia|]. apply IH; [|done]. intros q ?. apply Hq. lia.
Qed.

(** What [link_back] does. *)
Definition relink (n v : Z) (m : gmap Z Z) : gmap Z Z := if n =? MEM_SIZE_ALIGNED then m else put16 (n + 2) v m.

Lemma hdr_relink_ne n v m q : q + 8 <= n \/ n + 8 <= q -> hdr (relink n v m) q = hdr m q.
Proof. intros. unfold relink, hdr. destruct (n =? _); [done|]. heap. done. Qed.
Lemma seg_relink m pv pv' p l :
  Forall width_ok l -> 0 <= pv' < 65536 -> p + total l = MEM_SIZE_ALIGNED -> seg m pv p l -> seg (relink p pv' m) pv' p l.
Proof.
  intros Hw Hv Ht. destruct l as [|[w u] l]; [done|]. apply Forall_cons in Hw as [[H20 _] Hw]. simpl in *.
  pose proof (total_pos l Hw). intros [E Hs]. split.
  - unfold relink. rewrite (proj2 (Z.eqb_neq _ _)) by lia. unfold hdr in *. injection E as E1 E2 E3. heap. congruence.
  - apply (seg_frame m); [done| |done]. intros q ?. apply hdr_relink_ne. lia.
Qed.
Lemma byte_relink n v m i : i < n + 2 \/ n + 3 < i -> byte (relink n v m) i = byte m i.
Proof. intros. unfold relink. destruct (n =? _); [done|]. by heap. Qed.

Definition sentinel (m : gmap Z Z) : Prop := hdr m MEM_SIZE_ALIGNED = (MEM_SIZE_ALIGNED, MEM_SIZE_ALIGNED, 1).

(** The bytes represent the blocks. *)
Record heap_ok (s : mem_state) (bl : blocks) : Prop := {
  ho_seg : seg (ram s) 0 0 bl;
  ho_width : Forall width_ok bl;
  ho_total : total bl = MEM_SIZE_ALIGNED;
  ho_end : sentinel (ram s);
  ho_separate : separate false bl;
  ho_lfree : lfree s = first_free 0 bl;
  ho_used : st_used (stats s) = used_bytes bl
}.

(** The data of the blocks in use is the same. *)
Definition same_data (bl : blocks) (m m' : gmap Z Z) : Prop := forall i, in_use 0 bl i -> byte m' i = byte m i.

(** ** Rules for the accesses *)

Section rules.
Implicit Types (s : mem_state) (p v : Z).

Definition with_ram (m : gmap Z Z) s : mem_state := mk_mem m (lfree s) (stats s).

Lemma wp_assert {S} (b : bool) (s : S) Q : b = true -> Q tt s -> wp (c_assert b) s Q.
Proof. intros -> HQ. exact HQ. Qed.
Lemma wp_when {S} (b : bool) (m : M S unit) (s : S) Q :
  (b = true -> wp m s Q) -> (b = false -> Q tt s) -> wp (when b m) s Q.
Proof. destruct b; simpl; [by intros H _; apply H|by intros _ H; apply H]. Qed.

Lemma in_ram_ok p : 0 <= p <= MEM_SIZE_ALIGNED -> in_ram p = true.
Proof. unfold in_ram, RAM_LEN, sizeof_mem, SIZEOF_STRUCT_MEM. intros. apply andb_true_iff. rewrite !Z.leb_le. lia. Qed.

Lemma wp_field {A} (f : gmap Z Z -> A) p s Q : 0 <= p <= MEM_SIZE_ALIGNED -> Q (f (ram s)) s -> wp (field f p) s Q.
Proof. intros Hp HQ. unfold field. apply wp_bind, wp_assert; [by apply in_ram_ok|]. by apply wp_bind, wp_get, wp_ret. Qed.
Lemma wp_set_field f p s Q : 0 <= p <= MEM_SIZE_ALIGNED -> Q tt (with_ram (f (ram s)) s) -> wp (set_field f p) s Q.
Proof. intros Hp HQ. unfold set_field. apply wp_bind, wp_assert; [by apply in_ram_ok|]. by apply wp_modify. Qed.

(** Reading a field of a known header. *)
Lemma next_exec p n pv u s : 0 <= p <= MEM_SIZE_ALIGNED -> hdr (ram s) p = (n, pv, u) -> next p s = Ret (n, s).
Proof. intros Hp [= <- _ _]. unfold next, field. by rewrite in_ram_ok. Qed.
Lemma used_exec p n pv u s : 0 <= p <= MEM_SIZE_ALIGNED -> hdr (ram s) p = (n, pv, u) -> used p s = Ret (u, s).
Proof. intros Hp [= _ _ <-]. unfold used, field. by rewrite in_ram_ok. Qed.
Lemma wp_next p n pv u s Q : 0 <= p <= MEM_SIZE_ALIGNED -> hdr (ram s) p = (n, pv, u) -> Q n s -> wp (next p) s Q.
Proof. intros Hp [= <- _ _] HQ. by apply wp_field. Qed.
Lemma wp_prev p n pv u s Q : 0 <= p <= MEM_SIZE_ALIGNED -> hdr (ram s) p = (n, pv, u) -> Q pv s -> wp (prev p) s Q.
Proof. intros Hp [= _ <- _] HQ. by apply wp_field. Qed.
Lemma wp_used p n pv u s Q : 0 <= p <= MEM_SIZE_ALIGNED -> hdr (ram s) p = (n, pv, u) -> Q u s -> wp (used p) s Q.
Proof. intros Hp [= _ _ <-] HQ. by apply wp_field. Qed.

Lemma wp_link_back n v s Q : 0 <= n <= MEM_SIZE_ALIGNED -> Q tt (with_ram (relink n v (ram s)) s) -> wp (link_back n v) s Q.
Proof.
  intros Hn HQ. unfold link_back, relink in *. destruct (n =? MEM_SIZE_ALIGNED).
  - simpl. apply wp_ret. by destruct s.
  - simpl. apply wp_set_field; [exact Hn|exact HQ].
Qed.
Lemma wp_set_lfree p s Q : Q tt (mk_mem (ram s) p (stats s)) -> wp (set_lfree p) s Q.
Proof. done. Qed.
Lemma wp_set_stats f s Q : Q tt (mk_mem (ram s) (lfree s) (f (stats s))) -> wp (set_stats f) s Q.
Proof. done. Qed.
End rules.

(** [hd]: a header after some writes elsewhere, from what is known of it. *)
Ltac hd :=
  unfold hdr in *; cbn [ram with_ram] in *; heap;
  repeat match goal with |- (_, _) = (_, _) => f_equal end; first [done | lia | congruence].

Lemma used_bytes_range bl : Forall width_ok bl -> 0 <= used_bytes bl <= total bl.
Proof. induction 1 as [|[w u] l [H20 _] Hl IH]; simpl in *; [lia|]. destruct u; lia. Qed.

(** The representation without the conditions on free blocks. *)
Record raw_ok (m : gmap Z Z) (bl : blocks) : Prop := {
  ro_seg : seg m 0 0 bl;
  ro_width : Forall width_ok bl;
  ro_total : total bl = MEM_SIZE_ALIGNED;
  ro_end : sentinel m
}.

Lemma heap_ok_raw s bl : heap_ok s bl -> raw_ok (ram s) bl.
Proof. by intros []. Qed.

Lemma raw_block m l1 w u l2 :
  raw_ok m (l1 ++ (w, u) :: l2) ->
  let p := total l1 in
  Forall width_ok l1 /\ Forall width_ok l2 /\ 20 <= w /\ w mod 4 = 0 /\ 0 <= p /\ p mod 4 = 0 /\
  p + w + total l2 = MEM_SIZE_ALIGNED /\ 0 <= total l2 /\
  seg m 0 0 l1 /\ hdr m p = (p + w, last_ptr 0 0 l1, flag u) /\ seg m p (p + w) l2.
Proof.
  intros [Hs Hw Ht _] p. apply Forall_app in Hw as [Hw1 [[H20 H4] Hw2]%Forall_cons].
  apply seg_app in Hs as [Hs1 [E Hs2]]. rewrite total_app in Ht. simpl in *.
  pose proof (total_pos l1 Hw1). pose proof (total_pos l2 Hw2). pose proof (total_mod4 l1 Hw1).
  split_and!; try done; unfold p; lia.
Qed.

(** A block in the middle. *)
Section block.
Context (s : mem_state) (l1 : blocks) (w : Z) (u : bool) (l2 : blocks).
Context (Hok : heap_ok s (l1 ++ (w, u) :: l2)).
Let p : Z := total l1.

Lemma block_facts :
  Forall width_ok l1 /\ Forall width_ok l2 /\ 20 <= w /\ w mod 4 = 0 /\ 0 <= p /\ p mod 4 = 0 /\
  p + w + total l2 = MEM_SIZE_ALIGNED /\ 0 <= total l2 /\
  seg (ram s) 0 0 l1 /\ hdr (ram s) p = (p + w, last_ptr 0 0 l1, flag u) /\ seg (ram s) p (p + w) l2.
Proof. exact (raw_block _ _ _ _ _ (heap_ok_raw _ _ Hok)). Qed.

(** Writes between the header of this block and the [prev] of the next one, and in
    the headers in between, keep what is before and the end. *)
Lemma before_kept m' :
  (forall q, q + 8 <= p -> hdr m' q = hdr (ram s) q) -> seg m' 0 0 l1.
Proof.
  intros Hq. destruct block_facts as (Hw1 & _ & _ & _ & _ & _ & _ & _ & Hs1 & _).
  apply (seg_frame (ram s)); [done| |done]. intros q ?. apply Hq. unfold p. lia.
Qed.
End block.

(** ** Taking a block *)

Section taking.
Context (s : mem_state) (l1 : blocks) (w : Z) (l2 : blocks).
Context (Hok : heap_ok s (l1 ++ (w, false) :: l2)).
Let p : Z := total l1.
Context (size : Z) (Hmin : 12 <= size) (H4 : size mod 4 = 0) (Hfit : size <= w - 8).

(** The memory afterwards. *)
Definition taken : gmap Z Z :=
  if size + 20 <=? w - 8 then
    let p2 := p + 8 + size in
    relink (p + w) p2 (put8 (p + 4) 1 (put16 p p2 (put16 (p2 + 2) p (put16 p2 (p + w) (put8 (p2 + 4) 0 (ram s))))))
  else put8 (p + 4) 1 (ram s).

Lemma take_block_exec Q :
  (forall st, st_used st = used_bytes (l1 ++ split_block size w ++ l2) -> Q tt (mk_mem taken (lfree s) st)) ->
  wp (take_block p p size) s Q.
Proof.
  intros HQ. pose proof (block_facts s l1 w false l2 Hok) as (Hw1 & Hw2 & H20 & _ & Hp0 & _ & Ht & Hl2 & _ & E & _).
  fold p in Hp0, Ht, E. pose proof (ho_used _ _ Hok) as Hu. rewrite !used_bytes_app in *. simpl in Hu.
  pose proof (used_bytes_range l1 Hw1). pose proof (used_bytes_range l2 Hw2).
  unfold MEM_SIZE_ALIGNED in Ht. assert (Hpt : total l1 = p) by done.
  unfold take_block. apply wp_bind. eapply wp_next; [unfold MEM_SIZE_ALIGNED; lia|exact E|].
  unfold SIZEOF_STRUCT_MEM, MIN_SIZE_ALIGNED, u64. rewrite Z.mod_small by lia.
  replace (size + 8 + 12 <=? p + w - (p + 8)) with (size + 20 <=? w - 8) by (destruct (Z.leb_spec (size + 20) (w - 8)); lia).
  unfold taken, split_block in *. destruct (Z.leb_spec (size + 20) (w - 8)) as [Hs|Hs].
  - rewrite u16_small by lia. apply wp_bind, wp_assert; [unfold MEM_SIZE_ALIGNED; by rewrite (proj2 (Z.eqb_neq _ _)) by lia|].
    unfold ptr_to_mem. assert (Hm : p + 8 + size + 8 <= MEM_SIZE_ALIGNED) by (unfold MEM_SIZE_ALIGNED; lia).
    apply wp_bind, wp_set_field; [lia|]. apply wp_bind. eapply (wp_next p (p + w) (last_ptr 0 0 l1) (flag false)); [lia|hd|].
    do 4 (apply wp_bind, wp_set_field; [lia|]). apply wp_bind.
    eapply (wp_next (p + 8 + size) (p + w) p 0); [lia|hd|].
    apply wp_bind, wp_link_back; [unfold MEM_SIZE_ALIGNED; lia|]. apply wp_set_stats, HQ.
    cbn [st_used stats with_ram]. rewrite Hu. simpl. rewrite u16_small; lia.
  - apply wp_bind, wp_set_field; [unfold MEM_SIZE_ALIGNED; lia|]. apply wp_bind.
    eapply (wp_next p (p + w) (last_ptr 0 0 l1) 1); [unfold MEM_SIZE_ALIGNED; lia|hd|]. apply wp_set_stats, HQ.
    cbn [st_used stats with_ram]. rewrite Hu. simpl. unfold mem_to_ptr. rewrite (u16_small p), u16_small; lia.
Qed.

Lemma taken_seg : seg taken 0 0 (l1 ++ split_block size w ++ l2).
Proof.
  pose proof (block_facts s l1 w false l2 Hok) as (Hw1 & Hw2 & H20 & _ & Hp0 & _ & Ht & Hl2 & _ & E & Hs2).
  fold p in Hp0, Ht, E, Hs2. assert (Hm : MEM_SIZE_ALIGNED = 32768) by done. apply seg_app.
  unfold taken, split_block. destruct (Z.leb_spec (size + 20) (w - 8)) as [Hs|Hs].
  - split.
    + apply (before_kept s l1 w false l2 Hok). intros q Hq. fold p in Hq. rewrite hdr_relink_ne by lia. unfold hdr. heap. done.
    + change (0 + total l1) with p. cbn [app seg]. split_and!.
      * rewrite hdr_relink_ne by lia. hd.
      * rewrite hdr_relink_ne by lia. unfold hdr, flag. replace (p + (size + 8)) with (p + 8 + size) by lia. heap.
        do 2 f_equal. lia.
      * replace (p + (size + 8) + (w - 8 - size)) with (p + w) by lia.
        replace (p + (size + 8)) with (p + 8 + size) by lia. apply (seg_relink _ p); [done|lia|done|].
        apply (seg_frame (ram s)); [done| |done]. intros q ?. unfold hdr. heap. done.
  - split.
    + apply (before_kept s l1 w false l2 Hok). intros q Hq. fold p in Hq. unfold hdr. heap. done.
    + change (0 + total l1) with p. cbn [app seg]. split; [hd|].
      apply (seg_frame (ram s)); [done| |done]. intros q ?. unfold hdr. heap. done.
Qed.

Lemma taken_end : sentinel taken.
Proof.
  pose proof (block_facts s l1 w false l2 Hok) as (_ & _ & H20 & _ & Hp0 & _ & Ht & Hl2 & _ & _ & _).
  fold p in Hp0, Ht. unfold sentinel. rewrite <-(ho_end _ _ Hok). unfold taken. destruct (Z.leb_spec (size + 20) (w - 8)).
  - unfold relink. destruct (Z.eqb_spec (p + w) MEM_SIZE_ALIGNED) as [|Hne]; [unfold hdr; heap; done|].
    assert (p + w + 20 <= MEM_SIZE_ALIGNED); [|unfold hdr; heap; done].
    pose proof (ho_width _ _ Hok) as Hw. apply Forall_app in Hw as [_ [_ Hw]%Forall_cons].
    destruct l2 as [|[w2 u2] l]; [simpl in *; lia|]. apply Forall_cons in Hw as [[Hw2 _] Hw]. simpl in *.
    pose proof (total_pos l Hw). lia.
  - unfold hdr. heap. done.
Qed.

Lemma taken_data : same_data (l1 ++ (w, false) :: l2) (ram s) taken.
Proof.
  pose proof (block_facts s l1 w false l2 Hok) as (Hw1 & Hw2 & H20 & _ & Hp0 & _ & Ht & Hl2 & _ & _ & _).
  fold p in Hp0, Ht. assert (Hpt : total l1 = p) by done. intros i Hi. apply in_use_app in Hi. cbn [in_use] in Hi.
  assert (i < p \/ p + w + 8 <= i).
  { destruct Hi as [Hi|[[? _]|Hi]]; [|done|]; apply in_use_range in Hi; try done; lia. }
  unfold taken. destruct (Z.leb_spec (size + 20) (w - 8)); [rewrite byte_relink by lia|]; heap; done.
Qed.
End taking.

(** ** Allocation *)

Lemma length_fuel bl : Forall width_ok bl -> total bl <= MEM_SIZE_ALIGNED -> (S (length bl) < heap_fuel)%nat.
Proof. intros Hw Ht. pose proof (total_pos bl Hw). assert (Z.of_nat heap_fuel = 1640) by done. unfold MEM_SIZE_ALIGNED in *. lia. Qed.

(** The walk to the next free block. *)
Lemma wp_lfree_walk s pv p l fuel Q :
  seg (ram s) pv p l -> Forall width_ok l -> sentinel (ram s) -> 0 <= p -> p + total l = MEM_SIZE_ALIGNED ->
  (length l < fuel)%nat -> Q (first_free p l) s -> wp (loop fuel lfree_body p) s Q.
Proof.
  intros Hs Hw He. revert pv p fuel Hs. induction Hw as [|[w u] l [H20 _] Hl IH]; intros pv p fuel Hs Hp Ht Hf HQ;
    (destruct fuel as [|fuel]; [simpl in Hf; lia|]); unfold wp; rewrite loop_S; apply wp_bind; unfold lfree_body at 1; simpl in *.
  - replace p with MEM_SIZE_ALIGNED in * by lia. apply wp_bind. eapply wp_used; [unfold MEM_SIZE_ALIGNED; lia|exact He|].
    by apply wp_ret, wp_ret.
  - pose proof (total_pos l Hl). destruct Hs as [E Hs]. apply wp_bind. eapply wp_used; [lia|exact E|].
    destruct u; cbn [flag Z.eqb negb andb].
    + rewrite (proj2 (Z.eqb_neq p ram_end)) by (unfold ram_end; lia). cbn [negb]. apply wp_bind. eapply wp_next; [lia|exact E|].
      apply wp_ret. eapply (IH p (p + w)); [exact Hs|lia|lia|lia|exact HQ].
    + by apply wp_ret, wp_ret.
Qed.

(** Both ends of a walk or a split are marked the same way. *)
Lemma first_free_used p l pv s : seg (ram s) pv p l -> Forall width_ok l -> 0 <= p -> p + total l = MEM_SIZE_ALIGNED ->
  first_free p l = MEM_SIZE_ALIGNED \/
  (0 <= first_free p l < MEM_SIZE_ALIGNED /\ exists n pv', hdr (ram s) (first_free p l) = (n, pv', 0)).
Proof.
  intros Hs Hw. revert pv p Hs. induction Hw as [|[w u] l [H20 _] Hl IH]; intros pv p Hs Hp Ht; simpl in *; [left; lia|].
  destruct Hs as [E Hs]. pose proof (total_pos l Hl). destruct u; [eapply IH; [exact Hs|lia|lia]|].
  right. split; [lia|]. by do 2 eexists.
Qed.

Lemma split_block_total size w : total (split_block size w) = w.
Proof. unfold split_block. destruct (_ <=? _); simpl; lia. Qed.
Lemma split_block_width size w :
  12 <= size -> size mod 4 = 0 -> width_ok (w, false) -> Forall width_ok (split_block size w).
Proof.
  intros H12 H4 [H20 Hw]. unfold split_block, width_ok in *. simpl in *. destruct (Z.leb_spec (size + 20) (w - 8)).
  - repeat constructor; simpl; try lia; Z.div_mod_to_equations; lia.
  - by repeat constructor.
Qed.

Section allocating.
Context (s : mem_state) (size : Z) (Hmin : 12 <= size) (H4 : size mod 4 = 0).

Section found.
Context (l1 : blocks) (w : Z) (l2 : blocks) (Hok : heap_ok s (l1 ++ (w, false) :: l2)) (Hfit : size <= w - 8).
Let p : Z := total l1.
Let bl' : blocks := l1 ++ split_block size w ++ l2.

Lemma taken_separate : separate false bl'.
Proof.
  pose proof (ho_separate _ _ Hok) as Hs. unfold bl'. rewrite !separate_app in *. simpl in *.
  destruct Hs as (H1 & H2 & H3). split; [done|]. unfold split_block. destruct (_ <=? _); simpl.
  - split_and!; [by left|by right|done|done].
  - split_and!; [by left|done|]. destruct l2 as [|[w2 u2] l]; [done|]. simpl in *. split; [by right|apply H3].
Qed.

Lemma taken_ok st lf :
  lf = first_free 0 bl' -> st_used st = used_bytes bl' -> heap_ok (mk_mem (taken s l1 w size) lf st) bl'.
Proof.
  intros Hlf Hu. pose proof (ho_width _ _ Hok) as Hw. apply Forall_app in Hw as [Hw1 [Hwb Hw2]%Forall_cons].
  pose proof (ho_total _ _ Hok) as Ht. split; try done.
  - by apply taken_seg with (l2 := l2).
  - apply Forall_app; split; [done|]. apply Forall_app; split; [by apply split_block_width|done].
  - unfold bl'. rewrite !total_app in *. simpl in Ht. rewrite split_block_total. lia.
  - by apply taken_end with (l2 := l2).
  - apply taken_separate.
Qed.

Lemma wp_adjust_lfree st Q :
  st_used st = used_bytes bl' ->
  (forall s', heap_ok s' bl' -> ram s' = taken s l1 w size -> Q tt s') ->
  wp (adjust_lfree p) (mk_mem (taken s l1 w size) (lfree s) st) Q.
Proof.
  intros Hu HQ. pose proof (block_facts s l1 w false l2 Hok) as (Hw1 & Hw2 & H20 & _ & Hp0 & _ & Ht & Hl2 & _ & E & _).
  fold p in Hp0, Ht, E. pose proof (taken_ok st _ eq_refl Hu) as Hok'. pose proof (ho_lfree _ _ Hok) as Hlf.
  unfold adjust_lfree. apply wp_bind, wp_get. cbn [lfree].
  destruct (decide (full l1)) as [Hf|Hnf].
  - rewrite first_free_full in Hlf by done. cbn [first_free] in Hlf. change (0 + total l1) with p in Hlf.
    rewrite Hlf, Z.eqb_refl. destruct Hok' as [Hs' Hw' Ht' He' _ _ _]. cbn [ram] in *.
    unfold bl' in Hs', Ht'. apply seg_app in Hs' as [_ Hs']. change (0 + total l1) with p in Hs'.
    rewrite total_app in Ht'. change (total l1) with p in Ht'. apply Forall_app in Hw' as [_ Hw'].
    assert (Hff : first_free 0 bl' = first_free p (split_block size w ++ l2)) by (unfold bl'; by rewrite first_free_full).
    apply wp_bind. eapply wp_lfree_walk; [exact Hs'|done|exact He'|done|done| |].
    { pose proof (length_fuel (split_block size w ++ l2) Hw' ltac:(lia)). lia. }
    apply wp_bind, wp_set_lfree. apply wp_bind.
    eapply (wp_mono _ _ (fun b s'' => b = true /\ s'' = mk_mem (taken s l1 w size) (first_free p (split_block size w ++ l2)) st)).
    + destruct (first_free_used p _ _ (mk_mem (taken s l1 w size) (lfree s) st) Hs' Hw' Hp0 Ht') as [->|[Hr (n & pv' & Eh)]].
      * by apply wp_ret.
      * unfold ram_end. rewrite (proj2 (Z.eqb_neq _ _)) by lia. apply wp_bind.
        eapply wp_used; [lia|exact Eh|]. by apply wp_ret.
    + intros ? ? [-> ->]. apply wp_ret, HQ; [|done]. by apply taken_ok.
  - destruct (first_free_some 0 l1 ((w, false) :: l2) Hw1 Hnf) as [E1 Hr]. rewrite E1 in Hlf.
    rewrite (proj2 (Z.eqb_neq _ _)) by (unfold p; lia). apply wp_ret, HQ; [|done]. apply taken_ok; [|done].
    unfold bl'. by rewrite (proj1 (first_free_some 0 l1 _ Hw1 Hnf)).
Qed.
End found.

Context (bl : blocks) (Hok : heap_ok s bl) (Hmax : size <= MEM_SIZE_ALIGNED).

(** What the search from the block behind [l1] on returns. *)
Definition malloc_post (l1 l : blocks) (r : option Z) (s' : mem_state) : Prop :=
  match first_fit size l with
  | Some (la, w, l2) =>
      r = Some (total (l1 ++ la) + 8) /\ heap_ok s' ((l1 ++ la) ++ split_block size w ++ l2) /\
      same_data bl (ram s) (ram s')
  | None => r = None /\ ram s' = ram s /\ heap_ok s' bl
  end.

Lemma malloc_post_skip l1 b l r s' :
  negb b.2 && (size <=? b.1 - 8) = false -> malloc_post (l1 ++ [b]) l r s' -> malloc_post l1 (b :: l) r s'.
Proof.
  destruct b as [w u]. unfold malloc_post. cbn [first_fit fst snd]. intros ->.
  destruct (first_fit size l) as [[[la wd] l2]|]; simpl; [|done]. by rewrite <-app_assoc.
Qed.

Lemma wp_malloc_body l1 w u l :
  bl = l1 ++ (w, u) :: l ->
  wp (malloc_body size (total l1)) s (fun r s' =>
    match r with
    | inl q => s' = s /\ q = total l1 + w /\ negb u && (size <=? w - 8) = false
    | inr r => malloc_post l1 ((w, u) :: l) r s'
    end).
Proof.
  intros Hbl. pose proof Hok as Hok0. rewrite Hbl in Hok0. pose proof (block_facts s l1 w u l Hok0) as (Hw1 & Hw2 & H20 & Hm4 & Hp0 & Hp4 & Ht & Hl2 & _ & E & _).
  assert (Hmsa : MEM_SIZE_ALIGNED = 32768) by done.
  unfold malloc_body. destruct (Z.ltb_spec (total l1) (MEM_SIZE_ALIGNED - size)) as [Hlt|Hge].
  - unfold ptr_to_mem. apply wp_bind. eapply wp_used; [lia|exact E|]. apply wp_bind. eapply wp_next; [lia|exact E|].
    unfold SIZEOF_STRUCT_MEM, u64. rewrite Z.mod_small by lia.
    replace (total l1 + w - (total l1 + 8)) with (w - 8) by lia.
    replace (flag u =? 0) with (negb u) by (by destruct u). destruct (negb u && (size <=? w - 8)) eqn:Ef.
    + unfold malloc_post. cbn [first_fit]. rewrite Ef, app_nil_r.
      apply andb_true_iff in Ef as [Hu%negb_true_iff Hfit%Z.leb_le]. subst u.
      apply wp_bind. eapply take_block_exec; [exact Hok0|lia..|]. intros st Hst.
      apply wp_bind. eapply wp_adjust_lfree; [try exact Hok0; lia..|exact Hst|]. intros s' Hok' Hram.
      apply wp_bind, wp_assert; [unfold ram_end; apply Z.leb_le; lia|].
      apply wp_bind, wp_assert; [unfold MEM_ALIGNMENT; apply Z.eqb_eq; Z.div_mod_to_equations; lia|].
      apply wp_bind, wp_assert.
      { change (MEM_ALIGNMENT - 1) with (Z.ones 2). rewrite Z.land_ones by lia. by apply Z.eqb_eq. }
      apply wp_ret. split_and!; [done|done|]. rewrite Hram, Hbl. eapply taken_data; [exact Hok0|lia..].
    + apply wp_bind. eapply wp_next; [lia|exact E|]. by apply wp_ret.
  - apply wp_bind, wp_set_stats, wp_ret. unfold malloc_post.
    rewrite first_fit_small; [|constructor; [done|exact Hw2]|simpl; lia]. split_and!; [done|done|]. by destruct Hok.
Qed.

Lemma wp_malloc_loop fuel l1 l :
  bl = l1 ++ l -> (length l < fuel)%nat -> wp (loop fuel (malloc_body size) (total l1)) s (malloc_post l1 l).
Proof.
  revert fuel l1. induction l as [|[w u] l IH]; intros fuel l1 Hbl Hf; (destruct fuel as [|fuel]; [simpl in Hf; lia|]);
    unfold wp; rewrite loop_S; apply wp_bind.
  - rewrite app_nil_r in Hbl. subst l1. unfold malloc_body. rewrite (ho_total _ _ Hok), (proj2 (Z.ltb_ge _ _)) by lia.
    apply wp_bind, wp_set_stats, wp_ret, wp_ret. split_and!; [done|done|]. by destruct Hok.
  - eapply wp_mono; [by apply wp_malloc_body|]. intros [q|r] s'; [|by intros; apply wp_ret].
    intros (-> & -> & Hno). replace (total l1 + w) with (total (l1 ++ [(w, u)])) by (rewrite total_app; simpl; lia).
    eapply wp_mono; [apply IH; [by rewrite <-app_assoc|simpl in Hf; lia]|].
    intros r s'. by apply malloc_post_skip.
Qed.

Lemma first_free_split l : exists l1 l2, l = l1 ++ l2 /\ full l1 /\ first_free 0 l = total l1.
Proof.
  assert (forall q, exists l1 l2, l = l1 ++ l2 /\ full l1 /\ first_free q l = q + total l1) as H.
  { induction l as [|[w u] l IH]; intros q; simpl; [exists [], []; split_and!; [done|constructor|simpl; lia]|].
    destruct u; [|exists [], ((w, false) :: l); split_and!; [done|constructor|simpl; lia]].
    destruct (IH (q + w)) as (l1 & l2 & -> & Hf & ->). exists ((w, true) :: l1), l2.
    split_and!; [done|by constructor|simpl; lia]. }
  destruct (H 0) as (l1 & l2 & ? & ? & E). by exists l1, l2.
Qed.

Lemma wp_malloc_search : wp (loop heap_fuel (malloc_body size) (mem_to_ptr (lfree s))) s (malloc_post [] bl).
Proof.
  destruct (first_free_split bl) as (l1 & l2 & Hbl & Hf & Hff). pose proof (ho_width _ _ Hok) as Hw.
  pose proof (ho_total _ _ Hok) as Ht. pose proof (length_fuel bl Hw ltac:(lia)) as Hfu.
  pose proof (first_free_range 0 bl Hw). rewrite (ho_lfree _ _ Hok), Hff in *. unfold mem_to_ptr.
  rewrite u16_small by (unfold MEM_SIZE_ALIGNED in *; lia).
  eapply wp_mono; [apply (wp_malloc_loop _ l1 l2); [done|]|].
  { rewrite Hbl, length_app in Hfu. lia. }
  intros r s'. unfold malloc_post. rewrite Hbl, first_fit_full by done.
  by destruct (first_fit size l2) as [[[la w] lb]|].
Qed.
End allocating.

Lemma request_size_ok n : 0 < n < 65536 ->
  let size := request_size n in
  12 <= size /\ size mod 4 = 0 /\
  ((MEM_SIZE_ALIGNED <? size) || (size <? n) = false -> n <= size <= MEM_SIZE_ALIGNED /\ size = Z.max 12 (4 * ((n + 3) / 4))) /\
  ((MEM_SIZE_ALIGNED <? size) || (size <? n) = true -> MEM_SIZE_ALIGNED < n).
Proof.
  intros Hn size. unfold size, request_size, MIN_SIZE_ALIGNED, MEM_SIZE_ALIGNED. rewrite mem_align_eq by lia.
  rewrite orb_false_iff, orb_true_iff, !Z.ltb_ge, !Z.ltb_lt.
  destruct (Z.ltb_spec (u16 (4 * ((n + 3) / 4))) 12); zlia.
Qed.

(** ** Joining blocks *)

(** The block behind is at least a header away from the end, unless it is the end. *)
Lemma raw_next m l1 w u l2 :
  raw_ok m (l1 ++ (w, u) :: l2) -> total l1 + w = MEM_SIZE_ALIGNED \/ total l1 + w + 20 <= MEM_SIZE_ALIGNED.
Proof.
  intros Hr. pose proof (raw_block _ _ _ _ _ Hr) as (_ & Hw2 & _ & _ & _ & _ & Ht & _).
  destruct l2 as [|[w2 u2] l2]; [left; simpl in *; lia|]. right.
  apply Forall_cons in Hw2 as [[H20 _] Hw2]. pose proof (total_pos l2 Hw2). simpl in *. lia.
Qed.

Lemma sentinel_relink n v m : n = MEM_SIZE_ALIGNED \/ n + 20 <= MEM_SIZE_ALIGNED -> sentinel m -> sentinel (relink n v m).
Proof.
  intros Hn He. unfold sentinel in *. destruct Hn as [->|?]; [by unfold relink; rewrite Z.eqb_refl|].
  rewrite hdr_relink_ne by lia. done.
Qed.

(** The free block at [p] swallows what is behind it up to [n]. *)
Definition merged (p n : Z) (m : gmap Z Z) : gmap Z Z := relink n p (put16 p n m).

Lemma merged_ok m l1 w1 w2 l2 :
  raw_ok m (l1 ++ (w1, false) :: (w2, false) :: l2) ->
  let m' := merged (total l1) (total l1 + w1 + w2) m in
  raw_ok m' (l1 ++ (w1 + w2, false) :: l2) /\ same_data (l1 ++ (w1, false) :: (w2, false) :: l2) m m'.
Proof.
  intros Hr m'. pose proof (raw_block _ _ _ _ _ Hr) as (Hw1 & Hw2 & H20 & H4 & Hp0 & Hp4 & Ht & Hl2 & Hs1 & E & [E2 Hs2]).
  apply Forall_cons in Hw2 as [[H20' H4'] Hw2]. set (p := total l1) in *. simpl in Ht, H20', H4'.
  pose proof (total_pos l2 Hw2). assert (Hm : MEM_SIZE_ALIGNED = 32768) by done.
  assert (Hnx : p + w1 + w2 = MEM_SIZE_ALIGNED \/ p + w1 + w2 + 20 <= MEM_SIZE_ALIGNED).
  { pose proof (raw_next m (l1 ++ [(w1, false)]) w2 false l2) as H'. rewrite <-app_assoc, total_app in H'. simpl in H'.
    fold p in H'. replace (p + (w1 + 0) + w2) with (p + w1 + w2) in H' by lia. by apply H'. }
  split.
  - split.
    + apply seg_app. split.
      * apply (seg_frame m); [done| |done]. intros q Hq. fold p in Hq. unfold m', merged.
        rewrite hdr_relink_ne by lia. unfold hdr. heap. done.
      * change (0 + total l1) with p. cbn [seg]. rewrite !Z.add_assoc. split.
        -- unfold m', merged. rewrite hdr_relink_ne by lia. hd.
        -- apply (seg_relink _ (p + w1)); [done|lia|lia|]. apply (seg_frame m); [done| |done].
           intros q ?. unfold hdr. heap. done.
    + apply Forall_app; split; [done|]. constructor; [|done]. unfold width_ok. simpl. split; [lia|].
      Z.div_mod_to_equations. lia.
    + rewrite total_app. simpl. fold p. lia.
    + apply sentinel_relink; [done|]. unfold sentinel. rewrite <-(ro_end _ _ Hr). unfold hdr. heap. done.
  - intros i Hi. apply in_use_app in Hi. cbn [in_use] in Hi. change (0 + total l1) with p in Hi.
    assert (i < p \/ p + w1 + w2 + 8 <= i).
    { destruct Hi as [Hi|[[? _]|[[? _]|Hi]]]; [|done|done|]; apply in_use_range in Hi; try done; [|lia].
      left. unfold p. lia. }
    unfold m', merged. rewrite byte_relink by lia. heap. done.
Qed.

(** Marking a block free. *)
Lemma freed_ok m l1 w l2 :
  raw_ok m (l1 ++ (w, true) :: l2) ->
  let m' := put8 (total l1 + 4) 0 m in
  raw_ok m' (l1 ++ (w, false) :: l2) /\ same_data (l1 ++ (w, false) :: l2) m m'.
Proof.
  intros Hr m'. pose proof (raw_block _ _ _ _ _ Hr) as (Hw1 & Hw2 & H20 & H4 & Hp0 & Hp4 & Ht & Hl2 & Hs1 & E & Hs2).
  set (p := total l1) in *. split.
  - split.
    + apply seg_app. split.
      * apply (seg_frame m); [done| |done]. intros q Hq. fold p in Hq. unfold m', hdr. heap. done.
      * change (0 + total l1) with p. cbn [seg]. split; [unfold m'; hd|].
        apply (seg_frame m); [done| |done]. intros q ?. unfold m', hdr. heap. done.
    + by apply Forall_app; split; [|constructor].
    + rewrite total_app. simpl. fold p. lia.
    + unfold sentinel. rewrite <-(ro_end _ _ Hr). unfold m', hdr. heap. done.
  - intros i Hi. apply in_use_app in Hi. cbn [in_use] in Hi. change (0 + total l1) with p in Hi.
    assert (i < p \/ p + w + 8 <= i).
    { destruct Hi as [Hi|[[? _]|Hi]]; [|done|]; apply in_use_range in Hi; try done; [|lia]. left. unfold p. lia. }
    unfold m'. heap. done.
Qed.

(** ** Freeing *)

Lemma free_between_free l1 w0 w l2 : free_between (l1 ++ [(w0, false)]) w l2 = l1 ++ free_before (w0 + w) l2.
Proof.
  induction l1 as [|[w' u'] l1 IH]; [done|]. cbn [app]. rewrite <-IH. cbn [free_between].
  destruct (l1 ++ [(w0, false)]) eqn:E; [by destruct l1|]. by destruct u'.
Qed.
Lemma free_between_used l1 w0 w l2 :
  free_between (l1 ++ [(w0, true)]) w l2 = (l1 ++ [(w0, true)]) ++ free_before w l2.
Proof.
  induction l1 as [|[w' u'] l1 IH]; [done|]. cbn [app]. rewrite <-IH. cbn [free_between].
  destruct (l1 ++ [(w0, true)]) eqn:E; [by destruct l1|]. by destruct u'.
Qed.

Section plugging.
Context (m : gmap Z Z) (lf : Z) (st : stats_mem) (l1 : blocks) (w : Z).
Let p : Z := total l1.
Context (Hlf : lf <= p).

Lemma wp_plug_forward l2 Q :
  raw_ok m (l1 ++ (w, false) :: l2) ->
  (forall m' w' l2', free_before w l2 = (w', false) :: l2' -> raw_ok m' (l1 ++ (w', false) :: l2') ->
     same_data (l1 ++ (w, false) :: l2) m m' -> Q tt (mk_mem m' lf st)) ->
  wp (plug_forward p) (mk_mem m lf st) Q.
Proof.
  intros Hr HQ. pose proof (raw_block _ _ _ _ _ Hr) as (Hw1 & Hw2 & H20 & H4 & Hp0 & Hp4 & Ht & Hl2 & Hs1 & E & Hs2).
  fold p in Hp0, Ht, E, Hs2. unfold plug_forward. apply wp_bind. eapply wp_next; [lia|exact E|].
  apply wp_bind, wp_assert; [apply Z.leb_le; lia|]. unfold ptr_to_mem. rewrite (proj2 (Z.eqb_neq p (p + w))) by lia.
  destruct l2 as [|[w2 [|]] l2].
  - apply wp_bind, wp_bind. simpl in Ht. replace (p + w) with MEM_SIZE_ALIGNED in * by lia.
    eapply wp_used; [unfold MEM_SIZE_ALIGNED; lia|exact (ro_end _ _ Hr)|]. apply wp_ret, wp_ret. by eapply HQ.
  - apply wp_bind, wp_bind. destruct Hs2 as [E2 _]. pose proof (raw_next _ _ _ _ _ Hr). fold p in H. simpl in Ht.
    eapply wp_used; [lia|exact E2|]. apply wp_ret, wp_ret. by eapply HQ.
  - apply wp_bind, wp_bind. destruct Hs2 as [E2 _]. simpl in Ht.
    apply Forall_cons in Hw2 as [[H20' _] Hw2]. simpl in H20'. pose proof (total_pos l2 Hw2).
    eapply wp_used; [lia|exact E2|]. unfold ram_end. rewrite (proj2 (Z.eqb_neq (p + w) _)) by lia.
    cbn [flag Z.eqb negb andb]. apply wp_ret. apply wp_bind, wp_get. cbn [lfree]. rewrite (proj2 (Z.eqb_neq lf _)) by lia.
    apply wp_bind; cbn [when]; apply wp_ret. apply wp_bind. eapply wp_next; [lia|exact E2|].
    apply wp_bind, wp_set_field; [lia|]. apply wp_bind. eapply (wp_next _ (p + w + w2) p (flag false)); [lia|hd|].
    unfold mem_to_ptr. rewrite u16_small by (unfold MEM_SIZE_ALIGNED in *; lia). apply wp_link_back; [lia|].
    destruct (merged_ok m l1 w w2 l2 Hr) as [Hr' Hd]. by eapply HQ.
Qed.
End plugging.

(** The block at [total l1 + w0] is joined with the one before it. *)
Lemma wp_plug_backward m lf st l1 w0 u0 w l2 Q :
  raw_ok m ((l1 ++ [(w0, u0)]) ++ (w, false) :: l2) -> lf < total (l1 ++ [(w0, u0)]) \/ u0 = true ->
  (forall m', raw_ok m' (if u0 then (l1 ++ [(w0, u0)]) ++ (w, false) :: l2 else l1 ++ (w0 + w, false) :: l2) ->
     same_data ((l1 ++ [(w0, u0)]) ++ (w, false) :: l2) m m' -> Q tt (mk_mem m' lf st)) ->
  wp (plug_backward (total (l1 ++ [(w0, u0)]))) (mk_mem m lf st) Q.
Proof.
  intros Hr Hlf HQ. pose proof (raw_block _ _ _ _ _ Hr) as (Hw1 & Hw2 & H20 & _ & Hp0 & _ & Ht & Hl2 & Hs1 & E & _).
  apply seg_app in Hs1 as [_ [E0 _]]. change (0 + total l1) with (total l1) in E0.
  apply Forall_app in Hw1 as [Hw1 [[H20' _] _]%Forall_cons]. simpl in H20'. pose proof (total_pos l1 Hw1).
  assert (Hpv : last_ptr 0 0 (l1 ++ [(w0, u0)]) = total l1) by (rewrite last_ptr_app; done). rewrite Hpv in E.
  assert (Hp : total (l1 ++ [(w0, u0)]) = total l1 + w0) by (rewrite total_app; simpl; lia). rewrite Hp in *.
  unfold plug_backward. apply wp_bind. eapply wp_prev; [lia|exact E|]. unfold ptr_to_mem.
  rewrite (proj2 (Z.eqb_neq (total l1) _)) by lia. apply wp_bind, wp_bind. eapply wp_used; [lia|exact E0|]. apply wp_ret.
  destruct u0; cbn [flag Z.eqb]; [by apply wp_ret, HQ|]. destruct Hlf as [Hlf|?]; [|done].
  apply wp_bind, wp_get. cbn [lfree]. rewrite (proj2 (Z.eqb_neq lf _)) by lia. apply wp_bind; cbn [when]; apply wp_ret.
  apply wp_bind. eapply wp_next; [lia|exact E|]. apply wp_bind, wp_set_field; [lia|].
  apply wp_bind. eapply (wp_next _ (total l1 + w0 + w) (total l1) (flag false)); [lia|hd|].
  unfold mem_to_ptr. rewrite u16_small by (unfold MEM_SIZE_ALIGNED in *; lia). apply wp_link_back; [lia|].
  rewrite <-app_assoc in *. cbn [app] in *. destruct (merged_ok m l1 w0 w l2 Hr) as [Hr' Hd]. by eapply HQ.
Qed.

Lemma wp_link_valid s l1 w u l2 Q :
  raw_ok (ram s) (l1 ++ (w, u) :: l2) -> Q true s -> wp (mem_link_valid (total l1)) s Q.
Proof.
  intros Hr HQ. pose proof (raw_block _ _ _ _ _ Hr) as (Hw1 & Hw2 & H20 & _ & Hp0 & _ & Ht & Hl2 & Hs1 & E & Hs2).
  pose proof (raw_next _ _ _ _ _ Hr) as Hn. unfold mem_link_valid, mem_to_ptr.
  rewrite u16_small by (unfold MEM_SIZE_ALIGNED in *; lia).
  apply wp_bind. eapply wp_next; [lia|exact E|]. apply wp_bind. eapply wp_prev; [lia|exact E|]. unfold ptr_to_mem.
  assert (Hpv : 0 <= last_ptr 0 0 l1 <= total l1).
  { destruct l1 as [|b l]; [simpl; lia|]. pose proof (last_ptr_range 0 (b :: l) Hw1 ltac:(done) 0). lia. }
  rewrite (proj2 (Z.ltb_ge _ (total l1 + w))), (proj2 (Z.ltb_ge _ (last_ptr 0 0 l1))) by lia. cbn [orb].
  apply wp_bind. eapply (wp_mono _ _ (fun b s' => b = true /\ s' = s)).
  - destruct l1 as [|[w0 u0] l1 _] using rev_ind; [by apply wp_ret|].
    rewrite last_ptr_app, total_app in *. apply seg_app in Hs1 as [_ [E0 _]].
    apply Forall_app in Hw1 as [Hw1 [[H20' _] _]%Forall_cons]. simpl in *. pose proof (total_pos l1 Hw1).
    rewrite (proj2 (Z.eqb_neq _ _)) by lia. apply wp_bind. eapply wp_next; [lia|exact E0|]. apply wp_ret.
    split; [apply Z.eqb_eq; lia|done].
  - intros ? ? [-> ->]. cbn [negb]. unfold ram_end. destruct (Z.eqb_spec (total l1 + w) MEM_SIZE_ALIGNED) as [|Hne]; [by apply wp_ret|].
    destruct l2 as [|[w2 u2] l2]; [simpl in *; lia|]. destruct Hs2 as [E2 _].
    apply wp_bind. eapply wp_prev; [lia|exact E2|]. apply wp_ret. by rewrite Z.eqb_refl.
Qed.

Lemma separate_free f l1 w l2 :
  separate f (l1 ++ (w, true) :: l2) -> (l1 = [] -> f = false) -> separate f (free_between l1 w l2).
Proof.
  assert (Hb : forall v, separate false l2 -> separate false (free_before v l2)).
  { intros v. destruct l2 as [|[w2 [|]] l2]; simpl; naive_solver. }
  destruct l1 as [|[w0 u0] l1 _] using rev_ind.
  - simpl. intros (_ & Hs) Hf. rewrite (Hf eq_refl) in *. by apply Hb.
  - intros Hs _. rewrite <-app_assoc in Hs. cbn [app] in Hs. rewrite separate_app in Hs. simpl in Hs.
    destruct Hs as (H1 & H2 & _ & H3). destruct u0.
    + rewrite free_between_used, <-app_assoc. cbn [app]. apply separate_app. split; [done|].
      simpl. split; [done|]. by apply Hb.
    + rewrite free_between_free. apply separate_app. split; [done|]. destruct H2 as [?| ->]; [done|]. by apply Hb.
Qed.

Lemma used_bytes_free l1 w l2 : used_bytes (free_between l1 w l2) = used_bytes l1 + used_bytes l2.
Proof.
  assert (Hb : forall v, used_bytes (free_before v l2) = used_bytes l2) by (intros v; by destruct l2 as [|[w2 [|]] l2]).
  destruct l1 as [|[w0 u0] l1 _] using rev_ind; [simpl; by rewrite Hb|destruct u0];
    rewrite ?free_between_used, ?free_between_free, !used_bytes_app, Hb; simpl; lia.
Qed.

Lemma first_free_before p w l : first_free p (free_before w l) = p.
Proof. by destruct l as [|[w2 [|]] l]. Qed.

(** Freeing leaves the lowest free block where the code looks for it. *)
Lemma first_free_freed l1 w l2 :
  Forall width_ok l1 -> 0 <= w -> Forall width_ok l2 ->
  let lf := first_free 0 (l1 ++ (w, true) :: l2) in
  (if total l1 <? lf then total l1 else lf) = first_free 0 (l1 ++ (w, false) :: l2) /\
  first_free 0 (l1 ++ (w, false) :: l2) = first_free 0 (free_between l1 w l2).
Proof.
  intros Hw1 Hw Hw2 lf. split.
  - unfold lf. destruct (decide (full l1)) as [Hf|Hnf].
    + rewrite !first_free_full by done. cbn [first_free]. change (0 + total l1) with (total l1).
      pose proof (first_free_range (total l1 + w) l2 Hw2).
      destruct (Z.ltb_spec (total l1) (first_free (total l1 + w) l2)); lia.
    + destruct (first_free_some 0 l1 ((w, true) :: l2) Hw1 Hnf) as [-> Hr].
      rewrite (proj1 (first_free_some 0 l1 ((w, false) :: l2) Hw1 Hnf)).
      by rewrite (proj2 (Z.ltb_ge _ _)) by lia.
  - destruct l1 as [|[w0 u0] l1 _] using rev_ind; [simpl; by rewrite first_free_before|].
    apply Forall_app in Hw1 as [Hw1 Hw0]. rewrite <-app_assoc. cbn [app].
    assert (Hx : forall r1 r2, first_free (total l1) r1 = first_free (total l1) r2 -> first_free 0 (l1 ++ r1) = first_free 0 (l1 ++ r2)).
    { intros r1 r2 Hr. destruct (decide (full l1)) as [Hf|Hnf]; [by rewrite !first_free_full|].
      by rewrite !(proj1 (first_free_some 0 l1 _ Hw1 Hnf)). }
    destruct u0; rewrite ?free_between_used, ?free_between_free, <-?app_assoc; cbn [app]; apply Hx; simpl;
      by rewrite first_free_before.
Qed.

(** A free block in front has a lower address. *)
Lemma first_free_bound l1 w l2 :
  Forall width_ok l1 ->
  let lf := first_free 0 (l1 ++ (w, false) :: l2) in
  lf <= total l1 /\ (forall la b, l1 = la ++ [b] -> lf < total l1 \/ b.2 = true).
Proof.
  intros Hw1 lf. unfold lf. destruct (decide (full l1)) as [Hf|Hnf].
  - rewrite first_free_full by done. cbn [first_free]. split; [lia|]. intros la b ->. right.
    by apply Forall_app in Hf as [_ [Hb _]%Forall_cons].
  - destruct (first_free_some 0 l1 ((w, false) :: l2) Hw1 Hnf) as [-> ?]. split; [lia|]. intros la b _. left. lia.
Qed.

(** Joining the block at [total l1] on both sides. *)
Lemma wp_plug_holes m lf st l1 w l2 Q :
  raw_ok m (l1 ++ (w, false) :: l2) -> lf = first_free 0 (l1 ++ (w, false) :: l2) ->
  (forall m', raw_ok m' (free_between l1 w l2) -> same_data (l1 ++ (w, false) :: l2) m m' -> Q tt (mk_mem m' lf st)) ->
  wp (plug_holes (total l1)) (mk_mem m lf st) Q.
Proof.
  intros Hr Hlf HQ. pose proof (raw_block _ _ _ _ _ Hr) as (Hw1 & _ & H20 & _ & Hp0 & _ & Ht & Hl2 & _ & E & _).
  destruct (first_free_bound l1 w l2 Hw1) as [Hle Hlt]. cbv zeta in *. rewrite <-Hlf in *.
  unfold plug_holes, ram_end. apply wp_bind, wp_assert; [by apply Z.leb_le|].
  apply wp_bind, wp_assert; [apply Z.ltb_lt; lia|].
  apply wp_bind. eapply wp_used; [lia|exact E|]. apply wp_bind, wp_assert; [done|].
  apply wp_bind. eapply wp_plug_forward; [exact Hle|exact Hr|]. intros m2 w' l2' Efb Hr2 Hd2.
  destruct l1 as [|[w0 u0] l1 _] using rev_ind.
  - unfold plug_backward. pose proof (raw_block _ _ _ _ _ Hr2) as (_ & _ & _ & _ & _ & _ & _ & _ & _ & E3 & _). simpl in E3.
    apply wp_bind. eapply wp_prev; [simpl; unfold MEM_SIZE_ALIGNED; lia|exact E3|].
    apply wp_bind, wp_ret, wp_ret. apply HQ; [|done]. simpl. by rewrite Efb.
  - eapply wp_plug_backward; [exact Hr2|by apply (Hlt l1 (w0, u0))|]. intros m3 Hr3 Hd3. apply HQ.
    + destruct u0; [by rewrite free_between_used, Efb|]. rewrite free_between_free.
      replace (free_before (w0 + w) l2) with ((w0 + w', false) :: l2'); [done|].
      clear -Efb. by destruct l2 as [|[w2 [|]] l2]; simpl in *; simplify_eq; rewrite ?Z.add_assoc.
    + intros i Hi. rewrite Hd3; [by apply Hd2|]. clear -Hi Efb.
      rewrite !in_use_app in *. destruct Hi as [|Hi]; [by left|]. right.
      by destruct l2 as [|[w2 [|]] l2]; simpl in *; simplify_eq; rewrite ?Z.add_assoc in *; naive_solver.
Qed.

Lemma wp_mem_free s l1 w l2 Q :
  heap_ok s (l1 ++ (w, true) :: l2) ->
  (forall s', heap_ok s' (free_between l1 w l2) -> same_data (l1 ++ (w, false) :: l2) (ram s) (ram s') -> Q tt s') ->
  wp (mem_free (Some (total l1 + 8))) s Q.
Proof.
  intros Hok HQ. pose proof (heap_ok_raw _ _ Hok) as Hr.
  pose proof (raw_block _ _ _ _ _ Hr) as (Hw1 & Hw2 & H20 & _ & Hp0 & Hp4 & Ht & Hl2 & _ & E & _).
  pose proof (ho_lfree _ _ Hok) as Hlf. pose proof (ho_used _ _ Hok) as Hu. rewrite used_bytes_app in Hu. simpl in Hu.
  pose proof (used_bytes_range l1 Hw1). pose proof (used_bytes_range l2 Hw2).
  destruct (first_free_freed l1 w l2 Hw1 ltac:(lia) Hw2) as [Hff1 Hff2]. cbv zeta in Hff1. rewrite <-Hlf in Hff1.
  unfold mem_free, SIZEOF_STRUCT_MEM, MIN_SIZE_ALIGNED, ram_end.
  apply wp_bind, wp_assert.
  { change (MEM_ALIGNMENT - 1) with (Z.ones 2). rewrite Z.land_ones by lia. apply Z.eqb_eq. Z.div_mod_to_equations. lia. }
  replace (total l1 + 8 - 8) with (total l1) by lia.
  apply wp_bind, wp_assert; [rewrite (proj2 (Z.ltb_ge _ 0)), (proj2 (Z.ltb_ge _ _)) by lia; done|].
  apply wp_bind. eapply wp_used; [lia|exact E|]. apply wp_bind, wp_assert; [done|].
  apply wp_bind. eapply wp_link_valid; [exact Hr|]. apply wp_bind, wp_assert; [done|].
  apply wp_bind, wp_set_field; [lia|]. destruct (freed_ok _ _ _ _ Hr) as [Hr1 Hd1].
  set (m1 := put8 (total l1 + 4) 0 (ram s)) in *. apply wp_bind, wp_get. cbn [lfree with_ram].
  set (lf := first_free 0 (l1 ++ (w, false) :: l2)) in *. set (st := stats s).
  apply wp_bind, (wp_mono _ _ (fun _ s' => s' = mk_mem m1 lf st)).
  { rewrite <-Hff1. apply wp_when; intros Hc; rewrite Hc; [by apply wp_set_lfree|done]. }
  intros ? ? ->. apply wp_bind. eapply (wp_next _ (total l1 + w) (last_ptr 0 0 l1) 0); [lia|unfold m1; hd|].
  apply wp_bind, wp_set_stats. cbn [stats]. eapply wp_plug_holes; [exact Hr1|done|].
  intros m2 [? ? ? ?] Hd2. apply HQ; [split; try done|].
  - apply separate_free; [|done]. apply (ho_separate _ _ Hok).
  - rewrite used_bytes_free. unfold st. cbn [st_used stats]. rewrite Hu, u16_small; unfold MEM_SIZE_ALIGNED in *; lia.
  - intros i Hi. cbn [ram]. rewrite Hd2 by done. by apply Hd1.
Qed.

(** ** Shrinking *)

(** A free block is put at [p2], behind the block at [p] and in front of [n]. *)
Definition carved (p p2 n : Z) (m : gmap Z Z) : gmap Z Z :=
  relink n p2 (put16 p p2 (put16 (p2 + 2) p (put16 p2 n (put8 (p2 + 4) 0 m)))).

Lemma carved_ok m l1 w q p2 n l :
  let p := total l1 in
  raw_ok m (l1 ++ (w, true) :: q) -> (exists pv, seg m pv n l) -> Forall width_ok l ->
  p + 20 <= p2 -> p2 + 20 <= n -> p2 mod 4 = 0 -> n mod 4 = 0 -> n + total l = MEM_SIZE_ALIGNED ->
  raw_ok (carved p p2 n m) (l1 ++ (p2 - p, true) :: (n - p2, false) :: l) /\
  same_data (l1 ++ (p2 - p, true) :: (n - p2, false) :: l) m (carved p p2 n m).
Proof.
  intros p Hr [pvn Hsn] Hw Hp2 Hn Hp24 Hn4 Ht.
  pose proof (raw_block _ _ _ _ _ Hr) as (Hw1 & _ & _ & _ & Hp0 & Hp4 & _ & _ & Hs1 & E & _). fold p in Hp0, Hp4, E.
  pose proof (total_pos l Hw). assert (Hm : MEM_SIZE_ALIGNED = 32768) by done. split.
  - split.
    + apply seg_app. change (0 + total l1) with p. cbn [seg]. replace (p + (p2 - p)) with p2 by lia.
      replace (p2 + (n - p2)) with n by lia. split_and!.
      * apply (seg_frame m); [done| |done]. intros x Hx. change (0 + total l1) with p in Hx. unfold carved.
        rewrite hdr_relink_ne by lia. unfold hdr. heap. done.
      * unfold carved. rewrite hdr_relink_ne by lia. hd.
      * unfold carved. rewrite hdr_relink_ne by lia. unfold hdr, flag. heap. done.
      * apply (seg_relink _ pvn); [done|lia|done|]. apply (seg_frame m); [done| |done]. intros x ?. unfold hdr. heap. done.
    + apply Forall_app; split; [done|]. repeat constructor; simpl; try done; try lia; Z.div_mod_to_equations; lia.
    + rewrite total_app. simpl. fold p. lia.
    + apply sentinel_relink.
      * destruct l as [|[w' u'] l']; [left; simpl in *; lia|]. right. apply Forall_cons in Hw as [[? _] Hw].
        pose proof (total_pos l' Hw). simpl in *. lia.
      * unfold sentinel. rewrite <-(ro_end _ _ Hr). unfold hdr. heap. done.
  - intros i Hi. apply in_use_app in Hi. cbn [in_use] in Hi. change (0 + total l1) with p in Hi.
    assert (i < p \/ p + 8 <= i < p2 \/ n + 8 <= i).
    { destruct Hi as [Hi|[[_ Hi]|[[? _]|Hi]]]; [|lia|done|]; [apply in_use_range in Hi; [|done]; left; unfold p; lia|].
      apply in_use_range in Hi; [|done]. lia. }
    unfold carved. rewrite byte_relink by lia. heap. done.
Qed.

Section trimming.
Context (s : mem_state) (l1 : blocks) (w : Z) (l2 : blocks) (Hok : heap_ok s (l1 ++ (w, true) :: l2)).
Let p : Z := total l1.
Context (size : Z) (Hmin : 12 <= size) (H4 : size mod 4 = 0) (Hlt : size < w - 8).

(** The state after a free block was carved out in front of [l], which starts at [n]. *)
Lemma trimmed_ok m lf n l st :
  raw_ok m (l1 ++ (size + 8, true) :: (n - (p + 8 + size), false) :: l) ->
  shrink size w l2 = (size + 8, true) :: (n - (p + 8 + size), false) :: l ->
  (l <> [] -> separate true l) ->
  lf = first_free 0 (l1 ++ (size + 8, true) :: (n - (p + 8 + size), false) :: l) ->
  used_bytes l = used_bytes l2 -> st_used st = st_used (stats s) - (w - 8 - size) ->
  heap_ok (mk_mem m lf st) (l1 ++ shrink size w l2).
Proof.
  intros [? ? ? ?] -> Hsep Hlf Hul Hu. split; try done.
  - pose proof (ho_separate _ _ Hok) as Hs. rewrite separate_app in Hs. apply separate_app. simpl in *.
    destruct Hs as (? & ? & ?). split_and!; [done|by left|by right|]. destruct l; [done|by apply Hsep].
  - cbn [stats]. rewrite Hu, (ho_used _ _ Hok), !used_bytes_app. simpl. lia.
Qed.

(** The lowest free block afterwards. *)
Lemma first_free_trimmed n l x :
  (full l1 -> x = p + 8 + size) -> (~ full l1 -> x = lfree s) ->
  x = first_free 0 (l1 ++ (size + 8, true) :: (n, false) :: l).
Proof.
  intros Hf Hnf. pose proof (heap_ok_raw _ _ Hok) as [_ Hw _ _]. apply Forall_app in Hw as [Hw1 _].
  destruct (decide (full l1)) as [H|H].
  - rewrite Hf, first_free_full by done. simpl. unfold p. lia.
  - rewrite Hnf, (ho_lfree _ _ Hok) by done. by rewrite !(proj1 (first_free_some 0 l1 _ Hw1 H)).
Qed.

Lemma lfree_cases :
  (full l1 -> lfree s = first_free (p + w) l2) /\ (~ full l1 -> lfree s < p).
Proof.
  pose proof (heap_ok_raw _ _ Hok) as [_ Hw _ _]. apply Forall_app in Hw as [Hw1 _]. rewrite (ho_lfree _ _ Hok). split; intros H.
  - by rewrite first_free_full.
  - destruct (first_free_some 0 l1 ((w, true) :: l2) Hw1 H) as [-> ?]. unfold p. lia.
Qed.

Lemma wp_trim_move w2 l Q :
  l2 = (w2, false) :: l ->
  (forall s', heap_ok s' (l1 ++ shrink size w l2) -> same_data (l1 ++ shrink size w l2) (ram s) (ram s') -> Q tt s') ->
  wp (trim_move p p (p + w) size (w - 8)) s Q.
Proof.
  intros El HQ. pose proof (heap_ok_raw _ _ Hok) as Hr. destruct lfree_cases as [Hlf1 Hlf2].
  pose proof (raw_block _ _ _ _ _ Hr) as (Hw1 & Hw2 & H20 & Hw4 & Hp0 & Hp4 & Ht & _ & _ & E & Hs2). fold p in Hp0, Hp4, Ht, E, Hs2.
  rewrite El in Hs2, Hw2, Ht, Hlf1. destruct Hs2 as [E2 Hs2]. apply Forall_cons in Hw2 as [[H20' H4'] Hw2]. simpl in *.
  pose proof (total_pos l Hw2). assert (Hm : MEM_SIZE_ALIGNED = 32768) by done.
  pose proof (ho_used _ _ Hok) as Hu. rewrite used_bytes_app in Hu. simpl in Hu.
  pose proof (used_bytes_range l1 Hw1). assert (0 <= used_bytes l2 <= total l2) by (apply used_bytes_range; rewrite El; by constructor).
  unfold trim_move, SIZEOF_STRUCT_MEM. apply wp_bind. eapply wp_next; [lia|exact E|].
  apply wp_bind, wp_assert; [by rewrite (proj2 (Z.eqb_neq _ _)) by lia|].
  apply wp_bind. eapply wp_next; [lia|exact E2|]. rewrite u16_small by lia. unfold ptr_to_mem. apply wp_bind, wp_get.
  set (p2 := p + 8 + size).
  destruct (carved_ok (ram s) l1 w ((w2, false) :: l) p2 (p + w + w2) l) as [Hr' Hd]; try done; try lia.
  { by rewrite <-El. } { by eexists. } { unfold p2. Z.div_mod_to_equations. lia. } { Z.div_mod_to_equations. lia. }
  change (total l1) with p in Hr', Hd. replace (p2 - p) with (size + 8) in Hr', Hd by (unfold p2; lia).
  apply wp_bind, (wp_mono _ _ (fun _ s' => ram s' = ram s /\ stats s' = stats s /\
    lfree s' = if lfree s =? p + w then p2 else lfree s)).
  { apply wp_when; intros ->; done. }
  intros _ [m lf st] (Em & Es & Elf). cbn in Em, Es, Elf. subst m st.
  do 4 (apply wp_bind, wp_set_field; [lia|]). apply wp_bind.
  eapply (wp_next _ (p + w + w2) p 0); [lia|unfold p2; hd|]. apply wp_bind, wp_link_back; [lia|]. apply wp_set_stats.
  assert (Hsh : shrink size w l2 = (size + 8, true) :: (p + w + w2 - p2, false) :: l).
  { rewrite El. simpl. do 3 f_equal. unfold p2. lia. }
  cbn [ram lfree stats with_ram]. apply HQ; [|rewrite Hsh; exact Hd].
  apply (trimmed_ok _ _ (p + w + w2) l); [exact Hr'|exact Hsh| | | |].
  - intros _. pose proof (ho_separate _ _ Hok) as Hs. rewrite El, separate_app in Hs. simpl in Hs. apply Hs.
  - subst lf. apply first_free_trimmed; intros H'.
    + by rewrite (Hlf1 H'), Z.eqb_refl.
    + by rewrite (proj2 (Z.eqb_neq _ _)) by (specialize (Hlf2 H'); lia).
  - by rewrite El.
  - cbn [st_used]. rewrite u16_small; [lia|]. rewrite Hu, El in *. simpl in *. lia.
Qed.

Lemma wp_trim_split w2 l Q :
  l2 = (w2, true) :: l -> size + 20 <= w - 8 ->
  (forall s', heap_ok s' (l1 ++ shrink size w l2) -> same_data (l1 ++ shrink size w l2) (ram s) (ram s') -> Q tt s') ->
  wp (trim_split p p size (w - 8)) s Q.
Proof.
  intros El Hroom HQ. pose proof (heap_ok_raw _ _ Hok) as Hr. destruct lfree_cases as [Hlf1 Hlf2].
  pose proof (raw_block _ _ _ _ _ Hr) as (Hw1 & Hw2 & H20 & Hw4 & Hp0 & Hp4 & Ht & Hl2 & _ & E & Hs2). fold p in Hp0, Hp4, Ht, E, Hs2.
  pose proof (raw_next _ _ _ _ _ Hr) as Hnx. fold p in Hnx. assert (Hm : MEM_SIZE_ALIGNED = 32768) by done.
  assert (Hne : p + w + 20 <= MEM_SIZE_ALIGNED).
  { rewrite El in Ht, Hw2. apply Forall_cons in Hw2 as [[? _] Hwl]. pose proof (total_pos l Hwl). simpl in *. lia. }
  pose proof (ho_used _ _ Hok) as Hu. rewrite used_bytes_app in Hu. simpl in Hu.
  pose proof (used_bytes_range l1 Hw1). pose proof (used_bytes_range l2 Hw2).
  pose proof (first_free_range (p + w) l2 Hw2) as Hffr.
  unfold trim_split, SIZEOF_STRUCT_MEM. rewrite u16_small by lia. apply wp_bind. eapply wp_next; [lia|exact E|].
  apply wp_bind, wp_assert; [by rewrite (proj2 (Z.eqb_neq _ _)) by lia|]. unfold ptr_to_mem. apply wp_bind, wp_get.
  set (p2 := p + 8 + size).
  destruct (carved_ok (ram s) l1 w l2 p2 (p + w) l2) as [Hr' Hd]; try done; try (unfold p2; lia).
  { by eexists. } { unfold p2. Z.div_mod_to_equations. lia. } { Z.div_mod_to_equations. lia. }
  change (total l1) with p in Hr', Hd. replace (p2 - p) with (size + 8) in Hr', Hd by (unfold p2; lia).
  apply wp_bind, (wp_mono _ _ (fun _ s' => ram s' = ram s /\ stats s' = stats s /\
    lfree s' = if p2 <? lfree s then p2 else lfree s)).
  { apply wp_when; intros ->; done. }
  intros _ [m lf st] (Em & Es & Elf). cbn in Em, Es, Elf. subst m st.
  apply wp_bind, wp_set_field; [unfold p2; lia|]. apply wp_bind.
  eapply (wp_next _ (p + w) (last_ptr 0 0 l1) (flag true)); [lia|unfold p2; hd|].
  do 3 (apply wp_bind, wp_set_field; [unfold p2; lia|]). apply wp_bind.
  eapply (wp_next _ (p + w) p 0); [unfold p2; lia|unfold p2; hd|]. apply wp_bind, wp_link_back; [lia|]. apply wp_set_stats.
  assert (Hsh : shrink size w l2 = (size + 8, true) :: (p + w - p2, false) :: l2).
  { rewrite El. simpl. rewrite (proj2 (Z.leb_le _ _)) by lia. do 3 f_equal. unfold p2. lia. }
  cbn [ram lfree stats with_ram]. apply HQ; [|rewrite Hsh; exact Hd].
  apply (trimmed_ok _ _ (p + w) l2); [exact Hr'|exact Hsh| | |done|].
  - intros _. pose proof (ho_separate _ _ Hok) as Hs. rewrite El, separate_app in *. simpl in *.
    destruct Hs as (_ & _ & _ & Hs). by split; [left|].
  - subst lf. apply first_free_trimmed; intros H'.
    + rewrite (Hlf1 H'), (proj2 (Z.ltb_lt _ _)) by (unfold p2; lia). done.
    + by rewrite (proj2 (Z.ltb_ge _ _)) by (specialize (Hlf2 H'); unfold p2; lia).
  - cbn [st_used]. rewrite u16_small; [lia|]. rewrite Hu in *. lia.
Qed.
End trimming.

(** ** Writing into a block in use *)

Lemma heap_ok_frame s bl m' :
  heap_ok s bl -> (forall q, 0 <= q <= MEM_SIZE_ALIGNED - 20 -> (exists l1 b l2, bl = l1 ++ b :: l2 /\ q = total l1) -> hdr m' q = hdr (ram s) q) ->
  hdr m' MEM_SIZE_ALIGNED = hdr (ram s) MEM_SIZE_ALIGNED -> heap_ok (with_ram m' s) bl.
Proof.
  intros [Hs Hw Ht He Hsep Hlf Hu] Hq Hqe. split; try done; [|unfold sentinel; cbn; by rewrite Hqe].
  cbn [ram with_ram]. assert (forall l0 pv, bl = l0 ++ drop (length l0) bl -> seg (ram s) pv (total l0) (drop (length l0) bl) ->
    seg m' pv (total l0) (drop (length l0) bl)) as H; [|by apply (H [] 0)].
  intros l0 pv Hbl. remember (drop (length l0) bl) as l eqn:El. clear El Hs. revert l0 pv Hbl.
  induction l as [|[w u] l IH]; intros l0 pv Hbl; [done|]. cbn [seg]. intros [E Hs].
  pose proof Hw as Hw'. rewrite Hbl in Hw'. apply Forall_app in Hw' as [Hw0 [[H20 _] Hwl]%Forall_cons].
  pose proof Ht as Ht'. rewrite Hbl, total_app in Ht'. simpl in Ht', H20. pose proof (total_pos l0 Hw0). pose proof (total_pos l Hwl).
  split; [rewrite Hq; [done|lia|by exists l0, (w, u), l]|].
  replace (total l0 + w) with (total (l0 ++ [(w, u)])) in * by (rewrite total_app; simpl; lia).
  apply IH; [by rewrite <-app_assoc|done].
Qed.

(** The bytes [off] to [off + n] are data of one block in use. *)
Definition owned_bytes (bl : blocks) (off n : Z) : Prop :=
  exists l1 w l2, bl = l1 ++ (w, true) :: l2 /\ total l1 + 8 <= off /\ off + n <= total l1 + w.

Lemma app_cons_cases {A} (l1 l1' : list A) x x' l2 l2' :
  l1 ++ x :: l2 = l1' ++ x' :: l2' ->
  (l1 = l1' /\ x = x' /\ l2 = l2') \/ (exists k, l1' = l1 ++ x :: k) \/ (exists k, l1 = l1' ++ x' :: k).
Proof.
  revert l1'. induction l1 as [|a l1 IH]; intros [|a' l1']; simpl; intros [= Ea E]; subst.
  - by left.
  - right; left. by exists l1'.
  - right; right. by exists l1.
  - destruct (IH _ E) as [(-> & -> & ->)|[[k ->]|[k ->]]]; [by left|right; left; by exists k|right; right; by exists k].
Qed.

Lemma wp_write_bytes s bl off bs Q :
  heap_ok s bl -> owned_bytes bl off (Z.of_nat (length bs)) ->
  (forall s', heap_ok s' bl -> (forall i, i < off \/ off + Z.of_nat (length bs) <= i -> byte (ram s') i = byte (ram s) i) -> Q tt s') ->
  wp (write_bytes off bs) s Q.
Proof.
  intros Hok (l1 & w & l2 & Hbl & Ho1 & Ho2) HQ. pose proof Hok as Hok0. rewrite Hbl in Hok0.
  pose proof (raw_block _ _ _ _ _ (heap_ok_raw _ _ Hok0)) as (Hw1 & _ & H20 & _ & Hp0 & _ & Ht & Hl2 & _).
  assert (Hm : MEM_SIZE_ALIGNED = 32768) by done. unfold write_bytes. apply wp_bind, wp_assert.
  { apply andb_true_iff. rewrite !Z.leb_le. unfold RAM_LEN, SIZEOF_STRUCT_MEM. lia. }
  apply wp_modify, HQ; [|intros i Hi; by apply byte_fill_ne].
  assert (Hout : forall q, q + 6 <= off \/ off + Z.of_nat (length bs) <= q -> hdr (fill off bs (ram s)) q = hdr (ram s) q).
  { intros q Hq. unfold hdr, half. rewrite !byte_fill_ne by lia. done. }
  apply heap_ok_frame; [done| |apply Hout; lia]. intros q Hq (la & b & lb & Hbl' & ->). apply Hout.
  pose proof (ho_width _ _ Hok) as Hw. rewrite Hbl' in Hw. apply Forall_app in Hw as [Hwa _].
  rewrite Hbl in Hbl'. apply app_cons_cases in Hbl' as [(-> & _)|[[k ->]|[k ->]]]; [lia|..].
  - right. rewrite total_app. simpl. apply Forall_app in Hwa as [_ [_ Hk]%Forall_cons]. pose proof (total_pos k Hk). lia.
  - left. rewrite total_app in *. simpl in *. apply Forall_app in Hw1 as [_ [[Hb _] Hk]%Forall_cons].
    pose proof (total_pos k Hk). destruct b; simpl in *. lia.
Qed.

(** ** The sanity check *)

Lemma wp_sanity_loop s bl fuel l1 l Q :
  heap_ok s bl -> bl = l1 ++ l -> 0 < total l1 -> (length l < fuel)%nat ->
  Q MEM_SIZE_ALIGNED s -> wp (loop fuel sanity_body (total l1, flag (negb (ends_free false l1)))) s Q.
Proof.
  intros Hok Hbl Hp Hf HQ. revert fuel l1 Hbl Hp Hf.
  induction l as [|[w u] l IH]; intros fuel l1 Hbl Hp Hf; (destruct fuel as [|fuel]; [simpl in Hf; lia|]);
    unfold wp; rewrite loop_S; apply wp_bind; unfold sanity_body at 1.
  - rewrite app_nil_r in Hbl. subst l1. rewrite (ho_total _ _ Hok). unfold ram_end. rewrite Z.ltb_irrefl, andb_false_r.
    by apply wp_ret, wp_ret.
  - pose proof (heap_ok_raw _ _ Hok) as Hr. rewrite Hbl in Hr.
    pose proof (raw_block _ _ _ _ _ Hr) as (Hw1 & Hw2 & H20 & _ & _ & Hp4 & Ht & Hl & Hs1 & E & _).
    rewrite (proj2 (Z.ltb_lt 0 _)), (proj2 (Z.ltb_lt _ ram_end)) by (unfold ram_end; lia). cbn [andb].
    apply wp_bind, wp_assert; [by apply Z.eqb_eq|]. apply wp_bind. eapply wp_prev; [lia|exact E|].
    apply wp_bind. eapply wp_next; [lia|exact E|]. apply wp_bind. eapply wp_used; [lia|exact E|].
    assert (Hpv : last_ptr 0 0 l1 <= MEM_SIZE_ALIGNED).
    { destruct l1 as [|b k]; [simpl in Hp; lia|]. pose proof (last_ptr_range 0 (b :: k) Hw1 ltac:(done) 0). lia. }
    apply wp_bind, wp_assert; [by apply Z.leb_le|]. apply wp_bind, wp_assert; [apply Z.leb_le; lia|].
    apply wp_bind, wp_assert.
    { pose proof (ho_separate _ _ Hok) as Hs. rewrite Hbl, separate_app in Hs. simpl in Hs.
      destruct Hs as (_ & [->| ->] & _); [by destruct (ends_free false l1)|by destruct u]. }
    apply wp_bind. eapply wp_link_valid; [exact Hr|]. apply wp_bind, wp_assert; [done|]. apply wp_ret.
    replace (ptr_to_mem (total l1 + w), flag u) with (total (l1 ++ [(w, u)]), flag (negb (ends_free false (l1 ++ [(w, u)])))).
    + apply IH; [by rewrite <-app_assoc|rewrite total_app; simpl; lia|simpl in Hf; lia].
    + rewrite total_app, ends_free_app. simpl. rewrite negb_involutive. unfold ptr_to_mem. do 2 f_equal. lia.
Qed.

Lemma wp_mem_sanity s bl Q : heap_ok s bl -> Q tt s -> wp mem_sanity s Q.
Proof.
  intros Hok HQ. pose proof (heap_ok_raw _ _ Hok) as Hr. pose proof (ho_total _ _ Hok) as Ht. pose proof (ho_width _ _ Hok) as Hw.
  destruct bl as [|[w u] l] eqn:Ebl; [done|]. pose proof (raw_block (ram s) [] w u l Hr) as (_ & _ & H20 & _ & _ & _ & _ & Hl2 & _ & E & _).
  simpl in E, Ht. change (0 + w) with w in E. assert (Hm : MEM_SIZE_ALIGNED = 32768) by done.
  unfold mem_sanity. apply wp_bind. eapply wp_used; [lia|exact E|]. apply wp_bind, wp_assert; [by destruct u|].
  apply wp_bind. eapply wp_prev; [lia|exact E|]. apply wp_bind, wp_assert; [done|].
  apply wp_bind. eapply wp_next; [lia|exact E|]. apply wp_bind, wp_assert; [apply Z.leb_le; lia|].
  apply wp_bind. replace (ptr_to_mem w, flag u) with (total [(w, u)], flag (negb (ends_free false [(w, u)]))).
  2: { simpl. rewrite negb_involutive. unfold ptr_to_mem. f_equal. lia. }
  eapply (wp_sanity_loop s ((w, u) :: l)); [done|done|simpl; lia| |].
  { pose proof (length_fuel ((w, u) :: l) Hw ltac:(simpl; lia)) as H. simpl in H. lia. }
  pose proof (ro_end _ _ Hr) as He. unfold sentinel in He.
  apply wp_bind, wp_assert; [done|]. apply wp_bind. eapply wp_used; [lia|exact He|]. apply wp_bind, wp_assert; [done|].
  apply wp_bind. eapply wp_prev; [lia|exact He|]. apply wp_bind, wp_assert; [done|].
  apply wp_bind. eapply wp_next; [lia|exact He|]. by apply wp_assert.
Qed.

(** ** Start-up and the reachable heaps *)

Definition heap0 : mem_state := mk_mem ∅ 0 (mk_stats 0 0 0 0).

Definition heap_after {A} (m : M mem_state A) (s : mem_state) : mem_state :=
  match m s with Ret (_, s') => s' | _ => s end.
Definition started : mem_state := heap_after mem_init heap0.

(** [concrete]: a computed heap represents given blocks. *)
Ltac concrete :=
  split; [by vm_compute|repeat constructor; by vm_compute|by vm_compute|by vm_compute|
          simpl; naive_solver|by vm_compute|by vm_compute].

Lemma started_ok : heap_ok started [(MEM_SIZE_ALIGNED, false)].
Proof. concrete. Qed.
Lemma mem_init_ok : mem_init heap0 = Ret (tt, started).
Proof. reflexivity. Qed.

(** What the users of the heap do: they ask for memory, write into it, shrink it and
    give it back. *)
Inductive heap_step (s s' : mem_state) : Prop :=
| step_malloc n r : 0 <= n < 65536 -> mem_malloc n s = Ret (r, s') -> heap_step s s'
| step_calloc c n r : 0 <= c < 65536 -> 0 <= n < 65536 -> mem_calloc c n s = Ret (r, s') -> heap_step s s'
| step_free l1 w l2 :
    heap_ok s (l1 ++ (w, true) :: l2) -> mem_free (Some (total l1 + 8)) s = Ret (tt, s') -> heap_step s s'
| step_trim l1 w l2 n r :
    heap_ok s (l1 ++ (w, true) :: l2) -> 0 <= n <= w - 8 -> l2 <> [] ->
    mem_trim (total l1 + 8) n s = Ret (r, s') -> heap_step s s'
| step_write bl off bs :
    heap_ok s bl -> owned_bytes bl off (Z.of_nat (length bs)) -> write_bytes off bs s = Ret (tt, s') -> heap_step s s'.

Inductive heap_reachable : mem_state -> Prop :=
| reach_init s : mem_init heap0 = Ret (tt, s) -> heap_reachable s
| reach_step s s' : heap_reachable s -> heap_step s s' -> heap_reachable s'.

(** ** Specifications of the operations *)

(** The size a request is rounded to. *)
Definition rounded (n : Z) : Z := Z.max 12 (4 * ((n + 3) / 4)).

Lemma malloc_spec s bl n :
  heap_ok s bl -> 0 <= n < 65536 ->
  wp (mem_malloc n) s (fun r s' =>
    match (if (n =? 0) || (MEM_SIZE_ALIGNED <? n) then None else first_fit (rounded n) bl) with
    | Some (l1, w, l2) =>
        r = Some (total l1 + 8) /\ heap_ok s' (l1 ++ split_block (rounded n) w ++ l2) /\ same_data bl (ram s) (ram s')
    | None => r = None /\ ram s' = ram s /\ heap_ok s' bl
    end).
Proof.
  intros Hok Hn. unfold mem_malloc. destruct (Z.eqb_spec n 0) as [->|Hn0]; [by apply wp_ret|].
  destruct (request_size_ok n ltac:(lia)) as (H12 & H4 & Hyes & Hno). cbv zeta in *.
  destruct ((MEM_SIZE_ALIGNED <? request_size n) || (request_size n <? n)) eqn:Eb.
  - rewrite (proj2 (Z.ltb_lt _ n)) by (by apply Hno). cbn [orb]. by apply wp_ret.
  - destruct (Hyes eq_refl) as [Hle Heq]. rewrite (proj2 (Z.ltb_ge _ n)) by lia. cbn [orb]. apply wp_bind, wp_get.
    eapply wp_mono; [by apply (wp_malloc_search s (request_size n) H12 H4 bl Hok); lia|].
    intros r s'. unfold malloc_post, rounded. rewrite <-Heq. by destruct (first_fit _ bl) as [[[l1 w] l2]|].
Qed.

(** A block in use shrunk; for the last one of the heap only where nothing is cut off. *)
Lemma trim_spec s l1 w l2 n :
  heap_ok s (l1 ++ (w, true) :: l2) -> 0 <= n <= w - 8 -> (l2 = [] -> w - 8 < rounded n + 20) ->
  wp (mem_trim (total l1 + 8) n) s (fun r s' =>
    r = Some (total l1 + 8) /\ heap_ok s' (l1 ++ shrink (rounded n) w l2) /\
    same_data (l1 ++ shrink (rounded n) w l2) (ram s) (ram s')).
Proof.
  intros Hok Hn Hl. pose proof (heap_ok_raw _ _ Hok) as Hr.
  pose proof (raw_block _ _ _ _ _ Hr) as (Hw1 & Hw2 & H20 & Hw4 & Hp0 & Hp4 & Ht & Hl2 & _ & E & Hs2).
  assert (Hm : MEM_SIZE_ALIGNED = 32768) by done.
  assert (Hrn : request_size n = rounded n /\ 12 <= rounded n <= w - 8 /\ rounded n mod 4 = 0 /\ n <= rounded n).
  { unfold request_size, rounded, MIN_SIZE_ALIGNED. rewrite mem_align_eq, u16_small by zlia.
    destruct (Z.ltb_spec (4 * ((n + 3) / 4)) 12); zlia. }
  destruct Hrn as (Heq & Hrd & Hr4 & Hrn). unfold mem_trim, SIZEOF_STRUCT_MEM. rewrite Heq.
  assert (rounded n <= MEM_SIZE_ALIGNED) by lia.
  rewrite (proj2 (Z.ltb_ge _ (rounded n))), (proj2 (Z.ltb_ge _ n)) by lia. cbn [orb].
  apply wp_bind, wp_assert; [apply andb_true_iff; unfold ram_end; rewrite Z.leb_le, Z.ltb_lt; lia|].
  replace (total l1 + 8 - 8) with (total l1) by lia. apply wp_bind. eapply wp_next; [lia|exact E|].
  unfold mem_to_ptr. rewrite (u16_small (total l1)), (u16_small (total l1 + w - total l1)) by lia.
  replace (u16 (total l1 + w - total l1 - 8)) with (w - 8) by (rewrite u16_small; lia).
  apply wp_bind, wp_assert; [apply Z.leb_le; lia|]. destruct (Z.eqb_spec (rounded n) (w - 8)) as [He|Hne].
  - assert (Hsh : shrink (rounded n) w l2 = (w, true) :: l2).
    { unfold shrink. rewrite He. destruct l2 as [|[w2 [|]] l2]; rewrite ?(proj2 (Z.leb_gt _ _)) by lia; [done|done|].
      do 2 f_equal; [f_equal; lia|f_equal; lia]. }
    rewrite Hsh. by apply wp_ret.
  - apply wp_bind. eapply wp_next; [lia|exact E|]. unfold ptr_to_mem, MIN_SIZE_ALIGNED.
    replace (rounded n + 8 + 12 <=? w - 8) with (rounded n + 20 <=? w - 8) by (destruct (Z.leb_spec (rounded n + 20) (w - 8)); lia).
    apply wp_bind. destruct l2 as [|[w2 [|]] l2].
    + simpl in Ht. replace (total l1 + w) with MEM_SIZE_ALIGNED by lia. eapply wp_used; [lia|exact (ro_end _ _ Hr)|].
      specialize (Hl eq_refl). cbn [Z.eqb shrink]. rewrite (proj2 (Z.leb_gt _ _)) by lia.
      by apply wp_bind, wp_ret, wp_ret.
    + destruct Hs2 as [E2 _]. simpl in Ht. apply Forall_cons in Hw2 as [[? _] Hw2]. pose proof (total_pos l2 Hw2). simpl in *.
      eapply wp_used; [lia|exact E2|]. cbn [flag Z.eqb]. destruct (Z.leb_spec (rounded n + 20) (w - 8)) as [Hroom|Hsmall].
      * apply wp_bind. eapply (wp_trim_split s l1 w ((w2, true) :: l2) Hok); [first [done|lia]..|].
        intros s' Ho Hd. apply wp_ret. cbn [shrink] in *. rewrite (proj2 (Z.leb_le _ _)) in * by lia. done.
      * by apply wp_bind, wp_ret, wp_ret.
    + destruct Hs2 as [E2 _]. simpl in Ht. apply Forall_cons in Hw2 as [[? _] Hw2]. pose proof (total_pos l2 Hw2). simpl in *.
      eapply wp_used; [lia|exact E2|]. cbn [flag Z.eqb]. apply wp_bind.
      eapply (wp_trim_move s l1 w ((w2, false) :: l2) Hok); [first [done|lia]..|]. intros s' Ho Hd. by apply wp_ret.
Qed.

Lemma write_zero_owned l1 size w l2 n :
  n <= size -> 0 <= n -> size <= w - 8 -> owned_bytes (l1 ++ split_block size w ++ l2) (total l1 + 8) n.
Proof.
  intros. unfold split_block. destruct (_ <=? _); cbn [app]; do 3 eexists; (split; [reflexivity|lia]).
Qed.

Lemma calloc_spec s bl c n :
  heap_ok s bl -> 0 <= c < 65536 -> 0 <= n < 65536 -> wp (mem_calloc c n) s (fun _ s' => exists bl', heap_ok s' bl').
Proof.
  intros Hok Hc Hn. unfold mem_calloc. destruct (Z.eqb_spec (u16 (c * n)) (c * n)) as [Heq|]; cbn [negb]; [|apply wp_ret; by exists bl].
  pose proof (u16_range (c * n)) as Hr. rewrite Heq in *. set (a := c * n) in *.
  apply wp_bind. eapply wp_mono; [by apply (malloc_spec s bl a)|]. cbn beta. intros r s'.
  destruct ((a =? 0) || (MEM_SIZE_ALIGNED <? a)) eqn:Eb; [intros (-> & _ & Hok'); apply wp_ret; by exists bl|].
  apply orb_false_iff in Eb as [?%Z.eqb_neq ?%Z.ltb_ge]. destruct (first_fit (rounded a) bl) as [[[l1 w] l2]|] eqn:Ef.
  - intros (-> & Hok' & _). apply first_fit_split in Ef as [_ Hfit]. apply wp_bind. eapply wp_write_bytes; [exact Hok'| |].
    + rewrite length_replicate, Z2Nat.id by lia. apply write_zero_owned; [unfold rounded; zlia|lia|done].
    + intros s2 Hok2 _. apply wp_ret. by eexists.
  - intros (-> & _ & Hok'). apply wp_ret. by exists bl.
Qed.

(** ** Properties *)

(** C21: allocation is first fit.  [mem_malloc n] on a well-formed heap returns the
    first free block whose data has room for [n] rounded up to the alignment and
    at least 12, split if the rest can hold another block, and no memory exactly when
    there is none (or nothing or more than the heap is asked for).  The heap stays
    well-formed and the data of every block in use is as before. *)
Theorem heap_malloc s bl n :
  heap_ok s bl -> 0 <= n < 65536 ->
  wp (mem_malloc n) s (fun r s' =>
    match (if (n =? 0) || (MEM_SIZE_ALIGNED <? n) then None else first_fit (rounded n) bl) with
    | Some (l1, w, l2) =>
        r = Some (total l1 + 8) /\ heap_ok s' (l1 ++ split_block (rounded n) w ++ l2) /\ same_data bl (ram s) (ram s')
    | None => r = None /\ ram s' = ram s /\ heap_ok s' bl
    end).
Proof. apply malloc_spec. Qed.

(** Giving memory back.  [mem_free] of a block in use returns; the block is
    free, joined with the free blocks next to it, and the data of every other block is
    as before.  Freeing a block that is free already, a pointer outside the heap or
    one that is not aligned ends the process. *)
Theorem heap_free s l1 w u l2 :
  heap_ok s (l1 ++ (w, u) :: l2) ->
  (if u then
     wp (mem_free (Some (total l1 + 8))) s (fun _ s' =>
       heap_ok s' (free_between l1 w l2) /\ same_data (l1 ++ (w, false) :: l2) (ram s) (ram s'))
   else mem_free (Some (total l1 + 8)) s = Stuck) /\
  (forall r, r < 8 \/ MEM_SIZE_ALIGNED < r + 12 \/ r mod 4 <> 0 -> mem_free (Some r) s = Stuck).
Proof.
  intros Hok. split.
  - destruct u; [eapply wp_mem_free; [exact Hok|done]|].
    pose proof (raw_block _ _ _ _ _ (heap_ok_raw _ _ Hok)) as (_ & _ & H20 & _ & Hp0 & Hp4 & Ht & Hl2 & _ & E & _).
    unfold mem_free, SIZEOF_STRUCT_MEM, MIN_SIZE_ALIGNED. change (MEM_ALIGNMENT - 1) with (Z.ones 2).
    rewrite Z.land_ones by lia. replace ((total l1 + 8) mod 2 ^ 2) with 0 by (change (2 ^ 2) with 4; Z.div_mod_to_equations; lia).
    replace (total l1 + 8 - 8) with (total l1) by lia. unfold ram_end.
    rewrite (proj2 (Z.ltb_ge (total l1) 0)), (proj2 (Z.ltb_ge _ (total l1 + 8 + 12))) by lia.
    rewrite !(bind_exec (c_assert _) _ s tt s) by done.
    rewrite (bind_exec (used (total l1)) _ s (flag false) s); [done|].
    eapply used_exec; [lia|exact E].
  - intros r Hr. unfold mem_free, SIZEOF_STRUCT_MEM, MIN_SIZE_ALIGNED. change (MEM_ALIGNMENT - 1) with (Z.ones 2).
    rewrite Z.land_ones by lia. change (2 ^ 2) with 4. destruct (Z.eqb_spec (r mod 4) 0) as [H4|]; [|done].
    rewrite (bind_exec (c_assert true) _ s tt s) by done. apply bind_stuck. unfold ram_end.
    destruct (Z.ltb_spec (r - 8) 0); [done|]. by rewrite (proj2 (Z.ltb_lt _ _)) by lia.
Qed.

(** Allocating and giving back.  If [mem_malloc n] finds memory, freeing it
    gives the heap the blocks it had, with the data of all blocks in use. *)
Theorem heap_malloc_free s bl n :
  heap_ok s bl -> 0 < n <= MEM_SIZE_ALIGNED -> first_fit (rounded n) bl <> None ->
  wp (r ← mem_malloc n; mem_free r) s (fun _ s' => heap_ok s' bl /\ same_data bl (ram s) (ram s')).
Proof.
  intros Hok Hn Hfit. apply wp_bind. eapply wp_mono; [apply (malloc_spec s bl n Hok); unfold MEM_SIZE_ALIGNED in *; lia|].
  cbn beta. intros r s'. rewrite (proj2 (Z.eqb_neq n 0)), (proj2 (Z.ltb_ge _ n)) by lia. cbn [orb].
  destruct (first_fit (rounded n) bl) as [[[l1 w] l2]|] eqn:Ef; [|done]. intros (-> & Hok' & Hd).
  apply first_fit_split in Ef as [Hbl Hw]. pose proof (ho_separate _ _ Hok) as Hs. rewrite Hbl, separate_app in Hs.
  cbn [separate] in Hs. destruct Hs as (_ & [?|He] & Hs2); [done|].
  assert (Hback : forall v k, free_before v k = (w, false) :: l2 -> free_between l1 v k = bl).
  { intros v k Hk. rewrite Hbl. destruct l1 as [|[w0 u0] l1 _] using rev_ind; [done|]. rewrite ends_free_app in He.
    destruct u0; [|done]. by rewrite free_between_used, Hk. }
  assert (Hdata : forall m, same_data bl (ram s') m -> same_data bl (ram s) m).
  { intros m Hm i Hi. rewrite Hm by done. by apply Hd. }
  unfold split_block in Hok'. destruct (_ <=? _); cbn [app] in Hok'.
  - eapply wp_mem_free; [exact Hok'|]. intros s2 Hok2 Hd2.
    rewrite (Hback (rounded n + 8)) in Hok2 by (simpl; do 2 f_equal; lia). split; [done|]. apply Hdata.
    intros i Hi. apply Hd2. rewrite Hbl, in_use_app in Hi. rewrite in_use_app. simpl in *.
    destruct Hi as [|[[? _]|Hi]]; [by left|done|]. right. right. right.
    eapply (in_use_at (0 + total l1 + w)); [lia|exact Hi].
  - eapply wp_mem_free; [exact Hok'|]. intros s2 Hok2 Hd2.
    rewrite (Hback w) in Hok2 by (destruct l2 as [|[w2 [|]] l2]; [done|done|simpl in Hs2; naive_solver]).
    split; [done|]. apply Hdata. by rewrite Hbl.
Qed.

(** Shrinking.  [mem_trim] of a block in use returns its pointer; what is cut off
    joins the free block behind or becomes one, unless it is too small, and the data
    that is left, and that of all other blocks, is as before.  The last block of the
    heap cannot be shrunk where something would be cut off: an assertion meant for
    corrupt heaps takes the end of the heap for an error and ends the process. *)
Theorem heap_trim s l1 w l2 n :
  heap_ok s (l1 ++ (w, true) :: l2) -> 0 <= n <= w - 8 ->
  if decide (l2 = [] /\ rounded n + 20 <= w - 8) then mem_trim (total l1 + 8) n s = Stuck
  else wp (mem_trim (total l1 + 8) n) s (fun r s' =>
    r = Some (total l1 + 8) /\ heap_ok s' (l1 ++ shrink (rounded n) w l2) /\
    same_data (l1 ++ shrink (rounded n) w l2) (ram s) (ram s')).
Proof.
  intros Hok Hn. destruct (decide _) as [[-> Hroom]|Hno].
  2: { apply trim_spec; [done|done|]. intros ->. destruct (Z.le_gt_cases (rounded n + 20) (w - 8)); [|lia]. by destruct Hno. }
  pose proof (heap_ok_raw _ _ Hok) as Hr.
  pose proof (raw_block _ _ _ _ _ Hr) as (_ & _ & H20 & Hw4 & Hp0 & _ & Ht & _ & _ & E & _). simpl in Ht.
  assert (Hm : MEM_SIZE_ALIGNED = 32768) by done.
  assert (Hrn : request_size n = rounded n /\ n <= rounded n).
  { unfold request_size, rounded, MIN_SIZE_ALIGNED. rewrite mem_align_eq, u16_small by zlia.
    destruct (Z.ltb_spec (4 * ((n + 3) / 4)) 12); zlia. }
  destruct Hrn as [Heq Hrn]. unfold mem_trim, SIZEOF_STRUCT_MEM. rewrite Heq.
  rewrite (proj2 (Z.ltb_ge _ (rounded n))), (proj2 (Z.ltb_ge _ n)) by lia. cbn [orb].
  rewrite (proj2 (Z.leb_le 0 _)), (proj2 (Z.ltb_lt _ ram_end)) by (unfold ram_end; lia). cbn [andb].
  rewrite (bind_exec (c_assert true) _ s tt s) by done. replace (total l1 + 8 - 8) with (total l1) by lia.
  assert (Hnx : next (total l1) s = Ret (MEM_SIZE_ALIGNED, s)).
  { replace MEM_SIZE_ALIGNED with (total l1 + w) by lia. eapply next_exec; [lia|exact E]. }
  rewrite (bind_exec _ _ s _ s Hnx). unfold mem_to_ptr. rewrite (u16_small (total l1)), (u16_small (_ - total l1)) by lia.
  rewrite u16_small by lia. rewrite (proj2 (Z.leb_le (rounded n) _)) by lia. rewrite (bind_exec (c_assert true) _ s tt s) by done.
  rewrite (proj2 (Z.eqb_neq (rounded n) _)) by lia. rewrite (bind_exec _ _ s _ s Hnx). unfold ptr_to_mem.
  assert (Hus : used MEM_SIZE_ALIGNED s = Ret (1, s)).
  { eapply used_exec; [lia|exact (ro_end _ _ Hr)]. }
  rewrite (bind_exec _ _ s _ s Hus). cbn [Z.eqb Pos.eqb]. unfold MIN_SIZE_ALIGNED. rewrite (proj2 (Z.leb_le _ _)) by lia.
  apply bind_stuck. unfold trim_split. rewrite (bind_exec _ _ s _ s Hnx). done.
Qed.

(** C22: the heap invariant.  In every state that allocating, clearing, writing into
    memory in use, shrinking and freeing reach from start-up, the bytes represent a
    list of blocks: headers linked both ways, aligned, filling the heap, no two free
    blocks in a row, the lowest free block known, the statistics counting the bytes
    in use; and the sanity check of the source passes. *)
Theorem heap_invariant s :
  heap_reachable s -> exists bl, heap_ok s bl /\ mem_sanity s = Ret (tt, s).
Proof.
  intros Hr. assert (exists bl, heap_ok s bl) as [bl Hok].
  { induction Hr as [s Hi|s s' _ [bl Hok] Hst].
    - rewrite mem_init_ok in Hi. injection Hi as <-. eexists. exact started_ok.
    - destruct Hst as [n r Hn E|c n r Hc Hn E|l1 w l2 Hb E|l1 w l2 n r Hb Hn Hl E|bl' off bs Hb Ho E].
      + pose proof (malloc_spec s bl n Hok Hn) as H. unfold wp in H. rewrite E in H.
        destruct (if (n =? 0) || (MEM_SIZE_ALIGNED <? n) then None else first_fit (rounded n) bl) as [[[l1 w] l2]|]; naive_solver.
      + pose proof (calloc_spec s bl c n Hok Hc Hn) as H. unfold wp in H. by rewrite E in H.
      + assert (wp (mem_free (Some (total l1 + 8))) s (fun _ x => exists k, heap_ok x k)) as H
          by (eapply wp_mem_free; [exact Hb|]; intros x Hx _; by eexists).
        unfold wp in H. by rewrite E in H.
      + assert (l2 = [] -> w - 8 < rounded n + 20) as Hx by done. pose proof (trim_spec s l1 w l2 n Hb Hn Hx) as H.
        unfold wp in H. rewrite E in H. destruct H as (_ & H & _). by eexists.
      + assert (wp (write_bytes off bs) s (fun _ x => heap_ok x bl')) as H by (eapply wp_write_bytes; [exact Hb|exact Ho|by intros]).
        unfold wp in H. rewrite E in H. by eexists. }
  exists bl. split; [done|]. destruct (wp_elim _ _ _ (wp_mem_sanity s bl (fun _ x => x = s) Hok eq_refl)) as ([] & ? & E & ->).
  exact E.
Qed.

(** *** Concrete heaps *)

Definition two_blocks : mem_state := heap_after (mem_malloc 100;; mem_malloc 50) started.

Lemma two_blocks_ok : heap_ok two_blocks [(108, true); (60, true); (32600, false)].
Proof. concrete. Qed.

Lemma heap_malloc_witness :
  wp (mem_malloc 30) two_blocks (fun r s' =>
    r = Some 176 /\ heap_ok s' [(108, true); (60, true); (40, true); (32560, false)]).
Proof.
  eapply wp_mono; [apply (heap_malloc two_blocks _ 30 two_blocks_ok); lia|].
  cbn beta. intros r s' (-> & Hok & _). split; [done|exact Hok].
Defined.

Lemma heap_free_witness :
  wp (mem_free (Some 8)) two_blocks (fun _ s' => heap_ok s' [(108, false); (60, true); (32600, false)]) /\
  mem_free (Some 176) two_blocks = Stuck.
Proof.
  split.
  - eapply wp_mono; [exact (proj1 (heap_free two_blocks [] 108 true [(60, true); (32600, false)] two_blocks_ok))|].
    cbn beta. by intros _ s' [Hok _].
  - exact (proj1 (heap_free two_blocks [(108, true); (60, true)] 32600 false [] two_blocks_ok)).
Defined.

Lemma heap_malloc_free_witness :
  wp (r ← mem_malloc 200; mem_free r) two_blocks (fun _ s' =>
    heap_ok s' [(108, true); (60, true); (32600, false)] /\
    same_data [(108, true); (60, true); (32600, false)] (ram two_blocks) (ram s')).
Proof. apply (heap_malloc_free two_blocks); [exact two_blocks_ok|unfold MEM_SIZE_ALIGNED; lia|done]. Defined.

(** The second block gives its tail back; a block that fills the heap cannot. *)
Definition one_block : mem_state := heap_after (mem_malloc 32756) started.

Lemma one_block_ok : heap_ok one_block [(32768, true)].
Proof. concrete. Qed.

Lemma heap_trim_witness :
  wp (mem_trim 116 20) two_blocks (fun r s' =>
    r = Some 116 /\ heap_ok s' [(108, true); (28, true); (32632, false)]) /\
  mem_trim 8 100 one_block = Stuck.
Proof.
  split.
  - eapply wp_mono; [exact (heap_trim two_blocks [(108, true)] 60 [(32600, false)] 20 two_blocks_ok ltac:(lia))|].
    cbn beta. intros r s' (-> & Hok & _). split; [done|exact Hok].
  - exact (heap_trim one_block [] 32768 [] 100 one_block_ok ltac:(lia)).
Defined.

Lemma heap_invariant_witness : exists bl, heap_ok two_blocks bl /\ mem_sanity two_blocks = Ret (tt, two_blocks).
Proof.
  apply heap_invariant. eapply reach_step; [eapply reach_step; [apply (reach_init started), mem_init_ok|]|].
  - apply (step_malloc _ (heap_after (mem_malloc 100) started) 100 (Some 8)); [lia|reflexivity].
  - apply (step_malloc _ _ 50 (Some 116)); [lia|reflexivity].
Defined.
