(* ===== verification/Memp.v ===== *)
(** * lwIP's memory pools

    The pools of lwip/src/core/memp.c in the configuration of
    include/lwipopts.h: each pool is an array of elements of one size, and the
    elements that are free form a list whose links are in the elements
    themselves.  The state is the memory, the heads of the lists and the
    statistics.  Where the linker puts the arrays is a parameter; the theorems
    are for every placement in which the arrays do not overlap.

    The specification is, for each pool, the list of its free elements:
    [memp_malloc] takes the first one, [memp_free] puts one in front.  The
    users may write what they like into the elements they hold. *)

From S2P Require Import Prelude Mem.

(** ** State *)

Definition MEMP_SIZE : Z := 0.

Definition LWIP_MEM_ALIGN (addr : Z) : Z :=
  Z.land (u64 (addr + MEM_ALIGNMENT - 1)) (u64 (Z.lnot (MEM_ALIGNMENT - 1))).

(** [tab] and [stats] point to static variables of the pool, here their numbers. *)
Record memp_desc := mk_desc {
  d_size : Z;
  d_num : Z;
  d_base : Z;
  d_tab : nat;
  d_stats : nat
}.

Definition LWIP_MEMPOOL_DECLARE (name : nat) (base num size : Z) : memp_desc :=
  mk_desc (u16 (LWIP_MEM_ALIGN_SIZE size)) (u16 num) base name name.

(** The pools that the configuration leaves, with the sizes of their structures:
    FRAG_PBUF, SYS_TIMEOUT, MLD6_GROUP, PBUF and PBUF_POOL. *)
Definition memp_std : list (Z * Z) := [(15, 40); (2, 32); (4, 40); (10, 24); (100, 24 + 1536)].
Definition memp_pools (base : nat -> Z) : list memp_desc :=
  imap (fun i p => LWIP_MEMPOOL_DECLARE i (base i) p.1 p.2) memp_std.

Record memp_state := mk_memp {
  memory : gmap Z Z;
  tabs : gmap nat Z;
  memp_stats : gmap nat stats_mem
}.

Definition load64 (m : gmap Z Z) (a : Z) : Z :=
  le_val (map (fun i => byte m (a + Z.of_nat i)) (seq 0 8)).
Definition store64 (a v : Z) (m : gmap Z Z) : gmap Z Z := fill a (le_bytes 8 v) m.

Definition tab_of (d : memp_desc) (s : memp_state) : Z := default 0 (tabs s !! d_tab d).
Definition stats_of (d : memp_desc) (s : memp_state) : stats_mem :=
  default (mk_stats 0 0 0 0) (memp_stats s !! d_stats d).

(** The end of the array of a pool, with the room for its alignment. *)
Definition array_end (d : memp_desc) : Z := d_base d + d_num d * (MEMP_SIZE + d_size d) + (MEM_ALIGNMENT - 1).

(** ** Operations *)

Section operations.
Context (pools : list memp_desc).

(** The [next] of the [struct memp] at an address, inside one of the arrays. *)
Definition in_pools (a : Z) : bool :=
  existsb (fun d => (d_base d <=? a) && (a + 8 <=? array_end d)) pools.
Definition memp_next (memp : Z) : M memp_state Z :=
  c_assert (in_pools memp);; s ← get; mret (load64 (memory s) memp).
Definition set_memp_next (memp v : Z) : M memp_state unit :=
  c_assert (in_pools memp);; modify (fun s => mk_memp (store64 memp v (memory s)) (tabs s) (memp_stats s)).

Definition get_tab (d : memp_desc) : M memp_state Z := gets (tab_of d).
Definition set_tab (d : memp_desc) (v : Z) : M memp_state unit :=
  modify (fun s => mk_memp (memory s) (<[d_tab d := v]> (tabs s)) (memp_stats s)).
Definition upd_stats (d : memp_desc) (f : stats_mem -> stats_mem) : M memp_state unit :=
  modify (fun s => mk_memp (memory s) (tabs s) (<[d_stats d := f (stats_of d s)]> (memp_stats s))).

(** The check for circles, by Floyd's algorithm, which the configuration leaves out. *)
Definition memp_sanity_body (st : Z * Z) : M memp_state (Z * Z + Z) :=
  let '(t, h) := st in
  if negb (t =? 0) && negb (h =? 0) then
    if t =? h then mret (inr 0)
    else
      t' ← memp_next t;
      n ← memp_next h;
      h' ← (if negb (n =? 0) then memp_next n else mret 0);
      mret (inl (t', h'))
  else mret (inr 1).

Definition memp_sanity (d : memp_desc) : M memp_state Z :=
  t ← get_tab d;
  if negb (t =? 0) then
    h ← memp_next t;
    loop (Datatypes.S (Z.to_nat (d_num d))) memp_sanity_body (t, h)
  else mret 1.

Definition init_body (d : memp_desc) (st : Z * Z) : M memp_state (Z * Z + unit) :=
  let '(i, memp) := st in
  if i <? d_num d then
    t ← get_tab d;
    set_memp_next memp t;;
    set_tab d memp;;
    mret (inl (i + 1, memp + MEMP_SIZE + d_size d))
  else mret (inr tt).

Definition memp_init_pool (d : memp_desc) : M memp_state unit :=
  set_tab d 0;;
  loop (Datatypes.S (Z.to_nat (d_num d))) (init_body d) (0, LWIP_MEM_ALIGN (d_base d));;
  upd_stats d (fun t => mk_stats (st_err t) (d_num d) (st_used t) (st_max t)).

Fixpoint init_pools (ds : list memp_desc) : M memp_state unit :=
  match ds with
  | [] => mret tt
  | d :: ds => memp_init_pool d;; init_pools ds
  end.
Definition memp_init : M memp_state unit := init_pools pools.

Definition do_memp_malloc_pool (d : memp_desc) : M memp_state (option Z) :=
  memp ← get_tab d;
  if negb (memp =? 0) then
    n ← memp_next memp;
    set_tab d n;;
    c_assert (memp mod MEM_ALIGNMENT =? 0);;
    upd_stats d (fun t => let u := u16 (st_used t + 1) in
                          mk_stats (st_err t) (st_avail t) u (if st_max t <? u then u else st_max t));;
    mret (Some (memp + MEMP_SIZE))
  else
    upd_stats d (fun t => mk_stats (u16 (st_err t + 1)) (st_avail t) (st_used t) (st_max t));;
    mret None.

Definition memp_malloc_pool (desc : option memp_desc) : M memp_state (option Z) :=
  d ← lift (deref desc);
  do_memp_malloc_pool d.

Definition memp_malloc (type : nat) : M memp_state (option Z) :=
  match pools !! type with
  | Some d => do_memp_malloc_pool d
  | None => mret None
  end.

Definition do_memp_free_pool (d : memp_desc) (mem : Z) : M memp_state unit :=
  c_assert (mem mod MEM_ALIGNMENT =? 0);;
  let memp := mem - MEMP_SIZE in
  upd_stats d (fun t => mk_stats (st_err t) (st_avail t) (u16 (st_used t - 1)) (st_max t));;
  t ← get_tab d;
  set_memp_next memp t;;
  set_tab d memp.

Definition memp_free_pool (desc : option memp_desc) (mem : option Z) : M memp_state unit :=
  d ← lift (deref desc);
  match mem with Some m => do_memp_free_pool d m | None => mret tt end.

Definition memp_free (type : nat) (mem : option Z) : M memp_state unit :=
  match pools !! type, mem with
  | Some d, Some m => do_memp_free_pool d m
  | _, _ => mret tt
  end.

(** What the user of an element does with it. *)
Definition write_element (a : Z) (bs : list Z) : M memp_state unit :=
  modify (fun s => mk_memp (fill a bs (memory s)) (tabs s) (memp_stats s)).
End operations.

(** ** Memory *)

Lemma align_eq a : 0 <= a < 18446744073709551612 -> LWIP_MEM_ALIGN a = 4 * ((a + 3) / 4).
Proof.
  intros Ha. unfold LWIP_MEM_ALIGN, MEM_ALIGNMENT, u64. rewrite Z.mod_small by lia.
  replace (a + 4 - 1) with (a + 3) by lia.
  change (Z.lnot (4 - 1) mod 18446744073709551616) with (Z.shiftl (Z.ones 62) 2).
  apply land_round4; simpl; lia.
Qed.

(** Two memories agree on the link of the element at [x]. *)
Definition same_link (m m' : gmap Z Z) (x : Z) : Prop := forall i, x <= i < x + 8 -> byte m' i = byte m i.

Lemma load64_same m m' x : same_link m m' x -> load64 m' x = load64 m x.
Proof.
  intros H. unfold load64. f_equal. apply map_ext_in. intros i Hi%in_seq. apply H. lia.
Qed.

Lemma load64_store64 m x v : 0 <= v < 18446744073709551616 -> load64 (store64 x v m) x = v.
Proof.
  intros Hv. unfold load64, store64. transitivity (le_val (le_bytes 8 v)); [f_equal|apply le_val_bytes; simpl; lia].
  apply list_eq. intros i. rewrite list_lookup_fmap. destruct (decide (i < 8)%nat) as [Hi|Hi].
  - rewrite lookup_seq_lt by done. cbn [fmap option_fmap option_map].
    destruct (lookup_lt_is_Some_2 (le_bytes 8 v) i) as [b Hb]; [by rewrite length_le_bytes|].
    rewrite Nat.add_0_l, (byte_fill_in _ _ _ _ _ Hb). by symmetry.
  - rewrite lookup_seq_ge by lia. symmetry. apply lookup_ge_None. rewrite length_le_bytes. lia.
Qed.

Lemma store64_same m x v y : y + 8 <= x \/ x + 8 <= y -> same_link m (store64 x v m) y.
Proof. intros Hy i Hi. apply byte_fill_ne. rewrite length_le_bytes. lia. Qed.

(** The links lead from [p] along [l] to [q]. *)
Fixpoint links (m : gmap Z Z) (p : Z) (l : list Z) (q : Z) : Prop :=
  match l with
  | [] => p = q
  | x :: l => p = x /\ links m (load64 m x) l q
  end.

Lemma links_app m p l1 l2 q : links m p (l1 ++ l2) q <-> exists r, links m p l1 r /\ links m r l2 q.
Proof.
  revert p. induction l1 as [|x l1 IH]; intros p; cbn [app links]; [naive_solver|].
  rewrite IH. naive_solver.
Qed.

Lemma links_frame m m' p l q : Forall (same_link m m') l -> links m p l q -> links m' p l q.
Proof.
  intros Hl. revert p. induction Hl as [|x l Hx _ IH]; intros p; cbn [links]; [done|].
  intros [-> H]. split; [done|]. rewrite (load64_same _ _ _ Hx). by apply IH.
Qed.

Lemma links_nth m p l q k x :
  links m p l q -> l !! k = Some x -> load64 m x = default q (l !! S k).
Proof.
  revert p k. induction l as [|y l IH]; intros p k; [done|]. cbn [links]. intros [-> H].
  destruct k as [|k]; simpl.
  - intros [= <-]. destruct l as [|z l]; cbn [links] in H; naive_solver.
  - intros Hk. by apply (IH _ _ H).
Qed.

(** ** The pools as lists of free elements *)

(** What the linker provides for a pool: an array inside the address space, away
    from the null pointer, with elements that have room for a link. *)
Record desc_ok (d : memp_desc) : Prop := {
  dk_size : 8 <= d_size d /\ d_size d mod 4 = 0;
  dk_num : 0 <= d_num d < 65536;
  dk_base : 0 < d_base d;
  dk_end : array_end d < 18446744073709551616
}.

(** No two arrays overlap, and each pool has its own variables. *)
Record placed (pools : list memp_desc) : Prop := {
  pl_desc : Forall desc_ok pools;
  pl_apart : forall i j d e, pools !! i = Some d -> pools !! j = Some e -> i <> j ->
    (array_end d <= d_base e \/ array_end e <= d_base d) /\ d_tab d <> d_tab e /\ d_stats d <> d_stats e
}.

Definition element (d : memp_desc) (i : nat) : Z := LWIP_MEM_ALIGN (d_base d) + Z.of_nat i * d_size d.
Definition elements (d : memp_desc) : list Z := map (element d) (seq 0 (Z.to_nat (d_num d))).

(** The free elements of a pool are [l]. *)
Record pool_ok (s : memp_state) (d : memp_desc) (l : list Z) : Prop := {
  po_links : links (memory s) (tab_of d s) l 0;
  po_nodup : NoDup l;
  po_elements : l ⊆ elements d;
  po_avail : st_avail (stats_of d s) = d_num d;
  po_used : st_used (stats_of d s) = d_num d - Z.of_nat (length l);
  po_max : st_used (stats_of d s) <= st_max (stats_of d s) <= d_num d
}.

(** The elements the users hold. *)
Definition allocated (d : memp_desc) (l : list Z) : list Z := filter (fun x => x ∉ l) (elements d).

Section pool.
Context (d : memp_desc).
Context (Hd : desc_ok d).

Lemma element_bounds i :
  (i < Z.to_nat (d_num d))%nat ->
  d_base d <= element d i /\ element d i + d_size d <= array_end d /\ element d i mod 4 = 0 /\ 0 < element d i.
Proof.
  intros Hi. destruct Hd as [[H8 H4] Hn Hb He]. unfold element, array_end, MEMP_SIZE, MEM_ALIGNMENT in *.
  assert (0 <= d_num d * d_size d) by nia. rewrite align_eq by lia.
  assert ((Z.of_nat i + 1) * d_size d <= d_num d * d_size d) by (apply Z.mul_le_mono_nonneg_r; lia).
  assert (0 <= Z.of_nat i * d_size d) by nia.
  assert (E : (Z.of_nat i * d_size d) mod 4 = 0) by (rewrite Z.mul_mod, H4, Z.mul_0_r by lia; done).
  split_and!; zlia.
Qed.

Lemma elements_lookup x : x ∈ elements d <-> exists i, x = element d i /\ (i < Z.to_nat (d_num d))%nat.
Proof.
  unfold elements. rewrite list_elem_of_fmap. split; intros (i & -> & Hi); exists i; rewrite elem_of_seq in *; (split; [done|lia]).
Qed.

Lemma element_bounds' x :
  x ∈ elements d -> d_base d <= x /\ x + d_size d <= array_end d /\ x mod 4 = 0 /\ 0 < x.
Proof. intros (i & -> & Hi)%elements_lookup. by apply element_bounds. Qed.

Lemma elements_apart x y :
  x ∈ elements d -> y ∈ elements d -> x <> y -> x + d_size d <= y \/ y + d_size d <= x.
Proof.
  intros (i & -> & Hi)%elements_lookup (j & -> & Hj)%elements_lookup Hne. pose proof (dk_size _ Hd) as [H8 _].
  unfold element in *. assert (i <> j) by congruence. destruct (Nat.lt_total i j) as [?|[?|?]]; [left|done|right]; nia.
Qed.

Lemma elements_NoDup : NoDup (elements d).
Proof.
  unfold elements. apply NoDup_fmap_2; [|apply NoDup_seq]. intros i j. unfold element. pose proof (dk_size _ Hd) as [H8 _]. nia.
Qed.

Lemma length_elements : Z.of_nat (length (elements d)) = d_num d.
Proof. unfold elements. rewrite length_map, length_seq. pose proof (dk_num _ Hd). lia. Qed.

(** Free and allocated elements together are the pool. *)
Lemma allocated_free l : NoDup l -> l ⊆ elements d -> elements d ≡ₚ l ++ allocated d l.
Proof.
  intros Hnd Hl. apply NoDup_Permutation; [apply elements_NoDup| |].
  - apply NoDup_app. split_and!; [done| |apply NoDup_filter, elements_NoDup].
    intros x Hx [Hx' _]%list_elem_of_filter. done.
  - intros x. unfold allocated. rewrite elem_of_app, list_elem_of_filter. destruct (decide (x ∈ l)); naive_solver.
Qed.

Lemma length_allocated l :
  NoDup l -> l ⊆ elements d -> Z.of_nat (length (allocated d l)) = d_num d - Z.of_nat (length l).
Proof.
  intros Hnd Hl. pose proof (allocated_free l Hnd Hl) as Hp%Permutation_length. rewrite length_app in Hp.
  pose proof length_elements. lia.
Qed.

Lemma free_length l : NoDup l -> l ⊆ elements d -> Z.of_nat (length l) <= d_num d.
Proof. intros Hnd Hl. pose proof (length_allocated l Hnd Hl). lia. Qed.
End pool.

(** Links that lead back: the element behind the last is the first. *)
Lemma round_links m q c i x :
  links m q c q -> c !! (i mod length c)%nat = Some x -> load64 m x = default 0 (c !! (S i mod length c)%nat).
Proof.
  intros Hlk Hx. set (n := length c) in *. assert (Hn : n <> 0%nat).
  { unfold n. destruct c; [done|]. cbn [length]. lia. }
  pose proof (Nat.mod_upper_bound i n Hn) as Hlt. rewrite (links_nth _ _ _ _ _ _ Hlk Hx). destruct (decide (S (i mod n)%nat = n)) as [Hw|Hw].
  - rewrite Hw, lookup_ge_None_2 by (unfold n; lia). replace (S i mod n)%nat with 0%nat.
    + destruct c as [|y c]; cbn [links] in Hlk; [done|]. by destruct Hlk as [-> _].
    + rewrite (Nat.div_mod_eq i n). replace (S (n * (i / n) + i mod n))%nat with (0 + (i / n + 1) * n)%nat by lia.
      by rewrite Nat.Div0.mod_add, Nat.Div0.mod_0_l.
  - replace (S i mod n)%nat with (S (i mod n))%nat.
    + destruct (lookup_lt_is_Some_2 c (S (i mod n)%nat)) as [y Hy]; [unfold n in *; lia|]. by rewrite Hy.
    + rewrite (Nat.div_mod_eq i n) at 2. replace (S (n * (i / n) + i mod n))%nat with (S (i mod n) + (i / n) * n)%nat by lia.
      rewrite Nat.Div0.mod_add. symmetry. apply Nat.mod_small. lia.
Qed.

Section pools.
Context (pools : list memp_desc).
Context (Hpl : placed pools).

Definition pools_ok (s : memp_state) (fl : list (list Z)) : Prop := Forall2 (pool_ok s) pools fl.

Lemma pool_desc t d : pools !! t = Some d -> desc_ok d.
Proof. intros Ht. eapply Forall_lookup_1; [apply (pl_desc _ Hpl)|exact Ht]. Qed.
Hint Resolve pool_desc : core.

Lemma in_pools_element t d x : pools !! t = Some d -> x ∈ elements d -> in_pools pools x = true.
Proof.
  intros Ht Hx. pose proof (pool_desc _ _ Ht) as Hd. pose proof (element_bounds' _ Hd _ Hx). pose proof (dk_size _ Hd) as [H8 _].
  unfold in_pools. apply existsb_exists. exists d. split; [apply list_elem_of_In; by eapply list_elem_of_lookup_2|].
  rewrite andb_true_iff, !Z.leb_le. lia.
Qed.

Lemma memp_next_exec t d x s :
  pools !! t = Some d -> x ∈ elements d -> memp_next pools x s = Ret (load64 (memory s) x, s).
Proof. intros Ht Hx. unfold memp_next. by rewrite (in_pools_element _ _ _ Ht Hx). Qed.

Lemma set_memp_next_exec t d x v s :
  pools !! t = Some d -> x ∈ elements d ->
  set_memp_next pools x v s = Ret (tt, mk_memp (store64 x v (memory s)) (tabs s) (memp_stats s)).
Proof. intros Ht Hx. unfold set_memp_next. by rewrite (in_pools_element _ _ _ Ht Hx). Qed.

(** Elements of the pools do not overlap. *)
Lemma apart i j d e x y :
  pools !! i = Some d -> pools !! j = Some e -> x ∈ elements d -> y ∈ elements e -> (i = j -> x <> y) ->
  x + d_size d <= y \/ y + d_size e <= x.
Proof.
  intros Hi Hj Hx Hy Hne. pose proof (pool_desc _ _ Hi) as Hd. pose proof (pool_desc _ _ Hj) as He.
  destruct (decide (i = j)) as [->|Hij].
  - simplify_eq. apply elements_apart; [done|done|done|by apply Hne].
  - destruct (pl_apart _ Hpl _ _ _ _ Hi Hj Hij) as [Ha _].
    pose proof (element_bounds' _ Hd _ Hx). pose proof (element_bounds' _ He _ Hy). lia.
Qed.

Lemma pool_ok_frame s s' d l :
  pool_ok s d l -> Forall (same_link (memory s) (memory s')) l ->
  tab_of d s' = tab_of d s -> stats_of d s' = stats_of d s -> pool_ok s' d l.
Proof.
  intros [Hl Hn He Ha Hu Hm] Hf Et Es. split; rewrite ?Es, ?Et; try done. by eapply links_frame.
Qed.

Lemma tab_of_insert d e v m tb st : tab_of e (mk_memp m (<[d_tab d := v]> tb) st) =
  if decide (d_tab d = d_tab e) then v else default 0 (tb !! d_tab e).
Proof. unfold tab_of. cbn [tabs]. rewrite lookup_insert. by case_decide. Qed.
Lemma stats_of_insert d e v m tb st : stats_of e (mk_memp m tb (<[d_stats d := v]> st)) =
  if decide (d_stats d = d_stats e) then v else default (mk_stats 0 0 0 0) (st !! d_stats e).
Proof. unfold stats_of. cbn [memp_stats]. rewrite lookup_insert. by case_decide. Qed.

(** One pool changes: its variables, and the bytes of elements [xs] of it. *)
Definition changed (d : memp_desc) (xs : list Z) (s s' : memp_state) : Prop :=
  (forall e, d_tab d <> d_tab e -> tab_of e s' = tab_of e s) /\
  (forall e, d_stats d <> d_stats e -> stats_of e s' = stats_of e s) /\
  (forall i, (forall x, x ∈ xs -> i < x \/ x + d_size d <= i) -> byte (memory s') i = byte (memory s) i).

Lemma pool_ok_other s s' t j d e l xs :
  pools !! t = Some d -> pools !! j = Some e -> t <> j -> xs ⊆ elements d -> changed d xs s s' ->
  pool_ok s e l -> pool_ok s' e l.
Proof.
  intros Ht Hj Hne Hxs (Htab & Hst & Hm) He. destruct (pl_apart _ Hpl _ _ _ _ Ht Hj Hne) as (_ & Hnt & Hns).
  eapply pool_ok_frame; [exact He| |by apply Htab|by apply Hst].
  apply Forall_forall. intros y Hy i Hi. apply Hm. intros x Hx.
  pose proof (dk_size _ (pool_desc _ _ Hj)) as [H8 _].
  destruct (apart t j d e x y Ht Hj) as [?|?]; [by apply Hxs|by apply (po_elements _ _ _ He)|done|right; lia|left; lia].
Qed.

Lemma pools_ok_update s s' fl t d l xs :
  pools_ok s fl -> pools !! t = Some d -> xs ⊆ elements d -> changed d xs s s' ->
  pool_ok s' d l -> pools_ok s' (<[t := l]> fl).
Proof.
  intros Hok Ht Hxs Hc Hl. apply Forall2_same_length_lookup_2.
  { rewrite length_insert. by eapply Forall2_length. }
  intros j e l' Hj Hl'. destruct (decide (t = j)) as [<-|Hne].
  { rewrite list_lookup_insert_eq in Hl' by (apply Forall2_length in Hok as <-; by eapply lookup_lt_Some).
    by simplify_eq. }
  rewrite list_lookup_insert_ne in Hl' by done. eapply pool_ok_other; [exact Ht|exact Hj|done|done|done|].
  exact (Forall2_lookup_lr _ _ _ _ _ _ Hok Hj Hl').
Qed.

Lemma tab_of_set d s m st v : tab_of d (mk_memp m (<[d_tab d := v]> (tabs s)) st) = v.
Proof. unfold tab_of. cbn [tabs]. by rewrite lookup_insert_eq. Qed.
Lemma stats_of_set d s m tb v : stats_of d (mk_memp m tb (<[d_stats d := v]> (memp_stats s))) = v.
Proof. unfold stats_of. cbn [memp_stats]. by rewrite lookup_insert_eq. Qed.

Lemma changed_vars d xs s m v st :
  (forall i, (forall x, x ∈ xs -> i < x \/ x + d_size d <= i) -> byte m i = byte (memory s) i) ->
  changed d xs s (mk_memp m (<[d_tab d := v]> (tabs s)) (<[d_stats d := st]> (memp_stats s))).
Proof.
  intros Hm. split_and!; [| |exact Hm]; intros e He; unfold tab_of, stats_of; cbn [tabs memp_stats];
    by rewrite lookup_insert_ne.
Qed.

(** ** The operations on the lists *)

Lemma pool_malloc_spec s fl t d l :
  pools_ok s fl -> pools !! t = Some d -> fl !! t = Some l ->
  wp (memp_malloc pools t) s (fun r s' => memory s' = memory s /\
    match l with
    | [] => r = None /\ pools_ok s' fl
    | x :: l' => r = Some x /\ pools_ok s' (<[t := l']> fl)
    end).
Proof.
  intros Hok Ht Hl. pose proof (Forall2_lookup_lr _ _ _ _ _ _ Hok Ht Hl) as [Hlk Hnd Hel Hav Hus Hmx].
  pose proof (pool_desc _ _ Ht) as Hd. pose proof (dk_num _ Hd) as Hnum.
  unfold memp_malloc. rewrite Ht. unfold do_memp_malloc_pool. apply wp_bind. eapply (wp_exec _ _ (tab_of d s)); [done|].
  destruct l as [|x l]; cbn [links] in Hlk.
  - rewrite Hlk. cbn [Z.eqb negb]. apply wp_bind, wp_modify, wp_ret. split; [done|]. split; [done|].
    rewrite <-(list_insert_id fl t []) by done. eapply (pools_ok_update _ _ _ _ _ _ []); [done|done|set_solver| |].
    + split_and!; [done| |done]. intros e He. unfold stats_of. cbn [memp_stats]. by rewrite lookup_insert_ne.
    + split; rewrite ?stats_of_set; done.
  - destruct Hlk as [Etab Hlk]. rewrite Etab. pose proof (Hel x ltac:(set_solver)) as Hx.
    pose proof (element_bounds' _ Hd _ Hx) as (_ & _ & H4 & H0).
    rewrite (proj2 (Z.eqb_neq x 0)) by lia. cbn [negb].
    apply wp_bind. eapply wp_exec; [by eapply memp_next_exec|]. apply wp_bind, wp_modify.
    apply wp_bind. unfold MEM_ALIGNMENT. rewrite H4. apply wp_ret. apply wp_bind, wp_modify, wp_ret.
    split; [done|]. unfold MEMP_SIZE. rewrite Z.add_0_r. split; [done|].
    change (stats_of d (mk_memp _ _ _)) with (stats_of d s). cbn [memory tabs memp_stats].
    eapply (pools_ok_update _ _ _ _ _ _ []); [done|done|set_solver|by apply changed_vars|].
    pose proof (free_length d Hd _ Hnd Hel) as Hlen. apply NoDup_cons in Hnd as [_ Hnd]. cbn [length] in Hus, Hlen.
    split; rewrite ?tab_of_set, ?stats_of_set; cbn [st_avail st_used st_max]; [done|done|set_solver|done| |].
    + rewrite u16_small by lia. lia.
    + rewrite u16_small by lia. destruct (Z.ltb_spec (st_max (stats_of d s)) (st_used (stats_of d s) + 1)); lia.
Qed.

Lemma store64_changed d x v s : desc_ok d ->
  forall i, (forall y, y ∈ [x] -> i < y \/ y + d_size d <= i) -> byte (store64 x v (memory s)) i = byte (memory s) i.
Proof.
  intros Hd i Hi. apply byte_fill_ne. rewrite length_le_bytes. pose proof (dk_size _ Hd) as [H8 _].
  destruct (Hi x); [set_solver|lia|lia].
Qed.

Lemma free_exec s fl t d l x :
  pools_ok s fl -> pools !! t = Some d -> fl !! t = Some l -> x ∈ elements d ->
  memp_free pools t (Some x) s = Ret (tt,
    mk_memp (store64 x (tab_of d s) (memory s)) (<[d_tab d := x]> (tabs s))
      (<[d_stats d := (fun t => mk_stats (st_err t) (st_avail t) (u16 (st_used t - 1)) (st_max t)) (stats_of d s)]> (memp_stats s))).
Proof.
  intros Hok Ht Hl Hx. pose proof (element_bounds' _ (pool_desc _ _ Ht) _ Hx) as (_ & _ & H4 & H0).
  unfold memp_free. rewrite Ht. unfold do_memp_free_pool, MEM_ALIGNMENT, MEMP_SIZE. rewrite H4, Z.sub_0_r. cbn [Z.eqb c_assert].
  rewrite (bind_exec (mret tt) _ s tt s) by done. erewrite bind_exec by done. erewrite bind_exec by done.
  erewrite bind_exec by by eapply set_memp_next_exec. done.
Qed.

(** The pointers of the list are addresses. *)
Lemma tab_range s d l : desc_ok d -> pool_ok s d l -> 0 <= tab_of d s < 18446744073709551616.
Proof.
  intros Hd [Hlk _ Hel _ _ _]. destruct l as [|x l]; cbn [links] in Hlk; [lia|]. destruct Hlk as [-> _].
  pose proof (element_bounds' _ Hd x ltac:(apply Hel; set_solver)). pose proof (dk_end _ Hd). pose proof (dk_size _ Hd). lia.
Qed.

Lemma pool_free_spec s fl t d l x :
  pools_ok s fl -> pools !! t = Some d -> fl !! t = Some l -> x ∈ allocated d l ->
  wp (memp_free pools t (Some x)) s (fun _ s' => pools_ok s' (<[t := x :: l]> fl) /\
    forall i, i < x \/ x + 8 <= i -> byte (memory s') i = byte (memory s) i).
Proof.
  intros Hok Ht Hl [Hnx Hx]%list_elem_of_filter. pose proof (pool_desc _ _ Ht) as Hd.
  pose proof (Forall2_lookup_lr _ _ _ _ _ _ Hok Ht Hl) as Hp. pose proof (tab_range _ _ _ Hd Hp) as Hr.
  destruct Hp as [Hlk Hnd Hel Hav Hus Hmx].
  eapply wp_exec; [by eapply free_exec|]. cbn [memory]. split.
  2: { intros i Hi. apply byte_fill_ne. by rewrite length_le_bytes. }
  eapply (pools_ok_update _ _ _ _ _ _ [x]); [done|done|set_solver|by apply changed_vars, store64_changed|].
  assert (Hnd' : NoDup (x :: l)) by by constructor. assert (Hel' : x :: l ⊆ elements d) by set_solver.
  pose proof (free_length d Hd _ Hnd' Hel') as Hlen. pose proof (dk_num _ Hd). cbn [length] in *.
  split; rewrite ?tab_of_set, ?stats_of_set; cbn [st_avail st_used st_max memory]; try done.
  - split; [done|]. rewrite load64_store64 by done. eapply links_frame; [|exact Hlk].
    apply Forall_forall. intros y Hy. apply store64_same. pose proof (dk_size _ Hd) as [H8 _].
    destruct (elements_apart d Hd x y); [done|by apply Hel|congruence|right; lia|left; lia].
  - rewrite u16_small by lia. cbn [length]. lia.
  - rewrite u16_small by lia. lia.
Qed.

(** ** The check for circles *)

Section sanity.
Context (s : memp_state) (t : nat) (d : memp_desc) (c : list Z).
Context (Ht : pools !! t = Some d) (Hc : c ⊆ elements d) (Hnd : NoDup c).

(** Following the links from the element or null pointer [p i]. *)
Context (p : nat -> Z).
Context (Hp : forall i, p i <> 0 -> p i ∈ c /\ load64 (memory s) (p i) = p (S i)).

Lemma sanity_step k :
  p k <> 0 -> p (2 * k + 1)%nat <> 0 -> p k <> p (2 * k + 1)%nat ->
  (p (2 * k + 2)%nat = 0 -> p (2 * k + 3)%nat = 0) ->
  memp_sanity_body pools (p k, p (2 * k + 1)%nat) s = Ret (inl (p (S k), p (2 * S k + 1)%nat), s).
Proof.
  intros H1 H2 H3 H4. unfold memp_sanity_body.
  rewrite (proj2 (Z.eqb_neq (p k) 0)), (proj2 (Z.eqb_neq (p (2 * k + 1)%nat) 0)), (proj2 (Z.eqb_neq (p k) _)) by done.
  cbn [negb andb]. destruct (Hp k H1) as [Hin1 E1]. destruct (Hp _ H2) as [Hin2 E2].
  erewrite bind_exec by (eapply memp_next_exec; [exact Ht|by apply Hc]).
  erewrite bind_exec by (eapply memp_next_exec; [exact Ht|by apply Hc]). rewrite E1, E2.
  replace (S (2 * k + 1)) with (2 * k + 2)%nat by lia. replace (2 * S k + 1)%nat with (2 * k + 3)%nat by lia.
  destruct (Z.eqb_spec (p (2 * k + 2)%nat) 0) as [E|E]; cbn [negb].
  - erewrite bind_exec by done. by rewrite H4.
  - destruct (Hp _ E) as [Hin3 E3]. erewrite bind_exec by (eapply memp_next_exec; [exact Ht|by apply Hc]).
    rewrite E3. by replace (S (2 * k + 2)) with (2 * k + 3)%nat by lia.
Qed.

Lemma sanity_exec v fuel :
  tab_of d s = p 0%nat -> p 0%nat <> 0 -> fuel = S (Z.to_nat (d_num d)) ->
  loop fuel (memp_sanity_body pools) (p 0%nat, p (2 * 0 + 1)%nat) s = Ret (v, s) ->
  memp_sanity pools d s = Ret (v, s).
Proof.
  intros E0 H0 -> Hl. unfold memp_sanity. rewrite (bind_exec (get_tab d) _ s (p 0%nat) s) by (by rewrite <-E0).
  rewrite (proj2 (Z.eqb_neq _ _)) by done. cbn [negb]. destruct (Hp 0 H0) as [Hin E].
  erewrite bind_exec by (eapply memp_next_exec; [exact Ht|by apply Hc]). by rewrite E.
Qed.
End sanity.

Lemma loop_next {S A B} n (body : A -> M S (A + B)) a a' (s s' : S) :
  body a s = Ret (inl a', s') -> loop (Datatypes.S n) body a s = loop n body a' s'.
Proof. intros E. rewrite loop_S. by rewrite (bind_exec _ _ _ _ _ E). Qed.
Lemma loop_end {S A B} n (body : A -> M S (A + B)) a b (s s' : S) :
  body a s = Ret (inr b, s') -> loop (Datatypes.S n) body a s = Ret (b, s').
Proof. intros E. rewrite loop_S. by rewrite (bind_exec _ _ _ _ _ E). Qed.

Lemma sanity_passes s fl t d l :
  pools_ok s fl -> pools !! t = Some d -> fl !! t = Some l -> memp_sanity pools d s = Ret (1, s).
Proof.
  intros Hok Ht Hl. pose proof (Forall2_lookup_lr _ _ _ _ _ _ Hok Ht Hl) as [Hlk Hnd Hel _ _ _].
  pose proof (pool_desc _ _ Ht) as Hd. set (p i := default 0 (l !! i)).
  assert (Hz : forall i, p i = 0 <-> (length l <= i)%nat).
  { intros i. unfold p. rewrite <-lookup_ge_None. destruct (l !! i) as [x|] eqn:E; simpl; [|done].
    apply list_elem_of_lookup_2 in E. pose proof (element_bounds' _ Hd x ltac:(by apply Hel)). split; [lia|done]. }
  assert (Hp : forall i, p i <> 0 -> p i ∈ l /\ load64 (memory s) (p i) = p (S i)).
  { intros i. rewrite Hz. intros Hi. unfold p. destruct (l !! i) as [x|] eqn:E; [|apply lookup_ge_None in E; lia].
    simpl. split; [by eapply list_elem_of_lookup_2|]. by eapply links_nth. }
  assert (E0 : tab_of d s = p 0%nat) by (destruct l; cbn [links] in Hlk; naive_solver).
  destruct (decide (p 0%nat = 0)) as [H0|H0].
  { unfold memp_sanity. rewrite (bind_exec (get_tab d) _ s (p 0%nat) s) by (by rewrite <-E0). by rewrite H0. }
  eapply sanity_exec; [done|done|exact Hp|done|done|done|].
  assert (H : forall fuel k, (length l < k + fuel)%nat -> (0 < fuel)%nat ->
    loop fuel (memp_sanity_body pools) (p k, p (2 * k + 1)%nat) s = Ret (1, s)).
  { induction fuel as [|fuel IH]; intros k Hk Hf; [lia|]. destruct (decide (2 * k + 1 < length l)%nat) as [Hlt|Hge].
    - rewrite (loop_next _ _ _ (p (S k), p (2 * S k + 1)%nat) _ s); [apply IH; lia|]. eapply sanity_step; try done; rewrite ?Hz; try lia.
      unfold p. destruct (lookup_lt_is_Some_2 l k) as [x Hx]; [lia|].
      destruct (lookup_lt_is_Some_2 l (2 * k + 1)) as [y Hy]; [lia|].
      rewrite Hx, Hy. simpl. intros ->. pose proof (NoDup_lookup _ _ _ _ Hnd Hx Hy). lia.
    - apply loop_end. unfold memp_sanity_body. rewrite (proj2 (Hz (2 * k + 1)%nat)) by lia. cbn [Z.eqb negb].
      by rewrite andb_false_r. }
  apply H; [|lia]. pose proof (free_length d Hd _ Hnd Hel). pose proof (dk_num _ Hd). lia.
Qed.

Lemma sanity_fails s t d c :
  pools !! t = Some d -> c ⊆ elements d -> NoDup c -> c <> [] -> links (memory s) (tab_of d s) c (tab_of d s) ->
  memp_sanity pools d s = Ret (0, s).
Proof.
  intros Ht Hel Hnd Hne Hlk. pose proof (pool_desc _ _ Ht) as Hd. set (n := length c).
  assert (Hn : n <> 0%nat) by (by destruct c). set (p i := default 0 (c !! (i mod n)%nat)).
  assert (Hlt : forall i, (i mod n < n)%nat) by (intros; by apply Nat.mod_upper_bound).
  assert (Hin : forall i, exists x, c !! (i mod n)%nat = Some x /\ p i = x /\ x ∈ c).
  { intros i. destruct (lookup_lt_is_Some_2 c (i mod n)%nat) as [x Hx]; [apply Hlt|]. exists x. unfold p.
    rewrite Hx. split_and!; [done|done|by eapply list_elem_of_lookup_2]. }
  assert (Hnz : forall i, p i <> 0).
  { intros i. destruct (Hin i) as (x & _ & -> & Hx). pose proof (element_bounds' _ Hd x ltac:(by apply Hel)). lia. }
  assert (E0 : tab_of d s = p 0%nat).
  { unfold p. rewrite Nat.Div0.mod_0_l. destruct c as [|x c]; cbn [links] in Hlk; [done|]. by destruct Hlk. }
  assert (Hp : forall i, p i <> 0 -> p i ∈ c /\ load64 (memory s) (p i) = p (S i)).
  { intros i _. destruct (Hin i) as (x & Hx & -> & Hxc). split; [done|]. by apply (round_links _ _ _ _ _ Hlk). }
  eapply sanity_exec; [done|done|exact Hp|done|done|done|].
  assert (H : forall fuel k, (n <= k + fuel)%nat -> (k < n)%nat ->
    loop fuel (memp_sanity_body pools) (p k, p (2 * k + 1)%nat) s = Ret (0, s)).
  { induction fuel as [|fuel IH]; intros k Hk Hkn; [lia|]. destruct (decide (S k = n)) as [Hl|Hl].
    - apply loop_end. unfold memp_sanity_body. rewrite !(proj2 (Z.eqb_neq _ 0)) by done. cbn [negb andb].
      replace (p (2 * k + 1)%nat) with (p k); [by rewrite Z.eqb_refl|].
      unfold p. replace (2 * k + 1)%nat with (k + 1 * n)%nat by lia. by rewrite Nat.Div0.mod_add.
    - rewrite (loop_next _ _ _ (p (S k), p (2 * S k + 1)%nat) _ s); [apply IH; lia|]. eapply sanity_step; try done; [|intros Hz; by apply Hnz in Hz].
      destruct (Hin k) as (x & Hx & -> & _). destruct (Hin (2 * k + 1)%nat) as (y & Hy & -> & _).
      intros ->. pose proof (NoDup_lookup _ _ _ _ Hnd Hx Hy) as E. rewrite (Nat.mod_small k n) in E by lia.
      destruct (decide (2 * k + 1 < n)%nat); [rewrite Nat.mod_small in E; lia|].
      replace (2 * k + 1)%nat with (2 * k + 1 - n + 1 * n)%nat in E by lia.
      rewrite Nat.Div0.mod_add, Nat.mod_small in E; lia. }
  apply H; [|lia]. pose proof (free_length d Hd _ Hnd Hel). pose proof (dk_num _ Hd). unfold n. lia.
Qed.

(** Freeing an element that is free already closes a circle. *)
Lemma double_free_spec s fl t d l x :
  pools_ok s fl -> pools !! t = Some d -> fl !! t = Some l -> x ∈ l ->
  wp (memp_free pools t (Some x)) s (fun _ s' => exists c, NoDup (x :: c) /\ x :: c ⊆ elements d /\
    tab_of d s' = x /\ links (memory s') x (x :: c) x).
Proof.
  intros Hok Ht Hl Hx. pose proof (pool_desc _ _ Ht) as Hd.
  pose proof (Forall2_lookup_lr _ _ _ _ _ _ Hok Ht Hl) as Hp. pose proof (tab_range _ _ _ Hd Hp) as Hr.
  destruct Hp as [Hlk Hnd Hel _ _ _]. eapply wp_exec; [eapply free_exec; [done|done|done|by apply Hel]|].
  apply list_elem_of_split in Hx as (a & b & ->). exists a. rewrite tab_of_set. cbn [memory links].
  rewrite load64_store64 by done. apply links_app in Hlk as (r & Hla & Hlb). cbn [links] in Hlb. destruct Hlb as [-> _].
  apply NoDup_app in Hnd as (Hna & Hab & [Hxb _]%NoDup_cons).
  assert (Hxa : x ∉ a) by (intros H; apply (Hab x H); set_solver).
  split_and!; [by constructor|set_solver|done|done|]. eapply links_frame; [|exact Hla].
  apply Forall_forall. intros y Hy. apply store64_same. pose proof (dk_size _ Hd) as [H8 _].
  destruct (elements_apart d Hd x y); [set_solver|set_solver|congruence|right; lia|left; lia].
Qed.

(** ** Start-up *)

Lemma init_loop s t d fuel :
  pools !! t = Some d -> (Z.to_nat (d_num d) < fuel)%nat -> tab_of d s = 0 ->
  wp (loop fuel (init_body pools d) (0, LWIP_MEM_ALIGN (d_base d))) s (fun _ s' =>
    links (memory s') (tab_of d s') (reverse (elements d)) 0 /\ changed d (elements d) s s' /\
    stats_of d s' = stats_of d s).
Proof.
  intros Ht Hf H0. pose proof (pool_desc _ _ Ht) as Hd. pose proof (dk_num _ Hd) as Hn.
  assert (H : forall fuel k s1, (Z.to_nat (d_num d) < k + fuel)%nat -> (k <= Z.to_nat (d_num d))%nat ->
    links (memory s1) (tab_of d s1) (reverse (map (element d) (seq 0 k))) 0 ->
    0 <= tab_of d s1 < 18446744073709551616 ->
    changed d (elements d) s s1 -> stats_of d s1 = stats_of d s ->
    wp (loop fuel (init_body pools d) (Z.of_nat k, element d k)) s1 (fun _ s' =>
      links (memory s') (tab_of d s') (reverse (elements d)) 0 /\ changed d (elements d) s s' /\
      stats_of d s' = stats_of d s)).
  2: { replace (LWIP_MEM_ALIGN (d_base d)) with (element d 0) by (unfold element; lia).
       apply (H fuel 0%nat s); [lia|lia|done|lia|done|done]. }
  clear fuel Hf. induction fuel as [|fuel IH]; intros k s1 Hf Hk Hlk Hr Hc Hs; [lia|].
  cbn [loop]. apply wp_bind. unfold init_body at 1. destruct (Z.ltb_spec (Z.of_nat k) (d_num d)) as [Hlt|Hge].
  2: { apply wp_ret. apply wp_ret. by replace k with (Z.to_nat (d_num d)) in Hlk by lia. }
  assert (Hx : element d k ∈ elements d) by (apply elements_lookup; exists k; split; [done|lia]).
  pose proof (element_bounds' _ Hd _ Hx) as (_ & Hend & _ & Hpos). pose proof (dk_end _ Hd). pose proof (dk_size _ Hd) as [H8 _].
  apply wp_bind. eapply (wp_exec _ _ (tab_of d s1)); [done|]. apply wp_bind.
  eapply wp_exec; [by eapply set_memp_next_exec|]. apply wp_bind, wp_modify, wp_ret. cbn [memory tabs memp_stats].
  replace (Z.of_nat k + 1) with (Z.of_nat (S k)) by lia.
  replace (element d k + MEMP_SIZE + d_size d) with (element d (S k)) by (unfold element, MEMP_SIZE; lia).
  apply IH; [lia|lia| | | |done].
  - rewrite seq_S, map_app, reverse_app. cbn [map]. rewrite reverse_singleton. cbn [app links Nat.add]. rewrite tab_of_set. split; [done|].
    cbn [memory]. rewrite load64_store64 by done. eapply links_frame; [|exact Hlk].
    apply Forall_forall. intros y Hy. apply elem_of_reverse, list_elem_of_fmap in Hy as (i & -> & Hi). apply elem_of_seq in Hi.
    apply store64_same. unfold element. left. nia.
  - rewrite tab_of_set. lia.
  - destruct Hc as (Hc1 & Hc2 & Hc3). split_and!.
    + intros e He. unfold tab_of. cbn [tabs]. rewrite lookup_insert_ne by done. by apply Hc1.
    + intros e He. by apply Hc2.
    + intros i Hi. cbn [memory]. rewrite store64_changed with (d := d); [by apply Hc3|done|]. intros y ->%list_elem_of_singleton. by apply Hi.
Qed.

Lemma init_pool s t d :
  pools !! t = Some d -> stats_of d s = mk_stats 0 0 0 0 ->
  wp (memp_init_pool pools d) s (fun _ s' => pool_ok s' d (reverse (elements d)) /\ changed d (elements d) s s').
Proof.
  intros Ht Hs. pose proof (pool_desc _ _ Ht) as Hd. unfold memp_init_pool. apply wp_bind, wp_modify, wp_bind.
  eapply wp_mono; [eapply init_loop; [exact Ht|lia|apply tab_of_set]|]. cbn beta. intros _ s1 (Hlk & (Hc1 & Hc2 & Hc3) & Hs1).
  change (stats_of d (mk_memp _ _ _)) with (stats_of d s) in Hs1. rewrite Hs in Hs1. apply wp_modify. split.
  - split; rewrite ?stats_of_set, ?Hs1; cbn [st_avail st_used st_max]; [exact Hlk| | |done| |].
    + rewrite (reverse_Permutation (elements d)). by apply elements_NoDup.
    + intros x. by rewrite elem_of_reverse.
    + rewrite length_reverse. pose proof (length_elements d Hd). lia.
    + pose proof (dk_num _ Hd). lia.
  - split_and!.
    + intros e He. change (tab_of e s1 = tab_of e s). rewrite Hc1 by done. unfold tab_of. cbn [tabs]. by rewrite lookup_insert_ne.
    + intros e He. unfold stats_of at 1. cbn [memp_stats]. rewrite lookup_insert_ne by done. exact (Hc2 e He).
    + intros i Hi. exact (Hc3 i Hi).
Qed.

Lemma init_rest ds : forall ready s, pools = ready ++ ds ->
  Forall (fun d => pool_ok s d (reverse (elements d))) ready ->
  Forall (fun d => stats_of d s = mk_stats 0 0 0 0) ds ->
  wp (init_pools pools ds) s (fun _ s' => Forall (fun d => pool_ok s' d (reverse (elements d))) pools).
Proof.
  induction ds as [|d ds IH]; intros ready s Epl Hr Hs.
  { apply wp_ret. rewrite Epl. by rewrite app_nil_r. }
  apply Forall_cons in Hs as [Hsd Hs]. assert (Ht : pools !! length ready = Some d).
  { rewrite Epl. by apply list_lookup_middle. }
  cbn [init_pools]. apply wp_bind. eapply wp_mono; [by eapply init_pool|]. cbn beta. intros _ s1 [Hd Hc].
  apply (IH (ready ++ [d])); [by rewrite <-app_assoc| |].
  - apply Forall_app. split; [|by constructor]. apply Forall_lookup_2. intros j e Hj.
    assert (j <> length ready) by (apply lookup_lt_Some in Hj; lia).
    eapply (pool_ok_other s s1 (length ready) j); [exact Ht|by rewrite Epl; apply lookup_app_l_Some|done|done|exact Hc|].
    eapply Forall_lookup_1 in Hr; [|exact Hj]. done.
  - apply Forall_lookup_2. intros j e Hj. destruct Hc as (_ & Hc & _). rewrite Hc; [eapply Forall_lookup_1 in Hs; [|exact Hj]; done|].
    assert (He : pools !! (length ready + S j)%nat = Some e).
    { rewrite Epl, lookup_app_r by lia. by replace (length ready + S j - length ready)%nat with (S j) by lia. }
    apply (pl_apart _ Hpl _ _ _ _ Ht He). lia.
Qed.

(** The memory is zero before start-up. *)
Definition memp_fresh (s : memp_state) : Prop := memp_stats s = ∅.

Lemma init_spec s : memp_fresh s ->
  wp (memp_init pools) s (fun _ s' => pools_ok s' (map (fun d => reverse (elements d)) pools)).
Proof.
  intros Hf. unfold memp_init. eapply wp_mono; [apply (init_rest pools [] s); [done|constructor|]|].
  { apply Forall_true. intros d. unfold stats_of. by rewrite Hf. }
  cbn beta. intros _ s' H. unfold pools_ok. apply Forall2_fmap_r. by apply Forall_Forall2_diag.
Qed.

(** ** Users of the pools *)

(** The states that start-up, allocation, freeing of what is held and writing into
    what is held reach, with the elements that are held, each with its pool. *)
Inductive pools_reach : memp_state -> list (nat * Z) -> Prop :=
| reach_init s s' : memp_fresh s -> memp_init pools s = Ret (tt, s') -> pools_reach s' []
| reach_malloc s h t x s' :
    pools_reach s h -> memp_malloc pools t s = Ret (Some x, s') -> pools_reach s' ((t, x) :: h)
| reach_empty s h t s' : pools_reach s h -> memp_malloc pools t s = Ret (None, s') -> pools_reach s' h
| reach_free s h1 t x h2 s' :
    pools_reach s (h1 ++ (t, x) :: h2) -> memp_free pools t (Some x) s = Ret (tt, s') -> pools_reach s' (h1 ++ h2)
| reach_write s h t d x off bs s' :
    pools_reach s h -> (t, x) ∈ h -> pools !! t = Some d ->
    x <= off -> off + Z.of_nat (length bs) <= x + d_size d ->
    write_element off bs s = Ret (tt, s') -> pools_reach s' h.

(** The elements held are those that are not free. *)
Definition holds (fl : list (list Z)) (h : list (nat * Z)) : Prop :=
  NoDup h /\ forall t x, (t, x) ∈ h <-> exists d l, pools !! t = Some d /\ fl !! t = Some l /\ x ∈ allocated d l.

Lemma elem_allocated d l x : x ∈ allocated d l <-> x ∈ elements d /\ x ∉ l.
Proof. unfold allocated. rewrite list_elem_of_filter. naive_solver. Qed.

Lemma holds_init : holds (map (fun d => reverse (elements d)) pools) [].
Proof.
  split; [constructor|]. intros t x. split; [set_solver|]. intros (d & l & Ht & Hl & [Hx Hn]%elem_allocated).
  rewrite list_lookup_fmap, Ht in Hl. simplify_eq/=. by rewrite elem_of_reverse in Hn.
Qed.

(** One list of free elements changes, and with it one element changes hands. *)
Lemma holds_insert fl t l l' d h h' :
  holds fl h -> pools !! t = Some d -> fl !! t = Some l -> NoDup h' ->
  (forall j y, j <> t -> (j, y) ∈ h' <-> (j, y) ∈ h) ->
  (forall y, (t, y) ∈ h' <-> y ∈ allocated d l') ->
  holds (<[t := l']> fl) h'.
Proof.
  intros [_ Hh] Ht Hl Hnd Ho Hs. split; [done|]. intros j y. destruct (decide (j = t)) as [->|Hj].
  - rewrite Hs, list_lookup_insert_eq by by eapply lookup_lt_Some. naive_solver.
  - rewrite Ho, Hh by done. by rewrite list_lookup_insert_ne.
Qed.

Lemma holds_take fl t d x l h :
  holds fl h -> pools !! t = Some d -> fl !! t = Some (x :: l) -> NoDup (x :: l) -> x ∈ elements d ->
  holds (<[t := l]> fl) ((t, x) :: h).
Proof.
  intros Hh Ht Hl [Hxl Hnd]%NoDup_cons Hx. destruct Hh as [Hn Hh].
  assert (Hm : forall y, (t, y) ∈ h <-> y ∈ allocated d (x :: l)) by (intros y; rewrite Hh; naive_solver).
  eapply holds_insert; [exact (conj Hn Hh)|done|done| | |].
  - constructor; [|done]. rewrite Hm, elem_allocated. set_solver.
  - set_solver.
  - intros y. rewrite elem_of_cons, Hm, !elem_allocated, elem_of_cons. destruct (decide (y = x)); naive_solver.
Qed.

Lemma holds_give fl t d x l h1 h2 :
  holds fl (h1 ++ (t, x) :: h2) -> pools !! t = Some d -> fl !! t = Some l ->
  x ∈ allocated d l /\ holds (<[t := x :: l]> fl) (h1 ++ h2).
Proof.
  intros Hh Ht Hl. destruct Hh as [Hn Hh].
  assert (Hm : forall y, (t, y) ∈ h1 ++ (t, x) :: h2 <-> y ∈ allocated d l) by (intros y; rewrite Hh; naive_solver).
  split; [apply Hm; set_solver|]. pose proof Hn as Hp. rewrite <-Permutation_middle in Hp. apply NoDup_cons in Hp as [Hx Hp].
  eapply holds_insert; [exact (conj Hn Hh)|done|done|done|set_solver|].
  intros y. specialize (Hm y). rewrite elem_allocated in *. rewrite elem_of_cons.
  destruct (decide (y = x)) as [->|Hy]; [naive_solver|]. split; [intros Hin|intros [He Hnl]].
  - assert ((t, y) ∈ h1 ++ (t, x) :: h2) as [? ?]%Hm by set_solver. naive_solver.
  - assert ((t, y) ∈ h1 ++ (t, x) :: h2) as Hin by (apply Hm; naive_solver). set_solver.
Qed.

Lemma holds_count fl h t d l :
  holds fl h -> pools !! t = Some d -> fl !! t = Some l ->
  length (filter (fun e => e.1 = t) h) = length (allocated d l).
Proof.
  intros [Hn Hh] Ht Hl. rewrite <-(length_map (pair t) (allocated d l)). apply Permutation_length, NoDup_Permutation.
  - by apply NoDup_filter.
  - apply NoDup_fmap_2; [intros ???; congruence|]. apply NoDup_filter, elements_NoDup. eauto.
  - intros [j y]. rewrite list_elem_of_filter, list_elem_of_fmap, Hh. simpl. naive_solver.
Qed.

Lemma write_ok s fl t d l x off bs s' :
  pools_ok s fl -> pools !! t = Some d -> fl !! t = Some l -> x ∈ allocated d l ->
  x <= off -> off + Z.of_nat (length bs) <= x + d_size d ->
  write_element off bs s = Ret (tt, s') -> pools_ok s' fl.
Proof.
  intros Hok Ht Hl [Hx Hn]%elem_allocated H1 H2 [= <-]. rewrite <-(list_insert_id fl t l) by done.
  pose proof (pool_desc _ _ Ht) as Hd. pose proof (dk_size _ Hd) as [H8 _].
  assert (Hb : forall i, i < x \/ x + d_size d <= i -> byte (fill off bs (memory s)) i = byte (memory s) i).
  { intros i Hi. apply byte_fill_ne. lia. }
  pose proof (Forall2_lookup_lr _ _ _ _ _ _ Hok Ht Hl) as Hp.
  eapply (pools_ok_update _ _ _ _ _ _ [x]); [done|done|set_solver| |].
  - split_and!; [done|done|]. intros i Hi. apply Hb, Hi. set_solver.
  - eapply pool_ok_frame; [exact Hp| |done|done]. apply Forall_forall. intros y Hy i Hi. apply Hb.
    destruct (elements_apart d Hd x y); [done|by apply (po_elements _ _ _ Hp)|congruence|right; lia|left; lia].
Qed.

Lemma reach_ok s h : pools_reach s h -> exists fl, pools_ok s fl /\ holds fl h.
Proof.
  intros Hr. induction Hr as [s s' Hf E|s h t x s' _ (fl & Hok & Hh) E|s h t s' _ (fl & Hok & Hh) E
    |s h1 t x h2 s' _ (fl & Hok & Hh) E|s h t d x off bs s' _ (fl & Hok & Hh) Hx Ht H1 H2 E].
  - pose proof (init_spec s Hf) as H. unfold wp in H. rewrite E in H. eexists. split; [exact H|apply holds_init].
  - destruct (pools !! t) as [d|] eqn:Ht; [|unfold memp_malloc in E; by rewrite Ht in E].
    destruct (Forall2_lookup_l _ _ _ _ _ Hok Ht) as (l & Hl & Hp). pose proof (pool_malloc_spec s fl t d l Hok Ht Hl) as H.
    unfold wp in H. rewrite E in H. destruct l as [|y l]; [naive_solver|]. destruct H as (_ & [= <-] & H). eexists. split; [exact H|].
    eapply holds_take; [done|done|done|apply Hp|]. apply (po_elements _ _ _ Hp). set_solver.
  - destruct (pools !! t) as [d|] eqn:Ht; [|unfold memp_malloc in E; rewrite Ht in E; by injection E as <-; exists fl].
    destruct (Forall2_lookup_l _ _ _ _ _ Hok Ht) as (l & Hl & Hp). pose proof (pool_malloc_spec s fl t d l Hok Ht Hl) as H.
    unfold wp in H. rewrite E in H. destruct l as [|y l]; [|naive_solver]. exists fl. naive_solver.
  - destruct (proj1 (proj2 Hh t x) ltac:(set_solver)) as (d & l & Ht & Hl & _).
    destruct (holds_give _ _ _ _ _ _ _ Hh Ht Hl) as [Hx Hh']. pose proof (pool_free_spec s fl t d l x Hok Ht Hl Hx) as H.
    unfold wp in H. rewrite E in H. destruct H as [H _]. by eexists.
  - destruct (proj1 (proj2 Hh t x) Hx) as (d' & l & Ht' & Hl & Hx'). simplify_eq. exists fl. split; [|done].
    by eapply write_ok.
Qed.
End pools.

(** ** Properties *)

(** C23: the contract of the pools.  Whatever the users did with what they hold,
    allocation from a pool of [d_num] elements returns, and fails exactly when they
    hold all of them; the element it returns is aligned, inside the array of the
    pool and overlaps nothing that is held, in this or another pool, and the memory
    is as before.  Giving any of the elements held back returns too, and changes no
    byte of the others. *)
Theorem pool_contract pools s h t d :
  placed pools -> pools_reach pools s h -> pools !! t = Some d ->
  wp (memp_malloc pools t) s (fun r s' => memory s' = memory s /\
    match r with
    | None => Z.of_nat (length (filter (fun e => e.1 = t) h)) = d_num d
    | Some x =>
        Z.of_nat (length (filter (fun e => e.1 = t) h)) < d_num d /\
        x mod MEM_ALIGNMENT = 0 /\ d_base d <= x /\ x + d_size d <= array_end d /\
        forall t' y e, (t', y) ∈ h -> pools !! t' = Some e -> x + d_size d <= y \/ y + d_size e <= x
    end) /\
  forall x, (t, x) ∈ h -> wp (memp_free pools t (Some x)) s (fun _ s' =>
    forall t' y e i, (t', y) ∈ h -> (t', y) <> (t, x) -> pools !! t' = Some e -> y <= i < y + d_size e ->
      byte (memory s') i = byte (memory s) i).
Proof.
  intros Hpl Hr Ht. destruct (reach_ok pools Hpl s h Hr) as (fl & Hok & Hh). pose proof (pool_desc pools Hpl _ _ Ht) as Hd.
  destruct (Forall2_lookup_l _ _ _ _ _ Hok Ht) as (l & Hl & Hp). pose proof Hp as [Hlk Hnd Hel _ _ _].
  pose proof (holds_count pools Hpl _ _ _ _ _ Hh Ht Hl) as Hcount. pose proof (length_allocated d Hd _ Hnd Hel) as Hlen.
  pose proof (dk_size _ Hd) as [H8 _]. split.
  - eapply wp_mono; [by apply (pool_malloc_spec pools Hpl s fl t d l)|]. cbn beta. intros r s' [Hm H]. split; [done|].
    destruct l as [|x l]; destruct H as [-> H]; cbn [length] in Hlen; [lia|].
    assert (Hx : x ∈ elements d) by (apply Hel; set_solver).
    pose proof (element_bounds' d Hd x Hx) as (? & ? & ? & ?). split_and!; [lia|done|done|done|].
    intros t' y e Hy He. apply (proj2 Hh) in Hy as (d' & l' & Ht' & Hl' & [Hy Hny]%elem_allocated). simplify_eq.
    apply (apart pools Hpl t t'); [done|done|done|done|]. intros <-. simplify_eq. set_solver.
  - intros x Hx. pose proof (proj1 (proj2 Hh t x) Hx) as (d' & l' & Ht' & Hl' & Ha). simplify_eq.
    eapply wp_mono; [by apply (pool_free_spec pools Hpl s fl t d l x)|]. cbn beta. intros _ s' [_ Hs] t' y e i Hy Hne He Hi. apply Hs.
    apply (proj2 Hh) in Hy as (e' & l' & Ht2 & Hl2 & [Hy _]%elem_allocated). apply elem_allocated in Ha as [Ha _]. simplify_eq.
    destruct (apart pools Hpl t t' d _ x y Ht Ht2) as [?|?]; [done|done|congruence|right; lia|left; lia].
Qed.

(** C24: the pools are well formed in every state their users can reach: the links
    of each pool lead once through exactly the elements that nobody holds and end in
    the null pointer, the statistics count the others, the check for circles passes,
    and what is held does not overlap. *)
Theorem pools_well_formed pools s h :
  placed pools -> pools_reach pools s h ->
  exists fl, pools_ok pools s fl /\ holds pools fl h /\
    (forall t d, pools !! t = Some d -> memp_sanity pools d s = Ret (1, s)) /\
    (forall t x d t' y e, (t, x) ∈ h -> (t', y) ∈ h -> (t, x) <> (t', y) ->
       pools !! t = Some d -> pools !! t' = Some e -> x + d_size d <= y \/ y + d_size e <= x).
Proof.
  intros Hpl Hr. destruct (reach_ok pools Hpl s h Hr) as (fl & Hok & Hh). exists fl. split_and!; [done|done| |].
  - intros t d Ht. destruct (Forall2_lookup_l _ _ _ _ _ Hok Ht) as (l & Hl & _). by apply (sanity_passes pools Hpl s fl t d l).
  - intros t x d t' y e Hx Hy Hne Ht Ht'.
    apply (proj2 Hh) in Hx as (d1 & l1 & H1 & _ & [Hx _]%elem_allocated).
    apply (proj2 Hh) in Hy as (d2 & l2 & H2 & _ & [Hy _]%elem_allocated). simplify_eq.
    apply (apart pools Hpl t t'); [done|done|done|done|congruence].
Qed.

(** A double free is found by the check, and only by it.  Giving back an element
    that is free already returns as if nothing were wrong; the links then lead round
    in a circle, so that elements are handed out twice, and the check for circles
    (Floyd's algorithm, not part of this configuration) ends and says so. *)
Theorem pool_double_free pools s fl t d l x :
  placed pools -> pools_ok pools s fl ->
  pools !! t = Some d -> fl !! t = Some l -> x ∈ l ->
  wp (memp_free pools t (Some x)) s (fun _ s' =>
    memp_sanity pools d s' = Ret (0, s') /\
    exists c, links (memory s') (tab_of d s') (x :: c) x).
Proof.
  intros Hpl Hok Ht Hl Hx. eapply wp_mono; [by apply (double_free_spec pools Hpl s fl t d l x)|].
  cbn beta. intros _ s' (c & Hnd & Hel & Et & Hlk). rewrite <-Et in Hlk at 1. split; [|by exists c].
  apply (sanity_fails pools Hpl s' t d (x :: c)); [done|done|done|done|]. by rewrite Et in *.
Qed.

(** ** Witnesses: the configured pools, placed a million bytes apart *)

Definition far_apart (i : nat) : Z := 4097 + 1000000 * Z.of_nat i.
Definition the_pools : list memp_desc := memp_pools far_apart.
Definition no_state {A} (s : memp_state) (o : outcome (A * memp_state)) : memp_state :=
  match o with Ret (_, s') => s' | _ => s end.
Definition unused : memp_state := mk_memp ∅ ∅ ∅.
Definition started_pools : memp_state := no_state unused (memp_init the_pools unused).
Definition one_held : memp_state := no_state unused (memp_malloc the_pools 2 started_pools).
Definition first_group : Z := Eval vm_compute in default 0 (last (elements (LWIP_MEMPOOL_DECLARE 2 (far_apart 2) 4 40))).

Lemma the_pools_placed : placed the_pools.
Proof.
  split.
  - repeat constructor; vm_compute; intuition congruence.
  - intros i j d e Hi Hj Hij.
    destruct i as [|[|[|[|[|i]]]]]; [..|done]; (destruct j as [|[|[|[|[|j]]]]]; [..|done]); try done;
      injection Hi as <-; injection Hj as <-; (split_and!; [|done|done]); vm_compute; by intuition congruence.
Qed.

Lemma started_exec : memp_init the_pools unused = Ret (tt, started_pools).
Proof.
  destruct (wp_elim _ _ _ (init_spec the_pools the_pools_placed unused eq_refl)) as ([] & s' & E & _).
  unfold started_pools. rewrite E. reflexivity.
Qed.

Lemma started_lists : pools_ok the_pools started_pools (map (fun d => reverse (elements d)) the_pools).
Proof.
  destruct (wp_elim _ _ _ (init_spec the_pools the_pools_placed unused eq_refl)) as ([] & s' & E & H).
  unfold started_pools. rewrite E. exact H.
Qed.

Lemma started_reach : pools_reach the_pools started_pools [].
Proof. exact (reach_init _ unused _ eq_refl started_exec). Qed.

Lemma one_held_exec : memp_malloc the_pools 2 started_pools = Ret (Some first_group, one_held).
Proof.
  destruct (wp_elim _ _ _ (pool_malloc_spec the_pools the_pools_placed _ _ 2 _ _ started_lists eq_refl eq_refl)) as (r & s' & E & _ & Hr).
  replace (reverse (elements _)) with (first_group :: map (fun k => first_group - 40 * k) [1; 2; 3]) in Hr by (by vm_compute).
  destruct Hr as [-> _]. unfold one_held. rewrite E. reflexivity.
Qed.

Lemma one_held_reach : pools_reach the_pools one_held [(2%nat, first_group)].
Proof. exact (reach_malloc _ _ _ _ _ _ started_reach one_held_exec). Qed.

Lemma pool_contract_witness :
  wp (memp_free the_pools 2 (Some first_group)) one_held (fun _ s' => True).
Proof.
  destruct (pool_contract the_pools one_held [(2%nat, first_group)] 2 (LWIP_MEMPOOL_DECLARE 2 (far_apart 2) 4 40)
    the_pools_placed one_held_reach eq_refl) as [_ H].
  exact (wp_mono _ _ _ _ (H first_group (list_elem_of_here _ _)) (fun _ _ _ => I)).
Defined.

Lemma pools_well_formed_witness :
  exists fl, pools_ok the_pools one_held fl /\ holds the_pools fl [(2%nat, first_group)].
Proof.
  destruct (pools_well_formed the_pools one_held [(2%nat, first_group)] the_pools_placed one_held_reach) as (fl & H1 & H2 & _).
  by exists fl.
Defined.

Abbreviation group_pool := (LWIP_MEMPOOL_DECLARE 2 (far_apart 2) 4 40).

Lemma first_group_free : first_group ∈ reverse (elements group_pool).
Proof. apply elem_of_reverse. vm_compute. do 3 right. by left. Qed.

(** Freeing the element at the head of the list again. *)
Lemma pool_double_free_witness :
  wp (memp_free the_pools 2 (Some first_group)) started_pools (fun _ s' =>
    memp_sanity the_pools group_pool s' = Ret (0, s')).
Proof.
  exact (wp_mono _ _ _ _
    (pool_double_free the_pools started_pools _ 2 group_pool _ first_group the_pools_placed started_lists
       eq_refl eq_refl first_group_free) (fun _ _ H => proj1 H)).
Defined.
