(* ===== verification/LinkedList.v ===== *)
(** * Singly linked lists in a heap

    The storage function, the routing function and the pbuf layer all keep
    their objects in singly linked lists that the C code walks, extends at
    the tail and unlinks from with a [prev]/[current] pair of pointers.  This
    file has the heap of list nodes, the three loops as executable
    definitions over it, and the refinement lemmas that relate them to
    operations on mathematical lists. *)

From S2P Require Import Prelude.

Abbreviation loc := positive.

(** A heap object: the payload of a C struct and its [next] pointer. *)
Record node (V : Type) := Node { n_val : V; n_next : option loc }.
Arguments Node {V} _ _.
Arguments n_val {V} _.
Arguments n_next {V} _.

(** The address of the next allocation: any address not in use. *)
Definition new_loc {A} (h : gmap loc A) : loc := fresh (dom h : gset loc).

Lemma new_loc_fresh {A} (h : gmap loc A) : h !! new_loc h = None.
Proof. apply not_elem_of_dom. exact (is_fresh (dom h : gset loc)). Qed.

Section linked_lists.
Context {V : Type}.
Implicit Types (h : gmap loc (node V)) (p : option loc) (ls : list (loc * V)).

(** ** The representation predicate *)

Fixpoint llist h p ls : Prop :=
  match ls with
  | [] => p = None
  | (l, v) :: ls =>
      p = Some l /\ exists q, h !! l = Some (Node v q) /\ llist h q ls
  end.

(** A segment from [p] up to (not including) [q]. *)
Fixpoint lseg h p ls (q : option loc) : Prop :=
  match ls with
  | [] => p = q
  | (l, v) :: ls =>
      p = Some l /\ exists r, h !! l = Some (Node v r) /\ lseg h r ls q
  end.

(** ** The loops of the C code *)

(** [while (current->next != NULL) current = current->next;] *)
Definition walk_last (fuel : nat) h (cur : loc) : outcome loc :=
  oloop fuel (fun cur =>
    n ← deref (h !! cur);
    match n_next n with
    | None => Ret (inr cur)
    | Some nx => Ret (inl nx)
    end) cur.

(** Append at the tail: [head] if the list is empty, otherwise the [next]
    field of the last object. *)
Definition append_node (fuel : nat) h (head : option loc) (new : loc)
  : outcome (gmap loc (node V) * option loc) :=
  match head with
  | None => Ret (h, Some new)
  | Some hd =>
      lst ← walk_last fuel h hd;
      n ← deref (h !! lst);
      Ret (<[lst := Node (n_val n) (Some new)]> h, head)
  end.

(** Search with a trailing [prev] pointer; the test may itself be stuck. *)
Definition find_body h (test : V -> outcome bool) (pc : option loc * option loc)
  : outcome (option loc * option loc + option (option loc * loc)) :=
  match pc.2 with
  | None => Ret (inr None)
  | Some c =>
      n ← deref (h !! c);
      b ← test (n_val n);
      if (b : bool) then Ret (inr (Some (pc.1, c)))
      else Ret (inl (Some c, n_next n))
  end.
Definition find_node (fuel : nat) h (test : V -> outcome bool)
    (head : option loc) : outcome (option (option loc * loc)) :=
  oloop fuel (find_body h test) (None, head).

(** [if (prev == NULL) head = c->next; else prev->next = c->next;] *)
Definition unlink_node h (head prev : option loc) (c : loc)
  : outcome (gmap loc (node V) * option loc) :=
  n ← deref (h !! c);
  match prev with
  | None => Ret (h, n_next n)
  | Some pr =>
      m ← deref (h !! pr);
      Ret (<[pr := Node (n_val m) (n_next n)]> h, head)
  end.

(** ** Abstract counterparts *)

Fixpoint remove_first (f : V -> bool) ls : list (loc * V) :=
  match ls with
  | [] => []
  | (l, v) :: ls => if f v then ls else (l, v) :: remove_first f ls
  end.

Fixpoint find_first (f : V -> bool) ls : option (loc * V) :=
  match ls with
  | [] => None
  | (l, v) :: ls => if f v then Some (l, v) else find_first f ls
  end.

(** ** Facts about the representation *)

Lemma llist_lseg h p ls : llist h p ls <-> lseg h p ls None.
Proof. revert p. induction ls as [|[l v] ls IH]; intros p; simpl; naive_solver. Qed.

Lemma lseg_app h p q ls1 ls2 :
  lseg h p (ls1 ++ ls2) q <-> exists r, lseg h p ls1 r /\ lseg h r ls2 q.
Proof.
  revert p. induction ls1 as [|[l v] ls1 IH]; intros p; simpl.
  - naive_solver.
  - setoid_rewrite IH. naive_solver.
Qed.

Lemma llist_app h p ls1 ls2 :
  llist h p (ls1 ++ ls2) <-> exists r, lseg h p ls1 r /\ llist h r ls2.
Proof. rewrite llist_lseg, lseg_app. by setoid_rewrite <-llist_lseg. Qed.

(** The heap determines the list. *)
Lemma llist_det h p ls1 ls2 : llist h p ls1 -> llist h p ls2 -> ls1 = ls2.
Proof.
  revert p ls2. induction ls1 as [|[l v] ls1 IH]; intros p [|[l2 v2] ls2]; simpl.
  - done.
  - intros -> [? _]; done.
  - intros [-> _]; done.
  - intros [-> (q & Hq & H1)] [[= <-] (q2 & Hq2 & H2)].
    rewrite Hq in Hq2. simplify_eq. f_equal. by eapply IH.
Qed.

Lemma llist_elem h p ls l v :
  llist h p ls -> (l, v) ∈ ls -> exists q, h !! l = Some (Node v q).
Proof.
  revert p. induction ls as [|[l' v'] ls IH]; intros p; simpl.
  { intros _ H. by apply elem_of_nil in H. }
  intros [-> (q & Hq & Hr)] [?|?]%elem_of_cons; [simplify_eq; eauto|eauto].
Qed.

(** A null-terminated list visits every object once. *)
Lemma llist_NoDup h p ls : llist h p ls -> NoDup (ls.*1).
Proof.
  revert p. induction ls as [|[l v] ls IH]; intros p; simpl; [constructor|].
  intros [-> (q & Hq & Hr)]. constructor; [|by eapply IH].
  intros ([l' v'] & Heq & Hin)%list_elem_of_fmap. simpl in Heq. subst l'.
  apply list_elem_of_split in Hin as (l1 & l2 & ->).
  apply llist_app in Hr as (r & H1 & H2). simpl in H2.
  destruct H2 as [-> (q' & Hq' & H2)]. rewrite Hq in Hq'. simplify_eq.
  assert (llist h q' (l1 ++ (l, v') :: l2)) as Hall.
  { apply llist_app. exists (Some l). split; [done|]. simpl. eauto. }
  pose proof (llist_det _ _ _ _ H2 Hall) as Heq.
  apply (f_equal length) in Heq. rewrite length_app in Heq. simpl in Heq. lia.
Qed.

Lemma lseg_frame h h' p q ls :
  (forall l, l ∈ ls.*1 -> h' !! l = h !! l) -> lseg h p ls q -> lseg h' p ls q.
Proof.
  revert p. induction ls as [|[l v] ls IH]; intros p Hf; simpl; [done|].
  intros [-> (r & Hr & Hs)]. split; [done|]. exists r. split.
  - rewrite Hf by (simpl; set_solver). done.
  - apply IH; [|done]. intros. apply Hf. simpl. set_solver.
Qed.

Lemma llist_frame h h' p ls :
  (forall l, l ∈ ls.*1 -> h' !! l = h !! l) -> llist h p ls -> llist h' p ls.
Proof. rewrite !llist_lseg. apply lseg_frame. Qed.

Lemma llist_insert_fresh h p ls l n :
  h !! l = None -> llist h p ls -> llist (<[l := n]> h) p ls.
Proof.
  intros Hl Hll. eapply llist_frame; [|done]. intros l' Hl'.
  rewrite lookup_insert_ne; [done|]. intros <-.
  apply list_elem_of_fmap in Hl' as ([l' v] & Heq & Hin). simpl in Heq. subst.
  destruct (llist_elem _ _ _ _ _ Hll Hin). congruence.
Qed.

Lemma llist_delete_other h p ls l :
  l ∉ ls.*1 -> llist h p ls -> llist (delete l h) p ls.
Proof.
  intros Hl. apply llist_frame. intros l' Hl'.
  apply lookup_delete_ne. set_solver.
Qed.

Lemma llist_length h p ls : llist h p ls -> (length ls <= size h)%nat.
Proof.
  intros Hll. rewrite <-(length_fmap fst ls), <-(size_dom h).
  rewrite <-(size_list_to_set (C := gset loc)) by (by eapply llist_NoDup).
  apply subseteq_size. intros l Hl. apply elem_of_list_to_set in Hl.
  apply list_elem_of_fmap in Hl as ([l' v] & -> & Hin).
  destruct (llist_elem _ _ _ _ _ Hll Hin) as [q Hq].
  apply elem_of_dom. simpl. eauto.
Qed.

(** ** Refinement lemmas for the loops *)

Lemma walk_last_spec h hd ls l v fuel :
  llist h (Some hd) (ls ++ [(l, v)]) -> (length ls < fuel)%nat ->
  walk_last fuel h hd = Ret l.
Proof.
  unfold walk_last. revert hd fuel.
  induction ls as [|[l' v'] ls IH]; intros hd [|fuel] Hll Hf; simpl in *; try lia; rewrite oloop_S.
  - destruct Hll as [[= <-] (q & Hq & ->)]. by rewrite Hq.
  - destruct Hll as [[= <-] (q & Hq & Hr)]. rewrite Hq. simpl.
    destruct q as [nx|].
    + apply IH; [done|lia].
    + destruct ls as [|[]]; simpl in Hr; naive_solver.
Qed.

(** Appending refines [ls ++ [(new, v)]]. *)
Lemma append_node_spec h head ls new v fuel :
  llist h head ls -> h !! new = Some (Node v None) -> new ∉ ls.*1 ->
  (length ls <= fuel)%nat ->
  exists h' head', append_node fuel h head new = Ret (h', head') /\
    llist h' head' (ls ++ [(new, v)]) /\
    (forall l, l ∉ ls.*1 -> h' !! l = h !! l).
Proof.
  intros Hll Hnew Hni Hf.
  destruct ls as [|x ls _] using rev_ind; simpl in *.
  { subst head. eexists _, _; split; [done|]. simpl. eauto. }
  destruct x as [l w].
  destruct head as [hd|]; [|destruct ls as [|[]]; simpl in Hll; naive_solver].
  simpl. rewrite length_app in Hf. simpl in Hf.
  rewrite (walk_last_spec _ _ ls l w) by (done || lia). simpl.
  destruct (llist_elem _ _ _ l w Hll) as [q Hq]; [set_solver|].
  pose proof (llist_NoDup _ _ _ Hll) as Hnd.
  rewrite fmap_app, NoDup_app in Hnd. simpl in Hnd.
  destruct Hnd as (_ & Hd & _). rewrite fmap_app in Hni. simpl in Hni.
  rewrite Hq. simpl.
  eexists _, _; split; [done|]. split.
  - rewrite <-app_assoc. apply llist_app in Hll as (r & H1 & H2). simpl in H2.
    destruct H2 as [-> _].
    apply llist_app. exists (Some l). split.
    + eapply lseg_frame; [|done]. intros l' Hl'.
      rewrite lookup_insert_ne; [done|]. intros <-. apply (Hd l Hl'). set_solver.
    + simpl. split; [done|]. exists (Some new). rewrite lookup_insert_eq.
      split; [done|]. split; [done|]. exists None.
      rewrite lookup_insert_ne by set_solver. done.
  - intros l' Hl'. rewrite lookup_insert_ne; [done|].
    rewrite fmap_app in Hl'. simpl in Hl'. set_solver.
Qed.

Definition last_loc ls : option loc := fst <$> last ls.

Lemma find_first_None f ls :
  find_first f ls = None -> Forall (fun x => f x.2 = false) ls /\ remove_first f ls = ls.
Proof.
  induction ls as [|[l v] ls IH]; simpl; [by constructor|].
  destruct (f v) eqn:E; [done|]. intros [? ->]%IH. split; [by constructor|done].
Qed.

Lemma find_first_Some f ls l v :
  find_first f ls = Some (l, v) ->
  exists l1 l2, ls = l1 ++ (l, v) :: l2 /\ Forall (fun x => f x.2 = false) l1 /\
    f v = true /\ remove_first f ls = l1 ++ l2.
Proof.
  induction ls as [|[l' v'] ls IH]; simpl; [done|].
  destruct (f v') eqn:E.
  - intros [= -> ->]. exists [], ls. by repeat constructor.
  - intros (l1 & l2 & -> & H1 & H2 & ->)%IH.
    exists ((l', v') :: l1), l2. by repeat constructor.
Qed.

Lemma find_body_step h test prev c v q b :
  h !! c = Some (Node v q) -> test v = Ret b ->
  find_body h test (prev, Some c) =
    Ret (if b then inr (Some (prev, c)) else inl (Some c, q)).
Proof. intros Hc Ht. unfold find_body. simpl. rewrite Hc. simpl. rewrite Ht. by destruct b. Qed.

Lemma find_node_none h test ls prev cur fuel :
  llist h cur ls -> (forall l v, (l, v) ∈ ls -> test v = Ret false) ->
  (length ls < fuel)%nat ->
  oloop fuel (find_body h test) (prev, cur) = Ret None.
Proof.
  revert prev cur fuel. induction ls as [|[l v] ls IH];
    intros prev cur [|fuel] Hll Ht Hf; simpl in *; try lia; rewrite oloop_S.
  - by subst cur.
  - destruct Hll as [-> (q & Hq & Hr)]. 
    rewrite (find_body_step _ _ _ _ _ _ false Hq) by (apply (Ht l v); set_solver). simpl.
    apply IH; [done| |lia]. intros k w ?. apply (Ht k w). set_solver.
Qed.

Lemma find_node_some h test l0 l1 l v l2 cur fuel :
  llist h cur (l1 ++ (l, v) :: l2) ->
  (forall l v, (l, v) ∈ l1 -> test v = Ret false) -> test v = Ret true ->
  (length l1 < fuel)%nat ->
  oloop fuel (find_body h test) (last_loc l0, cur) = Ret (Some (last_loc (l0 ++ l1), l)).
Proof.
  revert l0 cur fuel. induction l1 as [|[l' v'] l1 IH];
    intros l0 cur [|fuel] Hll Ht Hv Hf; simpl in *; try lia; rewrite oloop_S;
    destruct Hll as [-> (q & Hq & Hr)].
  - rewrite (find_body_step _ _ _ _ _ _ true Hq) by done. simpl. by rewrite app_nil_r.
  - rewrite (find_body_step _ _ _ _ _ _ false Hq) by (apply (Ht l' v'); set_solver). simpl.
    replace (Some l') with (last_loc (l0 ++ [(l', v')]))
      by (unfold last_loc; by rewrite last_snoc).
    rewrite (IH (l0 ++ [(l', v')])); [|done| |done|lia].
    + by rewrite <-app_assoc.
    + intros k w ?. apply (Ht k w). set_solver.
Qed.

Lemma unlink_node_spec h head l1 l v l2 :
  llist h head (l1 ++ (l, v) :: l2) ->
  exists h' head', unlink_node h head (last_loc l1) l = Ret (h', head') /\
    llist h' head' (l1 ++ l2) /\ h' !! l = h !! l /\
    (forall k, k ∉ l1.*1 -> h' !! k = h !! k).
Proof.
  intros Hll. pose proof (llist_NoDup _ _ _ Hll) as Hnd.
  rewrite fmap_app, NoDup_app in Hnd. destruct Hnd as (_ & Hd & _).
  apply llist_app in Hll as (r & H1 & [-> (q & Hq & H2)]).
  unfold unlink_node. rewrite Hq. simpl.
  destruct l1 as [|x l1 _] using rev_ind; simpl in *.
  { subst head. eauto 10. }
  destruct x as [k w]. unfold last_loc. rewrite last_snoc. simpl.
  rewrite fmap_app in Hd. simpl in Hd.
  apply lseg_app in H1 as (r & H1 & [-> (r' & Hk & ->)]). rewrite Hk. simpl.
  assert (Hkn : (k ∉ l1.*1) /\ (k ∉ l2.*1)).
  { split; [|set_solver]. intros Hin.
    assert (llist h head (l1 ++ (k, w) :: (l, v) :: l2)) as Hll.
    { apply llist_app. exists (Some k). simpl. split; [done|]. eauto 10. }
    apply llist_NoDup in Hll. rewrite fmap_app, NoDup_app in Hll. set_solver. }
  eexists _, _. split; [done|]. split_and!.
  - rewrite <-app_assoc. apply llist_app. exists (Some k). split.
    + eapply lseg_frame; [|done]. intros. apply lookup_insert_ne. set_solver.
    + simpl. split; [done|]. exists q. rewrite lookup_insert_eq. split; [done|].
      eapply llist_frame; [|done]. intros. apply lookup_insert_ne. set_solver.
  - rewrite lookup_insert_ne; [done|]. intros ->. apply (Hd l); set_solver.
  - intros k' Hk'. apply lookup_insert_ne. rewrite fmap_app in Hk'. simpl in Hk'. set_solver.
Qed.

(** Searching and unlinking refine [find_first] and [remove_first]. *)
Lemma find_unlink_spec h head test f ls fuel :
  llist h head ls -> (forall l v, (l, v) ∈ ls -> test v = Ret (f v)) ->
  (length ls < fuel)%nat ->
  match find_first f ls with
  | None => find_node fuel h test head = Ret None /\ remove_first f ls = ls
  | Some (l, v) =>
      exists prev h' head', find_node fuel h test head = Ret (Some (prev, l)) /\
        unlink_node h head prev l = Ret (h', head') /\
        llist (delete l h') head' (remove_first f ls) /\
        h' !! l = h !! l /\ (l, v) ∈ ls /\ f v = true /\
        (forall k, k ∉ ls.*1 -> h' !! k = h !! k)
  end.
Proof.
  intros Hll Ht Hf. destruct (find_first f ls) as [[l v]|] eqn:E.
  - apply find_first_Some in E as (l1 & l2 & -> & H1 & Hv & Hr).
    rewrite length_app in Hf.
    destruct (unlink_node_spec _ _ _ _ _ _ Hll) as (h' & head' & Hu & Hll' & Hl & Hk).
    exists (last_loc l1), h', head'. split_and!; try done.
    + unfold find_node. apply (find_node_some h test [] l1 l v l2); [done| | |lia].
      * intros k w Hin. rewrite (Ht k w) by set_solver.
        rewrite Forall_forall in H1. f_equal. exact (H1 (k, w) Hin).
      * by rewrite (Ht l v) by set_solver; rewrite Hv.
    + rewrite Hr. apply llist_delete_other; [|done].
      apply llist_NoDup in Hll. rewrite fmap_app in Hll. simpl in Hll.
      apply NoDup_app in Hll as (_ & Hd & Hn). inversion Hn; subst.
      rewrite fmap_app. set_solver.
    + set_solver.
    + intros k Hk'. apply Hk. rewrite fmap_app in Hk'. set_solver.
  - apply find_first_None in E as [E ?]. split; [|done].
    unfold find_node. apply (find_node_none _ _ ls); [done| |done].
    intros l v Hin. rewrite (Ht l v Hin). rewrite Forall_forall in E.
    f_equal. exact (E (l, v) Hin).
Qed.

Lemma remove_first_length f ls l v :
  find_first f ls = Some (l, v) -> length ls = S (length (remove_first f ls)).
Proof.
  intros (l1 & l2 & -> & _ & _ & ->)%find_first_Some.
  rewrite !length_app. simpl. lia.
Qed.

Lemma remove_first_sublist f ls : remove_first f ls `sublist_of` ls.
Proof.
  induction ls as [|[l v] ls IH]; simpl; [constructor|].
  destruct (f v); [by constructor|by constructor].
Qed.
End linked_lists.
