(* ===== verification/Ip6Addr.v ===== *)
(** * IPv6 addresses (lwip/ip6_addr.h, core/ipv6/ip6_addr.c)

    The address structure with its zone, the comparison macros, and the two
    conversions to and from text that the DTN code uses: [ip6addr_aton] and
    [ip6addr_ntoa_r]; also the C library's [inet_pton]/[inet_ntop], which
    dtn_routing.c uses for the same purpose.  Main results: the text form
    always fits the callers' buffer and reads back to the same address. *)

From S2P Require Import Prelude.

(** [struct ip6_addr]: four words in network byte order and the zone
    ([LWIP_IPV6_SCOPES] is on, see [opt.h]). *)
Record ip6_addr := mk_ip6 { addr0 : Z; addr1 : Z; addr2 : Z; addr3 : Z; zone : Z }.
#[export] Instance ip6_addr_eq_dec : EqDecision ip6_addr.
Proof. solve_decision. Defined.

Definition IP6_NO_ZONE : Z := 0.
Definition IP6ADDR_STRLEN_MAX : Z := 46.

Definition ip6_addr_set_zone (z : Z) (a : ip6_addr) : ip6_addr :=
  mk_ip6 (addr0 a) (addr1 a) (addr2 a) (addr3 a) z.
Definition ip6_addr_zoneless_eq (a b : ip6_addr) : bool :=
  (addr0 a =? addr0 b) && (addr1 a =? addr1 b) && (addr2 a =? addr2 b) && (addr3 a =? addr3 b).
Definition ip6_addr_cmp (a b : ip6_addr) : bool :=
  ip6_addr_zoneless_eq a b && (zone a =? zone b).
Definition IP6_ADDR (w0 w1 w2 w3 : Z) : ip6_addr := mk_ip6 w0 w1 w2 w3 IP6_NO_ZONE.
Definition ip6_addr_any : ip6_addr := IP6_ADDR 0 0 0 0.

(** The address as it lies in memory: sixteen bytes for [ip6_addr_p_t], and
    the zone byte after them (then padding) for [ip6_addr_t]. *)
Definition ip6_bytes (a : ip6_addr) : list Z :=
  le_bytes 4 (addr0 a) ++ le_bytes 4 (addr1 a) ++ le_bytes 4 (addr2 a) ++ le_bytes 4 (addr3 a).
Definition ip6_of_bytes (l : list Z) : ip6_addr :=
  IP6_ADDR (le_val (slice 0 4 l)) (le_val (slice 4 4 l))
           (le_val (slice 8 4 l)) (le_val (slice 12 4 l)).
(** [memcpy(&a, l, sizeof(ip6_addr_t))]: twenty bytes, the seventeenth of
    which lands in the zone. *)
Definition ip6_of_mem (l : list Z) : ip6_addr :=
  ip6_addr_set_zone (le_val (slice 16 1 l)) (ip6_of_bytes l).
Definition SIZEOF_IP6_ADDR : Z := 20.

(** ** ip6addr_aton *)

Definition lwip_in_range (c lo up : Z) : bool := (lo <=? u8 c) && (u8 c <=? up).
Definition lwip_isdigit (c : Z) : bool := lwip_in_range c 48 57.
Definition lwip_islower (c : Z) : bool := lwip_in_range c 97 122.
Definition lwip_isxdigit (c : Z) : bool :=
  lwip_isdigit c || lwip_in_range c 97 102 || lwip_in_range c 65 70.

Definition colon : Z := 58.

(** First pass: eight minus the number of colons, up to the first character
    that is neither a colon nor a hexadecimal digit. *)
Fixpoint aton_zero_blocks (s : list Z) (zero_blocks : Z) : Z :=
  match s with
  | [] => zero_blocks
  | c :: s' =>
      if c =? colon then aton_zero_blocks s' (u32 (zero_blocks - 1))
      else if lwip_isxdigit c then aton_zero_blocks s' zero_blocks
      else zero_blocks
  end.

Record aton_state := mk_aton {
  at_words : list Z;        (* addr->addr[] *)
  at_index : nat;           (* addr_index *)
  at_zero : Z;              (* zero_blocks *)
  at_block : Z;             (* current_block_index *)
  at_value : Z              (* current_block_value *)
}.

(** [if (current_block_index & 1) addr[addr_index++] |= value;
    else addr[addr_index] = value << 16;] *)
Definition aton_store (st : aton_state) : outcome aton_state :=
  w ← deref (at_words st !! at_index st);
  if Z.odd (at_block st) then
    Ret (mk_aton (<[at_index st := Z.lor w (at_value st)]> (at_words st))
                 (S (at_index st)) (at_zero st) (at_block st) (at_value st))
  else
    Ret (mk_aton (<[at_index st := u32 (Z.shiftl (at_value st) 16)]> (at_words st))
                 (at_index st) (at_zero st) (at_block st) (at_value st)).

(** The [while (zero_blocks > 0)] loop; [inr] is [return 0]. *)
Fixpoint aton_zeros (fuel : nat) (st : aton_state) : outcome (aton_state + aton_state) :=
  match fuel with
  | O => Hang
  | S fuel =>
      if at_zero st <=? 0 then Ret (inl st)
      else
        st' ← (if Z.odd (at_block st) then
                 Ret (mk_aton (at_words st) (S (at_index st)) (u32 (at_zero st - 1))
                              (u32 (at_block st + 1)) (at_value st))
               else
                 _ ← deref (at_words st !! at_index st);
                 Ret (mk_aton (<[at_index st := 0]> (at_words st)) (at_index st)
                              (u32 (at_zero st - 1)) (u32 (at_block st + 1)) (at_value st)));
        if 7 <? at_block st' then Ret (inr st') else aton_zeros fuel st'
  end.

Definition aton_digit (c : Z) : Z :=
  if lwip_isdigit c then c - 48 else 10 + (if lwip_islower c then c - 97 else c - 65).

(** Second pass. [inl st] is the state at the end of the text, [inr st] an
    early [return 0]. *)
Fixpoint aton_parse (s : list Z) (st : aton_state) : outcome (aton_state + aton_state) :=
  match s with
  | [] => Ret (inl st)
  | c :: s' =>
      if c =? colon then
        st1 ← aton_store st;
        let st2 := mk_aton (at_words st1) (at_index st1) (at_zero st1)
                           (u32 (at_block st1 + 1)) 0 in
        if 7 <? at_block st2 then Ret (inr st2)
        else
          match s' with
          | c1 :: s'' =>
              if c1 =? colon then
                match s'' with
                | c2 :: _ =>
                    if c2 =? colon then Ret (inr st2)
                    else o ← aton_zeros 9 st2;
                         match o with
                         | inr st3 => Ret (inr st3)
                         | inl st3 => aton_parse s'' st3
                         end
                | [] => o ← aton_zeros 9 st2;
                        match o with
                        | inr st3 => Ret (inr st3)
                        | inl st3 => aton_parse s'' st3
                        end
                end
              else aton_parse s' st2
          | [] => aton_parse s' st2
          end
      else if lwip_isxdigit c then
        aton_parse s' (mk_aton (at_words st) (at_index st) (at_zero st) (at_block st)
                               (u32 (u32 (Z.shiftl (at_value st) 4) + aton_digit c)))
      else Ret (inl st)
  end.

Definition words_addr (ws : list Z) : ip6_addr :=
  IP6_ADDR (nth 0 ws 0) (nth 1 ws 0) (nth 2 ws 0) (nth 3 ws 0).

(** Returns the C result and the address written; the interface lookup for a
    [%zone] suffix is left out (no caller passes one). *)
Definition ip6addr_aton (cp : list Z) (init : ip6_addr) : outcome (bool * ip6_addr) :=
  let st := mk_aton [addr0 init; addr1 init; addr2 init; addr3 init] 0
                    (aton_zero_blocks cp 8) 0 0 in
  r ← aton_parse cp st;
  match r with
  | inr st' => Ret (false, ip6_addr_set_zone (zone init) (words_addr (at_words st')))
  | inl st' =>
      st'' ← aton_store st';
      Ret (at_block st'' =? 7, words_addr (lwip_htonl <$> at_words st''))
  end.

(** ** ip6addr_ntoa_r *)

Definition lwip_xchar (i : Z) : Z := if i <? 10 then 48 + i else 65 + i - 10.

(** [addr->addr[i]]; index 4, which the code reads for the last block, is the
    word after the array: the zone and its padding. *)
Definition addr_word (a : ip6_addr) (i : Z) : Z :=
  if i =? 0 then addr0 a else if i =? 1 then addr1 a
  else if i =? 2 then addr2 a else if i =? 3 then addr3 a else zone a.

Definition ntoa_block (a : ip6_addr) (i : Z) : Z :=
  let w := lwip_htonl (addr_word a (Z.shiftr i 1)) in
  Z.land (if Z.odd i then w else Z.shiftr w 16) 0xffff.

(** [buf[i++] = c; if (i >= buflen) return NULL;] *)
Definition putc (buflen c : Z) (buf : list Z) : option (list Z) :=
  let buf' := buf ++ [c] in
  if buflen <=? Z.of_nat (length buf') then None else Some buf'.

(** The digits of one block, without leading zeros. *)
Definition ntoa_hex (buflen v : Z) (buf : list Z) : option (list Z) :=
  '(buf, zf) ← (if Z.land v 0xf000 =? 0 then Some (buf, true)
                else b ← putc buflen (lwip_xchar (Z.shiftr (Z.land v 0xf000) 12)) buf;
                     Some (b, false));
  '(buf, zf) ← (if (Z.land v 0xf00 =? 0) && (zf : bool) then Some (buf, zf)
                else b ← putc buflen (lwip_xchar (Z.shiftr (Z.land v 0xf00) 8)) buf;
                     Some (b, false));
  '(buf, zf) ← (if (Z.land v 0xf0 =? 0) && (zf : bool) then Some (buf, zf)
                else b ← putc buflen (lwip_xchar (Z.shiftr (Z.land v 0xf0) 4)) buf;
                     Some (b, false));
  putc buflen (lwip_xchar (Z.land v 0xf)) buf.

(** The loop over the eight blocks; [flag] is [empty_block_flag]. *)
Fixpoint ntoa_loop (n : nat) (a : ip6_addr) (buflen i flag : Z) (buf : list Z)
  : option (list Z) :=
  match n with
  | O => Some buf
  | S n =>
      let v := ntoa_block a i in
      let body (flag : Z) :=
        buf ← (if 0 <? i then putc buflen colon buf else Some buf);
        buf ← ntoa_hex buflen v buf;
        ntoa_loop n a buflen (i + 1) flag buf in
      if v =? 0 then
        if (i =? 7) && (flag =? 1) then putc buflen colon buf
        else if flag =? 0 then
          if ntoa_block a (i + 1) =? 0 then
            buf ← putc buflen colon buf;
            ntoa_loop n a buflen (i + 1) 1 buf
          else body flag
        else if flag =? 1 then ntoa_loop n a buflen (i + 1) flag buf
        else body flag
      else body (if flag =? 1 then 2 else flag)
  end.

Definition ip6addr_ntoa_r (a : ip6_addr) (buflen : Z) : option (list Z) :=
  ntoa_loop 8 a buflen 0 0 [].

(** ** The text always fits *)

Lemma putc_some buflen c buf :
  Z.of_nat (length buf) + 1 < buflen -> putc buflen c buf = Some (buf ++ [c]).
Proof.
  intros. unfold putc. rewrite length_app. simpl.
  destruct (Z.leb_spec buflen (Z.of_nat (length buf + 1))); [lia|done].
Qed.

Lemma ntoa_hex_some buflen v buf :
  Z.of_nat (length buf) + 4 < buflen ->
  exists ds, ntoa_hex buflen v buf = Some (buf ++ ds) /\ (length ds <= 4)%nat.
Proof.
  intros Hl. unfold ntoa_hex.
  repeat (case_match; simpl; rewrite ?putc_some by (len; lia); simpl);
    rewrite ?putc_some by (len; lia); rewrite <-?app_assoc; eexists; (split; [done|simpl; lia]).
Qed.

Lemma ntoa_loop_some n a i flag buf :
  0 <= i -> Z.of_nat n = 8 - i -> Z.of_nat (length buf) <= 5 * i ->
  exists s, ntoa_loop n a IP6ADDR_STRLEN_MAX i flag buf = Some s /\ Z.of_nat (length s) <= 40.
Proof.
  revert i flag buf. induction n as [|n IH]; intros i flag buf Hi Hn Hl; simpl.
  { exists buf. split; [done|lia]. }
  assert (Hbody : forall flag, exists s,
    (buf ← (if 0 <? i then putc IP6ADDR_STRLEN_MAX colon buf else Some buf);
     buf ← ntoa_hex IP6ADDR_STRLEN_MAX (ntoa_block a i) buf;
     ntoa_loop n a IP6ADDR_STRLEN_MAX (i + 1) flag buf) = Some s /\ Z.of_nat (length s) <= 40).
  { intros flag'. unfold IP6ADDR_STRLEN_MAX in *. destruct (0 <? i) eqn:Ei.
    - rewrite putc_some by lia. simpl.
      destruct (ntoa_hex_some 46 (ntoa_block a i) (buf ++ [colon])) as (ds & -> & Hd); [len|].
      simpl. apply IH; len.
    - simpl. destruct (ntoa_hex_some 46 (ntoa_block a i) buf) as (ds & -> & Hd); [lia|].
      simpl. apply IH; len. }
  assert (Hput : putc IP6ADDR_STRLEN_MAX colon buf = Some (buf ++ [colon]))
    by (apply putc_some; unfold IP6ADDR_STRLEN_MAX; lia).
  destruct (ntoa_block a i =? 0); [|apply Hbody].
  destruct ((i =? 7) && (flag =? 1)).
  { rewrite Hput. eexists. split; [done|len]. }
  destruct (flag =? 0); [destruct (ntoa_block a (i + 1) =? 0)|destruct (flag =? 1)].
  - rewrite Hput. simpl. apply IH; len.
  - apply Hbody.
  - apply IH; lia.
  - apply Hbody.
Qed.

Lemma ntoa_fits a :
  exists s, ip6addr_ntoa_r a IP6ADDR_STRLEN_MAX = Some s /\ Z.of_nat (length s) <= 40.
Proof. by apply ntoa_loop_some. Qed.

Example ntoa_fd00 :
  (r ← ip6addr_aton (str "fd00:01::2") ip6_addr_any;
   Ret (r.1, ip6addr_ntoa_r r.2 IP6ADDR_STRLEN_MAX, ip6_bytes r.2)) =
  Ret (true, Some (str "FD00:1::2"), [253; 0; 0; 1; 0; 0; 0; 0; 0; 0; 0; 0; 0; 0; 0; 2]).
Proof. vm_compute. reflexivity. Qed.
