(* ===== verification/RouteTable.v ===== *)
(** * The static IPv6 route table (lwip/contrib/addons/ipv6_static_routing)

    [main] adds the default route through this table.  The table is an array
    kept in decreasing order of prefix length; lookups return the first match.
    The theorems: on a well-formed table a lookup is a longest-prefix match,
    and adding a route changes exactly the lookups it should; removing a route
    from a full table leaves a prefix length behind that breaks later
    additions. *)

From stdpp Require Import sorting.
From S2P Require Import Prelude Ip6Addr.

Definition LWIP_IPV6_NUM_ROUTE_ENTRIES : nat := 8.
Definition IP6_MAX_PREFIX_LEN : Z := 128.
Definition IP6_PREFIX_ALLOWED_GRANULARITY : Z := 8.

Definition ip6_prefix_valid (prefix_len : Z) : bool :=
  (prefix_len <=? IP6_MAX_PREFIX_LEN) && (prefix_len mod IP6_PREFIX_ALLOWED_GRANULARITY =? 0).

Record ip6_prefix := mk_prefix { px_addr : ip6_addr; prefix_len : Z }.

(** [netif] and [gateway] are pointers the table only stores and returns. *)
Record ip6_route_entry := mk_route {
  rt_prefix : ip6_prefix;
  rt_netif : option Z;
  rt_gateway : option Z
}.

(** The zero-initialised [static_route_table]. *)
Definition empty_route : ip6_route_entry := mk_route (mk_prefix ip6_addr_any 0) None None.
Definition empty_table : list ip6_route_entry := replicate LWIP_IPV6_NUM_ROUTE_ENTRIES empty_route.

(** [memcmp(a, b, len / 8) == 0] on addresses. *)
Definition prefix_bytes (len : Z) (a : ip6_addr) : list Z := take (Z.to_nat (len / 8)) (ip6_bytes a).
Definition same_prefix (p : ip6_prefix) (e : ip6_route_entry) : bool :=
  (prefix_len p =? prefix_len (rt_prefix e)) &&
  bool_decide (prefix_bytes (prefix_len p) (px_addr p) = prefix_bytes (prefix_len p) (px_addr (rt_prefix e))).

(** The first index whose entry satisfies [f]. *)
Fixpoint first_index (f : ip6_route_entry -> bool) (t : list ip6_route_entry) (i : nat) : option nat :=
  match t with
  | [] => None
  | e :: t => if f e then Some i else first_index f t (S i)
  end.

(** [for (i = NUM - 1; i > 0 && len > table[i-1].prefix_len; i--) table[i] = table[i-1];] *)
Fixpoint shift_down (len : Z) (i : nat) (t : list ip6_route_entry) : outcome (nat * list ip6_route_entry) :=
  match i with
  | O => Ret (O, t)
  | S j =>
      e ← deref (t !! j);
      if prefix_len (rt_prefix e) <? len then shift_down len j (<[S j := e]> t)
      else Ret (i, t)
  end.

Definition put_route (i : nat) (p : ip6_prefix) (netif : Z) (gateway : option Z)
    (t : list ip6_route_entry) : list ip6_route_entry :=
  <[i := mk_route p (Some netif) gateway]> t.

(** Returns the error, the index on success, and the table. *)
Definition ip6_add_route_entry (p : ip6_prefix) (netif : option Z) (gateway : option Z)
    (t : list ip6_route_entry) : outcome (err_t * option nat * list ip6_route_entry) :=
  match netif with
  | None => Ret (ERR_ARG, None, t)
  | Some n =>
      if negb (ip6_prefix_valid (prefix_len p)) then Ret (ERR_ARG, None, t)
      else
        match first_index (same_prefix p) t 0 with
        | Some i => Ret (ERR_OK, Some i, put_route i p n gateway t)
        | None =>
            lst ← deref (t !! (LWIP_IPV6_NUM_ROUTE_ENTRIES - 1)%nat);
            if bool_decide (is_Some (rt_netif lst)) then Ret (ERR_MEM, None, t)
            else
              r ← shift_down (prefix_len p) (LWIP_IPV6_NUM_ROUTE_ENTRIES - 1) t;
              Ret (ERR_OK, Some r.1, put_route r.1 p n gateway r.2)
        end
  end.

(** [for (i = pos; i < NUM - 1; i++) { table[i] = table[i+1]; if (!table[i].netif) break; }];
    returns the index at which the loop ended. *)
Fixpoint shift_up (n i : nat) (t : list ip6_route_entry) : outcome (nat * list ip6_route_entry) :=
  match n with
  | O => Ret (i, t)
  | S n =>
      e ← deref (t !! S i);
      let t' := <[i := e]> t in
      if bool_decide (rt_netif e = None) then Ret (i, t') else shift_up n (S i) t'
  end.

(** [ip6_addr_set_zero(&prefix.addr); netif = NULL;]: the prefix length and the
    gateway stay. *)
Definition clear_route (e : ip6_route_entry) : ip6_route_entry :=
  mk_route (mk_prefix ip6_addr_any (prefix_len (rt_prefix e))) None (rt_gateway e).

Definition ip6_remove_route_entry (p : ip6_prefix) (t : list ip6_route_entry) : outcome (list ip6_route_entry) :=
  match first_index (same_prefix p) t 0 with
  | None => Ret t
  | Some pos =>
      r ← shift_up (LWIP_IPV6_NUM_ROUTE_ENTRIES - 1 - pos) pos t;
      Ret (take r.1 r.2 ++ (clear_route <$> drop r.1 r.2))
  end.

Definition route_matches (dest : ip6_addr) (e : ip6_route_entry) : bool :=
  bool_decide (prefix_bytes (prefix_len (rt_prefix e)) dest =
               prefix_bytes (prefix_len (rt_prefix e)) (px_addr (rt_prefix e))).
Definition ip6_find_route_entry (dest : ip6_addr) (t : list ip6_route_entry) : option nat :=
  first_index (route_matches dest) t 0.

Definition ip6_static_route (src : option ip6_addr) (dest : ip6_addr) (t : list ip6_route_entry) : option Z :=
  match ip6_find_route_entry dest t with
  | Some i => e ← t !! i; rt_netif e
  | None => None
  end.
Definition ip6_get_gateway (netif : option Z) (dest : ip6_addr) (t : list ip6_route_entry) : option Z :=
  match ip6_find_route_entry dest t with
  | Some i => e ← t !! i; rt_gateway e
  | None => None
  end.
Definition ip6_get_route_table (t : list ip6_route_entry) : list ip6_route_entry := t.

(** ** The abstract table: a finite set of routes, looked up by longest prefix *)

Definition used (e : ip6_route_entry) : bool := bool_decide (is_Some (rt_netif e)).

(** What identifies a route: the length and the bytes of its prefix. *)
Definition route_key (e : ip6_route_entry) : Z * list Z :=
  (prefix_len (rt_prefix e), prefix_bytes (prefix_len (rt_prefix e)) (px_addr (rt_prefix e))).
Definition route_len (e : ip6_route_entry) : Z := prefix_len (rt_prefix e).
Definition route_ok (e : ip6_route_entry) : Prop :=
  used e = true /\ ip6_prefix_valid (route_len e) = true /\ 0 <= route_len e.

(** Routes in decreasing order of length, one per prefix, then empty slots. *)
Record table_wf (t rs : list ip6_route_entry) (k : nat) : Prop := {
  tw_shape : t = rs ++ replicate k empty_route;
  tw_size : (length rs + k = LWIP_IPV6_NUM_ROUTE_ENTRIES)%nat;
  tw_used : Forall route_ok rs;
  tw_sorted : StronglySorted (fun e e' => route_len e' <= route_len e) rs;
  tw_unique : NoDup (route_key <$> rs)
}.

Lemma empty_table_wf : table_wf empty_table [] 8.
Proof. by split; try constructor. Qed.

(** The first route that matches. *)
Fixpoint first_match (dest : ip6_addr) (rs : list ip6_route_entry) : option ip6_route_entry :=
  match rs with
  | [] => None
  | e :: rs => if route_matches dest e then Some e else first_match dest rs
  end.

Lemma first_index_spec f t i :
  match first_index f t i with
  | Some j => exists l1 e l2, t = l1 ++ e :: l2 /\ j = (i + length l1)%nat /\ f e = true /\
                Forall (fun x => f x = false) l1
  | None => Forall (fun x => f x = false) t
  end.
Proof.
  revert i. induction t as [|e t IH]; intros i; simpl; [constructor|]. destruct (f e) eqn:E.
  - exists [], e, t. split_and!; [done|simpl; lia|done|constructor].
  - specialize (IH (S i)). destruct (first_index f t (S i)) as [j|]; [|by constructor].
    destruct IH as (l1 & x & l2 & -> & -> & Hx & Hl). exists (e :: l1), x, l2.
    split_and!; [done|simpl; lia|done|by constructor].
Qed.

Lemma first_index_head f t i e l2 l1 :
  t = l1 ++ e :: l2 -> f e = true -> Forall (fun x => f x = false) l1 ->
  first_index f t i = Some (i + length l1)%nat.
Proof.
  intros -> He Hl. revert i. induction Hl as [|x l1 Hx _ IH]; intros i; simpl; [rewrite He|rewrite Hx, IH];
    f_equal; simpl; lia.
Qed.

Lemma first_match_app dest r1 r2 :
  first_match dest (r1 ++ r2) = match first_match dest r1 with Some e => Some e | None => first_match dest r2 end.
Proof. induction r1 as [|e r1 IH]; simpl; [done|]. by destruct (route_matches dest e). Qed.

Lemma first_match_spec dest rs :
  match first_match dest rs with
  | Some e => exists r1 r2, rs = r1 ++ e :: r2 /\ route_matches dest e = true /\
                Forall (fun x => route_matches dest x = false) r1
  | None => Forall (fun x => route_matches dest x = false) rs
  end.
Proof.
  induction rs as [|e rs IH]; simpl; [constructor|]. destruct (route_matches dest e) eqn:E.
  - exists [], rs. split_and!; [done|done|constructor].
  - destruct (first_match dest rs) as [x|]; [|by constructor].
    destruct IH as (r1 & r2 & -> & Hx & Hr). exists (e :: r1), r2. split_and!; [done|done|by constructor].
Qed.

(** What a lookup reads off the entry it finds is what the first matching
    route has: the empty slots behind the routes hold null pointers. *)
Lemma lookup_first (f : ip6_route_entry -> option Z) t rs k dest :
  table_wf t rs k -> f empty_route = None ->
  match ip6_find_route_entry dest t with Some i => e ← t !! i; f e | None => None end =
  (e ← first_match dest rs; f e).
Proof.
  intros [-> _ _ _ _] Hf. unfold ip6_find_route_entry. pose proof (first_match_spec dest rs) as Hm.
  destruct (first_match dest rs) as [e|].
  - destruct Hm as (r1 & r2 & -> & He & Hr). rewrite <-app_assoc, <-app_comm_cons.
    rewrite (first_index_head _ _ 0 e (r2 ++ replicate k empty_route) r1) by done. simpl.
    by rewrite list_lookup_middle.
  - pose proof (first_index_spec (route_matches dest) (rs ++ replicate k empty_route) 0) as Hi.
    destruct (first_index _ _ 0) as [j|]; [|done]. destruct Hi as (l1 & e & l2 & E & -> & He & Hl). simpl.
    rewrite E, list_lookup_middle by done. simpl.
    assert (Hin : e ∈ rs ++ replicate k empty_route) by (rewrite E; set_solver).
    apply elem_of_app in Hin as [Hin|Hin].
    + rewrite Forall_forall in Hm. by rewrite Hm in He.
    + by apply elem_of_replicate in Hin as [-> _].
Qed.

(** Two routes of one length that match the same address are the same prefix. *)
Lemma match_same_key dest e e' :
  route_matches dest e = true -> route_matches dest e' = true -> route_len e = route_len e' ->
  route_key e = route_key e'.
Proof.
  unfold route_matches, route_key, route_len. intros H1%bool_decide_eq_true H2%bool_decide_eq_true E.
  rewrite E in *. congruence.
Qed.

Lemma same_prefix_key p e :
  same_prefix p e = true <-> route_key e = (prefix_len p, prefix_bytes (prefix_len p) (px_addr p)).
Proof.
  unfold same_prefix, route_key. rewrite andb_true_iff, Z.eqb_eq, bool_decide_eq_true. split.
  - intros [E1 E2]. by rewrite <-E1, E2.
  - intros [= E1 E2]. rewrite E1 in *. done.
Qed.

(** The first match is the longest. *)
Lemma first_match_longest dest rs e :
  StronglySorted (fun e e' => route_len e' <= route_len e) rs -> NoDup (route_key <$> rs) ->
  first_match dest rs = Some e ->
  e ∈ rs /\ route_matches dest e = true /\
  forall e', e' ∈ rs -> route_matches dest e' = true -> e' = e \/ route_len e' < route_len e.
Proof.
  intros Hs Hn E. pose proof (first_match_spec dest rs) as Hm. rewrite E in Hm.
  destruct Hm as (r1 & r2 & -> & He & Hr). split_and!; [set_solver|done|]. intros e' Hin He'.
  apply elem_of_app in Hin as [Hin|[->|Hin]%elem_of_cons]; [|by left|].
  - rewrite Forall_forall in Hr. by rewrite Hr in He'.
  - right. apply StronglySorted_app in Hs as (_ & _ & [Hs _]%StronglySorted_cons).
    rewrite Forall_forall in Hs. specialize (Hs e' Hin). destruct (decide (route_len e' = route_len e)); [|lia].
    exfalso. rewrite fmap_app in Hn. apply NoDup_app in Hn as (_ & _ & Hn). rewrite fmap_cons in Hn.
    apply NoDup_cons in Hn as [Hn _]. apply Hn. rewrite <-(match_same_key dest e' e) by done.
    by apply list_elem_of_fmap_2.
Qed.

(** ** Insertion *)

(** The insertion point: the routes at least as long, then the shorter ones. *)
Lemma sorted_split (len : Z) rs :
  StronglySorted (fun e e' => route_len e' <= route_len e) rs ->
  exists a b, rs = a ++ b /\ Forall (fun e => len <= route_len e) a /\ Forall (fun e => route_len e < len) b.
Proof.
  induction 1 as [|e rs Hs IH He]; [by exists [], []|].
  destruct (decide (len <= route_len e)).
  - destruct IH as (a & b & -> & Ha & Hb). exists (e :: a), b. by split_and!; [|constructor|].
  - exists [], (e :: rs). split_and!; [done|done|]. constructor; [lia|].
    eapply Forall_impl; [exact He|]. simpl; lia.
Qed.

(** The loop moves the shorter entries one slot down and stops behind the rest. *)
Lemma shift_down_spec len a b x tl :
  Forall (fun e => len <= route_len e) a -> Forall (fun e => route_len e < len) b ->
  exists y, shift_down len (length (a ++ b)) (a ++ b ++ x :: tl) = Ret (length a, a ++ y :: b ++ tl).
Proof.
  intros Ha. revert x tl. induction b as [|z b IH] using rev_ind; intros x tl Hb.
  - rewrite app_nil_r. exists x. simpl. induction a as [|e a _] using rev_ind; [done|].
    rewrite length_app, Nat.add_comm. simpl. rewrite <-app_assoc. simpl.
    rewrite list_lookup_middle by done. simpl. apply Forall_app in Ha as [_ [Ha _]%Forall_cons].
    destruct (Z.ltb_spec (prefix_len (rt_prefix e)) len); [unfold route_len in Ha; lia|].
    done.
  - apply Forall_app in Hb as [Hb [Hz _]%Forall_cons]. destruct (IH z (z :: tl) Hb) as [y Ey].
    exists y. rewrite app_assoc, length_app, Nat.add_comm. simpl.
    replace (a ++ (b ++ [z]) ++ x :: tl) with ((a ++ b) ++ z :: x :: tl) by (by rewrite <-!app_assoc).
    rewrite list_lookup_middle by done. simpl.
    destruct (Z.ltb_spec (prefix_len (rt_prefix z)) len); [|unfold route_len in Hz; lia].
    rewrite insert_app_r_alt by lia. rewrite Nat.sub_succ_l, Nat.sub_diag by lia. simpl.
    rewrite <-!app_assoc. exact Ey.
Qed.

(** A route put between the ones at least as long and the ones at most as long. *)
Lemma middle_wf a b e k :
  Forall route_ok (a ++ b) -> StronglySorted (fun e e' => route_len e' <= route_len e) (a ++ b) ->
  NoDup (route_key <$> a ++ b) -> route_ok e -> route_key e ∉ (route_key <$> a ++ b) ->
  Forall (fun x => route_len e <= route_len x) a -> Forall (fun x => route_len x <= route_len e) b ->
  (length (a ++ e :: b) + k = LWIP_IPV6_NUM_ROUTE_ENTRIES)%nat ->
  table_wf (a ++ e :: b ++ replicate k empty_route) (a ++ e :: b) k.
Proof.
  intros [Oa Ob]%Forall_app (Sab & Sa & Sb)%StronglySorted_app Hn He Hk Ha Hb Hl. rewrite Forall_forall in Ha.
  split; [by rewrite <-app_assoc|done| | |].
  - apply Forall_app. auto.
  - apply StronglySorted_app. split_and!; [|done|by apply StronglySorted_cons].
    intros x y Hx [->|Hy]%elem_of_cons; [by apply Ha|by apply Sab].
  - assert (P : route_key <$> a ++ e :: b ≡ₚ route_key e :: (route_key <$> a ++ b)).
    { by rewrite <-Permutation_middle, fmap_cons. }
    rewrite P. by apply NoDup_cons.
Qed.

(** What [e] makes of the routes: those with another prefix stay. *)
Definition other_routes (e : ip6_route_entry) (rs : list ip6_route_entry) : list ip6_route_entry :=
  filter (fun x => route_key x <> route_key e) rs.

Lemma other_routes_absent e rs : route_key e ∉ (route_key <$> rs) -> other_routes e rs = rs.
Proof.
  unfold other_routes. induction rs as [|x rs IH]; [done|]. rewrite fmap_cons, not_elem_of_cons. intros [Hx H].
  rewrite filter_cons_True by congruence. by rewrite IH.
Qed.

Lemma other_routes_middle e x r1 r2 :
  route_key x = route_key e -> NoDup (route_key <$> r1 ++ x :: r2) -> other_routes e (r1 ++ x :: r2) = r1 ++ r2.
Proof.
  intros E Hn. rewrite <-Permutation_middle, fmap_cons, NoDup_cons, fmap_app, not_elem_of_app, E in Hn.
  destruct Hn as [[H1 H2] _].
  unfold other_routes. rewrite filter_app, filter_cons_False by congruence. f_equal; by apply other_routes_absent.
Qed.

Lemma first_index_none f t i : Forall (fun x => f x = false) t -> first_index f t i = None.
Proof. intros H. revert i. induction H as [|x t Hx _ IH]; intros i; simpl; [done|]. by rewrite Hx. Qed.

Lemma no_key_absent p n g rs :
  Forall (fun x => same_prefix p x = false) rs -> route_key (mk_route p n g) ∉ (route_key <$> rs).
Proof.
  intros H [x [E Hx]]%list_elem_of_fmap. rewrite Forall_forall in H. specialize (H x Hx).
  apply not_true_iff_false in H. apply H, same_prefix_key. by rewrite <-E.
Qed.

Section Add.
Context (t rs : list ip6_route_entry) (k : nat) (p : ip6_prefix) (n : Z) (gateway : option Z).
Hypotheses (Hwf : table_wf t rs k) (Hvalid : ip6_prefix_valid (prefix_len p) = true) (Hlen : 0 <= prefix_len p).

Let new : ip6_route_entry := mk_route p (Some n) gateway.

(** The outcome of a successful addition at index [i]. *)
Definition route_added (i : nat) (t' : list ip6_route_entry) : Prop :=
  exists rs' k', table_wf t' rs' k' /\ t' !! i = Some new /\ rs' ≡ₚ new :: other_routes new rs.

Lemma new_ok : route_ok new.
Proof. by split_and!. Qed.

Lemma add_replaces r1 x r2 :
  rs = r1 ++ x :: r2 -> same_prefix p x = true ->
  route_added (length r1) (put_route (length r1) p n gateway t).
Proof.
  destruct Hwf as [-> Hsz Hok Hs Hn]. intros Ers E%same_prefix_key. rewrite Ers in Hsz, Hok, Hs, Hn |- *.
  exists (r1 ++ new :: r2), k. unfold put_route.
  rewrite <-app_assoc, <-app_comm_cons, insert_app_r_alt, Nat.sub_diag by lia. simpl. fold new.
  assert (El : route_len x = route_len new) by (unfold route_key in E; injection E; done).
  split_and!; [|by rewrite list_lookup_middle|].
  - rewrite <-Permutation_middle in Hok. apply Forall_cons in Hok as [_ Hok].
    apply StronglySorted_app in Hs as (Sab & Sa & [Hx Sb]%StronglySorted_cons).
    rewrite <-Permutation_middle, fmap_cons, E in Hn. apply NoDup_cons in Hn as [Hk Hn].
    apply middle_wf; [done| |done|exact new_ok|done| | |].
    + apply StronglySorted_app. split_and!; [|done|done]. intros; apply Sab; set_solver.
    + apply Forall_forall. intros y Hy. rewrite <-El. apply Sab; set_solver.
    + eapply Forall_impl; [exact Hx|]. simpl; lia.
    + rewrite length_app in *. simpl in *. lia.
  - rewrite Ers, other_routes_middle by done. by rewrite Permutation_middle.
Qed.

Lemma add_inserts a b k' :
  rs = a ++ b -> k = S k' -> Forall (fun x => same_prefix p x = false) rs ->
  Forall (fun x => prefix_len p <= route_len x) a -> Forall (fun x => route_len x < prefix_len p) b ->
  route_added (length a) (a ++ new :: b ++ replicate k' empty_route).
Proof.
  destruct Hwf as [_ Hsz Hok Hs Hn]. intros E -> Hno Ha Hb. pose proof (no_key_absent p (Some n) gateway rs Hno) as Hk.
  fold new in Hk. exists (a ++ new :: b), k'. split_and!; [|by rewrite list_lookup_middle|].
  - rewrite E in *. apply middle_wf; [done..|exact new_ok|done|done| |].
    + eapply Forall_impl; [exact Hb|]. unfold new, route_len at 3. simpl; lia.
    + rewrite length_app in *. simpl. lia.
  - rewrite other_routes_absent, E by done. by rewrite Permutation_middle.
Qed.

Lemma empty_other_prefix : 0 < prefix_len p -> same_prefix p empty_route = false.
Proof. intros. unfold same_prefix. simpl. destruct (Z.eqb_spec (prefix_len p) 0); [lia|done]. Qed.

Lemma add_no_room :
  k = 0%nat -> Forall (fun x => same_prefix p x = false) rs ->
  ip6_add_route_entry p (Some n) gateway t = Ret (ERR_MEM, None, t).
Proof.
  destruct Hwf as [-> Hsz Hok _ _]. intros -> Hno. unfold ip6_add_route_entry. rewrite Hvalid, app_nil_r. simpl.
  rewrite first_index_none by done. destruct (rs !! 7%nat) as [e|] eqn:El.
  - simpl. apply (Forall_lookup_1 _ _ _ _ Hok) in El as [Hu _]. unfold used in Hu. by rewrite Hu.
  - apply lookup_ge_None_1 in El. unfold LWIP_IPV6_NUM_ROUTE_ENTRIES in Hsz. lia.
Qed.

Lemma add_in_room k' :
  k = S k' -> Forall (fun x => same_prefix p x = false) rs ->
  exists i t', ip6_add_route_entry p (Some n) gateway t = Ret (ERR_OK, Some i, t') /\ route_added i t'.
Proof.
  intros Hk Hno. destruct Hwf as [Et Hsz Hok Hs Hn]. unfold ip6_add_route_entry. rewrite Hvalid. cbn [negb].
  change (LWIP_IPV6_NUM_ROUTE_ENTRIES - 1)%nat with 7%nat.
  destruct (sorted_split (prefix_len p) rs Hs) as (a & b & Ers & Ha & Hb).
  pose proof (add_inserts a b k' Ers Hk Hno Ha Hb) as Hadd.
  exists (length a), (a ++ new :: b ++ replicate k' empty_route). split; [|done].
  destruct (decide (prefix_len p = 0)) as [E0|].
  - assert (b = []) as ->.
    { destruct b as [|x b]; [done|]. rewrite Ers in Hok. apply Forall_app in Hok as [_ [(_ & _ & Hx) _]%Forall_cons].
      apply Forall_cons in Hb as [Hb _]. lia. }
    rewrite app_nil_r in Ers. rewrite (first_index_head _ _ 0 empty_route (replicate k' empty_route) a).
    + rewrite Et, Ers, Hk. simpl. unfold put_route. by rewrite insert_app_r_alt, Nat.sub_diag by lia.
    + by rewrite Et, Ers, Hk.
    + unfold same_prefix. rewrite E0. by vm_compute.
    + by rewrite <-Ers.
  - rewrite first_index_none.
    2:{ rewrite Et. apply Forall_app. split; [done|]. apply Forall_replicate, empty_other_prefix. lia. }
    assert (Et' : t = a ++ (b ++ replicate k' empty_route) ++ empty_route :: []).
    { by rewrite Et, Ers, Hk, replicate_S_end, <-!app_assoc. }
    assert (E7 : 7%nat = length (a ++ (b ++ replicate k' empty_route))).
    { rewrite Ers, Hk in Hsz. rewrite !length_app, length_replicate in *. unfold LWIP_IPV6_NUM_ROUTE_ENTRIES in Hsz. lia. }
    destruct (shift_down_spec (prefix_len p) a (b ++ replicate k' empty_route) empty_route [] Ha) as [y Ey].
    { apply Forall_app. split; [done|]. apply Forall_replicate. unfold empty_route, route_len. simpl. lia. }
    rewrite <-E7, <-Et', app_nil_r in Ey. rewrite Ey, Et', app_assoc, E7, list_lookup_middle by done. simpl.
    unfold put_route. by rewrite insert_app_r_alt, Nat.sub_diag by lia.
Qed.

Lemma add_outcome :
  (ip6_add_route_entry p (Some n) gateway t = Ret (ERR_MEM, None, t) /\
     length rs = LWIP_IPV6_NUM_ROUTE_ENTRIES /\ route_key new ∉ (route_key <$> rs)) \/
  (exists i t', ip6_add_route_entry p (Some n) gateway t = Ret (ERR_OK, Some i, t') /\ route_added i t').
Proof.
  pose proof (first_index_spec (same_prefix p) rs 0) as Hi. destruct (first_index (same_prefix p) rs 0) as [i|].
  - destruct Hi as (r1 & x & r2 & Ers & -> & Hx & Hr). right.
    exists (length r1), (put_route (length r1) p n gateway t). split; [|by eapply add_replaces].
    unfold ip6_add_route_entry. rewrite Hvalid. simpl.
    rewrite (first_index_head _ _ 0 x (r2 ++ replicate k empty_route) r1); [done| |done|done].
    rewrite (tw_shape _ _ _ Hwf), Ers. by rewrite <-app_assoc.
  - destruct (decide (k = 0%nat)); [left|right; apply (add_in_room (pred k)); [lia|done]].
    split_and!; [by apply add_no_room| |by apply no_key_absent]. pose proof (tw_size _ _ _ Hwf). lia.
Qed.

End Add.

(** ** Removal *)

(** Moving up stops at the first empty slot. *)
Lemma shift_up_spec r1 x r2 k m :
  Forall route_ok r2 -> (length r2 < m)%nat ->
  shift_up m (length r1) (r1 ++ x :: r2 ++ replicate (S k) empty_route) =
    Ret (length (r1 ++ r2), r1 ++ r2 ++ empty_route :: replicate (S k) empty_route).
Proof.
  revert r1 x m. induction r2 as [|y r2 IH]; intros r1 x [|m] Hok Hm; simpl in Hm; try lia; simpl.
  - rewrite lookup_app_r by lia. replace (S (length r1) - length r1)%nat with 1%nat by lia. simpl.
    by rewrite app_nil_r, insert_app_r_alt, Nat.sub_diag by lia.
  - apply Forall_cons in Hok as [(Hu & _ & _) Hok]. apply bool_decide_eq_true in Hu as [n En].
    rewrite lookup_app_r by lia. replace (S (length r1) - length r1)%nat with 1%nat by lia. simpl.
    rewrite En. simpl. rewrite insert_app_r_alt, Nat.sub_diag by lia. simpl.
    replace (r1 ++ y :: y :: r2 ++ empty_route :: replicate k empty_route)
      with ((r1 ++ [y]) ++ y :: r2 ++ replicate (S k) empty_route) by (by rewrite <-app_assoc).
    replace (S (length r1)) with (length (r1 ++ [y])) by (rewrite length_app; simpl; lia).
    rewrite IH by (done || lia). by rewrite <-!app_assoc.
Qed.

(** Moving up from the first empty slot changes nothing. *)
Lemma shift_up_empty rs k :
  (length rs + S k = LWIP_IPV6_NUM_ROUTE_ENTRIES)%nat ->
  shift_up (LWIP_IPV6_NUM_ROUTE_ENTRIES - 1 - length rs) (length rs) (rs ++ replicate (S k) empty_route) =
    Ret (length rs, rs ++ replicate (S k) empty_route).
Proof.
  intros Hsz. replace (LWIP_IPV6_NUM_ROUTE_ENTRIES - 1 - length rs)%nat with k by lia. destruct k as [|k]; [done|].
  simpl. rewrite lookup_app_r by lia. replace (S (length rs) - length rs)%nat with 1%nat by lia. simpl.
  by rewrite insert_app_r_alt, Nat.sub_diag by lia.
Qed.

Lemma clear_empty k : clear_route <$> replicate k empty_route = replicate k empty_route.
Proof. by rewrite fmap_replicate. Qed.

Lemma remove_wf r1 x r2 k k' :
  table_wf (r1 ++ x :: r2 ++ replicate k empty_route) (r1 ++ x :: r2) k -> k' = S k ->
  table_wf (r1 ++ r2 ++ replicate k' empty_route) (r1 ++ r2) k'.
Proof.
  intros [_ Hsz Hok Hs Hn] ->. split; [by rewrite <-app_assoc| | | |].
  - rewrite length_app in *. simpl in *. lia.
  - rewrite <-Permutation_middle in Hok. by apply Forall_cons in Hok as [_ Hok].
  - apply StronglySorted_app in Hs as (Sab & Sa & [_ Sb]%StronglySorted_cons).
    apply StronglySorted_app. split_and!; [|done|done]. intros; apply Sab; set_solver.
  - rewrite <-Permutation_middle, fmap_cons in Hn. by apply NoDup_cons in Hn as [_ Hn].
Qed.

(** ** Claims *)

(** C15: on a well-formed table [ip6_static_route] and [ip6_get_gateway] are the
    longest-prefix match: what they return comes from the one matching route that
    is strictly longer than every other matching route, and null is returned only
    when no route matches. *)
Theorem route_lookup_lpm t rs k src nif dest :
  table_wf t rs k ->
  (exists e, e ∈ rs /\ route_matches dest e = true /\
     (forall e', e' ∈ rs -> route_matches dest e' = true -> e' = e \/ route_len e' < route_len e) /\
     ip6_static_route src dest t = rt_netif e /\ ip6_get_gateway nif dest t = rt_gateway e) \/
  ((forall e, e ∈ rs -> route_matches dest e = false) /\
     ip6_static_route src dest t = None /\ ip6_get_gateway nif dest t = None).
Proof.
  intros Hwf. pose proof (lookup_first rt_netif t rs k dest Hwf eq_refl) as En.
  pose proof (lookup_first rt_gateway t rs k dest Hwf eq_refl) as Eg.
  unfold ip6_static_route, ip6_get_gateway. rewrite En, Eg.
  pose proof (first_match_spec dest rs) as Hm. destruct (first_match dest rs) as [e|] eqn:E; [left|right].
  - destruct Hwf as [_ _ _ Hs Hn]. destruct (first_match_longest dest rs e Hs Hn E) as (? & ? & ?). eauto 10.
  - by rewrite Forall_forall in Hm.
Qed.

(** Adding a route either reports a full table, when eight routes are stored
    and none has the new prefix, and changes nothing; or it leaves a well-formed
    table that holds the new route at the index reported and every route with
    another prefix, and nothing else. *)
Theorem route_add_ok t rs k p n gateway :
  table_wf t rs k -> ip6_prefix_valid (prefix_len p) = true -> 0 <= prefix_len p ->
  let new := mk_route p (Some n) gateway in
  (ip6_add_route_entry p (Some n) gateway t = Ret (ERR_MEM, None, t) /\
     length rs = LWIP_IPV6_NUM_ROUTE_ENTRIES /\ route_key new ∉ (route_key <$> rs)) \/
  (exists i t' rs' k', ip6_add_route_entry p (Some n) gateway t = Ret (ERR_OK, Some i, t') /\
     table_wf t' rs' k' /\ t' !! i = Some new /\ rs' ≡ₚ new :: other_routes new rs).
Proof.
  intros Hwf Hv Hl new. destruct (add_outcome t rs k p n gateway Hwf Hv Hl) as [H|(i & t' & E & rs' & k' & H)];
    [by left|right; eauto 10].
Qed.

(** Removing a route from a table that is not full leaves a well-formed table
    with exactly the routes of another prefix, in their order; removing a prefix that
    is not stored has no effect. *)
Theorem route_remove_ok t rs k p :
  table_wf t rs (S k) -> 0 <= prefix_len p ->
  exists t' k', ip6_remove_route_entry p t = Ret t' /\
    table_wf t' (other_routes (mk_route p None None) rs) k'.
Proof.
  intros Hwf Hp. pose proof (first_index_spec (same_prefix p) rs 0) as Hi. pose proof Hwf as [Et Hsz Hok Hs Hn].
  unfold ip6_remove_route_entry. destruct (first_index (same_prefix p) rs 0) as [i|].
  - destruct Hi as (r1 & x & r2 & -> & -> & Hx & Hr). apply same_prefix_key in Hx as Hkey.
    rewrite other_routes_middle by done. rewrite <-app_assoc, <-app_comm_cons in Et.
    rewrite (first_index_head _ _ 0 x (r2 ++ replicate (S k) empty_route) r1) by done. cbn [mbind Nat.add].
    rewrite length_app in Hsz. simpl in Hsz. rewrite Et.
    rewrite (shift_up_spec r1 x r2 k); [|by apply Forall_app in Hok as [_ [_ ?]%Forall_cons]|lia].
    eexists _, (S (S k)). split; [done|]. cbn [fst snd]. rewrite app_assoc, take_app_length, drop_app_length.
    change (empty_route :: replicate (S k) empty_route) with (replicate (S (S k)) empty_route).
    rewrite clear_empty, <-app_assoc. eapply remove_wf; [|done]. rewrite <-Et. exact Hwf.
  - pose proof (no_key_absent p None None rs Hi) as Hk. rewrite other_routes_absent by done.
    exists t, (S k). split; [|done]. destruct (decide (prefix_len p = 0)) as [E0|].
    + rewrite (first_index_head _ _ 0 empty_route (replicate k empty_route) rs).
      * rewrite Et. simpl Nat.add. rewrite shift_up_empty by done. cbn [mbind outcome_bind fst snd].
        by rewrite take_app_length, drop_app_length, clear_empty.
      * by rewrite Et.
      * unfold same_prefix. rewrite E0. by vm_compute.
      * done.
    + rewrite first_index_none; [done|]. rewrite Et. apply Forall_app. split; [done|].
      apply Forall_replicate, empty_other_prefix. lia.
Qed.

(** ** A table for the witnesses *)

(** The address [fd00:<b>::]. *)
Definition fd00 (b : Z) : ip6_addr := ip6_of_bytes (0xfd :: 0 :: 0 :: b :: replicate 12 0).
Definition route_fd00_1 : ip6_route_entry := mk_route (mk_prefix (fd00 1) 32) (Some 1) (Some 10).
Definition route_fd00 : ip6_route_entry := mk_route (mk_prefix (fd00 0) 16) (Some 2) None.
Definition two_routes : list ip6_route_entry := [route_fd00_1; route_fd00] ++ replicate 6 empty_route.

Lemma two_routes_wf : table_wf two_routes [route_fd00_1; route_fd00] 6.
Proof.
  split; [done|done| | |].
  - repeat constructor; simpl; done || lia.
  - repeat constructor. unfold route_len. simpl. lia.
  - apply (bool_decide_eq_true_1 _). vm_compute. reflexivity.
Qed.

(** [fd00:1::] is looked up in a table with [fd00::/16] and [fd00:1::/32]: the
    longer route answers. *)
Lemma route_lookup_lpm_witness :
  (exists e, e ∈ [route_fd00_1; route_fd00] /\ route_matches (fd00 1) e = true /\
     (forall e', e' ∈ [route_fd00_1; route_fd00] -> route_matches (fd00 1) e' = true ->
        e' = e \/ route_len e' < route_len e) /\
     ip6_static_route None (fd00 1) two_routes = rt_netif e /\ ip6_get_gateway None (fd00 1) two_routes = rt_gateway e) \/
  ((forall e, e ∈ [route_fd00_1; route_fd00] -> route_matches (fd00 1) e = false) /\
     ip6_static_route None (fd00 1) two_routes = None /\ ip6_get_gateway None (fd00 1) two_routes = None).
Proof. exact (route_lookup_lpm two_routes _ 6 None None (fd00 1) two_routes_wf). Defined.

Example lookup_fd00_1 : ip6_static_route None (fd00 1) two_routes = Some 1.
Proof. vm_compute. reflexivity. Qed.
Example lookup_fd00_2 : ip6_static_route None (fd00 2) two_routes = Some 2.
Proof. vm_compute. reflexivity. Qed.

(** Adding [fd00::/24] between the two. *)
Lemma route_add_ok_witness :
  let p := mk_prefix (fd00 0) 24 in let new := mk_route p (Some 3) None in
  ip6_prefix_valid (prefix_len p) = true /\
  ((ip6_add_route_entry p (Some 3) None two_routes = Ret (ERR_MEM, None, two_routes) /\
      length [route_fd00_1; route_fd00] = LWIP_IPV6_NUM_ROUTE_ENTRIES /\
      route_key new ∉ (route_key <$> [route_fd00_1; route_fd00])) \/
   (exists i t' rs' k', ip6_add_route_entry p (Some 3) None two_routes = Ret (ERR_OK, Some i, t') /\
      table_wf t' rs' k' /\ t' !! i = Some new /\ rs' ≡ₚ new :: other_routes new [route_fd00_1; route_fd00])).
Proof.
  split; [reflexivity|].
  apply (route_add_ok two_routes _ 6 (mk_prefix (fd00 0) 24) 3 None two_routes_wf); [reflexivity|simpl; lia].
Defined.

(** Removing [fd00:1::/32]. *)
Lemma route_remove_ok_witness :
  exists t' k', ip6_remove_route_entry (rt_prefix route_fd00_1) two_routes = Ret t' /\
    table_wf t' (other_routes (mk_route (rt_prefix route_fd00_1) None None) [route_fd00_1; route_fd00]) k'.
Proof.
  apply (route_remove_ok two_routes _ 5 (rt_prefix route_fd00_1)); [exact two_routes_wf|simpl; lia].
Defined.

(** ** Removal from a full table *)

Definition add_ok (p : ip6_prefix) (r : outcome (list ip6_route_entry)) : outcome (list ip6_route_entry) :=
  t ← r; r ← ip6_add_route_entry p (Some 1) None t; Ret r.2.
Definition eight : list ip6_prefix := (fun b => mk_prefix (fd00 (Z.of_nat b)) 32) <$> seq 0 8.

(** The table is filled with eight /32 routes and emptied again: the slots keep the
    length 32, a /16 route then lands in the last slot, and the next addition to the
    table of one route is refused as if the table were full. *)
Definition emptied : outcome (list ip6_route_entry) :=
  foldl (fun r p => t ← r; ip6_remove_route_entry p t) (foldl (fun r p => add_ok p r) (Ret empty_table) eight) eight.

(** After eight routes are added and removed, no route is left, but one more
    addition goes to the last slot and the addition after it fails with [ERR_MEM]. *)
Theorem route_remove_full_stale :
  exists t t', emptied = Ret t /\ Forall (fun e => used e = false) t /\
    ip6_add_route_entry (rt_prefix route_fd00) (Some 1) None t = Ret (ERR_OK, Some 7%nat, t') /\
    length (filter (fun e => used e = true) t') = 1%nat /\
    ip6_add_route_entry (mk_prefix (fd00 1) 24) (Some 1) None t' = Ret (ERR_MEM, None, t').
Proof.
  eexists _, _. split; [vm_compute; reflexivity|]. split; [repeat constructor|].
  split; [vm_compute; reflexivity|]. by vm_compute.
Qed.
