(* ===== verification/World.v ===== *)
(** * The node's memory and its environment

    One record, [world], holds everything the running program can change:
    the pbuf heap, the lists of stored packets and contacts, the three DTN
    components hung off [global_dtn_module], the storage directory, the
    globals of lwIP's input path and the trace of what left the node.  What
    the program asks of its environment (memory, clock, sockets, files, the
    Python route computation) is answered by an [Env]: the n-th request of a
    run gets the n-th answer, and the theorems hold for every [Env]. *)

From S2P Require Import Prelude LinkedList Ip6Addr.

(** ** struct pbuf (lwip/pbuf.h)

    [pb_buf] is the memory behind the header and [pb_payload] the offset of
    the payload pointer in it; [next] is the node's link. *)

Inductive pbuf_type := PBUF_RAM | PBUF_ROM | PBUF_REF | PBUF_POOL.
#[export] Instance pbuf_type_eq_dec : EqDecision pbuf_type.
Proof. solve_decision. Defined.

Record pbuf := mk_pbuf {
  pb_buf : list Z;
  pb_payload : Z;
  pb_tot_len : Z;
  pb_len : Z;
  pb_type : pbuf_type;
  pb_flags : Z;
  pb_ref : Z;
  pb_if_idx : Z
}.

(** ** DTN structures (include/dtn_storage.h, dtn_routing.h, dtn_controller.h) *)

Record Stored_Packet_Entry := mk_entry {
  sp_p : option loc;
  original_dest : ip6_addr;
  stored_time_ms : Z;
  filename : list Z
}.

Record Storage_Function := mk_storage {
  stored_packets_count : Z;
  max_storage_bytes : Z;
  packet_list_head : option loc;
  storage_directory : list Z
}.

Record Contact_Info := mk_contact {
  node_addr : ip6_addr;
  next_hop : ip6_addr;
  start_time_ms : Z;
  end_time_ms : Z;
  is_dtn_node : bool
}.

Record Routing_Function := mk_routing {
  base_time : Z;
  contact_list_head : option loc
}.

Record ForwardingAttempt := mk_attempt {
  destination : ip6_addr;
  last_attempt_time : Z;
  retry_count : Z;
  is_valid : bool
}.

(** [forwarding_attempts[MAX_DESTINATIONS]]; the back pointer to the module
    is the world itself. *)
Definition DTN_Controller := list ForwardingAttempt.

(** ** struct netif, the fields the node uses *)

Definition LWIP_IPV6_NUM_ADDRESSES : nat := 5.

Record netif := mk_netif {
  ip6_addrs : list ip6_addr;
  ip6_addr_state : list Z;
  ip6_addr_valid_life : list Z;
  ip6_addr_pref_life : list Z;
  nif_name : list Z;
  nif_mtu : Z;
  nif_mtu6 : Z;
  nif_flags : Z;
  nif_num : Z;
  nif_state : option Z;
  nif_hwaddr : list Z;
  nif_hwaddr_len : Z;
  nif_status_callback : bool;    (* whether the callback is set *)
  nif_link_callback : bool
}.

(** ** What leaves the node *)

Inductive event :=
| EvBind (fd : Z) (device : list Z)                 (* SO_BINDTODEVICE *)
| EvSend (fd scope : Z) (dest data : list Z)        (* sendto on a raw socket *)
| EvTunWrite (fd : Z) (data : list Z).              (* write to the TUN device *)

(** ** The globals of raw_socket.c *)

Record raw_sockets := mk_raw {
  if_index_1 : Z;
  if_index_2 : Z;
  if_name_1_global : list Z;
  if_name_2_global : list Z;
  raw_socket_enp0s8 : Z;
  raw_socket_enp0s9 : Z
}.

(** ** struct sys_timeo and the statics of timeouts.c

    A handler is a function pointer, known by a number; null is [None].  The
    pending timeouts are one list that nothing else points into, given in
    order. *)

Record sys_timeo := mk_timeo {
  to_time : Z;
  to_h : option Z;
  to_arg : Z
}.

Record timers := mk_timers {
  next_timeout : list sys_timeo;
  current_timeout_due_time : Z
}.

(** ** The world *)

Record world := mk_world {
  w_pbufs : gmap loc (node pbuf);
  w_entries : gmap loc (node Stored_Packet_Entry);
  w_contacts : gmap loc (node Contact_Info);
  w_controller : option DTN_Controller;
  w_routing : option Routing_Function;
  w_storage : option Storage_Function;
  w_last_check : Z;                (* statics of dtn_routing_update_contacts *)
  w_last_active : list bool;
  w_files : gmap (list Z) (list Z);
  w_timers : timers;               (* the statics of timeouts.c *)
  w_cur_src : ip6_addr;            (* ip_data.current_iphdr_src / _dest *)
  w_cur_dest : ip6_addr;
  w_raw : raw_sockets;
  w_fds : list Z;                  (* open descriptors *)
  w_trace : list event;
  w_tick : nat
}.

Definition set_pbufs (f : gmap loc (node pbuf) -> gmap loc (node pbuf)) (w : world) : world :=
  mk_world (f (w_pbufs w)) (w_entries w) (w_contacts w) (w_controller w) (w_routing w)
           (w_storage w) (w_last_check w) (w_last_active w) (w_files w) (w_timers w) (w_cur_src w)
           (w_cur_dest w) (w_raw w) (w_fds w) (w_trace w) (w_tick w).
Definition set_entries (f : gmap loc (node Stored_Packet_Entry) -> gmap loc (node Stored_Packet_Entry))
    (w : world) : world :=
  mk_world (w_pbufs w) (f (w_entries w)) (w_contacts w) (w_controller w) (w_routing w)
           (w_storage w) (w_last_check w) (w_last_active w) (w_files w) (w_timers w) (w_cur_src w)
           (w_cur_dest w) (w_raw w) (w_fds w) (w_trace w) (w_tick w).
Definition set_contacts (f : gmap loc (node Contact_Info) -> gmap loc (node Contact_Info))
    (w : world) : world :=
  mk_world (w_pbufs w) (w_entries w) (f (w_contacts w)) (w_controller w) (w_routing w)
           (w_storage w) (w_last_check w) (w_last_active w) (w_files w) (w_timers w) (w_cur_src w)
           (w_cur_dest w) (w_raw w) (w_fds w) (w_trace w) (w_tick w).
Definition set_controller (c : option DTN_Controller) (w : world) : world :=
  mk_world (w_pbufs w) (w_entries w) (w_contacts w) c (w_routing w) (w_storage w)
           (w_last_check w) (w_last_active w) (w_files w) (w_timers w) (w_cur_src w) (w_cur_dest w)
           (w_raw w) (w_fds w) (w_trace w) (w_tick w).
Definition set_routing (r : option Routing_Function) (w : world) : world :=
  mk_world (w_pbufs w) (w_entries w) (w_contacts w) (w_controller w) r (w_storage w)
           (w_last_check w) (w_last_active w) (w_files w) (w_timers w) (w_cur_src w) (w_cur_dest w)
           (w_raw w) (w_fds w) (w_trace w) (w_tick w).
Definition set_storage (s : option Storage_Function) (w : world) : world :=
  mk_world (w_pbufs w) (w_entries w) (w_contacts w) (w_controller w) (w_routing w) s
           (w_last_check w) (w_last_active w) (w_files w) (w_timers w) (w_cur_src w) (w_cur_dest w)
           (w_raw w) (w_fds w) (w_trace w) (w_tick w).
Definition set_update_statics (c : Z) (l : list bool) (w : world) : world :=
  mk_world (w_pbufs w) (w_entries w) (w_contacts w) (w_controller w) (w_routing w)
           (w_storage w) c l (w_files w) (w_timers w) (w_cur_src w) (w_cur_dest w) (w_raw w) (w_fds w) (w_trace w)
           (w_tick w).
Definition set_files (f : gmap (list Z) (list Z) -> gmap (list Z) (list Z)) (w : world) : world :=
  mk_world (w_pbufs w) (w_entries w) (w_contacts w) (w_controller w) (w_routing w)
           (w_storage w) (w_last_check w) (w_last_active w) (f (w_files w)) (w_timers w)
           (w_cur_src w) (w_cur_dest w) (w_raw w) (w_fds w) (w_trace w) (w_tick w).
Definition add_event (e : event) (w : world) : world :=
  mk_world (w_pbufs w) (w_entries w) (w_contacts w) (w_controller w) (w_routing w)
           (w_storage w) (w_last_check w) (w_last_active w) (w_files w) (w_timers w) (w_cur_src w)
           (w_cur_dest w) (w_raw w) (w_fds w) ((w_trace w) ++ [e]) (w_tick w).
Definition add_ticks (n : nat) (w : world) : world :=
  mk_world (w_pbufs w) (w_entries w) (w_contacts w) (w_controller w) (w_routing w)
           (w_storage w) (w_last_check w) (w_last_active w) (w_files w) (w_timers w) (w_cur_src w)
           (w_cur_dest w) (w_raw w) (w_fds w) (w_trace w) (n + (w_tick w)).
Definition set_raw (r : raw_sockets) (fds : list Z) (w : world) : world :=
  mk_world (w_pbufs w) (w_entries w) (w_contacts w) (w_controller w) (w_routing w)
           (w_storage w) (w_last_check w) (w_last_active w) (w_files w) (w_timers w) (w_cur_src w)
           (w_cur_dest w) r fds (w_trace w) (w_tick w).
Definition set_current (src dest : ip6_addr) (w : world) : world :=
  mk_world (w_pbufs w) (w_entries w) (w_contacts w) (w_controller w) (w_routing w)
           (w_storage w) (w_last_check w) (w_last_active w) (w_files w) (w_timers w) src
           dest (w_raw w) (w_fds w) (w_trace w) (w_tick w).

Definition set_timers (t : timers) (w : world) : world :=
  mk_world (w_pbufs w) (w_entries w) (w_contacts w) (w_controller w) (w_routing w)
           (w_storage w) (w_last_check w) (w_last_active w) (w_files w) t (w_cur_src w)
           (w_cur_dest w) (w_raw w) (w_fds w) (w_trace w) (w_tick w).

(** ** The environment *)

(** What one run of the Python route computation returns to
    [dtn_routing_get_dtn_next_hop]: an error before [fwd_candidate], a null
    result of [fwd_candidate], no candidate, or a best candidate whose
    [next_node] is missing, [None], an integer or something else. *)
Inductive cgr_answer :=
| CgrError
| CgrNull
| CgrNoCandidate
| CgrNoAttr
| CgrNone
| CgrNode (id : Z)
| CgrNotInt.

(** The arguments the C code hands to Python. *)
Record cgr_query := mk_query {
  q_base_time_ms : Z;
  q_curr_time_ms : Z;
  q_curr_node : Z;
  q_dest_node : Z;
  q_plen : Z;
  q_deadline : Z;
  q_dscp : Z;
  q_sender_node : Z
}.

(** Answers of [read], [write] and [select]; the two errors of [errno] the
    code tells apart are [EAGAIN]/[EWOULDBLOCK] (resp. [EINTR]) and the rest. *)
Inductive read_answer := ReadError | ReadAgain | ReadBytes (data : list Z).
Inductive write_answer := WriteError | WriteAgain | Written (n : Z).
Inductive select_answer := SelectError | SelectIntr | SelectOk (readable : bool).

Class Env := {
  env_malloc : nat -> bool;                 (* libc malloc succeeds *)
  env_mem_malloc : nat -> bool;             (* lwIP heap allocation succeeds *)
  env_fresh_byte : nat -> nat -> Z;         (* contents of fresh memory *)
  env_stack_addr : nat -> ip6_addr;         (* an uninitialised local address *)
  env_now : nat -> Z;                       (* the monotonic clock, in ms *)
  env_fopen : nat -> bool;
  env_fwrite : nat -> Z -> Z;               (* bytes written of those asked *)
  env_stat : nat -> bool;                   (* the storage directory exists *)
  env_mkdir : nat -> bool;
  env_opendir : nat -> bool;
  env_remove : nat -> bool;
  env_readdir : nat -> list (list Z);       (* names in the storage directory *)
  env_socket : nat -> Z;                    (* a new descriptor, or negative *)
  env_ifindex : nat -> option Z;            (* ioctl SIOCGIFINDEX *)
  env_setsockopt : nat -> Z;
  env_open : nat -> Z;                      (* open("/dev/net/tun") *)
  env_ioctl : nat -> bool;                  (* ioctl TUNSETIFF *)
  env_fcntl : nat -> bool;
  env_select : nat -> select_answer;
  env_read : nat -> read_answer;
  env_write : nat -> Z -> write_answer;
  env_sendto : nat -> Z -> Z;
  env_cgr : nat -> cgr_query -> cgr_answer
}.

Section requests.
Context `{Env}.

(** The number of the next request. *)
Definition next_tick : M world nat :=
  fun w => Ret (w_tick w, add_ticks 1 w).

(** [sys_now] (port/sys_arch.c): the clock truncated to 32 bits. *)
Definition sys_now : M world Z :=
  t ← next_tick; mret (u32 (env_now t)).

Definition malloc_ok : M world bool :=
  t ← next_tick; mret (env_malloc t).

(** An uninitialised [ip6_addr_t] local variable. *)
Definition stack_addr : M world ip6_addr :=
  t ← next_tick; mret (env_stack_addr t).

Lemma wp_tick w Q : Q (w_tick w) (add_ticks 1 w) -> wp next_tick w Q.
Proof. done. Qed.
Lemma wp_malloc w Q : Q (env_malloc (w_tick w)) (add_ticks 1 w) -> wp malloc_ok w Q.
Proof. done. Qed.
Lemma wp_now w Q : Q (u32 (env_now (w_tick w))) (add_ticks 1 w) -> wp sys_now w Q.
Proof. done. Qed.

(** [fopen], [fwrite]: files are byte strings under a name. *)
Definition fopen_wb (name : list Z) : M world bool :=
  t ← next_tick;
  if env_fopen t then modify (set_files (insert name []));; mret true else mret false.
Definition fopen_rb (name : list Z) : M world (option (list Z)) :=
  t ← next_tick;
  w ← get;
  mret (if env_fopen t then w_files w !! name else None).
(** Returns the number of bytes that reached the file. *)
Definition fwrite (name data : list Z) : M world Z :=
  t ← next_tick;
  let n := Z.of_nat (length data) in
  let k := Z.max 0 (Z.min n (env_fwrite t n)) in
  modify (set_files (alter (fun old => old ++ take (Z.to_nat k) data) name));;
  mret k.

(** The bytes found in freshly allocated memory. *)
Definition fresh_bytes (t n : nat) : list Z :=
  (fun i => u8 (env_fresh_byte t i)) <$> seq 0 n.

Lemma length_fresh_bytes t n : length (fresh_bytes t n) = n.
Proof. unfold fresh_bytes. by rewrite length_fmap, length_seq. Qed.

Lemma fresh_bytes_byte t n : Forall is_byte (fresh_bytes t n).
Proof.
  unfold fresh_bytes. apply Forall_fmap, Forall_true. intros.
  unfold compose, is_byte. apply u8_range.
Qed.
End requests.
#[export] Hint Rewrite @length_fresh_bytes : len.
#[export] Hint Resolve fresh_bytes_byte : ints.

(** What the packet and storage operations leave alone. *)
Definition rest_of (w : world) :=
  (w_contacts w, w_controller w, w_routing w, w_last_check w, w_last_active w,
   w_cur_src w, w_cur_dest w, w_raw w, w_fds w, w_trace w, w_timers w).

Lemma world_eq w1 w2 :
  w_pbufs w1 = w_pbufs w2 -> w_entries w1 = w_entries w2 -> w_contacts w1 = w_contacts w2 ->
  w_controller w1 = w_controller w2 -> w_routing w1 = w_routing w2 -> w_storage w1 = w_storage w2 ->
  w_last_check w1 = w_last_check w2 -> w_last_active w1 = w_last_active w2 ->
  w_files w1 = w_files w2 -> w_timers w1 = w_timers w2 -> w_cur_src w1 = w_cur_src w2 -> w_cur_dest w1 = w_cur_dest w2 ->
  w_raw w1 = w_raw w2 -> w_fds w1 = w_fds w2 -> w_trace w1 = w_trace w2 -> w_tick w1 = w_tick w2 ->
  w1 = w2.
Proof. destruct w1, w2. simpl. by intros -> -> -> -> -> -> -> -> -> -> -> -> -> -> -> ->. Qed.

Lemma add_ticks_0 w : add_ticks 0 w = w.
Proof. by destruct w. Qed.
Lemma add_ticks_add n m w : add_ticks n (add_ticks m w) = add_ticks (n + m) w.
Proof. unfold add_ticks. simpl. f_equal. lia. Qed.

(** ** A concrete environment and a concrete start

    Every request succeeds and fresh memory is zero; the clock, the route
    computation and the packets read are given.  Used where a theorem is applied to concrete data. *)
Definition calm_env_selecting (clock : nat -> Z) (cgr : nat -> cgr_query -> cgr_answer)
    (reads : nat -> read_answer) (select : nat -> select_answer) : Env := {|
  env_malloc := fun _ => true;
  env_mem_malloc := fun _ => true;
  env_fresh_byte := fun _ _ => 0;
  env_stack_addr := fun _ => ip6_addr_any;
  env_now := clock;
  env_fopen := fun _ => true;
  env_fwrite := fun _ n => n;
  env_stat := fun _ => true;
  env_mkdir := fun _ => true;
  env_opendir := fun _ => true;
  env_remove := fun _ => true;
  env_readdir := fun _ => [];
  env_socket := fun t => 4 + Z.of_nat t;
  env_ifindex := fun t => Some (1 + Z.of_nat t);
  env_setsockopt := fun _ => 0;
  env_open := fun _ => 3;
  env_ioctl := fun _ => true;
  env_fcntl := fun _ => true;
  env_select := select;
  env_read := reads;
  env_write := fun _ n => Written n;
  env_sendto := fun _ n => n;
  env_cgr := cgr
|}.
Definition calm_env_reading (clock : nat -> Z) (cgr : nat -> cgr_query -> cgr_answer)
    (reads : nat -> read_answer) : Env :=
  calm_env_selecting clock cgr reads (fun _ => SelectOk false).
Definition calm_env_with (clock : nat -> Z) (cgr : nat -> cgr_query -> cgr_answer) : Env :=
  calm_env_reading clock cgr (fun _ => ReadAgain).
Definition calm_env : Env := calm_env_with (fun _ => 100000) (fun _ _ => CgrNoCandidate).

Definition empty_world : world :=
  mk_world ∅ ∅ ∅ None None None 0 [] ∅ (mk_timers [] 0) ip6_addr_any ip6_addr_any
           (mk_raw 0 0 [] [] (-1) (-1)) [] [] 0.
