(* ===== verification/Netif.v ===== *)
(** * Network interfaces (lwip/src/core/netif.c, ip6_addr.h, ip6_zone.h)

    The interface list and the IPv6 addresses of an interface, as [main]
    configures them.  Calls into neighbour discovery and multicast listener
    discovery, and the callbacks, are returned as a list of calls: they do
    not change the interface.  Theorems: an interface number is always found
    while fewer than 255 interfaces exist, and is unused; adding an address
    finds it, or takes a free slot and leaves the others alone, or reports
    that there is none. *)

From S2P Require Import Prelude LinkedList Ip6Addr World.

(** ** Address classes (ip6_addr.h) *)

Definition PP_HTONL (x : Z) : Z := lwip_htonl x.

Definition ip6_addr_isany (a : ip6_addr) : bool :=
  (addr0 a =? 0) && (addr1 a =? 0) && (addr2 a =? 0) && (addr3 a =? 0).
Definition ip6_addr_isloopback (a : ip6_addr) : bool :=
  (addr0 a =? 0) && (addr1 a =? 0) && (addr2 a =? 0) && (addr3 a =? PP_HTONL 1).
Definition ip6_addr_isglobal (a : ip6_addr) : bool :=
  Z.land (addr0 a) (PP_HTONL 0xe0000000) =? PP_HTONL 0x20000000.
Definition ip6_addr_islinklocal (a : ip6_addr) : bool :=
  Z.land (addr0 a) (PP_HTONL 0xffc00000) =? PP_HTONL 0xfe800000.
Definition ip6_addr_issitelocal (a : ip6_addr) : bool :=
  Z.land (addr0 a) (PP_HTONL 0xffc00000) =? PP_HTONL 0xfec00000.
Definition ip6_addr_isuniquelocal (a : ip6_addr) : bool :=
  Z.land (addr0 a) (PP_HTONL 0xfe000000) =? PP_HTONL 0xfc000000.
Definition ip6_addr_isipv4mappedipv6 (a : ip6_addr) : bool :=
  (addr0 a =? 0) && (addr1 a =? 0) && (addr2 a =? PP_HTONL 0x0000FFFF).
Definition ip6_addr_ismulticast (a : ip6_addr) : bool :=
  Z.land (addr0 a) (PP_HTONL 0xff000000) =? PP_HTONL 0xff000000.
Definition ip6_addr_multicast_scope (a : ip6_addr) : Z :=
  Z.land (Z.shiftr (lwip_htonl (addr0 a)) 16) 0xf.
Definition ip6_addr_ismulticast_iflocal (a : ip6_addr) : bool :=
  Z.land (addr0 a) (PP_HTONL 0xff8f0000) =? PP_HTONL 0xff010000.
Definition ip6_addr_ismulticast_linklocal (a : ip6_addr) : bool :=
  Z.land (addr0 a) (PP_HTONL 0xff8f0000) =? PP_HTONL 0xff020000.
Definition ip6_addr_isallnodes_iflocal (a : ip6_addr) : bool :=
  (addr0 a =? PP_HTONL 0xff010000) && (addr1 a =? 0) && (addr2 a =? 0) && (addr3 a =? PP_HTONL 1).
Definition ip6_addr_isallnodes_linklocal (a : ip6_addr) : bool :=
  (addr0 a =? PP_HTONL 0xff020000) && (addr1 a =? 0) && (addr2 a =? 0) && (addr3 a =? PP_HTONL 1).
Definition ip6_addr_issolicitednode (a : ip6_addr) : bool :=
  (addr0 a =? PP_HTONL 0xff020000) && (addr2 a =? PP_HTONL 1) &&
  (Z.land (addr3 a) (PP_HTONL 0xff000000) =? PP_HTONL 0xff000000).

Definition ip6_addr_net_zoneless_eq (a b : ip6_addr) : bool :=
  (addr0 a =? addr0 b) && (addr1 a =? addr1 b).
Definition ip6_addr_net_eq (a b : ip6_addr) : bool :=
  ip6_addr_net_zoneless_eq a b && (zone a =? zone b).
Definition ip6_addr_nethost_eq (a b : ip6_addr) : bool :=
  (addr2 a =? addr2 b) && (addr3 a =? addr3 b).

(** Address states. *)
Definition IP6_ADDR_INVALID : Z := 0x00.
Definition IP6_ADDR_TENTATIVE : Z := 0x08.
Definition IP6_ADDR_VALID : Z := 0x10.
Definition IP6_ADDR_PREFERRED : Z := 0x30.
Definition IP6_ADDR_TENTATIVE_COUNT_MASK : Z := 0x07.
Definition IP6_ADDR_LIFE_STATIC : Z := 0.
Definition ip6_addr_isinvalid (st : Z) : bool := st =? IP6_ADDR_INVALID.
Definition ip6_addr_isvalid (st : Z) : bool := negb (Z.land st IP6_ADDR_VALID =? 0).
Definition ip6_addr_ispreferred (st : Z) : bool := st =? IP6_ADDR_PREFERRED.

(** ** Flags and accessors (netif.h) *)

Definition NETIF_FLAG_UP : Z := 0x01.
Definition NETIF_FLAG_LINK_UP : Z := 0x04.
Definition NETIF_FLAG_MLD6 : Z := 0x40.
Definition netif_is_up (n : netif) : bool := negb (Z.land (nif_flags n) NETIF_FLAG_UP =? 0).
Definition netif_is_link_up (n : netif) : bool := negb (Z.land (nif_flags n) NETIF_FLAG_LINK_UP =? 0).
Definition NETIF_NO_INDEX : Z := 0.
Definition netif_get_index (n : netif) : Z := u8 (nif_num n + 1).
Definition netif_ip6_addr (n : netif) (i : nat) : outcome ip6_addr := deref (ip6_addrs n !! i).
Definition netif_ip6_addr_state (n : netif) (i : nat) : outcome Z := deref (ip6_addr_state n !! i).
Definition netif_ip6_addr_isstatic (n : netif) (i : nat) : outcome bool :=
  l ← deref (ip6_addr_valid_life n !! i); Ret (l =? IP6_ADDR_LIFE_STATIC).

(** ** Scopes and zones (ip6_zone.h) *)

Inductive lwip_ipv6_scope_type := IP6_UNKNOWN | IP6_UNICAST | IP6_MULTICAST.
Definition ip6_addr_has_zone (a : ip6_addr) : bool := negb (zone a =? IP6_NO_ZONE).
Definition ip6_addr_has_scope (a : ip6_addr) (type : lwip_ipv6_scope_type) : bool :=
  ip6_addr_islinklocal a ||
  (match type with IP6_UNICAST => false | _ => true end &&
   (ip6_addr_ismulticast_iflocal a || ip6_addr_ismulticast_linklocal a)).
Definition ip6_addr_assign_zone (a : ip6_addr) (type : lwip_ipv6_scope_type) (n : netif) : ip6_addr :=
  ip6_addr_set_zone (if ip6_addr_has_scope a type then netif_get_index n else 0) a.
Definition ip6_addr_test_zone (a : ip6_addr) (n : netif) : bool := zone a =? netif_get_index n.
Definition ip6_addr_lacks_zone (a : ip6_addr) (type : lwip_ipv6_scope_type) : bool :=
  negb (ip6_addr_has_zone a) && ip6_addr_has_scope a type.

(** ** Field updates *)

Definition with_ip6_addrs (l : list ip6_addr) (n : netif) : netif :=
  mk_netif l (ip6_addr_state n) (ip6_addr_valid_life n) (ip6_addr_pref_life n) (nif_name n) (nif_mtu n)
    (nif_mtu6 n) (nif_flags n) (nif_num n) (nif_state n) (nif_hwaddr n) (nif_hwaddr_len n)
    (nif_status_callback n) (nif_link_callback n).
Definition with_addr_states (l : list Z) (n : netif) : netif :=
  mk_netif (ip6_addrs n) l (ip6_addr_valid_life n) (ip6_addr_pref_life n) (nif_name n) (nif_mtu n)
    (nif_mtu6 n) (nif_flags n) (nif_num n) (nif_state n) (nif_hwaddr n) (nif_hwaddr_len n)
    (nif_status_callback n) (nif_link_callback n).
Definition with_flags (f : Z) (n : netif) : netif :=
  mk_netif (ip6_addrs n) (ip6_addr_state n) (ip6_addr_valid_life n) (ip6_addr_pref_life n) (nif_name n)
    (nif_mtu n) (nif_mtu6 n) f (nif_num n) (nif_state n) (nif_hwaddr n) (nif_hwaddr_len n)
    (nif_status_callback n) (nif_link_callback n).
Definition with_num (k : Z) (n : netif) : netif :=
  mk_netif (ip6_addrs n) (ip6_addr_state n) (ip6_addr_valid_life n) (ip6_addr_pref_life n) (nif_name n)
    (nif_mtu n) (nif_mtu6 n) (nif_flags n) k (nif_state n) (nif_hwaddr n) (nif_hwaddr_len n)
    (nif_status_callback n) (nif_link_callback n).
Definition with_mtu6 (m : Z) (n : netif) : netif :=
  mk_netif (ip6_addrs n) (ip6_addr_state n) (ip6_addr_valid_life n) (ip6_addr_pref_life n) (nif_name n)
    (nif_mtu n) m (nif_flags n) (nif_num n) (nif_state n) (nif_hwaddr n) (nif_hwaddr_len n)
    (nif_status_callback n) (nif_link_callback n).
Definition set_slot {A} (i : nat) (a : A) (l : list A) : outcome (list A) :=
  _ ← deref (l !! i); Ret (<[i := a]> l).

(** ** Calls out of the interface code *)

Inductive netif_call :=
| MldAdjust (idx : nat) (new_state : Z)     (* nd6_adjust_mld_membership *)
| MldReport                                 (* mld6_report_groups *)
| MldStop                                   (* mld6_stop *)
| Nd6Restart                                (* nd6_restart_netif *)
| Nd6Cleanup                                (* nd6_cleanup_netif *)
| StatusCallback
| LinkCallback.

(** A result with the calls made on the way. *)
Definition calls (A : Type) : Type := outcome (list netif_call * A).
Definition returns {A} (a : A) : calls A := Ret ([], a).
Definition andthen {A B} (m : calls A) (f : A -> calls B) : calls B :=
  r ← m; r' ← f r.2; Ret (r.1 ++ r'.1, r'.2).
Definition call {A} (c : netif_call) (a : A) : calls A := Ret ([c], a).
Definition pure {A} (m : outcome A) : calls A := a ← m; Ret ([], a).

Definition NETIF_STATUS_CALLBACK (n : netif) : calls netif :=
  if nif_status_callback n then call StatusCallback n else returns n.
Definition NETIF_LINK_CALLBACK (n : netif) : calls netif :=
  if nif_link_callback n then call LinkCallback n else returns n.

(** [report_type] always has the IPv6 bit in this configuration. *)
Definition netif_issue_reports (n : netif) : calls netif :=
  if negb (netif_is_link_up n) || negb (netif_is_up n) then returns n else call MldReport n.

Definition netif_set_up (n : netif) : calls netif :=
  if netif_is_up n then returns n
  else
    let n := with_flags (u8 (Z.lor (nif_flags n) NETIF_FLAG_UP)) n in
    andthen (NETIF_STATUS_CALLBACK n) (fun n =>
    andthen (netif_issue_reports n) (fun n => call Nd6Restart n)).
Definition netif_set_down (n : netif) : calls netif :=
  if netif_is_up n then
    let n := with_flags (Z.land (nif_flags n) (u8 (Z.lnot NETIF_FLAG_UP))) n in
    andthen (call Nd6Cleanup n) NETIF_STATUS_CALLBACK
  else returns n.
Definition netif_set_link_up (n : netif) : calls netif :=
  if netif_is_link_up n then returns n
  else
    let n := with_flags (u8 (Z.lor (nif_flags n) NETIF_FLAG_LINK_UP)) n in
    andthen (netif_issue_reports n) (fun n =>
    andthen (call Nd6Restart n) NETIF_LINK_CALLBACK).
Definition netif_set_link_down (n : netif) : calls netif :=
  if netif_is_link_up n then
    let n := with_flags (Z.land (nif_flags n) (u8 (Z.lnot NETIF_FLAG_LINK_UP))) n in
    NETIF_LINK_CALLBACK (with_mtu6 (nif_mtu n) n)
  else returns n.

(** ** The addresses of an interface *)

(** With TCP, UDP and RAW disabled, [netif_do_ip_addr_changed] does nothing. *)
Definition netif_ip6_addr_set_parts (n : netif) (addr_idx : nat) (i0 i1 i2 i3 : Z) : calls netif :=
  andthen (pure (netif_ip6_addr n addr_idx)) (fun old =>
  if (addr0 old =? i0) && (addr1 old =? i1) && (addr2 old =? i2) && (addr3 old =? i3) then returns n
  else
    let new_ipaddr := ip6_addr_assign_zone (IP6_ADDR i0 i1 i2 i3) IP6_UNICAST n in
    andthen (pure (netif_ip6_addr_state n addr_idx)) (fun st =>
    andthen (pure (set_slot addr_idx new_ipaddr (ip6_addrs n))) (fun l =>
    let n := with_ip6_addrs l n in
    if ip6_addr_isvalid st then andthen (netif_issue_reports n) NETIF_STATUS_CALLBACK else returns n))).
Definition netif_ip6_addr_set (n : netif) (addr_idx : nat) (a : ip6_addr) : calls netif :=
  netif_ip6_addr_set_parts n addr_idx (addr0 a) (addr1 a) (addr2 a) (addr3 a).

Definition netif_ip6_addr_set_state (n : netif) (addr_idx : nat) (state : Z) : calls netif :=
  andthen (pure (netif_ip6_addr_state n addr_idx)) (fun old_state =>
  if old_state =? state then returns n
  else
    andthen (if negb (Z.land (nif_flags n) NETIF_FLAG_MLD6 =? 0) then call (MldAdjust addr_idx state) n
             else returns n) (fun n =>
    andthen (pure (set_slot addr_idx state (ip6_addr_state n))) (fun l =>
    let n := with_addr_states l n in
    andthen (if negb (ip6_addr_isvalid old_state) && ip6_addr_isvalid state then netif_issue_reports n
             else returns n) (fun n =>
    if Z.land old_state (Z.lnot IP6_ADDR_TENTATIVE_COUNT_MASK) =?
       Z.land state (Z.lnot IP6_ADDR_TENTATIVE_COUNT_MASK) then returns n
    else NETIF_STATUS_CALLBACK n)))).

(** [for (i = first; i < LWIP_IPV6_NUM_ADDRESSES; i++) if (test(i)) return i;] *)
Fixpoint first_slot (k i : nat) (test : nat -> outcome bool) : outcome (option nat) :=
  match k with
  | O => Ret None
  | S k => b ← test i; if (b : bool) then Ret (Some i) else first_slot k (S i) test
  end.

Definition slot_matches (n : netif) (a : ip6_addr) (i : nat) : outcome bool :=
  st ← netif_ip6_addr_state n i;
  if ip6_addr_isinvalid st then Ret false
  else b ← netif_ip6_addr n i; Ret (ip6_addr_zoneless_eq b a).
(** The index, or none for -1. *)
Definition netif_get_ip6_addr_match (n : netif) (a : ip6_addr) : outcome (option nat) :=
  if ip6_addr_has_zone a && negb (ip6_addr_test_zone a n) then Ret None
  else first_slot LWIP_IPV6_NUM_ADDRESSES 0 (slot_matches n a).

Definition slot_free (n : netif) (i : nat) : outcome bool :=
  st ← netif_ip6_addr_state n i; Ret (ip6_addr_isinvalid st).
(** The error, the chosen index (none for -1) and the interface. *)
Definition netif_add_ip6_address (n : netif) (a : ip6_addr) : calls (err_t * option nat * netif) :=
  andthen (pure (netif_get_ip6_addr_match n a)) (fun m =>
  match m with
  | Some i => returns (ERR_OK, Some i, n)
  | None =>
      let first := if ip6_addr_islinklocal a then O else 1%nat in
      andthen (pure (first_slot (LWIP_IPV6_NUM_ADDRESSES - first) first (slot_free n))) (fun f =>
      match f with
      | None => returns (ERR_VAL, None, n)
      | Some i =>
          andthen (pure (set_slot i (ip6_addr_assign_zone a IP6_UNICAST n) (ip6_addrs n))) (fun l =>
          andthen (netif_ip6_addr_set_state (with_ip6_addrs l n) i IP6_ADDR_TENTATIVE) (fun n =>
          returns (ERR_OK, Some i, n)))
      end)
  end).

Definition hwaddr_at (n : netif) (i : nat) : outcome Z := deref (nif_hwaddr n !! i).
(** [addr[2]] and [addr[3]] from [hwaddr] used as it is: the loop over [i]. *)
Definition link_id_step (n : netif) (st : outcome (Z * Z)) (i : nat) : outcome (Z * Z) :=
  p ← st;
  if Z.of_nat i <? nif_hwaddr_len n then
    b ← hwaddr_at n (Z.to_nat (nif_hwaddr_len n - Z.of_nat i - 1));
    let v := lwip_htonl (u32 (Z.shiftl b (8 * Z.land (Z.of_nat i) 3))) in
    Ret (if decide (i < 4)%nat then (p.1, Z.lor p.2 v) else (Z.lor p.1 v, p.2))
  else Ret p.
Definition link_id (n : netif) (from_mac_48bit : bool) : outcome (Z * Z) :=
  if from_mac_48bit then
    h0 ← hwaddr_at n 0; h1 ← hwaddr_at n 1; h2 ← hwaddr_at n 2;
    h3 ← hwaddr_at n 3; h4 ← hwaddr_at n 4; h5 ← hwaddr_at n 5;
    Ret (lwip_htonl (Z.lor (Z.lor (Z.lor (u32 (Z.shiftl (Z.lxor h0 2) 24)) (Z.shiftl h1 16)) (Z.shiftl h2 8)) 0xff),
         lwip_htonl (Z.lor (Z.lor (Z.lor (u32 (Z.shiftl 0xfe 24)) (Z.shiftl h3 16)) (Z.shiftl h4 8)) h5))
  else foldl (link_id_step n) (Ret (0, 0)) (seq 0 8).
Definition netif_create_ip6_linklocal_address (n : netif) (from_mac_48bit : bool) : calls netif :=
  andthen (pure (link_id n from_mac_48bit)) (fun id =>
  let a := ip6_addr_assign_zone (IP6_ADDR (PP_HTONL 0xfe800000) 0 id.1 id.2) IP6_UNICAST n in
  andthen (pure (set_slot 0 a (ip6_addrs n))) (fun l =>
  netif_ip6_addr_set_state (with_ip6_addrs l n) 0 IP6_ADDR_TENTATIVE)).

(** ** The interface list *)

(** [netif_list] in its order, each interface with its address; [netif_default]
    and [netif_num]. *)
Record netif_globals := mk_netifs {
  netif_list : list (loc * netif);
  netif_default : option loc;
  netif_num : Z
}.
Definition no_netifs : netif_globals := mk_netifs [] None 0.

(** The inner [for] of the number search: whether some interface has [num]. *)
Fixpoint num_scan (netif_ : loc) (num count : Z) (l : list (loc * netif)) : outcome bool :=
  match l with
  | [] => Ret false
  | (q, n2) :: l =>
      if decide (q = netif_) then Stuck                       (* "netif already added" *)
      else if 255 <? count + 1 then Stuck                     (* "too many netifs" *)
      else if nif_num n2 =? num then Ret true
      else num_scan netif_ num (count + 1) l
  end.
(** One round of the [do ... while]. *)
Definition num_body (netif_ : loc) (l : list (loc * netif)) (num : Z) : outcome (Z + Z) :=
  let num := if num =? 255 then 0 else num in
  taken ← num_scan netif_ num 0 l;
  Ret (if (taken : bool) then inl (u8 (num + 1)) else inr num).
Definition num_fuel : nat := 257.
Definition assign_num (fuel : nat) (netif_ : loc) (l : list (loc * netif)) (num : Z) : outcome Z :=
  oloop fuel (num_body netif_ l) num.

(** The fields [netif_add] sets before the driver's [init]. *)
Definition netif_reset (n : netif) (state : option Z) (num : Z) : netif :=
  mk_netif (replicate LWIP_IPV6_NUM_ADDRESSES ip6_addr_any) (replicate LWIP_IPV6_NUM_ADDRESSES IP6_ADDR_INVALID)
    (replicate LWIP_IPV6_NUM_ADDRESSES IP6_ADDR_LIFE_STATIC) (replicate LWIP_IPV6_NUM_ADDRESSES IP6_ADDR_LIFE_STATIC)
    (nif_name n) 0 (nif_mtu6 n) 0 num state (nif_hwaddr n) (nif_hwaddr_len n) false false.

(** [init] is the driver's function; [None] is the null result. *)
Definition netif_add (g : netif_globals) (p : loc) (n : netif) (state : option Z) (init : netif -> err_t * netif)
  : outcome (option netif * netif_globals) :=
  let '(err, n) := init (netif_reset n state (netif_num g)) in
  if bool_decide (err <> ERR_OK) then Ret (None, g)
  else
    let n := with_mtu6 (nif_mtu n) n in
    num ← assign_num num_fuel p (netif_list g) (nif_num n);
    let n := with_num num n in
    let next_num := if num =? 254 then 0 else u8 (num + 1) in
    Ret (Some n, mk_netifs ((p, n) :: netif_list g) (netif_default g) next_num).

Definition netif_set_default (p : option loc) (g : netif_globals) : netif_globals :=
  mk_netifs (netif_list g) p (netif_num g).

(** Unlinking [p]; whether it was on the list. *)
Fixpoint unlink_netif (p : loc) (l : list (loc * netif)) : bool * list (loc * netif) :=
  match l with
  | [] => (false, [])
  | (q, n) :: l => if decide (q = p) then (true, l) else let r := unlink_netif p l in (r.1, (q, n) :: r.2)
  end.
(** The interface as it is left, and the globals. *)
Definition netif_remove (g : netif_globals) (p : loc) (n : netif) : calls (netif * netif_globals) :=
  andthen (call MldStop n) (fun n =>
  andthen (if netif_is_up n then netif_set_down n else returns n) (fun n =>
  let g := if decide (netif_default g = Some p) then netif_set_default None g else g in
  returns (n, mk_netifs (unlink_netif p (netif_list g)).2 (netif_default g) (netif_num g)))).

Definition netif_get_by_index (idx : Z) (g : netif_globals) : option (loc * netif) :=
  if idx =? NETIF_NO_INDEX then None
  else snd <$> list_find (fun x => netif_get_index x.2 = idx) (netif_list g).

(** ** Interface numbers *)

Definition nums (l : list (loc * netif)) : list Z := (fun x => nif_num x.2) <$> l.

(** Distinct addresses, distinct numbers in [0..254]. *)
Record netifs_ok (g : netif_globals) : Prop := {
  ni_locs : NoDup (netif_list g).*1;
  ni_nums : NoDup (nums (netif_list g));
  ni_range : Forall (fun k => 0 <= k <= 254) (nums (netif_list g));
  ni_next : 0 <= netif_num g <= 254
}.

Lemma num_scan_spec p num l count :
  p ∉ l.*1 -> 0 <= count -> count + Z.of_nat (length l) <= 255 ->
  num_scan p num count l = Ret (bool_decide (num ∈ nums l)).
Proof.
  revert count. induction l as [|[q n2] l IH]; intros count Hp Hc Hl; simpl in *; [done|].
  apply not_elem_of_cons in Hp as [Hq Hp]. rewrite decide_False by congruence.
  destruct (Z.ltb_spec 255 (count + 1)); [lia|]. destruct (Z.eqb_spec (nif_num n2) num) as [E|E].
  - rewrite bool_decide_eq_true_2; [done|]. rewrite <-E. by apply list_elem_of_here.
  - rewrite IH by (done || lia). f_equal. apply bool_decide_ext.
    unfold nums. simpl. rewrite elem_of_cons. naive_solver.
Qed.

(** The numbers tried from [a] on, modulo 255. *)
Definition tried (a : Z) (k : nat) : list Z := (fun i => (a + Z.of_nat i) mod 255) <$> seq 0 k.

Lemma tried_NoDup a k : (k <= 255)%nat -> NoDup (tried a k).
Proof.
  intros Hk. apply NoDup_fmap_2_strong; [|apply NoDup_seq].
  intros i j [_ Hi]%elem_of_seq [_ Hj]%elem_of_seq E. zlia.
Qed.

Lemma num_body_spec p l a :
  p ∉ l.*1 -> (length l <= 255)%nat -> 0 <= a <= 255 ->
  num_body p l a = Ret (if bool_decide (a mod 255 ∈ nums l) then inl (u8 (a mod 255 + 1)) else inr (a mod 255)).
Proof.
  intros Hp Hl Ha. unfold num_body.
  replace (if a =? 255 then 0 else a) with (a mod 255) by (destruct (Z.eqb_spec a 255); [by subst|zlia]).
  rewrite num_scan_spec by (done || lia). simpl. by destruct (bool_decide _).
Qed.

(** The search stops at the first free number. *)
Lemma assign_num_from p l a k fuel :
  p ∉ l.*1 -> (length l <= 255)%nat -> 0 <= a <= 255 ->
  Forall (fun x => x ∈ nums l) (tried a k) -> (a + Z.of_nat k) mod 255 ∉ nums l -> (k < fuel)%nat ->
  assign_num fuel p l a = Ret ((a + Z.of_nat k) mod 255).
Proof.
  intros Hp Hl. revert a fuel. induction k as [|k IH]; intros a [|fuel] Ha Ht Hf Hk; try lia.
  - unfold assign_num. rewrite Z.add_0_r in *. erewrite oloop_exit; [done|].
    rewrite num_body_spec by done. by rewrite bool_decide_eq_false_2.
  - assert (H0 : a mod 255 ∈ nums l).
    { rewrite Forall_forall in Ht. apply Ht. apply list_elem_of_fmap. exists 0%nat. rewrite elem_of_seq.
      split; [f_equal; lia|lia]. }
    unfold assign_num. erewrite oloop_step.
    2:{ rewrite num_body_spec by done. by rewrite bool_decide_eq_true_2. }
    assert (E : forall i, (u8 (a mod 255 + 1) + i) mod 255 = (a + (1 + i)) mod 255).
    { intros i. rewrite u8_small by zlia. rewrite <-Z.add_assoc. by rewrite Zplus_mod_idemp_l. }
    replace (a + Z.of_nat (S k)) with (a + (1 + Z.of_nat k)) in * by lia. rewrite <-E in *.
    apply IH; [zlia| |done|lia]. apply Forall_forall. intros x [i [-> Hi]]%list_elem_of_fmap.
    rewrite E. rewrite Forall_forall in Ht. apply Ht. apply list_elem_of_fmap. exists (S i).
    apply elem_of_seq in Hi. rewrite elem_of_seq. split; [f_equal; lia|lia].
Qed.

(** Among 255 numbers one is free. *)
Lemma free_num l a : (length l < 255)%nat ->
  exists k, (k < 255)%nat /\ Forall (fun x => x ∈ nums l) (tried a k) /\ (a + Z.of_nat k) mod 255 ∉ nums l.
Proof.
  intros Hl. assert (Hex : exists m, (m < 255)%nat /\ (a + Z.of_nat m) mod 255 ∉ nums l).
  { destruct (decide (Forall (fun x => x ∈ nums l) (tried a 255))) as [H|H].
    - exfalso. rewrite Forall_forall in H. pose proof (NoDup_incl_length (l := tried a 255) (l' := nums l)) as Hle.
      unfold tried, nums in Hle. rewrite !length_fmap, length_seq in Hle. specialize (Hle).
      assert (255 <= length l)%nat; [|lia]. apply Hle.
      + apply NoDup_ListNoDup, tried_NoDup. lia.
      + intros x Hx. apply list_elem_of_In, H, list_elem_of_In, Hx.
    - apply not_Forall_Exists in H; [|apply _]. apply Exists_exists in H as (x & [m [-> Hm]]%list_elem_of_fmap & Hx).
      apply elem_of_seq in Hm. exists m. split; [lia|exact Hx]. }
  destruct Hex as (m & Hm & Hf). revert Hf. induction (lt_wf m) as [m _ IH]. intros Hf.
  destruct (decide (Forall (fun x => x ∈ nums l) (tried a m))) as [H|H]; [by exists m|].
  apply not_Forall_Exists in H; [|apply _]. apply Exists_exists in H as (x & [i [-> Hi]]%list_elem_of_fmap & Hx).
  apply elem_of_seq in Hi. apply (IH i); [lia|lia|exact Hx].
Qed.

Lemma add_numbered g p n state init :
  netifs_ok g -> p ∉ (netif_list g).*1 -> (length (netif_list g) < 255)%nat ->
  let r := init (netif_reset n state (netif_num g)) in
  r.1 = ERR_OK -> nif_num r.2 = netif_num g ->
  exists num, (num ∉ nums (netif_list g)) /\ 0 <= num <= 254 /\
    netif_add g p n state init =
      (let n' := with_num num (with_mtu6 (nif_mtu r.2) r.2) in
       Ret (Some n', mk_netifs ((p, n') :: netif_list g) (netif_default g) (if num =? 254 then 0 else num + 1))).
Proof.
  intros [_ _ _ Hx] Hp Hl r Herr Hnum. unfold netif_add. fold r. clearbody r. destruct r as [err n1]. simpl in *. subst err.
  destruct (free_num (netif_list g) (netif_num g) Hl) as (k & Hk & Ht & Hf).
  exists ((netif_num g + Z.of_nat k) mod 255). split_and!; [done|zlia..|].
  rewrite Hnum. erewrite assign_num_from; [|done|lia|lia|exact Ht|exact Hf|unfold num_fuel; lia].
  simpl. do 3 f_equal. destruct (Z.eqb_spec ((netif_num g + Z.of_nat k) mod 255) 254); [done|].
  apply u8_small. zlia.
Qed.

(** Every number taken: the search goes round for ever. *)
Lemma assign_num_full p l a fuel :
  p ∉ l.*1 -> (length l <= 255)%nat -> (forall k, 0 <= k <= 254 -> k ∈ nums l) -> 0 <= a <= 255 ->
  assign_num fuel p l a = Hang.
Proof.
  intros Hp Hl Hall Ha. apply (oloop_hang_inv (fun x => 0 <= x <= 255)); [|done].
  intros x Hx. exists (u8 (x mod 255 + 1)). split; [zlia|]. rewrite num_body_spec by done.
  rewrite bool_decide_eq_true_2; [done|]. apply Hall. zlia.
Qed.

(** ** Address slots *)

Record netif_wf (n : netif) : Prop := {
  nw_addrs : length (ip6_addrs n) = LWIP_IPV6_NUM_ADDRESSES;
  nw_states : length (ip6_addr_state n) = LWIP_IPV6_NUM_ADDRESSES;
  nw_lives : length (ip6_addr_valid_life n) = LWIP_IPV6_NUM_ADDRESSES
}.

Lemma first_slot_spec k i test (f : nat -> bool) :
  (forall j, (i <= j < i + k)%nat -> test j = Ret (f j)) ->
  match first_slot k i test with
  | Ret (Some j) => (i <= j < i + k)%nat /\ f j = true /\ forall j', (i <= j' < j)%nat -> f j' = false
  | Ret None => forall j, (i <= j < i + k)%nat -> f j = false
  | _ => False
  end.
Proof.
  revert i. induction k as [|k IH]; intros i Ht; simpl; [intros; lia|].
  rewrite Ht by lia. simpl. destruct (f i) eqn:Ei; [split_and!; [lia|lia|done|intros; lia]|].
  specialize (IH (S i)). destruct (first_slot k (S i) test) as [[j|]| |].
  - destruct IH as (H1 & H2 & H3); [intros; apply Ht; lia|]. split_and!; [lia|lia|done|].
    intros j' Hj'. destruct (decide (j' = i)) as [->|]; [done|]. apply H3. lia.
  - intros j Hj. destruct (decide (j = i)) as [->|]; [done|]. apply IH; [intros; apply Ht; lia|lia].
  - apply IH. intros; apply Ht; lia.
  - apply IH. intros; apply Ht; lia.
Qed.

(** The same search on two tests that agree below the slot found. *)
Lemma first_slot_at k i test j :
  (i <= j < i + k)%nat -> test j = Ret true -> (forall j', (i <= j' < j)%nat -> test j' = Ret false) ->
  first_slot k i test = Ret (Some j).
Proof.
  revert i. induction k as [|k IH]; intros i Hj Ht Hf; [lia|]. simpl. destruct (decide (i = j)) as [->|].
  - by rewrite Ht.
  - rewrite Hf by lia. simpl. apply IH; [lia|done|intros; apply Hf; lia].
Qed.

Section slots.
Context (n : netif).
Hypothesis Hwf : netif_wf n.

Definition state_at (i : nat) : Z := nth i (ip6_addr_state n) 0.
Definition addr_at (i : nat) : ip6_addr := nth i (ip6_addrs n) ip6_addr_any.
Definition holds (a : ip6_addr) (i : nat) : bool :=
  negb (ip6_addr_isinvalid (state_at i)) && ip6_addr_zoneless_eq (addr_at i) a.

Lemma state_lookup i : (i < 5)%nat -> ip6_addr_state n !! i = Some (state_at i).
Proof.
  intros Hi. unfold state_at. rewrite nth_lookup. destruct (ip6_addr_state n !! i) eqn:E; [done|].
  apply lookup_ge_None in E. rewrite (nw_states _ Hwf) in E. unfold LWIP_IPV6_NUM_ADDRESSES in E. lia.
Qed.
Lemma addr_lookup i : (i < 5)%nat -> ip6_addrs n !! i = Some (addr_at i).
Proof.
  intros Hi. unfold addr_at. rewrite nth_lookup. destruct (ip6_addrs n !! i) eqn:E; [done|].
  apply lookup_ge_None in E. rewrite (nw_addrs _ Hwf) in E. unfold LWIP_IPV6_NUM_ADDRESSES in E. lia.
Qed.

Lemma slot_matches_eq a i : (i < 5)%nat -> slot_matches n a i = Ret (holds a i).
Proof.
  intros Hi. unfold slot_matches, netif_ip6_addr_state, netif_ip6_addr, holds.
  rewrite state_lookup, addr_lookup by done. simpl. by destruct (ip6_addr_isinvalid _).
Qed.
Lemma slot_free_eq i : (i < 5)%nat -> slot_free n i = Ret (ip6_addr_isinvalid (state_at i)).
Proof. intros Hi. unfold slot_free, netif_ip6_addr_state. by rewrite state_lookup. Qed.

Lemma set_state_eq i st :
  (i < 5)%nat -> exists cs, netif_ip6_addr_set_state n i st =
    Ret (cs, with_addr_states (<[i := st]> (ip6_addr_state n)) n).
Proof.
  intros Hi. unfold netif_ip6_addr_set_state, netif_ip6_addr_state, set_slot.
  pose proof (state_lookup i Hi) as E. rewrite E. cbn. destruct (Z.eqb_spec (state_at i) st) as [Es|_].
  - exists []. rewrite list_insert_id by (by rewrite E, Es). by destruct n.
  - destruct (Z.land (nif_flags n) NETIF_FLAG_MLD6 =? 0); cbn; rewrite E; cbn;
      destruct (negb _ && _); unfold netif_issue_reports, NETIF_STATUS_CALLBACK; cbn;
      repeat (case_match; cbn); eauto.
Qed.

Lemma match_spec a :
  match netif_get_ip6_addr_match n a with
  | Ret (Some i) => (i < 5)%nat /\ holds a i = true
  | Ret None => (ip6_addr_has_zone a = true /\ ip6_addr_test_zone a n = false) \/ forall i, (i < 5)%nat -> holds a i = false
  | _ => False
  end.
Proof.
  unfold netif_get_ip6_addr_match. destruct (ip6_addr_has_zone a && negb (ip6_addr_test_zone a n)) eqn:Ez.
  { left. apply andb_true_iff in Ez as [? ?%negb_true_iff]. done. }
  pose proof (first_slot_spec 5 0 (slot_matches n a) (holds a)) as H.
  specialize (H ltac:(intros; apply slot_matches_eq; lia)).
  change LWIP_IPV6_NUM_ADDRESSES with 5%nat. destruct (first_slot 5 0 _) as [[i|]| |]; [|right|done|done].
  - destruct H as (? & ? & _). split; [lia|done].
  - intros i Hi. apply H. lia.
Qed.

(** After [a] went into slot [i] of an interface without it, it is found there. *)
Lemma slot_found a i :
  (i < 5)%nat -> (forall j, (j < 5)%nat -> holds a j = false) ->
  ip6_addr_has_zone a = false \/ ip6_addr_test_zone a n = true ->
  netif_get_ip6_addr_match (with_addr_states (<[i := IP6_ADDR_TENTATIVE]> (ip6_addr_state n))
    (with_ip6_addrs (<[i := ip6_addr_assign_zone a IP6_UNICAST n]> (ip6_addrs n)) n)) a = Ret (Some i).
Proof.
  intros Hi Hno Hz. unfold netif_get_ip6_addr_match.
  assert (E : ip6_addr_has_zone a && negb (ip6_addr_test_zone a n) = false).
  { destruct Hz as [-> | ->]; [done|]. by rewrite andb_false_r. }
  unfold ip6_addr_test_zone, netif_get_index in *. cbn [nif_num with_addr_states with_ip6_addrs]. rewrite E.
  destruct Hwf as [Ha Hs _]. unfold LWIP_IPV6_NUM_ADDRESSES in *.
  apply first_slot_at; [lia| |]; unfold slot_matches, netif_ip6_addr_state, netif_ip6_addr;
    cbn [ip6_addr_state ip6_addrs with_addr_states with_ip6_addrs].
  - rewrite !list_lookup_insert_eq by lia. cbn. unfold ip6_addr_zoneless_eq. cbn. by rewrite !Z.eqb_refl.
  - intros j Hj. rewrite !list_lookup_insert_ne by lia. specialize (Hno j ltac:(lia)).
    etransitivity; [apply (slot_matches_eq a j); lia|by rewrite Hno].
Qed.
End slots.

(** ** Claims *)

(** While fewer than 255 interfaces are registered, [netif_add] terminates and
    gives the new interface a number in [0..254] that no other interface has; the
    interface is found again by its index, and the numbers stay distinct. *)
Theorem netif_add_unique g p n state init :
  netifs_ok g -> p ∉ (netif_list g).*1 -> (length (netif_list g) < 255)%nat ->
  (init (netif_reset n state (netif_num g))).1 = ERR_OK ->
  nif_num (init (netif_reset n state (netif_num g))).2 = netif_num g ->
  exists n' g', netif_add g p n state init = Ret (Some n', g') /\
    netif_list g' = (p, n') :: netif_list g /\ (nif_num n' ∉ nums (netif_list g)) /\ netifs_ok g' /\
    netif_get_by_index (netif_get_index n') g' = Some (p, n').
Proof.
  intros Hg Hp Hl He Hn. destruct (add_numbered g p n state init Hg Hp Hl He Hn) as (num & Hf & Hr & E).
  eexists _, _. split; [exact E|]. destruct Hg as [H1 H2 H3 H4]. split_and!; [done|done| |].
  - split; simpl.
    + by apply NoDup_cons.
    + by apply NoDup_cons.
    + by apply Forall_cons.
    + destruct (Z.eqb_spec num 254); lia.
  - unfold netif_get_by_index, netif_get_index, NETIF_NO_INDEX. simpl. rewrite u8_small by lia.
    destruct (Z.eqb_spec (num + 1) 0); [lia|]. by rewrite decide_True.
Qed.

(** [netif_add_ip6_address] finds an address that is already there; otherwise
    it puts it, tentative and with its zone, into the first free slot (never slot 0
    unless it is link-local), where it is found afterwards, and changes no other
    slot; it reports [ERR_VAL], changing nothing, only when no such slot is free. *)
Theorem add_address_cases n a :
  netif_wf n ->
  exists cs r, netif_add_ip6_address n a = Ret (cs, r) /\
  ((exists i, r = (ERR_OK, Some i, n) /\ (i < 5)%nat /\ holds n a i = true) \/
   (exists i n', r = (ERR_OK, Some i, n') /\ (i < 5)%nat /\
      (i = 0%nat -> ip6_addr_islinklocal a = true) /\ state_at n i = IP6_ADDR_INVALID /\
      n' = with_addr_states (<[i := IP6_ADDR_TENTATIVE]> (ip6_addr_state n))
             (with_ip6_addrs (<[i := ip6_addr_assign_zone a IP6_UNICAST n]> (ip6_addrs n)) n) /\
      (ip6_addr_has_zone a = false \/ ip6_addr_test_zone a n = true -> netif_get_ip6_addr_match n' a = Ret (Some i))) \/
   (r = (ERR_VAL, None, n) /\
      forall i, (i < 5)%nat -> i <> 0%nat \/ ip6_addr_islinklocal a = true -> state_at n i <> IP6_ADDR_INVALID)).
Proof.
  intros Hwf. unfold netif_add_ip6_address. pose proof (match_spec n Hwf a) as Hm.
  destruct (netif_get_ip6_addr_match n a) as [[i|]| |] eqn:Em; [cbn| |done|done].
  { eexists _, _. split; [done|]. left. naive_solver. }
  set (first := if ip6_addr_islinklocal a then O else 1%nat).
  assert (Hf1 : (first <= 1)%nat) by (unfold first; destruct (ip6_addr_islinklocal a); lia).
  pose proof (first_slot_spec (5 - first) first (slot_free n) (fun i => ip6_addr_isinvalid (state_at n i))) as Hs.
  specialize (Hs ltac:(intros; apply slot_free_eq; [done|lia])). cbn -[first_slot].
  change LWIP_IPV6_NUM_ADDRESSES with 5%nat. destruct (first_slot (5 - first) first _) as [[i|]| |]; [| |done|done].
  - destruct Hs as (Hi & Hst & _). unfold set_slot. cbn. rewrite (addr_lookup n Hwf i) by lia. cbn.
    set (n1 := with_ip6_addrs _ n).
    assert (Hwf1 : netif_wf n1) by (destruct Hwf; split; simpl; rewrite ?length_insert; done).
    destruct (set_state_eq n1 Hwf1 i IP6_ADDR_TENTATIVE ltac:(lia)) as [cs Ecs]. rewrite Ecs. cbn.
    eexists _, _. split; [done|]. right; left. exists i, (with_addr_states (<[i := IP6_ADDR_TENTATIVE]> (ip6_addr_state n)) n1).
    split_and!; [done|lia| |by apply Z.eqb_eq in Hst|done|].
    + intros ->. unfold first in Hi. by destruct (ip6_addr_islinklocal a); [|lia].
    + intros Hz. destruct Hm as [[Hz1 Hz2]|Hm]; [destruct Hz; congruence|].
      apply (slot_found n Hwf a i); [lia|done|done].
  - eexists _, _. split; [done|]. right; right. split; [done|]. intros i Hi Hor E.
    specialize (Hs i). rewrite E in Hs. discriminate Hs. unfold first. destruct (ip6_addr_islinklocal a); [lia|].
    destruct Hor; [lia|done].
Qed.

(** ** Concrete runs *)

Definition plain_netif : netif :=
  netif_reset (mk_netif [] [] [] [] [116; 110] 0 0 0 0 None (replicate 6 0) 0 false false) (Some 3) 0.

Lemma no_netifs_ok : netifs_ok no_netifs.
Proof. split; simpl; [constructor|constructor|constructor|lia]. Qed.

Lemma netif_add_unique_witness :
  exists n' g', netif_add no_netifs 1%positive plain_netif (Some 3) (fun n => (ERR_OK, n)) = Ret (Some n', g') /\
    netif_list g' = (1%positive, n') :: netif_list no_netifs /\ (nif_num n' ∉ nums (netif_list no_netifs)) /\
    netifs_ok g' /\ netif_get_by_index (netif_get_index n') g' = Some (1%positive, n').
Proof.
  apply (netif_add_unique no_netifs 1%positive plain_netif (Some 3) (fun n => (ERR_OK, n)));
    [exact no_netifs_ok|by apply not_elem_of_nil|simpl; lia|reflexivity|reflexivity].
Defined.

(** [fd00::2] on an interface without addresses goes into slot 1. *)
Lemma add_address_cases_witness :
  let n := plain_netif in let a := IP6_ADDR (PP_HTONL 0xfd000000) 0 0 (PP_HTONL 2) in
  exists cs r, netif_add_ip6_address n a = Ret (cs, r) /\
  ((exists i, r = (ERR_OK, Some i, n) /\ (i < 5)%nat /\ holds n a i = true) \/
   (exists i n', r = (ERR_OK, Some i, n') /\ (i < 5)%nat /\
      (i = 0%nat -> ip6_addr_islinklocal a = true) /\ state_at n i = IP6_ADDR_INVALID /\
      n' = with_addr_states (<[i := IP6_ADDR_TENTATIVE]> (ip6_addr_state n))
             (with_ip6_addrs (<[i := ip6_addr_assign_zone a IP6_UNICAST n]> (ip6_addrs n)) n) /\
      (ip6_addr_has_zone a = false \/ ip6_addr_test_zone a n = true -> netif_get_ip6_addr_match n' a = Ret (Some i))) \/
   (r = (ERR_VAL, None, n) /\
      forall i, (i < 5)%nat -> i <> 0%nat \/ ip6_addr_islinklocal a = true -> state_at n i <> IP6_ADDR_INVALID)).
Proof. apply (add_address_cases plain_netif). split; reflexivity. Defined.

Example add_address_slot_1 :
  (fun r : list netif_call * (err_t * option nat * netif) => r.2.1) <$>
    netif_add_ip6_address plain_netif (IP6_ADDR (PP_HTONL 0xfd000000) 0 0 (PP_HTONL 2)) = Ret (ERR_OK, Some 1%nat).
Proof. vm_compute. reflexivity. Qed.
