(* ===== verification/Pbuf.v ===== *)
(** * Packet buffers (lwip/src/core/pbuf.c)

    The pbuf heap and the operations on it.  Reading and writing operations
    are functions of the pbuf heap; allocation also asks the environment
    whether the lwIP heap has room.  The representation predicate
    [pkt h p ls bs] says that [p] heads a well-formed chain [ls] with
    contents [bs]; the theorems give the effect of every operation on the
    contents, on the reference counts and on the rest of the heap. *)

From S2P Require Import Prelude LinkedList Ip6Addr World.

Abbreviation pheap := (gmap loc (node pbuf)).

(** ** Constants (lwipopts.h, opt.h, pbuf.h) *)

Definition SIZEOF_STRUCT_PBUF : Z := 24.
Definition PBUF_POOL_BUFSIZE_ALIGNED : Z := LWIP_MEM_ALIGN_SIZE 1536.
Definition PBUF_POOL_SIZE : nat := 100.
Definition MEMP_NUM_PBUF : nat := 10.
Definition PBUF_RAW : Z := 0.
Definition PBUF_LINK_HLEN : Z := 14.
Definition PBUF_IP_HLEN : Z := 40.
Definition PBUF_IP : Z := PBUF_LINK_HLEN + PBUF_IP_HLEN.

(** ** Field updates *)

Definition set_next (q : option loc) (n : node pbuf) : node pbuf := Node (n_val n) q.
Definition upd_pbuf (f : pbuf -> pbuf) (n : node pbuf) : node pbuf :=
  Node (f (n_val n)) (n_next n).
Definition with_buf (buf : list Z) (b : pbuf) : pbuf :=
  mk_pbuf buf (pb_payload b) (pb_tot_len b) (pb_len b) (pb_type b) (pb_flags b)
          (pb_ref b) (pb_if_idx b).
Definition with_tot_len (t : Z) (b : pbuf) : pbuf :=
  mk_pbuf (pb_buf b) (pb_payload b) t (pb_len b) (pb_type b) (pb_flags b)
          (pb_ref b) (pb_if_idx b).
Definition with_ref (r : Z) (b : pbuf) : pbuf :=
  mk_pbuf (pb_buf b) (pb_payload b) (pb_tot_len b) (pb_len b) (pb_type b) (pb_flags b)
          r (pb_if_idx b).
Definition with_window (payload tot len : Z) (b : pbuf) : pbuf :=
  mk_pbuf (pb_buf b) payload tot len (pb_type b) (pb_flags b) (pb_ref b) (pb_if_idx b).

(** Reading and writing at [(u8_t* )p->payload + off]. *)
Definition payload_rd (off n : Z) (b : pbuf) : outcome (list Z) :=
  rd (pb_payload b + off) n (pb_buf b).
Definition payload_wr (off : Z) (new : list Z) (b : pbuf) : outcome pbuf :=
  buf ← wr (pb_payload b + off) new (pb_buf b); Ret (with_buf buf b).

(** ** pbuf_init_alloced_pbuf, pbuf_alloc, pbuf_alloc_reference *)

Definition pbuf_init_alloced_pbuf (buf : list Z) (payload tot_len len : Z)
    (type : pbuf_type) (flags : Z) : node pbuf :=
  Node (mk_pbuf buf payload tot_len len type flags 1 0) None.

(** [memp_malloc] from a pool of [cap] elements succeeds while fewer than
    [cap] pbufs of the pool's types are live. *)
Definition pool_live (types : list pbuf_type) (h : pheap) : nat :=
  size (filter (fun x : loc * node pbuf => pb_type (n_val x.2) ∈ types) h).

(** [while (p != NULL)] of [pbuf_free]. *)
Definition pbuf_free_body (st : option loc * Z * pheap)
  : outcome (option loc * Z * pheap + Z * pheap) :=
  let '(p, count, h) := st in
  match p with
  | None => Ret (inr (count, h))
  | Some l =>
      n ← deref (h !! l);
      if 0 <? pb_ref (n_val n) then
        let ref := u8 (pb_ref (n_val n) - 1) in
        if ref =? 0 then Ret (inl (n_next n, u8 (count + 1), delete l h))
        else Ret (inl (None, count, <[l := upd_pbuf (with_ref ref) n]> h))
      else Stuck
  end.
Definition pbuf_free (h : pheap) (p : loc) : outcome (Z * pheap) :=
  oloop (S (S (size h))) pbuf_free_body (Some p, 0, h).

Section alloc.
Context `{Env}.

Definition pbuf_alloc_reference (length : Z) (type : pbuf_type) : M world (option loc) :=
  w ← get;
  if decide (pool_live [PBUF_ROM; PBUF_REF] (w_pbufs w) < MEMP_NUM_PBUF)%nat then
    let l := new_loc (w_pbufs w) in
    modify (set_pbufs (insert l (pbuf_init_alloced_pbuf [] 0 length length type 0)));;
    mret (Some l)
  else mret None.

(** The [do ... while (rem_len > 0)] loop of the [PBUF_POOL] case. *)
Definition pool_body (st : option loc * option loc * Z * Z)
  : M world (option loc * option loc * Z * Z + option loc) :=
  let '(p, last, rem_len, offset) := st in
  w ← get;
  if decide (pool_live [PBUF_POOL] (w_pbufs w) < PBUF_POOL_SIZE)%nat then
    t ← next_tick;
    let q := new_loc (w_pbufs w) in
    let qlen := Z.min rem_len (u16 (PBUF_POOL_BUFSIZE_ALIGNED - LWIP_MEM_ALIGN_SIZE offset)) in
    modify (set_pbufs (insert q
      (pbuf_init_alloced_pbuf (fresh_bytes t (Z.to_nat PBUF_POOL_BUFSIZE_ALIGNED))
         (LWIP_MEM_ALIGN_SIZE offset) rem_len qlen PBUF_POOL 0)));;
    match last with
    | None => mret tt
    | Some lst =>
        w ← get;
        n ← lift (deref (w_pbufs w !! lst));
        modify (set_pbufs (insert lst (set_next (Some q) n)))
    end;;
    let p' := match p with None => Some q | Some _ => p end in
    let rem_len' := u16 (rem_len - qlen) in
    if 0 <? rem_len' then mret (inl (p', Some q, rem_len', 0))
    else mret (inr p')
  else
    match p with
    | None => mret (inr None)
    | Some l =>
        w ← get;
        r ← lift (pbuf_free (w_pbufs w) l);
        modify (set_pbufs (fun _ => r.2));;
        mret (inr None)
    end.

Definition pbuf_alloc (layer length : Z) (type : pbuf_type) : M world (option loc) :=
  let offset := u16 layer in
  let length := u16 length in
  match type with
  | PBUF_REF | PBUF_ROM => pbuf_alloc_reference length type
  | PBUF_POOL => loop (S (Z.to_nat length)) pool_body (None, None, length, offset)
  | PBUF_RAM =>
      let payload_len := u16 (LWIP_MEM_ALIGN_SIZE offset + LWIP_MEM_ALIGN_SIZE length) in
      let alloc_len := u16 (LWIP_MEM_ALIGN_SIZE SIZEOF_STRUCT_PBUF + payload_len) in
      if (payload_len <? LWIP_MEM_ALIGN_SIZE length) || (alloc_len <? LWIP_MEM_ALIGN_SIZE length)
      then mret None
      else
        t ← next_tick;
        if env_mem_malloc t then
          w ← get;
          let l := new_loc (w_pbufs w) in
          modify (set_pbufs (insert l
            (pbuf_init_alloced_pbuf (fresh_bytes t (Z.to_nat payload_len))
               (LWIP_MEM_ALIGN_SIZE offset) length length PBUF_RAM 0)));;
          mret (Some l)
        else mret None
  end.
End alloc.

(** ** Length changes: pbuf_add_header_impl, pbuf_remove_header, pbuf_header *)

Definition type_contiguous (t : pbuf_type) : bool :=
  match t with PBUF_RAM | PBUF_POOL => true | _ => false end.

(** The C functions return 1 on failure and 0 on success. *)
Definition pbuf_add_header_impl (h : pheap) (p : loc) (inc : Z) (force : bool)
  : outcome (Z * pheap) :=
  if 0xFFFF <? inc then Ret (1, h)
  else if inc =? 0 then Ret (0, h)
  else
    n ← deref (h !! p);
    let b := n_val n in
    let mag := u16 inc in
    if u16 (mag + pb_tot_len b) <? mag then Ret (1, h)
    else
      let payload := pb_payload b - inc in
      if type_contiguous (pb_type b) && (payload <? 0) then Ret (1, h)
      else if negb (type_contiguous (pb_type b)) && negb force then Ret (1, h)
      else Ret (0, <[p := upd_pbuf (with_window payload (u16 (pb_tot_len b + mag))
                                      (u16 (pb_len b + mag))) n]> h).

Definition pbuf_add_header (h : pheap) (p : loc) (inc : Z) : outcome (Z * pheap) :=
  pbuf_add_header_impl h p inc false.

Definition pbuf_remove_header (h : pheap) (p : loc) (dec : Z) : outcome (Z * pheap) :=
  if 0xFFFF <? dec then Ret (1, h)
  else if dec =? 0 then Ret (0, h)
  else
    n ← deref (h !! p);
    let b := n_val n in
    let mag := u16 dec in
    if pb_len b <? mag then Ret (1, h)
    else Ret (0, <[p := upd_pbuf (with_window (pb_payload b + dec) (u16 (pb_tot_len b - mag))
                                    (u16 (pb_len b - mag))) n]> h).

Definition pbuf_header_impl (h : pheap) (p : loc) (inc : Z) (force : bool) : outcome (Z * pheap) :=
  if inc <? 0 then pbuf_remove_header h p (- inc) else pbuf_add_header_impl h p inc force.
Definition pbuf_header (h : pheap) (p : loc) (inc : Z) : outcome (Z * pheap) :=
  pbuf_header_impl h p inc false.

(** ** pbuf_clen, pbuf_ref, pbuf_cat, pbuf_chain, pbuf_dechain *)

Definition pbuf_clen (h : pheap) (p : option loc) : outcome Z :=
  oloop (S (size h)) (fun st : option loc * Z =>
    match st.1 with
    | None => Ret (inr st.2)
    | Some l => n ← deref (h !! l); Ret (inl (n_next n, u16 (st.2 + 1)))
    end) (p, 0).

Definition pbuf_ref (h : pheap) (p : option loc) : outcome pheap :=
  match p with
  | None => Ret h
  | Some l =>
      n ← deref (h !! l);
      let r := u8 (pb_ref (n_val n) + 1) in
      if 0 <? r then Ret (<[l := upd_pbuf (with_ref r) n]> h) else Stuck
  end.

Definition add_tot (t : Z) (b : pbuf) : pbuf := with_tot_len (u16 (pb_tot_len b + t)) b.

(** [pbuf_cat]: every pbuf of the head chain grows by [t->tot_len]. *)
Definition pbuf_cat_body (t : loc) (st : loc * pheap) : outcome (loc * pheap + pheap) :=
  let '(p, h) := st in
  n ← deref (h !! p);
  tn ← deref (h !! t);
  match n_next n with
  | Some q => Ret (inl (q, <[p := upd_pbuf (add_tot (pb_tot_len (n_val tn))) n]> h))
  | None =>
      if pb_tot_len (n_val n) =? pb_len (n_val n)
      then Ret (inr (<[p := set_next (Some t) (upd_pbuf (add_tot (pb_tot_len (n_val tn))) n)]> h))
      else Stuck
  end.
Definition pbuf_cat (h : pheap) (hd t : option loc) : outcome pheap :=
  match hd, t with
  | Some hd, Some t => if decide (hd = t) then Stuck
                       else oloop (S (size h)) (pbuf_cat_body t) (hd, h)
  | _, _ => Ret h
  end.
Definition pbuf_chain (h : pheap) (hd t : option loc) : outcome pheap :=
  h' ← pbuf_cat h hd t; pbuf_ref h' t.

(** Returns the remaining tail, or null if it was deallocated. *)
Definition pbuf_dechain (h : pheap) (p : loc) : outcome (option loc * pheap) :=
  n ← deref (h !! p);
  match n_next n with
  | None => if pb_tot_len (n_val n) =? pb_len (n_val n) then Ret (None, h) else Stuck
  | Some q =>
      m ← deref (h !! q);
      if pb_tot_len (n_val m) =? pb_tot_len (n_val n) - pb_len (n_val n) then
        let h1 := <[q := upd_pbuf (with_tot_len (u16 (pb_tot_len (n_val n) - pb_len (n_val n)))) m]> h in
        let h2 := <[p := set_next None (upd_pbuf (with_tot_len (pb_len (n_val n))) n)]> h1 in
        r ← pbuf_free h2 q;
        Ret (if 0 <? r.1 then None else Some q, r.2)
      else Stuck
  end.

(** ** pbuf_realloc *)

(** [mem_trim] gives the end of a heap block back; what is left for certain is the
    new size rounded up to the alignment. *)
Definition mem_trim (payload rem_len : Z) (buf : list Z) : list Z :=
  take (Z.to_nat (LWIP_MEM_ALIGN_SIZE (payload + rem_len))) buf.

Definition realloc_end (h : pheap) (q : loc) (rem_len : Z) : outcome pheap :=
  n ← deref (h !! q);
  let b := n_val n in
  let buf := match pb_type b with
             | PBUF_RAM => if rem_len =? pb_len b then pb_buf b else mem_trim (pb_payload b) rem_len (pb_buf b)
             | _ => pb_buf b
             end in
  h' ← match n_next n with None => Ret h | Some nx => r ← pbuf_free h nx; Ret r.2 end;
  Ret (<[q := Node (with_window (pb_payload b) rem_len rem_len (with_buf buf b)) None]> h').

Definition realloc_body (shrink : Z) (st : loc * Z * pheap) : outcome (loc * Z * pheap + pheap) :=
  let '(q, rem_len, h) := st in
  n ← deref (h !! q);
  if pb_len (n_val n) <? rem_len then
    let h' := <[q := upd_pbuf (with_tot_len (u16 (pb_tot_len (n_val n) - shrink))) n]> h in
    nx ← deref (n_next n);
    Ret (inl (nx, u16 (rem_len - pb_len (n_val n)), h'))
  else h' ← realloc_end h q rem_len; Ret (inr h').

Definition pbuf_realloc (h : pheap) (p : loc) (new_len : Z) : outcome pheap :=
  n ← deref (h !! p);
  if pb_tot_len (n_val n) <=? new_len then Ret h
  else oloop (S (size h)) (realloc_body (u16 (pb_tot_len (n_val n) - new_len))) (p, new_len, h).

(** ** Copying: pbuf_copy_partial, pbuf_take, pbuf_copy_partial_pbuf, pbuf_copy *)

(** The bytes copied to [dataptr]; their number is the C result. *)
Definition copy_partial_body (h : pheap) (st : option loc * Z * Z * list Z)
  : outcome (option loc * Z * Z * list Z + list Z) :=
  let '(p, len, offset, acc) := st in
  match p with
  | None => Ret (inr acc)
  | Some l =>
      if len =? 0 then Ret (inr acc)
      else
        n ← deref (h !! l);
        let b := n_val n in
        if negb (offset =? 0) && (pb_len b <=? offset)
        then Ret (inl (n_next n, len, u16 (offset - pb_len b), acc))
        else
          let buf_copy_len := Z.min (u16 (pb_len b - offset)) len in
          bs ← payload_rd offset buf_copy_len b;
          Ret (inl (n_next n, u16 (len - buf_copy_len), 0, acc ++ bs))
  end.
Definition pbuf_copy_partial (h : pheap) (buf : option loc) (len offset : Z) : outcome (list Z) :=
  oloop (S (size h)) (copy_partial_body h) (buf, u16 len, u16 offset, []).

Definition take_body (st : option loc * list Z * pheap)
  : outcome (option loc * list Z * pheap + pheap) :=
  let '(p, data, h) := st in
  match data with
  | [] => Ret (inr h)
  | _ =>
      l ← deref p;
      n ← deref (h !! l);
      let k := Z.to_nat (Z.min (Z.of_nat (length data)) (pb_len (n_val n))) in
      b ← payload_wr 0 (take k data) (n_val n);
      Ret (inl (n_next n, drop k data, <[l := Node b (n_next n)]> h))
  end.
Definition pbuf_take (h : pheap) (buf : option loc) (data : list Z) : outcome (err_t * pheap) :=
  match buf with
  | None => Ret (ERR_ARG, h)
  | Some l =>
      n ← deref (h !! l);
      if pb_tot_len (n_val n) <? u16 (Z.of_nat (length data)) then Ret (ERR_MEM, h)
      else
        h' ← oloop (S (S (size h)))
               take_body (buf, take (Z.to_nat (u16 (Z.of_nat (length data)))) data, h);
        Ret (ERR_OK, h')
  end.

(** One round of the [do ... while (copy_len)] loop. *)
Record cpp_state := mk_cpp {
  cp_to : option loc;
  cp_off_to : Z;
  cp_from : option loc;
  cp_off_from : Z;
  cp_len : Z
}.
Definition queue_check (h : pheap) (p : option loc) : outcome bool :=
  match p with
  | None => Ret true
  | Some l =>
      n ← deref (h !! l);
      Ret (if pb_len (n_val n) =? pb_tot_len (n_val n)
           then match n_next n with None => true | Some _ => false end else true)
  end.
Definition cpp_body (st : cpp_state * pheap) : outcome (cpp_state * pheap + err_t * pheap) :=
  let '(s, h) := st in
  lt ← deref (cp_to s); nt ← deref (h !! lt);
  lf ← deref (cp_from s); nf ← deref (h !! lf);
  let room := u64 (pb_len (n_val nt) - cp_off_to s) in
  let avail := u64 (pb_len (n_val nf) - cp_off_from s) in
  let len := Z.min (cp_len s) (if avail <=? room then avail else room) in
  bs ← payload_rd (cp_off_from s) len (n_val nf);
  b ← payload_wr (cp_off_to s) bs (n_val nt);
  let h' := <[lt := Node b (n_next nt)]> h in
  let off_to := cp_off_to s + len in
  let off_from := cp_off_from s + len in
  let copy_len := u16 (cp_len s - len) in
  if negb ((off_to <=? pb_len (n_val nt)) && (off_from <=? pb_len (n_val nf))) then Stuck
  else
    let '(from', off_from') :=
      if pb_len (n_val nf) <=? off_from then (n_next nf, 0) else (cp_from s, off_from) in
    if negb (bool_decide (is_Some from') || (copy_len =? 0)) then Ret (inr (ERR_ARG, h'))
    else
      let '(to', off_to') :=
        if off_to =? pb_len (n_val nt) then (n_next nt, 0) else (cp_to s, off_to) in
      if negb (bool_decide (is_Some to') || (copy_len =? 0)) then Ret (inr (ERR_ARG, h'))
      else
        okf ← queue_check h' from';
        if negb okf then Ret (inr (ERR_VAL, h'))
        else
          okt ← queue_check h' to';
          if negb okt then Ret (inr (ERR_VAL, h'))
          else if copy_len =? 0 then Ret (inr (ERR_OK, h'))
          else Ret (inl (mk_cpp to' off_to' from' off_from' copy_len, h')).

Definition pbuf_copy_partial_pbuf (h : pheap) (p_to p_from : option loc) (copy_len offset : Z)
  : outcome (err_t * pheap) :=
  match p_from, p_to with
  | None, _ | _, None => Ret (ERR_ARG, h)
  | Some lf, Some lt =>
      nf ← deref (h !! lf);
      if pb_tot_len (n_val nf) <? copy_len then Ret (ERR_ARG, h)
      else
        nt ← deref (h !! lt);
        if pb_tot_len (n_val nt) <? offset + copy_len then Ret (ERR_ARG, h)
        else oloop (S (size h + size h)) cpp_body (mk_cpp p_to offset p_from 0 copy_len, h)
  end.

Definition pbuf_copy (h : pheap) (p_to p_from : option loc) : outcome (err_t * pheap) :=
  match p_from with
  | None => Ret (ERR_ARG, h)
  | Some lf =>
      nf ← deref (h !! lf);
      pbuf_copy_partial_pbuf h p_to p_from (pb_tot_len (n_val nf)) 0
  end.

(** ** Access by position: pbuf_skip, pbuf_get_at, pbuf_put_at, pbuf_memcmp, pbuf_memfind *)

Definition pbuf_skip (h : pheap) (p : option loc) (offset : Z) : outcome (option loc * Z) :=
  oloop (S (size h)) (fun st : option loc * Z =>
    match st.1 with
    | None => Ret (inr st)
    | Some l =>
        n ← deref (h !! l);
        if pb_len (n_val n) <=? st.2 then Ret (inl (n_next n, u16 (st.2 - pb_len (n_val n))))
        else Ret (inr st)
    end) (p, offset).

Definition pbuf_try_get_at (h : pheap) (p : option loc) (offset : Z) : outcome Z :=
  r ← pbuf_skip h p offset;
  match r.1 with
  | None => Ret (-1)
  | Some l =>
      n ← deref (h !! l);
      if r.2 <? pb_len (n_val n) then
        bs ← payload_rd r.2 1 (n_val n); Ret (le_val bs)
      else Ret (-1)
  end.
Definition pbuf_get_at (h : pheap) (p : option loc) (offset : Z) : outcome Z :=
  r ← pbuf_try_get_at h p offset; Ret (if 0 <=? r then u8 r else 0).

Definition pbuf_put_at (h : pheap) (p : option loc) (offset data : Z) : outcome pheap :=
  r ← pbuf_skip h p offset;
  match r.1 with
  | None => Ret h
  | Some l =>
      n ← deref (h !! l);
      if r.2 <? pb_len (n_val n) then
        b ← payload_wr r.2 [data] (n_val n); Ret (<[l := Node b (n_next n)]> h)
      else Ret h
  end.

Definition pbuf_memcmp (h : pheap) (p : loc) (offset : Z) (s2 : list Z) : outcome Z :=
  let n := Z.of_nat (length s2) in
  np ← deref (h !! p);
  if pb_tot_len (n_val np) <? offset + n then Ret 0xffff
  else
    q ← pbuf_skip h (Some p) offset;
    oloop (S (length s2)) (fun i : Z =>
      if i <? n then
        a ← pbuf_get_at h q.1 (u16 (q.2 + i));
        if a =? nth (Z.to_nat i) s2 0 then Ret (inl (i + 1))
        else Ret (inr (u16 (Z.min (i + 1) 0xFFFF)))
      else Ret (inr 0)) 0.

Definition pbuf_memfind (h : pheap) (p : loc) (mem : list Z) (start_offset : Z) : outcome Z :=
  np ← deref (h !! p);
  let max_cmp_start := u16 (pb_tot_len (n_val np) - Z.of_nat (length mem)) in
  if Z.of_nat (length mem) + start_offset <=? pb_tot_len (n_val np) then
    oloop (Z.to_nat 65537) (fun i : Z =>
      if i <=? max_cmp_start then
        plus ← pbuf_memcmp h p i mem;
        if plus =? 0 then Ret (inr i) else Ret (inl (u16 (i + 1)))
      else Ret (inr 0xFFFF)) start_offset
  else Ret 0xFFFF.

(** ** Well-formed chains and their contents *)

Definition seg_bytes (b : pbuf) : list Z :=
  slice (Z.to_nat (pb_payload b)) (Z.to_nat (pb_len b)) (pb_buf b).
Definition seg_ok (b : pbuf) : Prop :=
  0 <= pb_payload b /\ 0 <= pb_len b /\
  pb_payload b + pb_len b <= Z.of_nat (length (pb_buf b)) /\
  0 <= pb_tot_len b < 65536 /\ Forall is_byte (pb_buf b).

Definition head_tot (ls : list (loc * pbuf)) : Z :=
  match ls with [] => 0 | (_, b) :: _ => pb_tot_len b end.
Fixpoint chain_ok (ls : list (loc * pbuf)) : Prop :=
  match ls with
  | [] => True
  | (_, b) :: ls => seg_ok b /\ pb_tot_len b = pb_len b + head_tot ls /\ chain_ok ls
  end.
Definition flat (ls : list (loc * pbuf)) : list Z := concat ((fun x => seg_bytes x.2) <$> ls).

(** [p] heads the chain [ls], whose contents are [bs]. *)
Definition pkt (h : pheap) (p : loc) (ls : list (loc * pbuf)) (bs : list Z) : Prop :=
  llist h (Some p) ls /\ chain_ok ls /\ flat ls = bs.

(** A packet in one buffer, the only form in which the DTN code keeps packets. *)
Definition single (h : pheap) (p : loc) (b : pbuf) (bs : list Z) : Prop :=
  h !! p = Some (Node b None) /\ seg_ok b /\ pb_tot_len b = pb_len b /\ seg_bytes b = bs.

Section chains.
Implicit Types (h : pheap) (ls : list (loc * pbuf)).

Lemma seg_bytes_length b : seg_ok b -> Z.of_nat (length (seg_bytes b)) = pb_len b.
Proof. unfold seg_ok, seg_bytes. intros. rewrite length_slice by lia. lia. Qed.

Lemma seg_bytes_byte b : seg_ok b -> Forall is_byte (seg_bytes b).
Proof. unfold seg_ok, seg_bytes. intros (_&_&_&_&?). by apply Forall_slice. Qed.

Lemma flat_cons l b ls : flat ((l, b) :: ls) = seg_bytes b ++ flat ls.
Proof. done. Qed.

Lemma flat_length ls : chain_ok ls -> Z.of_nat (length (flat ls)) = head_tot ls.
Proof.
  induction ls as [|[l b] ls IH]; simpl; [done|].
  intros (Hb & Ht & Hr). rewrite flat_cons, length_app, Nat2Z.inj_add.
  rewrite seg_bytes_length, IH by done. lia.
Qed.

Lemma flat_byte ls : chain_ok ls -> Forall is_byte (flat ls).
Proof.
  induction ls as [|[l b] ls IH]; simpl; [constructor|].
  intros (Hb & Ht & Hr). rewrite flat_cons, Forall_app.
  auto using seg_bytes_byte.
Qed.

Lemma head_tot_range ls : chain_ok ls -> 0 <= head_tot ls < 65536.
Proof. destruct ls as [|[l b] ls]; simpl; [lia|]. unfold seg_ok. naive_solver. Qed.

Lemma single_pkt h p b bs : single h p b bs <-> pkt h p [(p, b)] bs.
Proof.
  unfold single, pkt. simpl. unfold flat. simpl. rewrite app_nil_r.
  split.
  - intros (Hp & Hb & Ht & Hbs). split_and!; try done; [|lia]. eauto.
  - intros ([_ (q & Hq & ->)] & (Hb & Ht & _) & Hbs). split_and!; try done; lia.
Qed.

Lemma single_length h p b bs : single h p b bs -> Z.of_nat (length bs) = pb_len b.
Proof. intros (_ & Hb & _ & <-). by apply seg_bytes_length. Qed.

Lemma pkt_tot h p ls bs :
  pkt h p ls bs -> exists n, h !! p = Some n /\ pb_tot_len (n_val n) = Z.of_nat (length bs)
                             /\ 0 <= Z.of_nat (length bs) < 65536.
Proof.
  intros (Hll & Hc & <-). rewrite flat_length by done.
  pose proof (head_tot_range _ Hc).
  destruct ls as [|[l b] ls]; simpl in *; [done|].
  destruct Hll as [[= <-] (q & Hq & _)]. eexists. split; [done|]. simpl. lia.
Qed.

(** Reading the payload of a well-formed buffer. *)
Lemma payload_rd_ok b off n :
  seg_ok b -> 0 <= off -> 0 <= n -> off + n <= pb_len b ->
  payload_rd off n b = Ret (slice (Z.to_nat off) (Z.to_nat n) (seg_bytes b)).
Proof.
  intros (?&?&?&_) ???. unfold payload_rd. rewrite rd_ok by lia.
  unfold seg_bytes. rewrite slice_slice by lia. do 2 f_equal. lia.
Qed.

Lemma payload_wr_ok b off new :
  seg_ok b -> Forall is_byte new -> 0 <= off -> off + Z.of_nat (length new) <= pb_len b ->
  exists b', payload_wr off new b = Ret b' /\ seg_ok b' /\
    seg_bytes b' = splice (Z.to_nat off) new (seg_bytes b) /\
    b' = with_buf (pb_buf b') b /\ length (pb_buf b') = length (pb_buf b).
Proof.
  intros (?&?&?&?&?) ???. unfold payload_wr. rewrite wr_ok by lia. simpl.
  eexists. split; [done|].
  assert (Hl : length (splice (Z.to_nat (pb_payload b + off)) new (pb_buf b))
               = length (pb_buf b)) by (apply length_splice; lia).
  split_and!; [| |done|done].
  - unfold seg_ok. simpl. rewrite Hl. split_and!; try lia.
    by apply Forall_splice.
  - unfold seg_bytes. simpl. rewrite Z2Nat.inj_add by lia.
    by rewrite slice_splice_in by lia.
Qed.
End chains.

(** ** Copying out of a chain *)

Lemma copy_partial_aux (h : pheap) ls p len off acc fuel :
  llist h p ls -> chain_ok ls -> 0 <= len < 65536 -> 0 <= off < 65536 ->
  (length ls < fuel)%nat ->
  oloop fuel (copy_partial_body h) (p, len, off, acc) =
    Ret (acc ++ slice (Z.to_nat off) (Z.to_nat len) (flat ls)).
Proof.
  revert p len off acc fuel.
  induction ls as [|[l b] ls IH]; intros p len off acc [|fuel] Hll Hc Hlen Hoff Hf;
    simpl in Hf; try lia; rewrite oloop_S.
  - simpl in Hll. subst p. simpl. unfold slice, flat. simpl.
    by rewrite drop_nil, take_nil, app_nil_r.
  - destruct Hll as [-> (q & Hq & Hr)], Hc as (Hb & Ht & Hc).
    pose proof (seg_bytes_length _ Hb) as Hbl. pose proof (head_tot_range _ Hc).
    destruct Hb as (?&?&?&?&?) eqn:Hbe. clear Hbe.
    simpl. destruct (Z.eqb_spec len 0) as [->|Hl0].
    { unfold slice. by rewrite take_0, app_nil_r. }
    rewrite Hq. simpl.
    destruct (Z.eqb_spec off 0) as [->|Ho0]; simpl;
      [|destruct (Z.leb_spec (pb_len b) off) as [Hle|Hlt]]; simpl.
    + rewrite payload_rd_ok by (try done; zlia). simpl. rewrite IH by (done || zlia).
      rewrite flat_cons, <-app_assoc. do 2 f_equal. unfold slice. rewrite !drop_0.
      rewrite (take_app (seg_bytes b)). f_equal; [|f_equal; zlia].
      destruct (Z.le_gt_cases len (pb_len b)); [f_equal; zlia|].
      rewrite !take_ge; [done|lia|zlia].
    + rewrite IH by (done || zlia). do 2 f_equal.
      rewrite flat_cons, slice_app_r by lia. f_equal. zlia.
    + rewrite payload_rd_ok by (try done; zlia). simpl. rewrite IH by (done || zlia).
      rewrite flat_cons, <-app_assoc. do 2 f_equal. unfold slice.
      rewrite drop_app_le by lia. rewrite drop_0, (take_app (drop _ (seg_bytes b))).
      rewrite length_drop. f_equal; [|f_equal; zlia].
      destruct (Z.le_gt_cases len (pb_len b - off)); [f_equal; zlia|].
      rewrite !take_ge; [done| |]; rewrite length_drop; zlia.
Qed.

Lemma pbuf_copy_partial_ok (h : pheap) p ls bs len off :
  pkt h p ls bs -> 0 <= len < 65536 -> 0 <= off < 65536 ->
  pbuf_copy_partial h (Some p) len off = Ret (slice (Z.to_nat off) (Z.to_nat len) bs).
Proof.
  intros (Hll & Hc & <-) Hl Ho. unfold pbuf_copy_partial.
  rewrite u16_small, u16_small by lia.
  rewrite (copy_partial_aux _ ls) by (done || (apply llist_length in Hll; lia)). done.
Qed.

(** Copying the whole packet out. *)
Lemma pbuf_copy_out (h : pheap) p ls bs :
  pkt h p ls bs -> pbuf_copy_partial h (Some p) (Z.of_nat (length bs)) 0 = Ret bs.
Proof.
  intros Hp. destruct (pkt_tot _ _ _ _ Hp) as (n & _ & _ & ?).
  rewrite (pbuf_copy_partial_ok _ _ _ _ _ _ Hp) by lia.
  f_equal. apply slice_all. lia.
Qed.

(** ** Copying into a chain *)

(** Two chains with the same objects, in which only buffer contents differ. *)
Definition same_shape (ls ls' : list (loc * pbuf)) : Prop :=
  Forall2 (fun x y : loc * pbuf => x.1 = y.1 /\ y.2 = with_buf (pb_buf y.2) x.2 /\
                                   length (pb_buf y.2) = length (pb_buf x.2)) ls ls'.

Lemma same_shape_refl ls : same_shape ls ls.
Proof. apply Forall_Forall2_diag, Forall_true. by intros [l []]. Qed.

Lemma same_shape_head ls ls' : same_shape ls ls' -> head_tot ls' = head_tot ls.
Proof.
  destruct 1 as [|[l b] [l' b'] ? ? (_ & Hb & _)]; simpl in *; [done|]. by rewrite Hb.
Qed.

Lemma overwrite_split (d s f : list Z) :
  let k := (length d `min` length s)%nat in
  splice 0 (take k d) s ++ drop k d ++ drop (length (drop k d)) f =
  d ++ drop (length d) (s ++ f).
Proof.
  intros k. unfold splice. rewrite take_0, length_take, length_drop. simpl.
  destruct (Nat.le_gt_cases (length d) (length s)) as [Hle|Hgt].
  - replace k with (length d) by lia.
    rewrite drop_all, take_ge, Nat.min_id, Nat.sub_diag by lia.
    rewrite drop_0, drop_app_le by lia. by rewrite <-app_assoc.
  - rewrite (drop_ge s), app_nil_r, app_assoc, take_drop by lia.
    rewrite drop_app_ge by lia. do 2 f_equal. lia.
Qed.

Lemma take_aux (h : pheap) ls p data fuel :
  llist h p ls -> chain_ok ls -> Forall is_byte data ->
  (length data <= length (flat ls))%nat -> (length ls < fuel)%nat ->
  exists h' ls', oloop fuel take_body (p, data, h) = Ret h' /\
    llist h' p ls' /\ chain_ok ls' /\ same_shape ls ls' /\
    flat ls' = data ++ drop (length data) (flat ls) /\
    (forall l, l ∉ ls.*1 -> h' !! l = h !! l).
Proof.
  revert h p data fuel.
  induction ls as [|[l b] ls IH]; intros h p data [|fuel] Hll Hc Hd Hlen Hf; simpl in Hf; try lia.
  - destruct data; [|simpl in Hlen; lia]. simpl.
    eexists h, []. split_and!; try done. constructor.
  - destruct data as [|d0 data0] eqn:Edata; [|rewrite <-Edata in *].
    { simpl. exists h, ((l, b) :: ls). split_and!; try done. apply same_shape_refl. }
    pose proof (llist_NoDup _ _ _ Hll) as Hnd. simpl in Hnd.
    apply NoDup_cons in Hnd as [Hnl Hnd].
    destruct Hll as [-> (q & Hq & Hr)], Hc as (Hb & Ht & Hc).
    pose proof (seg_bytes_length _ Hb) as Hbl.
    assert (Hlb : 0 <= pb_len b) by (destruct Hb; lia).
    rewrite flat_cons, length_app in Hlen.
    set (k := Z.to_nat (Z.min (Z.of_nat (length data)) (pb_len b))).
    destruct (payload_wr_ok b 0 (take k data)) as (b' & Hw & Hb' & Hbs & Hbe & Hbu);
      [done|by apply Forall_take|lia|rewrite length_take; lia|].
    assert (Hstep : take_body (Some l, data, h) =
              Ret (inl (q, drop k data, <[l := Node b' q]> h))).
    { rewrite Edata. unfold take_body. rewrite <-Edata. simpl. rewrite Hq. simpl.
      fold k. by rewrite Hw. }
    destruct (IH (<[l := Node b' q]> h) q (drop k data) fuel)
      as (h' & ls' & He & Hll' & Hc' & Hs & Hfl & Hfr); try done.
    { eapply llist_frame; [|done]. intros. apply lookup_insert_ne. set_solver. }
    { by apply Forall_drop. } { rewrite length_drop. lia. } { lia. }
    exists h', ((l, b') :: ls'). split_and!.
    + by rewrite (oloop_step _ _ _ _ Hstep).
    + simpl. split; [done|]. exists q. split; [|done].
      rewrite Hfr by done. apply lookup_insert_eq.
    + simpl. split_and!; [done| |done]. rewrite (same_shape_head _ _ Hs), Hbe. done.
    + constructor; [by split|done].
    + rewrite !flat_cons, Hfl, Hbs. change (Z.to_nat 0) with 0%nat.
      replace k with (length data `min` length (seg_bytes b))%nat by lia.
      apply overwrite_split.
    + intros l' Hl'. simpl in Hl'. rewrite Hfr by set_solver.
      apply lookup_insert_ne. set_solver.
Qed.

Lemma pbuf_take_ok (h : pheap) p ls bs data :
  pkt h p ls bs -> Forall is_byte data -> (length data <= length bs)%nat ->
  exists h' ls', pbuf_take h (Some p) data = Ret (ERR_OK, h') /\
    pkt h' p ls' (data ++ drop (length data) bs) /\ same_shape ls ls' /\
    (forall l, l ∉ ls.*1 -> h' !! l = h !! l).
Proof.
  intros Hp Hd Hl. destruct (pkt_tot _ _ _ _ Hp) as (n & Hn & Ht & ?).
  destruct Hp as (Hll & Hc & <-). unfold pbuf_take. rewrite Hn. simpl.
  rewrite u16_small, Ht by lia. destruct (Z.ltb_spec (Z.of_nat (length (flat ls)))
    (Z.of_nat (length data))); [lia|].
  rewrite take_ge by lia.
  destruct (take_aux h ls (Some p) data (S (S (size h)))) as (h' & ls' & He & ?);
    try done; [apply llist_length in Hll; lia|].
  rewrite He. simpl. exists h', ls'. unfold pkt. naive_solver.
Qed.

(** ** Copying a chain into one buffer *)

Definition no_empty (ls : list (loc * pbuf)) : Prop := Forall (fun x => 0 < pb_len x.2) ls.

Lemma head_tot_pos ls : chain_ok ls -> no_empty ls -> ls <> [] -> 0 < head_tot ls.
Proof.
  destruct ls as [|[l b] ls]; simpl; [done|]. intros (?&?&Hc) [? _]%Forall_cons _.
  simpl in *. pose proof (head_tot_range _ Hc). lia.
Qed.

Lemma queue_check_single (h : pheap) p b bs : single h p b bs -> queue_check h (Some p) = Ret true.
Proof.
  intros (Hp & _ & Ht & _). unfold queue_check. simpl. rewrite Hp. simpl.
  by destruct (_ =? _).
Qed.

Lemma queue_check_chain (h : pheap) p ls :
  llist h p ls -> chain_ok ls -> no_empty ls -> queue_check h p = Ret true.
Proof.
  destruct ls as [|[l b] ls]; simpl; [by intros ->|].
  intros [-> (q & Hq & Hr)] (Hb & Ht & Hc) [_ Hn]%Forall_cons.
  unfold queue_check. rewrite Hq. simpl.
  destruct (Z.eqb_spec (pb_len b) (pb_tot_len b)); [|done].
  destruct ls as [|x ls]; [by simpl in Hr; subst|].
  assert (0 < head_tot (x :: ls)) by (by apply head_tot_pos). lia.
Qed.

Lemma cpp_step (h : pheap) lt bt bs k lf b q ls :
  single h lt bt bs -> h !! lf = Some (Node b q) -> llist h q ls ->
  chain_ok ((lf, b) :: ls) -> no_empty ((lf, b) :: ls) -> lt ∉ lf :: ls.*1 ->
  0 <= k -> k + head_tot ((lf, b) :: ls) <= pb_len bt ->
  exists b', single (<[lt := Node b' None]> h) lt b' (splice (Z.to_nat k) (seg_bytes b) bs) /\
    b' = with_buf (pb_buf b') bt /\
    cpp_body (mk_cpp (Some lt) k (Some lf) 0 (head_tot ((lf, b) :: ls)), h) =
      Ret (if decide (ls = []) then inr (ERR_OK, <[lt := Node b' None]> h)
           else inl (mk_cpp (Some lt) (k + pb_len b) q 0 (head_tot ls),
                     <[lt := Node b' None]> h)).
Proof.
  intros Hs Hlf Hr (Hb & Htot & Hc) Hne Hni Hk Hroom. simpl in Hroom.
  pose proof Hne as [Hlb Hne']%Forall_cons. simpl in Hlb.
  pose proof (head_tot_range _ Hc) as Hrng. pose proof Hs as (Hlt & Hbt & Htl & Hbs).
  assert (Hbig : 0 <= pb_tot_len b < 65536 /\ 0 <= pb_tot_len bt < 65536)
    by (destruct Hb as (?&?&?&?&?), Hbt as (?&?&?&?&?); lia).
  destruct (payload_wr_ok bt k (seg_bytes b)) as (b' & Hw & Hb' & Hbs' & Hbe & Hbl);
    [done|by apply seg_bytes_byte|lia|rewrite seg_bytes_length by done; lia|].
  assert (Hs' : single (<[lt := Node b' None]> h) lt b' (splice (Z.to_nat k) (seg_bytes b) bs)).
  { unfold single. rewrite lookup_insert_eq, Hbs', Hbs. split_and!; try done.
    rewrite Hbe. done. }
  exists b'. split_and!; [done|done|].
  unfold cpp_body. simpl. rewrite Hlt. simpl. rewrite Hlf. simpl.
  unfold u64. rewrite !Z.mod_small by lia.
  destruct (Z.leb_spec (pb_len b - 0) (pb_len bt - k)); [|lia].
  rewrite Z.min_r by lia. rewrite payload_rd_ok by (done || lia). simpl.
  rewrite slice_all by (rewrite <-(Nat2Z.id (length _)), seg_bytes_length by done; f_equal; lia).
  rewrite Hw. cbn [mbind outcome_bind]. rewrite !Z.sub_0_r, !Z.add_0_l, (proj2 (Z.leb_le (k + pb_len b) _)) by lia.
  rewrite Z.leb_refl. simpl. rewrite u16_small by lia.
  replace (pb_tot_len b - pb_len b) with (head_tot ls) by lia.
  assert (Hr' : llist (<[lt := Node b' None]> h) q ls).
  { eapply llist_frame; [|done]. intros. apply lookup_insert_ne. set_solver. }
  case_decide as Hd.
  - subst ls. simpl in *. subst q. simpl.
    destruct (Z.eqb_spec (k + pb_len b) (pb_len bt)); simpl; [done|].
    rewrite lookup_insert_eq. simpl. by destruct (_ =? _).
  - assert (0 < head_tot ls) by (by apply head_tot_pos).
    destruct (Z.eqb_spec (k + pb_len b) (pb_len bt)); [lia|].
    assert (is_Some q) by (destruct ls as [|[]]; [done|destruct Hr; eauto]).
    rewrite bool_decide_true by done. cbn [orb negb bool_decide].
    rewrite bool_decide_true by eauto. cbn [orb negb]. rewrite (queue_check_chain _ _ _ Hr') by done.
    cbn [mbind outcome_bind negb]. rewrite (queue_check_single _ _ _ _ Hs').
    simpl. destruct (Z.eqb_spec (head_tot ls) 0); [lia|done].
Qed.

Lemma copy_aux ls (h : pheap) lt bt bs k lf fuel :
  llist h (Some lf) ls -> chain_ok ls -> no_empty ls ->
  single h lt bt bs -> lt ∉ ls.*1 -> 0 <= k -> k + head_tot ls <= pb_len bt ->
  (length ls <= fuel)%nat ->
  exists b', oloop fuel cpp_body (mk_cpp (Some lt) k (Some lf) 0 (head_tot ls), h) =
      Ret (ERR_OK, <[lt := Node b' None]> h) /\
    single (<[lt := Node b' None]> h) lt b' (splice (Z.to_nat k) (flat ls) bs) /\
    b' = with_buf (pb_buf b') bt.
Proof.
  revert h bt bs k lf fuel.
  induction ls as [|[l b] ls IH]; intros h bt bs k lf fuel Hll Hc Hne Hs Hni Hk Hroom Hf;
    [done|]. destruct fuel as [|fuel]; [simpl in Hf; lia|].
  destruct Hll as [[= <-] (q & Hq & Hr)]. simpl in Hni.
  pose proof Hc as (Hb & Htot & Hc'). pose proof Hne as [Hlb Hne']%Forall_cons.
  pose proof (seg_bytes_length _ Hb) as Hbl. pose proof (head_tot_range _ Hc') as Hrng.
  destruct (cpp_step h lt bt bs k lf b q ls) as (b1 & Hs1 & Hb1 & Hstep); try done.
  case_decide as Hd.
  - subst ls. exists b1. split_and!; [by apply oloop_exit| |done].
    rewrite flat_cons. unfold flat at 1. simpl. by rewrite app_nil_r.
  - destruct q as [lf'|]; [|destruct ls as [|[]]; [done|by destruct Hr]].
    rewrite (oloop_step _ _ _ _ Hstep). simpl in Hroom, Hf.
    assert (Hlt1 : pb_len b1 = pb_len bt) by (rewrite Hb1; done).
    destruct (IH (<[lt := Node b1 None]> h) b1 (splice (Z.to_nat k) (seg_bytes b) bs)
                (k + pb_len b) lf' fuel) as (b2 & He & Hs2 & Hb2); try done; try lia.
    { eapply llist_frame; [|done]. intros. apply lookup_insert_ne. set_solver. }
    { set_solver. }
    rewrite insert_insert_eq in He, Hs2. exists b2. split_and!; [done| |].
    + rewrite flat_cons. rewrite <-splice_splice_adj.
      * replace (Z.to_nat k + length (seg_bytes b))%nat with (Z.to_nat (k + pb_len b)) by lia.
        done.
      * pose proof (flat_length _ Hc'). pose proof (single_length _ _ _ _ Hs). lia.
    + rewrite Hb2, Hb1. done.
Qed.

Lemma pbuf_copy_ok (h : pheap) p_to bt bs_to p_from ls bs :
  pkt h p_from ls bs -> no_empty ls -> single h p_to bt bs_to -> p_to ∉ ls.*1 ->
  length bs_to = length bs ->
  exists b', pbuf_copy h (Some p_to) (Some p_from) = Ret (ERR_OK, <[p_to := Node b' None]> h) /\
    single (<[p_to := Node b' None]> h) p_to b' bs /\ b' = with_buf (pb_buf b') bt.
Proof.
  intros Hp Hne Hs Hni Hl. destruct (pkt_tot _ _ _ _ Hp) as (n & Hn & Ht & ?).
  destruct Hp as (Hll & Hc & <-). pose proof (flat_length _ Hc) as Hfl.
  pose proof (single_length _ _ _ _ Hs) as Hsl. pose proof Hs as (Hpt & _ & Htl & _).
  unfold pbuf_copy. rewrite Hn. cbn [deref mbind outcome_bind].
  unfold pbuf_copy_partial_pbuf. rewrite Hn. cbn [deref mbind outcome_bind].
  rewrite Z.ltb_irrefl, Hpt. cbn [deref mbind outcome_bind n_val].
  destruct (Z.ltb_spec (pb_tot_len bt) (0 + pb_tot_len (n_val n))); [lia|].
  rewrite Ht, Hfl.
  destruct (copy_aux ls h p_to bt bs_to 0 p_from (S (size h + size h)))
    as (b' & He & Hs' & Hb'); try done; try lia.
  { apply llist_length in Hll. lia. }
  exists b'. split_and!; try done. change (Z.to_nat 0) with 0%nat in Hs'.
  by rewrite splice_0_all in Hs' by done.
Qed.

(** ** Allocation of a [PBUF_RAM] *)

Definition ram_fits (layer length : Z) : bool :=
  LWIP_MEM_ALIGN_SIZE layer + LWIP_MEM_ALIGN_SIZE length + 24 <? 65536.

Section alloc_specs.
Context `{Env}.

(** The pbuf that the allocation request number [t] yields. *)
Definition ram_pbuf (t : nat) (layer length : Z) : pbuf :=
  mk_pbuf (fresh_bytes t (Z.to_nat (LWIP_MEM_ALIGN_SIZE layer + LWIP_MEM_ALIGN_SIZE length)))
          (LWIP_MEM_ALIGN_SIZE layer) length length PBUF_RAM 0 1 0.

Lemma ram_pbuf_ok t layer length :
  0 <= layer < 65536 -> 0 <= length < 65536 -> seg_ok (ram_pbuf t layer length).
Proof.
  intros. unfold seg_ok, ram_pbuf. simpl. rewrite length_fresh_bytes.
  rewrite !mem_align_eq by lia. split_and!; try zlia. apply fresh_bytes_byte.
Qed.

Definition alloc_world (t : nat) (layer length : Z) (w : world) : world :=
  set_pbufs (insert (new_loc (w_pbufs w)) (Node (ram_pbuf t layer length) None)) w.

(** Allocation fails exactly when the size computation would wrap or the
    heap is exhausted. *)
Lemma pbuf_alloc_ram_eq layer length w :
  0 <= layer <= PBUF_IP -> 0 <= length < 65536 ->
  pbuf_alloc layer length PBUF_RAM w =
    if ram_fits layer length then
      if env_mem_malloc (w_tick w)
      then Ret (Some (new_loc (w_pbufs w)),
                alloc_world (w_tick w) layer length (add_ticks 1 w))
      else Ret (None, add_ticks 1 w)
    else Ret (None, w).
Proof.
  intros Hla Hle. unfold pbuf_alloc, ram_fits.
  change PBUF_IP with 54 in Hla.
  rewrite (u16_small layer), (u16_small length) by lia.
  change (LWIP_MEM_ALIGN_SIZE SIZEOF_STRUCT_PBUF) with 24.
  assert (0 <= LWIP_MEM_ALIGN_SIZE layer <= 56 /\ 0 <= LWIP_MEM_ALIGN_SIZE length <= 65536)
    by (rewrite !mem_align_eq by lia; zlia).
  assert (LWIP_MEM_ALIGN_SIZE layer mod 4 = 0 /\ LWIP_MEM_ALIGN_SIZE length mod 4 = 0)
    by (rewrite !mem_align_eq by lia; zlia).
  unfold alloc_world, ram_pbuf.
  generalize dependent (LWIP_MEM_ALIGN_SIZE layer).
  generalize dependent (LWIP_MEM_ALIGN_SIZE length). intros L A HA HA4.
  destruct (Z.ltb_spec (A + L + 24) 65536) as [Hs|Hs].
  - rewrite !u16_small by (rewrite ?u16_small; lia).
    destruct (Z.ltb_spec (A + L) L); [lia|].
    destruct (Z.ltb_spec (24 + (A + L)) L); [lia|]. simpl.
    unfold mbind, M_bind, next_tick. by destruct (env_mem_malloc _).
  - destruct (Z.ltb_spec (u16 (A + L)) L); [done|].
    destruct (Z.ltb_spec (u16 (24 + u16 (A + L))) L); [done|]. zlia.
Qed.

Lemma alloc_single t layer length w :
  0 <= layer < 65536 -> 0 <= length < 65536 ->
  single (w_pbufs (alloc_world t layer length w)) (new_loc (w_pbufs w))
    (ram_pbuf t layer length) (seg_bytes (ram_pbuf t layer length)).
Proof.
  intros. split_and!; [apply lookup_insert_eq|by apply ram_pbuf_ok|done|done].
Qed.

Lemma ram_pbuf_length t layer length :
  0 <= layer < 65536 -> 0 <= length < 65536 ->
  Z.of_nat (List.length (seg_bytes (ram_pbuf t layer length))) = length.
Proof. intros. by rewrite seg_bytes_length by (by apply ram_pbuf_ok). Qed.
End alloc_specs.

(** ** Releasing a chain *)

(** References held on the pbufs of a chain, as [pbuf_free] treats them: the
    leading pbufs with one reference go, the first shared one keeps the rest. *)
Fixpoint free_chain (ls : list (loc * pbuf)) (h : pheap) : nat * pheap :=
  match ls with
  | [] => (0%nat, h)
  | (l, b) :: ls =>
      if pb_ref b =? 1 then let '(n, h') := free_chain ls (delete l h) in (S n, h')
      else (0%nat, alter (upd_pbuf (with_ref (pb_ref b - 1))) l h)
  end.

Lemma pbuf_free_aux ls (h : pheap) p count fuel :
  llist h p ls -> Forall (fun x => 1 <= pb_ref x.2 < 256) ls ->
  (S (length ls) < fuel)%nat ->
  oloop fuel pbuf_free_body (p, count, h) =
    Ret (u8 (count + Z.of_nat (fst (free_chain ls h))), snd (free_chain ls h)) \/
  (ls = [] /\ oloop fuel pbuf_free_body (p, count, h) = Ret (count, h)) \/
  (exists l b ls', ls = (l, b) :: ls' /\ pb_ref b <> 1 /\
     oloop fuel pbuf_free_body (p, count, h) = Ret (count, snd (free_chain ls h))).
Proof.
  revert h p count fuel. induction ls as [|[l b] ls IH]; intros h p count fuel Hll Hr Hf;
    (destruct fuel as [|fuel]; [simpl in Hf; lia|]).
  { simpl in Hll. subst p. right. left. split; [done|]. by apply oloop_exit. }
  pose proof (llist_NoDup _ _ _ Hll) as Hnd. apply NoDup_cons in Hnd as [Hnl Hnd].
  destruct Hll as [-> (q & Hq & Hll)]. apply Forall_cons in Hr as [Hb Hr]. simpl in Hb, Hf.
  rewrite oloop_S. simpl. rewrite Hq. simpl.
  rewrite (proj2 (Z.ltb_lt 0 _)) by lia. rewrite u8_small by lia.
  destruct (Z.eqb_spec (pb_ref b) 1) as [E|E].
  - rewrite E. simpl. left.
    destruct (free_chain ls (delete l h)) as [n h'] eqn:Efc. simpl.
    destruct (IH (delete l h) q (u8 (count + 1)) fuel) as [He|[[-> He]|He]]; try done; try lia.
    { eapply llist_frame; [|done]. intros. apply lookup_delete_ne. set_solver. }
    + rewrite He, Efc. simpl. do 2 f_equal. zlia.
    + rewrite He. simpl in Efc. simplify_eq. done.
    + destruct He as (l' & b' & ls' & -> & Hne & He). rewrite He, Efc. simpl.
      simpl in Efc. rewrite (proj2 (Z.eqb_neq _ _) Hne) in Efc. simplify_eq. done.
  - destruct (Z.eqb_spec (pb_ref b - 1) 0); [lia|]. simpl. right. right.
    exists l, b, ls. split_and!; [done|done|].
    destruct fuel as [|fuel]; [lia|]. rewrite (oloop_exit _ _ _ (count, <[l := _]> h)) by done.
    do 2 f_equal. apply map_eq. intros k.
    destruct (decide (k = l)) as [->|Hk].
    + rewrite lookup_insert_eq, lookup_alter_eq, Hq. done.
    + by rewrite lookup_insert_ne, lookup_alter_ne.
Qed.

Lemma pbuf_free_ok (h : pheap) p ls :
  llist h (Some p) ls -> Forall (fun x => 1 <= pb_ref x.2 < 256) ls -> (length ls < 256)%nat ->
  pbuf_free h p = Ret (Z.of_nat (fst (free_chain ls h)), snd (free_chain ls h)).
Proof.
  intros Hll Hr Hlen. pose proof (llist_length _ _ _ Hll).
  assert (Hle : forall ls (h : pheap), (fst (free_chain ls h) <= length ls)%nat).
  { clear. induction ls as [|[l b] ls IH]; intros h; simpl; [lia|].
    destruct (_ =? _); simpl; [|lia]. specialize (IH (delete l h)).
    destruct (free_chain ls (delete l h)). simpl in *. lia. }
  unfold pbuf_free.
  destruct (pbuf_free_aux ls h (Some p) 0 (S (S (size h)))) as [He|[[-> He]|He]]; try done; try lia.
  - rewrite He. do 2 f_equal. apply u8_small. specialize (Hle ls h). lia.
  - destruct He as (l & b & ls' & -> & Hne & He). rewrite He. simpl.
    by rewrite (proj2 (Z.eqb_neq _ _) Hne).
Qed.

(** The last reference to a single buffer removes it and nothing else. *)
Lemma pbuf_free_single (h : pheap) p b bs :
  single h p b bs -> pb_ref b = 1 -> pbuf_free h p = Ret (1, delete p h).
Proof.
  intros (Hp & _) Hr.
  rewrite (pbuf_free_ok h p [(p, b)]).
  - simpl. by rewrite Hr.
  - simpl. eauto.
  - constructor; [simpl; lia|done].
  - simpl. lia.
Qed.

(** ** Allocation from the pool *)

Section pool_specs.
Context `{Env}.

Definition pool_pbuf (t : nat) (tot len : Z) : pbuf :=
  mk_pbuf (fresh_bytes t 1536) 0 tot len PBUF_POOL 0 1 0.

Lemma pool_pbuf_ok t tot len : 0 <= tot < 65536 -> 0 <= len <= 1536 -> seg_ok (pool_pbuf t tot len).
Proof.
  intros. unfold seg_ok. cbn [pool_pbuf pb_payload pb_len pb_buf pb_tot_len].
  rewrite length_fresh_bytes. split_and!; try lia. apply fresh_bytes_byte.
Qed.

Definition pool_has_room (h : pheap) : Prop := (pool_live [PBUF_POOL] h < PBUF_POOL_SIZE)%nat.

Lemma pool_round w p last rem :
  0 < rem < 65536 ->
  let q := new_loc (w_pbufs w) in
  let len := Z.min rem 1536 in
  pool_has_room (w_pbufs w) ->
  pool_body (p, last, rem, 0) w =
    (match last with
     | None => mret tt
     | Some lst =>
         w ← get;
         n ← lift (deref (w_pbufs w !! lst));
         modify (set_pbufs (insert lst (set_next (Some q) n)))
     end;;
     (if 0 <? rem - len then mret (inl (match p with None => Some q | Some _ => p end, Some q, rem - len, 0))
      else mret (inr (match p with None => Some q | Some _ => p end))))
    (set_pbufs (insert q (Node (pool_pbuf (w_tick w) rem len) None)) (add_ticks 1 w)).
Proof.
  intros Hrem q len Hroom. unfold pool_body. rewrite (bind_exec get _ w w w) by done.
  rewrite decide_True by exact Hroom.
  rewrite (bind_exec next_tick _ w (w_tick w) (add_ticks 1 w)) by done. cbv zeta.
  change (u16 (PBUF_POOL_BUFSIZE_ALIGNED - LWIP_MEM_ALIGN_SIZE 0)) with 1536.
  change (Z.to_nat PBUF_POOL_BUFSIZE_ALIGNED) with 1536%nat. change (LWIP_MEM_ALIGN_SIZE 0) with 0.
  fold q len. rewrite (u16_small (rem - len)) by lia. reflexivity.
Qed.

(** A packet of up to two pool buffers: a fresh chain of the size asked for,
    or nothing when the pool is exhausted. *)
Definition pool_chain (w : world) (n : Z) (p : loc) (w' : world) (ls : list (loc * pbuf)) : Prop :=
  (exists bs, pkt (w_pbufs w') p ls bs /\ Z.of_nat (length bs) = n) /\ no_empty ls /\
  Forall (fun x => pb_ref x.2 = 1) ls /\
  Forall (fun l => w_pbufs w !! l = None) ls.*1 /\
  (forall q, q ∉ ls.*1 -> w_pbufs w' !! q = w_pbufs w !! q) /\
  (n <= 1536 -> length ls = 1%nat) /\
  Forall (fun x => pb_type x.2 = PBUF_POOL /\ pb_payload x.2 = 0 /\ length (pb_buf x.2) = 1536%nat) ls.

Lemma pool_alloc_one w n :
  0 < n <= 1536 -> pool_has_room (w_pbufs w) ->
  let w' := set_pbufs (insert (new_loc (w_pbufs w)) (Node (pool_pbuf (w_tick w) n n) None)) (add_ticks 1 w) in
  pbuf_alloc PBUF_RAW n PBUF_POOL w = Ret (Some (new_loc (w_pbufs w)), w') /\
  pool_chain w n (new_loc (w_pbufs w)) w' [(new_loc (w_pbufs w), pool_pbuf (w_tick w) n n)].
Proof.
  intros Hn Hroom w'. split.
  - unfold pbuf_alloc. change (u16 PBUF_RAW) with 0. rewrite (u16_small n) by lia. rewrite loop_S.
    rewrite (bind_exec _ _ w (inr (Some (new_loc (w_pbufs w)))) w'); [done|].
    rewrite pool_round by (done || lia). rewrite Z.min_l by lia.
    rewrite (proj2 (Z.ltb_ge 0 (n - n))) by lia. reflexivity.
  - set (q := new_loc (w_pbufs w)). assert (Hok : seg_ok (pool_pbuf (w_tick w) n n)) by (apply pool_pbuf_ok; lia).
    split_and!.
    + eexists. split; [apply single_pkt; split_and!; [apply lookup_insert_eq|done|done|reflexivity]|].
      by rewrite seg_bytes_length.
    + constructor; [cbn; lia|constructor].
    + by repeat constructor.
    + constructor; [apply new_loc_fresh|constructor].
    + intros l Hl. apply lookup_insert_ne. cbn in Hl. set_solver.
    + done.
    + constructor; [|constructor]. cbn [snd pool_pbuf pb_type pb_payload pb_buf]. by rewrite length_fresh_bytes.
Qed.

Lemma pool_live_insert (h : pheap) q b :
  h !! q = None -> pb_type b = PBUF_POOL ->
  pool_live [PBUF_POOL] (<[q := Node b None]> h) = S (pool_live [PBUF_POOL] h).
Proof.
  intros Hq Hb. unfold pool_live. rewrite map_filter_insert_True by (cbn; rewrite Hb; set_solver).
  apply map_size_insert_None. apply map_lookup_filter_None. by left.
Qed.

Lemma pool_alloc_two w n :
  1536 < n <= 3072 -> (S (pool_live [PBUF_POOL] (w_pbufs w)) < PBUF_POOL_SIZE)%nat ->
  exists w' ls, pbuf_alloc PBUF_RAW n PBUF_POOL w = Ret (Some (new_loc (w_pbufs w)), w') /\
    pool_chain w n (new_loc (w_pbufs w)) w' ls /\ w' = set_pbufs (fun _ => w_pbufs w') (add_ticks 2 w).
Proof.
  intros Hn Hroom. set (q := new_loc (w_pbufs w)). set (b1 := pool_pbuf (w_tick w) n 1536).
  set (w1 := set_pbufs (insert q (Node b1 None)) (add_ticks 1 w)).
  set (q2 := new_loc (w_pbufs w1)). set (b2 := pool_pbuf (S (w_tick w)) (n - 1536) (n - 1536)).
  set (w2 := set_pbufs (insert q (Node b1 (Some q2))) (set_pbufs (insert q2 (Node b2 None)) (add_ticks 1 w1))).
  assert (Hq : w_pbufs w !! q = None) by apply new_loc_fresh.
  assert (Hq2 : w_pbufs w1 !! q2 = None) by apply new_loc_fresh.
  assert (Hne : q2 <> q) by (intros E; rewrite E in Hq2; cbn in Hq2; rewrite lookup_insert_eq in Hq2; done).
  assert (Hq2w : w_pbufs w !! q2 = None) by (cbn in Hq2; by rewrite lookup_insert_ne in Hq2).
  exists w2, [(q, b1); (q2, b2)]. split_and!.
  - unfold pbuf_alloc. change (u16 PBUF_RAW) with 0. rewrite (u16_small n) by lia.
    destruct (Z.to_nat n) as [|k] eqn:Ek; [lia|]. rewrite loop_S.
    rewrite (bind_exec _ _ w (inl (Some q, Some q, n - 1536, 0)) w1).
    2: { rewrite pool_round by (unfold pool_has_room; lia). rewrite Z.min_r by lia.
         rewrite (proj2 (Z.ltb_lt 0 (n - 1536))) by lia. reflexivity. }
    rewrite loop_S. rewrite (bind_exec _ _ w1 (inr (Some q)) w2); [done|].
    rewrite pool_round; [|lia|unfold pool_has_room, w1; cbn [w_pbufs set_pbufs add_ticks];
                              rewrite pool_live_insert by done; lia].
    rewrite (Z.min_l (n - 1536)), (proj2 (Z.ltb_ge 0 (n - 1536 - (n - 1536)))) by lia. fold q2.
    change (w_tick w1) with (S (w_tick w)). fold b2. set (w1' := set_pbufs _ (add_ticks 1 w1)).
    assert (Hl : w_pbufs w1' !! q = Some (Node b1 None)).
    { cbn. rewrite lookup_insert_ne by done. apply lookup_insert_eq. }
    rewrite (bind_exec _ _ w1' tt w2); [done|]. rewrite (bind_exec get _ w1' w1' w1') by done.
    by rewrite Hl.
  - assert (Hok1 : seg_ok b1) by (apply pool_pbuf_ok; lia). assert (Hok2 : seg_ok b2) by (apply pool_pbuf_ok; lia).
    split_and!.
    + exists (seg_bytes b1 ++ seg_bytes b2). split.
      * split; [|split].
        -- split; [done|]. exists (Some q2). split; [apply lookup_insert_eq|]. split; [done|]. exists None.
           split; [|done]. cbn. rewrite lookup_insert_ne by done. apply lookup_insert_eq.
        -- split; [done|]. split; [cbn; lia|]. split; [done|]. split; [cbn; lia|done].
        -- unfold flat. cbn. by rewrite app_nil_r.
      * rewrite length_app, Nat2Z.inj_add, !seg_bytes_length by done. cbn. lia.
    + repeat constructor; cbn; lia.
    + by repeat constructor.
    + by repeat constructor.
    + intros l Hl. cbn in Hl. cbn. rewrite !lookup_insert_ne by set_solver. done.
    + lia.
    + repeat constructor; cbn [snd b1 b2 pool_pbuf pb_buf]; by rewrite length_fresh_bytes.
  - apply world_eq; try reflexivity.
Qed.
End pool_specs.
