(* ===== verification/Ip6Hdr.v ===== *)
(** * IPv6 headers in packet buffers (lwip/prot/ip6.h)

    Reads and writes through [p->payload], the header fields the DTN code
    uses, and the rules for running these accesses on a packet that lies in
    one buffer. *)

From S2P Require Import Prelude LinkedList Ip6Addr World Pbuf.

Definition IP6_HLEN : Z := 40.
Definition IP6_NEXTH_HOPBYHOP : Z := 0.
Definition IP6_NEXTH_ICMP6 : Z := 58.
Definition IP6_NEXTH_NONE : Z := 59.

(** Offsets of the fields of [struct ip6_hdr]. *)
Definition OFF_PLEN : Z := 4.
Definition OFF_NEXTH : Z := 6.
Definition OFF_HOPLIM : Z := 7.
Definition OFF_SRC : Z := 8.
Definition OFF_DEST : Z := 24.

(** ** Field values of a header given by its bytes *)

Definition byte_at (i : nat) (bs : list Z) : Z := nth i bs 0.
Definition hdr_version (bs : list Z) : Z := Z.shiftr (byte_at 0 bs) 4.
Definition hdr_plen (bs : list Z) : Z := lwip_htons (le_val (slice 4 2 bs)).
Definition hdr_nexth (bs : list Z) : Z := byte_at 6 bs.
Definition hdr_src (bs : list Z) : ip6_addr := ip6_of_bytes (slice 8 16 bs).
Definition hdr_dest (bs : list Z) : ip6_addr := ip6_of_bytes (slice 24 16 bs).

(** The two bytes of a 16-bit value in network byte order. *)
Definition be16 (x : Z) : list Z := le_bytes 2 (lwip_htons x).

(** ** Access through [p->payload] *)

Definition pb_node (p : loc) : M world (node pbuf) :=
  w ← get; lift (deref (w_pbufs w !! p)).
Definition pread (p : loc) (off n : Z) : M world (list Z) :=
  nd ← pb_node p; lift (payload_rd off n (n_val nd)).
Definition pread8 (p : loc) (off : Z) : M world Z :=
  bs ← pread p off 1; mret (byte_at 0 bs).
Definition pwrite (p : loc) (off : Z) (new : list Z) : M world unit :=
  nd ← pb_node p;
  b ← lift (payload_wr off new (n_val nd));
  modify (set_pbufs (insert p (Node b (n_next nd)))).

Definition IP6H_V (p : loc) : M world Z := b ← pread8 p 0; mret (Z.shiftr b 4).
Definition IP6H_NEXTH (p : loc) : M world Z := pread8 p OFF_NEXTH.
Definition IP6H_PLEN (p : loc) : M world Z :=
  bs ← pread p OFF_PLEN 2; mret (lwip_htons (le_val bs)).
Definition IP6H_NEXTH_SET (p : loc) (v : Z) : M world unit := pwrite p OFF_NEXTH [v].
Definition IP6H_PLEN_SET (p : loc) (v : Z) : M world unit := pwrite p OFF_PLEN (be16 v).

Definition IP6H_VTCFL_SET (p : loc) (v tc fl : Z) : M world unit :=
  pwrite p 0 (le_bytes 4 (lwip_htonl (Z.lor (Z.lor (u32 (Z.shiftl v 28)) (u32 (Z.shiftl tc 20))) fl))).
Definition IP6H_HOPLIM_SET (p : loc) (hl : Z) : M world unit := pwrite p OFF_HOPLIM [u8 hl].
Definition IP6H_HOPLIM (p : loc) : M world Z := pread8 p OFF_HOPLIM.

(** [pbuf_free(p)] as a statement. *)
Definition pbuf_free_m (p : loc) : M world Z :=
  w ← get;
  r ← lift (pbuf_free (w_pbufs w) p);
  modify (set_pbufs (fun _ => r.2));;
  mret r.1.

(** ** Facts about fields *)

Lemma byte_at_slice i bs : (i < length bs)%nat -> slice i 1 bs = [byte_at i bs].
Proof.
  revert bs. induction i as [|i IH]; intros [|x bs] Hl; simpl in Hl; try lia; [done|].
  apply (IH bs). lia.
Qed.

Lemma byte_at_of_slice i o n bs :
  (i < n)%nat -> byte_at i (slice o n bs) = byte_at (o + i) bs.
Proof.
  intros. unfold byte_at, slice. rewrite nth_firstn.
  rewrite (proj2 (Nat.ltb_lt _ _)) by done. by rewrite nth_skipn.
Qed.

Lemma byte_at_byte i bs : Forall is_byte bs -> is_byte (byte_at i bs).
Proof.
  intros H. unfold byte_at. destruct (Nat.lt_ge_cases i (length bs)) as [Hi|Hi].
  - rewrite Forall_forall in H. apply H. apply list_elem_of_In, nth_In. done.
  - rewrite nth_overflow by done. unfold is_byte. lia.
Qed.

Lemma byte_at_app_l i l1 l2 : (i < length l1)%nat -> byte_at i (l1 ++ l2) = byte_at i l1.
Proof. intros. unfold byte_at. by apply app_nth1. Qed.

Lemma length_be16 x : length (be16 x) = 2%nat.
Proof. apply length_le_bytes. Qed.
#[export] Hint Rewrite length_be16 : len.

Lemma be16_byte x : Forall is_byte (be16 x).
Proof. apply le_bytes_byte. Qed.
#[export] Hint Resolve be16_byte : ints.

Lemma be16_val x : 0 <= x < 65536 -> lwip_htons (le_val (be16 x)) = x.
Proof.
  intros. unfold be16. rewrite le_val_bytes.
  - by apply lwip_htons_invol.
  - apply lwip_htons_range.
Qed.

Lemma hdr_plen_range bs : 0 <= hdr_plen bs < 65536.
Proof. apply lwip_htons_range. Qed.

(** The two bytes in place are the encoding of the value they hold. *)
Lemma be16_plen bs :
  (6 <= length bs)%nat -> Forall is_byte bs -> be16 (hdr_plen bs) = slice 4 2 bs.
Proof.
  intros Hl Hb. unfold be16, hdr_plen.
  assert (Hs : length (slice 4 2 bs) = 2%nat) by (rewrite length_slice; lia).
  pose proof (le_val_range (slice 4 2 bs) (Forall_slice _ _ _ _ Hb)) as Hr.
  rewrite Hs in Hr. rewrite lwip_htons_invol by (simpl in Hr; lia).
  apply le_bytes_val; [done|by apply Forall_slice].
Qed.

Lemma ip6_bytes_length a : length (ip6_bytes a) = 16%nat.
Proof. done. Qed.
#[export] Hint Rewrite ip6_bytes_length : len.
Lemma ip6_bytes_byte a : Forall is_byte (ip6_bytes a).
Proof. unfold ip6_bytes. rewrite !Forall_app. auto using le_bytes_byte. Qed.
#[export] Hint Resolve ip6_bytes_byte : ints.

Definition word32 (x : Z) : Prop := 0 <= x < 4294967296.
Definition ip6_wf (a : ip6_addr) : Prop :=
  word32 (addr0 a) /\ word32 (addr1 a) /\ word32 (addr2 a) /\ word32 (addr3 a).

Lemma ip6_of_ip6_bytes a : ip6_wf a -> ip6_of_bytes (ip6_bytes a) = ip6_addr_set_zone 0 a.
Proof.
  intros (?&?&?&?). unfold word32 in *. destruct a as [a0 a1 a2 a3 z].
  unfold ip6_of_bytes, ip6_bytes, IP6_ADDR, ip6_addr_set_zone. cbn [addr0 addr1 addr2 addr3] in *.
  f_equal.
  - exact (le_val_bytes 4 a0 H).
  - exact (le_val_bytes 4 a1 H0).
  - exact (le_val_bytes 4 a2 H1).
  - exact (le_val_bytes 4 a3 H2).
Qed.

Lemma ip6_bytes_of_bytes l :
  length l = 16%nat -> Forall is_byte l -> ip6_bytes (ip6_of_bytes l) = l.
Proof.
  intros Hl Hb. unfold ip6_bytes, ip6_of_bytes. cbn [addr0 addr1 addr2 addr3 IP6_ADDR].
  rewrite !le_bytes_val by (try apply Forall_slice; try done; rewrite length_slice; lia).
  do 17 (destruct l as [|? l]; try (simpl in Hl; lia)). done.
Qed.

Lemma ip6_of_bytes_wf l : length l = 16%nat -> Forall is_byte l -> ip6_wf (ip6_of_bytes l).
Proof.
  intros Hl Hb. unfold ip6_wf, word32, ip6_of_bytes. cbn [addr0 addr1 addr2 addr3 IP6_ADDR].
  assert (Hg : forall o, (o + 4 <= 16)%nat -> 0 <= le_val (slice o 4 l) < 4294967296).
  { intros o Ho. pose proof (le_val_range (slice o 4 l) (Forall_slice _ _ _ _ Hb)) as Hr.
    rewrite length_slice in Hr by lia. simpl in Hr. lia. }
  split_and!; apply Hg; lia.
Qed.

(** ** Running accesses on a packet in one buffer *)

Section access.
Implicit Types w : world.

Definition put_pbuf (p : loc) (b : pbuf) (w : world) : world :=
  set_pbufs (insert p (Node b None)) w.

Lemma put_pbuf_put p b b' w : put_pbuf p b' (put_pbuf p b w) = put_pbuf p b' w.
Proof. unfold put_pbuf, set_pbufs. simpl. by rewrite insert_insert_eq. Qed.

Lemma w_pbufs_put p b w : w_pbufs (put_pbuf p b w) = <[p := Node b None]> (w_pbufs w).
Proof. done. Qed.

Lemma pb_node_exec p b bs w :
  single (w_pbufs w) p b bs -> pb_node p w = Ret (Node b None, w).
Proof. intros (Hp & _). unfold pb_node, get, mbind, M_bind. simpl. by rewrite Hp. Qed.

Lemma pread_exec p b bs w off n :
  single (w_pbufs w) p b bs -> 0 <= off -> 0 <= n -> off + n <= Z.of_nat (length bs) ->
  pread p off n w = Ret (slice (Z.to_nat off) (Z.to_nat n) bs, w).
Proof.
  intros Hs Ho Hn Hl. rewrite (single_length _ _ _ _ Hs) in Hl.
  unfold pread. rewrite (bind_exec _ _ _ _ _ (pb_node_exec _ _ _ _ Hs)).
  destruct Hs as (_ & Hb & _ & <-). unfold lift. simpl.
  by rewrite payload_rd_ok.
Qed.

Lemma pread8_exec p b bs w off :
  single (w_pbufs w) p b bs -> 0 <= off < Z.of_nat (length bs) ->
  pread8 p off w = Ret (byte_at (Z.to_nat off) bs, w).
Proof.
  intros Hs Ho. unfold pread8.
  rewrite (bind_exec _ _ _ _ _ (pread_exec _ _ _ _ off 1 Hs ltac:(lia) ltac:(lia) ltac:(lia))).
  change (Z.to_nat 1) with 1%nat. rewrite byte_at_slice by lia. done.
Qed.

(** The same buffer with other contents. *)
Definition refilled (b b' : pbuf) : Prop :=
  b' = with_buf (pb_buf b') b /\ length (pb_buf b') = length (pb_buf b).

Lemma refilled_trans b1 b2 b3 : refilled b1 b2 -> refilled b2 b3 -> refilled b1 b3.
Proof. intros [H12 L12] [H23 L23]. split; [rewrite H23, H12; done|congruence]. Qed.

Lemma refilled_fields b b' :
  refilled b b' -> pb_ref b' = pb_ref b /\ pb_payload b' = pb_payload b /\
  pb_tot_len b' = pb_tot_len b /\ length (pb_buf b') = length (pb_buf b).
Proof. intros [-> ?]. done. Qed.

Lemma pwrite_exec p b bs w off new :
  single (w_pbufs w) p b bs -> Forall is_byte new -> 0 <= off ->
  off + Z.of_nat (length new) <= Z.of_nat (length bs) ->
  exists b', pwrite p off new w = Ret (tt, put_pbuf p b' w) /\
    single (w_pbufs (put_pbuf p b' w)) p b' (splice (Z.to_nat off) new bs) /\
    refilled b b'.
Proof.
  intros Hs Hn Ho Hl. rewrite (single_length _ _ _ _ Hs) in Hl.
  unfold pwrite. rewrite (bind_exec _ _ _ _ _ (pb_node_exec _ _ _ _ Hs)).
  destruct Hs as (Hp & Hb & Ht & <-).
  destruct (payload_wr_ok b off new) as (b' & Hw & Hb' & Hbs & Heq & Hbl); try done.
  exists b'. split_and!; [|split_and!|done].
  - unfold mbind, M_bind, lift. simpl. by rewrite Hw.
  - apply lookup_insert_eq.
  - done.
  - rewrite Heq. done.
  - by rewrite Hbs.
Qed.

Lemma single_insert_ne (h : pheap) p b bs q n :
  q <> p -> single h p b bs -> single (<[q := n]> h) p b bs.
Proof. intros Hne (Hp & ?). split; [by rewrite lookup_insert_ne|done]. Qed.

Lemma single_delete_ne (h : pheap) p b bs q :
  q <> p -> single h p b bs -> single (delete q h) p b bs.
Proof. intros Hne (Hp & ?). split; [by rewrite lookup_delete_ne|done]. Qed.

Lemma single_put_ne w p b bs q b' :
  q <> p -> single (w_pbufs w) p b bs -> single (w_pbufs (put_pbuf q b' w)) p b bs.
Proof. apply single_insert_ne. Qed.

Lemma pbuf_free_m_exec p b bs w :
  single (w_pbufs w) p b bs -> pb_ref b = 1 ->
  pbuf_free_m p w = Ret (1, set_pbufs (delete p) w).
Proof.
  intros Hs Hr. unfold pbuf_free_m, get, lift, mbind, M_bind. simpl.
  by rewrite (pbuf_free_single _ _ _ _ Hs Hr).
Qed.

Lemma IP6H_NEXTH_exec p b bs w :
  single (w_pbufs w) p b bs -> (40 <= length bs)%nat ->
  IP6H_NEXTH p w = Ret (hdr_nexth bs, w).
Proof. intros. unfold IP6H_NEXTH. by rewrite (pread8_exec _ b bs) by (done || (unfold OFF_NEXTH; lia)). Qed.

Lemma IP6H_PLEN_exec p b bs w :
  single (w_pbufs w) p b bs -> (40 <= length bs)%nat ->
  IP6H_PLEN p w = Ret (hdr_plen bs, w).
Proof.
  intros. unfold IP6H_PLEN, OFF_PLEN.
  by rewrite (bind_exec _ _ _ _ _ (pread_exec _ b bs _ 4 2 H ltac:(lia) ltac:(lia) ltac:(lia))).
Qed.
End access.
#[export] Hint Resolve single_insert_ne single_delete_ne single_put_ne : core.
#[export] Hint Resolve refilled_trans : ints.

(** A well-formed IPv6 packet: a header, and as many bytes as it announces. *)
Definition ip6_packet (bs : list Z) : Prop :=
  (40 <= length bs)%nat /\ hdr_plen bs = Z.of_nat (length bs) - 40 /\ Forall is_byte bs.
