(* ===== verification/Custody.v ===== *)
(** * Custody transfer (src/dtn_custody.c)

    The custodian's address travels in a hop-by-hop option that is pushed in
    front of the payload.  The four functions of the file are modelled on the
    pbuf heap; the theorems relate them to [with_hbh], the packet that the
    header describes, and say on which packets the functions do not return or
    leave their buffers. *)

From S2P Require Import Prelude LinkedList Ip6Addr World Pbuf Ip6Hdr.

Definition IP6_NEXTH_HOPOPTS : Z := 0.
Definition CUSTODY_OPTION_TYPE : Z := 0x1E.
Definition HBH_OPT_HDR_LEN : Z := 24.

(** [struct hbh_hdr], packed. *)
Record hbh_hdr := mk_hbh {
  next_header : Z;
  hdr_ext_len : Z;
  opt_type : Z;
  opt_data_len : Z;
  hbh_addr : list Z;
  hbh_pad : list Z
}.
Definition hbh_bytes (h : hbh_hdr) : list Z :=
  [next_header h; hdr_ext_len h; opt_type h; opt_data_len h] ++ hbh_addr h ++ hbh_pad h.

Section custody.
Context `{Env}.

(** [p] is the caller's [*p]; the result is the C result and the new [*p]. *)
Definition dtn_add_custodian_option (p : option loc) (custodian : option ip6_addr)
  : M world (bool * option loc) :=
  match p, custodian with
  | Some orig, Some c =>
      old_nexth ← IP6H_NEXTH orig;
      orig_len ← IP6H_PLEN orig;
      let new_len := u16 (orig_len + HBH_OPT_HDR_LEN) in
      newp ← pbuf_alloc PBUF_RAW (IP6_HLEN + new_len) PBUF_RAM;
      match newp with
      | None => mret (false, p)
      | Some np =>
          hdr ← pread orig 0 IP6_HLEN;
          pwrite np 0 hdr;;
          IP6H_NEXTH_SET np IP6_NEXTH_HOPOPTS;;
          IP6H_PLEN_SET np new_len;;
          pwrite np IP6_HLEN
            (hbh_bytes (mk_hbh old_nexth (HBH_OPT_HDR_LEN / 8 - 1) CUSTODY_OPTION_TYPE 16
                               (ip6_bytes c) (replicate 4 0)));;
          nd ← pb_node orig;
          rest ← pread orig IP6_HLEN (pb_tot_len (n_val nd) - IP6_HLEN);
          pwrite np (IP6_HLEN + HBH_OPT_HDR_LEN) rest;;
          pbuf_free_m orig;;
          mret (true, Some np)
      end
  | _, _ => mret (false, p)
  end.

(** [while (nexth != HOPOPTS && nexth != NONE)]; the state is [nexth] and
    the offset of [ptr] from the start of the packet. *)
Definition extract_body (p : loc) (st : Z * Z) : M world (Z * Z + Z * Z) :=
  let '(nexth, ptr) := st in
  if (nexth =? IP6_NEXTH_HOPOPTS) || (nexth =? IP6_NEXTH_NONE) then mret (inr st)
  else
    nexth' ← pread8 p ptr;
    e ← pread8 p (ptr + 1);
    mret (inl (nexth', ptr + u8 ((e + 1) * 8))).

(** [custodian_out] is the memory of the output argument; its zone is left
    as it was. *)
Definition extract_with_fuel (fuel : nat) (p : option loc) (custodian_out : option ip6_addr)
  : M world (bool * option ip6_addr) :=
  match p, custodian_out with
  | Some l, Some out =>
      nexth ← IP6H_NEXTH l;
      r ← loop fuel (extract_body l) (nexth, IP6_HLEN);
      let '(nexth, ptr) := r in
      if negb (nexth =? IP6_NEXTH_HOPOPTS) then mret (false, custodian_out)
      else
        ty ← pread8 l (ptr + 2);
        if negb (ty =? CUSTODY_OPTION_TYPE) then mret (false, custodian_out)
        else
          dl ← pread8 l (ptr + 3);
          if negb (dl =? 16) then mret (false, custodian_out)
          else
            a ← pread l (ptr + 4) 16;
            mret (true, Some (ip6_addr_set_zone (zone out) (ip6_of_bytes a)))
  | _, _ => mret (false, custodian_out)
  end.
(** A round that makes progress moves [ptr] by at least eight bytes inside
    the buffer, so this fuel separates the runs that return from the ones
    that never do ([extract_fuel_enough]). *)
Definition extract_fuel : nat := Z.to_nat 70000.
Definition dtn_extract_custodian_option := extract_with_fuel extract_fuel.

Definition dtn_strip_custodian_option (p : option loc) : M world (bool * option loc) :=
  match p with
  | None => mret (false, p)
  | Some orig =>
      nexth ← IP6H_NEXTH orig;
      if negb (nexth =? IP6_NEXTH_HOPOPTS) then mret (false, p)
      else
        next_nexth ← pread8 orig IP6_HLEN;
        let hbh_len := HBH_OPT_HDR_LEN in
        orig_len ← IP6H_PLEN orig;
        let new_len := u16 (orig_len - hbh_len) in
        newp ← pbuf_alloc PBUF_RAW (IP6_HLEN + new_len) PBUF_RAM;
        match newp with
        | None => mret (false, p)
        | Some np =>
            hdr ← pread orig 0 IP6_HLEN;
            pwrite np 0 hdr;;
            IP6H_NEXTH_SET np next_nexth;;
            IP6H_PLEN_SET np new_len;;
            nd ← pb_node orig;
            rest ← pread orig (IP6_HLEN + hbh_len) (pb_tot_len (n_val nd) - IP6_HLEN - hbh_len);
            pwrite np IP6_HLEN rest;;
            pbuf_free_m orig;;
            mret (true, Some np)
        end
  end.

Definition dtn_update_or_add_custodian_option (p : option loc) (custodian : option ip6_addr)
  : M world (bool * option loc) :=
  match p, custodian with
  | Some orig, Some c =>
      nexth ← IP6H_NEXTH orig;
      if nexth =? IP6_NEXTH_HOPOPTS then
        ty ← pread8 orig (IP6_HLEN + 2);
        is_custody ← (if ty =? CUSTODY_OPTION_TYPE
                      then dl ← pread8 orig (IP6_HLEN + 3); mret (dl =? 16)
                      else mret false);
        if (is_custody : bool) then
          pwrite orig (IP6_HLEN + 4) (ip6_bytes c);;
          mret (true, p)
        else
          r ← dtn_strip_custodian_option p;
          if negb r.1 then mret (false, r.2)
          else dtn_add_custodian_option r.2 custodian
      else dtn_add_custodian_option p custodian
  | _, _ => mret (false, p)
  end.
End custody.

(** ** The packets the functions build *)

(** The IPv6 header with its next-header and length fields replaced. *)
Definition set_hdr (nexth plen : Z) (hdr : list Z) : list Z :=
  splice 4 (be16 plen) (splice 6 [nexth] hdr).

Definition custody_hbh (nexth : Z) (c : ip6_addr) : list Z :=
  hbh_bytes (mk_hbh nexth 2 CUSTODY_OPTION_TYPE 16 (ip6_bytes c) (replicate 4 0)).

(** The packet [bs] with a custody header for [c] pushed in front of its payload. *)
Definition with_hbh (c : ip6_addr) (bs : list Z) : list Z :=
  set_hdr 0 (hdr_plen bs + 24) (take 40 bs) ++ custody_hbh (hdr_nexth bs) c ++ drop 40 bs.

(** The packet with 24 bytes of hop-by-hop header removed. *)
Definition without_hbh (bs : list Z) : list Z :=
  set_hdr (byte_at 40 bs) (hdr_plen bs - 24) (take 40 bs) ++ drop 64 bs.

Lemma set_hdr_length n pl hdr : length hdr = 40%nat -> length (set_hdr n pl hdr) = 40%nat.
Proof. intros. unfold set_hdr. rewrite !length_splice; len. Qed.
Lemma custody_hbh_length n c : length (custody_hbh n c) = 24%nat.
Proof. done. Qed.
#[export] Hint Rewrite custody_hbh_length : len.

Lemma set_hdr_byte n pl hdr : is_byte n -> Forall is_byte hdr -> Forall is_byte (set_hdr n pl hdr).
Proof. intros. unfold set_hdr. auto 10 with ints. Qed.
Lemma custody_hbh_byte n c : is_byte n -> Forall is_byte (custody_hbh n c).
Proof.
  intros. unfold custody_hbh, hbh_bytes. rewrite !Forall_app. split_and!.
  - rewrite !Forall_cons. simpl. unfold CUSTODY_OPTION_TYPE, is_byte in *. split_and!; (done || lia).
  - apply ip6_bytes_byte.
  - apply Forall_replicate. unfold is_byte. lia.
Qed.

(** Writing header, length and next header into a fresh buffer. *)
Lemma built_header n pl hdr F :
  length hdr = 40%nat -> (40 <= length F)%nat ->
  splice 4 (be16 pl) (splice 6 [n] (splice 0 hdr F)) = set_hdr n pl hdr ++ drop 40 F.
Proof.
  intros Hh HF. unfold splice at 3. rewrite take_0, Hh. simpl.
  rewrite splice_app_l by (simpl; lia). rewrite splice_app_l; [done|]. len.
Qed.

Lemma hdr_plen_take bs : (40 <= length bs)%nat -> hdr_plen (take 40 bs) = hdr_plen bs.
Proof.
  intros. unfold hdr_plen. f_equal. f_equal.
  rewrite <-(take_drop 40 bs) at 2. rewrite slice_app_l; [done|]. len.
Qed.

(** What a header update leaves to be read back. *)
Lemma hdr_fields n pl hdr rest :
  length hdr = 40%nat -> 0 <= pl < 65536 ->
  hdr_nexth (set_hdr n pl hdr ++ rest) = n /\ hdr_plen (set_hdr n pl hdr ++ rest) = pl.
Proof.
  intros Hl Hp. unfold hdr_nexth, hdr_plen.
  do 40 (destruct hdr as [|? hdr]; [done|]). destruct hdr; [|done].
  split; [done|]. exact (be16_val pl Hp).
Qed.

(** A second update overwrites the first, and writing the old fields back
    restores the header. *)
Lemma set_hdr_set n pl n' pl' hdr :
  length hdr = 40%nat -> set_hdr n pl (set_hdr n' pl' hdr) = set_hdr n pl hdr.
Proof.
  intros Hl. do 40 (destruct hdr as [|? hdr]; [done|]). by destruct hdr.
Qed.
Lemma set_hdr_id hdr :
  length hdr = 40%nat -> Forall is_byte hdr ->
  set_hdr (hdr_nexth hdr) (hdr_plen hdr) hdr = hdr.
Proof.
  intros Hl Hb. unfold set_hdr. rewrite be16_plen by (done || lia).
  do 40 (destruct hdr as [|? hdr]; [done|]). by destruct hdr.
Qed.

Section with_hbh_facts.
Context (bs : list Z) (c : ip6_addr) (Hpkt : ip6_packet bs).
Context (Hroom : Z.of_nat (length bs) + 24 < 65536).

Lemma with_hbh_length : length (with_hbh c bs) = (length bs + 24)%nat.
Proof.
  destruct Hpkt as (?&?&?). unfold with_hbh.
  rewrite !length_app, set_hdr_length, custody_hbh_length; len.
Qed.

Lemma with_hbh_byte : Forall is_byte (with_hbh c bs).
Proof.
  destruct Hpkt as (?&?&?). unfold with_hbh. rewrite !Forall_app. split_and!.
  - apply set_hdr_byte; [by unfold is_byte|by apply Forall_take].
  - apply custody_hbh_byte, byte_at_byte. done.
  - by apply Forall_drop.
Qed.

Lemma with_hbh_fields :
  hdr_nexth (with_hbh c bs) = 0 /\ hdr_plen (with_hbh c bs) = hdr_plen bs + 24.
Proof. destruct Hpkt as (?&?&?). apply hdr_fields; [len|lia]. Qed.

Lemma with_hbh_packet : ip6_packet (with_hbh c bs).
Proof.
  pose proof with_hbh_length as Hl. destruct with_hbh_fields as [_ Hp].
  destruct Hpkt as (?&Hpl&?). split_and!; [lia|lia|apply with_hbh_byte].
Qed.

(** Bytes 40 to 63 are the custody header. *)
Lemma with_hbh_slice o n :
  (o + n <= 24)%nat ->
  slice (40 + o) n (with_hbh c bs) = slice o n (custody_hbh (hdr_nexth bs) c).
Proof.
  intros. destruct Hpkt as (?&?&?). unfold with_hbh.
  rewrite slice_app_r by (rewrite set_hdr_length; len).
  rewrite set_hdr_length by len. replace (40 + o - 40)%nat with o by lia.
  by apply slice_app_l.
Qed.

Lemma with_hbh_at o :
  (o < 24)%nat -> byte_at (40 + o) (with_hbh c bs) = byte_at o (custody_hbh (hdr_nexth bs) c).
Proof.
  intros. pose proof (with_hbh_slice o 1 ltac:(lia)) as Hs. pose proof with_hbh_length.
  destruct Hpkt as (?&?&?).
  rewrite !byte_at_slice in Hs by (rewrite ?custody_hbh_length; lia). congruence.
Qed.

(** Removing the pushed header gives the packet back, to the byte. *)
Lemma without_with_hbh : without_hbh (with_hbh c bs) = bs.
Proof.
  pose proof with_hbh_fields as [_ Hp]. unfold without_hbh. rewrite Hp.
  pose proof (with_hbh_at 0 ltac:(lia)) as Hn. change (40 + 0)%nat with 40%nat in Hn.
  rewrite Hn. clear Hn. destruct Hpkt as (?&?&?). unfold with_hbh.
  rewrite take_app_le, take_ge by (rewrite set_hdr_length; len).
  rewrite app_assoc, drop_app_ge by (rewrite length_app, set_hdr_length; len).
  rewrite length_app, set_hdr_length by len.
  rewrite set_hdr_set by len.
  change (byte_at 0 (custody_hbh (hdr_nexth bs) c)) with (hdr_nexth bs).
  replace (hdr_plen bs + 24 - 24) with (hdr_plen bs) by lia.
  rewrite <-(hdr_plen_take bs) by lia.
  replace (hdr_nexth bs) with (hdr_nexth (take 40 bs))
    by (rewrite <-(take_drop 40 bs) at 2; unfold hdr_nexth; rewrite byte_at_app_l; [done|len]).
  rewrite set_hdr_id by (try apply Forall_take; len || done).
  rewrite custody_hbh_length. change (64 - (40 + 24))%nat with 0%nat. rewrite drop_0.
  apply take_drop.
Qed.
End with_hbh_facts.

(** ** Effect of the operations *)

Definition del_pbuf (p : loc) (w : world) : world := set_pbufs (delete p) w.

(** The packet is one buffer with no other reference. *)
Definition owned (w : world) (p : loc) (b : pbuf) (bs : list Z) : Prop :=
  single (w_pbufs w) p b bs /\ pb_ref b = 1.

Ltac exec H := rewrite (bind_exec _ _ _ _ _ H).
Ltac exec_write H b' Hs Hb :=
  destruct H as (b' & ?Hexec & Hs & Hb); [| | |rewrite (bind_exec _ _ _ _ _ Hexec); clear Hexec].

Lemma ram_fits_small n : 0 <= n <= 65508 -> ram_fits PBUF_RAW n = true.
Proof.
  intros. unfold ram_fits. apply Z.ltb_lt. change (LWIP_MEM_ALIGN_SIZE PBUF_RAW) with 0.
  rewrite mem_align_eq by lia. zlia.
Qed.

Section operations.
Context `{Env}.
Implicit Types w : world.

(** The new buffer, filled in three steps, seen from the caller. *)
Definition swapped (p np : loc) (b : pbuf) (w : world) : world :=
  del_pbuf p (put_pbuf np b (add_ticks 1 w)).

Lemma swapped_owned w p np b bs :
  np <> p -> pb_ref b = 1 -> single (<[np := Node b None]> (w_pbufs w)) np b bs ->
  owned (swapped p np b w) np b bs.
Proof. intros. split; [by apply single_delete_ne|done]. Qed.

Lemma pbuf_alloc_exec n w :
  0 <= n <= 65508 -> env_mem_malloc (w_tick w) = true ->
  let np := new_loc (w_pbufs w) in
  let b := ram_pbuf (w_tick w) PBUF_RAW n in
  pbuf_alloc PBUF_RAW n PBUF_RAM w = Ret (Some np, put_pbuf np b (add_ticks 1 w)) /\
  single (w_pbufs (put_pbuf np b (add_ticks 1 w))) np b (seg_bytes b) /\
  Z.of_nat (length (seg_bytes b)) = n.
Proof.
  intros Hn Hm np b. split_and!.
  - rewrite pbuf_alloc_ram_eq by (unfold PBUF_RAW, PBUF_IP, PBUF_LINK_HLEN, PBUF_IP_HLEN; lia).
    by rewrite ram_fits_small, Hm by lia.
  - apply (alloc_single (w_tick w) PBUF_RAW n (add_ticks 1 w)); unfold PBUF_RAW; lia.
  - apply ram_pbuf_length; unfold PBUF_RAW; lia.
Qed.

Lemma pbuf_alloc_exec_fail n w :
  0 <= n <= 65508 -> env_mem_malloc (w_tick w) = false ->
  pbuf_alloc PBUF_RAW n PBUF_RAM w = Ret (None, add_ticks 1 w).
Proof.
  intros Hn Hm.
  rewrite pbuf_alloc_ram_eq by (unfold PBUF_RAW, PBUF_IP, PBUF_LINK_HLEN, PBUF_IP_HLEN; lia).
  by rewrite ram_fits_small, Hm by lia.
Qed.

Lemma new_loc_ne w p b bs : single (w_pbufs w) p b bs -> new_loc (w_pbufs w) <> p.
Proof. intros (Hp & _) <-. rewrite new_loc_fresh in Hp. done. Qed.

(** The header is copied and patched in the new buffer. *)
Lemma copy_header_exec w p b bs np b0 F n pl :
  single (w_pbufs w) p b bs -> single (w_pbufs w) np b0 F ->
  (40 <= length bs)%nat -> (40 <= length F)%nat -> is_byte n -> Forall is_byte bs ->
  exists b3,
    (forall A (k : M world A),
       (hdr ← pread p 0 IP6_HLEN; pwrite np 0 hdr;; IP6H_NEXTH_SET np n;;
        IP6H_PLEN_SET np pl;; k) w = k (put_pbuf np b3 w)) /\
    single (w_pbufs (put_pbuf np b3 w)) np b3 (set_hdr n pl (take 40 bs) ++ drop 40 F) /\
    refilled b0 b3.
Proof.
  intros Hs Hn Hl HF Hnb Hb. unfold IP6_HLEN, IP6H_NEXTH_SET, IP6H_PLEN_SET, OFF_NEXTH, OFF_PLEN.
  pose proof (pread_exec _ _ _ _ 0 40 Hs ltac:(lia) ltac:(lia) ltac:(lia)) as Hrd.
  change (slice (Z.to_nat 0) (Z.to_nat 40) bs) with (take 40 bs) in Hrd.
  destruct (pwrite_exec _ _ _ _ 0 (take 40 bs) Hn) as (b1 & He1 & Hn1 & Hb1);
    [by apply Forall_take|lia|len|].
  destruct (pwrite_exec _ _ _ _ 6 [n] Hn1) as (b2 & He2 & Hn2 & Hb2);
    [by apply Forall_singleton|lia|len|].
  destruct (pwrite_exec _ _ _ _ 4 (be16 pl) Hn2) as (b3 & He3 & Hn3 & Hb3);
    [apply be16_byte|lia|len|].
  exists b3. split_and!.
  - intros A k. exec Hrd. exec He1. exec He2. exec He3. by rewrite !put_pbuf_put.
  - rewrite !put_pbuf_put in Hn3.
    change (Z.to_nat 0) with 0%nat in Hn3. change (Z.to_nat 6) with 6%nat in Hn3.
    change (Z.to_nat 4) with 4%nat in Hn3. rewrite built_header in Hn3; [done|len|lia].
  - eauto with ints.
Qed.

(** The old packet is released and the new one takes its place. *)
Lemma replace_exec w p b bs np b' (r : bool * option loc) :
  single (w_pbufs w) p b bs -> pb_ref b = 1 -> np <> p ->
  (pbuf_free_m p;; mret r) (put_pbuf np b' (add_ticks 1 w)) = Ret (r, swapped p np b' w).
Proof.
  intros Hs Hr Hne.
  assert (Hs' : single (w_pbufs (put_pbuf np b' (add_ticks 1 w))) p b bs) by (by apply single_insert_ne).
  by exec (pbuf_free_m_exec _ _ _ _ Hs' Hr).
Qed.

Lemma add_custodian_exec w p b bs c :
  owned w p b bs -> ip6_packet bs -> Z.of_nat (length bs) <= 65484 ->
  env_mem_malloc (w_tick w) = true ->
  exists np b', dtn_add_custodian_option (Some p) (Some c) w
                  = Ret ((true, Some np), swapped p np b' w) /\
    owned (swapped p np b' w) np b' (with_hbh c bs) /\ np = new_loc (w_pbufs w).
Proof.
  intros [Hs Hr] Hpk Hlen Hm. pose proof Hpk as (Hl & Hpl & Hb).
  pose proof (new_loc_ne _ _ _ _ Hs) as Hne.
  unfold dtn_add_custodian_option.
  exec (IP6H_NEXTH_exec _ _ _ _ Hs Hl). exec (IP6H_PLEN_exec _ _ _ _ Hs Hl).
  unfold HBH_OPT_HDR_LEN. rewrite u16_small by lia.
  replace (IP6_HLEN + (hdr_plen bs + 24)) with (Z.of_nat (length bs) + 24) by (unfold IP6_HLEN; lia).
  destruct (pbuf_alloc_exec (Z.of_nat (length bs) + 24) w) as (Ha & Hn & HF); [lia|done|].
  exec Ha. clear Ha. set (np := new_loc (w_pbufs w)) in *. set (b0 := ram_pbuf _ _ _) in *.
  assert (Hs0 : forall b', single (w_pbufs (put_pbuf np b' (add_ticks 1 w))) p b bs)
    by (intros; by apply single_insert_ne).
  destruct (copy_header_exec (put_pbuf np b0 (add_ticks 1 w)) p b bs np b0 (seg_bytes b0)
    IP6_NEXTH_HOPOPTS (hdr_plen bs + 24)) as (b3 & He & Hn3 & Hb3);
    [apply Hs0|exact Hn|lia|lia|by unfold is_byte|done|rewrite He; clear He].
  rewrite put_pbuf_put in *. unfold IP6_HLEN.
  change (hbh_bytes _) with (custody_hbh (hdr_nexth bs) c).
  exec_write (pwrite_exec _ _ _ _ 40 (custody_hbh (hdr_nexth bs) c) Hn3) b4 Hn4 Hb4;
    [by apply custody_hbh_byte, byte_at_byte|lia|rewrite length_app, set_hdr_length; len|].
  rewrite put_pbuf_put in *. rewrite splice_app_r in Hn4 by (rewrite set_hdr_length; len).
  exec (pb_node_exec _ _ _ _ (Hs0 b4)). cbn [n_val].
  rewrite (proj1 (proj2 (proj2 Hs))), <-(single_length _ _ _ _ Hs).
  exec (pread_exec _ _ _ _ 40 (Z.of_nat (length bs) - 40) (Hs0 b4) ltac:(lia) ltac:(lia) ltac:(lia)).
  replace (slice _ _ bs) with (drop 40 bs) by (unfold slice; rewrite take_ge; [done|len]).
  exec_write (pwrite_exec _ _ _ _ (40 + 24) (drop 40 bs) Hn4) b5 Hn5 Hb5;
    [by apply Forall_drop|lia|rewrite !length_app, set_hdr_length; len|].
  rewrite put_pbuf_put in *. rewrite (replace_exec _ _ _ _ _ _ _ Hs Hr Hne).
  exists np, b5. split_and!; [done| |done].
  apply swapped_owned; [done|by destruct (refilled_fields b0 b5) as [-> _]; eauto with ints|].
  replace (with_hbh c bs) with (splice (Z.to_nat (40 + 24)) (drop 40 bs)
    (set_hdr 0 (hdr_plen bs + 24) (take 40 bs) ++
     splice 0 (custody_hbh (hdr_nexth bs) c) (drop 40 (seg_bytes b0)))); [exact Hn5|].
  unfold with_hbh. rewrite splice_0, app_assoc.
  rewrite splice_app_r by (rewrite length_app, set_hdr_length; len).
  rewrite splice_0_all by len. by rewrite <-app_assoc.
Qed.
Lemma add_custodian_nomem w p b bs c :
  owned w p b bs -> ip6_packet bs -> Z.of_nat (length bs) <= 65484 ->
  env_mem_malloc (w_tick w) = false ->
  dtn_add_custodian_option (Some p) (Some c) w = Ret ((false, Some p), add_ticks 1 w).
Proof.
  intros [Hs Hr] (Hl & Hpl & Hb) Hlen Hm. unfold dtn_add_custodian_option.
  exec (IP6H_NEXTH_exec _ _ _ _ Hs Hl). exec (IP6H_PLEN_exec _ _ _ _ Hs Hl).
  unfold HBH_OPT_HDR_LEN, IP6_HLEN. rewrite u16_small by lia.
  by exec (pbuf_alloc_exec_fail (40 + (hdr_plen bs + 24)) w ltac:(lia) Hm).
Qed.

Lemma strip_custodian_nomem w p b bs :
  owned w p b bs -> ip6_packet bs -> (64 <= length bs)%nat -> hdr_nexth bs = 0 ->
  Z.of_nat (length bs) <= 65508 -> env_mem_malloc (w_tick w) = false ->
  dtn_strip_custodian_option (Some p) w = Ret ((false, Some p), add_ticks 1 w).
Proof.
  intros [Hs Hr] (Hl & Hpl & Hb) Hl64 Hnx Hlen Hm. unfold dtn_strip_custodian_option.
  exec (IP6H_NEXTH_exec _ _ _ _ Hs Hl). rewrite Hnx. cbn [negb Z.eqb IP6_NEXTH_HOPOPTS].
  exec (pread8_exec _ _ _ _ IP6_HLEN Hs ltac:(unfold IP6_HLEN; lia)).
  exec (IP6H_PLEN_exec _ _ _ _ Hs Hl). unfold HBH_OPT_HDR_LEN, IP6_HLEN. rewrite u16_small by lia.
  by exec (pbuf_alloc_exec_fail (40 + (hdr_plen bs - 24)) w ltac:(lia) Hm).
Qed.

Lemma strip_custodian_none w p b bs :
  single (w_pbufs w) p b bs -> (40 <= length bs)%nat -> hdr_nexth bs <> 0 ->
  dtn_strip_custodian_option (Some p) w = Ret ((false, Some p), w).
Proof.
  intros Hs Hl Hn. unfold dtn_strip_custodian_option.
  exec (IP6H_NEXTH_exec _ _ _ _ Hs Hl). unfold IP6_NEXTH_HOPOPTS.
  by rewrite (proj2 (Z.eqb_neq _ _) Hn).
Qed.

Lemma strip_custodian_exec w p b bs :
  owned w p b bs -> ip6_packet bs -> (64 <= length bs)%nat -> hdr_nexth bs = 0 ->
  Z.of_nat (length bs) <= 65508 -> env_mem_malloc (w_tick w) = true ->
  exists np b', dtn_strip_custodian_option (Some p) w
                  = Ret ((true, Some np), swapped p np b' w) /\
    owned (swapped p np b' w) np b' (without_hbh bs) /\ np = new_loc (w_pbufs w).
Proof.
  intros [Hs Hr] (Hl & Hpl & Hb) Hl64 Hnx Hlen Hm.
  pose proof (new_loc_ne _ _ _ _ Hs) as Hne. unfold dtn_strip_custodian_option.
  exec (IP6H_NEXTH_exec _ _ _ _ Hs Hl). rewrite Hnx. cbn [negb Z.eqb IP6_NEXTH_HOPOPTS].
  exec (pread8_exec _ _ _ _ IP6_HLEN Hs ltac:(unfold IP6_HLEN; lia)).
  exec (IP6H_PLEN_exec _ _ _ _ Hs Hl). unfold HBH_OPT_HDR_LEN. rewrite u16_small by lia.
  replace (IP6_HLEN + (hdr_plen bs - 24)) with (Z.of_nat (length bs) - 24) by (unfold IP6_HLEN; lia).
  destruct (pbuf_alloc_exec (Z.of_nat (length bs) - 24) w) as (Ha & Hn & HF); [lia|done|].
  exec Ha. clear Ha. set (np := new_loc (w_pbufs w)) in *. set (b0 := ram_pbuf _ _ _) in *.
  assert (Hs0 : forall b', single (w_pbufs (put_pbuf np b' (add_ticks 1 w))) p b bs)
    by (intros; by apply single_insert_ne).
  destruct (copy_header_exec (put_pbuf np b0 (add_ticks 1 w)) p b bs np b0 (seg_bytes b0)
    (byte_at (Z.to_nat IP6_HLEN) bs) (hdr_plen bs - 24)) as (b3 & He & Hn3 & Hb3);
    [apply Hs0|exact Hn|lia|lia|by apply byte_at_byte|done|rewrite He; clear He].
  rewrite put_pbuf_put in *. unfold IP6_HLEN in *.
  exec (pb_node_exec _ _ _ _ (Hs0 b3)). cbn [n_val].
  rewrite (proj1 (proj2 (proj2 Hs))), <-(single_length _ _ _ _ Hs).
  exec (pread_exec _ _ _ _ (40 + 24) (Z.of_nat (length bs) - 40 - 24) (Hs0 b3) ltac:(lia) ltac:(lia) ltac:(lia)).
  replace (slice _ _ bs) with (drop 64 bs) by (unfold slice; rewrite take_ge; [done|len]).
  exec_write (pwrite_exec _ _ _ _ 40 (drop 64 bs) Hn3) b4 Hn4 Hb4;
    [by apply Forall_drop|lia|rewrite !length_app, set_hdr_length; len|].
  rewrite put_pbuf_put in *. rewrite (replace_exec _ _ _ _ _ _ _ Hs Hr Hne).
  exists np, b4. split_and!; [done| |done].
  apply swapped_owned; [done|by destruct (refilled_fields b0 b4) as [-> _]; eauto with ints|].
  rewrite splice_app_r in Hn4 by (rewrite set_hdr_length; len).
  rewrite splice_0_all in Hn4 by len. exact Hn4.
Qed.

(** Reading the option of a packet that starts with a hop-by-hop header. *)
Definition custody_option (bs : list Z) : option ip6_addr :=
  if (byte_at 42 bs =? CUSTODY_OPTION_TYPE) && (byte_at 43 bs =? 16)
  then Some (ip6_of_bytes (slice 44 16 bs)) else None.

Lemma extract_hbh_exec w p b bs out fuel :
  single (w_pbufs w) p b bs -> (64 <= length bs)%nat -> hdr_nexth bs = 0 -> (0 < fuel)%nat ->
  extract_with_fuel fuel (Some p) (Some out) w =
    Ret (match custody_option bs with
         | Some c => (true, Some (ip6_addr_set_zone (zone out) c))
         | None => (false, Some out)
         end, w).
Proof.
  intros Hs Hl Hn Hf. unfold extract_with_fuel, custody_option.
  exec (IP6H_NEXTH_exec _ _ _ _ Hs ltac:(lia)). rewrite Hn.
  destruct fuel as [|fuel]; [lia|].
  assert (Hlp : loop (S fuel) (extract_body p) (0, IP6_HLEN) w = Ret ((0, IP6_HLEN), w)) by done.
  exec Hlp. cbn [negb Z.eqb IP6_NEXTH_HOPOPTS]. unfold IP6_HLEN.
  exec (pread8_exec _ _ _ _ (40 + 2) Hs ltac:(lia)).
  change (Z.to_nat (40 + 2)) with 42%nat.
  destruct (Z.eqb_spec (byte_at 42 bs) CUSTODY_OPTION_TYPE); cbn [negb andb]; [|done].
  exec (pread8_exec _ _ _ _ (40 + 3) Hs ltac:(lia)).
  change (Z.to_nat (40 + 3)) with 43%nat.
  destruct (Z.eqb_spec (byte_at 43 bs) 16); cbn [negb andb]; [|done].
  by exec (pread_exec _ _ _ _ (40 + 4) 16 Hs ltac:(lia) ltac:(lia) ltac:(lia)).
Qed.

Lemma custody_option_with_hbh c bs :
  ip6_packet bs -> Z.of_nat (length bs) + 24 < 65536 -> ip6_wf c ->
  custody_option (with_hbh c bs) = Some (ip6_addr_set_zone 0 c).
Proof.
  intros Hpk Hl Hc. unfold custody_option.
  pose proof (with_hbh_at bs c Hpk 2 ltac:(lia)) as H2.
  pose proof (with_hbh_at bs c Hpk 3 ltac:(lia)) as H3.
  pose proof (with_hbh_slice bs c Hpk 4 16 ltac:(lia)) as H4.
  change (40 + 2)%nat with 42%nat in H2. change (40 + 3)%nat with 43%nat in H3.
  change (40 + 4)%nat with 44%nat in H4. rewrite H2, H3, H4. simpl.
  f_equal. by apply ip6_of_ip6_bytes.
Qed.

(** Overwriting the custodian in place. *)
Lemma with_hbh_update c c' bs :
  ip6_packet bs -> splice 44 (ip6_bytes c') (with_hbh c bs) = with_hbh c' bs.
Proof.
  intros (Hl & _ & _). unfold with_hbh.
  assert (Hh : length (set_hdr 0 (hdr_plen bs + 24) (take 40 bs)) = 40%nat)
    by (apply set_hdr_length; len).
  change (custody_hbh (hdr_nexth bs) c)
    with ([hdr_nexth bs; 2; CUSTODY_OPTION_TYPE; 16] ++ ip6_bytes c ++ replicate 4 0).
  change (custody_hbh (hdr_nexth bs) c')
    with ([hdr_nexth bs; 2; CUSTODY_OPTION_TYPE; 16] ++ ip6_bytes c' ++ replicate 4 0).
  rewrite <-!(app_assoc _ _ (drop 40 bs)), !(app_assoc (set_hdr _ _ _)).
  rewrite splice_app_r by (rewrite length_app, Hh; done).
  by rewrite splice_app_l, splice_0_all by done.
Qed.

Lemma update_in_place_exec w p b bs c c' :
  owned w p b (with_hbh c bs) -> ip6_packet bs -> Z.of_nat (length bs) + 24 < 65536 ->
  exists b', dtn_update_or_add_custodian_option (Some p) (Some c') w
               = Ret ((true, Some p), put_pbuf p b' w) /\
    owned (put_pbuf p b' w) p b' (with_hbh c' bs).
Proof.
  intros [Hs Hr] Hpk Hroom. pose proof (with_hbh_length bs c Hpk) as Hwl.
  pose proof (with_hbh_fields bs c Hpk Hroom) as [Hnx _].
  pose proof (with_hbh_at bs c Hpk 2 ltac:(lia)) as H2.
  pose proof (with_hbh_at bs c Hpk 3 ltac:(lia)) as H3.
  pose proof Hpk as (Hl & _ & _). unfold dtn_update_or_add_custodian_option.
  exec (IP6H_NEXTH_exec _ _ _ _ Hs ltac:(lia)). rewrite Hnx.
  cbn [Z.eqb IP6_NEXTH_HOPOPTS]. unfold IP6_HLEN.
  exec (pread8_exec _ _ _ _ (40 + 2) Hs ltac:(lia)).
  change (Z.to_nat (40 + 2)) with (40 + 2)%nat. rewrite H2.
  cbn [byte_at nth custody_hbh hbh_bytes app opt_type CUSTODY_OPTION_TYPE].
  change (CUSTODY_OPTION_TYPE =? CUSTODY_OPTION_TYPE) with true. cbv iota.
  assert (E : (dl ← pread8 p (40 + 3); mret (dl =? 16)) w = Ret (true, w)).
  { exec (pread8_exec _ _ _ _ (40 + 3) Hs ltac:(lia)).
    change (Z.to_nat (40 + 3)) with (40 + 3)%nat. by rewrite H3. }
  exec E. exec_write (pwrite_exec _ _ _ _ (40 + 4) (ip6_bytes c') Hs) b' Hs' Hb';
    [apply ip6_bytes_byte|lia|rewrite ip6_bytes_length; lia|].
  exists b'. split; [done|]. split; [|by destruct (refilled_fields _ _ Hb') as [-> _]].
  change (Z.to_nat (40 + 4)) with 44%nat in Hs'.
  by rewrite with_hbh_update in Hs' by done.
Qed.
End operations.

(** ** Runs that leave the buffer or never end *)

Lemma pwrite_oob w p nd off new :
  w_pbufs w !! p = Some nd -> 0 <= pb_payload (n_val nd) -> 0 <= off ->
  Z.of_nat (length (pb_buf (n_val nd))) < pb_payload (n_val nd) + off + Z.of_nat (length new) ->
  pwrite p off new w = Stuck.
Proof.
  intros Hp Hpl Ho Hl. unfold pwrite, pb_node, get, lift, mbind, M_bind. simpl. rewrite Hp. simpl.
  unfold payload_wr. rewrite wr_oob by lia. done.
Qed.

Section divergence.
Context (w : world) (p : loc) (b : pbuf) (q : option loc).
Context (Hp : w_pbufs w !! p = Some (Node b q)).

(** Bytes that can be read from the payload pointer on. *)
Definition room : Z := Z.of_nat (length (pb_buf b)) - pb_payload b.

Lemma pread8_run off :
  pread8 p off w = Stuck \/
  (off < room /\ exists v, pread8 p off w = Ret (v, w)).
Proof.
  unfold pread8, pread, pb_node, get, lift, mbind, M_bind. simpl. rewrite Hp. simpl.
  unfold payload_rd, rd, room.
  destruct (Z.leb_spec (pb_payload b + off + 1) (Z.of_nat (length (pb_buf b)))).
  - destruct (_ && _ && _); [right|by left]. split; [lia|]. eauto.
  - rewrite andb_false_r. by left.
Qed.

Lemma extract_body_run n ptr :
  extract_body p (n, ptr) w = Stuck \/
  extract_body p (n, ptr) w = Ret (inr (n, ptr), w) \/
  (ptr < room /\ exists n' e, 0 <= e /\
     extract_body p (n, ptr) w = Ret (inl (n', ptr + e), w) /\
     (e = 0 -> forall m, extract_body p (m, ptr) w = Ret (inr (m, ptr), w) \/
                         extract_body p (m, ptr) w = Ret (inl (n', ptr), w))).
Proof.
  unfold extract_body. destruct ((n =? _) || _) eqn:E; [by right; left|].
  destruct (pread8_run ptr) as [H1|(Hlt & v1 & H1)]; [left; by rewrite (bind_stuck _ _ _ H1)|].
  destruct (pread8_run (ptr + 1)) as [H2|(_ & v2 & H2)].
  { left. rewrite (bind_exec _ _ _ _ _ H1). by rewrite (bind_stuck _ _ _ H2). }
  right. right. split; [done|]. exists v1, (u8 ((v2 + 1) * 8)). split_and!.
  - apply u8_range.
  - exec H1. by exec H2.
  - intros He m. destruct ((m =? IP6_NEXTH_HOPOPTS) || (m =? IP6_NEXTH_NONE)); [by left|right].
    exec H1. exec H2. by rewrite He, Z.add_0_r.
Qed.

(** Once the walk has gone on for as many rounds as there are bytes it goes
    on for ever. *)
Lemma extract_loop_hang fuel n ptr :
  0 <= ptr -> (Z.to_nat (room - ptr) + 1 < fuel)%nat ->
  loop fuel (extract_body p) (n, ptr) w = Hang ->
  forall fuel', loop fuel' (extract_body p) (n, ptr) w = Hang.
Proof.
  revert n ptr. induction fuel as [|fuel IH]; intros n ptr Hptr Hf Hh fuel'; [lia|].
  destruct fuel' as [|fuel']; [done|]. rewrite loop_S in *.
  destruct (extract_body_run n ptr) as [E|[E|(Hlt & n' & e & He & E & Hz)]].
  - rewrite (bind_stuck _ _ _ E) in Hh. done.
  - rewrite (bind_exec _ _ _ _ _ E) in Hh. done.
  - rewrite (bind_exec _ _ _ _ _ E) in Hh. rewrite (bind_exec _ _ _ _ _ E).
    destruct (Z.eq_dec e 0) as [->|Hne].
    + rewrite Z.add_0_r in *. destruct fuel as [|fuel]; [lia|].
      destruct (Hz eq_refl n') as [E'|E']; [|by apply loop_hang].
      rewrite loop_S, (bind_exec _ _ _ _ _ E') in Hh. done.
    + apply IH; [lia|lia|done].
Qed.
End divergence.

(** The first bytes after the IPv6 header make the walk stand still. *)
Definition walk_stalls (bs : list Z) : Prop :=
  hdr_nexth bs <> 0 /\ hdr_nexth bs <> 59 /\ byte_at 40 bs <> 0 /\ byte_at 40 bs <> 59 /\
  (byte_at 41 bs + 1) mod 32 = 0.

Lemma extract_stalls w p b bs out :
  single (w_pbufs w) p b bs -> (42 <= length bs)%nat -> walk_stalls bs ->
  forall fuel, extract_with_fuel fuel (Some p) (Some out) w = Hang.
Proof.
  intros Hs Hl (Hn1 & Hn2 & H1 & H2 & Hm) fuel. unfold extract_with_fuel.
  exec (IP6H_NEXTH_exec _ _ _ _ Hs ltac:(lia)). apply bind_hang.
  assert (Hb : forall n, n <> 0 -> n <> 59 ->
    extract_body p (n, IP6_HLEN) w = Ret (inl (byte_at 40 bs, IP6_HLEN), w)).
  { intros n Hn0 Hn59. unfold extract_body, IP6_NEXTH_HOPOPTS, IP6_NEXTH_NONE.
    rewrite (proj2 (Z.eqb_neq n 0)), (proj2 (Z.eqb_neq n 59)) by done. simpl.
    exec (pread8_exec _ _ _ _ IP6_HLEN Hs ltac:(unfold IP6_HLEN; lia)).
    exec (pread8_exec _ _ _ _ (IP6_HLEN + 1) Hs ltac:(unfold IP6_HLEN; lia)).
    change (Z.to_nat IP6_HLEN) with 40%nat. change (Z.to_nat (IP6_HLEN + 1)) with 41%nat.
    replace (u8 _) with 0 by zlia. by rewrite Z.add_0_r. }
  destruct fuel as [|fuel]; [done|]. rewrite loop_S. exec (Hb _ Hn1 Hn2).
  apply loop_hang. by apply Hb.
Qed.

(** ** The walk on the bytes of a packet

    [custodian_in bs] is what the walk finds in the bytes of the packet
    alone: an address, no custodian, or a failure to answer (the walk leaves
    the packet or does not end). *)

Definition byte_of (bs : list Z) (i : Z) : outcome Z := deref (bs !! Z.to_nat i).

Definition walk_body (bs : list Z) (st : Z * Z) : outcome (Z * Z + Z * Z) :=
  let '(nexth, ptr) := st in
  if (nexth =? IP6_NEXTH_HOPOPTS) || (nexth =? IP6_NEXTH_NONE) then Ret (inr st)
  else
    n ← byte_of bs ptr;
    e ← byte_of bs (ptr + 1);
    Ret (inl (n, ptr + u8 ((e + 1) * 8))).

Definition custodian_in (bs : list Z) : outcome (option (list Z)) :=
  r ← oloop extract_fuel (walk_body bs) (hdr_nexth bs, IP6_HLEN);
  if negb (r.1 =? IP6_NEXTH_HOPOPTS) then Ret None
  else
    ty ← byte_of bs (r.2 + 2);
    if negb (ty =? CUSTODY_OPTION_TYPE) then Ret None
    else
      dl ← byte_of bs (r.2 + 3);
      if negb (dl =? 16) then Ret None
      else a ← rd (r.2 + 4) 16 bs; Ret (Some a).

(** The bytes that can be read from the payload pointer on: those of the packet,
    and in fact those of the buffer up to its end, whatever they are. *)
Definition readable (w : world) (p : loc) (m : list Z) : Prop :=
  forall off n, 0 <= off -> 0 <= n -> off + n <= Z.of_nat (length m) ->
    pread p off n w = Ret (slice (Z.to_nat off) (Z.to_nat n) m, w).
Definition behind (b : pbuf) : list Z := drop (Z.to_nat (pb_payload b)) (pb_buf b).

Lemma single_readable w p b bs : single (w_pbufs w) p b bs -> readable w p bs.
Proof. intros Hs off n ? ? ?. by apply (pread_exec p b). Qed.

Lemma behind_readable w p b bs : single (w_pbufs w) p b bs -> readable w p (behind b).
Proof.
  intros Hs off n Ho Hn Hl. unfold pread. exec (pb_node_exec _ _ _ _ Hs). destruct Hs as (_ & Hb & _ & _).
  unfold seg_ok in Hb. unfold behind in *. rewrite length_drop in Hl. unfold lift, payload_rd. simpl.
  rewrite rd_ok by lia. unfold slice. rewrite drop_drop. do 4 f_equal. lia.
Qed.

Lemma behind_prefix w p b bs : single (w_pbufs w) p b bs -> exists rest, behind b = bs ++ rest.
Proof.
  intros (_ & _ & _ & <-). unfold behind, seg_bytes, slice. eexists. symmetry. apply take_drop.
Qed.

Section walk.
Context (w : world) (p : loc) (bs : list Z) (Hs : readable w p bs).

Lemma byte_of_exec i v : 0 <= i -> byte_of bs i = Ret v -> pread8 p i w = Ret (v, w).
Proof.
  unfold byte_of. intros Hi E. destruct (bs !! Z.to_nat i) as [x|] eqn:El; [|done].
  injection E as ->. pose proof (lookup_lt_Some _ _ _ El).
  unfold pread8. exec (Hs i 1 ltac:(lia) ltac:(lia) ltac:(lia)). change (Z.to_nat 1) with 1%nat.
  rewrite byte_at_slice by lia. unfold byte_at. by rewrite (nth_lookup_Some _ _ _ _ El).
Qed.

Lemma nexth_exec : (40 <= length bs)%nat -> IP6H_NEXTH p w = Ret (hdr_nexth bs, w).
Proof.
  intros Hl. apply byte_of_exec; [done|]. unfold byte_of, hdr_nexth, byte_at, OFF_NEXTH. change (Z.to_nat 6) with 6%nat.
  destruct (lookup_lt_is_Some_2 bs 6) as [x Hx]; [lia|]. by rewrite Hx, (nth_lookup_Some _ _ _ _ Hx).
Qed.

Lemma walk_body_exec n ptr r :
  0 <= ptr -> walk_body bs (n, ptr) = Ret r -> extract_body p (n, ptr) w = Ret (r, w).
Proof.
  intros Hp. unfold walk_body, extract_body. destruct (_ || _); [by intros [= <-]|].
  intros (v & E1 & (e & E2 & [= <-])%obind_ret)%obind_ret.
  exec (byte_of_exec _ _ Hp E1). by exec (byte_of_exec (ptr + 1) _ ltac:(lia) E2).
Qed.

Lemma walk_ptr n ptr n' ptr' : walk_body bs (n, ptr) = Ret (inl (n', ptr')) -> ptr <= ptr'.
Proof.
  unfold walk_body. destruct (_ || _); [done|].
  intros (v & E1 & (e & E2 & [= _ <-])%obind_ret)%obind_ret.
  pose proof (u8_range ((e + 1) * 8)). lia.
Qed.
Lemma walk_exit n ptr r : walk_body bs (n, ptr) = Ret (inr r) -> r = (n, ptr).
Proof.
  unfold walk_body. destruct (_ || _); [by intros [= <-]|].
  intros (v & E1 & (e & E2 & [=])%obind_ret)%obind_ret.
Qed.

Lemma walk_loop_exec fuel n ptr r :
  0 <= ptr -> oloop fuel (walk_body bs) (n, ptr) = Ret r ->
  loop fuel (extract_body p) (n, ptr) w = Ret (r, w) /\ 0 <= r.2.
Proof.
  revert n ptr. induction fuel as [|fuel IH]; intros n ptr Hp E; [done|].
  rewrite oloop_S in E. apply obind_ret in E as (x & Hx & E). rewrite loop_S.
  exec (walk_body_exec _ _ _ Hp Hx). destruct x as [[n' ptr']|x].
  - apply IH; [|done]. apply walk_ptr in Hx. lia.
  - injection E as <-. apply walk_exit in Hx as ->. done.
Qed.

Lemma extract_exec out r :
  (40 <= length bs)%nat -> custodian_in bs = Ret r ->
  dtn_extract_custodian_option (Some p) (Some out) w =
    Ret (match r with
         | Some a => (true, Some (ip6_addr_set_zone (zone out) (ip6_of_bytes a)))
         | None => (false, Some out)
         end, w).
Proof.
  intros Hl. unfold custodian_in, dtn_extract_custodian_option, extract_with_fuel.
  intros ([n ptr] & Hw & E)%obind_ret. apply walk_loop_exec in Hw as [Hw Hp]; [|done].
  exec (nexth_exec Hl). exec Hw. cbn [fst snd] in *.
  destruct (negb (n =? _)); [by injection E as <-|].
  apply obind_ret in E as (ty & Et & E). exec (byte_of_exec (ptr + 2) _ ltac:(lia) Et).
  destruct (negb (ty =? _)); [by injection E as <-|].
  apply obind_ret in E as (dl & Ed & E). exec (byte_of_exec (ptr + 3) _ ltac:(lia) Ed).
  destruct (negb (dl =? _)); [by injection E as <-|].
  apply obind_ret in E as (a & Ea & [= <-]).
  assert (Hi : ptr + 4 + 16 <= Z.of_nat (length bs)).
  { destruct (Z.le_gt_cases (ptr + 4 + 16) (Z.of_nat (length bs))); [done|].
    rewrite rd_oob in Ea by lia. done. }
  rewrite rd_ok in Ea by lia. injection Ea as <-.
  by exec (Hs (ptr + 4) 16 ltac:(lia) ltac:(lia) ltac:(lia)).
Qed.

(** A walk that comes back to where it was never ends. *)
Lemma walk_stall_exec n ptr :
  0 <= ptr -> walk_body bs (n, ptr) = Ret (inl (n, ptr)) ->
  forall fuel, loop fuel (extract_body p) (n, ptr) w = Hang.
Proof. intros Hp E fuel. apply loop_hang. by apply walk_body_exec. Qed.

Lemma walk_step_hang n ptr n' ptr' :
  0 <= ptr -> walk_body bs (n, ptr) = Ret (inl (n', ptr')) ->
  (forall fuel, loop fuel (extract_body p) (n', ptr') w = Hang) ->
  forall fuel, loop fuel (extract_body p) (n, ptr) w = Hang.
Proof.
  intros Hp E Hh [|fuel]; [done|]. rewrite loop_S. by exec (walk_body_exec _ _ _ Hp E).
Qed.

Lemma extract_walk_hang out :
  (40 <= length bs)%nat ->
  (forall fuel, loop fuel (extract_body p) (hdr_nexth bs, IP6_HLEN) w = Hang) ->
  forall fuel, extract_with_fuel fuel (Some p) (Some out) w = Hang.
Proof.
  intros Hl Hh fuel. unfold extract_with_fuel. exec (nexth_exec Hl).
  apply bind_hang. apply Hh.
Qed.
End walk.

(** More memory behind the packet does not change an answer. *)
Lemma byte_of_app bs rest i v : byte_of bs i = Ret v -> byte_of (bs ++ rest) i = Ret v.
Proof.
  unfold byte_of. destruct (bs !! Z.to_nat i) as [x|] eqn:E; [|done]. by rewrite (lookup_app_l_Some _ _ _ _ E).
Qed.

Lemma walk_app bs rest fuel st r :
  oloop fuel (walk_body bs) st = Ret r -> oloop fuel (walk_body (bs ++ rest)) st = Ret r.
Proof.
  revert st. induction fuel as [|fuel IH]; intros [n ptr] E; [done|].
  rewrite oloop_S in E. apply obind_ret in E as (x & Hx & E).
  assert (Hx' : walk_body (bs ++ rest) (n, ptr) = Ret x).
  { unfold walk_body in *. destruct (_ || _); [done|]. apply obind_ret in Hx as (v & E1 & Hx).
    apply obind_ret in Hx as (e & E2 & Hx). by rewrite (byte_of_app _ rest _ _ E1), (byte_of_app _ rest _ _ E2). }
  rewrite oloop_S, Hx'. cbn [mbind outcome_bind]. destruct x as [st'|]; [by apply IH|done].
Qed.

Lemma custodian_in_app bs rest c : (40 <= length bs)%nat -> custodian_in bs = Ret c -> custodian_in (bs ++ rest) = Ret c.
Proof.
  intros Hl. unfold custodian_in. replace (hdr_nexth (bs ++ rest)) with (hdr_nexth bs)
    by (unfold hdr_nexth, byte_at; rewrite app_nth1 by lia; done).
  intros ([n ptr] & Hw & E)%obind_ret. rewrite (walk_app _ rest _ _ _ Hw). cbn [mbind outcome_bind fst snd] in *.
  destruct (negb (n =? _)); [done|].
  apply obind_ret in E as (ty & Et & E). rewrite (byte_of_app _ rest _ _ Et). cbn [mbind outcome_bind].
  destruct (negb (ty =? _)); [done|].
  apply obind_ret in E as (dl & Ed & E). rewrite (byte_of_app _ rest _ _ Ed). cbn [mbind outcome_bind].
  destruct (negb (dl =? _)); [done|]. apply obind_ret in E as (a & Ea & [= <-]).
  assert (0 <= ptr + 4 /\ ptr + 4 + 16 <= Z.of_nat (length bs)) as [? ?].
  { destruct (decide (0 <= ptr + 4 /\ ptr + 4 + 16 <= Z.of_nat (length bs))); [done|].
    rewrite rd_oob in Ea by lia. done. }
  rewrite rd_ok in * by (rewrite ?length_app; lia). injection Ea as <-. cbn [mbind outcome_bind].
  by rewrite slice_app_l by lia.
Qed.

(** The walk finds the custodian that was pushed. *)
Lemma custodian_in_with_hbh c bs :
  ip6_packet bs -> Z.of_nat (length bs) + 24 < 65536 ->
  custodian_in (with_hbh c bs) = Ret (Some (ip6_bytes c)).
Proof.
  intros Hpk Hl. pose proof (with_hbh_length bs c Hpk) as Hwl.
  destruct (with_hbh_fields bs c Hpk Hl) as [Hnx _].
  assert (Hat : forall i, (i < 24)%nat -> with_hbh c bs !! (40 + i)%nat
            = Some (byte_at i (custody_hbh (hdr_nexth bs) c))).
  { intros i Hi. rewrite <-(with_hbh_at bs c Hpk i Hi).
    destruct Hpk as (?&_). destruct (lookup_lt_is_Some_2 (with_hbh c bs) (40 + i)) as [x Hx]; [lia|].
    rewrite Hx. unfold byte_at. by rewrite (nth_lookup_Some _ _ _ _ Hx). }
  unfold custodian_in. rewrite Hnx. change extract_fuel with (S (pred extract_fuel)).
  rewrite (oloop_exit _ _ _ (0, IP6_HLEN)) by done. simpl. unfold byte_of.
  change (Z.to_nat (IP6_HLEN + 2)) with (40 + 2)%nat.
  change (Z.to_nat (IP6_HLEN + 3)) with (40 + 3)%nat.
  rewrite !Hat by lia. cbn -[rd with_hbh]. change (IP6_HLEN + 4) with 44.
  destruct Hpk as (?&?&?). rewrite rd_ok by lia. simpl. f_equal. f_equal.
  change (Z.to_nat 44) with (40 + 4)%nat. rewrite with_hbh_slice; [done|by split_and!|lia].
Qed.

(** ** Properties *)

(** A heap with one packet in it. *)
Definition one_packet (bs : list Z) : world :=
  set_pbufs (insert 1%positive (Node (mk_pbuf bs 0 (Z.of_nat (length bs))
               (Z.of_nat (length bs)) PBUF_RAM 0 1 0) None)) empty_world.
Definition one_pbuf (bs : list Z) : pbuf :=
  mk_pbuf bs 0 (Z.of_nat (length bs)) (Z.of_nat (length bs)) PBUF_RAM 0 1 0.

Lemma one_packet_owned bs :
  Forall is_byte bs -> Z.of_nat (length bs) < 65536 ->
  owned (one_packet bs) 1%positive (one_pbuf bs) bs.
Proof.
  intros Hb Hl. split; [|done]. split_and!; [done|unfold seg_ok; simpl; split_and!; lia || done|done|].
  unfold seg_bytes. simpl. apply slice_all. lia.
Qed.

(** An IPv6/UDP packet with eight bytes of payload. *)
Definition sample_udp (port_lo : Z) : list Z :=
  [96; 0; 0; 0; 0; 16; 17; 64] ++
  [253; 0; 0; 1; 0; 0; 0; 0; 0; 0; 0; 0; 0; 0; 0; 1] ++
  [253; 0; 0; 0; 0; 0; 0; 0; 0; 0; 0; 0; 0; 0; 0; 7] ++
  [4; port_lo; 0; 80; 0; 16; 0; 0; 1; 2; 3; 4; 5; 6; 7; 8].
Definition node2 : ip6_addr := ip6_of_bytes [253; 0; 0; 0; 0; 0; 0; 0; 0; 0; 0; 0; 0; 0; 0; 2].

Ltac decided := apply (bool_decide_unpack _); vm_compute; exact I.

(** C11: custody round trip.  Pushing a custodian onto a well-formed packet,
    reading it back and stripping it returns the custodian's address and then
    the original packet, byte for byte; the buffers in between are released:
    the heap holds the returned packet in place of the original one. *)
Theorem custody_roundtrip `{Env} w p b bs c out :
  owned w p b bs -> ip6_packet bs -> Z.of_nat (length bs) <= 65484 -> ip6_wf c ->
  env_mem_malloc (w_tick w) = true -> env_mem_malloc (S (w_tick w)) = true ->
  exists np b2 w2,
    (r ← dtn_add_custodian_option (Some p) (Some c);
     e ← dtn_extract_custodian_option r.2 (Some out);
     s ← dtn_strip_custodian_option r.2;
     mret (r.1, e, s)) w
      = Ret ((true, (true, Some (ip6_addr_set_zone (zone out) c)), (true, Some np)), w2) /\
    owned w2 np b2 bs /\ w_pbufs w2 = <[np := Node b2 None]> (delete p (w_pbufs w)).
Proof.
  intros Ho Hpk Hl Hc Hm1 Hm2.
  destruct (add_custodian_exec w p b bs c) as (np & b1 & He1 & Ho1 & Hnp); try done.
  pose proof (with_hbh_length bs c Hpk) as Hwl. pose proof Hpk as (Hl40 & _).
  pose proof (with_hbh_fields bs c Hpk ltac:(lia)) as [Hnx _].
  destruct (strip_custodian_exec (swapped p np b1 w) np b1 (with_hbh c bs))
    as (np2 & b2 & He2 & Ho2 & Hnp2); try done; try lia.
  { apply with_hbh_packet; [done|lia]. }
  exists np2, b2, (swapped np np2 b2 (swapped p np b1 w)). split_and!.
  - exec He1. simpl snd. unfold dtn_extract_custodian_option.
    exec (extract_hbh_exec _ _ _ _ out extract_fuel (proj1 Ho1) ltac:(lia) Hnx ltac:(unfold extract_fuel; lia)).
    exec He2. rewrite custody_option_with_hbh by (done || lia).
    by destruct c.
  - by rewrite without_with_hbh in Ho2 by (done || lia).
  - assert (Hne : np2 <> np) by (rewrite Hnp2; by eapply new_loc_ne; apply Ho1).
    assert (Hnp' : np <> p) by (rewrite Hnp; by eapply new_loc_ne; apply Ho).
    unfold swapped, del_pbuf, put_pbuf, set_pbufs. simpl.
    rewrite delete_insert_ne, (delete_delete _ np p), delete_insert_id; [done| |done].
    rewrite Hnp. apply new_loc_fresh.
Qed.

Lemma custody_roundtrip_witness :
  exists np b2 w2,
    (r ← @dtn_add_custodian_option calm_env (Some 1%positive) (Some node2);
     e ← dtn_extract_custodian_option r.2 (Some ip6_addr_any);
     s ← @dtn_strip_custodian_option calm_env r.2;
     mret (r.1, e, s)) (one_packet (sample_udp 0))
      = Ret ((true, (true, Some (ip6_addr_set_zone 0 node2)), (true, Some np)), w2) /\
    owned w2 np b2 (sample_udp 0) /\
    w_pbufs w2 = <[np := Node b2 None]> (delete 1%positive (w_pbufs (one_packet (sample_udp 0)))).
Proof.
  apply (@custody_roundtrip calm_env _ _ (one_pbuf (sample_udp 0))).
  - apply one_packet_owned; [decided|done].
  - split_and!; [by vm_compute; lia|done|decided].
  - by vm_compute.
  - decided.
  - done.
  - done.
Defined.

(** Updating the custodian.  On a packet that already carries a custody
    header the option is rewritten in place: no memory is allocated, the rest
    of the packet is untouched and the new custodian is what is read back. *)
Theorem custody_update_in_place `{Env} w p b bs c c' out :
  owned w p b (with_hbh c bs) -> ip6_packet bs -> Z.of_nat (length bs) + 24 < 65536 -> ip6_wf c' ->
  exists b',
    (r ← dtn_update_or_add_custodian_option (Some p) (Some c');
     e ← dtn_extract_custodian_option r.2 (Some out);
     mret (r, e)) w
      = Ret (((true, Some p), (true, Some (ip6_addr_set_zone (zone out) c'))), put_pbuf p b' w) /\
    owned (put_pbuf p b' w) p b' (with_hbh c' bs).
Proof.
  intros Ho Hpk Hl Hc. destruct (update_in_place_exec w p b bs c c') as (b' & He & Ho'); try done.
  exists b'. split; [|done]. exec He. unfold dtn_extract_custodian_option.
  pose proof (with_hbh_length bs c' Hpk) as Hwl. pose proof Hpk as (Hl40 & _).
  pose proof (with_hbh_fields bs c' Hpk ltac:(lia)) as [Hnx _].
  exec (extract_hbh_exec _ _ _ _ out extract_fuel (proj1 Ho') ltac:(lia) Hnx ltac:(unfold extract_fuel; lia)).
  by rewrite custody_option_with_hbh by (done || lia); destruct c'.
Qed.

Lemma custody_update_in_place_witness :
  exists b',
    (r ← @dtn_update_or_add_custodian_option calm_env (Some 1%positive) (Some node2);
     e ← dtn_extract_custodian_option r.2 (Some ip6_addr_any);
     mret (r, e)) (one_packet (with_hbh ip6_addr_any (sample_udp 0)))
      = Ret (((true, Some 1%positive), (true, Some (ip6_addr_set_zone 0 node2))),
             put_pbuf 1%positive b' (one_packet (with_hbh ip6_addr_any (sample_udp 0)))) /\
    owned (put_pbuf 1%positive b' (one_packet (with_hbh ip6_addr_any (sample_udp 0)))) 1%positive b'
      (with_hbh node2 (sample_udp 0)).
Proof.
  apply (@custody_update_in_place calm_env _ _ (one_pbuf (with_hbh ip6_addr_any (sample_udp 0))) _
           ip6_addr_any).
  - apply one_packet_owned; [decided|done].
  - split_and!; [by vm_compute; lia|done|decided].
  - by vm_compute.
  - decided.
Defined.

(** The search for the option is decided by its fuel.  If the walk over
    the extension headers has not ended after [extract_fuel] rounds it never
    ends: no larger bound gives an answer, for any buffer a pbuf can have. *)
Theorem extract_fuel_enough w p b q out :
  w_pbufs w !! p = Some (Node b q) -> 0 <= pb_payload b ->
  Z.of_nat (length (pb_buf b)) <= 65600 ->
  dtn_extract_custodian_option (Some p) (Some out) w = Hang ->
  forall fuel, extract_with_fuel fuel (Some p) (Some out) w = Hang.
Proof.
  intros Hp Hpl Hl Hh fuel. unfold dtn_extract_custodian_option, extract_with_fuel in *.
  unfold IP6H_NEXTH in *.
  destruct (pread8_run w p b q Hp OFF_NEXTH) as [E|(_ & v & E)].
  { rewrite (bind_stuck _ _ _ E) in Hh. done. }
  rewrite (bind_exec _ _ _ _ _ E) in Hh. rewrite (bind_exec _ _ _ _ _ E).
  apply bind_hang. eapply extract_loop_hang with (fuel := extract_fuel); [done|done| |].
  { unfold extract_fuel, room, IP6_HLEN. lia. }
  destruct (loop extract_fuel _ _ w) as [[[n ptr] w']| |] eqn:El; [|by rewrite (bind_stuck _ _ _ El) in Hh|done].
  exfalso. rewrite (bind_exec _ _ _ _ _ El) in Hh. revert Hh.
  assert (w' = w) as ->.
  { clear -El Hp. revert El. generalize (v, IP6_HLEN). generalize extract_fuel.
    intros f. induction f as [|f IH]; intros [n0 p0]; [done|]. rewrite loop_S.
    destruct (extract_body_run w p b q Hp n0 p0) as [E|[E|(_ & n' & e & _ & E & _)]].
    - by rewrite (bind_stuck _ _ _ E).
    - rewrite (bind_exec _ _ _ _ _ E). unfold mret, M_ret. congruence.
    - rewrite (bind_exec _ _ _ _ _ E). apply IH. }
  destruct (negb _); [done|].
  destruct (pread8_run w p b q Hp (ptr + 2)) as [E2|(_ & v2 & E2)]; [by rewrite (bind_stuck _ _ _ E2)|].
  rewrite (bind_exec _ _ _ _ _ E2). destruct (negb _); [done|].
  destruct (pread8_run w p b q Hp (ptr + 3)) as [E3|(_ & v3 & E3)]; [by rewrite (bind_stuck _ _ _ E3)|].
  rewrite (bind_exec _ _ _ _ _ E3). destruct (negb _); [done|].
  unfold pread, pb_node, get, lift, mbind, M_bind. simpl. rewrite Hp. simpl.
  by destruct (payload_rd _ _ _) eqn:Er; [|done|unfold payload_rd, rd in Er; destruct (_ && _ && _)].
Qed.

Lemma extract_fuel_enough_witness :
  extract_with_fuel 1000 (Some 1%positive) (Some ip6_addr_any)
                 (one_packet (sample_udp 31)) = Hang.
Proof.
  apply (extract_fuel_enough _ 1%positive (one_pbuf (sample_udp 31)) None ip6_addr_any).
  - reflexivity.
  - simpl. lia.
  - by vm_compute.
  - unfold dtn_extract_custodian_option.
    eapply (extract_stalls _ _ (one_pbuf (sample_udp 31)) (sample_udp 31)).
    + apply one_packet_owned; [decided|done].
    + by vm_compute; lia.
    + decided.
Defined.

(** The walk over "extension headers" also walks over an upper-layer
    header.  If the packet is neither hop-by-hop nor no-next-header and the
    second byte after the IPv6 header is one less than a multiple of 32 (for
    UDP, the low byte of the source port), the length of the step is zero and
    the function does not return, whatever the fuel. *)
Theorem extract_diverges w p b bs out :
  single (w_pbufs w) p b bs -> (42 <= length bs)%nat -> walk_stalls bs ->
  forall fuel, extract_with_fuel fuel (Some p) (Some out) w = Hang.
Proof. apply extract_stalls. Qed.

Lemma extract_diverges_witness :
  extract_with_fuel 1000 (Some 1%positive) (Some ip6_addr_any)
                 (one_packet (sample_udp 31)) = Hang.
Proof.
  apply (extract_diverges _ _ (one_pbuf (sample_udp 31)) (sample_udp 31)).
  - apply one_packet_owned; [decided|done].
  - by vm_compute; lia.
  - decided.
Defined.

(** The option is added within the bounds of the buffers only for
    packets no longer than their header says.  The new buffer is sized by the
    header's payload length and filled with [tot_len - 40] bytes: a packet
    with trailing bytes beyond the alignment padding is written past the end. *)
Theorem add_custodian_overflow `{Env} w p b bs c :
  single (w_pbufs w) p b bs -> (40 <= length bs)%nat -> Forall is_byte bs ->
  hdr_plen bs <= 65440 -> hdr_plen bs + 44 <= Z.of_nat (length bs) ->
  env_mem_malloc (w_tick w) = true ->
  dtn_add_custodian_option (Some p) (Some c) w = Stuck.
Proof.
  intros Hs Hl Hb Hpl Hlong Hm. pose proof (hdr_plen_range bs).
  pose proof (new_loc_ne _ _ _ _ Hs) as Hne. unfold dtn_add_custodian_option.
  exec (IP6H_NEXTH_exec _ _ _ _ Hs Hl). exec (IP6H_PLEN_exec _ _ _ _ Hs Hl).
  unfold HBH_OPT_HDR_LEN. rewrite u16_small by lia.
  destruct (pbuf_alloc_exec (IP6_HLEN + (hdr_plen bs + 24)) w) as (Ha & Hn & HF);
    [unfold IP6_HLEN; lia|done|].
  exec Ha. clear Ha. set (np := new_loc (w_pbufs w)) in *.
  set (b0 := ram_pbuf _ _ _) in *. unfold IP6_HLEN in HF.
  assert (Hs0 : forall b', single (w_pbufs (put_pbuf np b' (add_ticks 1 w))) p b bs)
    by (intros; by apply single_insert_ne).
  destruct (copy_header_exec (put_pbuf np b0 (add_ticks 1 w)) p b bs np b0 (seg_bytes b0)
    IP6_NEXTH_HOPOPTS (hdr_plen bs + 24)) as (b3 & He & Hn3 & Hb3);
    [apply Hs0|exact Hn|lia|lia|by unfold is_byte|done|rewrite He; clear He].
  rewrite put_pbuf_put in *. change (hbh_bytes _) with (custody_hbh (hdr_nexth bs) c).
  assert (Hseg : length (set_hdr IP6_NEXTH_HOPOPTS (hdr_plen bs + 24) (take 40 bs)
                   ++ drop 40 (seg_bytes b0)) = length (seg_bytes b0))
    by (rewrite length_app, set_hdr_length; len).
  exec_write (pwrite_exec _ _ _ _ IP6_HLEN (custody_hbh (hdr_nexth bs) c) Hn3) b4 Hn4 Hb4;
    [by apply custody_hbh_byte, byte_at_byte|unfold IP6_HLEN; lia|rewrite Hseg, custody_hbh_length; unfold IP6_HLEN; lia|].
  rewrite put_pbuf_put in *. exec (pb_node_exec _ _ _ _ (Hs0 b4)). cbn [n_val].
  rewrite (proj1 (proj2 (proj2 Hs))), <-(single_length _ _ _ _ Hs).
  exec (pread_exec _ _ _ _ IP6_HLEN (Z.of_nat (length bs) - IP6_HLEN) (Hs0 b4)
          ltac:(unfold IP6_HLEN; lia) ltac:(unfold IP6_HLEN; lia) ltac:(lia)).
  destruct (refilled_fields b0 b4) as (_ & Hp4 & _ & Hbl); [eauto with ints|].
  apply bind_stuck. eapply pwrite_oob; [apply lookup_insert_eq| | |]; cbn [n_val]; rewrite ?Hp4, ?Hbl.
  - done.
  - by unfold IP6_HLEN.
  - unfold b0, ram_pbuf. cbn [pb_buf pb_payload]. change (LWIP_MEM_ALIGN_SIZE PBUF_RAW) with 0.
    rewrite length_fresh_bytes, mem_align_eq, length_slice by (unfold IP6_HLEN in *; lia).
    unfold IP6_HLEN in *. zlia.
Qed.

Lemma add_custodian_overflow_witness :
  @dtn_add_custodian_option calm_env (Some 1%positive) (Some node2)
    (one_packet (sample_udp 0 ++ [0; 0; 0; 0])) = Stuck.
Proof.
  apply (@add_custodian_overflow calm_env _ _ (one_pbuf (sample_udp 0 ++ [0; 0; 0; 0]))
           (sample_udp 0 ++ [0; 0; 0; 0])).
  - apply one_packet_owned; [decided|done].
  - by vm_compute; lia.
  - decided.
  - by vm_compute.
  - by vm_compute.
  - done.
Defined.

(** Stripping assumes that the payload holds the 24 bytes that are
    removed.  For a hop-by-hop packet that announces at most 20 bytes of
    payload the 16-bit subtraction wraps, the new buffer is smaller than an
    IPv6 header and the copy of the header leaves it. *)
Theorem strip_custodian_underflow `{Env} w p b bs :
  single (w_pbufs w) p b bs -> (41 <= length bs)%nat ->
  hdr_nexth bs = 0 -> hdr_plen bs <= 20 -> env_mem_malloc (w_tick w) = true ->
  dtn_strip_custodian_option (Some p) w = Stuck.
Proof.
  intros Hs Hl Hnx Hpl Hm. pose proof (hdr_plen_range bs).
  pose proof (new_loc_ne _ _ _ _ Hs) as Hne. unfold dtn_strip_custodian_option.
  exec (IP6H_NEXTH_exec _ _ _ _ Hs ltac:(lia)). rewrite Hnx. cbn [negb Z.eqb IP6_NEXTH_HOPOPTS].
  exec (pread8_exec _ _ _ _ IP6_HLEN Hs ltac:(unfold IP6_HLEN; lia)).
  exec (IP6H_PLEN_exec _ _ _ _ Hs ltac:(lia)). unfold HBH_OPT_HDR_LEN, IP6_HLEN.
  assert (Ha : pbuf_alloc PBUF_RAW (40 + u16 (hdr_plen bs - 24)) PBUF_RAM w
               = pbuf_alloc PBUF_RAW (hdr_plen bs + 16) PBUF_RAM w).
  { unfold pbuf_alloc. by replace (u16 (40 + _)) with (u16 (hdr_plen bs + 16)) by zlia. }
  destruct (pbuf_alloc_exec (hdr_plen bs + 16) w) as (Ha' & Hn & HF); [lia|done|].
  rewrite Ha' in Ha. exec Ha. set (np := new_loc (w_pbufs w)) in *. set (b0 := ram_pbuf _ _ _) in *.
  assert (Hs0 : single (w_pbufs (put_pbuf np b0 (add_ticks 1 w))) p b bs)
    by (by apply single_insert_ne).
  exec (pread_exec _ _ _ _ 0 40 Hs0 ltac:(lia) ltac:(lia) ltac:(lia)).
  apply bind_stuck. eapply pwrite_oob; [apply lookup_insert_eq|done|done|]. cbn [n_val].
  unfold b0, ram_pbuf. cbn [pb_buf pb_payload]. change (LWIP_MEM_ALIGN_SIZE PBUF_RAW) with 0.
  rewrite length_fresh_bytes, mem_align_eq, length_slice by lia. zlia.
Qed.

(** A hop-by-hop packet whose header announces an eight byte payload. *)
Definition short_hbh : list Z :=
  [96; 0; 0; 0; 0; 8; 0; 64] ++ replicate 32 0 ++ [59; 0; 1; 4; 0; 0; 0; 0].

Lemma strip_custodian_underflow_witness :
  @dtn_strip_custodian_option calm_env (Some 1%positive) (one_packet short_hbh) = Stuck.
Proof.
  apply (@strip_custodian_underflow calm_env _ _ (one_pbuf short_hbh) short_hbh).
  - apply one_packet_owned; [decided|done].
  - by vm_compute; lia.
  - done.
  - by vm_compute.
  - done.
Defined.
