(* ===== verification/Buffer.v ===== *)
(** * Filling buffers

    Rules for code that fills a buffer field by field: the world during the
    filling is described by the bytes of the one buffer, [buffer_is].  Also
    moving the payload pointer over a header, as statements. *)

From S2P Require Import Prelude LinkedList Ip6Addr World Pbuf Ip6Hdr Custody.

(** ** Filling a buffer *)

(** [w] is [w0] after [k] requests, with buffer [q] (first seen as [b])
    holding the bytes [G]. *)
Definition buffer_is (w0 : world) (k : nat) (q : loc) (b : pbuf) (G : list Z) (w : world) : Prop :=
  exists b', w = put_pbuf q b' (add_ticks k w0) /\ single (w_pbufs w) q b' G /\ refilled b b'.

Section buffer.
Context (w0 : world) (q : loc) (b : pbuf).

Lemma buffer_len k G w : buffer_is w0 k q b G w -> Z.of_nat (length G) = pb_len b.
Proof. intros (b1 & _ & Hs & [Hr _]). by rewrite (single_length _ _ _ _ Hs), Hr. Qed.

Lemma buffer_ticks k G w : buffer_is w0 k q b G w -> w_tick w = (k + w_tick w0)%nat.
Proof. by intros (b1 & -> & _). Qed.

Lemma wp_buffer_write k G w off new Q :
  buffer_is w0 k q b G w -> Forall is_byte new -> 0 <= off ->
  off + Z.of_nat (length new) <= pb_len b ->
  (forall w', buffer_is w0 k q b (splice (Z.to_nat off) new G) w' -> Q tt w') ->
  wp (pwrite q off new) w Q.
Proof.
  intros Hb Hn Ho Hl HQ. rewrite <-(buffer_len _ _ _ Hb) in Hl. destruct Hb as (b1 & -> & Hs & Hr).
  destruct (pwrite_exec q b1 G _ off new Hs Hn Ho Hl) as (b2 & He & Hs2 & Hr2).
  eapply wp_exec; [exact He|]. apply HQ. exists b2. rewrite put_pbuf_put in *.
  split_and!; [done|done|]. by eapply refilled_trans.
Qed.

Lemma buffer_tick k G w : buffer_is w0 k q b G w -> buffer_is w0 (S k) q b G (add_ticks 1 w).
Proof. intros (b1 & -> & Hs & Hr). by exists b1. Qed.

Lemma buffer_single k G w : buffer_is w0 k q b G w -> exists b', single (w_pbufs w) q b' G /\ refilled b b'.
Proof. intros (b1 & _ & Hs & Hr). eauto. Qed.

Lemma buffer_other k G w p bp bs :
  buffer_is w0 k q b G w -> q <> p -> single (w_pbufs w0) p bp bs -> single (w_pbufs w) p bp bs.
Proof. intros (b1 & -> & _) Hne Hs. by apply single_put_ne. Qed.

Lemma buffer_field {A} (f : world -> A) k G w :
  (forall h w, f (set_pbufs h w) = f w) -> buffer_is w0 k q b G w -> f w = f (add_ticks k w0).
Proof. intros Hf (b1 & -> & _). apply Hf. Qed.
End buffer.

Lemma wp_alloc_ram `{Env} layer n w Q :
  layer = PBUF_RAW \/ layer = PBUF_IP -> 0 <= n <= 60000 ->
  (env_mem_malloc (w_tick w) = false -> Q None (add_ticks 1 w)) ->
  (forall b F w', env_mem_malloc (w_tick w) = true -> Z.of_nat (length F) = n -> pb_ref b = 1 ->
     buffer_is w 1 (new_loc (w_pbufs w)) b F w' -> Q (Some (new_loc (w_pbufs w))) w') ->
  wp (pbuf_alloc layer n PBUF_RAM) w Q.
Proof.
  intros Hla Hn Hno Hyes. unfold wp.
  assert (0 <= layer <= 54) by (destruct Hla as [->| ->]; by vm_compute).
  rewrite pbuf_alloc_ram_eq by (change PBUF_IP with 54; lia).
  assert (ram_fits layer n = true) as ->.
  { unfold ram_fits. apply Z.ltb_lt. rewrite !mem_align_eq by lia. zlia. }
  destruct (env_mem_malloc (w_tick w)); [|by apply Hno].
  apply (Hyes (ram_pbuf (w_tick w) layer n) (seg_bytes (ram_pbuf (w_tick w) layer n)));
    [done|apply ram_pbuf_length; lia|done|].
  eexists. split_and!; [done|apply (alloc_single _ _ _ (add_ticks 1 w)); lia|done].
Qed.

Lemma single_bytes (h : pheap) p b bs : single h p b bs -> Forall is_byte bs.
Proof. intros (_ & Hok & _ & <-). by apply seg_bytes_byte. Qed.

(** One more field written into the buffer. *)
Ltac write_field Hb :=
  apply wp_bind; eapply wp_buffer_write;
    [exact Hb|first [apply le_bytes_byte|apply be16_byte|apply ip6_bytes_byte|by apply Forall_singleton]
    |done|match goal with
          | HF : pb_len _ = _ |- _ => rewrite HF; by vm_compute
          | HF : 40 <= pb_len _ |- _ => etransitivity; [|exact HF]; by vm_compute
          end
    |clear Hb; intros ? Hb].

(** ** Moving the payload pointer *)

Definition pbuf_add_header_m (p : loc) (inc : Z) : M world Z :=
  w ← get;
  r ← lift (pbuf_add_header (w_pbufs w) p inc);
  modify (set_pbufs (fun _ => r.2));;
  mret r.1.
Definition pbuf_add_header_force (p : loc) (inc : Z) : M world Z :=
  w ← get;
  r ← lift (pbuf_add_header_impl (w_pbufs w) p inc true);
  modify (set_pbufs (fun _ => r.2));;
  mret r.1.
Definition pbuf_remove_header_m (p : loc) (dec : Z) : M world Z :=
  w ← get;
  r ← lift (pbuf_remove_header (w_pbufs w) p dec);
  modify (set_pbufs (fun _ => r.2));;
  mret r.1.

(** [b] with the payload pointer moved up by [d], or down if [d] is negative. *)
Definition shifted (d : Z) (b : pbuf) : pbuf :=
  with_window (pb_payload b + d) (pb_tot_len b - d) (pb_len b - d) b.

Lemma shifted_single (h : pheap) p b bs d :
  single h p b bs -> - pb_payload b <= d <= pb_len b -> pb_len b - d < 65536 ->
  single (<[p := Node (shifted d b) None]> h) p (shifted d b)
    (slice (Z.to_nat (pb_payload b + d)) (Z.to_nat (pb_len b - d)) (pb_buf b)).
Proof.
  intros (Hp & (H1 & H2 & H3 & H4 & H5) & Ht & <-) Hd Hl. split_and!; [apply lookup_insert_eq| |simpl; lia|done].
  unfold seg_ok, shifted. cbn [pb_payload pb_len pb_tot_len pb_buf with_window]. split_and!; try lia. done.
Qed.

Lemma slice_seg b d :
  0 <= pb_payload b -> 0 <= d <= pb_len b ->
  slice (Z.to_nat (pb_payload b + d)) (Z.to_nat (pb_len b - d)) (pb_buf b) = drop (Z.to_nat d) (seg_bytes b).
Proof.
  intros Hp Hd. unfold seg_bytes, slice. rewrite skipn_firstn_comm, drop_drop. f_equal; [lia|f_equal; lia].
Qed.

Lemma slice_seg_before b d :
  0 <= d <= pb_payload b -> 0 <= pb_len b -> pb_payload b + pb_len b <= Z.of_nat (length (pb_buf b)) ->
  exists pre, length pre = Z.to_nat d /\
    slice (Z.to_nat (pb_payload b - d)) (Z.to_nat (pb_len b + d)) (pb_buf b) = pre ++ seg_bytes b.
Proof.
  intros Hd Hl Hb. exists (slice (Z.to_nat (pb_payload b - d)) (Z.to_nat d) (pb_buf b)).
  split; [rewrite length_slice; lia|]. unfold seg_bytes, slice.
  replace (Z.to_nat (pb_len b + d)) with (Z.to_nat d + Z.to_nat (pb_len b))%nat by lia.
  rewrite <-take_take_drop, drop_drop. repeat f_equal. lia.
Qed.

(** Removing a header that is there. *)
Lemma remove_header_ok (h : pheap) p b bs d :
  single h p b bs -> 0 < d <= Z.of_nat (length bs) -> d < 65536 ->
  pbuf_remove_header h p d = Ret (0, <[p := Node (shifted d b) None]> h) /\
  single (<[p := Node (shifted d b) None]> h) p (shifted d b) (drop (Z.to_nat d) bs).
Proof.
  intros Hs Hd Hd'. pose proof (single_length _ _ _ _ Hs) as Hl. rewrite Hl in Hd.
  pose proof Hs as (Hp & (H1 & H2 & H3 & H4 & H5) & Ht & <-). split.
  - unfold pbuf_remove_header. destruct (Z.ltb_spec 0xFFFF d); [lia|]. destruct (Z.eqb_spec d 0); [lia|].
    rewrite Hp. cbn. rewrite u16_small by lia. destruct (Z.ltb_spec (pb_len b) d); [lia|].
    rewrite !u16_small by lia. done.
  - rewrite <-slice_seg by lia. apply (shifted_single _ _ _ (seg_bytes b)); [done|lia|lia].
Qed.

Lemma remove_header_exec w p b bs d :
  single (w_pbufs w) p b bs -> 0 < d <= Z.of_nat (length bs) -> d < 65536 ->
  pbuf_remove_header_m p d w = Ret (0, put_pbuf p (shifted d b) w) /\
  single (w_pbufs (put_pbuf p (shifted d b) w)) p (shifted d b) (drop (Z.to_nat d) bs).
Proof.
  intros Hs Hd Hd'. destruct (remove_header_ok _ p b bs d Hs Hd Hd') as [E Hs']. split; [|exact Hs'].
  unfold pbuf_remove_header_m, get, lift, mbind, M_bind. cbn. by rewrite E.
Qed.

(** Making room for a header in front. *)
Lemma add_header_exec (force : bool) w p b bs d :
  single (w_pbufs w) p b bs -> type_contiguous (pb_type b) = true -> 0 < d <= pb_payload b ->
  Z.of_nat (length bs) + d < 65536 ->
  exists pre, length pre = Z.to_nat d /\
    (if force then pbuf_add_header_force p d w else pbuf_add_header_m p d w) =
      Ret (0, put_pbuf p (shifted (- d) b) w) /\
    single (w_pbufs (put_pbuf p (shifted (- d) b) w)) p (shifted (- d) b) (pre ++ bs).
Proof.
  intros Hs Hc Hd Hd'. pose proof (single_length _ _ _ _ Hs) as Hl. rewrite Hl in Hd'.
  pose proof Hs as (Hp & (H1 & H2 & H3 & H4 & H5) & Ht & <-).
  destruct (slice_seg_before b d ltac:(lia) ltac:(lia) H3) as (pre & Hpre & E). exists pre.
  split_and!; [done| |].
  - assert (Hi : forall f, pbuf_add_header_impl (w_pbufs w) p d f =
      Ret (0, <[p := Node (shifted (- d) b) None]> (w_pbufs w))).
    { intros f. unfold pbuf_add_header_impl. destruct (Z.ltb_spec 0xFFFF d); [lia|].
      destruct (Z.eqb_spec d 0); [lia|]. rewrite Hp. cbn. rewrite (u16_small d), u16_small by lia.
      destruct (Z.ltb_spec (d + pb_tot_len b) d); [lia|]. rewrite Hc. cbn.
      destruct (Z.ltb_spec (pb_payload b - d) 0); [lia|]. cbn. rewrite !u16_small by lia.
      unfold shifted, upd_pbuf. cbn. repeat f_equal; lia. }
    destruct force; unfold pbuf_add_header_force, pbuf_add_header_m, pbuf_add_header, get, lift, mbind, M_bind; cbn;
      by rewrite Hi.
  - rewrite <-E. pose proof (shifted_single _ _ _ _ (- d) Hs ltac:(lia) ltac:(lia)) as H.
    replace (pb_payload b + - d) with (pb_payload b - d) in H by lia.
    by replace (pb_len b - - d) with (pb_len b + d) in H by lia.
Qed.
