(* ===== verification/Storage.v ===== *)
(** * Packet storage (src/dtn_storage.c)

    The store-and-forward buffer: a linked list of entries that own a copy of
    a packet each, mirrored in one file per packet.  The operations are
    modelled on the list heap, the pbuf heap and the files; their
    specifications are in StorageSpec.v. *)

From S2P Require Import Prelude LinkedList Ip6Addr World Pbuf Ip6Hdr Custody.

Definition MAX_STORED_PACKETS : Z := 5.
Definition STORAGE_DIR : list Z := str "./dtn_storage".
Definition MAX_PATH_LENGTH : nat := 512.
Definition PATH_MAX : Z := 4096.

(** ** File names and file contents *)

(** [for (...) if ( *p == ':') *p = '_';] *)
Definition colon_to_underscore (s : list Z) : list Z :=
  (fun c => if c =? 58 then 95 else c) <$> s.

(** [snprintf(filename, MAX_PATH_LENGTH, "%s/pkt_%s_%u.dat", ...)] *)
Definition packet_filename (dir addr_str : list Z) (time : Z) : list Z :=
  take (MAX_PATH_LENGTH - 1)
    (dir ++ str "/pkt_" ++ addr_str ++ str "_" ++ fmt_u time ++ str ".dat").

(** [PacketFileHeader], 36 bytes; the three padding bytes behind the zone are
    never interpreted and are written as zero here. *)
Record PacketFileHeader := mk_pfh {
  magic : list Z;
  version : Z;
  timestamp : Z;
  packet_len : Z;
  pfh_original_dest : ip6_addr
}.
Definition DTNP : list Z := str "DTNP".
Definition pfh_bytes (h : PacketFileHeader) : list Z :=
  magic h ++ le_bytes 4 (version h) ++ le_bytes 4 (timestamp h) ++ le_bytes 4 (packet_len h) ++
  ip6_bytes (pfh_original_dest h) ++ le_bytes 4 (zone (pfh_original_dest h)).
Definition pfh_of_bytes (l : list Z) : PacketFileHeader :=
  mk_pfh (slice 0 4 l) (le_val (slice 4 4 l)) (le_val (slice 8 4 l)) (le_val (slice 12 4 l))
         (ip6_of_mem (slice 16 20 l)).
Definition SIZEOF_PFH : Z := 36.

(** ** Heap and file accesses *)

Definition entry_node (e : loc) : M world (node Stored_Packet_Entry) :=
  w ← get; lift (deref (w_entries w !! e)).
Definition set_filename (f : list Z) (e : Stored_Packet_Entry) : Stored_Packet_Entry :=
  mk_entry (sp_p e) (original_dest e) (stored_time_ms e) f.
Definition set_list (head : option loc) (count : Z) (s : Storage_Function) : Storage_Function :=
  mk_storage count (max_storage_bytes s) head (storage_directory s).
Definition free_entry (e : loc) : M world unit :=
  _ ← entry_node e; modify (set_entries (delete e)).

Section storage.
Context `{Env}.

(** ** Files: dtn_storage_init_directory .. dtn_storage_load_packet_from_file *)

Definition dtn_storage_init_directory : M world bool :=
  t ← next_tick;
  if env_stat t then mret true
  else t' ← next_tick; mret (env_mkdir t').

Definition dtn_storage_save_packet_to_disk (entry : option loc) : M world bool :=
  w ← get;
  match w_storage w, entry with
  | Some st, Some e =>
      n ← entry_node e;
      match sp_p (n_val n) with
      | None => mret false
      | Some p =>
          addr_str ← lift (deref (ip6addr_ntoa_r (original_dest (n_val n)) IP6ADDR_STRLEN_MAX));
          let fname := packet_filename (storage_directory st) (colon_to_underscore addr_str)
                                       (stored_time_ms (n_val n)) in
          modify (set_entries (insert e (Node (set_filename fname (n_val n)) (n_next n))));;
          opened ← fopen_wb fname;
          if negb opened then mret false
          else
            pn ← pb_node p;
            let tot_len := pb_tot_len (n_val pn) in
            let header := mk_pfh DTNP 1 (stored_time_ms (n_val n)) tot_len (original_dest (n_val n)) in
            k ← fwrite fname (pfh_bytes header);
            if k <? SIZEOF_PFH then mret false
            else
              ok ← malloc_ok;
              if negb ok then mret false
              else
                w ← get;
                data ← lift (pbuf_copy_partial (w_pbufs w) (Some p) tot_len 0);
                if negb (Z.of_nat (length data) =? tot_len) then mret false
                else
                  k ← fwrite fname data;
                  mret (k =? tot_len)
      end
  | _, _ => mret false
  end.

Definition dtn_storage_remove_packet_from_disk (name : list Z) : M world bool :=
  w ← get;
  match w_storage w with
  | None => mret false
  | Some _ =>
      t ← next_tick;
      if env_remove t && bool_decide (is_Some (w_files w !! name))
      then modify (set_files (delete name));; mret true
      else mret false
  end.

Definition dtn_storage_load_packet_from_file (name : list Z) : M world (option loc) :=
  w ← get;
  match w_storage w with
  | None => mret None
  | Some _ =>
      file ← fopen_rb name;
      match file with
      | None => mret None
      | Some content =>
          if Z.of_nat (length content) <? SIZEOF_PFH then mret None
          else
            let header := pfh_of_bytes content in
            if negb (bool_decide (magic header = DTNP)) then mret None
            else
              ok ← malloc_ok;
              if negb ok then mret None
              else
                let buffer := take (Z.to_nat (packet_len header)) (drop (Z.to_nat SIZEOF_PFH) content) in
                if negb (Z.of_nat (length buffer) =? packet_len header) then mret None
                else
                  p ← pbuf_alloc PBUF_RAW (packet_len header) PBUF_RAM;
                  match p with
                  | None => mret None
                  | Some pl =>
                      w ← get;
                      r ← lift (pbuf_take (w_pbufs w) p buffer);
                      modify (set_pbufs (fun _ => r.2));;
                      if negb (bool_decide (r.1 = ERR_OK)) then pbuf_free_m pl;; mret None
                      else
                        ok ← malloc_ok;
                        if negb ok then pbuf_free_m pl;; mret None
                        else
                          w ← get;
                          let e := new_loc (w_entries w) in
                          modify (set_entries (insert e
                            (Node (mk_entry p (pfh_original_dest header) (timestamp header)
                                            (take (MAX_PATH_LENGTH - 1) name)) None)));;
                          mret (Some e)
                  end
      end
  end.

(** Append an entry at the tail of the list and count it. *)
Definition link_entry (st : Storage_Function) (e : loc) : M world unit :=
  w ← get;
  r ← lift (append_node (S (size (w_entries w))) (w_entries w) (packet_list_head st) e);
  modify (set_entries (fun _ => r.1));;
  modify (set_storage (Some (set_list r.2 (u64 (stored_packets_count st + 1)) st))).

(** [strrchr(name, '.')] *)
Fixpoint strrchr_dot (s : list Z) : option (list Z) :=
  match s with
  | [] => None
  | c :: s' =>
      match strrchr_dot s' with
      | Some r => Some r
      | None => if c =? 46 then Some s else None
      end
  end.
Definition is_packet_file (d_name : list Z) : bool :=
  negb (bool_decide (d_name = str ".")) && negb (bool_decide (d_name = str "..")) &&
  bool_decide (strrchr_dot d_name = Some (str ".dat")).

(** The [readdir] loop. *)
Fixpoint load_dir (names : list (list Z)) (loaded_count : Z) : M world Z :=
  match names with
  | [] => mret loaded_count
  | d_name :: names =>
      if negb (is_packet_file d_name) then load_dir names loaded_count
      else
        w ← get;
        st ← lift (deref (w_storage w));
        if PATH_MAX <? Z.of_nat (length (storage_directory st)) + Z.of_nat (length d_name) + 2
        then load_dir names loaded_count
        else
          e ← dtn_storage_load_packet_from_file (storage_directory st ++ str "/" ++ d_name);
          match e with
          | None => load_dir names loaded_count
          | Some e =>
              link_entry st e;;
              if MAX_STORED_PACKETS <=? u64 (stored_packets_count st + 1)
              then mret (loaded_count + 1)
              else load_dir names (loaded_count + 1)
          end
  end.

Definition dtn_storage_load_packets_from_disk : M world Z :=
  w ← get;
  match w_storage w with
  | None => mret 0
  | Some _ =>
      t ← next_tick;
      if negb (env_opendir t) then mret 0
      else t' ← next_tick; load_dir (env_readdir t') 0
  end.

Definition dtn_storage_create : M world unit :=
  ok ← malloc_ok;
  if negb ok then modify (set_storage None)
  else
    modify (set_storage (Some (mk_storage 0 (1024 * 1024) None STORAGE_DIR)));;
    ok ← dtn_storage_init_directory;
    if negb ok then modify (set_storage None)
    else _ ← dtn_storage_load_packets_from_disk; mret tt.

(** One round of the loop of [dtn_storage_destroy]. *)
Definition destroy_body (current : option loc) : M world (option loc + unit) :=
  match current with
  | None => mret (inr tt)
  | Some c =>
      n ← entry_node c;
      p ← lift (deref (sp_p (n_val n)));
      pbuf_free_m p;;
      free_entry c;;
      mret (inl (n_next n))
  end.
Definition dtn_storage_destroy : M world unit :=
  w ← get;
  match w_storage w with
  | None => mret tt
  | Some st =>
      loop (S (size (w_entries w))) destroy_body (packet_list_head st);;
      modify (set_storage None)
  end.

(** ** Storing *)

Definition dtn_storage_is_full : M world bool :=
  w ← get;
  mret (match w_storage w with
        | None => true
        | Some st => MAX_STORED_PACKETS <=? stored_packets_count st
        end).

Definition dtn_storage_store_packet (p : option loc) (original_dest : option ip6_addr) : M world bool :=
  w ← get;
  match w_storage w, p, original_dest with
  | Some _, Some pl, Some dest =>
      full ← dtn_storage_is_full;
      if (full : bool) then mret false
      else
        pn ← pb_node pl;
        copy ← pbuf_alloc PBUF_RAW (pb_tot_len (n_val pn)) PBUF_RAM;
        match copy with
        | None => mret false
        | Some cl =>
            w ← get;
            r ← lift (pbuf_copy (w_pbufs w) copy p);
            modify (set_pbufs (fun _ => r.2));;
            if negb (bool_decide (r.1 = ERR_OK)) then pbuf_free_m cl;; mret false
            else
              stripped ← dtn_strip_custodian_option (Some cl);
              p_to_store ← lift (deref stripped.2);
              ok ← malloc_ok;
              if negb ok then pbuf_free_m p_to_store;; mret false
              else
                now ← sys_now;
                w ← get;
                let e := new_loc (w_entries w) in
                modify (set_entries (insert e (Node (mk_entry (Some p_to_store) dest now []) None)));;
                saved ← dtn_storage_save_packet_to_disk (Some e);
                if negb saved then
                  n ← entry_node e;
                  q ← lift (deref (sp_p (n_val n)));
                  pbuf_free_m q;;
                  free_entry e;;
                  mret false
                else
                  w ← get;
                  st ← lift (deref (w_storage w));
                  link_entry st e;;
                  mret true
        end
  | _, _, _ => mret false
  end.

(** ** Retrieving *)

(** Both addresses are compared without their zone. *)
Definition dest_matches (target : ip6_addr) (e : Stored_Packet_Entry) : bool :=
  ip6_addr_cmp (ip6_addr_set_zone IP6_NO_ZONE (original_dest e))
               (ip6_addr_set_zone IP6_NO_ZONE target).

(** [if (prev == NULL) head = c->next; else prev->next = c->next;] and the
    new count. *)
Definition unlink_entry (st : Storage_Function) (prev : option loc) (c : loc) : M world unit :=
  w ← get;
  r ← lift (unlink_node (w_entries w) (packet_list_head st) prev c);
  modify (set_entries (fun _ => r.1));;
  modify (set_storage (Some (set_list r.2 (u64 (stored_packets_count st - 1)) st))).

Definition dtn_storage_retrieve_packet_for_dest (target_dest : option ip6_addr)
  : M world (option loc) :=
  w ← get;
  match w_storage w, target_dest with
  | Some st, Some target =>
      m ← lift (find_node (S (size (w_entries w))) (w_entries w)
                  (fun e => Ret (dest_matches target e)) (packet_list_head st));
      match m with
      | None => mret None
      | Some (prev, c) =>
          unlink_entry st prev c;;
          n ← entry_node c;
          _ ← dtn_storage_remove_packet_from_disk (filename (n_val n));
          modify (set_entries (insert c (Node (n_val n) None)));;
          mret (Some c)
      end
  | _, _ => mret None
  end.

Definition dtn_storage_free_retrieved_entry_struct (entry : option loc) : M world unit :=
  match entry with None => mret tt | Some e => free_entry e end.

(** What follows when the search has found the entry [c]. *)
Definition copy_entry (c : loc) : M world (option loc) :=
  ok ← malloc_ok;
  if negb ok then mret None
  else
    n ← entry_node c;
    p ← lift (deref (sp_p (n_val n)));
    pn ← pb_node p;
    copy ← pbuf_alloc PBUF_RAW (pb_tot_len (n_val pn)) PBUF_RAM;
    match copy with
    | None => mret None
    | Some cl =>
        w ← get;
        r ← lift (pbuf_copy (w_pbufs w) copy (Some p));
        modify (set_pbufs (fun _ => r.2));;
        if negb (bool_decide (r.1 = ERR_OK)) then pbuf_free_m cl;; mret None
        else
          w ← get;
          let e := new_loc (w_entries w) in
          modify (set_entries (insert e
            (Node (mk_entry (Some cl) (original_dest (n_val n)) (stored_time_ms (n_val n))
                     (take (MAX_PATH_LENGTH - 1) (filename (n_val n)))) None)));;
          mret (Some e)
    end.

Definition dtn_storage_get_packet_copy_for_dest (target_dest : option ip6_addr)
  : M world (option loc) :=
  w ← get;
  match w_storage w, target_dest with
  | Some st, Some target =>
      m ← lift (find_node (S (size (w_entries w))) (w_entries w)
                  (fun e => Ret (dest_matches target e)) (packet_list_head st));
      match m with
      | None => mret None
      | Some (_, c) => copy_entry c
      end
  | _, _ => mret None
  end.

(** ** Deleting a confirmed packet *)

(** Unlink, remove the file, release packet and entry. *)
Definition drop_entry (st : Storage_Function) (prev : option loc) (c : loc) : M world unit :=
  unlink_entry st prev c;;
  n ← entry_node c;
  _ ← dtn_storage_remove_packet_from_disk (filename (n_val n));
  p ← lift (deref (sp_p (n_val n)));
  pbuf_free_m p;;
  free_entry c.

(** [current->p && current->p->len >= IP6_HLEN && memcmp(src) == 0 && memcmp(dest) == 0] *)
Definition header_matches (h : pheap) (hdr : list Z) (e : Stored_Packet_Entry) : outcome bool :=
  match sp_p e with
  | None => Ret false
  | Some p =>
      n ← deref (h !! p);
      if pb_len (n_val n) <? IP6_HLEN then Ret false
      else
        src ← payload_rd OFF_SRC 16 (n_val n);
        if negb (bool_decide (src = slice 8 16 hdr)) then Ret false
        else
          dest ← payload_rd OFF_DEST 16 (n_val n);
          Ret (bool_decide (dest = slice 24 16 hdr))
  end.

(** [orig_ip6hdr] is given by the forty bytes it points to. *)
Definition dtn_storage_delete_packet_by_ip_header (orig_ip6hdr : option (list Z)) : M world unit :=
  w ← get;
  match w_storage w, orig_ip6hdr with
  | Some st, Some hdr =>
      m ← lift (find_node (S (size (w_entries w))) (w_entries w)
                  (header_matches (w_pbufs w) hdr) (packet_list_head st));
      match m with
      | None => mret tt
      | Some (prev, c) => drop_entry st prev c
      end
  | _, _ => mret tt
  end.

(** What one round of the loop of [delete_packet_by_icmp_data] decides about
    an entry: it is the confirmed packet, the next one is looked at, or (the
    [continue] without an advance) the same one again. *)
Inductive verdict := Match | Advance | Again.

(** The confirmed packet as the ICMP message quotes it: source address,
    protocol after a hop-by-hop header, and the bytes to compare. *)
Record quoted := mk_quoted {
  q_src : list Z;
  q_nexth : Z;
  q_count : Z;                              (* actual_payload_bytes *)
  q_read : outcome (list Z)                 (* the bytes at orig_payload_start *)
}.

Definition icmp_verdict (h : pheap) (q : quoted) (e : Stored_Packet_Entry) : outcome verdict :=
  match sp_p e with
  | None => Ret Advance
  | Some p =>
      n ← deref (h !! p);
      if pb_len (n_val n) <? IP6_HLEN then Ret Advance
      else
        src ← payload_rd OFF_SRC 16 (n_val n);
        if negb (bool_decide (src = q_src q)) then Ret Advance
        else
          nx ← payload_rd OFF_NEXTH 1 (n_val n);
          let stored_nexth := byte_at 0 nx in
          if stored_nexth =? IP6_NEXTH_HOPBYHOP then Ret Again
          else
            same ← (if (0 <? q_count q) && (IP6_HLEN + q_count q <=? pb_len (n_val n)) then
                      a ← payload_rd IP6_HLEN (q_count q) (n_val n);
                      b ← q_read q;
                      Ret (bool_decide (a = b))
                    else Ret true);
            Ret (if (same : bool) && (stored_nexth =? q_nexth q) then Match else Advance)
  end.

Definition icmp_body (es : gmap loc (node Stored_Packet_Entry)) (h : pheap) (q : quoted)
    (pc : option loc * option loc)
  : outcome (option loc * option loc + option (option loc * loc)) :=
  match pc.2 with
  | None => Ret (inr None)
  | Some c =>
      n ← deref (es !! c);
      v ← icmp_verdict h q (n_val n);
      match v with
      | Match => Ret (inr (Some (pc.1, c)))
      | Advance => Ret (inl (Some c, n_next n))
      | Again => Ret (inl pc)
      end
  end.

Definition ICMP_QUOTE_OFF : Z := IP6_HLEN + 8 + 9.

(** With enough fuel for one visit of every entry. *)
Definition delete_by_icmp_with_fuel (fuel : nat) (icmp_packet : option loc) : M world unit :=
  w ← get;
  match w_storage w, icmp_packet with
  | Some st, Some ip =>
      match packet_list_head st with
      | None => mret tt
      | Some _ =>
          pn ← pb_node ip;
          if pb_len (n_val pn) <? IP6_HLEN + 8 + 9 + IP6_HLEN + 8 then mret tt
          else
            hdr ← pread ip ICMP_QUOTE_OFF IP6_HLEN;
            first ← pread ip (ICMP_QUOTE_OFF + IP6_HLEN) 2;
            let hbh := byte_at 6 hdr =? IP6_NEXTH_HOPBYHOP in
            let orig_nexth := if hbh then byte_at 0 first else byte_at 6 hdr in
            let orig_payload_offset := if hbh then u16 ((byte_at 1 first + 1) * 8) else 0 in
            let actual_payload_bytes := u8 (8 - orig_payload_offset) in
            if actual_payload_bytes <=? 0 then dtn_storage_delete_packet_by_ip_header (Some hdr)
            else
              let q := mk_quoted (slice 8 16 hdr) orig_nexth actual_payload_bytes
                (payload_rd (ICMP_QUOTE_OFF + IP6_HLEN + orig_payload_offset)
                            actual_payload_bytes (n_val pn)) in
              m ← lift (oloop fuel (icmp_body (w_entries w) (w_pbufs w) q)
                          (None, packet_list_head st));
              match m with
              | None => mret tt
              | Some (prev, c) => drop_entry st prev c
              end
      end
  | _, _ => mret tt
  end.
Definition dtn_storage_delete_packet_by_icmp_data (icmp_packet : option loc) : M world unit :=
  w ← get; delete_by_icmp_with_fuel (S (size (w_entries w))) icmp_packet.
End storage.
