(* ===== verification/StorageSpec.v ===== *)
(** * Packet storage: specification

    [stores w ls recs] says that the storage of dtn_storage.c holds the
    records [recs] in arrival order.  The lemmas run every operation on such a
    world, in every environment; the theorems at the end say that the
    operations implement a bounded first-in-first-out store with a copy of
    each packet on disk. *)

From S2P Require Import Prelude LinkedList Ip6Addr World Pbuf Ip6Hdr Custody Buffer Storage.

(** ** The abstract store *)

Record stored_rec := mk_rec {
  r_dest : ip6_addr;
  r_time : Z;
  r_file : list Z;
  r_data : list Z
}.

(** The entry [x] owns a buffer with the record's packet. *)
Definition entry_rep (h : pheap) (x : loc * Stored_Packet_Entry) (r : stored_rec) : Prop :=
  exists p b, x.2 = mk_entry (Some p) (r_dest r) (r_time r) (r_file r) /\
    single h p b (r_data r) /\ pb_ref b = 1.

Definition entry_pbufs (ls : list (loc * Stored_Packet_Entry)) : list (option loc) :=
  (fun x => sp_p x.2) <$> ls.

(** The storage holds the records [recs], oldest first, in the list [ls]. *)
Record stores (w : world) (ls : list (loc * Stored_Packet_Entry)) (recs : list stored_rec) : Prop := {
  st_list : exists st, w_storage w = Some st /\ llist (w_entries w) (packet_list_head st) ls /\
              stored_packets_count st = Z.of_nat (length ls);
  st_bound : (length ls <= 5)%nat;
  st_recs : Forall2 (entry_rep (w_pbufs w)) ls recs;
  st_distinct : NoDup (entry_pbufs ls)
}.

(** Nothing but files and the environment's clock moved. *)
Definition unchanged (w w' : world) : Prop :=
  w_pbufs w' = w_pbufs w /\ w_entries w' = w_entries w /\ w_storage w' = w_storage w /\
  rest_of w' = rest_of w.

Lemma unchanged_stores w w' ls recs : unchanged w w' -> stores w ls recs -> stores w' ls recs.
Proof.
  intros (Hp & He & Hs & _) [Hl Hb Hr Hd]. split; [by rewrite Hs, He|done|by rewrite Hp|done].
Qed.

Lemma entry_rep_frame h h' x r :
  (forall p, sp_p x.2 = Some p -> h' !! p = h !! p) -> entry_rep h x r -> entry_rep h' x r.
Proof.
  intros Hf (p & b & Hx & (Hp & Hs) & Hr). exists p, b. split_and!; [done| |done].
  split; [|done]. rewrite Hf; [done|]. by rewrite Hx.
Qed.

Lemma entries_rep_frame h h' ls recs :
  (forall p, Some p ∈ entry_pbufs ls -> h' !! p = h !! p) ->
  Forall2 (entry_rep h) ls recs -> Forall2 (entry_rep h') ls recs.
Proof.
  intros Hf HF. induction HF as [|x r ls recs Hx _ IH]; constructor.
  - eapply entry_rep_frame; [|done]. intros p Hp. apply Hf. simpl. rewrite <-Hp. set_solver.
  - apply IH. intros p Hp. apply Hf. simpl. set_solver.
Qed.

(** A stored packet is live, so fresh memory is disjoint from the storage. *)
Lemma entries_rep_live h ls recs p :
  Forall2 (entry_rep h) ls recs -> Some p ∈ entry_pbufs ls -> is_Some (h !! p).
Proof.
  intros HF Hin. induction HF as [|x r ls recs (q & b & Hx & (Hq & _) & _) _ IH]; simpl in Hin.
  - by apply elem_of_nil in Hin.
  - apply elem_of_cons in Hin as [Hin|Hin]; [|auto]. rewrite Hx in Hin. simpl in Hin.
    simplify_eq. eauto.
Qed.

Lemma entries_rep_fresh h ls recs p n :
  h !! p = None -> Forall2 (entry_rep h) ls recs -> Forall2 (entry_rep (<[p := n]> h)) ls recs.
Proof.
  intros Hp HF. eapply entries_rep_frame; [|done]. intros q Hq.
  apply lookup_insert_ne. intros <-. destruct (entries_rep_live _ _ _ _ HF Hq). congruence.
Qed.

(** Taking the first record that satisfies a test out of the store. *)
Fixpoint take_first (g : stored_rec -> bool) (recs : list stored_rec)
  : option (stored_rec * list stored_rec) :=
  match recs with
  | [] => None
  | r :: recs =>
      if g r then Some (r, recs)
      else '(x, rest) ← take_first g recs; Some (x, r :: rest)
  end.

Lemma take_first_rep h f g ls recs :
  Forall2 (entry_rep h) ls recs ->
  Forall2 (fun x r => f x.2 = g r) ls recs ->
  match find_first f ls with
  | None => take_first g recs = None
  | Some (l, v) => exists r recs', take_first g recs = Some (r, recs') /\ entry_rep h (l, v) r /\
                     Forall2 (entry_rep h) (remove_first f ls) recs'
  end.
Proof.
  intros HF. induction HF as [|[l v] r ls recs Hx HF IH]; simpl; intros Hfg; [done|].
  apply Forall2_cons in Hfg as [E Hfg]. simpl in E. rewrite <-E. specialize (IH Hfg).
  destruct (f v) eqn:Ev.
  - eauto.
  - destruct (find_first f ls) as [[l' v']|]; [|by rewrite IH].
    destruct IH as (r' & recs' & -> & H1 & H2). simpl. eexists _, _. split; [done|]. by repeat constructor.
Qed.

Lemma take_first_length g recs r recs' :
  take_first g recs = Some (r, recs') -> length recs = S (length recs') /\ g r = true /\ r ∈ recs.
Proof.
  revert recs'. induction recs as [|x recs IH]; intros recs'; simpl; [done|].
  destruct (g x) eqn:E; [intros [= -> ->]; by split_and!; [| |constructor]|].
  destruct (take_first g recs) as [[y rest]|]; simpl; [|done].
  intros [= -> <-]. destruct (IH rest) as (-> & ? & ?); [done|]. simpl. split_and!; [done|done|by constructor].
Qed.

Lemma entry_pbufs_remove f ls : entry_pbufs (remove_first f ls) `sublist_of` entry_pbufs ls.
Proof. apply fmap_sublist, remove_first_sublist. Qed.

Lemma entry_pbufs_taken f ls l v :
  NoDup (entry_pbufs ls) -> find_first f ls = Some (l, v) -> sp_p v ∉ entry_pbufs (remove_first f ls).
Proof.
  intros Hd (l1 & l2 & -> & _ & _ & ->)%find_first_Some.
  unfold entry_pbufs in *. rewrite !fmap_app in *. simpl in Hd.
  apply NoDup_app in Hd as (_ & H1 & [H2 _]%NoDup_cons). set_solver.
Qed.

(** ** Steps of the operations *)

(** The packets the storage is given: at least a header and, if they start
    with a hop-by-hop header, well-formed and long enough for the custody
    header that is cut off. *)
Definition storable (bs : list Z) : Prop :=
  (40 <= length bs)%nat /\ Forall is_byte bs /\
  (hdr_nexth bs = 0 -> ip6_packet bs /\ (64 <= length bs)%nat).

(** The packet after [dtn_strip_custodian_option]. *)
Definition stripped (bs : list Z) : list Z :=
  if hdr_nexth bs =? 0 then without_hbh bs else bs.

Lemma set_pbufs_put h w np b b' :
  h = <[np := Node b' None]> (w_pbufs (put_pbuf np b w)) ->
  set_pbufs (fun _ => h) (put_pbuf np b w) = put_pbuf np b' w.
Proof. intros ->. unfold put_pbuf, set_pbufs. simpl. by rewrite insert_insert_eq. Qed.

Lemma pkt_insert_fresh (h : pheap) p ls bs q n :
  h !! q = None -> pkt h p ls bs -> pkt (<[q := n]> h) p ls bs.
Proof. intros Hq (Hl & ?). split; [by apply llist_insert_fresh|done]. Qed.

Lemma pkt_locs (h : pheap) p ls bs q : pkt h p ls bs -> q ∈ ls.*1 -> is_Some (h !! q).
Proof.
  intros (Hl & _) ([q' b] & -> & Hin)%list_elem_of_fmap.
  destruct (llist_elem _ _ _ _ _ Hl Hin). eauto.
Qed.

Section steps.
Context `{Env}.
Implicit Types w : world.

Lemma wp_alloc n w (Q : option loc -> world -> Prop) :
  0 <= n < 65536 ->
  (forall k, (n <= 65508 -> env_mem_malloc (w_tick w) = false) -> Q None (add_ticks k w)) ->
  (n <= 65508 ->
   let np := new_loc (w_pbufs w) in
   let b := ram_pbuf (w_tick w) PBUF_RAW n in
   single (w_pbufs (put_pbuf np b (add_ticks 1 w))) np b (seg_bytes b) ->
   Z.of_nat (length (seg_bytes b)) = n ->
   Q (Some np) (put_pbuf np b (add_ticks 1 w))) ->
  wp (pbuf_alloc PBUF_RAW n PBUF_RAM) w Q.
Proof.
  intros Hn HN HS. unfold wp. destruct (decide (n <= 65508)) as [Hle|Hgt].
  - destruct (env_mem_malloc (w_tick w)) eqn:Em.
    + destruct (pbuf_alloc_exec n w) as (-> & Hs & Hl); [lia|done|]. by apply HS.
    + rewrite pbuf_alloc_exec_fail by (done || lia). by apply HN.
  - rewrite pbuf_alloc_ram_eq by (unfold PBUF_RAW, PBUF_IP, PBUF_LINK_HLEN, PBUF_IP_HLEN; lia).
    assert (ram_fits PBUF_RAW n = false) as ->.
    { unfold ram_fits. apply Z.ltb_ge. change (LWIP_MEM_ALIGN_SIZE PBUF_RAW) with 0.
      rewrite mem_align_eq by lia. zlia. }
    rewrite <-(add_ticks_0 w). apply HN. lia.
Qed.

(** Copying a packet into one fresh buffer; the copy never fails once the
    buffer is there. *)
Lemma wp_copy_then {A} w p lp bs (kN : M world A) (k : loc -> err_t -> M world A) Q :
  pkt (w_pbufs w) p lp bs -> no_empty lp ->
  (forall n, (Z.of_nat (length bs) <= 65508 -> env_mem_malloc (w_tick w) = false) ->
     wp kN (add_ticks n w) Q) ->
  (forall b, Z.of_nat (length bs) <= 65508 ->
     let np := new_loc (w_pbufs w) in
     owned (put_pbuf np b (add_ticks 1 w)) np b bs ->
     wp (k np ERR_OK) (put_pbuf np b (add_ticks 1 w)) Q) ->
  wp (pn ← pb_node p;
      copy ← pbuf_alloc PBUF_RAW (pb_tot_len (n_val pn)) PBUF_RAM;
      match copy with
      | None => kN
      | Some cl =>
          w ← get;
          r ← lift (pbuf_copy (w_pbufs w) copy (Some p));
          modify (set_pbufs (fun _ => r.2));;
          k cl r.1
      end) w Q.
Proof.
  intros Hp Hne HN HS. destruct (pkt_tot _ _ _ _ Hp) as (n & Hn & Ht & Hr).
  apply wp_bind. eapply wp_exec.
  { unfold pb_node, get, lift, mbind, M_bind. by rewrite Hn. }
  apply wp_bind. apply wp_alloc; [lia|rewrite Ht; apply HN|]. rewrite Ht.
  intros Hle np b Hs Hl. apply wp_bind. apply wp_ret. apply wp_bind.
  pose proof (new_loc_fresh (w_pbufs w)) as Hfr.
  destruct (pbuf_copy_ok (w_pbufs (put_pbuf np b (add_ticks 1 w))) np b (seg_bytes b) p lp bs)
    as (b' & He & Hs' & Hb'); [by apply pkt_insert_fresh|done|done| |lia|].
  { intros Hin. destruct (pkt_locs _ _ _ _ _ Hp Hin). unfold np in *. congruence. }
  eapply wp_lift; [exact He|]. apply wp_bind. apply wp_ret. cbn [fst snd].
  rewrite (set_pbufs_put _ _ _ _ b') by done. apply HS; [lia|].
  split; [|by rewrite Hb'].
  rewrite w_pbufs_put, insert_insert_eq in Hs'. exact Hs'.
Qed.

(** The same, as store and get-copy do it. *)
Lemma wp_copy_packet {A} w p lp bs (kN : M world A) (kF kS : loc -> M world A) Q :
  pkt (w_pbufs w) p lp bs -> no_empty lp ->
  (forall k, (Z.of_nat (length bs) <= 65508 -> env_mem_malloc (w_tick w) = false) ->
     wp kN (add_ticks k w) Q) ->
  (forall b, Z.of_nat (length bs) <= 65508 ->
     let np := new_loc (w_pbufs w) in
     owned (put_pbuf np b (add_ticks 1 w)) np b bs ->
     wp (kS np) (put_pbuf np b (add_ticks 1 w)) Q) ->
  wp (pn ← pb_node p;
      copy ← pbuf_alloc PBUF_RAW (pb_tot_len (n_val pn)) PBUF_RAM;
      match copy with
      | None => kN
      | Some cl =>
          w ← get;
          r ← lift (pbuf_copy (w_pbufs w) copy (Some p));
          modify (set_pbufs (fun _ => r.2));;
          if negb (bool_decide (r.1 = ERR_OK)) then kF cl else kS cl
      end) w Q.
Proof.
  intros Hp Hne HN HS.
  apply (wp_copy_then w p lp bs kN
           (fun cl e => if negb (@bool_decide (e = ERR_OK) (decide_rel eq e ERR_OK))
                        then kF cl else kS cl)); done.
Qed.

(** Cutting off the custody header of the copy [np], whose heap without the
    copy is [h]. *)
Lemma wp_strip_copy w h np b bs (Q : bool * option loc -> world -> Prop) :
  owned w np b bs -> storable bs -> Z.of_nat (length bs) <= 65508 ->
  w_pbufs w = <[np := Node b None]> h -> h !! np = None ->
  (forall r np' b' bs' w', r.2 = Some np' -> owned w' np' b' bs' ->
     w_pbufs w' = <[np' := Node b' None]> h -> h !! np' = None ->
     w_entries w' = w_entries w -> w_storage w' = w_storage w -> w_files w' = w_files w ->
     rest_of w' = rest_of w ->
     (bs' = stripped bs \/ env_mem_malloc (w_tick w) = false /\ bs' = bs) ->
     Q r w') ->
  wp (dtn_strip_custodian_option (Some np)) w Q.
Proof.
  intros Ho (Hl & Hb & Hh) Hle Hw Hfr HQ. unfold stripped in HQ.
  destruct (Z.eqb_spec (hdr_nexth bs) 0) as [Hnx|Hnx].
  - destruct (Hh Hnx) as [Hpk H64]. destruct (env_mem_malloc (w_tick w)) eqn:Em.
    + destruct (strip_custodian_exec w np b bs) as (np' & b' & He & Ho' & Hnp'); try done.
      eapply wp_exec; [exact He|]. eapply HQ; try done; [| |by left].
      * unfold swapped, del_pbuf, put_pbuf, set_pbufs. simpl. rewrite Hw.
        assert (np' <> np) by (rewrite Hnp'; exact (new_loc_ne _ _ _ _ (proj1 Ho))).
        rewrite delete_insert_ne by done. by rewrite delete_insert_id.
      * destruct (h !! np') as [n|] eqn:E; [exfalso|done].
        pose proof (new_loc_fresh (w_pbufs w)) as Hf. rewrite <-Hnp', Hw in Hf.
        apply lookup_insert_None in Hf as [? _]. congruence.
    + eapply wp_exec; [by apply (strip_custodian_nomem w np b bs)|].
      eapply (HQ _ np b bs); try done. by right.
  - eapply wp_exec; [apply (strip_custodian_none w np b bs); [apply Ho|lia|done]|].
    eapply (HQ _ np b bs); try done. by left.
Qed.

(** No request to the environment fails. *)
Definition env_all_ok : Prop :=
  forall t, env_malloc t = true /\ env_mem_malloc t = true /\ env_fopen t = true /\
            (forall n, n <= env_fwrite t n) /\ env_remove t = true.

Definition packet_name (dir : list Z) (dest : ip6_addr) (time : Z) : list Z :=
  packet_filename dir
    (colon_to_underscore (default [] (ip6addr_ntoa_r dest IP6ADDR_STRLEN_MAX))) time.

(** The file of a stored packet. *)
Definition encode_file (dest : ip6_addr) (time : Z) (data : list Z) : list Z :=
  pfh_bytes (mk_pfh DTNP 1 time (Z.of_nat (length data)) dest) ++ data.

Lemma fwrite_exec name data w :
  exists k, fwrite name data w =
      Ret (k, set_files (alter (fun old => old ++ take (Z.to_nat k) data) name) (add_ticks 1 w)) /\
    0 <= k <= Z.of_nat (length data) /\ (env_all_ok -> k = Z.of_nat (length data)).
Proof.
  set (n := Z.of_nat (length data)).
  exists (Z.max 0 (Z.min n (env_fwrite (w_tick w) n))). split; [reflexivity|].
  split; [lia|]. intros Hok. destruct (Hok (w_tick w)) as (_ & _ & _ & Hw & _).
  specialize (Hw n). lia.
Qed.

Lemma wp_save w st e ent nx p b data (Q : bool -> world -> Prop) :
  let fname := packet_name (storage_directory st) (original_dest ent) (stored_time_ms ent) in
  w_storage w = Some st -> w_entries w !! e = Some (Node ent nx) -> sp_p ent = Some p ->
  single (w_pbufs w) p b data ->
  (forall r w', w_pbufs w' = w_pbufs w -> w_storage w' = w_storage w -> rest_of w' = rest_of w ->
     w_entries w' = <[e := Node (set_filename fname ent) nx]> (w_entries w) ->
     (r = true -> w_files w' =
        <[fname := encode_file (original_dest ent) (stored_time_ms ent) data]> (w_files w)) ->
     (env_all_ok -> r = true) -> Q r w') ->
  wp (dtn_storage_save_packet_to_disk (Some e)) w Q.
Proof.
  intros fname Hst He Hsp Hs HQ. unfold dtn_storage_save_packet_to_disk.
  pose proof (single_length _ _ _ _ Hs) as Hlen. pose proof Hs as (Hp & Hseg & Htl & Hsb).
  apply wp_bind, wp_ret. rewrite Hst.
  apply wp_bind. eapply wp_exec; [unfold entry_node, get, lift, mbind, M_bind; by rewrite He|].
  cbn [n_val n_next]. rewrite Hsp. apply wp_bind.
  destruct (ntoa_fits (original_dest ent)) as (a & Ha & _).
  eapply wp_lift; [by rewrite Ha|]. apply wp_bind, wp_ret.
  replace (packet_filename _ _ _) with fname by (unfold fname, packet_name; by rewrite Ha).
  unfold fopen_wb. do 2 apply wp_bind. apply wp_ret. cbn [w_tick set_entries].
  destruct (env_fopen (w_tick w)) eqn:Ef.
  2: { apply wp_ret, wp_ret. apply HQ; try done. intros Hok.
       destruct (Hok (w_tick w)) as (_ & _ & Hf & _). congruence. }
  apply wp_bind, wp_ret, wp_ret. cbn [negb]. apply wp_bind. eapply wp_exec.
  { unfold pb_node, get, lift, mbind, M_bind. simpl. by rewrite Hp. }
  cbn [n_val]. rewrite Htl, <-Hlen.
  set (hb := pfh_bytes _). set (w1 := set_files _ _).
  assert (Hhb : length hb = 36%nat) by done. apply wp_bind.
  destruct (fwrite_exec fname hb w1) as (k & Hk & Hkr & Hko). eapply wp_exec; [exact Hk|].
  destruct (Z.ltb_spec k SIZEOF_PFH) as [Hlt|Hge]; unfold SIZEOF_PFH in *.
  { apply wp_ret. apply HQ; try done. intros Hok. specialize (Hko Hok). lia. }
  apply wp_bind, wp_malloc.
  set (t := w_tick _). destruct (env_malloc t) eqn:Em; cbn [negb].
  2: { apply wp_ret. apply HQ; try done. intros Hok. destruct (Hok t). congruence. }
  apply wp_bind, wp_ret, wp_bind. eapply wp_lift.
  { eapply pbuf_copy_out. by apply single_pkt. }
  rewrite Z.eqb_refl. cbn [negb]. apply wp_bind. set (w2 := add_ticks 1 _).
  destruct (fwrite_exec fname data w2) as (k2 & Hk2 & Hkr2 & Hko2). eapply wp_exec; [exact Hk2|].
  apply wp_ret. apply HQ; try done.
  - intros E%Z.eqb_eq. subst k2. unfold w2, w1. cbn [w_files set_files add_ticks set_entries].
    rewrite !Nat2Z.id, take_ge by lia. rewrite (take_ge hb) by lia.
    rewrite !alter_insert_eq. by rewrite app_nil_l.
  - intros Hok. rewrite (Hko2 Hok). apply Z.eqb_refl.
Qed.

Lemma link_entry_exec w st ls e ent :
  w_storage w = Some st -> llist (w_entries w) (packet_list_head st) ls ->
  w_entries w !! e = Some (Node ent None) -> e ∉ ls.*1 ->
  stored_packets_count st = Z.of_nat (length ls) -> (length ls < 5)%nat ->
  exists w', link_entry st e w = Ret (tt, w') /\
    (exists st', w_storage w' = Some st' /\
       llist (w_entries w') (packet_list_head st') (ls ++ [(e, ent)]) /\
       stored_packets_count st' = Z.of_nat (length (ls ++ [(e, ent)])) /\
       storage_directory st' = storage_directory st) /\
    w_pbufs w' = w_pbufs w /\ w_files w' = w_files w /\ rest_of w' = rest_of w.
Proof.
  intros Hst Hll He Hni Hc Hlen. unfold link_entry.
  destruct (append_node_spec (w_entries w) (packet_list_head st) ls e ent
              (S (size (w_entries w)))) as (h' & hd' & Ha & Hll' & _); try done.
  { apply llist_length in Hll. lia. }
  eexists. split.
  - unfold get, lift, modify, mbind, M_bind. rewrite Ha. reflexivity.
  - split_and!; try done. eexists. split_and!; [done|exact Hll'| |done].
    cbn. rewrite length_app. simpl. unfold u64. rewrite Z.mod_small; lia.
Qed.

Definition storage_dir (w : world) : list Z :=
  match w_storage w with Some st => storage_directory st | None => [] end.

(** What a successful store adds to the world. *)
Definition stored_one (w w' : world) ls recs (dest : ip6_addr) (data : list Z) : Prop :=
  exists e q b time,
    let f := packet_name (storage_dir w) dest time in
    0 <= time < 4294967296 /\
    w_pbufs w !! q = None /\ w_pbufs w' = <[q := Node b None]> (w_pbufs w) /\
    stores w' (ls ++ [(e, mk_entry (Some q) dest time f)]) (recs ++ [mk_rec dest time f data]) /\
    w_files w' = <[f := encode_file dest time data]> (w_files w).

Lemma stores_not_full w ls recs :
  stores w ls recs -> dtn_storage_is_full w = Ret (bool_decide (length ls = 5%nat), w).
Proof.
  intros [(st & Hst & _ & Hc) Hb _ _]. unfold dtn_storage_is_full, get, mbind, M_bind, mret, M_ret.
  rewrite Hst, Hc. do 2 f_equal. unfold MAX_STORED_PACKETS.
  case_bool_decide; [apply Z.leb_le; lia|apply Z.leb_gt; lia].
Qed.

(** The tail of the store: entry, file, link. *)
Lemma wp_store_entry w w1 ls recs q b data dest (Q : bool -> world -> Prop) :
  stores w ls recs -> (length ls < 5)%nat ->
  owned w1 q b data -> w_pbufs w1 = <[q := Node b None]> (w_pbufs w) -> w_pbufs w !! q = None ->
  w_entries w1 = w_entries w -> w_storage w1 = w_storage w -> w_files w1 = w_files w ->
  rest_of w1 = rest_of w ->
  (forall w', unchanged w w' -> ~ env_all_ok -> Q false w') ->
  (forall w', stored_one w w' ls recs dest data -> rest_of w' = rest_of w -> Q true w') ->
  wp (ok ← malloc_ok;
      if negb ok then pbuf_free_m q;; mret false
      else
        now ← sys_now;
        w ← get;
        let e := new_loc (w_entries w) in
        modify (set_entries (insert e (Node (mk_entry (Some q) dest now []) None)));;
        saved ← dtn_storage_save_packet_to_disk (Some e);
        if negb saved then
          n ← entry_node e;
          q ← lift (deref (sp_p (n_val n)));
          pbuf_free_m q;;
          free_entry e;;
          mret false
        else
          w ← get;
          st ← lift (deref (w_storage w));
          link_entry st e;;
          mret true) w1 Q.
Proof.
  intros Hst Hlen [Hs Hr] Hp1 Hq He1 Hst1 Hf1 Hr1 HF HT.
  pose proof Hst as [(st & Hw & Hll & Hc) _ Hrep Hd].
  apply wp_bind, wp_malloc.
  destruct (env_malloc (w_tick w1)) eqn:Em; cbn [negb].
  2: { apply wp_bind. eapply wp_exec; [by apply (pbuf_free_m_exec _ b data)|]. apply wp_ret.
       apply HF.
       - unfold unchanged, set_pbufs, rest_of in *. simpl in *. rewrite Hp1, delete_insert_id; done.
       - intros Hok. destruct (Hok (w_tick w1)). congruence. }
  apply wp_bind, wp_now. apply wp_bind, wp_get.
  cbn [add_ticks w_tick w_entries]. set (time := u32 _). set (e := new_loc (w_entries w1)).
  assert (Hefr : w_entries w1 !! e = None) by apply new_loc_fresh.
  apply wp_bind, wp_ret. apply wp_bind. set (w2 := set_entries _ _).
  eapply (wp_save w2 st e (mk_entry (Some q) dest time []) None q b data);
    [by unfold w2; simpl; rewrite Hst1|apply lookup_insert_eq|done|exact Hs|].
  cbn [original_dest stored_time_ms set_filename sp_p].
  intros r w3 Hp3 Hst3 Hr3 He3 Hf3 Hok3.
  set (f := packet_name _ _ _) in *.
  change (w_entries w2) with (<[e := Node (mk_entry (Some q) dest time []) None]> (w_entries w1)) in He3.
  rewrite insert_insert_eq in He3. destruct r; cbn [negb].
  - apply wp_bind, wp_ret, wp_bind.
    eapply wp_lift; [rewrite Hst3; simpl; by rewrite Hst1, Hw|]. apply wp_bind.
    assert (Hni : e ∉ ls.*1).
    { intros ([e' v] & Heq & Hin)%list_elem_of_fmap. simpl in Heq. subst e'.
      destruct (llist_elem _ _ _ _ _ Hll Hin). rewrite He1 in Hefr. congruence. }
    destruct (link_entry_exec w3 st ls e (mk_entry (Some q) dest time f))
      as (w4 & Hl4 & (st' & Hst4 & Hll4 & Hc4 & _) & Hp4 & Hf4 & Hr4); try done.
    { rewrite Hst3. simpl. by rewrite Hst1. }
    { rewrite He3, He1. apply llist_insert_fresh; [by rewrite <-He1|done]. }
    { rewrite He3. apply lookup_insert_eq. }
    eapply wp_exec; [exact Hl4|]. apply wp_ret. apply HT; [|rewrite Hr4, Hr3; exact Hr1].
    exists e, q, b, time. unfold storage_dir. rewrite Hw. fold f. split_and!.
    + unfold time. apply u32_range.
    + unfold time. apply u32_range.
    + done.
    + rewrite Hp4, Hp3. done.
    + split.
      * eauto.
      * rewrite length_app. simpl. lia.
      * rewrite Hp4, Hp3. unfold w2. cbn [w_pbufs set_entries add_ticks]. rewrite Hp1.
        apply Forall2_app; [by apply entries_rep_fresh|]. constructor; [|constructor].
        exists q, b. split_and!; [done| |done]. rewrite <-Hp1. exact Hs.
      * unfold entry_pbufs. rewrite fmap_app. apply NoDup_app. split_and!; [done| |apply NoDup_singleton].
        intros x Hx Hxq. apply list_elem_of_singleton in Hxq. simpl in Hxq. subst x.
        destruct (entries_rep_live _ _ _ _ Hrep Hx). congruence.
    + rewrite Hf4, Hf3 by done. simpl. by rewrite Hf1.
  - apply wp_bind. eapply wp_exec.
    { unfold entry_node, get, lift, mbind, M_bind. rewrite He3, lookup_insert_eq. reflexivity. }
    apply wp_bind. eapply wp_lift; [done|]. apply wp_bind. eapply wp_exec.
    { eapply pbuf_free_m_exec; [rewrite Hp3; exact Hs|done]. }
    apply wp_bind. eapply wp_exec.
    { unfold free_entry, entry_node, get, lift, modify, mbind, M_bind. simpl.
      rewrite He3, lookup_insert_eq. reflexivity. }
    apply wp_ret. apply HF.
    + unfold unchanged, rest_of in *. simpl in *. rewrite Hp3, He3, Hst3. simpl.
      rewrite Hp1, !delete_insert_id by done. split_and!; [done|done|done|].
      etransitivity; [exact Hr3|exact Hr1].
    + intros Hok. specialize (Hok3 Hok). done.
Qed.

Lemma store_spec w ls recs p lp bs dest :
  stores w ls recs -> pkt (w_pbufs w) p lp bs -> no_empty lp -> storable bs ->
  wp (dtn_storage_store_packet (Some p) (Some dest)) w (fun r w' =>
    rest_of w' = rest_of w /\
    if r then
      (length ls < 5)%nat /\ exists data, stored_one w w' ls recs dest data /\
        (data = stripped bs \/ data = bs) /\ (env_all_ok -> data = stripped bs)
    else unchanged w w' /\
      (env_all_ok -> length ls = 5%nat \/ 65508 < Z.of_nat (length bs))).
Proof.
  intros Hst Hp Hne Hsb. pose proof Hst as [(st & Hw & Hll & Hc) Hlen _ _].
  unfold dtn_storage_store_packet. apply wp_bind, wp_ret. rewrite Hw.
  apply wp_bind. eapply wp_exec; [by eapply stores_not_full|].
  case_bool_decide as Hfull.
  { apply wp_ret. split; [done|]. split; [done|]. by left. }
  eapply wp_copy_packet; [done|done| |].
  - intros k Hno. apply wp_ret. split; [done|]. split; [done|]. intros Hok. right.
    destruct (Z.le_gt_cases (Z.of_nat (length bs)) 65508); [|lia].
    destruct (Hok (w_tick w)) as (_ & Hm & _). rewrite Hno in Hm by done. done.
  - intros b Hle np Ho. pose proof (new_loc_fresh (w_pbufs w)) as Hfr.
    apply wp_bind. eapply (wp_strip_copy _ (w_pbufs w)); [done|done|done|done|done|].
    intros r np' b' bs' w1 Hr Ho' Hp1 Hfr' He1 Hs1 Hf1 Hr1 Hbs.
    rewrite Hr. apply wp_bind. eapply wp_lift; [done|].
    eapply (wp_store_entry w w1 ls recs np' b' bs' dest); try done; [lia| |].
    + intros w' Hu Hnok. split; [by destruct Hu as (_&_&_&?)|]. split; [done|]. done.
    + intros w' H1 H2. split; [done|]. split; [lia|]. exists bs'. split; [done|]. split.
      * naive_solver.
      * intros Hok. destruct Hbs as [?|[Hm _]]; [done|].
        destruct (Hok (w_tick (put_pbuf np b (add_ticks 1 w)))) as (_ & ? & _). congruence.
Qed.

(** ** Taking an entry out of the list *)

Lemma unlink_spec w ls recs f c v test :
  stores w ls recs -> find_first f ls = Some (c, v) ->
  (forall l e, (l, e) ∈ ls -> test e = Ret (f e)) ->
  exists st prev w1, w_storage w = Some st /\
    find_node (S (size (w_entries w))) (w_entries w) test (packet_list_head st) = Ret (Some (prev, c)) /\
    unlink_entry st prev c w = Ret (tt, w1) /\
    (exists nx, w_entries w1 !! c = Some (Node v nx)) /\
    (exists st1, w_storage w1 = Some st1 /\
       llist (delete c (w_entries w1)) (packet_list_head st1) (remove_first f ls) /\
       stored_packets_count st1 = Z.of_nat (length (remove_first f ls))) /\
    w_pbufs w1 = w_pbufs w /\ w_files w1 = w_files w /\ rest_of w1 = rest_of w.
Proof.
  intros [(st & Hst & Hll & Hc) Hb _ _] Hf Ht.
  pose proof (find_unlink_spec (w_entries w) (packet_list_head st) test f ls
                (S (size (w_entries w))) Hll Ht) as Hu.
  rewrite Hf in Hu. pose proof (remove_first_length _ _ _ _ Hf) as Hlen.
  destruct Hu as (prev & h' & hd' & Hfind & Hun & Hll' & Hsame & Hin & _ & _).
  { apply llist_length in Hll. lia. }
  exists st, prev, (set_storage (Some (set_list hd' (u64 (stored_packets_count st - 1)) st))
                      (set_entries (fun _ => h') w)).
  split_and!; [done|done| | | |done|done|done].
  - unfold unlink_entry, get, lift, modify, mbind, M_bind. rewrite Hun. reflexivity.
  - destruct (llist_elem _ _ _ _ _ Hll Hin) as [nx Hnx]. exists nx. simpl. by rewrite Hsame.
  - eexists. split_and!; [done|exact Hll'|]. simpl. rewrite Hc. unfold u64.
    rewrite Z.mod_small; lia.
Qed.

Lemma find_none w ls recs f test :
  stores w ls recs -> find_first f ls = None -> (forall l e, (l, e) ∈ ls -> test e = Ret (f e)) ->
  exists st, w_storage w = Some st /\
    find_node (S (size (w_entries w))) (w_entries w) test (packet_list_head st) = Ret None.
Proof.
  intros [(st & Hst & Hll & Hc) Hb _ _] Hf Ht. exists st. split; [done|].
  pose proof (find_unlink_spec (w_entries w) (packet_list_head st) test f ls
                (S (size (w_entries w))) Hll Ht) as Hu. rewrite Hf in Hu.
  apply Hu. apply llist_length in Hll. lia.
Qed.

Lemma remove_disk_exec w name st :
  w_storage w = Some st ->
  exists r w', dtn_storage_remove_packet_from_disk name w = Ret (r, w') /\
    w_pbufs w' = w_pbufs w /\ w_entries w' = w_entries w /\ w_storage w' = w_storage w /\
    rest_of w' = rest_of w /\ (env_all_ok -> w_files w' = delete name (w_files w)).
Proof.
  intros Hst. unfold dtn_storage_remove_packet_from_disk, get, next_tick, modify, mbind, M_bind.
  rewrite Hst. destruct (env_remove (w_tick w)) eqn:E.
  - case_bool_decide as Hf; simpl; eexists _, _; split_and!; try done.
    intros _. simpl. symmetry. apply delete_id. by apply eq_None_not_Some.
  - simpl. eexists _, _. split_and!; try done. intros Hok.
    destruct (Hok (w_tick w)) as (_&_&_&_&?). congruence.
Qed.

Definition rec_matches (target : ip6_addr) (r : stored_rec) : bool :=
  ip6_addr_zoneless_eq (r_dest r) target.

Lemma dest_matches_rep h target x r :
  entry_rep h x r -> dest_matches target x.2 = rec_matches target r.
Proof.
  intros (p & b & -> & _). unfold dest_matches, rec_matches, ip6_addr_cmp. simpl.
  by rewrite andb_true_r.
Qed.

(** The list without the entry, and the entry detached. *)
Lemma retrieve_spec w ls recs target :
  stores w ls recs ->
  wp (dtn_storage_retrieve_packet_for_dest (Some target)) w (fun r w' =>
    w_pbufs w' = w_pbufs w /\ rest_of w' = rest_of w /\
    match take_first (rec_matches target) recs with
    | None => r = None /\ w' = w
    | Some (rc, recs') => exists c v ls', r = Some c /\ stores w' ls' recs' /\
        ls' = remove_first (dest_matches target) ls /\ (c, v) ∈ ls /\ (c ∉ ls'.*1) /\
        w_entries w' !! c = Some (Node v None) /\ entry_rep (w_pbufs w') (c, v) rc /\
        (sp_p v ∉ entry_pbufs ls') /\
        (env_all_ok -> w_files w' = delete (r_file rc) (w_files w))
    end).
Proof.
  intros Hst. unfold dtn_storage_retrieve_packet_for_dest. apply wp_bind, wp_ret.
  pose proof (take_first_rep (w_pbufs w) (dest_matches target) (rec_matches target) ls recs
                (st_recs _ _ _ Hst) (Forall2_impl _ _ _ _ (st_recs _ _ _ Hst)
                   (fun x r => dest_matches_rep _ _ x r))) as Htf.
  destruct (find_first (dest_matches target) ls) as [[c v]|] eqn:Ef.
  - destruct Htf as (rc & recs' & -> & Hrep & HF).
    destruct (unlink_spec w ls recs _ c v (fun e => Ret (dest_matches target e)) Hst Ef)
      as (st & prev & w1 & Hw & Hfn & Hun & (nx & Hnx) & (st1 & Hw1 & Hll1 & Hc1) & Hp1 & Hf1 & Hr1);
      [done|].
    rewrite Hw. apply wp_bind. eapply wp_lift; [exact Hfn|].
    apply wp_bind. eapply wp_exec; [exact Hun|]. apply wp_bind.
    eapply wp_exec; [unfold entry_node, get, lift, mbind, M_bind; by rewrite Hnx|].
    apply wp_bind. destruct (remove_disk_exec w1 (filename v) st1 Hw1)
      as (r & w2 & Hrm & Hp2 & He2 & Hs2 & Hr2 & Hf2). eapply wp_exec; [exact Hrm|].
    apply wp_bind, wp_ret, wp_ret. cbn [n_val].
    assert (Hni : c ∉ (remove_first (dest_matches target) ls).*1).
    { apply find_first_Some in Ef as (l1 & l2 & E & _ & _ & ->).
      destruct Hst as [(? & _ & Hll & _) _ _ _]. apply llist_NoDup in Hll. rewrite E, fmap_app in Hll.
      apply NoDup_app in Hll as (_ & Hx & [Hy _]%NoDup_cons). rewrite fmap_app. set_solver. }
    split_and!; [simpl; by rewrite Hp2, Hp1|etransitivity; [exact Hr2|exact Hr1]|].
    exists c, v, (remove_first (dest_matches target) ls). split_and!; try done.
    2: { apply find_first_Some in Ef as (l1 & l2 & -> & _). set_solver. }
    + split.
      * exists st1. simpl. rewrite Hs2, He2. split_and!; [done| |done].
        rewrite <-insert_delete_eq. apply llist_insert_fresh; [apply lookup_delete_eq|done].
      * pose proof (remove_first_length _ _ _ _ Ef). pose proof (st_bound _ _ _ Hst). lia.
      * simpl. by rewrite Hp2, Hp1.
      * eapply sublist_NoDup; [exact (st_distinct _ _ _ Hst)|apply entry_pbufs_remove].
    + apply lookup_insert_eq.
    + simpl. by rewrite Hp2, Hp1.
    + eapply entry_pbufs_taken; [exact (st_distinct _ _ _ Hst)|done].
    + intros Hok. simpl. rewrite (Hf2 Hok), Hf1.
      destruct Hrep as (p & b & E & _). simpl in E. by rewrite E.
  - rewrite Htf. destruct (find_none w ls recs _ (fun e => Ret (dest_matches target e)) Hst Ef)
      as (st & Hw & Hfn); [done|].
    rewrite Hw. apply wp_bind. eapply wp_lift; [exact Hfn|]. by apply wp_ret.
Qed.

(** [c] is an entry with the fields of [rc] and [q] a buffer with its packet, both
    new in [w'], which otherwise is [w]. *)
Definition copied_rec (w w' : world) (c : loc) (rc : stored_rec) : Prop :=
  exists q b, w_entries w !! c = None /\ w_pbufs w !! q = None /\
    w_entries w' = <[c := Node (mk_entry (Some q) (r_dest rc) (r_time rc)
                                 (take (MAX_PATH_LENGTH - 1) (r_file rc))) None]> (w_entries w) /\
    w_pbufs w' = <[q := Node b None]> (w_pbufs w) /\ single (w_pbufs w') q b (r_data rc) /\
    w_storage w' = w_storage w /\ w_files w' = w_files w /\ rest_of w' = rest_of w.

Lemma copied_stores w w' c rc ls recs : copied_rec w w' c rc -> stores w ls recs -> stores w' ls recs.
Proof.
  intros (q & b & Hc & Hq & He & Hp & _ & Hs & _ & _) [(st & Hst & Hll & Hn) Hb Hrp Hd]. split; [|done| |done].
  - exists st. rewrite Hs, He. split_and!; [done| |done]. by apply llist_insert_fresh.
  - rewrite Hp. by apply entries_rep_fresh.
Qed.

Lemma copy_entry_spec w c v nx rc :
  w_entries w !! c = Some (Node v nx) -> entry_rep (w_pbufs w) (c, v) rc ->
  (0 < length (r_data rc))%nat -> Z.of_nat (length (r_data rc)) <= 60000 ->
  wp (copy_entry c) w (fun r w' =>
    match r with Some e => copied_rec w w' e rc | None => ~ env_all_ok /\ exists k, w' = add_ticks k w end).
Proof.
  intros Hnc (p & b & Hv & Hs & Hr) Hl0 Hl1. unfold copy_entry. simpl in Hv.
  apply wp_bind, wp_malloc. destruct (env_malloc (w_tick w)) eqn:Em; cbn [negb].
  2: { apply wp_ret. split; [|by exists 1%nat]. intros Ha. destruct (Ha (w_tick w)). congruence. }
  apply wp_bind. eapply wp_exec; [unfold entry_node, get, lift, mbind, M_bind; cbn; by rewrite Hnc|]. cbn [n_val].
  apply wp_bind. eapply wp_lift; [by rewrite Hv|].
  apply wp_bind. eapply wp_exec; [by eapply (pb_node_exec p b (r_data rc))|].
  cbn [n_val]. pose proof (single_length _ _ _ _ Hs) as Hsl. pose proof Hs as (Hpw & _ & Htot & _). apply wp_bind.
  apply wp_alloc_ram; [by left|lia| |].
  { intros Hm. apply wp_ret. rewrite add_ticks_add. split; [|by exists (1 + 1)%nat].
    intros Ha. destruct (Ha (w_tick (add_ticks 1 w))) as (_ & ? & _). congruence. }
  intros b0 F w1 Hm HF0 Hr0 (b1 & -> & Hs1 & Hr1). cbn [w_pbufs add_ticks] in *. set (q := new_loc (w_pbufs w)) in *.
  assert (Hq : w_pbufs w !! q = None) by apply new_loc_fresh. assert (Hne : q <> p) by congruence.
  set (w1 := put_pbuf q b1 _) in *.
  destruct (pbuf_copy_ok (w_pbufs w1) q b1 F p [(p, b)] (r_data rc)) as (b2 & E & Hs2 & Hb2);
    [by apply single_pkt, single_put_ne|by constructor; [cbn; lia|]|exact Hs1|set_solver|lia|].
  apply wp_bind, wp_get, wp_bind. eapply wp_lift; [exact E|]. apply wp_bind, wp_modify. cbn [fst snd].
  rewrite bool_decide_eq_true_2 by done. cbn [negb]. apply wp_bind, wp_get, wp_bind, wp_modify, wp_ret.
  exists q, b2. split_and!; [apply new_loc_fresh|done|by rewrite Hv|cbn; by rewrite insert_insert_eq|exact Hs2|done|done|done].
Qed.

(** A copy of the oldest packet for [target], in an entry and a buffer of its own;
    the store is as before. *)
Lemma copy_spec w ls recs target :
  stores w ls recs -> Forall (fun r => (0 < length (r_data r))%nat /\ Z.of_nat (length (r_data r)) <= 60000) recs ->
  wp (dtn_storage_get_packet_copy_for_dest (Some target)) w (fun r w' =>
    stores w' ls recs /\
    match take_first (rec_matches target) recs, r with
    | None, _ => r = None /\ w' = w
    | Some (rc, _), Some c => copied_rec w w' c rc
    | Some _, None => ~ env_all_ok /\ exists k, w' = add_ticks k w
    end).
Proof.
  intros Hst Hlen. unfold dtn_storage_get_packet_copy_for_dest. apply wp_bind, wp_get.
  pose proof (take_first_rep (w_pbufs w) (dest_matches target) (rec_matches target) ls recs
                (st_recs _ _ _ Hst) (Forall2_impl _ _ _ _ (st_recs _ _ _ Hst)
                   (fun x r => dest_matches_rep _ _ x r))) as Htf.
  destruct (find_first (dest_matches target) ls) as [[c v]|] eqn:Ef.
  2: { rewrite Htf. destruct (find_none w ls recs _ (fun e => Ret (dest_matches target e)) Hst Ef)
         as (st & Hw & Hfn); [done|].
       rewrite Hw. apply wp_bind. eapply wp_lift; [exact Hfn|]. by apply wp_ret. }
  destruct Htf as (rc & recs' & Et & Hrep & HF). rewrite Et.
  destruct (take_first_length _ _ _ _ Et) as (_ & _ & Hin).
  destruct (proj1 (Forall_forall _ _) Hlen rc Hin) as [Hl0 Hl1].
  destruct (unlink_spec w ls recs _ c v (fun e => Ret (dest_matches target e)) Hst Ef)
    as (st & prev & _ & Hw & Hfn & _ & _); [done|].
  assert (exists nx, w_entries w !! c = Some (Node v nx)) as [nx Hnc].
  { destruct Hst as [(st' & _ & Hll & _) _ _ _]. apply find_first_Some in Ef as (l1 & l2 & -> & _).
    eapply llist_elem; [exact Hll|]. set_solver. }
  rewrite Hw. apply wp_bind. eapply wp_lift; [exact Hfn|].
  eapply wp_mono; [by apply (copy_entry_spec w c v nx rc)|]. intros [e|] w' Hc.
  - split; [by eapply copied_stores|exact Hc].
  - split; [|exact Hc]. destruct Hc as (_ & k & ->). by apply (unchanged_stores w).
Qed.

(** Removing an entry together with its file, its packet and its memory. *)
Lemma drop_exec w ls recs f g c v test :
  stores w ls recs -> find_first f ls = Some (c, v) ->
  (forall l e, (l, e) ∈ ls -> test e = Ret (f e)) ->
  Forall2 (fun x r => f x.2 = g r) ls recs ->
  exists st prev w' rc recs' p, w_storage w = Some st /\
    find_node (S (size (w_entries w))) (w_entries w) test (packet_list_head st) = Ret (Some (prev, c)) /\
    drop_entry st prev c w = Ret (tt, w') /\
    take_first g recs = Some (rc, recs') /\ stores w' (remove_first f ls) recs' /\
    sp_p v = Some p /\ w_pbufs w' = delete p (w_pbufs w) /\ w_entries w' !! c = None /\
    rest_of w' = rest_of w /\ (env_all_ok -> w_files w' = delete (r_file rc) (w_files w)).
Proof.
  intros Hst Ef Ht Hfg.
  pose proof (take_first_rep (w_pbufs w) f g ls recs (st_recs _ _ _ Hst) Hfg) as Htf.
  rewrite Ef in Htf. destruct Htf as (rc & recs' & Htk & (p & b & Ev & Hs & Hr) & HF). simpl in Ev.
  destruct (unlink_spec w ls recs f c v test Hst Ef Ht)
    as (st & prev & w1 & Hw & Hfn & Hun & (nx & Hnx) & (st1 & Hw1 & Hll1 & Hc1) & Hp1 & Hf1 & Hr1).
  destruct (remove_disk_exec w1 (filename v) st1 Hw1)
    as (r & w2 & Hrm & Hp2 & He2 & Hs2 & Hr2 & Hf2).
  exists st, prev, (set_entries (delete c) (set_pbufs (delete p) w2)), rc, recs', p.
  split_and!; try done.
  - unfold drop_entry. rewrite (bind_exec _ _ _ _ _ Hun).
    assert (Hn : entry_node c w1 = Ret (Node v nx, w1))
      by (unfold entry_node, get, lift, mbind, M_bind; by rewrite Hnx).
    exec Hn. exec Hrm. cbn [n_val]. rewrite Ev. cbn [sp_p deref].
    rewrite (bind_exec (lift (Ret p)) _ w2 p w2) by done.
    assert (Hfp : pbuf_free_m p w2 = Ret (1, set_pbufs (delete p) w2))
      by (apply (pbuf_free_m_exec p b (r_data rc)); [by rewrite Hp2, Hp1|done]).
    exec Hfp. unfold free_entry, entry_node, get, lift, modify, mbind, M_bind. simpl.
    rewrite He2, Hnx. done.
  - split.
    + exists st1. simpl. rewrite Hs2, He2. done.
    + pose proof (remove_first_length _ _ _ _ Ef). pose proof (st_bound _ _ _ Hst). lia.
    + simpl. rewrite Hp2, Hp1. eapply entries_rep_frame; [|done]. intros q Hq.
      apply lookup_delete_ne. intros ->. revert Hq.
      pose proof (entry_pbufs_taken f ls c v (st_distinct _ _ _ Hst) Ef) as Hni.
      by rewrite Ev in Hni.
    + eapply sublist_NoDup; [exact (st_distinct _ _ _ Hst)|apply entry_pbufs_remove].
  - by rewrite Ev.
  - simpl. by rewrite Hp2, Hp1.
  - apply lookup_delete_eq.
  - etransitivity; [exact Hr2|exact Hr1].
  - intros Hok. simpl. by rewrite (Hf2 Hok), Hf1, Ev.
Qed.

(** ** Deleting by the quoted header *)

Definition rec_header_matches (hdr : list Z) (r : stored_rec) : bool :=
  (40 <=? Z.of_nat (length (r_data r))) &&
  bool_decide (slice 8 16 (r_data r) = slice 8 16 hdr) &&
  bool_decide (slice 24 16 (r_data r) = slice 24 16 hdr).

Lemma header_matches_rep h hdr x r :
  entry_rep h x r -> header_matches h hdr x.2 = Ret (rec_header_matches hdr r).
Proof.
  intros (p & b & -> & Hs & _). pose proof (single_length _ _ _ _ Hs) as Hl.
  destruct Hs as (Hp & Hb & _ & Hd). unfold header_matches, rec_header_matches. simpl.
  rewrite Hp. simpl. rewrite Hl. unfold IP6_HLEN. rewrite Z.ltb_antisym.
  destruct (Z.leb_spec 40 (pb_len b)); simpl; [|done].
  unfold OFF_SRC, OFF_DEST. rewrite (payload_rd_ok b 8 16), (payload_rd_ok b 24 16) by (done || lia).
  simpl. rewrite Hd. change (Z.to_nat 8) with 8%nat. change (Z.to_nat 16) with 16%nat.
  change (Z.to_nat 24) with 24%nat. by case_bool_decide.
Qed.

(** The answer of a total test, as a function. *)
Definition verdict_of (test : Stored_Packet_Entry -> outcome bool) (e : Stored_Packet_Entry) : bool :=
  match test e with Ret b => b | _ => false end.

Lemma stores_elem w ls recs l e :
  stores w ls recs -> (l, e) ∈ ls -> exists r, r ∈ recs /\ entry_rep (w_pbufs w) (l, e) r.
Proof.
  intros [_ _ HF _] [i Hi]%list_elem_of_lookup.
  destruct (Forall2_lookup_l _ _ _ _ _ HF Hi) as (r & Hr & Hx).
  exists r. split; [by eapply list_elem_of_lookup_2|done].
Qed.

(** Post state of a deletion that searches with the record test [g]. *)
Definition deleted_first (g : stored_rec -> bool) (ls : list (loc * Stored_Packet_Entry)) recs
    (w w' : world) : Prop :=
  rest_of w' = rest_of w /\
  match take_first g recs with
  | None => w' = w
  | Some (rc, recs') => exists ls' p, stores w' ls' recs' /\ ls' `sublist_of` ls /\
      w_pbufs w' = delete p (w_pbufs w) /\ Some p ∈ entry_pbufs ls /\
      (env_all_ok -> w_files w' = delete (r_file rc) (w_files w))
  end.

Lemma find_drop w ls recs test g :
  stores w ls recs ->
  (forall x r, entry_rep (w_pbufs w) x r -> r ∈ recs -> test x.2 = Ret (g r)) ->
  exists st w', w_storage w = Some st /\
    (m ← lift (find_node (S (size (w_entries w))) (w_entries w) test (packet_list_head st));
     match m with None => mret tt | Some (prev, c) => drop_entry st prev c end) w = Ret (tt, w') /\
    deleted_first g ls recs w w'.
Proof.
  intros Hst Hg.
  assert (Ht : forall l e, (l, e) ∈ ls -> test e = Ret (verdict_of test e)).
  { intros l e Hin. destruct (stores_elem _ _ _ _ _ Hst Hin) as (r & Hr & Hx).
    pose proof (Hg _ _ Hx Hr) as E. simpl in E. unfold verdict_of. by rewrite E. }
  assert (HF : Forall2 (fun x r => verdict_of test x.2 = g r) ls recs).
  { pose proof (st_recs _ _ _ Hst) as HF. apply Forall2_same_length_lookup_2.
    - by eapply Forall2_length.
    - intros i x r Hx Hr. unfold verdict_of. rewrite (Hg x r); [done| |by eapply list_elem_of_lookup_2].
      by eapply (Forall2_lookup_lr _ _ _ i). }
  unfold deleted_first. destruct (find_first (verdict_of test) ls) as [[c v]|] eqn:Ef.
  - destruct (drop_exec w ls recs _ g c v test Hst Ef Ht HF)
      as (st & prev & w' & rc & recs' & p & Hw & Hfn & Hdr & Htk & Hst' & Hv & Hp' & _ & Hr & Hf).
    exists st, w'. split_and!; [done| |done|].
    + rewrite (bind_exec (lift _) _ w (Some (prev, c)) w) by (unfold lift; by rewrite Hfn). done.
    + rewrite Htk. exists (remove_first (verdict_of test) ls), p.
      split_and!; try done; [apply remove_first_sublist|].
      rewrite <-Hv.
      apply find_first_Some in Ef as (l1 & l2 & -> & _). unfold entry_pbufs. rewrite fmap_app. set_solver.
  - destruct (find_none w ls recs _ test Hst Ef Ht) as (st & Hw & Hfn).
    exists st, w. split_and!; [done| |done|].
    + rewrite (bind_exec (lift _) _ w None w) by (unfold lift; by rewrite Hfn). done.
    + pose proof (take_first_rep _ _ g ls recs (st_recs _ _ _ Hst) HF) as Htf.
      rewrite Ef in Htf. by rewrite Htf.
Qed.

Lemma delete_by_header_spec w ls recs hdr :
  stores w ls recs ->
  exists w', dtn_storage_delete_packet_by_ip_header (Some hdr) w = Ret (tt, w') /\
    deleted_first (rec_header_matches hdr) ls recs w w'.
Proof.
  intros Hst. destruct (find_drop w ls recs (header_matches (w_pbufs w) hdr) (rec_header_matches hdr) Hst)
    as (st & w' & Hw & He & Hd).
  { intros x r Hx _. by apply header_matches_rep. }
  exists w'. split; [|done]. unfold dtn_storage_delete_packet_by_ip_header.
  rewrite (bind_exec get _ w w w) by done. by rewrite Hw.
Qed.

(** ** Deleting by the quoted packet *)

Definition same_source (src : list Z) (r : stored_rec) : bool :=
  (40 <=? Z.of_nat (length (r_data r))) && bool_decide (slice 8 16 (r_data r) = src).

(** The confirmed packet has this source and protocol and, if it is long
    enough, these first payload bytes. *)
Definition rec_quote_matches (src : list Z) (nexth count : Z) (bytes : list Z) (r : stored_rec) : bool :=
  same_source src r &&
  ((Z.of_nat (length (r_data r)) <? 40 + count) ||
   bool_decide (slice 40 (Z.to_nat count) (r_data r) = bytes)) &&
  (hdr_nexth (r_data r) =? nexth).

Lemma icmp_verdict_rep h q x r bytes :
  entry_rep h x r -> 0 < q_count q ->
  (same_source (q_src q) r = true -> hdr_nexth (r_data r) <> 0 ->
   40 + q_count q <= Z.of_nat (length (r_data r)) -> q_read q = Ret bytes) ->
  icmp_verdict h q x.2 =
    Ret (if same_source (q_src q) r && (hdr_nexth (r_data r) =? 0) then Again
         else if rec_quote_matches (q_src q) (q_nexth q) (q_count q) bytes r then Match else Advance).
Proof.
  intros (p & b & -> & Hs & _) Hc Hrd. pose proof (single_length _ _ _ _ Hs) as Hl.
  destruct Hs as (Hp & Hb & _ & Hd). unfold icmp_verdict, rec_quote_matches, same_source in *.
  cbn [sp_p snd]. rewrite Hp. cbn [deref mbind outcome_bind n_val]. rewrite Hl in *.
  unfold IP6_HLEN. rewrite Z.ltb_antisym.
  destruct (Z.leb_spec 40 (pb_len b)) as [H40|?]; cbn [negb andb]; [|done].
  unfold OFF_SRC, OFF_NEXTH. rewrite (payload_rd_ok b 8 16), (payload_rd_ok b 6 1) by (done || lia).
  cbn [mbind outcome_bind]. rewrite Hd. change (Z.to_nat 8) with 8%nat.
  change (Z.to_nat 16) with 16%nat. change (Z.to_nat 6) with 6%nat. change (Z.to_nat 1) with 1%nat.
  case_bool_decide as Hsrc; cbn [negb andb]; [|done].
  rewrite byte_at_slice by (rewrite <-Hd in *; lia). change (byte_at 0 [byte_at 6 (r_data r)]) with (hdr_nexth (r_data r)).
  unfold IP6_NEXTH_HOPBYHOP. destruct (Z.eqb_spec (hdr_nexth (r_data r)) 0); [done|].
  rewrite (proj2 (Z.ltb_lt 0 _)) by done. cbn [andb]. rewrite (Z.ltb_antisym (40 + _)).
  destruct (Z.leb_spec (40 + q_count q) (pb_len b)) as [Hle|Hgt]; cbn [negb orb].
  - rewrite (payload_rd_ok b 40 (q_count q)) by (done || lia). cbn [mbind outcome_bind].
    rewrite Hrd by done. cbn [mbind outcome_bind]. rewrite Hd.
    change (Z.to_nat 40) with 40%nat. by destruct (_ && _).
  - cbn [mbind outcome_bind andb]. by destruct (_ =? _).
Qed.

Definition icmp_test (h : pheap) (q : quoted) (e : Stored_Packet_Entry) : outcome bool :=
  v ← icmp_verdict h q e; Ret (match v with Match => true | _ => false end).

(** Without a [continue] the search is the plain search. *)
Lemma icmp_find es h q ls fuel prev cur :
  llist es cur ls ->
  (forall l e, (l, e) ∈ ls -> icmp_verdict h q e = Ret Match \/ icmp_verdict h q e = Ret Advance) ->
  oloop fuel (icmp_body es h q) (prev, cur) = oloop fuel (find_body es (icmp_test h q)) (prev, cur).
Proof.
  revert prev cur ls. induction fuel as [|fuel IH]; intros prev cur ls Hll Hv; [done|].
  destruct ls as [|[l e] ls]; simpl in Hll; [by subst cur|].
  destruct Hll as [-> (q' & Hl & Hr)].
  destruct (Hv l e) as [E|E]; [set_solver| |].
  - rewrite !(oloop_exit _ _ _ (Some (prev, l))); [done| |];
      unfold find_body, icmp_body, icmp_test; simpl; rewrite Hl; simpl; by rewrite E.
  - rewrite !(oloop_step _ _ _ (Some l, q')); cycle 1;
      [unfold find_body, icmp_body, icmp_test; simpl; rewrite Hl; simpl; by rewrite E ..|].
    apply (IH _ _ ls Hr). intros k v ?. apply (Hv k v). set_solver.
Qed.

(** An entry that asks for another look at itself stops the search for good. *)
Lemma icmp_again es h q l1 l e l2 fuel prev cur :
  llist es cur (l1 ++ (l, e) :: l2) ->
  (forall k v, (k, v) ∈ l1 -> icmp_verdict h q v = Ret Advance) ->
  icmp_verdict h q e = Ret Again ->
  oloop fuel (icmp_body es h q) (prev, cur) = Hang.
Proof.
  revert fuel prev cur. induction l1 as [|[k v] l1 IH]; intros fuel prev cur Hll Hv He; simpl in Hll;
    destruct Hll as [-> (q' & Hl & Hr)].
  - apply oloop_hang. unfold icmp_body. simpl. rewrite Hl. simpl. by rewrite He.
  - destruct fuel as [|fuel]; [done|]. rewrite (oloop_step _ _ _ (Some k, q')).
    + apply IH; [done| |done]. intros k' v' ?. apply (Hv k' v'). set_solver.
    + unfold icmp_body. simpl. rewrite Hl. simpl. rewrite (Hv k v) by set_solver. done.
Qed.

(** The quoted packet of the confirmation [m]. *)
Definition quote_src (m : list Z) : list Z := slice 65 16 m.
Definition quote_nexth (m : list Z) : Z := byte_at 63 m.
Definition quote_payload (m : list Z) : list Z := slice 97 8 m.
Definition quote_count (m : list Z) : Z :=
  u8 (8 - (if quote_nexth m =? 0 then u16 ((byte_at 98 m + 1) * 8) else 0)).
Definition quote_proto (m : list Z) : Z :=
  if quote_nexth m =? 0 then byte_at 97 m else quote_nexth m.

Lemma delete_by_icmp_unfold w ls recs ip b m fuel :
  stores w ls recs -> recs <> [] -> single (w_pbufs w) ip b m -> (105 <= length m)%nat ->
  quote_count m <> 0 ->
  exists st rd, w_storage w = Some st /\
    (quote_nexth m <> 0 -> rd = Ret (quote_payload m)) /\
    delete_by_icmp_with_fuel fuel (Some ip) w =
      (r ← lift (oloop fuel (icmp_body (w_entries w) (w_pbufs w)
                   (mk_quoted (quote_src m) (quote_proto m) (quote_count m) rd))
                  (None, packet_list_head st));
       match r with None => mret tt | Some (prev, c) => drop_entry st prev c end) w.
Proof.
  intros Hst Hne Hs Hl Hq. pose proof Hst as [(st & Hw & Hll & _) _ HF _].
  exists st. eexists. split; [done|]. split; [shelve|].
  unfold delete_by_icmp_with_fuel. rewrite (bind_exec get _ w w w) by done. rewrite Hw.
  destruct (packet_list_head st) as [hd|] eqn:Eh.
  2: { destruct ls as [|[] ls]; simpl in Hll; [|naive_solver].
       apply Forall2_nil_inv_l in HF. done. }
  exec (pb_node_exec _ _ _ _ Hs). cbn [n_val].
  pose proof (single_length _ _ _ _ Hs) as Hbl. unfold IP6_HLEN, ICMP_QUOTE_OFF, IP6_HLEN.
  destruct (Z.ltb_spec (pb_len b) (40 + 8 + 9 + 40 + 8)); [lia|].
  exec (pread_exec _ _ _ _ (40 + 8 + 9) 40 Hs ltac:(lia) ltac:(lia) ltac:(lia)).
  exec (pread_exec _ _ _ _ (40 + 8 + 9 + 40) 2 Hs ltac:(lia) ltac:(lia) ltac:(lia)).
  change (Z.to_nat (40 + 8 + 9)) with 57%nat. change (Z.to_nat 40) with 40%nat.
  change (Z.to_nat (40 + 8 + 9 + 40)) with 97%nat. change (Z.to_nat 2) with 2%nat.
  assert (E6 : byte_at 6 (slice 57 40 m) = quote_nexth m)
    by (rewrite byte_at_of_slice by lia; done).
  assert (E0 : byte_at 0 (slice 97 2 m) = byte_at 97 m) by (rewrite byte_at_of_slice by lia; done).
  assert (E1 : byte_at 1 (slice 97 2 m) = byte_at 98 m) by (rewrite byte_at_of_slice by lia; done).
  rewrite E6, E0, E1, slice_slice by lia. unfold IP6_NEXTH_HOPBYHOP.
  fold (quote_proto m). fold (quote_count m).
  destruct (Z.leb_spec (quote_count m) 0).
  { pose proof (u8_range (8 - (if quote_nexth m =? 0 then u16 ((byte_at 98 m + 1) * 8) else 0))) as Hr.
    fold (quote_count m) in Hr. lia. }
  reflexivity.
  Unshelve. intros Hnx. pose proof (single_length _ _ _ _ Hs) as Hbl.
  unfold quote_count, quote_payload. rewrite (proj2 (Z.eqb_neq _ 0) Hnx).
  destruct Hs as (_ & Hb & _ & <-). change (u8 (8 - 0)) with 8.
  by rewrite payload_rd_ok by (done || lia).
Qed.

(** No stored packet of this source starts with a hop-by-hop header. *)
Definition no_hbh_from (src : list Z) (recs : list stored_rec) : Prop :=
  Forall (fun r => same_source src r = true -> hdr_nexth (r_data r) <> 0) recs.

Lemma delete_by_icmp_spec w ls recs ip b m :
  stores w ls recs -> single (w_pbufs w) ip b m -> (105 <= length m)%nat ->
  quote_count m <> 0 -> no_hbh_from (quote_src m) recs ->
  (quote_nexth m = 0 -> Forall (fun r => same_source (quote_src m) r = true ->
     Z.of_nat (length (r_data r)) < 40 + quote_count m) recs) ->
  exists w', dtn_storage_delete_packet_by_icmp_data (Some ip) w = Ret (tt, w') /\
    deleted_first (rec_quote_matches (quote_src m) (quote_proto m) (quote_count m) (quote_payload m))
      ls recs w w'.
Proof.
  intros Hst Hs Hl Hq Hno Hlong. unfold dtn_storage_delete_packet_by_icmp_data.
  rewrite (bind_exec get _ w w w) by done.
  destruct (decide (recs = [])) as [->|Hne].
  { exists w. split; [|done]. destruct Hst as [(st & Hw & Hll & _) _ HF _].
    apply Forall2_nil_inv_r in HF as ->. simpl in Hll.
    unfold delete_by_icmp_with_fuel. rewrite (bind_exec get _ w w w) by done. by rewrite Hw, Hll. }
  destruct (delete_by_icmp_unfold w ls recs ip b m (S (size (w_entries w))) Hst Hne Hs Hl Hq)
    as (st & rd & Hw & Hrd & ->).
  set (q := mk_quoted _ _ _ _).
  pose proof (u8_range (8 - (if quote_nexth m =? 0 then u16 ((byte_at 98 m + 1) * 8) else 0))) as Hcr.
  fold (quote_count m) in Hcr.
  assert (Hv : forall x r, entry_rep (w_pbufs w) x r -> r ∈ recs -> icmp_verdict (w_pbufs w) q x.2 =
    Ret (if rec_quote_matches (quote_src m) (quote_proto m) (quote_count m) (quote_payload m) r
         then Match else Advance)).
  { intros x r Hx Hr. rewrite (icmp_verdict_rep _ q x r (quote_payload m)); [|done|simpl; lia|].
    - simpl. destruct (same_source _ r) eqn:E; cbn [andb]; [|done].
      unfold no_hbh_from in Hno. rewrite Forall_forall in Hno.
      by rewrite (proj2 (Z.eqb_neq _ 0) (Hno r Hr E)).
    - simpl. intros E _ Hle. apply Hrd. intros Hz. specialize (Hlong Hz).
      rewrite Forall_forall in Hlong. specialize (Hlong r Hr E). lia. }
  destruct (find_drop w ls recs (icmp_test (w_pbufs w) q)
    (rec_quote_matches (quote_src m) (quote_proto m) (quote_count m) (quote_payload m)) Hst)
    as (st' & w' & Hw' & He & Hd).
  { intros x r Hx Hr. unfold icmp_test. rewrite (Hv x r Hx Hr). simpl. by destruct (rec_quote_matches _ _ _ _ r). }
  rewrite Hw in Hw'. simplify_eq. exists w'. split; [|done].
  unfold find_node in He. rewrite <-(icmp_find _ _ _ ls) in He; [done| |].
  - destruct Hst as [(? & Hw2 & Hll & _) _ _ _]. rewrite Hw in Hw2. by simplify_eq.
  - intros l e Hin. destruct (stores_elem _ _ _ _ _ Hst Hin) as (r & Hr & Hx).
    pose proof (Hv _ _ Hx Hr) as E. simpl in E. rewrite E.
    destruct (rec_quote_matches _ _ _ _ r); [by left|by right].
Qed.

Lemma delete_by_icmp_hang w ls recs r1 r r2 ip b m fuel :
  stores w ls recs -> recs = r1 ++ r :: r2 -> single (w_pbufs w) ip b m -> (105 <= length m)%nat ->
  quote_count m <> 0 ->
  Forall (fun x => same_source (quote_src m) x = false) r1 ->
  same_source (quote_src m) r = true -> hdr_nexth (r_data r) = 0 ->
  delete_by_icmp_with_fuel fuel (Some ip) w = Hang.
Proof.
  intros Hst -> Hs Hl Hq H1 Hr Hnx.
  destruct (delete_by_icmp_unfold w ls (r1 ++ r :: r2) ip b m fuel Hst) as (st & rd & Hw & Hrd & ->);
    try done; [by destruct r1|].
  set (q := mk_quoted _ _ _ _). apply bind_hang.
  destruct Hst as [(st' & Hw' & Hll & _) _ HF _]. rewrite Hw in Hw'. simplify_eq.
  apply Forall2_app_inv_r in HF as (l1 & l2 & HF1 & HF2 & ->).
  apply Forall2_cons_inv_r in HF2 as ([l e] & l2' & Hx & _ & ->).
  pose proof (u8_range (8 - (if quote_nexth m =? 0 then u16 ((byte_at 98 m + 1) * 8) else 0))) as Hcr.
  fold (quote_count m) in Hcr. unfold lift.
  rewrite (icmp_again _ _ _ l1 l e l2'); [done|done| |].
  - intros k v [i Hi]%list_elem_of_lookup.
    destruct (Forall2_lookup_l _ _ _ _ _ HF1 Hi) as (r' & Hr' & Hx').
    rewrite Forall_lookup in H1. specialize (H1 i r' Hr').
    pose proof (icmp_verdict_rep _ q _ _ [] Hx') as E. simpl in E. rewrite E; [|lia|congruence].
    unfold rec_quote_matches. by rewrite H1.
  - pose proof (icmp_verdict_rep _ q _ _ (quote_payload m) Hx) as E. simpl in E.
    rewrite E; [|lia|congruence]. by rewrite Hr, Hnx.
Qed.

(** ** Reading a file back *)

Definition byte_zone (a : ip6_addr) : Prop := ip6_wf a /\ 0 <= zone a < 256.

Lemma encode_decode dest time data :
  byte_zone dest -> 0 <= time < 4294967296 -> Z.of_nat (length data) < 4294967296 ->
  pfh_of_bytes (encode_file dest time data) =
    mk_pfh DTNP 1 time (Z.of_nat (length data)) dest.
Proof.
  intros [(?&?&?&?) Hz] Ht Hd. unfold word32 in *. destruct dest as [a0 a1 a2 a3 z].
  cbn [addr0 addr1 addr2 addr3 zone] in *. unfold pfh_of_bytes, ip6_of_mem, ip6_of_bytes, IP6_ADDR, ip6_addr_set_zone.
  f_equal.
  - exact (le_val_bytes 4 time Ht).
  - exact (le_val_bytes 4 _ (conj (Nat2Z.is_nonneg _) Hd)).
  - cbn [addr0 addr1 addr2 addr3]. f_equal.
    + exact (le_val_bytes 4 a0 H0).
    + exact (le_val_bytes 4 a1 H1).
    + exact (le_val_bytes 4 a2 H2).
    + exact (le_val_bytes 4 a3 H3).
    + exact (le_val_bytes 1 z Hz).
Qed.

Lemma pbuf_alloc_u16 layer n ty : pbuf_alloc layer (u16 n) ty = pbuf_alloc layer n ty.
Proof. unfold pbuf_alloc. by replace (u16 (u16 n)) with (u16 n) by zlia. Qed.

Lemma pbuf_take_u16 (h : pheap) p data :
  pbuf_take h (Some p) data =
    pbuf_take h (Some p) (take (Z.to_nat (u16 (Z.of_nat (length data)))) data).
Proof.
  set (k := u16 (Z.of_nat (length data))).
  assert (Hk : u16 (Z.of_nat (length (take (Z.to_nat k) data))) = k).
  { rewrite length_take. pose proof (u16_range (Z.of_nat (length data))).
    assert (0 <= k <= Z.of_nat (length data)) by (unfold k; zlia).
    rewrite Nat.min_l, Z2Nat.id by lia. by apply u16_small. }
  unfold pbuf_take. rewrite Hk. fold k. by rewrite take_take, Nat.min_id.
Qed.

(** A file that the loader accepts. *)
Definition loadable (content : list Z) : Prop :=
  (36 <= length content)%nat /\ magic (pfh_of_bytes content) = DTNP /\
  0 <= packet_len (pfh_of_bytes content) <= Z.of_nat (length content) - 36.

Lemma wp_load w st name (Q : option loc -> world -> Prop) :
  w_storage w = Some st -> map_Forall (fun _ c => Forall is_byte c) (w_files w) ->
  (forall w', unchanged w w' -> w_files w' = w_files w ->
     (env_all_ok -> forall c, w_files w !! name = Some c -> loadable c ->
        u16 (packet_len (pfh_of_bytes c)) <= 65508 -> False) -> Q None w') ->
  (forall w' content p b e, w_files w !! name = Some content ->
     let hd := pfh_of_bytes content in
     let data := take (Z.to_nat (u16 (packet_len hd))) (drop 36 content) in
     let ent := mk_entry (Some p) (pfh_original_dest hd) (timestamp hd) (take 511 name) in
     w_pbufs w !! p = None -> w_pbufs w' = <[p := Node b None]> (w_pbufs w) ->
     single (w_pbufs w') p b data -> pb_ref b = 1 ->
     w_entries w !! e = None -> w_entries w' = <[e := Node ent None]> (w_entries w) ->
     w_storage w' = w_storage w -> w_files w' = w_files w -> rest_of w' = rest_of w ->
     Q (Some e) w') ->
  wp (dtn_storage_load_packet_from_file name) w Q.
Proof.
  intros Hst Hfiles HN HS. unfold dtn_storage_load_packet_from_file.
  apply wp_bind, wp_ret. rewrite Hst. apply wp_bind. unfold fopen_rb.
  apply wp_bind, wp_tick. apply wp_bind, wp_get, wp_ret. cbn [w_files add_ticks w_tick].
  destruct (env_fopen (w_tick w)) eqn:Ef.
  2: { apply wp_ret. apply HN; try done. intros Hok. destruct (Hok (w_tick w)) as (_&_&?&_). congruence. }
  destruct (w_files w !! name) as [content|] eqn:Ec; [|by apply wp_ret, HN].
  pose proof (Hfiles _ _ Ec) as Hby. simpl in Hby.
  unfold SIZEOF_PFH. destruct (Z.ltb_spec (Z.of_nat (length content)) 36).
  { apply wp_ret. apply HN; try done. intros _ c [= <-] (? & _). lia. }
  set (hd := pfh_of_bytes content).
  case_bool_decide as Hm; cbn [negb].
  2: { apply wp_ret. apply HN; try done. intros _ c [= <-] (_ & ? & _). done. }
  apply wp_bind, wp_malloc.
  set (t1 := w_tick _). destruct (env_malloc t1) eqn:Em; cbn [negb].
  2: { apply wp_ret. apply HN; try done. intros Hok. destruct (Hok t1). congruence. }
  assert (Hpl : 0 <= packet_len hd).
  { unfold hd, pfh_of_bytes. cbn [packet_len]. pose proof (le_val_range (slice 12 4 content)) as Hr.
    destruct Hr; [by apply Forall_slice|lia]. }
  change (Z.to_nat 36) with 36%nat. set (buffer := take (Z.to_nat (packet_len hd)) (drop 36 content)).
  destruct (Z.eqb_spec (Z.of_nat (length buffer)) (packet_len hd)) as [Hbl|Hbl]; cbn [negb].
  2: { apply wp_ret. apply HN; try done. intros _ c [= <-] (_ & _ & Hle). exfalso. apply Hbl.
       unfold buffer. fold hd in Hle. rewrite length_take, length_drop. lia. }
  apply wp_bind. rewrite <-pbuf_alloc_u16. set (w1 := add_ticks 1 (add_ticks 1 w)).
  apply wp_alloc; [apply u16_range| |].
  { intros k Hno. apply wp_ret. apply HN; try done. intros Hok c [= <-] _ Hle.
    destruct (Hok (w_tick w1)) as (_ & Hmm & _). rewrite Hno in Hmm by done. done. }
  intros Hle np b Hs Hl. apply wp_bind, wp_ret, wp_bind.
  assert (Hdb : Forall is_byte buffer) by (by apply Forall_take, Forall_drop).
  rewrite pbuf_take_u16, Hbl. set (data := take (Z.to_nat (u16 (packet_len hd))) buffer).
  assert (Hdl : length data = length (seg_bytes b)).
  { unfold data. rewrite length_take. pose proof (u16_range (packet_len hd)). zlia. }
  destruct (pbuf_take_ok (w_pbufs (put_pbuf np b (add_ticks 1 w1))) np [(np, b)] (seg_bytes b) data)
    as (h' & ls' & Ht & Hp' & Hsh & Hfr); [by apply single_pkt|by apply Forall_take|lia|].
  eapply wp_lift; [exact Ht|]. apply wp_bind, wp_ret. cbn [fst snd].
  rewrite bool_decide_true by done. cbn [negb].
  unfold same_shape in Hsh. apply Forall2_cons_inv_l in Hsh as ([np2 b2] & rst & (E1 & E2 & _) & ->%Forall2_nil_inv_l & ->).
  simpl in E1, E2. subst np2. apply single_pkt in Hp'. rewrite drop_ge, app_nil_r in Hp' by lia.
  assert (Hh' : h' = <[np := Node b2 None]> (w_pbufs w)).
  { apply map_eq. intros k. destruct (decide (k = np)) as [->|Hk].
    - rewrite lookup_insert_eq. by destruct Hp'.
    - rewrite lookup_insert_ne by done. rewrite Hfr by set_solver. by apply lookup_insert_ne. }
  assert (Hrf : pb_ref b2 = 1) by (by rewrite E2).
  assert (Hnew : w_pbufs w !! np = None) by apply new_loc_fresh.
  apply wp_bind, wp_malloc.
  set (t2 := w_tick _). destruct (env_malloc t2) eqn:Em2; cbn [negb].
  2: { apply wp_bind. eapply wp_exec; [by eapply pbuf_free_m_exec|]. apply wp_ret. apply HN.
       - split_and!; try done. simpl. by rewrite Hh', delete_insert_id.
       - done.
       - intros Hok. destruct (Hok t2). congruence. }
  apply wp_bind, wp_get. apply wp_bind, wp_modify, wp_ret.
  eapply (HS _ content np b2 (new_loc (w_entries w))); try done.
  - simpl. unfold data, buffer in Hp'. rewrite take_take in Hp'. fold hd.
    replace (Z.to_nat (u16 (packet_len hd)) `min` Z.to_nat (packet_len hd))%nat
      with (Z.to_nat (u16 (packet_len hd))) in Hp'; [done|].
    pose proof (u16_range (packet_len hd)). zlia.
  - apply new_loc_fresh.
Qed.

Definition files_ok (w : world) : Prop := map_Forall (fun _ c => Forall is_byte c) (w_files w).

(** An entry that is complete and not yet linked joins the store. *)
Lemma link_stores w w' ls recs st e p b r :
  stores w ls recs -> (length ls < 5)%nat -> w_storage w = Some st ->
  w_pbufs w !! p = None -> w_pbufs w' = <[p := Node b None]> (w_pbufs w) ->
  single (w_pbufs w') p b (r_data r) -> pb_ref b = 1 -> w_entries w !! e = None ->
  let ent := mk_entry (Some p) (r_dest r) (r_time r) (r_file r) in
  w_entries w' = <[e := Node ent None]> (w_entries w) -> w_storage w' = w_storage w ->
  exists w'', link_entry st e w' = Ret (tt, w'') /\ stores w'' (ls ++ [(e, ent)]) (recs ++ [r]) /\
    w_files w'' = w_files w' /\ rest_of w'' = rest_of w'.
Proof.
  intros Hst Hlen Hw Hp Hp' Hs Hr He ent He' Hs'.
  pose proof Hst as [(st0 & Hw0 & Hll & Hc) _ Hrep Hd]. rewrite Hw in Hw0. simplify_eq.
  assert (Hni : e ∉ ls.*1).
  { intros ([e' v] & Heq & Hin)%list_elem_of_fmap. simpl in Heq. subst e'.
    destruct (llist_elem _ _ _ _ _ Hll Hin). congruence. }
  destruct (link_entry_exec w' st0 ls e ent) as (w4 & Hl4 & (st' & Hst4 & Hll4 & Hc4 & _) & Hp4 & Hf4 & Hr4);
    try done; [congruence|rewrite He'; by apply llist_insert_fresh|rewrite He'; apply lookup_insert_eq|].
  exists w4. split_and!; [done| |done|done]. split.
  - eauto.
  - rewrite length_app. simpl. lia.
  - rewrite Hp4. rewrite Hp' in *. apply Forall2_app; [by apply entries_rep_fresh|].
    constructor; [|constructor]. exists p, b. done.
  - unfold entry_pbufs. rewrite fmap_app. apply NoDup_app. split_and!; [done| |apply NoDup_singleton].
    intros x Hx Hxq. apply list_elem_of_singleton in Hxq. simpl in Hxq. subst x.
    destruct (entries_rep_live _ _ _ _ Hrep Hx). congruence.
Qed.

Lemma load_dir_spec names w ls recs n :
  stores w ls recs -> (length ls < 5)%nat -> files_ok w ->
  wp (load_dir names n) w (fun r w' => exists ls' recs', stores w' (ls ++ ls') (recs ++ recs') /\
    r = n + Z.of_nat (length ls') /\ w_files w' = w_files w /\ rest_of w' = rest_of w).
Proof.
  revert w ls recs n. induction names as [|d names IH]; intros w ls recs n Hst Hlen Hf; simpl.
  { apply wp_ret. exists [], []. rewrite !app_nil_r. split_and!; try done. simpl. lia. }
  destruct (negb _); [by apply IH|]. apply wp_bind, wp_get, wp_bind.
  pose proof Hst as [(st & Hw & Hll & Hc) _ _ _]. eapply wp_lift; [by rewrite Hw|].
  destruct (_ <? _); [by apply IH|]. apply wp_bind. eapply (wp_load w st); [done|done| |].
  - intros w' Hu Hf' _. eapply wp_mono.
    + apply (IH w' ls recs n); [by eapply unchanged_stores|done|unfold files_ok; by rewrite Hf'].
    + cbn beta. intros r w'' (ls' & recs' & ? & ? & Hf'' & Hr''). exists ls', recs'.
      destruct Hu as (_ & _ & _ & Hu). split_and!; [done|done|congruence|congruence].
  - cbv zeta. intros w1 content p b e Hcn Hp Hp1 Hs Hr He He1 Hs1 Hf1 Hr1. apply wp_bind.
    destruct (link_stores w w1 ls recs st e p b
      (mk_rec (pfh_original_dest (pfh_of_bytes content)) (timestamp (pfh_of_bytes content)) _ _)
      Hst Hlen Hw Hp Hp1 Hs Hr He He1 Hs1) as (w2 & Hl & Hst2 & Hf2 & Hr2).
    eapply wp_exec; [exact Hl|].
    replace (u64 (stored_packets_count st + 1)) with (Z.of_nat (length ls + 1))
      by (rewrite Hc; unfold u64; rewrite Z.mod_small; lia).
    destruct (Z.leb_spec MAX_STORED_PACKETS (Z.of_nat (length ls + 1))) as [Hfull|Hroom];
      unfold MAX_STORED_PACKETS in *.
    + apply wp_ret. eexists [_], [_]. split_and!; [exact Hst2|done|congruence|congruence].
    + eapply wp_mono.
      * eapply IH; [exact Hst2|rewrite length_app; simpl; lia|unfold files_ok; by rewrite Hf2, Hf1].
      * cbn beta. intros r w3 (ls' & recs' & Hst3 & -> & Hf3 & Hr3). eexists (_ :: ls'), (_ :: recs').
        rewrite <-!app_assoc in Hst3. split_and!; [exact Hst3|simpl; lia|congruence|congruence].
Qed.

(** ** Creation and destruction *)

Lemma create_spec w :
  files_ok w ->
  wp dtn_storage_create w (fun _ w' => rest_of w' = rest_of w /\
    (w_storage w' = None \/ exists ls recs, stores w' ls recs)).
Proof.
  intros Hf. unfold dtn_storage_create. apply wp_bind, wp_malloc.
  destruct (env_malloc _); cbn [negb]; [|by apply wp_modify; auto].
  apply wp_bind, wp_modify. apply wp_bind.
  set (w1 := set_storage _ _).
  assert (Hst : forall k, stores (add_ticks k w1) [] []).
  { intros k. split; [by eexists|simpl; lia|constructor|constructor]. }
  assert (Hload : forall k, wp (_ ← dtn_storage_load_packets_from_disk; mret tt) (add_ticks k w1)
    (fun _ w' => rest_of w' = rest_of w /\ (w_storage w' = None \/ exists ls recs, stores w' ls recs))).
  { intros k. apply wp_bind. unfold dtn_storage_load_packets_from_disk.
    apply wp_bind, wp_get. cbn [w_storage add_ticks w1 set_storage].
    apply wp_bind, wp_tick. destruct (env_opendir _); cbn [negb].
    - apply wp_bind, wp_tick. rewrite !add_ticks_add. eapply wp_mono; [by apply load_dir_spec; [apply Hst|simpl; lia|]|].
      cbn beta. intros r w' (ls & recs & Hs & _ & _ & Hr). apply wp_ret. split; [done|]. eauto.
    - apply wp_ret, wp_ret. split; [done|]. right. rewrite add_ticks_add. eauto. }
  unfold dtn_storage_init_directory. apply wp_bind, wp_tick.
  destruct (env_stat _); [apply wp_ret; cbn [negb]; apply Hload|].
  apply wp_bind, wp_tick, wp_ret. destruct (env_mkdir _); cbn [negb].
  - rewrite add_ticks_add. apply Hload.
  - apply wp_modify. auto.
Qed.

Lemma destroy_loop ls recs w cur fuel :
  llist (w_entries w) cur ls -> Forall2 (entry_rep (w_pbufs w)) ls recs -> NoDup (entry_pbufs ls) ->
  (length ls < fuel)%nat ->
  wp (loop fuel destroy_body cur) w (fun _ w' =>
    (forall l, w_entries w' !! l = if decide (l ∈ ls.*1) then None else w_entries w !! l) /\
    (forall p, w_pbufs w' !! p = if decide (Some p ∈ entry_pbufs ls) then None else w_pbufs w !! p) /\
    w_files w' = w_files w /\ w_storage w' = w_storage w /\ rest_of w' = rest_of w).
Proof.
  revert recs w cur fuel. induction ls as [|[l e] ls IH]; intros recs w cur [|fuel] Hll HF Hd Hf;
    simpl in Hf; try lia.
  - simpl in Hll. subst cur. unfold wp. simpl. split_and!; try done.
  - pose proof (llist_NoDup _ _ _ Hll) as Hnd. apply NoDup_cons in Hnd as [Hnl Hnd].
    destruct Hll as [-> (q & Hq & Hll)]. apply Forall2_cons_inv_l in HF as (r & recs' & Hx & HF & ->).
    destruct Hx as (p & b & Ee & Hs & Hr). simpl in Ee. subst e.
    apply NoDup_cons in Hd as [Hnp Hd]. simpl in Hnp.
    set (w1 := set_entries (delete l) (set_pbufs (delete p) w)).
    assert (Hb : destroy_body (Some l) w = Ret (inl q, w1)).
    { unfold destroy_body.
      assert (Hn : entry_node l w = Ret (Node (mk_entry (Some p) (r_dest r) (r_time r) (r_file r)) q, w))
        by (unfold entry_node, get, lift, mbind, M_bind; by rewrite Hq).
      exec Hn. cbn [n_val sp_p deref]. rewrite (bind_exec (lift (Ret p)) _ w p w) by done.
      exec (pbuf_free_m_exec _ _ _ _ Hs Hr).
      unfold free_entry, entry_node, get, lift, modify, mbind, M_bind. simpl. by rewrite Hq. }
    unfold wp. rewrite loop_S, (bind_exec _ _ _ _ _ Hb). eapply wp_mono.
    + apply (IH recs' w1 q fuel); [by apply llist_delete_other| |done|lia].
      eapply entries_rep_frame; [|done]. intros p' Hp'. apply lookup_delete_ne. intros ->. done.
    + cbn beta. intros _ w' (He & Hp & Hf' & Hs' & Hr'). split_and!; try done.
      * intros k. rewrite He, fmap_cons. unfold w1. cbn [fst w_entries set_entries set_pbufs].
        destruct (decide (k = l)) as [->|Hk].
        -- rewrite (decide_True (P := l ∈ l :: ls.*1)) by set_solver. rewrite lookup_delete_eq. by case_decide.
        -- rewrite lookup_delete_ne by done. repeat case_decide; set_solver.
      * intros k. rewrite Hp. unfold w1, entry_pbufs. rewrite fmap_cons. fold (entry_pbufs ls).
        cbn [snd sp_p w_pbufs set_entries set_pbufs]. destruct (decide (k = p)) as [->|Hk].
        -- rewrite (decide_True (P := Some p ∈ Some p :: entry_pbufs ls)) by set_solver.
           rewrite lookup_delete_eq. by case_decide.
        -- rewrite lookup_delete_ne by done. repeat case_decide; set_solver.
Qed.
End steps.

Lemma destroy_spec w ls recs :
  stores w ls recs ->
  wp dtn_storage_destroy w (fun _ w' =>
    w_storage w' = None /\ w_files w' = w_files w /\ rest_of w' = rest_of w /\
    (forall l, w_entries w' !! l = if decide (l ∈ ls.*1) then None else w_entries w !! l) /\
    (forall p, w_pbufs w' !! p = if decide (Some p ∈ entry_pbufs ls) then None else w_pbufs w !! p)).
Proof.
  intros [(st & Hw & Hll & _) _ HF Hd]. unfold dtn_storage_destroy. apply wp_bind, wp_get. rewrite Hw.
  apply wp_bind. eapply wp_mono; [apply (destroy_loop ls recs); [done|done|done|apply llist_length in Hll; lia]|].
  cbn beta. intros _ w' (? & ? & ? & ? & ?). by apply wp_modify.
Qed.

(** ** Properties *)

(** C1: storing a packet.  In every environment the call returns.  On success
    there was room, a fresh buffer holds the packet (without its custody
    header when memory allowed the strip), the record is appended behind the
    older ones and its file has the encoded packet.  On failure memory, list
    and count are as before; with no failing request that happens only when
    five packets are stored or the packet is too large for one buffer. *)
Theorem storage_store_refines `{Env} w ls recs p lp bs dest :
  stores w ls recs -> pkt (w_pbufs w) p lp bs -> no_empty lp -> storable bs ->
  wp (dtn_storage_store_packet (Some p) (Some dest)) w (fun r w' =>
    rest_of w' = rest_of w /\
    if r then
      (length ls < 5)%nat /\ exists data, stored_one w w' ls recs dest data /\
        (data = stripped bs \/ data = bs) /\ (env_all_ok -> data = stripped bs)
    else unchanged w w' /\
      (env_all_ok -> length ls = 5%nat \/ 65508 < Z.of_nat (length bs))).
Proof. apply store_spec. Qed.

(** An empty storage and one packet in memory. *)
Definition storage_world (bs : list Z) : world :=
  set_storage (Some (mk_storage 0 (1024 * 1024) None STORAGE_DIR)) (one_packet bs).

Lemma storage_world_stores bs : stores (storage_world bs) [] [].
Proof. split; [by eexists|simpl; lia|constructor|constructor]. Qed.

Lemma storage_world_pkt bs :
  Forall is_byte bs -> Z.of_nat (length bs) < 65536 ->
  pkt (w_pbufs (storage_world bs)) 1%positive [(1%positive, one_pbuf bs)] bs.
Proof. intros. apply single_pkt. by apply one_packet_owned. Qed.

Lemma sample_storable : storable (sample_udp 0).
Proof. split_and!; [vm_compute; lia|decided|done]. Qed.

Lemma storage_store_refines_witness :
  wp (@dtn_storage_store_packet calm_env (Some 1%positive) (Some node2)) (storage_world (sample_udp 0))
    (fun r w' => rest_of w' = rest_of (storage_world (sample_udp 0)) /\
      if r then
        (0 < 5)%nat /\ exists data, stored_one (storage_world (sample_udp 0)) w' [] [] node2 data /\
          (data = stripped (sample_udp 0) \/ data = sample_udp 0) /\
          (@env_all_ok calm_env -> data = stripped (sample_udp 0))
      else unchanged (storage_world (sample_udp 0)) w' /\
        (@env_all_ok calm_env -> 0%nat = 5%nat \/ 65508 < Z.of_nat (length (sample_udp 0)))).
Proof.
  apply (@storage_store_refines calm_env _ [] [] _ [(1%positive, one_pbuf (sample_udp 0))]).
  - apply storage_world_stores.
  - apply storage_world_pkt; [decided|done].
  - constructor; [done|constructor].
  - apply sample_storable.
Defined.

Lemma calm_all_ok : @env_all_ok calm_env.
Proof. intros t. split_and!; done. Qed.

(** C2: retrieving for a destination.  The oldest record whose destination
    equals the target (zones aside) is taken out of the store and its entry
    handed over with its packet; the others keep their order, the packet is
    not copied or freed, and the file goes.  Without a match nothing happens. *)
Theorem storage_retrieve_refines `{Env} w ls recs target :
  stores w ls recs ->
  wp (dtn_storage_retrieve_packet_for_dest (Some target)) w (fun r w' =>
    w_pbufs w' = w_pbufs w /\ rest_of w' = rest_of w /\
    match take_first (rec_matches target) recs with
    | None => r = None /\ w' = w
    | Some (rc, recs') => exists c v ls', r = Some c /\ stores w' ls' recs' /\
          ls' = remove_first (dest_matches target) ls /\ (c, v) ∈ ls /\ (c ∉ ls'.*1) /\
        w_entries w' !! c = Some (Node v None) /\ entry_rep (w_pbufs w') (c, v) rc /\
        (sp_p v ∉ entry_pbufs ls') /\
        (env_all_ok -> w_files w' = delete (r_file rc) (w_files w))
    end).
Proof. apply retrieve_spec. Qed.

Lemma storage_retrieve_refines_witness :
  wp (@dtn_storage_retrieve_packet_for_dest calm_env (Some node2)) (storage_world [])
    (fun r w' => w_pbufs w' = w_pbufs (storage_world []) /\ rest_of w' = rest_of (storage_world []) /\
      r = None /\ w' = storage_world []).
Proof. apply (@storage_retrieve_refines calm_env _ [] []). apply storage_world_stores. Defined.

(** C9: store and retrieve.  If no older packet waits for [dest], storing a
    packet and then asking for [dest] hands back an entry with that
    destination whose buffer holds the packet without its custody header; the
    store is as it was, and so is the caller's packet. *)
Theorem storage_store_retrieve `{Env} w ls recs p lp bs dest :
  stores w ls recs -> pkt (w_pbufs w) p lp bs -> no_empty lp -> storable bs -> env_all_ok ->
  (length ls < 5)%nat -> Z.of_nat (length bs) <= 65508 ->
  take_first (rec_matches dest) recs = None ->
  wp (r ← dtn_storage_store_packet (Some p) (Some dest);
      e ← dtn_storage_retrieve_packet_for_dest (Some dest);
      mret (r, e)) w (fun re w' =>
    exists c v time f ls', re = (true, Some c) /\ stores w' ls' recs /\
      w_entries w' !! c = Some (Node v None) /\
      entry_rep (w_pbufs w') (c, v) (mk_rec dest time f (stripped bs)) /\
      pkt (w_pbufs w') p lp bs).
Proof.
  intros Hst Hp Hne Hsb Hok Hlen Hsz Htk. apply wp_bind.
  eapply wp_mono; [by apply (store_spec w ls recs p lp bs dest)|].
  intros r w1 [_ Hr]. destruct r; [|destruct Hr as [_ Hbad]; specialize (Hbad Hok); lia].
  destruct Hr as (_ & data & (e & q & b & time & _ & Hq & Hp1 & Hst1 & _) & _ & Hd).
  rewrite (Hd Hok) in *. apply wp_bind. eapply wp_mono; [exact (retrieve_spec w1 _ _ dest Hst1)|].
  cbn beta. intros e' w2 (Hp2 & _ & Hm). apply wp_ret.
  assert (Htk' : take_first (rec_matches dest)
    (recs ++ [mk_rec dest time (packet_name (storage_dir w) dest time) (stripped bs)]) =
    Some (mk_rec dest time (packet_name (storage_dir w) dest time) (stripped bs), recs)).
  { clear -Htk. induction recs as [|x recs IH]; simpl in *.
    - unfold rec_matches, ip6_addr_zoneless_eq. simpl. by rewrite !Z.eqb_refl.
    - destruct (rec_matches dest x); [done|].
      destruct (take_first (rec_matches dest) recs) as [[]|]; [done|]. by rewrite IH. }
  rewrite Htk' in Hm. destruct Hm as (c & v & ls' & -> & Hst2 & _ & _ & _ & He & Hrep & _ & _).
  exists c, v, time, (packet_name (storage_dir w) dest time), ls'. split_and!; try done.
  rewrite Hp2, Hp1. by apply pkt_insert_fresh.
Qed.

Lemma storage_store_retrieve_witness :
  wp (r ← @dtn_storage_store_packet calm_env (Some 1%positive) (Some node2);
      e ← @dtn_storage_retrieve_packet_for_dest calm_env (Some node2);
      mret (r, e)) (storage_world (sample_udp 0)) (fun re w' =>
    exists c v time f ls', re = (true, Some c) /\ stores w' ls' [] /\
      w_entries w' !! c = Some (Node v None) /\
      entry_rep (w_pbufs w') (c, v) (mk_rec node2 time f (stripped (sample_udp 0))) /\
      pkt (w_pbufs w') 1%positive [(1%positive, one_pbuf (sample_udp 0))] (sample_udp 0)).
Proof.
  apply (@storage_store_retrieve calm_env _ []).
  - apply storage_world_stores.
  - apply storage_world_pkt; [decided|done].
  - constructor; [done|constructor].
  - apply sample_storable.
  - apply calm_all_ok.
  - simpl. lia.
  - by vm_compute.
  - done.
Defined.

(** C10: the copy on disk.  Once a packet is stored, loading its file (as a
    restart does) yields an entry with the same destination, time and file
    name, whose fresh buffer holds the stored packet. *)
Theorem storage_disk_roundtrip `{Env} w ls recs p lp bs dest :
  stores w ls recs -> pkt (w_pbufs w) p lp bs -> no_empty lp -> storable bs -> env_all_ok ->
  (length ls < 5)%nat -> Z.of_nat (length bs) <= 65508 -> byte_zone dest -> files_ok w ->
  exists w1 time, let f := packet_name (storage_dir w) dest time in
    dtn_storage_store_packet (Some p) (Some dest) w = Ret (true, w1) /\
    wp (dtn_storage_load_packet_from_file f) w1 (fun r w2 =>
      exists e v, r = Some e /\ w_entries w2 !! e = Some (Node v None) /\
        entry_rep (w_pbufs w2) (e, v) (mk_rec dest time f (stripped bs))).
Proof.
  intros Hst Hp Hne Hsb Hok Hlen Hsz Hz Hf.
  destruct (wp_elim _ _ _ (store_spec w ls recs p lp bs dest Hst Hp Hne Hsb)) as (r & w1 & He & _ & Hr).
  destruct r; [|destruct Hr as [_ Hbad]; specialize (Hbad Hok); lia].
  destruct Hr as (_ & data & (e & q & b & time & Ht & Hq & Hp1 & Hst1 & Hf1) & _ & Hd).
  rewrite (Hd Hok) in *. exists w1, time. split; [exact He|].
  set (f := packet_name (storage_dir w) dest time) in *.
  assert (Hrep : exists q' b', single (w_pbufs w1) q' b' (stripped bs)).
  { pose proof (st_recs _ _ _ Hst1) as HF. apply Forall2_app_inv_r in HF as (? & ? & _ & HF & _).
    apply Forall2_cons_inv_r in HF as (? & ? & (q' & b' & _ & Hs & _) & _). eauto. }
  destruct Hrep as (q' & b' & Hs). pose proof (single_length _ _ _ _ Hs) as Hdl.
  assert (Hby : Forall is_byte (stripped bs))
    by (destruct Hs as (_ & Hb & _ & <-); by apply seg_bytes_byte).
  assert (Hle : Z.of_nat (length (stripped bs)) <= 65508).
  { unfold stripped. destruct (_ =? _); [|done]. unfold without_hbh.
    rewrite length_app, set_hdr_length; destruct Hsb; len. }
  destruct Hst1 as [(st & Hw1 & _) _ _ _].
  assert (Hfb : Forall is_byte (encode_file dest time (stripped bs))).
  { unfold encode_file, pfh_bytes. rewrite !Forall_app. cbn [magic].
    split_and!; auto with ints. decided. }
  pose proof (encode_decode dest time (stripped bs) Hz Ht ltac:(lia)) as Hdec.
  eapply (wp_load w1 st); [done| | |].
  - rewrite Hf1. by apply map_Forall_insert_2.
  - intros w2 _ _ Hbad. exfalso. refine (Hbad Hok _ _ _ _).
    + rewrite Hf1. apply lookup_insert_eq.
    + unfold loadable. rewrite Hdec. cbn [magic packet_len]. unfold encode_file. rewrite length_app.
      change (length (pfh_bytes _)) with 36%nat. split_and!; [lia|done|lia|lia].
    + rewrite Hdec. cbn [packet_len]. rewrite u16_small by lia. done.
  - cbv zeta. intros w2 content p2 b2 e2 Hc Hp2 Hpb2 Hs2 Hr2 He2 Hen2 _ _ _.
    rewrite Hf1, lookup_insert_eq in Hc. injection Hc as <-. rewrite Hdec in *.
    cbn [pfh_original_dest timestamp packet_len] in *. rewrite u16_small in Hs2 by lia.
    unfold encode_file in Hs2. rewrite drop_app_ge in Hs2 by done.
    change (36 - length _)%nat with 0%nat in Hs2. rewrite drop_0, take_ge in Hs2 by lia.
    eexists e2, _. split_and!; [done|rewrite Hen2; apply lookup_insert_eq|].
    exists p2, b2. split_and!; [|done|done]. simpl. f_equal.
    unfold f, packet_name, packet_filename. rewrite take_take. done.
Qed.

Lemma storage_disk_roundtrip_witness :
  exists w1 time, let f := packet_name (storage_dir (storage_world (sample_udp 0))) node2 time in
    @dtn_storage_store_packet calm_env (Some 1%positive) (Some node2) (storage_world (sample_udp 0))
      = Ret (true, w1) /\
    wp (@dtn_storage_load_packet_from_file calm_env f) w1 (fun r w2 =>
      exists e v, r = Some e /\ w_entries w2 !! e = Some (Node v None) /\
        entry_rep (w_pbufs w2) (e, v) (mk_rec node2 time f (stripped (sample_udp 0)))).
Proof.
  apply (@storage_disk_roundtrip calm_env _ [] [] _ [(1%positive, one_pbuf (sample_udp 0))]).
  - apply storage_world_stores.
  - apply storage_world_pkt; [decided|done].
  - constructor; [done|constructor].
  - apply sample_storable.
  - apply calm_all_ok.
  - simpl. lia.
  - by vm_compute.
  - decided.
  - apply map_Forall_empty.
Defined.

(** One stored packet and, in a second buffer, a received confirmation. *)
Definition confirm_world (data m : list Z) : world :=
  set_storage (Some (mk_storage 1 (1024 * 1024) (Some 1%positive) STORAGE_DIR))
    (set_entries (insert 1%positive (Node (mk_entry (Some 1%positive) node2 5 (str "f")) None))
      (set_pbufs (insert 2%positive (Node (one_pbuf m) None)) (one_packet data))).
Definition confirm_rec (data : list Z) : stored_rec := mk_rec node2 5 (str "f") data.

Lemma one_pbuf_single (h : pheap) p bs :
  h !! p = Some (Node (one_pbuf bs) None) -> Forall is_byte bs -> Z.of_nat (length bs) < 65536 ->
  single h p (one_pbuf bs) bs.
Proof.
  intros Hp Hb Hl. destruct (one_packet_owned bs Hb Hl) as [(_ & Hs) _]. by split.
Qed.

Lemma confirm_world_stores data m :
  Forall is_byte data -> Z.of_nat (length data) < 65536 ->
  stores (confirm_world data m) [(1%positive, mk_entry (Some 1%positive) node2 5 (str "f"))]
    [confirm_rec data].
Proof.
  intros Hb Hl. split.
  - eexists. split_and!; [done| |done]. simpl. split; [done|]. exists None. done.
  - simpl. lia.
  - constructor; [|constructor]. exists 1%positive, (one_pbuf data).
    split_and!; [done|by apply one_pbuf_single|done].
  - apply NoDup_singleton.
Qed.

(** A confirmation that quotes the first 48 bytes of [bs]. *)
Definition confirmation (bs : list Z) : list Z := replicate 57 0 ++ take 48 bs.

(** Deleting a confirmed packet.  If the confirmation quotes a packet
    without hop-by-hop header, and no stored packet of its source starts with
    one, the call returns and removes exactly the first stored packet with the
    quoted source, protocol and (if that long) first eight payload bytes: the
    record, its file, its buffer; without such a packet nothing changes. *)
Theorem storage_confirm_refines `{Env} w ls recs ip b m :
  stores w ls recs -> single (w_pbufs w) ip b m -> (105 <= length m)%nat ->
  quote_nexth m <> 0 -> no_hbh_from (quote_src m) recs ->
  exists w', dtn_storage_delete_packet_by_icmp_data (Some ip) w = Ret (tt, w') /\
    deleted_first (rec_quote_matches (quote_src m) (quote_nexth m) 8 (quote_payload m)) ls recs w w'.
Proof.
  intros Hst Hs Hl Hn Hno.
  assert (Hc : quote_count m = 8) by (unfold quote_count; by rewrite (proj2 (Z.eqb_neq _ 0) Hn)).
  assert (Hp : quote_proto m = quote_nexth m) by (unfold quote_proto; by rewrite (proj2 (Z.eqb_neq _ 0) Hn)).
  rewrite <-Hc, <-Hp. apply (delete_by_icmp_spec w ls recs ip b m); try done. by rewrite Hc.
Qed.

Lemma storage_confirm_refines_witness :
  let m := confirmation (sample_udp 0) in
  let w := confirm_world (sample_udp 0) m in
  exists w', @dtn_storage_delete_packet_by_icmp_data calm_env (Some 2%positive) w = Ret (tt, w') /\
    @deleted_first calm_env (rec_quote_matches (quote_src m) (quote_nexth m) 8 (quote_payload m))
      [(1%positive, mk_entry (Some 1%positive) node2 5 (str "f"))] [confirm_rec (sample_udp 0)] w w'.
Proof.
  intros m w.
  apply (@storage_confirm_refines calm_env w
           [(1%positive, mk_entry (Some 1%positive) node2 5 (str "f"))] _ 2%positive (one_pbuf m)).
  - apply confirm_world_stores; [decided|done].
  - apply one_pbuf_single; [done|decided|done].
  - vm_compute. lia.
  - done.
  - decided.
Defined.

(** A stored packet that still has a hop-by-hop header (the strip failed
    for want of memory, or the file was loaded) blocks the node: when a
    confirmation from its source arrives the search neither advances nor
    ends, whatever the fuel. *)
Theorem storage_confirm_hangs `{Env} w ls recs r1 r r2 ip b m :
  stores w ls recs -> recs = r1 ++ r :: r2 -> single (w_pbufs w) ip b m -> (105 <= length m)%nat ->
  quote_count m <> 0 -> Forall (fun x => same_source (quote_src m) x = false) r1 ->
  same_source (quote_src m) r = true -> hdr_nexth (r_data r) = 0 ->
  forall fuel, delete_by_icmp_with_fuel fuel (Some ip) w = Hang.
Proof. intros. by apply (delete_by_icmp_hang w ls recs r1 r r2 ip b m fuel). Qed.

Lemma storage_confirm_hangs_witness :
  @delete_by_icmp_with_fuel calm_env 1000 (Some 2%positive)
    (confirm_world (with_hbh node2 (sample_udp 0)) (confirmation (sample_udp 0))) = Hang.
Proof.
  apply (@storage_confirm_hangs calm_env _
           [(1%positive, mk_entry (Some 1%positive) node2 5 (str "f"))]
           [confirm_rec (with_hbh node2 (sample_udp 0))] []
           (confirm_rec (with_hbh node2 (sample_udp 0))) [] 2%positive
           (one_pbuf (confirmation (sample_udp 0))) (confirmation (sample_udp 0))).
  - apply confirm_world_stores; [decided|done].
  - done.
  - apply one_pbuf_single; [done|decided|done].
  - vm_compute. lia.
  - done.
  - constructor.
  - vm_compute. reflexivity.
  - vm_compute. reflexivity.
Defined.

(** A confirmation for a packet under custody quotes the packet with its
    24-byte hop-by-hop header.  The count of payload bytes to compare,
    [8 - 24] in a [u8_t], is then 240; for stored packets of fewer than 280
    bytes no payload is compared at all, and the first stored packet with the
    source and protocol is deleted, whatever its destination and contents. *)
Theorem storage_confirm_custody_weak `{Env} w ls recs ip b m :
  stores w ls recs -> single (w_pbufs w) ip b m -> (105 <= length m)%nat ->
  quote_nexth m = 0 -> byte_at 98 m = 2 -> no_hbh_from (quote_src m) recs ->
  Forall (fun r => Z.of_nat (length (r_data r)) < 280) recs ->
  quote_count m = 240 /\
  exists w', dtn_storage_delete_packet_by_icmp_data (Some ip) w = Ret (tt, w') /\
    deleted_first (fun r => same_source (quote_src m) r && (hdr_nexth (r_data r) =? byte_at 97 m)) ls recs w w'.
Proof.
  intros Hst Hs Hl Hn Hx Hno Hshort.
  assert (Hc : quote_count m = 240) by (unfold quote_count; rewrite Hn, Hx; done).
  split; [done|].
  destruct (delete_by_icmp_spec w ls recs ip b m) as (w' & He & Hd); try done; [by rewrite Hc| |].
  { intros _. rewrite Hc. eapply Forall_impl; [done|]. simpl. lia. }
  exists w'. split; [done|]. unfold deleted_first in *. rewrite Hc in Hd.
  assert (E : take_first (rec_quote_matches (quote_src m) (quote_proto m) 240 (quote_payload m)) recs =
              take_first (fun r => same_source (quote_src m) r && (hdr_nexth (r_data r) =? byte_at 97 m)) recs).
  { clear -Hshort Hn. induction Hshort as [|r recs Hr _ IH]; [done|]. simpl. rewrite IH.
    unfold rec_quote_matches at 1, quote_proto. rewrite Hn. simpl.
    rewrite (proj2 (Z.ltb_lt _ (40 + 240))) by lia. simpl. by rewrite andb_true_r. }
  by rewrite E in Hd.
Qed.

Lemma storage_confirm_custody_weak_witness :
  let m := confirmation (with_hbh node2 (sample_udp 0)) in
  let other := take 48 (sample_udp 0) ++ [9; 9; 9; 9; 9; 9; 9; 9] in
  let w := confirm_world other m in
  quote_count m = 240 /\
  exists w', @dtn_storage_delete_packet_by_icmp_data calm_env (Some 2%positive) w = Ret (tt, w') /\
    @deleted_first calm_env
      (fun r => same_source (quote_src m) r && (hdr_nexth (r_data r) =? byte_at 97 m))
      [(1%positive, mk_entry (Some 1%positive) node2 5 (str "f"))] [confirm_rec other] w w'.
Proof.
  intros m other w.
  apply (@storage_confirm_custody_weak calm_env w
           [(1%positive, mk_entry (Some 1%positive) node2 5 (str "f"))] _ 2%positive (one_pbuf m)).
  - apply confirm_world_stores; [decided|done].
  - apply one_pbuf_single; [done|decided|done].
  - vm_compute. lia.
  - done.
  - done.
  - decided.
  - decided.
Defined.

(** Start-up.  Whatever files the directory holds and whichever requests
    fail, creating the storage returns, and leaves either no storage or one
    that satisfies the invariant: a well-formed list whose length is the
    count and at most five, each entry owning a buffer of its own. *)
Theorem storage_create_ok `{Env} w :
  files_ok w ->
  wp dtn_storage_create w (fun _ w' => rest_of w' = rest_of w /\
    (w_storage w' = None \/ exists ls recs, stores w' ls recs)).
Proof. apply create_spec. Qed.

Lemma storage_create_ok_witness :
  wp (@dtn_storage_create calm_env) empty_world (fun _ w' => rest_of w' = rest_of empty_world /\
    (w_storage w' = None \/ exists ls recs, stores w' ls recs)).
Proof. apply (@storage_create_ok calm_env). apply map_Forall_empty. Defined.

(** Shutting the storage down releases every entry and every stored
    packet, and nothing else, and leaves the files for the next start. *)
Theorem storage_destroy_releases w ls recs :
  stores w ls recs ->
  wp dtn_storage_destroy w (fun _ w' =>
    w_storage w' = None /\ w_files w' = w_files w /\ rest_of w' = rest_of w /\
    (forall l, w_entries w' !! l = if decide (l ∈ ls.*1) then None else w_entries w !! l) /\
    (forall p, w_pbufs w' !! p = if decide (Some p ∈ entry_pbufs ls) then None else w_pbufs w !! p)).
Proof. apply destroy_spec. Qed.

Lemma storage_destroy_releases_witness :
  let w := confirm_world (sample_udp 0) [] in
  wp dtn_storage_destroy w (fun _ w' =>
    w_storage w' = None /\ w_files w' = w_files w /\ rest_of w' = rest_of w /\
    (forall l, w_entries w' !! l = if decide (l ∈ [1%positive]) then None else w_entries w !! l) /\
    (forall p, w_pbufs w' !! p = if decide (Some p ∈ [Some 1%positive]) then None else w_pbufs w !! p)).
Proof.
  intros w.
  apply (storage_destroy_releases w [(1%positive, mk_entry (Some 1%positive) node2 5 (str "f"))]
           [confirm_rec (sample_udp 0)]).
  apply confirm_world_stores; [decided|done].
Defined.
