(* ===== verification/Routing.v ===== *)
(** * Contacts and next hops (src/dtn_routing.c)

    The contact list and its loader, the mapping between node numbers and
    addresses, and the next-hop query.  The route computation itself runs in
    an embedded Python interpreter and is a parameter of the model
    ([env_cgr]): its input is what the C code passes, its output is one of the
    answers the C code tells apart. *)

From S2P Require Import Prelude LinkedList Ip6Addr World Pbuf Ip6Hdr.

(** ** inet_pton and inet_ntop for AF_INET6 (C library) *)

Definition hex_digit_value (c : Z) : option Z :=
  if lwip_isdigit c then Some (c - 48)
  else if lwip_in_range c 97 102 then Some (c - 97 + 10)
  else if lwip_in_range c 65 70 then Some (c - 65 + 10)
  else None.

(** The state is [tp] as the bytes written so far, [colonp] as their number
    when the double colon was seen, the digits seen and the current value.
    The dotted-quad tail is not modelled: text with a dot is rejected. *)
Fixpoint pton6_loop (src : list Z) (tmp : list Z) (colonp : option nat) (seen val : Z)
  : option (list Z * option nat * Z * Z) :=
  match src with
  | [] => Some (tmp, colonp, seen, val)
  | ch :: src' =>
      match hex_digit_value ch with
      | Some d =>
          if seen =? 4 then None
          else
            let val := Z.lor (Z.shiftl val 4) d in
            if 0xffff <? val then None else pton6_loop src' tmp colonp (seen + 1) val
      | None =>
          if ch =? colon then
            if seen =? 0 then
              match colonp with
              | Some _ => None
              | None => pton6_loop src' tmp (Some (length tmp)) 0 val
              end
            else match src' with
                 | [] => None
                 | _ =>
                     if 16 <? Z.of_nat (length tmp) + 2 then None
                     else pton6_loop src' (tmp ++ [Z.land (Z.shiftr val 8) 0xff; Z.land val 0xff])
                                     colonp 0 0
                 end
          else None
      end
  end.

Definition pton6_finish (r : list Z * option nat * Z * Z) : option (list Z) :=
  let '(tmp, colonp, seen, val) := r in
  tmp ← (if 0 <? seen then
           if 16 <? Z.of_nat (length tmp) + 2 then None
           else Some (tmp ++ [Z.land (Z.shiftr val 8) 0xff; Z.land val 0xff])
         else Some tmp);
  match colonp with
  | Some c => if (length tmp =? 16)%nat then None
              else Some (take c tmp ++ replicate (16 - length tmp) 0 ++ drop c tmp)
  | None => if (length tmp =? 16)%nat then Some tmp else None
  end.

Definition inet_pton6 (src : list Z) : option (list Z) :=
  match src with
  | [] => None
  | c :: src' =>
      if c =? colon then
        match src' with
        | c2 :: _ => if c2 =? colon then r ← pton6_loop src' [] None 0 0; pton6_finish r else None
        | [] => None
        end
      else r ← pton6_loop src [] None 0 0; pton6_finish r
  end.

(** [%x] *)
Definition hex_char (d : Z) : Z := if d <? 10 then 48 + d else 87 + d.
Definition fmt_x (v : Z) : list Z :=
  let d3 := Z.land (Z.shiftr v 12) 15 in let d2 := Z.land (Z.shiftr v 8) 15 in
  let d1 := Z.land (Z.shiftr v 4) 15 in let d0 := Z.land v 15 in
  if 0xfff <? v then [hex_char d3; hex_char d2; hex_char d1; hex_char d0]
  else if 0xff <? v then [hex_char d2; hex_char d1; hex_char d0]
  else if 0xf <? v then [hex_char d1; hex_char d0]
  else [hex_char d0].

Definition fmt_dec8 (v : Z) : list Z :=
  (if 99 <? v then [48 + v / 100] else []) ++
  (if 9 <? v then [48 + v / 10 mod 10] else []) ++ [48 + v mod 10].

(** The longest run of zero words (the first among the longest), as its start
    and length. *)
Fixpoint zero_runs (ws : list Z) (i : Z) (cur best : option (Z * Z)) : option (Z * Z) :=
  let close := match cur, best with
               | Some (cb, cl), Some (bb, bl) => if bl <? cl then cur else best
               | Some _, None => cur
               | None, _ => best
               end in
  match ws with
  | [] => close
  | w :: ws' =>
      if w =? 0 then
        zero_runs ws' (i + 1) (match cur with None => Some (i, 1) | Some (b, l) => Some (b, l + 1) end) best
      else zero_runs ws' (i + 1) None close
  end.

Definition words_of (bs : list Z) : list Z :=
  (fun i => 256 * nth (2 * i) bs 0 + nth (2 * i + 1) bs 0) <$> seq 0 8.

Fixpoint ntop6_loop (n : nat) (bs ws : list Z) (best : option (Z * Z)) (i : Z) : list Z :=
  match n with
  | O => []
  | S n =>
      let inside := match best with Some (b, l) => (b <=? i) && (i <? b + l) | None => false end in
      if inside then
        (if match best with Some (b, _) => i =? b | None => false end then [colon] else []) ++
        ntop6_loop n bs ws best (i + 1)
      else
        (if i =? 0 then [] else [colon]) ++
        if (i =? 6) && match best with
                       | Some (b, l) => (b =? 0) && ((l =? 6) || ((l =? 5) && (nth 5 ws 0 =? 0xffff)))
                       | None => false
                       end
        then fmt_dec8 (nth 12 bs 0) ++ [46] ++ fmt_dec8 (nth 13 bs 0) ++ [46] ++
             fmt_dec8 (nth 14 bs 0) ++ [46] ++ fmt_dec8 (nth 15 bs 0)
        else fmt_x (nth (Z.to_nat i) ws 0) ++ ntop6_loop n bs ws best (i + 1)
  end.

Definition inet_ntop6 (bs : list Z) : list Z :=
  let ws := words_of bs in
  let best := match zero_runs ws 0 None None with
              | Some (b, l) => if l <? 2 then None else Some (b, l)
              | None => None
              end in
  ntop6_loop 8 bs ws best 0 ++
  match best with Some (b, l) => if b + l =? 8 then [colon] else [] | None => [] end.

(** ** Node numbers and addresses *)

Definition CURR_NODE_ADDR : list Z := str "fd00:01::2".

(** [(w >> 24) & 0xFF, (w >> 16) & 0xFF, ...] with [w = ntohl(word)] *)
Definition word_bytes (word : Z) : list Z :=
  let w := lwip_htonl word in
  [Z.land (Z.shiftr w 24) 0xff; Z.land (Z.shiftr w 16) 0xff; Z.land (Z.shiftr w 8) 0xff; Z.land w 0xff].

(** [inet_ntop] cannot fail here: its text is shorter than the buffer. *)
Definition ip6_addr_to_str (a : option ip6_addr) : Z * list Z :=
  match a with
  | None => (-1, [])
  | Some a => (0, inet_ntop6 (word_bytes (addr0 a) ++ word_bytes (addr1 a) ++
                              word_bytes (addr2 a) ++ word_bytes (addr3 a)))
  end.

Definition ipv6_to_nodeid (ip6 : list Z) : Z :=
  if bool_decide (ip6 = str "fd00:01::1") then 1
  else if bool_decide (ip6 = str "fd00:1::1") then 1
  else if bool_decide (ip6 = str "fd00:01::2") then 10
  else if bool_decide (ip6 = str "fd00:1::1") then 10
  else if bool_decide (ip6 = str "fd00:12::1") then 12
  else if bool_decide (ip6 = str "fd00:12::2") then 21
  else if bool_decide (ip6 = str "fd00:23::2") then 23
  else if bool_decide (ip6 = str "fd00:23::3") then 32
  else -1.

Definition nodeid_text (node_id : Z) : option (list Z) :=
  if node_id =? 1 then Some (str "fd00:01::1")
  else if node_id =? 10 then Some (str "fd00:01::2")
  else if node_id =? 12 then Some (str "fd00:12::1")
  else if node_id =? 21 then Some (str "fd00:12::2")
  else if node_id =? 23 then Some (str "fd00:23::2")
  else if node_id =? 32 then Some (str "fd00:23::3")
  else None.

(** [ntohl((b0 << 24) | (b1 << 16) | (b2 << 8) | b3)] *)
Definition bytes_word (i : nat) (bs : list Z) : Z :=
  lwip_htonl (Z.lor (Z.lor (Z.lor (Z.shiftl (nth (4 * i) bs 0) 24) (Z.shiftl (nth (4 * i + 1) bs 0) 16))
                           (Z.shiftl (nth (4 * i + 2) bs 0) 8))
                    (nth (4 * i + 3) bs 0)).

(** Only the four words of [out] are written. *)
Definition nodeid_to_ipv6 (node_id : Z) (out : ip6_addr) : Z * ip6_addr :=
  match nodeid_text node_id with
  | None => (-1, out)
  | Some addr_txt =>
      match inet_pton6 addr_txt with
      | None => (-1, out)
      | Some bs => (0, mk_ip6 (bytes_word 0 bs) (bytes_word 1 bs) (bytes_word 2 bs) (bytes_word 3 bs)
                              (zone out))
      end
  end.

(** ** The contact list *)

Definition set_contact_head (head : option loc) (r : Routing_Function) : Routing_Function :=
  mk_routing (base_time r) head.

Definition contact_active (now : Z) (c : Contact_Info) : bool :=
  (start_time_ms c <=? now) && (now <=? end_time_ms c).

Section contacts.
Context `{Env}.

Definition dtn_routing_add_contact (node_addr next_hop : option ip6_addr)
    (start_time_ms end_time_ms : Z) (is_dtn_node : bool) : M world bool :=
  w ← get;
  match w_routing w, node_addr, next_hop with
  | Some _, Some na, Some nh =>
      ok ← malloc_ok;
      if negb ok then mret false
      else
        w ← get;
        r ← lift (deref (w_routing w));
        let c := new_loc (w_contacts w) in
        modify (set_contacts (insert c (Node (mk_contact na nh start_time_ms end_time_ms is_dtn_node) None)));;
        w ← get;
        res ← lift (append_node (S (size (w_contacts w))) (w_contacts w) (contact_list_head r) c);
        modify (set_contacts (fun _ => res.1));;
        modify (set_routing (Some (set_contact_head res.2 r)));;
        mret true
  | _, _, _ => mret false
  end.

Definition dtn_routing_remove_contact (node : option ip6_addr) : M world bool :=
  w ← get;
  match w_routing w, node with
  | Some r, Some na =>
      m ← lift (find_node (S (size (w_contacts w))) (w_contacts w)
                  (fun c => Ret (ip6_addr_cmp (node_addr c) na)) (contact_list_head r));
      match m with
      | None => mret false
      | Some (prev, c) =>
          res ← lift (unlink_node (w_contacts w) (contact_list_head r) prev c);
          modify (set_contacts (fun _ => delete c res.1));;
          modify (set_routing (Some (set_contact_head res.2 r)));;
          mret true
      end
  | _, _ => mret false
  end.

(** [while (contact != NULL && contact_index < 100)]: the state is the
    contact, the index, the recorded states and [ret]. *)
Definition update_body (now : Z) (h : gmap loc (node Contact_Info))
    (st : option loc * nat * list bool * bool)
  : outcome (option loc * nat * list bool * bool + list bool * bool) :=
  let '(c, i, states, ret) := st in
  match c with
  | None => Ret (inr (states, ret))
  | Some l =>
      if (100 <=? i)%nat then Ret (inr (states, ret))
      else
        n ← deref (h !! l);
        let is_active := contact_active now (n_val n) in
        last ← deref (states !! i);
        if bool_decide (is_active <> last)
        then Ret (inl (n_next n, S i, <[i := is_active]> states, ret || is_active))
        else Ret (inl (n_next n, S i, states, ret))
  end.
Definition dtn_routing_update_contacts : M world bool :=
  w ← get;
  match w_routing w with
  | None => mret false
  | Some r =>
      current_time ← sys_now;
      res ← lift (oloop (S (size (w_contacts w))) (update_body current_time (w_contacts w))
                    (contact_list_head r, 0%nat, w_last_active w, false));
      modify (set_update_statics current_time res.1);;
      mret res.2
  end.

(** The contact serves the address and is a DTN node; zones do not count. *)
Definition dtn_contact_for (dest : ip6_addr) (c : Contact_Info) : bool :=
  is_dtn_node c &&
  ip6_addr_cmp (ip6_addr_set_zone IP6_NO_ZONE dest) (ip6_addr_set_zone IP6_NO_ZONE (node_addr c)).
Definition dtn_routing_is_dtn_destination (dest_ip_in : option ip6_addr) : M world bool :=
  w ← get;
  match w_routing w, dest_ip_in with
  | Some r, Some dest =>
      m ← lift (find_node (S (size (w_contacts w))) (w_contacts w)
                  (fun c => Ret (dtn_contact_for dest c)) (contact_list_head r));
      mret (bool_decide (is_Some m))
  | _, _ => mret false
  end.

Definition dtn_routing_destroy : M world unit :=
  w ← get;
  match w_routing w with
  | None => mret tt
  | Some r =>
      loop (S (size (w_contacts w))) (fun current : option loc =>
        match current with
        | None => mret (inr tt)
        | Some c =>
            w ← get;
            n ← lift (deref (w_contacts w !! c));
            modify (set_contacts (delete c));;
            mret (inl (n_next n))
        end) (contact_list_head r);;
      modify (set_routing None)
  end.
End contacts.

(** ** The contact plan *)

Definition isspace (c : Z) : bool := (c =? 32) || ((9 <=? c) && (c <=? 13)).
Definition isdigit (c : Z) : bool := (48 <=? c) && (c <=? 57).

(** The bytes of a C string: up to the first zero. *)
Fixpoint c_string (s : list Z) : list Z :=
  match s with
  | [] => []
  | c :: s' => if c =? 0 then [] else c :: c_string s'
  end.

(** [fgets(line, n + 1, f)]: at most [n] bytes, through the first newline. *)
Fixpoint fgets (n : nat) (f : list Z) : list Z * list Z :=
  match n, f with
  | O, _ => ([], f)
  | _, [] => ([], [])
  | S n, c :: f' => if c =? 10 then ([c], f')
                    else let '(l, r) := fgets n f' in (c :: l, r)
  end.

Fixpoint skip_spaces (s : list Z) : list Z :=
  match s with
  | [] => []
  | c :: s' => if isspace c then skip_spaces s' else s
  end.
(** [while ( *s && !isspace( *s) && i < 63)] *)
Fixpoint read_token (i : nat) (s : list Z) : list Z * list Z :=
  match i, s with
  | O, _ => ([], s)
  | _, [] => ([], [])
  | S i, c :: s' => if isspace c then ([], s)
                    else let '(t, r) := read_token i s' in (c :: t, r)
  end.
(** At most [n] tokens. *)
Fixpoint tokens (n : nat) (s : list Z) : list (list Z) :=
  match n with
  | O => []
  | S n =>
      match skip_spaces s with
      | [] => []
      | s => let '(t, r) := read_token 63 s in t :: tokens n r
      end
  end.

(** [sscanf(tok, "+%d", &v)]: [strtol] saturates, then the value is cut to an
    [int]. *)
Definition int32 (x : Z) : Z := (x + 2147483648) mod 4294967296 - 2147483648.
Fixpoint digits_val (s : list Z) (acc : Z) : Z :=
  match s with
  | [] => acc
  | c :: s' => if isdigit c then digits_val s' (10 * acc + (c - 48)) else acc
  end.
Definition strtol (neg : bool) (s : list Z) : Z :=
  if neg then Z.max (- digits_val s 0) (-9223372036854775808)
  else Z.min (digits_val s 0) 9223372036854775807.
Definition scan_plus_d (tok : list Z) : option Z :=
  match tok with
  | p :: s =>
      if negb (p =? 43) then None
      else
        let '(neg, s) := match s with
                         | c :: s' => if c =? 45 then (true, s') else if c =? 43 then (false, s') else (false, s)
                         | [] => (false, s)
                         end in
        match s with
        | c :: _ => if isdigit c then Some (int32 (strtol neg s)) else None
        | [] => None
        end
  | [] => None
  end.

Definition plus_token (t : list Z) : bool :=
  match t with c :: _ => c =? 43 | [] => false end.
Definition digit_token (t : list Z) : bool :=
  (1 <=? Z.of_nat (length t)) && (Z.of_nat (length t) <=? 3) && forallb isdigit t.
(** The first and the second token that satisfy a test. *)
Definition first_two (f : list Z -> bool) (ts : list (list Z)) : option (list Z * list Z) :=
  match List.filter f ts with
  | a :: b :: _ => Some (a, b)
  | _ => None
  end.

Record plan_contact := mk_plan { pl_start : Z; pl_end : Z; pl_from : Z; pl_to : Z }.

(** One line of the plan: start and end in milliseconds, from, to. *)
Definition parse_line (line : list Z) : option plan_contact :=
  let p := skip_spaces (c_string line) in
  match p with
  | [] => None
  | c :: _ =>
      if c =? 35 then None
      else
        let tok := tokens 8 p in
        if (length tok <? 5)%nat then None
        else
          '(start_tok, end_tok) ← first_two plus_token tok;
          '(from_tok, to_tok) ← first_two digit_token tok;
          start_sec ← scan_plus_d start_tok;
          end_sec ← scan_plus_d end_tok;
          Some (mk_plan (u32 (u32 start_sec * 1000)) (u32 (u32 end_sec * 1000))
                        (digits_val from_tok 0) (digits_val to_tok 0))
  end.

Section plan.
Context `{Env}.

(** The body of the [fgets] loop; returns whether a contact was added. *)
Definition load_line (line : list Z) : M world bool :=
  match parse_line line with
  | None => mret false
  | Some pc =>
      let '(rf, from_ip6) := nodeid_to_ipv6 (pl_from pc) ip6_addr_any in
      if negb (rf =? 0) then mret false
      else
        let '(rt, to_ip6) := nodeid_to_ipv6 (pl_to pc) ip6_addr_any in
        if negb (rt =? 0) then mret false
        else
          w ← get;
          r ← lift (deref (w_routing w));
          dtn_routing_add_contact (Some (ip6_addr_set_zone IP6_NO_ZONE to_ip6))
            (Some (ip6_addr_set_zone IP6_NO_ZONE from_ip6))
            (u32 (pl_start pc + base_time r)) (u32 (pl_end pc + base_time r)) true
  end.

Fixpoint load_lines (fuel : nat) (f : list Z) (loaded : Z) : M world Z :=
  match fuel with
  | O => fun _ => Hang
  | S fuel =>
      match f with
      | [] => mret loaded
      | _ =>
          let '(line, rest) := fgets 511 f in
          added ← load_line line;
          load_lines fuel rest (if (added : bool) then loaded + 1 else loaded)
      end
  end.

Definition dtn_routing_load_contacts (name : list Z) : M world Z :=
  w ← get;
  match w_routing w with
  | None => mret (-1)
  | Some _ =>
      file ← fopen_rb name;
      match file with
      | None => mret (-1)
      | Some content => load_lines (S (length content)) content 0
      end
  end.

Definition CONTACTS_FILE : list Z := str "py_cgr/contact_plans/cgr_tutorial_1.txt".

Definition dtn_routing_create : M world unit :=
  ok ← malloc_ok;
  if negb ok then modify (set_routing None)
  else
    now ← sys_now;
    modify (set_routing (Some (mk_routing now None)));;
    _ ← dtn_routing_load_contacts CONTACTS_FILE;
    mret tt.
End plan.

(** ** The next hop *)

Section next_hop.
Context `{Env}.

(** The arguments of the Python calls. *)
Definition cgr_arguments (base now v_tc_fl plen hoplim : Z) (dst_s sender_s : list Z) : cgr_query :=
  let deadline := hoplim * 10000 in
  let tc := u8 (Z.land (Z.shiftr v_tc_fl 20) 0xff) in
  let dscp := u8 (Z.shiftr tc 2) in
  mk_query base now (ipv6_to_nodeid CURR_NODE_ADDR) (ipv6_to_nodeid dst_s) plen deadline dscp
           (ipv6_to_nodeid sender_s).

(** What is done with the answer: the C result and the next hop; [next_ip]
    is an uninitialised local, whose zone is copied out with the rest. *)
Definition use_candidate (a : cgr_answer) (next_hop_ip : ip6_addr) : M world (Z * ip6_addr) :=
  match a with
  | CgrError => mret (0, next_hop_ip)
  | CgrNull => stuck                       (* PyList_Check on a null pointer *)
  | CgrNoCandidate => mret (0, next_hop_ip)
  | CgrNoAttr => mret (0, next_hop_ip)
  | CgrNone => mret (1, next_hop_ip)
  | CgrNotInt => mret (1, next_hop_ip)
  | CgrNode next_node =>
      next_ip ← stack_addr;
      let '(r, next_ip) := nodeid_to_ipv6 next_node next_ip in
      if r =? 0 then
        if (ip6_addr_to_str (Some next_ip)).1 =? 0 then mret (1, next_ip) else mret (0, next_ip)
      else mret (0, next_hop_ip)
  end.

(** The pointer arguments are never null in the callers. *)
Definition dtn_routing_get_dtn_next_hop (v_tc_fl plen hoplim : Z) (dest_ip : ip6_addr)
    (sender_ip : option ip6_addr) (next_hop_ip : ip6_addr) : M world (Z * ip6_addr) :=
  w ← get;
  match w_routing w with
  | None => mret (0, next_hop_ip)
  | Some r =>
      is_dtn ← dtn_routing_is_dtn_destination (Some dest_ip);
      if negb is_dtn then mret (0, ip6_addr_any)
      else
        match inet_pton6 CURR_NODE_ADDR with
        | None => mret (0, next_hop_ip)
        | Some _ =>
            let '(rd, dst_s) := ip6_addr_to_str (Some dest_ip) in
            if negb (rd =? 0) then mret (1, next_hop_ip)
            else
              let '(rs, sender_s) := ip6_addr_to_str sender_ip in
              if negb (rs =? 0) then mret (1, next_hop_ip)
              else
                now ← sys_now;
                t ← next_tick;
                use_candidate
                  (env_cgr t (cgr_arguments (base_time r) now v_tc_fl plen hoplim dst_s sender_s))
                  next_hop_ip
        end
  end.
End next_hop.
