(* ===== verification/RoutingSpec.v ===== *)
(** * Contacts and next hops: specification

    [contacts w cs] says that the routing function holds the contacts [cs] in
    order.  The contact operations implement list operations on [cs]; the
    loader appends what it reads in its lines ([ContactPlan] says what they mean);
    the next-hop query returns the address of the node the route computation chose. *)

From S2P Require Import Prelude LinkedList Ip6Addr World Pbuf Ip6Hdr Custody Routing.

Definition contacts (w : world) (cs : list Contact_Info) : Prop :=
  exists r ls, w_routing w = Some r /\ llist (w_contacts w) (contact_list_head r) ls /\ ls.*2 = cs.

(** Everything but the contacts and the clock of the environment. *)
Definition rest_but_contacts (w : world) :=
  (w_pbufs w, w_entries w, w_controller w, w_storage w, w_last_check w, w_last_active w,
   w_files w, w_cur_src w, w_cur_dest w, w_raw w, w_fds w, w_trace w, w_timers w).

Lemma contacts_det w cs cs' : contacts w cs -> contacts w cs' -> cs = cs'.
Proof.
  intros (r & ls & Hr & Hl & <-) (r' & ls' & Hr' & Hl' & <-).
  rewrite Hr in Hr'. simplify_eq. by rewrite (llist_det _ _ _ _ Hl Hl').
Qed.

Lemma contacts_ticks w cs k : contacts (add_ticks k w) cs <-> contacts w cs.
Proof. done. Qed.

Section contact_ops.
Context `{Env}.

Lemma add_contact_spec w cs na nh s e d :
  contacts w cs ->
  wp (dtn_routing_add_contact (Some na) (Some nh) s e d) w (fun r w' =>
    rest_but_contacts w' = rest_but_contacts w /\
    r = env_malloc (w_tick w) /\
    option_map base_time (w_routing w') = option_map base_time (w_routing w) /\
    contacts w' (if r then cs ++ [mk_contact na nh s e d] else cs)).
Proof.
  intros (r & ls & Hr & Hl & <-). unfold dtn_routing_add_contact.
  apply wp_bind, wp_get. rewrite Hr. apply wp_bind, wp_malloc.
  destruct (env_malloc (w_tick w)) eqn:Em; cbn [negb].
  2: { apply wp_ret. split_and!; [done|done|simpl; by rewrite Hr|]. by exists r, ls. }
  apply wp_bind, wp_get, wp_bind. eapply wp_lift; [simpl; by rewrite Hr|].
  apply wp_bind, wp_modify. apply wp_bind, wp_get, wp_bind.
  cbn [w_contacts set_contacts add_ticks]. set (c := new_loc (w_contacts w)).
  assert (Hc : w_contacts w !! c = None) by apply new_loc_fresh.
  set (ct := mk_contact na nh s e d).
  destruct (append_node_spec (<[c := Node ct None]> (w_contacts w)) (contact_list_head r) ls c ct
              (S (size (<[c := Node ct None]> (w_contacts w))))) as (h' & hd' & Ha & Hl' & _).
  - by apply llist_insert_fresh.
  - apply lookup_insert_eq.
  - intros ([c' v] & Heq & Hin)%list_elem_of_fmap. simpl in Heq. subst c'.
    destruct (llist_elem _ _ _ _ _ Hl Hin). congruence.
  - rewrite map_size_insert_None by done. apply llist_length in Hl. lia.
  - eapply wp_lift; [exact Ha|]. apply wp_bind, wp_modify. apply wp_bind, wp_modify, wp_ret.
    split_and!; [done|done|done|].
    eexists _, (ls ++ [(c, ct)]). split_and!; [done|exact Hl'|]. by rewrite fmap_app.
Qed.

Fixpoint remove_contact (na : ip6_addr) (cs : list Contact_Info) : list Contact_Info :=
  match cs with
  | [] => []
  | c :: cs => if ip6_addr_cmp (node_addr c) na then cs else c :: remove_contact na cs
  end.

Lemma remove_first_snd na (ls : list (loc * Contact_Info)) :
  (remove_first (fun c => ip6_addr_cmp (node_addr c) na) ls).*2 = remove_contact na ls.*2.
Proof.
  induction ls as [|[l c] ls IH]; [done|]. rewrite fmap_cons. simpl.
  destruct (ip6_addr_cmp _ _); [done|]. by rewrite <-IH.
Qed.

Lemma find_first_exists {V} (f : V -> bool) ls :
  bool_decide (is_Some (find_first f ls)) = existsb f ls.*2.
Proof.
  induction ls as [|[l c] ls IH]; [done|]. rewrite fmap_cons. simpl.
  destruct (f c); [done|]. by rewrite <-IH.
Qed.

Lemma remove_contact_spec w cs na :
  contacts w cs ->
  wp (dtn_routing_remove_contact (Some na)) w (fun r w' =>
    rest_but_contacts w' = rest_but_contacts w /\
    r = existsb (fun c => ip6_addr_cmp (node_addr c) na) cs /\ contacts w' (remove_contact na cs)).
Proof.
  intros (r & ls & Hr & Hl & <-). unfold dtn_routing_remove_contact.
  apply wp_bind, wp_get. rewrite Hr. apply wp_bind.
  pose proof (find_unlink_spec (w_contacts w) (contact_list_head r)
    (fun c => Ret (ip6_addr_cmp (node_addr c) na)) (fun c => ip6_addr_cmp (node_addr c) na) ls
    (S (size (w_contacts w))) Hl) as Hu.
  rewrite <-(find_first_exists (fun c => ip6_addr_cmp (node_addr c) na)), <-remove_first_snd.
  destruct (find_first _ ls) as [[l v]|] eqn:Ef.
  - destruct Hu as (prev & h' & hd' & Hfn & Hun & Hll & _); [done|apply llist_length in Hl; lia|].
    eapply wp_lift; [exact Hfn|]. apply wp_bind. eapply wp_lift; [exact Hun|].
    apply wp_bind, wp_modify. apply wp_bind, wp_modify, wp_ret.
    split_and!; [done|done|]. eexists _, _. split_and!; [done|exact Hll|done].
  - destruct Hu as [Hfn Hrm]; [done|apply llist_length in Hl; lia|].
    eapply wp_lift; [exact Hfn|]. apply wp_ret. split_and!; [done|done|].
    rewrite Hrm. exists r, ls. done.
Qed.

(** The destination is a DTN destination when some contact leads to it. *)
Definition serves (dest : ip6_addr) (c : Contact_Info) : bool :=
  is_dtn_node c && ip6_addr_zoneless_eq dest (node_addr c).

Lemma is_dtn_exec w cs dest :
  contacts w cs ->
  dtn_routing_is_dtn_destination (Some dest) w = Ret (existsb (serves dest) cs, w).
Proof.
  intros (r & ls & Hr & Hl & <-). unfold dtn_routing_is_dtn_destination.
  rewrite (bind_exec get _ w w w) by done. rewrite Hr.
  assert (E : forall c, dtn_contact_for dest c = serves dest c).
  { intros c. unfold dtn_contact_for, serves, ip6_addr_cmp. simpl. by rewrite andb_true_r. }
  pose proof (find_unlink_spec (w_contacts w) (contact_list_head r)
    (fun c => Ret (dtn_contact_for dest c)) (serves dest) ls (S (size (w_contacts w))) Hl) as Hu.
  rewrite <-(find_first_exists (serves dest)).
  destruct (find_first _ ls) as [[l v]|].
  - destruct Hu as (prev & h' & hd' & Hfn & _); [intros; by rewrite E|apply llist_length in Hl; lia|].
    rewrite (bind_exec (lift _) _ w (Some (prev, l)) w) by (unfold lift; by rewrite Hfn). done.
  - destruct Hu as [Hfn _]; [intros; by rewrite E|apply llist_length in Hl; lia|].
    rewrite (bind_exec (lift _) _ w None w) by (unfold lift; by rewrite Hfn). done.
Qed.

(** ** Contact state changes *)

(** The recorded states after a check: contact [i] of the first hundred. *)
Fixpoint new_states (now : Z) (cs : list Contact_Info) (states : list bool) : list bool :=
  match cs, states with
  | c :: cs, _ :: states => contact_active now c :: new_states now cs states
  | _, _ => states
  end.
Fixpoint became_active (now : Z) (cs : list Contact_Info) (states : list bool) : bool :=
  match cs, states with
  | c :: cs, last :: states => (contact_active now c && negb last) || became_active now cs states
  | _, _ => false
  end.

Lemma update_loop now h ls cur i pre states ret fuel :
  llist h cur ls -> length pre = i -> (i + length states = 100)%nat -> (length ls < fuel)%nat ->
  oloop fuel (update_body now h) (cur, i, pre ++ states, ret) =
    Ret (pre ++ new_states now ls.*2 states, ret || became_active now ls.*2 states).
Proof.
  revert cur i pre states ret fuel. induction ls as [|[l c] ls IH];
    intros cur i pre states ret [|fuel] Hl Hi Hlen Hf; simpl in Hf; try lia; rewrite oloop_S.
  - simpl in Hl. subst cur. simpl. by rewrite orb_false_r.
  - destruct Hl as [-> (q & Hq & Hr)]. rewrite fmap_cons. cbn [snd].
    destruct states as [|last states]; simpl in Hlen.
    { unfold update_body. rewrite (proj2 (Nat.leb_le 100 i)) by lia. simpl.
      by rewrite orb_false_r. }
    assert (Hst : update_body now h (Some l, i, pre ++ last :: states, ret) =
      Ret (inl (q, S i, (pre ++ [contact_active now c]) ++ states,
                ret || (contact_active now c && negb last)))).
    { unfold update_body. rewrite (proj2 (Nat.leb_gt 100 i)) by lia. rewrite Hq.
      cbn [deref mbind outcome_bind n_val n_next].
      rewrite lookup_app_r, Hi, Nat.sub_diag by lia. cbn [lookup list_lookup deref mbind outcome_bind].
      rewrite <-app_assoc. cbn [app].
      case_bool_decide as Hd.
      - rewrite insert_app_r_alt, Hi, Nat.sub_diag by lia. simpl.
        by destruct (contact_active now c), last; simpl; rewrite ?orb_true_r, ?orb_false_r.
      - subst last.
        by destruct (contact_active now c); simpl; rewrite orb_false_r. }
    rewrite Hst. cbn [mbind outcome_bind]. rewrite IH; [|done|rewrite length_app; simpl; lia|lia|lia].
    rewrite <-app_assoc. simpl. by rewrite orb_assoc.
Qed.

Lemma update_contacts_exec w cs :
  contacts w cs -> length (w_last_active w) = 100%nat ->
  let now := u32 (env_now (w_tick w)) in
  dtn_routing_update_contacts w =
    Ret (became_active now cs (w_last_active w),
         set_update_statics now (new_states now cs (w_last_active w)) (add_ticks 1 w)).
Proof.
  intros (r & ls & Hr & Hl & <-) Hlen now. unfold dtn_routing_update_contacts.
  rewrite (bind_exec get _ w w w) by done. rewrite Hr.
  rewrite (bind_exec sys_now _ w now (add_ticks 1 w)) by done.
  unfold lift, mbind, M_bind.
  pose proof (update_loop now (w_contacts w) ls (contact_list_head r) 0 [] (w_last_active w) false
    (S (size (w_contacts w))) Hl eq_refl Hlen) as E. simpl app in E.
  rewrite E; [done|]. apply llist_length in Hl. lia.
Qed.

Lemma new_states_length now cs states : length (new_states now cs states) = length states.
Proof. revert states. induction cs as [|c cs IH]; intros [|s states]; simpl; auto. Qed.
End contact_ops.

(** Destruction frees the contacts and nothing else. *)
Lemma routing_destroy_spec w r ls :
  w_routing w = Some r -> llist (w_contacts w) (contact_list_head r) ls ->
  wp dtn_routing_destroy w (fun _ w' =>
    rest_but_contacts w' = rest_but_contacts w /\ w_routing w' = None /\ w_tick w' = w_tick w /\
    forall l, w_contacts w' !! l = if decide (l ∈ ls.*1) then None else w_contacts w !! l).
Proof.
  intros Hr Hl. unfold dtn_routing_destroy. apply wp_bind, wp_get. rewrite Hr.
  assert (Hlen : (length ls < S (size (w_contacts w)))%nat) by (apply llist_length in Hl; lia).
  revert Hlen. generalize (S (size (w_contacts w))). intros fuel Hlen. apply wp_bind.
  match goal with |- wp (loop _ ?b _) _ _ => set (body := b) end.
  assert (Hloop : forall ls fuel w cur, llist (w_contacts w) cur ls -> (length ls < fuel)%nat ->
    wp (loop fuel body cur) w (fun _ w' => rest_but_contacts w' = rest_but_contacts w /\
      w_tick w' = w_tick w /\
      forall l, w_contacts w' !! l = if decide (l ∈ ls.*1) then None else w_contacts w !! l)).
  { clear. induction ls as [|[l c] ls IH]; intros [|fuel] w cur Hl Hf; simpl in Hf; try lia.
    - simpl in Hl. subst cur. unfold wp. rewrite loop_S. cbn. done.
    - pose proof (llist_NoDup _ _ _ Hl) as Hnd. apply NoDup_cons in Hnd as [Hn Hnd].
      destruct Hl as [-> (q & Hq & Hl)].
      assert (Hb : body (Some l) w = Ret (inl q, set_contacts (delete l) w))
        by (unfold body, get, lift, modify, mbind, M_bind; by rewrite Hq).
      unfold wp. rewrite loop_S, (bind_exec _ _ _ _ _ Hb). eapply wp_mono.
      + apply (IH fuel (set_contacts (delete l) w)); [by apply llist_delete_other|lia].
      + cbn beta. intros _ w' (H1 & H2 & H3). split_and!; [done|done|]. intros k.
        rewrite H3, fmap_cons. cbn [fst w_contacts set_contacts].
        destruct (decide (k = l)) as [->|Hk].
        * rewrite (decide_True (P := l ∈ l :: ls.*1)) by set_solver. rewrite lookup_delete_eq. by case_decide.
        * rewrite lookup_delete_ne by done. repeat case_decide; set_solver. }
  eapply wp_mono; [by apply (Hloop ls)|]. cbn beta. intros _ w' (H1 & H2 & H3).
  by apply wp_modify.
Qed.

(** ** The contact plan *)

Section plan_spec.
Context `{Env}.

(** The contact the loader reads in a line of the plan, with times relative to [base]. *)
Definition line_contact (base : Z) (line : list Z) : option Contact_Info :=
  pc ← parse_line line;
  let f := nodeid_to_ipv6 (pl_from pc) ip6_addr_any in
  let t := nodeid_to_ipv6 (pl_to pc) ip6_addr_any in
  if (f.1 =? 0) && (t.1 =? 0)
  then Some (mk_contact (ip6_addr_set_zone IP6_NO_ZONE t.2) (ip6_addr_set_zone IP6_NO_ZONE f.2)
               (u32 (pl_start pc + base)) (u32 (pl_end pc + base)) true)
  else None.

Fixpoint text_lines (fuel : nat) (f : list Z) : list (list Z) :=
  match fuel, f with
  | O, _ | _, [] => []
  | S fuel, _ => let '(line, rest) := fgets 511 f in line :: text_lines fuel rest
  end.

(** The contacts it reads in a file. *)
Definition plan_contacts (base : Z) (text : list Z) : list Contact_Info :=
  omap (line_contact base) (text_lines (length text) text).

Lemma fgets_rest n f l r : fgets n f = (l, r) -> (length r <= length f)%nat.
Proof.
  revert f l r. induction n as [|n IH]; intros f l r; simpl; [by intros [= _ <-]|].
  destruct f as [|c f]; [by intros [= _ <-]|]. destruct (c =? 10); [intros [= _ <-]; simpl; lia|].
  destruct (fgets n f) as [l' r'] eqn:E. intros [= _ <-]. apply IH in E. simpl. lia.
Qed.

Lemma fgets_progress n c f l r : fgets (S n) (c :: f) = (l, r) -> (length r <= length f)%nat.
Proof.
  simpl. destruct (c =? 10); [intros [= _ <-]; lia|].
  destruct (fgets n f) as [l' r'] eqn:E. intros [= _ <-]. by eapply fgets_rest.
Qed.

Lemma text_lines_fuel n m f :
  (length f <= n)%nat -> (length f <= m)%nat -> text_lines n f = text_lines m f.
Proof.
  revert m f. induction n as [|n IH]; intros m f Hn Hm.
  { destruct f; [by destruct m|simpl in Hn; lia]. }
  destruct f as [|c f]; [by destruct m|]. destruct m as [|m]; [simpl in Hm; lia|].
  cbn [text_lines]. destruct (fgets 511 (c :: f)) as [l r] eqn:E.
  apply fgets_progress in E. simpl in Hn, Hm. f_equal. apply IH; lia.
Qed.

(** Loading: some of the plan's contacts, in order, and all of them while there is memory. *)
Lemma load_line_spec w cs base line :
  contacts w cs -> option_map base_time (w_routing w) = Some base ->
  wp (load_line line) w (fun added w' => rest_but_contacts w' = rest_but_contacts w /\
    option_map base_time (w_routing w') = Some base /\
    exists cs', cs' `sublist_of` option_list (line_contact base line) /\ contacts w' (cs ++ cs') /\
      length cs' = (if added then 1 else 0)%nat /\
      ((forall t, env_malloc t = true) -> cs' = option_list (line_contact base line))).
Proof.
  intros Hc Hb. unfold load_line, line_contact.
  assert (Hnone : exists cs', cs' `sublist_of` @option_list Contact_Info None /\ contacts w (cs ++ cs') /\ length cs' = 0%nat /\
    ((forall t, env_malloc t = true) -> cs' = option_list None)).
  { exists []. rewrite app_nil_r. split_and!; [apply sublist_nil_l|done|done|done]. }
  destruct (parse_line line) as [pc|]; simpl; [|by apply wp_ret].
  destruct (nodeid_to_ipv6 (pl_from pc) ip6_addr_any) as [rf fip]. simpl.
  destruct (nodeid_to_ipv6 (pl_to pc) ip6_addr_any) as [rt tip]. simpl.
  destruct (rf =? 0); simpl; [|by apply wp_ret]. destruct (rt =? 0); simpl; [|by apply wp_ret].
  apply wp_bind, wp_get, wp_bind. destruct (w_routing w) as [r|] eqn:Er; [|done].
  simpl in Hb. injection Hb as <-. eapply wp_lift; [done|].
  eapply wp_mono; [by apply add_contact_spec|]. cbn beta.
  intros added w' (H1 & Ha & H3 & H4). rewrite Er in H3. split_and!; [done|done|].
  destruct added; [eexists; split_and!; [reflexivity|exact H4|done|done]|].
  exists []. rewrite app_nil_r. split_and!; [apply sublist_nil_l|done|done|]. intros Hm. by rewrite Hm in Ha.
Qed.

Lemma load_lines_spec fuel w cs base text n :
  contacts w cs -> option_map base_time (w_routing w) = Some base -> (length text < fuel)%nat ->
  wp (load_lines fuel text n) w (fun r w' => rest_but_contacts w' = rest_but_contacts w /\
    option_map base_time (w_routing w') = Some base /\
    exists cs', cs' `sublist_of` plan_contacts base text /\ contacts w' (cs ++ cs') /\
      r = n + Z.of_nat (length cs') /\ ((forall t, env_malloc t = true) -> cs' = plan_contacts base text)).
Proof.
  revert w cs text n. induction fuel as [|fuel IH]; intros w cs text n Hc Hb Hf; [lia|].
  cbn [load_lines]. destruct text as [|c text].
  { apply wp_ret. split_and!; [done|done|]. exists []. rewrite app_nil_r. split_and!; [done|done|simpl; lia|done]. }
  unfold plan_contacts. cbn [length text_lines].
  destruct (fgets 511 (c :: text)) as [line rest] eqn:E. apply fgets_progress in E. simpl in Hf.
  apply wp_bind. eapply wp_mono; [by apply (load_line_spec w cs base)|]. cbn beta.
  intros added w1 (Hr1 & Hb1 & cs1 & Hs1 & Hc1 & Hn1 & Hm1).
  eapply wp_mono; [eapply (IH w1 _ rest); [exact Hc1|done|lia]|].
  cbn beta. intros r w2 (Hr2 & Hb2 & cs2 & Hs2 & Hc2 & Hn2 & Hm2). split_and!; [congruence|done|].
  exists (cs1 ++ cs2). rewrite app_assoc, length_app.
  rewrite (text_lines_fuel (length text) (length rest) rest) by lia.
  assert (omap (line_contact base) (line :: text_lines (length rest) rest) =
          option_list (line_contact base line) ++ plan_contacts base rest) as ->
    by (simpl; by destruct (line_contact base line)).
  split_and!; [by apply sublist_app|done|destruct added; lia|]. intros Hm. by rewrite Hm1, Hm2.
Qed.

(** ** Tokens and numbers of a line *)

Lemma isspace_false_skip c s : isspace c = false -> skip_spaces (c :: s) = c :: s.
Proof. intros E. simpl. by rewrite E. Qed.

Lemma read_token_app i t s :
  forallb (fun c => negb (isspace c)) t = true -> (length t <= i)%nat ->
  match s with [] => True | c :: _ => isspace c = true end ->
  read_token i (t ++ s) = (t, s).
Proof.
  revert i. induction t as [|c t IH]; intros i Ht Hl Hs; simpl.
  - destruct i; [done|]. destruct s as [|c s]; [done|]. simpl. by rewrite Hs.
  - simpl in Ht, Hl. apply andb_prop in Ht as [Hc Ht]. destruct i as [|i]; [lia|].
    simpl. apply negb_true_iff in Hc. rewrite Hc, IH by (done || lia). done.
Qed.

(** A word and a space at the front of a line. *)
Lemma tokens_word n t s :
  t <> [] -> forallb (fun c => negb (isspace c)) t = true -> (length t <= 63)%nat ->
  match s with [] => True | c :: _ => isspace c = true end ->
  tokens (S n) (t ++ s) = t :: tokens n s.
Proof.
  intros Hne Ht Hl Hs. cbn [tokens]. destruct t as [|c t]; [done|].
  assert (Hc : isspace c = false) by (simpl in Ht; apply andb_prop in Ht as [Hc _]; by apply negb_true_iff).
  rewrite <-app_comm_cons, isspace_false_skip by done.
  rewrite app_comm_cons, read_token_app by done. done.
Qed.

Lemma tokens_space n s : tokens n (32 :: s) = tokens n s.
Proof. destruct n; done. Qed.

Lemma digits_val_cons c s a :
  isdigit c = true -> digits_val (c :: s) a = digits_val s (10 * a + (c - 48)).
Proof. intros E. simpl. by rewrite E. Qed.

Lemma isdigit_range c : isdigit c = true <-> 48 <= c <= 57.
Proof. unfold isdigit. rewrite andb_true_iff, !Z.leb_le. lia. Qed.

Lemma digits_no_space ds : forallb isdigit ds = true -> forallb (fun c => negb (isspace c)) ds = true.
Proof.
  rewrite !forallb_forall. intros H0 c Hc. specialize (H0 c Hc). apply isdigit_range in H0.
  unfold isspace. apply negb_true_iff, orb_false_iff. split; [apply Z.eqb_neq; lia|].
  apply andb_false_iff. right. apply Z.leb_gt. lia.
Qed.

Lemma plus_digit_token ds : digit_token (43 :: ds) = false.
Proof. unfold digit_token. cbn [forallb]. by rewrite andb_false_r. Qed.
Lemma c_string_id s : forallb (fun c => negb (c =? 0)) s = true -> c_string s = s.
Proof.
  induction s as [|c s IH]; [done|]. cbn. intros [Hc Hs]%andb_prop.
  apply negb_true_iff in Hc. rewrite Hc. f_equal. by apply IH.
Qed.
Lemma digits_nonzero ds : forallb isdigit ds = true -> forallb (fun c => negb (c =? 0)) ds = true.
Proof.
  rewrite !forallb_forall. intros H0 c Hc. specialize (H0 c Hc). apply isdigit_range in H0.
  apply negb_true_iff, Z.eqb_neq. lia.
Qed.

(** Creation: no routing function, or one that holds contacts of the plan,
    dated from the time of creation. *)
Lemma routing_create_spec w :
  wp dtn_routing_create w (fun _ w' => rest_but_contacts w' = rest_but_contacts w /\
    if env_malloc (w_tick w) then
      let base := u32 (env_now (S (w_tick w))) in
      exists cs, contacts w' cs /\ option_map base_time (w_routing w') = Some base /\
        cs `sublist_of` plan_contacts base (default [] (w_files w !! CONTACTS_FILE))
    else w_routing w' = None /\ w_contacts w' = w_contacts w).
Proof.
  unfold dtn_routing_create. apply wp_bind, wp_malloc.
  destruct (env_malloc (w_tick w)); cbn [negb]; [|by apply wp_modify].
  apply wp_bind, wp_now, wp_bind, wp_modify, wp_bind. cbn [w_tick add_ticks].
  set (base := u32 (env_now _)). set (w1 := set_routing _ _).
  assert (Hc : contacts w1 []) by (eexists _, []; done).
  unfold dtn_routing_load_contacts. apply wp_bind, wp_get. cbn [w_routing w1 set_routing].
  apply wp_bind. unfold fopen_rb. apply wp_bind, wp_tick, wp_bind, wp_get, wp_ret.
  cbn [w_files add_ticks w1 set_routing]. destruct (env_fopen _); [|apply wp_ret, wp_ret].
  1: destruct (w_files w !! CONTACTS_FILE) as [text|]; [|apply wp_ret, wp_ret].
  1: { eapply wp_mono; [apply (load_lines_spec _ (add_ticks 1 w1) [] base); [done|done|lia]|].
       cbn beta. intros r w2 (Hr2 & Hb2 & cs & Hs & Hc2 & _). apply wp_ret. split; [done|]. by exists cs. }
  all: split; [done|]; exists []; split_and!; [done|done|apply sublist_nil_l].
Qed.
End plan_spec.

(** ** Properties *)

(** An address book with no contact in it. *)
Definition routing_world : world := set_routing (Some (mk_routing 0 None)) empty_world.

Lemma routing_world_contacts : contacts routing_world [].
Proof. by exists (mk_routing 0 None), []. Qed.

(** Contacts and DTN destinations.  A contact that is added goes to the
    end of the list (unless memory is short, when the list is unchanged), and
    afterwards an address is a DTN destination exactly when a DTN contact of
    the list leads to it, zones aside. *)
Theorem routing_add_lookup `{Env} w cs na nh s e d dest :
  contacts w cs ->
  wp (r ← dtn_routing_add_contact (Some na) (Some nh) s e d;
      x ← dtn_routing_is_dtn_destination (Some dest);
      mret (r, x)) w (fun rx w' =>
    let cs' := if rx.1 then cs ++ [mk_contact na nh s e d] else cs in
    contacts w' cs' /\ rx.1 = env_malloc (w_tick w) /\ rx.2 = existsb (serves dest) cs' /\
    rest_but_contacts w' = rest_but_contacts w).
Proof.
  intros Hc. apply wp_bind. eapply wp_mono; [by apply add_contact_spec|]. cbn beta.
  intros r w' (Hr & Hm & _ & Hc'). apply wp_bind. eapply wp_exec; [by apply is_dtn_exec|].
  by apply wp_ret.
Qed.

Lemma routing_add_lookup_witness :
  wp (r ← @dtn_routing_add_contact calm_env (Some node2) (Some ip6_addr_any) 0 10 true;
      x ← dtn_routing_is_dtn_destination (Some node2);
      mret (r, x)) routing_world (fun rx w' =>
    let cs' := if rx.1 then [] ++ [mk_contact node2 ip6_addr_any 0 10 true] else [] in
    contacts w' cs' /\ rx.1 = @env_malloc calm_env (w_tick routing_world) /\
    rx.2 = existsb (serves node2) cs' /\
    rest_but_contacts w' = rest_but_contacts routing_world).
Proof. apply (@routing_add_lookup calm_env). apply routing_world_contacts. Defined.

(** Removing a contact takes out the first contact for the address
    (compared with its zone) and nothing else, and reports whether there was
    one. *)
Theorem routing_remove_refines `{Env} w cs na :
  contacts w cs ->
  wp (dtn_routing_remove_contact (Some na)) w (fun r w' =>
    rest_but_contacts w' = rest_but_contacts w /\
    r = existsb (fun c => ip6_addr_cmp (node_addr c) na) cs /\ contacts w' (remove_contact na cs)).
Proof. apply remove_contact_spec. Qed.

Lemma routing_remove_refines_witness :
  wp (dtn_routing_remove_contact (Some node2)) routing_world (fun r w' =>
    rest_but_contacts w' = rest_but_contacts routing_world /\ r = false /\ contacts w' []).
Proof. apply (@routing_remove_refines calm_env _ []). apply routing_world_contacts. Defined.

(** Contact windows.  A check records for each of the first hundred
    contacts whether the clock is inside its window, and reports whether one
    of them was outside at the previous check and is inside now. *)
Theorem routing_update_contacts_ok `{Env} w cs :
  contacts w cs -> length (w_last_active w) = 100%nat ->
  let now := u32 (env_now (w_tick w)) in
  dtn_routing_update_contacts w =
    Ret (became_active now cs (w_last_active w),
         set_update_statics now (new_states now cs (w_last_active w)) (add_ticks 1 w)) /\
  length (new_states now cs (w_last_active w)) = 100%nat /\
  (forall i c, cs !! i = Some c -> (i < 100)%nat ->
     new_states now cs (w_last_active w) !! i = Some (contact_active now c)).
Proof.
  intros Hc Hl now. split_and!; [by apply update_contacts_exec|by rewrite new_states_length|].
  rewrite <-Hl. generalize (w_last_active w). clear. induction cs as [|c cs IH]; intros l i c' Hi Hlt.
  - done.
  - destruct l as [|b l]; simpl in Hlt; [lia|]. destruct i as [|i]; simpl in *; [congruence|].
    apply IH; [done|lia].
Qed.

Lemma routing_update_contacts_ok_witness :
  let w := set_update_statics 0 (replicate 100 false) routing_world in
  let now := u32 (@env_now calm_env (w_tick w)) in
  @dtn_routing_update_contacts calm_env w =
    Ret (became_active now [] (w_last_active w),
         set_update_statics now (new_states now [] (w_last_active w)) (add_ticks 1 w)) /\
  length (new_states now [] (w_last_active w)) = 100%nat /\
  (forall i c, [] !! i = Some c -> (i < 100)%nat ->
     new_states now [] (w_last_active w) !! i = Some (contact_active now c)).
Proof. apply (@routing_update_contacts_ok calm_env); [apply routing_world_contacts|done]. Defined.

(** Node numbers and addresses.  For every node number with an address,
    turning the number into the address, the address into text and the text
    into a number gives the number back, except for node 10, this node
    itself: its text, fd00:1::2, is in no entry of the table (the entry meant
    for it repeats fd00:1::1), and the result is -1. *)
Theorem nodeid_roundtrip id out a :
  nodeid_to_ipv6 id out = (0, a) ->
  (ip6_addr_to_str (Some a)).1 = 0 /\
  ipv6_to_nodeid (ip6_addr_to_str (Some a)).2 = if id =? 10 then -1 else id.
Proof.
  unfold nodeid_to_ipv6, nodeid_text.
  repeat match goal with
  | |- context [if id =? ?k then Some _ else _] =>
      destruct (Z.eqb_spec id k) as [->|_];
      [intros E; injection E as <-; split; vm_compute; reflexivity|]
  end. done.
Qed.

Lemma nodeid_roundtrip_witness :
  (ip6_addr_to_str (Some node2)).1 = 0 /\ ipv6_to_nodeid (str "fd00:12::2") = 21.
Proof.
  split; [reflexivity|].
  exact (proj2 (nodeid_roundtrip 21 ip6_addr_any (nodeid_to_ipv6 21 ip6_addr_any).2
                  ltac:(vm_compute; reflexivity))).
Defined.

Lemma nodeid_text_parses id txt : nodeid_text id = Some txt -> is_Some (inet_pton6 txt).
Proof.
  unfold nodeid_text. intros Et.
  repeat (case_match; [injection Et as <-; vm_compute; eauto|]). done.
Qed.

Lemma next_hop_exec `{Env} w cs r v plen hl dest sender nh :
  contacts w cs -> w_routing w = Some r ->
  dtn_routing_get_dtn_next_hop v plen hl dest (Some sender) nh w =
    if existsb (serves dest) cs then
      let q := cgr_arguments (base_time r) (u32 (env_now (w_tick w))) v plen hl
                 (ip6_addr_to_str (Some dest)).2 (ip6_addr_to_str (Some sender)).2 in
      match env_cgr (S (w_tick w)) q with
      | CgrNull => Stuck
      | CgrNone | CgrNotInt => Ret ((1, nh), add_ticks 2 w)
      | CgrNode id =>
          let a := nodeid_to_ipv6 id (env_stack_addr (S (S (w_tick w)))) in
          Ret (if bool_decide (is_Some (nodeid_text id)) then (1, a.2) else (0, nh), add_ticks 3 w)
      | _ => Ret ((0, nh), add_ticks 2 w)
      end
    else Ret ((0, ip6_addr_any), w).
Proof.
  intros Hc Hr. unfold dtn_routing_get_dtn_next_hop. rewrite (bind_exec get _ w w w) by done.
  rewrite Hr, (bind_exec _ _ _ _ _ (is_dtn_exec w cs dest Hc)).
  destruct (existsb (serves dest) cs); cbn [negb]; [|done].
  replace (inet_pton6 CURR_NODE_ADDR) with (Some [253; 0; 0; 1; 0; 0; 0; 0; 0; 0; 0; 0; 0; 0; 0; 2])
    by (vm_compute; reflexivity).
  assert (Hs : forall a, (ip6_addr_to_str (Some a)).1 = 0) by done.
  pose proof (Hs dest) as Hd. pose proof (Hs sender) as Hsn.
  destruct (ip6_addr_to_str (Some dest)) as [rd ds], (ip6_addr_to_str (Some sender)) as [rs ss].
  cbn [fst snd] in *. subst rd rs. cbn [negb Z.eqb].
  rewrite (bind_exec sys_now _ w (u32 (env_now (w_tick w))) (add_ticks 1 w)) by done.
  rewrite (bind_exec next_tick _ (add_ticks 1 w) (S (w_tick w)) (add_ticks 1 (add_ticks 1 w))) by done.
  rewrite add_ticks_add. unfold use_candidate. destruct (env_cgr _ _); try done.
  rewrite (bind_exec stack_addr _ _ (env_stack_addr (S (S (w_tick w)))) (add_ticks 3 w))
    by (unfold stack_addr, next_tick, mbind, M_bind; by rewrite add_ticks_add).
  destruct (nodeid_text id) as [txt|] eqn:Et.
  - rewrite bool_decide_true by done. unfold nodeid_to_ipv6. rewrite Et.
    by destruct (nodeid_text_parses id txt Et) as [bs ->].
  - rewrite bool_decide_false by (by intros []). unfold nodeid_to_ipv6. by rewrite Et.
Qed.

(** The next hop.  For an address no DTN contact leads to the result is 0
    and the next hop is the unspecified address.  Otherwise the answer of the
    route computation decides: a node number with an address gives 1 and that
    address; a route without next node ([None], or not an integer) gives 1
    too and leaves the caller's next hop as it was, uninitialised in both
    callers; a null result of [fwd_candidate] is dereferenced; everything
    else gives 0. *)
Theorem routing_next_hop_cases `{Env} w cs r v plen hl dest sender nh :
  contacts w cs -> w_routing w = Some r ->
  dtn_routing_get_dtn_next_hop v plen hl dest (Some sender) nh w =
    if existsb (serves dest) cs then
      let q := cgr_arguments (base_time r) (u32 (env_now (w_tick w))) v plen hl
                 (ip6_addr_to_str (Some dest)).2 (ip6_addr_to_str (Some sender)).2 in
      match env_cgr (S (w_tick w)) q with
      | CgrNull => Stuck
      | CgrNone | CgrNotInt => Ret ((1, nh), add_ticks 2 w)
      | CgrNode id =>
          let a := nodeid_to_ipv6 id (env_stack_addr (S (S (w_tick w)))) in
          Ret (if bool_decide (is_Some (nodeid_text id)) then (1, a.2) else (0, nh), add_ticks 3 w)
      | _ => Ret ((0, nh), add_ticks 2 w)
      end
    else Ret ((0, ip6_addr_any), w).
Proof. apply next_hop_exec. Qed.

(** A route computation that always proposes node 21. *)
Definition env_21 : Env :=
  calm_env_with (fun _ => 100000) (fun _ q => if q_dest_node q =? 32 then CgrNode 21 else CgrNone).

Definition addr_of (id : Z) : ip6_addr := (nodeid_to_ipv6 id ip6_addr_any).2.
Definition contact_world : world :=
  set_routing (Some (mk_routing 0 (Some 1%positive)))
    (set_contacts (insert 1%positive (Node (mk_contact (addr_of 32) (addr_of 21) 0 200000 true) None))
       empty_world).

Lemma contact_world_contacts : contacts contact_world [mk_contact (addr_of 32) (addr_of 21) 0 200000 true].
Proof.
  exists (mk_routing 0 (Some 1%positive)), [(1%positive, mk_contact (addr_of 32) (addr_of 21) 0 200000 true)].
  split_and!; [done| |done]. simpl. split; [done|]. by exists None.
Qed.

Lemma routing_next_hop_cases_witness :
  @dtn_routing_get_dtn_next_hop env_21 0 0 64 (addr_of 32) (Some (addr_of 1)) ip6_addr_any contact_world
    = Ret ((1, addr_of 21), add_ticks 3 contact_world).
Proof.
  exact (@routing_next_hop_cases env_21 contact_world _ (mk_routing 0 (Some 1%positive)) 0 0 64
           (addr_of 32) (addr_of 1) ip6_addr_any contact_world_contacts eq_refl).
Defined.
