(* ===== verification/ContactPlan.v ===== *)
(** * Contact plans (src/dtn_routing.c, dtn_routing_load_contacts)

    What a contact plan is, written down without the loader: a plan is a list of
    lines (blank lines, comments, lines of too few words, contacts), [print_plan] its
    text, [described] the contacts it stands for.  The theorem: loading the
    printed text appends exactly these contacts. *)

From S2P Require Import Prelude LinkedList Ip6Addr World Pbuf Ip6Hdr Custody Routing RoutingSpec.

(** ** Plans *)

(** The digits of a number, most significant first. *)
Definition numeral := list Z.
Fixpoint numeral_value (acc : Z) (ds : numeral) : Z :=
  match ds with
  | [] => acc
  | d :: ds => numeral_value (acc * 10 + d) ds
  end.
Definition print_numeral (ds : numeral) : list Z := (fun d => 48 + d) <$> ds.

(** [a contact +<start> +<end> <from> <to>], with the blanks before each of the six words,
    and the rest of the line, which the loader ignores (rate and range). *)
Record contact_line := mk_contact_line {
  cl_blanks : nat -> list Z;
  cl_start : numeral;
  cl_end : numeral;
  cl_from : numeral;
  cl_to : numeral;
  cl_rest : list Z
}.
Inductive plan_item :=
  | PlanBlank (blanks : list Z)
  | PlanComment (blanks text : list Z)
  | PlanShort (words : list (list Z))
  | PlanContact (c : contact_line).

Definition print_contact (c : contact_line) : list Z :=
  cl_blanks c 0 ++ str "a" ++ cl_blanks c 1 ++ str "contact" ++ cl_blanks c 2 ++ str "+" ++ print_numeral (cl_start c) ++
  cl_blanks c 3 ++ str "+" ++ print_numeral (cl_end c) ++ cl_blanks c 4 ++ print_numeral (cl_from c) ++
  cl_blanks c 5 ++ print_numeral (cl_to c) ++ cl_rest c.
Definition print_item (i : plan_item) : list Z :=
  match i with
  | PlanBlank blanks => blanks
  | PlanComment blanks text => blanks ++ str "#" ++ text
  | PlanShort words => concat ((fun word => word ++ str " ") <$> words)
  | PlanContact c => print_contact c
  end.
Definition print_plan (plan : list plan_item) : list Z := concat ((fun i => print_item i ++ [10]) <$> plan).

(** *** Which plans *)

(** Blanks are spaces and tabs. *)
Definition blank (c : Z) : Prop := c = 32 \/ c = 9.
(** Neither the end of a line nor of a string. *)
Definition inner (c : Z) : Prop := c <> 10 /\ c <> 0.
Definition numeral_ok (max : nat) (ds : numeral) : Prop :=
  Forall (fun d => 0 <= d <= 9) ds /\ (1 <= length ds <= max)%nat.
(** A word: no white space of any kind in it. *)
Definition word_ok (t : list Z) : Prop :=
  t <> [] /\ (length t <= 63)%nat /\ Forall (fun c => c <> 0 /\ c <> 32 /\ ~ (9 <= c <= 13)) t.

Record contact_line_ok (c : contact_line) : Prop := {
  co_blanks k : Forall blank (cl_blanks c k);
  co_gaps k : (1 <= k)%nat -> cl_blanks c k <> [];
  co_start : numeral_ok 62 (cl_start c) /\ numeral_value 0 (cl_start c) < 2147483648;
  co_end : numeral_ok 62 (cl_end c) /\ numeral_value 0 (cl_end c) < 2147483648;
  co_from : numeral_ok 3 (cl_from c);
  co_to : numeral_ok 3 (cl_to c);
  co_rest : Forall inner (cl_rest c) /\ forall x l, cl_rest c = x :: l -> blank x
}.
Definition item_ok (i : plan_item) : Prop :=
  (length (print_item i) <= 510)%nat /\
  match i with
  | PlanBlank blanks => Forall blank blanks
  | PlanComment blanks text => Forall blank blanks /\ Forall inner text
  | PlanShort words => (length words <= 4)%nat /\ Forall word_ok words
  | PlanContact c => contact_line_ok c
  end.

(** *** What they stand for *)

(** fd00:[net]::[host] *)
Definition unique_local (net host : Z) : ip6_addr := ip6_of_bytes [0xfd; 0; 0; net; 0; 0; 0; 0; 0; 0; 0; 0; 0; 0; 0; host].
(** The addresses of the six interfaces of the test bed. *)
Definition node_address (n : Z) : option ip6_addr :=
  match n with
  | 1 => Some (unique_local 0x01 1)
  | 10 => Some (unique_local 0x01 2)
  | 12 => Some (unique_local 0x12 1)
  | 21 => Some (unique_local 0x12 2)
  | 23 => Some (unique_local 0x23 2)
  | 32 => Some (unique_local 0x23 3)
  | _ => None
  end.

(** The contact leads to the address of node [to], by way of node [from], from [start] to [end]
    seconds after [base]; the clock of the node counts milliseconds in 32 bits. *)
Definition contact_described (base : Z) (c : contact_line) : list Contact_Info :=
  match node_address (numeral_value 0 (cl_from c)), node_address (numeral_value 0 (cl_to c)) with
  | Some from, Some to =>
      [mk_contact to from ((base + 1000 * numeral_value 0 (cl_start c)) mod 4294967296)
         ((base + 1000 * numeral_value 0 (cl_end c)) mod 4294967296) true]
  | _, _ => []
  end.
Definition item_described (base : Z) (i : plan_item) : list Contact_Info :=
  match i with PlanContact c => contact_described base c | _ => [] end.
Definition described (base : Z) (plan : list plan_item) : list Contact_Info := concat (item_described base <$> plan).

(** ** The loader reads the plan *)

Lemma nodeid_address n : nodeid_to_ipv6 n ip6_addr_any = match node_address n with Some a => (0, a) | None => (-1, ip6_addr_any) end.
Proof.
  unfold nodeid_to_ipv6, nodeid_text.
  repeat match goal with
  | |- context [if n =? ?k then Some _ else _] => destruct (Z.eqb_spec n k) as [->|?]; [vm_compute; reflexivity|]
  end.
  assert (E : node_address n = None); [|by rewrite E].
  unfold node_address. repeat (case_match; try done).
Qed.

(** *** Characters *)

Lemma blank_space c : blank c -> isspace c = true.
Proof. by intros [-> | ->]. Qed.
Lemma blank_inner c : blank c -> inner c.
Proof. by intros [-> | ->]. Qed.
Lemma blanks_inner l : Forall blank l -> Forall inner l.
Proof. intros Hl. eapply Forall_impl; [exact Hl|]. apply blank_inner. Qed.
Lemma skip_blanks g s : Forall blank g -> skip_spaces (g ++ s) = skip_spaces s.
Proof. induction 1 as [|c g Hc%blank_space _ IH]; [done|]. simpl. by rewrite Hc. Qed.
Lemma word_no_space t : word_ok t -> forallb (fun c => negb (isspace c)) t = true.
Proof.
  intros (_ & _ & Hw). apply forallb_forall. rewrite Forall_forall in Hw. intros c (_ & Hn & Hr)%list_elem_of_In%Hw.
  unfold isspace. apply negb_true_iff, orb_false_iff. split; [by apply Z.eqb_neq|]. apply andb_false_iff.
  destruct (Z.leb_spec 9 c); [right; apply Z.leb_gt; lia|by left].
Qed.
Lemma word_inner t : word_ok t -> Forall inner t.
Proof. intros (_ & _ & Hw). eapply Forall_impl; [exact Hw|]. unfold inner. simpl. lia. Qed.

Lemma tokens_skip n s : tokens n (skip_spaces s) = tokens n s.
Proof.
  assert (E : skip_spaces (skip_spaces s) = skip_spaces s).
  { induction s as [|c s IH]; [done|]. cbn. destruct (isspace c) eqn:Ec; [done|]. cbn. by rewrite Ec. }
  destruct n; [done|]. cbn [tokens]. by rewrite E.
Qed.

(** A word after blanks, and what follows it. *)
Definition ends_word (s : list Z) : Prop := match s with [] => True | c :: _ => isspace c = true end.
Lemma tokens_next n g t s : Forall blank g -> word_ok t -> ends_word s -> tokens (S n) (g ++ t ++ s) = t :: tokens n s.
Proof.
  intros Hg Ht Hs. assert (E : tokens (S n) (g ++ t ++ s) = tokens (S n) (t ++ s)) by (cbn [tokens]; by rewrite skip_blanks).
  rewrite E. apply tokens_word; [apply Ht|by apply word_no_space|apply Ht|done].
Qed.
Lemma ends_blanks g s : Forall blank g -> g <> [] -> ends_word (g ++ s).
Proof. destruct 1 as [|c g Hc _]; [done|]. intros _. by apply blank_space. Qed.

(** *** Numerals *)

Lemma numeral_digits max ds : numeral_ok max ds -> forallb isdigit (print_numeral ds) = true.
Proof.
  intros [Hd _]. apply forallb_forall. intros c (d & -> & Hin)%list_elem_of_In%list_elem_of_fmap.
  rewrite Forall_forall in Hd. specialize (Hd d Hin). simpl in Hd. apply isdigit_range. lia.
Qed.
Lemma numeral_word max ds : numeral_ok max ds -> (max <= 63)%nat -> word_ok (print_numeral ds).
Proof.
  intros Hds Hm. pose proof (numeral_digits _ _ Hds) as Hdg. destruct Hds as [_ Hl]. unfold word_ok, print_numeral. rewrite length_fmap.
  split_and!; [by destruct ds; simpl in Hl; [lia|]|lia|]. apply Forall_forall. intros c Hc. rewrite forallb_forall in Hdg.
  specialize (Hdg c (proj1 (list_elem_of_In _ _) Hc)). apply isdigit_range in Hdg. lia.
Qed.
Lemma time_word ds : numeral_ok 62 ds -> word_ok (str "+" ++ print_numeral ds).
Proof.
  intros Hds. destruct (numeral_word 62 ds Hds ltac:(lia)) as (_ & Hl & Hf). destruct Hds as [_ Hl']. split_and!; [done| |constructor; [by split_and!; [| |intros [_ ?]]|done]].
  cbn. unfold print_numeral. rewrite length_fmap. lia.
Qed.
Lemma numeral_read ds acc : Forall (fun d => 0 <= d <= 9) ds -> digits_val (print_numeral ds) acc = numeral_value acc ds.
Proof.
  intros Hd. revert acc. induction Hd as [|d ds Hd _ IH]; intros acc; [done|]. cbn [print_numeral fmap list_fmap].
  rewrite digits_val_cons by (apply isdigit_range; lia). rewrite IH. cbn [numeral_value]. f_equal. lia.
Qed.
Lemma numeral_nonneg ds acc : Forall (fun d => 0 <= d <= 9) ds -> 0 <= acc -> 0 <= numeral_value acc ds.
Proof. intros Hd. revert acc. induction Hd as [|d ds Hd _ IH]; intros acc Ha; [done|]. cbn. apply IH. lia. Qed.
Lemma time_read ds : numeral_ok 62 ds -> numeral_value 0 ds < 2147483648 -> scan_plus_d (str "+" ++ print_numeral ds) = Some (numeral_value 0 ds).
Proof.
  intros Hds Hv. pose proof (numeral_digits _ _ Hds) as Hdg. destruct Hds as [Hd Hl]. pose proof (numeral_nonneg ds 0 Hd ltac:(lia)).
  pose proof (numeral_read ds 0 Hd) as Hr. unfold scan_plus_d. cbn [str app Z.eqb negb].
  destruct (print_numeral ds) as [|c s] eqn:E; [destruct ds; [simpl in Hl; lia|done]|].
  assert (Hc : isdigit c = true) by (cbn in Hdg; by apply andb_prop in Hdg as [? _]).
  pose proof (proj1 (isdigit_range c) Hc). change (43 =? 43) with true. cbn [negb].
  rewrite (proj2 (Z.eqb_neq c 45)), (proj2 (Z.eqb_neq c 43)) by lia. rewrite Hc.
  unfold strtol. rewrite Hr. f_equal. unfold int32. rewrite Z.min_l by lia. rewrite Z.mod_small; lia.
Qed.
Lemma node_token ds : numeral_ok 3 ds -> digit_token (print_numeral ds) = true.
Proof.
  intros Hds. unfold digit_token. rewrite (numeral_digits _ _ Hds), andb_true_r. destruct Hds as [_ Hl]. unfold print_numeral. rewrite length_fmap.
  apply andb_true_intro. split; apply Z.leb_le; lia.
Qed.

(** *** Lines *)

Lemma c_string_inner s : Forall inner s -> c_string (s ++ [10]) = s ++ [10].
Proof. induction 1 as [|c s [_ Hc] _ IH]; [done|]. cbn. by rewrite (proj2 (Z.eqb_neq c 0) Hc), IH. Qed.

Lemma tokens_short words : (length words <= 4)%nat -> Forall word_ok words ->
  forall n, (length words < n)%nat -> tokens n (print_item (PlanShort words) ++ [10]) = words.
Proof.
  intros _. cbn [print_item]. induction 1 as [|t ws Ht _ IH]; intros [|n] Hn; cbn [length] in Hn; try lia; [done|].
  rewrite fmap_cons. cbn [concat]. rewrite <-!app_assoc. change (t ++ ?x) with ([] ++ t ++ x).
  rewrite tokens_next by (try done; constructor).
  change (str " " ++ ?x) with (32 :: x). rewrite tokens_space. f_equal. apply IH. lia.
Qed.

Ltac word Hb Hw Hga := first [apply Hb|apply Hw|by apply time_word|by apply (numeral_word 3); [|lia]|apply Hga; lia].
(** What the loop body sees of a contact line. *)
Lemma contact_tokens c : contact_line_ok c ->
  exists ts, tokens 8 (print_contact c ++ [10]) =
    str "a" :: str "contact" :: (str "+" ++ print_numeral (cl_start c)) :: (str "+" ++ print_numeral (cl_end c)) ::
    print_numeral (cl_from c) :: print_numeral (cl_to c) :: ts.
Proof.
  intros [Hb Hg [Hs _] [He _] Hf Ht [_ Hr]]. exists (tokens 2 (cl_rest c ++ [10])). unfold print_contact. rewrite <-!app_assoc.
  assert (Hga : forall k s, (1 <= k)%nat -> ends_word (cl_blanks c k ++ s)) by (intros; by apply ends_blanks; [|apply Hg]).
  assert (Hw : word_ok (str "a") /\ word_ok (str "contact")) by (split; (split_and!; [done|cbn; lia|repeat constructor; cbn; lia])).
  rewrite (tokens_next _ (cl_blanks c 0) (str "a")), (tokens_next _ (cl_blanks c 1) (str "contact")) by word Hb Hw Hga.
  rewrite (app_assoc (str "+") (print_numeral (cl_start c))), tokens_next by word Hb Hw Hga.
  rewrite (app_assoc (str "+") (print_numeral (cl_end c))), tokens_next, tokens_next by word Hb Hw Hga.
  rewrite tokens_next; [done|apply Hb|by apply (numeral_word 3); [|lia]|].
  destruct (cl_rest c) as [|x l]; [done|]. by apply blank_space, (Hr x l).
Qed.

Lemma contact_inner c : contact_line_ok c -> Forall inner (print_contact c).
Proof.
  intros [Hb Hg [Hs _] [He _] Hf Ht [Hr _]]. unfold print_contact. pose proof (fun k => blanks_inner _ (Hb k)) as Hi.
  pose proof (word_inner _ (numeral_word _ _ Hs ltac:(lia))). pose proof (word_inner _ (numeral_word _ _ He ltac:(lia))).
  pose proof (word_inner _ (numeral_word _ _ Hf ltac:(lia))). pose proof (word_inner _ (numeral_word _ _ Ht ltac:(lia))).
  repeat (apply Forall_app; split); try done; try apply Hi; repeat constructor; done.
Qed.

Lemma contact_parsed c : contact_line_ok c ->
  parse_line (print_contact c ++ [10]) =
    Some (mk_plan (u32 (1000 * numeral_value 0 (cl_start c))) (u32 (1000 * numeral_value 0 (cl_end c)))
            (numeral_value 0 (cl_from c)) (numeral_value 0 (cl_to c))).
Proof.
  intros Hc. pose proof (contact_tokens c Hc) as [ts Hts]. unfold parse_line. rewrite c_string_inner by (by apply contact_inner).
  destruct Hc as [Hb Hg [Hs Hsv] [He Hev] Hf Ht [_ Hr]].
  assert (Hp : exists s, skip_spaces (print_contact c ++ [10]) = 97 :: s /\ tokens 8 (97 :: s) = tokens 8 (print_contact c ++ [10])).
  { unfold print_contact. rewrite <-!app_assoc. cbn [tokens]. rewrite skip_blanks by done. eexists. split; [cbn; reflexivity|]. cbn [tokens]. done. }
  destruct Hp as (s & Hp & Htok). rewrite Hp. change (97 =? 35) with false. cbv iota. rewrite Htok, Hts. cbn [length Nat.ltb Nat.leb].
  assert (Hd : forall ds, digit_token (str "+" ++ ds) = false) by apply plus_digit_token.
  unfold first_two. cbn [List.filter]. rewrite !Hd, !(node_token _ Hf), !(node_token _ Ht).
  change (digit_token (str "a")) with false. change (digit_token (str "contact")) with false.
  change (plus_token (str "a")) with false. change (plus_token (str "contact")) with false.
  change (plus_token (str "+" ++ ?x)) with true. cbv iota. cbn [mbind option_bind].
  rewrite !time_read by done. cbn [mbind option_bind]. rewrite !numeral_read by (apply Hf || apply Ht).
  pose proof (numeral_nonneg _ 0 (proj1 Hs) ltac:(lia)). pose proof (numeral_nonneg _ 0 (proj1 He) ltac:(lia)).
  by rewrite !(u32_small (numeral_value 0 _)), !(Z.mul_comm 1000) by lia.
Qed.

Lemma skipped_line s : Forall inner s -> (exists g t, s = g ++ t /\ Forall blank g /\ (t = [] \/ exists x, t = 35 :: x)) -> parse_line (s ++ [10]) = None.
Proof.
  intros Hi (g & t & -> & Hg & Ht). unfold parse_line. rewrite c_string_inner by done. rewrite <-app_assoc, skip_blanks by done.
  by destruct Ht as [-> |[x ->]].
Qed.
Lemma short_inner words : Forall word_ok words -> Forall inner (print_item (PlanShort words)).
Proof.
  cbn [print_item]. induction 1 as [|t ws Ht _ IH]; [constructor|]. rewrite fmap_cons. cbn [concat].
  apply Forall_app. split; [|done]. apply Forall_app. split; [by apply word_inner|by repeat constructor].
Qed.
Lemma short_line words : (length words <= 4)%nat -> Forall word_ok words -> parse_line (print_item (PlanShort words) ++ [10]) = None.
Proof.
  intros Hl Hw. pose proof (short_inner _ Hw) as Hi. unfold parse_line. rewrite c_string_inner by done. destruct (skip_spaces _) as [|x p] eqn:E; [done|]. destruct (x =? 35); [done|].
  pose proof (tokens_short words Hl Hw 8 ltac:(lia)) as Ht.
  assert (Et : tokens 8 (x :: p) = words) by (by rewrite <-Ht, <-E, tokens_skip).
  rewrite Et. by rewrite (proj2 (Nat.ltb_lt _ _)) by lia.
Qed.

Lemma item_read base i : item_ok i -> option_list (line_contact base (print_item i ++ [10])) = item_described base i.
Proof.
  intros [_ Hok]. unfold line_contact. destruct i as [g|g t|ws|c]; cbn [item_described].
  - cbn [print_item]. rewrite (skipped_line g); [done|by apply blanks_inner|]. exists g, []. rewrite app_nil_r. auto.
  - destruct Hok as [Hg Ht]. cbn [print_item]. rewrite skipped_line; [done| |by exists g, (35 :: t); eauto].
    apply Forall_app. split; [by apply blanks_inner|]. by constructor.
  - destruct Hok. by rewrite short_line.
  - cbn [print_item]. rewrite contact_parsed by done. cbn [mbind option_bind pl_start pl_end pl_from pl_to]. rewrite !nodeid_address.
    unfold contact_described. destruct (node_address (numeral_value 0 (cl_from c))) as [f|] eqn:Ef; [|done].
    destruct (node_address (numeral_value 0 (cl_to c))) as [t|] eqn:Et; [|done]. cbn.
    assert (Hz : forall n a, node_address n = Some a -> ip6_addr_set_zone IP6_NO_ZONE a = a).
    { intros n a. unfold node_address. repeat case_match; try done; by intros [= <-]. }
    rewrite (Hz _ _ Ef), (Hz _ _ Et). unfold u32. by rewrite !Zplus_mod_idemp_l, !(Z.add_comm _ base).
Qed.

Lemma fgets_line n s r : Forall inner s -> (length s < n)%nat -> fgets n (s ++ 10 :: r) = (s ++ [10], r).
Proof.
  intros Hs. revert n. induction Hs as [|c s [Hc _] _ IH]; intros [|n] Hn; cbn [length] in Hn; try lia; [done|]. cbn [fgets app].
  by rewrite (proj2 (Z.eqb_neq c 10) Hc), IH by lia.
Qed.
Lemma item_inner i : item_ok i -> Forall inner (print_item i).
Proof.
  intros [_ Hok]. destruct i as [g|g t|ws|c]; [by apply blanks_inner| |by apply short_inner, Hok|by apply contact_inner].
  destruct Hok. apply Forall_app. split; [by apply blanks_inner|by constructor].
Qed.

Lemma plan_read base plan : Forall item_ok plan -> plan_contacts base (print_plan plan) = described base plan.
Proof.
  induction 1 as [|i plan Hi _ IH]; [done|]. unfold plan_contacts, described, print_plan in *. rewrite !fmap_cons. cbn [concat].
  rewrite <-IH, <-(item_read base i Hi), <-app_assoc. set (rest := concat _). cbn [app].
  destruct (print_item i ++ 10 :: rest) as [|c l] eqn:E; [by destruct (print_item i)|]. cbn [length text_lines]. rewrite <-E.
  rewrite fgets_line by (apply item_inner || destruct Hi; lia || done).
  assert (Hl : (length rest <= length l)%nat).
  { apply (f_equal length) in E. rewrite length_app in E. cbn in E. lia. }
  rewrite (text_lines_fuel (length l) (length rest)) by lia. cbn [omap list_omap]. by destruct (line_contact _ _).
Qed.

(** ** The claim *)

(** C40: loading a contact plan whose text is that of [plan] (lines of at most 510 bytes:
    blank lines, comments, lines of fewer than five words, and contacts
    [a contact +start +end from to] with times below 2^31 seconds and node numbers of one
    to three digits, words separated by any blanks, anything after them).  If the file
    cannot be opened the result is -1 and the contacts stay.  Otherwise some of the
    contacts the plan describes are appended in its order, all of them if no allocation
    fails, and their number is returned: for each contact line between two of the six
    known nodes one contact to the address of node [to] by way of the address of node
    [from], from [start] to [end] seconds after the node's base time, in milliseconds
    modulo 2^32.  Nothing else changes. *)
Theorem plan_load_refines `{Env} w cs base name plan :
  contacts w cs -> option_map base_time (w_routing w) = Some base ->
  Forall item_ok plan -> w_files w !! name = Some (print_plan plan) ->
  wp (dtn_routing_load_contacts name) w (fun r w' =>
    rest_but_contacts w' = rest_but_contacts w /\
    if env_fopen (w_tick w) then
      exists cs', cs' `sublist_of` described base plan /\ contacts w' (cs ++ cs') /\ r = Z.of_nat (length cs') /\
        ((forall t, env_malloc t = true) -> cs' = described base plan)
    else r = -1 /\ contacts w' cs).
Proof.
  intros Hc Hb Hp Ht. unfold dtn_routing_load_contacts. apply wp_bind, wp_get.
  destruct (w_routing w) as [rt|] eqn:Er; [|done]. apply wp_bind. unfold fopen_rb. apply wp_bind, wp_tick.
  apply wp_bind, wp_get, wp_ret. cbn [w_files add_ticks]. rewrite Ht. destruct (env_fopen _); [|by apply wp_ret].
  eapply wp_mono; [apply (load_lines_spec _ _ cs base); [done|simpl; by rewrite Er|lia]|].
  cbn beta. intros n w' (H1 & _ & cs' & H2). rewrite plan_read in H2 by done. split; [done|]. by exists cs'.
Qed.

(** ** The plan the node loads (py_cgr/contact_plans/cgr_tutorial_1.txt) *)

Definition comment (s : string) : plan_item := PlanComment [] (str s).
Definition entry (from to : numeral) : plan_item :=
  PlanContact (mk_contact_line (fun k => if (k =? 0)%nat then [] else [32]) [0; 0] [1; 0; 0; 0; 0; 0] from to (str " 1 1")).
Definition both_ways (name : string) (a b : numeral) : list plan_item := [comment name; entry a b; entry b a].
Definition tutorial_plan : list plan_item :=
  comment " a contact +<start> +<end> <from> <to> <rate> <range>" ::
  both_ways " 0-1" [1] [1; 0] ++ both_ways " 0-1" [1] [1; 2] ++ both_ways " 1-2" [1; 0] [2; 1] ++ both_ways " 1-2" [1; 2] [2; 1] ++
  both_ways " 1-2" [1; 2] [2; 3] ++ both_ways " 1-2" [1; 0] [2; 3] ++ both_ways " 2-3" [2; 1] [3; 2] ++ both_ways " 2-3" [2; 3] [3; 2].

(** Its text is that of the file. *)
Example tutorial_plan_text : print_plan tutorial_plan =
  concat ((fun l => str l ++ [10]) <$>
    ["# a contact +<start> +<end> <from> <to> <rate> <range>"%string;
     "# 0-1"%string; "a contact +00 +100000 1 10 1 1"%string; "a contact +00 +100000 10 1 1 1"%string;
     "# 0-1"%string; "a contact +00 +100000 1 12 1 1"%string; "a contact +00 +100000 12 1 1 1"%string;
     "# 1-2"%string; "a contact +00 +100000 10 21 1 1"%string; "a contact +00 +100000 21 10 1 1"%string;
     "# 1-2"%string; "a contact +00 +100000 12 21 1 1"%string; "a contact +00 +100000 21 12 1 1"%string;
     "# 1-2"%string; "a contact +00 +100000 12 23 1 1"%string; "a contact +00 +100000 23 12 1 1"%string;
     "# 1-2"%string; "a contact +00 +100000 10 23 1 1"%string; "a contact +00 +100000 23 10 1 1"%string;
     "# 2-3"%string; "a contact +00 +100000 21 32 1 1"%string; "a contact +00 +100000 32 21 1 1"%string;
     "# 2-3"%string; "a contact +00 +100000 23 32 1 1"%string; "a contact +00 +100000 32 23 1 1"%string]).
Proof. vm_compute. reflexivity. Qed.

Lemma comment_ok s : (length (str s) <= 509)%nat -> forallb (fun c => negb (c =? 10) && negb (c =? 0)) (str s) = true -> item_ok (comment s).
Proof.
  intros Hl Hs. split; [cbn; lia|]. split; [constructor|]. apply Forall_forall. intros c Hc%list_elem_of_In. rewrite forallb_forall in Hs.
  specialize (Hs c Hc). rewrite andb_true_iff, !negb_true_iff, !Z.eqb_neq in Hs. exact Hs.
Qed.
Lemma entry_ok a b : numeral_ok 3 a -> numeral_ok 3 b -> item_ok (entry a b).
Proof.
  intros Ha Hb. split.
  - destruct Ha as [_ Ha], Hb as [_ Hb]. cbn [entry print_item]. unfold print_contact, print_numeral. cbn [cl_blanks cl_start cl_end cl_from cl_to cl_rest].
    rewrite !length_app, !length_fmap. cbn. lia.
  - assert (Hsp : forall k : nat, Forall blank (if (k =? 0)%nat then [] else [32])) by (intros []; repeat constructor).
    split; cbn [cl_blanks cl_start cl_end cl_from cl_to cl_rest]; try done.
    + by intros [|k] Hk; [lia|].
    + split; [|done]. split; [repeat constructor; lia|cbn; lia].
    + split; [|done]. split; [repeat constructor; lia|cbn; lia].
    + split; [repeat constructor; done|]. intros x l [= <- _]. by left.
Qed.
Lemma tutorial_plan_ok : Forall item_ok tutorial_plan.
Proof.
  assert (Hb : forall name a b, item_ok (comment name) -> numeral_ok 3 a -> numeral_ok 3 b -> Forall item_ok (both_ways name a b)).
  { intros name a b Hc Ha Hb. constructor; [done|]. constructor; [by apply entry_ok|]. constructor; [by apply entry_ok|constructor]. }
  assert (Hn : numeral_ok 3 [1] /\ numeral_ok 3 [1; 0] /\ numeral_ok 3 [1; 2] /\ numeral_ok 3 [2; 1] /\ numeral_ok 3 [2; 3] /\ numeral_ok 3 [3; 2])
    by (split_and!; (split; [repeat constructor; lia|cbn; lia])).
  destruct Hn as (? & ? & ? & ? & ? & ?). constructor; [apply comment_ok; [cbn; lia|done]|].
  repeat (apply Forall_app; split); (apply Hb; [apply comment_ok; [cbn; lia|done]|done|done]).
Qed.

Lemma plan_load_refines_witness :
  let w := set_files (insert CONTACTS_FILE (print_plan tutorial_plan)) routing_world in
  wp (@dtn_routing_load_contacts calm_env CONTACTS_FILE) w (fun r w' =>
    rest_but_contacts w' = rest_but_contacts w /\
    exists cs', cs' `sublist_of` described 0 tutorial_plan /\ contacts w' ([] ++ cs') /\ r = Z.of_nat (length cs') /\
      ((forall t, @env_malloc calm_env t = true) -> cs' = described 0 tutorial_plan)).
Proof.
  apply (@plan_load_refines calm_env).
  - apply routing_world_contacts.
  - reflexivity.
  - apply tutorial_plan_ok.
  - apply lookup_insert_eq.
Defined.
Example tutorial_plan_length : length (described 0 tutorial_plan) = 16%nat.
Proof. reflexivity. Qed.
