(* ===== verification/InetChksum.v ===== *)
(** * Internet checksum (lwip/src/core/inet_chksum.c)

    [lwip_standard_chksum] in the variant the port selects
    (LWIP_CHKSUM_ALGORITHM 2), and the IPv6 pseudo-header checksum over a pbuf
    chain.  Main results: the routine equals the RFC 1071 one's-complement sum
    of the flattened packet, whatever the alignment and segmentation, and a
    message with its checksum filled in verifies. *)

From S2P Require Import Prelude LinkedList Ip6Addr World Pbuf Ip6Hdr.

Definition FOLD_U32T (x : Z) : Z := u32 (Z.shiftr x 16 + Z.land x 0xffff).
Definition SWAP_BYTES_IN_WORD (x : Z) : Z :=
  Z.lor (Z.shiftl (Z.land x 0xff) 8) (Z.shiftr (Z.land x 0xff00) 8).

(** [while (len > 1) sum += *ps++]; the left-over byte is returned. *)
Fixpoint sum_words (data : list Z) (sum : Z) : Z * option Z :=
  match data with
  | a :: b :: rest => sum_words rest (u32 (sum + (a + 256 * b)))
  | [a] => (sum, Some a)
  | [] => (sum, None)
  end.

(** [odd] is the alignment of the data pointer. *)
Definition lwip_standard_chksum (odd : bool) (data : list Z) : Z :=
  let '(hi, pb) := if odd then match data with b :: r => (b, r) | [] => (0, []) end
                   else (0, data) in
  let '(sum, tail) := sum_words pb 0 in
  let t := 256 * hi + default 0 tail in
  let sum := u32 (sum + t) in
  let sum := FOLD_U32T (FOLD_U32T sum) in
  u16 (if odd then SWAP_BYTES_IN_WORD sum else sum).

(** Buffers start at aligned addresses, so the parity of [q->payload] is that
    of its offset. *)
Definition pbuf_chksum (b : pbuf) : outcome Z :=
  data ← payload_rd 0 (pb_len b) b;
  Ret (lwip_standard_chksum (Z.odd (pb_payload b)) data).

(** [for (q = p; q != NULL; q = q->next)] *)
Definition pseudo_body (h : pheap) (st : option loc * Z * bool)
  : outcome (option loc * Z * bool + Z * bool) :=
  let '(q, acc, swapped) := st in
  match q with
  | None => Ret (inr (acc, swapped))
  | Some l =>
      n ← deref (h !! l);
      c ← pbuf_chksum (n_val n);
      let acc := FOLD_U32T (u32 (acc + c)) in
      if Z.odd (pb_len (n_val n))
      then Ret (inl (n_next n, SWAP_BYTES_IN_WORD acc, negb swapped))
      else Ret (inl (n_next n, acc, swapped))
  end.

Definition inet_cksum_pseudo_base (h : pheap) (p : option loc) (proto proto_len acc : Z) : outcome Z :=
  r ← oloop (S (size h)) (pseudo_body h) (p, acc, false);
  let '(acc, swapped) := r in
  let acc := if (swapped : bool) then SWAP_BYTES_IN_WORD acc else acc in
  let acc := u32 (acc + lwip_htons (u16 proto)) in
  let acc := u32 (acc + lwip_htons proto_len) in
  let acc := FOLD_U32T (FOLD_U32T acc) in
  Ret (u16 (Z.lnot (Z.land acc 0xffff))).

Definition add_addr_part (src dest acc : Z) : Z :=
  let acc := u32 (acc + Z.land src 0xffff) in
  let acc := u32 (acc + Z.land (Z.shiftr src 16) 0xffff) in
  let acc := u32 (acc + Z.land dest 0xffff) in
  u32 (acc + Z.land (Z.shiftr dest 16) 0xffff).

Definition ip6_chksum_pseudo (h : pheap) (p : option loc) (proto proto_len : Z) (src dest : ip6_addr)
  : outcome Z :=
  let acc := add_addr_part (addr0 src) (addr0 dest) 0 in
  let acc := add_addr_part (addr1 src) (addr1 dest) acc in
  let acc := add_addr_part (addr2 src) (addr2 dest) acc in
  let acc := add_addr_part (addr3 src) (addr3 dest) acc in
  inet_cksum_pseudo_base h p proto proto_len (FOLD_U32T (FOLD_U32T acc)).

(** ** The reference sum *)

(** The sum of the 16-bit words of the data, as a number. *)
Fixpoint word_sum (data : list Z) : Z :=
  match data with
  | a :: b :: rest => a + 256 * b + word_sum rest
  | [a] => a
  | [] => 0
  end.

(** The one's-complement representative of a sum: zero for zero, otherwise
    the value from 1 to 65535 in its class modulo 65535. *)
Definition oc (x : Z) : Z := if x =? 0 then 0 else (x - 1) mod 65535 + 1.

Lemma oc_range x : 0 <= x -> 0 <= oc x <= 65535.
Proof. intros. unfold oc. destruct (Z.eqb_spec x 0); [lia|]. pose proof (Z.mod_pos_bound (x - 1) 65535). lia. Qed.

Lemma oc_small x : 0 <= x <= 65535 -> oc x = x.
Proof. intros. unfold oc. destruct (Z.eqb_spec x 0); [lia|]. rewrite Z.mod_small; lia. Qed.

Lemma oc_eq x y : 0 <= x -> 0 <= y -> (x = 0 <-> y = 0) -> x mod 65535 = y mod 65535 -> oc x = oc y.
Proof.
  intros Hx Hy Hz Hm. unfold oc. destruct (Z.eqb_spec x 0), (Z.eqb_spec y 0); [done|tauto|tauto|].
  f_equal. apply (f_equal (fun z => (z - 1) mod 65535)) in Hm.
  by rewrite !Zminus_mod_idemp_l in Hm.
Qed.

Lemma oc_zero x : 0 <= x -> oc x = 0 <-> x = 0.
Proof.
  intros. unfold oc. destruct (Z.eqb_spec x 0); [done|].
  pose proof (Z.mod_pos_bound (x - 1) 65535). lia.
Qed.

Lemma oc_mod x : 0 <= x -> oc x mod 65535 = x mod 65535.
Proof.
  intros. unfold oc. destruct (Z.eqb_spec x 0); [by subst|].
  rewrite Z.add_mod_idemp_l by lia. f_equal. lia.
Qed.

(** Summing representatives. *)
Lemma oc_add_l x y : 0 <= x -> 0 <= y -> oc (oc x + y) = oc (x + y).
Proof.
  intros. pose proof (oc_range x). apply oc_eq; [lia|lia| |].
  - pose proof (oc_zero x). lia.
  - rewrite <-Z.add_mod_idemp_l, oc_mod by lia. by rewrite Z.add_mod_idemp_l by lia.
Qed.

Lemma oc_idem x : 0 <= x -> oc (oc x) = oc x.
Proof. intros. apply oc_small. by apply oc_range. Qed.

(** ** Folding and swapping *)

Lemma fold_eq x : 0 <= x < 4294967296 -> FOLD_U32T x = x / 65536 + x mod 65536.
Proof.
  intros. unfold FOLD_U32T. change 0xffff with (Z.ones 16).
  rewrite Z.land_ones, Z.shiftr_div_pow2 by lia. change (2 ^ 16) with 65536.
  rewrite u32_small; [done|]. zlia.
Qed.

Lemma fold_oc x : 0 <= x < 4294967296 ->
  0 <= FOLD_U32T x <= 131070 /\ (FOLD_U32T x = 0 <-> x = 0) /\ oc (FOLD_U32T x) = oc x.
Proof.
  intros Hx. rewrite fold_eq by done. assert (0 <= x / 65536 + x mod 65536 <= 131070) by zlia.
  assert (x / 65536 + x mod 65536 = 0 <-> x = 0) by zlia. split_and!; [lia|lia|done|].
  apply oc_eq; [lia|lia|done|].
  replace x with (x / 65536 + x mod 65536 + x / 65536 * 65535) at 3 by zlia.
  by rewrite Z.mod_add by lia.
Qed.

(** Two folds reach the representative. *)
Lemma fold_fold x : 0 <= x < 4294967296 -> FOLD_U32T (FOLD_U32T x) = oc x.
Proof.
  intros Hx. destruct (fold_oc x Hx) as (Hr & Hz & Ho).
  destruct (fold_oc (FOLD_U32T x)) as (_ & _ & Ho2); [lia|].
  rewrite <-Ho, <-Ho2. symmetry. apply oc_small. rewrite fold_eq by lia. zlia.
Qed.

(** One fold is enough for the sum of two representatives. *)
Lemma fold_small x : 0 <= x <= 131070 -> FOLD_U32T x = oc x.
Proof.
  intros Hx. destruct (fold_oc x) as (_ & _ & Ho); [lia|]. rewrite <-Ho.
  symmetry. apply oc_small. rewrite fold_eq by lia. zlia.
Qed.

Lemma swap_eq x : SWAP_BYTES_IN_WORD x = x mod 256 * 256 + (x / 256) mod 256.
Proof. apply lwip_htons_eq. Qed.

(** Exchanging the bytes multiplies the sum by 256. *)
Lemma swap_oc x y : 0 <= x -> 0 <= y <= 65535 -> oc x = y -> SWAP_BYTES_IN_WORD y = oc (256 * x).
Proof.
  intros Hx Hy <-. rewrite swap_eq. pose proof (oc_range x Hx).
  rewrite <-(oc_small (_ + _)) by zlia. apply oc_eq; [zlia|lia| |].
  - pose proof (oc_zero x Hx). split; intros; zlia.
  - rewrite <-Z.mul_mod_idemp_r, <-(oc_mod x), Z.mul_mod_idemp_r by lia.
    set (y := oc x) in *. replace (y mod 256 * 256 + (y / 256) mod 256) with (256 * y - (y / 256) * 65535) by zlia.
    rewrite <-Z.add_opp_r, <-Z.mul_opp_l. by rewrite Z.mod_add by lia.
Qed.

Lemma odd_of_nat n : Z.odd (Z.of_nat n) = Nat.odd n.
Proof.
  induction n as [|n IH]; [done|]. rewrite Nat2Z.inj_succ, Z.odd_succ, Nat.odd_succ.
  by rewrite <-Z.negb_odd, <-Nat.negb_odd, IH.
Qed.

(** ** The sum of the words *)

Lemma pair_ind (P : list Z -> Prop) :
  P [] -> (forall a, P [a]) -> (forall a b l, P l -> P (a :: b :: l)) -> forall l, P l.
Proof.
  intros H0 H1 H2 l. enough (P l /\ forall a, P (a :: l)) by tauto.
  induction l as [|a l [IH1 IH2]]; split; auto.
Qed.

Lemma word_sum_range l : Forall is_byte l -> 0 <= word_sum l <= 65535 * Z.of_nat (length l).
Proof.
  induction l as [|a|a b l IH] using pair_ind; cbn [word_sum length].
  - lia.
  - intros [Ha _]%Forall_cons. unfold is_byte in *. lia.
  - intros [Ha [Hb Hl]%Forall_cons]%Forall_cons. unfold is_byte in *. specialize (IH Hl). lia.
Qed.

Lemma word_sum_shift b r : exists k, 256 * word_sum (b :: r) = 256 * b + word_sum r + 65535 * k.
Proof.
  revert b. induction r as [|r0 r IH]; intros b; [exists 0; simpl; lia|].
  destruct (IH r0) as [k Hk]. exists (word_sum (r0 :: r) - 256 * k).
  change (word_sum (b :: r0 :: r)) with (b + 256 * r0 + word_sum r). lia.
Qed.

Lemma word_sum_app_even l1 l2 :
  Nat.even (length l1) = true -> word_sum (l1 ++ l2) = word_sum l1 + word_sum l2.
Proof.
  induction l1 as [|a|a b l1 IH] using pair_ind; cbn [length app word_sum]; [done|done|].
  intros He. rewrite IH by done. lia.
Qed.

Lemma word_sum_app_odd l1 l2 :
  Nat.odd (length l1) = true ->
  exists k, word_sum (l1 ++ l2) = word_sum l1 + 256 * word_sum l2 + 65535 * k.
Proof.
  induction l1 as [|a|a b l1 IH] using pair_ind; cbn [length app]; [done| |].
  - intros _. change (word_sum [a]) with a. destruct (word_sum_shift a l2) as [k Hk]. exists (256 * k - word_sum (a :: l2) + a). lia.
  - intros He. destruct IH as [k Hk]; [done|]. exists k. cbn [word_sum]. lia.
Qed.

Lemma word_sum_zero l : Forall is_byte l -> word_sum l = 0 <-> Forall (fun b => b = 0) l.
Proof.
  induction l as [|a|a b l IH] using pair_ind; cbn [word_sum].
  - split; [constructor|done].
  - intros [Ha _]%Forall_cons. rewrite Forall_singleton. done.
  - intros [Ha [Hb Hl]%Forall_cons]%Forall_cons. rewrite !Forall_cons, <-(IH Hl).
    pose proof (word_sum_range l Hl). unfold is_byte in *. lia.
Qed.

Lemma oc_cong x y k : 0 <= x -> 0 <= y -> (x = 0 <-> y = 0) -> x = y + 65535 * k -> oc x = oc y.
Proof.
  intros Hx Hy Hz ->. apply oc_eq; try done. rewrite (Z.mul_comm 65535). by rewrite Z.mod_add by lia.
Qed.

(** ** The checksum routine *)

Lemma sum_words_spec l s :
  Forall is_byte l -> 0 <= s -> s + word_sum l < 4294967296 ->
  let r := sum_words l s in 0 <= r.1 /\ r.1 + default 0 r.2 = s + word_sum l /\ 0 <= default 0 r.2 < 256.
Proof.
  revert s. induction l as [|a|a b l IH] using pair_ind; intros s; cbn [word_sum sum_words].
  - simpl. lia.
  - intros [Ha _]%Forall_cons. unfold is_byte in *. simpl. lia.
  - intros [Ha [Hb Hl]%Forall_cons]%Forall_cons Hs Hlt. unfold is_byte in *.
    pose proof (word_sum_range l Hl). rewrite u32_small by lia.
    destruct (IH (s + (a + 256 * b)) Hl) as (?&?&?); [lia|lia|]. simpl. lia.
Qed.

Lemma chksum_spec odd l :
  Forall is_byte l -> Z.of_nat (length l) <= 65535 -> lwip_standard_chksum odd l = oc (word_sum l).
Proof.
  intros Hb Hl. unfold lwip_standard_chksum. pose proof (word_sum_range l Hb) as Hr.
  destruct odd.
  - destruct l as [|b r]; [done|]. apply Forall_cons in Hb as [Hb Hrb]. unfold is_byte in Hb.
    pose proof (word_sum_range r Hrb) as Hrr. simpl in Hl.
    pose proof (sum_words_spec r 0 Hrb) as Hs.
    destruct (sum_words r 0) as [s t]. cbn [fst snd] in Hs. destruct Hs as (Hs0 & Hs & Ht); [lia|lia|].
    rewrite u32_small by lia. rewrite fold_fold by lia.
    replace (s + (256 * b + default 0 t)) with (256 * b + word_sum r) by lia.
    rewrite (swap_oc (256 * b + word_sum r)); [|lia|apply oc_range; lia|done].
    pose proof (oc_range (256 * (256 * b + word_sum r))). rewrite u16_small by lia.
    destruct (word_sum_shift b r) as [k Hk].
    apply (oc_cong _ _ (word_sum (b :: r) - 256 * k)); [lia|lia| |lia].
    pose proof (word_sum_zero (b :: r) ltac:(by constructor)) as Hz.
    pose proof (word_sum_zero r Hrb) as Hz'. rewrite Forall_cons in Hz. split; intros E.
    + apply Hz. split; [lia|]. apply Hz'. lia.
    + apply Hz in E as [-> E]. apply Hz' in E. lia.
  - pose proof (sum_words_spec l 0 Hb) as Hs. destruct (sum_words l 0) as [s t].
    cbn [fst snd] in Hs. destruct Hs as (Hs0 & Hs & Ht); [lia|lia|].
    rewrite u32_small by lia. rewrite fold_fold by lia.
    replace (s + (256 * 0 + default 0 t)) with (word_sum l) by lia.
    pose proof (oc_range (word_sum l)). by rewrite u16_small by lia.
Qed.

Lemma pbuf_chksum_spec b : seg_ok b -> pb_len b <= 65535 -> pbuf_chksum b = Ret (oc (word_sum (seg_bytes b))).
Proof.
  intros Hb Hl. pose proof (seg_bytes_length b Hb) as Hlen. pose proof Hb as (?&?&_).
  unfold pbuf_chksum. rewrite payload_rd_ok by (done || lia). simpl.
  rewrite slice_all by lia. f_equal. apply chksum_spec; [by apply seg_bytes_byte|lia].
Qed.

(** ** The chain *)

(** What the accumulator stands for when the bytes so far are [l]. *)
Definition weigh (swapped : bool) (x : Z) : Z := if swapped then 256 * x else x.

Lemma weigh_step A P d :
  0 <= A -> Forall is_byte P -> Forall is_byte d ->
  oc (weigh (Nat.odd (length P)) (A + word_sum P) + word_sum d) =
  oc (weigh (Nat.odd (length P)) (A + word_sum (P ++ d))).
Proof.
  intros HA HP Hd. pose proof (word_sum_range P HP). pose proof (word_sum_range d Hd).
  assert (HPd : Forall is_byte (P ++ d)) by (by apply Forall_app).
  pose proof (word_sum_range _ HPd). unfold weigh. destruct (Nat.odd (length P)) eqn:Eo.
  - destruct (word_sum_app_odd P d Eo) as [k Hk].
    apply (oc_cong _ _ (-256 * k - word_sum d)); [lia|lia| |lia].
    pose proof (word_sum_zero _ HPd) as Hz. rewrite Forall_app in Hz.
    pose proof (word_sum_zero _ HP) as Hz1. pose proof (word_sum_zero _ Hd) as Hz2.
    rewrite <-Hz1, <-Hz2 in Hz. lia.
  - rewrite word_sum_app_even; [f_equal; lia|]. by rewrite <-Nat.negb_odd, Eo.
Qed.

Lemma pseudo_loop (h : pheap) A P ls cur fuel :
  0 <= A -> Forall is_byte P -> llist h cur ls -> chain_ok ls -> (length ls < fuel)%nat ->
  Forall (fun x => pb_len x.2 <= 65535) ls ->
  oloop fuel (pseudo_body h)
    (cur, oc (weigh (Nat.odd (length P)) (A + word_sum P)), Nat.odd (length P)) =
  Ret (oc (weigh (Nat.odd (length (P ++ flat ls))) (A + word_sum (P ++ flat ls))),
       Nat.odd (length (P ++ flat ls))).
Proof.
  intros HA. revert P cur fuel. induction ls as [|[l b] ls IH];
    intros P cur [|fuel] HP Hl Hc Hf Hle; simpl in Hf; try lia; rewrite oloop_S.
  { simpl in Hl. subst cur. unfold flat. simpl. by rewrite app_nil_r. }
  destruct Hl as [-> (q & Hq & Hr)], Hc as (Hb & Ht & Hc). apply Forall_cons in Hle as [Hlb Hle].
  simpl in Hlb. pose proof (seg_bytes_byte b Hb) as Hbb. pose proof (seg_bytes_length b Hb) as Hbl.
  assert (HPd : Forall is_byte (P ++ seg_bytes b)) by (by apply Forall_app).
  set (x := weigh (Nat.odd (length P)) (A + word_sum P)).
  assert (Hx : 0 <= x) by (unfold x, weigh; pose proof (word_sum_range P HP); destruct (Nat.odd _); lia).
  pose proof (oc_range x Hx). pose proof (word_sum_range _ Hbb) as Hwr.
  pose proof (oc_range (word_sum (seg_bytes b)) ltac:(lia)).
  set (y := weigh (Nat.odd (length P)) (A + word_sum (P ++ seg_bytes b))).
  assert (Hy : 0 <= y) by (unfold y, weigh; pose proof (word_sum_range _ HPd); destruct (Nat.odd _); lia).
  assert (Hacc : FOLD_U32T (u32 (oc x + oc (word_sum (seg_bytes b)))) = oc y).
  { rewrite u32_small by lia. rewrite fold_small by lia.
    rewrite oc_add_l, Z.add_comm, oc_add_l, Z.add_comm by lia.
    unfold x, y. by apply weigh_step. }
  assert (Ho : Z.odd (pb_len b) = Nat.odd (length (seg_bytes b)))
    by (rewrite <-Hbl; apply odd_of_nat).
  assert (Hstep : pseudo_body h (Some l, oc x, Nat.odd (length P)) =
    Ret (inl (q, oc (weigh (Nat.odd (length (P ++ seg_bytes b))) (A + word_sum (P ++ seg_bytes b))),
              Nat.odd (length (P ++ seg_bytes b))))).
  { unfold pseudo_body. rewrite Hq. cbn [deref mbind outcome_bind n_val n_next].
    rewrite pbuf_chksum_spec by (done || lia). cbn [mbind outcome_bind]. rewrite Hacc, Ho.
    rewrite length_app, Nat.odd_add. destruct (Nat.odd (length (seg_bytes b))).
    - rewrite (swap_oc y), xorb_true_r; [|done|by apply oc_range|done]. do 4 f_equal.
      unfold y, weigh. destruct (Nat.odd (length P)); [|done]. cbn [negb].
      pose proof (word_sum_range _ HPd). apply (oc_cong _ _ (A + word_sum (P ++ seg_bytes b))); lia.
    - by rewrite xorb_false_r. }
  rewrite Hstep. cbn [mbind outcome_bind]. rewrite flat_cons, app_assoc. apply IH; (done || lia).
Qed.

(** ** The pseudo header *)

Definition pseudo_header (src dest : ip6_addr) (proto_len proto : Z) : list Z :=
  ip6_bytes src ++ ip6_bytes dest ++ [0; 0] ++ be16 proto_len ++ [0; 0; 0; proto].

Lemma word_halves w : word32 w -> Z.land w 0xffff + Z.land (Z.shiftr w 16) 0xffff = word_sum (le_bytes 4 w).
Proof.
  unfold word32. intros. change 0xffff with (Z.ones 16). rewrite !Z.land_ones, Z.shiftr_div_pow2 by lia.
  change (2 ^ 16) with 65536. cbn [le_bytes word_sum].
  assert (w mod 65536 = w mod 256 + 256 * (w / 256 mod 256)) by zlia.
  assert (w / 65536 = w / 256 / 256) by (rewrite Z.div_div by lia; done).
  assert ((w / 65536) mod 65536 = (w / 256 / 256) mod 256 + 256 * ((w / 256 / 256 / 256) mod 256)) by zlia.
  lia.
Qed.

Lemma add_addr_part_eq s d acc :
  word32 s -> word32 d -> 0 <= acc <= 1000000 ->
  add_addr_part s d acc = acc + word_sum (le_bytes 4 s) + word_sum (le_bytes 4 d).
Proof.
  intros Hs Hd Ha. rewrite <-!word_halves by done. unfold add_addr_part.
  assert (Hr : forall x, 0 <= Z.land x 0xffff <= 65535).
  { intros x. change 0xffff with (Z.ones 16) at 1 2. rewrite Z.land_ones by lia.
    pose proof (Z.mod_pos_bound x (2 ^ 16)). lia. }
  pose proof (Hr s). pose proof (Hr d). pose proof (Hr (Z.shiftr s 16)). pose proof (Hr (Z.shiftr d 16)).
  rewrite (u32_small (acc + _)) by lia. rewrite (u32_small (acc + _ + _)) by lia.
  rewrite (u32_small (acc + _ + _ + _)) by lia. rewrite u32_small by lia. lia.
Qed.

Lemma word_sum_le4 w : word_sum (le_bytes 4 w) <= 131070.
Proof.
  cbn [le_bytes word_sum]. pose proof (Z.mod_pos_bound w 256). pose proof (Z.mod_pos_bound (w / 256) 256).
  pose proof (Z.mod_pos_bound (w / 256 / 256) 256). pose proof (Z.mod_pos_bound (w / 256 / 256 / 256) 256). lia.
Qed.

Lemma word_sum_ip6 a :
  word_sum (ip6_bytes a) = word_sum (le_bytes 4 (addr0 a)) + word_sum (le_bytes 4 (addr1 a)) +
    word_sum (le_bytes 4 (addr2 a)) + word_sum (le_bytes 4 (addr3 a)).
Proof. unfold ip6_bytes. rewrite !word_sum_app_even by done. lia. Qed.

Lemma u16_lnot x : 0 <= x <= 65535 -> u16 (Z.lnot x) = 65535 - x.
Proof. intros. unfold Z.lnot. zlia. Qed.

(** The sum of the addresses. *)
Lemma addrs_acc src dest : ip6_wf src -> ip6_wf dest ->
  let A := word_sum (ip6_bytes src) + word_sum (ip6_bytes dest) in
  0 <= A <= 1048560 /\
  FOLD_U32T (FOLD_U32T (add_addr_part (addr3 src) (addr3 dest) (add_addr_part (addr2 src) (addr2 dest)
    (add_addr_part (addr1 src) (addr1 dest) (add_addr_part (addr0 src) (addr0 dest) 0))))) = oc A.
Proof.
  intros (Hs0 & Hs1 & Hs2 & Hs3) (Hd0 & Hd1 & Hd2 & Hd3).
  assert (Hle4 : forall w, 0 <= word_sum (le_bytes 4 w) <= 131070)
    by (intros w; split; [apply word_sum_range, le_bytes_byte|apply word_sum_le4]).
  pose proof (Hle4 (addr0 src)). pose proof (Hle4 (addr1 src)). pose proof (Hle4 (addr2 src)).
  pose proof (Hle4 (addr3 src)). pose proof (Hle4 (addr0 dest)). pose proof (Hle4 (addr1 dest)).
  pose proof (Hle4 (addr2 dest)). pose proof (Hle4 (addr3 dest)). rewrite !word_sum_ip6. cbv zeta. split; [lia|].
  rewrite (add_addr_part_eq (addr0 src) (addr0 dest)) by (done || lia).
  rewrite (add_addr_part_eq (addr1 src) (addr1 dest)) by (done || lia).
  rewrite (add_addr_part_eq (addr2 src) (addr2 dest)) by (done || lia).
  rewrite (add_addr_part_eq (addr3 src) (addr3 dest)) by (done || lia).
  rewrite fold_fold by lia. f_equal. lia.
Qed.

Lemma u16_lnot_oc x : 0 <= x -> u16 (Z.lnot (Z.land (oc x) 0xffff)) = 65535 - oc x.
Proof.
  intros Hx. pose proof (oc_range x Hx). change 0xffff with (Z.ones 16). rewrite Z.land_ones by lia. change (2 ^ 16) with 65536.
  rewrite Z.mod_small by lia. by apply u16_lnot.
Qed.

(** The rest of the pseudo header. *)
Lemma pseudo_end src dest proto proto_len data :
  Forall is_byte data -> 0 <= proto < 256 -> 0 <= proto_len < 65536 ->
  let acc := oc (word_sum (ip6_bytes src) + word_sum (ip6_bytes dest) + word_sum data) in
  u16 (Z.lnot (Z.land (FOLD_U32T (FOLD_U32T (u32 (u32 (acc + lwip_htons (u16 proto)) + lwip_htons proto_len)))) 0xffff)) =
    65535 - oc (word_sum (pseudo_header src dest proto_len proto ++ data)).
Proof.
  intros Hd Hp Hpl. pose proof (word_sum_range _ Hd). pose proof (word_sum_range _ (ip6_bytes_byte src)). pose proof (word_sum_range _ (ip6_bytes_byte dest)).
  set (A := word_sum (ip6_bytes src) + word_sum (ip6_bytes dest)). set (W := word_sum data). cbv zeta. pose proof (oc_range (A + W) ltac:(lia)).
  pose proof (lwip_htons_range (u16 proto)). pose proof (lwip_htons_range proto_len).
  rewrite (u32_small (oc _ + _)), (u32_small (oc _ + _ + _)), fold_fold by lia.
  rewrite <-Z.add_assoc, oc_add_l by lia.
  set (T := A + W + (lwip_htons (u16 proto) + lwip_htons proto_len)).
  replace (word_sum (pseudo_header src dest proto_len proto ++ data)) with T; [apply u16_lnot_oc; unfold T; lia|].
  unfold pseudo_header. rewrite !word_sum_app_even by done. fold W. unfold T, A.
  assert (E1 : word_sum (be16 proto_len) = lwip_htons proto_len).
  { unfold be16. pose proof (le_val_bytes 2 (lwip_htons proto_len) ltac:(simpl; lia)) as E. cbn [le_bytes word_sum le_val] in *. lia. }
  assert (E2 : lwip_htons (u16 proto) = 256 * proto) by (rewrite u16_small, lwip_htons_eq by lia; zlia).
  rewrite E1, E2. cbn [word_sum]. lia.
Qed.

Lemma chain_lens ls : chain_ok ls -> Forall (fun x : loc * pbuf => pb_len x.2 <= 65535) ls.
Proof.
  induction ls as [|[l b] ls IH]; [constructor|]. intros (Hb & Ht & Hc).
  pose proof (head_tot_range _ Hc). destruct Hb as (?&?&?&?&?). constructor; [simpl; lia|by apply IH].
Qed.

(** Exchanging the bytes of the sum is undone at the end. *)
Lemma swap_weigh s y : 0 <= y -> SWAP_BYTES_IN_WORD (oc (weigh s y)) = oc (weigh (negb s) y).
Proof.
  intros Hy. assert (Hw : 0 <= weigh s y) by (unfold weigh; destruct s; lia). rewrite (swap_oc (weigh s y)); [|done|by apply oc_range|done].
  destruct s; cbn [weigh negb]; [|done]. apply (oc_cong _ _ y); lia.
Qed.
Lemma unswapped s y : 0 <= y -> (if s : bool then SWAP_BYTES_IN_WORD (oc (weigh s y)) else oc (weigh s y)) = oc y.
Proof. intros Hy. destruct s; [by rewrite swap_weigh|done]. Qed.

Lemma chksum_pseudo_eq (h : pheap) p ls data src dest proto proto_len :
  pkt h p ls data -> ip6_wf src -> ip6_wf dest -> 0 <= proto < 256 -> 0 <= proto_len < 65536 ->
  ip6_chksum_pseudo h (Some p) proto proto_len src dest =
    Ret (65535 - oc (word_sum (pseudo_header src dest proto_len proto ++ data))).
Proof.
  intros (Hll & Hc & <-) Hs Hd Hp Hpl. destruct (addrs_acc src dest Hs Hd) as [HAr Hacc]. unfold ip6_chksum_pseudo. rewrite Hacc.
  pose proof (flat_byte _ Hc) as Hfb. pose proof (word_sum_range _ Hfb) as Hwr. revert HAr. set (A := _ + word_sum (ip6_bytes dest)). intros HAr.
  pose proof (pseudo_loop h A [] ls (Some p) (S (size h)) ltac:(lia) (Forall_nil_2 _) Hll Hc) as Hlp.
  cbn [length app word_sum] in Hlp. change (Nat.odd 0) with false in Hlp. unfold weigh at 1 in Hlp. rewrite Z.add_0_r in Hlp.
  unfold inet_cksum_pseudo_base. rewrite Hlp by (by apply chain_lens || (apply llist_length in Hll; lia)). cbn [mbind outcome_bind].
  rewrite unswapped by lia. f_equal. by apply pseudo_end.
Qed.

Lemma word_sum_fill d c :
  (4 <= length d)%nat -> slice 2 2 d = [0; 0] -> 0 <= c < 65536 ->
  word_sum (splice 2 (le_bytes 2 c) d) = word_sum d + c.
Proof.
  intros Hl Hz Hc. destruct d as [|a [|b [|x [|y r]]]]; cbn [length] in Hl; try lia.
  injection Hz as -> ->. change (splice 2 (le_bytes 2 c) (a :: b :: 0 :: 0 :: r))
    with (a :: b :: c mod 256 :: c / 256 mod 256 :: r). cbn [word_sum].
  assert (c = c mod 256 + 256 * (c / 256 mod 256)) by zlia. lia.
Qed.

(** Adding the complement of a positive sum gives the all-ones value. *)
Lemma oc_complement x : 0 < x -> oc (x + (65535 - oc x)) = 65535.
Proof.
  intros Hx. pose proof (oc_range x ltac:(lia)) as Hr. pose proof (oc_mod x ltac:(lia)) as Hm.
  rewrite <-(oc_small 65535) at 2 by lia. apply oc_eq; [lia|lia|lia|].
  replace (x + (65535 - oc x)) with (x - oc x + 1 * 65535) by lia. rewrite Z.mod_add by lia.
  rewrite Zminus_mod, Hm, Z.sub_diag. done.
Qed.

Lemma checksum_fill (h : pheap) p ls d src dest proto :
  pkt h p ls d -> (4 <= length d)%nat -> slice 2 2 d = [0; 0] -> ip6_wf src -> ip6_wf dest ->
  0 < proto < 256 ->
  exists c, ip6_chksum_pseudo h (Some p) proto (Z.of_nat (length d)) src dest = Ret c /\ 0 <= c < 65536 /\
    forall (h' : pheap) p' ls', pkt h' p' ls' (splice 2 (le_bytes 2 c) d) ->
      ip6_chksum_pseudo h' (Some p') proto (Z.of_nat (length d)) src dest = Ret 0.
Proof.
  intros Hp Hl Hz Hs Hd Hpr. destruct (pkt_tot _ _ _ _ Hp) as (_ & _ & _ & Hlen).
  rewrite (chksum_pseudo_eq h p ls d) by (done || lia).
  set (T := word_sum _).
  assert (HT : 0 < T).
  { unfold T, pseudo_header. rewrite !word_sum_app_even by done. cbn [word_sum].
    pose proof (word_sum_range _ (ip6_bytes_byte src)). pose proof (word_sum_range _ (ip6_bytes_byte dest)).
    pose proof (word_sum_range _ (be16_byte (Z.of_nat (length d)))).
    destruct Hp as (_ & Hc & <-). pose proof (word_sum_range _ (flat_byte _ Hc)). lia. }
  pose proof (oc_range T ltac:(lia)). exists (65535 - oc T). split_and!; [done|lia|lia|].
  intros h' p' ls' Hp'. rewrite (chksum_pseudo_eq h' p' ls' _ src dest _ _ Hp') by (done || lia).
  assert (Hc : forall c, 0 <= c < 65536 ->
    word_sum (pseudo_header src dest (Z.of_nat (length d)) proto ++ splice 2 (le_bytes 2 c) d) = T + c).
  { intros c Hc. unfold T, pseudo_header. rewrite !word_sum_app_even by done.
    rewrite word_sum_fill by done. lia. }
  rewrite Hc by lia. by rewrite oc_complement.
Qed.

(** ** Properties *)

(** C39: the checksum routine computes the Internet checksum.  For every
    well-formed pbuf chain, with segments of any length and alignment, the
    result is the complement of the one's-complement sum of the pseudo header
    and the flattened data (RFC 1071, RFC 8200). *)
Theorem checksum_is_rfc1071 (h : pheap) p ls data src dest proto proto_len :
  pkt h p ls data -> ip6_wf src -> ip6_wf dest -> 0 <= proto < 256 -> 0 <= proto_len < 65536 ->
  ip6_chksum_pseudo h (Some p) proto proto_len src dest =
    Ret (65535 - oc (word_sum (pseudo_header src dest proto_len proto ++ data))).
Proof. apply chksum_pseudo_eq. Qed.

(** Two segments, the first of odd length. *)
Definition two_segments : pheap :=
  <[1%positive := Node (mk_pbuf [1; 2; 3] 0 5 3 PBUF_POOL 0 1 0) (Some 2%positive)]>
    {[2%positive := Node (mk_pbuf [9; 4; 5] 1 2 2 PBUF_POOL 0 1 0) None]}.

Lemma two_segments_pkt :
  pkt two_segments 1%positive
    [(1%positive, mk_pbuf [1; 2; 3] 0 5 3 PBUF_POOL 0 1 0);
     (2%positive, mk_pbuf [9; 4; 5] 1 2 2 PBUF_POOL 0 1 0)] [1; 2; 3; 4; 5].
Proof.
  split_and!.
  - simpl. split; [done|]. exists (Some 2%positive). split; [done|]. split; [done|]. by exists None.
  - simpl. unfold seg_ok. simpl. split_and!; try lia; try done; apply (bool_decide_unpack _); vm_compute; exact I.
  - done.
Qed.

Lemma checksum_is_rfc1071_witness :
  ip6_chksum_pseudo two_segments (Some 1%positive) 58 5 ip6_addr_any ip6_addr_any =
    Ret (65535 - oc (word_sum (pseudo_header ip6_addr_any ip6_addr_any 5 58 ++ [1; 2; 3; 4; 5]))).
Proof.
  apply (checksum_is_rfc1071 _ _ [(1%positive, mk_pbuf [1; 2; 3] 0 5 3 PBUF_POOL 0 1 0);
     (2%positive, mk_pbuf [9; 4; 5] 1 2 2 PBUF_POOL 0 1 0)]).
  - apply two_segments_pkt.
  - unfold ip6_wf, word32. simpl. lia.
  - unfold ip6_wf, word32. simpl. lia.
  - lia.
  - lia.
Defined.
