(* ===== verification/ChksumPart.v ===== *)
(** * Internet checksum over a part of a packet (lwip/src/core/inet_chksum.c)

    The rest of the module as configured: checksums over the first bytes of a chain, over
    a chain without pseudo header and over memory.  The theorems: each is the complement
    of RFC 1071's sum of exactly the bytes it is asked for. *)

From S2P Require Import Prelude LinkedList Ip6Addr World Pbuf Ip6Hdr InetChksum.

(** [for (q = p; (q != NULL) && (chksum_len > 0); q = q->next)] *)
Definition partial_body (h : pheap) (st : option loc * Z * bool * Z) : outcome (option loc * Z * bool * Z + Z * bool) :=
  let '(q, acc, swapped, chksum_len) := st in
  match q with
  | None => Ret (inr (acc, swapped))
  | Some l =>
      if 0 <? chksum_len then
        n ← deref (h !! l);
        let chklen := if chksum_len <? pb_len (n_val n) then chksum_len else pb_len (n_val n) in
        data ← payload_rd 0 chklen (n_val n);
        let acc := u32 (acc + lwip_standard_chksum (Z.odd (pb_payload (n_val n))) data) in
        let chksum_len := u16 (chksum_len - chklen) in
        if chksum_len <? 0x7fff then
          let acc := FOLD_U32T acc in
          if Z.odd (pb_len (n_val n))
          then Ret (inl (n_next n, SWAP_BYTES_IN_WORD acc, negb swapped, chksum_len))
          else Ret (inl (n_next n, acc, swapped, chksum_len))
        else Stuck
      else Ret (inr (acc, swapped))
  end.

Definition inet_cksum_pseudo_partial_base (h : pheap) (p : option loc) (proto proto_len chksum_len acc : Z) : outcome Z :=
  r ← oloop (S (size h)) (partial_body h) (p, acc, false, chksum_len);
  let '(acc, swapped) := r in
  let acc := if (swapped : bool) then SWAP_BYTES_IN_WORD acc else acc in
  let acc := u32 (acc + lwip_htons (u16 proto)) in
  let acc := u32 (acc + lwip_htons proto_len) in
  let acc := FOLD_U32T (FOLD_U32T acc) in
  Ret (u16 (Z.lnot (Z.land acc 0xffff))).

Definition ip6_chksum_pseudo_partial (h : pheap) (p : option loc) (proto proto_len chksum_len : Z) (src dest : ip6_addr) : outcome Z :=
  let acc := add_addr_part (addr0 src) (addr0 dest) 0 in
  let acc := add_addr_part (addr1 src) (addr1 dest) acc in
  let acc := add_addr_part (addr2 src) (addr2 dest) acc in
  let acc := add_addr_part (addr3 src) (addr3 dest) acc in
  inet_cksum_pseudo_partial_base h p proto proto_len chksum_len (FOLD_U32T (FOLD_U32T acc)).

(** Without IPv4 every address is an IPv6 address. *)
Definition ip_chksum_pseudo (h : pheap) (p : option loc) (proto proto_len : Z) (src dest : ip6_addr) : outcome Z :=
  ip6_chksum_pseudo h p proto proto_len src dest.
Definition ip_chksum_pseudo_partial (h : pheap) (p : option loc) (proto proto_len chksum_len : Z) (src dest : ip6_addr) : outcome Z :=
  ip6_chksum_pseudo_partial h p proto proto_len chksum_len src dest.

(** [odd] is the alignment of [dataptr]. *)
Definition inet_chksum (odd : bool) (data : list Z) : Z := u16 (Z.lnot (lwip_standard_chksum odd data)).

(** The loop is the one of [inet_cksum_pseudo_base]. *)
Definition inet_chksum_pbuf (h : pheap) (p : option loc) : outcome Z :=
  r ← oloop (S (size h)) (pseudo_body h) (p, 0, false);
  let '(acc, swapped) := r in
  let acc := if (swapped : bool) then SWAP_BYTES_IN_WORD acc else acc in
  Ret (u16 (Z.lnot (Z.land acc 0xffff))).

(** ** The sums *)

(** One more run of bytes. *)
Lemma acc_step A P d odd :
  0 <= A -> Forall is_byte P -> Forall is_byte d -> Z.of_nat (length d) <= 65535 ->
  let s := Nat.odd (length P) in
  FOLD_U32T (u32 (oc (weigh s (A + word_sum P)) + lwip_standard_chksum odd d)) = oc (weigh s (A + word_sum (P ++ d))).
Proof.
  intros HA HP Hd Hl s. rewrite chksum_spec by done. pose proof (word_sum_range P HP). pose proof (word_sum_range d Hd).
  assert (Hx : 0 <= weigh s (A + word_sum P)) by (unfold weigh; destruct s; lia). pose proof (oc_range _ Hx). pose proof (oc_range (word_sum d) ltac:(lia)).
  rewrite u32_small, fold_small by lia. rewrite oc_add_l, Z.add_comm, oc_add_l, Z.add_comm by lia. by apply weigh_step.
Qed.

(** The body on a buffer, of which [k] bytes are summed. *)
Lemma partial_step (h : pheap) A P l b q n k :
  let d := take k (seg_bytes b) in let s := Nat.odd (length P) in let odd := Z.odd (pb_len b) in
  0 <= A -> Forall is_byte P -> h !! l = Some (Node b q) -> seg_ok b -> pb_len b <= 65535 -> (0 < n)%nat -> Z.of_nat n < 65536 ->
  Z.of_nat n - pb_len b < 0x7fff -> k = Nat.min n (length (seg_bytes b)) ->
  partial_body h (Some l, oc (weigh s (A + word_sum P)), s, Z.of_nat n) =
    Ret (inl (q, oc (weigh (xorb s odd) (A + word_sum (P ++ d))), xorb s odd, Z.of_nat (n - k))).
Proof.
  intros d s odd HA HP Hq Hb Hlb Hn Hn16 Hrest Hk. pose proof (seg_bytes_byte b Hb) as Hbb. pose proof (seg_bytes_length b Hb) as Hbl.
  assert (Hd : Forall is_byte d) by (by apply Forall_take). assert (Hld : length d = k) by (unfold d; rewrite length_take; lia).
  assert (Hy : 0 <= A + word_sum (P ++ d)) by (pose proof (word_sum_range (P ++ d) ltac:(by apply Forall_app)); lia).
  unfold partial_body. rewrite (proj2 (Z.ltb_lt 0 _)) by lia. rewrite Hq. cbn [deref mbind outcome_bind n_val n_next].
  replace (if Z.of_nat n <? pb_len b then Z.of_nat n else pb_len b) with (Z.of_nat k) by (destruct (Z.ltb_spec (Z.of_nat n) (pb_len b)); lia).
  rewrite payload_rd_ok by (done || lia). cbn [mbind outcome_bind]. rewrite Nat2Z.id. change (slice (Z.to_nat 0) k (seg_bytes b)) with d.
  rewrite u16_small by lia. rewrite (proj2 (Z.ltb_lt _ 0x7fff)) by lia. rewrite (acc_step A P d) by (done || lia). rewrite <-Nat2Z.inj_sub by lia.
  unfold odd. fold s. destruct (Z.odd (pb_len b)); [|by rewrite xorb_false_r]. by rewrite swap_weigh, xorb_true_r.
Qed.

Lemma partial_loop (h : pheap) A P ls cur fuel n :
  0 <= A -> Forall is_byte P -> llist h cur ls -> chain_ok ls -> (length ls < fuel)%nat -> Forall (fun x => pb_len x.2 <= 65535) ls ->
  match ls with [] => True | (_, b) :: _ => Z.of_nat n - pb_len b < 0x7fff end -> Z.of_nat n < 65536 ->
  exists s, oloop fuel (partial_body h) (cur, oc (weigh (Nat.odd (length P)) (A + word_sum P)), Nat.odd (length P), Z.of_nat n) =
    Ret (oc (weigh s (A + word_sum (P ++ take n (flat ls)))), s).
Proof.
  intros HA. revert P cur fuel n. induction ls as [|[l b] ls IH]; intros P cur [|fuel] n HP Hl Hc Hf Hle Hn Hn16; simpl in Hf; try lia; rewrite oloop_S.
  { simpl in Hl. subst cur. exists (Nat.odd (length P)). unfold flat. cbn [fmap list_fmap concat]. by rewrite take_nil, app_nil_r. }
  destruct Hl as [-> (q & Hq & Hr)], Hc as (Hb & Ht & Hc). apply Forall_cons in Hle as [Hlb Hle]. cbn [snd] in Hlb.
  pose proof (seg_bytes_length b Hb) as Hbl. rewrite flat_cons. destruct n as [|n']; [exists (Nat.odd (length P)); by rewrite app_nil_r|]. set (n := S n') in *.
  rewrite (partial_step h A P l b q n _ HA HP Hq Hb Hlb ltac:(lia) Hn16 Hn eq_refl). cbn [mbind outcome_bind].
  destruct (decide (n <= length (seg_bytes b))%nat) as [Hle'|Hgt].
  - rewrite Nat.min_l, Nat.sub_diag by done. exists (xorb (Nat.odd (length P)) (Z.odd (pb_len b))). rewrite take_app_le by done.
    destruct fuel as [|fuel]; [lia|]. rewrite oloop_S. unfold partial_body at 1. by destruct q.
  - rewrite Nat.min_r, take_ge by lia. rewrite take_app_ge, app_assoc by lia.
    replace (xorb (Nat.odd (length P)) (Z.odd (pb_len b))) with (Nat.odd (length (P ++ seg_bytes b))) by (by rewrite <-Hbl, odd_of_nat, length_app, Nat.odd_add).
    apply IH; try done; [|lia| |lia].
    + apply Forall_app. split; [done|by apply seg_bytes_byte].
    + destruct ls as [|[l' b'] ls']; [done|]. destruct Hc as ((_ & ? & _) & _). lia.
Qed.

(** ** Properties *)

(** The partial checksum covers the pseudo header and the first [n] bytes of the data, however
    the chain is cut into buffers; the condition is the code's assertion. *)
Theorem partial_checksum (h : pheap) p ls data src dest proto proto_len n b ls' :
  pkt h p ls data -> ls = (p, b) :: ls' -> ip6_wf src -> ip6_wf dest -> 0 <= proto < 256 -> 0 <= proto_len < 65536 ->
  Z.of_nat n < 65536 -> Z.of_nat n - pb_len b < 0x7fff ->
  ip_chksum_pseudo_partial h (Some p) proto proto_len (Z.of_nat n) src dest =
    Ret (65535 - oc (word_sum (pseudo_header src dest proto_len proto ++ take n data))).
Proof.
  intros (Hll & Hc & <-) Hls Hs Hd Hp Hpl Hn16 Hn. destruct (addrs_acc src dest Hs Hd) as [HAr Hacc].
  unfold ip_chksum_pseudo_partial, ip6_chksum_pseudo_partial. rewrite Hacc.
  assert (Hfb : Forall is_byte (take n (flat ls))) by (by apply Forall_take, flat_byte). pose proof (word_sum_range _ Hfb). revert HAr. set (A := _ + word_sum (ip6_bytes dest)). intros HAr.
  destruct (partial_loop h A [] ls (Some p) (S (size h)) n) as [s Hlp]; try done; [lia|apply llist_length in Hll; lia|by apply chain_lens|by rewrite Hls|].
  cbn [length app word_sum] in Hlp. change (Nat.odd 0) with false in Hlp. unfold weigh at 1 in Hlp. rewrite Z.add_0_r in Hlp.
  unfold inet_cksum_pseudo_partial_base. rewrite Hlp. cbn [mbind outcome_bind]. rewrite unswapped by lia. f_equal. by apply pseudo_end.
Qed.

(** So over all bytes of a packet below 32 KiB it is the full one. *)
Theorem partial_is_full (h : pheap) p ls data src dest proto proto_len n :
  pkt h p ls data -> ip6_wf src -> ip6_wf dest -> 0 <= proto < 256 -> 0 <= proto_len < 65536 ->
  (length data <= n)%nat -> Z.of_nat n < 0x7fff ->
  ip_chksum_pseudo_partial h (Some p) proto proto_len (Z.of_nat n) src dest = ip_chksum_pseudo h (Some p) proto proto_len src dest.
Proof.
  intros Hpk Hs Hd Hp Hpl Hle Hn. unfold ip_chksum_pseudo. rewrite (chksum_pseudo_eq h p ls data) by done.
  destruct ls as [|[l b] ls']; [by destruct Hpk as (? & _)|]. assert (l = p) as -> by (destruct Hpk as ([E _] & _); congruence).
  assert (0 <= pb_len b) by (destruct Hpk as (_ & ((_ & ? & _) & _) & _); done).
  erewrite partial_checksum; [|exact Hpk|done|done|done|done|done|lia|lia]. by rewrite take_ge by lia.
Qed.

(** The checksum of a chain without pseudo header, and of the same bytes in one piece of memory. *)
Theorem chain_checksum (h : pheap) p ls data odd :
  pkt h p ls data ->
  inet_chksum_pbuf h (Some p) = Ret (65535 - oc (word_sum data)) /\ inet_chksum odd data = 65535 - oc (word_sum data).
Proof.
  intros (Hll & Hc & <-). pose proof (flat_byte _ Hc) as Hfb. pose proof (word_sum_range _ Hfb). pose proof (flat_length _ Hc). pose proof (head_tot_range _ Hc).
  pose proof (oc_range (word_sum (flat ls)) ltac:(lia)). split.
  - pose proof (pseudo_loop h 0 [] ls (Some p) (S (size h)) ltac:(lia) (Forall_nil_2 _) Hll Hc) as Hlp.
    cbn [length app word_sum] in Hlp. change (Nat.odd 0) with false in Hlp. change (oc (weigh false (0 + 0))) with 0 in Hlp.
    unfold inet_chksum_pbuf. rewrite Hlp by (by apply chain_lens || (apply llist_length in Hll; lia)). cbn [mbind outcome_bind].
    rewrite unswapped, Z.add_0_l by lia. f_equal. apply u16_lnot_oc. lia.
  - unfold inet_chksum. rewrite chksum_spec by (done || lia). by apply u16_lnot.
Qed.

(** The first four of five bytes in two buffers. *)
Lemma partial_checksum_witness :
  ip_chksum_pseudo_partial two_segments (Some 1%positive) 58 5 (Z.of_nat 4) ip6_addr_any ip6_addr_any =
    Ret (65535 - oc (word_sum (pseudo_header ip6_addr_any ip6_addr_any 5 58 ++ [1; 2; 3; 4]))).
Proof.
  apply (partial_checksum _ _ _ _ _ _ _ _ 4 _ _ two_segments_pkt eq_refl).
  - unfold ip6_wf, word32. simpl. lia.
  - unfold ip6_wf, word32. simpl. lia.
  - lia.
  - lia.
  - lia.
  - simpl. lia.
Defined.
