(* ===== verification/RawSocket.v ===== *)
(** * Raw sockets (src/raw_socket.c)

    The two raw IPv6 sockets of the node: opening them, choosing one for a
    destination, sending a packet buffer, closing them.  The theorems say
    exactly what reaches the kernel, which destinations leave through the
    second interface, and that no descriptor is lost on an error path. *)

From S2P Require Import Prelude LinkedList Ip6Addr World Pbuf Ip6Hdr.

Definition IFNAMSIZ : nat := 16.
Definition RAW_BUF_SIZE : Z := 2048.

(** [strncpy(dst, src, IFNAMSIZ-1)] into a zeroed array, as a string. *)
Definition copy_ifname (name : list Z) : list Z := take (IFNAMSIZ - 1) name.

Definition use_second_interface (dest : ip6_addr) : bool :=
  ((addr0 dest =? lwip_htonl 0xfd000023) || (addr0 dest =? lwip_htonl 0xfd000033)) &&
  (addr1 dest =? 0) && (addr2 dest =? 0).

(** Socket, interface index and interface name used for a destination. *)
Definition socket_for (r : raw_sockets) (dest : ip6_addr) : Z * Z * list Z :=
  if use_second_interface dest
  then (raw_socket_enp0s9 r, if_index_2 r, if_name_2_global r)
  else (raw_socket_enp0s8 r, if_index_1 r, if_name_1_global r).

Section raw_socket.
Context `{Env}.

Definition sys_socket : M world Z :=
  t ← next_tick;
  let fd := env_socket t in
  if fd <? 0 then mret fd
  else modify (fun w => set_raw (w_raw w) (fd :: w_fds w) w);; mret fd.
Definition sys_close (fd : Z) : M world unit :=
  modify (fun w => set_raw (w_raw w) (filter (fun d => d <> fd) (w_fds w)) w).
Definition upd_raw (f : raw_sockets -> raw_sockets) : M world unit :=
  modify (fun w => set_raw (f (w_raw w)) (w_fds w) w).

Definition set_names (n1 n2 : list Z) (r : raw_sockets) : raw_sockets :=
  mk_raw (if_index_1 r) (if_index_2 r) n1 n2 (raw_socket_enp0s8 r) (raw_socket_enp0s9 r).
Definition set_socket_1 (fd : Z) (r : raw_sockets) : raw_sockets :=
  mk_raw (if_index_1 r) (if_index_2 r) (if_name_1_global r) (if_name_2_global r)
         fd (raw_socket_enp0s9 r).
Definition set_socket_2 (fd : Z) (r : raw_sockets) : raw_sockets :=
  mk_raw (if_index_1 r) (if_index_2 r) (if_name_1_global r) (if_name_2_global r)
         (raw_socket_enp0s8 r) fd.
Definition set_index_1 (i : Z) (r : raw_sockets) : raw_sockets :=
  mk_raw i (if_index_2 r) (if_name_1_global r) (if_name_2_global r)
         (raw_socket_enp0s8 r) (raw_socket_enp0s9 r).
Definition set_index_2 (i : Z) (r : raw_sockets) : raw_sockets :=
  mk_raw (if_index_1 r) i (if_name_1_global r) (if_name_2_global r)
         (raw_socket_enp0s8 r) (raw_socket_enp0s9 r).

(** [close] both sockets and [return -1]. *)
Definition close_both (fd1 fd2 : Z) : M world Z :=
  sys_close fd1;; sys_close fd2;; mret (-1).

Definition raw_socket_init (if_name_1 if_name_2 : list Z) : M world Z :=
  upd_raw (set_names (copy_ifname if_name_1) (copy_ifname if_name_2));;
  fd1 ← sys_socket;
  upd_raw (set_socket_1 fd1);;
  if fd1 <? 0 then mret (-1) else
  fd2 ← sys_socket;
  upd_raw (set_socket_2 fd2);;
  if fd2 <? 0 then sys_close fd1;; mret (-1) else
  t1 ← next_tick;
  match env_ifindex t1 with
  | None => close_both fd1 fd2
  | Some i1 =>
      upd_raw (set_index_1 i1);;
      t2 ← next_tick;
      match env_ifindex t2 with
      | None => close_both fd1 fd2
      | Some i2 =>
          upd_raw (set_index_2 i2);;
          t3 ← next_tick;
          if env_setsockopt t3 <? 0 then close_both fd1 fd2 else
          t4 ← next_tick;
          if env_setsockopt t4 <? 0 then close_both fd1 fd2 else mret 0
      end
  end.

Definition raw_socket_send_ipv6 (p : loc) (dest_addr : ip6_addr) : M world Z :=
  nd ← pb_node p;
  let tot_len := pb_tot_len (n_val nd) in
  if RAW_BUF_SIZE <? tot_len then mret (-1) else
  w ← get;
  buf ← lift (pbuf_copy_partial (w_pbufs w) (Some p) tot_len 0);
  if negb (Z.of_nat (length buf) =? tot_len) then mret (-1) else
  let '(fd, if_index, if_name) := socket_for (w_raw w) dest_addr in
  t1 ← next_tick;
  if env_setsockopt t1 <? 0 then mret (-1) else
  modify (add_event (EvBind fd if_name));;
  t2 ← next_tick;
  let sent_bytes := env_sendto t2 tot_len in
  if sent_bytes <? 0 then mret (-1) else
  modify (add_event (EvSend fd if_index (ip6_bytes dest_addr) (take (Z.to_nat sent_bytes) buf)));;
  mret (if negb (sent_bytes =? tot_len) then -1 else 0).

Definition raw_socket_cleanup : M world unit :=
  w ← get;
  (if 0 <=? raw_socket_enp0s8 (w_raw w)
   then sys_close (raw_socket_enp0s8 (w_raw w));; upd_raw (set_socket_1 (-1)) else mret tt);;
  w ← get;
  (if 0 <=? raw_socket_enp0s9 (w_raw w)
   then sys_close (raw_socket_enp0s9 (w_raw w));; upd_raw (set_socket_2 (-1)) else mret tt).
End raw_socket.

(** ** What a call sends *)

(** [w] after [n] requests during which the events [es] were produced. *)
Definition logged (es : list event) (n : nat) (w : world) : world :=
  mk_world (w_pbufs w) (w_entries w) (w_contacts w) (w_controller w) (w_routing w)
           (w_storage w) (w_last_check w) (w_last_active w) (w_files w) (w_timers w) (w_cur_src w)
           (w_cur_dest w) (w_raw w) (w_fds w) (w_trace w ++ es) (n + w_tick w).

Lemma logged_nil k w : logged [] k w = add_ticks k w.
Proof. unfold logged, add_ticks. by rewrite app_nil_r. Qed.

Lemma logged_logged es k es' k' w : logged es' k' (logged es k w) = logged (es ++ es') (k' + k) w.
Proof. apply world_eq; try reflexivity; simpl; [by rewrite app_assoc|lia]. Qed.
Lemma logged_ticks es k n w : logged es k (add_ticks n w) = logged es (k + n) w.
Proof. apply world_eq; try reflexivity; simpl. lia. Qed.
Lemma ticks_logged es k n w : add_ticks n (logged es k w) = logged es (n + k) w.
Proof. apply world_eq; try reflexivity; simpl. lia. Qed.

(** The complete transmission of [bs] to [dest]: the socket is bound to its
    interface, then the packet goes out on it. *)
Definition transmission (r : raw_sockets) (dest : ip6_addr) (bs : list Z) : list event :=
  let '(fd, i, name) := socket_for r dest in
  [EvBind fd name; EvSend fd i (ip6_bytes dest) bs].

Section sending.
Context `{Env}.

(** Result, events and number of requests of a call at request number [t]. *)
Definition send_outcome (r : raw_sockets) (t : nat) (dest : ip6_addr) (bs : list Z)
  : Z * list event * nat :=
  let '(fd, i, name) := socket_for r dest in
  let n := Z.of_nat (length bs) in
  if RAW_BUF_SIZE <? n then (-1, [], 0%nat)
  else if env_setsockopt t <? 0 then (-1, [], 1%nat)
  else let sent := env_sendto (S t) n in
  if sent <? 0 then (-1, [EvBind fd name], 2%nat)
  else (if negb (sent =? n) then -1 else 0,
        [EvBind fd name; EvSend fd i (ip6_bytes dest) (take (Z.to_nat sent) bs)], 2%nat).

Lemma raw_send_exec w p ls bs dest :
  pkt (w_pbufs w) p ls bs ->
  raw_socket_send_ipv6 p dest w =
    let '(r, es, n) := send_outcome (w_raw w) (w_tick w) dest bs in Ret (r, logged es n w).
Proof.
  intros Hp. destruct (pkt_tot _ _ _ _ Hp) as (nd & Hl & Ht & Hb).
  unfold raw_socket_send_ipv6, send_outcome.
  rewrite (bind_exec (pb_node p) _ w nd w).
  2: { unfold pb_node, get, mbind, M_bind. by rewrite Hl. }
  rewrite Ht. destruct (socket_for (w_raw w) dest) as [[fd i] name] eqn:Es.
  destruct (RAW_BUF_SIZE <? Z.of_nat (length bs)) eqn:Eb.
  { unfold logged. rewrite app_nil_r. by destruct w. }
  rewrite (bind_exec get _ w w w) by done.
  rewrite (bind_exec (lift _) _ w bs w).
  2: { unfold lift. by rewrite (pbuf_copy_out _ _ _ _ Hp). }
  rewrite Z.eqb_refl, Es. cbn [negb].
  rewrite (bind_exec next_tick _ w (w_tick w) (add_ticks 1 w)) by done.
  destruct (env_setsockopt (w_tick w) <? 0) eqn:Eo.
  { unfold logged. rewrite app_nil_r. by destruct w. }
  unfold mbind, M_bind, modify, next_tick. simpl.
  destruct (env_sendto (S (w_tick w)) _ <? 0); [done|].
  unfold logged, add_event, mret, M_ret. simpl. by rewrite <-app_assoc.
Qed.
End sending.

(** The result is 0 exactly for a complete transmission. *)
Lemma send_outcome_complete `{Env} rs t dest bs r es n :
  (forall t n, env_sendto t n <= n) -> send_outcome rs t dest bs = (r, es, n) ->
  (r = 0 \/ r = -1) /\ (r = 0 <-> es = transmission rs dest bs) /\
  (RAW_BUF_SIZE < Z.of_nat (length bs) -> r = -1 /\ es = []).
Proof.
  intros Hs E. unfold send_outcome, transmission in *. specialize (Hs (S t) (Z.of_nat (length bs))).
  destruct (socket_for rs dest) as [[fd i] name].
  destruct (Z.ltb_spec RAW_BUF_SIZE (Z.of_nat (length bs))); [naive_solver|].
  destruct (env_setsockopt _ <? 0); [injection E as <- <- <-; split; [auto|]; split; [done|lia]|].
  destruct (Z.ltb_spec (env_sendto (S t) (Z.of_nat (length bs))) 0);
    [injection E as <- <- <-; split; [auto|]; split; [done|lia]|].
  injection E as <- <- <-.
  destruct (Z.eqb_spec (env_sendto (S t) (Z.of_nat (length bs))) (Z.of_nat (length bs)))
    as [->|Hne]; simpl.
  - rewrite Nat2Z.id, take_ge by lia. split; [auto|]. split; [done|lia].
  - split; [auto|]. split; [|lia]. split; [done|]. intros [= Ht].
    apply (f_equal length) in Ht. rewrite length_take in Ht. lia.
Qed.

(** C38: [raw_socket_send_ipv6] on a packet buffer (a chain of any number of
    segments holding the bytes [bs]) returns, touches nothing but the trace of
    what left the node, and returns 0 exactly when the whole packet has been
    handed to the kernel on the socket and interface of its destination; the
    only other result is -1.  The hypothesis is [sendto]'s contract: it never
    reports more bytes than it was given. *)
Theorem raw_send_complete `{Env} w p ls bs dest :
  pkt (w_pbufs w) p ls bs ->
  (forall t n, env_sendto t n <= n) ->
  exists r es n,
    raw_socket_send_ipv6 p dest w = Ret (r, logged es n w) /\
    (r = 0 \/ r = -1) /\
    (r = 0 <-> es = transmission (w_raw w) dest bs) /\
    (RAW_BUF_SIZE < Z.of_nat (length bs) -> r = -1 /\ es = []).
Proof.
  intros Hp Hs. rewrite (raw_send_exec _ _ _ _ _ Hp).
  destruct (send_outcome (w_raw w) (w_tick w) dest bs) as [[r es] n] eqn:E.
  exists r, es, n. split; [done|]. by apply (send_outcome_complete _ (w_tick w) dest bs r es n).
Qed.

Lemma use_second_word x : 0 <= x < 4294967296 ->
  forall l, length l = 4%nat -> Forall is_byte l ->
  le_val l = lwip_htonl x <-> l = le_bytes 4 (lwip_htonl x).
Proof.
  intros Hx l Hl Hb. split; intros E.
  - rewrite <-E. symmetry. by apply le_bytes_val.
  - rewrite E. apply le_val_bytes, lwip_htonl_range.
Qed.

(** The destinations sent through the second interface are exactly those
    of the two prefixes fd00:23::/96 and fd00:33::/96: the first twelve bytes
    of the address are fixed, whatever the last four are. *)
Theorem second_interface_prefixes l :
  length l = 16%nat -> Forall is_byte l ->
  use_second_interface (ip6_of_bytes l) = true <->
  take 12 l = [0xfd; 0; 0; 0x23; 0; 0; 0; 0; 0; 0; 0; 0] \/
  take 12 l = [0xfd; 0; 0; 0x33; 0; 0; 0; 0; 0; 0; 0; 0].
Proof.
  intros Hl Hb. unfold use_second_interface, ip6_of_bytes, IP6_ADDR. cbn [addr0 addr1 addr2].
  rewrite !andb_true_iff, orb_true_iff, !Z.eqb_eq.
  assert (Hs : forall o, (o + 4 <= 16)%nat ->
            length (slice o 4 l) = 4%nat /\ Forall is_byte (slice o 4 l)).
  { intros o Ho. split; [apply length_slice; lia|by apply Forall_slice]. }
  change 0 with (lwip_htonl 0).
  rewrite !use_second_word by (first [lia | apply Hs; lia]).
  do 17 (destruct l as [|? l]; try (simpl in Hl; lia)). clear Hs Hb Hl.
  cbn. naive_solver.
Qed.

(** ** Descriptors *)

(** Closing the descriptor that was opened last. *)
Lemma filter_fresh (fd : Z) l : fd ∉ l -> filter (fun d => d <> fd) (fd :: l) = l.
Proof.
  intros Hn. rewrite filter_cons_False by naive_solver.
  induction l as [|x l IH]; [done|]. rewrite filter_cons_True by set_solver.
  f_equal. apply IH. set_solver.
Qed.

Lemma filter_two (fd1 fd2 : Z) l :
  fd1 ∉ l -> fd2 ∉ fd1 :: l ->
  filter (fun d => d <> fd2) (filter (fun d => d <> fd1) (fd2 :: fd1 :: l)) = l.
Proof.
  intros H1 H2. rewrite filter_cons_True by set_solver.
  rewrite (filter_fresh fd1) by done. apply filter_fresh. set_solver.
Qed.

Section descriptors.
Context `{Env} (w : world).
Let fd1 := env_socket (w_tick w).
Let fd2 := env_socket (S (w_tick w)).
(** The kernel hands out descriptors that are not open. *)
Context (Hfresh1 : fd1 ∉ w_fds w) (Hfresh2 : 0 <= fd1 -> fd2 ∉ fd1 :: w_fds w).

(** Only the sockets and the clock have changed. *)
Ltac framed :=
  match goal with |- exists k, ?w' = _ =>
    exists (w_tick w' - w_tick w)%nat; apply world_eq; try reflexivity; simpl; lia
  end.
(** A run that ended in [return -1]. *)
Ltac failed := eexists _, _; split; [reflexivity|split; [framed|left; split; [reflexivity|done]]].

Lemma raw_init_cases n1 n2 :
  exists r w', raw_socket_init n1 n2 w = Ret (r, w') /\
    (exists k, w' = set_raw (w_raw w') (w_fds w') (add_ticks k w)) /\
    ((r = -1 /\ w_fds w' = w_fds w) \/
     (r = 0 /\ 0 <= fd1 /\ 0 <= fd2 /\ w_fds w' = fd2 :: fd1 :: w_fds w /\
      exists i1 i2, env_ifindex (2 + w_tick w) = Some i1 /\ env_ifindex (3 + w_tick w) = Some i2 /\
        w_raw w' = mk_raw i1 i2 (copy_ifname n1) (copy_ifname n2) fd1 fd2)).
Proof.
  assert (Hf2 : 0 <= fd1 -> filter (fun d => d <> fd2) (filter (fun d => d <> fd1) (fd2 :: fd1 :: w_fds w)) = w_fds w)
    by (intros; apply filter_two; auto).
  pose proof (filter_fresh _ _ Hfresh1) as Hf1.
  unfold raw_socket_init, sys_socket, close_both, sys_close, upd_raw, modify, next_tick,
    mbind, M_bind, mret, M_ret in *. simpl.
  destruct (env_socket (w_tick w) <? 0) eqn:L1; simpl; repeat (rewrite L1; simpl); [failed|].
  specialize (Hf2 (proj1 (Z.ltb_ge _ _) L1)).
  destruct (env_socket (S (w_tick w)) <? 0) eqn:L2; simpl; repeat (rewrite L2; simpl); [failed|].
  apply Z.ltb_ge in L1, L2.
  destruct (env_ifindex (S (S (w_tick w)))) as [i1|] eqn:E1; simpl; [|failed].
  destruct (env_ifindex (S (S (S (w_tick w))))) as [i2|] eqn:E2; simpl; [|failed].
  do 2 (destruct (env_setsockopt _ <? 0); simpl; [failed|]).
  eexists _, _. split; [reflexivity|]. split; [framed|]. right. split_and!; try done. by exists i1, i2.
Qed.
End descriptors.

(** Opening the raw sockets either fails with every descriptor it opened
    closed again, or succeeds with both sockets open, the two interface
    indices and names recorded, and [raw_socket_cleanup] then closes exactly
    the two sockets and resets both handles to -1.  The hypotheses say that
    [socket] returns descriptors that are not in use. *)
Theorem raw_sockets_balanced `{Env} w n1 n2 :
  env_socket (w_tick w) ∉ w_fds w ->
  env_socket (S (w_tick w)) ∉ env_socket (w_tick w) :: w_fds w ->
  exists r w', raw_socket_init n1 n2 w = Ret (r, w') /\
    ((r = -1 /\ w_fds w' = w_fds w) \/
     (r = 0 /\ w_fds w' = [env_socket (S (w_tick w)); env_socket (w_tick w)] ++ w_fds w /\
      if_name_1_global (w_raw w') = copy_ifname n1 /\ if_name_2_global (w_raw w') = copy_ifname n2 /\
      env_ifindex (2 + w_tick w) = Some (if_index_1 (w_raw w')) /\
      env_ifindex (3 + w_tick w) = Some (if_index_2 (w_raw w')) /\
      wp raw_socket_cleanup w' (fun _ w'' => w_fds w'' = w_fds w /\
        raw_socket_enp0s8 (w_raw w'') = -1 /\ raw_socket_enp0s9 (w_raw w'') = -1))).
Proof.
  intros H1 H2. destruct (raw_init_cases w H1 (fun _ => H2) n1 n2) as (r & w' & -> & _ & Hc).
  exists r, w'. split; [done|].
  destruct Hc as [?|(-> & P1 & P2 & Hf & i1 & i2 & I1 & I2 & Hr)]; [by left|right].
  rewrite Hr. split_and!; try done.
  unfold raw_socket_cleanup, sys_close, upd_raw, modify, get, mbind, M_bind, mret, M_ret, wp.
  simpl. rewrite Hr. simpl. rewrite (proj2 (Z.leb_le 0 _)) by done. simpl. rewrite Hr. simpl.
  rewrite (proj2 (Z.leb_le 0 _)) by done. simpl. rewrite Hf.
  split_and!; try done. by apply filter_two.
Qed.

(** *** Concrete runs *)

Definition two_sockets : raw_sockets := mk_raw 2 3 (str "enp0s8") (str "enp0s9") 4 5.
Definition four_bytes : pbuf := mk_pbuf [1; 2; 3; 4] 0 4 4 PBUF_RAM 0 1 0.
Definition raw_world : world :=
  set_raw two_sockets [5; 4] (put_pbuf 1%positive four_bytes empty_world).
Definition on_fd00_23 : ip6_addr := IP6_ADDR (lwip_htonl 0xfd000023) 0 0 (lwip_htonl 7).

Lemma raw_world_pkt : pkt (w_pbufs raw_world) 1%positive [(1%positive, four_bytes)] [1; 2; 3; 4].
Proof.
  apply single_pkt. split_and!; try done. unfold seg_ok. simpl. split_and!; try lia.
  repeat constructor; unfold is_byte; lia.
Qed.

Lemma raw_send_complete_witness :
  exists r es n, @raw_socket_send_ipv6 calm_env 1%positive on_fd00_23 raw_world
                   = Ret (r, logged es n raw_world) /\
    (r = 0 \/ r = -1) /\
    (r = 0 <-> es = [EvBind 5 (str "enp0s9"); EvSend 5 3 (ip6_bytes on_fd00_23) [1; 2; 3; 4]]) /\
    (2048 < 4 -> r = -1 /\ es = []).
Proof.
  exact (@raw_send_complete calm_env raw_world _ _ _ on_fd00_23 raw_world_pkt
           (fun t n => Z.le_refl n)).
Defined.

Lemma second_interface_prefixes_witness :
  use_second_interface (ip6_of_bytes [0xfd; 0; 0; 0x33; 0; 0; 0; 0; 0; 0; 0; 0; 1; 2; 3; 4]) = true.
Proof.
  apply second_interface_prefixes.
  - reflexivity.
  - repeat constructor; unfold is_byte; lia.
  - right. reflexivity.
Defined.

Lemma raw_sockets_balanced_witness :
  exists r w', @raw_socket_init calm_env (str "enp0s8") (str "enp0s9") empty_world = Ret (r, w') /\ r = 0.
Proof.
  destruct (@raw_sockets_balanced calm_env empty_world (str "enp0s8") (str "enp0s9")) as (r & w' & E & Hc).
  - simpl. set_solver.
  - simpl. set_solver.
  - exists r, w'. split; [exact E|].
    assert (Hr : @raw_socket_init calm_env (str "enp0s8") (str "enp0s9") empty_world
                 = Ret (0, w')) by (rewrite E; vm_compute in E; injection E as <- _; reflexivity).
    rewrite E in Hr. by injection Hr.
Defined.
