(* ===== verification/RawSocketOne.v ===== *)
(** * Raw sockets, one interface (src/raw_socket_one_interface.c)

    The variant of [RawSocket] for a node with one interface; it has the same functions
    and only the variables of the first socket.  The theorems: what it sends is what the
    variant with two interfaces sends to a destination on the first one, a destination on
    the second one makes it use uninitialised variables, and its descriptor is not lost. *)

From S2P Require Import Prelude LinkedList Ip6Addr World Pbuf Ip6Hdr RawSocket.

Definition set_name (n : list Z) (r : raw_sockets) : raw_sockets := set_names n (if_name_2_global r) r.

Definition use_second_interface (dest : ip6_addr) : bool :=
  (addr0 dest =? lwip_htonl 0xfd000023) && (addr1 dest =? 0) && (addr2 dest =? 0).

(** Nothing is chosen for a destination on the second interface. *)
Definition socket_for (r : raw_sockets) (dest : ip6_addr) : option (Z * Z * list Z) :=
  if use_second_interface dest then None
  else Some (raw_socket_enp0s8 r, if_index_1 r, if_name_1_global r).

Section raw_socket.
Context `{Env}.

Definition raw_socket_init (if_name_1 : list Z) : M world Z :=
  upd_raw (set_name (copy_ifname if_name_1));;
  fd ← sys_socket;
  upd_raw (set_socket_1 fd);;
  if fd <? 0 then mret (-1) else
  t1 ← next_tick;
  match env_ifindex t1 with
  | None => sys_close fd;; mret (-1)
  | Some i =>
      upd_raw (set_index_1 i);;
      t2 ← next_tick;
      if env_setsockopt t2 <? 0 then sys_close fd;; mret (-1) else mret 0
  end.

Definition raw_socket_send_ipv6 (p : loc) (dest_addr : ip6_addr) : M world Z :=
  nd ← pb_node p;
  let tot_len := pb_tot_len (n_val nd) in
  if RAW_BUF_SIZE <? tot_len then mret (-1) else
  w ← get;
  buf ← lift (pbuf_copy_partial (w_pbufs w) (Some p) tot_len 0);
  if negb (Z.of_nat (length buf) =? tot_len) then mret (-1) else
  chosen ← lift (deref (socket_for (w_raw w) dest_addr));
  let '(fd, if_index, if_name) := chosen in
  t1 ← next_tick;
  if env_setsockopt t1 <? 0 then mret (-1) else
  modify (add_event (EvBind fd if_name));;
  t2 ← next_tick;
  let sent_bytes := env_sendto t2 tot_len in
  if sent_bytes <? 0 then mret (-1) else
  modify (add_event (EvSend fd if_index (ip6_bytes dest_addr) (take (Z.to_nat sent_bytes) buf)));;
  mret (if negb (sent_bytes =? tot_len) then -1 else 0).

Definition raw_socket_cleanup : M world unit :=
  w ← get;
  if 0 <=? raw_socket_enp0s8 (w_raw w)
  then sys_close (raw_socket_enp0s8 (w_raw w));; upd_raw (set_socket_1 (-1)) else mret tt.
End raw_socket.

(** ** Sending *)

Lemma second_interface_more dest : RawSocket.use_second_interface dest = false -> use_second_interface dest = false.
Proof. unfold RawSocket.use_second_interface, use_second_interface. destruct (addr0 dest =? lwip_htonl 0xfd000023), (addr0 dest =? _), (addr1 dest =? 0), (addr2 dest =? 0); done. Qed.

(** A destination on the first interface is served as by the variant with two interfaces. *)
Theorem one_sends_as_two `{Env} w p dest :
  RawSocket.use_second_interface dest = false ->
  raw_socket_send_ipv6 p dest w = RawSocket.raw_socket_send_ipv6 p dest w.
Proof.
  intros H2. unfold raw_socket_send_ipv6, RawSocket.raw_socket_send_ipv6, socket_for, RawSocket.socket_for.
  rewrite H2, (second_interface_more _ H2). unfold pb_node, get, lift, mbind, M_bind.
  destruct (w_pbufs w !! p) as [nd|]; [|done]. cbn [deref]. destruct (_ <? _); [done|].
  destruct (pbuf_copy_partial _ _ _ _) as [buf| |]; [|done|done]. by destruct (negb _).
Qed.

(** A packet for fd00:23::/96 is sent on a socket, an interface and a name that were never set. *)
Theorem one_second_interface `{Env} w p ls bs dest :
  pkt (w_pbufs w) p ls bs -> Z.of_nat (length bs) <= RAW_BUF_SIZE -> use_second_interface dest = true ->
  raw_socket_send_ipv6 p dest w = Stuck.
Proof.
  intros Hp Hl H2. destruct (pkt_tot _ _ _ _ Hp) as (nd & Hnd & Ht & Hb). unfold raw_socket_send_ipv6, socket_for.
  rewrite (bind_exec (pb_node p) _ w nd w) by (unfold pb_node, get, mbind, M_bind; by rewrite Hnd).
  rewrite Ht, (proj2 (Z.ltb_ge _ _)) by lia. rewrite (bind_exec get _ w w w) by done.
  rewrite (bind_exec (lift _) _ w bs w) by (unfold lift; by rewrite (pbuf_copy_out _ _ _ _ Hp)).
  by rewrite Z.eqb_refl, H2.
Qed.

(** ** The descriptor *)

(** Opening fails with the descriptor closed again, or succeeds, and then cleaning up closes it. *)
Theorem one_socket_balanced `{Env} w n1 :
  env_socket (w_tick w) ∉ w_fds w ->
  exists r w', raw_socket_init n1 w = Ret (r, w') /\
    ((r = -1 /\ w_fds w' = w_fds w) \/
     (r = 0 /\ w_fds w' = env_socket (w_tick w) :: w_fds w /\ if_name_1_global (w_raw w') = copy_ifname n1 /\
      env_ifindex (S (w_tick w)) = Some (if_index_1 (w_raw w')) /\
      wp raw_socket_cleanup w' (fun _ w'' => w_fds w'' = w_fds w /\ raw_socket_enp0s8 (w_raw w'') = -1))).
Proof.
  intros Hfresh. pose proof (filter_fresh _ _ Hfresh) as Hf.
  unfold raw_socket_init, sys_socket, sys_close, upd_raw, modify, next_tick, mbind, M_bind, mret, M_ret in *. simpl.
  destruct (env_socket (w_tick w) <? 0) eqn:L; simpl; repeat (rewrite L; simpl); [eexists _, _; split; [reflexivity|by left]|].
  destruct (env_ifindex (S (w_tick w))) as [i|] eqn:E; simpl; [|eexists _, _; split; [reflexivity|by left]].
  destruct (env_setsockopt _ <? 0); simpl; [eexists _, _; split; [reflexivity|by left]|].
  eexists _, _. split; [reflexivity|]. right. split_and!; try done.
  unfold raw_socket_cleanup, sys_close, upd_raw, modify, get, mbind, M_bind, mret, M_ret, wp. simpl.
  apply Z.ltb_ge in L. by rewrite (proj2 (Z.leb_le 0 _)) by done.
Qed.

(** After a failed opening the handle still has the number of the closed descriptor: cleaning up
    then closes whatever has got that number since. *)
Theorem one_cleanup_closes_other `{Env} w n1 w' w2 :
  0 <= env_socket (w_tick w) -> raw_socket_init n1 w = Ret (-1, w') -> w_raw w2 = w_raw w' ->
  wp raw_socket_cleanup w2 (fun _ w3 => env_socket (w_tick w) ∉ w_fds w3).
Proof.
  intros Hfd Hi Hr. assert (Hh : raw_socket_enp0s8 (w_raw w2) = env_socket (w_tick w)).
  { rewrite Hr. revert Hi. unfold raw_socket_init, sys_socket, sys_close, upd_raw, modify, next_tick, mbind, M_bind, mret, M_ret. simpl.
    rewrite (proj2 (Z.ltb_ge _ _)) by done. simpl. rewrite (proj2 (Z.ltb_ge _ _)) by done.
    destruct (env_ifindex _) as [i|]; simpl; [destruct (env_setsockopt _ <? 0); simpl|]; intros [= <-]; done. }
  unfold raw_socket_cleanup, sys_close, upd_raw, modify, get, mbind, M_bind, mret, M_ret, wp.
  rewrite Hh, (proj2 (Z.leb_le 0 _)) by done. simpl. rewrite list_elem_of_filter. by intros [? _].
Qed.

(** *** Concrete runs *)

(** fd00:1::1 and fd00:23::1. *)
Definition on_first : ip6_addr := mk_ip6 (lwip_htonl 0xfd000001) 0 0 (lwip_htonl 1) 0.
Definition on_second : ip6_addr := mk_ip6 (lwip_htonl 0xfd000023) 0 0 (lwip_htonl 1) 0.

Lemma one_sends_as_two_witness :
  @raw_socket_send_ipv6 calm_env 1%positive on_first raw_world = Ret (0, logged (transmission two_sockets on_first [1; 2; 3; 4]) 2 raw_world).
Proof. rewrite (@one_sends_as_two calm_env); [|reflexivity]. rewrite (@raw_send_exec calm_env _ _ _ _ _ raw_world_pkt). reflexivity. Defined.
Lemma one_second_interface_witness : @raw_socket_send_ipv6 calm_env 1%positive on_second raw_world = Stuck.
Proof. apply (@one_second_interface calm_env _ _ _ _ _ raw_world_pkt); [discriminate|reflexivity]. Defined.
