(* ===== verification/Ip6Out.v ===== *)
(** * IPv6 routing and output (lwip/src/core/ipv6/ip6.c, first and last part)

    Choosing the interface and the source address for a destination, and
    putting the IPv6 header in front of a packet.  The interface's output
    function ([netif->output_ip6]) is a parameter, as it is a function pointer
    in the code; so are the neighbour discovery lookups and [ip6_frag].
    The theorem: the selected source is the best valid address of the interface
    by the rules of RFC 6724 as far as the code follows them.  What is handed to the interface is shown in
    [Ip6Spec]. *)

From S2P Require Import Prelude LinkedList Ip6Addr World Netif Pbuf Ip6Hdr Custody Buffer InetChksum RawSocket.

(** ** What lies below *)

Class LowerLayers := {
  output_ip6 : netif -> loc -> ip6_addr -> M world err_t;           (* netif->output_ip6 *)
  ip6_frag : loc -> netif -> ip6_addr -> M world err_t;             (* ip6_frag.c *)
  nd6_find_route : ip6_addr -> M world (option netif);              (* nd6.c *)
  nd6_get_destination_mtu : ip6_addr -> netif -> M world Z;
  nd6_input : loc -> netif -> M world unit;
  mld6_input : loc -> netif -> M world unit;                        (* mld6.c *)
  mld6_lookfor_group : netif -> ip6_addr -> M world bool
}.

(** [netif_list] and [netif_default] of the running stack. *)
Record stack_netifs := mk_stack_netifs { sn_list : list netif; sn_default : option netif }.

(** [NETIF_FOREACH(netif) if (test) return netif;] *)
Fixpoint find_netif (l : list netif) (test : netif -> outcome bool) : outcome (option netif) :=
  match l with
  | [] => Ret None
  | n :: l => b ← test n; if (b : bool) then Ret (Some n) else find_netif l test
  end.

(** Some slot of the interface passes the test. *)
Definition some_slot (test : nat -> outcome bool) : outcome bool :=
  r ← first_slot LWIP_IPV6_NUM_ADDRESSES 0 test; Ret (bool_decide (is_Some r)).

Definition netif_usable (n : netif) : bool := netif_is_up n && netif_is_link_up n.

(** A valid address of [n] in slot [i] that passes [test]. *)
Definition valid_slot (n : netif) (test : ip6_addr -> bool) (i : nat) : outcome bool :=
  st ← netif_ip6_addr_state n i;
  if ip6_addr_isvalid st then a ← netif_ip6_addr n i; Ret (test a) else Ret false.
Definition has_valid (n : netif) (test : ip6_addr -> bool) : outcome bool := some_slot (valid_slot n test).

(** The subnet rule: a static address on the same /64, or the address itself. *)
Definition subnet_slot (n : netif) (dest : ip6_addr) (i : nat) : outcome bool :=
  st ← netif_ip6_addr_state n i;
  if ip6_addr_isvalid st then
    a ← netif_ip6_addr n i;
    if ip6_addr_net_eq dest a then
      s ← netif_ip6_addr_isstatic n i; Ret (s || ip6_addr_nethost_eq dest a)
    else Ret false
  else Ret false.

Section output.
Context `{LowerLayers} (sn : stack_netifs).

Definition default_netif : option netif :=
  match sn_default sn with
  | Some n => if netif_usable n then Some n else None
  | None => None
  end.

Definition usable_and (test : netif -> outcome bool) (n : netif) : outcome bool :=
  if netif_usable n then test n else Ret false.

(** With several interfaces, or none.  [LWIP_HOOK_IP6_ROUTE] is not defined. *)
Definition route_among (l : list netif) (src dest : ip6_addr) : M world (option netif) :=
  if ip6_addr_has_zone dest then
    lift (find_netif l (fun n => Ret (ip6_addr_test_zone dest n && netif_usable n)))
  else if ip6_addr_has_scope dest IP6_UNKNOWN || ip6_addr_has_scope src IP6_UNICAST ||
          ip6_addr_isloopback src then
    if ip6_addr_has_zone src then
      lift (find_netif l (fun n => Ret (netif_usable n && ip6_addr_test_zone src n)))
    else
      lift (find_netif l (usable_and (fun n => has_valid n (ip6_addr_zoneless_eq src))))
  else
    m ← lift (find_netif l (usable_and (fun n => some_slot (subnet_slot n dest))));
    match m with
    | Some n => mret (Some n)
    | None =>
        r ← nd6_find_route dest;
        match r with
        | Some n => mret (Some n)
        | None =>
            m ← (if ip6_addr_isany src then mret None
                 else lift (find_netif l (usable_and (fun n => has_valid n (ip6_addr_cmp src)))));
            mret (match m with Some n => Some n | None => default_netif end)
        end
    end.

Definition ip6_route (src dest : ip6_addr) : M world (option netif) :=
  match sn_list sn with
  | [n] =>
      mret (if negb (netif_is_up n) || negb (netif_is_link_up n) ||
               (ip6_addr_has_zone dest && negb (ip6_addr_test_zone dest n)) then None else Some n)
  | l => route_among l src dest
  end.

(** ** ip6_select_source_address *)

Definition IP6_MULTICAST_SCOPE_RESERVED : Z := 0x0.
Definition IP6_MULTICAST_SCOPE_LINK_LOCAL : Z := 0x2.
Definition IP6_MULTICAST_SCOPE_SITE_LOCAL : Z := 0x5.
Definition IP6_MULTICAST_SCOPE_ORGANIZATION_LOCAL : Z := 0x8.
Definition IP6_MULTICAST_SCOPE_GLOBAL : Z := 0xe.
Definition IP6_MULTICAST_SCOPE_RESERVEDF : Z := 0xf.

Definition scope_of_dest (dest : ip6_addr) : Z :=
  if ip6_addr_isglobal dest then IP6_MULTICAST_SCOPE_GLOBAL
  else if ip6_addr_islinklocal dest || ip6_addr_isloopback dest then IP6_MULTICAST_SCOPE_LINK_LOCAL
  else if ip6_addr_isuniquelocal dest then IP6_MULTICAST_SCOPE_ORGANIZATION_LOCAL
  else if ip6_addr_ismulticast dest then ip6_addr_multicast_scope dest
  else if ip6_addr_issitelocal dest then IP6_MULTICAST_SCOPE_SITE_LOCAL
  else IP6_MULTICAST_SCOPE_GLOBAL.
Definition scope_of_cand (a : ip6_addr) : Z :=
  if ip6_addr_isglobal a then IP6_MULTICAST_SCOPE_GLOBAL
  else if ip6_addr_islinklocal a then IP6_MULTICAST_SCOPE_LINK_LOCAL
  else if ip6_addr_isuniquelocal a then IP6_MULTICAST_SCOPE_ORGANIZATION_LOCAL
  else if ip6_addr_issitelocal a then IP6_MULTICAST_SCOPE_SITE_LOCAL
  else IP6_MULTICAST_SCOPE_RESERVEDF.

(** A candidate: its slot, scope, and the two flags as 0 or 1. *)
Record candidate := mk_cand { cd_slot : nat; cd_scope : Z; cd_pref : bool; cd_bits : bool }.

(** The condition under which [c] replaces the best candidate so far. *)
Definition wins (dest_scope : Z) (best : option candidate) (c : candidate) : bool :=
  match best with
  | None => true
  | Some b =>
      ((cd_scope c <? cd_scope b) && (dest_scope <=? cd_scope c)) ||
      ((cd_scope b <? cd_scope c) && (cd_scope b <? dest_scope)) ||
      ((cd_scope c =? cd_scope b) &&
       ((cd_pref c && negb (cd_pref b)) ||
        (Bool.eqb (cd_pref c) (cd_pref b) && (cd_bits c && negb (cd_bits b)))))
  end.

(** The [for] loop over the slots from [i] on: the slot returned. *)
Fixpoint select_from (n : netif) (dest : ip6_addr) (k i : nat) (best : option candidate) : outcome (option nat) :=
  match k with
  | O => Ret (cd_slot <$> best)
  | S k =>
      st ← netif_ip6_addr_state n i;
      if negb (ip6_addr_isvalid st) then select_from n dest k (S i) best
      else
        a ← netif_ip6_addr n i;
        let c := mk_cand i (scope_of_cand a) (ip6_addr_ispreferred st) (ip6_addr_net_zoneless_eq a dest) in
        if cd_bits c && ip6_addr_nethost_eq a dest then Ret (Some i)
        else select_from n dest k (S i) (if wins (scope_of_dest dest) best c then Some c else best)
  end.
Definition ip6_select_source_address (n : netif) (dest : ip6_addr) : outcome (option ip6_addr) :=
  r ← select_from n dest LWIP_IPV6_NUM_ADDRESSES 0 None;
  match r with
  | None => Ret None
  | Some i => a ← netif_ip6_addr n i; Ret (Some a)
  end.

(** ** ip6_output_if, ip6_output *)

(** [LWIP_IP_CHECK_PBUF_REF_COUNT_FOR_TX]. *)
Definition check_ref_for_tx (p : loc) : M world unit :=
  nd ← pb_node p; c_assert (pb_ref (n_val nd) =? 1).

(** The fields of the generated header. *)
Definition fill_ip6_header (p : loc) (src dest : ip6_addr) (hl tc nexth : Z) : M world unit :=
  IP6H_HOPLIM_SET p hl;;
  IP6H_NEXTH_SET p nexth;;
  pwrite p OFF_DEST (ip6_bytes dest);;
  IP6H_VTCFL_SET p 6 tc 0;;
  nd ← pb_node p;
  IP6H_PLEN_SET p (u16 (pb_tot_len (n_val nd) - IP6_HLEN));;
  pwrite p OFF_SRC (ip6_bytes src).

(** After the header: [ip6_frag] or the interface. *)
Definition ip6_transmit (p : loc) (dest : ip6_addr) (n : netif) : M world err_t :=
  nd ← pb_node p;
  too_big ← (if nif_mtu6 n =? 0 then mret false
             else mtu ← nd6_get_destination_mtu dest n; mret (mtu <? pb_tot_len (n_val nd)));
  if (too_big : bool) then ip6_frag p n dest else output_ip6 n p dest.

(** A null [dest] is [LWIP_IP_HDRINCL]. *)
Definition ip6_output_if_src (p : loc) (src dest : option ip6_addr) (hl tc nexth : Z) (n : netif) : M world err_t :=
  check_ref_for_tx p;;
  match dest with
  | Some dest =>
      let dest := if ip6_addr_lacks_zone dest IP6_UNKNOWN then ip6_addr_assign_zone dest IP6_UNKNOWN n else dest in
      r ← pbuf_add_header_m p IP6_HLEN;
      if negb (r =? 0) then mret ERR_BUF
      else
        nd ← pb_node p;
        c_assert (IP6_HLEN <=? pb_len (n_val nd));;
        fill_ip6_header p (default ip6_addr_any src) dest hl tc nexth;;
        ip6_transmit p dest n
  | None =>
      bs ← pread p OFF_DEST 16;
      ip6_transmit p (ip6_addr_assign_zone (ip6_of_bytes bs) IP6_UNKNOWN n) n
  end.

Definition ip6_output_if (p : loc) (src dest : option ip6_addr) (hl tc nexth : Z) (n : netif) : M world err_t :=
  match dest, src with
  | Some d, Some s =>
      if ip6_addr_isany s then
        sel ← lift (ip6_select_source_address n d);
        match sel with
        | None => mret ERR_RTE
        | Some s' => if ip6_addr_isany s' then mret ERR_RTE else ip6_output_if_src p (Some s') dest hl tc nexth n
        end
      else ip6_output_if_src p src dest hl tc nexth n
  | _, _ => ip6_output_if_src p src dest hl tc nexth n
  end.

Definition ip6_output (p : loc) (src dest : option ip6_addr) (hl tc nexth : Z) : M world err_t :=
  check_ref_for_tx p;;
  addrs ← match dest with
          | Some d => s ← lift (deref src); mret (s, d, dest)
          | None =>
              s ← pread p OFF_SRC 16; d ← pread p OFF_DEST 16;
              mret (ip6_of_bytes s, ip6_of_bytes d, Some (ip6_of_bytes d))
          end;
  let '(s, d, dest) := addrs in
  n ← ip6_route s d;
  match n with
  | None => mret ERR_RTE
  | Some n => ip6_output_if p src dest hl tc nexth n
  end.
End output.

(** ** Source address selection *)

(** The order of the candidates as one number: scopes at least as large as the
    destination's first, the smallest of them best, then the largest of the smaller
    ones; then preferred addresses; then addresses on the destination's /64. *)
Definition rank (dest_scope : Z) (c : candidate) : Z :=
  4 * (if dest_scope <=? cd_scope c then 16 - cd_scope c else cd_scope c - 16) +
  2 * Z.b2z (cd_pref c) + Z.b2z (cd_bits c).

Lemma wins_rank d b c :
  0 <= cd_scope b <= 15 -> 0 <= cd_scope c <= 15 ->
  wins d (Some b) c = true <-> rank d b < rank d c.
Proof.
  intros Hb Hc. unfold wins, rank. destruct b as [ib sb pb bb], c as [ic sc pc bc]. cbn [cd_scope cd_pref cd_bits] in *.
  rewrite !orb_true_iff, !andb_true_iff, !orb_true_iff, !andb_true_iff, !Z.ltb_lt, !Z.leb_le, Z.eqb_eq.
  destruct (Z.leb_spec d sb), (Z.leb_spec d sc), (Z.lt_trichotomy sc sb) as [?|[?|?]], pb, bb, pc, bc;
    cbn [Bool.eqb negb Z.b2z];
    (split; [intros [[[? ?]|[? ?]]|[? [[? ?]|[? [? ?]]]]]; try discriminate; lia|intros ?]);
    solve [left; left; lia|left; right; lia|right; split; [lia|auto]|exfalso; lia].
Qed.

Lemma scope_of_cand_range a : 0 <= scope_of_cand a <= 15.
Proof. unfold scope_of_cand. repeat case_match; by vm_compute. Qed.

Section selection.
Context (n : netif) (dest : ip6_addr).
Hypothesis Hwf : netif_wf n.

Definition valid_at (i : nat) : bool := ip6_addr_isvalid (state_at n i).
Definition is_dest (i : nat) : bool := ip6_addr_zoneless_eq (addr_at n i) dest.
Definition cand_at (i : nat) : candidate :=
  mk_cand i (scope_of_cand (addr_at n i)) (ip6_addr_ispreferred (state_at n i))
    (ip6_addr_net_zoneless_eq (addr_at n i) dest).
Definition rank_at (i : nat) : Z := rank (scope_of_dest dest) (cand_at i).

(** [best] is the best of the slots below [i], none of which is the destination. *)
Definition best_below (i : nat) (best : option candidate) : Prop :=
  (forall j, (j < i)%nat -> valid_at j = true -> is_dest j = false) /\
  match best with
  | None => forall j, (j < i)%nat -> valid_at j = false
  | Some c => exists k, (k < i)%nat /\ valid_at k = true /\ c = cand_at k /\
                forall j, (j < i)%nat -> valid_at j = true -> rank_at j <= rank_at k /\ ((j < k)%nat -> rank_at j < rank_at k)
  end.

Definition selected (r : option nat) : Prop :=
  match r with
  | None => forall j, (j < 5)%nat -> valid_at j = false
  | Some i => (i < 5)%nat /\ valid_at i = true /\
      (is_dest i = true \/
       ((forall j, (j < 5)%nat -> valid_at j = true -> is_dest j = false) /\
        forall j, (j < 5)%nat -> valid_at j = true -> rank_at j <= rank_at i /\ ((j < i)%nat -> rank_at j < rank_at i)))
  end.

Lemma is_dest_eq i : is_dest i = cd_bits (cand_at i) && ip6_addr_nethost_eq (addr_at n i) dest.
Proof.
  unfold is_dest, ip6_addr_zoneless_eq. cbn. unfold ip6_addr_net_zoneless_eq, ip6_addr_nethost_eq.
  by rewrite <-!andb_assoc.
Qed.

Lemma best_step i best :
  best_below i best -> valid_at i = true -> is_dest i = false ->
  best_below (S i) (if wins (scope_of_dest dest) best (cand_at i) then Some (cand_at i) else best).
Proof.
  intros [Hd Hb] Hv Hi. split.
  { intros j Hj. destruct (decide (j = i)) as [->|]; [done|]. apply Hd. lia. }
  destruct best as [c|].
  - destruct Hb as (k & Hk & Hkv & -> & Hmax).
    pose proof (wins_rank (scope_of_dest dest) (cand_at k) (cand_at i)
                  (scope_of_cand_range _) (scope_of_cand_range _)) as Hw.
    destruct (wins _ _ _).
    + apply proj1 in Hw. specialize (Hw eq_refl). exists i. split_and!; [lia|done|done|]. intros j Hj Hjv.
      destruct (decide (j = i)) as [->|]; [lia|]. destruct (Hmax j ltac:(lia) Hjv). unfold rank_at in *. lia.
    + exists k. split_and!; [lia|done|done|]. intros j Hj Hjv. destruct (decide (j = i)) as [->|]; [|apply Hmax; [lia|done]].
      split; [|lia]. apply Z.nlt_ge. intros Hlt. apply Hw in Hlt. done.
  - exists i. split_and!; [lia|done|done|]. intros j Hj Hjv. destruct (decide (j = i)) as [->|]; [lia|].
    rewrite Hb in Hjv by lia. done.
Qed.

Lemma select_from_spec k i best :
  (i + k = 5)%nat -> best_below i best ->
  exists r, select_from n dest k i best = Ret r /\ selected r.
Proof.
  revert i best. induction k as [|k IH]; intros i best Hik Hb; simpl.
  - eexists. split; [done|]. replace i with 5%nat in Hb by lia. destruct Hb as [Hd Hb].
    destruct best as [c|]; simpl; [|done]. destruct Hb as (j & Hj & Hv & -> & Hmax). split_and!; [done|done|]. by right.
  - unfold netif_ip6_addr_state, netif_ip6_addr. rewrite (state_lookup n Hwf i) by lia. simpl.
    destruct (ip6_addr_isvalid (state_at n i)) eqn:Hv; simpl.
    + rewrite (addr_lookup n Hwf i) by lia. simpl. pose proof (is_dest_eq i) as Hd. simpl in Hd.
      destruct (ip6_addr_net_zoneless_eq (addr_at n i) dest && ip6_addr_nethost_eq (addr_at n i) dest) eqn:E.
      * eexists. split; [done|]. split_and!; [lia|done|by left].
      * apply IH; [lia|]. by apply best_step.
    + apply IH; [lia|]. destruct Hb as [Hd Hb]. split.
      * intros j Hj Hjv. destruct (decide (j = i)) as [->|]; [unfold valid_at in Hjv; congruence|]. apply Hd; [lia|done].
      * destruct best as [c|].
        -- destruct Hb as (j & Hj & Hjv & -> & Hmax). exists j. split_and!; [lia|done|done|]. intros j' Hj' Hv'.
           destruct (decide (j' = i)) as [->|]; [unfold valid_at in Hv'; congruence|]. apply Hmax; [lia|done].
        -- intros j Hj. destruct (decide (j = i)) as [->|]; [done|]. apply Hb. lia.
Qed.

Lemma select_source_spec :
  exists r, ip6_select_source_address n dest = Ret (addr_at n <$> r) /\ selected r.
Proof.
  destruct (select_from_spec 5 0 None ltac:(lia)) as (r & E & Hr).
  { split; intros j Hj; lia. }
  exists r. split; [|done]. unfold ip6_select_source_address. change LWIP_IPV6_NUM_ADDRESSES with 5%nat. rewrite E.
  destruct r as [i|]; [|done]. simpl. destruct Hr as [Hi _]. unfold netif_ip6_addr. by rewrite (addr_lookup n Hwf i).
Qed.
End selection.

(** *** The rules

    What the comment above [ip6_select_source_address] promises: the rules of RFC 6724,
    section 5, with its two deviations (a unique local address has a smaller scope than a
    global one; rule 8 only compares the first 64 bits) and without rule 6.  The rules are
    stated on the bytes of the addresses. *)

Inductive addr_kind :=
  | Global | LinkLocal | UniqueLocal | SiteLocal | Multicast (scope : Z) | Loopback | OtherKind.
Definition kind_of_bytes (l : list Z) : addr_kind :=
  if bool_decide (l = replicate 15 0 ++ [1]) then Loopback
  else match l with
  | b0 :: b1 :: _ =>
      if (32 <=? b0) && (b0 <=? 63) then Global                                   (* 2000::/3 *)
      else if (b0 =? 254) && (128 <=? b1) && (b1 <=? 191) then LinkLocal          (* fe80::/10 *)
      else if (b0 =? 254) && (192 <=? b1) then SiteLocal                          (* fec0::/10 *)
      else if (b0 =? 252) || (b0 =? 253) then UniqueLocal                         (* fc00::/7 *)
      else if b0 =? 255 then Multicast (b1 mod 16)                                (* ff00::/8 *)
      else OtherKind
  | _ => OtherKind
  end.
Definition kind_of (a : ip6_addr) : addr_kind := kind_of_bytes (ip6_bytes a).

(** Scopes are numbered as in multicast addresses. *)
Definition destination_scope (k : addr_kind) : Z :=
  match k with
  | LinkLocal | Loopback => 2
  | SiteLocal => 5
  | UniqueLocal => 8
  | Multicast s => s
  | Global | OtherKind => 14
  end.
Definition source_scope (k : addr_kind) : Z :=
  match k with
  | LinkLocal => 2
  | SiteLocal => 5
  | UniqueLocal => 8
  | Global => 14
  | Multicast _ | Loopback | OtherKind => 15
  end.

Record source := mk_source {
  so_scope : Z;
  so_preferred : bool;      (* not deprecated *)
  so_near : bool            (* on the destination's /64 *)
}.
Definition source_at (n : netif) (dest : ip6_addr) (i : nat) : source :=
  mk_source (source_scope (kind_of (addr_at n i))) (bool_decide (state_at n i = 48))
    (bool_decide (take 8 (ip6_bytes (addr_at n i)) = take 8 (ip6_bytes dest))).

(** [a] is preferred to [b] for a destination of scope [d]. *)
Inductive better (d : Z) (a b : source) : Prop :=
  | rule_2_smaller : so_scope a < so_scope b -> d <= so_scope a -> better d a b
  | rule_2_larger : so_scope b < so_scope a -> so_scope b < d -> better d a b
  | rule_3 : so_scope a = so_scope b -> so_preferred a = true -> so_preferred b = false -> better d a b
  | rule_8 : so_scope a = so_scope b -> so_preferred a = so_preferred b -> so_near a = true -> so_near b = false -> better d a b.

(** *** The scopes the code computes *)

Lemma land_low w m : 0 <= m < 65536 -> Z.land w m = Z.land (w mod 65536) m.
Proof.
  intros Hm. change 65536 with (2 ^ 16) in *. rewrite <-Z.land_ones, <-Z.land_assoc by lia. f_equal.
  rewrite Z.land_comm, Z.land_ones, Z.mod_small by lia. done.
Qed.

(** Each test of the code looks at the first two bytes only. *)
Definition code_kind (w : Z) : addr_kind :=
  if Z.land w (PP_HTONL 0xe0000000) =? PP_HTONL 0x20000000 then Global
  else if Z.land w (PP_HTONL 0xffc00000) =? PP_HTONL 0xfe800000 then LinkLocal
  else if Z.land w (PP_HTONL 0xfe000000) =? PP_HTONL 0xfc000000 then UniqueLocal
  else if Z.land w (PP_HTONL 0xff000000) =? PP_HTONL 0xff000000 then Multicast (w / 256 mod 16)
  else if Z.land w (PP_HTONL 0xffc00000) =? PP_HTONL 0xfec00000 then SiteLocal
  else OtherKind.
#[export] Instance addr_kind_eq_dec : EqDecision addr_kind.
Proof. solve_decision. Defined.

Definition each_byte : list Z := Z.of_nat <$> seq 0 256.
Lemma each_byte_elem b : 0 <= b < 256 -> b ∈ each_byte.
Proof. intros Hb. apply list_elem_of_fmap. exists (Z.to_nat b). split; [lia|]. apply elem_of_seq. lia. Qed.
Lemma code_kind_table :
  forallb (fun b0 => forallb (fun b1 => bool_decide (code_kind (b0 + 256 * b1) = kind_of_bytes [b0; b1])) each_byte) each_byte = true.
Proof. vm_compute. reflexivity. Qed.

Lemma code_kind_two w : code_kind w = kind_of_bytes [w mod 256; w / 256 mod 256].
Proof.
  set (m := w mod 65536). assert (Hm : code_kind w = code_kind m).
  { unfold code_kind. rewrite !(land_low w) by (by vm_compute). fold m. repeat case_match; try done. f_equal. subst m. zlia. }
  assert (Em : m = w mod 256 + 256 * (w / 256 mod 256)) by (subst m; change 65536 with (256 * 256); by apply Z.rem_mul_r).
  pose proof code_kind_table as Ht. rewrite forallb_forall in Ht. specialize (Ht (w mod 256)).
  rewrite forallb_forall in Ht. specialize (Ht (proj1 (list_elem_of_In _ _) (each_byte_elem _ (Z.mod_pos_bound w 256 ltac:(lia)))) (w / 256 mod 256)).
  specialize (Ht (proj1 (list_elem_of_In _ _) (each_byte_elem _ (Z.mod_pos_bound (w / 256) 256 ltac:(lia))))).
  apply bool_decide_eq_true in Ht. by rewrite Hm, Em.
Qed.

Lemma ip6_bytes_eq a b : ip6_wf a -> ip6_wf b -> ip6_bytes a = ip6_bytes b <-> ip6_addr_zoneless_eq a b = true.
Proof.
  intros Ha Hb. split.
  - intros E. pose proof (ip6_of_ip6_bytes a Ha) as Ea. rewrite E, ip6_of_ip6_bytes in Ea by done. injection Ea as ? ? ? ?.
    unfold ip6_addr_zoneless_eq. by rewrite !andb_true_iff, !Z.eqb_eq.
  - unfold ip6_addr_zoneless_eq. rewrite !andb_true_iff, !Z.eqb_eq. intros [[[E0 E1] E2] E3]. unfold ip6_bytes. by rewrite E0, E1, E2, E3.
Qed.
Lemma le_bytes_inj x y : word32 x -> word32 y -> le_bytes 4 x = le_bytes 4 y -> x = y.
Proof. intros Hx Hy E. by rewrite <-(le_val_bytes 4 x), <-(le_val_bytes 4 y), E. Qed.
Lemma ip6_bytes_net a b :
  ip6_wf a -> ip6_wf b -> bool_decide (take 8 (ip6_bytes a) = take 8 (ip6_bytes b)) = ip6_addr_net_zoneless_eq a b.
Proof.
  intros (A0 & A1 & _ & _) (B0 & B1 & _ & _). change (take 8 (ip6_bytes ?c)) with (le_bytes 4 (addr0 c) ++ le_bytes 4 (addr1 c)).
  apply eq_true_iff_eq. unfold ip6_addr_net_zoneless_eq. rewrite bool_decide_eq_true, andb_true_iff, !Z.eqb_eq. split.
  - intros [E0 E1]%app_inj_1; [|done]. split; by apply le_bytes_inj.
  - by intros [-> ->].
Qed.
Lemma kind_of_code a : ip6_wf a -> kind_of a = if ip6_addr_isloopback a then Loopback else code_kind (addr0 a).
Proof.
  intros Ha. unfold kind_of, kind_of_bytes. change (replicate 15 0 ++ [1]) with (ip6_bytes (IP6_ADDR 0 0 0 (PP_HTONL 1))).
  change (ip6_addr_isloopback a) with (ip6_addr_zoneless_eq a (IP6_ADDR 0 0 0 (PP_HTONL 1))).
  pose proof (ip6_bytes_eq a (IP6_ADDR 0 0 0 (PP_HTONL 1)) Ha ltac:(by split_and!)) as He.
  case_bool_decide as Hb; [by rewrite (proj1 He Hb)|]. destruct (ip6_addr_zoneless_eq _ _); [by destruct Hb; apply He|].
  rewrite code_kind_two. unfold kind_of_bytes. by rewrite bool_decide_false by done.
Qed.
Lemma multicast_scope_byte a : word32 (addr0 a) -> ip6_addr_multicast_scope a = addr0 a / 256 mod 16.
Proof.
  intros Ha. unfold ip6_addr_multicast_scope, word32 in *. rewrite lwip_htonl_eq, Z.shiftr_div_pow2 by lia.
  change 0xf with (Z.ones 4). rewrite Z.land_ones by lia. change (2 ^ 16) with 65536. change (2 ^ 4) with 16. zlia.
Qed.
Lemma scope_of_dest_kind a : ip6_wf a -> scope_of_dest a = destination_scope (kind_of a).
Proof.
  intros Ha. rewrite kind_of_code by done. pose proof (multicast_scope_byte a (proj1 Ha)) as Hm. unfold scope_of_dest.
  destruct (ip6_addr_isloopback a) eqn:El.
  { unfold ip6_addr_isloopback in El. rewrite !andb_true_iff, !Z.eqb_eq in El. destruct El as [[[E0 _] _] _].
    unfold ip6_addr_isglobal, ip6_addr_islinklocal. rewrite E0. done. }
  rewrite orb_false_r. unfold code_kind, ip6_addr_isglobal, ip6_addr_islinklocal, ip6_addr_isuniquelocal, ip6_addr_ismulticast, ip6_addr_issitelocal.
  repeat case_match; done.
Qed.
Lemma scope_of_cand_kind a : ip6_wf a -> scope_of_cand a = source_scope (kind_of a).
Proof.
  intros Ha. rewrite kind_of_code by done. unfold scope_of_cand. destruct (ip6_addr_isloopback a) eqn:El.
  { unfold ip6_addr_isloopback in El. rewrite !andb_true_iff, !Z.eqb_eq in El. destruct El as [[[E0 _] _] _].
    unfold ip6_addr_isglobal, ip6_addr_islinklocal, ip6_addr_isuniquelocal, ip6_addr_issitelocal. rewrite E0. done. }
  unfold code_kind, ip6_addr_isglobal, ip6_addr_islinklocal, ip6_addr_isuniquelocal, ip6_addr_issitelocal.
  destruct (Z.land (addr0 a) _ =? _); [done|]. destruct (Z.land (addr0 a) _ =? _); [done|]. destruct (Z.land (addr0 a) _ =? _); [done|].
  destruct (Z.eqb_spec (Z.land (addr0 a) (PP_HTONL 0xff000000)) (PP_HTONL 0xff000000)) as [E|_]; [|by destruct (_ =? _)].
  destruct (Z.eqb_spec (Z.land (addr0 a) (PP_HTONL 0xffc00000)) (PP_HTONL 0xfec00000)) as [E'|_]; [exfalso|done].
  apply (f_equal (fun z => Z.land z (PP_HTONL 0xff000000))) in E'. rewrite <-Z.land_assoc in E'.
  change (Z.land (PP_HTONL 0xffc00000) (PP_HTONL 0xff000000)) with (PP_HTONL 0xff000000) in E'. by rewrite E in E'.
Qed.

(** *** The selection follows the rules *)

Lemma wins_better d a b :
  wins d (Some b) a = true <-> better d (mk_source (cd_scope a) (cd_pref a) (cd_bits a)) (mk_source (cd_scope b) (cd_pref b) (cd_bits b)).
Proof.
  unfold wins. destruct a as [ia sa pa ba], b as [ib sb pb bb]. cbn [cd_scope cd_pref cd_bits].
  rewrite !orb_true_iff, !andb_true_iff, !orb_true_iff, !andb_true_iff, !negb_true_iff, !Z.ltb_lt, !Z.leb_le, Z.eqb_eq, Bool.eqb_true_iff. split.
  - intros [[[? ?]|[? ?]]|[? [[? ?]|[? [? ?]]]]];
      [by apply rule_2_smaller|by apply rule_2_larger|by apply rule_3|by apply rule_8].
  - intros [? ?|? ?|? ? ?|? ? ? ?]; cbn in *; auto 6.
Qed.

Section rules.
Context (n : netif) (dest : ip6_addr) (Hwf : netif_wf n) (Hall : Forall ip6_wf (ip6_addrs n)) (Hdest : ip6_wf dest).

Lemma addr_at_wf i : (i < 5)%nat -> ip6_wf (addr_at n i).
Proof. intros Hi. eapply Forall_lookup_1; [exact Hall|]. by apply addr_lookup. Qed.
Lemma source_at_cand i : (i < 5)%nat ->
  source_at n dest i = mk_source (cd_scope (cand_at n dest i)) (cd_pref (cand_at n dest i)) (cd_bits (cand_at n dest i)).
Proof.
  intros Hi%addr_at_wf. unfold source_at, cand_at. cbn [cd_scope cd_pref cd_bits].
  rewrite scope_of_cand_kind, ip6_bytes_net by done. f_equal. unfold ip6_addr_ispreferred, IP6_ADDR_PREFERRED.
  apply eq_true_iff_eq. by rewrite bool_decide_eq_true, Z.eqb_eq.
Qed.
Lemma better_rank i j : (i < 5)%nat -> (j < 5)%nat ->
  better (destination_scope (kind_of dest)) (source_at n dest i) (source_at n dest j) <-> rank_at n dest j < rank_at n dest i.
Proof.
  intros Hi Hj. rewrite !source_at_cand, <-wins_better, <-scope_of_dest_kind by done. apply wins_rank; apply scope_of_cand_range.
Qed.
Lemma valid_at_bit i : valid_at n i = Z.testbit (state_at n i) 4.
Proof.
  unfold valid_at, ip6_addr_isvalid, IP6_ADDR_VALID. apply eq_true_iff_eq. rewrite negb_true_iff, Z.eqb_neq. split.
  - intros Hn. destruct (Z.testbit _ 4) eqn:E; [done|]. destruct Hn. apply Z.bits_inj'. intros k Hk. rewrite Z.land_spec, Z.bits_0.
    change 16 with (2 ^ 4). destruct (decide (k = 4)) as [->|]; [by rewrite E|]. rewrite Z.pow2_bits_false by done. by rewrite andb_false_r.
  - intros E E0. apply (f_equal (fun z => Z.testbit z 4)) in E0. by rewrite Z.land_spec, E in E0.
Qed.
Lemma is_dest_bytes i : (i < 5)%nat -> is_dest n dest i = bool_decide (ip6_bytes (addr_at n i) = ip6_bytes dest).
Proof. intros Hi%addr_at_wf. apply eq_true_iff_eq. rewrite bool_decide_eq_true. symmetry. by apply ip6_bytes_eq. Qed.
End rules.

(** C37: [ip6_select_source_address], for an interface with five well-formed addresses
    and a well-formed destination, against the rules its comment names (not the whole of
    RFC 6724: unique local addresses have a smaller scope than global ones, rule 6 is
    missing, rule 8 compares the first 64 bits only).  It returns null exactly if no slot
    is valid; a valid slot that holds the destination itself if there is one; else a valid
    slot [i] to which no valid slot is preferred and which is preferred to every valid
    slot before it, so that the rules and, between equals, the order of the slots
    determine the answer. *)
Theorem source_selection_best n dest :
  netif_wf n -> Forall ip6_wf (ip6_addrs n) -> ip6_wf dest ->
  let valid j := (j < 5)%nat /\ Z.testbit (state_at n j) 4 = true in
  let d := destination_scope (kind_of dest) in
  exists r, ip6_select_source_address n dest = Ret (addr_at n <$> r) /\
  match r with
  | None => forall j, ~ valid j
  | Some i => valid i /\
      (ip6_bytes (addr_at n i) = ip6_bytes dest \/
       forall j, valid j -> ip6_bytes (addr_at n j) <> ip6_bytes dest /\
         ~ better d (source_at n dest j) (source_at n dest i) /\
         ((j < i)%nat -> better d (source_at n dest i) (source_at n dest j)))
  end.
Proof.
  intros Hwf Hall Hd valid d. destruct (select_source_spec n dest Hwf) as (r & E & Hr). exists r. split; [done|]. destruct r as [i|]; cbn in Hr.
  - destruct Hr as (Hi & Hv & Hr). split; [by split; [|rewrite <-valid_at_bit]|]. destruct Hr as [Hown|[Hno Hmax]].
    + left. rewrite is_dest_bytes in Hown by done. by apply bool_decide_eq_true in Hown.
    + right. intros j [Hj Hvj]. rewrite <-valid_at_bit in Hvj. destruct (Hmax j Hj Hvj) as [Hle Hlt].
      specialize (Hno j Hj Hvj). rewrite is_dest_bytes in Hno by done. apply bool_decide_eq_false in Hno.
      subst d. rewrite !better_rank by done. split_and!; [done|lia|done].
  - intros j [Hj Hvj]. rewrite <-valid_at_bit, Hr in Hvj by done. done.
Qed.

(** An interface with a link-local and a preferred global address. *)
Definition two_addresses : netif :=
  mk_netif [mk_ip6 (PP_HTONL 0xfe800000) 0 0 (PP_HTONL 2) 1; IP6_ADDR (PP_HTONL 0xfd000001) 0 0 (PP_HTONL 2);
            ip6_addr_any; ip6_addr_any; ip6_addr_any]
    [IP6_ADDR_PREFERRED; IP6_ADDR_PREFERRED; IP6_ADDR_INVALID; IP6_ADDR_INVALID; IP6_ADDR_INVALID]
    (replicate 5 0) (replicate 5 0) (str "tn") 1500 1500 5 0 None (replicate 6 0) 0 false false.
Example two_addresses_choice :
  ip6_select_source_address two_addresses (IP6_ADDR (PP_HTONL 0xfd000001) 0 0 (PP_HTONL 7)) =
    Ret (Some (IP6_ADDR (PP_HTONL 0xfd000001) 0 0 (PP_HTONL 2))) /\
  ip6_select_source_address two_addresses (IP6_ADDR (PP_HTONL 0xff020000) 0 0 (PP_HTONL 2)) =
    Ret (Some (mk_ip6 (PP_HTONL 0xfe800000) 0 0 (PP_HTONL 2) 1)).
Proof. by vm_compute. Qed.

Lemma source_selection_best_witness :
  exists r, ip6_select_source_address two_addresses (IP6_ADDR (PP_HTONL 0xfd000001) 0 0 (PP_HTONL 7)) =
    Ret (addr_at two_addresses <$> r).
Proof.
  destruct (source_selection_best two_addresses (IP6_ADDR (PP_HTONL 0xfd000001) 0 0 (PP_HTONL 7))) as (r & E & _).
  - by split.
  - repeat constructor; by vm_compute.
  - repeat constructor; by vm_compute.
  - exists r. exact E.
Defined.
