(* ===== verification/Icmp6.v ===== *)
(** * ICMPv6 (lwip/src/core/ipv6/icmp6.c)

    Answering echo requests, dispatching to neighbour and multicast listener
    discovery, and the error messages of the IPv6 layer.  Every function
    either hands its packet on or leaves exactly the packet it was given. *)

From S2P Require Import Prelude LinkedList Ip6Addr World Netif Pbuf Ip6Hdr Custody Buffer InetChksum RawSocket Ip6Out.

Definition ICMP6_TYPE_DUR : Z := 1.
Definition ICMP6_TYPE_PTB : Z := 2.
Definition ICMP6_TYPE_TE : Z := 3.
Definition ICMP6_TYPE_PP : Z := 4.
Definition ICMP6_TYPE_EREQ : Z := 128.
Definition ICMP6_TYPE_EREP : Z := 129.
Definition ICMP6_TYPE_MLQ : Z := 130.
Definition ICMP6_TYPE_MLR : Z := 131.
Definition ICMP6_TYPE_MLD : Z := 132.
Definition ICMP6_TYPE_RA : Z := 134.
Definition ICMP6_TYPE_NS : Z := 135.
Definition ICMP6_TYPE_NA : Z := 136.
Definition ICMP6_TYPE_RD : Z := 137.
Definition ICMP6_DUR_NO_ROUTE : Z := 0.
Definition ICMP6_TE_HL : Z := 0.
Definition ICMP6_PP_FIELD : Z := 0.
Definition ICMP6_PP_HEADER : Z := 1.
Definition ICMP6_PP_OPTION : Z := 2.
Definition ICMP6_HLEN : Z := 8.
Definition IP6_MIN_MTU_LENGTH : Z := 1280.
Definition LWIP_ICMP6_DATASIZE : Z := IP6_MIN_MTU_LENGTH - IP6_HLEN - ICMP6_HLEN.
Definition LWIP_ICMP6_HL : Z := 255.

Section icmp6.
Context `{Env} `{LowerLayers} (sn : stack_netifs).

(** [chksum = 0; chksum = ip6_chksum_pseudo(q, ...);] *)
Definition set_checksum (q : loc) (src dest : ip6_addr) : M world unit :=
  pwrite q 2 (le_bytes 2 0);;
  nd ← pb_node q;
  w ← get;
  c ← lift (ip6_chksum_pseudo (w_pbufs w) (Some q) IP6_NEXTH_ICMP6 (pb_tot_len (n_val nd)) src dest);
  pwrite q 2 (le_bytes 2 c).

(** ** Errors in response to a packet *)

Definition icmp6_send_response_with_addrs_and_netif (p : loc) (code data type : Z) (reply_src reply_dest : ip6_addr)
    (n : netif) : M world unit :=
  pn ← pb_node p;
  let datalen := u16 (Z.min (pb_tot_len (n_val pn)) LWIP_ICMP6_DATASIZE) in
  qo ← pbuf_alloc PBUF_IP (ICMP6_HLEN + datalen) PBUF_RAM;
  match qo with
  | None => mret tt
  | Some q =>
      qn ← pb_node q;
      c_assert (ICMP6_HLEN <=? pb_len (n_val qn));;
      pwrite q 0 [u8 type];;
      pwrite q 1 [u8 code];;
      pwrite q 4 (le_bytes 4 (lwip_htonl (u32 data)));;
      w ← get;
      r ← lift (pbuf_copy_partial_pbuf (w_pbufs w) (Some q) (Some p) datalen ICMP6_HLEN);
      modify (set_pbufs (fun _ => r.2));;
      set_checksum q reply_src reply_dest;;
      ip6_output_if q (Some reply_src) (Some reply_dest) LWIP_ICMP6_HL 0 IP6_NEXTH_ICMP6 n;;
      pbuf_free_m q;;
      mret tt
  end.

(** [cur] is [ip_current_netif()]. *)
Definition icmp6_send_response (cur : netif) (p : loc) (code data type : Z) : M world unit :=
  w ← get;
  let reply_dest := w_cur_src w in
  reply_src ← lift (ip6_select_source_address cur reply_dest);
  match reply_src with
  | None => mret tt
  | Some s => icmp6_send_response_with_addrs_and_netif p code data type s reply_dest cur
  end.

Definition icmp6_dest_unreach (cur : netif) (p : loc) (c : Z) : M world unit :=
  icmp6_send_response cur p c 0 ICMP6_TYPE_DUR.
Definition icmp6_packet_too_big (cur : netif) (p : loc) (mtu : Z) : M world unit :=
  icmp6_send_response cur p 0 mtu ICMP6_TYPE_PTB.
Definition icmp6_time_exceeded (cur : netif) (p : loc) (c : Z) : M world unit :=
  icmp6_send_response cur p c 0 ICMP6_TYPE_TE.
(** [pointer] and [header], the current IPv6 header, are positions in the buffer. *)
Definition icmp6_param_problem (cur : netif) (header : Z) (p : loc) (c pointer : Z) : M world unit :=
  icmp6_send_response cur p c (u32 (pointer - header)) ICMP6_TYPE_PP.

Definition icmp6_send_response_with_addrs (p : loc) (code data type : Z) (src_addr dest_addr : ip6_addr)
  : M world unit :=
  n ← ip6_route sn dest_addr src_addr;
  match n with
  | None => mret tt
  | Some n => icmp6_send_response_with_addrs_and_netif p code data type dest_addr src_addr n
  end.
Definition icmp6_time_exceeded_with_addrs (p : loc) (c : Z) (src_addr dest_addr : ip6_addr) : M world unit :=
  icmp6_send_response_with_addrs p c 0 ICMP6_TYPE_TE src_addr dest_addr.

(** ** Input *)

(** The echo request case, up to the final [pbuf_free(p)]: whether [p] is still there. *)
Definition icmp6_echo (p : loc) (tot_len : Z) (inp : netif) : M world bool :=
  w ← get;
  if ip6_addr_ismulticast (w_cur_dest w) then pbuf_free_m p;; mret false
  else
    ro ← pbuf_alloc PBUF_IP tot_len PBUF_RAM;
    match ro with
    | None => pbuf_free_m p;; mret false
    | Some r =>
        w ← get;
        c ← lift (pbuf_copy (w_pbufs w) (Some r) (Some p));
        modify (set_pbufs (fun _ => c.2));;
        if bool_decide (c.1 <> ERR_OK) then pbuf_free_m p;; pbuf_free_m r;; mret false
        else
          let reply_src := w_cur_dest w in
          pwrite r 0 [ICMP6_TYPE_EREP];;
          set_checksum r reply_src (w_cur_src w);;
          ip6_output_if r (Some reply_src) (Some (w_cur_src w)) LWIP_ICMP6_HL 0 IP6_NEXTH_ICMP6 inp;;
          pbuf_free_m r;;
          mret true
    end.

Definition icmp6_input (p : loc) (inp : netif) : M world unit :=
  pn ← pb_node p;
  if pb_len (n_val pn) <? ICMP6_HLEN then pbuf_free_m p;; mret tt
  else
    w ← get;
    c ← lift (ip6_chksum_pseudo (w_pbufs w) (Some p) IP6_NEXTH_ICMP6 (pb_tot_len (n_val pn))
                (w_cur_src w) (w_cur_dest w));
    if negb (c =? 0) then pbuf_free_m p;; mret tt
    else
      type ← pread8 p 0;
      if (type =? ICMP6_TYPE_NA) || (type =? ICMP6_TYPE_NS) || (type =? ICMP6_TYPE_RA) ||
         (type =? ICMP6_TYPE_RD) || (type =? ICMP6_TYPE_PTB) then nd6_input p inp
      else if (type =? ICMP6_TYPE_MLQ) || (type =? ICMP6_TYPE_MLR) || (type =? ICMP6_TYPE_MLD) then mld6_input p inp
      else if type =? ICMP6_TYPE_EREQ then
        there ← icmp6_echo p (pb_tot_len (n_val pn)) inp;
        if (there : bool) then pbuf_free_m p;; mret tt else mret tt
      else pbuf_free_m p;; mret tt.
End icmp6.
