(* ===== verification/Ip6In.v ===== *)
(** * IPv6 input and forwarding (lwip/src/core/ipv6/ip6.c)

    [ip6_input], to which the DTN controller hands packets for the node, with
    [ip6_forward] and the walk over the extension headers.  Positions in the
    packet that the code keeps as pointers ([ip6hdr], [nexth]) are positions in
    the first buffer, and reading through them is a checked access.  Tests whose
    only effect is a debug message are left out.  The theorems are in [Ip6Spec]
    and [Stack]. *)

From S2P Require Import Prelude LinkedList Ip6Addr World Netif Pbuf Ip6Hdr Custody Buffer InetChksum RawSocket Ip6Out Icmp6.

Definition IP6_NEXTH_ROUTING : Z := 43.
Definition IP6_NEXTH_FRAGMENT : Z := 44.
Definition IP6_NEXTH_DESTOPTS : Z := 60.
Definition IP6_PAD1_OPTION : Z := 0.
Definition IP6_PADN_OPTION : Z := 1.
Definition IP6_ROUTER_ALERT_OPTION : Z := 5.
Definition IP6_JUMBO_OPTION : Z := 194.
Definition IP6_HOME_ADDRESS_OPTION : Z := 201.
Definition IP6_OPT_HLEN : Z := 2.
Definition IP6_HBH_HLEN : Z := 2.
Definition IP6_ROUT_TYPE2 : Z := 2.
Definition IP6_ROUT_RPL : Z := 3.
Definition IP6_FRAG_OFFSET_MASK : Z := 0xfff8.
Definition IP6_FRAG_MORE_FLAG : Z := 0x0001.

(** [*pos] for a pointer into the first buffer of [p]. *)
Definition pread_at (p : loc) (pos n : Z) : M world (list Z) :=
  nd ← pb_node p; lift (rd pos n (pb_buf (n_val nd))).
Definition pread8_at (p : loc) (pos : Z) : M world Z :=
  bs ← pread_at p pos 1; mret (byte_at 0 bs).
(** [p->payload] as such a position. *)
Definition payload_pos (p : loc) : M world Z := nd ← pb_node p; mret (pb_payload (n_val nd)).

Definition pbuf_realloc_m (p : loc) (new_len : Z) : M world unit :=
  w ← get;
  h ← lift (pbuf_realloc (w_pbufs w) p new_len);
  modify (set_pbufs (fun _ => h)).

Section ip6_input.
Context `{Env} `{LowerLayers} (sn : stack_netifs).

(** ** Forwarding *)

(** [cur] is [ip_current_netif()], which is [inp] here. *)
Definition ip6_forward (p : loc) (inp : netif) : M world unit :=
  w ← get;
  if ip6_addr_islinklocal (w_cur_dest w) || ip6_addr_isloopback (w_cur_dest w) then mret tt
  else
    n ← ip6_route sn ip6_addr_any (w_cur_dest w);
    match n with
    | None =>
        nexth ← IP6H_NEXTH p;
        if negb (nexth =? IP6_NEXTH_ICMP6) then icmp6_dest_unreach inp p ICMP6_DUR_NO_ROUTE else mret tt
    | Some n =>
        if (ip6_addr_has_zone (w_cur_src w) && negb (ip6_addr_test_zone (w_cur_src w) n)) ||
           ip6_addr_isloopback (w_cur_src w) then mret tt
        else
          (* IP_FORWARD_ALLOW_TX_ON_RX_NETIF: the interface may be the one it came from *)
          hl ← IP6H_HOPLIM p;
          IP6H_HOPLIM_SET p (hl - 1);;
          hl ← IP6H_HOPLIM p;
          if hl =? 0 then
            nexth ← IP6H_NEXTH p;
            if negb (nexth =? IP6_NEXTH_ICMP6) then icmp6_time_exceeded inp p ICMP6_TE_HL else mret tt
          else
            nd ← pb_node p;
            if negb (nif_mtu n =? 0) && (nif_mtu n <? pb_tot_len (n_val nd)) then
              nexth ← IP6H_NEXTH p;
              if negb (nexth =? IP6_NEXTH_ICMP6) then icmp6_packet_too_big inp p (nif_mtu n) else mret tt
            else
              w ← get;
              output_ip6 n p (w_cur_dest w);;
              mret tt
    end.

(** ** Is the packet for us? *)

Definition ip6_input_accept (dest : ip6_addr) (n : netif) : outcome bool :=
  if netif_is_up n then has_valid n (ip6_addr_cmp dest) else Ret false.

(** The interfaces of the list other than [inp]. *)
Definition other_netifs (inp : netif) : list netif :=
  filter (fun n => nif_num n <> nif_num inp) (sn_list sn).

Definition accepting_netif (src dest : ip6_addr) (inp : netif) : M world (option netif) :=
  if ip6_addr_ismulticast dest then
    if ip6_addr_isallnodes_iflocal dest || ip6_addr_isallnodes_linklocal dest then mret (Some inp)
    else g ← mld6_lookfor_group inp dest; mret (if (g : bool) then Some inp else None)
  else
    a ← lift (ip6_input_accept dest inp);
    if (a : bool) then mret (Some inp)
    else if ip6_addr_islinklocal dest || ip6_addr_islinklocal src then mret None
    else if ip6_addr_isloopback dest || ip6_addr_isloopback src then mret None
    else lift (find_netif (other_netifs inp) (ip6_input_accept dest)).

(** ** Extension headers *)

Inductive opt_verdict := OptPad1 | OptSkip | OptDrop | OptProblem | OptProblemUnicast.
(** [dest] tells the destination options header from the hop-by-hop header. *)
Definition opt_action (dest : bool) (type : Z) : opt_verdict :=
  if type =? IP6_PAD1_OPTION then OptPad1
  else if (type =? IP6_PADN_OPTION) || (type =? IP6_ROUTER_ALERT_OPTION) || (type =? IP6_JUMBO_OPTION) ||
          (dest && (type =? IP6_HOME_ADDRESS_OPTION)) then OptSkip
  else
    let action := Z.land (Z.shiftr type 6) 0x3 in
    if action =? 1 then OptDrop else if action =? 2 then OptProblem
    else if action =? 3 then OptProblemUnicast else OptSkip.

(** Sending the problem and dropping the packet. *)
Definition param_problem_drop (cur : netif) (hdr : Z) (p : loc) (code pointer : Z) : M world unit :=
  icmp6_param_problem cur hdr p code pointer;; pbuf_free_m p;; mret tt.

(** [while (opt_offset < hlen)]: whether the packet survived. *)
Definition options_body (cur : netif) (hdr : Z) (p : loc) (dest : bool) (base hlen opt_offset : Z) : M world (Z + bool) :=
  if opt_offset <? hlen then
    type ← pread8_at p (base + opt_offset);
    match opt_action dest type with
    | OptPad1 => mret (inl (opt_offset + IP6_OPT_HLEN - 1))
    | OptSkip =>
        opt_dlen ← pread8_at p (base + opt_offset + 1);
        mret (inl (opt_offset + IP6_OPT_HLEN + opt_dlen))
    | OptDrop => pbuf_free_m p;; mret (inr false)
    | OptProblem => param_problem_drop cur hdr p ICMP6_PP_OPTION (base + opt_offset);; mret (inr false)
    | OptProblemUnicast =>
        w ← get;
        (if negb (ip6_addr_ismulticast (w_cur_dest w))
         then icmp6_param_problem cur hdr p ICMP6_PP_OPTION (base + opt_offset) else mret tt);;
        pbuf_free_m p;; mret (inr false)
    end
  else mret (inr true).
Definition walk_options (cur : netif) (hdr : Z) (p : loc) (dest : bool) (base hlen : Z) : M world bool :=
  loop (S (Z.to_nat hlen)) (options_body cur hdr p dest base hlen) IP6_HBH_HLEN.

(** The length byte of an extension header, and whether the header fits: the
    code reads the byte before it checks. *)
Definition ext_hlen (p : loc) (base : Z) : M world (Z * bool) :=
  b ← pread8_at p (base + 1);
  nd ← pb_node p;
  let hlen := u16 (8 * (1 + b)) in
  mret (hlen, negb ((pb_len (n_val nd) <? 8) || (pb_len (n_val nd) <? hlen))).

(** Hop-by-hop and destination options; the results of these three are the length
    of the header, or none if the packet is gone. *)
Definition options_header (cur : netif) (hdr : Z) (p : loc) (dest : bool) : M world (option Z) :=
  base ← payload_pos p;
  h ← ext_hlen p base;
  if negb h.2 then pbuf_free_m p;; mret None
  else
    ok ← walk_options cur hdr p dest base h.1;
    if (ok : bool) then pbuf_remove_header_m p h.1;; mret (Some h.1) else mret None.

Definition routing_header (cur : netif) (hdr : Z) (p : loc) : M world (option Z) :=
  base ← payload_pos p;
  h ← ext_hlen p base;
  if negb h.2 then pbuf_free_m p;; mret None
  else
    seg_left ← pread8_at p (base + 3);
    if negb (seg_left =? 0) then
      len ← pread8_at p (base + 1);
      if negb (Z.land len 0x1 =? 0) then param_problem_drop cur hdr p ICMP6_PP_FIELD (base + 1);; mret None
      else
        type ← pread8_at p (base + 2);
        if (type =? IP6_ROUT_TYPE2) || (type =? IP6_ROUT_RPL) then pbuf_remove_header_m p h.1;; mret (Some h.1)
        else param_problem_drop cur hdr p ICMP6_PP_FIELD (base + 2);; mret None
    else pbuf_remove_header_m p h.1;; mret (Some h.1).

(** With [LWIP_IPV6_REASS] 0 only a packet in one fragment passes. *)
Definition fragment_header (cur : netif) (hdr : Z) (p : loc) : M world (option Z) :=
  base ← payload_pos p;
  nd ← pb_node p;
  let hlen := 8 in
  if pb_len (n_val nd) <? hlen then pbuf_free_m p;; mret None
  else
    off ← pread_at p (base + 2) 2;
    plen ← pread_at p (hdr + OFF_PLEN) 2;
    if negb (Z.land (lwip_htons (le_val off)) 0x1 =? 0) && negb (Z.land (lwip_htons (le_val plen)) 0x7 =? 0) then
      param_problem_drop cur hdr p ICMP6_PP_FIELD (hdr + OFF_PLEN);; mret None
    else if Z.land (le_val off) (lwip_htons (Z.lor IP6_FRAG_OFFSET_MASK IP6_FRAG_MORE_FLAG)) =? 0 then
      pbuf_remove_header_m p hlen;; mret (Some hlen)
    else pbuf_free_m p;; mret None.

(** One round of the loop over the headers; [nexth] is the position of the next
    header byte.  The result is [nexth] and [hlen_tot], or none if the packet is gone. *)
Definition headers_body (cur : netif) (hdr : Z) (p : loc) (st : Z * Z) : M world (Z * Z + option (Z * Z)) :=
  let '(nexth, hlen_tot) := st in
  v ← pread8_at p nexth;
  if v =? IP6_NEXTH_NONE then mret (inr (Some (nexth, hlen_tot)))
  else
    base ← payload_pos p;
    let next (m : M world (option Z)) : M world (Z * Z + option (Z * Z)) :=
      r ← m;
      match r with
      | None => mret (inr None)
      | Some hlen =>
          v' ← pread8_at p base;
          if v' =? IP6_NEXTH_HOPBYHOP then param_problem_drop cur hdr p ICMP6_PP_HEADER base;; mret (inr None)
          else mret (inl (base, u16 (hlen_tot + hlen)))
      end in
    if v =? IP6_NEXTH_HOPBYHOP then next (options_header cur hdr p false)
    else if v =? IP6_NEXTH_DESTOPTS then next (options_header cur hdr p true)
    else if v =? IP6_NEXTH_ROUTING then next (routing_header cur hdr p)
    else if v =? IP6_NEXTH_FRAGMENT then next (fragment_header cur hdr p)
    else mret (inr (Some (nexth, hlen_tot))).
Definition walk_headers (cur : netif) (hdr : Z) (p : loc) (fuel : nat) : M world (option (Z * Z)) :=
  loop fuel (headers_body cur hdr p) (hdr + OFF_NEXTH, IP6_HLEN).

(** ** ip6_input *)

(** From [options_done] on. *)
Definition upper_layer (cur inp : netif) (hdr : Z) (p : loc) (nexth hlen_tot : Z) : M world unit :=
  v ← pread8_at p nexth;
  if v =? IP6_NEXTH_NONE then pbuf_free_m p;; mret tt
  else if v =? IP6_NEXTH_ICMP6 then icmp6_input p inp
  else
    pbuf_add_header_force p hlen_tot;;
    w ← get;
    first ← pread8_at p (hdr + OFF_NEXTH);
    (if negb (ip6_addr_ismulticast (w_cur_dest w)) && negb (first =? IP6_NEXTH_ICMP6)
     then icmp6_param_problem cur hdr p ICMP6_PP_HEADER nexth else mret tt);;
    pbuf_free_m p;; mret tt.

(** From the acceptance test to [ip6_input_cleanup]. *)
Definition ip6_dispatch (p : loc) (hdr : Z) (inp : netif) : M world unit :=
  w ← get;
  let src := w_cur_src w in
  let dest := w_cur_dest w in
  cur ← accepting_netif src dest inp;
  if ip6_addr_isany src && negb (ip6_addr_issolicitednode dest) then pbuf_free_m p;; mret tt
  else
    match cur with
    | None =>
        (if negb (ip6_addr_ismulticast dest) then ip6_forward p inp else mret tt);;
        pbuf_free_m p;; mret tt
    | Some cur =>
        nd ← pb_node p;
        pbuf_remove_header_m p IP6_HLEN;;
        r ← walk_headers cur hdr p (S (Z.to_nat (pb_len (n_val nd))));
        match r with
        | None => mret tt
        | Some st => upper_layer cur inp hdr p st.1 st.2
        end
    end.

Definition ip6_input_impl (p : loc) (inp : netif) : M world err_t :=
  v ← IP6H_V p;
  if negb (v =? 6) then pbuf_free_m p;; mret ERR_OK
  else
    nd ← pb_node p;
    bad ← (if pb_len (n_val nd) <? IP6_HLEN then mret true
           else plen ← IP6H_PLEN p; mret (pb_tot_len (n_val nd) - IP6_HLEN <? plen));
    if (bad : bool) then pbuf_free_m p;; mret ERR_OK
    else
      plen ← IP6H_PLEN p;
      pbuf_realloc_m p (u16 (IP6_HLEN + plen));;
      hdr ← payload_pos p;
      db ← pread p OFF_DEST 16;
      sb ← pread p OFF_SRC 16;
      let dest := ip6_of_bytes db in
      let src := ip6_of_bytes sb in
      modify (set_current src dest);;
      if ip6_addr_isipv4mappedipv6 dest || ip6_addr_isipv4mappedipv6 src || ip6_addr_ismulticast src then
        pbuf_free_m p;; mret ERR_OK
      else
        modify (set_current (ip6_addr_assign_zone src IP6_UNICAST inp) (ip6_addr_assign_zone dest IP6_UNKNOWN inp));;
        ip6_dispatch p hdr inp;;
        modify (set_current ip6_addr_any ip6_addr_any);;
        mret ERR_OK.
End ip6_input.
