(* ===== verification/Ip6Spec.v ===== *)
(** * What the IPv6 stack does to the node

    [ip6_input] run on any packet: it returns, releases the packet, and leaves
    every other buffer and the rest of the node as they are; only the output
    trace grows.  The laws of the layers below are [LowerLayersOk]. *)

From S2P Require Import Prelude LinkedList Ip6Addr World Netif Pbuf Ip6Hdr Custody Buffer InetChksum RawSocket Ip6Out Icmp6 Ip6In.

(** ** Steps of the world *)

(** Only output and requests to the environment. *)
Definition sends (w w' : world) : Prop := exists es k, w' = logged es k w.

Lemma sends_refl w : sends w w.
Proof. exists [], 0%nat. by rewrite logged_nil, add_ticks_0. Qed.
Lemma sends_trans w1 w2 w3 : sends w1 w2 -> sends w2 w3 -> sends w1 w3.
Proof. intros (es & k & ->) (es' & k' & ->). exists (es ++ es'), (k' + k)%nat. apply logged_logged. Qed.
Lemma sends_ticks k w : sends w (add_ticks k w).
Proof. exists [], k. by rewrite logged_nil. Qed.
#[export] Hint Resolve sends_refl sends_ticks : core.

(** [w] is [w0] after output, with buffer [p] being [b] and holding [bs]. *)
Definition at_pbuf (w0 : world) (p : loc) (b : pbuf) (bs : list Z) (w : world) : Prop :=
  (exists es k, w = put_pbuf p b (logged es k w0)) /\ single (w_pbufs w) p b bs.
(** The same with the buffer released. *)
Definition gone (w0 : world) (p : loc) (w : world) : Prop := exists es k, w = del_pbuf p (logged es k w0).

Lemma at_single w0 p b bs w : at_pbuf w0 p b bs w -> single (w_pbufs w) p b bs.
Proof. by intros [_ ?]. Qed.
#[export] Hint Resolve at_single : core.

Lemma at_start w p b bs : single (w_pbufs w) p b bs -> at_pbuf w p b bs w.
Proof.
  intros Hs. split; [|done]. exists [], 0%nat. rewrite logged_nil, add_ticks_0. destruct Hs as [Hp _].
  apply world_eq; try reflexivity. simpl. by rewrite insert_id.
Qed.

Lemma at_sends w0 p b bs w w' : at_pbuf w0 p b bs w -> sends w w' -> at_pbuf w0 p b bs w'.
Proof.
  intros [(es & k & ->) Hs] (es' & k' & ->). split; [|exact Hs].
  exists (es ++ es'), (k' + k)%nat. by rewrite <-logged_logged.
Qed.

Lemma at_put w0 p b bs w b' bs' :
  at_pbuf w0 p b bs w -> single (w_pbufs (put_pbuf p b' w)) p b' bs' -> at_pbuf w0 p b' bs' (put_pbuf p b' w).
Proof. intros [(es & k & ->) _] Hs. split; [|exact Hs]. exists es, k. by rewrite put_pbuf_put. Qed.

Lemma at_trans w0 p b bs w1 b' bs' w2 :
  at_pbuf w0 p b bs w1 -> at_pbuf w1 p b' bs' w2 -> at_pbuf w0 p b' bs' w2.
Proof.
  intros [(es & k & ->) _] [(es' & k' & ->) Hs]. split; [|exact Hs]. exists (es ++ es'), (k' + k)%nat.
  rewrite <-logged_logged. apply (put_pbuf_put p b b' (logged es' k' (logged es k w0))).
Qed.

Lemma at_fields w0 p b bs w :
  at_pbuf w0 p b bs w -> w_cur_src w = w_cur_src w0 /\ w_cur_dest w = w_cur_dest w0.
Proof. by intros [(es & k & ->) _]. Qed.

Lemma gone_from w0 p b bs w w' : at_pbuf w0 p b bs w -> gone w p w' -> gone w0 p w'.
Proof.
  intros [(es & k & ->) _] (es' & k' & ->). exists (es ++ es'), (k' + k)%nat. rewrite <-logged_logged.
  apply world_eq; try reflexivity. simpl. apply delete_insert_eq.
Qed.

Lemma gone_put w p b w' : gone (put_pbuf p b w) p w' -> gone w p w'.
Proof.
  intros (es & k & ->). exists es, k. apply world_eq; try reflexivity. simpl. apply delete_insert_eq.
Qed.

Lemma wp_free w0 p b bs w Q :
  at_pbuf w0 p b bs w -> pb_ref b = 1 -> (forall r w', gone w0 p w' -> Q r w') -> wp (pbuf_free_m p) w Q.
Proof.
  intros Hat Hr HQ. eapply wp_exec; [by eapply pbuf_free_m_exec; eauto|]. apply HQ.
  eapply gone_from; [exact Hat|]. exists [], 0%nat. by rewrite logged_nil, add_ticks_0.
Qed.

(** [pbuf_free(p); return;] *)
Lemma wp_drop {A} w0 p b bs w (a : A) Q :
  at_pbuf w0 p b bs w -> pb_ref b = 1 -> (forall w', gone w0 p w' -> Q a w') -> wp (pbuf_free_m p;; mret a) w Q.
Proof. intros Hat Hr HQ. apply wp_bind. eapply wp_free; [exact Hat|exact Hr|]. intros r w' Hg. apply wp_ret. by apply HQ. Qed.

(** A fresh buffer that came and went. *)
Lemma fresh_gone w q w' : w_pbufs w !! q = None -> gone w q w' -> sends w w'.
Proof.
  intros Hq (es & k & ->). exists es, k. apply world_eq; try reflexivity. simpl. by apply delete_id.
Qed.

(** ** The laws of the layers below *)

Class LowerLayersOk `{LowerLayers} : Prop := {
  output_ok w n p ls bs d :
    pkt (w_pbufs w) p ls bs -> wp (output_ip6 n p d) w (fun _ w' => sends w w');
  frag_ok w n p b bs d :
    owned w p b bs -> (40 <= length bs)%nat ->
    wp (ip6_frag p n d) w (fun _ w' => exists b' bs', at_pbuf w p b' bs' w' /\ pb_ref b' = 1);
  find_route_ok w d : wp (nd6_find_route d) w (fun _ w' => sends w w');
  mtu_ok w d n : wp (nd6_get_destination_mtu d n) w (fun _ w' => sends w w');
  group_ok w n d : wp (mld6_lookfor_group n d) w (fun _ w' => sends w w');
  nd6_input_ok w n p b bs : owned w p b bs -> wp (nd6_input p n) w (fun _ w' => gone w p w');
  mld6_input_ok w n p b bs : owned w p b bs -> wp (mld6_input p n) w (fun _ w' => gone w p w')
}.

(** ** Output *)

Definition netif_sane (n : netif) : Prop := netif_wf n /\ Forall ip6_wf (ip6_addrs n).

Lemma select_source_sane n d :
  netif_sane n -> exists r, ip6_select_source_address n d = Ret r /\ (forall a, r = Some a -> ip6_wf a).
Proof.
  intros [Hwf Hall]. destruct (select_source_spec n d Hwf) as (r & E & Hr). eexists. split; [exact E|].
  intros a Ea. destruct r as [i|]; [|done]. injection Ea as <-. destruct Hr as [Hi _].
  eapply Forall_lookup_1; [exact Hall|]. by apply addr_lookup.
Qed.

(** The header [ip6_output_if] writes. *)
Definition ip6_header (src dest : ip6_addr) (hl tc nexth len : Z) : list Z :=
  le_bytes 4 (lwip_htonl (Z.lor (Z.lor (u32 (Z.shiftl 6 28)) (u32 (Z.shiftl tc 20))) 0)) ++ be16 len ++
  [nexth] ++ [u8 hl] ++ ip6_bytes src ++ ip6_bytes dest.

Lemma length_ip6_header s d hl tc nx len : length (ip6_header s d hl tc nx len) = 40%nat.
Proof. done. Qed.

Lemma filled_ip6_header F src dest hl tc nexth len :
  (40 <= length F)%nat ->
  splice (Z.to_nat OFF_SRC) (ip6_bytes src) (splice (Z.to_nat OFF_PLEN) (be16 len)
    (splice 0 (le_bytes 4 (lwip_htonl (Z.lor (Z.lor (u32 (Z.shiftl 6 28)) (u32 (Z.shiftl tc 20))) 0)))
      (splice (Z.to_nat OFF_DEST) (ip6_bytes dest) (splice (Z.to_nat OFF_NEXTH) [nexth]
        (splice (Z.to_nat OFF_HOPLIM) [u8 hl] F))))) = ip6_header src dest hl tc nexth len ++ drop 40 F.
Proof.
  intros Hl. do 40 (destruct F as [|? F]; [simpl in Hl; lia|]). reflexivity.
Qed.

Lemma buffer_start w p b F : single (w_pbufs w) p b F -> buffer_is w 0 p b F w.
Proof.
  intros Hs. exists b. split_and!; [|done|by split; [destruct b|]]. rewrite add_ticks_0. destruct Hs as [Hp _].
  apply world_eq; try reflexivity. simpl. by rewrite insert_id.
Qed.

(** One more field of a header of forty bytes. *)
Ltac header_field Hb HF :=
  apply wp_bind; eapply wp_buffer_write;
    [exact Hb
    |first [apply le_bytes_byte|apply be16_byte|apply ip6_bytes_byte|apply Forall_singleton; first [apply u8_range|done]]
    |done|etransitivity; [|exact HF]; by vm_compute|clear Hb; intros ? Hb].

Lemma wp_fill_ip6_header w p b F src dest hl tc nexth Q :
  single (w_pbufs w) p b F -> (40 <= length F)%nat -> is_byte nexth ->
  (forall b', refilled b b' ->
     single (w_pbufs (put_pbuf p b' w)) p b'
       (ip6_header src dest hl tc nexth (Z.of_nat (length F) - 40) ++ drop 40 F) ->
     Q tt (put_pbuf p b' w)) ->
  wp (fill_ip6_header p src dest hl tc nexth) w Q.
Proof.
  intros Hs Hl Hnx HQ. pose proof (single_length _ _ _ _ Hs) as Hlen.
  assert (HF : 40 <= pb_len b) by lia. pose proof (buffer_start _ _ _ _ Hs) as Hb.
  unfold fill_ip6_header, IP6H_HOPLIM_SET, IP6H_NEXTH_SET, IP6H_VTCFL_SET, IP6H_PLEN_SET.
  do 4 header_field Hb HF. pose proof (buffer_single _ _ _ _ _ _ Hb) as (b' & Hs' & Hr').
  apply wp_bind. eapply wp_exec; [by eapply pb_node_exec|]. cbn [n_val].
  assert (Ht : u16 (pb_tot_len b' - IP6_HLEN) = Z.of_nat (length F) - 40).
  { destruct Hr' as [-> _]. cbn [pb_tot_len with_buf]. destruct Hs as (_ & (_ & _ & _ & Hr & _) & Ht & _).
    unfold IP6_HLEN. rewrite u16_small by lia. lia. }
  rewrite Ht. clear b' Hs' Hr' Ht. header_field Hb HF.
  eapply wp_buffer_write; [exact Hb|apply ip6_bytes_byte|done|etransitivity; [|exact HF]; by vm_compute|].
  clear Hb. intros ? (b' & -> & Hs' & Hr'). rewrite add_ticks_0 in *. apply HQ; [done|].
  rewrite <-filled_ip6_header by lia. exact Hs'.
Qed.

Section sending.
Context `{LowerLayersOk}.

Lemma wp_transmit w p b bs d n Q :
  owned w p b bs -> (40 <= length bs)%nat ->
  (forall r w' b' bs', at_pbuf w p b' bs' w' -> pb_ref b' = 1 -> Q r w') ->
  wp (ip6_transmit p d n) w Q.
Proof.
  intros [Hs Hr] Hl HQ. unfold ip6_transmit. apply wp_bind. eapply wp_exec; [by eapply pb_node_exec|].
  apply wp_bind. apply (wp_mono _ _ (fun _ w' => sends w w')).
  { destruct (nif_mtu6 n =? 0); [by apply wp_ret|]. apply wp_bind. eapply wp_mono; [apply mtu_ok|]. intros m w' Hw.
    by apply wp_ret. }
  intros big w' Hw. pose proof (at_sends _ _ _ _ _ _ (at_start _ _ _ _ Hs) Hw) as Hat. destruct big.
  - eapply wp_mono; [apply (frag_ok w' n p b bs); [by split; eauto|done]|].
    intros r w2 (b' & bs' & Hat' & Hr'). eapply HQ; [by eapply at_trans|done].
  - eapply wp_mono; [apply (output_ok w' n p [(p, b)] bs); apply single_pkt; eauto|].
    intros r w2 Hw2. eapply HQ; [by eapply at_sends|done].
Qed.

(** What the interface is handed: the generated header and the data. *)
Lemma wp_output_if_src w p b bs s d hl tc nexth n Q :
  owned w p b bs -> type_contiguous (pb_type b) = true -> 40 <= pb_payload b -> Z.of_nat (length bs) + 40 < 65536 ->
  is_byte nexth ->
  (forall b' dz, zone dz = zone d \/ zone d = 0 ->
     owned (put_pbuf p b' w) p b' (ip6_header s d hl tc nexth (Z.of_nat (length bs)) ++ bs) ->
     wp (ip6_transmit p dz n) (put_pbuf p b' w) Q) ->
  wp (ip6_output_if_src p (Some s) (Some d) hl tc nexth n) w Q.
Proof.
  intros [Hs Hr] Hc Hp Hl Hnx HQ. unfold ip6_output_if_src, check_ref_for_tx.
  apply wp_bind, wp_bind. eapply wp_exec; [by eapply pb_node_exec|]. cbn [n_val]. rewrite Hr. apply wp_ret.
  set (dz := if ip6_addr_lacks_zone d IP6_UNKNOWN then _ else d).
  assert (Hdz : ip6_bytes dz = ip6_bytes d /\ (zone dz = zone d \/ zone d = 0)).
  { unfold dz, ip6_addr_lacks_zone, ip6_addr_has_zone. destruct (Z.eqb_spec (zone d) IP6_NO_ZONE) as [E|]; cbn [negb andb].
    - destruct (ip6_addr_has_scope d IP6_UNKNOWN); split; auto.
    - split; auto. }
  clearbody dz. destruct Hdz as [Hdb Hdz].
  destruct (add_header_exec false w p b bs IP6_HLEN Hs Hc ltac:(unfold IP6_HLEN; lia) ltac:(unfold IP6_HLEN; lia))
    as (pre & Hpre & He & Hs1).
  apply wp_bind. eapply wp_exec; [exact He|]. cbn [negb Z.eqb].
  apply wp_bind. eapply wp_exec; [eapply pb_node_exec, Hs1|]. cbn [n_val].
  pose proof (single_length _ _ _ _ Hs1) as Hl1. rewrite length_app in Hl1. change (Z.to_nat IP6_HLEN) with 40%nat in Hpre.
  destruct (Z.leb_spec IP6_HLEN (pb_len (shifted (- IP6_HLEN) b))); [|unfold IP6_HLEN in *; lia].
  apply wp_bind, wp_ret, wp_bind.
  eapply wp_fill_ip6_header; [exact Hs1|rewrite length_app; lia|done|]. intros b' Hb' Hs'.
  rewrite put_pbuf_put in *. apply (HQ b' dz Hdz). split.
  - replace (ip6_header s d _ _ _ _ ++ bs) with
      (ip6_header s dz hl tc nexth (Z.of_nat (length (pre ++ bs)) - 40) ++ drop 40 (pre ++ bs)); [exact Hs'|].
    rewrite <-Hpre, drop_app_length. unfold ip6_header. rewrite Hdb. repeat f_equal. rewrite length_app. lia.
  - destruct (refilled_fields _ _ Hb') as (-> & _). exact Hr.
Qed.
End sending.

(** ** Building a reply *)

Lemma at_buffer w0 q b F w1 k G w2 :
  at_pbuf w0 q b F w1 -> buffer_is w1 k q b G w2 -> exists b', at_pbuf w0 q b' G w2 /\ refilled b b'.
Proof.
  intros Hat (b' & -> & Hs & Hr). exists b'. split; [|done].
  assert (Hat' : at_pbuf w0 q b F (add_ticks k w1)) by (eapply at_sends; eauto).
  by eapply at_put.
Qed.

Lemma at_other w0 q b F w p bp bs :
  at_pbuf w0 q b F w -> q <> p -> single (w_pbufs w0) p bp bs -> single (w_pbufs w) p bp bs.
Proof. intros [(es & k & ->) _] Hne Hs. by apply single_put_ne. Qed.

Lemma wp_alloc_reply `{Env} w n Q :
  0 <= n <= 60000 -> (env_mem_malloc (w_tick w) = false -> Q None (add_ticks 1 w)) ->
  (forall b F w', w_pbufs w !! new_loc (w_pbufs w) = None -> at_pbuf w (new_loc (w_pbufs w)) b F w' ->
     Z.of_nat (length F) = n -> pb_ref b = 1 -> type_contiguous (pb_type b) = true -> 40 <= pb_payload b ->
     w_trace w' = w_trace w -> Q (Some (new_loc (w_pbufs w))) w') ->
  wp (pbuf_alloc PBUF_IP n PBUF_RAM) w Q.
Proof.
  intros Hn Hno Hyes. unfold wp. rewrite pbuf_alloc_ram_eq by (change PBUF_IP with 54; lia).
  assert (ram_fits PBUF_IP n = true) as ->.
  { unfold ram_fits. apply Z.ltb_lt. change (LWIP_MEM_ALIGN_SIZE PBUF_IP) with 56. rewrite mem_align_eq by lia. zlia. }
  destruct (env_mem_malloc (w_tick w)); [|by apply Hno].
  eapply (Hyes (ram_pbuf (w_tick w) PBUF_IP n) (seg_bytes (ram_pbuf (w_tick w) PBUF_IP n)));
    [apply new_loc_fresh| |apply ram_pbuf_length; [by vm_compute|lia]|done|done|by vm_compute|done].
  split; [|apply (alloc_single _ _ _ (add_ticks 1 w)); [by vm_compute|lia]].
  exists [], 1%nat. by rewrite logged_nil.
Qed.

(** [set_checksum] puts the checksum of the whole message in. *)
Definition with_checksum (s d : ip6_addr) (G : list Z) : list Z :=
  let Z0 := splice 2 [0; 0] G in
  splice 2 (le_bytes 2 (65535 - oc (word_sum (pseudo_header s d (Z.of_nat (length G)) IP6_NEXTH_ICMP6 ++ Z0)))) Z0.

Lemma length_with_checksum s d G : (4 <= length G)%nat -> length (with_checksum s d G) = length G.
Proof. intros. unfold with_checksum. rewrite !length_splice; rewrite ?length_splice; simpl; lia. Qed.

Lemma wp_set_checksum w0 k q b G w s d Q :
  buffer_is w0 k q b G w -> (4 <= length G)%nat -> pb_tot_len b = pb_len b -> pb_len b < 65536 -> ip6_wf s -> ip6_wf d ->
  (forall w', buffer_is w0 k q b (with_checksum s d G) w' -> Q tt w') ->
  wp (set_checksum q s d) w Q.
Proof.
  intros Hb Hl Ht Hmax Hs Hd HQ. pose proof (buffer_len _ _ _ _ _ _ Hb) as HF. unfold set_checksum.
  apply wp_bind. eapply wp_buffer_write; [exact Hb|apply le_bytes_byte|done|simpl length; lia|]. clear Hb. intros w1 Hb.
  change (Z.to_nat 2) with 2%nat in Hb. change (le_bytes 2 0) with [0; 0] in Hb.
  pose proof (buffer_single _ _ _ _ _ _ Hb) as (b' & Hs' & Hr').
  apply wp_bind. eapply wp_exec; [by eapply pb_node_exec|]. apply wp_bind, wp_get, wp_bind. eapply wp_lift.
  { apply (chksum_pseudo_eq _ q [(q, b')]); [by apply single_pkt|done|done|by vm_compute|].
    cbn [n_val]. destruct (refilled_fields _ _ Hr') as (_ & _ & -> & _). lia. }
  eapply wp_buffer_write; [exact Hb|apply le_bytes_byte|done|rewrite length_le_bytes; lia|].
  intros w2 Hb2. apply HQ. destruct (refilled_fields _ _ Hr') as (_ & _ & E & _).
  cbn [n_val] in Hb2. rewrite E, Ht, <-HF in Hb2. exact Hb2.
Qed.

(** The first [n] bytes of a packet in one buffer, copied to position [off] at the
    end of another. *)
Lemma copy_head_ok (h : pheap) q bq G p b bs n off :
  single h p b bs -> single h q bq G -> q <> p -> 0 <= n <= Z.of_nat (length bs) -> 0 <= off ->
  off + n = Z.of_nat (length G) ->
  exists b', pbuf_copy_partial_pbuf h (Some q) (Some p) n off = Ret (ERR_OK, <[q := Node b' None]> h) /\
    single (<[q := Node b' None]> h) q b' (splice (Z.to_nat off) (take (Z.to_nat n) bs) G) /\ refilled bq b'.
Proof.
  intros Hp Hq Hne Hn Ho Hl. pose proof (single_length _ _ _ _ Hp) as Hlp. pose proof (single_length _ _ _ _ Hq) as Hlq.
  pose proof Hp as (Ep & Hok & Htp & Hbs). pose proof Hq as (Eq & Hokq & Htq & Hbq).
  pose proof Hokq as (_ & _ & _ & Hrq & _). pose proof Hok as (_ & _ & _ & Hrp & _).
  destruct (payload_wr_ok bq off (take (Z.to_nat n) bs)) as (b' & Hw & Hb' & Hbs' & Heq & Hbl); try done.
  { rewrite <-Hbs. apply Forall_take, seg_bytes_byte, Hok. }
  { rewrite length_take. lia. }
  exists b'. split_and!.
  - unfold pbuf_copy_partial_pbuf. rewrite Ep. cbn [deref mbind outcome_bind n_val].
    destruct (Z.ltb_spec (pb_tot_len b) n); [lia|]. rewrite Eq. cbn [deref mbind outcome_bind n_val].
    destruct (Z.ltb_spec (pb_tot_len bq) (off + n)); [lia|]. apply oloop_exit.
    unfold cpp_body. cbn [cp_to cp_from cp_off_to cp_off_from cp_len deref mbind outcome_bind].
    rewrite Eq, Ep. cbn [deref mbind outcome_bind n_val n_next].
    assert (Ha : (if u64 (pb_len b - 0) <=? u64 (pb_len bq - off) then u64 (pb_len b - 0) else u64 (pb_len bq - off)) = n).
    { unfold u64. rewrite !Z.mod_small by lia. destruct (Z.leb_spec (pb_len b - 0) (pb_len bq - off)); lia. }
    rewrite Ha, Z.min_id. rewrite payload_rd_ok by (done || lia). cbn [mbind outcome_bind].
    rewrite Hbs. change (slice (Z.to_nat 0) (Z.to_nat n) bs) with (take (Z.to_nat n) bs). rewrite Hw. cbn [mbind outcome_bind].
    destruct (Z.leb_spec (off + n) (pb_len bq)); [|lia]. destruct (Z.leb_spec (0 + n) (pb_len b)); [|lia]. cbn [andb negb].
    replace (off + n =? pb_len bq) with true by (symmetry; apply Z.eqb_eq; lia).
    replace (u16 (n - n)) with 0 by (rewrite Z.sub_diag; done).
    destruct (pb_len b <=? 0 + n); cbn [negb orb Z.eqb]; rewrite orb_true_r; cbn [negb].
    + done.
    + rewrite (queue_check_single _ p b bs) by (by apply single_insert_ne). done.
  - split_and!; [apply lookup_insert_eq|done|by rewrite Heq|by rewrite Hbs', Hbq].
  - by split.
Qed.

Section replies.
Context `{Env} `{LowerLayersOk}.

(** A message is sent, whatever becomes of it; its buffer stays. *)
Lemma wp_output_kept w0 w q b G so d n :
  at_pbuf w0 q b G w -> pb_ref b = 1 -> type_contiguous (pb_type b) = true ->
  40 <= pb_payload b -> Z.of_nat (length G) <= 60000 -> netif_wf n ->
  wp (ip6_output_if q so (Some d) LWIP_ICMP6_HL 0 IP6_NEXTH_ICMP6 n) w
    (fun _ w' => exists b' G', at_pbuf w0 q b' G' w' /\ pb_ref b' = 1).
Proof.
  intros Hat Hr Hc Hp Hl Hwf.
  assert (Hout : forall s', wp (ip6_output_if_src q (Some s') (Some d) LWIP_ICMP6_HL 0 IP6_NEXTH_ICMP6 n) w
            (fun _ w' => exists b' G', at_pbuf w0 q b' G' w' /\ pb_ref b' = 1)).
  { intros s'. eapply wp_output_if_src; [split; eauto|done|done|lia|by vm_compute|]. intros b1 dz _ Ho.
    eapply wp_transmit; [exact Ho|rewrite length_app, length_ip6_header; lia|]. intros r w' b' G' Hat' Hr'.
    exists b', G'. split; [|done]. eapply at_trans; [|exact Hat']. eapply at_put; [exact Hat|]. apply Ho. }
  unfold ip6_output_if. destruct so as [s|]; [|exact (Hout ip6_addr_any)]. destruct (ip6_addr_isany s); [|apply Hout].
  destruct (select_source_spec n d Hwf) as (r & E & _). apply wp_bind. eapply wp_lift; [exact E|].
  destruct (addr_at n <$> r) as [s'|]; [|apply wp_ret; eauto].
  destruct (ip6_addr_isany s'); [apply wp_ret; eauto|apply Hout].
Qed.

(** A message in a fresh buffer is sent and the buffer released. *)
Lemma wp_send_reply {A} w0 w q b G s d n (a : A) Q :
  w_pbufs w0 !! q = None -> at_pbuf w0 q b G w -> pb_ref b = 1 -> type_contiguous (pb_type b) = true ->
  40 <= pb_payload b -> Z.of_nat (length G) <= 60000 -> netif_wf n ->
  (forall w', sends w0 w' -> Q a w') ->
  wp (ip6_output_if q (Some s) (Some d) LWIP_ICMP6_HL 0 IP6_NEXTH_ICMP6 n;; pbuf_free_m q;; mret a) w Q.
Proof.
  intros Hq Hat Hr Hc Hp Hl Hwf HQ. apply wp_bind. eapply wp_mono; [by eapply wp_output_kept|].
  intros r w' (b' & G' & Hat' & Hr'). eapply wp_drop; [exact Hat'|exact Hr'|]. intros w2 Hg. apply HQ. by eapply fresh_gone.
Qed.

Lemma wp_send_response_to w p b bs code data type s d n Q :
  single (w_pbufs w) p b bs -> ip6_wf s -> ip6_wf d -> netif_wf n ->
  (forall w', sends w w' -> Q tt w') ->
  wp (icmp6_send_response_with_addrs_and_netif p code data type s d n) w Q.
Proof.
  intros Hs Hsw Hdw Hwf HQ. pose proof (single_length _ _ _ _ Hs) as Hl.
  pose proof Hs as (_ & (_ & _ & _ & Hmax & _) & Ht & _).
  unfold icmp6_send_response_with_addrs_and_netif. apply wp_bind. eapply wp_exec; [by eapply pb_node_exec|]. cbn [n_val].
  set (datalen := u16 (Z.min (pb_tot_len b) LWIP_ICMP6_DATASIZE)).
  assert (Hd : 0 <= datalen <= Z.of_nat (length bs) /\ datalen <= 1232).
  { unfold datalen. change LWIP_ICMP6_DATASIZE with 1232. rewrite u16_small by lia. lia. }
  clearbody datalen. unfold ICMP6_HLEN. apply wp_bind. apply wp_alloc_reply; [lia|intros _; apply wp_ret, HQ, sends_ticks|].
  intros bq F w1 Hq Hat Hlen Hrq Hcq Hpq _. set (q := new_loc (w_pbufs w)) in *.
  assert (Hne : q <> p) by (intros E; destruct Hs as [Hs _]; by rewrite <-E, Hq in Hs).
  pose proof (single_length _ _ _ _ (at_single _ _ _ _ _ Hat)) as Hlq.
  pose proof (at_single _ _ _ _ _ Hat) as (_ & _ & Htq & _).
  apply wp_bind. eapply wp_exec; [eapply pb_node_exec; eauto|]. cbn [n_val].
  destruct (Z.leb_spec 8 (pb_len bq)); [|lia]. apply wp_bind, wp_ret.
  pose proof (buffer_start _ _ _ _ (at_single _ _ _ _ _ Hat)) as Hb.
  do 2 (apply wp_bind; eapply wp_buffer_write;
    [exact Hb|apply Forall_singleton, u8_range|done|simpl length; lia|clear Hb; intros ? Hb]).
  apply wp_bind. eapply wp_buffer_write; [exact Hb|apply le_bytes_byte|done|rewrite length_le_bytes; lia|].
  clear Hb. intros w2 Hb. pose proof (buffer_len _ _ _ _ _ _ Hb) as HlG. set (G := splice (Z.to_nat 4) _ _) in *. clearbody G.
  destruct (at_buffer _ _ _ _ _ _ _ _ Hat Hb) as (b2 & Hat2 & Hr2).
  apply wp_bind, wp_get, wp_bind.
  destruct (copy_head_ok (w_pbufs w2) q b2 G p b bs datalen 8) as (b3 & E & Hs3 & Hr3);
    [eapply at_other; eauto|eauto|done|lia|lia|lia|].
  eapply wp_lift; [exact E|]. apply wp_bind, wp_modify. cbn [snd].
  assert (Hat3 : at_pbuf w q b3 (splice (Z.to_nat 8) (take (Z.to_nat datalen) bs) G)
                   (set_pbufs (fun _ => <[q := Node b3 None]> (w_pbufs w2)) w2)).
  { exact (at_put _ _ _ _ _ b3 _ Hat2 Hs3). }
  set (w3 := set_pbufs _ w2) in *. clearbody w3. set (G3 := splice _ _ G) in *.
  assert (HlG3 : length G3 = length G) by (unfold G3; by rewrite length_splice by (rewrite length_take; lia)). clearbody G3.
  destruct (refilled_fields _ _ (refilled_trans _ _ _ Hr2 Hr3)) as (E1 & E2 & E3 & _).
  assert (E4 : pb_type b3 = pb_type bq) by (destruct (refilled_trans _ _ _ Hr2 Hr3) as [-> _]; done).
  pose proof (at_single _ _ _ _ _ Hat3) as Hs3'. pose proof (single_length _ _ _ _ Hs3') as Hl3.
  apply wp_bind. eapply wp_set_checksum; [by apply buffer_start|lia| | |done|done|].
  { destruct Hs3' as (_ & _ & Ht3 & _). exact Ht3. }
  { lia. }
  intros w4 Hb4. destruct (at_buffer _ _ _ _ _ _ _ _ Hat3 Hb4) as (b4 & Hat4 & Hr4).
  destruct (refilled_fields _ _ Hr4) as (F1 & F2 & F3 & _).
  assert (F4 : pb_type b4 = pb_type b3) by (destruct Hr4 as [-> _]; done).
  eapply wp_send_reply; [exact Hq|exact Hat4|congruence|congruence|lia| |done|exact HQ].
  rewrite length_with_checksum by lia. lia.
Qed.

Lemma wp_send_response cur w p b bs code data type Q :
  single (w_pbufs w) p b bs -> ip6_wf (w_cur_src w) -> netif_sane cur ->
  (forall w', sends w w' -> Q tt w') ->
  wp (icmp6_send_response cur p code data type) w Q.
Proof.
  intros Hs Hsrc Hsane HQ. unfold icmp6_send_response. apply wp_bind, wp_get, wp_bind.
  destruct (select_source_sane cur (w_cur_src w) Hsane) as (r & E & Hr). eapply wp_lift; [exact E|].
  destruct r as [s|]; [|apply wp_ret, HQ, sends_refl].
  eapply wp_send_response_to; [exact Hs|by apply Hr|done|apply Hsane|exact HQ].
Qed.
End replies.

(** ** Echo requests *)

(** The message that answers [m], from [dest] to [src]. *)
Definition echo_reply (src dest : ip6_addr) (m : list Z) : list Z :=
  with_checksum dest src (splice 0 [ICMP6_TYPE_EREP] m).

Section echo.
Context `{Env} `{LowerLayersOk}.
Context (w : world) (p : loc) (b : pbuf) (bs : list Z) (inp : netif).
Hypotheses (Ho : owned w p b bs) (Hl : 8 <= Z.of_nat (length bs) <= 60000).
Hypotheses (Hsrc : ip6_wf (w_cur_src w)) (Hdest : ip6_wf (w_cur_dest w)).

Lemma wp_echo_with Q :
  (ip6_addr_ismulticast (w_cur_dest w) = true \/ env_mem_malloc (w_tick w) = false ->
   forall w', gone w p w' -> Q false w') ->
  (ip6_addr_ismulticast (w_cur_dest w) = false -> forall r br w1, w_pbufs w !! r = None -> r <> p ->
     at_pbuf w r br (echo_reply (w_cur_src w) (w_cur_dest w) bs) w1 -> pb_ref br = 1 ->
     type_contiguous (pb_type br) = true -> 40 <= pb_payload br -> w_trace w1 = w_trace w ->
     wp (ip6_output_if r (Some (w_cur_dest w)) (Some (w_cur_src w)) LWIP_ICMP6_HL 0 IP6_NEXTH_ICMP6 inp;;
         pbuf_free_m r;; mret true) w1 Q) ->
  wp (icmp6_echo p (pb_tot_len b) inp) w Q.
Proof.
  intros Hgone Hsend. destruct Ho as [Hs Hr]. pose proof (single_length _ _ _ _ Hs) as Hlen.
  pose proof Hs as (_ & _ & Ht & _). unfold icmp6_echo. apply wp_bind, wp_get.
  destruct (ip6_addr_ismulticast (w_cur_dest w)) eqn:Em.
  { eapply wp_drop; [by apply at_start|done|apply Hgone; by left]. }
  apply wp_bind, wp_alloc_reply; [lia| |].
  { intros Hno. eapply wp_drop; [|done|apply Hgone; by right]. eapply at_sends; [by apply at_start|apply sends_ticks]. }
  intros br F w1 Hq Hat HlF Hrq Hcq Hpq Htr. set (r := new_loc (w_pbufs w)) in *.
  assert (Hne : r <> p) by (intros E; destruct Hs as [Hs _]; by rewrite <-E, Hq in Hs).
  apply wp_bind, wp_get, wp_bind.
  destruct (pbuf_copy_ok (w_pbufs w1) r br F p [(p, b)] bs) as (b2 & E & Hs2 & Hb2); [| |eauto|set_solver|lia|].
  { apply single_pkt. by eapply at_other. }
  { apply Forall_singleton. simpl. lia. }
  eapply wp_lift; [exact E|]. apply wp_bind, wp_modify. cbn [snd fst].
  assert (Hat2 : at_pbuf w r b2 bs (set_pbufs (fun _ => <[r := Node b2 None]> (w_pbufs w1)) w1)).
  { exact (at_put _ _ _ _ _ b2 _ Hat Hs2). }
  set (w2 := set_pbufs _ w1) in *. change (w_trace w1) with (w_trace w2) in Htr. clearbody w2. rewrite bool_decide_eq_false_2 by naive_solver.
  destruct (at_fields _ _ _ _ _ Hat) as [Ec1 Ec2]. rewrite Ec1, Ec2.
  pose proof (single_length _ _ _ _ (at_single _ _ _ _ _ Hat2)) as Hl2.
  pose proof (at_single _ _ _ _ _ Hat2) as (_ & _ & Ht2 & _).
  pose proof (buffer_start _ _ _ _ (at_single _ _ _ _ _ Hat2)) as Hb.
  apply wp_bind. eapply wp_buffer_write; [exact Hb|by apply Forall_singleton|done|simpl length; lia|].
  clear Hb. intros w3 Hb. change (Z.to_nat 0) with 0%nat in Hb.
  assert (HlG : length (splice 0 [ICMP6_TYPE_EREP] bs) = length bs) by (rewrite length_splice; simpl; lia).
  apply wp_bind. eapply wp_set_checksum; [exact Hb|lia|done|lia|done|done|]. intros w4 Hb4.
  destruct (at_buffer _ _ _ _ _ _ _ _ Hat2 Hb4) as (b4 & Hat4 & Hr4).
  destruct (refilled_fields _ _ Hr4) as (F1 & F2 & F3 & _).
  assert (F4 : pb_type b4 = pb_type b2) by (destruct Hr4 as [-> _]; done).
  eapply Hsend; [done|exact Hq|exact Hne|exact Hat4|by rewrite F1, Hb2|by rewrite F4, Hb2|by rewrite F2, Hb2|].
  destruct Hb4 as (b5 & -> & _), Hb as (b6 & -> & _). exact Htr.
Qed.

Lemma wp_echo Q :
  netif_wf inp -> (forall w', gone w p w' -> Q false w') -> (forall w', sends w w' -> Q true w') ->
  wp (icmp6_echo p (pb_tot_len b) inp) w Q.
Proof.
  intros Hwf Hg HQ. apply wp_echo_with; [intros _; exact Hg|]. intros _ r br w1 Hq _ Hat Hr Hc Hp _.
  eapply wp_send_reply; [exact Hq|exact Hat|done|done|done| |done|exact HQ].
  unfold echo_reply. rewrite length_with_checksum; rewrite length_splice; simpl; lia.
Qed.

End echo.

(** A message is handed on or released. *)
Lemma wp_icmp6_input `{Env} `{LowerLayersOk} w p b bs inp Q :
  owned w p b bs -> Z.of_nat (length bs) <= 60000 -> ip6_wf (w_cur_src w) -> ip6_wf (w_cur_dest w) -> netif_wf inp ->
  (forall w', gone w p w' -> Q tt w') -> wp (icmp6_input p inp) w Q.
Proof.
  intros Ho Hl Hsrc Hdest Hwf HQ. pose proof Ho as [Hs Hr]. pose proof (single_length _ _ _ _ Hs) as Hlen.
  pose proof Hs as (_ & (_ & _ & _ & Hrg & _) & Ht & _).
  assert (Hat : at_pbuf w p b bs w) by (by apply at_start).
  unfold icmp6_input. apply wp_bind. eapply wp_exec; [by eapply pb_node_exec|]. cbn [n_val].
  unfold ICMP6_HLEN. destruct (Z.ltb_spec (pb_len b) 8); [by eapply wp_drop|].
  apply wp_bind, wp_get, wp_bind. eapply wp_lift.
  { apply (chksum_pseudo_eq _ p [(p, b)]); [by apply single_pkt|done|done|by vm_compute|lia]. }
  destruct (negb _); [by eapply wp_drop|].
  apply wp_bind. eapply wp_exec; [apply (pread8_exec _ _ _ _ 0 Hs); lia|].
  destruct (_ || _); [eapply wp_mono; [by apply (nd6_input_ok w inp p b bs)|by intros []; auto]|].
  destruct (_ || _); [eapply wp_mono; [by apply (mld6_input_ok w inp p b bs)|by intros []; auto]|].
  destruct (_ =? ICMP6_TYPE_EREQ); [|by eapply wp_drop].
  apply wp_bind. eapply wp_echo; [exact Ho|lia|done|done|done|intros w' Hg; apply wp_ret, HQ, Hg|].
  intros w' Hw. eapply wp_drop; [eapply at_sends; eauto|done|exact HQ].
Qed.

(** ** Routing and forwarding *)

Lemma first_slot_total k i test : (forall j, (i <= j < i + k)%nat -> exists b, test j = Ret b) -> exists r, first_slot k i test = Ret r.
Proof.
  revert i. induction k as [|k IH]; intros i Ht; simpl; [by eexists|]. destruct (Ht i ltac:(lia)) as [b ->]. simpl.
  destruct b; [by eexists|]. apply IH. intros; apply Ht; lia.
Qed.
Lemma some_slot_total test : (forall j, (j < 5)%nat -> exists b, test j = Ret b) -> exists b, some_slot test = Ret b.
Proof.
  intros Ht. unfold some_slot. destruct (first_slot_total LWIP_IPV6_NUM_ADDRESSES 0 test) as [r ->]; [|by eexists].
  intros j Hj. apply Ht. unfold LWIP_IPV6_NUM_ADDRESSES in Hj. lia.
Qed.
Lemma find_netif_total l test : Forall (fun n => exists b, test n = Ret b) l -> exists r, find_netif l test = Ret r.
Proof. induction 1 as [|n l [b E] _ IH]; simpl; [by eexists|]. rewrite E. simpl. destruct b; [by eexists|done]. Qed.

Lemma find_netif_sane l test :
  Forall (fun n => netif_sane n /\ exists b, test n = Ret b) l ->
  exists r, find_netif l test = Ret r /\ forall n, r = Some n -> netif_sane n.
Proof.
  induction 1 as [|n l [Hn [b E]] _ IH]; simpl; [eexists; naive_solver|]. rewrite E. simpl.
  destruct b; [|done]. eexists. split; [done|]. by intros ? [= <-].
Qed.

Lemma has_valid_total n test : netif_wf n -> exists b, has_valid n test = Ret b.
Proof.
  intros Hwf. apply some_slot_total. intros j Hj. unfold valid_slot, netif_ip6_addr_state, netif_ip6_addr.
  rewrite (state_lookup n Hwf j Hj), (addr_lookup n Hwf j Hj). simpl. destruct (ip6_addr_isvalid _); by eexists.
Qed.
Lemma subnet_total n d : netif_wf n -> exists b, some_slot (subnet_slot n d) = Ret b.
Proof.
  intros Hwf. apply some_slot_total. intros j Hj. unfold subnet_slot, netif_ip6_addr_state, netif_ip6_addr, netif_ip6_addr_isstatic.
  rewrite (state_lookup n Hwf j Hj), (addr_lookup n Hwf j Hj). simpl. destruct (ip6_addr_isvalid _); [|by eexists].
  destruct (ip6_addr_net_eq _ _); [|by eexists].
  destruct (lookup_lt_is_Some_2 (ip6_addr_valid_life n) j) as [x ->]; [|by eexists].
  rewrite (nw_lives _ Hwf). done.
Qed.

Section route.
Context `{LowerLayersOk} (sn : stack_netifs).
Hypothesis Hsn : Forall netif_wf (sn_list sn).

Lemma wp_find {A} l test (f : option netif -> M world A) w Q :
  Forall (fun n => exists b, test n = Ret b) l -> (forall r, wp (f r) w Q) ->
  wp (r ← lift (find_netif l test); f r) w Q.
Proof. intros Hl Hf. destruct (find_netif_total l test Hl) as [r E]. apply wp_bind. eapply wp_lift; [exact E|]. apply Hf. Qed.

Lemma usable_total l test :
  Forall netif_wf l -> (forall n, netif_wf n -> exists b, test n = Ret b) ->
  Forall (fun n => exists b, usable_and test n = Ret b) l.
Proof.
  intros Hl Ht. eapply Forall_impl; [exact Hl|]. intros n Hn. unfold usable_and.
  destruct (netif_usable n); [by apply Ht|by eexists].
Qed.

Lemma wp_route_many s d w l Q :
  Forall netif_wf l -> (forall r w', sends w w' -> Q r w') ->
  wp (route_among sn l s d) w Q.
Proof.
  intros Hl HQ. unfold route_among.
  assert (Hret : forall test, (forall n, netif_wf n -> exists b, test n = Ret b) -> wp (lift (find_netif l test)) w Q).
  { intros test Ht. destruct (find_netif_total l test) as [r E]; [by eapply Forall_impl|]. eapply wp_lift; [exact E|]. by apply HQ. }
  destruct (ip6_addr_has_zone d); [apply Hret; intros; by eexists|].
  destruct (_ || _).
  { destruct (ip6_addr_has_zone s); [apply Hret; intros; by eexists|]. apply Hret. intros n Hn.
    unfold usable_and. destruct (netif_usable n); [by apply has_valid_total|by eexists]. }
  apply wp_find; [apply usable_total; [done|intros; by apply subnet_total]|]. intros [n|]; [apply wp_ret; by apply HQ|].
  apply wp_bind. eapply wp_mono; [apply find_route_ok|]. intros [n|] w1 Hw1; [apply wp_ret; by apply HQ|].
  apply wp_bind. destruct (ip6_addr_isany s); [by apply wp_ret, wp_ret, HQ|].
  destruct (find_netif_total l (usable_and (fun n => has_valid n (ip6_addr_cmp s)))) as [r E].
  { apply usable_total; [done|]. intros; by apply has_valid_total. }
  eapply wp_lift; [exact E|]. by apply wp_ret, HQ.
Qed.

Lemma wp_route s d w Q : (forall r w', sends w w' -> Q r w') -> wp (ip6_route sn s d) w Q.
Proof.
  intros HQ. unfold ip6_route. destruct (sn_list sn) as [|n [|n' l]].
  - apply (wp_route_many s d w []); [constructor|done].
  - apply wp_ret. by apply HQ.
  - by apply (wp_route_many s d w (n :: n' :: l)).
Qed.
End route.

Section forwarding.
Context `{Env} `{LowerLayersOk} (sn : stack_netifs).
Hypothesis Hsn : Forall netif_wf (sn_list sn).

(** An error message is sent unless the packet is an ICMPv6 message itself. *)
Lemma wp_unless_icmp6 w0 w p b bs inp code data type Q :
  at_pbuf w0 p b bs w -> (40 <= length bs)%nat -> ip6_wf (w_cur_src w0) -> netif_sane inp ->
  (forall w', at_pbuf w0 p b bs w' -> Q tt w') ->
  wp (nexth ← IP6H_NEXTH p;
      if negb (nexth =? IP6_NEXTH_ICMP6) then icmp6_send_response inp p code data type else mret tt) w Q.
Proof.
  intros Hat Hl Hsrc Hin HQ. apply wp_bind. eapply wp_exec; [eapply IP6H_NEXTH_exec; eauto|].
  destruct (negb _); [|apply wp_ret; auto]. destruct (at_fields _ _ _ _ _ Hat) as [Ec _].
  eapply wp_send_response; [eauto|by rewrite Ec|done|]. intros w' Hw. apply HQ. by eapply at_sends.
Qed.

Lemma wp_forward w p b bs inp Q :
  owned w p b bs -> (40 <= length bs)%nat -> ip6_wf (w_cur_src w) -> netif_sane inp ->
  (forall w' b' bs', at_pbuf w p b' bs' w' -> pb_ref b' = 1 -> Q tt w') ->
  wp (ip6_forward sn p inp) w Q.
Proof.
  intros [Hs Hr] Hl Hsrc Hin HQ. pose proof (at_start _ _ _ _ Hs) as Hat. unfold ip6_forward. apply wp_bind, wp_get.
  destruct (_ || _); [apply wp_ret; eauto|]. apply wp_bind. apply wp_route; [done|]. intros [n|] w1 Hw1.
  2:{ eapply wp_unless_icmp6; [by eapply at_sends|done|done|done|eauto]. }
  pose proof (at_sends _ _ _ _ _ _ Hat Hw1) as Hat1. destruct (_ || _); [apply wp_ret; eauto|].
  pose proof (single_length _ _ _ _ Hs) as Hlen.
  apply wp_bind. eapply wp_exec; [eapply (pread8_exec p b bs); [eauto|unfold OFF_HOPLIM; lia]|].
  set (hl := byte_at _ bs). apply wp_bind. unfold IP6H_HOPLIM_SET.
  destruct (pwrite_exec p b bs w1 OFF_HOPLIM [u8 (hl - 1)]) as (b2 & E2 & Hs2 & Hr2);
    [eauto|apply Forall_singleton, u8_range|done|unfold OFF_HOPLIM; simpl length; lia|].
  eapply wp_exec; [exact E2|]. pose proof (at_put _ _ _ _ _ _ _ Hat1 Hs2) as Hat2.
  set (bs2 := splice (Z.to_nat OFF_HOPLIM) _ bs) in *.
  assert (Hl2 : length bs2 = length bs) by (unfold bs2; rewrite length_splice; [done|simpl length; unfold OFF_HOPLIM; lia]).
  destruct (refilled_fields _ _ Hr2) as (Er & _).
  apply wp_bind. eapply wp_exec; [eapply (pread8_exec p b2 bs2); [exact Hs2|unfold OFF_HOPLIM; lia]|].
  assert (Hend : forall w', at_pbuf w p b2 bs2 w' -> Q tt w') by (intros w' Hw'; eapply HQ; [exact Hw'|congruence]).
  destruct (_ =? 0).
  { eapply wp_unless_icmp6; [exact Hat2|lia|done|done|exact Hend]. }
  apply wp_bind. eapply wp_exec; [eapply pb_node_exec, Hs2|]. destruct (_ && _).
  { eapply wp_unless_icmp6; [exact Hat2|lia|done|done|exact Hend]. }
  apply wp_bind, wp_get, wp_bind. eapply wp_mono; [eapply (output_ok _ n p [(p, b2)] bs2), single_pkt, Hs2|].
  intros r w3 Hw3. apply wp_ret, Hend. by eapply at_sends.
Qed.

Lemma accept_total d n : netif_wf n -> exists b, ip6_input_accept d n = Ret b.
Proof. intros Hn. unfold ip6_input_accept. destruct (netif_is_up n); [by apply has_valid_total|by eexists]. Qed.

(** The accepting interface is [inp] or one of the list. *)
Lemma wp_accepting w s d inp Q :
  netif_sane inp -> Forall netif_sane (sn_list sn) ->
  (forall r w', sends w w' -> (forall n, r = Some n -> netif_sane n) -> Q r w') -> wp (accepting_netif sn s d inp) w Q.
Proof.
  intros Hin Hall HQ. unfold accepting_netif.
  assert (Hi : forall w', sends w w' -> Q (Some inp) w') by (intros w' Hw; apply HQ; [done|naive_solver]).
  assert (Hn0 : forall w', sends w w' -> Q None w') by (intros w' Hw; apply HQ; [done|naive_solver]).
  destruct (ip6_addr_ismulticast d).
  - destruct (_ || _); [apply wp_ret; auto|]. apply wp_bind. eapply wp_mono; [apply group_ok|]. intros [] w' Hw;
      apply wp_ret; auto.
  - destruct (accept_total d inp (proj1 Hin)) as [a E]. apply wp_bind. eapply wp_lift; [exact E|].
    destruct a; [apply wp_ret; auto|]. do 2 (destruct (_ || _); [apply wp_ret; auto|]).
    destruct (find_netif_sane (other_netifs sn inp) (ip6_input_accept d)) as (r & Er & Hr).
    { apply Forall_forall. intros n [_ Hn]%list_elem_of_filter. rewrite Forall_forall in Hall.
      split; [by apply Hall|apply accept_total, Hall, Hn]. }
    eapply wp_lift; [exact Er|]. apply HQ; auto.
Qed.
End forwarding.

(** ** The walk over the extension headers *)

Section walk.
Context `{Env} `{LowerLayersOk} (w0 : world) (p : loc) (hdr N : Z) (cur : netif).
Hypotheses (Hsrc : ip6_wf (w_cur_src w0)) (Hcur : netif_sane cur) (Hhdr : 0 <= hdr).

(** The packet while its headers are read: [hdr] is the position of the IPv6 header,
    and two more bytes than the packet has can be read. *)
Record walking (b : pbuf) (bs : list Z) (w : world) : Prop := {
  wk_at : at_pbuf w0 p b bs w;
  wk_ref : pb_ref b = 1;
  wk_type : type_contiguous (pb_type b) = true;
  wk_buf : Z.of_nat (length (pb_buf b)) = N;
  wk_pos : hdr + 40 <= pb_payload b;
  wk_room : pb_payload b + pb_len b + 2 <= N;
  wk_max : pb_payload b + pb_len b - hdr <= 60000
}.

Lemma walking_len b bs w : walking b bs w -> Z.of_nat (length bs) = pb_len b /\ 0 <= pb_len b.
Proof. intros Hw. pose proof (single_length _ _ _ _ (at_single _ _ _ _ _ (wk_at _ _ _ Hw))). lia. Qed.

Lemma walking_sends b bs w w' : walking b bs w -> sends w w' -> walking b bs w'.
Proof. intros [] Hs. split; try done. by eapply at_sends. Qed.

Lemma wp_read_at b bs w pos n Q :
  walking b bs w -> 0 <= pos -> 0 <= n -> pos + n <= N ->
  (forall l, Forall is_byte l -> Q l w) -> wp (pread_at p pos n) w Q.
Proof.
  intros Hw Hp Hn Hl HQ. pose proof (at_single _ _ _ _ _ (wk_at _ _ _ Hw)) as Hs.
  unfold pread_at. apply wp_bind. eapply wp_exec; [by eapply pb_node_exec|]. cbn [n_val]. eapply wp_lift.
  { apply rd_ok; [done|done|]. rewrite (wk_buf _ _ _ Hw). done. }
  apply HQ, Forall_slice. destruct Hs as (_ & (_ & _ & _ & _ & Hb) & _). done.
Qed.
Lemma wp_read8_at b bs w pos Q :
  walking b bs w -> 0 <= pos < N -> (forall v, is_byte v -> Q v w) -> wp (pread8_at p pos) w Q.
Proof.
  intros Hw Hp HQ. unfold pread8_at. apply wp_bind. eapply wp_read_at; [exact Hw|lia|lia|lia|].
  intros l Hl. apply wp_ret, HQ, byte_at_byte, Hl.
Qed.

Lemma wp_gone {A} b bs w (a : A) Q :
  walking b bs w -> (forall w', gone w0 p w' -> Q a w') -> wp (pbuf_free_m p;; mret a) w Q.
Proof. intros Hw. by eapply wp_drop; [apply Hw|apply Hw]. Qed.

Lemma wp_problem b bs w c ptr Q :
  walking b bs w -> (forall w', walking b bs w' -> Q tt w') -> wp (icmp6_param_problem cur hdr p c ptr) w Q.
Proof.
  intros Hw HQ. pose proof (wk_at _ _ _ Hw) as Hat. destruct (at_fields _ _ _ _ _ Hat) as [Ec _].
  eapply wp_send_response; [eauto|by rewrite Ec|done|]. intros w' Hs. apply HQ. by eapply walking_sends.
Qed.
Lemma wp_problem_drop {A} b bs w c ptr (a : A) Q :
  walking b bs w -> (forall w', gone w0 p w' -> Q a w') ->
  wp (param_problem_drop cur hdr p c ptr;; mret a) w Q.
Proof.
  intros Hw HQ. unfold param_problem_drop. apply wp_bind, wp_bind. eapply wp_problem; [exact Hw|]. intros w' Hw'.
  eapply wp_gone; [exact Hw'|]. intros w2 Hg. by apply wp_ret, HQ.
Qed.

(** Removing a header that fits. *)
Lemma wp_skip b bs w hlen Q :
  walking b bs w -> 0 < hlen <= pb_len b ->
  (forall w', walking (shifted hlen b) (drop (Z.to_nat hlen) bs) w' -> Q (Some hlen) w') ->
  wp (pbuf_remove_header_m p hlen;; mret (Some hlen)) w Q.
Proof.
  intros Hw Hh HQ. pose proof (walking_len _ _ _ Hw) as [Hl _]. destruct Hw as [Hat Hr Ht Hb Hp Hroom Hmax].
  destruct (remove_header_exec w p b bs hlen) as [E Hs]; [eauto|lia|lia|].
  apply wp_bind. eapply wp_exec; [exact E|]. apply wp_ret, HQ. split; try done.
  - by eapply at_put.
  - simpl. lia.
  - simpl. lia.
  - simpl. lia.
Qed.

Lemma wp_walk_options b bs w dest hlen Q :
  walking b bs w -> 2 <= hlen <= pb_len b ->
  (forall w', walking b bs w' -> Q true w') -> (forall w', gone w0 p w' -> Q false w') ->
  wp (walk_options cur hdr p dest (pb_payload b) hlen) w Q.
Proof.
  intros Hw Hh Hok Hno. unfold walk_options.
  apply (wp_loop (fun off w => 2 <= off /\ walking b bs w) (fun off _ => Z.to_nat (hlen - off))).
  { split; [done|exact Hw]. } { unfold IP6_HBH_HLEN. lia. }
  clear w Hw. intros off w [Ho Hw]. unfold options_body. pose proof (wk_room _ _ _ Hw) as Hroom.
  pose proof (wk_pos _ _ _ Hw) as Hpos. destruct (Z.ltb_spec off hlen); [|by apply wp_ret, Hok].
  apply wp_bind. eapply wp_read8_at; [exact Hw|lia|]. intros type _. destruct (opt_action dest type).
  - apply wp_ret. unfold IP6_OPT_HLEN. split; [split; [lia|done]|lia].
  - apply wp_bind. eapply wp_read8_at; [exact Hw|lia|]. intros dl Hdl. unfold is_byte in Hdl. apply wp_ret.
    unfold IP6_OPT_HLEN. split; [split; [lia|done]|lia].
  - eapply wp_gone; [exact Hw|auto].
  - eapply wp_problem_drop; [exact Hw|auto].
  - apply wp_bind, wp_get, wp_bind. destruct (negb _).
    + eapply wp_problem; [exact Hw|]. intros w' Hw'. eapply wp_gone; [exact Hw'|auto].
    + apply wp_ret. eapply wp_gone; [exact Hw|auto].
Qed.

(** What the three kinds of header leave. *)
Definition header_done (b : pbuf) (bs : list Z) (r : option Z) (w : world) : Prop :=
  match r with
  | None => gone w0 p w
  | Some hlen => 8 <= hlen <= pb_len b /\ walking (shifted hlen b) (drop (Z.to_nat hlen) bs) w
  end.

Lemma wp_payload_pos b bs w Q : walking b bs w -> Q (pb_payload b) w -> wp (payload_pos p) w Q.
Proof.
  intros Hw HQ. unfold payload_pos. apply wp_bind. eapply wp_exec; [eapply pb_node_exec, at_single, Hw|]. by apply wp_ret.
Qed.

Lemma wp_ext_hlen b bs w Q :
  walking b bs w -> (forall hlen ok, (ok = true -> 8 <= hlen <= pb_len b) -> Q (hlen, ok) w) ->
  wp (ext_hlen p (pb_payload b)) w Q.
Proof.
  intros Hw HQ. pose proof (walking_len _ _ _ Hw). pose proof (wk_room _ _ _ Hw). pose proof (wk_pos _ _ _ Hw).
  unfold ext_hlen. apply wp_bind. eapply wp_read8_at; [exact Hw|lia|]. intros v Hv. unfold is_byte in Hv.
  apply wp_bind. eapply wp_exec; [eapply pb_node_exec, at_single, Hw|]. apply wp_ret. cbn [n_val]. apply HQ.
  rewrite u16_small by lia. destruct (Z.ltb_spec (pb_len b) 8), (Z.ltb_spec (pb_len b) (8 * (1 + v))); simpl; [done..|]. lia.
Qed.

Lemma wp_options_header b bs w dest : walking b bs w -> wp (options_header cur hdr p dest) w (header_done b bs).
Proof.
  intros Hw. unfold options_header. apply wp_bind. eapply wp_payload_pos; [exact Hw|].
  apply wp_bind. eapply wp_ext_hlen; [exact Hw|]. intros hlen ok Hh. cbn [fst snd].
  destruct ok; cbn [negb]; [|eapply wp_gone; [exact Hw|auto]]. specialize (Hh eq_refl).
  apply wp_bind. eapply wp_walk_options; [exact Hw|lia| |intros w' Hg; by apply wp_ret].
  intros w' Hw'. eapply wp_skip; [exact Hw'|lia|]. intros w2 Hw2. by split.
Qed.

Lemma wp_routing_header b bs w : walking b bs w -> wp (routing_header cur hdr p) w (header_done b bs).
Proof.
  intros Hw. pose proof (wk_room _ _ _ Hw). pose proof (wk_pos _ _ _ Hw).
  unfold routing_header. apply wp_bind. eapply wp_payload_pos; [exact Hw|].
  apply wp_bind. eapply wp_ext_hlen; [exact Hw|]. intros hlen ok Hh. cbn [fst snd].
  destruct ok; cbn [negb]; [|eapply wp_gone; [exact Hw|auto]]. specialize (Hh eq_refl).
  assert (Hskip : wp (pbuf_remove_header_m p hlen;; mret (Some hlen)) w (header_done b bs)).
  { eapply wp_skip; [exact Hw|lia|]. intros w2 Hw2. by split. }
  apply wp_bind. eapply wp_read8_at; [exact Hw|lia|]. intros sl _. destruct (negb _); [|exact Hskip].
  apply wp_bind. eapply wp_read8_at; [exact Hw|lia|]. intros len _.
  destruct (negb _); [eapply wp_problem_drop; [exact Hw|auto]|].
  apply wp_bind. eapply wp_read8_at; [exact Hw|lia|]. intros ty _. destruct (_ || _); [exact Hskip|].
  eapply wp_problem_drop; [exact Hw|auto].
Qed.

Lemma wp_fragment_header b bs w : walking b bs w -> wp (fragment_header cur hdr p) w (header_done b bs).
Proof.
  intros Hw. pose proof (walking_len _ _ _ Hw). pose proof (wk_room _ _ _ Hw). pose proof (wk_pos _ _ _ Hw).
  unfold fragment_header. apply wp_bind. eapply wp_payload_pos; [exact Hw|].
  apply wp_bind. eapply wp_exec; [eapply pb_node_exec, at_single, Hw|]. cbn [n_val].
  destruct (Z.ltb_spec (pb_len b) 8); [eapply wp_gone; [exact Hw|auto]|].
  apply wp_bind. eapply wp_read_at; [exact Hw|lia|lia|lia|]. intros off _.
  apply wp_bind. unfold OFF_PLEN. eapply wp_read_at; [exact Hw|lia|lia|lia|]. intros plen _.
  destruct (_ && _); [eapply wp_problem_drop; [exact Hw|auto]|].
  destruct (_ =? 0); [|eapply wp_gone; [exact Hw|auto]].
  eapply wp_skip; [exact Hw|lia|]. intros w2 Hw2. split; [lia|done].
Qed.

(** The remaining length of the packet, the measure of the walk. *)
Definition left_in (w : world) : nat :=
  match w_pbufs w !! p with Some n => Z.to_nat (pb_len (n_val n)) | None => 0 end.

(** Where the walk is: the byte read next, and how far the payload has moved. *)
Definition walk_inv (st : Z * Z) (w : world) : Prop :=
  exists b bs, walking b bs w /\ 0 <= st.1 < N /\ st.2 = pb_payload b - hdr.

Lemma wp_headers fuel w b bs Q :
  walking b bs w -> pb_payload b = hdr + 40 -> (Z.to_nat (pb_len b) < fuel)%nat ->
  (forall w', gone w0 p w' -> Q None w') ->
  (forall st w', walk_inv st w' -> Q (Some st) w') ->
  wp (walk_headers cur hdr p fuel) w Q.
Proof.
  intros Hw Hpay Hf Hno Hok. pose proof (walking_len _ _ _ Hw) as Hlen. pose proof (wk_room _ _ _ Hw) as Hroom.
  unfold walk_headers. apply (wp_loop walk_inv (fun _ w => left_in w)).
  { exists b, bs. split_and!; [done| | |]; unfold OFF_NEXTH, IP6_HLEN; simpl; lia. }
  { pose proof (at_single _ _ _ _ _ (wk_at _ _ _ Hw)) as [Hp _]. unfold left_in. by rewrite Hp. }
  clear b bs w Hw Hpay Hf Hlen Hroom. intros [nexth tot] w (b & bs & Hw & Hn & Ht). cbn [fst snd] in Hn, Ht.
  pose proof (walking_len _ _ _ Hw) as Hlen. pose proof (wk_room _ _ _ Hw). pose proof (wk_pos _ _ _ Hw).
  pose proof (wk_max _ _ _ Hw). unfold headers_body.
  assert (Hdone : Q (Some (nexth, tot)) w) by (apply Hok; exists b, bs; split; [done|]; simpl; lia).
  apply wp_bind. eapply wp_read8_at; [exact Hw|lia|]. intros v _.
  destruct (v =? IP6_NEXTH_NONE); [by apply wp_ret|].
  apply wp_bind. eapply wp_payload_pos; [exact Hw|].
  assert (Hnext : forall m, wp m w (header_done b bs) ->
    wp (r ← m; match r with
               | None => mret (inr None)
               | Some hlen =>
                   v' ← pread8_at p (pb_payload b);
                   if v' =? IP6_NEXTH_HOPBYHOP
                   then param_problem_drop cur hdr p ICMP6_PP_HEADER (pb_payload b);; mret (inr None)
                   else mret (inl (pb_payload b, u16 (tot + hlen)))
               end) w (fun r w' => match r with
                                   | inl a' => walk_inv a' w' /\ (left_in w' < left_in w)%nat
                                   | inr c => Q c w'
                                   end)).
  { intros m Hm. apply wp_bind. eapply wp_mono; [exact Hm|]. intros [hlen|] w1 Hd; [|by apply wp_ret, Hno].
    destruct Hd as [Hh Hw1]. apply wp_bind. eapply wp_read8_at; [exact Hw1|lia|]. intros v' _.
    destruct (v' =? IP6_NEXTH_HOPBYHOP); [eapply wp_problem_drop; [exact Hw1|auto]|]. apply wp_ret. split.
    - eexists _, _. split_and!; [exact Hw1|simpl; lia|simpl; lia|]. simpl. rewrite u16_small by lia. lia.
    - pose proof (at_single _ _ _ _ _ (wk_at _ _ _ Hw1)) as [Hp1 _]. pose proof (at_single _ _ _ _ _ (wk_at _ _ _ Hw)) as [Hp0 _].
      unfold left_in. rewrite Hp1, Hp0. simpl. lia. }
  destruct (v =? IP6_NEXTH_HOPBYHOP); [by apply Hnext, wp_options_header|].
  destruct (v =? IP6_NEXTH_DESTOPTS); [by apply Hnext, wp_options_header|].
  destruct (v =? IP6_NEXTH_ROUTING); [by apply Hnext, wp_routing_header|].
  destruct (v =? IP6_NEXTH_FRAGMENT); [by apply Hnext, wp_fragment_header|]. by apply wp_ret.
Qed.
End walk.

(** ** The whole of ip6_input *)

(** Cutting a packet in one pool buffer to [n] bytes. *)
Definition cut (n : Z) (b : pbuf) : pbuf :=
  if pb_tot_len b <=? n then b else with_window (pb_payload b) n n b.

Lemma realloc_exec w p b bs n :
  single (w_pbufs w) p b bs -> pb_type b = PBUF_POOL -> 0 <= n ->
  pbuf_realloc_m p n w = Ret (tt, put_pbuf p (cut n b) w) /\
  single (w_pbufs (put_pbuf p (cut n b) w)) p (cut n b) (take (Z.to_nat n) bs).
Proof.
  intros Hs Ht Hn. pose proof (single_length _ _ _ _ Hs) as Hl. pose proof Hs as (Hp & (H1 & H2 & H3 & H4 & H5) & Htot & <-).
  unfold pbuf_realloc_m, cut, pbuf_realloc, get, lift, mbind, M_bind. cbn. rewrite Hp. cbn.
  destruct (Z.leb_spec (pb_tot_len b) n).
  - rewrite take_ge by lia. split; [|split_and!; [apply lookup_insert_eq|done|done|done]].
    unfold modify. f_equal. f_equal. apply world_eq; try reflexivity. simpl. by rewrite insert_id.
  - erewrite oloop_exit; [split; [reflexivity|]|].
    2:{ unfold realloc_body, realloc_end. cbn. rewrite Hp. cbn. destruct (Z.ltb_spec (pb_len b) n); [lia|]. by rewrite Ht. }
    split_and!; [apply lookup_insert_eq| |done|].
    + unfold seg_ok. cbn. split_and!; try lia. done.
    + unfold seg_bytes, slice. cbn. rewrite take_take. f_equal. lia.
Qed.

Lemma assign_zone_wf a ty n : ip6_wf a -> ip6_wf (ip6_addr_assign_zone a ty n).
Proof. done. Qed.

Section input.
Context `{Env} `{LowerLayersOk} (sn : stack_netifs).
Hypothesis Hsn : Forall netif_sane (sn_list sn).

(** From [options_done] on the packet is always released. *)
Lemma wp_upper_layer w0 p hdr N cur inp w st Q :
  ip6_wf (w_cur_src w0) -> ip6_wf (w_cur_dest w0) -> netif_sane cur -> netif_sane inp -> 0 <= hdr ->
  walk_inv w0 p hdr N st w -> (forall w', gone w0 p w' -> Q tt w') ->
  wp (upper_layer cur inp hdr p st.1 st.2) w Q.
Proof.
  intros Hsrc Hdest Hcur Hin Hhdr (b & bs & Hw & Hn & Ht) HQ. pose proof Hw as [Hat Hr Hty Hbuf Hpos Hroom Hmax].
  pose proof (walking_len _ _ _ _ _ _ _ Hw) as [Hlen ?]. destruct (at_fields _ _ _ _ _ Hat) as [Es Ed].
  pose proof (at_single _ _ _ _ _ Hat) as Hs. unfold upper_layer.
  apply wp_bind. eapply wp_read8_at; [exact Hw|lia|]. intros v _.
  destruct (v =? IP6_NEXTH_NONE); [by eapply wp_drop|]. destruct (v =? IP6_NEXTH_ICMP6).
  { eapply (wp_icmp6_input w p b bs); [by split|lia|by rewrite Es|by rewrite Ed|apply Hin|].
    intros w' Hg. apply HQ. by eapply gone_from. }
  destruct (add_header_exec true w p b bs st.2 Hs Hty ltac:(lia) ltac:(lia)) as (pre & Hpre & E & Hs2).
  apply wp_bind. eapply wp_exec; [exact E|]. apply wp_bind, wp_get, wp_bind.
  pose proof (at_put _ _ _ _ _ _ _ Hat Hs2) as Hat2. set (w2 := put_pbuf p _ w) in *. clearbody w2.
  assert (Hd2 : forall w', at_pbuf w0 p (shifted (- st.2) b) (pre ++ bs) w' -> wp (pbuf_free_m p;; mret tt) w' Q).
  { intros w' Hat'. eapply wp_drop; [exact Hat'|exact Hr|exact HQ]. }
  unfold pread8_at, pread_at. apply wp_bind, wp_bind. eapply wp_exec; [by eapply pb_node_exec|]. cbn [n_val].
  eapply wp_lift. { apply rd_ok; unfold OFF_NEXTH; simpl; lia. }
  apply wp_ret, wp_bind. destruct (_ && _); [|apply wp_ret; auto].
  destruct (at_fields _ _ _ _ _ Hat2) as [Es2 _].
  eapply wp_send_response; [eauto|by rewrite Es2|done|]. intros w3 Hw3. apply Hd2. by eapply at_sends.
Qed.

Lemma wp_dispatch w p b bs hdr inp Q :
  owned w p b bs -> type_contiguous (pb_type b) = true -> hdr = pb_payload b -> (40 <= length bs)%nat ->
  Z.of_nat (length bs) <= 60000 -> pb_payload b + pb_len b + 2 <= Z.of_nat (length (pb_buf b)) ->
  ip6_wf (w_cur_src w) -> ip6_wf (w_cur_dest w) -> netif_sane inp ->
  (forall w', gone w p w' -> Q tt w') -> wp (ip6_dispatch sn p hdr inp) w Q.
Proof.
  intros [Hs Hr] Hc -> Hl Hmax Hroom Hsrc Hdest Hin HQ. pose proof (single_length _ _ _ _ Hs) as Hlen.
  pose proof Hs as (_ & (Hpay & _) & _). unfold ip6_dispatch. apply wp_bind, wp_get, wp_bind.
  eapply wp_accepting; [done|done|]. intros r w1 Hw1 Hr1.
  pose proof (at_sends _ _ _ _ _ _ (at_start _ _ _ _ Hs) Hw1) as Hat.
  destruct (_ && _); [by eapply wp_drop|]. destruct r as [cur|].
  - specialize (Hr1 cur eq_refl). apply wp_bind. eapply wp_exec; [eapply pb_node_exec; eauto|]. cbn [n_val].
    destruct (remove_header_exec w1 p b bs IP6_HLEN) as [E Hs2]; [eauto|unfold IP6_HLEN; lia|by vm_compute|].
    apply wp_bind. eapply wp_exec; [exact E|]. apply wp_bind.
    assert (Hw : walking w p (pb_payload b) (Z.of_nat (length (pb_buf b))) (shifted IP6_HLEN b) (drop 40 bs)
                   (put_pbuf p (shifted IP6_HLEN b) w1)).
    { split; try done; [by eapply at_put|..]; unfold shifted, IP6_HLEN; cbn; lia. }
    eapply wp_headers; [done|exact Hr1|done|exact Hw|done|unfold shifted, IP6_HLEN; cbn; lia| |].
    + intros w' Hg. apply wp_ret. by apply HQ.
    + intros st w' Hi. by eapply wp_upper_layer.
  - apply wp_bind. apply (wp_mono _ _ (fun _ w' => exists b' bs', at_pbuf w p b' bs' w' /\ pb_ref b' = 1)).
    2:{ intros [] w' (b' & bs' & Hat' & Hr'). by eapply wp_drop. }
    destruct (negb _); [|apply wp_ret; eauto]. destruct (at_fields _ _ _ _ _ Hat) as [Es _].
    eapply (wp_forward sn); [eapply Forall_impl; [exact Hsn|by intros ? []]|split; eauto|done|by rewrite Es|done|].
    intros w' b' bs' Hat' Hr'. exists b', bs'. split; [by eapply at_trans|done].
Qed.

(** The packet was released and otherwise only output happened; the current addresses
    are those of the packet, or reset. *)
Definition consumed (w : world) (p : loc) (w' : world) : Prop :=
  exists es k s d, w' = del_pbuf p (set_current s d (logged es k w)).

Lemma gone_consumed w p s d w' : gone (set_current s d w) p w' -> consumed w p w'.
Proof. intros (es & k & ->). by exists es, k, s, d. Qed.
Lemma gone_consumed' w p w' : gone w p w' -> consumed w p w'.
Proof. intros (es & k & ->). exists es, k, (w_cur_src w), (w_cur_dest w). done. Qed.
Lemma consumed_reset w p s d w' : consumed w p w' -> consumed w p (set_current s d w').
Proof. intros (es & k & s' & d' & ->). by exists es, k, s, d. Qed.

(** The buffers [ip6_input] is given: one pool buffer, as the TUN driver fills them, with
    room for two more bytes, since the length of an extension header is read before the
    header is known to be there. *)
Record stack_packet (b : pbuf) (bs : list Z) : Prop := {
  sk_type : pb_type b = PBUF_POOL;
  sk_some : (0 < length bs)%nat;
  sk_max : Z.of_nat (length bs) <= 60000;
  sk_room : pb_payload b + pb_len b + 2 <= Z.of_nat (length (pb_buf b))
}.

(** What [ip6_input] checks before it looks for an interface. *)
Definition input_checked (bs : list Z) : bool :=
  (hdr_version bs =? 6) && (40 + hdr_plen bs <=? Z.of_nat (length bs)) &&
  negb (ip6_addr_isipv4mappedipv6 (hdr_dest bs) || ip6_addr_isipv4mappedipv6 (hdr_src bs) ||
        ip6_addr_ismulticast (hdr_src bs)).
(** The world in which the packet is dispatched: cut to its length, its addresses current. *)
Definition dispatched (w : world) (p : loc) (b : pbuf) (bs : list Z) (inp : netif) : world :=
  put_pbuf p (cut (40 + hdr_plen bs) b)
    (set_current (ip6_addr_assign_zone (hdr_src bs) IP6_UNICAST inp)
                 (ip6_addr_assign_zone (hdr_dest bs) IP6_UNKNOWN inp) w).

Lemma wp_input_to_dispatch w p b bs inp Q :
  owned w p b bs -> stack_packet b bs ->
  (input_checked bs = false \/ (length bs < 40)%nat -> forall w', consumed w p w' -> Q ERR_OK w') ->
  (input_checked bs = true -> (40 <= length bs)%nat ->
   wp (ip6_dispatch sn p (pb_payload b) inp) (dispatched w p b bs inp)
     (fun _ w' => Q ERR_OK (set_current ip6_addr_any ip6_addr_any w'))) ->
  wp (ip6_input_impl sn p inp) w Q.
Proof.
  intros [Hs Hr] [Ht Hl Hmax _] Hno Hyes. pose proof (single_length _ _ _ _ Hs) as Hlen. pose proof Hs as (_ & _ & Htot & _).
  pose proof (at_start _ _ _ _ Hs) as Hat. unfold ip6_input_impl. apply wp_bind.
  eapply (wp_exec _ _ (hdr_version bs)); [unfold IP6H_V; by exec (pread8_exec _ _ _ _ 0 Hs ltac:(lia))|].
  unfold input_checked in *. destruct (hdr_version bs =? 6); cbn [negb andb] in *.
  2:{ eapply wp_drop; [exact Hat|exact Hr|]. intros w' Hg. by apply Hno, gone_consumed'; [left|]. }
  apply wp_bind. eapply wp_exec; [by eapply pb_node_exec|]. cbn [n_val]. unfold IP6_HLEN.
  destruct (Z.ltb_spec (pb_len b) 40) as [Hsh|Hsh].
  { apply wp_bind, wp_ret. eapply wp_drop; [exact Hat|exact Hr|]. intros w' Hg. apply Hno, gone_consumed'; [right; lia|done]. }
  assert (Hl40 : (40 <= length bs)%nat) by lia. pose proof (IP6H_PLEN_exec p b bs w Hs Hl40) as HP.
  pose proof (hdr_plen_range bs) as Hpr.
  apply wp_bind, wp_bind. eapply wp_exec; [exact HP|]. apply wp_ret.
  replace (40 + hdr_plen bs <=? Z.of_nat (length bs)) with (negb (pb_tot_len b - 40 <? hdr_plen bs)) in *
    by (destruct (Z.ltb_spec (pb_tot_len b - 40) (hdr_plen bs)), (Z.leb_spec (40 + hdr_plen bs) (Z.of_nat (length bs))); lia || done).
  destruct (Z.ltb_spec (pb_tot_len b - 40) (hdr_plen bs)); cbn [negb andb] in *.
  { eapply wp_drop; [exact Hat|exact Hr|]. intros w' Hg. by apply Hno, gone_consumed'; [left|]. }
  apply wp_bind. eapply wp_exec; [exact HP|]. rewrite u16_small by lia.
  destruct (realloc_exec w p b bs (40 + hdr_plen bs) Hs Ht ltac:(lia)) as [E Hs2].
  apply wp_bind. eapply wp_exec; [exact E|]. pose proof (single_length _ _ _ _ Hs2) as Hlen2.
  rewrite length_take in Hlen2.
  assert (Hf : pb_payload (cut (40 + hdr_plen bs) b) = pb_payload b /\ pb_ref (cut (40 + hdr_plen bs) b) = 1).
  { unfold cut. by destruct (_ <=? _). }
  destruct Hf as [Hf1 Hf2]. apply wp_bind. unfold payload_pos. apply wp_bind.
  eapply wp_exec; [by eapply pb_node_exec|]. cbn [n_val]. apply wp_ret.
  assert (Hsl : forall o, (o + 16 <= 40)%nat -> slice o 16 (take (Z.to_nat (40 + hdr_plen bs)) bs) = slice o 16 bs).
  { intros o Ho. apply slice_take. lia. }
  do 2 (apply wp_bind; eapply wp_exec; [eapply pread_exec; [exact Hs2|done|lia|rewrite length_take; unfold OFF_DEST, OFF_SRC; lia]|]).
  change (Z.to_nat 16) with 16%nat. rewrite (Hsl (Z.to_nat OFF_DEST)), (Hsl (Z.to_nat OFF_SRC)) by (vm_compute; lia).
  change (ip6_of_bytes (slice (Z.to_nat OFF_DEST) 16 bs)) with (hdr_dest bs).
  change (ip6_of_bytes (slice (Z.to_nat OFF_SRC) 16 bs)) with (hdr_src bs).
  rewrite Hf1. apply wp_bind, wp_modify. destruct (_ || _); cbn [negb] in *.
  { set (w1 := set_current _ _ _). eapply (wp_drop w1 p); [apply at_start; exact Hs2|exact Hf2|].
    intros w' Hg. apply Hno; [by left|].
    eapply gone_consumed, (gone_put (set_current (hdr_src bs) (hdr_dest bs) w)), Hg. }
  apply wp_bind, wp_modify, wp_bind. eapply wp_mono; [exact (Hyes eq_refl Hl40)|].
  intros r w' HQ. by apply wp_bind, wp_modify, wp_ret.
Qed.

Lemma wp_ip6_input w p b bs inp Q :
  owned w p b bs -> stack_packet b bs -> netif_sane inp ->
  (forall w', consumed w p w' -> Q ERR_OK w') ->
  wp (ip6_input_impl sn p inp) w Q.
Proof.
  intros Ho Hsk Hin HQ. eapply wp_input_to_dispatch; [exact Ho|exact Hsk|auto|]. destruct Hsk as [Ht Hl Hmax Hroom].
  intros Hok Hl40.
  pose proof Ho as [Hs Hr]. destruct (realloc_exec w p b bs (40 + hdr_plen bs) Hs Ht) as [_ Hs2];
    [pose proof (hdr_plen_range bs); lia|].
  pose proof (single_bytes _ _ _ _ Hs) as Hb. pose proof (hdr_plen_range bs) as Hpr.
  assert (Hwf : forall o, (o + 16 <= 40)%nat -> ip6_wf (ip6_of_bytes (slice o 16 bs))).
  { intros o Hov. apply ip6_of_bytes_wf; [rewrite length_slice; lia|by apply Forall_slice]. }
  unfold input_checked in Hok. apply andb_true_iff in Hok as [[_ Hpl%Z.leb_le]%andb_true_iff _].
  set (b2 := cut (40 + hdr_plen bs) b) in *.
  assert (Hf : pb_payload b2 = pb_payload b /\ pb_ref b2 = pb_ref b /\ pb_type b2 = pb_type b /\ pb_buf b2 = pb_buf b /\
                 pb_len b2 <= pb_len b).
  { pose proof (single_length _ _ _ _ Hs). destruct Hs as (_ & _ & E & _). unfold b2, cut.
    destruct (Z.leb_spec (pb_tot_len b) (40 + hdr_plen bs)); simpl; split_and!; done || lia. }
  destruct Hf as (E1 & E2 & E3 & E4 & E5).
  eapply wp_dispatch; [split; [exact Hs2|congruence]|by rewrite E3, Ht|by rewrite E1|..].
  - rewrite length_take. lia.
  - rewrite length_take. lia.
  - rewrite E1, E4. lia.
  - apply assign_zone_wf, Hwf. lia.
  - apply assign_zone_wf, Hwf. lia.
  - done.
  - intros w' Hg. eapply HQ, consumed_reset, gone_consumed, gone_put, Hg.
Qed.
End input.
