(* ===== verification/Mld6.v ===== *)
(** * Multicast listener discovery

    lwip/src/core/ipv6/mld6.c: the multicast groups of each interface, a linked
    list of [struct mld_group] hung off the interface, with a use count and a
    timer each.  Joining and leaving, the answers to queries of routers after a
    random delay, and the messages that are sent (with [ip6_options_add_hbh_ra]
    of ip6.c).

    The state is the world with the memory of the groups beside it.  A group
    comes from a pool of [MEMP_NUM_MLD6_GROUP] elements; the client data of an
    interface is found by its number.  What [LWIP_RAND] returns and the filter of
    the driver are parameters; the counters of lwIP's statistics are left out. *)

From S2P Require Import Prelude LinkedList Ip6Addr World Netif Pbuf Ip6Hdr Custody Buffer InetChksum RawSocket Ip6Out Icmp6 Ip6In Ip6Spec.

(** ** State *)

Definition MLD6_HL : Z := 1.
Definition MLD6_JOIN_DELAYING_MEMBER_TMR_MS : Z := 500.
Definition MLD6_GROUP_DELAYING_MEMBER : Z := 1.
Definition MLD6_GROUP_IDLE_MEMBER : Z := 2.
Definition MLD6_TMR_MS : Z := 100.                 (* MLD6_TMR_INTERVAL *)
Definition MEMP_NUM_MLD6_GROUP : nat := 4.
Definition MLD6_HBH_HLEN : Z := 8.
Definition sizeof_mld_header : Z := 24.
Definition IP6_ROUTER_ALERT_DLEN : Z := 2.
Definition IP6_ROUTER_ALERT_VALUE_MLD : Z := 0.
Definition NETIF_DEL_MAC_FILTER : Z := 0.
Definition NETIF_ADD_MAC_FILTER : Z := 1.

Record mld_group := mk_group {
  group_address : ip6_addr;
  last_reporter_flag : Z;
  group_state : Z;
  g_timer : Z;
  g_use : Z
}.

Record mld_world := mk_mld {
  mw : world;
  groups : gmap loc (node mld_group);
  client_data : gmap Z (option loc)
}.

Definition in_world {A} (m : M world A) : M mld_world A :=
  fun s => match m (mw s) with
           | Ret (a, w) => Ret (a, mk_mld w (groups s) (client_data s))
           | Stuck => Stuck
           | Hang => Hang
           end.

Definition data_of (k : Z) (s : mld_world) : option loc := default None (client_data s !! k).
Definition netif_mld6_data (n : netif) : M mld_world (option loc) := gets (data_of (nif_num n)).
Definition netif_set_client_data (n : netif) (p : option loc) : M mld_world unit :=
  modify (fun s => mk_mld (mw s) (groups s) (<[nif_num n := p]> (client_data s))).
Definition group_at (l : loc) : M mld_world (node mld_group) :=
  s ← get; lift (deref (groups s !! l)).
Definition set_groups (f : gmap loc (node mld_group) -> gmap loc (node mld_group)) : M mld_world unit :=
  modify (fun s => mk_mld (mw s) (f (groups s)) (client_data s)).
Definition upd_group (l : loc) (f : mld_group -> mld_group) : M mld_world unit :=
  nd ← group_at l; set_groups (insert l (Node (f (n_val nd)) (n_next nd))).

Definition with_timer (t st : Z) (g : mld_group) : mld_group :=
  mk_group (group_address g) (last_reporter_flag g) st t (g_use g).
Definition with_flag (f : Z) (g : mld_group) : mld_group :=
  mk_group (group_address g) f (group_state g) (g_timer g) (g_use g).
Definition with_use (u : Z) (g : mld_group) : mld_group :=
  mk_group (group_address g) (last_reporter_flag g) (group_state g) (g_timer g) u.

(** [while (group != NULL) { ...; group = group->next; }] *)
Definition over_groups (body : loc -> M mld_world unit) (head : option loc) : M mld_world unit :=
  s ← get;
  loop (S (size (groups s))) (fun cur : option loc =>
    match cur with
    | None => mret (inr tt)
    | Some l => body l;; nd ← group_at l; mret (inl (n_next nd))
    end) head.

(** ** Operations *)

(** [ip6_options_add_hbh_ra] of ip6.c. *)
Definition ip6_options_add_hbh_ra (p : loc) (nexth value : Z) : M world err_t :=
  let hlen := IP6_OPT_HLEN * 2 + IP6_ROUTER_ALERT_DLEN in
  r ← pbuf_add_header_m p (IP6_HBH_HLEN + hlen);
  if negb (r =? 0) then mret ERR_BUF
  else
    pwrite p 0 [nexth];;
    pwrite p 1 [0];;
    let offset := IP6_HBH_HLEN in
    pwrite p offset [IP6_ROUTER_ALERT_OPTION];;
    pwrite p (offset + 1) [IP6_ROUTER_ALERT_DLEN];;
    let offset := offset + IP6_OPT_HLEN in
    pwrite p offset [value];;
    pwrite p (offset + 1) [0];;
    let offset := offset + IP6_ROUTER_ALERT_DLEN in
    pwrite p offset [IP6_PADN_OPTION];;
    pwrite p (offset + 1) [0];;
    mret ERR_OK.

Section mld6.
Context `{Env} `{LowerLayers}.
Context (lwip_rand : nat -> Z).
Context (mld_mac_filter : netif -> option (ip6_addr -> Z -> M world unit)).

Definition LWIP_RAND : M world Z := t ← next_tick; mret (u32 (lwip_rand t)).

Definition call_filter (n : netif) (a : ip6_addr) (action : Z) : M mld_world unit :=
  match mld_mac_filter n with
  | Some f => in_world (f a action)
  | None => mret tt
  end.

(** The source address of the messages. *)
Definition mld_source (n : netif) : outcome ip6_addr :=
  st ← netif_ip6_addr_state n 0;
  if negb (ip6_addr_isvalid st) then Ret ip6_addr_any else netif_ip6_addr n 0.

(** [mld_hdr] and its checksum. *)
Definition fill_mld_header (p : loc) (type : Z) (src group : ip6_addr) : M world unit :=
  pwrite p 0 [type];;
  pwrite p 1 [0];;
  pwrite p 2 (le_bytes 2 0);;
  pwrite p 4 (le_bytes 2 0);;
  pwrite p 6 (le_bytes 2 0);;
  pwrite p 8 (ip6_bytes group);;
  nd ← pb_node p;
  w ← get;
  c ← lift (ip6_chksum_pseudo (w_pbufs w) (Some p) IP6_NEXTH_ICMP6 (pb_len (n_val nd)) src group);
  pwrite p 2 (le_bytes 2 c).

Definition mld6_send (n : netif) (group : loc) (type : Z) : M mld_world unit :=
  po ← in_world (pbuf_alloc PBUF_IP (sizeof_mld_header + MLD6_HBH_HLEN) PBUF_RAM);
  match po with
  | None => mret tt
  | Some p =>
      r ← in_world (pbuf_remove_header_m p MLD6_HBH_HLEN);
      if negb (r =? 0) then in_world (pbuf_free_m p);; mret tt
      else
        src_addr ← lift (mld_source n);
        g ← group_at group;
        in_world (fill_mld_header p type src_addr (group_address (n_val g)));;
        in_world (ip6_options_add_hbh_ra p IP6_NEXTH_ICMP6 IP6_ROUTER_ALERT_VALUE_MLD);;
        (if type =? ICMP6_TYPE_MLR then upd_group group (with_flag 1) else mret tt);;
        in_world (ip6_output_if p (if ip6_addr_isany src_addr then None else Some src_addr)
                    (Some (group_address (n_val g))) MLD6_HL 0 IP6_NEXTH_HOPBYHOP n);;
        in_world (pbuf_free_m p);;
        mret tt
  end.

Definition mld6_delayed_report (group : loc) (maxresp_in : Z) : M mld_world unit :=
  let maxresp := u16 (maxresp_in / MLD6_TMR_MS) in
  let maxresp := if maxresp =? 0 then 1 else maxresp in
  r ← in_world LWIP_RAND;
  let maxresp := u16 (r mod maxresp) in
  let maxresp := if maxresp =? 0 then 1 else maxresp in
  nd ← group_at group;
  let g := n_val nd in
  if (group_state g =? MLD6_GROUP_IDLE_MEMBER) ||
     ((group_state g =? MLD6_GROUP_DELAYING_MEMBER) && ((g_timer g =? 0) || (maxresp <? g_timer g)))
  then upd_group group (with_timer maxresp MLD6_GROUP_DELAYING_MEMBER)
  else mret tt.

Definition stop_body (n : netif) (cur : option loc) : M mld_world (option loc + unit) :=
  match cur with
  | None => mret (inr tt)
  | Some l =>
      nd ← group_at l;
      call_filter n (group_address (n_val nd)) NETIF_DEL_MAC_FILTER;;
      set_groups (delete l);;
      mret (inl (n_next nd))
  end.
Definition mld6_stop (n : netif) : M mld_world err_t :=
  group ← netif_mld6_data n;
  netif_set_client_data n None;;
  s ← get;
  loop (S (size (groups s))) (stop_body n) group;;
  mret ERR_OK.

Definition mld6_report_groups (n : netif) : M mld_world unit :=
  group ← netif_mld6_data n;
  over_groups (fun l => mld6_delayed_report l MLD6_JOIN_DELAYING_MEMBER_TMR_MS) group.

Definition mld6_lookfor_group (n : netif) (addr : ip6_addr) : M mld_world (option loc) :=
  head ← netif_mld6_data n;
  s ← get;
  r ← lift (find_node (S (size (groups s))) (groups s) (fun g => Ret (ip6_addr_cmp (group_address g) addr)) head);
  mret (snd <$> r).

Definition mld6_new_group (n : netif) (addr : ip6_addr) : M mld_world (option loc) :=
  s ← get;
  if decide (size (groups s) < MEMP_NUM_MLD6_GROUP)%nat then
    let l := new_loc (groups s) in
    head ← netif_mld6_data n;
    set_groups (insert l (Node (mk_group addr 0 MLD6_GROUP_IDLE_MEMBER 0 0) head));;
    netif_set_client_data n (Some l);;
    mret (Some l)
  else mret None.

Definition remove_body (group : loc) (next : option loc) (cur : option loc) : M mld_world (option loc + err_t) :=
  match cur with
  | None => mret (inr ERR_ARG)
  | Some l =>
      nd ← group_at l;
      if decide (n_next nd = Some group) then
        set_groups (insert l (Node (n_val nd) next));; mret (inr ERR_OK)
      else mret (inl (n_next nd))
  end.
Definition mld6_remove_group (n : netif) (group : loc) : M mld_world err_t :=
  head ← netif_mld6_data n;
  nd ← group_at group;
  if decide (head = Some group) then netif_set_client_data n (n_next nd);; mret ERR_OK
  else s ← get; loop (S (size (groups s))) (remove_body group (n_next nd)) head.

(** The group address with the zone of the interface where it needs one. *)
Definition zoned (n : netif) (a : ip6_addr) : ip6_addr :=
  if ip6_addr_lacks_zone a IP6_MULTICAST then ip6_addr_assign_zone a IP6_MULTICAST n else a.

Definition mld6_joingroup_netif (n : netif) (groupaddr : ip6_addr) : M mld_world err_t :=
  let groupaddr := zoned n groupaddr in
  group ← mld6_lookfor_group n groupaddr;
  match group with
  | Some l => upd_group l (fun g => with_use (u8 (g_use g + 1)) g);; mret ERR_OK
  | None =>
      group ← mld6_new_group n groupaddr;
      match group with
      | None => mret ERR_MEM
      | Some l =>
          call_filter n groupaddr NETIF_ADD_MAC_FILTER;;
          mld6_send n l ICMP6_TYPE_MLR;;
          mld6_delayed_report l MLD6_JOIN_DELAYING_MEMBER_TMR_MS;;
          upd_group l (fun g => with_use (u8 (g_use g + 1)) g);;
          mret ERR_OK
      end
  end.

Definition mld6_leavegroup_netif (n : netif) (groupaddr : ip6_addr) : M mld_world err_t :=
  let groupaddr := zoned n groupaddr in
  group ← mld6_lookfor_group n groupaddr;
  match group with
  | Some l =>
      nd ← group_at l;
      (if g_use (n_val nd) <=? 1 then
         mld6_remove_group n l;;
         (if negb (last_reporter_flag (n_val nd) =? 0) then mld6_send n l ICMP6_TYPE_MLD else mret tt);;
         call_filter n groupaddr NETIF_DEL_MAC_FILTER;;
         set_groups (delete l)
       else upd_group l (fun g => with_use (u8 (g_use g - 1)) g));;
      mret ERR_OK
  | None => mret ERR_VAL
  end.

(** Whether the interface is one that [srcaddr] means. *)
Definition selects (srcaddr : ip6_addr) (n : netif) : outcome bool :=
  if ip6_addr_isany srcaddr then Ret true
  else m ← netif_get_ip6_addr_match n srcaddr; Ret (bool_decide (is_Some m)).

(** [NETIF_FOREACH] of the two functions; [err] is their variable. *)
Fixpoint join_netifs (l : list netif) (srcaddr groupaddr : ip6_addr) (err : err_t) : M mld_world err_t :=
  match l with
  | [] => mret err
  | n :: l =>
      b ← lift (selects srcaddr n);
      if (b : bool) then
        err ← mld6_joingroup_netif n groupaddr;
        if bool_decide (err <> ERR_OK) then mret err else join_netifs l srcaddr groupaddr err
      else join_netifs l srcaddr groupaddr err
  end.
Definition mld6_joingroup (l : list netif) (srcaddr groupaddr : ip6_addr) : M mld_world err_t :=
  join_netifs l srcaddr groupaddr ERR_VAL.

Fixpoint leave_netifs (l : list netif) (srcaddr groupaddr : ip6_addr) (err : err_t) : M mld_world err_t :=
  match l with
  | [] => mret err
  | n :: l =>
      b ← lift (selects srcaddr n);
      if (b : bool) then
        res ← mld6_leavegroup_netif n groupaddr;
        leave_netifs l srcaddr groupaddr (if bool_decide (err <> ERR_OK) then res else err)
      else leave_netifs l srcaddr groupaddr err
  end.
Definition mld6_leavegroup (l : list netif) (srcaddr groupaddr : ip6_addr) : M mld_world err_t :=
  leave_netifs l srcaddr groupaddr ERR_VAL.

Definition tmr_group (n : netif) (l : loc) : M mld_world unit :=
  nd ← group_at l;
  if 0 <? g_timer (n_val nd) then
    upd_group l (fun g => with_timer (g_timer g - 1) (group_state g) g);;
    nd ← group_at l;
    if (g_timer (n_val nd) =? 0) && (group_state (n_val nd) =? MLD6_GROUP_DELAYING_MEMBER) then
      mld6_send n l ICMP6_TYPE_MLR;;
      upd_group l (fun g => with_timer (g_timer g) MLD6_GROUP_IDLE_MEMBER g)
    else mret tt
  else mret tt.
Fixpoint mld6_tmr (l : list netif) : M mld_world unit :=
  match l with
  | [] => mret tt
  | n :: l => head ← netif_mld6_data n; over_groups (tmr_group n) head;; mld6_tmr l
  end.

(** *** Input *)

Definition mld_max_delay (p : loc) : M mld_world Z :=
  bs ← in_world (pread p 4 2); mret (lwip_htons (le_val bs)).

Definition mld_query (p : loc) (inp : netif) : M mld_world unit :=
  s ← get;
  any ← (if ip6_addr_isallnodes_linklocal (w_cur_dest (mw s)) then
           bs ← in_world (pread p 8 16); mret (ip6_addr_isany (ip6_of_bytes bs))
         else mret false);
  if (any : bool) then
    group ← netif_mld6_data inp;
    over_groups (fun l =>
      nd ← group_at l;
      if negb (ip6_addr_ismulticast_iflocal (group_address (n_val nd))) &&
         negb (ip6_addr_isallnodes_linklocal (group_address (n_val nd)))
      then d ← mld_max_delay p; mld6_delayed_report l d
      else mret tt) group
  else
    group ← mld6_lookfor_group inp (w_cur_dest (mw s));
    match group with
    | Some l => d ← mld_max_delay p; mld6_delayed_report l d
    | None => mret tt
    end.

Definition mld_report (inp : netif) : M mld_world unit :=
  s ← get;
  group ← mld6_lookfor_group inp (w_cur_dest (mw s));
  match group with
  | Some l =>
      nd ← group_at l;
      if group_state (n_val nd) =? MLD6_GROUP_DELAYING_MEMBER
      then upd_group l (fun g => with_flag 0 (with_timer 0 MLD6_GROUP_IDLE_MEMBER g))
      else mret tt
  | None => mret tt
  end.

Definition mld6_input (p : loc) (inp : netif) : M mld_world unit :=
  pn ← in_world (pb_node p);
  if pb_len (n_val pn) <? sizeof_mld_header then in_world (pbuf_free_m p);; mret tt
  else
    type ← in_world (pread8 p 0);
    (if type =? ICMP6_TYPE_MLQ then mld_query p inp
     else if type =? ICMP6_TYPE_MLR then mld_report inp
     else mret tt);;
    in_world (pbuf_free_m p);;
    mret tt.
End mld6.

(** ** The message *)

Definition with_world (w : world) (s : mld_world) : mld_world := mk_mld w (groups s) (client_data s).

Lemma wp_in_world {A} (m : M world A) s Q :
  wp m (mw s) (fun a w => Q a (with_world w s)) -> wp (in_world m) s Q.
Proof. unfold wp, in_world. destruct (m (mw s)) as [[a w]| |]; done. Qed.

(** A hop-by-hop header with the router alert option for MLD. *)
Definition router_alert : list Z :=
  [IP6_NEXTH_ICMP6; 0; IP6_ROUTER_ALERT_OPTION; IP6_ROUTER_ALERT_DLEN; IP6_ROUTER_ALERT_VALUE_MLD; 0; IP6_PADN_OPTION; 0].
Definition mld_message (type : Z) (src group : ip6_addr) : list Z :=
  with_checksum src group ([type; 0; 0; 0; 0; 0; 0; 0] ++ ip6_bytes group).

Lemma length_mld_message type s d : length (mld_message type s d) = 24%nat.
Proof. unfold mld_message. rewrite length_with_checksum by (simpl; lia). done. Qed.

Lemma mld_message_bytes type group F : (length F = 24)%nat ->
  splice (Z.to_nat 8) (ip6_bytes group) (splice (Z.to_nat 6) (le_bytes 2 0) (splice (Z.to_nat 4) (le_bytes 2 0)
    (splice (Z.to_nat 2) (le_bytes 2 0) (splice (Z.to_nat 1) [0] (splice (Z.to_nat 0) [type] F))))) =
  [type; 0; 0; 0; 0; 0; 0; 0] ++ ip6_bytes group.
Proof. intros HF. do 24 (destruct F as [|? F]; [done|]). destruct F; [reflexivity|done]. Qed.

(** One more field of a message of [len] bytes. *)
Ltac mld_field Hb HF :=
  apply wp_bind; eapply wp_buffer_write;
    [exact Hb|first [apply le_bytes_byte|apply ip6_bytes_byte|by apply Forall_singleton]
    |done|rewrite <-HF; by vm_compute|clear Hb; intros ? Hb].

Lemma wp_fill_mld w p b F type src group Q :
  single (w_pbufs w) p b F -> (length F = 24)%nat -> is_byte type -> ip6_wf src -> ip6_wf group ->
  (forall b', refilled b b' -> single (w_pbufs (put_pbuf p b' w)) p b' (mld_message type src group) ->
     Q tt (put_pbuf p b' w)) ->
  wp (fill_mld_header p type src group) w Q.
Proof.
  intros Hs HF Hty Hsrc Hgrp HQ. pose proof (single_length _ _ _ _ Hs) as Hl. rewrite HF in Hl.
  pose proof Hs as (_ & _ & Ht & _). pose proof (buffer_start _ _ _ _ Hs) as Hb. unfold fill_mld_header.
  do 6 mld_field Hb Hl. rewrite mld_message_bytes in Hb by done.
  pose proof (buffer_single _ _ _ _ _ _ Hb) as (b' & Hs' & Hr').
  apply wp_bind. eapply wp_exec; [by eapply pb_node_exec|]. apply wp_bind, wp_get, wp_bind. eapply wp_lift.
  { apply (chksum_pseudo_eq _ p [(p, b')]); [by apply single_pkt|done|done|by vm_compute|].
    cbn [n_val]. rewrite <-(single_length _ _ _ _ Hs'). done. }
  eapply wp_buffer_write; [exact Hb|apply le_bytes_byte|done|rewrite <-Hl; by vm_compute|].
  intros w2 (b2 & -> & Hs2 & Hr2). rewrite add_ticks_0 in *. apply HQ; [done|].
  replace (pb_len (n_val (Node b' None))) with 24 in Hs2; [exact Hs2|]. cbn [n_val].
  pose proof (single_length _ _ _ _ Hs') as Hl'. rewrite <-Hl'. by vm_compute.
Qed.

Lemma wp_add_router_alert w p b bs Q :
  single (w_pbufs w) p b bs -> type_contiguous (pb_type b) = true -> 8 <= pb_payload b -> Z.of_nat (length bs) + 8 < 65536 ->
  (forall b', single (w_pbufs (put_pbuf p b' w)) p b' (router_alert ++ bs) ->
     refilled (shifted (- 8) b) b' -> Q ERR_OK (put_pbuf p b' w)) ->
  wp (ip6_options_add_hbh_ra p IP6_NEXTH_ICMP6 IP6_ROUTER_ALERT_VALUE_MLD) w Q.
Proof.
  intros Hs Hc Hp Hl HQ. unfold ip6_options_add_hbh_ra. cbv zeta. change (IP6_HBH_HLEN + (IP6_OPT_HLEN * 2 + IP6_ROUTER_ALERT_DLEN)) with 8.
  destruct (add_header_exec false w p b bs 8 Hs Hc ltac:(lia) ltac:(lia)) as (pre & Hpre & He & Hs1).
  change (Z.to_nat 8) with 8%nat in Hpre. apply wp_bind. eapply wp_exec; [exact He|]. cbn [negb Z.eqb].
  pose proof (single_length _ _ _ _ Hs1) as Hl1. rewrite length_app, Hpre in Hl1. pose proof (buffer_start _ _ _ _ Hs1) as Hb.
  do 8 (apply wp_bind; eapply wp_buffer_write;
    [exact Hb|by apply Forall_singleton|done|rewrite <-Hl1; unfold IP6_HBH_HLEN, IP6_OPT_HLEN, IP6_ROUTER_ALERT_DLEN; cbn [length]; lia
    |clear Hb; intros ? Hb]).
  apply wp_ret. destruct Hb as (b' & -> & Hs' & Hr'). rewrite add_ticks_0, put_pbuf_put in *. apply HQ; [|done].
  replace (router_alert ++ bs) with (splice (Z.to_nat (IP6_HBH_HLEN + IP6_OPT_HLEN + IP6_ROUTER_ALERT_DLEN + 1)) [0] (splice (Z.to_nat (IP6_HBH_HLEN + IP6_OPT_HLEN + IP6_ROUTER_ALERT_DLEN)) [IP6_PADN_OPTION]
    (splice (Z.to_nat (IP6_HBH_HLEN + IP6_OPT_HLEN + 1)) [0] (splice (Z.to_nat (IP6_HBH_HLEN + IP6_OPT_HLEN)) [IP6_ROUTER_ALERT_VALUE_MLD] (splice (Z.to_nat (IP6_HBH_HLEN + 1)) [IP6_ROUTER_ALERT_DLEN]
    (splice (Z.to_nat IP6_HBH_HLEN) [IP6_ROUTER_ALERT_OPTION] (splice (Z.to_nat 1) [0] (splice (Z.to_nat 0) [IP6_NEXTH_ICMP6] (pre ++ bs)))))))));
    [exact Hs'|].
  do 8 (destruct pre as [|? pre]; [done|]). destruct pre; [reflexivity|done].
Qed.

Lemma wp_bind_inv {S A B} (m : M S A) (f : A -> M S B) s Q :
  wp (m ≫= f) s Q -> wp m s (fun a s' => wp (f a) s' Q).
Proof. unfold wp, mbind, M_bind. by destruct (m s) as [[a s']| |]. Qed.

(** Setting the flag of the last reporter. *)
Definition flagged (type : Z) (l : loc) (g : mld_group) (q : option loc) (h : gmap loc (node mld_group)) :=
  if type =? ICMP6_TYPE_MLR then <[l := Node (with_flag 1 g) q]> h else h.

Section sending.
Context `{Env} `{LowerLayersOk}.

Lemma mld_source_ok n : netif_sane n -> exists src, mld_source n = Ret src /\ ip6_wf src.
Proof.
  intros [Hwf Hall]. unfold mld_source, netif_ip6_addr_state, netif_ip6_addr.
  rewrite (state_lookup n Hwf 0), (addr_lookup n Hwf 0) by lia. cbn [deref mbind outcome_bind].
  destruct (ip6_addr_isvalid _); cbn [negb]; eexists; (split; [done|]); [|by split_and!].
  eapply Forall_lookup_1; [exact Hall|]. apply addr_lookup; [done|lia].
Qed.

(** A null source is the unspecified address. *)
Lemma output_if_any p s d hl tc nx n :
  ip6_output_if p (if ip6_addr_isany s then None else Some s) (Some d) hl tc nx n =
  ip6_output_if_src p (Some (if ip6_addr_isany s then ip6_addr_any else s)) (Some d) hl tc nx n.
Proof. unfold ip6_output_if. destruct (ip6_addr_isany s) eqn:E; [done|]. by rewrite E. Qed.

Lemma group_at_exec s l nd : groups s !! l = Some nd -> group_at l s = Ret (nd, s).
Proof. intros E. unfold group_at. rewrite (bind_exec get _ s s s) by done. unfold lift. by rewrite E. Qed.

Lemma upd_group_exec s l g q f :
  groups s !! l = Some (Node g q) ->
  upd_group l f s = Ret (tt, mk_mld (mw s) (<[l := Node (f g) q]> (groups s)) (client_data s)).
Proof. intros E. unfold upd_group. rewrite (bind_exec _ _ _ _ _ (group_at_exec _ _ _ E)). done. Qed.

Lemma wp_mld_send_with s n l g q type src Q :
  groups s !! l = Some (Node g q) -> ip6_wf (group_address g) -> mld_source n = Ret src -> ip6_wf src -> is_byte type ->
  (env_mem_malloc (w_tick (mw s)) = false -> Q tt (with_world (add_ticks 1 (mw s)) s)) ->
  (forall p b w1, w_pbufs (mw s) !! p = None ->
     at_pbuf (mw s) p b (router_alert ++ mld_message type src (group_address g)) w1 ->
     pb_ref b = 1 -> type_contiguous (pb_type b) = true -> 40 <= pb_payload b -> w_trace w1 = w_trace (mw s) ->
     wp (ip6_output_if p (if ip6_addr_isany src then None else Some src) (Some (group_address g)) MLD6_HL 0
           IP6_NEXTH_HOPBYHOP n;; pbuf_free_m p;; mret tt) w1
       (fun _ w2 => Q tt (mk_mld w2 (flagged type l g q (groups s)) (client_data s)))) ->
  wp (mld6_send n l type) s Q.
Proof.
  intros Hl Hg Hsrc Hsw Hty Hno Hyes. unfold mld6_send. apply wp_bind, wp_in_world.
  change (sizeof_mld_header + MLD6_HBH_HLEN) with 32. apply wp_alloc_reply; [lia|exact Hno|].
  intros b F w1 Hp Hat HF Hr Hc Hpl Htr. set (p := new_loc (w_pbufs (mw s))) in *.
  destruct (remove_header_exec w1 p b F 8 (at_single _ _ _ _ _ Hat)) as [Erm Hs1]; [lia|lia|].
  apply wp_bind, wp_in_world. unfold MLD6_HBH_HLEN. eapply wp_exec; [exact Erm|]. cbn [Z.eqb negb].
  pose proof (at_put _ _ _ _ _ _ _ Hat Hs1) as Hat1. set (b1 := shifted 8 b) in *. set (w2 := put_pbuf p b1 w1) in *.
  apply wp_bind. eapply wp_lift; [exact Hsrc|]. apply wp_bind. eapply wp_exec; [by apply group_at_exec|]. cbn [n_val].
  apply wp_bind, wp_in_world. cbn [mw with_world].
  eapply wp_fill_mld; [exact Hs1|rewrite length_drop; lia|done|done|done|]. intros b2 Hr2 Hs2.
  pose proof (at_put _ _ _ _ _ _ _ Hat1 Hs2) as Hat2. destruct (refilled_fields _ _ Hr2) as (F1 & F2 & _).
  assert (F3 : pb_type b2 = pb_type b) by (destruct Hr2 as [-> _]; done).
  apply wp_bind, wp_in_world. cbn [mw with_world].
  eapply wp_add_router_alert; [exact Hs2|by rewrite F3|rewrite F2; simpl; lia|rewrite length_mld_message; lia|].
  intros b3 Hs3 Hr3. pose proof (at_put _ _ _ _ _ _ _ Hat2 Hs3) as Hat3. destruct (refilled_fields _ _ Hr3) as (G1 & G2 & _).
  assert (G3 : pb_type b3 = pb_type b2) by (destruct Hr3 as [-> _]; done).
  assert (Hb3 : pb_ref b3 = 1 /\ type_contiguous (pb_type b3) = true /\ 40 <= pb_payload b3).
  { rewrite G1, G2, G3, F3. cbn [shifted with_window pb_ref pb_payload]. rewrite F1, F2. simpl. split_and!; [done|done|lia]. }
  destruct Hb3 as (Hb31 & Hb32 & Hb33). specialize (Hyes p b3 _ Hp Hat3 Hb31 Hb32 Hb33 Htr).
  apply wp_bind_inv in Hyes. apply wp_bind.
  apply (wp_exec _ _ tt (mk_mld (put_pbuf p b3 (put_pbuf p b2 w2)) (flagged type l g q (groups s)) (client_data s))).
  { unfold flagged. destruct (type =? ICMP6_TYPE_MLR); [|done]. by erewrite upd_group_exec. }
  apply wp_bind, wp_in_world. eapply wp_mono; [exact Hyes|]. cbn beta. intros e w4 H4. apply wp_bind_inv in H4.
  apply wp_bind, wp_in_world. eapply wp_mono; [exact H4|]. cbn beta. intros e' w5 H5. apply wp_ret. exact H5.
Qed.

(** However the message fares, its buffer is released. *)
Lemma wp_mld_send s n l g q type Q :
  groups s !! l = Some (Node g q) -> ip6_wf (group_address g) -> netif_sane n -> is_byte type ->
  (forall w', sends (mw s) w' -> Q tt (with_world w' s)) ->
  (forall w', sends (mw s) w' -> Q tt (mk_mld w' (flagged type l g q (groups s)) (client_data s))) ->
  wp (mld6_send n l type) s Q.
Proof.
  intros Hl Hg Hn Hty Hno HQ. destruct (mld_source_ok n Hn) as (src & Hsrc & Hsw).
  eapply wp_mld_send_with; [exact Hl|done|exact Hsrc|done|done|intros _; apply Hno, sends_ticks|].
  intros p b w1 Hp Hat Hr Hc Hpl _. apply wp_bind.
  apply (wp_mono _ _ (fun _ w' => exists b' G', at_pbuf (mw s) p b' G' w' /\ pb_ref b' = 1)).
  2: { intros r w' (b' & G' & Hat' & Hr'). eapply wp_drop; [exact Hat'|exact Hr'|]. intros w2 Hgone. apply HQ. by eapply fresh_gone. }
  rewrite output_if_any. eapply wp_output_if_src; [split; eauto|done|done|rewrite length_app, length_mld_message; done|by vm_compute|].
  intros b1 dz _ Ho. eapply wp_transmit; [exact Ho|rewrite length_app, length_ip6_header; lia|]. intros r w' b' G' Hat' Hr'.
  exists b', G'. split; [|done]. eapply at_trans; [|exact Hat']. eapply at_put; [exact Hat|]. apply Ho.
Qed.
End sending.

(** ** The groups of the interfaces

    For each interface number the list of its groups, as it is linked. *)

Abbreviation group_lists := (gmap Z (list (loc * mld_group))).
Definition groups_of (L : group_lists) (k : Z) : list (loc * mld_group) := default [] (L !! k).

(** A member is idle with its timer stopped, or waits with its timer running. *)
Record good_group (g : mld_group) : Prop := {
  gg_addr : ip6_wf (group_address g);
  gg_flag : last_reporter_flag g = 0 \/ last_reporter_flag g = 1;
  gg_timer : (group_state g = MLD6_GROUP_IDLE_MEMBER /\ g_timer g = 0) \/
             (group_state g = MLD6_GROUP_DELAYING_MEMBER /\ 0 < g_timer g < 65536);
  gg_use : 0 <= g_use g < 256
}.

Record mld_ok (s : mld_world) (L : group_lists) : Prop := {
  mo_list k : llist (groups s) (data_of k s) (groups_of L k);
  mo_own l nd : groups s !! l = Some nd -> exists k, l ∈ (groups_of L k).*1;
  mo_apart j k l : l ∈ (groups_of L j).*1 -> l ∈ (groups_of L k).*1 -> j = k;
  mo_addr k : NoDup ((fun x => group_address x.2) <$> groups_of L k);
  mo_good k : Forall (fun x => good_group x.2) (groups_of L k);
  mo_size : (size (groups s) <= MEMP_NUM_MLD6_GROUP)%nat
}.

Lemma groups_of_insert L k ls : groups_of (<[k := ls]> L) k = ls.
Proof. unfold groups_of. by rewrite lookup_insert_eq. Qed.
Lemma groups_of_insert_ne L j k ls : j <> k -> groups_of (<[k := ls]> L) j = groups_of L j.
Proof. intros. unfold groups_of. by rewrite lookup_insert_ne. Qed.
Lemma mld_ok_world s L w : mld_ok s L -> mld_ok (with_world w s) L.
Proof. intros [H1 H2 H3 H4 H5 H6]. by split. Qed.

(** The list of one interface changes. *)
Lemma mld_ok_set s s' L k ls :
  mld_ok s L -> llist (groups s') (data_of k s') ls ->
  (forall j, j <> k -> data_of j s' = data_of j s) ->
  (forall j l, j <> k -> l ∈ (groups_of L j).*1 -> groups s' !! l = groups s !! l) ->
  (forall l nd, groups s' !! l = Some nd -> l ∈ ls.*1 \/ exists j, j <> k /\ l ∈ (groups_of L j).*1) ->
  (forall j l, j <> k -> l ∈ ls.*1 -> l ∉ (groups_of L j).*1) ->
  NoDup ((fun x => group_address x.2) <$> ls) -> Forall (fun x => good_group x.2) ls ->
  (size (groups s') <= MEMP_NUM_MLD6_GROUP)%nat ->
  mld_ok s' (<[k := ls]> L).
Proof.
  intros [H1 H2 H3 H4 H5 H6] Hl Hd Hf Ho Ha Hn Hg Hs.
  assert (Hcase : forall j, j = k \/ (j <> k /\ groups_of (<[k := ls]> L) j = groups_of L j)).
  { intros j. destruct (decide (j = k)); [by left|right]. split; [done|by apply groups_of_insert_ne]. }
  split; [| | | | |done].
  - intros j. destruct (Hcase j) as [->|[Hj ->]]; [by rewrite groups_of_insert|]. rewrite Hd by done.
    eapply llist_frame; [|apply H1]. intros l Hl'. by apply (Hf j).
  - intros l nd E. destruct (Ho l nd E) as [?|(j & Hj & ?)]; [exists k; by rewrite groups_of_insert|].
    exists j. by rewrite groups_of_insert_ne.
  - intros i j l. destruct (Hcase i) as [->|[Hi ->]], (Hcase j) as [->|[Hj ->]]; rewrite ?groups_of_insert; [done| | |apply H3].
    + intros Hx Hy. by destruct (Ha j l Hj Hx).
    + intros Hx Hy. by destruct (Ha i l Hi Hy).
  - intros j. destruct (Hcase j) as [->|[Hj ->]]; [by rewrite groups_of_insert|apply H4].
  - intros j. destruct (Hcase j) as [->|[Hj ->]]; [by rewrite groups_of_insert|apply H5].
Qed.

Lemma llist_update {V} (h : gmap loc (node V)) p l1 l (v v' : V) l2 :
  llist h p (l1 ++ (l, v) :: l2) ->
  exists q, h !! l = Some (Node v q) /\ llist (<[l := Node v' q]> h) p (l1 ++ (l, v') :: l2).
Proof.
  intros Hll. pose proof (llist_NoDup _ _ _ Hll) as Hnd. rewrite fmap_app in Hnd. cbn [fmap list_fmap fst] in Hnd.
  apply NoDup_app in Hnd as (_ & Hd & [Hl2 _]%NoDup_cons). apply llist_app in Hll as (r & H1 & H2).
  cbn [llist] in H2. destruct H2 as [-> (q & Hq & H2)]. exists q. split; [done|]. apply llist_app. exists (Some l). split.
  - eapply lseg_frame; [|exact H1]. intros x Hx. apply lookup_insert_ne. intros ->. apply (Hd x Hx). set_solver.
  - cbn [llist]. split; [done|]. exists q. rewrite lookup_insert_eq. split; [done|].
    eapply llist_frame; [|exact H2]. intros x Hx. apply lookup_insert_ne. set_solver.
Qed.

Section group_ops.
Context (s : mld_world) (L : group_lists) (k : Z).
Context (Hok : mld_ok s L).

Lemma group_lookup l1 l g l2 :
  groups_of L k = l1 ++ (l, g) :: l2 -> exists q, groups s !! l = Some (Node g q).
Proof. intros E. eapply llist_elem; [apply (mo_list _ _ Hok k)|]. rewrite E. set_solver. Qed.

Lemma upd_group_ok l1 l g l2 f :
  groups_of L k = l1 ++ (l, g) :: l2 -> group_address (f g) = group_address g -> good_group (f g) ->
  exists s', upd_group l f s = Ret (tt, s') /\ mw s' = mw s /\ mld_ok s' (<[k := l1 ++ (l, f g) :: l2]> L).
Proof.
  intros E Ha Hg. pose proof (mo_list _ _ Hok k) as Hll. rewrite E in Hll.
  destruct (llist_update _ _ _ _ _ (f g) _ Hll) as (q & Hq & Hll'). eexists. split; [by apply upd_group_exec|]. split; [done|].
  assert (Hmem : forall x (v : mld_group), x ∈ (l1 ++ (l, v) :: l2).*1 <-> x ∈ (groups_of L k).*1).
  { intros x v. rewrite E, !fmap_app. done. }
  eapply mld_ok_set; [exact Hok|exact Hll'|done| | | | | |].
  - intros j x Hj Hx. cbn [groups]. apply lookup_insert_ne. intros ->. apply Hj. eapply (mo_apart _ _ Hok); [exact Hx|].
    rewrite E, fmap_app. set_solver.
  - intros x nd. cbn [groups]. rewrite Hmem. intros Hx. assert (is_Some (groups s !! x)) as [nd' Hx'].
    { destruct (decide (x = l)) as [->|]; [by exists (Node g q)|]. rewrite lookup_insert_ne in Hx by done. by eexists. }
    destruct (mo_own _ _ Hok _ _ Hx') as [j Hj]. destruct (decide (j = k)) as [->|]; [by left|right; by exists j].
  - intros j x Hj. rewrite Hmem. intros Hx Hx'. apply Hj. by eapply (mo_apart _ _ Hok).
  - pose proof (mo_addr _ _ Hok k) as Hn. rewrite E, fmap_app in Hn. rewrite fmap_app. cbn [fmap list_fmap snd] in *. by rewrite Ha.
  - pose proof (mo_good _ _ Hok k) as Hgd. rewrite E in Hgd. apply Forall_app in Hgd as [? [_ ?]%Forall_cons].
    apply Forall_app. split; [done|]. by constructor.
  - cbn [groups]. rewrite map_size_insert_Some by (by eexists). apply (mo_size _ _ Hok).
Qed.

Definition has_addr (a : ip6_addr) (g : mld_group) : bool := ip6_addr_cmp (group_address g) a.

Lemma lookfor_exec n a : nif_num n = k ->
  mld6_lookfor_group n a s = Ret (fst <$> find_first (has_addr a) (groups_of L k), s).
Proof.
  intros Hn. unfold mld6_lookfor_group, netif_mld6_data. rewrite Hn.
  rewrite (bind_exec (gets _) _ s (data_of k s) s), (bind_exec get _ s s s) by done.
  pose proof (mo_list _ _ Hok k) as Hll. pose proof (llist_length _ _ _ Hll) as Hlen.
  pose proof (find_unlink_spec (groups s) (data_of k s) (fun g => Ret (has_addr a g)) (has_addr a) _ (S (size (groups s))) Hll
    ltac:(done) ltac:(lia)) as Hf.
  destruct (find_first (has_addr a) (groups_of L k)) as [[l v]|].
  - destruct Hf as (prev & h' & head' & Hf & _). unfold has_addr in Hf. unfold lift, mbind, M_bind. by rewrite Hf.
  - destruct Hf as [Hf _]. unfold has_addr in Hf. unfold lift, mbind, M_bind. by rewrite Hf.
Qed.
End group_ops.

Lemma mld_ok_ext s L L' : (forall j, groups_of L j = groups_of L' j) -> mld_ok s L -> mld_ok s L'.
Proof. intros E [H1 H2 H3 H4 H5 H6]. split; intros; rewrite <-?E in *; eauto. destruct (H2 _ _ H) as [j Hj]. exists j. by rewrite <-E. Qed.

Lemma mld_ok_same s L k ls : groups_of L k = ls -> mld_ok s L -> mld_ok s (<[k := ls]> L).
Proof.
  intros <-. apply mld_ok_ext. intros j. destruct (decide (j = k)) as [->|]; [by rewrite groups_of_insert|by rewrite groups_of_insert_ne].
Qed.

Lemma list_next {V} (h : gmap loc (node V)) p l1 l (v : V) l2 :
  llist h p (l1 ++ (l, v) :: l2) -> exists q, h !! l = Some (Node v q) /\ llist h q l2.
Proof. intros (r & _ & [-> (q & Hq & Hl)])%llist_app. by exists q. Qed.

(** Walking over the groups of an interface: each is changed as [R] says, which
    what is sent later does not take back. *)
Lemma wp_over_groups (R : world -> mld_group -> mld_group -> Prop) k body s0 L0 :
  (forall w w' g g', R w g g' -> sends w w' -> R w' g g') ->
  (forall s L l1 l g l2, mld_ok s L -> groups_of L k = l1 ++ (l, g) :: l2 -> sends (mw s0) (mw s) -> good_group g ->
     wp (body l) s (fun _ s' => exists g', R (mw s') g g' /\ mld_ok s' (<[k := l1 ++ (l, g') :: l2]> L) /\ sends (mw s) (mw s'))) ->
  mld_ok s0 L0 ->
  wp (over_groups body (data_of k s0)) s0 (fun _ s' => exists ls,
    Forall2 (fun x y => y.1 = x.1 /\ R (mw s') x.2 y.2) (groups_of L0 k) ls /\ mld_ok s' (<[k := ls]> L0) /\ sends (mw s0) (mw s')).
Proof.
  intros Hmono Hbody Hok0. unfold over_groups. apply wp_bind, wp_get.
  assert (H : forall rest before after s fuel cur, groups_of L0 k = before ++ rest ->
    Forall2 (fun x y => y.1 = x.1 /\ R (mw s) x.2 y.2) before after -> mld_ok s (<[k := after ++ rest]> L0) ->
    sends (mw s0) (mw s) -> llist (groups s) cur rest -> (length rest < fuel)%nat ->
    wp (loop fuel (fun cur : option loc =>
      match cur with
      | None => mret (inr tt)
      | Some l => body l;; nd ← group_at l; mret (inl (n_next nd))
      end) cur) s (fun _ s' => exists ls,
    Forall2 (fun x y => y.1 = x.1 /\ R (mw s') x.2 y.2) (groups_of L0 k) ls /\ mld_ok s' (<[k := ls]> L0) /\ sends (mw s0) (mw s'))).
  2: { pose proof (mo_list _ _ Hok0 k) as Hll. pose proof (llist_length _ _ _ Hll).
       apply (H (groups_of L0 k) [] [] s0); [done|constructor|by apply mld_ok_same|apply sends_refl|done|lia]. }
  induction rest as [|[l g] rest IH]; intros before after s fuel cur E HF Hok Hw Hll Hf; (destruct fuel as [|fuel]; [simpl in Hf; lia|]);
    cbn [loop]; apply wp_bind; cbn [llist] in Hll.
  - subst cur. apply wp_ret. apply wp_ret. rewrite app_nil_r in *. exists after. by rewrite E.
  - destruct Hll as [-> _]. apply wp_bind.
    assert (Hg : good_group g).
    { pose proof (mo_good _ _ Hok0 k) as Hg. rewrite E in Hg. by apply Forall_app in Hg as [_ [? _]%Forall_cons]. }
    eapply wp_mono; [apply (Hbody s _ after l g rest Hok); [by rewrite groups_of_insert|done|done]|].
    cbn beta. intros _ s' (g' & HR & Hok' & Hw'). rewrite insert_insert_eq in Hok'.
    pose proof (mo_list _ _ Hok' k) as Hll'. rewrite groups_of_insert in Hll'.
    destruct (list_next _ _ _ _ _ _ Hll') as (q & Hq & Hrest).
    apply wp_bind. eapply wp_exec; [by apply group_at_exec|]. apply wp_ret. cbn [n_next].
    apply (IH (before ++ [(l, g)]) (after ++ [(l, g')])); [by rewrite <-app_assoc| |by rewrite <-app_assoc|by eapply sends_trans|done|simpl in Hf; lia].
    apply Forall2_app; [|by repeat constructor]. eapply Forall2_impl; [exact HF|]. intros x y [? ?]. split; [done|by eapply Hmono].
Qed.

(** ** What the operations do to the lists *)

(** A report is due within [d] milliseconds, no later than before. *)
Definition scheduled (d : Z) (g g' : mld_group) : Prop :=
  g' = with_timer (g_timer g') MLD6_GROUP_DELAYING_MEMBER g /\ 0 < g_timer g' <= Z.max 1 (d / MLD6_TMR_MS) /\
  (group_state g = MLD6_GROUP_DELAYING_MEMBER -> g_timer g' <= g_timer g).

Section ops.
Context `{Env} `{LowerLayersOk}.
Context (lwip_rand : nat -> Z).

Lemma send_ok s L k n l1 l g l2 :
  mld_ok s L -> groups_of L k = l1 ++ (l, g) :: l2 -> netif_sane n ->
  wp (mld6_send n l ICMP6_TYPE_MLR) s (fun _ s' => exists g', (g' = g \/ g' = with_flag 1 g) /\
    mld_ok s' (<[k := l1 ++ (l, g') :: l2]> L) /\ sends (mw s) (mw s')).
Proof.
  intros Hok E Hn. destruct (group_lookup s L k Hok _ _ _ _ E) as [q Hq].
  assert (Hg : good_group g).
  { pose proof (mo_good _ _ Hok k) as Hg. rewrite E in Hg. by apply Forall_app in Hg as [_ [? _]%Forall_cons]. }
  eapply wp_mld_send; [exact Hq|apply Hg|done|by vm_compute| |].
  - intros w' Hw. exists g. split; [by left|]. split; [|done]. apply mld_ok_same; [done|by apply mld_ok_world].
  - intros w' Hw. exists (with_flag 1 g). split; [by right|]. split; [|done].
    destruct (upd_group_ok s L k Hok l1 l g l2 (with_flag 1) E) as (s1 & E1 & _ & Hok1); [done|by destruct Hg; split; [| right| |]|].
    rewrite (upd_group_exec _ _ _ _ _ Hq) in E1. injection E1 as <-. exact (mld_ok_world _ _ w' Hok1).
Qed.

Lemma delayed_report_ok s L k l1 l g l2 d :
  mld_ok s L -> groups_of L k = l1 ++ (l, g) :: l2 -> 0 <= d < 65536 ->
  wp (mld6_delayed_report lwip_rand l d) s (fun _ s' => exists g', scheduled d g g' /\
    mld_ok s' (<[k := l1 ++ (l, g') :: l2]> L) /\ sends (mw s) (mw s')).
Proof.
  intros Hok E Hd. assert (Hg : good_group g).
  { pose proof (mo_good _ _ Hok k) as Hg. rewrite E in Hg. by apply Forall_app in Hg as [_ [? _]%Forall_cons]. }
  unfold mld6_delayed_report. cbv zeta. rewrite u16_small by (unfold MLD6_TMR_MS; zlia).
  set (m := if d / MLD6_TMR_MS =? 0 then 1 else d / MLD6_TMR_MS).
  assert (Hm : 0 < m < 65536 /\ m <= Z.max 1 (d / MLD6_TMR_MS)).
  { unfold m, MLD6_TMR_MS. destruct (Z.eqb_spec (d / 100) 0); zlia. }
  clearbody m. apply wp_bind, wp_in_world, wp_bind, wp_tick, wp_ret. set (r := u32 (lwip_rand _)).
  assert (Hr : 0 <= r mod m < m) by (apply Z.mod_pos_bound; lia). rewrite (u16_small (r mod m)) by lia.
  set (t := if r mod m =? 0 then 1 else r mod m). assert (Ht : 0 < t <= m) by (unfold t; destruct (Z.eqb_spec (r mod m) 0); lia).
  clearbody t. clear r Hr. pose proof (mld_ok_world _ _ (add_ticks 1 (mw s)) Hok) as Hok1.
  destruct (group_lookup _ L k Hok1 _ _ _ _ E) as [q Hq]. apply wp_bind. eapply wp_exec; [by apply group_at_exec|]. cbn [n_val].
  destruct Hg as [Hga Hgf Hgt Hgu]. destruct (_ || _) eqn:Ec.
  - destruct (upd_group_ok _ L k Hok1 l1 l g l2 (with_timer t MLD6_GROUP_DELAYING_MEMBER) E) as (s2 & E2 & Ew & Hok2);
      [done|by split; [..|right; simpl; split; [done|lia]|]|].
    eapply wp_exec; [exact E2|]. eexists. split; [|split; [exact Hok2|rewrite Ew; apply sends_ticks]].
    split_and!; [done|simpl; lia|simpl; lia|]. simpl. intros Est. rewrite Est in Ec. cbn [Z.eqb Pos.eqb orb andb] in Ec.
    destruct (Z.eqb_spec (g_timer g) 0) as [E0|]; [destruct Hgt as [[? ?]|[? ?]]; [by rewrite Est in *|lia]|].
    cbn [orb] in Ec. apply Z.ltb_lt in Ec. lia.
  - apply wp_ret. exists g. apply orb_false_iff in Ec as [E1 E2]. apply Z.eqb_neq in E1.
    destruct Hgt as [[? ?]|[Est Hgt]]; [done|]. rewrite Est in E2. cbn [Z.eqb Pos.eqb andb] in E2.
    apply orb_false_iff in E2 as [_ E2]. apply Z.ltb_ge in E2. split; [|split; [by apply mld_ok_same|apply sends_ticks]].
    split_and!; [|lia|lia|done]. destruct g. simpl in *. unfold with_timer. simpl. by rewrite Est.
Qed.

Lemma new_group_ok s L n a :
  mld_ok s L -> ip6_wf a -> find_first (has_addr a) (groups_of L (nif_num n)) = None ->
  if decide (size (groups s) < MEMP_NUM_MLD6_GROUP)%nat then
    exists l s', mld6_new_group n a s = Ret (Some l, s') /\ mw s' = mw s /\
      mld_ok s' (<[nif_num n := (l, mk_group a 0 MLD6_GROUP_IDLE_MEMBER 0 0) :: groups_of L (nif_num n)]> L)
  else mld6_new_group n a s = Ret (None, s).
Proof.
  intros Hok Ha Hno. unfold mld6_new_group. rewrite (bind_exec get _ s s s) by done. destruct (decide _) as [Hs|]; [|done].
  set (l := new_loc (groups s)). pose proof (new_loc_fresh (groups s)) as Hl. fold l in Hl. set (k := nif_num n).
  exists l. eexists. split; [done|]. split; [done|]. apply find_first_None in Hno as [Hno _].
  assert (Hfr : forall j, l ∉ (groups_of L j).*1).
  { intros j (x & -> & Hx)%list_elem_of_fmap. destruct x as [x g]. simpl in Hl.
    destruct (llist_elem _ _ _ _ _ (mo_list _ _ Hok j) Hx) as [q Hq]. by rewrite Hq in Hl. }
  eapply mld_ok_set; [exact Hok| | | | | | | |].
  - unfold data_of. cbn [client_data groups]. rewrite lookup_insert_eq. cbn [default llist]. split; [done|].
    exists (default None (client_data s !! k)). rewrite lookup_insert_eq. split; [done|]. apply llist_insert_fresh; [done|apply (mo_list _ _ Hok)].
  - intros j Hj. unfold data_of. cbn [client_data]. by rewrite lookup_insert_ne.
  - intros j x Hj Hx. cbn [groups]. apply lookup_insert_ne. intros <-. by apply (Hfr j).
  - intros x nd. cbn [groups]. destruct (decide (x = l)) as [->|Hx]; [left; set_solver|]. rewrite lookup_insert_ne by done.
    intros E. destruct (mo_own _ _ Hok _ _ E) as [j Hj]. destruct (decide (j = k)) as [->|]; [left; set_solver|right; by exists j].
  - intros j x Hj. rewrite fmap_cons. intros [->|Hx]%elem_of_cons; [apply Hfr|]. intros Hx'. apply Hj. by eapply (mo_apart _ _ Hok).
  - rewrite fmap_cons. constructor; [|apply (mo_addr _ _ Hok)]. intros ((x & g) & Eg & Hx)%list_elem_of_fmap. simpl in Eg.
    rewrite Forall_forall in Hno. specialize (Hno _ Hx). simpl in Hno. unfold has_addr, ip6_addr_cmp, ip6_addr_zoneless_eq in Hno.
    rewrite <-Eg, !Z.eqb_refl in Hno. done.
  - constructor; [|apply (mo_good _ _ Hok)]. split; simpl; [done|by left|by left|lia].
  - cbn [groups]. rewrite map_size_insert_None by done. lia.
Qed.
End ops.

(** *** Removing a group *)

(** The search for the group before [l]. *)
Lemma remove_loop l q : forall a p w s cur fuel,
  lseg (groups s) cur (a ++ [(p, w)]) (Some l) -> l ∉ a.*1 -> l <> p -> (length a < fuel)%nat ->
  loop fuel (remove_body l q) cur s =
    Ret (ERR_OK, mk_mld (mw s) (<[p := Node w q]> (groups s)) (client_data s)).
Proof.
  induction a as [|[x g] a IH]; intros p w s cur [|fuel] Hl Hn Hp Hf; try (simpl in Hf; lia); rewrite loop_S;
    cbn [app lseg] in Hl; destruct Hl as [-> (r & Hr & Hl)]; cbn [remove_body].
  - simpl in Hl. subst r.
    rewrite (bind_exec (nd ← group_at p; _) _ s (inr ERR_OK) (mk_mld (mw s) (<[p := Node w q]> (groups s)) (client_data s))); [done|].
    rewrite (bind_exec _ _ _ _ _ (group_at_exec _ _ _ Hr)). cbn [n_next]. by rewrite decide_True.
  - assert (r <> Some l) as Hne.
    { destruct a as [|[y gy] a]; cbn [app lseg] in Hl; destruct Hl as [-> _]; [congruence|].
      intros [= ->]. apply Hn. set_solver. }
    rewrite (bind_exec (nd ← group_at x; _) _ s (inl r) s).
    + apply IH; [done|set_solver|done|simpl in Hf; lia].
    + rewrite (bind_exec _ _ _ _ _ (group_at_exec _ _ _ Hr)). cbn [n_next]. by rewrite decide_False.
Qed.

Lemma remove_group_ok s L n l1 l g l2 :
  mld_ok s L -> groups_of L (nif_num n) = l1 ++ (l, g) :: l2 ->
  exists s1, mld6_remove_group n l s = Ret (ERR_OK, s1) /\ mw s1 = mw s /\ groups s1 !! l = groups s !! l /\
    forall w, mld_ok (mk_mld w (delete l (groups s1)) (client_data s1)) (<[nif_num n := l1 ++ l2]> L).
Proof.
  intros Hok E. set (k := nif_num n) in *. pose proof (mo_list _ _ Hok k) as Hll. rewrite E in Hll.
  pose proof (llist_NoDup _ _ _ Hll) as Hnd. rewrite fmap_app in Hnd. cbn [fmap list_fmap fst] in Hnd.
  apply NoDup_app in Hnd as (Hn1 & Hd & [Hl2 _]%NoDup_cons). assert (Hl1 : l ∉ l1.*1) by (intros Hx; apply (Hd l Hx); set_solver).
  destruct (group_lookup s L k Hok _ _ _ _ E) as [q Hq].
  assert (Hfin : forall s1, mw s1 = mw s -> llist (delete l (groups s1)) (data_of k s1) (l1 ++ l2) ->
    (forall j, j <> k -> data_of j s1 = data_of j s) ->
    (forall x, x ∉ l1.*1 -> groups s1 !! x = groups s !! x) -> dom (groups s1) = dom (groups s) ->
    forall w, mld_ok (mk_mld w (delete l (groups s1)) (client_data s1)) (<[k := l1 ++ l2]> L)).
  { intros s1 Ew Hll1 Hdat Hgr Hdom w. eapply mld_ok_set; [exact Hok|exact Hll1|exact Hdat| | | | | |]; cbn [groups].
    - intros j x Hj Hx. assert (x ∉ (groups_of L k).*1) as Hx' by (intros ?; apply Hj; by eapply (mo_apart _ _ Hok)).
      rewrite E, fmap_app in Hx'. cbn [fmap list_fmap fst] in Hx'. rewrite lookup_delete_ne by set_solver. apply Hgr. set_solver.
    - intros x nd [Hx Hs1]%lookup_delete_Some. assert (x ∈ dom (groups s)) as [nd' Hx']%elem_of_dom.
      { rewrite <-Hdom. by apply elem_of_dom. }
      destruct (mo_own _ _ Hok _ _ Hx') as [j Hj]. destruct (decide (j = k)) as [->|]; [left|right; by exists j].
      rewrite E, fmap_app in Hj. rewrite fmap_app. set_solver.
    - intros j x Hj Hx Hx'. apply Hj. eapply (mo_apart _ _ Hok); [exact Hx'|]. rewrite E, fmap_app. rewrite fmap_app in Hx. set_solver.
    - pose proof (mo_addr _ _ Hok k) as Hn. rewrite E, fmap_app in Hn. rewrite fmap_app.
      cbn [fmap list_fmap] in Hn. apply NoDup_app in Hn as (? & Hda & [_ ?]%NoDup_cons). apply NoDup_app. split_and!; [done| |done].
      intros x Hx Hx'. apply (Hda x Hx). by right.
    - pose proof (mo_good _ _ Hok k) as Hgd. rewrite E in Hgd. apply Forall_app in Hgd as [? [_ ?]%Forall_cons]. by apply Forall_app.
    - pose proof (mo_size _ _ Hok) as Hsz. rewrite <-(size_dom (D := gset loc)), <-Hdom, size_dom in Hsz.
      rewrite map_size_delete. destruct (groups s1 !! l); unfold id; lia. }
  pose proof Hll as (r & H1 & H2)%llist_app. cbn [llist] in H2. destruct H2 as [-> (q' & Hq' & H2)].
  rewrite Hq in Hq'. injection Hq' as <-.
  assert (Hhead : forall A (f : _ -> M mld_world A), (head ← netif_mld6_data n; f head) s = f (data_of k s) s) by done.
  unfold mld6_remove_group. rewrite Hhead, (bind_exec _ _ _ _ _ (group_at_exec _ _ _ Hq)). cbn [n_next].
  destruct l1 as [|[p w] a _] using rev_ind.
  - cbn [app lseg] in *. rewrite decide_True by done. eexists. split; [done|]. split; [done|]. split; [done|].
    apply Hfin; [done| | |done|done]; cbn [groups].
    + unfold data_of. cbn [client_data]. rewrite lookup_insert_eq. cbn [default]. by apply llist_delete_other.
    + intros j Hj. unfold data_of. cbn [client_data]. by rewrite lookup_insert_ne.
  - rewrite decide_False.
    2: { intros Eh. apply lseg_app in H1 as (r & H1 & [Er _]). subst r. rewrite Eh in H1. destruct a as [|[x gx] a]; cbn [lseg] in H1.
         - injection H1 as ->. apply Hl1. set_solver.
         - destruct H1 as [[= ->] _]. apply Hl1. set_solver. }
    rewrite (bind_exec get _ s s s) by done. rewrite fmap_app in Hl1, Hn1, Hd. cbn [fmap list_fmap fst] in Hl1, Hn1, Hd.
    pose proof (llist_length _ _ _ Hll) as Hlen. rewrite !length_app in Hlen. cbn [length] in Hlen.
    erewrite remove_loop; [|exact H1|set_solver|set_solver|lia]. eexists. split; [done|]. split; [done|].
    apply lseg_app in H1 as (r & H1 & [-> (r' & Hp & _)]). apply NoDup_app in Hn1 as (_ & Hpa & _).
    cbn [groups]. split; [apply lookup_insert_ne; set_solver|]. pose proof (Hfin (mk_mld (mw s) (<[p := Node w q]> (groups s)) (client_data s))) as HF. cbn [groups client_data mw] in HF |- *. apply HF; clear HF; [done| |done| |]; cbn [groups].
    + unfold data_of. cbn [client_data]. fold (data_of k s). apply llist_delete_other; [rewrite fmap_app, fmap_app; set_solver|].
      rewrite <-app_assoc. apply llist_app. exists (Some p). split.
      * eapply lseg_frame; [|exact H1]. intros x Hx. apply lookup_insert_ne. intros <-. apply (Hpa _ Hx). set_solver.
      * cbn [app llist]. split; [done|]. exists q. rewrite lookup_insert_eq. split; [done|].
        eapply llist_frame; [|exact H2]. intros x Hx. apply lookup_insert_ne. intros <-. apply (Hd p); set_solver.
    + intros x Hx. apply lookup_insert_ne. intros ->. apply Hx. rewrite fmap_app. set_solver.
    + rewrite dom_insert_L. assert (p ∈ dom (groups s)) by (by apply elem_of_dom). set_solver.
Qed.

(** *** Joining and leaving, as operations on addresses with their uses *)

Definition members (L : group_lists) (k : Z) : list (ip6_addr * Z) :=
  (fun x => (group_address x.2, g_use x.2)) <$> groups_of L k.

Definition is_addr (a : ip6_addr) (x : ip6_addr * Z) : bool := ip6_addr_cmp x.1 a.
Definition bump (a : ip6_addr) (d : Z) (m : list (ip6_addr * Z)) : list (ip6_addr * Z) :=
  (fun x => if is_addr a x then (x.1, u8 (x.2 + d)) else x) <$> m.
Definition joined (a : ip6_addr) (m : list (ip6_addr * Z)) : list (ip6_addr * Z) :=
  if existsb (is_addr a) m then bump a 1 m else (a, 1) :: m.
Definition parted (a : ip6_addr) (m : list (ip6_addr * Z)) : list (ip6_addr * Z) :=
  if existsb (fun x => is_addr a x && (x.2 <=? 1)) m then filter (fun x => is_addr a x = false) m else bump a (-1) m.

Lemma addr_cmp_eq a b : ip6_addr_cmp a b = true <-> a = b.
Proof.
  unfold ip6_addr_cmp, ip6_addr_zoneless_eq. rewrite !andb_true_iff, !Z.eqb_eq. destruct a, b. simpl. naive_solver.
Qed.
Lemma addr_cmp_ne a b : ip6_addr_cmp a b = false <-> a <> b.
Proof. rewrite <-addr_cmp_eq. by destruct (ip6_addr_cmp a b). Qed.

Lemma existsb_has_addr a (ls : list (loc * mld_group)) :
  find_first (has_addr a) ls = None ->
  existsb (is_addr a) ((fun x => (group_address x.2, g_use x.2)) <$> ls) = false /\
  filter (fun x => is_addr a x = false) ((fun x => (group_address x.2, g_use x.2)) <$> ls) = (fun x => (group_address x.2, g_use x.2)) <$> ls /\
  forall d, bump a d ((fun x => (group_address x.2, g_use x.2)) <$> ls) = (fun x => (group_address x.2, g_use x.2)) <$> ls.
Proof.
  intros [Hn _]%find_first_None. induction Hn as [|[l g] ls Hx _ (IH1 & IH2 & IH3)]; [done|].
  simpl in Hx. cbn [fmap list_fmap existsb fst snd]. unfold is_addr at 1. cbn [fst snd]. fold (has_addr a g). rewrite Hx.
  split_and!; [exact IH1| |].
  - rewrite filter_cons_True by done. by f_equal.
  - intros d. unfold bump. cbn [fmap list_fmap]. unfold is_addr at 1. cbn [fst]. fold (has_addr a g). rewrite Hx. f_equal. apply IH3.
Qed.

(** The group found is the only one with its address. *)
Lemma found_split a ls l g :
  NoDup ((fun x : loc * mld_group => group_address x.2) <$> ls) -> find_first (has_addr a) ls = Some (l, g) ->
  exists l1 l2, ls = l1 ++ (l, g) :: l2 /\ group_address g = a /\
    find_first (has_addr a) l1 = None /\ find_first (has_addr a) l2 = None.
Proof.
  intros Hn (l1 & l2 & -> & H1 & Hg & _)%find_first_Some. unfold has_addr in Hg. apply addr_cmp_eq in Hg. exists l1, l2.
  assert (Hf : forall m : list (loc * mld_group), (forall x, x ∈ m -> group_address x.2 <> a) -> find_first (has_addr a) m = None).
  { induction m as [|[x gx] m IH]; intros Hm; [done|]. cbn [find_first]. unfold has_addr at 1.
    rewrite (proj2 (addr_cmp_ne _ _)); [apply IH; intros y Hy; apply Hm; set_solver|]. apply (Hm (x, gx)). set_solver. }
  rewrite fmap_app in Hn. cbn [fmap list_fmap snd] in Hn. apply NoDup_app in Hn as (_ & Hd & [Hn2 _]%NoDup_cons).
  split_and!; [done|done| |]; apply Hf; intros x Hx E.
  - apply (Hd (group_address x.2)); [by apply (list_elem_of_fmap_2 (fun x : loc * mld_group => group_address x.2))|rewrite E, <-Hg; by left].
  - apply Hn2. rewrite Hg, <-E. by apply (list_elem_of_fmap_2 (fun x : loc * mld_group => group_address x.2)).
Qed.

Section abstract.
Context (L : group_lists) (k : Z) (a : ip6_addr) (l1 : list (loc * mld_group)) (l : loc) (g : mld_group) (l2 : list (loc * mld_group)).
Context (E : groups_of L k = l1 ++ (l, g) :: l2) (Ha : group_address g = a).
Context (H1 : find_first (has_addr a) l1 = None) (H2 : find_first (has_addr a) l2 = None).

Lemma is_addr_found : is_addr a (group_address g, g_use g) = true.
Proof. unfold is_addr. by apply addr_cmp_eq. Qed.

Lemma members_bump L' d g' :
  group_address g' = a -> g_use g' = u8 (g_use g + d) ->
  members (<[k := l1 ++ (l, g') :: l2]> L') k = bump a d (members L k).
Proof.
  intros Ha' Hu. unfold members. rewrite groups_of_insert, E. unfold bump. rewrite !fmap_app. cbn [fmap list_fmap snd].
  rewrite is_addr_found. destruct (existsb_has_addr a l1 H1) as (_ & _ & B1). destruct (existsb_has_addr a l2 H2) as (_ & _ & B2).
  specialize (B1 d). specialize (B2 d). unfold bump in B1, B2. rewrite B1, B2, Ha', Ha, Hu. done.
Qed.

Lemma joined_found g' : group_address g' = a -> g_use g' = u8 (g_use g + 1) ->
  members (<[k := l1 ++ (l, g') :: l2]> L) k = joined a (members L k).
Proof.
  intros Ha' Hu. rewrite (members_bump L 1) by done. unfold joined, members. rewrite E, fmap_app, existsb_app.
  cbn [fmap list_fmap existsb snd]. rewrite is_addr_found, orb_true_l, orb_true_r. done.
Qed.

Lemma existsb_last (ls : list (ip6_addr * Z)) :
  existsb (is_addr a) ls = false -> existsb (fun x => is_addr a x && (x.2 <=? 1)) ls = false.
Proof. induction ls as [|x ls IH]; cbn [existsb]; [done|]. intros [-> ?]%orb_false_iff. by apply IH. Qed.

Lemma parted_last : g_use g <= 1 -> members (<[k := l1 ++ l2]> L) k = parted a (members L k).
Proof.
  intros Hu. unfold parted, members. rewrite groups_of_insert, E, fmap_app, fmap_app, existsb_app. cbn [fmap list_fmap existsb snd].
  rewrite is_addr_found, (proj2 (Z.leb_le _ 1)), orb_true_l, orb_true_r by done. rewrite filter_app, filter_cons_False by (by rewrite is_addr_found).
  destruct (existsb_has_addr a l1 H1) as (_ & F1 & _). destruct (existsb_has_addr a l2 H2) as (_ & F2 & _). by rewrite F1, F2.
Qed.

Lemma parted_other g' : 1 < g_use g -> group_address g' = a -> g_use g' = u8 (g_use g - 1) ->
  members (<[k := l1 ++ (l, g') :: l2]> L) k = parted a (members L k).
Proof.
  intros Hu Ha' Hu'. rewrite (members_bump L (-1)) by done. unfold parted, members. rewrite E, fmap_app, existsb_app.
  cbn [fmap list_fmap existsb snd]. rewrite (proj2 (Z.leb_gt _ 1)), andb_false_r by done. cbn [orb].
  destruct (existsb_has_addr a l1 H1) as (X1 & _). destruct (existsb_has_addr a l2 H2) as (X2 & _).
  by rewrite (existsb_last _ X1), (existsb_last _ X2).
Qed.
End abstract.

Section members.
Context `{Env} `{LowerLayersOk}.
Context (lwip_rand : nat -> Z).
Context (mld_mac_filter : netif -> option (ip6_addr -> Z -> M world unit)).
Hypothesis Hfilter : forall n f a act w, mld_mac_filter n = Some f -> wp (f a act) w (fun _ w' => sends w w').

Lemma wp_filter n a act s Q :
  (forall w', sends (mw s) w' -> Q tt (with_world w' s)) -> wp (call_filter mld_mac_filter n a act) s Q.
Proof.
  intros HQ. unfold call_filter. destruct (mld_mac_filter n) as [f|] eqn:E.
  - apply wp_in_world. eapply wp_mono; [by eapply Hfilter|]. intros [] w' Hw. by apply HQ.
  - apply wp_ret. destruct s as [w h c]. apply (HQ w), sends_refl.
Qed.

(** Whether there is a group left in the pool. *)
Definition room (s : mld_world) : bool := bool_decide (size (groups s) < MEMP_NUM_MLD6_GROUP)%nat.
Definition is_member (a : ip6_addr) (L : group_lists) (k : Z) : bool := existsb (is_addr a) (members L k).

(** The lists of [L] and [L'] differ at most for interface [k]. *)
Definition only (k : Z) (L L' : group_lists) : Prop := forall j, j <> k -> groups_of L' j = groups_of L j.
Lemma only_insert k L ls : only k L (<[k := ls]> L).
Proof. intros j Hj. by apply groups_of_insert_ne. Qed.
Hint Resolve only_insert : core.

Lemma zoned_wf n a : ip6_wf a -> ip6_wf (zoned n a).
Proof. intros Ha. unfold zoned. by destruct (ip6_addr_lacks_zone _ _). Qed.

Lemma is_member_find a L k :
  is_member a L k = bool_decide (is_Some (find_first (has_addr a) (groups_of L k))).
Proof.
  unfold is_member, members. induction (groups_of L k) as [|[l g] ls IH]; [done|]. cbn [fmap list_fmap existsb find_first snd].
  unfold is_addr at 1. cbn [fst]. fold (has_addr a g). destruct (has_addr a g); [done|exact IH].
Qed.

Lemma join_ok s L n a :
  mld_ok s L -> ip6_wf a -> netif_sane n ->
  wp (mld6_joingroup_netif lwip_rand mld_mac_filter n a) s (fun e s' =>
    if is_member (zoned n a) L (nif_num n) || room s then
      e = ERR_OK /\ sends (mw s) (mw s') /\ exists L', mld_ok s' L' /\ only (nif_num n) L L' /\
        members L' (nif_num n) = joined (zoned n a) (members L (nif_num n))
    else e = ERR_MEM /\ s' = s).
Proof.
  intros Hok Ha Hn. set (k := nif_num n). set (za := zoned n a). assert (Hza : ip6_wf za) by by apply zoned_wf.
  rewrite is_member_find. unfold mld6_joingroup_netif. cbv zeta. fold za.
  apply wp_bind. eapply wp_exec; [by apply (lookfor_exec s L k Hok n za)|].
  destruct (find_first (has_addr za) (groups_of L k)) as [[l g]|] eqn:Ef; cbn [fmap option_fmap option_map fst].
  - rewrite bool_decide_true by by eexists. cbn [orb].
    destruct (found_split za _ l g (mo_addr _ _ Hok k) Ef) as (l1 & l2 & E & Hag & F1 & F2).
    assert (Hg : good_group g).
    { pose proof (mo_good _ _ Hok k) as Hg. rewrite E in Hg. by apply Forall_app in Hg as [_ [? _]%Forall_cons]. }
    destruct (upd_group_ok s L k Hok l1 l g l2 (fun g => with_use (u8 (g_use g + 1)) g) E) as (s1 & E1 & Ew & Hok1);
      [done|destruct Hg; split; [done|done|done|apply u8_range]|].
    apply wp_bind. eapply wp_exec; [exact E1|]. apply wp_ret. split; [done|]. split; [rewrite Ew; apply sends_refl|].
    eexists. split; [exact Hok1|]. split; [done|]. by eapply joined_found.
  - rewrite bool_decide_false by (by intros [? ?]). cbn [orb]. unfold room.
    pose proof (new_group_ok s L n za Hok Hza Ef) as Hnew. destruct (decide (size (groups s) < MEMP_NUM_MLD6_GROUP)%nat) as [Hsz|Hsz].
    2: { rewrite bool_decide_false by done. apply wp_bind. eapply wp_exec; [exact Hnew|]. by apply wp_ret. }
    rewrite bool_decide_true by done. destruct Hnew as (l & s1 & E1 & Ew1 & Hok1). fold k in Hok1.
    apply wp_bind. eapply wp_exec; [exact E1|]. apply wp_bind, wp_filter. intros w2 Hw2.
    pose proof (mld_ok_world _ _ w2 Hok1) as Hok2. set (s2 := with_world w2 s1) in *.
    apply wp_bind. eapply wp_mono; [refine (send_ok s2 _ k n [] l _ (groups_of L k) Hok2 _ Hn); by rewrite groups_of_insert|].
    cbn beta. intros _ s3 (g3 & Hg3 & Hok3 & Hw3). rewrite insert_insert_eq in Hok3.
    apply wp_bind. eapply wp_mono; [apply (delayed_report_ok lwip_rand s3 _ k [] l g3 (groups_of L k) _ Hok3); [by rewrite groups_of_insert|done]|].
    cbn beta. intros _ s4 (g4 & (Hg4 & Ht4 & _) & Hok4 & Hw4). rewrite insert_insert_eq in Hok4.
    assert (Hf4 : good_group g4 /\ group_address g4 = za /\ g_use g4 = 0).
    { pose proof (mo_good _ _ Hok4 k) as Hg. rewrite groups_of_insert in Hg. apply Forall_cons in Hg as [Hg _]. split; [done|].
      rewrite Hg4. destruct Hg3 as [->| ->]; done. }
    destruct Hf4 as (Hgood & Ha4 & Hu4).
    destruct (upd_group_ok s4 _ k Hok4 [] l g4 (groups_of L k) (fun g => with_use (u8 (g_use g + 1)) g)) as (s5 & E5 & Ew5 & Hok5);
      [by rewrite groups_of_insert|done|destruct Hgood; split; [done|done|done|apply u8_range]|].
    rewrite insert_insert_eq in Hok5. apply wp_bind. eapply wp_exec; [exact E5|]. apply wp_ret. split; [done|]. split.
    { rewrite Ew5. eapply sends_trans; [|exact Hw4]. eapply sends_trans; [|exact Hw3]. by rewrite <-Ew1. }
    eexists. split; [exact Hok5|]. split; [done|]. unfold members at 1. rewrite groups_of_insert. cbn [app fmap list_fmap snd].
    cbn [group_address g_use with_use]. rewrite Ha4, Hu4. unfold joined. destruct (existsb_has_addr za _ Ef) as (Hno & _).
    fold (members L k) in Hno. by rewrite Hno.
Qed.

Lemma leave_ok s L n a :
  mld_ok s L -> netif_sane n ->
  wp (mld6_leavegroup_netif mld_mac_filter n a) s (fun e s' =>
    if is_member (zoned n a) L (nif_num n) then
      e = ERR_OK /\ sends (mw s) (mw s') /\ exists L', mld_ok s' L' /\ only (nif_num n) L L' /\
        members L' (nif_num n) = parted (zoned n a) (members L (nif_num n))
    else e = ERR_VAL /\ s' = s).
Proof.
  intros Hok Hn. set (k := nif_num n). set (za := zoned n a). rewrite is_member_find. unfold mld6_leavegroup_netif. cbv zeta. fold za.
  apply wp_bind. eapply wp_exec; [by apply (lookfor_exec s L k Hok n za)|].
  destruct (find_first (has_addr za) (groups_of L k)) as [[l g]|] eqn:Ef; cbn [fmap option_fmap option_map fst].
  2: { rewrite bool_decide_false by (by intros [? ?]). by apply wp_ret. }
  rewrite bool_decide_true by by eexists.
  destruct (found_split za _ l g (mo_addr _ _ Hok k) Ef) as (l1 & l2 & E & Hag & F1 & F2).
  assert (Hg : good_group g).
  { pose proof (mo_good _ _ Hok k) as Hg. rewrite E in Hg. by apply Forall_app in Hg as [_ [? _]%Forall_cons]. }
  destruct (group_lookup s L k Hok _ _ _ _ E) as [q Hq]. apply wp_bind. eapply wp_exec; [by apply group_at_exec|]. cbn [n_val].
  apply wp_bind. destruct (Z.leb_spec (g_use g) 1) as [Hu|Hu].
  - destruct (remove_group_ok s L n l1 l g l2 Hok E) as (s1 & E1 & Ew1 & El & Hfin).
    apply wp_bind. eapply wp_exec; [exact E1|]. apply wp_bind.
    assert (Hsent : wp (if negb (last_reporter_flag g =? 0) then mld6_send n l ICMP6_TYPE_MLD else mret tt) s1
      (fun _ s' => exists w, sends (mw s) w /\ s' = with_world w s1)).
    { destruct (negb _); [|apply wp_ret; exists (mw s1); split; [rewrite Ew1; apply sends_refl|by destruct s1]].
      eapply wp_mld_send; [rewrite El; exact Hq|apply Hg|done|by vm_compute| |]; intros w' Hw; exists w'; by rewrite <-Ew1. }
    eapply wp_mono; [exact Hsent|]. cbn beta. intros _ s2 (w2 & Hw2 & ->). apply wp_bind, wp_filter. intros w3 Hw3.
    apply wp_modify, wp_ret. split; [done|]. split; [by eapply sends_trans|]. exists (<[k := l1 ++ l2]> L). split; [exact (Hfin w3)|].
    split; [done|]. by apply (parted_last L k za l1 l g l2).
  - destruct (upd_group_ok s L k Hok l1 l g l2 (fun g => with_use (u8 (g_use g - 1)) g) E) as (s1 & E1 & Ew & Hok1);
      [done|destruct Hg; split; [done|done|done|apply u8_range]|].
    eapply wp_exec; [exact E1|]. apply wp_ret. split; [done|]. split; [rewrite Ew; apply sends_refl|].
    eexists. split; [exact Hok1|]. split; [done|]. by apply (parted_other L k za l1 l g l2).
Qed.
End members.
