(* ===== verification/Nd6.v ===== *)
(** * Neighbour discovery: the tables

    lwip/src/core/ipv6/nd6.c with the configuration of include/lwipopts.h (one
    packet queued per neighbour, no gateway hook, no address hints): the neighbour
    cache, the destination cache, the on-link prefixes and the default routers, with
    the functions that search, fill and clear them and the messages that are sent.
    [Nd6In] has the messages that arrive and the timer.

    A [struct netif *] in a table is the number of the interface and is followed
    through the list of interfaces, which is part of the state here since neighbour
    discovery changes the addresses of interfaces.  A [neighbor_entry] pointer is an
    index in the neighbour cache.  The holder [multicast_address] is always written
    before it is used and is a local here. *)

From S2P Require Import Prelude LinkedList Ip6Addr World Netif Pbuf Ip6Hdr Custody Buffer InetChksum RawSocket Ip6Out Icmp6 Ip6In Ip6Spec Mld6.

(** ** Data *)

Definition LWIP_ND6_NUM_NEIGHBORS : nat := 10.
Definition LWIP_ND6_NUM_DESTINATIONS : nat := 10.
Definition LWIP_ND6_NUM_PREFIXES : nat := 5.
Definition LWIP_ND6_NUM_ROUTERS : nat := 3.
Definition LWIP_ND6_MAX_MULTICAST_SOLICIT : Z := 3.
Definition LWIP_ND6_REACHABLE_TIME : Z := 30000.
Definition LWIP_ND6_RETRANS_TIMER : Z := 1000.
Definition LWIP_ND6_DELAY_FIRST_PROBE_TIME : Z := 5000.
Definition ND6_TMR_INTERVAL : Z := 1000.
Definition ND6_RTR_SOLICITATION_INTERVAL : Z := 4000.
Definition ND6_HOPLIM : Z := 255.
Definition ND6_2HRS : Z := 7200.

Inductive nd6_neighbor_cache_entry_state :=
  ND6_NO_ENTRY | ND6_INCOMPLETE | ND6_REACHABLE | ND6_STALE | ND6_DELAY | ND6_PROBE.
#[export] Instance nd6_state_eq_dec : EqDecision nd6_neighbor_cache_entry_state.
Proof. solve_decision. Defined.

(** [counter] is a union of four unsigned integers. *)
Record nd6_neighbor_cache_entry := mk_neighbor {
  next_hop_address : ip6_addr;
  nc_netif : option Z;
  lladdr : list Z;
  nc_q : option loc;
  nc_state : nd6_neighbor_cache_entry_state;
  isrouter : Z;
  counter : Z
}.

Record nd6_destination_cache_entry := mk_destination {
  destination_addr : ip6_addr;
  next_hop_addr : ip6_addr;
  pmtu : Z;
  cached_neighbor_idx : nat;
  age : Z
}.

Record nd6_prefix_list_entry := mk_prefix {
  prefix : ip6_addr;
  pl_netif : option Z;
  pl_timer : Z                        (* invalidation_timer *)
}.

Record nd6_router_list_entry := mk_router {
  neighbor_entry : option nat;
  rl_timer : Z;                       (* invalidation_timer *)
  rl_flags : Z
}.

(** The variables of nd6.c. *)
Record nd_state := mk_nds {
  neighbor_cache : list nd6_neighbor_cache_entry;
  destination_cache : list nd6_destination_cache_entry;
  prefix_list : list nd6_prefix_list_entry;
  default_router_list : list nd6_router_list_entry;
  reachable_time : Z;
  retrans_timer : Z;
  nd6_cached_destination_index : nat;
  last_router : nat;
  nd6_tmr_rs_reduction : Z
}.

(** An interface with the two fields that only neighbour discovery uses. *)
Record nd_netif := mk_ndn {
  ndn : netif;
  rs_count : Z;
  ip6_autoconfig_enabled : Z
}.

Record nd_world := mk_nd {
  nd_mld : mld_world;
  nd_netifs : list nd_netif;
  nds : nd_state
}.

Definition no_neighbor : nd6_neighbor_cache_entry :=
  mk_neighbor ip6_addr_any None (replicate 6 0) None ND6_NO_ENTRY 0 0.
(** The variables as the program starts. *)
Definition nd_start : nd_state :=
  mk_nds (replicate LWIP_ND6_NUM_NEIGHBORS no_neighbor)
    (replicate LWIP_ND6_NUM_DESTINATIONS (mk_destination ip6_addr_any ip6_addr_any 0 0 0))
    (replicate LWIP_ND6_NUM_PREFIXES (mk_prefix ip6_addr_any None 0))
    (replicate LWIP_ND6_NUM_ROUTERS (mk_router None 0 0))
    LWIP_ND6_REACHABLE_TIME LWIP_ND6_RETRANS_TIMER 0 0 0.

(** *** Field updates *)

Definition with_neighbors (l : list nd6_neighbor_cache_entry) (t : nd_state) : nd_state :=
  mk_nds l (destination_cache t) (prefix_list t) (default_router_list t) (reachable_time t) (retrans_timer t)
    (nd6_cached_destination_index t) (last_router t) (nd6_tmr_rs_reduction t).
Definition with_destinations (l : list nd6_destination_cache_entry) (t : nd_state) : nd_state :=
  mk_nds (neighbor_cache t) l (prefix_list t) (default_router_list t) (reachable_time t) (retrans_timer t)
    (nd6_cached_destination_index t) (last_router t) (nd6_tmr_rs_reduction t).
Definition with_prefixes (l : list nd6_prefix_list_entry) (t : nd_state) : nd_state :=
  mk_nds (neighbor_cache t) (destination_cache t) l (default_router_list t) (reachable_time t) (retrans_timer t)
    (nd6_cached_destination_index t) (last_router t) (nd6_tmr_rs_reduction t).
Definition with_routers (l : list nd6_router_list_entry) (t : nd_state) : nd_state :=
  mk_nds (neighbor_cache t) (destination_cache t) (prefix_list t) l (reachable_time t) (retrans_timer t)
    (nd6_cached_destination_index t) (last_router t) (nd6_tmr_rs_reduction t).
Definition with_times (reach retrans : Z) (t : nd_state) : nd_state :=
  mk_nds (neighbor_cache t) (destination_cache t) (prefix_list t) (default_router_list t) reach retrans
    (nd6_cached_destination_index t) (last_router t) (nd6_tmr_rs_reduction t).
Definition with_cached (i : nat) (t : nd_state) : nd_state :=
  mk_nds (neighbor_cache t) (destination_cache t) (prefix_list t) (default_router_list t) (reachable_time t)
    (retrans_timer t) i (last_router t) (nd6_tmr_rs_reduction t).
Definition with_last_router (i : nat) (t : nd_state) : nd_state :=
  mk_nds (neighbor_cache t) (destination_cache t) (prefix_list t) (default_router_list t) (reachable_time t)
    (retrans_timer t) (nd6_cached_destination_index t) i (nd6_tmr_rs_reduction t).
Definition with_rs_reduction (r : Z) (t : nd_state) : nd_state :=
  mk_nds (neighbor_cache t) (destination_cache t) (prefix_list t) (default_router_list t) (reachable_time t)
    (retrans_timer t) (nd6_cached_destination_index t) (last_router t) r.

Definition with_nc_state (st : nd6_neighbor_cache_entry_state) (c : Z) (e : nd6_neighbor_cache_entry) : nd6_neighbor_cache_entry :=
  mk_neighbor (next_hop_address e) (nc_netif e) (lladdr e) (nc_q e) st (isrouter e) c.
Definition with_counter (c : Z) (e : nd6_neighbor_cache_entry) : nd6_neighbor_cache_entry := with_nc_state (nc_state e) c e.
Definition with_isrouter (r : Z) (e : nd6_neighbor_cache_entry) : nd6_neighbor_cache_entry :=
  mk_neighbor (next_hop_address e) (nc_netif e) (lladdr e) (nc_q e) (nc_state e) r (counter e).
Definition with_nc_netif (k : option Z) (e : nd6_neighbor_cache_entry) : nd6_neighbor_cache_entry :=
  mk_neighbor (next_hop_address e) k (lladdr e) (nc_q e) (nc_state e) (isrouter e) (counter e).
Definition with_q (q : option loc) (e : nd6_neighbor_cache_entry) : nd6_neighbor_cache_entry :=
  mk_neighbor (next_hop_address e) (nc_netif e) (lladdr e) q (nc_state e) (isrouter e) (counter e).
Definition with_next_hop (a : ip6_addr) (e : nd6_neighbor_cache_entry) : nd6_neighbor_cache_entry :=
  mk_neighbor a (nc_netif e) (lladdr e) (nc_q e) (nc_state e) (isrouter e) (counter e).
(** [MEMCPY(lladdr, addr, n)] *)
Definition with_lladdr (bs : list Z) (e : nd6_neighbor_cache_entry) : nd6_neighbor_cache_entry :=
  mk_neighbor (next_hop_address e) (nc_netif e) (splice 0 bs (lladdr e)) (nc_q e) (nc_state e) (isrouter e) (counter e).

(** ** The monad *)

Definition in_mld {A} (m : M mld_world A) : M nd_world A :=
  fun s => match m (nd_mld s) with
           | Ret (a, x) => Ret (a, mk_nd x (nd_netifs s) (nds s))
           | Stuck => Stuck
           | Hang => Hang
           end.
Definition in_node {A} (m : M world A) : M nd_world A := in_mld (in_world m).

Definition get_nd : M nd_world nd_state := gets nds.
Definition modify_nd (f : nd_state -> nd_state) : M nd_world unit :=
  modify (fun s => mk_nd (nd_mld s) (nd_netifs s) (f (nds s))).

(** The interface with a number. *)
Definition find_nd (k : Z) (l : list nd_netif) : option nd_netif :=
  snd <$> list_find (fun x => nif_num (ndn x) = k) l.
Definition netif_at (k : Z) : M nd_world nd_netif := s ← get; lift (deref (find_nd k (nd_netifs s))).
Definition upd_netif (k : Z) (f : nd_netif -> nd_netif) : M nd_world unit :=
  modify (fun s => mk_nd (nd_mld s) ((fun x => if nif_num (ndn x) =? k then f x else x) <$> nd_netifs s) (nds s)).

(** [&neighbor_cache[i]], read and written. *)
Definition neighbor (i : nat) : M nd_world nd6_neighbor_cache_entry := t ← get_nd; lift (deref (neighbor_cache t !! i)).
Definition upd_neighbor (i : nat) (f : nd6_neighbor_cache_entry -> nd6_neighbor_cache_entry) : M nd_world unit :=
  neighbor i;; modify_nd (fun t => with_neighbors (alter f i (neighbor_cache t)) t).
Definition destination (i : nat) : M nd_world nd6_destination_cache_entry := t ← get_nd; lift (deref (destination_cache t !! i)).
Definition upd_destination (i : nat) (f : nd6_destination_cache_entry -> nd6_destination_cache_entry) : M nd_world unit :=
  destination i;; modify_nd (fun t => with_destinations (alter f i (destination_cache t)) t).

(** The first element with a property. *)
Definition index_of {A} (f : A -> bool) (l : list A) : option nat := fst <$> list_find (fun x => f x = true) l.

(** ** Searching the tables *)

Definition nd6_find_neighbor_cache_entry (t : nd_state) (ip6addr : ip6_addr) : option nat :=
  index_of (fun e => ip6_addr_cmp ip6addr (next_hop_address e)) (neighbor_cache t).
Definition nd6_find_destination_cache_entry (t : nd_state) (ip6addr : ip6_addr) : option nat :=
  index_of (fun e => ip6_addr_cmp ip6addr (destination_addr e)) (destination_cache t).

(** The [for] that keeps the last entry older than [age], which stays 0. *)
Definition aged_last (l : list nd6_destination_cache_entry) : nat :=
  foldl (fun j ie => if 0 <? age ie.2 then ie.1 else j) (LWIP_ND6_NUM_DESTINATIONS - 1)%nat (imap pair l).
Definition nd6_new_destination_cache_entry (t : nd_state) : nat :=
  match index_of (fun e => ip6_addr_isany (destination_addr e)) (destination_cache t) with
  | Some i => i
  | None => aged_last (destination_cache t)
  end.

Definition set_destination_addr (a : ip6_addr) (e : nd6_destination_cache_entry) : nd6_destination_cache_entry :=
  mk_destination a (next_hop_addr e) (pmtu e) (cached_neighbor_idx e) (age e).
Definition nd6_clear_destination_cache : M nd_world unit :=
  modify_nd (fun t => with_destinations (set_destination_addr ip6_addr_any <$> destination_cache t) t).

(** [netif] is null for none. *)
Definition nd6_get_destination_mtu (t : nd_state) (ip6addr : ip6_addr) (n : option netif) : Z :=
  let default := match n with Some n => nif_mtu6 n | None => IP6_MIN_MTU_LENGTH end in
  match nd6_find_destination_cache_entry t ip6addr with
  | Some i => match destination_cache t !! i with
              | Some e => if 0 <? pmtu e then pmtu e else default
              | None => default
              end
  | None => default
  end.

Definition nd6_get_onlink_prefix (t : nd_state) (p : ip6_addr) (k : Z) : option nat :=
  index_of (fun e => ip6_addr_net_eq (prefix e) p && bool_decide (pl_netif e = Some k)) (prefix_list t).
Definition nd6_new_onlink_prefix (p : ip6_addr) (k : Z) : M nd_world (option nat) :=
  t ← get_nd;
  match index_of (fun e => bool_decide (pl_netif e = None) || (pl_timer e =? 0)) (prefix_list t) with
  | Some i => modify_nd (fun t => with_prefixes (alter (fun e => mk_prefix p (Some k) (pl_timer e)) i (prefix_list t)) t);;
              mret (Some i)
  | None => mret None
  end.

(** An on-link prefix of the interface, or the /64 of a static address. *)
Definition static_slot (n : netif) (a : ip6_addr) (i : nat) : outcome bool :=
  st ← netif_ip6_addr_state n i;
  if ip6_addr_isvalid st then
    s ← netif_ip6_addr_isstatic n i;
    if (s : bool) then b ← netif_ip6_addr n i; Ret (ip6_addr_net_eq a b) else Ret false
  else Ret false.
Definition nd6_is_prefix_in_netif (t : nd_state) (ip6addr : ip6_addr) (n : netif) : outcome bool :=
  if existsb (fun e => bool_decide (pl_netif e = Some (nif_num n)) && (0 <? pl_timer e) && ip6_addr_net_eq ip6addr (prefix e))
       (prefix_list t)
  then Ret true
  else some_slot (static_slot n ip6addr).

(** ** Default routers *)

(** The test on the interface of a router's neighbour: the given one, or one that is up. *)
Definition router_suits (l : list nd_netif) (n : option Z) (e : nd6_neighbor_cache_entry) : outcome bool :=
  match nc_netif e with
  | None => Ret false
  | Some k => match n with
              | Some k' => Ret (k' =? k)
              | None => x ← deref (find_nd k l); Ret (netif_is_up (ndn x) && netif_is_link_up (ndn x))
              end
  end.

(** The first loop: a reachable router, or the first one that may be reachable. *)
Fixpoint valid_routers (l : list nd_netif) (c : list nd6_neighbor_cache_entry) (n : option Z)
    (rs : list nd6_router_list_entry) (i : nat) (valid : option nat) : outcome (option nat) :=
  match rs with
  | [] => Ret valid
  | r :: rs =>
      match neighbor_entry r with
      | None => valid_routers l c n rs (S i) valid
      | Some j =>
          e ← deref (c !! j);
          ok ← router_suits l n e;
          if (ok : bool) && negb (bool_decide (nc_state e = ND6_INCOMPLETE)) then
            if bool_decide (nc_state e = ND6_REACHABLE) then Ret (Some i)
            else valid_routers l c n rs (S i) (match valid with None => Some i | Some v => Some v end)
          else valid_routers l c n rs (S i) valid
      end
  end.

(** The second loop: [k] more entries from [i] on, around. *)
Fixpoint any_router (l : list nd_netif) (c : list nd6_neighbor_cache_entry) (n : option Z)
    (rs : list nd6_router_list_entry) (k i : nat) : outcome (option nat) :=
  match k with
  | O => Ret None
  | S k =>
      let next := if decide (LWIP_ND6_NUM_ROUTERS <= S i)%nat then O else S i in
      r ← deref (rs !! i);
      match neighbor_entry r with
      | None => any_router l c n rs k next
      | Some j =>
          e ← deref (c !! j);
          ok ← router_suits l n e;
          if (ok : bool) then Ret (Some i) else any_router l c n rs k next
      end
  end.

Definition nd6_select_router (n : option Z) : M nd_world (option nat) :=
  s ← get;
  let t := nds s in
  v ← lift (valid_routers (nd_netifs s) (neighbor_cache t) n (default_router_list t) 0 None);
  match v with
  | Some i => mret (Some i)
  | None =>
      (match n with
       | None => modify_nd (fun t => with_last_router (if decide (LWIP_ND6_NUM_ROUTERS <= S (last_router t))%nat then 0 else S (last_router t)) t)
       | Some _ => mret tt
       end);;
      t ← get_nd;
      lift (any_router (nd_netifs s) (neighbor_cache t) n (default_router_list t) LWIP_ND6_NUM_ROUTERS (last_router t))
  end.

(** The number of the interface to use. *)
Fixpoint prefix_route (l : list nd_netif) (a : ip6_addr) (ps : list nd6_prefix_list_entry) : outcome (option Z) :=
  match ps with
  | [] => Ret None
  | p :: ps =>
      match pl_netif p with
      | None => prefix_route l a ps
      | Some k =>
          if ip6_addr_net_eq (prefix p) a then
            x ← deref (find_nd k l);
            if netif_is_up (ndn x) && netif_is_link_up (ndn x) then Ret (Some k) else prefix_route l a ps
          else prefix_route l a ps
      end
  end.
Definition nd6_find_route (ip6addr : ip6_addr) : M nd_world (option Z) :=
  s ← get;
  r ← lift (prefix_route (nd_netifs s) ip6addr (prefix_list (nds s)));
  match r with
  | Some k => mret (Some k)
  | None =>
      i ← nd6_select_router None;
      match i with
      | None => mret None
      | Some i =>
          t ← get_nd;
          r ← lift (deref (default_router_list t !! i));
          j ← lift (deref (neighbor_entry r));
          e ← neighbor j;
          mret (nc_netif e)
      end
  end.

(** [netif] is not null where this is called. *)
Fixpoint router_index (c : list nd6_neighbor_cache_entry) (a : ip6_addr) (k : Z)
    (rs : list nd6_router_list_entry) (i : nat) : outcome (option nat) :=
  match rs with
  | [] => Ret None
  | r :: rs =>
      match neighbor_entry r with
      | None => router_index c a k rs (S i)
      | Some j =>
          e ← deref (c !! j);
          if bool_decide (nc_netif e = Some k) && ip6_addr_cmp a (next_hop_address e) then Ret (Some i)
          else router_index c a k rs (S i)
      end
  end.
Definition nd6_get_router (router_addr : ip6_addr) (k : Z) : M nd_world (option nat) :=
  t ← get_nd; lift (router_index (neighbor_cache t) router_addr k (default_router_list t) 0).

(** ** Messages *)

Definition ICMP6_TYPE_RS : Z := 133.
Definition ND6_SEND_FLAG_MULTICAST_DEST : Z := 0x01.
Definition ND6_SEND_FLAG_ALLNODES_DEST : Z := 0x02.
Definition ND6_SEND_FLAG_ANY_SRC : Z := 0x04.
Definition ND6_FLAG_SOLICITED : Z := 0x40.
Definition ND6_FLAG_OVERRIDE : Z := 0x20.
Definition ND6_OPTION_TYPE_SOURCE_LLADDR : Z := 1.
Definition ND6_OPTION_TYPE_TARGET_LLADDR : Z := 2.
Definition sizeof_ns_header : Z := 24.
Definition sizeof_na_header : Z := 24.
Definition sizeof_rs_header : Z := 8.

Definition ip6_addr_set_solicitednode (if_id : Z) : ip6_addr :=
  mk_ip6 (PP_HTONL 0xff020000) 0 (PP_HTONL 1) (Z.lor (PP_HTONL 0xff000000) if_id) 0.
Definition ip6_addr_set_allnodes_linklocal : ip6_addr := mk_ip6 (PP_HTONL 0xff020000) 0 0 (PP_HTONL 1) 0.
Definition ip6_addr_set_allrouters_linklocal : ip6_addr := mk_ip6 (PP_HTONL 0xff020000) 0 0 (PP_HTONL 2) 0.

Definition has_flag (flags f : Z) : bool := negb (Z.land flags f =? 0).

(** The length of the link-layer address option, in blocks of eight bytes. *)
Definition lladdr_opt_blocks (n : netif) : Z := Z.shiftr (nif_hwaddr_len n + 2 + 7) 3.
Definition lladdr_opt_blocks' (n : netif) : Z :=
  Z.shiftr (nif_hwaddr_len n + 2) 3 + (if Z.land (nif_hwaddr_len n + 2) 0x07 =? 0 then 0 else 1).

(** [lladdr_opt] at an offset. *)
Definition fill_lladdr_option (p : loc) (off type blocks : Z) (n : netif) : M world unit :=
  pwrite p off [type];;
  pwrite p (off + 1) [u8 blocks];;
  bs ← lift (rd 0 (nif_hwaddr_len n) (nif_hwaddr n));
  pwrite p (off + 2) bs.

Definition fill_nd_checksum (p : loc) (src dest : ip6_addr) : M world unit :=
  nd ← pb_node p;
  w ← get;
  c ← lift (ip6_chksum_pseudo (w_pbufs w) (Some p) IP6_NEXTH_ICMP6 (pb_len (n_val nd)) src dest);
  pwrite p 2 (le_bytes 2 c).

Section nd6.
Context `{Env} `{LowerLayers}.

(** The layers below with the path MTU that neighbour discovery knows. *)
Definition nd_layers (t : nd_state) : LowerLayers := {|
  output_ip6 := output_ip6;
  ip6_frag := ip6_frag;
  Ip6Out.nd6_find_route := Ip6Out.nd6_find_route;
  Ip6Out.nd6_get_destination_mtu := fun a n => mret (nd6_get_destination_mtu t a (Some n));
  nd6_input := nd6_input;
  Ip6Out.mld6_input := Ip6Out.mld6_input;
  Ip6Out.mld6_lookfor_group := Ip6Out.mld6_lookfor_group
|}.
Definition output_nd (p : loc) (src : option ip6_addr) (dest : ip6_addr) (n : netif) : M nd_world err_t :=
  t ← get_nd;
  in_node (@ip6_output_if (nd_layers t) p src (Some dest) ND6_HOPLIM 0 IP6_NEXTH_ICMP6 n).

(** The source address of a solicitation; the inner none is the unspecified address, the
    outer one that there is no suitable address. *)
Definition ns_source (n : netif) (target_addr : ip6_addr) (flags : Z) : outcome (option (option ip6_addr)) :=
  if has_flag flags ND6_SEND_FLAG_ANY_SRC then Ret (Some None)
  else
    i ← first_slot LWIP_IPV6_NUM_ADDRESSES 0 (valid_slot n (ip6_addr_net_eq target_addr));
    match i with
    | None => Ret None
    | Some i => a ← netif_ip6_addr n i; Ret (Some (Some a))
    end.

Definition fill_ns (p : loc) (n : netif) (target_addr : ip6_addr) (blocks : Z) : M world unit :=
  pwrite p 0 [ICMP6_TYPE_NS];;
  pwrite p 1 [0];;
  pwrite p 2 (le_bytes 2 0);;
  pwrite p 4 (le_bytes 4 0);;
  pwrite p 8 (ip6_bytes target_addr);;
  if negb (blocks =? 0) then fill_lladdr_option p sizeof_ns_header ND6_OPTION_TYPE_SOURCE_LLADDR blocks n else mret tt.

Definition nd6_send_ns (n : netif) (target_addr : ip6_addr) (flags : Z) : M nd_world unit :=
  src ← lift (ns_source n target_addr flags);
  match src with
  | None => mret tt
  | Some src_addr =>
      let blocks := match src_addr with Some _ => u16 (lladdr_opt_blocks n) | None => 0 end in
      po ← in_node (pbuf_alloc PBUF_IP (sizeof_ns_header + Z.shiftl blocks 3) PBUF_RAM);
      match po with
      | None => mret tt
      | Some p =>
          in_node (fill_ns p n target_addr blocks);;
          let dest := if has_flag flags ND6_SEND_FLAG_MULTICAST_DEST
                      then ip6_addr_assign_zone (ip6_addr_set_solicitednode (addr3 target_addr)) IP6_MULTICAST n
                      else target_addr in
          in_node (fill_nd_checksum p (default ip6_addr_any src_addr) dest);;
          output_nd p src_addr dest n;;
          in_node (pbuf_free_m p);;
          mret tt
      end
  end.

(** [entry->netif] is followed. *)
Definition nd6_send_neighbor_cache_probe (i : nat) (flags : Z) : M nd_world unit :=
  e ← neighbor i;
  k ← lift (deref (nc_netif e));
  x ← netif_at k;
  nd6_send_ns (ndn x) (next_hop_address e) flags.

Definition fill_na (p : loc) (n : netif) (target_addr : ip6_addr) (flags blocks : Z) : M world unit :=
  pwrite p 0 [ICMP6_TYPE_NA];;
  pwrite p 1 [0];;
  pwrite p 2 (le_bytes 2 0);;
  pwrite p 4 [Z.land flags 0xf0];;
  pwrite p 5 [0];;
  pwrite p 6 [0];;
  pwrite p 7 [0];;
  pwrite p 8 (ip6_bytes target_addr);;
  fill_lladdr_option p sizeof_na_header ND6_OPTION_TYPE_TARGET_LLADDR blocks n.

Definition nd6_send_na (n : netif) (target_addr : ip6_addr) (flags : Z) : M nd_world unit :=
  let blocks := u16 (lladdr_opt_blocks' n) in
  po ← in_node (pbuf_alloc PBUF_IP (sizeof_na_header + Z.shiftl blocks 3) PBUF_RAM);
  match po with
  | None => mret tt
  | Some p =>
      in_node (fill_na p n target_addr flags blocks);;
      s ← get;
      let dest :=
        if has_flag flags ND6_SEND_FLAG_MULTICAST_DEST
        then ip6_addr_assign_zone (ip6_addr_set_solicitednode (addr3 target_addr)) IP6_MULTICAST n
        else if has_flag flags ND6_SEND_FLAG_ALLNODES_DEST
        then ip6_addr_assign_zone ip6_addr_set_allnodes_linklocal IP6_MULTICAST n
        else w_cur_src (mw (nd_mld s)) in
      in_node (fill_nd_checksum p target_addr dest);;
      output_nd p (Some target_addr) dest n;;
      in_node (pbuf_free_m p);;
      mret tt
  end.

Definition fill_rs (p : loc) (n : netif) (with_opt : bool) (blocks : Z) : M world unit :=
  pwrite p 0 [ICMP6_TYPE_RS];;
  pwrite p 1 [0];;
  pwrite p 2 (le_bytes 2 0);;
  pwrite p 4 (le_bytes 4 0);;
  if with_opt then fill_lladdr_option p sizeof_rs_header ND6_OPTION_TYPE_SOURCE_LLADDR blocks n else mret tt.

Definition nd6_send_rs (n : netif) : M nd_world err_t :=
  st ← lift (netif_ip6_addr_state n 0);
  src_addr ← (if ip6_addr_isvalid st then a ← lift (netif_ip6_addr n 0); mret (Some a) else mret None);
  let dest := ip6_addr_assign_zone ip6_addr_set_allrouters_linklocal IP6_MULTICAST n in
  let blocks := match src_addr with Some _ => u16 (lladdr_opt_blocks' n) | None => 0 end in
  po ← in_node (pbuf_alloc PBUF_IP (sizeof_rs_header + Z.shiftl blocks 3) PBUF_RAM);
  match po with
  | None => mret ERR_BUF
  | Some p =>
      in_node (fill_rs p n (bool_decide (is_Some src_addr)) blocks);;
      in_node (fill_nd_checksum p (default ip6_addr_any src_addr) dest);;
      err ← output_nd p src_addr dest n;
      in_node (pbuf_free_m p);;
      mret err
  end.

(** ** Entries of the neighbour cache *)

Definition nd6_free_neighbor_cache_entry (i : nat) : M nd_world unit :=
  if decide (LWIP_ND6_NUM_NEIGHBORS <= i)%nat then mret tt
  else
    e ← neighbor i;
    if negb (isrouter e =? 0) then mret tt
    else
      (match nc_q e with
       | Some q => in_node (pbuf_free_m q);; upd_neighbor i (with_q None)
       | None => mret tt
       end);;
      upd_neighbor i (fun e => mk_neighbor ip6_addr_any None (lladdr e) (nc_q e) ND6_NO_ENTRY 0 0).

(** A neighbour that is not a router, in a state. *)
Definition spare (st : nd6_neighbor_cache_entry_state) (e : nd6_neighbor_cache_entry) : bool :=
  bool_decide (nc_state e = st) && (isrouter e =? 0).
(** The three loops over the age of an entry: the index found so far and its time. *)
Definition least_reachable (c : list nd6_neighbor_cache_entry) : option nat :=
  fst (foldl (fun acc ie => if spare ND6_REACHABLE ie.2 && (counter ie.2 <? acc.2) then (Some ie.1, counter ie.2) else acc)
         (None, 0xffffffff) (imap pair c)).
Definition oldest_incomplete (unqueued : bool) (c : list nd6_neighbor_cache_entry) : option nat :=
  fst (foldl (fun acc ie => if (negb unqueued || bool_decide (nc_q ie.2 = None)) && spare ND6_INCOMPLETE ie.2 && (acc.2 <=? counter ie.2)
                            then (Some ie.1, counter ie.2) else acc)
         (None, 0) (imap pair c)).
(** The entry that is recycled: the first of the loops to find one. *)
Definition recycled (c : list nd6_neighbor_cache_entry) : option nat :=
  match index_of (spare ND6_STALE) c with
  | Some i => Some i
  | None =>
      match index_of (spare ND6_PROBE) c with
      | Some i => Some i
      | None =>
          match index_of (spare ND6_DELAY) c with
          | Some i => Some i
          | None =>
              match least_reachable c with
              | Some j => Some j
              | None => match oldest_incomplete true c with Some j => Some j | None => oldest_incomplete false c end
              end
          end
      end
  end.
Definition nd6_new_neighbor_cache_entry : M nd_world (option nat) :=
  t ← get_nd;
  match index_of (fun e => bool_decide (nc_state e = ND6_NO_ENTRY)) (neighbor_cache t) with
  | Some i => mret (Some i)
  | None =>
      match recycled (neighbor_cache t) with
      | Some j => nd6_free_neighbor_cache_entry j;; mret (Some j)
      | None => mret None
      end
  end.

(** ** Routers and next hops *)

(** The downward loop over the routers: the entry that has the neighbour, or the lowest free one. *)
Definition router_slot (neighbor_index : nat) (rs : list nd6_router_list_entry) : nat + option nat :=
  match index_of (fun r => bool_decide (neighbor_entry r = Some neighbor_index)) (reverse rs) with
  | Some i => inl (length rs - 1 - i)%nat
  | None => inr (index_of (fun r => bool_decide (neighbor_entry r = None)) rs)
  end.

Definition nd6_new_router (router_addr : ip6_addr) (k : Z) : M nd_world (option nat) :=
  t ← get_nd;
  io ← (match nd6_find_neighbor_cache_entry t router_addr with
        | Some i => mret (Some i)
        | None =>
            io ← nd6_new_neighbor_cache_entry;
            match io with
            | None => mret None
            | Some i =>
                upd_neighbor i (fun e => mk_neighbor router_addr (Some k) (lladdr e) None ND6_INCOMPLETE (isrouter e) 1);;
                nd6_send_neighbor_cache_probe i ND6_SEND_FLAG_MULTICAST_DEST;;
                mret (Some i)
            end
        end);
  match io with
  | None => mret None
  | Some i =>
      upd_neighbor i (with_isrouter 1);;
      t ← get_nd;
      match router_slot i (default_router_list t) with
      | inl r => mret (Some r)
      | inr (Some r) =>
          modify_nd (fun t => with_routers (alter (fun x => mk_router (Some i) (rl_timer x) (rl_flags x)) r (default_router_list t)) t);;
          mret (Some r)
      | inr None => upd_neighbor i (with_isrouter 0);; mret None
      end
  end.

(** Filling a new destination entry: whether a next hop was found. *)
Definition new_destination (i : nat) (ip6addr : ip6_addr) (n : netif) : M nd_world bool :=
  upd_destination i (set_destination_addr ip6addr);;
  t ← get_nd;
  local ← lift (if ip6_addr_islinklocal ip6addr then Ret true else nd6_is_prefix_in_netif t ip6addr n);
  if (local : bool) then
    upd_destination i (fun e => mk_destination (destination_addr e) (destination_addr e) (nif_mtu6 n) (cached_neighbor_idx e) (age e));;
    mret true
  else
    r ← nd6_select_router (Some (nif_num n));
    match r with
    | None => upd_destination i (set_destination_addr ip6_addr_any);; mret false
    | Some r =>
        t ← get_nd;
        x ← lift (deref (default_router_list t !! r));
        j ← lift (deref (neighbor_entry x));
        e ← neighbor j;
        upd_destination i (fun d => mk_destination (destination_addr d) (next_hop_address e) (nif_mtu6 n) (cached_neighbor_idx d) (age d));;
        mret true
    end.

(** The entry of the destination, or none if there is no route. *)
Definition find_destination (ip6addr : ip6_addr) (n : netif) : M nd_world (option nat) :=
  t ← get_nd;
  d ← destination (nd6_cached_destination_index t);
  if ip6_addr_cmp ip6addr (destination_addr d) then mret (Some (nd6_cached_destination_index t))
  else
    match nd6_find_destination_cache_entry t ip6addr with
    | Some i => modify_nd (with_cached i);; mret (Some i)
    | None =>
        let i := nd6_new_destination_cache_entry t in
        modify_nd (with_cached i);;
        ok ← new_destination i ip6addr n;
        mret (if (ok : bool) then Some i else None)
    end.

Definition set_cached_neighbor (j : nat) (d : nd6_destination_cache_entry) : nd6_destination_cache_entry :=
  mk_destination (destination_addr d) (next_hop_addr d) (pmtu d) j (age d).

(** Looking the next hop up in the neighbour cache; none when there is no room. *)
Definition find_next_hop (i : nat) (k : Z) : M nd_world (option nat) :=
  d ← destination i;
  e ← neighbor (cached_neighbor_idx d);
  if ip6_addr_cmp (next_hop_addr d) (next_hop_address e) then mret (Some (cached_neighbor_idx d))
  else
    t ← get_nd;
    match nd6_find_neighbor_cache_entry t (next_hop_addr d) with
    | Some j => upd_destination i (set_cached_neighbor j);; mret (Some j)
    | None =>
        jo ← nd6_new_neighbor_cache_entry;
        match jo with
        | None => mret None
        | Some j =>
            upd_destination i (set_cached_neighbor j);;
            upd_neighbor j (fun e => mk_neighbor (next_hop_addr d) (Some k) (lladdr e) (nc_q e) ND6_INCOMPLETE 0 1);;
            nd6_send_neighbor_cache_probe j ND6_SEND_FLAG_MULTICAST_DEST;;
            mret (Some j)
        end
    end.

(** The index of the neighbour, or an error. *)
Definition nd6_get_next_hop_entry (ip6addr : ip6_addr) (n : netif) : M nd_world (err_t + nat) :=
  io ← find_destination ip6addr n;
  match io with
  | None => mret (inl ERR_RTE)
  | Some i =>
      jo ← find_next_hop i (nif_num n);
      match jo with
      | None => mret (inl ERR_MEM)
      | Some j =>
          upd_destination i (fun d => mk_destination (destination_addr d) (next_hop_addr d) (pmtu d) (cached_neighbor_idx d) 0);;
          mret (inr j)
      end
  end.

(** ** Queued packets *)

Definition PBUF_LINK : Z := PBUF_LINK_HLEN.
Definition pbuf_clone (layer : Z) (type : pbuf_type) (p : loc) : M world (option loc) :=
  pn ← pb_node p;
  qo ← pbuf_alloc layer (pb_tot_len (n_val pn)) type;
  match qo with
  | None => mret None
  | Some q =>
      w ← get;
      r ← lift (pbuf_copy (w_pbufs w) (Some q) (Some p));
      modify (set_pbufs (fun _ => r.2));;
      c_assert (bool_decide (r.1 = ERR_OK));;
      mret (Some q)
  end.
(** Only a [PBUF_REF] has volatile data. *)
Definition PBUF_NEEDS_COPY (b : pbuf) : bool := match pb_type b with PBUF_REF => true | _ => false end.
Definition copy_needed (h : pheap) (q : loc) : outcome bool :=
  oloop (S (size h)) (fun cur : option loc =>
    match cur with
    | None => Ret (inr false)
    | Some p => nd ← deref (h !! p); Ret (if PBUF_NEEDS_COPY (n_val nd) then inr true else inl (n_next nd))
    end) (Some q).

(** Dropping the packet that is queued. *)
Definition drop_queued (i : nat) : M nd_world unit :=
  e ← neighbor i;
  match nc_q e with
  | Some p => in_node (pbuf_free_m p);; upd_neighbor i (with_q None)
  | None => mret tt
  end.

Definition nd6_queue_packet (neighbor_index : nat) (q : loc) : M nd_world err_t :=
  if decide (LWIP_ND6_NUM_NEIGHBORS <= neighbor_index)%nat then mret ERR_ARG
  else
    s ← get;
    copy ← lift (copy_needed (w_pbufs (mw (nd_mld s))) q);
    po ← (if (copy : bool) then
            po ← in_node (pbuf_clone PBUF_LINK PBUF_RAM q);
            match po with
            | Some p => mret (Some p)
            | None =>
                e ← neighbor neighbor_index;
                match nc_q e with
                | None => mret None
                | Some _ => drop_queued neighbor_index;; in_node (pbuf_clone PBUF_LINK PBUF_RAM q)
                end
            end
          else
            w ← in_node get;
            h ← lift (pbuf_ref (w_pbufs w) (Some q));
            in_node (modify (set_pbufs (fun _ => h)));;
            mret (Some q));
    match po with
    | None => mret ERR_MEM
    | Some p =>
        e ← neighbor neighbor_index;
        (match nc_q e with Some old => in_node (pbuf_free_m old);; mret tt | None => mret tt end);;
        upd_neighbor neighbor_index (with_q (Some p));;
        mret ERR_OK
    end.

Definition nd6_send_q (i : nat) : M nd_world unit :=
  if decide (LWIP_ND6_NUM_NEIGHBORS <= i)%nat then mret tt
  else
    e ← neighbor i;
    match nc_q e with
    | None => mret tt
    | Some q =>
        db ← in_node (pread q OFF_DEST 16);
        k ← lift (deref (nc_netif e));
        x ← netif_at k;
        let dest := ip6_addr_assign_zone (ip6_of_bytes db) IP6_UNKNOWN (ndn x) in
        in_node (output_ip6 (ndn x) q dest);;
        in_node (pbuf_free_m q);;
        upd_neighbor i (with_q None)
    end.

(** The error, and [*hwaddrp] (none is null). *)
Definition nd6_get_next_hop_addr_or_queue (n : netif) (q : loc) (ip6addr : ip6_addr)
  : M nd_world (err_t * option (list Z)) :=
  r ← nd6_get_next_hop_entry ip6addr n;
  match r with
  | inl err => mret (err, None)
  | inr i =>
      e ← neighbor i;
      (if bool_decide (nc_state e = ND6_STALE)
       then upd_neighbor i (with_nc_state ND6_DELAY (LWIP_ND6_DELAY_FIRST_PROBE_TIME / ND6_TMR_INTERVAL)) else mret tt);;
      e ← neighbor i;
      if bool_decide (nc_state e = ND6_REACHABLE) || bool_decide (nc_state e = ND6_DELAY) || bool_decide (nc_state e = ND6_PROBE)
      then mret (ERR_OK, Some (lladdr e))
      else err ← nd6_queue_packet i q; mret (err, None)
  end.

Definition nd6_reachability_hint (ip6addr : ip6_addr) : M nd_world unit :=
  t ← get_nd;
  d ← destination (nd6_cached_destination_index t);
  match (if ip6_addr_cmp ip6addr (destination_addr d) then Some (nd6_cached_destination_index t)
         else nd6_find_destination_cache_entry t ip6addr) with
  | None => mret tt
  | Some i =>
      d ← destination i;
      e ← neighbor (cached_neighbor_idx d);
      match (if ip6_addr_cmp (next_hop_addr d) (next_hop_address e) then Some (cached_neighbor_idx d)
             else nd6_find_neighbor_cache_entry t (next_hop_addr d)) with
      | None => mret tt
      | Some j =>
          e ← neighbor j;
          if bool_decide (nc_state e = ND6_INCOMPLETE) || bool_decide (nc_state e = ND6_NO_ENTRY) then mret tt
          else upd_neighbor j (with_nc_state ND6_REACHABLE (reachable_time t))
      end
  end.
End nd6.
