(* ===== verification/PbufRest.v ===== *)
(** * Packet buffers: the rest (lwip/src/core/pbuf.c)

    Access to a chain by position, removing bytes from its front, writing at an offset,
    searching, and joining a chain into one buffer.  The theorems: all of them are what
    they are on the bytes of the packet, however it is cut into buffers. *)

From S2P Require Import Prelude LinkedList Ip6Addr World Pbuf Ip6Hdr Custody InetChksum Nd6.

(** ** Operations *)

Definition pbuf_add_header_force (h : pheap) (p : loc) (inc : Z) : outcome (Z * pheap) := pbuf_add_header_impl h p inc true.
Definition pbuf_header_force (h : pheap) (p : loc) (inc : Z) : outcome (Z * pheap) := pbuf_header_impl h p inc true.

(** [while (free_left && p)] *)
Definition free_header_body (st : option loc * Z * pheap) : outcome (option loc * Z * pheap + option loc * pheap) :=
  let '(p, free_left, h) := st in
  match p with
  | None => Ret (inr (p, h))
  | Some l =>
      if free_left =? 0 then Ret (inr (p, h))
      else
        n ← deref (h !! l);
        if pb_len (n_val n) <=? free_left then
          r ← pbuf_free (<[l := set_next None n]> h) l;
          Ret (inl (n_next n, u16 (free_left - pb_len (n_val n)), r.2))
        else
          r ← pbuf_remove_header h l free_left;
          Ret (inl (p, 0, r.2))
  end.
Definition pbuf_free_header (h : pheap) (q : option loc) (size : Z) : outcome (option loc * pheap) :=
  oloop (2 + base.size h) free_header_body (q, size, h).

(** A pointer into a buffer, or to the memory of the caller. *)
Inductive contiguous := in_pbuf (q : loc) (offset : Z) | in_buffer.

(** [bufsize] is none for no buffer.  Also what was copied to it. *)
Definition pbuf_get_contiguous (h : pheap) (p : option loc) (bufsize : option Z) (len offset : Z) : outcome (option contiguous * list Z) :=
  match p with
  | None => Ret (None, [])
  | Some _ =>
      if match bufsize with Some s => s <? len | None => false end then Ret (None, [])
      else
        r ← pbuf_skip h p offset;
        match r.1 with
        | None => Ret (None, [])
        | Some q =>
            n ← deref (h !! q);
            if r.2 + len <=? pb_len (n_val n) then Ret (Some (in_pbuf q r.2), [])
            else
              match bufsize with
              | None => Ret (None, [])
              | Some _ =>
                  bs ← pbuf_copy_partial h (Some q) len r.2;
                  Ret (if Z.of_nat (length bs) =? len then Some in_buffer else None, bs)
              end
        end
  end.

Definition pbuf_take_at (h : pheap) (buf : option loc) (data : list Z) (offset : Z) : outcome (err_t * pheap) :=
  let len := Z.of_nat (length data) in
  r ← pbuf_skip h buf offset;
  match r.1 with
  | None => Ret (ERR_MEM, h)
  | Some q =>
      n ← deref (h !! q);
      if r.2 + len <=? pb_tot_len (n_val n) then
        if r.2 <? pb_len (n_val n) then
          let first_copy_len := u16 (Z.min (pb_len (n_val n) - r.2) len) in
          b ← payload_wr r.2 (take (Z.to_nat first_copy_len) data) (n_val n);
          let h := <[q := Node b (n_next n)]> h in
          if 0 <? u16 (len - first_copy_len) then pbuf_take h (n_next n) (drop (Z.to_nat first_copy_len) data)
          else Ret (ERR_OK, h)
        else Stuck
      else Ret (ERR_MEM, h)
  end.

(** [substr] is none for a null pointer; the bytes before its end. *)
Definition pbuf_strstr (h : pheap) (p : loc) (substr : option (list Z)) : outcome Z :=
  match substr with
  | None | Some [] => Ret 0xFFFF
  | Some s =>
      n ← deref (h !! p);
      if pb_tot_len (n_val n) =? 0xFFFF then Ret 0xFFFF
      else if 0xFFFF <=? Z.of_nat (length s) then Ret 0xFFFF
      else pbuf_memfind h p s 0
  end.

Section coalesce.
Context `{Env}.
Definition pbuf_coalesce (p : loc) (layer : Z) : M world loc :=
  n ← pb_node p;
  match n_next n with
  | None => mret p
  | Some _ =>
      qo ← pbuf_clone layer PBUF_RAM p;
      match qo with
      | None => mret p
      | Some q => pbuf_free_m p;; mret q
      end
  end.
End coalesce.

(** ** Positions *)

(** The buffer that has position [off], and the position in it. *)
Fixpoint locate (ls : list (loc * pbuf)) (off : Z) : option loc * Z :=
  match ls with
  | [] => (None, off)
  | (l, b) :: ls => if pb_len b <=? off then locate ls (off - pb_len b) else (Some l, off)
  end.

Lemma skip_aux (h : pheap) ls p off fuel :
  llist h p ls -> chain_ok ls -> 0 <= off < 65536 -> (length ls < fuel)%nat ->
  oloop fuel (fun st : option loc * Z =>
    match st.1 with
    | None => Ret (inr st)
    | Some l =>
        n ← deref (h !! l);
        if pb_len (n_val n) <=? st.2 then Ret (inl (n_next n, u16 (st.2 - pb_len (n_val n))))
        else Ret (inr st)
    end) (p, off) = Ret (locate ls off).
Proof.
  revert p off fuel. induction ls as [|[l b] ls IH]; intros p off [|fuel] Hl Hc Ho Hf; simpl in Hf; try lia; rewrite oloop_S.
  { simpl in Hl. by subst p. }
  destruct Hl as [-> (q & Hq & Hr)], Hc as ((_ & Hb & _) & _ & Hc). cbn [fst snd locate]. rewrite Hq. cbn [deref mbind outcome_bind n_val n_next].
  destruct (Z.leb_spec (pb_len b) off); [|done]. cbn [mbind outcome_bind]. rewrite u16_small by lia. apply IH; (done || lia).
Qed.
Lemma skip_ok (h : pheap) ls p off :
  llist h p ls -> chain_ok ls -> 0 <= off < 65536 -> pbuf_skip h p off = Ret (locate ls off).
Proof. intros Hl Hc Ho. apply skip_aux; try done. apply llist_length in Hl. lia. Qed.

(** Where a position of the packet is. *)
Lemma locate_in ls off : chain_ok ls -> 0 <= off < Z.of_nat (length (flat ls)) ->
  exists pre l b post, ls = pre ++ (l, b) :: post /\ locate ls off = (Some l, off - Z.of_nat (length (flat pre))) /\
    0 <= off - Z.of_nat (length (flat pre)) < pb_len b.
Proof.
  revert off. induction ls as [|[l b] ls IH]; intros off Hc Ho; [cbn in Ho; lia|]. destruct Hc as (Hb & _ & Hc).
  pose proof (seg_bytes_length b Hb) as Hl. rewrite flat_cons, length_app in Ho. cbn [locate]. destruct (Z.leb_spec (pb_len b) off) as [Hle|Hgt].
  - destruct (IH (off - pb_len b) Hc ltac:(lia)) as (pre & l' & b' & post & -> & -> & Hin).
    exists ((l, b) :: pre), l', b', post. rewrite flat_cons, length_app. split_and!; [done|f_equal; lia|lia..].
  - exists [], l, b, ls. cbn. split_and!; [done|f_equal; lia|lia..].
Qed.
Lemma locate_out ls off : chain_ok ls -> Z.of_nat (length (flat ls)) <= off -> locate ls off = (None, off - Z.of_nat (length (flat ls))).
Proof.
  revert off. induction ls as [|[l b] ls IH]; intros off Hc Ho; [cbn; f_equal; lia|]. destruct Hc as (Hb & _ & Hc).
  pose proof (seg_bytes_length b Hb) as Hl. rewrite flat_cons, length_app in *. cbn [locate]. rewrite (proj2 (Z.leb_le _ _)) by lia.
  rewrite IH by (done || lia). f_equal. lia.
Qed.

Lemma flat_app ls1 ls2 : flat (ls1 ++ ls2) = flat ls1 ++ flat ls2.
Proof. unfold flat. by rewrite fmap_app, concat_app. Qed.
Lemma chain_ok_app ls1 ls2 : chain_ok (ls1 ++ ls2) -> chain_ok ls2.
Proof. induction ls1 as [|[l b] ls1 IH]; [done|]. intros (_ & _ & ?). by apply IH. Qed.

Lemma nth_val (l : list Z) i x : l !! i = Some x -> nth i l 0 = x.
Proof. intros Hx. by rewrite nth_lookup, Hx. Qed.
Lemma nth_slice i off n (l : list Z) : (i < n)%nat -> nth i (slice off n l) 0 = nth (off + i) l 0.
Proof. intros Hi. unfold slice. rewrite !nth_lookup, lookup_take_lt, lookup_drop by done. done. Qed.
Lemma nth_app_r' i (l1 l2 : list Z) : (length l1 <= i)%nat -> nth i (l1 ++ l2) 0 = nth (i - length l1) l2 0.
Proof. intros Hi. by rewrite !nth_lookup, lookup_app_r. Qed.

(** A byte of the packet; zero behind its end. *)
Lemma get_at_ok (h : pheap) ls p off :
  llist h p ls -> chain_ok ls -> 0 <= off < 65536 -> pbuf_get_at h p off = Ret (nth (Z.to_nat off) (flat ls) 0).
Proof.
  intros Hl Hc Ho. unfold pbuf_get_at, pbuf_try_get_at. rewrite (skip_ok h ls) by done. cbn [mbind outcome_bind].
  destruct (Z.lt_ge_cases off (Z.of_nat (length (flat ls)))) as [Hlt|Hge].
  - destruct (locate_in ls off Hc ltac:(lia)) as (pre & l & b & post & -> & -> & Hin). cbn [fst snd].
    destruct (llist_elem _ _ _ l b Hl) as [q Hq]; [set_solver|]. rewrite Hq. cbn [deref mbind outcome_bind n_val].
    destruct (chain_ok_app _ _ Hc) as (Hb & _ & _). pose proof (seg_bytes_length b Hb). rewrite (proj2 (Z.ltb_lt _ _)) by lia.
    rewrite payload_rd_ok by (done || lia). cbn [mbind outcome_bind].
    set (k := Z.to_nat (off - Z.of_nat (length (flat pre)))). assert (Hk : (k < length (seg_bytes b))%nat) by lia.
    destruct (lookup_lt_is_Some_2 _ _ Hk) as [x Hx].
    assert (Hxb : is_byte x) by (eapply Forall_lookup_1; [by apply (seg_bytes_byte b)|exact Hx]).
    assert (E : slice k (Z.to_nat 1) (seg_bytes b) = [x]) by (unfold slice; by erewrite drop_S by exact Hx).
    rewrite E. cbn [le_val]. unfold is_byte in Hxb. rewrite Z.mul_0_r, Z.add_0_r, (proj2 (Z.leb_le _ _)), u8_small by lia. f_equal.
    rewrite flat_app, flat_cons, nth_app_r' by lia. replace (Z.to_nat off - length (flat pre))%nat with k by lia.
    by rewrite nth_lookup, lookup_app_l, Hx by done.
  - rewrite locate_out by (done || lia). cbn. by rewrite nth_overflow by lia.
Qed.

(** The chain from the buffer with position [off] on. *)
Lemma located (h : pheap) ls p off :
  llist h p ls -> chain_ok ls -> 0 <= off < 65536 -> off < Z.of_nat (length (flat ls)) ->
  exists l k b post q, pbuf_skip h p off = Ret (Some l, k) /\ h !! l = Some (Node b q) /\ llist h q post /\ chain_ok ((l, b) :: post) /\ 0 <= k < pb_len b /\
    drop (Z.to_nat k) (flat ((l, b) :: post)) = drop (Z.to_nat off) (flat ls).
Proof.
  intros Hl Hc Ho Hlt. destruct (locate_in ls off Hc ltac:(lia)) as (pre & l & b & post & -> & E & Hin).
  pose proof Hl as Hl'. apply llist_app in Hl' as (r & _ & -> & q & Hq & Hpost).
  exists l, (off - Z.of_nat (length (flat pre))), b, post, q. split_and!; try done; [by rewrite (skip_ok h _ _ _ Hl Hc Ho), E|by apply chain_ok_app in Hc|lia|lia|].
  rewrite flat_app, drop_app_ge by lia. f_equal. lia.
Qed.

(** ** Comparing and searching *)

Fixpoint first_diff (i : Z) (a b : list Z) : Z :=
  match a, b with
  | x :: a, y :: b => if x =? y then first_diff (i + 1) a b else i
  | _, _ => 0
  end.
Lemma first_diff_zero a : forall i b, 0 < i -> length a = length b -> first_diff i a b = 0 <-> a = b.
Proof.
  induction a as [|x a IH]; intros i [|y b] Hi Hl; cbn in *; try done. destruct (Z.eqb_spec x y) as [->|Hne].
  - rewrite IH by lia. split; [by intros ->|by intros [= ->]].
  - split; [lia|by intros [= ? ?]].
Qed.

Lemma memcmp_loop (get : Z -> outcome Z) (data s2 : list Z) : length data = length s2 -> Z.of_nat (length s2) < 65536 ->
  (forall i, (i < length s2)%nat -> get (Z.of_nat i) = Ret (nth i data 0)) -> forall fuel i, (length s2 - i < fuel)%nat -> (i <= length s2)%nat ->
  oloop fuel (fun i : Z =>
    if i <? Z.of_nat (length s2) then
      a ← get i; if a =? nth (Z.to_nat i) s2 0 then Ret (inl (i + 1)) else Ret (inr (u16 (Z.min (i + 1) 0xFFFF)))
    else Ret (inr 0)) (Z.of_nat i) = Ret (first_diff (Z.of_nat i + 1) (drop i data) (drop i s2)).
Proof.
  intros Hl Hmax Hget. induction fuel as [|fuel IH]; intros i Hf Hi; [lia|]. rewrite oloop_S. destruct (Z.ltb_spec (Z.of_nat i) (Z.of_nat (length s2))) as [Hlt|Hge].
  - rewrite Hget by lia. cbn [mbind outcome_bind]. rewrite Nat2Z.id.
    destruct (lookup_lt_is_Some_2 data i) as [x Hx]; [lia|]. destruct (lookup_lt_is_Some_2 s2 i) as [y Hy]; [lia|].
    rewrite (drop_S data x) by done. rewrite (drop_S s2 y) by done. cbn [first_diff]. rewrite (nth_val _ _ _ Hx), (nth_val _ _ _ Hy).
    destruct (x =? y); cbn [mbind outcome_bind].
    + replace (Z.of_nat i + 1) with (Z.of_nat (S i)) by lia. apply IH; lia.
    + by rewrite Z.min_l, u16_small by lia.
  - rewrite !drop_ge by lia. done.
Qed.

(** [pbuf_memcmp] is the place of the first difference, from 1 on, or zero. *)
Lemma memcmp_ok (h : pheap) p ls bs off s2 :
  pkt h p ls bs -> 0 <= off -> off + Z.of_nat (length s2) <= Z.of_nat (length bs) ->
  pbuf_memcmp h p off s2 = Ret (first_diff 1 (slice (Z.to_nat off) (length s2) bs) s2).
Proof.
  intros Hp Ho Hle. destruct (pkt_tot _ _ _ _ Hp) as (n & Hn & Ht & Hmax). destruct Hp as (Hl & Hc & <-).
  unfold pbuf_memcmp. rewrite Hn. cbn [deref mbind outcome_bind]. rewrite Ht, (proj2 (Z.ltb_ge _ _)) by lia.
  set (data := slice (Z.to_nat off) (length s2) (flat ls)). assert (Hd : length data = length s2) by (unfold data; rewrite length_slice by lia; lia).
  destruct (decide (s2 = [])) as [->|Hne].
  { rewrite (skip_ok h ls) by (done || lia). cbn [mbind outcome_bind]. done. }
  assert (Hpos : (0 < length s2)%nat) by (destruct s2; [done|cbn; lia]).
  destruct (located h ls (Some p) off Hl Hc ltac:(lia) ltac:(lia)) as (l & k & b & post & q & -> & Hq & Hpost & Hc' & Hk & E). cbn [mbind outcome_bind fst snd].
  assert (Hsub : (Z.to_nat k <= length (flat ((l, b) :: post)))%nat).
  { rewrite flat_cons, length_app. pose proof (seg_bytes_length b (proj1 Hc')). lia. }
  pose proof (head_tot_range _ Hc') as Hht. rewrite <-(flat_length _ Hc') in Hht. pose proof (f_equal length E) as El. rewrite !length_drop in El.
  apply (memcmp_loop (fun i => pbuf_get_at h (Some l) (u16 (k + i))) data s2 Hd ltac:(lia)) with (i := 0%nat); [|lia|lia].
  intros i Hi. rewrite u16_small by lia. rewrite (get_at_ok h ((l, b) :: post)); [|by split; [|exists q]|done|lia]. f_equal.
  unfold data. rewrite nth_slice by done. rewrite !nth_lookup. rewrite <-lookup_drop, <-E, lookup_drop. do 2 f_equal. lia.
Qed.

(** [r] is the first place of [s] in [bs] from [start] on, or 0xFFFF. *)
Definition finds (bs s : list Z) (start : nat) (r : Z) : Prop :=
  let at_ j := slice j (length s) bs = s in
  (exists i, r = Z.of_nat i /\ (start <= i)%nat /\ (i + length s <= length bs)%nat /\ at_ i /\ forall j, (start <= j < i)%nat -> ~ at_ j) \/
  (r = 0xFFFF /\ forall j, (start <= j)%nat -> (j + length s <= length bs)%nat -> ~ at_ j).

Lemma finds_later bs s start r : slice start (length s) bs <> s -> finds bs s (S start) r -> finds bs s start r.
Proof.
  intros Hne [(i & -> & Hi & Hle & Hat & Hno)|[-> Hno]]; [left|right].
  - exists i. split_and!; try done; [lia|]. intros j Hj. destruct (decide (j = start)) as [->|]; [done|]. apply Hno. lia.
  - split; [done|]. intros j Hj Hle. destruct (decide (j = start)) as [->|]; [done|]. apply Hno; lia.
Qed.

Lemma memfind_ok (h : pheap) p ls bs s start :
  pkt h p ls bs -> s <> [] -> Z.of_nat (length s) < 65536 ->
  exists r, pbuf_memfind h p s (Z.of_nat start) = Ret r /\ finds bs s start r.
Proof.
  intros Hp Hne Hs. destruct (pkt_tot _ _ _ _ Hp) as (n & Hn & Ht & Hmax). assert (Hpos : (0 < length s)%nat) by (destruct s; [done|cbn; lia]).
  unfold pbuf_memfind. rewrite Hn. cbn [deref mbind outcome_bind]. rewrite Ht.
  destruct (Z.leb_spec (Z.of_nat (length s) + Z.of_nat start) (Z.of_nat (length bs))) as [Hle|Hgt].
  2: { eexists. split; [done|]. right. split; [done|]. intros j Hj Hj'. lia. }
  rewrite u16_small by lia. match goal with |- context [oloop _ ?bd (Z.of_nat start)] => set (body := bd) end.
  assert (Hbody : forall i, body i = if i <=? Z.of_nat (length bs) - Z.of_nat (length s) then plus ← pbuf_memcmp h p i s; if plus =? 0 then Ret (inr i) else Ret (inl (u16 (i + 1))) else Ret (inr 0xFFFF)) by done.
  enough (H : forall fuel i, (length bs + 1 - i < fuel)%nat -> (i + length s <= length bs + 1)%nat -> exists r, oloop fuel body (Z.of_nat i) = Ret r /\ finds bs s i r)
    by (apply H; lia).
  induction fuel as [|fuel IH]; intros i Hf Hi; [lia|]. rewrite oloop_S, Hbody. destruct (Z.leb_spec (Z.of_nat i) (Z.of_nat (length bs) - Z.of_nat (length s))) as [Hi'|Hi'].
  - rewrite (memcmp_ok h p ls bs) by (done || lia). cbn [mbind outcome_bind]. rewrite Nat2Z.id.
    assert (Hz : first_diff 1 (slice i (length s) bs) s = 0 <-> slice i (length s) bs = s) by (apply first_diff_zero; [lia|rewrite length_slice; lia]).
    destruct (Z.eqb_spec (first_diff 1 (slice i (length s) bs) s) 0) as [E|E]; cbn [mbind outcome_bind].
    + eexists. split; [done|]. left. exists i. split_and!; [done|lia|lia|by apply Hz|intros; lia].
    + rewrite u16_small by lia. replace (Z.of_nat i + 1) with (Z.of_nat (S i)) by lia. destruct (IH (S i)) as (r & Hr & Hfind); [lia|lia|].
      exists r. split; [done|]. apply finds_later; [by rewrite <-Hz|done].
  - eexists. split; [done|]. right. split; [done|]. intros j Hj Hj'. lia.
Qed.

(** [pbuf_strstr] returns the first place where the packet has the string, whatever the buffers
    it is spread over, or 0xFFFF when there is none. *)
Theorem strstr_finds (h : pheap) p ls bs s :
  pkt h p ls bs -> s <> [] -> Z.of_nat (length bs) < 65535 ->
  exists r, pbuf_strstr h p (Some s) = Ret r /\ finds bs s 0 r.
Proof.
  intros Hp Hne Hl. destruct (pkt_tot _ _ _ _ Hp) as (n & Hn & Ht & Hmax). unfold pbuf_strstr. destruct s as [|x s']; [done|]. set (s := x :: s') in *.
  rewrite Hn. cbn [deref mbind outcome_bind]. rewrite Ht, (proj2 (Z.eqb_neq _ _)) by lia.
  destruct (Z.leb_spec 0xFFFF (Z.of_nat (length s))).
  - eexists. split; [done|]. right. split; [done|]. intros j _ Hj. lia.
  - change 0 with (Z.of_nat 0). apply (memfind_ok h p ls); (done || lia).
Qed.

(** *** Reading *)

(** The bytes a result stands for. *)
Definition contiguous_bytes (h : pheap) (len : Z) (copied : list Z) (r : contiguous) : outcome (list Z) :=
  match r with
  | in_pbuf q off => n ← deref (h !! q); payload_rd off len (n_val n)
  | in_buffer => Ret copied
  end.

(** Bytes that are in the packet are returned, unless they are spread over buffers and there is
    no memory to copy them to; and no others are. *)
Theorem get_contiguous_ok (h : pheap) p ls bs bufsize len off :
  pkt h p ls bs -> 0 <= len < 65536 -> 0 <= off < 65536 -> match bufsize with Some s => len <= s | None => True end ->
  exists r copied, pbuf_get_contiguous h (Some p) bufsize len off = Ret (r, copied) /\
    match r with
    | Some c => contiguous_bytes h len copied c = Ret (slice (Z.to_nat off) (Z.to_nat len) bs) /\ off + len <= Z.of_nat (length bs)
    | None => bufsize = None \/ Z.of_nat (length bs) <= off \/ Z.of_nat (length bs) < off + len
    end.
Proof.
  intros (Hl & Hc & <-) Hlen Ho Hbuf. unfold pbuf_get_contiguous.
  replace (match bufsize with Some s => s <? len | None => false end) with false by (destruct bufsize; [symmetry; apply Z.ltb_ge; lia|done]).
  destruct (Z.lt_ge_cases off (Z.of_nat (length (flat ls)))) as [Hlt|Hge].
  2: { rewrite (skip_ok h ls) by done. cbn [mbind outcome_bind]. rewrite locate_out by done. eexists _, _. split; [done|]. tauto. }
  destruct (located h ls (Some p) off Hl Hc Ho Hlt) as (l & k & b & post & q & -> & Hq & Hpost & Hc' & Hk & E). cbn [mbind outcome_bind fst snd].
  rewrite Hq. cbn [deref mbind outcome_bind n_val]. destruct Hc' as (Hb & Hc'). pose proof (seg_bytes_length b Hb).
  assert (Esl : slice (Z.to_nat k) (Z.to_nat len) (flat ((l, b) :: post)) = slice (Z.to_nat off) (Z.to_nat len) (flat ls)) by (unfold slice; by rewrite E).
  pose proof (f_equal length E) as El. rewrite !length_drop, flat_cons, length_app in El.
  destruct (Z.leb_spec (k + len) (pb_len b)) as [Hin|Hout].
  - eexists _, _. split; [done|]. cbn [contiguous_bytes]. rewrite Hq. cbn [deref mbind outcome_bind n_val]. rewrite payload_rd_ok by (done || lia).
    split; [|lia]. rewrite <-Esl, flat_cons. f_equal. symmetry. apply slice_app_l. lia.
  - destruct bufsize as [s|]; [|eexists _, _; split; [done|by left]].
    assert (Hp' : pkt h l ((l, b) :: post) (flat ((l, b) :: post))) by (split_and!; [by split; [|exists q]|done|done]).
    pose proof (pkt_tot _ _ _ _ Hp') as (_ & _ & _ & Hmax'). rewrite flat_cons, length_app in Hmax'.
    rewrite (pbuf_copy_partial_ok _ _ _ _ _ _ Hp') by lia. cbn [mbind outcome_bind]. rewrite Esl.
    destruct (Z.eqb_spec (Z.of_nat (length (slice (Z.to_nat off) (Z.to_nat len) (flat ls)))) len) as [Eq|Ne]; eexists _, _; (split; [done|]).
    + split; [done|]. unfold slice in Eq. rewrite length_take, length_drop in Eq. lia.
    + right. right. unfold slice in Ne. rewrite length_take, length_drop in Ne. lia.
Qed.

(** *** Removing bytes from the front *)

Lemma shift_front b k : seg_ok b -> 0 <= k <= pb_len b -> k <= pb_tot_len b ->
  let b' := with_window (pb_payload b + k) (u16 (pb_tot_len b - u16 k)) (u16 (pb_len b - u16 k)) b in
  pb_len b <= 65535 -> seg_ok b' /\ seg_bytes b' = drop (Z.to_nat k) (seg_bytes b) /\ pb_len b' = pb_len b - k /\ pb_tot_len b' = pb_tot_len b - k.
Proof.
  intros (H1 & H2 & H3 & H4 & H5) Hk Ht b' Hl.
  assert (E1 : pb_len b' = pb_len b - k) by (unfold b'; cbn; rewrite !u16_small by (rewrite ?u16_small; lia); lia).
  assert (E2 : pb_tot_len b' = pb_tot_len b - k) by (unfold b'; cbn; rewrite !u16_small by (rewrite ?u16_small; lia); lia).
  split_and!; try done.
  - unfold seg_ok. rewrite E1, E2. cbn. split_and!; (done || lia).
  - unfold seg_bytes. rewrite E1. cbn. unfold slice. rewrite skipn_firstn_comm, drop_drop. f_equal; [lia|f_equal; lia].
Qed.

Lemma free_header_step l k h : free_header_body (Some l, k, h) =
  if k =? 0 then Ret (inr (Some l, h))
  else n ← deref (h !! l);
       if pb_len (n_val n) <=? k
       then r ← pbuf_free (<[l := set_next None n]> h) l; Ret (inl (n_next n, u16 (k - pb_len (n_val n)), r.2))
       else r ← pbuf_remove_header h l k; Ret (inl (Some l, 0, r.2)).
Proof. done. Qed.
Lemma free_header_loop fuel : forall ls (h : pheap) p k,
  llist h p ls -> chain_ok ls -> Forall (fun x : loc * pbuf => pb_ref x.2 = 1) ls -> 0 <= k < 65536 -> (S (length ls) < fuel)%nat ->
  exists p' h' ls', oloop fuel free_header_body (p, k, h) = Ret (p', h') /\ llist h' p' ls' /\ chain_ok ls' /\ flat ls' = drop (Z.to_nat k) (flat ls) /\
    (forall l, l ∉ ls.*1 -> h' !! l = h !! l) /\ (forall l, l ∈ ls.*1 -> l ∉ ls'.*1 -> h' !! l = None).
Proof.
  induction fuel as [|fuel IH]; intros ls h p k Hl Hc Hr Hk Hf; [lia|]. rewrite oloop_S. destruct ls as [|[l b] ls].
  { simpl in Hl. subst p. exists None, h, []. split_and!; try done. by destruct (Z.to_nat k). }
  pose proof (llist_NoDup _ _ _ Hl) as Hnd. apply NoDup_cons in Hnd as [Hnl Hnd]. pose proof Hl as [-> (q & Hq & Hll)].
  pose proof Hc as (Hb & Ht & Hc'). apply Forall_cons in Hr as [Hrb Hr]. cbn [snd] in Hrb. pose proof (seg_bytes_length b Hb) as Hbl. pose proof (head_tot_range _ Hc') as Hht.
  assert (Hbr : 0 <= pb_len b <= 65535) by (destruct Hb as (? & ? & ? & ? & ?); lia). rewrite free_header_step. destruct (Z.eqb_spec k 0) as [->|Hk0].
  { exists (Some l), h, ((l, b) :: ls). split_and!; done. }
  rewrite Hq. cbn [deref mbind outcome_bind n_val n_next]. destruct (Z.leb_spec (pb_len b) k) as [Hle|Hgt].
  - rewrite (pbuf_free_ok _ l [(l, b)]); [|by split; [|exists None; rewrite lookup_insert_eq]|by constructor; [cbn; lia|]|cbn; lia].
    cbn [free_chain]. rewrite (proj2 (Z.eqb_eq _ _) Hrb). cbn [fst snd mbind outcome_bind]. rewrite delete_insert_eq, u16_small by lia.
    destruct (IH ls (delete l h) q (k - pb_len b)) as (p' & h' & ls' & He & Hl' & Hok & Hfl & Hfr & Hgone);
      [by apply llist_delete_other|done|done|lia|cbn in Hf; lia|].
    exists p', h', ls'. split_and!; [done|done|done| | |].
    + rewrite flat_cons, drop_app_ge, Hfl by lia. f_equal. lia.
    + intros l' Hl2. rewrite fmap_cons, not_elem_of_cons in Hl2. destruct Hl2 as [Hne Hn2]. cbn in Hne. rewrite Hfr by done. by rewrite lookup_delete_ne.
    + intros l' Hl2 Hn2. rewrite fmap_cons, elem_of_cons in Hl2. destruct (decide (l' = l)) as [->|Hne]; [rewrite Hfr by done; apply lookup_delete_eq|].
      apply Hgone; [|done]. by destruct Hl2.
  - unfold pbuf_remove_header. rewrite (proj2 (Z.ltb_ge _ _)) by lia. rewrite (proj2 (Z.eqb_neq _ _)), Hq by done. cbn [deref mbind outcome_bind n_val].
    rewrite (proj2 (Z.ltb_ge (pb_len b) (u16 k))) by (rewrite u16_small; lia). cbn [mbind outcome_bind snd].
    destruct (shift_front b k Hb ltac:(lia) ltac:(lia) ltac:(lia)) as (Hb' & Hbs' & Hl2 & Ht2). unfold upd_pbuf. cbn [n_val n_next].
    set (b' := with_window _ _ _ _) in *. destruct fuel as [|fuel]; [cbn in Hf; lia|]. rewrite oloop_S, free_header_step.
    change (0 =? 0) with true. cbn [mbind outcome_bind]. exists (Some l), (<[l := Node b' q]> h), ((l, b') :: ls). split_and!.
    + done.
    + split; [done|]. exists q. rewrite lookup_insert_eq. split; [done|]. eapply llist_frame; [|exact Hll]. intros l' Hl'. apply lookup_insert_ne. set_solver.
    + cbn [chain_ok]. split_and!; [done|lia|done].
    + rewrite !flat_cons, Hbs', drop_app_le by lia. done.
    + intros l' Hn'. apply lookup_insert_ne. set_solver.
    + set_solver.
Qed.

(** The first [k] bytes are gone, with the buffers they filled; a packet that is all removed leaves no buffer. *)
Theorem free_header_drops (h : pheap) p ls bs k :
  pkt h p ls bs -> Forall (fun x : loc * pbuf => pb_ref x.2 = 1) ls -> 0 <= k < 65536 ->
  exists p' h' ls', pbuf_free_header h (Some p) k = Ret (p', h') /\ llist h' p' ls' /\ chain_ok ls' /\ flat ls' = drop (Z.to_nat k) bs /\
    (forall l, l ∉ ls.*1 -> h' !! l = h !! l) /\ (forall l, l ∈ ls.*1 -> l ∉ ls'.*1 -> h' !! l = None).
Proof. intros (Hl & Hc & <-) Hr Hk. apply free_header_loop; try done. apply llist_length in Hl. lia. Qed.

(** *** Writing at an offset *)

Lemma chain_ok_tail pre t t' : chain_ok (pre ++ t) -> chain_ok t' -> head_tot t' = head_tot t -> chain_ok (pre ++ t').
Proof.
  intros Hc Ht Hh. induction pre as [|[l b] pre IH]; [done|]. destruct Hc as (Hb & Htot & Hc). cbn [app chain_ok]. split_and!; [done| |by apply IH].
  rewrite Htot. destruct pre as [|[l2 b2] pre]; cbn [app head_tot]; [by rewrite Hh|done].
Qed.

Lemma splice_two k (d s f : list Z) : (k <= length s)%nat -> (k + length d <= length s + length f)%nat ->
  let m := Nat.min (length s - k) (length d) in
  splice k (take m d) s ++ drop m d ++ drop (length (drop m d)) f = splice k d (s ++ f).
Proof.
  intros Hk Hle m. unfold splice. rewrite take_app_le, length_take, length_drop, <-!app_assoc by lia. f_equal.
  destruct (Nat.le_gt_cases (length d) (length s - k)) as [Hin|Hout].
  - replace m with (length d) by lia. rewrite firstn_all, drop_all, Nat.min_id, Nat.sub_diag, drop_0, drop_app_le by lia. done.
  - replace m with (length s - k)%nat by lia. rewrite (drop_ge s) by lia. rewrite app_nil_l, app_assoc, take_drop, drop_app_ge by lia. do 2 f_equal. lia.
Qed.

Lemma splice_app_r' k (d l1 l2 : list Z) : splice (length l1 + k) d (l1 ++ l2) = l1 ++ splice k d l2.
Proof. unfold splice. rewrite take_app, take_ge, <-app_assoc by lia. do 2 f_equal; [f_equal; lia|]. f_equal. rewrite drop_app_ge by lia. f_equal. lia. Qed.

(** The bytes at [off] are replaced and nothing else changes, across buffers. *)
Theorem take_at_writes (h : pheap) p ls bs data off :
  pkt h p ls bs -> Forall is_byte data -> 0 <= off < Z.of_nat (length bs) -> off + Z.of_nat (length data) <= Z.of_nat (length bs) ->
  exists h' ls', pbuf_take_at h (Some p) data off = Ret (ERR_OK, h') /\ pkt h' p ls' (splice (Z.to_nat off) data bs) /\
    same_shape ls ls' /\ forall l, l ∉ ls.*1 -> h' !! l = h !! l.
Proof.
  intros Hp Hd Ho Hle. pose proof (pkt_tot _ _ _ _ Hp) as (_ & _ & _ & Hmax). destruct Hp as (Hl & Hc & <-).
  destruct (locate_in ls off Hc Ho) as (pre & l & b & post & -> & E & Hin). unfold pbuf_take_at. rewrite (skip_ok h _ _ _ Hl Hc) by lia. rewrite E.
  cbn [mbind outcome_bind fst snd]. set (k := off - Z.of_nat (length (flat pre))) in *. pose proof (llist_NoDup _ _ _ Hl) as Hnd.
  rewrite fmap_app, fmap_cons in Hnd. apply NoDup_app in Hnd as (Hnd1 & Hdis & Hnd2). apply NoDup_cons in Hnd2 as [Hnl Hnd2]. cbn [fst] in *.
  apply llist_app in Hl as (r & Hpre & -> & q & Hq & Hpost). pose proof (chain_ok_app _ _ Hc) as Hct. pose proof Hct as (Hb & Htot & Hcp).
  rewrite Hq. cbn [deref mbind outcome_bind n_val n_next]. pose proof (seg_bytes_length b Hb) as Hbl. pose proof (flat_length _ Hcp) as Hpl.
  rewrite flat_app, flat_cons, !length_app in Ho, Hle, Hmax. rewrite (proj2 (Z.leb_le _ _)) by lia. rewrite (proj2 (Z.ltb_lt k _)) by lia.
  set (m := Nat.min (length (seg_bytes b) - Z.to_nat k) (length data)). replace (u16 (Z.min (pb_len b - k) (Z.of_nat (length data)))) with (Z.of_nat m) by (rewrite u16_small; lia).
  rewrite Nat2Z.id. destruct (payload_wr_ok b k (take m data)) as (b' & -> & Hb' & Hbs & Hbe & Hbu); [done|by apply Forall_take|lia|rewrite length_take; lia|].
  cbn [mbind outcome_bind]. set (h1 := <[l := Node b' q]> h). rewrite u16_small by lia.
  assert (Hpost1 : llist h1 q post) by (eapply llist_frame; [|exact Hpost]; intros; apply lookup_insert_ne; set_solver).
  assert (Hrest : exists h' post', (if 0 <? Z.of_nat (length data) - Z.of_nat m then pbuf_take h1 q (drop m data) else Ret (ERR_OK, h1)) = Ret (ERR_OK, h') /\
    llist h' q post' /\ chain_ok post' /\ same_shape post post' /\ flat post' = drop m data ++ drop (length (drop m data)) (flat post) /\ forall x, x ∉ post.*1 -> h' !! x = h1 !! x).
  { destruct (Z.ltb_spec 0 (Z.of_nat (length data) - Z.of_nat m)) as [Hmore|Hnone].
    - destruct post as [|[l2 b2] post2]; [cbn in *; lia|]. pose proof Hpost1 as [-> _].
      destruct (pbuf_take_ok h1 l2 ((l2, b2) :: post2) (flat ((l2, b2) :: post2)) (drop m data)) as (h' & ls' & -> & (H1 & H2 & H3) & H4 & H5);
        [by split_and!|by apply Forall_drop|rewrite length_drop; lia|]. exists h', ls'. by split_and!.
    - exists h1, post. rewrite (drop_ge data) by lia. split_and!; try done. apply same_shape_refl. }
  destruct Hrest as (h' & post' & -> & Hl' & Hc' & Hsh & Hfl & Hfr). exists h', (pre ++ (l, b') :: post'). split_and!; [done|split_and!| |].
  - apply llist_app. exists (Some l). split.
    + eapply lseg_frame; [|exact Hpre]. intros x Hx. pose proof (Hdis x Hx) as Hx'. rewrite Hfr by set_solver. apply lookup_insert_ne. set_solver.
    + split; [done|]. exists q. split; [|done]. rewrite Hfr by done. apply lookup_insert_eq.
  - eapply chain_ok_tail; [exact Hc| |]; cbn [head_tot]; [cbn [chain_ok]; split_and!; [done| |done]|by rewrite Hbe]. rewrite (same_shape_head _ _ Hsh), Hbe. done.
  - rewrite !flat_app, !flat_cons, Hbs, Hfl. pose proof (splice_two (Z.to_nat k) data (seg_bytes b) (flat post) ltac:(lia) ltac:(lia)) as Hs2. cbv zeta in Hs2. fold m in Hs2.
    rewrite Hs2. replace (Z.to_nat off) with (length (flat pre) + Z.to_nat k)%nat by lia. symmetry. apply splice_app_r'.
  - apply Forall2_app; [apply same_shape_refl|]. constructor; [by split_and!|done].
  - intros x Hx. rewrite fmap_app, fmap_cons in Hx. rewrite Hfr by set_solver. apply lookup_insert_ne. set_solver.
Qed.

(** *** One buffer out of a chain *)

Lemma free_all ls : forall (h : pheap), NoDup ls.*1 -> Forall (fun x : loc * pbuf => pb_ref x.2 = 1) ls ->
  (forall l, l ∉ ls.*1 -> snd (free_chain ls h) !! l = h !! l) /\ (forall l, l ∈ ls.*1 -> snd (free_chain ls h) !! l = None).
Proof.
  induction ls as [|[l b] ls IH]; intros h Hnd Hr; cbn [free_chain]; [split; [done|by intros l ?%not_elem_of_nil]|].
  apply NoDup_cons in Hnd as [Hnl Hnd]. apply Forall_cons in Hr as [Hb Hr]. cbn [fst snd] in *. rewrite (proj2 (Z.eqb_eq _ _) Hb).
  destruct (IH (delete l h) Hnd Hr) as [H1 H2]. destruct (free_chain ls (delete l h)) as [n h']. cbn [snd] in *. split.
  - intros x Hx. rewrite fmap_cons, not_elem_of_cons in Hx. destruct Hx as [Hne Hx]. cbn in Hne. by rewrite H1, lookup_delete_ne.
  - intros x Hx. rewrite fmap_cons, elem_of_cons in Hx. destruct (decide (x ∈ ls.*1)) as [Hin|Hnin]; [by apply H2|]. rewrite H1 by done. destruct Hx as [->|Hx]; [apply lookup_delete_eq|done].
Qed.

(** The chain is replaced by one buffer with its bytes, or is still there when there is no memory. *)
Theorem coalesce_ok `{Env} w p ls bs layer :
  pkt (w_pbufs w) p ls bs -> no_empty ls -> Forall (fun x : loc * pbuf => pb_ref x.2 = 1) ls -> (1 < length ls < 256)%nat -> 0 <= layer <= PBUF_IP ->
  wp (pbuf_coalesce p layer) w (fun q w' =>
    (q = p /\ w_pbufs w' = w_pbufs w) \/
    (exists b, single (w_pbufs w') q b bs /\ pb_ref b = 1 /\ (q ∉ ls.*1) /\ (forall l, l ∈ ls.*1 -> w_pbufs w' !! l = None) /\
       forall l, l ∉ ls.*1 -> l <> q -> w_pbufs w' !! l = w_pbufs w !! l)).
Proof.
  intros Hp Hne Hr Hlen Hlay. destruct (pkt_tot _ _ _ _ Hp) as (n & Hn & Ht & Hmax). pose proof Hp as (Hl & Hc & Hbs). change PBUF_IP with 54 in Hlay.
  unfold pbuf_coalesce. apply wp_bind. eapply wp_exec; [unfold pb_node, get, mbind, M_bind; by rewrite Hn|].
  destruct ls as [|[l b] [|[l2 b2] ls]]; [cbn in Hlen; lia|cbn in Hlen; lia|]. set (chain := (l, b) :: (l2, b2) :: ls) in *.
  destruct Hl as [[= <-] (q & Hq & Hl2)]. pose proof Hl2 as [-> _]. rewrite Hn in Hq. injection Hq as ->. cbn [n_next n_val] in *.
  apply wp_bind. unfold pbuf_clone. apply wp_bind. eapply wp_exec; [unfold pb_node, get, mbind, M_bind; by rewrite Hn|]. cbn [n_val]. rewrite Ht.
  apply wp_bind. unfold wp at 1. rewrite pbuf_alloc_ram_eq by (change PBUF_IP with 54; lia). destruct (ram_fits _ _); [|apply wp_ret, wp_ret; by left].
  destruct (env_mem_malloc (w_tick w)); [|apply wp_ret, wp_ret; by left].
  set (q := new_loc (w_pbufs w)). set (w1 := alloc_world _ _ _ _). set (br := ram_pbuf (w_tick w) layer (Z.of_nat (length bs))).
  assert (Hq : w_pbufs w !! q = None) by apply new_loc_fresh. assert (Hp1 : pkt (w_pbufs w1) p chain bs) by (split_and!; [by apply llist_insert_fresh; [|apply Hp]|done|done]).
  assert (Hnq : q ∉ chain.*1). { intros ([x bx] & Ex & Hx)%list_elem_of_fmap. cbn in Ex. subst x. destruct (llist_elem _ _ _ _ _ (proj1 Hp) Hx) as [? ?]. congruence. }
  assert (Hs1 : single (w_pbufs w1) q br (seg_bytes br)) by (apply (alloc_single (w_tick w) layer _ (add_ticks 1 w)); lia).
  apply wp_bind, wp_get, wp_bind. destruct (pbuf_copy_ok (w_pbufs w1) q br _ p chain bs Hp1 Hne Hs1 Hnq) as (b' & Ec & Hs' & Eb); [pose proof (ram_pbuf_length (w_tick w) layer (Z.of_nat (length bs))); unfold br; lia|].
  eapply wp_lift; [exact Ec|]. apply wp_bind, wp_modify. apply wp_bind. rewrite bool_decide_true by done. apply wp_ret, wp_ret. apply wp_bind.
  unfold pbuf_free_m. apply wp_bind, wp_get, wp_bind. cbn [w_pbufs set_pbufs snd]. set (h2 := <[q := Node b' None]> (w_pbufs w1)) in *.
  assert (Hl3 : llist h2 (Some p) chain) by (eapply llist_frame; [|apply Hp1]; intros x Hx; apply lookup_insert_ne; intros ->; done).
  eapply wp_lift; [apply (pbuf_free_ok h2 p chain Hl3); [eapply Forall_impl; [exact Hr|intros x Hx; cbn in Hx; lia]|lia]|].
  apply wp_bind, wp_modify, wp_ret, wp_ret. cbn [w_pbufs set_pbufs snd]. destruct (free_all chain h2 (llist_NoDup _ _ _ Hl3) Hr) as [Hkeep Hgone].
  right. exists b'. split_and!; [|by rewrite Eb|done|done|].
  - destruct Hs' as (H1 & H2). split; [by rewrite Hkeep|done].
  - intros x Hx Hxq. rewrite Hkeep by done. unfold h2, w1. cbn. by rewrite !lookup_insert_ne.
Qed.

(** *** Concrete runs *)

Lemma strstr_finds_witness : exists r, pbuf_strstr two_segments 1%positive (Some [3; 4]) = Ret r /\ finds [1; 2; 3; 4; 5] [3; 4] 0 r.
Proof. apply (strstr_finds _ _ _ _ _ two_segments_pkt); [discriminate|by vm_compute]. Defined.
Example strstr_two : pbuf_strstr two_segments 1%positive (Some [3; 4]) = Ret 2.
Proof. by vm_compute. Qed.
Lemma free_header_drops_witness : exists p' h' ls', pbuf_free_header two_segments (Some 1%positive) 4 = Ret (p', h') /\ llist h' p' ls' /\ flat ls' = [5].
Proof.
  destruct (free_header_drops _ _ _ _ 4 two_segments_pkt) as (p' & h' & ls' & E & Hl & _ & Hf & _); [by repeat constructor|lia|]. by exists p', h', ls'.
Defined.
