(* ===== verification/Nd6Send.v ===== *)
(** * Neighbour discovery: the messages it sends

    The bytes of the solicitations and advertisements that [Nd6] sends.  The option
    with the link-layer address takes eight bytes; where the interface has a shorter
    address, or none as the TUN interface, the rest of the option is what the memory
    of the buffer held before. *)

From S2P Require Import Prelude LinkedList Ip6Addr World Netif Pbuf Ip6Hdr Custody Buffer InetChksum RawSocket Ip6Out Icmp6 Ip6In Ip6Spec Mld6 Nd6.

(** A link-layer address of at most six bytes. *)
Record hwaddr_ok (n : netif) : Prop := {
  hw_length : length (nif_hwaddr n) = 6%nat;
  hw_bytes : Forall is_byte (nif_hwaddr n);
  hw_len : 0 <= nif_hwaddr_len n <= 6
}.
Definition hwaddr_of (n : netif) : list Z := take (Z.to_nat (nif_hwaddr_len n)) (nif_hwaddr n).

(** The option, with [junk] where nothing is written. *)
Definition lladdr_option (type : Z) (n : netif) (junk : list Z) : list Z :=
  [type; 1] ++ hwaddr_of n ++ drop (Z.to_nat (nif_hwaddr_len n)) junk.
Definition ns_bytes (target : ip6_addr) (opt : list Z) : list Z :=
  [ICMP6_TYPE_NS; 0; 0; 0; 0; 0; 0; 0] ++ ip6_bytes target ++ opt.
Definition na_bytes (flags : Z) (target : ip6_addr) (opt : list Z) : list Z :=
  [ICMP6_TYPE_NA; 0; 0; 0; Z.land flags 0xf0; 0; 0; 0] ++ ip6_bytes target ++ opt.
Definition rs_bytes (opt : list Z) : list Z := [ICMP6_TYPE_RS; 0; 0; 0; 0; 0; 0; 0] ++ opt.

Section hwaddr.
Context (n : netif) (Hn : hwaddr_ok n).

Lemma length_hwaddr : length (hwaddr_of n) = Z.to_nat (nif_hwaddr_len n).
Proof. unfold hwaddr_of. rewrite length_take, (hw_length _ Hn). pose proof (hw_len _ Hn). lia. Qed.
Lemma hwaddr_read : rd 0 (nif_hwaddr_len n) (nif_hwaddr n) = Ret (hwaddr_of n).
Proof.
  pose proof (hw_len _ Hn). unfold rd. rewrite (hw_length _ Hn), !(proj2 (Z.leb_le _ _)) by lia. done.
Qed.
Lemma one_block : u16 (lladdr_opt_blocks n) = 1 /\ u16 (lladdr_opt_blocks' n) = 1.
Proof.
  pose proof (hw_len _ Hn) as Hl. unfold lladdr_opt_blocks, lladdr_opt_blocks'.
  assert (Hc : nif_hwaddr_len n ∈ [0; 1; 2; 3; 4; 5; 6]) by (rewrite !elem_of_cons; lia).
  repeat (apply elem_of_cons in Hc as [->|Hc]; [done|]). by apply elem_of_nil in Hc.
Qed.
Lemma length_option type junk : length junk = 6%nat -> length (lladdr_option type n junk) = 8%nat.
Proof. intros Hj. unfold lladdr_option. cbn [app length]. rewrite length_app, length_hwaddr, length_drop. pose proof (hw_len _ Hn). lia. Qed.
End hwaddr.

(** Writing the option at the end of a message of which [A] is the part before it. *)
Lemma option_spliced n type A junk :
  hwaddr_ok n -> length junk = 8%nat ->
  splice (length A + 2) (hwaddr_of n) (splice (length A + 1) [1] (splice (length A) [type] (A ++ junk))) =
  A ++ lladdr_option type n (drop 2 junk).
Proof.
  intros Hn Hj. pose proof (length_hwaddr n Hn) as Hl. pose proof (hw_len _ Hn). unfold lladdr_option. rewrite <-Hl.
  do 2 (destruct junk as [|? junk]; [done|]). cbn [length] in Hj. change (drop 2 (z :: z0 :: junk)) with junk.
  assert (E : splice (length A + 1) [1] (splice (length A) [type] (A ++ z :: z0 :: junk)) = A ++ type :: 1 :: junk).
  { unfold splice. rewrite take_app_length. cbn [length]. replace (length A + 1)%nat with (length (A ++ [type])) by (rewrite length_app; simpl; lia).
    rewrite drop_app. replace (length (A ++ [type]) - length A)%nat with 1%nat by (rewrite length_app; simpl; lia).
    rewrite drop_ge by (rewrite length_app; simpl; lia). cbn [app]. change (drop 1 (z :: z0 :: junk)) with (z0 :: junk).
    replace (A ++ type :: z0 :: junk) with ((A ++ [type]) ++ z0 :: junk) by (by rewrite <-app_assoc).
    rewrite take_app_length. rewrite drop_app. replace (length (A ++ [type]) + 1 - length (A ++ [type]))%nat with 1%nat by lia.
    rewrite drop_ge by lia. rewrite <-app_assoc. done. }
  rewrite E. unfold splice. replace (A ++ type :: 1 :: junk) with ((A ++ [type; 1]) ++ junk) by (by rewrite <-app_assoc).
  set (A2 := A ++ [type; 1]). replace (length A + 2)%nat with (length A2) by (unfold A2; rewrite length_app; simpl; lia).
  rewrite take_app_length, drop_app. replace (length A2 + length (hwaddr_of n) - length A2)%nat with (length (hwaddr_of n)) by lia.
  rewrite drop_ge by lia. unfold A2. rewrite <-app_assoc. done.
Qed.

Lemma wp_fill_lladdr w0 k q b G w off type n A junk Q :
  buffer_is w0 k q b G w -> hwaddr_ok n -> is_byte type -> G = A ++ junk -> off = Z.of_nat (length A) -> length junk = 8%nat ->
  (forall w', buffer_is w0 k q b (A ++ lladdr_option type n (drop 2 junk)) w' -> Q tt w') ->
  wp (fill_lladdr_option q off type 1 n) w Q.
Proof.
  intros Hb Hn Hty -> -> Hj HQ. pose proof (length_hwaddr n Hn) as Hl. pose proof (hw_len _ Hn).
  pose proof (buffer_len _ _ _ _ _ _ Hb) as Hlen. rewrite length_app, Hj in Hlen. unfold fill_lladdr_option.
  apply wp_bind. eapply wp_buffer_write; [exact Hb|by apply Forall_singleton|lia|cbn [length]; lia|]. clear Hb. intros w1 Hb.
  apply wp_bind. eapply wp_buffer_write; [exact Hb|by apply Forall_singleton|lia|cbn [length]; lia|]. clear Hb. intros w2 Hb.
  apply wp_bind. eapply wp_lift; [by apply hwaddr_read|].
  eapply wp_buffer_write; [exact Hb|apply Forall_take, Hn|lia|lia|]. clear Hb. intros w3 Hb. apply HQ.
  rewrite <-option_spliced by done. replace (Z.to_nat (Z.of_nat (length A) + 2)) with (length A + 2)%nat in Hb by lia.
  replace (Z.to_nat (Z.of_nat (length A) + 1)) with (length A + 1)%nat in Hb by lia. by rewrite Nat2Z.id in Hb.
Qed.

(** The checksum goes over a message in which its field is zero. *)
Lemma wp_nd_checksum w0 k q b G w s d Q :
  buffer_is w0 k q b G w -> (4 <= length G)%nat -> splice 2 [0; 0] G = G -> pb_tot_len b = pb_len b -> pb_len b < 65536 ->
  ip6_wf s -> ip6_wf d ->
  (forall w', buffer_is w0 k q b (with_checksum s d G) w' -> Q tt w') ->
  wp (fill_nd_checksum q s d) w Q.
Proof.
  intros Hb Hl HG Ht Hm Hs Hd HQ. pose proof (buffer_len _ _ _ _ _ _ Hb) as Hlen.
  destruct (buffer_single _ _ _ _ _ _ Hb) as (b' & Hs' & Hr'). pose proof (single_length _ _ _ _ Hs') as Hl'.
  unfold fill_nd_checksum. apply wp_bind. eapply wp_exec; [by eapply pb_node_exec|]. cbn [n_val].
  apply wp_bind, wp_get, wp_bind. eapply wp_lift.
  { apply (chksum_pseudo_eq _ q [(q, b')]); [by apply single_pkt|done|done|by vm_compute|lia]. }
  eapply wp_buffer_write; [exact Hb|apply le_bytes_byte|done|rewrite length_le_bytes; lia|].
  intros w' Hb'. apply HQ. unfold with_checksum. rewrite HG, Hl'. exact Hb'.
Qed.

(** ** In the state of neighbour discovery *)

Definition host (s : nd_world) : world := mw (nd_mld s).
Definition put_host (w : world) (s : nd_world) : nd_world := mk_nd (with_world w (nd_mld s)) (nd_netifs s) (nds s).

Lemma put_host_id s : put_host (host s) s = s.
Proof. by destruct s as [[? ? ?] ? ?]. Qed.

Lemma wp_in_node {A} (m : M world A) s Q :
  wp m (host s) (fun a w => Q a (put_host w s)) -> wp (in_node m) s Q.
Proof. unfold wp, in_node, in_mld, in_world, host. by destruct (m (mw (nd_mld s))) as [[a w]| |]. Qed.

Lemma nd_layers_ok `{LowerLayersOk} t : @LowerLayersOk (nd_layers t).
Proof.
  split; cbn; [apply output_ok|apply frag_ok|apply find_route_ok| |apply group_ok|apply nd6_input_ok|apply mld6_input_ok].
  intros. by apply wp_ret.
Qed.

(** *** Filling the messages *)

Lemma ns_head F target : (24 <= length F)%nat ->
  splice (Z.to_nat 8) (ip6_bytes target) (splice (Z.to_nat 4) (le_bytes 4 0) (splice (Z.to_nat 2) (le_bytes 2 0)
    (splice (Z.to_nat 1) [0] (splice (Z.to_nat 0) [ICMP6_TYPE_NS] F)))) = ns_bytes target (drop 24 F).
Proof. intros HF. do 24 (destruct F as [|? F]; [simpl in HF; lia|]). reflexivity. Qed.
Lemma na_head F target flags : (24 <= length F)%nat ->
  splice (Z.to_nat 8) (ip6_bytes target) (splice (Z.to_nat 7) [0] (splice (Z.to_nat 6) [0] (splice (Z.to_nat 5) [0]
    (splice (Z.to_nat 4) [Z.land flags 0xf0] (splice (Z.to_nat 2) (le_bytes 2 0) (splice (Z.to_nat 1) [0]
    (splice (Z.to_nat 0) [ICMP6_TYPE_NA] F))))))) = na_bytes flags target (drop 24 F).
Proof. intros HF. do 24 (destruct F as [|? F]; [simpl in HF; lia|]). reflexivity. Qed.
Lemma rs_head F : (8 <= length F)%nat ->
  splice (Z.to_nat 4) (le_bytes 4 0) (splice (Z.to_nat 2) (le_bytes 2 0)
    (splice (Z.to_nat 1) [0] (splice (Z.to_nat 0) [ICMP6_TYPE_RS] F))) = rs_bytes (drop 8 F).
Proof. intros HF. do 8 (destruct F as [|? F]; [simpl in HF; lia|]). reflexivity. Qed.

(** The option of a message, where it has one. *)
Definition source_option (type : Z) (n : netif) (with_opt : bool) (junk : list Z) : list Z :=
  if with_opt then lladdr_option type n (drop 2 junk) else [].
Lemma length_source_option type n (with_opt : bool) junk :
  hwaddr_ok n -> length junk = (if with_opt then 8 else 0)%nat -> length (source_option type n with_opt junk) = length junk.
Proof. intros Hn Hj. unfold source_option. destruct with_opt; [|by destruct junk]. rewrite length_option by (rewrite ?length_drop; auto with lia). lia. Qed.

Ltac nd_field Hb := apply wp_bind; eapply wp_buffer_write;
  [exact Hb|first [apply le_bytes_byte|apply ip6_bytes_byte|by apply Forall_singleton]|done
  |cbn; lia|clear Hb; intros ? Hb].

Section fill.
Context (w : world) (p : loc) (b : pbuf) (F : list Z) (n : netif) (with_opt : bool).
Hypotheses (Hs : single (w_pbufs w) p b F) (Hn : hwaddr_ok n).
Let opt : list Z -> list Z := source_option ND6_OPTION_TYPE_SOURCE_LLADDR n with_opt.

Lemma wp_fill_ns target Q :
  length F = (if with_opt then 32 else 24)%nat ->
  (forall w', buffer_is w 0 p b (ns_bytes target (opt (drop 24 F))) w' -> Q tt w') ->
  wp (fill_ns p n target (if with_opt then 1 else 0)) w Q.
Proof.
  intros HF HQ. pose proof (single_length _ _ _ _ Hs) as Hl. pose proof (buffer_start _ _ _ _ Hs) as Hb.
  assert (24 <= length F)%nat by (destruct with_opt; lia). unfold fill_ns. do 5 nd_field Hb. rewrite ns_head in Hb by done.
  unfold opt, source_option in HQ. destruct with_opt; cbn [negb Z.eqb].
  - eapply (wp_fill_lladdr _ _ _ _ _ _ _ _ _ (ns_bytes target []) (drop 24 F)); [exact Hb|done|by vm_compute| | |rewrite length_drop; lia|].
    + unfold ns_bytes. by rewrite app_nil_r, <-app_assoc.
    + done.
    + unfold ns_bytes. rewrite app_nil_r. setoid_rewrite <-app_assoc. exact HQ.
  - apply wp_ret, HQ. by rewrite drop_ge in Hb by lia.
Qed.

Lemma wp_fill_rs Q :
  length F = (if with_opt then 16 else 8)%nat ->
  (forall w', buffer_is w 0 p b (rs_bytes (opt (drop 8 F))) w' -> Q tt w') ->
  wp (fill_rs p n with_opt (if with_opt then 1 else 0)) w Q.
Proof.
  intros HF HQ. pose proof (single_length _ _ _ _ Hs) as Hl. pose proof (buffer_start _ _ _ _ Hs) as Hb.
  assert (8 <= length F)%nat by (destruct with_opt; lia). unfold fill_rs. do 4 nd_field Hb. rewrite rs_head in Hb by done.
  unfold opt, source_option in HQ. destruct with_opt.
  - eapply (wp_fill_lladdr _ _ _ _ _ _ _ _ _ (rs_bytes []) (drop 8 F)); [exact Hb|done|by vm_compute| | |rewrite length_drop; lia|].
    + unfold rs_bytes. by rewrite app_nil_r.
    + done.
    + unfold rs_bytes. rewrite app_nil_r. exact HQ.
  - apply wp_ret, HQ. by rewrite drop_ge in Hb by lia.
Qed.

Lemma wp_fill_na target flags Q :
  length F = 32%nat -> is_byte (Z.land flags 0xf0) ->
  (forall w', buffer_is w 0 p b (na_bytes flags target (lladdr_option ND6_OPTION_TYPE_TARGET_LLADDR n (drop 26 F))) w' -> Q tt w') ->
  wp (fill_na p n target flags 1) w Q.
Proof.
  intros HF Hfl HQ. pose proof (single_length _ _ _ _ Hs) as Hl. pose proof (buffer_start _ _ _ _ Hs) as Hb.
  unfold fill_na. do 8 nd_field Hb. rewrite na_head in Hb by lia.
  eapply (wp_fill_lladdr _ _ _ _ _ _ _ _ _ (na_bytes flags target []) (drop 24 F)); [exact Hb|done|by vm_compute| | |rewrite length_drop; lia|].
  - unfold na_bytes. by rewrite app_nil_r, <-app_assoc.
  - done.
  - unfold na_bytes. rewrite app_nil_r, drop_drop. setoid_rewrite <-app_assoc. exact HQ.
Qed.
End fill.

(** *** Sending them *)

Lemma ns_field target opt : splice 2 [0; 0] (ns_bytes target opt) = ns_bytes target opt.
Proof. reflexivity. Qed.
Lemma na_field flags target opt : splice 2 [0; 0] (na_bytes flags target opt) = na_bytes flags target opt.
Proof. reflexivity. Qed.
Lemma rs_field opt : splice 2 [0; 0] (rs_bytes opt) = rs_bytes opt.
Proof. reflexivity. Qed.

(** A message [msg] in a fresh buffer, ready for output. *)
Definition ready (w0 : world) (p : loc) (msg : list Z) (w : world) : Prop :=
  w_pbufs w0 !! p = None /\ w_trace w = w_trace w0 /\
  exists b, at_pbuf w0 p b msg w /\ pb_ref b = 1 /\ type_contiguous (pb_type b) = true /\ 40 <= pb_payload b.

Lemma lor_word32 a b : word32 a -> word32 b -> word32 (Z.lor a b).
Proof.
  unfold word32. intros Ha Hb. split; [apply Z.lor_nonneg; lia|].
  assert (E : Z.lor a b = Z.lor a b mod 2 ^ 32).
  { rewrite <-Z.land_ones, Z.land_lor_distr_l, !Z.land_ones by lia. rewrite !Z.mod_small by lia. done. }
  rewrite E. apply Z.mod_pos_bound. lia.
Qed.
Lemma solicitednode_wf a n : ip6_wf a -> ip6_wf (ip6_addr_assign_zone (ip6_addr_set_solicitednode (addr3 a)) IP6_MULTICAST n).
Proof. intros (_ & _ & _ & Ha). split_and!; [by vm_compute..|]. apply lor_word32; [by vm_compute|done]. Qed.

Section send.
Context `{Env} `{LowerLayersOk}.

(** The checksum of a filled message. *)
Lemma wp_nd_ready w0 p b F w1 w2 msg s d Q :
  w_pbufs w0 !! p = None -> at_pbuf w0 p b F w1 -> pb_ref b = 1 -> type_contiguous (pb_type b) = true -> 40 <= pb_payload b ->
  w_trace w1 = w_trace w0 -> buffer_is w1 0 p b msg w2 -> (4 <= length msg)%nat -> splice 2 [0; 0] msg = msg ->
  ip6_wf s -> ip6_wf d -> (forall w', ready w0 p (with_checksum s d msg) w' -> Q tt w') ->
  wp (fill_nd_checksum p s d) w2 Q.
Proof.
  intros Hp Hat Hr Hc Hpl Htr Hb Hl HG Hs Hd HQ. pose proof (at_single _ _ _ _ _ Hat) as (_ & Hsg & Ht & _).
  destruct Hsg as (_ & _ & _ & Hm & _).
  eapply wp_nd_checksum; [exact Hb|done|done|done|lia|done|done|]. intros w3 Hb3. apply HQ. split; [done|].
  destruct (at_buffer _ _ _ _ _ _ _ _ Hat Hb3) as (b3 & Hat3 & Hr3). destruct (refilled_fields _ _ Hr3) as (F1 & F2 & _).
  assert (F3 : pb_type b3 = pb_type b) by (destruct Hr3 as [-> _]; done). split.
  - rewrite (buffer_field _ _ _ w_trace _ _ _ (fun _ _ => eq_refl) Hb3). exact Htr.
  - exists b3. rewrite F1, F2, F3. done.
Qed.

(** Output and release. *)
Lemma wp_nd_output {A} s p w1 msg so d n (f : err_t -> A) Q :
  ready (host s) p msg w1 -> Z.of_nat (length msg) <= 60000 -> netif_wf n ->
  (forall e w', sends (host s) w' -> Q (f e) (put_host w' s)) ->
  wp (e ← output_nd p so d n; in_node (pbuf_free_m p);; mret (f e)) (put_host w1 s) Q.
Proof.
  intros (Hp & _ & b & Hat & Hr & Hc & Hpl) Hl Hwf HQ. apply wp_bind. unfold output_nd. apply wp_bind.
  eapply (wp_exec _ _ (nds s)); [done|]. apply wp_in_node.
  eapply wp_mono; [exact (@wp_output_kept _ (nd_layers_ok (nds s)) _ _ _ _ _ so d n Hat Hr Hc Hpl Hl Hwf)|].
  cbn beta. intros e w' (b' & G' & Hat' & Hr'). apply wp_bind, wp_in_node.
  eapply wp_free; [exact Hat'|exact Hr'|]. intros r w2 Hg. apply wp_ret. apply HQ. by eapply fresh_gone.
Qed.

Lemma wp_send_na_with s n target flags Q :
  hwaddr_ok n -> is_byte (Z.land flags 0xf0) -> ip6_wf target -> ip6_wf (w_cur_src (host s)) ->
  let dest := if has_flag flags ND6_SEND_FLAG_MULTICAST_DEST
              then ip6_addr_assign_zone (ip6_addr_set_solicitednode (addr3 target)) IP6_MULTICAST n
              else if has_flag flags ND6_SEND_FLAG_ALLNODES_DEST
              then ip6_addr_assign_zone ip6_addr_set_allnodes_linklocal IP6_MULTICAST n
              else w_cur_src (host s) in
  (env_mem_malloc (w_tick (host s)) = false -> Q tt (put_host (add_ticks 1 (host s)) s)) ->
  (forall p w1 junk, length junk = 6%nat -> Forall is_byte junk ->
     ready (host s) p (with_checksum target dest (na_bytes flags target (lladdr_option ND6_OPTION_TYPE_TARGET_LLADDR n junk))) w1 ->
     wp (output_nd p (Some target) dest n;; in_node (pbuf_free_m p);; mret tt) (put_host w1 s) Q) ->
  wp (nd6_send_na n target flags) s Q.
Proof.
  intros Hn Hfl Hta Hsrc dest Hno Hyes. unfold nd6_send_na. destruct (one_block n Hn) as [_ Hblk]. rewrite Hblk.
  assert (Hdw : ip6_wf dest).
  { unfold dest. destruct (has_flag _ _); [by apply solicitednode_wf|]. by destruct (has_flag _ _); [vm_compute|]. }
  apply wp_bind, wp_in_node. change (sizeof_na_header + Z.shiftl 1 3) with 32. apply wp_alloc_reply; [lia|exact Hno|].
  intros b F w1 Hp Hat HF Hr Hc Hpl Htr. apply wp_bind, wp_in_node.
  assert (HFn : length F = 32%nat) by lia.
  apply (wp_fill_na _ _ _ _ n (at_single _ _ _ _ _ Hat) Hn); [done|done|]. intros w2 Hb.
  apply wp_bind, wp_get, wp_bind, wp_in_node. replace (w_cur_src (mw (nd_mld (put_host w2 (put_host w1 s))))) with (w_cur_src (host s)).
  2: { cbn. rewrite (buffer_field _ _ _ w_cur_src _ _ _ (fun _ _ => eq_refl) Hb). symmetry. apply (at_fields _ _ _ _ _ Hat). }
  fold dest. assert (Hj : length (drop 26 F) = 6%nat) by (rewrite length_drop; lia).
  eapply wp_nd_ready; [exact Hp|exact Hat|done|done|done|done|exact Hb|cbn; lia|apply na_field|done|done|].
  intros w3 Hrd. refine (Hyes _ w3 _ Hj _ Hrd). apply Forall_drop. destruct (at_single _ _ _ _ _ Hat) as (_ & Hsg & _ & <-). by apply seg_bytes_byte.
Qed.

Lemma wp_send_ns_with s n target flags src Q :
  hwaddr_ok n -> ip6_wf target -> ns_source n target flags = Ret (Some src) -> ip6_wf (default ip6_addr_any src) ->
  let with_opt := bool_decide (is_Some src) in
  let dest := if has_flag flags ND6_SEND_FLAG_MULTICAST_DEST
              then ip6_addr_assign_zone (ip6_addr_set_solicitednode (addr3 target)) IP6_MULTICAST n else target in
  (env_mem_malloc (w_tick (host s)) = false -> Q tt (put_host (add_ticks 1 (host s)) s)) ->
  (forall p w1 junk, length junk = (if with_opt then 8 else 0)%nat ->
     ready (host s) p (with_checksum (default ip6_addr_any src) dest
       (ns_bytes target (source_option ND6_OPTION_TYPE_SOURCE_LLADDR n with_opt junk))) w1 ->
     wp (output_nd p src dest n;; in_node (pbuf_free_m p);; mret tt) (put_host w1 s) Q) ->
  wp (nd6_send_ns n target flags) s Q.
Proof.
  intros Hn Hta Esrc Hsw with_opt dest Hno Hyes. unfold nd6_send_ns. destruct (one_block n Hn) as [Hblk _].
  apply wp_bind. eapply wp_lift; [exact Esrc|].
  assert (Hdw : ip6_wf dest) by (unfold dest; destruct (has_flag _ _); [by apply solicitednode_wf|done]).
  assert (Eb : (match src with Some _ => u16 (lladdr_opt_blocks n) | None => 0 end) = if with_opt then 1 else 0).
  { unfold with_opt. destruct src; [by rewrite bool_decide_true by eauto|done]. }
  cbv beta iota zeta. rewrite Eb. apply wp_bind, wp_in_node. apply wp_alloc_reply; [by destruct with_opt|exact Hno|].
  intros b F w1 Hp Hat HF Hr Hc Hpl Htr. apply wp_bind, wp_in_node.
  assert (HFn : length F = (if with_opt then 32 else 24)%nat) by (apply Nat2Z.inj; rewrite HF; by destruct with_opt).
  apply (wp_fill_ns _ _ _ _ n with_opt (at_single _ _ _ _ _ Hat) Hn); [done|]. intros w2 Hb.
  apply wp_bind, wp_in_node. fold dest.
  assert (Hj : length (drop 24 F) = (if with_opt then 8 else 0)%nat) by (rewrite length_drop; destruct with_opt; lia).
  eapply wp_nd_ready; [exact Hp|exact Hat|done|done|done|done|exact Hb|cbn; lia|apply ns_field|done|done|].
  intros w3 Hrd. exact (Hyes _ w3 _ Hj Hrd).
Qed.

(** The source of a router solicitation. *)
Definition rs_source (n : netif) : option ip6_addr :=
  if ip6_addr_isvalid (state_at n 0) then Some (addr_at n 0) else None.

Lemma wp_send_rs_with s n Q :
  netif_sane n -> hwaddr_ok n ->
  let with_opt := bool_decide (is_Some (rs_source n)) in
  let dest := ip6_addr_assign_zone ip6_addr_set_allrouters_linklocal IP6_MULTICAST n in
  (env_mem_malloc (w_tick (host s)) = false -> Q ERR_BUF (put_host (add_ticks 1 (host s)) s)) ->
  (forall p w1 junk, length junk = (if with_opt then 8 else 0)%nat ->
     ready (host s) p (with_checksum (default ip6_addr_any (rs_source n)) dest
       (rs_bytes (source_option ND6_OPTION_TYPE_SOURCE_LLADDR n with_opt junk))) w1 ->
     wp (err ← output_nd p (rs_source n) dest n; in_node (pbuf_free_m p);; mret err) (put_host w1 s) Q) ->
  wp (nd6_send_rs n) s Q.
Proof.
  intros [Hwf Hall] Hn with_opt dest Hno Hyes. unfold nd6_send_rs. destruct (one_block n Hn) as [_ Hblk].
  unfold netif_ip6_addr_state, netif_ip6_addr. rewrite (state_lookup n Hwf 0), (addr_lookup n Hwf 0) by lia.
  apply wp_bind, wp_ret, wp_bind, (wp_exec _ _ (rs_source n) s).
  { unfold rs_source. by destruct (ip6_addr_isvalid _). }
  assert (Hsw : ip6_wf (default ip6_addr_any (rs_source n))).
  { unfold rs_source. destruct (ip6_addr_isvalid _); [|by split_and!]. eapply Forall_lookup_1; [exact Hall|]. apply addr_lookup; [done|lia]. }
  assert (Eb : (match rs_source n with Some _ => u16 (lladdr_opt_blocks' n) | None => 0 end) = if with_opt then 1 else 0).
  { unfold with_opt. destruct (rs_source n); [by rewrite bool_decide_true by eauto|done]. }
  cbv beta iota zeta. rewrite Eb. apply wp_bind, wp_in_node. apply wp_alloc_reply; [by destruct with_opt|exact Hno|].
  intros b F w1 Hp Hat HF Hr Hc Hpl Htr. apply wp_bind, wp_in_node. fold with_opt dest.
  assert (HFn : length F = (if with_opt then 16 else 8)%nat) by (apply Nat2Z.inj; rewrite HF; by destruct with_opt).
  apply (wp_fill_rs _ _ _ _ n with_opt (at_single _ _ _ _ _ Hat) Hn); [done|]. intros w2 Hb.
  apply wp_bind, wp_in_node.
  assert (Hj : length (drop 8 F) = (if with_opt then 8 else 0)%nat) by (rewrite length_drop; destruct with_opt; lia).
  eapply wp_nd_ready; [exact Hp|exact Hat|done|done|done|done|exact Hb|cbn; lia|apply rs_field|done|by vm_compute|].
  intros w3 Hrd. exact (Hyes _ w3 _ Hj Hrd).
Qed.

(** *** However the driver fares, only output happens *)

Definition outputs (s s' : nd_world) : Prop := exists w, s' = put_host w s /\ sends (host s) w.

Lemma outputs_id s : outputs s s.
Proof. exists (host s). by rewrite put_host_id. Qed.

Lemma valid_slot_exec n test j :
  netif_wf n -> (j < 5)%nat -> valid_slot n test j = Ret (ip6_addr_isvalid (state_at n j) && test (addr_at n j)).
Proof.
  intros Hwf Hj. unfold valid_slot, netif_ip6_addr_state, netif_ip6_addr. rewrite (state_lookup n Hwf j), (addr_lookup n Hwf j) by done.
  cbn. by destruct (ip6_addr_isvalid _).
Qed.
Lemma ns_source_total n target flags :
  netif_sane n -> exists r, ns_source n target flags = Ret r /\ (forall src, r = Some src -> ip6_wf (default ip6_addr_any src)).
Proof.
  intros [Hwf Hall]. unfold ns_source, LWIP_IPV6_NUM_ADDRESSES. destruct (has_flag _ _).
  { eexists. split; [done|]. intros src [= <-]. by split_and!. }
  pose proof (first_slot_spec 5 0 (valid_slot n (ip6_addr_net_eq target)) _ (fun j Hj => valid_slot_exec n _ j Hwf (proj2 Hj))) as Hf.
  destruct (first_slot _ _ _) as [[j|]| |]; cbn [mbind outcome_bind]; [|by eexists|done|done].
  destruct Hf as [Hj _]. unfold netif_ip6_addr. rewrite (addr_lookup n Hwf j) by lia. eexists. split; [done|]. intros src [= <-].
  eapply Forall_lookup_1; [exact Hall|]. apply addr_lookup; [done|lia].
Qed.

Lemma wp_send_ns s n target flags Q :
  netif_sane n -> hwaddr_ok n -> ip6_wf target -> (forall s', outputs s s' -> Q tt s') -> wp (nd6_send_ns n target flags) s Q.
Proof.
  intros Hs Hn Hta HQ. destruct (ns_source_total n target flags Hs) as (r & E & Hr). destruct r as [src|].
  - eapply wp_send_ns_with; [done|done|exact E|by apply Hr|intros _; apply HQ; by eexists|]. intros p w1 junk Hj Hrd.
    eapply (wp_nd_output s p w1 _ src _ n (fun _ => tt)); [exact Hrd| |apply Hs|].
    + rewrite length_with_checksum by (cbn; lia). cbn [length ns_bytes app]. rewrite length_app. rewrite (length_source_option _ _ _ _ Hn Hj), Hj. by destruct (bool_decide _).
    + intros e w' Hw. apply HQ. by exists w'.
  - unfold nd6_send_ns. apply wp_bind. eapply wp_lift; [exact E|]. apply wp_ret, HQ, outputs_id.
Qed.

Lemma wp_send_na s n target flags Q :
  netif_sane n -> hwaddr_ok n -> is_byte (Z.land flags 0xf0) -> ip6_wf target -> ip6_wf (w_cur_src (host s)) ->
  (forall s', outputs s s' -> Q tt s') -> wp (nd6_send_na n target flags) s Q.
Proof.
  intros Hs Hn Hfl Hta Hsrc HQ. eapply wp_send_na_with; [done|done|done|done|intros _; apply HQ; by eexists|]. intros p w1 junk Hj _ Hrd.
  eapply (wp_nd_output s p w1 _ _ _ n (fun _ => tt)); [exact Hrd| |apply Hs|].
  - rewrite length_with_checksum by (cbn; lia). cbn [length na_bytes app]. rewrite length_app, (length_option n Hn) by done. done.
  - intros e w' Hw. apply HQ. by exists w'.
Qed.

Lemma wp_send_rs s n Q :
  netif_sane n -> hwaddr_ok n -> (forall e s', outputs s s' -> Q e s') -> wp (nd6_send_rs n) s Q.
Proof.
  intros Hs Hn HQ. eapply wp_send_rs_with; [done|done|intros _; apply HQ; by eexists|]. intros p w1 junk Hj Hrd.
  eapply (wp_nd_output s p w1 _ _ _ n id); [exact Hrd| |apply Hs|].
  - rewrite length_with_checksum by (cbn; lia). cbn [length rs_bytes app]. rewrite (length_source_option _ _ _ _ Hn Hj), Hj. by destruct (bool_decide _).
  - intros e w' Hw. apply HQ. by exists w'.
Qed.
End send.
