(* ===== verification/Nd6In.v ===== *)
(** * Neighbour discovery: messages and timer

    lwip/src/core/ipv6/nd6.c: the messages that arrive ([nd6_input]), the timer
    ([nd6_tmr]), duplicate address detection, addresses from router advertisements,
    and what follows when the state of an address or interface changes.

    Every path through [nd6_input] ends in [pbuf_free(p)] and the return; the
    functions for the kinds of messages stop early where the code does, and the
    packet is released behind them. *)

From S2P Require Import Prelude LinkedList Ip6Addr World Netif Pbuf Ip6Hdr Custody Buffer InetChksum RawSocket Ip6Out Icmp6 Ip6In Ip6Spec Mld6 Nd6.

(** ** Constants and fields *)

Definition IP6_ADDR_DUPLICATED : Z := 0x40.
Definition IP6_ADDR_DEPRECATED : Z := 0x10.
Definition IP6_ADDR_LIFE_INFINITE : Z := 0xffffffff.
Definition ip6_addr_isduplicated (st : Z) : bool := st =? IP6_ADDR_DUPLICATED.
Definition ip6_addr_istentative (st : Z) : bool := negb (Z.land st IP6_ADDR_TENTATIVE =? 0).
Definition LWIP_IPV6_DUP_DETECT_ATTEMPTS : Z := 1.
Definition ND6_LLADDR_OPTION_MIN_LENGTH : Z := 2.
Definition ND6_OPTION_TYPE_PREFIX_INFO : Z := 3.
Definition ND6_OPTION_TYPE_MTU : Z := 5.
Definition ND6_OPTION_TYPE_RDNSS : Z := 25.
Definition ND6_PREFIX_FLAG_ON_LINK : Z := 0x80.
Definition ND6_PREFIX_FLAG_AUTONOMOUS : Z := 0x40.
Definition sizeof_ra_header : Z := 16.
Definition sizeof_redirect_header : Z := 40.
Definition sizeof_mtu_option : Z := 8.
Definition sizeof_prefix_option : Z := 32.
Definition sizeof_ra_buffer : Z := 32.

Definition with_valid_lives (l : list Z) (n : netif) : netif :=
  mk_netif (ip6_addrs n) (ip6_addr_state n) l (ip6_addr_pref_life n) (nif_name n) (nif_mtu n)
    (nif_mtu6 n) (nif_flags n) (nif_num n) (nif_state n) (nif_hwaddr n) (nif_hwaddr_len n)
    (nif_status_callback n) (nif_link_callback n).
Definition with_pref_lives (l : list Z) (n : netif) : netif :=
  mk_netif (ip6_addrs n) (ip6_addr_state n) (ip6_addr_valid_life n) l (nif_name n) (nif_mtu n)
    (nif_mtu6 n) (nif_flags n) (nif_num n) (nif_state n) (nif_hwaddr n) (nif_hwaddr_len n)
    (nif_status_callback n) (nif_link_callback n).
Definition on_ndn (f : netif -> netif) (x : nd_netif) : nd_netif := mk_ndn (f (ndn x)) (rs_count x) (ip6_autoconfig_enabled x).
Definition with_rs_count (r : Z) (x : nd_netif) : nd_netif := mk_ndn (ndn x) r (ip6_autoconfig_enabled x).

Definition netif_ip6_addr_valid_life (n : netif) (i : nat) : outcome Z := deref (ip6_addr_valid_life n !! i).
Definition netif_ip6_addr_pref_life (n : netif) (i : nat) : outcome Z := deref (ip6_addr_pref_life n !! i).

(** [for (x in l) f(x);] *)
Fixpoint each {S A} (l : list A) (f : A -> M S unit) : M S unit :=
  match l with
  | [] => mret tt
  | x :: l => f x;; each l f
  end.

Section nd6_input.
Context `{Env} `{LowerLayers}.
Context (lwip_rand : nat -> Z).
Context (mld_mac_filter : netif -> option (ip6_addr -> Z -> M world unit)).
(** The status callback of an interface, where one is set. *)
Context (status_callback : netif -> M world unit).

(** ** Addresses and interfaces *)

Definition set_valid_life (k : Z) (i : nat) (life : Z) : M nd_world unit :=
  x ← netif_at k;
  l ← lift (set_slot i life (ip6_addr_valid_life (ndn x)));
  upd_netif k (on_ndn (with_valid_lives l)).
Definition set_pref_life (k : Z) (i : nat) (life : Z) : M nd_world unit :=
  x ← netif_at k;
  l ← lift (set_slot i life (ip6_addr_pref_life (ndn x)));
  upd_netif k (on_ndn (with_pref_lives l)).

(** Whether an address in a state has its solicited-node group joined. *)
Definition solicited_member (st : Z) : bool :=
  negb (st =? IP6_ADDR_INVALID) && negb (st =? IP6_ADDR_DUPLICATED) && negb (st =? IP6_ADDR_TENTATIVE).
Definition nd6_adjust_mld_membership (k : Z) (addr_idx : nat) (new_state : Z) : M nd_world unit :=
  x ← netif_at k;
  let n := ndn x in
  old_state ← lift (netif_ip6_addr_state n addr_idx);
  if bool_decide (solicited_member old_state <> solicited_member new_state) then
    a ← lift (netif_ip6_addr n addr_idx);
    let multicast_address := ip6_addr_assign_zone (ip6_addr_set_solicitednode (addr3 a)) IP6_MULTICAST n in
    t ← get_nd;
    (if solicited_member new_state
     then in_mld (@mld6_joingroup_netif _ (nd_layers t) lwip_rand mld_mac_filter n multicast_address)
     else in_mld (@mld6_leavegroup_netif _ (nd_layers t) mld_mac_filter n multicast_address));;
    mret tt
  else mret tt.

(** [netif_ip6_addr_set_state] of netif.c with the calls it makes. *)
Definition set_addr_state (k : Z) (i : nat) (state : Z) : M nd_world unit :=
  x ← netif_at k;
  old_state ← lift (netif_ip6_addr_state (ndn x) i);
  if old_state =? state then mret tt
  else
    (if has_flag (nif_flags (ndn x)) NETIF_FLAG_MLD6 then nd6_adjust_mld_membership k i state else mret tt);;
    l ← lift (set_slot i state (ip6_addr_state (ndn x)));
    upd_netif k (on_ndn (with_addr_states l));;
    x ← netif_at k;
    let n := ndn x in
    (if negb (ip6_addr_isvalid old_state) && ip6_addr_isvalid state && netif_is_link_up n && netif_is_up n
     then in_mld (mld6_report_groups lwip_rand n) else mret tt);;
    if Z.land old_state (Z.lnot IP6_ADDR_TENTATIVE_COUNT_MASK) =? Z.land state (Z.lnot IP6_ADDR_TENTATIVE_COUNT_MASK) then mret tt
    else if nif_status_callback n then in_node (status_callback n) else mret tt.

Definition nd6_duplicate_addr_detected (k : Z) (addr_idx : nat) : M nd_world unit :=
  set_addr_state k addr_idx IP6_ADDR_DUPLICATED;;
  if decide (addr_idx = 0)%nat then
    each (seq 1 (LWIP_IPV6_NUM_ADDRESSES - 1)) (fun i =>
      x ← netif_at k;
      st ← lift (netif_ip6_addr_state (ndn x) i);
      if ip6_addr_isinvalid st then mret tt
      else
        static ← lift (netif_ip6_addr_isstatic (ndn x) i);
        if (static : bool) then mret tt else set_addr_state k i IP6_ADDR_DUPLICATED)
  else mret tt.

Definition nd6_cleanup_netif (k : Z) : M nd_world unit :=
  modify_nd (fun t => with_prefixes ((fun e => if bool_decide (pl_netif e = Some k) then mk_prefix (prefix e) None (pl_timer e) else e)
                                       <$> prefix_list t) t);;
  each (seq 0 LWIP_ND6_NUM_NEIGHBORS) (fun i =>
    e ← neighbor i;
    if bool_decide (nc_netif e = Some k) then
      modify_nd (fun t => with_routers ((fun r => if bool_decide (neighbor_entry r = Some i) then mk_router None (rl_timer r) 0 else r)
                                          <$> default_router_list t) t);;
      upd_neighbor i (with_isrouter 0);;
      nd6_free_neighbor_cache_entry i
    else mret tt);;
  nd6_clear_destination_cache.

Definition nd6_restart_netif (k : Z) : M nd_world unit := upd_netif k (with_rs_count LWIP_ND6_MAX_MULTICAST_SOLICIT).

(** *** Addresses from advertised prefixes *)

(** An address of the interface that was generated from the prefix. *)
Definition generated_slot (n : netif) (prefix_addr : ip6_addr) (i : nat) : outcome bool :=
  st ← netif_ip6_addr_state n i;
  if ip6_addr_isinvalid st then Ret false
  else
    static ← netif_ip6_addr_isstatic n i;
    if (static : bool) then Ret false else a ← netif_ip6_addr n i; Ret (ip6_addr_net_eq prefix_addr a).

Definition update_lifetimes (k : Z) (i : nat) (valid_life pref_life : Z) : M nd_world unit :=
  x ← netif_at k;
  addr_state ← lift (netif_ip6_addr_state (ndn x) i);
  remaining_life ← lift (netif_ip6_addr_valid_life (ndn x) i);
  (if (ND6_2HRS <? valid_life) || (remaining_life <? valid_life) then set_valid_life k i valid_life
   else if ND6_2HRS <? remaining_life then set_valid_life k i ND6_2HRS else mret tt);;
  x ← netif_at k;
  static ← lift (netif_ip6_addr_isstatic (ndn x) i);
  c_assert (negb static);;
  (if (0 <? pref_life) && (addr_state =? IP6_ADDR_DEPRECATED) then set_addr_state k i IP6_ADDR_PREFERRED else mret tt);;
  set_pref_life k i pref_life.

(** The slot for a new address: none if it exists or there is no room. *)
Fixpoint new_slot (n : netif) (a : ip6_addr) (slots : list nat) (free_idx : nat) : outcome (option nat) :=
  match slots with
  | [] => Ret (if decide (free_idx = 0)%nat then None else Some free_idx)
  | i :: slots =>
      st ← netif_ip6_addr_state n i;
      if ip6_addr_isinvalid st then new_slot n a slots (if decide (free_idx = 0)%nat then i else free_idx)
      else
        b ← netif_ip6_addr n i;
        if ip6_addr_cmp a b then Ret None else new_slot n a slots free_idx
  end.

Definition add_generated (k : Z) (prefix_addr : ip6_addr) (valid_life pref_life : Z) : M nd_world unit :=
  x ← netif_at k;
  let n := ndn x in
  st ← lift (netif_ip6_addr_state n 0);
  if (ip6_autoconfig_enabled x =? 0) || (valid_life =? IP6_ADDR_LIFE_STATIC) || ip6_addr_isinvalid st || ip6_addr_isduplicated st
  then mret tt
  else
    ll ← lift (netif_ip6_addr n 0);
    let ip6addr := ip6_addr_assign_zone (IP6_ADDR (addr0 prefix_addr) (addr1 prefix_addr) (addr2 ll) (addr3 ll)) IP6_UNICAST n in
    io ← lift (new_slot n ip6addr (seq 1 (LWIP_IPV6_NUM_ADDRESSES - 1)) 0);
    match io with
    | None => mret tt
    | Some i =>
        l ← lift (set_slot i ip6addr (ip6_addrs n));
        upd_netif k (on_ndn (with_ip6_addrs l));;
        set_valid_life k i valid_life;;
        set_pref_life k i pref_life;;
        set_addr_state k i IP6_ADDR_TENTATIVE
    end.

(** [o] is the prefix option. *)
Definition nd6_process_autoconfig_prefix (k : Z) (o : list Z) (prefix_addr : ip6_addr) : M nd_world unit :=
  let valid_life := lwip_htonl (le_val (slice 4 4 o)) in
  let pref_life := lwip_htonl (le_val (slice 8 4 o)) in
  if (valid_life <? pref_life) || negb (byte_at 2 o =? 64) then mret tt
  else
    x ← netif_at k;
    io ← lift (first_slot (LWIP_IPV6_NUM_ADDRESSES - 1) 1 (generated_slot (ndn x) prefix_addr));
    match io with
    | Some i => update_lifetimes k i valid_life pref_life
    | None => add_generated k prefix_addr valid_life pref_life
    end.

(** ** Messages

    [hdr] is the position of the current IPv6 header in the buffer of [p]. *)

Definition packed_addr (p : loc) (off : Z) : M nd_world ip6_addr :=
  bs ← in_node (pread p off 16); mret (ip6_of_bytes bs).
Definition current_hoplim (hdr : Z) (p : loc) : M nd_world Z := in_node (pread8_at p (hdr + OFF_HOPLIM)).
Definition current_addrs : M nd_world (ip6_addr * ip6_addr) :=
  w ← in_node get; mret (w_cur_src w, w_cur_dest w).

(** Whether the link-layer address option behind a header of [size] bytes fits. *)
Definition lladdr_fits (p : loc) (size : Z) : M nd_world bool :=
  pn ← in_node (pb_node p);
  let len := pb_len (n_val pn) in
  if len <? size + 2 then mret false
  else
    blocks ← in_node (pread8 p (size + 1));
    mret (negb (len <? size + Z.shiftl blocks 3)).
(** [MEMCPY(neighbor_cache[i].lladdr, lladdr_opt->addr, inp->hwaddr_len)] *)
Definition copy_lladdr (i : nat) (p : loc) (size k : Z) : M nd_world unit :=
  x ← netif_at k;
  bs ← in_node (pread p (size + 2) (nif_hwaddr_len (ndn x)));
  upd_neighbor i (with_lladdr bs).

Definition delay_entry : nd6_neighbor_cache_entry -> nd6_neighbor_cache_entry :=
  with_nc_state ND6_DELAY (LWIP_ND6_DELAY_FIRST_PROBE_TIME / ND6_TMR_INTERVAL).
(** A new entry for a neighbour that was heard. *)
Definition heard_neighbor (i : nat) (p : loc) (size k : Z) (a : ip6_addr) : M nd_world unit :=
  upd_neighbor i (with_nc_netif (Some k));;
  copy_lladdr i p size k;;
  upd_neighbor i (with_next_hop a);;
  upd_neighbor i delay_entry.

(** *** Neighbour advertisement *)

Definition conflicting_slot (n : netif) (a : ip6_addr) (i : nat) : outcome bool :=
  st ← netif_ip6_addr_state n i;
  if negb (ip6_addr_isinvalid st) && negb (ip6_addr_isduplicated st)
  then b ← netif_ip6_addr n i; Ret (ip6_addr_cmp a b) else Ret false.

Definition unsolicited_na (p : loc) (k : Z) (target_address : ip6_addr) (flags : Z) : M nd_world unit :=
  x ← netif_at k;
  io ← lift (first_slot LWIP_IPV6_NUM_ADDRESSES 0 (conflicting_slot (ndn x) target_address));
  match io with
  | Some i => nd6_duplicate_addr_detected k i
  | None =>
      fits ← lladdr_fits p sizeof_na_header;
      if negb fits then mret tt
      else
        t ← get_nd;
        match nd6_find_neighbor_cache_entry t target_address with
        | Some i => if has_flag flags ND6_FLAG_OVERRIDE then copy_lladdr i p sizeof_na_header k else mret tt
        | None => mret tt
        end
  end.

Definition solicited_na (p : loc) (k : Z) (target_address : ip6_addr) (flags : Z) : M nd_world unit :=
  t ← get_nd;
  match nd6_find_neighbor_cache_entry t target_address with
  | None => mret tt
  | Some i =>
      e ← neighbor i;
      ok ← (if has_flag flags ND6_FLAG_OVERRIDE || bool_decide (nc_state e = ND6_INCOMPLETE) then
              fits ← lladdr_fits p sizeof_na_header;
              if negb fits then mret false else copy_lladdr i p sizeof_na_header k;; mret true
            else mret true);
      if negb ok then mret tt
      else
        upd_neighbor i (with_nc_netif (Some k));;
        t ← get_nd;
        upd_neighbor i (with_nc_state ND6_REACHABLE (reachable_time t));;
        e ← neighbor i;
        match nc_q e with Some _ => nd6_send_q i | None => mret tt end
  end.

Definition nd6_input_na (hdr : Z) (p : loc) (k : Z) : M nd_world unit :=
  pn ← in_node (pb_node p);
  if pb_len (n_val pn) <? sizeof_na_header then mret tt
  else
    x ← netif_at k;
    a ← packed_addr p 8;
    let target_address := ip6_addr_assign_zone a IP6_UNICAST (ndn x) in
    hl ← current_hoplim hdr p;
    code ← in_node (pread8 p 1);
    if negb (hl =? ND6_HOPLIM) || negb (code =? 0) || ip6_addr_ismulticast target_address then mret tt
    else
      flags ← in_node (pread8 p 4);
      cur ← current_addrs;
      if ip6_addr_ismulticast cur.2 then unsolicited_na p k target_address flags
      else solicited_na p k target_address flags.

(** *** Neighbour solicitation *)

Definition accepting_slot (n : netif) (src a : ip6_addr) (i : nat) : outcome bool :=
  st ← netif_ip6_addr_state n i;
  if ip6_addr_isvalid st || (ip6_addr_istentative st && ip6_addr_isany src)
  then b ← netif_ip6_addr n i; Ret (ip6_addr_cmp a b) else Ret false.

(** The sender checks whether the address is in use. *)
Definition ns_dad (k : Z) (target_address : ip6_addr) : M nd_world unit :=
  each (seq 0 LWIP_IPV6_NUM_ADDRESSES) (fun i =>
    x ← netif_at k;
    st ← lift (netif_ip6_addr_state (ndn x) i);
    if ip6_addr_isinvalid st then mret tt
    else
      b ← lift (netif_ip6_addr (ndn x) i);
      if ip6_addr_cmp target_address b then
        nd6_send_na (ndn x) b (Z.lor ND6_FLAG_OVERRIDE ND6_SEND_FLAG_ALLNODES_DEST);;
        (if ip6_addr_istentative st then nd6_duplicate_addr_detected k i else mret tt)
      else mret tt).

(** The sender asks for our link-layer address. *)
Definition ns_resolve (p : loc) (k : Z) (src target_address : ip6_addr) : M nd_world unit :=
  t ← get_nd;
  ok ← (match nd6_find_neighbor_cache_entry t src with
        | Some i =>
            e ← neighbor i;
            (if bool_decide (nc_state e = ND6_INCOMPLETE) then
               upd_neighbor i (with_nc_netif (Some k));;
               copy_lladdr i p sizeof_ns_header k;;
               upd_neighbor i delay_entry
             else mret tt);;
            mret true
        | None =>
            io ← nd6_new_neighbor_cache_entry;
            match io with
            | None => mret false
            | Some i => heard_neighbor i p sizeof_ns_header k src;; mret true
            end
        end);
  if (ok : bool) then
    x ← netif_at k;
    nd6_send_na (ndn x) target_address (Z.lor ND6_FLAG_SOLICITED ND6_FLAG_OVERRIDE)
  else mret tt.

Definition nd6_input_ns (hdr : Z) (p : loc) (k : Z) : M nd_world unit :=
  pn ← in_node (pb_node p);
  if pb_len (n_val pn) <? sizeof_ns_header then mret tt
  else
    x ← netif_at k;
    a ← packed_addr p 8;
    let target_address := ip6_addr_assign_zone a IP6_UNICAST (ndn x) in
    hl ← current_hoplim hdr p;
    code ← in_node (pread8 p 1);
    if negb (hl =? ND6_HOPLIM) || negb (code =? 0) || ip6_addr_ismulticast target_address then mret tt
    else
      lladdr_opt ← lladdr_fits p sizeof_ns_header;
      cur ← current_addrs;
      io ← lift (first_slot LWIP_IPV6_NUM_ADDRESSES 0 (accepting_slot (ndn x) cur.1 target_address));
      match io with
      | None => mret tt
      | Some _ =>
          if ip6_addr_isany cur.1 then ns_dad k target_address
          else if negb lladdr_opt then mret tt
          else ns_resolve p k cur.1 target_address
      end.

(** *** Router advertisement *)

(** One option [o] of [option_len] bytes; false for [lenerr_drop_free_return]. *)
Definition ra_lladdr (i : nat) (k : Z) (o : list Z) : M nd_world bool :=
  x ← netif_at k;
  if Z.of_nat (length o) <? ND6_LLADDR_OPTION_MIN_LENGTH + nif_hwaddr_len (ndn x) then mret false
  else
    t ← get_nd;
    r ← lift (deref (default_router_list t !! i));
    (match neighbor_entry r with
     | None => mret tt
     | Some j =>
         e ← neighbor j;
         if bool_decide (nc_state e = ND6_INCOMPLETE) then
           upd_neighbor j (with_lladdr (slice 2 (Z.to_nat (nif_hwaddr_len (ndn x))) o));;
           upd_neighbor j (with_nc_state ND6_REACHABLE (reachable_time t))
         else mret tt
     end);;
    mret true.

Definition ra_mtu (k : Z) (o : list Z) : M nd_world bool :=
  if Z.of_nat (length o) <? sizeof_mtu_option then mret false
  else
    let mtu32 := lwip_htonl (le_val (slice 4 4 o)) in
    (if (IP6_MIN_MTU_LENGTH <=? mtu32) && (mtu32 <=? 0xffff) then
       upd_netif k (on_ndn (fun n => with_mtu6 (if negb (nif_mtu n =? 0) then Z.min (Z.min (nif_mtu n) (nif_mtu6 n)) (u16 mtu32) else u16 mtu32) n))
     else mret tt);;
    mret true.

Definition ra_on_link (k : Z) (prefix_addr : ip6_addr) (valid_life : Z) : M nd_world unit :=
  t ← get_nd;
  io ← (match nd6_get_onlink_prefix t prefix_addr k with
        | Some i => mret (Some i)
        | None => if 0 <? valid_life then nd6_new_onlink_prefix prefix_addr k else mret None
        end);
  match io with
  | Some i => modify_nd (fun t => with_prefixes (alter (fun e => mk_prefix (prefix e) (pl_netif e) valid_life) i (prefix_list t)) t)
  | None => mret tt
  end.

Definition ra_prefix (k : Z) (o : list Z) : M nd_world bool :=
  if Z.of_nat (length o) <? sizeof_prefix_option then mret false
  else
    x ← netif_at k;
    let prefix_addr := ip6_addr_assign_zone (ip6_of_bytes (slice 16 16 o)) IP6_UNICAST (ndn x) in
    (if negb (ip6_addr_islinklocal prefix_addr) then
       (if has_flag (byte_at 3 o) ND6_PREFIX_FLAG_ON_LINK && (byte_at 2 o =? 64)
        then ra_on_link k prefix_addr (lwip_htonl (le_val (slice 4 4 o))) else mret tt);;
       (if has_flag (byte_at 3 o) ND6_PREFIX_FLAG_AUTONOMOUS then nd6_process_autoconfig_prefix k o prefix_addr else mret tt)
     else mret tt);;
    mret true.

Definition ra_option (i : nat) (k : Z) (o : list Z) : M nd_world bool :=
  let option_type := byte_at 0 o in
  if option_type =? ND6_OPTION_TYPE_SOURCE_LLADDR then ra_lladdr i k o
  else if option_type =? ND6_OPTION_TYPE_MTU then ra_mtu k o
  else if option_type =? ND6_OPTION_TYPE_PREFIX_INFO then ra_prefix k o
  else mret true.

(** The bytes of the option at [offset], where they are or copied; none on an error. *)
Definition ra_bytes (p : loc) (offset option_len : Z) : M nd_world (option (list Z)) :=
  pn ← in_node (pb_node p);
  if pb_len (n_val pn) =? pb_tot_len (n_val pn) then bs ← in_node (pread p offset option_len); mret (Some bs)
  else
    w ← in_node get;
    type ← lift (pbuf_get_at (w_pbufs w) (Some p) offset);
    if (sizeof_ra_buffer <? option_len) && negb (type =? ND6_OPTION_TYPE_RDNSS) then mret None
    else bs ← lift (pbuf_copy_partial (w_pbufs w) (Some p) (Z.min option_len sizeof_ra_buffer) offset); mret (Some bs).

Definition ra_body (i : nat) (p : loc) (k offset : Z) : M nd_world (Z + unit) :=
  pn ← in_node (pb_node p);
  let tot_len := pb_tot_len (n_val pn) in
  if tot_len - offset <? 2 then mret (inr tt)
  else
    w ← in_node get;
    option_len8 ← lift (pbuf_try_get_at (w_pbufs w) (Some p) (offset + 1));
    let option_len := Z.shiftl (u8 option_len8) 3 in
    if (option_len8 <=? 0) || (tot_len - offset <? option_len) then mret (inr tt)
    else
      o ← ra_bytes p offset option_len;
      match o with
      | None => mret (inr tt)
      | Some o =>
          ok ← ra_option i k o;
          mret (if (ok : bool) then inl (u16 (offset + 8 * u8 option_len8)) else inr tt)
      end.

Definition ra_stop_soliciting (k : Z) : M nd_world unit :=
  x ← netif_at k;
  ok ← (if rs_count x <? LWIP_ND6_MAX_MULTICAST_SOLICIT then mret true
        else err ← nd6_send_rs (ndn x); mret (bool_decide (err = ERR_OK)));
  upd_netif k (with_rs_count (if (ok : bool) then 0 else 1)).

Definition nd6_input_ra (hdr : Z) (p : loc) (k : Z) : M nd_world unit :=
  pn ← in_node (pb_node p);
  if pb_len (n_val pn) <? sizeof_ra_header then mret tt
  else
    cur ← current_addrs;
    hl ← current_hoplim hdr p;
    code ← in_node (pread8 p 1);
    if negb (ip6_addr_islinklocal cur.1) || negb (hl =? ND6_HOPLIM) || negb (code =? 0) then mret tt
    else
      ra_stop_soliciting k;;
      io ← nd6_get_router cur.1 k;
      io ← (match io with Some i => mret (Some i) | None => nd6_new_router cur.1 k end);
      match io with
      | None => mret tt
      | Some i =>
          lt ← in_node (pread p 6 2);
          rb ← in_node (pread p 8 4);
          tb ← in_node (pread p 12 4);
          fl ← in_node (pread8 p 5);
          modify_nd (fun t => with_routers (alter (fun r => mk_router (neighbor_entry r) (lwip_htons (le_val lt)) (rl_flags r)) i (default_router_list t)) t);;
          modify_nd (fun t => with_times (if 0 <? le_val rb then lwip_htonl (le_val rb) else reachable_time t)
                                         (if 0 <? le_val tb then lwip_htonl (le_val tb) else retrans_timer t) t);;
          modify_nd (fun t => with_routers (alter (fun r => mk_router (neighbor_entry r) (rl_timer r) fl) i (default_router_list t)) t);;
          loop (S (Z.to_nat (pb_tot_len (n_val pn)))) (ra_body i p k) sizeof_ra_header
      end.

(** *** Redirect and packet too big *)

Definition redirect_lladdr (p : loc) (k : Z) (target_address : ip6_addr) : M nd_world unit :=
  type ← in_node (pread8 p sizeof_redirect_header);
  if type =? ND6_OPTION_TYPE_TARGET_LLADDR then
    t ← get_nd;
    io ← (match nd6_find_neighbor_cache_entry t target_address with
          | Some i => mret (Some i)
          | None =>
              io ← nd6_new_neighbor_cache_entry;
              match io with
              | None => mret None
              | Some i => heard_neighbor i p sizeof_redirect_header k target_address;; mret (Some i)
              end
          end);
    match io with
    | None => mret tt
    | Some i =>
        e ← neighbor i;
        if bool_decide (nc_state e = ND6_INCOMPLETE) then copy_lladdr i p sizeof_redirect_header k;; upd_neighbor i delay_entry
        else mret tt
    end
  else mret tt.

Definition nd6_input_rd (hdr : Z) (p : loc) (k : Z) : M nd_world unit :=
  pn ← in_node (pb_node p);
  if pb_len (n_val pn) <? sizeof_redirect_header then mret tt
  else
    x ← netif_at k;
    d ← packed_addr p 24;
    let destination_address := ip6_addr_assign_zone d IP6_UNICAST (ndn x) in
    cur ← current_addrs;
    hl ← current_hoplim hdr p;
    code ← in_node (pread8 p 1);
    if negb (ip6_addr_islinklocal cur.1) || negb (hl =? ND6_HOPLIM) || negb (code =? 0) || ip6_addr_ismulticast destination_address
    then mret tt
    else
      lladdr_opt ← lladdr_fits p sizeof_redirect_header;
      t ← get_nd;
      match nd6_find_destination_cache_entry t destination_address with
      | None => mret tt
      | Some di =>
          a ← packed_addr p 8;
          let target_address := ip6_addr_assign_zone a IP6_UNICAST (ndn x) in
          upd_destination di (fun e => mk_destination (destination_addr e) target_address (pmtu e) (cached_neighbor_idx e) (age e));;
          if (lladdr_opt : bool) then redirect_lladdr p k target_address else mret tt
      end.

Definition nd6_input_ptb (p : loc) (k : Z) : M nd_world unit :=
  pn ← in_node (pb_node p);
  if pb_len (n_val pn) <? ICMP6_HLEN + IP6_HLEN then mret tt
  else
    x ← netif_at k;
    d ← packed_addr p (ICMP6_HLEN + OFF_DEST);
    let destination_address := ip6_addr_assign_zone d IP6_UNKNOWN (ndn x) in
    t ← get_nd;
    match nd6_find_destination_cache_entry t destination_address with
    | None => mret tt
    | Some di =>
        mb ← in_node (pread p 4 4);
        upd_destination di (fun e => mk_destination (destination_addr e) (next_hop_addr e) (u16 (Z.min (lwip_htonl (le_val mb)) 0xFFFF))
                                       (cached_neighbor_idx e) (age e))
    end.

Definition nd6_input (hdr : Z) (p : loc) (k : Z) : M nd_world unit :=
  msg_type ← in_node (pread8 p 0);
  (if msg_type =? ICMP6_TYPE_NA then nd6_input_na hdr p k
   else if msg_type =? ICMP6_TYPE_NS then nd6_input_ns hdr p k
   else if msg_type =? ICMP6_TYPE_RA then nd6_input_ra hdr p k
   else if msg_type =? ICMP6_TYPE_RD then nd6_input_rd hdr p k
   else if msg_type =? ICMP6_TYPE_PTB then nd6_input_ptb p k
   else mret tt);;
  in_node (pbuf_free_m p);;
  mret tt.

(** ** The timer *)

(** An entry that is probed: given up after enough probes, unless it is a router. *)
Definition tmr_probe (i : nat) (e : nd6_neighbor_cache_entry) (flags : Z) : M nd_world unit :=
  if (LWIP_ND6_MAX_MULTICAST_SOLICIT <=? counter e) && (isrouter e =? 0) then nd6_free_neighbor_cache_entry i
  else
    upd_neighbor i (with_counter (u32 (counter e + 1)));;
    nd6_send_neighbor_cache_probe i flags.

Definition tmr_neighbor (i : nat) : M nd_world unit :=
  e ← neighbor i;
  match nc_state e with
  | ND6_INCOMPLETE => tmr_probe i e ND6_SEND_FLAG_MULTICAST_DEST
  | ND6_REACHABLE =>
      (match nc_q e with Some _ => nd6_send_q i | None => mret tt end);;
      upd_neighbor i (fun e => if counter e <=? ND6_TMR_INTERVAL then with_nc_state ND6_STALE 0 e
                               else with_counter (counter e - ND6_TMR_INTERVAL) e)
  | ND6_STALE => upd_neighbor i (with_counter (u32 (counter e + 1)))
  | ND6_DELAY =>
      if counter e <=? 1 then upd_neighbor i (with_nc_state ND6_PROBE 0)
      else upd_neighbor i (with_counter (counter e - 1))
  | ND6_PROBE => tmr_probe i e 0
  | ND6_NO_ENTRY => mret tt
  end.

Definition tmr_destinations : M nd_world unit :=
  modify_nd (fun t => with_destinations
    ((fun d => mk_destination (destination_addr d) (next_hop_addr d) (pmtu d) (cached_neighbor_idx d) (u32 (age d + 1)))
       <$> destination_cache t) t).

Definition set_router (i : nat) (r : nd6_router_list_entry) : M nd_world unit :=
  modify_nd (fun t => with_routers (<[i := r]> (default_router_list t)) t).
Definition tmr_router (i : nat) : M nd_world unit :=
  t ← get_nd;
  r ← lift (deref (default_router_list t !! i));
  match neighbor_entry r with
  | None => mret tt
  | Some j =>
      if rl_timer r <=? ND6_TMR_INTERVAL / 1000 then
        e ← neighbor j;
        modify_nd (fun t => with_destinations
          ((fun d => if ip6_addr_cmp (next_hop_addr d) (next_hop_address e) then set_destination_addr ip6_addr_any d else d)
             <$> destination_cache t) t);;
        upd_neighbor j (with_isrouter 0);;
        set_router i (mk_router None 0 0)
      else set_router i (mk_router (Some j) (rl_timer r - ND6_TMR_INTERVAL / 1000) (rl_flags r))
  end.

Definition tmr_prefixes : M nd_world unit :=
  modify_nd (fun t => with_prefixes
    ((fun e => match pl_netif e with
               | None => e
               | Some k => if pl_timer e <=? ND6_TMR_INTERVAL / 1000 then mk_prefix (prefix e) None 0
                           else mk_prefix (prefix e) (Some k) (pl_timer e - ND6_TMR_INTERVAL / 1000)
               end) <$> prefix_list t) t).

(** Step 1: the lifetimes of an address. *)
Definition tmr_lifetimes (k : Z) (i : nat) : M nd_world unit :=
  x ← netif_at k;
  addr_state ← lift (netif_ip6_addr_state (ndn x) i);
  static ← lift (netif_ip6_addr_isstatic (ndn x) i);
  if ip6_addr_isinvalid addr_state || static then mret tt
  else
    life ← lift (netif_ip6_addr_valid_life (ndn x) i);
    if life <=? ND6_TMR_INTERVAL / 1000 then
      set_valid_life k i 0;;
      set_pref_life k i 0;;
      set_addr_state k i IP6_ADDR_INVALID
    else
      (if life =? IP6_ADDR_LIFE_INFINITE then mret tt
       else
         let life := life - ND6_TMR_INTERVAL / 1000 in
         c_assert (negb (life =? IP6_ADDR_LIFE_STATIC));;
         set_valid_life k i life);;
      x ← netif_at k;
      life ← lift (netif_ip6_addr_pref_life (ndn x) i);
      if life <=? ND6_TMR_INTERVAL / 1000 then
        set_pref_life k i 0;;
        (if addr_state =? IP6_ADDR_PREFERRED then set_addr_state k i IP6_ADDR_DEPRECATED else mret tt)
      else if life =? IP6_ADDR_LIFE_INFINITE then mret tt
      else set_pref_life k i (life - ND6_TMR_INTERVAL / 1000).

(** Step 2: duplicate address detection. *)
Definition tmr_dad (k : Z) (i : nat) : M nd_world unit :=
  x ← netif_at k;
  let n := ndn x in
  addr_state ← lift (netif_ip6_addr_state n i);
  if ip6_addr_istentative addr_state then
    if LWIP_IPV6_DUP_DETECT_ATTEMPTS <=? Z.land addr_state IP6_ADDR_TENTATIVE_COUNT_MASK then
      static ← lift (netif_ip6_addr_isstatic n i);
      pref ← lift (netif_ip6_addr_pref_life n i);
      set_addr_state k i (if negb static && (pref =? 0) then IP6_ADDR_DEPRECATED else IP6_ADDR_PREFERRED)
    else if netif_is_up n && netif_is_link_up n then
      set_addr_state k i (u8 (addr_state + 1));;
      x ← netif_at k;
      a ← lift (netif_ip6_addr (ndn x) i);
      nd6_send_ns (ndn x) a (Z.lor ND6_SEND_FLAG_MULTICAST_DEST ND6_SEND_FLAG_ANY_SRC)
    else mret tt
  else mret tt.

Definition tmr_address (k : Z) (i : nat) : M nd_world unit := tmr_lifetimes k i;; tmr_dad k i.

Definition tmr_solicit (k : Z) : M nd_world unit :=
  x ← netif_at k;
  let n := ndn x in
  st ← lift (netif_ip6_addr_state n 0);
  if (0 <? rs_count x) && netif_is_up n && netif_is_link_up n && negb (ip6_addr_isinvalid st) && negb (ip6_addr_isduplicated st) then
    err ← nd6_send_rs n;
    if bool_decide (err = ERR_OK) then upd_netif k (with_rs_count (rs_count x - 1)) else mret tt
  else mret tt.

Definition nd6_tmr : M nd_world unit :=
  each (seq 0 LWIP_ND6_NUM_NEIGHBORS) tmr_neighbor;;
  tmr_destinations;;
  each (seq 0 LWIP_ND6_NUM_ROUTERS) tmr_router;;
  tmr_prefixes;;
  s ← get;
  let netifs := (fun x => nif_num (ndn x)) <$> nd_netifs s in
  each netifs (fun k => each (seq 0 LWIP_IPV6_NUM_ADDRESSES) (tmr_address k));;
  t ← get_nd;
  if nd6_tmr_rs_reduction t =? 0 then
    modify_nd (with_rs_reduction (ND6_RTR_SOLICITATION_INTERVAL / ND6_TMR_INTERVAL - 1));;
    each netifs tmr_solicit
  else modify_nd (with_rs_reduction (nd6_tmr_rs_reduction t - 1)).
End nd6_input.
