(* ===== verification/Ip6Frag.v ===== *)
(** * Fragmentation (lwip/src/core/ipv6/ip6_frag.c)

    A packet that is larger than the path MTU is cut into fragments, each a chain of
    a buffer with the two headers and of buffers that mirror a part of the packet
    ([pbuf_custom_ref]) and hold a reference to it.  Reassembly is configured out.

    A mirror has the bytes it points to as its buffer: nothing writes to the packet
    or to a mirror while there is one.  [customs] has the original of each mirror. *)

From S2P Require Import Prelude LinkedList Ip6Addr World Netif Pbuf Ip6Hdr Custody Buffer InetChksum RawSocket Ip6Out Icmp6 Ip6In Ip6Spec Mld6 Nd6.

(** ** State *)

Definition MEMP_NUM_FRAG_PBUF : nat := 15.
Definition PBUF_FLAG_IS_CUSTOM : Z := 0x02.
Definition IP6_FRAG_HLEN : Z := 8.

Record frag_world := mk_frag {
  fr_world : world;
  customs : gmap loc loc;
  identification : Z
}.

Definition in_fr {A} (m : M world A) : M frag_world A :=
  fun s => match m (fr_world s) with
           | Ret (a, w) => Ret (a, mk_frag w (customs s) (identification s))
           | Stuck => Stuck
           | Hang => Hang
           end.
Definition set_customs (f : gmap loc loc -> gmap loc loc) (s : frag_world) : frag_world :=
  mk_frag (fr_world s) (f (customs s)) (identification s).

(** ** Custom buffers *)

(** A mirror's free function releases the original, with [pbuf_free], and gives the mirror
    back to its pool. *)
Definition ip6_frag_free_pbuf_custom (pbuf_free : loc -> M frag_world Z) (l : loc) : M frag_world unit :=
  s ← get;
  original ← lift (deref (customs s !! l));
  pbuf_free original;;
  modify (set_customs (delete l)).

(** [pbuf_free] with buffers that mirror others. *)
Fixpoint pbuf_free_custom (fuel : nat) (p : option loc) (count : Z) : M frag_world Z :=
  match fuel with
  | O => fun _ => Hang
  | S fuel =>
      match p with
      | None => mret count
      | Some l =>
          n ← in_fr (pb_node l);
          if 0 <? pb_ref (n_val n) then
            let ref := u8 (pb_ref (n_val n) - 1) in
            if ref =? 0 then
              (if has_flag (pb_flags (n_val n)) PBUF_FLAG_IS_CUSTOM
               then ip6_frag_free_pbuf_custom (fun o => pbuf_free_custom fuel (Some o) 0) l
               else mret tt);;
              in_fr (modify (set_pbufs (delete l)));;
              pbuf_free_custom fuel (n_next n) (u8 (count + 1))
            else
              in_fr (modify (set_pbufs (insert l (upd_pbuf (with_ref ref) n))));;
              mret count
          else stuck
      end
  end.
Definition pbuf_free_f (p : loc) : M frag_world Z :=
  s ← get; pbuf_free_custom (4 + 2 * size (w_pbufs (fr_world s))) (Some p) 0.

(** [memp_malloc(MEMP_FRAG_PBUF)]: whether there is a mirror left. *)
Definition ip6_frag_alloc_pbuf_custom_ref : M frag_world bool :=
  s ← get; mret (bool_decide (size (customs s) < MEMP_NUM_FRAG_PBUF)%nat).

(** [payload_mem] has [payload_mem_len] bytes. *)
Definition pbuf_alloced_custom (l length : Z) (type : pbuf_type) (payload_mem : list Z) : M world (option loc) :=
  let offset := u16 l in
  if Z.of_nat (List.length payload_mem) <? LWIP_MEM_ALIGN_SIZE offset + length then mret None
  else
    w ← get;
    let q := new_loc (w_pbufs w) in
    modify (set_pbufs (insert q
      (pbuf_init_alloced_pbuf payload_mem (LWIP_MEM_ALIGN_SIZE offset) length length type PBUF_FLAG_IS_CUSTOM)));;
    mret (Some q).

Section frag.
Context `{Env} `{LowerLayers}.

(** The inner loop: the buffer where the next fragment starts and how much of it is
    used; none when there is no memory. *)
Definition mirror_body (rambuf : loc) (st : loc * Z * Z) : M frag_world (loc * Z * Z + option (loc * Z)) :=
  let '(p, left_to_copy, newpbuflen) := st in
  if left_to_copy =? 0 then mret (inr (Some (p, newpbuflen)))
  else
    n ← in_fr (pb_node p);
    let newpbuflen := if left_to_copy <? pb_len (n_val n) then left_to_copy else pb_len (n_val n) in
    if newpbuflen =? 0 then next ← lift (deref (n_next n)); mret (inl (next, left_to_copy, newpbuflen))
    else
      payload ← in_fr (pread p 0 newpbuflen);
      pcr ← ip6_frag_alloc_pbuf_custom_ref;
      po ← (if (pcr : bool) then in_fr (pbuf_alloced_custom PBUF_RAW newpbuflen PBUF_REF payload) else mret None);
      match po with
      | None => pbuf_free_f rambuf;; mret (inr None)
      | Some newpbuf =>
          in_fr (w ← get; h ← lift (pbuf_ref (w_pbufs w) (Some p)); modify (set_pbufs (fun _ => h)));;
          modify (set_customs (insert newpbuf p));;
          in_fr (w ← get; h ← lift (pbuf_cat (w_pbufs w) (Some rambuf) (Some newpbuf)); modify (set_pbufs (fun _ => h)));;
          let left_to_copy := u16 (left_to_copy - newpbuflen) in
          next ← (if left_to_copy =? 0 then mret p else lift (deref (n_next n)));
          mret (inl (next, left_to_copy, newpbuflen))
      end.

(** The two headers of a fragment; [nexth] is read from the original header. *)
Definition fill_frag (rambuf : loc) (nexth fragment_offset cop : Z) (last : bool) (id : Z) : M world unit :=
  pwrite rambuf IP6_HLEN [nexth];;
  pwrite rambuf (IP6_HLEN + 1) [0];;
  pwrite rambuf (IP6_HLEN + 2) (le_bytes 2 (lwip_htons (u16 (Z.lor (Z.land fragment_offset IP6_FRAG_OFFSET_MASK)
                                                                  (if last then 0 else IP6_FRAG_MORE_FLAG)))));;
  pwrite rambuf (IP6_HLEN + 4) (le_bytes 4 (lwip_htonl id));;
  IP6H_NEXTH_SET rambuf IP6_NEXTH_FRAGMENT;;
  IP6H_PLEN_SET rambuf (u16 (cop + IP6_FRAG_HLEN)).

(** The buffer of a fragment with a copy of the original header, which is at [hdr] in [p0]. *)
Definition frag_ram (p0 : loc) (hdr : Z) : M world (option loc) :=
  ro ← pbuf_alloc PBUF_LINK (IP6_HLEN + IP6_FRAG_HLEN) PBUF_RAM;
  match ro with
  | None => mret None
  | Some rambuf =>
      rn ← pb_node rambuf;
      c_assert (IP6_HLEN <=? pb_len (n_val rn));;
      original ← pread_at p0 hdr IP6_HLEN;
      pwrite rambuf 0 original;;
      mret (Some rambuf)
  end.
Definition send_frag (n : netif) (dest : ip6_addr) (p0 : loc) (hdr : Z) (rambuf : loc) (fragment_offset cop : Z) (last : bool) : M frag_world unit :=
  nexth ← in_fr (pread8_at p0 (hdr + OFF_NEXTH));
  s ← get;
  in_fr (fill_frag rambuf nexth fragment_offset cop last (identification s));;
  in_fr (output_ip6 n rambuf dest);;
  pbuf_free_f rambuf;;
  mret tt.

(** One round, with [rest] bytes to go ([left] in the code).  [newpbuflen] is 0 before the
    first mirror; a round without one has no bytes to send, and then no round has any. *)
Definition frag_body (n : netif) (dest : ip6_addr) (nfb : Z) (p0 : loc) (hdr : Z) (st : loc * Z * Z * Z)
  : M frag_world (loc * Z * Z * Z + err_t) :=
  let '(p, rest, fragment_offset, poff) := st in
  if rest =? 0 then mret (inr ERR_OK)
  else
    let last := rest <=? nfb in
    let cop := if last then rest else nfb in
    ro ← in_fr (frag_ram p0 hdr);
    match ro with
    | None => mret (inr ERR_MEM)
    | Some rambuf =>
        pn ← in_fr (pb_node p);
        let b := n_val pn in
        in_fr (modify (set_pbufs (insert p
          (upd_pbuf (with_window (pb_payload b + poff) (u16 (pb_tot_len b - poff)) (u16 (pb_len b - poff))) pn))));;
        s ← get;
        r ← loop (2 + Z.to_nat cop + size (w_pbufs (fr_world s))) (mirror_body rambuf) (p, cop, 0);
        match r with
        | None => mret (inr ERR_MEM)
        | Some (p, newpbuflen) =>
            send_frag n dest p0 hdr rambuf fragment_offset cop last;;
            mret (inl (p, u16 (rest - cop), u16 (fragment_offset + cop), newpbuflen))
        end
    end.

(** [fuel] bounds the number of fragments. *)
Definition ip6_frag_with (fuel : nat) (p : loc) (n : netif) (dest : ip6_addr) : M frag_world err_t :=
  mtu ← in_fr (Ip6Out.nd6_get_destination_mtu dest n);
  let nfb := u16 (Z.land (mtu - (IP6_HLEN + IP6_FRAG_HLEN)) IP6_FRAG_OFFSET_MASK) in
  modify (fun s => mk_frag (fr_world s) (customs s) (u32 (identification s + 1)));;
  pn ← in_fr (pb_node p);
  c_assert (IP6_HLEN <=? pb_tot_len (n_val pn));;
  loop fuel (frag_body n dest nfb p (pb_payload (n_val pn))) (p, u16 (pb_tot_len (n_val pn) - IP6_HLEN), 0, IP6_HLEN).
Definition ip6_frag (p : loc) (n : netif) (dest : ip6_addr) : M frag_world err_t := ip6_frag_with (Z.to_nat 65536) p n dest.
End frag.
