(* ===== verification/Tracking.v ===== *)
(** * Retry tracking of the controller (src/dtn_controller.c, first part)

    The table of forwarding attempts: creation, the decision whether a stored
    packet may be sent now, and the removal of a confirmed destination.  The
    table implements a finite map from destinations (without their zone) to
    the time and number of their attempts; the theorems describe the decision
    on that map, bound the number of attempts and separate them in time. *)

From S2P Require Import Prelude LinkedList Ip6Addr World Pbuf Ip6Hdr Custody Storage StorageSpec.

Definition MAX_DESTINATIONS : nat := 10.
Definition FORWARDING_RETRY_DELAY_MS : Z := 30000.
Definition MAX_FORWARDING_RETRIES : Z := 10.

(** The first element a loop [for (i = 0; i < MAX; i++) if (f(a[i])) ...] stops at. *)
Fixpoint find_index {A} (f : A -> bool) (l : list A) : option (nat * A) :=
  match l with
  | [] => None
  | a :: l' => if f a then Some (O, a) else '(i, x) ← find_index f l'; Some (S i, x)
  end.

Definition set_valid (v : bool) (a : ForwardingAttempt) : ForwardingAttempt :=
  mk_attempt (destination a) (last_attempt_time a) (retry_count a) v.

(** Valid, and the same address once both zones are cleared. *)
Definition tracks (dest_addr : ip6_addr) (a : ForwardingAttempt) : bool :=
  is_valid a &&
  ip6_addr_cmp (ip6_addr_set_zone IP6_NO_ZONE dest_addr)
               (ip6_addr_set_zone IP6_NO_ZONE (destination a)).

Section tracking.
Context `{Env}.

Definition dtn_controller_create : M world (option DTN_Controller) :=
  ok ← malloc_ok;
  mret (if (ok : bool) then Some (replicate MAX_DESTINATIONS (mk_attempt ip6_addr_any 0 0 false))
        else None).

Definition dtn_controller_destroy : M world unit := modify (set_controller None).

Definition the_controller : M world DTN_Controller :=
  w ← get; lift (deref (w_controller w)).
(** [forwarding_attempts[i] = a] *)
Definition set_attempt (i : nat) (a : ForwardingAttempt) : M world unit :=
  modify (fun w => set_controller ((fun t : list ForwardingAttempt => <[i := a]> t) <$> w_controller w) w).

(** Max retries reached: the packet is taken out of the storage and released. *)
Definition drop_expired (dest_addr : ip6_addr) : M world unit :=
  w ← get;
  match w_storage w with
  | None => mret tt
  | Some _ =>
      expired_packet ← dtn_storage_retrieve_packet_for_dest (Some dest_addr);
      match expired_packet with
      | None => mret tt
      | Some e =>
          n ← entry_node e;
          p ← lift (deref (sp_p (n_val n)));
          pbuf_free_m p;;
          dtn_storage_free_retrieved_entry_struct (Some e)
      end
  end.

Definition should_attempt_forward (dest_addr : ip6_addr) : M world bool :=
  current_time ← sys_now;
  t ← the_controller;
  match find_index (tracks dest_addr) t with
  | Some (i, a) =>
      let time_since_last_attempt := u32 (current_time - last_attempt_time a) in
      if FORWARDING_RETRY_DELAY_MS <=? time_since_last_attempt then
        if MAX_FORWARDING_RETRIES <=? retry_count a then
          drop_expired dest_addr;;
          set_attempt i (set_valid false a);;
          mret false
        else
          set_attempt i (mk_attempt (destination a) current_time (retry_count a + 1) (is_valid a));;
          mret true
      else mret false
  | None =>
      match find_index (fun a => negb (is_valid a)) t with
      | Some (i, _) =>
          set_attempt i (mk_attempt dest_addr current_time 1 true);;
          mret true
      | None => mret true
      end
  end.

Definition dtn_controller_remove_tracking (dest_addr : option ip6_addr) : M world unit :=
  w ← get;
  match w_controller w, dest_addr with
  | Some t, Some d =>
      match find_index (tracks d) t with
      | Some (i, a) => set_attempt i (set_valid false a)
      | None => mret tt
      end
  | _, _ => mret tt
  end.
End tracking.

(** ** The map the table implements *)

Definition dest_key (a : ip6_addr) : Z * Z * Z * Z := (addr0 a, addr1 a, addr2 a, addr3 a).

Definition tracked (t : list ForwardingAttempt) (k : Z * Z * Z * Z) : option (Z * Z) :=
  '(_, a) ← find_index (fun a => is_valid a && bool_decide (dest_key (destination a) = k)) t;
  Some (last_attempt_time a, retry_count a).

Definition valid_keys (t : list ForwardingAttempt) : list (Z * Z * Z * Z) :=
  (fun a => dest_key (destination a)) <$> filter (fun a => is_valid a = true) t.

(** Ten slots, no destination twice, between one and ten attempts each. *)
Record table_ok (t : list ForwardingAttempt) : Prop := {
  tb_length : length t = MAX_DESTINATIONS;
  tb_nodup : NoDup (valid_keys t);
  tb_counts : Forall (fun a => is_valid a = true -> 1 <= retry_count a <= MAX_FORWARDING_RETRIES) t
}.

Lemma table_ok_fresh : table_ok (replicate MAX_DESTINATIONS (mk_attempt ip6_addr_any 0 0 false)).
Proof. split; [done|constructor|]. by apply Forall_replicate. Qed.

Lemma find_index_Some {A} (f : A -> bool) l i a :
  find_index f l = Some (i, a) ->
  exists l1 l2, l = l1 ++ a :: l2 /\ i = length l1 /\ f a = true /\ Forall (fun x => f x = false) l1.
Proof.
  revert i. induction l as [|x l IH]; intros i; simpl; [done|]. destruct (f x) eqn:E.
  - intros [= <- ->]. by exists [], l.
  - destruct (find_index f l) as [[j y]|]; simpl; [|done]. intros [= <- ->].
    destruct (IH j) as (l1 & l2 & -> & -> & ? & ?); [done|]. exists (x :: l1), l2. naive_solver.
Qed.

Lemma find_index_None {A} (f : A -> bool) l :
  find_index f l = None <-> Forall (fun x => f x = false) l.
Proof.
  induction l as [|x l IH]; simpl; [done|]. destruct (f x) eqn:E.
  - split; [done|]. intros [? _]%Forall_cons. congruence.
  - rewrite Forall_cons, <-IH. destruct (find_index f l) as [[]|]; simpl; naive_solver.
Qed.

Lemma find_index_app {A} (f : A -> bool) l1 a l2 :
  Forall (fun x => f x = false) l1 -> f a = true -> find_index f (l1 ++ a :: l2) = Some (length l1, a).
Proof. induction 1 as [|x l1 Hx _ IH]; simpl; intros Ha; [by rewrite Ha|]. by rewrite Hx, IH. Qed.

Lemma find_index_skip {A} (f : A -> bool) l1 a l2 :
  f a = false -> (snd <$> find_index f (l1 ++ a :: l2)) = (snd <$> find_index f (l1 ++ l2)).
Proof.
  intros Ha. induction l1 as [|x l1 IH]; simpl.
  - rewrite Ha. by destruct (find_index f l2) as [[]|].
  - destruct (f x); [done|]. destruct (find_index f (l1 ++ a :: l2)) as [[]|],
      (find_index f (l1 ++ l2)) as [[]|]; simpl in *; congruence.
Qed.

Lemma find_index_ext {A} (f g : A -> bool) l : (forall x, f x = g x) -> find_index f l = find_index g l.
Proof. intros E. induction l as [|x l IH]; simpl; [done|]. by rewrite E, IH. Qed.

Lemma tracks_key d a :
  tracks d a = is_valid a && bool_decide (dest_key (destination a) = dest_key d).
Proof.
  unfold tracks. f_equal. unfold ip6_addr_cmp, ip6_addr_zoneless_eq, ip6_addr_set_zone, dest_key. simpl.
  rewrite andb_true_r. case_bool_decide as E.
  - injection E as -> -> -> ->. by rewrite !Z.eqb_refl.
  - apply not_true_iff_false. rewrite !andb_true_iff, !Z.eqb_eq. intros (((?&?)&?)&?).
    apply E. congruence.
Qed.

Definition has_key (k : Z * Z * Z * Z) (a : ForwardingAttempt) : bool :=
  is_valid a && bool_decide (dest_key (destination a) = k).

Lemma tracked_snd t k :
  tracked t k = (fun a => (last_attempt_time a, retry_count a)) <$> (snd <$> find_index (has_key k) t).
Proof. unfold tracked, has_key. by destruct (find_index _ t) as [[]|]. Qed.

(** Writing one slot changes the map at the keys of the old and new contents only. *)
Lemma tracked_other t1 a a' t2 k :
  has_key k a = false -> has_key k a' = false ->
  tracked (t1 ++ a' :: t2) k = tracked (t1 ++ a :: t2) k.
Proof. intros. rewrite !tracked_snd, !find_index_skip by done. done. Qed.

Lemma tracked_here t1 a t2 k :
  Forall (fun x => has_key k x = false) t1 -> has_key k a = true ->
  tracked (t1 ++ a :: t2) k = Some (last_attempt_time a, retry_count a).
Proof. intros. by rewrite tracked_snd, find_index_app. Qed.

Lemma tracked_None t k : tracked t k = None <-> Forall (fun x => has_key k x = false) t.
Proof.
  rewrite tracked_snd, <-find_index_None. destruct (find_index _ t) as [[]|]; simpl; naive_solver.
Qed.

Lemma valid_keys_app t1 t2 : valid_keys (t1 ++ t2) = valid_keys t1 ++ valid_keys t2.
Proof. unfold valid_keys. by rewrite filter_app, fmap_app. Qed.
Lemma valid_keys_cons a t :
  valid_keys (a :: t) = (if is_valid a then [dest_key (destination a)] else []) ++ valid_keys t.
Proof.
  unfold valid_keys. destruct (is_valid a) eqn:E.
  - by rewrite filter_cons_True.
  - by rewrite filter_cons_False by congruence.
Qed.

Lemma not_valid_key k t : Forall (fun x => has_key k x = false) t <-> k ∉ valid_keys t.
Proof.
  induction t as [|a t IH]; [by split; [set_solver|constructor]|].
  rewrite Forall_cons, IH, valid_keys_cons. unfold has_key at 1.
  destruct (is_valid a); simpl.
  - rewrite bool_decide_eq_false. set_solver.
  - set_solver.
Qed.

Lemma insert_middle {A} (t1 : list A) a t2 a' : <[length t1 := a']> (t1 ++ a :: t2) = t1 ++ a' :: t2.
Proof. rewrite insert_app_r_alt by lia. by rewrite Nat.sub_diag. Qed.

(** [t'] is [t] with the map changed at [k] only. *)
Definition map_after (t t' : list ForwardingAttempt) (k : Z * Z * Z * Z) (v : option (Z * Z)) : Prop :=
  table_ok t' /\ tracked t' k = v /\ forall k', k' <> k -> tracked t' k' = tracked t k'.

Section slots.
Context (t1 t2 : list ForwardingAttempt) (a : ForwardingAttempt).
Context (Hok : table_ok (t1 ++ a :: t2)).

(** Writing a destination into its own slot or into a free one. *)
Lemma write_slot a' k :
  dest_key (destination a') = k -> is_valid a' = true -> 1 <= retry_count a' <= MAX_FORWARDING_RETRIES ->
  has_key k a = true \/ (is_valid a = false /\ tracked (t1 ++ a :: t2) k = None) ->
  map_after (t1 ++ a :: t2) (t1 ++ a' :: t2) k (Some (last_attempt_time a', retry_count a')).
Proof.
  intros Hdk Hv Hc Hor. destruct Hok as [Hl Hnd Hcs].
  rewrite valid_keys_app, valid_keys_cons in Hnd.
  assert (Hk : (k ∉ valid_keys t1) /\ (k ∉ valid_keys t2) /\ NoDup (valid_keys t1 ++ valid_keys t2)).
  { destruct Hor as [Ha|[Ha Hn]].
    - unfold has_key in Ha. apply andb_true_iff in Ha as [Ea Ek%bool_decide_eq_true].
      rewrite Ea, Ek in Hnd. apply NoDup_app in Hnd as (H1 & H2 & [H3 H4]%NoDup_cons).
      split_and!; [intros Hin; by destruct (H2 _ Hin); left|done|].
      apply NoDup_app. split_and!; [done| |done]. intros x Hx Hx2. apply (H2 _ Hx). by right.
    - rewrite Ha in Hnd. apply tracked_None, Forall_app in Hn as [H1 [_ H2]%Forall_cons].
      apply not_valid_key in H1, H2. done. }
  destruct Hk as (H1 & H2 & Hnd').
  assert (Ha' : has_key k a' = true) by (unfold has_key; rewrite Hv, Hdk; by apply bool_decide_eq_true).
  split; [split|split].
  - rewrite length_app in *. simpl in *. lia.
  - rewrite valid_keys_app, valid_keys_cons, Hv. simpl. rewrite Hdk.
    rewrite <-Permutation_middle. apply NoDup_cons. split; [|done]. by intros [?|?]%elem_of_app.
  - apply Forall_app in Hcs as [? [_ ?]%Forall_cons]. by apply Forall_app; split; [|constructor].
  - apply tracked_here; [by apply not_valid_key|done].
  - intros k' Hne. apply tracked_other.
    + destruct Hor as [Ha|[Ha _]]; unfold has_key in *; [|by rewrite Ha].
      apply andb_true_iff in Ha as [-> <-%bool_decide_eq_true]. by apply bool_decide_eq_false.
    + unfold has_key. rewrite Hv, Hdk. by apply bool_decide_eq_false.
Qed.

(** Invalidating the slot of a destination. *)
Lemma clear_slot k :
  has_key k a = true -> map_after (t1 ++ a :: t2) (t1 ++ set_valid false a :: t2) k None.
Proof.
  intros Ha. destruct Hok as [Hl Hnd Hcs]. rewrite valid_keys_app, valid_keys_cons in Hnd.
  pose proof Ha as [Ea Ek%bool_decide_eq_true]%andb_true_iff. rewrite Ea, Ek in Hnd.
  apply NoDup_app in Hnd as (H1 & H2 & [H3 H4]%NoDup_cons).
  split; [split|split].
  - rewrite length_app in *. simpl in *. lia.
  - rewrite valid_keys_app, valid_keys_cons. simpl. apply NoDup_app. split_and!; [done| |done].
    intros x Hx Hx2. apply (H2 _ Hx). by right.
  - apply Forall_app in Hcs as [? [_ ?]%Forall_cons]. by apply Forall_app; split; [|constructor].
  - apply tracked_None, Forall_app. split; [|constructor; [done|by apply not_valid_key]].
    apply not_valid_key. intros Hin. destruct (H2 _ Hin). by left.
  - intros k' Hne. apply tracked_other; [|done]. unfold has_key. rewrite Ea, Ek.
    by apply bool_decide_eq_false.
Qed.
End slots.

(** What the search for a destination finds. *)
Lemma find_tracks t d :
  match find_index (tracks d) t with
  | Some (i, a) => exists t1 t2, t = t1 ++ a :: t2 /\ i = length t1 /\ has_key (dest_key d) a = true /\
                     tracked t (dest_key d) = Some (last_attempt_time a, retry_count a)
  | None => tracked t (dest_key d) = None
  end.
Proof.
  rewrite (find_index_ext _ (has_key (dest_key d))) by apply tracks_key.
  destruct (find_index _ t) as [[i a]|] eqn:E.
  - apply find_index_Some in E as (t1 & t2 & -> & -> & Ha & H1). exists t1, t2.
    split_and!; try done. by apply tracked_here.
  - by apply tracked_None, find_index_None.
Qed.

(** ** Running the operations *)

Definition rest_but_controller (w : world) :=
  (w_contacts w, w_routing w, w_last_check w, w_last_active w, w_cur_src w, w_cur_dest w,
   w_raw w, w_fds w, w_trace w, w_timers w).

Lemma rest_of_split w w' :
  rest_of w' = rest_of w <->
  w_controller w' = w_controller w /\ rest_but_controller w' = rest_but_controller w.
Proof. unfold rest_of, rest_but_controller. split; [intros [=]; split; congruence|intros [? [=]]; congruence]. Qed.

(** Packets, entries, storage and files are as before. *)
Definition same_store (w w' : world) : Prop :=
  w_pbufs w' = w_pbufs w /\ w_entries w' = w_entries w /\ w_storage w' = w_storage w /\
  w_files w' = w_files w.

Lemma same_store_stores w w' ls recs : same_store w w' -> stores w ls recs -> stores w' ls recs.
Proof.
  intros (Hp & He & Hs & _) [Hl Hb Hr Hd]. split; [by rewrite Hs, He|done|by rewrite Hp|done].
Qed.

(** The oldest record for [d], if any, has left the store and its packet has
    been released. *)
Definition dropped (d : ip6_addr) (ls : list (loc * Stored_Packet_Entry)) recs (w w' : world) : Prop :=
  match take_first (rec_matches d) recs with
  | None => same_store w w'
  | Some (rc, recs') =>
      stores w' (remove_first (dest_matches d) ls) recs' /\
      exists p, Some p ∈ entry_pbufs ls /\ w_pbufs w' = delete p (w_pbufs w)
  end.

(** The decision on the map: [Some] of the new tracking state of the
    destination and the answer. *)
Definition decision (m : option (Z * Z)) (now : Z) : bool * option (Z * Z) :=
  match m with
  | None => (true, Some (now, 1))
  | Some (last, n) =>
      if u32 (now - last) <? FORWARDING_RETRY_DELAY_MS then (false, m)
      else if n <? MAX_FORWARDING_RETRIES then (true, Some (now, n + 1))
      else (false, None)
  end.

Definition expired (m : option (Z * Z)) (now : Z) : bool :=
  match m with
  | Some (last, n) => (FORWARDING_RETRY_DELAY_MS <=? u32 (now - last)) && (MAX_FORWARDING_RETRIES <=? n)
  | None => false
  end.

Definition table_full (t : list ForwardingAttempt) : bool := forallb is_valid t.

Section running.
Context `{Env}.

Lemma wp_drop_expired w ls recs d Q :
  stores w ls recs ->
  (forall w', rest_of w' = rest_of w -> dropped d ls recs w w' -> Q tt w') ->
  wp (drop_expired d) w Q.
Proof.
  intros Hst HQ. unfold drop_expired. apply wp_bind, wp_get.
  pose proof (st_list _ _ _ Hst) as (st & Hw & _ & _). rewrite Hw.
  apply wp_bind. eapply wp_mono; [by apply retrieve_spec|]. cbn beta.
  intros r w1 (Hp1 & Hr1 & Hm). unfold dropped in HQ.
  destruct (take_first (rec_matches d) recs) as [[rc recs']|].
  2: { destruct Hm as [-> ->]. apply wp_ret. apply HQ; [done|]. by split_and!. }
  destruct Hm as (c & v & ls' & -> & Hst1 & El & Hin & Hc & Hn & (p & b & Ev & Hs & Hb) & Hni & _).
  simpl in Ev. subst v. apply wp_bind.
  eapply wp_exec; [unfold entry_node, get, lift, mbind, M_bind; by rewrite Hn|].
  apply wp_bind. eapply wp_lift; [done|]. apply wp_bind.
  eapply wp_exec; [by eapply pbuf_free_m_exec|].
  simpl. unfold free_entry, entry_node, get, lift, modify, mbind, M_bind, wp. simpl.
  rewrite Hn. simpl. apply HQ; [done|]. simpl in Hni. split.
  - rewrite <-El. destruct Hst1 as [(st1 & Hw1 & Hll & Hct) Hb1 HF Hd]. split; [|done| |done].
    + exists st1. split_and!; [done| |done]. by apply llist_delete_other.
    + eapply entries_rep_frame; [|done]. intros q Hq. simpl. apply lookup_delete_ne.
      intros ->. by destruct Hni.
  - exists p. split; [|simpl; by rewrite Hp1].
    apply list_elem_of_fmap. by exists (c, mk_entry (Some p) (r_dest rc) (r_time rc) (r_file rc)).
Qed.

(** Result, table and store after a decision. *)
Definition decided_as (d : ip6_addr) (t : list ForwardingAttempt)
    (ls : list (loc * Stored_Packet_Entry)) (recs : list stored_rec) (now : Z) (w : world) (r : bool) (w' : world) : Prop :=
  let k := dest_key d in
  let m := tracked t k in
  rest_but_controller w' = rest_but_controller w /\
  exists t', w_controller w' = Some t' /\ r = (decision m now).1 /\
    (if bool_decide (m = None) && table_full t then t' = t
     else map_after t t' k (decision m now).2) /\
    (if expired m now then dropped d ls recs w w' else same_store w w').

Lemma map_after_id t k v : table_ok t -> tracked t k = v -> map_after t t k v.
Proof. intros. unfold map_after. by split_and!. Qed.

Lemma wp_should_attempt w ls recs t d Q :
  w_controller w = Some t -> table_ok t -> stores w ls recs ->
  (forall r w', decided_as d t ls recs (u32 (env_now (w_tick w))) w r w' -> Q r w') ->
  wp (should_attempt_forward d) w Q.
Proof.
  intros Hc Hok Hst HQ. unfold should_attempt_forward. apply wp_bind, wp_now.
  set (now := u32 (env_now (w_tick w))) in *.
  apply wp_bind. eapply wp_exec; [unfold the_controller, get, lift, mbind, M_bind; simpl; by rewrite Hc|].
  pose proof (find_tracks t d) as Hf. unfold decided_as in HQ.
  destruct (find_index (tracks d) t) as [[i a]|].
  - destruct Hf as (t1 & t2 & -> & -> & Ha & Htr).
    pose proof (proj1 (Forall_app _ _ _) (tb_counts _ Hok)) as [_ [Hcnt _]%Forall_cons].
    pose proof Ha as [Hv Hk%bool_decide_eq_true]%andb_true_iff. specialize (Hcnt Hv).
    rewrite Htr in HQ. cbn [decision expired] in HQ. rewrite bool_decide_false in HQ by done.
    cbn [andb] in HQ. rewrite !Z.leb_antisym in *.
    destruct (u32 (now - last_attempt_time a) <? FORWARDING_RETRY_DELAY_MS); cbn [negb andb] in *.
    { apply wp_ret, HQ. split; [done|]. eexists. split_and!; [exact Hc|done| |done].
      by apply map_after_id. }
    destruct (Z.ltb_spec (retry_count a) MAX_FORWARDING_RETRIES) as [Hlt|_]; cbn [negb andb] in *.
    + apply wp_bind, wp_modify, wp_ret, HQ. split; [done|]. eexists.
      split_and!; [simpl; rewrite Hc; simpl; by rewrite insert_middle|done| |done].
      apply (write_slot t1 t2 a Hok); cbn [destination is_valid retry_count]; try done; [lia|by left].
    + apply wp_bind, (wp_drop_expired _ ls recs); [by apply (same_store_stores w)|]. intros w1 Hr Hdr.
      apply rest_of_split in Hr as [Hc1 Hr]. cbn [w_controller add_ticks] in Hc1. rewrite Hc in Hc1.
      apply wp_bind, wp_modify, wp_ret, HQ. split; [exact Hr|].
      eexists. split_and!; [simpl; rewrite Hc1; simpl; by rewrite insert_middle|done| |].
      * by apply clear_slot.
      * unfold dropped in *. destruct (take_first _ recs) as [[rc recs']|]; [|done].
        destruct Hdr as [Hst1 Hp]. split; [|done]. by apply (same_store_stores w1).
  - rewrite Hf in HQ. cbn [decision expired fst snd] in HQ. rewrite bool_decide_true in HQ by done.
    cbn [andb] in HQ. destruct (find_index (fun a => negb (is_valid a)) t) as [[i a]|] eqn:Ef.
    + apply find_index_Some in Ef as (t1 & t2 & -> & -> & Ha%negb_true_iff & _).
      assert (Hnf : table_full (t1 ++ a :: t2) = false).
      { unfold table_full. rewrite forallb_app. simpl. rewrite Ha. by rewrite andb_false_r. }
      rewrite Hnf in HQ. apply wp_bind, wp_modify, wp_ret, HQ. split; [done|]. eexists.
      split_and!; [simpl; rewrite Hc; simpl; by rewrite insert_middle|done| |done].
      apply (write_slot t1 t2 a Hok (mk_attempt d now 1 true)); try done. by right.
    + assert (Hfull : table_full t = true).
      { apply find_index_None in Ef. apply forallb_forall. intros x Hx%list_elem_of_In.
        rewrite Forall_forall in Ef. apply negb_false_iff, Ef, Hx. }
      rewrite Hfull in HQ. apply wp_ret, HQ. split; [done|]. eexists. split_and!; [exact Hc|done..].
Qed.

Lemma remove_tracking_exec w t d :
  w_controller w = Some t -> table_ok t ->
  exists t', dtn_controller_remove_tracking (Some d) w = Ret (tt, set_controller (Some t') w) /\
    map_after t t' (dest_key d) None.
Proof.
  intros Hc Hok. unfold dtn_controller_remove_tracking. rewrite (bind_exec get _ w w w) by done.
  rewrite Hc. pose proof (find_tracks t d) as Hf. destruct (find_index (tracks d) t) as [[i a]|].
  - destruct Hf as (t1 & t2 & -> & -> & Ha & _). exists (t1 ++ set_valid false a :: t2).
    split; [|by apply clear_slot]. unfold set_attempt, modify. rewrite Hc. simpl.
    by rewrite insert_middle.
  - exists t. split; [|by apply map_after_id]. unfold set_controller. rewrite <-Hc. by destruct w.
Qed.
End running.

(** ** The tracking table over a run of the node *)

Inductive call :=
| Attempt (d : ip6_addr) (now : Z) (answer : bool)
| Confirm (d : ip6_addr)
| Other.

Section runs.
Context `{Env}.

(** One step: a decision, a confirmation, or anything that leaves the table
    alone and the storage well-formed. *)
Inductive ctl_step : world -> call -> world -> Prop :=
| step_attempt w d r w' :
    should_attempt_forward d w = Ret (r, w') ->
    ctl_step w (Attempt d (u32 (env_now (w_tick w))) r) w'
| step_confirm w d w' :
    dtn_controller_remove_tracking (Some d) w = Ret (tt, w') -> ctl_step w (Confirm d) w'
| step_other w w' ls recs :
    w_controller w' = w_controller w -> stores w' ls recs -> ctl_step w Other w'.

Definition ctl_ok (w : world) : Prop :=
  exists t ls recs, w_controller w = Some t /\ table_ok t /\ stores w ls recs.

Definition tracked_in (w : world) (k : Z * Z * Z * Z) : option (Z * Z) :=
  t ← w_controller w; tracked t k.

Inductive ctl_reach : world -> world -> Prop :=
| reach_refl w : ctl_reach w w
| reach_step w w1 c w2 : ctl_reach w w1 -> ctl_step w1 c w2 -> ctl_reach w w2.

Lemma decided_ok d t ls recs now w r w' :
  table_ok t -> stores w ls recs -> decided_as d t ls recs now w r w' -> ctl_ok w'.
Proof.
  intros Hok Hst (_ & t' & Hc & _ & Ht & Hs).
  assert (table_ok t') by (destruct (_ && _); [by subst|by destruct Ht]).
  unfold dropped in Hs. destruct (expired _ _).
  - destruct (take_first _ recs) as [[rc recs']|].
    + destruct Hs as [Hs _]. by exists t', (remove_first (dest_matches d) ls), recs'.
    + exists t', ls, recs. split_and!; [done..|]. by apply (same_store_stores w).
  - exists t', ls, recs. split_and!; [done..|]. by apply (same_store_stores w).
Qed.

Lemma attempt_decided d w r w' t ls recs :
  should_attempt_forward d w = Ret (r, w') ->
  w_controller w = Some t -> table_ok t -> stores w ls recs ->
  decided_as d t ls recs (u32 (env_now (w_tick w))) w r w'.
Proof.
  intros He Hc Ht Hst. pose proof (wp_should_attempt w ls recs t d
    (fun r w' => decided_as d t ls recs (u32 (env_now (w_tick w))) w r w') Hc Ht Hst) as Hwp.
  unfold wp in Hwp. rewrite He in Hwp. auto.
Qed.

Lemma ctl_step_ok w c w' : ctl_step w c w' -> ctl_ok w -> ctl_ok w'.
Proof.
  intros Hstep (t & ls & recs & Hc & Ht & Hst). destruct Hstep as [w d r w' He|w d w' He|w w' ls' recs' E Hs'].
  - eapply decided_ok; [done|done|by eapply attempt_decided].
  - destruct (remove_tracking_exec w t d Hc Ht) as (t' & He' & Hm & _). rewrite He in He'.
    injection He' as ->. exists t', ls, recs. split_and!; [done..|]. by apply (same_store_stores w).
  - exists t, ls', recs'. by rewrite E.
Qed.

(** The times at which sending to [k] was allowed. *)
Definition granted (k : Z * Z * Z * Z) (c : call) : list Z :=
  match c with
  | Attempt d now true => if bool_decide (dest_key d = k) then [now] else []
  | _ => []
  end.

(** A run during which [k] stays tracked, with the times of its attempts. *)
Inductive tracked_run (k : Z * Z * Z * Z) : world -> list Z -> world -> Prop :=
| run_nil w : tracked_run k w [] w
| run_cons w c w1 ts w2 :
    ctl_step w c w1 -> is_Some (tracked_in w1 k) -> tracked_run k w1 ts w2 ->
    tracked_run k w (granted k c ++ ts) w2.

(** Every time is at least the retry delay after the one before, on the
    32-bit clock. *)
Fixpoint spaced (t0 : Z) (ts : list Z) : Prop :=
  match ts with
  | [] => True
  | t :: ts => FORWARDING_RETRY_DELAY_MS <= u32 (t - t0) /\ spaced t ts
  end.

(** The last of the times, or [t0]. *)
Definition latest (t0 : Z) (ts : list Z) : Z := foldl (fun _ t => t) t0 ts.

(** What one step does to a destination that stays tracked. *)
Lemma step_tracked w c w' k last n :
  ctl_ok w -> ctl_step w c w' -> tracked_in w k = Some (last, n) -> is_Some (tracked_in w' k) ->
  (granted k c = [] /\ tracked_in w' k = Some (last, n)) \/
  exists now, granted k c = [now] /\ FORWARDING_RETRY_DELAY_MS <= u32 (now - last) /\
    n < MAX_FORWARDING_RETRIES /\ tracked_in w' k = Some (now, n + 1).
Proof.
  intros (t & ls & recs & Hc & Ht & Hst) Hstep Hk [x Hx].
  unfold tracked_in in *. rewrite Hc in Hk. simpl in Hk.
  destruct Hstep as [w d r w' He|w d w' He|w w' ls' recs' E Hs']; simpl.
  - destruct (attempt_decided _ _ _ _ _ _ _ He Hc Ht Hst) as (_ & t' & Hc' & -> & Hm & _).
    rewrite Hc' in *. simpl in *. set (now := u32 _) in *.
    destruct (decide (dest_key d = k)) as [<-|Ed];
      [rewrite (bool_decide_true (dest_key d = dest_key d)) by done
      |rewrite (bool_decide_false (dest_key d = k)) by done].
    + rewrite Hk in *. rewrite bool_decide_false in Hm by done. cbn [andb] in Hm.
      destruct Hm as (_ & Hm & _). rewrite Hx in Hm. unfold decision in *.
      destruct (Z.ltb_spec (u32 (now - last)) FORWARDING_RETRY_DELAY_MS); cbn [fst snd] in *.
      { left. by rewrite Hx, Hm. }
      destruct (Z.ltb_spec n MAX_FORWARDING_RETRIES); cbn [fst snd] in *; [|done].
      right. exists now. by rewrite Hx, Hm.
    + left. split; [by destruct (decision _ _).1|]. destruct (_ && _); [by subst|].
      destruct Hm as (_ & _ & Hm). by rewrite Hm.
  - destruct (remove_tracking_exec w t d Hc Ht) as (t' & He' & _ & Hd & Ho). rewrite He in He'.
    injection He' as ->. simpl in *. left. split; [done|].
    destruct (decide (k = dest_key d)) as [->|Hne]; [by rewrite Hd in Hx|by rewrite Ho].
  - left. rewrite E, Hc in *. by split.
Qed.

Lemma run_spaced k w ts w' last n :
  tracked_run k w ts w' -> ctl_ok w -> tracked_in w k = Some (last, n) ->
  n <= MAX_FORWARDING_RETRIES ->
  spaced last ts /\ n + Z.of_nat (length ts) <= MAX_FORWARDING_RETRIES /\
  tracked_in w' k = Some (latest last ts, n + Z.of_nat (length ts)).
Proof.
  intros Hrun. revert last n. induction Hrun as [w|w c w1 ts w2 Hstep Hs Hrun IH]; intros last n Hok Hk Hn.
  - simpl. rewrite Z.add_0_r. done.
  - pose proof (ctl_step_ok _ _ _ Hstep Hok) as Hok1.
    destruct (step_tracked _ _ _ _ _ _ Hok Hstep Hk Hs) as [[-> Hk1]|(now & -> & Hd & Hlt & Hk1)].
    + by apply IH.
    + destruct (IH now (n + 1) Hok1 Hk1 ltac:(lia)) as (H1 & H2 & H3).
      cbn [app length spaced]. rewrite Nat2Z.inj_succ. split_and!; [done|done|lia|].
      rewrite H3. f_equal. f_equal. lia.
Qed.
End runs.

(** ** Properties *)

(** The decision.  [should_attempt_forward] answers from the time and
    number of the attempts recorded for the destination (zones aside): a new
    destination is allowed and recorded, unless the table is full, when it is
    allowed and not recorded; within 30 s of the last attempt it is refused;
    after that it is allowed and counted, up to ten times; the next time it is
    refused, forgotten, and the oldest packet stored for it is released.  No
    other destination's record changes, and nothing else of the node does. *)
Theorem tracking_decision `{Env} w ls recs t d :
  w_controller w = Some t -> table_ok t -> stores w ls recs ->
  wp (should_attempt_forward d) w (fun r w' =>
    let now := u32 (env_now (w_tick w)) in
    let m := tracked t (dest_key d) in
    rest_but_controller w' = rest_but_controller w /\
    exists t', w_controller w' = Some t' /\ r = (decision m now).1 /\
      (if bool_decide (m = None) && table_full t then t' = t
       else map_after t t' (dest_key d) (decision m now).2) /\
      (if expired m now then dropped d ls recs w w' else same_store w w')).
Proof. intros. by apply (wp_should_attempt w ls recs t d). Qed.

(** C18: the table invariant (ten slots, no destination twice, one to ten
    attempts each) and the storage invariant hold in every world reachable
    from a fresh table by decisions, confirmations and any step that leaves
    the table alone; a confirmation forgets its destination and no other. *)
Theorem tracking_invariant `{Env} w w' ls recs :
  w_controller w = Some (replicate MAX_DESTINATIONS (mk_attempt ip6_addr_any 0 0 false)) ->
  stores w ls recs -> ctl_reach w w' ->
  exists t ls' recs', w_controller w' = Some t /\ table_ok t /\ stores w' ls' recs' /\
    forall d, exists t', dtn_controller_remove_tracking (Some d) w' = Ret (tt, set_controller (Some t') w') /\
      map_after t t' (dest_key d) None.
Proof.
  intros Hc Hst Hr. assert (Hok : ctl_ok w').
  { induction Hr as [w|w w1 c w2 _ IH Hstep]; [|by eapply ctl_step_ok; [|apply IH]].
    eexists _, _, _. split_and!; [exact Hc|apply table_ok_fresh|exact Hst]. }
  destruct Hok as (t & ls' & recs' & Hc' & Ht & Hst'). exists t, ls', recs'. split_and!; try done.
  intros d. by apply remove_tracking_exec.
Qed.

(** C17: bounded, spaced retries.  While a destination stays tracked, whatever
    else the node does in between, its allowed attempts are at least 30 s
    apart on the 32-bit millisecond clock and, with the ones already counted,
    never more than ten; the table records the last one and their number. *)
Theorem tracking_throttled `{Env} k w ts w' last n :
  ctl_ok w -> tracked_in w k = Some (last, n) -> n <= MAX_FORWARDING_RETRIES ->
  tracked_run k w ts w' ->
  spaced last ts /\ n + Z.of_nat (length ts) <= MAX_FORWARDING_RETRIES /\
  tracked_in w' k = Some (latest last ts, n + Z.of_nat (length ts)).
Proof. intros. by eapply run_spaced. Qed.

(** *** Concrete runs *)

(** A node with an empty storage that has tried [node2] once, at time 0. *)
Definition tried_table : DTN_Controller :=
  mk_attempt node2 0 1 true :: replicate 9 (mk_attempt ip6_addr_any 0 0 false).
Definition tried_world : world := set_controller (Some tried_table) (storage_world []).

Lemma tried_table_ok : table_ok tried_table.
Proof.
  split; [done| |].
  - apply (bool_decide_unpack _). by vm_compute.
  - constructor; [unfold MAX_FORWARDING_RETRIES; simpl; lia|]. by apply Forall_replicate.
Qed.

Lemma tried_world_ok : ctl_ok tried_world.
Proof.
  exists tried_table, [], []. split_and!; [done|apply tried_table_ok|].
  apply (same_store_stores (storage_world [])); [by split_and!|apply storage_world_stores].
Qed.

Lemma tracking_decision_witness :
  wp (@should_attempt_forward calm_env node2) tried_world (fun r w' =>
    rest_but_controller w' = rest_but_controller tried_world /\
    exists t', w_controller w' = Some t' /\ r = true /\
      map_after tried_table t' (dest_key node2) (Some (100000, 2)) /\ same_store tried_world w').
Proof.
  apply (@tracking_decision calm_env tried_world [] [] tried_table node2).
  - reflexivity.
  - apply tried_table_ok.
  - apply (same_store_stores (storage_world [])); [by split_and!|apply storage_world_stores].
Defined.

Definition fresh_world : world :=
  set_controller (Some (replicate MAX_DESTINATIONS (mk_attempt ip6_addr_any 0 0 false))) (storage_world []).

Lemma tracking_invariant_witness :
  exists t ls' recs', w_controller fresh_world = Some t /\ table_ok t /\ stores fresh_world ls' recs' /\
    forall d, exists t', dtn_controller_remove_tracking (Some d) fresh_world
                           = Ret (tt, set_controller (Some t') fresh_world) /\
      map_after t t' (dest_key d) None.
Proof.
  apply (@tracking_invariant calm_env fresh_world fresh_world [] []).
  - reflexivity.
  - apply (same_store_stores (storage_world [])); [by split_and!|apply storage_world_stores].
  - constructor.
Defined.

Definition retried_world : world :=
  match @should_attempt_forward calm_env node2 tried_world with
  | Ret (_, w') => w'
  | _ => tried_world
  end.

Lemma tracking_throttled_witness :
  spaced 0 [100000] /\ 1 + 1 <= 10 /\ tracked_in retried_world (dest_key node2) = Some (100000, 2).
Proof.
  apply (@tracking_throttled calm_env (dest_key node2) tried_world [100000] retried_world 0 1).
  - apply tried_world_ok.
  - by vm_compute.
  - unfold MAX_FORWARDING_RETRIES. lia.
  - apply (@run_cons calm_env (dest_key node2) tried_world (Attempt node2 100000 true) retried_world [] retried_world).
    + apply (@step_attempt calm_env). by vm_compute.
    + exists (100000, 2). by vm_compute.
    + constructor.
Defined.
