(* ===== verification/DtnIcmp.v ===== *)
(** * DTN control messages (src/dtn_icmpv6.c)

    Building and sending the four ICMPv6 status reports, and processing the
    ones that arrive.  Main results: the layout and checksum of a report and
    where it is sent, and the effect of a PCK-RECEIVED report on the storage
    and on the retry table. *)

From S2P Require Import Prelude LinkedList Ip6Addr World Pbuf Ip6Hdr Custody Storage StorageSpec InetChksum RawSocket Tracking Buffer.

Definition ICMP6_TYPE_DTN_PCK_RECEIVED : Z := 200.
Definition ICMP6_TYPE_DTN_PCK_FORWARDED : Z := 201.
Definition ICMP6_TYPE_DTN_PCK_DELIVERED : Z := 202.
Definition ICMP6_TYPE_DTN_PCK_DELETED : Z := 203.
Definition ICMP6_CODE_DTN_NO_INFO : Z := 0.
Definition ICMP6_CODE_DTN_NO_CONTACT : Z := 7.

(** [sizeof(struct icmp6_hdr)] and [sizeof(dtn_icmpv6_payload_t)], packed. *)
Definition SIZEOF_ICMP6_HDR : Z := 8.
Definition SIZEOF_DTN_PAYLOAD : Z := 9.

(** Fields of [dtn_icmpv6_payload_t], after the ICMPv6 header. *)
Definition OFF_TIMESTAMP : Z := SIZEOF_ICMP6_HDR.
Definition OFF_FRAGMENT : Z := SIZEOF_ICMP6_HDR + 4.
Definition OFF_PAYLOAD_LEN : Z := SIZEOF_ICMP6_HDR + 6.
Definition OFF_REASON : Z := SIZEOF_ICMP6_HDR + 8.
Definition OFF_ORIGINAL : Z := SIZEOF_ICMP6_HDR + SIZEOF_DTN_PAYLOAD.

Section dtn_icmpv6.
Context `{Env}.

(** The ICMPv6 header, the DTN payload and the quoted packet, into [q]. *)
Definition fill_message (q p : loc) (type code reason : Z) : M world unit :=
  pwrite q 0 [type];;
  pwrite q 1 [code];;
  pwrite q 4 (le_bytes 4 0);;
  now ← sys_now;
  pwrite q OFF_TIMESTAMP (le_bytes 4 now);;
  pwrite q OFF_FRAGMENT (le_bytes 2 0);;
  plen ← IP6H_PLEN p;
  pwrite q OFF_PAYLOAD_LEN (le_bytes 2 (lwip_htons plen));;
  pwrite q OFF_REASON [reason];;
  w ← get;
  quote ← lift (pbuf_copy_partial (w_pbufs w) (Some p) (IP6_HLEN + 8) 0);
  pwrite q OFF_ORIGINAL quote.

(** The custodian named in the packet, or else its source. *)
Definition report_destination (p : loc) : M world ip6_addr :=
  out ← stack_addr;
  r ← dtn_extract_custodian_option (Some p) (Some out);
  if negb r.1 then bs ← pread p OFF_SRC 16; mret (ip6_of_bytes bs)
  else lift (deref r.2).

Definition fill_checksum (q : loc) (src_addr dest_addr : ip6_addr) : M world unit :=
  pwrite q 2 (le_bytes 2 0);;
  nd ← pb_node q;
  w ← get;
  c ← lift (ip6_chksum_pseudo (w_pbufs w) (Some q) IP6_NEXTH_ICMP6 (pb_tot_len (n_val nd))
              src_addr dest_addr);
  pwrite q 2 (le_bytes 2 c).

(** The IPv6 header of a message of [plen] bytes, into [np]. *)
Definition fill_header (np : loc) (plen : Z) (src_addr dest_addr : ip6_addr) : M world unit :=
  IP6H_VTCFL_SET np 6 0 0;;
  IP6H_PLEN_SET np plen;;
  IP6H_NEXTH_SET np IP6_NEXTH_ICMP6;;
  IP6H_HOPLIM_SET np 255;;
  pwrite np OFF_SRC (ip6_bytes src_addr);;
  pwrite np OFF_DEST (ip6_bytes dest_addr).

(** From the message in [q] to the packet on the wire. *)
Definition send_complete (q : loc) (q_tot_len : Z) (src_addr dest_addr : ip6_addr) : M world err_t :=
  complete_pkt ← pbuf_alloc PBUF_IP (IP6_HLEN + q_tot_len) PBUF_RAM;
  match complete_pkt with
  | None => pbuf_free_m q;; mret ERR_MEM
  | Some cp =>
      fill_header cp q_tot_len src_addr dest_addr;;
      w ← get;
      msg ← lift (pbuf_copy_partial (w_pbufs w) (Some q) q_tot_len 0);
      pwrite cp IP6_HLEN msg;;
      if negb (Z.of_nat (length msg) =? q_tot_len) then
        pbuf_free_m q;; pbuf_free_m cp;; mret ERR_BUF
      else
        pbuf_free_m q;;
        r ← raw_socket_send_ipv6 cp dest_addr;
        let err := if r =? 0 then ERR_OK else ERR_IF in
        pbuf_free_m cp;;
        mret err
  end.

Definition dtn_icmpv6_send_message (nif : netif) (p : loc) (type code reason : Z) : M world err_t :=
  let datalen := SIZEOF_DTN_PAYLOAD + IP6_HLEN + 8 in
  qo ← pbuf_alloc PBUF_IP (SIZEOF_ICMP6_HDR + datalen) PBUF_RAM;
  match qo with
  | None => mret ERR_MEM
  | Some q =>
      fill_message q p type code reason;;
      src_addr ← lift (deref (ip6_addrs nif !! 1%nat));
      dest_addr ← report_destination p;
      fill_checksum q src_addr dest_addr;;
      qn ← pb_node q;
      send_complete q (pb_tot_len (n_val qn)) src_addr dest_addr
  end.

Definition dtn_icmpv6_send_pck_received (nif : netif) (p : loc) (code : Z) : M world unit :=
  dtn_icmpv6_send_message nif p ICMP6_TYPE_DTN_PCK_RECEIVED code 0;; mret tt.
Definition dtn_icmpv6_send_pck_forwarded (nif : netif) (p : loc) (code : Z) : M world unit :=
  dtn_icmpv6_send_message nif p ICMP6_TYPE_DTN_PCK_FORWARDED code 0;; mret tt.
Definition dtn_icmpv6_send_pck_delivered (nif : netif) (p : loc) (code : Z) : M world unit :=
  dtn_icmpv6_send_message nif p ICMP6_TYPE_DTN_PCK_DELIVERED code 0;; mret tt.
Definition dtn_icmpv6_send_pck_deleted (nif : netif) (p : loc) (code reason : Z) : M world unit :=
  dtn_icmpv6_send_message nif p ICMP6_TYPE_DTN_PCK_DELETED code reason;; mret tt.

(** What every case reads to log the message: code, timestamp and reason. *)
Definition log_message (p : loc) : M world unit :=
  _ ← pread8 p 1;
  _ ← pread p OFF_TIMESTAMP 4;
  _ ← pread8 p OFF_REASON;
  mret tt.

(** The forty bytes [extract_original_header] points to. *)
Definition extract_original_header (p : loc) : M world (list Z) := pread p OFF_ORIGINAL IP6_HLEN.

(** The report with an IPv6 header in front, for the storage to look up. *)
Definition confirm_stored (p : loc) (orig_ip6hdr : list Z) : M world unit :=
  nd ← pb_node p;
  let tot_len := pb_tot_len (n_val nd) in
  icmp_with_ipv6 ← pbuf_alloc PBUF_RAW (IP6_HLEN + tot_len) PBUF_RAM;
  match icmp_with_ipv6 with
  | Some ip =>
      w ← get;
      fill_header ip tot_len (w_cur_src w) (w_cur_dest w);;
      w ← get;
      msg ← lift (pbuf_copy_partial (w_pbufs w) (Some p) tot_len 0);
      pwrite ip IP6_HLEN msg;;
      (if Z.of_nat (length msg) =? tot_len
       then dtn_storage_delete_packet_by_icmp_data (Some ip)
       else dtn_storage_delete_packet_by_ip_header (Some orig_ip6hdr));;
      pbuf_free_m ip;;
      mret tt
  | None => dtn_storage_delete_packet_by_ip_header (Some orig_ip6hdr)
  end.

Definition dtn_icmpv6_process (p : option loc) : M world Z :=
  w ← get;
  match p, w_storage w, w_controller w with
  | Some pl, Some _, Some _ =>
      type ← pread8 pl 0;
      if type =? ICMP6_TYPE_DTN_PCK_RECEIVED then
        log_message pl;;
        orig_ip6hdr ← extract_original_header pl;
        confirm_stored pl orig_ip6hdr;;
        temp_addr ← pread pl (OFF_ORIGINAL + OFF_DEST) 16;
        dtn_controller_remove_tracking (Some (ip6_of_bytes temp_addr));;
        mret 1
      else if (type =? ICMP6_TYPE_DTN_PCK_FORWARDED) || (type =? ICMP6_TYPE_DTN_PCK_DELIVERED) ||
              (type =? ICMP6_TYPE_DTN_PCK_DELETED) then
        log_message pl;; mret 1
      else mret 0
  | _, _, _ => mret 0
  end.
End dtn_icmpv6.

(** ** The bytes of a report *)

Definition report_body (type code now reason : Z) (bs : list Z) (ck : Z) : list Z :=
  [type; code] ++ le_bytes 2 ck ++ [0; 0; 0; 0] ++ le_bytes 4 now ++ [0; 0] ++ be16 (hdr_plen bs) ++
  [reason] ++ take 48 bs.

Definition report_checksum (src dest : ip6_addr) (body : Z -> list Z) : Z :=
  65535 - oc (word_sum (pseudo_header src dest 65 58 ++ body 0)).

Definition report_icmp (type code now reason : Z) (bs : list Z) (src dest : ip6_addr) : list Z :=
  report_body type code now reason bs
    (report_checksum src dest (report_body type code now reason bs)).

Definition report (type code now reason : Z) (bs : list Z) (src dest : ip6_addr) : list Z :=
  [96; 0; 0; 0] ++ be16 65 ++ [58; 255] ++ ip6_bytes src ++ ip6_bytes dest ++
  report_icmp type code now reason bs src dest.

(** The node a report about the packet [bs] goes to. *)
Definition reported_to (c : option (list Z)) (bs : list Z) : ip6_addr :=
  match c with Some a => ip6_of_bytes a | None => hdr_src bs end.

Lemma filled_body F type code now reason bs ck :
  length F = 65%nat -> (48 <= length bs)%nat ->
  splice 2 (le_bytes 2 ck) (splice 17 (take 48 bs) (splice 16 [reason]
    (splice 14 (be16 (hdr_plen bs)) (splice 12 (le_bytes 2 0) (splice 8 (le_bytes 4 now)
      (splice 4 (le_bytes 4 0) (splice 1 [code] (splice 0 [type] F)))))))) =
  report_body type code now reason bs ck.
Proof.
  intros HF Hb. do 17 (destruct F as [|? F]; [done|]).
  assert (HF' : length F = 48%nat) by (simpl in HF; lia).
  unfold splice at 2. rewrite length_take, Nat.min_l by lia.
  unfold report_body. cbn. rewrite drop_0, take_0, (drop_ge F 48) by lia. by rewrite app_nil_r.
Qed.

Lemma filled_header F plen src dest :
  (40 <= length F)%nat ->
  splice 24 (ip6_bytes dest) (splice 8 (ip6_bytes src) (splice 7 [255] (splice 6 [58]
    (splice 4 (be16 plen) (splice 0 [96; 0; 0; 0] F))))) =
  [96; 0; 0; 0] ++ be16 plen ++ [58; 255] ++ ip6_bytes src ++ ip6_bytes dest ++ drop 40 F.
Proof. intros HF. do 40 (destruct F as [|? F]; [simpl in HF; lia|]). done. Qed.

Lemma report_body_length type code now reason bs ck :
  (48 <= length bs)%nat -> length (report_body type code now reason bs ck) = 65%nat.
Proof. intros. unfold report_body. rewrite !length_app, length_take, Nat.min_l by lia. done. Qed.

Lemma report_body_fill type code now reason bs ck :
  splice 2 (le_bytes 2 ck) (report_body type code now reason bs 0) = report_body type code now reason bs ck.
Proof. done. Qed.

Lemma report_body_byte type code now reason bs ck :
  is_byte type -> is_byte code -> is_byte reason -> Forall is_byte bs ->
  Forall is_byte (report_body type code now reason bs ck).
Proof.
  intros. unfold report_body. rewrite !Forall_app. split_and!; auto with ints; try by repeat constructor.
  all: try (repeat constructor; unfold is_byte; lia). by apply Forall_take.
Qed.

(** Same node up to the zone: the zone never reaches the wire. *)
Lemma socket_for_zone r z d : socket_for r (ip6_addr_set_zone z d) = socket_for r d.
Proof. done. Qed.
Lemma chksum_zone h p proto n src z d :
  ip6_chksum_pseudo h p proto n src (ip6_addr_set_zone z d) = ip6_chksum_pseudo h p proto n src d.
Proof. done. Qed.

Lemma custodian_in_wf bs a :
  Forall is_byte bs -> custodian_in bs = Ret (Some a) -> length a = 16%nat /\ Forall is_byte a.
Proof.
  intros Hb. unfold custodian_in. intros ([n ptr] & _ & E)%obind_ret. cbn [fst snd] in E.
  destruct (negb (n =? _)); [done|]. apply obind_ret in E as (ty & _ & E).
  destruct (negb (ty =? _)); [done|]. apply obind_ret in E as (dl & _ & E).
  destruct (negb (dl =? _)); [done|]. apply obind_ret in E as (x & Hx & [= ->]).
  unfold rd in Hx. destruct (_ && _ && _) eqn:Ei; [|done]. injection Hx as <-.
  apply andb_true_iff in Ei as [[?%Z.leb_le _]%andb_true_iff ?%Z.leb_le].
  split; [rewrite length_slice; lia|by apply Forall_slice].
Qed.

Section filling.
Context `{Env} (w0 : world) (p : loc) (b : pbuf) (bs : list Z).
Context (Hs : single (w_pbufs w0) p b bs) (Hl : (48 <= length bs)%nat).
Context (q : loc) (bq : pbuf) (Hne : q <> p).
Context (type code reason : Z) (Ht : is_byte type) (Hco : is_byte code) (Hre : is_byte reason).

Lemma wp_fill_message k F w Q :
  buffer_is w0 k q bq F w -> pb_len bq = 65 ->
  (forall w' G,
     (forall ck, splice 2 (le_bytes 2 ck) G =
                 report_body type code (u32 (env_now (k + w_tick w0))) reason bs ck) ->
     buffer_is w0 (S k) q bq G w' -> Q tt w') ->
  wp (fill_message q p type code reason) w Q.
Proof.
  intros Hb HF HQ. pose proof (single_bytes _ _ _ _ Hs) as Hbb.
  pose proof (buffer_len _ _ _ _ _ _ Hb) as HF'. unfold fill_message.
  do 3 write_field Hb. pose proof (buffer_ticks _ _ _ _ _ _ Hb) as Hk.
  apply wp_bind, wp_now. apply buffer_tick in Hb.
  do 2 write_field Hb.
  apply wp_bind. eapply wp_exec;
    [apply (IP6H_PLEN_exec _ b bs); [by eapply buffer_other|lia]|].
  do 2 write_field Hb.
  apply wp_bind, wp_get, wp_bind. eapply wp_lift;
    [eapply (pbuf_copy_partial_ok _ p [(p, b)] bs); [|done|done];
     apply single_pkt; by eapply buffer_other|].
  change (slice (Z.to_nat 0) (Z.to_nat (IP6_HLEN + 8)) bs) with (take 48 bs).
  eapply wp_buffer_write; [exact Hb|by apply Forall_take|done|
    rewrite length_take, HF; unfold OFF_ORIGINAL, SIZEOF_ICMP6_HDR, SIZEOF_DTN_PAYLOAD; lia|].
  clear Hb. intros ? Hb. eapply HQ; [|exact Hb]. intros ck.
  rewrite <-(filled_body F type code _ reason bs ck) by lia. by rewrite Hk.
Qed.

Lemma wp_report_destination k c G w Q :
  buffer_is w0 k q bq G w -> custodian_in bs = Ret c ->
  (forall z, buffer_is w0 (S k) q bq G (add_ticks 1 w) ->
     Q (ip6_addr_set_zone z (reported_to c bs)) (add_ticks 1 w)) ->
  wp (report_destination p) w Q.
Proof.
  intros Hb Hc HQ. apply buffer_tick in Hb. unfold report_destination.
  apply wp_bind. eapply wp_exec; [done|]. set (out := env_stack_addr (w_tick w)).
  assert (Hs' : single (w_pbufs (add_ticks 1 w)) p b bs) by (by eapply buffer_other).
  apply wp_bind. eapply wp_exec; [apply (extract_exec _ _ _ (single_readable _ _ _ _ Hs') out c); [lia|done]|].
  destruct c as [a|]; cbn [fst snd negb].
  - eapply wp_lift; [done|]. by apply HQ.
  - apply wp_bind. eapply wp_exec; [apply (pread_exec _ _ _ _ OFF_SRC 16 Hs'); unfold OFF_SRC; lia|].
    apply wp_ret. by apply (HQ 0).
Qed.

Lemma wp_fill_checksum k (body : Z -> list Z) G src dest w Q :
  buffer_is w0 k q bq G w -> pb_len bq = 65 -> pb_tot_len bq = 65 -> ip6_wf src -> ip6_wf dest ->
  (forall ck, splice 2 (le_bytes 2 ck) G = body ck) ->
  (forall ck, splice 2 (le_bytes 2 ck) (body 0) = body ck) ->
  (forall w', buffer_is w0 k q bq (body (report_checksum src dest body)) w' -> Q tt w') ->
  wp (fill_checksum q src dest) w Q.
Proof.
  intros Hb HF HT Hsw Hdw HG Hbd HQ. unfold fill_checksum. write_field Hb.
  change (Z.to_nat 2) with 2%nat in Hb. rewrite HG in Hb.
  pose proof (buffer_single _ _ _ _ _ _ Hb) as (b' & Hs' & Hr').
  apply wp_bind. eapply wp_exec; [by eapply pb_node_exec|].
  apply wp_bind, wp_get, wp_bind. eapply wp_lift.
  { destruct Hr' as [Hr' _]. cbn [n_val]. rewrite Hr'. cbn [pb_tot_len with_buf]. rewrite HT.
    apply (chksum_pseudo_eq _ q [(q, b')]); [by apply single_pkt|done|done|done|done]. }
  eapply wp_buffer_write; [exact Hb|apply le_bytes_byte|done|rewrite HF; by vm_compute|].
  change (Z.to_nat 2) with 2%nat. rewrite Hbd. exact HQ.
Qed.
End filling.

Lemma wp_fill_header w0 k np b F plen src dest w Q :
  buffer_is w0 k np b F w -> 40 <= pb_len b ->
  (forall w', buffer_is w0 k np b
     ([96; 0; 0; 0] ++ be16 plen ++ [58; 255] ++ ip6_bytes src ++ ip6_bytes dest ++ drop 40 F) w' -> Q tt w') ->
  wp (fill_header np plen src dest) w Q.
Proof.
  intros Hb HF HQ. pose proof (buffer_len _ _ _ _ _ _ Hb) as HF'.
  assert (Forall is_byte [58] /\ Forall is_byte [255]) as [H58 H255]
    by (split; apply Forall_singleton; unfold is_byte; lia).
  unfold fill_header, IP6H_VTCFL_SET, IP6H_PLEN_SET, IP6H_NEXTH_SET, IP6H_HOPLIM_SET.
  do 2 write_field Hb.
  apply wp_bind. eapply wp_buffer_write; [exact Hb|exact H58|done|etransitivity; [|exact HF]; by vm_compute|].
  clear Hb. intros ? Hb.
  apply wp_bind. eapply wp_buffer_write; [exact Hb|exact H255|done|etransitivity; [|exact HF]; by vm_compute|].
  clear Hb. intros ? Hb. write_field Hb.
  eapply wp_buffer_write; [exact Hb|apply ip6_bytes_byte|done|etransitivity; [|exact HF]; by vm_compute|].
  clear Hb. intros ? Hb. apply HQ. rewrite <-(filled_header F) by lia. exact Hb.
Qed.

(** One buffer, or two, that came and went. *)
Lemma one_released w q bq j k :
  w_pbufs w !! q = None ->
  set_pbufs (delete q) (add_ticks k (put_pbuf q bq (add_ticks j w))) = add_ticks (k + j) w.
Proof.
  intros Hq. apply world_eq; try reflexivity; simpl; [|lia]. by apply delete_insert_id.
Qed.

Lemma two_released w q bq cp bc es n k j :
  w_pbufs w !! q = None -> w_pbufs w !! cp = None -> q <> cp ->
  set_pbufs (delete cp) (logged es n (set_pbufs (delete q)
    (put_pbuf cp bc (add_ticks k (put_pbuf q bq (add_ticks j w)))))) = logged es (n + k + j) w.
Proof.
  intros Hq Hc Hne. apply world_eq; try reflexivity; simpl; [|lia].
  rewrite delete_insert_ne by done.
  rewrite delete_insert_id by (by rewrite lookup_delete_ne, lookup_insert_ne).
  by apply delete_insert_id.
Qed.

(** The message behind the header. *)
Lemma complete_bytes plen src dest F m :
  (length F = 40 + length m)%nat ->
  splice (Z.to_nat IP6_HLEN) m
    ([96; 0; 0; 0] ++ be16 plen ++ [58; 255] ++ ip6_bytes src ++ ip6_bytes dest ++ drop 40 F) =
  [96; 0; 0; 0] ++ be16 plen ++ [58; 255] ++ ip6_bytes src ++ ip6_bytes dest ++ m.
Proof.
  intros HF. change ([96; 0; 0; 0] ++ be16 plen ++ [58; 255] ++ ip6_bytes src ++ ip6_bytes dest ++ drop 40 F)
    with (([96; 0; 0; 0] ++ be16 plen ++ [58; 255] ++ ip6_bytes src ++ ip6_bytes dest) ++ drop 40 F).
  rewrite splice_app_r by done. rewrite splice_0_all; [done|]. rewrite length_drop. lia.
Qed.

Lemma wp_complete `{Env} w k q bq m src dest Q :
  let w1 := put_pbuf q bq (add_ticks k w) in
  single (w_pbufs w1) q bq m -> length m = 65%nat -> pb_ref bq = 1 -> w_pbufs w !! q = None ->
  (forall k, (exists t, env_mem_malloc t = false) -> Q ERR_MEM (add_ticks k w)) ->
  (forall r es n,
     send_outcome (w_raw w) (S k + w_tick w) dest
       ([96; 0; 0; 0] ++ be16 65 ++ [58; 255] ++ ip6_bytes src ++ ip6_bytes dest ++ m) = (r, es, n) ->
     Q (if r =? 0 then ERR_OK else ERR_IF) (logged es (n + S k) w)) ->
  wp (send_complete q 65 src dest) w1 Q.
Proof.
  intros w1 Hs Hm Hr Hq Hmem HQ. unfold send_complete.
  apply wp_bind, wp_alloc_ram; [by right|by vm_compute| |].
  { intros Hno. apply wp_bind. eapply wp_exec; [eapply pbuf_free_m_exec; [exact Hs|done]|].
    apply wp_ret. unfold w1. rewrite (one_released w q bq k 1) by done. apply Hmem. by eexists. }
  set (cp := new_loc (w_pbufs w1)). intros bc F w2 _ HF Hrc Hb.
  pose proof (buffer_len _ _ _ _ _ _ Hb) as Hlc. pose proof (new_loc_fresh (w_pbufs w1)) as Hfr.
  fold cp in Hfr. unfold w1 in Hfr. cbn [w_pbufs put_pbuf set_pbufs add_ticks] in Hfr.
  assert (Hqc : q <> cp) by (intros E; by rewrite <-E, lookup_insert_eq in Hfr).
  rewrite lookup_insert_ne in Hfr by done. change (IP6_HLEN + 65) with 105 in *.
  apply wp_bind. eapply wp_fill_header; [exact Hb|lia|]. clear Hb. intros w3 Hb.
  apply wp_bind, wp_get, wp_bind. eapply wp_lift.
  { change 65 with (Z.of_nat 65). rewrite <-Hm. apply (pbuf_copy_out _ q [(q, bq)]), single_pkt.
    by eapply buffer_other. }
  pose proof (single_bytes _ _ _ _ Hs) as Hmb.
  apply wp_bind. eapply wp_buffer_write; [exact Hb|done|done|unfold IP6_HLEN; lia|].
  clear Hb. intros w4 Hb. rewrite Hm. cbn [negb Z.eqb Z.of_nat]. change (negb _) with false. cbv iota.
  rewrite complete_bytes in Hb by lia.
  destruct Hb as (b4 & -> & Hs4 & Hr4). pose proof (refilled_fields _ _ Hr4) as (Hrf4 & _).
  apply wp_bind. eapply wp_exec; [eapply pbuf_free_m_exec; [by apply single_put_ne|done]|].
  destruct (send_outcome (w_raw w) (S k + w_tick w) dest
    ([96; 0; 0; 0] ++ be16 65 ++ [58; 255] ++ ip6_bytes src ++ ip6_bytes dest ++ m)) as [[r es] n] eqn:E.
  apply wp_bind. eapply wp_exec.
  { etransitivity; [eapply (raw_send_exec _ cp [(cp, b4)]), single_pkt, single_delete_ne; [done|exact Hs4]|].
    cbn [w_raw w_tick set_pbufs put_pbuf add_ticks w1]. change (1 + (k + w_tick w))%nat with (S k + w_tick w)%nat.
    rewrite E. reflexivity. }
  apply wp_bind. eapply wp_exec.
  { eapply (pbuf_free_m_exec cp b4); [by apply single_delete_ne|congruence]. }
  apply wp_ret. unfold w1. rewrite two_released by done.
  replace (n + 1 + k)%nat with (n + S k)%nat by lia. by apply HQ.
Qed.

Section sending_reports.
Context `{Env} (nif : netif) (w : world) (p : loc) (b : pbuf) (bs : list Z).
Context (Hs : single (w_pbufs w) p b bs) (Hl : (48 <= length bs)%nat).
Context (c : option (list Z)) (Hc : custodian_in bs = Ret c).
Context (src : ip6_addr) (Hsrc : ip6_addrs nif !! 1%nat = Some src) (Hsw : ip6_wf src).
Context (type code reason : Z) (Ht : is_byte type) (Hco : is_byte code) (Hre : is_byte reason).

Lemma reported_to_wf : ip6_wf (reported_to c bs).
Proof.
  pose proof (single_bytes _ _ _ _ Hs) as Hb. destruct c as [a|]; simpl.
  - destruct (custodian_in_wf bs a Hb Hc). by apply ip6_of_bytes_wf.
  - apply ip6_of_bytes_wf; [rewrite length_slice; lia|by apply Forall_slice].
Qed.

(** The report the node sends about [bs]. *)
Definition the_report : list Z :=
  report type code (u32 (env_now (1 + w_tick w))) reason bs src (reported_to c bs).

Lemma wp_send_message Q :
  (forall k, (exists t, env_mem_malloc t = false) -> Q ERR_MEM (add_ticks k w)) ->
  (forall r es n, send_outcome (w_raw w) (4 + w_tick w) (reported_to c bs) the_report = (r, es, n) ->
     Q (if r =? 0 then ERR_OK else ERR_IF) (logged es (n + 4) w)) ->
  wp (dtn_icmpv6_send_message nif p type code reason) w Q.
Proof.
  intros Hmem HQ. unfold dtn_icmpv6_send_message.
  apply wp_bind, wp_alloc_ram; [by right|by vm_compute|intros Hno; apply wp_ret, (Hmem 1%nat); by eexists|].
  set (q := new_loc (w_pbufs w)). intros bq F w1 _ HF Hrq Hb.
  assert (Hne : q <> p) by (by eapply new_loc_ne).
  pose proof (buffer_len _ _ _ _ _ _ Hb) as Hlq. rewrite HF in Hlq. symmetry in Hlq.
  change (SIZEOF_ICMP6_HDR + (SIZEOF_DTN_PAYLOAD + IP6_HLEN + 8)) with 65 in *.
  apply wp_bind. eapply (wp_fill_message w p b bs Hs Hl); try done. clear Hb. intros w2 G HG Hb.
  apply wp_bind. eapply wp_lift; [by rewrite Hsrc|].
  apply wp_bind. eapply (wp_report_destination w p b bs Hs Hl); try done. clear Hb. intros z Hb.
  set (dest := ip6_addr_set_zone z (reported_to c bs)).
  assert (Htq : pb_tot_len bq = 65).
  { destruct Hb as (b' & _ & (_ & _ & Htl & _) & [Hr _]). rewrite Hr in Htl. simpl in Htl. lia. }
  apply wp_bind. eapply (wp_fill_checksum w q bq _ _ _ src dest); try done; [apply reported_to_wf|].
  clear Hb w1 w2 HG G. intros w2 Hb. change (report_checksum src dest) with
    (report_checksum src (reported_to c bs)) in Hb.
  fold (report_icmp type code (u32 (env_now (1 + w_tick w))) reason bs src (reported_to c bs)) in Hb.
  destruct Hb as (b2 & -> & Hs2 & Hr2).
  pose proof (refilled_fields _ _ Hr2) as (Hrf2 & _ & Htl2 & _).
  apply wp_bind. eapply wp_exec; [by eapply pb_node_exec|]. cbn [n_val].
  rewrite Htl2, Htq.
  apply (wp_complete w 3 q b2 (report_icmp type code (u32 (env_now (1 + w_tick w))) reason bs src
           (reported_to c bs)) src dest); [exact Hs2|by apply report_body_length|congruence| |exact Hmem|].
  - apply new_loc_fresh.
  - intros r es n E. apply HQ. exact E.
Qed.
End sending_reports.

(** ** Processing a confirmation *)

(** The packet a report quotes. *)
Definition quoted_packet (m : list Z) : list Z := drop 17 m.

(** What the comparison with a stored packet uses: the protocol behind a quoted
    custody header, and the number of payload bytes, eight less the length of
    that header in a [u8_t]. *)
Definition quoted_proto (m : list Z) : Z :=
  if hdr_nexth (quoted_packet m) =? 0 then byte_at 40 (quoted_packet m) else hdr_nexth (quoted_packet m).
Definition compared (m : list Z) : Z :=
  u8 (8 - (if hdr_nexth (quoted_packet m) =? 0 then u16 ((byte_at 41 (quoted_packet m) + 1) * 8) else 0)).

(** The stored packets the report [m] confirms: the same source and protocol,
    and the same first payload bytes where they are that long. *)
Definition confirms (m : list Z) : stored_rec -> bool :=
  rec_quote_matches (slice 8 16 (quoted_packet m)) (quoted_proto m) (compared m) (slice 40 8 (quoted_packet m)).

(** The comparison stays inside the report: there are bytes to compare, and when
    the quoted packet has a custody header no stored packet of its source is as
    long as the wrapped-around count. *)
Definition confirmable (m : list Z) (recs : list stored_rec) : Prop :=
  compared m <> 0 /\
  (hdr_nexth (quoted_packet m) = 0 ->
   Forall (fun r => same_source (slice 8 16 (quoted_packet m)) r = true ->
             Z.of_nat (length (r_data r)) < 40 + compared m) recs).

Lemma confirmable_plain m recs : hdr_nexth (quoted_packet m) <> 0 -> confirmable m recs.
Proof. intros Hn. split; [|done]. unfold compared. by rewrite (proj2 (Z.eqb_neq _ 0) Hn). Qed.

(** A quoted custody header of this node's own format: 24 bytes. *)
Lemma confirmable_custody m recs :
  hdr_nexth (quoted_packet m) = 0 -> byte_at 41 (quoted_packet m) = 2 ->
  Forall (fun r => Z.of_nat (length (r_data r)) < 280) recs -> confirmable m recs.
Proof.
  intros Hn H2 Hr. assert (E : compared m = 240) by (unfold compared; by rewrite Hn, H2).
  split; rewrite E; [done|]. intros _. eapply Forall_impl; [exact Hr|]. simpl. lia.
Qed.

(** The first record that satisfies [g], if any, is gone, and nothing else of
    the packets, the entries and the storage has changed. *)
Definition removed_first (g : stored_rec -> bool) (ls : list (loc * Stored_Packet_Entry)) recs
    (w w' : world) : Prop :=
  match take_first g recs with
  | None => same_store w w'
  | Some (rc, recs') => exists ls' p', stores w' ls' recs' /\ ls' `sublist_of` ls /\
      Some p' ∈ entry_pbufs ls /\ w_pbufs w' = delete p' (w_pbufs w)
  end.

Section confirming.
Context `{Env} (w : world) (ls : list (loc * Stored_Packet_Entry)) (recs : list stored_rec).
Context (Hst : stores w ls recs).

Lemma fresh_not_stored q : w_pbufs w !! q = None -> Some q ∉ entry_pbufs ls.
Proof.
  intros Hq Hin. destruct (entries_rep_live _ _ _ _ (st_recs _ _ _ Hst) Hin). congruence.
Qed.

Lemma buffer_stores k q b G w' :
  w_pbufs w !! q = None -> buffer_is w k q b G w' -> stores w' ls recs.
Proof.
  intros Hq (b' & -> & _). destruct Hst as [Hl Hb Hr Hd]. split; [done|done| |done].
  by apply entries_rep_fresh.
Qed.

(** Deleting with the help of a buffer that is released afterwards. *)
Lemma delete_with_buffer k q b G w1 g (act : M world unit) Q :
  w_pbufs w !! q = None -> buffer_is w k q b G w1 -> pb_ref b = 1 ->
  (exists w2, act w1 = Ret (tt, w2) /\ deleted_first g ls recs w1 w2) ->
  (forall w', rest_of w' = rest_of w -> removed_first g ls recs w w' -> Q tt w') ->
  wp (act;; pbuf_free_m q;; mret tt) w1 Q.
Proof.
  intros Hq Hb Hr (w2 & Hact & Hrest & Hdel) HQ. apply wp_bind. eapply wp_exec; [exact Hact|].
  pose proof (fresh_not_stored q Hq) as Hni.
  destruct Hb as (b1 & -> & Hs1 & Hr1). pose proof (refilled_fields _ _ Hr1) as (Hrf & _).
  unfold removed_first in HQ. destruct (take_first g recs) as [[rc recs']|].
  - destruct Hdel as (ls' & p' & Hst2 & Hsub & Hp2 & Hin & _).
    assert (Hne : q <> p') by (intros ->; done).
    apply wp_bind. eapply wp_exec.
    { eapply (pbuf_free_m_exec q b1 G); [|congruence]. rewrite Hp2. by apply single_delete_ne. }
    apply wp_ret. apply HQ.
    { exact Hrest. }
    exists ls', p'. split_and!; [|done|done|].
    + destruct Hst2 as [Hl Hbd HF Hd]. split; [done|done| |done].
      eapply entries_rep_frame; [|exact HF]. intros x Hx. simpl. apply lookup_delete_ne.
      intros ->. apply Hni. eapply elem_of_submseteq; [exact Hx|].
      apply sublist_submseteq. by apply fmap_sublist.
    + simpl. rewrite Hp2. simpl. rewrite delete_delete. f_equal. by apply delete_insert_id.
  - subst w2. apply wp_bind. eapply wp_exec; [eapply (pbuf_free_m_exec q b1 G); [done|congruence]|].
    apply wp_ret. apply HQ; [done|]. split_and!; [|done..]. simpl. by apply delete_insert_id.
Qed.
End confirming.

Lemma log_exec w p b m :
  single (w_pbufs w) p b m -> (17 <= length m)%nat -> log_message p w = Ret (tt, w).
Proof.
  intros Hs Hl. unfold log_message.
  exec (pread8_exec _ _ _ _ 1 Hs ltac:(lia)).
  exec (pread_exec _ _ _ _ OFF_TIMESTAMP 4 Hs ltac:(done) ltac:(lia) ltac:(unfold OFF_TIMESTAMP, SIZEOF_ICMP6_HDR; lia)).
  by exec (pread8_exec _ _ _ _ OFF_REASON Hs ltac:(unfold OFF_REASON, SIZEOF_ICMP6_HDR; lia)).
Qed.

Section processing.
Context `{Env} (w : world) (ls : list (loc * Stored_Packet_Entry)) (recs : list stored_rec).
Context (Hst : stores w ls recs).
Context (p : loc) (b : pbuf) (m : list Z) (Hs : single (w_pbufs w) p b m).
Context (Hp : Some p ∉ entry_pbufs ls).
Context (Hlen : (65 <= length m)%nat) (Hmax : Z.of_nat (length m) <= 2048).
Context (Hnx : confirmable m recs).
Context (Hno : no_hbh_from (slice 8 16 (quoted_packet m)) recs).

(** Which records a report removes depends on whether the node found memory
    to build the lookup packet; without it only the addresses count. *)
Definition confirmed_by : stored_rec -> bool :=
  if env_mem_malloc (w_tick w) then confirms m
  else rec_header_matches (slice 17 40 m).

(** The quote inside the packet with its IPv6 header. *)
Lemma quote_behind hdr :
  length hdr = 40%nat ->
  quote_src (hdr ++ m) = slice 8 16 (quoted_packet m) /\
  quote_nexth (hdr ++ m) = hdr_nexth (quoted_packet m) /\
  quote_payload (hdr ++ m) = slice 40 8 (quoted_packet m) /\
  quote_proto (hdr ++ m) = quoted_proto m /\ quote_count (hdr ++ m) = compared m.
Proof.
  intros Hh. assert (Hb : forall i, byte_at (57 + i) (hdr ++ m) = byte_at i (quoted_packet m)).
  { intros i. unfold byte_at, quoted_packet. rewrite app_nth2, nth_skipn by lia. f_equal. lia. }
  pose proof (Hb 6%nat) as B6. pose proof (Hb 40%nat) as B40. pose proof (Hb 41%nat) as B41. cbn in B6, B40, B41.
  unfold quote_proto, quoted_proto, quote_count, compared, quote_nexth, hdr_nexth. rewrite B6, B40, B41.
  split_and!; [|done| |done|done]; unfold quote_src, quote_payload, quoted_packet, slice;
    rewrite drop_app_ge, Hh, drop_drop by lia; done.
Qed.

Lemma wp_confirm_stored Q :
  (forall w', rest_of w' = rest_of w -> removed_first confirmed_by ls recs w w' -> Q tt w') ->
  wp (confirm_stored p (slice 17 40 m)) w Q.
Proof.
  intros HQ. unfold confirm_stored, confirmed_by in *. pose proof (single_length _ _ _ _ Hs) as Hpl.
  assert (Htot : pb_tot_len b = Z.of_nat (length m)) by (destruct Hs as (_ & _ & -> & _); done).
  apply wp_bind. eapply wp_exec; [by eapply pb_node_exec|]. cbn [n_val]. rewrite Htot.
  apply wp_bind, wp_alloc_ram; [by left|unfold IP6_HLEN; lia| |].
  - intros Hmem. rewrite Hmem in HQ.
    destruct (delete_by_header_spec (add_ticks 1 w) ls recs (slice 17 40 m)) as (w2 & He & Hr & Hd);
      [by apply (same_store_stores w)|].
    eapply wp_exec; [exact He|]. apply HQ; [done|]. unfold removed_first.
    destruct (take_first _ recs) as [[rc recs']|]; [|by subst w2].
    destruct Hd as (ls' & p' & ? & ? & ? & ? & _). by exists ls', p'.
  - set (q := new_loc (w_pbufs w)). intros bq F w1 Hmem HF Hrq Hb. rewrite Hmem in HQ.
    pose proof (buffer_len _ _ _ _ _ _ Hb) as Hlq.
    assert (Hne : q <> p) by (by eapply new_loc_ne).
    apply wp_bind, wp_get, wp_bind. eapply wp_fill_header; [exact Hb|unfold IP6_HLEN in *; lia|].
    clear Hb. intros w2 Hb. apply wp_bind, wp_get, wp_bind.
    eapply wp_lift; [eapply (pbuf_copy_out _ p [(p, b)]), single_pkt; by eapply buffer_other|].
    apply wp_bind. eapply wp_buffer_write; [exact Hb|by eapply single_bytes|done|unfold IP6_HLEN in *; lia|].
    clear Hb. intros w3 Hb. rewrite complete_bytes in Hb by (unfold IP6_HLEN in *; lia).
    rewrite Z.eqb_refl. pose proof (new_loc_fresh (w_pbufs w)) as Hfr. fold q in Hfr.
    eapply (delete_with_buffer w ls recs Hst _ q bq _ _ (confirms m)); [done|exact Hb|done| |done].
    pose proof (buffer_single _ _ _ _ _ _ Hb) as (b3 & Hs3 & _).
    set (hdr := [96; 0; 0; 0] ++ be16 (Z.of_nat (length m)) ++ [58; 255] ++
                ip6_bytes (w_cur_src w1) ++ ip6_bytes (w_cur_dest w1)).
    destruct (quote_behind hdr eq_refl) as (E1 & E2 & E3 & E5 & E4). destruct Hnx as [Hn0 Hlong].
    change ([96; 0; 0; 0] ++ be16 (Z.of_nat (length m)) ++ [58; 255] ++
            ip6_bytes (w_cur_src w1) ++ ip6_bytes (w_cur_dest w1) ++ m) with (hdr ++ m) in *.
    unfold confirms. rewrite <-E5, <-E4, <-E1, <-E3.
    apply (delete_by_icmp_spec w3 ls recs q b3); [by eapply buffer_stores|done| |by rewrite E4|by rewrite E1|].
    + rewrite length_app. change (length hdr) with 40%nat. lia.
    + by rewrite E1, E2, E4.
Qed.

Context (t : DTN_Controller) (Hc : w_controller w = Some t) (Hok : table_ok t).

Lemma wp_process_received Q :
  byte_at 0 m = ICMP6_TYPE_DTN_PCK_RECEIVED ->
  (forall w' t', rest_but_controller w' = rest_but_controller w -> w_controller w' = Some t' ->
     map_after t t' (dest_key (hdr_dest (quoted_packet m))) None ->
     removed_first confirmed_by ls recs w w' -> single (w_pbufs w') p b m -> Q 1 w') ->
  wp (dtn_icmpv6_process (Some p)) w Q.
Proof.
  intros Hty HQ. unfold dtn_icmpv6_process. apply wp_bind, wp_get.
  destruct (st_list _ _ _ Hst) as (st & Hw & _). rewrite Hw, Hc.
  apply wp_bind. eapply wp_exec; [apply (pread8_exec _ _ _ _ 0 Hs); lia|].
  change (Z.to_nat 0) with 0%nat. rewrite Hty, Z.eqb_refl.
  apply wp_bind. eapply wp_exec; [eapply log_exec; [exact Hs|lia]|].
  apply wp_bind. eapply wp_exec;
    [apply (pread_exec _ _ _ _ OFF_ORIGINAL IP6_HLEN Hs); unfold OFF_ORIGINAL, IP6_HLEN,
       SIZEOF_ICMP6_HDR, SIZEOF_DTN_PAYLOAD; lia|].
  apply wp_bind, wp_confirm_stored. intros w1 Hr1 Hrm.
  assert (Hs1 : single (w_pbufs w1) p b m).
  { unfold removed_first in Hrm. destruct (take_first confirmed_by recs) as [[rc recs']|].
    - destruct Hrm as (ls' & p' & _ & _ & Hin & ->). apply single_delete_ne; [|done]. by intros ->.
    - by destruct Hrm as (-> & _). }
  apply wp_bind. eapply wp_exec;
    [apply (pread_exec _ _ _ _ (OFF_ORIGINAL + OFF_DEST) 16 Hs1); unfold OFF_ORIGINAL, OFF_DEST,
       SIZEOF_ICMP6_HDR, SIZEOF_DTN_PAYLOAD; lia|].
  apply rest_of_split in Hr1 as [Hc1 Hr1]. rewrite Hc in Hc1.
  replace (ip6_of_bytes _) with (hdr_dest (quoted_packet m))
    by (unfold hdr_dest, quoted_packet, slice; by rewrite drop_drop).
  destruct (remove_tracking_exec w1 t (hdr_dest (quoted_packet m)) Hc1 Hok) as (t' & He & Hm).
  apply wp_bind. eapply wp_exec; [exact He|]. apply wp_ret. eapply HQ; [exact Hr1|done|done| |exact Hs1].
  unfold removed_first in *. destruct (take_first confirmed_by recs) as [[rc recs']|]; [|done].
  destruct Hrm as (ls' & p' & Hst1 & ?). exists ls', p'. split; [|done]. by apply (same_store_stores w1).
Qed.
End processing.

(** Reports of the other types are only logged; other messages are refused. *)
Lemma process_other_exec `{Env} w p b m st t :
  w_storage w = Some st -> w_controller w = Some t ->
  single (w_pbufs w) p b m -> (17 <= length m)%nat -> byte_at 0 m <> ICMP6_TYPE_DTN_PCK_RECEIVED ->
  dtn_icmpv6_process (Some p) w = Ret (if (201 <=? byte_at 0 m) && (byte_at 0 m <=? 203) then 1 else 0, w).
Proof.
  intros Hw Hc Hs Hl Hne. unfold dtn_icmpv6_process.
  rewrite (bind_exec get _ w w w) by done. rewrite Hw, Hc.
  exec (pread8_exec _ _ _ _ 0 Hs ltac:(lia)). change (Z.to_nat 0) with 0%nat.
  rewrite (proj2 (Z.eqb_neq _ _) Hne).
  unfold ICMP6_TYPE_DTN_PCK_FORWARDED, ICMP6_TYPE_DTN_PCK_DELIVERED, ICMP6_TYPE_DTN_PCK_DELETED.
  destruct ((byte_at 0 m =? 201) || (byte_at 0 m =? 202) || (byte_at 0 m =? 203)) eqn:E.
  - exec (log_exec _ _ _ _ Hs Hl). rewrite !orb_true_iff, !Z.eqb_eq in E.
    by destruct E as [[->| ->]| ->].
  - rewrite !orb_false_iff, !Z.eqb_neq in E. destruct E as [[? ?] ?].
    destruct (Z.leb_spec 201 (byte_at 0 m)), (Z.leb_spec (byte_at 0 m) 203); try done. lia.
Qed.

Lemma Ret_inj {A} (x y : A) : Ret x = Ret y -> x = y.
Proof. by intros [=]. Qed.

(** The checksum of a report makes its message verify. *)
Lemma report_verifies h q lq type code now reason bs src dest :
  is_byte type -> is_byte code -> is_byte reason -> Forall is_byte bs -> (48 <= length bs)%nat ->
  ip6_wf src -> ip6_wf dest -> pkt h q lq (report_icmp type code now reason bs src dest) ->
  ip6_chksum_pseudo h (Some q) IP6_NEXTH_ICMP6 65 src dest = Ret 0.
Proof.
  intros Ht Hc Hr Hb Hl Hsw Hdw Hp. set (d := report_body type code now reason bs 0).
  assert (Hd : length d = 65%nat) by (by apply report_body_length).
  assert (Hpd : pkt (w_pbufs (one_packet d)) 1%positive [(1%positive, one_pbuf d)] d).
  { apply single_pkt, one_packet_owned; [by apply report_body_byte|lia]. }
  destruct (checksum_fill _ _ _ d src dest IP6_NEXTH_ICMP6 Hpd) as (ck & Hck & _ & Hv); try done; [lia|].
  rewrite Hd in Hck, Hv. change (Z.of_nat 65) with 65 in *.
  pose proof (chksum_pseudo_eq _ _ _ d src dest IP6_NEXTH_ICMP6 65 Hpd Hsw Hdw ltac:(done) ltac:(done)) as E.
  rewrite E in Hck. apply Ret_inj in Hck.
  apply (Hv h q lq). rewrite <-Hck. exact Hp.
Qed.

(** ** Properties *)

(** C16: sending a report about a packet of at least 48 bytes in one buffer on which the
    custodian walk ends inside the packet ([custodian_in] answers; on other packets the
    call does not return or reads behind the buffer).  In every environment, also when
    memory or the socket fails, the call then returns and the packet buffers are as
    before; it reports success exactly when one packet has left the node, towards the
    custodian the packet names, or else its source: the 105 bytes of [report], with the
    node's second address as source, the message type, code, reason and clock, and the
    first 48 bytes of the packet.  The ICMPv6 checksum in it verifies at the receiver. *)
Theorem report_sent `{Env} nif w p b bs c src type code reason :
  single (w_pbufs w) p b bs -> (48 <= length bs)%nat -> custodian_in bs = Ret c ->
  ip6_addrs nif !! 1%nat = Some src -> ip6_wf src ->
  is_byte type -> is_byte code -> is_byte reason -> (forall t n, env_sendto t n <= n) ->
  let now := u32 (env_now (1 + w_tick w)) in
  let dest := reported_to c bs in
  exists err es k,
    dtn_icmpv6_send_message nif p type code reason w = Ret (err, logged es k w) /\
    (err = ERR_OK <-> es = transmission (w_raw w) dest (report type code now reason bs src dest)) /\
    (forall h q lq, pkt h q lq (report_icmp type code now reason bs src dest) ->
       ip6_chksum_pseudo h (Some q) IP6_NEXTH_ICMP6 65 src dest = Ret 0).
Proof.
  intros Hs Hl Hc Hsrc Hsw Ht Hco Hre Hsend now dest.
  assert (Hck : forall h q lq, pkt h q lq (report_icmp type code now reason bs src dest) ->
     ip6_chksum_pseudo h (Some q) IP6_NEXTH_ICMP6 65 src dest = Ret 0).
  { intros h q lq Hp. apply (report_verifies h q lq type code now reason bs); try done;
      [by eapply single_bytes|by apply (reported_to_wf w p b bs Hs Hl c Hc)]. }
  destruct (wp_elim _ _ _ (wp_send_message nif w p b bs Hs Hl c Hc src Hsrc Hsw type code reason Ht Hco Hre
    (fun err w' => exists es k, w' = logged es k w /\
       (err = ERR_OK <-> es = transmission (w_raw w) dest (report type code now reason bs src dest)))
    ltac:(intros k _; exists [], k; split; [by rewrite logged_nil|]; unfold transmission;
          by destruct (socket_for _ _) as [[]])
    ltac:(intros r es n E; exists es, (n + 4)%nat; split; [done|];
          destruct (send_outcome_complete _ _ _ _ _ _ _ Hsend E) as ([-> | ->] & Hiff & _);
          simpl; naive_solver))) as (err & w' & He & es & k & -> & Hiff).
  exists err, es, k. by rewrite He.
Qed.

(** Receiving a PCK-RECEIVED report whose comparison stays inside it.
    The call returns 1, removes from the storage exactly
    the first packet the report confirms (same source, protocol and, where
    they are compared, first payload bytes; same addresses if the node has no memory for the lookup),
    forgets the retry record of the quoted destination and no other, and
    leaves the message and everything else of the node as they were. *)
Theorem received_report_confirms `{Env} w ls recs p b m t :
  stores w ls recs -> w_controller w = Some t -> table_ok t ->
  single (w_pbufs w) p b m -> Some p ∉ entry_pbufs ls ->
  (65 <= length m)%nat -> Z.of_nat (length m) <= 2048 ->
  byte_at 0 m = ICMP6_TYPE_DTN_PCK_RECEIVED -> confirmable m recs ->
  no_hbh_from (slice 8 16 (quoted_packet m)) recs ->
  wp (dtn_icmpv6_process (Some p)) w (fun r w' =>
    r = 1 /\ rest_but_controller w' = rest_but_controller w /\ single (w_pbufs w') p b m /\
    removed_first (if env_mem_malloc (w_tick w) then confirms m
                   else rec_header_matches (slice 17 40 m)) ls recs w w' /\
    exists t', w_controller w' = Some t' /\ map_after t t' (dest_key (hdr_dest (quoted_packet m))) None).
Proof.
  intros Hst Hc Hok Hs Hp Hl Hmax Hty Hnx Hno.
  apply (wp_process_received w ls recs Hst p b m Hs Hp Hl Hmax Hnx Hno t Hc Hok); [done|].
  intros w' t' H1 H2 H3 H4 H5. split_and!; eauto.
Qed.

(** *** Concrete runs *)

Definition node1_netif : netif :=
  mk_netif [ip6_addr_any; node2; ip6_addr_any; ip6_addr_any; ip6_addr_any] [0; 0x30; 0; 0; 0]
           (replicate 5 0) (replicate 5 0) (str "tn") 1500 1500 5 0 (Some 3) (replicate 6 0) 0 false false.

Definition quiet_udp : list Z :=
  [96; 0; 0; 0; 0; 16; 17; 64] ++
  [253; 0; 0; 1; 0; 0; 0; 0; 0; 0; 0; 0; 0; 0; 0; 1] ++
  [253; 0; 0; 0x23; 0; 0; 0; 0; 0; 0; 0; 0; 0; 0; 0; 7] ++
  [59; 0; 0; 80; 0; 16; 0; 0; 1; 2; 3; 4; 5; 6; 7; 8].

Lemma report_sent_witness :
  exists err es k,
    @dtn_icmpv6_send_message calm_env node1_netif 1%positive 200 7 0 (one_packet quiet_udp)
      = Ret (err, logged es k (one_packet quiet_udp)) /\
    (err = ERR_OK <-> es = transmission (mk_raw 0 0 [] [] (-1) (-1)) (hdr_src quiet_udp)
       (report 200 7 100000 0 quiet_udp node2 (hdr_src quiet_udp))) /\
    (forall h q lq, pkt h q lq (report_icmp 200 7 100000 0 quiet_udp node2 (hdr_src quiet_udp)) ->
       ip6_chksum_pseudo h (Some q) IP6_NEXTH_ICMP6 65 node2 (hdr_src quiet_udp) = Ret 0).
Proof.
  apply (@report_sent calm_env node1_netif (one_packet quiet_udp) 1%positive (one_pbuf quiet_udp) quiet_udp
           None node2 200 7 0).
  - apply one_packet_owned; [decided|done].
  - vm_compute. lia.
  - by vm_compute.
  - done.
  - unfold ip6_wf, word32. by vm_compute.
  - by vm_compute.
  - by vm_compute.
  - by vm_compute.
  - intros t n. apply Z.le_refl.
Defined.

Definition ack_world : world :=
  set_controller (Some tried_table)
    (confirm_world (sample_udp 0) (report_icmp 200 7 0 0 (sample_udp 0) node2 node2)).

Lemma received_report_confirms_witness :
  let m := report_icmp 200 7 0 0 (sample_udp 0) node2 node2 in
  wp (@dtn_icmpv6_process calm_env (Some 2%positive)) ack_world (fun r w' =>
    r = 1 /\ rest_but_controller w' = rest_but_controller ack_world /\
    single (w_pbufs w') 2%positive (one_pbuf m) m /\
    removed_first (confirms m) [(1%positive, mk_entry (Some 1%positive) node2 5 (str "f"))]
      [confirm_rec (sample_udp 0)] ack_world w' /\
    exists t', w_controller w' = Some t' /\
      map_after tried_table t' (dest_key (hdr_dest (quoted_packet m))) None).
Proof.
  intros m. apply (@received_report_confirms calm_env ack_world).
  - apply (same_store_stores (confirm_world (sample_udp 0) m)); [by split_and!|].
    apply confirm_world_stores; [decided|done].
  - reflexivity.
  - apply tried_table_ok.
  - apply one_pbuf_single; [done|decided|by vm_compute].
  - decided.
  - vm_compute. lia.
  - by vm_compute.
  - by vm_compute.
  - by apply confirmable_plain.
  - decided.
Defined.
