(* ===== verification/Controller.v ===== *)
(** * The controller (src/dtn_controller.c, second part)

    What happens to a packet that arrives on the TUN interface, and the pass
    over the stored packets when a contact opens.  lwIP's [ip6_input], to
    which packets for the node itself are handed, is an interface
    ([Ip6Input], with the law [Ip6InputOk]). *)

From S2P Require Import Prelude LinkedList Ip6Addr World Pbuf Ip6Hdr Custody Storage StorageSpec Routing RoutingSpec InetChksum RawSocket Tracking DtnIcmp.

(** ** The interface to lwIP's input path *)

Class Ip6Input := ip6_input : loc -> netif -> M world err_t.

Section controller.
Context `{Env} `{Ip6Input}.

Definition dtn_controller_process_icmpv6 (p : option loc) : M world Z :=
  w ← get;
  match p, w_controller w with
  | Some _, Some _ => dtn_icmpv6_process p
  | _, _ => mret 0
  end.

(** The contact has this address and its window is open. *)
Definition contact_open (now : Z) (next_hop_ip : ip6_addr) (c : Contact_Info) : bool :=
  ip6_addr_zoneless_eq next_hop_ip (node_addr c) &&
  ((start_time_ms c <=? now) && (now <=? end_time_ms c)).

Definition is_next_hop_active_contact (next_hop_ip : ip6_addr) : M world bool :=
  w ← get;
  match w_routing w with
  | None => mret false
  | Some routing =>
      current_time ← sys_now;
      w ← get;
      m ← lift (find_node (S (size (w_contacts w))) (w_contacts w)
                  (fun c => Ret (contact_open current_time next_hop_ip c)) (contact_list_head routing));
      mret (bool_decide (is_Some m))
  end.

(** [p_copy = pbuf_alloc(PBUF_RAW, p->tot_len, PBUF_RAM)], a copy of the
    packet into it, [act] on the copy, and its release. *)
Definition with_copy (p : loc) (act : loc -> M world unit) : M world unit :=
  pn ← pb_node p;
  p_copy ← pbuf_alloc PBUF_RAW (pb_tot_len (n_val pn)) PBUF_RAM;
  match p_copy with
  | None => mret tt
  | Some c =>
      w ← get;
      r ← lift (pbuf_copy (w_pbufs w) p_copy (Some p));
      modify (set_pbufs (fun _ => r.2));;
      (if bool_decide (r.1 = ERR_OK) then act c else mret tt);;
      pbuf_free_m c;;
      mret tt
  end.

(** The two addresses of the node that are written into the code. *)
Definition local_addr_1 : list Z := str "fd00:01::2".
Definition local_addr_2 : list Z := str "fd00:12::1".
Definition same_as_local (text : list Z) (dest : ip6_addr) : M world bool :=
  init ← stack_addr;
  r ← lift (ip6addr_aton text init);
  mret (r.1 && ip6_addr_cmp (ip6_addr_set_zone IP6_NO_ZONE dest) (ip6_addr_set_zone IP6_NO_ZONE r.2)).
Definition for_this_lwip_stack (dest : ip6_addr) : M world bool :=
  a ← same_as_local local_addr_1 dest;
  b ← same_as_local local_addr_2 dest;
  mret (a || b).

(** What is read from the header before anything else happens. *)
Record header_copy := mk_hdr {
  temp_src_addr : ip6_addr;
  temp_dest_addr : ip6_addr;
  temp_v_tc_fl : Z;
  temp_plen : Z;
  temp_hoplim : Z
}.
Definition read_header (p : loc) : M world header_copy :=
  src ← pread p OFF_SRC SIZEOF_IP6_ADDR;
  dest ← pread p OFF_DEST SIZEOF_IP6_ADDR;
  v ← pread p 0 4;
  l ← pread p OFF_PLEN 2;
  h ← pread8 p OFF_HOPLIM;
  mret (mk_hdr (ip6_of_mem src) (ip6_of_mem dest) (le_val v) (le_val l) h).

(** The custodian in the packet, or else its source. *)
Definition sender_of (p : loc) (src : ip6_addr) : M world ip6_addr :=
  out ← stack_addr;
  r ← dtn_extract_custodian_option (Some p) (Some out);
  if negb r.1 then mret src else lift (deref r.2).

(** ICMPv6 packets are first offered to the DTN handler, on a copy without
    the IPv6 header; returns whether the packet has been dealt with. *)
Definition offer_icmpv6 (p : loc) : M world bool :=
  pn ← pb_node p;
  qo ← pbuf_alloc PBUF_RAW (pb_tot_len (n_val pn)) PBUF_RAM;
  match qo with
  | None => pbuf_free_m p;; mret true
  | Some q =>
      w ← get;
      r ← lift (pbuf_copy (w_pbufs w) qo (Some p));
      modify (set_pbufs (fun _ => r.2));;
      if negb (bool_decide (r.1 = ERR_OK)) then pbuf_free_m q;; pbuf_free_m p;; mret true
      else
        w ← get;
        hd ← lift (pbuf_header (w_pbufs w) q (- IP6_HLEN));
        modify (set_pbufs (fun _ => hd.2));;
        if negb (hd.1 =? 0) then pbuf_free_m q;; pbuf_free_m p;; mret true
        else
          done ← dtn_controller_process_icmpv6 qo;
          if negb (done =? 0) then pbuf_free_m q;; pbuf_free_m p;; mret true
          else pbuf_free_m q;; mret false
  end.

(** The packet is for the node itself: acknowledge it and pass it to lwIP. *)
Definition deliver_local (p : loc) (inp_netif : netif) : M world unit :=
  with_copy p (fun c => dtn_icmpv6_send_pck_received inp_netif c ICMP6_CODE_DTN_NO_INFO);;
  _ ← ip6_input p inp_netif;
  mret tt.

(** A contact is open: take custody and send to the next hop. *)
Definition forward_now (p : loc) (inp_netif : netif) (next_hop_ip : ip6_addr) : M world unit :=
  with_copy p (fun _ => mret tt);;
  my_addr ← lift (deref (ip6_addrs inp_netif !! 1%nat));
  r ← dtn_update_or_add_custodian_option (Some p) (Some my_addr);
  p' ← lift (deref r.2);
  _ ← raw_socket_send_ipv6 p' next_hop_ip;
  pbuf_free_m p';;
  mret tt.

(** No contact: keep a copy and acknowledge, or drop the packet. *)
Definition store_incoming (p : loc) (inp_netif : netif) (dest : ip6_addr) : M world unit :=
  stored ← dtn_storage_store_packet (Some p) (Some dest);
  if (stored : bool) then
    with_copy p (fun c => dtn_icmpv6_send_pck_received inp_netif c ICMP6_CODE_DTN_NO_CONTACT)
  else
    with_copy p (fun _ => mret tt);;
    pbuf_free_m p;;
    mret tt.

(** The destination is not a DTN node: send the packet as it is. *)
Definition send_direct (p : loc) (dest : ip6_addr) : M world unit :=
  _ ← raw_socket_send_ipv6 p dest;
  pbuf_free_m p;;
  mret tt.

(** Everything after the ICMPv6 stage. *)
Definition route_incoming (p : loc) (inp_netif : netif) (hd : header_copy) (sender : ip6_addr)
  : M world unit :=
  is_for_this_lwip_stack ← for_this_lwip_stack (temp_dest_addr hd);
  if (is_for_this_lwip_stack : bool) then deliver_local p inp_netif
  else
    is_dtn_dest ← dtn_routing_is_dtn_destination (Some (temp_dest_addr hd));
    if (is_dtn_dest : bool) then
      uninit ← stack_addr;
      r ← dtn_routing_get_dtn_next_hop (temp_v_tc_fl hd) (temp_plen hd) (temp_hoplim hd)
            (temp_dest_addr hd) (Some sender) uninit;
      let '(contact_available, next_hop_ip) := r in
      active ← is_next_hop_active_contact next_hop_ip;
      if negb (contact_available =? 0) && active then forward_now p inp_netif next_hop_ip
      else store_incoming p inp_netif (temp_dest_addr hd)
    else send_direct p (temp_dest_addr hd).

Definition dtn_controller_process_incoming (p : option loc) (inp_netif : netif) : M world unit :=
  w ← get;
  match p, w_controller w, w_routing w, w_storage w with
  | Some pl, Some _, Some _, Some _ =>
      nd ← pb_node pl;
      if pb_len (n_val nd) <? IP6_HLEN then pbuf_free_m pl;; mret tt
      else
        v ← IP6H_V pl;
        if negb (v =? 6) then pbuf_free_m pl;; mret tt
        else
          hd ← read_header pl;
          sender ← sender_of pl (temp_src_addr hd);
          nexth ← IP6H_NEXTH pl;
          handled ← (if nexth =? IP6_NEXTH_ICMP6 then offer_icmpv6 pl else mret false);
          if (handled : bool) then mret tt else route_incoming pl inp_netif hd sender
  | Some pl, _, _, _ => pbuf_free_m pl;; mret tt
  | None, _, _, _ => mret tt
  end.

(** ** The pass over the stored packets *)

(** Sending a copy of a stored packet, or delivering it. *)
Definition forward_copy (p_to_fwd : loc) (netif_out : netif) (dest next_hop_ip : ip6_addr) : M world unit :=
  is_for_this_lwip_stack ← for_this_lwip_stack dest;
  if (is_for_this_lwip_stack : bool) then
    with_copy p_to_fwd (fun c => dtn_icmpv6_send_pck_received netif_out c ICMP6_CODE_DTN_NO_INFO);;
    err ← ip6_input p_to_fwd netif_out;
    if negb (bool_decide (err = ERR_OK)) then pbuf_free_m p_to_fwd;; mret tt else mret tt
  else
    with_copy p_to_fwd (fun _ => mret tt);;
    my_addr ← lift (deref (ip6_addrs netif_out !! 1%nat));
    r ← dtn_add_custodian_option (Some p_to_fwd) (Some my_addr);
    p' ← lift (deref r.2);
    _ ← raw_socket_send_ipv6 p' next_hop_ip;
    pbuf_free_m p';;
    mret tt.

(** One allowed attempt for a stored packet [ep]. *)
Definition forward_stored (ep : loc) (netif_out : netif) : M world unit :=
  hd ← read_header ep;
  sender_ip ← sender_of ep (temp_src_addr hd);
  uninit ← stack_addr;
  r ← dtn_routing_get_dtn_next_hop (temp_v_tc_fl hd) (temp_plen hd) (temp_hoplim hd)
        (temp_dest_addr hd) (Some sender_ip) uninit;
  let '(contact_available, next_hop_ip) := r in
  active ← (if negb (contact_available =? 0) then is_next_hop_active_contact next_hop_ip else mret false);
  if (active : bool) then
    en ← pb_node ep;
    p_to_fwd ← pbuf_alloc PBUF_RAW (pb_tot_len (n_val en)) PBUF_RAM;
    match p_to_fwd with
    | None => mret tt
    | Some fp =>
        w ← get;
        c ← lift (pbuf_copy (w_pbufs w) p_to_fwd (Some ep));
        modify (set_pbufs (fun _ => c.2));;
        if bool_decide (c.1 = ERR_OK) then forward_copy fp netif_out (temp_dest_addr hd) next_hop_ip
        else pbuf_free_m fp;; mret tt
    end
  else mret tt.

Definition attempt_body (netif_out : netif) (entry : option loc) : M world (option loc + unit) :=
  match entry with
  | None => mret (inr tt)
  | Some e =>
      n ← entry_node e;
      let next_entry := n_next n in
      attempt ← should_attempt_forward (original_dest (n_val n));
      (if (attempt : bool) then ep ← lift (deref (sp_p (n_val n))); forward_stored ep netif_out
       else mret tt);;
      mret (inl next_entry)
  end.

Definition dtn_controller_attempt_forward_stored (netif_out : netif) : M world unit :=
  w ← get;
  match w_controller w, w_storage w, w_routing w with
  | Some _, Some storage, Some _ =>
      _ ← dtn_routing_update_contacts;
      loop (S (size (w_entries w))) (attempt_body netif_out) (packet_list_head storage)
  | _, _, _ => mret tt
  end.
End controller.
