(* ===== verification/ControllerSpec.v ===== *)
(** * The controller: specification

    What happens to an arriving packet in each branch of
    [dtn_controller_process_incoming], and what the pass over the stored
    packets does, for every environment; the law lwIP's input path has to
    satisfy for it is [Ip6InputOk]. *)

From S2P Require Import Prelude LinkedList Ip6Addr World Pbuf Ip6Hdr Custody Storage StorageSpec Routing RoutingSpec InetChksum RawSocket Ip6Spec Tracking DtnIcmp Controller.

(** ** What leaves the node *)

Section transmissions.
Context `{Env}.

(** What an attempt to send [msg] to [dest] can put on the wire. *)
Inductive attempt_events (r : raw_sockets) (dest : ip6_addr) (msg : list Z) : list event -> Prop :=
| ev_nothing : attempt_events r dest msg []
| ev_bound fd i name : socket_for r dest = (fd, i, name) ->
    attempt_events r dest msg [EvBind fd name]
| ev_sent fd i name n : socket_for r dest = (fd, i, name) ->
    attempt_events r dest msg [EvBind fd name; EvSend fd i (ip6_bytes dest) (take n msg)].

(** Memory, [setsockopt] and [sendto] do not fail. *)
Definition env_fine : Prop :=
  (forall t, env_mem_malloc t = true) /\ (forall t, 0 <= env_setsockopt t) /\
  (forall t n, env_sendto t n = n).

Definition transmitted (r : raw_sockets) (dest : ip6_addr) (msg : list Z) (es : list event) : Prop :=
  attempt_events r dest msg es /\
  (env_fine -> Z.of_nat (length msg) <= RAW_BUF_SIZE -> es = transmission r dest msg).

Lemma send_outcome_transmitted r t dest msg x es n :
  send_outcome r t dest msg = (x, es, n) -> transmitted r dest msg es.
Proof.
  unfold send_outcome. destruct (socket_for r dest) as [[fd i] name] eqn:Es. intros E. split.
  - destruct (RAW_BUF_SIZE <? _); [injection E as <- <- <-; constructor|].
    destruct (env_setsockopt t <? 0); [injection E as <- <- <-; constructor|].
    destruct (_ <? 0); injection E as <- <- <-; econstructor; done.
  - intros (_ & Ho & Hsnd) Hl. unfold transmission. rewrite Es.
    rewrite (proj2 (Z.ltb_ge _ _)) in E by lia. rewrite (proj2 (Z.ltb_ge (env_setsockopt t) 0)) in E by done.
    rewrite Hsnd in E. rewrite (proj2 (Z.ltb_ge _ 0)) in E by lia.
    rewrite Nat2Z.id, take_ge in E by lia. by injection E as <- <- <-.
Qed.

Lemma transmitted_nothing r dest msg : ~ env_fine -> transmitted r dest msg [].
Proof. intros Hn. split; [constructor|]. done. Qed.

(** [raw_socket_send_ipv6] on a packet. *)
Lemma wp_raw_send w p lp bs dest Q :
  pkt (w_pbufs w) p lp bs ->
  (forall r es k, transmitted (w_raw w) dest bs es -> Q r (logged es k w)) ->
  wp (raw_socket_send_ipv6 p dest) w Q.
Proof.
  intros Hp HQ. unfold wp. rewrite (raw_send_exec _ _ _ _ _ Hp).
  destruct (send_outcome _ _ _ _) as [[r es] k] eqn:E. apply HQ. by eapply send_outcome_transmitted.
Qed.
End transmissions.

(** A buffer that came and went while events were logged. *)
Lemma copy_released w q b es k j :
  w_pbufs w !! q = None ->
  set_pbufs (delete q) (logged es k (put_pbuf q b (add_ticks j w))) = logged es (k + j) w.
Proof.
  intros Hq. apply world_eq; try reflexivity; simpl; [|lia]. by apply delete_insert_id.
Qed.

Section copies.
Context `{Env}.

(** Acting on a copy that is released afterwards. *)
Lemma wp_with_copy w p lp bs act (P : list event -> Prop) Q :
  pkt (w_pbufs w) p lp bs -> no_empty lp ->
  (~ env_fine \/ 65508 < Z.of_nat (length bs) -> P []) ->
  (forall b w1, let np := new_loc (w_pbufs w) in
     w1 = put_pbuf np b (add_ticks 1 w) -> single (w_pbufs w1) np b bs ->
     wp (act np) w1 (fun _ w' => exists es k, P es /\ w' = logged es k w1)) ->
  (forall es k, P es -> Q tt (logged es k w)) ->
  wp (with_copy p act) w Q.
Proof.
  intros Hp Hne H0 Hact HQ. unfold with_copy.
  apply (wp_copy_then w p lp bs (mret tt) (fun c e =>
    (if @bool_decide (e = ERR_OK) (decide_rel eq e ERR_OK) then act c else mret tt);;
     pbuf_free_m c;; mret tt)); [done|done| |].
  - intros n Hm. apply wp_ret. rewrite <-logged_nil. apply HQ, H0.
    destruct (Z.le_gt_cases (Z.of_nat (length bs)) 65508); [left|by right].
    intros (Hok & _). rewrite Hok in Hm. by specialize (Hm ltac:(done)).
  - intros b Hle np [Hs Hr]. rewrite bool_decide_true by done.
    apply wp_bind. eapply wp_mono; [by apply (Hact b)|]. cbn beta. intros _ w' (es & k & HP & ->).
    apply wp_bind. eapply wp_exec; [by eapply (pbuf_free_m_exec np b bs)|].
    apply wp_ret. rewrite copy_released by apply new_loc_fresh. by apply HQ.
Qed.

Lemma wp_with_copy_nop w p lp bs Q :
  pkt (w_pbufs w) p lp bs -> no_empty lp ->
  (forall k, Q tt (add_ticks k w)) -> wp (with_copy p (fun _ => mret tt)) w Q.
Proof.
  intros Hp Hne HQ. apply (wp_with_copy w p lp bs _ (fun es => es = [])); [done|done|done| |].
  - intros b w1 np -> Hs. apply wp_ret. exists [], 0%nat. split; [done|].
    by rewrite logged_nil, add_ticks_0.
  - intros es k ->. rewrite logged_nil. apply HQ.
Qed.
End copies.

(** ** Reports *)

Section reports.
Context `{Env} (nif : netif) (src : ip6_addr).
Context (Hsrc : ip6_addrs nif !! 1%nat = Some src) (Hsw : ip6_wf src).

(** The events of a PCK-RECEIVED report about [bs]. *)
Definition acknowledged (r : raw_sockets) (code : Z) (bs : list Z) (c : option (list Z))
    (es : list event) : Prop :=
  exists now, transmitted r (reported_to c bs)
    (report ICMP6_TYPE_DTN_PCK_RECEIVED code now 0 bs src (reported_to c bs)) es.

Lemma acknowledged_nothing r code bs c : ~ env_fine -> acknowledged r code bs c [].
Proof. intros Hn. exists 0. by apply transmitted_nothing. Qed.

Lemma wp_acknowledge w p b bs c code Q :
  single (w_pbufs w) p b bs -> (48 <= length bs)%nat -> custodian_in bs = Ret c -> is_byte code ->
  (forall es k, acknowledged (w_raw w) code bs c es -> Q tt (logged es k w)) ->
  wp (dtn_icmpv6_send_pck_received nif p code) w Q.
Proof.
  intros Hs Hl Hc Hco HQ. unfold dtn_icmpv6_send_pck_received. apply wp_bind.
  eapply (wp_send_message nif w p b bs Hs Hl c Hc src Hsrc Hsw); try done.
  - intros k (t & Ht). apply wp_ret. rewrite <-logged_nil. apply HQ, acknowledged_nothing.
    intros (Hm & _). by rewrite Hm in Ht.
  - intros r es n E. apply wp_ret, HQ. eexists. by eapply send_outcome_transmitted.
Qed.

(** Acknowledging through a copy. *)
Lemma wp_acknowledge_copy w p lp bs c code Q :
  pkt (w_pbufs w) p lp bs -> no_empty lp -> (48 <= length bs)%nat -> Z.of_nat (length bs) <= 65508 ->
  custodian_in bs = Ret c -> is_byte code ->
  (forall es k, acknowledged (w_raw w) code bs c es -> Q tt (logged es k w)) ->
  wp (with_copy p (fun q => dtn_icmpv6_send_pck_received nif q code)) w Q.
Proof.
  intros Hp Hne Hl Hmax Hc Hco HQ.
  apply (wp_with_copy w p lp bs _ (acknowledged (w_raw w) code bs c)); [done|done| | |done].
  - intros [?|?]; [by apply acknowledged_nothing|lia].
  - intros b w1 np -> Hs. eapply (wp_acknowledge _ np b bs c); try done.
    intros es k Ha. by exists es, k.
Qed.
End reports.

(** ** Classification of an arriving packet *)

Definition local_1 : ip6_addr := IP6_ADDR (lwip_htonl 0xfd000001) 0 0 (lwip_htonl 2).
Definition local_2 : ip6_addr := IP6_ADDR (lwip_htonl 0xfd000012) 0 0 (lwip_htonl 1).
Definition is_local (d : ip6_addr) : bool :=
  ip6_addr_zoneless_eq d local_1 || ip6_addr_zoneless_eq d local_2.

Lemma aton_local init :
  ip6addr_aton local_addr_1 init = Ret (true, local_1) /\
  ip6addr_aton local_addr_2 init = Ret (true, local_2).
Proof. destruct init. by vm_compute. Qed.

Lemma cmp_zoneless a b :
  ip6_addr_cmp (ip6_addr_set_zone IP6_NO_ZONE a) (ip6_addr_set_zone IP6_NO_ZONE b) = ip6_addr_zoneless_eq a b.
Proof. unfold ip6_addr_cmp, ip6_addr_zoneless_eq. simpl. by rewrite andb_true_r. Qed.

Lemma for_this_stack_exec `{Env} d w : for_this_lwip_stack d w = Ret (is_local d, add_ticks 2 w).
Proof.
  unfold for_this_lwip_stack, same_as_local.
  destruct (aton_local (env_stack_addr (w_tick w))) as [E1 _].
  destruct (aton_local (env_stack_addr (S (w_tick w)))) as [_ E2].
  unfold stack_addr, next_tick, lift, mbind, M_bind, mret, M_ret. cbn [w_tick add_ticks Nat.add].
  rewrite E1. cbn [w_tick add_ticks Nat.add fst snd]. rewrite E2. cbn [fst snd andb].
  rewrite !cmp_zoneless. done.
Qed.

(** The header copied out of a packet: the twentieth byte of each copy is
    outside the address and lands in the zone. *)
Definition header_of (bs : list Z) : header_copy :=
  mk_hdr (ip6_addr_set_zone (byte_at 24 bs) (hdr_src bs)) (ip6_addr_set_zone (byte_at 40 bs) (hdr_dest bs))
         (le_val (slice 0 4 bs)) (le_val (slice 4 2 bs)) (byte_at 7 bs).

Lemma ip6_of_mem_slice o bs :
  (o + 20 <= length bs)%nat ->
  ip6_of_mem (slice o 20 bs) = ip6_addr_set_zone (byte_at (o + 16) bs) (ip6_of_bytes (slice o 16 bs)).
Proof.
  intros. unfold ip6_of_mem, ip6_of_bytes. rewrite !slice_slice by lia.
  rewrite byte_at_slice by lia. unfold ip6_addr_set_zone. simpl. f_equal; lia.
Qed.

Lemma read_header_bytes w p b bs :
  single (w_pbufs w) p b bs -> (44 <= length bs)%nat -> read_header p w = Ret (header_of bs, w).
Proof.
  intros Hs Hl. unfold read_header, OFF_SRC, OFF_DEST, OFF_PLEN, OFF_HOPLIM, SIZEOF_IP6_ADDR.
  exec (pread_exec _ _ _ _ 8 20 Hs ltac:(lia) ltac:(lia) ltac:(lia)).
  exec (pread_exec _ _ _ _ 24 20 Hs ltac:(lia) ltac:(lia) ltac:(lia)).
  exec (pread_exec _ _ _ _ 0 4 Hs ltac:(lia) ltac:(lia) ltac:(lia)).
  exec (pread_exec _ _ _ _ 4 2 Hs ltac:(lia) ltac:(lia) ltac:(lia)).
  exec (pread8_exec _ _ _ _ 7 Hs ltac:(lia)). unfold header_of, mret, M_ret.
  change (Z.to_nat 8) with 8%nat. change (Z.to_nat 24) with 24%nat. change (Z.to_nat 20) with 20%nat.
  by rewrite !ip6_of_mem_slice by lia.
Qed.

(** The sender the routing is asked about. *)
Definition sender `{Env} (w : world) (bs : list Z) (c : option (list Z)) : ip6_addr :=
  match c with
  | Some a => ip6_addr_set_zone (zone (env_stack_addr (w_tick w))) (ip6_of_bytes a)
  | None => temp_src_addr (header_of bs)
  end.

Lemma sender_of_bytes `{Env} w p m bs c :
  readable w p m -> (40 <= length m)%nat -> custodian_in m = Ret c ->
  sender_of p (temp_src_addr (header_of bs)) w = Ret (sender w bs c, add_ticks 1 w).
Proof.
  intros Hs Hl Hc. unfold sender_of. set (out := env_stack_addr (w_tick w)).
  rewrite (bind_exec stack_addr _ w out (add_ticks 1 w)) by done.
  assert (Hs1 : readable (add_ticks 1 w) p m).
  { intros off n Ho Hn Hm. specialize (Hs off n Ho Hn Hm). revert Hs. unfold pread, pb_node, gets, lift, mbind, M_bind, get.
    cbn [w_pbufs add_ticks]. destruct (deref _); [|done..]. destruct (payload_rd _ _ _); [|done..]. congruence. }
  exec (extract_exec _ _ _ Hs1 out c Hl Hc). unfold sender. by destruct c.
Qed.

(** An IPv6 packet in one buffer the node owns, with at least the four bytes
    after the header that are copied with the destination, and on which the
    custodian walk answers [c]. *)
Record arrived (w : world) (p : loc) (b : pbuf) (bs : list Z) (c : option (list Z)) : Prop := {
  ar_owned : owned w p b bs;
  ar_len : (44 <= length bs)%nat;
  ar_version : hdr_version bs = 6;
  ar_custodian : custodian_in bs = Ret c
}.

(** The same with a walk that may leave the packet: it is then decided by what
    the memory behind the packet holds. *)
Record reached (w : world) (p : loc) (b : pbuf) (bs : list Z) (c : option (list Z)) : Prop := {
  re_owned : owned w p b bs;
  re_len : (44 <= length bs)%nat;
  re_version : hdr_version bs = 6;
  re_custodian : custodian_in (behind b) = Ret c
}.

Lemma arrived_reached w p b bs c : arrived w p b bs c -> reached w p b bs c.
Proof.
  intros [[Hs Hr] Hl Hv Hc]. split; [done|done|done|]. destruct (behind_prefix _ _ _ _ Hs) as [rest ->].
  apply custodian_in_app; [lia|done].
Qed.

(** The three components are up and well-formed. *)
Record node_ok (w : world) (t : DTN_Controller) (ls : list (loc * Stored_Packet_Entry))
    (recs : list stored_rec) (rt : Routing_Function) (cs : list Contact_Info) : Prop := {
  nk_controller : w_controller w = Some t;
  nk_table : table_ok t;
  nk_stores : stores w ls recs;
  nk_routing : w_routing w = Some rt;
  nk_contacts : contacts w cs
}.

Section arrival.
Context `{Env} `{Ip6Input} (w : world) (p : loc) (b : pbuf) (bs : list Z) (c : option (list Z)).
Context (Har : reached w p b bs c).

Lemma reached_single : single (w_pbufs w) p b bs.
Proof. by destruct Har as [[Hs _] _ _ _]. Qed.

Lemma read_header_exec : read_header p w = Ret (header_of bs, w).
Proof. apply (read_header_bytes w p b); [apply reached_single|by apply re_len with (1 := Har)]. Qed.

Lemma sender_of_exec : sender_of p (temp_src_addr (header_of bs)) w = Ret (sender w bs c, add_ticks 1 w).
Proof.
  pose proof (re_len _ _ _ _ _ Har) as Hl. apply (sender_of_bytes w p (behind b)).
  - eapply behind_readable, reached_single.
  - destruct (behind_prefix _ _ _ _ reached_single) as [rest ->]. rewrite length_app. lia.
  - by apply re_custodian with (1 := Har).
Qed.

Lemma version_exec : IP6H_V p w = Ret (6, w).
Proof.
  pose proof reached_single as Hs. destruct Har as [_ Hl Hv _]. unfold IP6H_V.
  exec (pread8_exec _ _ _ _ 0 Hs ltac:(lia)). unfold hdr_version in Hv.
  change (Z.to_nat 0) with 0%nat. by rewrite Hv.
Qed.

(** Up to the ICMPv6 stage the packet is only read. *)
Lemma incoming_reads t ls recs rt cs nif Q :
  node_ok w t ls recs rt cs ->
  wp (handled ← (if hdr_nexth bs =? IP6_NEXTH_ICMP6 then offer_icmpv6 p else mret false);
      if (handled : bool) then mret tt else route_incoming p nif (header_of bs) (sender w bs c)) (add_ticks 1 w) Q ->
  wp (dtn_controller_process_incoming (Some p) nif) w Q.
Proof.
  intros [Hc _ Hst Hr _] HQ. pose proof reached_single as Hs. pose proof (re_len _ _ _ _ _ Har) as Hl.
  destruct (st_list _ _ _ Hst) as (st & Hw & _).
  unfold dtn_controller_process_incoming. apply wp_bind, wp_get. rewrite Hc, Hr, Hw.
  apply wp_bind. eapply wp_exec; [by eapply pb_node_exec|]. cbn [n_val].
  rewrite <-(single_length _ _ _ _ Hs). unfold IP6_HLEN. rewrite (proj2 (Z.ltb_ge _ _)) by lia.
  apply wp_bind. eapply wp_exec; [apply version_exec|]. cbn [negb Z.eqb Pos.eqb].
  apply wp_bind. eapply wp_exec; [apply read_header_exec|].
  apply wp_bind. eapply wp_exec; [apply sender_of_exec|].
  apply wp_bind. eapply wp_exec; [eapply IP6H_NEXTH_exec; [exact Hs|lia]|]. exact HQ.
Qed.

(** A packet that is not ICMPv6 goes straight to routing. *)
Lemma incoming_routes t ls recs rt cs nif Q :
  node_ok w t ls recs rt cs -> hdr_nexth bs <> IP6_NEXTH_ICMP6 ->
  wp (route_incoming p nif (header_of bs) (sender w bs c)) (add_ticks 1 w) Q ->
  wp (dtn_controller_process_incoming (Some p) nif) w Q.
Proof.
  intros Hnk Hnx HQ. eapply incoming_reads; [exact Hnk|]. rewrite (proj2 (Z.eqb_neq _ _) Hnx).
  by apply wp_bind, wp_ret.
Qed.
End arrival.

Lemma arrived_single w p b bs c : arrived w p b bs c -> single (w_pbufs w) p b bs.
Proof. by intros [[Hs _] _ _ _]. Qed.

Lemma arrived_pkt w p b bs c : arrived w p b bs c -> pkt (w_pbufs w) p [(p, b)] bs /\ no_empty [(p, b)].
Proof.
  intros Har. pose proof (arrived_single _ _ _ _ _ Har) as Hs. split; [by apply single_pkt|]. constructor; [|constructor].
  simpl. rewrite <-(single_length _ _ _ _ Hs). pose proof (ar_len _ _ _ _ _ Har). lia.
Qed.

Lemma node_ok_ticks k w t ls recs rt cs : node_ok w t ls recs rt cs -> node_ok (add_ticks k w) t ls recs rt cs.
Proof. intros [? ? Hst ? ?]. split; try done. by apply (same_store_stores w). Qed.
Lemma arrived_ticks k w p b bs c : arrived w p b bs c -> arrived (add_ticks k w) p b bs c.
Proof. by intros [? ? ? ?]. Qed.

Lemma transmitted_zone `{Env} r z d msg es :
  transmitted r (ip6_addr_set_zone z d) msg es -> transmitted r d msg es.
Proof.
  intros [Ha Hf]. split; [|exact Hf]. destruct Ha as [|fd i name E|fd i name n E].
  - constructor.
  - exact (ev_bound r d msg fd i name E).
  - exact (ev_sent r d msg fd i name n E).
Qed.

(** [w'] is [w] after [k] requests up to the packet buffers. *)
Definition but_pbufs (k : nat) (w w' : world) : Prop := w' = set_pbufs (fun _ => w_pbufs w') (add_ticks k w).

Lemma released_after k w w' p p' es n :
  but_pbufs k w w' -> delete p' (w_pbufs w') = delete p (w_pbufs w) ->
  set_pbufs (delete p') (logged es n w') = del_pbuf p (logged es (n + k) w).
Proof.
  intros Hb Hd. rewrite Hb. apply world_eq; try reflexivity; simpl; [exact Hd|lia].
Qed.

Section custody.
Context `{Env}.

(** The packet a node with address [src] passes on for [bs]: with its own
    custody header, new or in place of the previous one; unchanged only if
    there was no memory. *)
Inductive took_custody (src : ip6_addr) (bs : list Z) : list Z -> Prop :=
| tc_pushed : hdr_nexth bs <> 0 -> took_custody src bs (with_hbh src bs)
| tc_replaced c0 inner : bs = with_hbh c0 inner -> took_custody src bs (with_hbh src inner)
| tc_no_memory : ~ env_fine -> took_custody src bs bs.

Definition passable (bs : list Z) : Prop :=
  ip6_packet bs /\ Z.of_nat (length bs) <= 65484 /\
  (hdr_nexth bs = 0 -> exists c0 inner, bs = with_hbh c0 inner /\ ip6_packet inner).

(** Pushing a header, whatever the packet starts with. *)
Lemma wp_add_custody_any w p b bs src Q :
  owned w p b bs -> ip6_packet bs -> Z.of_nat (length bs) <= 65484 ->
  (forall r p' b' bs' w' k, bs' = with_hbh src bs \/ (~ env_fine /\ bs' = bs) -> owned w' p' b' bs' ->
     but_pbufs k w w' -> delete p' (w_pbufs w') = delete p (w_pbufs w) -> Q (r, Some p') w') ->
  wp (dtn_add_custodian_option (Some p) (Some src)) w Q.
Proof.
  intros Ho Hpk Hl HQ. destruct (env_mem_malloc (w_tick w)) eqn:Hm.
  - destruct (add_custodian_exec w p b bs src Ho Hpk Hl Hm) as (np & b' & He & Ho' & Enp).
    eapply wp_exec; [exact He|]. eapply (HQ true np b' _ _ 1%nat); [by left|done|done|].
    simpl. rewrite delete_delete, delete_insert_id; [done|]. rewrite Enp. apply new_loc_fresh.
  - eapply wp_exec; [by eapply add_custodian_nomem|].
    eapply (HQ false p b bs _ 1%nat); [|done|by apply world_eq|done].
    right. split; [|done]. intros (Hok & _). by rewrite Hok in Hm.
Qed.

Lemma wp_add_custody w p b bs src Q :
  owned w p b bs -> ip6_packet bs -> Z.of_nat (length bs) <= 65484 -> hdr_nexth bs <> 0 ->
  (forall r p' b' bs' w' k, took_custody src bs bs' -> owned w' p' b' bs' -> but_pbufs k w w' ->
     delete p' (w_pbufs w') = delete p (w_pbufs w) -> Q (r, Some p') w') ->
  wp (dtn_add_custodian_option (Some p) (Some src)) w Q.
Proof.
  intros Ho Hpk Hl Hnx HQ. eapply wp_add_custody_any; [exact Ho|done|done|].
  intros r p' b' bs' w' k Hbs. apply HQ. destruct Hbs as [->|[? ->]]; by constructor.
Qed.

Lemma wp_take_custody w p b bs src Q :
  owned w p b bs -> passable bs ->
  (forall r p' b' bs' w' k, took_custody src bs bs' -> owned w' p' b' bs' -> but_pbufs k w w' ->
     delete p' (w_pbufs w') = delete p (w_pbufs w) -> Q (r, Some p') w') ->
  wp (dtn_update_or_add_custodian_option (Some p) (Some src)) w Q.
Proof.
  intros Ho (Hpk & Hl & Hh) HQ. destruct (Z.eq_dec (hdr_nexth bs) 0) as [Hz|Hnx].
  - destruct (Hh Hz) as (c0 & inner & -> & Hpi). pose proof (with_hbh_length inner c0 Hpi) as Hwl.
    destruct (update_in_place_exec w p b inner c0 src Ho Hpi ltac:(lia)) as (b' & He & Ho').
    eapply wp_exec; [exact He|]. eapply (HQ true p b' _ _ 0%nat); [by econstructor|done| |].
    + apply world_eq; try reflexivity.
    + simpl. apply delete_insert_eq.
  - unfold dtn_update_or_add_custodian_option.
    apply wp_bind. eapply wp_exec; [eapply IP6H_NEXTH_exec; [apply Ho|destruct Hpk; lia]|].
    rewrite (proj2 (Z.eqb_neq _ _)) by done. by eapply wp_add_custody.
Qed.
End custody.

Lemma but_pbufs_ticks k w : but_pbufs k w (add_ticks k w).
Proof. unfold but_pbufs. by destruct w. Qed.
Lemma but_pbufs_trans j k w w1 w2 : but_pbufs j w w1 -> but_pbufs k w1 w2 -> but_pbufs (k + j) w w2.
Proof.
  unfold but_pbufs. intros H1 H2. rewrite H2 at 1. rewrite H1. apply world_eq; try reflexivity. simpl. lia.
Qed.

Lemma is_active_exec `{Env} w cs a :
  contacts w cs ->
  is_next_hop_active_contact a w =
    Ret (existsb (contact_open (u32 (env_now (w_tick w))) a) cs, add_ticks 1 w).
Proof.
  intros (r & ls & Hr & Hl & <-). unfold is_next_hop_active_contact.
  rewrite (bind_exec get _ w w w) by done. rewrite Hr.
  set (now := u32 (env_now (w_tick w))).
  rewrite (bind_exec sys_now _ w now (add_ticks 1 w)) by done.
  rewrite (bind_exec get _ _ (add_ticks 1 w) (add_ticks 1 w)) by done. cbn [w_contacts add_ticks].
  pose proof (find_unlink_spec (w_contacts w) (contact_list_head r)
    (fun c => Ret (contact_open now a c)) (contact_open now a) ls (S (size (w_contacts w))) Hl) as Hu.
  rewrite <-(find_first_exists (contact_open now a)).
  destruct (find_first _ ls) as [[l v]|].
  - destruct Hu as (prev & h' & hd' & Hfn & _); [done|apply llist_length in Hl; lia|].
    by rewrite (bind_exec (lift _) _ _ (Some (prev, l)) (add_ticks 1 w)) by (unfold lift; by rewrite Hfn).
  - destruct Hu as [Hfn _]; [done|apply llist_length in Hl; lia|].
    by rewrite (bind_exec (lift _) _ _ None (add_ticks 1 w)) by (unfold lift; by rewrite Hfn).
Qed.

(** ** The branches *)

Section branches.
Context `{Env} `{Ip6Input} (w : world) (p : loc) (b : pbuf) (bs : list Z) (c : option (list Z)).
Context (Har : arrived w p b bs c).
Context (t : DTN_Controller) (ls : list (loc * Stored_Packet_Entry)) (recs : list stored_rec).
Context (rt : Routing_Function) (cs : list Contact_Info) (Hnk : node_ok w t ls recs rt cs).
Context (nif : netif).

Lemma wp_send_direct dest Q :
  (forall es k, transmitted (w_raw w) dest bs es -> Q tt (del_pbuf p (logged es k w))) ->
  wp (send_direct p dest) w Q.
Proof.
  intros HQ. destruct (arrived_pkt w p b bs c Har) as [Hp _]. destruct Har as [[Hs Hr] _ _ _].
  unfold send_direct. apply wp_bind. eapply wp_raw_send; [exact Hp|]. intros r es k Ht.
  apply wp_bind. eapply wp_exec; [eapply (pbuf_free_m_exec p b bs); [exact Hs|exact Hr]|].
  apply wp_ret. by apply HQ.
Qed.

Context (src : ip6_addr) (Hsrc : ip6_addrs nif !! 1%nat = Some src) (Hsw : ip6_wf src).

Lemma wp_forward_now nh Q :
  passable bs ->
  (forall bs' es k, took_custody src bs bs' -> transmitted (w_raw w) nh bs' es ->
     Q tt (del_pbuf p (logged es k w))) ->
  wp (forward_now p nif nh) w Q.
Proof.
  intros Hpb HQ. destruct (arrived_pkt w p b bs c Har) as [Hp Hne]. unfold forward_now.
  apply wp_bind. eapply wp_with_copy_nop; [exact Hp|exact Hne|]. intros k1.
  apply wp_bind. eapply wp_lift; [by rewrite Hsrc|].
  apply wp_bind. eapply wp_take_custody; [exact (ar_owned _ _ _ _ _ Har)|exact Hpb|].
  intros r p' b' bs' w' k2 Htc [Hs' Hr'] Hbut Hdel. cbn [snd].
  apply wp_bind. eapply wp_lift; [done|].
  apply wp_bind. eapply wp_raw_send; [by apply single_pkt|]. intros x es k3 Ht.
  apply wp_bind. eapply wp_exec; [eapply (pbuf_free_m_exec p' b' bs'); [exact Hs'|exact Hr']|].
  apply wp_ret. erewrite (released_after (k2 + k1) w w' p p');
    [|by eapply but_pbufs_trans; [apply but_pbufs_ticks|]|exact Hdel].
  eapply HQ; [exact Htc|]. rewrite Hbut in Ht. exact Ht.
Qed.

(** The packet ends up in the storage, is acknowledged, and its buffer is
    not released; or it is dropped. *)
Lemma wp_store_incoming dest Q :
  storable bs -> (48 <= length bs)%nat -> Z.of_nat (length bs) <= 65508 ->
  (forall w1 data es k, rest_of w1 = rest_of w -> (length ls < 5)%nat ->
     stored_one w w1 ls recs dest data -> (data = stripped bs \/ data = bs) ->
     (env_all_ok -> data = stripped bs) ->
     acknowledged src (w_raw w) ICMP6_CODE_DTN_NO_CONTACT bs c es ->
     owned (logged es k w1) p b bs -> Q tt (logged es k w1)) ->
  (forall w1 k, unchanged w w1 -> (env_all_ok -> length ls = 5%nat) -> Q tt (del_pbuf p (add_ticks k w1))) ->
  wp (store_incoming p nif dest) w Q.
Proof.
  intros Hsb Hl Hmax HS HF. destruct (arrived_pkt w p b bs c Har) as [Hp Hne].
  destruct Har as [[Hs Hr] _ _ Hc]. unfold store_incoming. apply wp_bind.
  eapply wp_mono; [apply (store_spec w ls recs p _ bs dest (nk_stores _ _ _ _ _ _ Hnk) Hp Hne Hsb)|].
  cbn beta. intros r w1 [Hrest Hres]. destruct r.
  - destruct Hres as (Hlt & data & Hone & Hd & Hok).
    assert (Hs1 : single (w_pbufs w1) p b bs).
    { destruct Hone as (e & q & b1 & time & _ & Hq & Hp1 & _). rewrite Hp1.
      apply single_insert_ne; [|done]. intros ->. destruct Hs as (Hx & _). congruence. }
    eapply (wp_acknowledge_copy nif src Hsrc Hsw w1 p [(p, b)] bs c); try done; [by apply single_pkt|].
    intros es k Hack. eapply (HS w1 data es k); try done.
    + assert (Hraw : w_raw w1 = w_raw w) by (unfold rest_of in Hrest; congruence). by rewrite <-Hraw.
  - destruct Hres as [Hun Hfull]. pose proof Hun as (Hp1 & _).
    assert (Hs1 : single (w_pbufs w1) p b bs) by (by rewrite Hp1).
    apply wp_bind. eapply wp_with_copy_nop; [apply single_pkt; exact Hs1|exact Hne|]. intros k.
    apply wp_bind. eapply wp_exec; [eapply (pbuf_free_m_exec p b bs); [exact Hs1|exact Hr]|].
    apply wp_ret. apply HF; [done|]. intros Hok. destruct (Hfull Hok); [done|lia].
Qed.
End branches.

(** ** The routing decision *)

Section routing.
Context `{Env} `{Ip6Input} (w : world) (p : loc) (bs : list Z) (nif : netif) (sndr : ip6_addr).
Context (t : DTN_Controller) (ls : list (loc * Stored_Packet_Entry)) (recs : list stored_rec).
Context (rt : Routing_Function) (cs : list Contact_Info) (Hnk : node_ok w t ls recs rt cs).

(** What the route computation is asked and what it answers, at request
    [n + w_tick w] for the clock. *)
Definition route_query (n : nat) : cgr_query :=
  let hd := header_of bs in
  cgr_arguments (base_time rt) (u32 (env_now (n + w_tick w))) (temp_v_tc_fl hd) (temp_plen hd)
    (temp_hoplim hd) (ip6_addr_to_str (Some (hdr_dest bs))).2 (ip6_addr_to_str (Some sndr)).2.
Definition route_answer (n : nat) : cgr_answer := env_cgr (S n + w_tick w) (route_query n).

(** The next hop: a known node, or, when the best candidate has no usable
    [next_node], whatever the uninitialised variable holds. *)
Definition next_hop_choice (a : cgr_answer) (uninit : ip6_addr) : option ip6_addr :=
  match a with
  | CgrNode id => if bool_decide (is_Some (nodeid_text id)) then Some (addr_of id) else None
  | CgrNone | CgrNotInt => Some uninit
  | _ => None
  end.

(** The request that reads the clock for the check of the contact. *)
Definition check_request (n : nat) (a : cgr_answer) : nat :=
  match a with CgrNode _ => 3 + n | _ => 2 + n end.

Definition hop_open (n : nat) (nh : ip6_addr) : bool :=
  existsb (contact_open (u32 (env_now (check_request n (route_answer n) + w_tick w))) nh) cs.

(** [Some nh] if the packet can be sent to [nh] now. *)
Definition route_now (n : nat) (uninit : ip6_addr) : option ip6_addr :=
  nh ← next_hop_choice (route_answer n) uninit; if hop_open n nh then Some nh else None.

Lemma nodeid_zone id out :
  is_Some (nodeid_text id) -> (nodeid_to_ipv6 id out).2 = ip6_addr_set_zone (zone out) (addr_of id).
Proof.
  intros [txt E]. unfold addr_of, nodeid_to_ipv6. rewrite E.
  by destruct (nodeid_text_parses id txt E) as [x ->].
Qed.

Lemma next_hop_run n uninit :
  existsb (serves (hdr_dest bs)) cs = true -> route_answer n <> CgrNull ->
  exists z a, (let hd := header_of bs in
    dtn_routing_get_dtn_next_hop (temp_v_tc_fl hd) (temp_plen hd) (temp_hoplim hd)
      (temp_dest_addr hd) (Some sndr) uninit (add_ticks n w))
    = Ret (match next_hop_choice (route_answer n) uninit with
           | Some nh => (1, if a : bool then nh else ip6_addr_set_zone z nh)
           | None => (0, uninit)
           end, add_ticks (check_request n (route_answer n)) w).
Proof.
  intros Hsv Hnn. cbv zeta. destruct Hnk as [_ _ _ Hr Hct].
  rewrite (next_hop_exec (add_ticks n w) cs rt) by done.
  change (serves (temp_dest_addr (header_of bs))) with (serves (hdr_dest bs)). rewrite Hsv. cbv zeta.
  change (env_cgr _ _) with (route_answer n).
  destruct (route_answer n) eqn:Ea; cbn [next_hop_choice check_request]; try done;
    rewrite ?add_ticks_add; try (exists 0, true; done).
  exists (zone (env_stack_addr (S (S (w_tick (add_ticks n w)))))), false.
  case_bool_decide as Hid; [|done]. by rewrite nodeid_zone.
Qed.

Lemma wp_route_dtn Q :
  is_local (hdr_dest bs) = false -> existsb (serves (hdr_dest bs)) cs = true ->
  route_answer 3 <> CgrNull ->
  (forall nh z (a : bool) k, route_now 3 (env_stack_addr (2 + w_tick w)) = Some nh ->
     wp (forward_now p nif (if a then nh else ip6_addr_set_zone z nh)) (add_ticks k w) Q) ->
  (forall k, route_now 3 (env_stack_addr (2 + w_tick w)) = None ->
     wp (store_incoming p nif (temp_dest_addr (header_of bs))) (add_ticks k w) Q) ->
  wp (route_incoming p nif (header_of bs) sndr) w Q.
Proof.
  intros Hloc Hsv Hnn HF HS. unfold route_incoming.
  apply wp_bind. eapply wp_exec; [apply for_this_stack_exec|].
  change (is_local (temp_dest_addr (header_of bs))) with (is_local (hdr_dest bs)). rewrite Hloc.
  apply wp_bind. eapply wp_exec; [apply (is_dtn_exec _ cs), Hnk|].
  change (serves (temp_dest_addr (header_of bs))) with (serves (hdr_dest bs)). rewrite Hsv.
  apply wp_bind. eapply wp_exec; [done|].
  rewrite add_ticks_add.
  change (1 + 2)%nat with 3%nat. change (env_stack_addr (w_tick (add_ticks 2 w)))
    with (env_stack_addr (2 + w_tick w)). set (uninit := env_stack_addr (2 + w_tick w)) in *.
  destruct (next_hop_run 3 uninit Hsv Hnn) as (z & a & He).
  apply wp_bind. eapply wp_exec; [exact He|]. clear He.
  unfold route_now in *. set (chk := check_request 3 (route_answer 3)) in *.
  assert (Hct : contacts (add_ticks chk w) cs) by apply Hnk.
  destruct (next_hop_choice (route_answer 3) uninit) as [nh|] eqn:En; cbn [mbind option_bind] in *.
  - assert (Hop : existsb (contact_open (u32 (env_now (w_tick (add_ticks chk w))))
              (if a then nh else ip6_addr_set_zone z nh)) cs = hop_open 3 nh) by (by destruct a).
    apply wp_bind. eapply wp_exec; [by apply is_active_exec|]. rewrite Hop, add_ticks_add.
    cbn [negb Z.eqb Pos.eqb andb]. destruct (hop_open 3 nh); [by apply HF|by apply HS].
  - apply wp_bind. eapply wp_exec; [by apply is_active_exec|]. rewrite add_ticks_add. cbn [negb Z.eqb andb].
    by apply HS.
Qed.
End routing.

(** ** Properties of arriving packets *)

(** Packets the node cannot handle (a component is missing, fewer bytes
    than an IPv6 header, another IP version) are released and nothing else
    happens. *)
Lemma incoming_dropped `{Env} `{Ip6Input} w p b bs nif :
  owned w p b bs ->
  w_controller w = None \/ w_routing w = None \/ w_storage w = None \/ (length bs < 40)%nat \/
    hdr_version bs <> 6 ->
  dtn_controller_process_incoming (Some p) nif w = Ret (tt, del_pbuf p w).
Proof.
  intros [Hs Hr] Hbad. pose proof (pbuf_free_m_exec p b bs w Hs Hr) as Hfree.
  unfold dtn_controller_process_incoming. rewrite (bind_exec get _ w w w) by done.
  destruct (w_controller w), (w_routing w), (w_storage w); try (by exec Hfree).
  exec (pb_node_exec _ _ _ _ Hs). cbn [n_val]. rewrite <-(single_length _ _ _ _ Hs). unfold IP6_HLEN.
  destruct (Z.ltb_spec (Z.of_nat (length bs)) 40); [by exec Hfree|].
  assert (Hv : IP6H_V p w = Ret (hdr_version bs, w)).
  { unfold IP6H_V. by exec (pread8_exec _ _ _ _ 0 Hs ltac:(lia)). }
  exec Hv. destruct (Z.eqb_spec (hdr_version bs) 6); cbn [negb]; [|by exec Hfree].
  destruct Hbad as [?|[?|[?|[?|?]]]]; try done. lia.
Qed.

(** A packet for a destination that is not a DTN node.  It leaves
    unchanged towards its destination, and its buffer is released; nothing
    else of the node changes. *)
Lemma incoming_direct `{Env} `{Ip6Input} w p b bs c t ls recs rt cs nif :
  arrived w p b bs c -> node_ok w t ls recs rt cs -> hdr_nexth bs <> IP6_NEXTH_ICMP6 ->
  is_local (hdr_dest bs) = false -> existsb (serves (hdr_dest bs)) cs = false ->
  wp (dtn_controller_process_incoming (Some p) nif) w (fun _ w' => exists es k,
    transmitted (w_raw w) (hdr_dest bs) bs es /\ w' = del_pbuf p (logged es k w)).
Proof.
  intros Har Hnk Hnx Hloc Hsv. eapply incoming_routes; [by apply arrived_reached|exact Hnk|done|]. unfold route_incoming.
  apply wp_bind. eapply wp_exec; [apply for_this_stack_exec|].
  change (is_local (temp_dest_addr (header_of bs))) with (is_local (hdr_dest bs)). rewrite Hloc.
  apply wp_bind. eapply wp_exec; [apply (is_dtn_exec _ cs), Hnk|].
  change (serves (temp_dest_addr (header_of bs))) with (serves (hdr_dest bs)). rewrite Hsv.
  rewrite add_ticks_add. eapply wp_send_direct; [apply arrived_ticks, Har|]. intros es k Ht.
  exists es, (k + 3)%nat. split; [exact (transmitted_zone _ (byte_at 40 bs) (hdr_dest bs) _ _ Ht)|]. by rewrite logged_ticks.
Qed.

(** C3: a packet for a DTN node with an open contact on the way.  The packet is not
    ICMPv6, has at least 44 bytes and lies in one buffer; the custodian walk over its
    headers ends inside it ([arrived]: on other packets, ordinary UDP ones among them,
    dtn_extract_custodian_option may never return or read behind the buffer); its payload
    length is that of its bytes, at most 65484 of them, and a hop-by-hop header in front
    is a custody header ([passable]: trailing bytes overflow the new buffer, and of any
    other header in front 24 bytes are cut off); the route computation does not fail with
    a null result.
    Then the call returns, the buffer is released and nothing else of the node changes
    but the output.  What is sent goes to the next hop the route computation names: in an
    environment in which memory, [setsockopt] and [sendto] do not fail ([env_fine]), and
    up to the size of the send buffer, exactly the packet with the node's custody header,
    pushed or in place of the previous custodian's; when they fail possibly nothing, a
    part of it, or the packet without the new header. *)
Theorem incoming_forwarded `{Env} `{Ip6Input} w p b bs c t ls recs rt cs nif src nh :
  arrived w p b bs c -> node_ok w t ls recs rt cs -> hdr_nexth bs <> IP6_NEXTH_ICMP6 ->
  is_local (hdr_dest bs) = false -> existsb (serves (hdr_dest bs)) cs = true -> passable bs ->
  ip6_addrs nif !! 1%nat = Some src -> ip6_wf src ->
  let w1 := add_ticks 1 w in
  let sndr := sender w bs c in
  route_answer w1 bs sndr rt 3 <> CgrNull ->
  route_now w1 bs sndr rt cs 3 (env_stack_addr (2 + w_tick w1)) = Some nh ->
  wp (dtn_controller_process_incoming (Some p) nif) w (fun _ w' => exists bs' es k,
    took_custody src bs bs' /\ transmitted (w_raw w) nh bs' es /\ w' = del_pbuf p (logged es k w)).
Proof.
  intros Har Hnk Hnx Hloc Hsv Hpass Hsrc Hsw w1 sndr Hnn Hroute.
  eapply incoming_routes; [by apply arrived_reached|exact Hnk|done|].
  eapply (wp_route_dtn _ p bs nif); [by apply node_ok_ticks|done|done|exact Hnn| |].
  2: { intros k Hno. fold w1 in Hno. fold sndr in Hno. rewrite Hroute in Hno. done. }
  intros nh' z a k Hr. fold w1 in Hr. fold sndr in Hr. rewrite Hroute in Hr. injection Hr as <-.
  unfold w1. rewrite add_ticks_add. eapply wp_forward_now; [apply arrived_ticks, Har|exact Hsrc|done|].
  intros bs' es n Htc Ht. exists bs', es, (n + (k + 1))%nat. split_and!; [done| |by rewrite logged_ticks].
  destruct a; [done|by eapply transmitted_zone].
Qed.

(** The branch that stores. *)
Lemma incoming_stored_spec `{Env} `{Ip6Input} w p b bs c t ls recs rt cs nif src :
  arrived w p b bs c -> node_ok w t ls recs rt cs -> hdr_nexth bs <> IP6_NEXTH_ICMP6 ->
  is_local (hdr_dest bs) = false -> existsb (serves (hdr_dest bs)) cs = true -> storable bs ->
  (48 <= length bs)%nat -> Z.of_nat (length bs) <= 65508 ->
  ip6_addrs nif !! 1%nat = Some src -> ip6_wf src ->
  let w1 := add_ticks 1 w in
  let sndr := sender w bs c in
  let dest := ip6_addr_set_zone (byte_at 40 bs) (hdr_dest bs) in
  route_answer w1 bs sndr rt 3 <> CgrNull ->
  route_now w1 bs sndr rt cs 3 (env_stack_addr (2 + w_tick w1)) = None ->
  wp (dtn_controller_process_incoming (Some p) nif) w (fun _ w' =>
    ((length ls < 5)%nat /\ exists w2 data es k,
       w' = logged es k w2 /\ stored_one w w2 ls recs dest data /\
       (data = stripped bs \/ data = bs) /\ (env_all_ok -> data = stripped bs) /\
       acknowledged src (w_raw w) ICMP6_CODE_DTN_NO_CONTACT bs c es /\ rest_of w2 = rest_of w /\
       owned w' p b bs) \/
    ((env_all_ok -> length ls = 5%nat) /\ exists w2 k, w' = del_pbuf p (add_ticks k w2) /\ unchanged w w2)).
Proof.
  intros Har Hnk Hnx Hloc Hsv Hsb Hl Hmax Hsrc Hsw w1 sndr dest Hnn Hroute.
  eapply incoming_routes; [by apply arrived_reached|exact Hnk|done|].
  eapply (wp_route_dtn _ p bs nif); [by apply node_ok_ticks|done|done|exact Hnn| |].
  { intros nh z a k Hr. fold w1 in Hr. fold sndr in Hr. rewrite Hroute in Hr. done. }
  intros k _. unfold w1. rewrite add_ticks_add.
  eapply (wp_store_incoming (add_ticks (k + 1) w) p b bs c); try done;
    [by apply arrived_ticks|by apply node_ok_ticks| |].
  - intros w2 data es n Hrest Hlt Hone Hd Hok Hack Hown. left. split; [done|].
    exists w2, data, es, n. by split_and!.
  - intros w2 n Hun Hfull. right. split; [done|]. by exists w2, n.
Qed.

(** C4: a packet for a DTN node that cannot be sent on now.  The packet is not ICMPv6, has
    48 to 65508 bytes in one buffer, the custodian walk over its headers ends inside it
    ([arrived]; otherwise the call may never return) and, if it starts with a hop-by-hop
    header, it is well formed and long enough to lose it ([storable]); the route
    computation does not fail with a null result.  Then one of two things happens.  Either there was room,
    and one record with its destination and the packet is appended to the store and its
    file written, the packet without its custody header, or as it came if memory for the
    stripped copy was short; a PCK-RECEIVED report with code 7 is sent to the previous
    custodian or the source, certainly so only if memory, [setsockopt] and [sendto] do
    not fail; and the arriving buffer stays allocated, although no pointer to it is
    left.  Or the packet is dropped, its buffer released and store, files and output
    unchanged: with no failing request only if the store holds five packets, otherwise
    also with room left. *)
Theorem incoming_stored_leaks `{Env} `{Ip6Input} w p b bs c t ls recs rt cs nif src :
  arrived w p b bs c -> node_ok w t ls recs rt cs -> hdr_nexth bs <> IP6_NEXTH_ICMP6 ->
  is_local (hdr_dest bs) = false -> existsb (serves (hdr_dest bs)) cs = true -> storable bs ->
  (48 <= length bs)%nat -> Z.of_nat (length bs) <= 65508 ->
  ip6_addrs nif !! 1%nat = Some src -> ip6_wf src ->
  let w1 := add_ticks 1 w in
  let sndr := sender w bs c in
  let dest := ip6_addr_set_zone (byte_at 40 bs) (hdr_dest bs) in
  route_answer w1 bs sndr rt 3 <> CgrNull ->
  route_now w1 bs sndr rt cs 3 (env_stack_addr (2 + w_tick w1)) = None ->
  wp (dtn_controller_process_incoming (Some p) nif) w (fun _ w' =>
    ((length ls < 5)%nat /\ exists w2 data es k,
       w' = logged es k w2 /\ stored_one w w2 ls recs dest data /\
       (data = stripped bs \/ data = bs) /\ (env_all_ok -> data = stripped bs) /\
       acknowledged src (w_raw w) ICMP6_CODE_DTN_NO_CONTACT bs c es /\ rest_of w2 = rest_of w /\
       owned w' p b bs) \/
    ((env_all_ok -> length ls = 5%nat) /\ exists w2 k, w' = del_pbuf p (add_ticks k w2) /\ unchanged w w2)).
Proof. apply incoming_stored_spec. Qed.

(** What the node relies on in lwIP's input path: it takes the packet over,
    leaves every other buffer, the storage, the contacts and the tables alone,
    and returns [ERR_OK] (ip6.c documents that it always does). *)
Class Ip6InputOk `{Env} `{Ip6Input} : Prop :=
  ip6_input_ok : forall w p b bs nif, owned w p b bs -> stack_packet b bs -> netif_sane nif ->
    wp (ip6_input p nif) w (fun err w' => err = ERR_OK /\ consumed w p w').

Lemma node_ok_consumed w p w' t ls recs rt cs :
  node_ok w t ls recs rt cs -> Some p ∉ entry_pbufs ls -> consumed w p w' -> node_ok w' t ls recs rt cs.
Proof.
  intros [Hk1 Hk2 [Hst Hbd HF Hd] Hk4 Hk5] Hni (es & k & s & d & ->). split; try done. split; [done|done| |done].
  eapply entries_rep_frame; [|exact HF]. intros q Hq. cbn. rewrite lookup_delete_ne; [done|by intros ->].
Qed.

(** Delivery: the acknowledgement, then lwIP with the packet as it came. *)
Lemma wp_deliver_local `{Env} `{Ip6Input} w p b bs c nif src Q :
  arrived w p b bs c -> (48 <= length bs)%nat -> Z.of_nat (length bs) <= 65508 ->
  ip6_addrs nif !! 1%nat = Some src -> ip6_wf src ->
  (forall es k, acknowledged src (w_raw w) ICMP6_CODE_DTN_NO_INFO bs c es ->
     wp (ip6_input p nif) (logged es k w) (fun _ w' => Q tt w')) ->
  wp (deliver_local p nif) w Q.
Proof.
  intros Har Hl Hmax Hsrc Hsw HQ. destruct (arrived_pkt w p b bs c Har) as [Hp Hne]. pose proof Har as [Ho _ _ Hc].
  unfold deliver_local. apply wp_bind. eapply (wp_acknowledge_copy nif src Hsrc Hsw _ p [(p, b)] bs c); try done.
  intros es k Hack. apply wp_bind. eapply wp_mono; [by apply HQ|]. intros err w' Hw'. by apply wp_ret.
Qed.

(** A packet for one of the node's own two addresses is acknowledged with
    code 0 to its custodian or source, and then handed to lwIP, which releases it;
    but for the output nothing else of the node changes. *)
Theorem incoming_local `{Env} `{Ip6Input} `{!Ip6InputOk} w p b bs c t ls recs rt cs nif src :
  arrived w p b bs c -> node_ok w t ls recs rt cs -> hdr_nexth bs <> IP6_NEXTH_ICMP6 ->
  Some p ∉ entry_pbufs ls -> is_local (hdr_dest bs) = true ->
  (48 <= length bs)%nat -> stack_packet b bs -> netif_sane nif ->
  ip6_addrs nif !! 1%nat = Some src ->
  wp (dtn_controller_process_incoming (Some p) nif) w (fun _ w' =>
    node_ok w' t ls recs rt cs /\ exists es es' k s d,
      acknowledged src (w_raw w) ICMP6_CODE_DTN_NO_INFO bs c es /\
      w' = del_pbuf p (set_current s d (logged (es ++ es') k w))).
Proof.
  intros Har Hnk Hnx Hni Hloc Hl Hsk Hnif Hsrc. eapply incoming_routes; [by apply arrived_reached|exact Hnk|done|].
  unfold route_incoming. apply wp_bind. eapply wp_exec; [apply for_this_stack_exec|].
  change (is_local (temp_dest_addr (header_of bs))) with (is_local (hdr_dest bs)). rewrite Hloc.
  rewrite add_ticks_add. pose proof (sk_max _ _ Hsk).
  eapply wp_deliver_local; [by apply arrived_ticks|done|lia|exact Hsrc| |].
  { eapply Forall_lookup_1; [apply Hnif|exact Hsrc]. }
  intros es k Hack. rewrite logged_ticks. pose proof Har as [Ho _ _ _].
  eapply wp_mono; [by apply (ip6_input_ok (logged es (k + (2 + 1)) w) p b bs nif)|].
  intros err w' (_ & es' & k' & s & d & ->). rewrite logged_logged. split.
  - eapply node_ok_consumed; [exact Hnk|exact Hni|]. by eexists _, _, _, _.
  - by eexists _, _, _, _, _.
Qed.

(** The node's own acknowledgements can stop it.  The custodian walk does
    not know upper-layer headers, and reads the bytes of the timestamp in a
    PCK-RECEIVED report as a header whose length can be zero modulo 256: for a
    report with code 0 sent at a time with [now / 256 mod 32 = 31] (one in
    thirty-two, unless its low byte is 0 or 59), the receiving controller
    never returns, whatever the fuel of the walk. *)
Theorem acknowledgement_hangs `{Env} `{Ip6Input} w p b bs now src dest reason nif t ls recs rt cs :
  owned w p b (report ICMP6_TYPE_DTN_PCK_RECEIVED ICMP6_CODE_DTN_NO_INFO now reason bs src dest) ->
  node_ok w t ls recs rt cs -> (48 <= length bs)%nat ->
  0 <= now < 4294967296 -> (now / 256) mod 32 = 31 -> now mod 256 <> 0 -> now mod 256 <> 59 ->
  (forall fuel out, extract_with_fuel fuel (Some p) (Some out) (add_ticks 1 w) = Hang) /\
  dtn_controller_process_incoming (Some p) nif w = Hang.
Proof.
  intros [Hs Hr] Hnk Hl Hnow Hh Hn0 Hn59. set (m := report _ _ _ _ _ _ _) in *.
  assert (Hlen : length m = 105%nat).
  { unfold m, report, report_icmp. rewrite !length_app, report_body_length by done. done. }
  assert (Hs1 : single (w_pbufs (add_ticks 1 w)) p b m) by exact Hs.
  assert (Hw1 : walk_body m (58, 40) = Ret (inl (200, 48))) by done.
  assert (Hw2 : forall n, n <> 0 -> n <> 59 -> walk_body m (n, 48) = Ret (inl (now mod 256, 48))).
  { intros n Hm0 Hm59. unfold walk_body, IP6_NEXTH_HOPOPTS, IP6_NEXTH_NONE.
    rewrite (proj2 (Z.eqb_neq n 0)), (proj2 (Z.eqb_neq n 59)) by done. cbn [orb].
    change (byte_of m 48) with (Ret (now mod 256)). change (byte_of m (48 + 1)) with (Ret (now / 256 mod 256)).
    cbn [mbind outcome_bind]. replace (u8 _) with 0 by zlia. done. }
  assert (Hwalk : forall fuel out, extract_with_fuel fuel (Some p) (Some out) (add_ticks 1 w) = Hang).
  { intros fuel out. eapply (extract_walk_hang _ p m (single_readable _ _ _ _ Hs1)); [lia|]. change (hdr_nexth m) with 58.
    eapply (walk_step_hang _ p m (single_readable _ _ _ _ Hs1)); [done|exact Hw1|].
    eapply (walk_step_hang _ p m (single_readable _ _ _ _ Hs1)); [done|by apply Hw2|].
    eapply (walk_stall_exec _ p m (single_readable _ _ _ _ Hs1)); [done|by apply Hw2]. }
  split; [exact Hwalk|]. destruct Hnk as [Hc _ Hst Hrt _]. destruct (st_list _ _ _ Hst) as (st & Hw & _).
  unfold dtn_controller_process_incoming. rewrite (bind_exec get _ w w w) by done. rewrite Hc, Hrt, Hw.
  exec (pb_node_exec _ _ _ _ Hs). cbn [n_val]. rewrite <-(single_length _ _ _ _ Hs), Hlen.
  change (Z.of_nat 105 <? IP6_HLEN) with false. cbv iota.
  assert (Hv : IP6H_V p w = Ret (6, w)) by (unfold IP6H_V; by exec (pread8_exec _ _ _ _ 0 Hs ltac:(lia))).
  exec Hv. cbn [negb Z.eqb Pos.eqb].
  exec (read_header_bytes w p b m Hs ltac:(lia)). apply bind_hang. unfold sender_of.
  rewrite (bind_exec stack_addr _ w (env_stack_addr (w_tick w)) (add_ticks 1 w)) by done.
  apply bind_hang. apply Hwalk.
Qed.

(** ** The pass over the stored packets *)

Lemma llist_head {V} (h : gmap loc (node V)) p ls : llist h p ls -> p = fst <$> head ls.
Proof. destruct ls as [|[l v] ls]; simpl; naive_solver. Qed.

(** Removing the first match from a list in which [x] matches leaves what is
    behind [x] alone. *)
Lemma remove_first_split {V} (f : V -> bool) (l1 : list (loc * V)) x l2 :
  f x.2 = true ->
  exists l1', remove_first f (l1 ++ x :: l2) = l1' ++ l2 /\ l1' `sublist_of` l1 ++ [x] /\
    length l1' = length l1.
Proof.
  intros Hx. induction l1 as [|[l v] l1 IH]; simpl.
  - destruct x as [l v]. simpl in Hx. rewrite Hx. exists []. split_and!; [done|apply sublist_nil_l|done].
  - destruct (f v).
    + exists (l1 ++ [x]). rewrite <-app_assoc. split_and!; [done|by apply sublist_cons|].
      rewrite length_app. simpl. lia.
    + destruct IH as (l1' & -> & Hs & Hl). exists ((l, v) :: l1'). split_and!; [done|by constructor|simpl; lia].
Qed.

Lemma take_first_split g l1 x l2 :
  g x = true ->
  exists rc l1', take_first g (l1 ++ x :: l2) = Some (rc, l1' ++ l2) /\ l1' `sublist_of` l1 ++ [x] /\
    length l1' = length l1.
Proof.
  intros Hx. induction l1 as [|y l1 IH]; simpl.
  - rewrite Hx. exists x, []. split_and!; [done|apply sublist_nil_l|done].
  - destruct (g y).
    + exists y, (l1 ++ [x]). rewrite <-app_assoc. split_and!; [done|by apply sublist_cons|].
      rewrite length_app. simpl. lia.
    + destruct IH as (rc & l1' & -> & Hs & Hl). exists rc, (y :: l1').
      split_and!; [done|by constructor|simpl; lia].
Qed.

Section pass.
Context `{Env} `{Ip6Input} (nif : netif) (src : ip6_addr).
Context (Hsrc : ip6_addrs nif !! 1%nat = Some src).
Context (rt : Routing_Function) (cs : list Contact_Info).
Context (Hcgr : forall t q, env_cgr t q <> CgrNull).

(** A stored packet the pass can handle: well-formed, answered by the
    custodian walk, and not for the node itself. *)
Definition sendable (d : list Z) : Prop :=
  ip6_packet d /\ (44 <= length d)%nat /\ Z.of_nat (length d) <= 65484 /\
  (exists c, custodian_in d = Ret c) /\ is_local (hdr_dest d) = false.

(** What an attempt for the stored packet [d] sends: nothing, or the packet
    with the node's custody header towards a contact. *)
Definition sent_stored (rs : raw_sockets) (d : list Z) (es : list event) : Prop :=
  es = [] \/ exists nh d', existsb (fun x => ip6_addr_zoneless_eq nh (node_addr x)) cs = true /\
    (d' = with_hbh src d \/ (~ env_fine /\ d' = d)) /\ transmitted rs nh d' es.

Lemma open_is_contact now nh :
  existsb (contact_open now nh) cs = true ->
  existsb (fun x => ip6_addr_zoneless_eq nh (node_addr x)) cs = true.
Proof.
  rewrite !existsb_exists. intros (x & Hin & [Hx _]%andb_true_iff). eauto.
Qed.

(** Sending the copy [fp]. *)
Lemma wp_forward_copy w fp b d dest nh Q :
  owned w fp b d -> ip6_packet d -> Z.of_nat (length d) <= 65484 -> is_local dest = false ->
  (forall d' es k, d' = with_hbh src d \/ (~ env_fine /\ d' = d) -> transmitted (w_raw w) nh d' es ->
     Q tt (del_pbuf fp (logged es k w))) ->
  wp (forward_copy fp nif dest nh) w Q.
Proof.
  intros [Hs Hr] Hpk Hl Hloc HQ. unfold forward_copy.
  apply wp_bind. eapply wp_exec; [apply for_this_stack_exec|]. rewrite Hloc.
  assert (Hne : no_empty [(fp, b)]).
  { constructor; [|constructor]. simpl. rewrite <-(single_length _ _ _ _ Hs). destruct Hpk. lia. }
  apply wp_bind. eapply wp_with_copy_nop; [apply single_pkt; exact Hs|exact Hne|]. intros k1.
  rewrite add_ticks_add. apply wp_bind. eapply wp_lift; [by rewrite Hsrc|].
  apply wp_bind. eapply wp_add_custody_any; [by split|exact Hpk|exact Hl|].
  intros r p' b' d' w' k2 Hd [Hs' Hr'] Hbut Hdel. cbn [snd].
  apply wp_bind. eapply wp_lift; [done|].
  apply wp_bind. eapply wp_raw_send; [by apply single_pkt|]. intros x es k3 Ht.
  apply wp_bind. eapply wp_exec; [eapply (pbuf_free_m_exec p' b' d'); [exact Hs'|exact Hr']|].
  apply wp_ret. erewrite (released_after (k2 + (k1 + 2)) w w' fp p');
    [|by eapply but_pbufs_trans; [apply but_pbufs_ticks|]|exact Hdel].
  eapply HQ; [exact Hd|]. rewrite Hbut in Ht. exact Ht.
Qed.

Lemma wp_forward_stored w t ls recs ep b d Q :
  node_ok w t ls recs rt cs -> owned w ep b d -> sendable d ->
  (forall es k, sent_stored (w_raw w) d es -> Q tt (logged es k w)) ->
  wp (forward_stored ep nif) w Q.
Proof.
  intros Hnk Ho (Hpk & H44 & Hl & (c & Hc) & Hloc) HQ. pose proof Ho as [Hs Hr].
  assert (Hskip : forall k, Q tt (add_ticks k w)).
  { intros k. rewrite <-logged_nil. apply HQ. by left. }
  unfold forward_stored. apply wp_bind. eapply wp_exec; [by apply (read_header_bytes w ep b)|].
  apply wp_bind. eapply wp_exec; [apply (sender_of_bytes w ep d d c); [by eapply single_readable|lia|done]|].
  apply wp_bind. eapply wp_exec; [done|]. rewrite add_ticks_add.
  set (uninit := env_stack_addr _). set (sndr := sender w d c).
  destruct (existsb (serves (hdr_dest d)) cs) eqn:Hsv.
  2: { apply wp_bind. eapply wp_exec.
       { rewrite (next_hop_exec (add_ticks (1 + 1) w) cs rt) by apply Hnk.
         change (serves (temp_dest_addr (header_of d))) with (serves (hdr_dest d)). by rewrite Hsv. }
       apply wp_bind, wp_ret, wp_ret. apply Hskip. }
  destruct (next_hop_run w d sndr t ls recs rt cs Hnk 2 uninit Hsv) as (z & a & He); [apply Hcgr|].
  apply wp_bind. eapply wp_exec; [exact He|]. clear He. set (chk := check_request _ _).
  destruct (next_hop_choice _ uninit) as [nh|] eqn:En; [|by apply wp_bind, wp_ret, wp_ret].
  apply wp_bind. eapply wp_exec; [apply (is_active_exec _ cs), Hnk|]. rewrite add_ticks_add.
  set (nh' := if a then nh else ip6_addr_set_zone z nh).
  destruct (existsb (contact_open _ nh') cs) eqn:Hop; [|by apply wp_ret].
  assert (Hne : no_empty [(ep, b)]).
  { constructor; [|constructor]. simpl. rewrite <-(single_length _ _ _ _ Hs). lia. }
  apply (wp_copy_then (add_ticks (1 + chk) w) ep [(ep, b)] d (mret tt) (fun fp e =>
    if @bool_decide (e = ERR_OK) (decide_rel eq e ERR_OK)
    then forward_copy fp nif (temp_dest_addr (header_of d)) nh' else pbuf_free_m fp;; mret tt));
    [by apply single_pkt|exact Hne| |].
  - intros n _. apply wp_ret. rewrite add_ticks_add. apply Hskip.
  - intros b' _ np Ho'. rewrite bool_decide_true by done.
    eapply wp_forward_copy; [exact Ho'|exact Hpk|exact Hl|exact Hloc|].
    intros d' es k Hd Ht. unfold del_pbuf. rewrite copy_released by apply new_loc_fresh.
    rewrite logged_ticks. apply HQ. right. exists nh', d'. split_and!; [by eapply open_is_contact|done|done].
Qed.

(** The world after a decision, seen from the pass. *)
Lemma decided_node w t ls recs d r w' :
  node_ok w t ls recs rt cs -> decided_as d t ls recs (u32 (env_now (w_tick w))) w r w' ->
  (w_raw w' = w_raw w /\ w_timers w' = w_timers w /\ w_last_active w' = w_last_active w) /\ w_trace w' = w_trace w /\
  exists t', table_ok t' /\
    (node_ok w' t' ls recs rt cs /\ w_pbufs w' = w_pbufs w \/
     r = false /\ exists rc recs', take_first (rec_matches d) recs = Some (rc, recs') /\
       node_ok w' t' (remove_first (dest_matches d) ls) recs' rt cs /\
       exists p, Some p ∈ entry_pbufs ls /\ w_pbufs w' = delete p (w_pbufs w)).
Proof.
  intros [Hc Ht Hst Hr Hcn] (Hrest & t' & Hc' & Hres & Hm & Hstore).
  assert (Ht' : table_ok t') by (destruct (_ && _); [by subst|by destruct Hm]).
  unfold rest_but_controller in Hrest. injection Hrest as Hcon Hrt _ Hla _ _ Hraw _ Htr Htm.
  assert (Hcn' : contacts w' cs).
  { destruct Hcn as (r0 & lc & ? & ? & ?). exists r0, lc. by rewrite Hrt, Hcon. }
  split_and!; [done|done|done|done|]. exists t'. split; [done|].
  destruct (expired (tracked t (dest_key d)) (u32 (env_now (w_tick w)))) eqn:Ex.
  - unfold dropped in Hstore. destruct (take_first (rec_matches d) recs) as [[rc recs']|] eqn:Etf.
    + right. destruct Hstore as (Hst' & p & Hin & Hp). split.
      * rewrite Hres. unfold expired, decision in *. destruct (tracked t (dest_key d)) as [[last n]|]; [|done].
        apply andb_true_iff in Ex as [?%Z.leb_le ?%Z.leb_le].
        rewrite (proj2 (Z.ltb_ge _ _)) by done. by rewrite (proj2 (Z.ltb_ge _ _)) by done.
      * exists rc, recs'. split; [done|]. split; [|by exists p]. split; try done. by rewrite Hrt.
    + left. split; [|by destruct Hstore]. split; try done; [by apply (same_store_stores w)|by rewrite Hrt].
  - left. split; [|by destruct Hstore]. split; try done; [by apply (same_store_stores w)|by rewrite Hrt].
Qed.

Lemma attempt_step w t pre e v post rpre r rpost Q :
  node_ok w t (pre ++ (e, v) :: post) (rpre ++ r :: rpost) rt cs -> length pre = length rpre ->
  sendable (r_data r) ->
  (forall w' t' pre' rpre' es,
     node_ok w' t' (pre' ++ post) (rpre' ++ rpost) rt cs -> length pre' = length rpre' ->
     pre' `sublist_of` pre ++ [(e, v)] -> rpre' `sublist_of` rpre ++ [r] ->
     w_timers w' = w_timers w /\ w_last_active w' = w_last_active w ->
     (forall q, Some q ∉ entry_pbufs (pre ++ (e, v) :: post) -> w_pbufs w' !! q = w_pbufs w !! q) ->
     w_raw w' = w_raw w -> w_trace w' = w_trace w ++ es -> sent_stored (w_raw w) (r_data r) es ->
     Q (inl (fst <$> head post)) w') ->
  wp (attempt_body nif (Some e)) w Q.
Proof.
  intros Hnk Hlen Hsd HQ. pose proof (nk_stores _ _ _ _ _ _ Hnk) as Hst.
  pose proof (st_recs _ _ _ Hst) as HF. apply Forall2_app_inv in HF as [_ HF]; [|done].
  apply Forall2_cons_1 in HF as [(p & b & Ev & Hs & Hr) _]. simpl in Ev.
  destruct (st_list _ _ _ Hst) as (st & Hw & (x & _ & [-> (nx & Hn & Hpost)])%llist_app & _).
  apply llist_head in Hpost. subst nx. unfold attempt_body.
  apply wp_bind. eapply wp_exec; [unfold entry_node, get, lift, mbind, M_bind; by rewrite Hn|].
  cbn [n_val n_next]. assert (Hd : original_dest v = r_dest r) by (by rewrite Ev). rewrite Hd.
  apply wp_bind. eapply (wp_should_attempt w _ _ t); [apply Hnk|apply Hnk|exact Hst|].
  intros ans w1 Hdec.
  destruct (decided_node _ _ _ _ _ _ _ Hnk Hdec) as ([Hraw Hkept] & Htr & t' & _ & Hcase).
  destruct Hcase as [[Hnk1 Hp1]|(-> & rc & recs' & Etf & Hnk1 & q & Hin & Hp1)].
  - destruct ans.
    + apply wp_bind, wp_bind. eapply wp_lift; [by rewrite Ev|].
      eapply (wp_forward_stored w1 t' _ _ p b (r_data r)); [exact Hnk1| |exact Hsd|].
      { split; [by rewrite Hp1|done]. }
      intros es k Hes. apply wp_ret.
      eapply (HQ _ t' (pre ++ [(e, v)]) (rpre ++ [r]) es).
      * rewrite <-!app_assoc. simpl. destruct Hnk1. split; try done. by apply (same_store_stores w1).
      * rewrite !length_app. simpl. lia.
      * done.
      * done.
      * done.
      * intros q _. simpl. by rewrite Hp1.
      * done.
      * simpl. by rewrite Htr.
      * by rewrite <-Hraw.
    + apply wp_bind, wp_ret, wp_ret. eapply (HQ _ t' (pre ++ [(e, v)]) (rpre ++ [r]) []).
      * by rewrite <-!app_assoc.
      * rewrite !length_app. simpl. lia.
      * done.
      * done.
      * done.
      * intros q _. by rewrite Hp1.
      * done.
      * by rewrite Htr, app_nil_r.
      * by left.
  - apply wp_bind, wp_ret, wp_ret.
    destruct (remove_first_split (dest_matches (r_dest r)) pre (e, v) post) as (pre' & E1 & Hsub & Hl1).
    { unfold dest_matches. simpl. rewrite Hd, cmp_zoneless.
      unfold ip6_addr_zoneless_eq. by rewrite !Z.eqb_refl. }
    destruct (take_first_split (rec_matches (r_dest r)) rpre r rpost) as (rc' & rpre' & E2 & Hsub2 & Hl2).
    { unfold rec_matches, ip6_addr_zoneless_eq. by rewrite !Z.eqb_refl. }
    rewrite E1 in Hnk1. rewrite E2 in Etf. injection Etf as <- <-.
    eapply (HQ _ t' pre' rpre' []); [done|lia|done|done|done| |done|by rewrite Htr, app_nil_r|by left].
    intros q' Hq'. rewrite Hp1. apply lookup_delete_ne. by intros ->.
Qed.

Lemma attempt_loop post rpost fuel w t pre rpre :
  node_ok w t (pre ++ post) (rpre ++ rpost) rt cs -> length pre = length rpre ->
  Forall (fun r => sendable (r_data r)) rpost -> (length post < fuel)%nat ->
  wp (loop fuel (attempt_body nif) (fst <$> head post)) w (fun _ w' => exists t' ls' recs' ess,
    node_ok w' t' ls' recs' rt cs /\
    (ls' `sublist_of` pre ++ post /\ recs' `sublist_of` rpre ++ rpost) /\
    (w_raw w' = w_raw w /\ w_timers w' = w_timers w /\ w_last_active w' = w_last_active w) /\
    (forall q, Some q ∉ entry_pbufs (pre ++ post) -> w_pbufs w' !! q = w_pbufs w !! q) /\
    Forall2 (fun r es => sent_stored (w_raw w) (r_data r) es) rpost ess /\
    w_trace w' = w_trace w ++ concat ess).
Proof.
  revert rpost fuel w t pre rpre. induction post as [|[e v] post IH];
    intros rpost fuel w t pre rpre Hnk Hlen Hsd Hf; (destruct fuel as [|fuel]; [simpl in Hf; lia|]).
  - pose proof (Forall2_length _ _ _ (st_recs _ _ _ (nk_stores _ _ _ _ _ _ Hnk))) as Hl.
    rewrite !length_app in Hl. destruct rpost; [|simpl in Hl; lia].
    simpl. apply wp_bind, wp_ret, wp_ret. exists t, (pre ++ []), (rpre ++ []), []. simpl.
    rewrite (app_nil_r (w_trace w)). split_and!; [done|done|done|done|done|done|done|by apply Forall2_nil|done].
  - destruct rpost as [|r rpost].
    { pose proof (Forall2_length _ _ _ (st_recs _ _ _ (nk_stores _ _ _ _ _ _ Hnk))) as Hl.
      rewrite !length_app in Hl. simpl in Hl. lia. }
    apply Forall_cons in Hsd as [Hr Hsd]. simpl in Hf. simpl. apply wp_bind.
    eapply (attempt_step w t pre e v post rpre r rpost); [exact Hnk|done|done|].
    intros w1 t1 pre1 rpre1 es Hnk1 Hl1 Hsub Hrsub [Htm Hla] Hpb Hraw Htr Hes.
    assert (Hsub' : pre1 ++ post `sublist_of` pre ++ (e, v) :: post).
    { change ((e, v) :: post) with ([(e, v)] ++ post). rewrite app_assoc. by apply sublist_app. }
    assert (Hrsub' : rpre1 ++ rpost `sublist_of` rpre ++ r :: rpost).
    { change (r :: rpost) with ([r] ++ rpost). rewrite app_assoc. by apply sublist_app. }
    eapply wp_mono; [apply (IH rpost fuel w1 t1 pre1 rpre1 Hnk1 Hl1 Hsd ltac:(lia))|].
    cbn beta. intros _ w2 (t2 & ls2 & recs2 & ess & Hnk2 & [Hsub2 Hrsub2] & (Hraw2 & Htm2 & Hla2) & Hpb2 & Hess & Htr2).
    exists t2, ls2, recs2, (es :: ess).
    split_and!; [done|by etransitivity|by etransitivity|congruence|congruence|congruence| | |].
    + intros q Hq. rewrite Hpb2, Hpb; [done|done|]. intros Hin. apply Hq.
      eapply elem_of_submseteq; [exact Hin|]. apply sublist_submseteq. by apply fmap_sublist.
    + constructor; [done|]. by rewrite Hraw in Hess.
    + simpl. by rewrite Htr2, Htr, app_assoc.
Qed.
End pass.

Lemma attempt_pass_spec `{Env} `{Ip6Input} nif src w t ls recs rt cs :
  node_ok w t ls recs rt cs -> length (w_last_active w) = 100%nat ->
  ip6_addrs nif !! 1%nat = Some src -> (forall t q, env_cgr t q <> CgrNull) ->
  Forall (fun r => sendable (r_data r)) recs ->
  wp (dtn_controller_attempt_forward_stored nif) w (fun _ w' => exists t' ls' recs' ess,
    node_ok w' t' ls' recs' rt cs /\
    (ls' `sublist_of` ls /\ recs' `sublist_of` recs) /\
    (w_raw w' = w_raw w /\ w_timers w' = w_timers w /\ length (w_last_active w') = 100%nat) /\
    (forall q, Some q ∉ entry_pbufs ls -> w_pbufs w' !! q = w_pbufs w !! q) /\
    Forall2 (fun r es => sent_stored src cs (w_raw w) (r_data r) es) recs ess /\
    w_trace w' = w_trace w ++ concat ess).
Proof.
  intros Hnk Hact Hsrc Hcgr Hsd. unfold dtn_controller_attempt_forward_stored. apply wp_bind, wp_get.
  destruct (st_list _ _ _ (nk_stores _ _ _ _ _ _ Hnk)) as (st & Hw & Hll & _).
  rewrite (nk_controller _ _ _ _ _ _ Hnk), Hw, (nk_routing _ _ _ _ _ _ Hnk).
  apply wp_bind. eapply wp_exec; [apply (update_contacts_exec w cs); [apply Hnk|done]|].
  set (w1 := set_update_statics _ _ _). pose proof (llist_head _ _ _ Hll) as ->.
  assert (Hnk1 : node_ok w1 t ls recs rt cs).
  { destruct Hnk. split; try done. by apply (same_store_stores w). }
  eapply wp_mono; [apply (attempt_loop nif src Hsrc rt cs Hcgr ls recs _ w1 t [] []); try done|].
  { apply llist_length in Hll. lia. }
  cbn beta. intros _ w' (t' & ls' & recs' & ess & ? & ? & (? & ? & Hla) & ? & ? & ?).
  exists t', ls', recs', ess. split_and!; try done; [by destruct_and?|by destruct_and?|].
  rewrite Hla. cbn. by rewrite new_states_length.
Qed.


(** *** Concrete runs *)

(** A node with two open contacts, an empty storage and the packet [bs]. *)
Definition contact_32 : Contact_Info := mk_contact (addr_of 32) (addr_of 21) 0 200000 true.
Definition contact_21 : Contact_Info := mk_contact (addr_of 21) (addr_of 20) 0 200000 true.
Definition with_node (w : world) : world :=
  set_raw two_sockets [5; 4]
    (set_controller (Some (replicate MAX_DESTINATIONS (mk_attempt ip6_addr_any 0 0 false)))
      (set_update_statics 0 (replicate 100 false)
        (set_routing (Some (mk_routing 0 (Some 1%positive)))
          (set_contacts (fun _ => <[1%positive := Node contact_32 (Some 2%positive)]>
                                    {[2%positive := Node contact_21 None]}) w)))).

Lemma with_node_ok w ls recs :
  stores w ls recs ->
  node_ok (with_node w) (replicate MAX_DESTINATIONS (mk_attempt ip6_addr_any 0 0 false)) ls recs
    (mk_routing 0 (Some 1%positive)) [contact_32; contact_21].
Proof.
  intros Hst. split.
  - done.
  - split; [done|constructor|by apply Forall_replicate].
  - by apply (same_store_stores w).
  - done.
  - eexists _, [(1%positive, contact_32); (2%positive, contact_21)]. split_and!; [done| |done].
    simpl. split; [done|]. exists (Some 2%positive). split; [done|]. split; [done|]. by exists None.
Qed.

(** A UDP packet to [d] whose first payload byte ends the custodian walk. *)
Definition quiet_to (d : ip6_addr) : list Z := take 24 quiet_udp ++ ip6_bytes d ++ drop 40 quiet_udp.

Definition quiet_world (d : ip6_addr) : world := with_node (storage_world (quiet_to d)).

Lemma quiet_arrived d :
  Forall is_byte (quiet_to d) -> custodian_in (quiet_to d) = Ret None ->
  arrived (quiet_world d) 1%positive (one_pbuf (quiet_to d)) (quiet_to d) None.
Proof.
  intros Hb Hc. split; [|vm_compute; lia|done|done].
  destruct (one_packet_owned (quiet_to d) Hb ltac:(done)) as [Hs Hr]. by split.
Qed.

Lemma quiet_node_ok d :
  node_ok (quiet_world d) (replicate MAX_DESTINATIONS (mk_attempt ip6_addr_any 0 0 false)) [] []
    (mk_routing 0 (Some 1%positive)) [contact_32; contact_21].
Proof. apply with_node_ok, storage_world_stores. Qed.

(** lwIP discarding a packet it does not want. *)
Definition discard_input : Ip6Input := fun p _ => pbuf_free_m p;; mret ERR_OK.

Lemma discard_input_ok `{Env} : @Ip6InputOk _ discard_input.
Proof.
  intros w p b bs nif [Hs Hr] _ _. unfold ip6_input, discard_input.
  eapply wp_drop; [by apply at_start|done|]. intros w' Hg. split; [done|by apply gone_consumed'].
Qed.

(** A packet in a pool buffer, as the TUN driver leaves it. *)
Definition tun_pbuf (bs : list Z) : pbuf :=
  mk_pbuf (bs ++ replicate 8 0) 0 (Z.of_nat (length bs)) (Z.of_nat (length bs)) PBUF_POOL 0 1 0.
Definition tun_world (bs : list Z) : world :=
  set_pbufs (fun _ => {[1%positive := Node (tun_pbuf bs) None]}) (with_node (storage_world [])).

Lemma tun_owned bs :
  Forall is_byte bs -> Z.of_nat (length bs) < 65536 -> owned (tun_world bs) 1%positive (tun_pbuf bs) bs.
Proof.
  intros Hb Hl. split; [|done]. split_and!; [apply lookup_singleton_eq| |done|].
  - unfold seg_ok, tun_pbuf. cbn [pb_payload pb_len pb_tot_len pb_buf]. rewrite length_app, length_replicate. split_and!; try lia.
    apply Forall_app_2; [done|]. by apply Forall_replicate.
  - unfold seg_bytes, tun_pbuf. cbn [pb_payload pb_len pb_buf]. rewrite slice_app_l by lia. apply slice_all. lia.
Qed.
Lemma tun_stack_packet bs :
  (0 < length bs)%nat -> Z.of_nat (length bs) <= 60000 -> stack_packet (tun_pbuf bs) bs.
Proof. intros Hl Hm. split; [done|done|done|]. unfold tun_pbuf. cbn [pb_payload pb_len pb_buf]. rewrite length_app, length_replicate. lia. Qed.
Lemma tun_node_ok bs :
  node_ok (tun_world bs) (replicate MAX_DESTINATIONS (mk_attempt ip6_addr_any 0 0 false)) [] []
    (mk_routing 0 (Some 1%positive)) [contact_32; contact_21].
Proof.
  destruct (with_node_ok _ _ _ (storage_world_stores [])) as [? ? [? ? _ ?] ? ?]. split; try done.
Qed.
Lemma node1_sane : netif_sane node1_netif.
Proof. split; [by split|]. repeat constructor; by vm_compute. Qed.

Definition far_away : ip6_addr := ip6_of_bytes [253; 0; 0; 0x23; 0; 0; 0; 0; 0; 0; 0; 0; 0; 0; 0; 7].

Lemma incoming_dropped_witness :
  @dtn_controller_process_incoming calm_env discard_input (Some 1%positive) node1_netif
    (one_packet (replicate 48 0)) = Ret (tt, del_pbuf 1%positive (one_packet (replicate 48 0))).
Proof.
  apply (@incoming_dropped calm_env discard_input _ _ (one_pbuf (replicate 48 0)) (replicate 48 0)).
  - apply one_packet_owned; [decided|done].
  - by left.
Defined.

Lemma quiet_packet : ip6_packet (quiet_to (addr_of 32)).
Proof. split_and!; [decided|by vm_compute|decided]. Qed.

Lemma incoming_forwarded_witness :
  wp (@dtn_controller_process_incoming env_21 discard_input (Some 1%positive) node1_netif)
    (quiet_world (addr_of 32)) (fun _ w' => exists bs' es k,
      @took_custody env_21 node2 (quiet_to (addr_of 32)) bs' /\
      @transmitted env_21 two_sockets (addr_of 21) bs' es /\
      w' = del_pbuf 1%positive (logged es k (quiet_world (addr_of 32)))).
Proof.
  eapply (@incoming_forwarded env_21 discard_input (quiet_world (addr_of 32)) 1%positive).
  - apply quiet_arrived; [decided|by vm_compute].
  - apply quiet_node_ok.
  - by vm_compute.
  - by vm_compute.
  - by vm_compute.
  - split_and!; [apply quiet_packet|by vm_compute|intros Hz; by vm_compute in Hz].
  - reflexivity.
  - unfold ip6_wf, word32. by vm_compute.
  - by vm_compute.
  - by vm_compute.
Defined.

Lemma quiet_storable : storable (quiet_to (addr_of 32)).
Proof. split_and!; [decided|decided|intros Hz; by vm_compute in Hz]. Qed.

Lemma incoming_stored_leaks_witness :
  wp (@dtn_controller_process_incoming calm_env discard_input (Some 1%positive) node1_netif)
    (quiet_world (addr_of 32)) (fun _ w' =>
      owned w' 1%positive (one_pbuf (quiet_to (addr_of 32))) (quiet_to (addr_of 32))).
Proof.
  eapply wp_mono.
  - refine (@incoming_stored_leaks calm_env discard_input (quiet_world (addr_of 32)) 1%positive
             (one_pbuf (quiet_to (addr_of 32))) (quiet_to (addr_of 32)) None
             (replicate MAX_DESTINATIONS (mk_attempt ip6_addr_any 0 0 false)) [] []
             (mk_routing 0 (Some 1%positive)) [contact_32; contact_21] node1_netif node2
             _ (quiet_node_ok (addr_of 32)) _ _ _ quiet_storable _ _ _ _ _ _).
    + apply quiet_arrived; [decided|by vm_compute].
    + by vm_compute.
    + by vm_compute.
    + by vm_compute.
    + vm_compute. lia.
    + by vm_compute.
    + reflexivity.
    + unfold ip6_wf, word32. by vm_compute.
    + by vm_compute.
    + by vm_compute.
  - cbn beta. intros _ w' [(_ & w2 & data & es & k & _ & _ & _ & _ & _ & _ & Ho)|(Hfull & _)]; [exact Ho|].
    specialize (Hfull calm_all_ok). done.
Defined.

Lemma incoming_local_witness :
  wp (@dtn_controller_process_incoming calm_env discard_input (Some 1%positive) node1_netif)
    (tun_world (quiet_to local_1)) (fun _ w' =>
    node_ok w' (replicate MAX_DESTINATIONS (mk_attempt ip6_addr_any 0 0 false)) [] []
      (mk_routing 0 (Some 1%positive)) [contact_32; contact_21]).
Proof.
  eapply wp_mono.
  - refine (@incoming_local calm_env discard_input (@discard_input_ok calm_env) (tun_world (quiet_to local_1)) 1%positive
             (tun_pbuf (quiet_to local_1)) (quiet_to local_1) None
             (replicate MAX_DESTINATIONS (mk_attempt ip6_addr_any 0 0 false)) [] []
             (mk_routing 0 (Some 1%positive)) [contact_32; contact_21] node1_netif node2
             _ (tun_node_ok _) _ _ _ _ _ node1_sane eq_refl).
    + split; [apply tun_owned; [decided|by vm_compute]|vm_compute; lia|by vm_compute|by vm_compute].
    + by vm_compute.
    + by apply not_elem_of_nil.
    + by vm_compute.
    + vm_compute. lia.
    + apply tun_stack_packet; [vm_compute; lia|by vm_compute].
  - cbn beta. intros _ w' [Hn _]. exact Hn.
Defined.

Definition late_ack : list Z := report 200 0 (31 * 256 + 5) 0 quiet_udp node2 node2.

Lemma acknowledgement_hangs_witness :
  let w := with_node (storage_world late_ack) in
  (forall fuel out, extract_with_fuel fuel (Some 1%positive) (Some out) (add_ticks 1 w) = Hang) /\
  @dtn_controller_process_incoming calm_env discard_input (Some 1%positive) node1_netif w = Hang.
Proof.
  intros w. eapply (@acknowledgement_hangs calm_env discard_input w 1%positive (one_pbuf late_ack)).
  - destruct (one_packet_owned late_ack) as [Hs Hr]; [decided|by vm_compute|]. split; [exact Hs|exact Hr].
  - apply with_node_ok, storage_world_stores.
  - vm_compute. lia.
  - lia.
  - by vm_compute.
  - by vm_compute.
  - by vm_compute.
Defined.

Definition stored_quiet : list (loc * Stored_Packet_Entry) :=
  [(1%positive, mk_entry (Some 1%positive) node2 5 (str "f"))].
Definition pass_world : world := with_node (confirm_world (quiet_to (addr_of 32)) []).

