(* ===== verification/Offer.v ===== *)
(** * ICMPv6 packets through the controller (src/dtn_controller.c)

    The ICMPv6 stage of [dtn_controller_process_incoming]: a copy of the message
    is offered to the DTN handler.  A report is consumed there and changes the
    storage and the retry table; any other message goes on to routing as if it
    had not been offered. *)

From S2P Require Import Prelude LinkedList Ip6Addr World Netif Pbuf Ip6Hdr Custody Buffer Storage StorageSpec Routing RoutingSpec InetChksum RawSocket Ip6Spec Tracking DtnIcmp Controller ControllerSpec.

Section offer.
Context `{Env} `{Ip6Input}.

(** The handler sees the message in a buffer of its own. *)
Lemma wp_offer w p b bs Q :
  owned w p b bs -> (40 < length bs)%nat -> Z.of_nat (length bs) <= 60000 ->
  (env_mem_malloc (w_tick w) = false -> Q true (del_pbuf p (add_ticks 1 w))) ->
  (env_mem_malloc (w_tick w) = true -> forall q bq w1, q <> p -> w_pbufs w !! q = None -> w1 = put_pbuf q bq (add_ticks 1 w) ->
     single (w_pbufs w1) q bq (drop 40 bs) -> pb_ref bq = 1 ->
     wp (dtn_controller_process_icmpv6 (Some q)) w1 (fun done w2 =>
       wp (if negb (done =? 0) then pbuf_free_m q;; pbuf_free_m p;; mret true
           else pbuf_free_m q;; mret false) w2 Q)) ->
  wp (offer_icmpv6 p) w Q.
Proof.
  intros [Hs Hr] Hl Hmax Hno Hyes. pose proof (single_length _ _ _ _ Hs) as Hlen. pose proof Hs as (Hp & _ & Ht & _).
  unfold offer_icmpv6. apply wp_bind. eapply wp_exec; [by eapply pb_node_exec|]. cbn [n_val]. apply wp_bind.
  apply wp_alloc_ram; [by left|lia| |].
  { intros Hm. apply wp_bind. eapply wp_exec; [by eapply pbuf_free_m_exec|]. by apply wp_ret, Hno. }
  intros b0 F w1 Hm HF Hr0 (b1 & -> & Hs1 & Hr1). set (q := new_loc (w_pbufs w)) in *.
  assert (Hq : w_pbufs w !! q = None) by apply new_loc_fresh. assert (Hne : q <> p) by congruence.
  set (w1 := put_pbuf q b1 (add_ticks 1 w)) in *.
  destruct (pbuf_copy_ok (w_pbufs w1) q b1 F p [(p, b)] bs) as (b2 & E & Hs2 & Hb2);
    [by apply single_pkt, single_put_ne|by constructor; [cbn; lia|]|exact Hs1|set_solver|lia|].
  apply wp_bind, wp_get, wp_bind. eapply wp_lift; [exact E|]. apply wp_bind, wp_modify. cbn [fst snd].
  rewrite bool_decide_eq_true_2 by done. cbn [negb].
  destruct (remove_header_ok _ q b2 bs 40 Hs2 ltac:(lia) ltac:(lia)) as [Eh Hs3].
  apply wp_bind, wp_get, wp_bind. eapply wp_lift; [exact Eh|]. apply wp_bind, wp_modify. cbn [fst snd negb Z.eqb].
  apply wp_bind. apply (Hyes Hm q (shifted 40 b2)); [done|done| |exact Hs3|].
  - apply world_eq; try reflexivity. cbn. by rewrite !insert_insert_eq.
  - cbn. rewrite Hb2. by destruct Hr1 as [-> _].
Qed.

(** A message of another type: refused, and the copy released. *)
Lemma wp_offer_foreign w p b bs t st Q :
  owned w p b bs -> w_controller w = Some t -> w_storage w = Some st ->
  (40 < length bs)%nat -> Z.of_nat (length bs) <= 60000 ->
  byte_at 40 bs < ICMP6_TYPE_DTN_PCK_RECEIVED \/ ICMP6_TYPE_DTN_PCK_DELETED < byte_at 40 bs ->
  (env_mem_malloc (w_tick w) = false -> Q true (del_pbuf p (add_ticks 1 w))) ->
  (env_mem_malloc (w_tick w) = true -> Q false (add_ticks 1 w)) ->
  wp (offer_icmpv6 p) w Q.
Proof.
  intros Ho Hc Hst Hl Hmax Hty Hno Hyes. eapply wp_offer; [exact Ho|done|done|exact Hno|]. intros Hm q bq w1 Hne Hq -> Hs Hr.
  unfold dtn_controller_process_icmpv6. apply wp_bind, wp_get. cbn [w_controller put_pbuf set_pbufs add_ticks].
  rewrite Hc. unfold dtn_icmpv6_process. apply wp_bind, wp_get.
  cbn [w_controller w_storage put_pbuf set_pbufs add_ticks]. rewrite Hst, Hc.
  apply wp_bind. eapply wp_exec; [apply (pread8_exec _ _ _ _ 0 Hs); rewrite length_drop; lia|].
  assert (E : byte_at (Z.to_nat 0) (drop 40 bs) = byte_at 40 bs) 
    by (unfold byte_at; rewrite nth_skipn; done). rewrite E. clear E.
  unfold ICMP6_TYPE_DTN_PCK_RECEIVED, ICMP6_TYPE_DTN_PCK_FORWARDED, ICMP6_TYPE_DTN_PCK_DELIVERED,
    ICMP6_TYPE_DTN_PCK_DELETED in *.
  do 4 (rewrite (proj2 (Z.eqb_neq _ _)) by lia; cbn [orb]). apply wp_ret. cbn [negb Z.eqb].
  apply wp_bind. eapply wp_exec; [by eapply pbuf_free_m_exec|]. apply wp_ret.
  replace (set_pbufs _ _) with (add_ticks 1 w); [by apply Hyes|].
  apply world_eq; try reflexivity. cbn. by rewrite delete_insert_id.
Qed.

(** A report that confirms a packet. *)
Definition remaining (g : stored_rec -> bool) (recs : list stored_rec) : list stored_rec :=
  match take_first g recs with Some (_, recs') => recs' | None => recs end.

Lemma remaining_sublist g recs : remaining g recs `sublist_of` recs.
Proof.
  unfold remaining. destruct (take_first g recs) as [[rc rest]|] eqn:E; [|done].
  revert rest E. induction recs as [|r recs IH]; intros rest E; simpl in E; [done|].
  destruct (g r); [simplify_eq; by constructor|].
  destruct (take_first g recs) as [[x l]|]; simplify_eq/=. constructor. by apply IH.
Qed.

(** Buffers that store nothing can go. *)
Lemma stores_delete w ls recs q : stores w ls recs -> Some q ∉ entry_pbufs ls -> stores (del_pbuf q w) ls recs.
Proof.
  intros [Hl Hb Hr Hd] Hq. split; [done|done| |done]. eapply entries_rep_frame; [|exact Hr].
  intros l Hin. apply lookup_delete_ne. by intros ->.
Qed.

Lemma removed_stores g ls recs w w' :
  stores w ls recs -> removed_first g ls recs w w' ->
  exists ls', stores w' ls' (remaining g recs) /\ ls' `sublist_of` ls /\
    (forall q, Some q ∉ entry_pbufs ls -> w_pbufs w' !! q = w_pbufs w !! q).
Proof.
  unfold removed_first, remaining. intros Hst Hrm. destruct (take_first g recs) as [[rc recs']|].
  - destruct Hrm as (ls' & p' & Hst' & Hsub & Hin & E). exists ls'. split_and!; [done|done|]. intros q Hq.
    rewrite E, lookup_delete_ne; [done|]. by intros ->.
  - exists ls. split_and!; [by eapply same_store_stores|done|]. intros q _. by destruct Hrm as [-> _].
Qed.

Lemma sublist_pbufs ls ls' x : ls' `sublist_of` ls -> x ∈ entry_pbufs ls' -> x ∈ entry_pbufs ls.
Proof.
  unfold entry_pbufs. rewrite !list_elem_of_fmap. intros Hs (e & -> & He). exists e. split; [done|].
  by eapply elem_of_sublist.
Qed.

(** A report, whatever it confirms. *)
Lemma report_spec w p b bs c t ls recs rt cs nif :
  reached w p b bs c -> node_ok w t ls recs rt cs -> Some p ∉ entry_pbufs ls ->
  hdr_nexth bs = IP6_NEXTH_ICMP6 -> byte_at 40 bs = ICMP6_TYPE_DTN_PCK_RECEIVED ->
  (105 <= length bs)%nat -> Z.of_nat (length bs) <= 2088 ->
  let m := drop 40 bs in
  confirmable m recs -> no_hbh_from (slice 8 16 (quoted_packet m)) recs ->
  wp (dtn_controller_process_incoming (Some p) nif) w (fun _ w' =>
    if env_mem_malloc (S (w_tick w)) then
      exists t' ls', node_ok w' t' ls' (remaining (if env_mem_malloc (S (S (w_tick w))) then confirms m
                                                  else rec_header_matches (slice 17 40 m)) recs) rt cs /\ ls' `sublist_of` ls /\
        map_after t t' (dest_key (hdr_dest (quoted_packet m))) None /\
        w_pbufs w' !! p = None /\ rest_but_controller w' = rest_but_controller w /\
        (forall q, q <> p -> Some q ∉ entry_pbufs ls -> w_pbufs w' !! q = w_pbufs w !! q)
    else w' = del_pbuf p (add_ticks 2 w)).
Proof.
  intros Har Hnk Hp Hnx Hty Hl Hmax m Hq0 Hno. pose proof Har as [Ho _ _ _]. pose proof Hnk as [Hc Hok Hst Hr Hcs].
  eapply incoming_reads; [exact Har|exact Hnk|]. rewrite Hnx, Z.eqb_refl. apply wp_bind.
  apply (wp_offer (add_ticks 1 w) p b bs); [exact Ho|lia|lia| |].
  { intros Hm. apply wp_ret. cbn in Hm. rewrite Hm. done. }
  intros Hm q bq w1 Hne Hq -> Hs1 Hr1. cbn in Hm. rewrite Hm. rewrite add_ticks_add in *. fold m in Hs1.
  set (w1 := put_pbuf q bq (add_ticks (1 + 1) w)) in *.
  assert (Hst1 : stores w1 ls recs).
  { destruct Hst as [? ? Hrr ?]. split; [done|done| |done]. by apply entries_rep_fresh. }
  assert (Hqe : Some q ∉ entry_pbufs ls) by (eapply (fresh_not_stored w); [exact Hst|exact Hq]).
  assert (Hm0 : byte_at 0 m = ICMP6_TYPE_DTN_PCK_RECEIVED) by (rewrite <-Hty; unfold byte_at, m; by rewrite nth_skipn).
  assert (Hlm : length m = (length bs - 40)%nat) by (unfold m; by rewrite length_drop).
  unfold dtn_controller_process_icmpv6. apply wp_bind, wp_get. cbn [w_controller w1 put_pbuf set_pbufs add_ticks].
  rewrite Hc. apply (wp_process_received w1 ls recs Hst1 q bq m Hs1 Hqe ltac:(lia) ltac:(lia) Hq0 Hno t Hc Hok); [exact Hm0|].
  intros w2 t' Hrest Hc' Hmap Hrm Hs2. cbn [negb Z.eqb].
  destruct (removed_stores _ ls recs w1 w2 Hst1 Hrm) as (ls' & Hst2 & Hsub & Hfr).
  assert (Hsp : single (w_pbufs (del_pbuf q w2)) p b bs).
  { apply single_delete_ne; [done|]. destruct Ho as [Hs _]. split; [|apply Hs].
    rewrite Hfr by done. cbn. rewrite lookup_insert_ne by done. apply Hs. }
  apply wp_bind. eapply wp_exec; [by eapply pbuf_free_m_exec|]. apply wp_bind.
  eapply wp_exec; [eapply (pbuf_free_m_exec p); [exact Hsp|apply Ho]|]. apply wp_ret, wp_ret.
  exists t', ls'. split_and!; [..|done|exact Hmap| | |].
  - assert (forall x, Some x ∉ entry_pbufs ls -> Some x ∉ entry_pbufs ls') as Hnot by (intros x Hx Hx'; by eapply Hx, sublist_pbufs).
    injection Hrest as E1 E2 _ _ _ _ _ _ _. split; [exact Hc'|apply Hmap| |by cbn; rewrite E2|].
    + do 2 (apply stores_delete; [|by apply Hnot]). exact Hst2.
    + destruct Hcs as (r & lc & Hrr & Hll & Hc2). exists r, lc. cbn. by rewrite E1, E2.
  - apply lookup_delete_eq.
  - exact Hrest.
  - intros x Hx Hin. cbn. rewrite lookup_delete_ne by done. destruct (decide (x = q)) as [->|Hxq].
    + rewrite lookup_delete_eq. symmetry. exact Hq.
    + rewrite lookup_delete_ne by done. rewrite Hfr by done. cbn. by rewrite lookup_insert_ne.
Qed.

(** C14: an acknowledgement arrives.  A PCK-RECEIVED report of 105 to 2088 bytes in one
    buffer, taken from the network by the controller, on which the custodian walk ends in
    the memory of the buffer ([reached]; a report with other bytes in its clock field can
    hang the node), that quotes a packet without custody header, or one with it while the
    stored packets of its source are shorter than the bytes the code then compares
    ([confirmable]), and no stored packet of the quoted source starts with a hop-by-hop
    header ([no_hbh_from]; otherwise the search never ends).  With memory for a copy of
    the report, the storage loses exactly the first packet the report confirms, the
    retry record of the quoted destination is cleared and no other, and report and copy
    are released; every other buffer, the contacts and the output are as before.
    A packet is confirmed if it has the source and the protocol of the quoted one and its
    first payload bytes, where they are compared; its destination is not compared,
    although the comment in dtn_storage.c says so.  Without memory for the lookup the
    quoted header decides.  With no memory for the copy the report is dropped and nothing
    else happens. *)
Theorem incoming_report w p b bs c t ls recs rt cs nif :
  reached w p b bs c -> node_ok w t ls recs rt cs -> Some p ∉ entry_pbufs ls ->
  hdr_nexth bs = IP6_NEXTH_ICMP6 -> byte_at 40 bs = ICMP6_TYPE_DTN_PCK_RECEIVED ->
  (105 <= length bs)%nat -> Z.of_nat (length bs) <= 2088 ->
  let m := drop 40 bs in
  confirmable m recs -> no_hbh_from (slice 8 16 (quoted_packet m)) recs ->
  wp (dtn_controller_process_incoming (Some p) nif) w (fun _ w' =>
    if env_mem_malloc (S (w_tick w)) then
      exists t' ls', node_ok w' t' ls' (remaining (if env_mem_malloc (S (S (w_tick w))) then confirms m
                                                  else rec_header_matches (slice 17 40 m)) recs) rt cs /\ ls' `sublist_of` ls /\
        map_after t t' (dest_key (hdr_dest (quoted_packet m))) None /\
        w_pbufs w' !! p = None /\ w_trace w' = w_trace w /\
        (forall q, q <> p -> Some q ∉ entry_pbufs ls -> w_pbufs w' !! q = w_pbufs w !! q)
    else w' = del_pbuf p (add_ticks 2 w)).
Proof.
  intros Har Hnk Hp Hnx Hty Hl Hmax m Hq0 Hno. eapply wp_mono; [by eapply report_spec|]. cbn beta. intros _ w'.
  destruct (env_mem_malloc _); [|done]. intros (t' & ls' & ? & ? & ? & ? & Hrest & ?).
  exists t', ls'. split_and!; try done. by injection Hrest.
Qed.
End offer.

(** *** A concrete run *)

Definition ack_packet : list Z := report 200 0 0 0 (sample_udp 0) node2 node2.
Definition ack_node : world := with_node (confirm_world (sample_udp 0) ack_packet).

Lemma incoming_report_witness :
  wp (@dtn_controller_process_incoming calm_env discard_input (Some 2%positive) node1_netif) ack_node (fun _ w' =>
    exists t' ls', node_ok w' t' ls' [] (mk_routing 0 (Some 1%positive)) [contact_32; contact_21] /\
      w_pbufs w' !! 2%positive = None).
Proof.
  eapply wp_mono.
  - refine (@incoming_report calm_env discard_input ack_node 2%positive (one_pbuf ack_packet) ack_packet None
             (replicate MAX_DESTINATIONS (mk_attempt ip6_addr_any 0 0 false))
             [(1%positive, mk_entry (Some 1%positive) node2 5 (str "f"))] [confirm_rec (sample_udp 0)]
             (mk_routing 0 (Some 1%positive)) [contact_32; contact_21] node1_netif _ _ _ _ _ _ _ _ _).
    + split; [|vm_compute; lia|by vm_compute|by vm_compute].
      split; [|done]. apply one_pbuf_single; [done|decided|by vm_compute].
    + apply with_node_ok, confirm_world_stores; [decided|done].
    + decided.
    + by vm_compute.
    + by vm_compute.
    + vm_compute. lia.
    + by vm_compute.
    + by apply confirmable_plain.
    + decided.
  - cbn beta. intros _ w' (t' & ls' & Hn & _ & _ & Hp & _). exists t', ls'. split; [|exact Hp]. exact Hn.
Defined.
