(* ===== verification/Transfer.v ===== *)
(** * A packet changes its custodian

    Two nodes, each with its own environment.  One takes a packet that carries
    the custody header of the other into its store and acknowledges it; the
    other, when the acknowledgement arrives, gives its copy up.  The theorem
    follows the packet and the acknowledgement through both controllers. *)

From S2P Require Import Prelude LinkedList Ip6Addr RouteTable World Netif Pbuf Ip6Hdr Custody Buffer Storage StorageSpec Routing RoutingSpec InetChksum RawSocket Tracking DtnIcmp Controller ControllerSpec Offer.

(** ** What the acknowledgement quotes *)

Section quoting.
Context (a : ip6_addr) (inner : list Z) (Hpk : ip6_packet inner) (Hroom : Z.of_nat (length inner) + 24 < 65536).

Lemma quoted_report type code now reason bs src dest :
  quoted_packet (drop 40 (report type code now reason bs src dest)) = take 48 bs.
Proof. done. Qed.

Lemma report_length type code now reason bs src dest :
  (48 <= length bs)%nat -> length (report type code now reason bs src dest) = 105%nat.
Proof. intros. unfold report, report_icmp. rewrite !length_app, report_body_length by done. done. Qed.

Lemma byte_at_take i n bs : (i < n)%nat -> byte_at i (take n bs) = byte_at i bs.
Proof. intros. unfold byte_at. rewrite !nth_lookup, lookup_take_lt by lia. done. Qed.

(** The custody header leaves the addresses where they are. *)
Lemma with_hbh_source : slice 8 16 (with_hbh a inner) = slice 8 16 inner.
Proof.
  destruct Hpk as (? & _ & _). unfold with_hbh.
  rewrite slice_app_l by (rewrite set_hdr_length; [lia|len]). unfold set_hdr.
  rewrite !slice_splice_after by (rewrite ?length_splice; len). apply slice_take. lia.
Qed.

Lemma stripped_with_hbh : stripped (with_hbh a inner) = inner.
Proof.
  unfold stripped. destruct (with_hbh_fields inner a Hpk Hroom) as [-> _]. simpl. by apply without_with_hbh.
Qed.

(** The stored packets an acknowledgement for [inner] stands for: of its source
    and protocol.  Nothing more is compared. *)
Definition same_flow (r : stored_rec) : bool :=
  same_source (slice 8 16 inner) r && (hdr_nexth (r_data r) =? hdr_nexth inner).

Context (m : list Z) (Hm : quoted_packet m = take 48 (with_hbh a inner)).

Lemma ack_quotes :
  hdr_nexth (quoted_packet m) = 0 /\ byte_at 41 (quoted_packet m) = 2 /\
  slice 8 16 (quoted_packet m) = slice 8 16 inner /\ quoted_proto m = hdr_nexth inner.
Proof.
  pose proof (with_hbh_at inner a Hpk 0 ltac:(lia)) as E0. pose proof (with_hbh_at inner a Hpk 1 ltac:(lia)) as E1.
  destruct (with_hbh_fields inner a Hpk Hroom) as [En _]. unfold quoted_proto, hdr_nexth at 1 2. rewrite Hm.
  rewrite !byte_at_take, slice_take, with_hbh_source by lia. fold (hdr_nexth (with_hbh a inner)).
  rewrite En. split_and!; [done|exact E1|done|exact E0].
Qed.

Lemma ack_confirms recs :
  Forall (fun r => Z.of_nat (length (r_data r)) < 280) recs ->
  confirmable m recs /\ Forall (fun r => confirms m r = same_flow r) recs.
Proof.
  intros Hsh. destruct ack_quotes as (E0 & E1 & Es & Ep). split; [by apply confirmable_custody|].
  eapply Forall_impl; [exact Hsh|]. intros r Hr. cbn beta in Hr.
  unfold confirms, rec_quote_matches, same_flow. rewrite Es, Ep. f_equal.
  assert (Hc : compared m = 240) by (unfold compared; rewrite E0, E1; done).
  rewrite Hc, (proj2 (Z.ltb_lt _ _)) by lia. cbn [orb]. by rewrite andb_true_r.
Qed.
End quoting.

Lemma take_first_at (g : stored_rec -> bool) l1 x l2 :
  Forall (fun y => g y = false) l1 -> g x = true -> take_first g (l1 ++ x :: l2) = Some (x, l1 ++ l2).
Proof. intros H1 Hx. induction H1 as [|y l1 Hy _ IH]; simpl; [by rewrite Hx|]. by rewrite Hy, IH. Qed.

Lemma remaining_at g l1 x l2 :
  Forall (fun y => g y = false) l1 -> g x = true -> remaining g (l1 ++ x :: l2) = l1 ++ l2.
Proof. intros. unfold remaining. by rewrite take_first_at. Qed.

(** ** Properties *)

(** C6: a custody transfer.  Node B, which cannot send the packet [inner] on now
    but has room, gets it with the custody header of the node with address [a].
    B appends the packet to its store and sends one acknowledgement to [a].  When
    that arrives at the node A, whose store holds [inner] and no earlier packet of
    its source and protocol, A removes exactly this packet and sends nothing.
    The hypotheses on A: the acknowledgement came complete in one buffer, the walk
    for a custodian that the controller starts on it ends, and stored packets are
    shorter than 280 bytes and without custody header. *)
Theorem custody_transfer (EA EB : Env) (IA IB : Ip6Input)
    wB pB bB a inner tB lsB recsB rtB csB nifB srcB :
  let bs := with_hbh a inner in
  let dest := ip6_addr_set_zone (byte_at 40 bs) (hdr_dest bs) in
  let sndr := @sender EB wB bs (Some (ip6_bytes a)) in
  ip6_packet inner -> Z.of_nat (length inner) <= 65484 -> owned wB pB bB bs -> hdr_version bs = 6 ->
  node_ok wB tB lsB recsB rtB csB -> (length lsB < 5)%nat ->
  is_local (hdr_dest bs) = false -> existsb (serves (hdr_dest bs)) csB = true ->
  ip6_addrs nifB !! 1%nat = Some srcB -> ip6_wf srcB ->
  @route_answer EB (add_ticks 1 wB) bs sndr rtB 3 <> CgrNull ->
  @route_now EB (add_ticks 1 wB) bs sndr rtB csB 3 (@env_stack_addr EB (2 + w_tick (add_ticks 1 wB))) = None ->
  @env_fine EB -> @env_all_ok EB -> @env_all_ok EA ->
  wp (@dtn_controller_process_incoming EB IB (Some pB) nifB) wB (fun _ wB' => exists w2 now,
    let ack := report ICMP6_TYPE_DTN_PCK_RECEIVED ICMP6_CODE_DTN_NO_CONTACT now 0 bs srcB (ip6_of_bytes (ip6_bytes a)) in
    stored_one wB w2 lsB recsB dest inner /\ w_pbufs wB' = w_pbufs w2 /\
    w_trace wB' = w_trace wB ++ transmission (w_raw wB) (ip6_of_bytes (ip6_bytes a)) ack /\
    forall wA pA bA c tA lsA r1 r r2 rtA csA nifA,
      reached wA pA bA ack c -> node_ok wA tA lsA (r1 ++ r :: r2) rtA csA -> Some pA ∉ entry_pbufs lsA ->
      r_data r = inner -> Forall (fun x => same_flow inner x = false) r1 ->
      Forall (fun x => Z.of_nat (length (r_data x)) < 280) (r1 ++ r :: r2) ->
      no_hbh_from (slice 8 16 inner) (r1 ++ r :: r2) ->
      wp (@dtn_controller_process_incoming EA IA (Some pA) nifA) wA (fun _ wA' => exists tA' lsA',
        node_ok wA' tA' lsA' (r1 ++ r2) rtA csA /\ w_trace wA' = w_trace wA)).
Proof.
  intros bs dest sndr Hpk Hl Ho Hv Hnk Hroom Hloc Hsv Hsrc Hsw Hnn Hno Hfine HokB HokA.
  assert (H40 : (40 <= length inner)%nat) by apply Hpk.
  pose proof (with_hbh_length inner a Hpk) as Hbl. fold bs in Hbl.
  destruct (with_hbh_fields inner a Hpk ltac:(lia)) as [Hnx _]. fold bs in Hnx.
  pose proof (custodian_in_with_hbh a inner Hpk ltac:(lia)) as Hc. fold bs in Hc.
  pose proof (with_hbh_packet inner a Hpk ltac:(lia)) as Hpkb. fold bs in Hpkb.
  eapply wp_mono; [apply (@incoming_stored_spec EB IB wB pB bB bs (Some (ip6_bytes a)) tB lsB recsB rtB csB nifB srcB)|]; try done.
  - split; [done|lia|done|done].
  - by rewrite Hnx.
  - split_and!; [lia|apply Hpkb|]. intros _. split; [done|lia].
  - lia.
  - lia.
  - cbn beta. intros _ wB' [(_ & w2 & data & es & k & -> & Hone & _ & Hd & (now & _ & Hes) & Hrest & _)|(Hfull & _)].
    2: { specialize (Hfull HokB). lia. }
    rewrite (Hd HokB) in Hone. unfold bs in Hone. rewrite (stripped_with_hbh a inner Hpk ltac:(lia)) in Hone. fold bs in Hone.
    change (reported_to (Some (ip6_bytes a)) bs) with (ip6_of_bytes (ip6_bytes a)) in Hes.
    set (ack := report _ _ _ _ _ _ _) in Hes.
    assert (Hal : length ack = 105%nat) by (apply report_length; lia).
    exists w2, now. cbv zeta. fold ack. split_and!; [exact Hone|done| |].
    { rewrite Hes; [|done|rewrite Hal; done]. injection Hrest. cbn. congruence. }
    intros wA pA bA c tA lsA r1 r r2 rtA csA nifA Hre HnkA Hp Hr Hfirst Hsh Hnh.
    assert (Hm : quoted_packet (drop 40 ack) = take 48 (with_hbh a inner)) by done.
    destruct (ack_confirms a inner Hpk ltac:(lia) _ Hm _ Hsh) as [Hcf Hall].
    destruct (ack_quotes a inner Hpk ltac:(lia) _ Hm) as (_ & _ & Es & _).
    eapply wp_mono; [apply (@report_spec EA IA wA pA bA ack c tA lsA (r1 ++ r :: r2) rtA csA nifA)|]; try done.
    + lia.
    + by rewrite Hal.
    + by rewrite Es.
    + cbn beta. intros _ wA'. destruct (HokA (S (w_tick wA))) as (_ & -> & _).
      destruct (HokA (S (S (w_tick wA)))) as (_ & -> & _).
      apply Forall_app in Hall as [Ha1 [Ha _]%Forall_cons]. rewrite remaining_at.
      * intros (t' & ls' & Hn & _ & _ & _ & Hrr & _). exists t', ls'. split; [done|]. by injection Hrr.
      * rewrite Forall_forall in *. intros x Hx. rewrite Ha1 by done. by apply Hfirst.
      * rewrite Ha. unfold same_flow, same_source. rewrite Hr, (proj2 (Z.leb_le _ _)), bool_decide_true, Z.eqb_refl by (done || lia). done.
Qed.

(** The walk for a custodian leaves every acknowledgement with code 7: it takes
    the code for the length of a header, steps from byte 40 to byte 104, the last
    one, and reads the length byte behind the packet.  What it finds there, and
    whether it ends, depends on the earlier contents of the buffer. *)
Theorem acknowledgement_overreads now reason bs src dest :
  (48 <= length bs)%nat ->
  custodian_in (report ICMP6_TYPE_DTN_PCK_RECEIVED ICMP6_CODE_DTN_NO_CONTACT now reason bs src dest) = Stuck.
Proof.
  intros Hl. pose proof (report_length ICMP6_TYPE_DTN_PCK_RECEIVED ICMP6_CODE_DTN_NO_CONTACT now reason bs src dest Hl) as Hr.
  set (m := report _ _ _ _ _ _ _) in *. unfold custodian_in.
  change extract_fuel with (S (S (pred (pred extract_fuel)))). change (hdr_nexth m) with 58.
  rewrite (oloop_step _ _ _ (200, 104)) by done. rewrite oloop_stuck; [done|].
  unfold walk_body, byte_of. cbn [orb Z.eqb Pos.eqb IP6_NEXTH_HOPOPTS IP6_NEXTH_NONE].
  change (Z.to_nat (104 + 1)) with 105%nat. rewrite (lookup_ge_None_2 m 105) by lia.
  by destruct (m !! Z.to_nat 104).
Qed.

(** *** A concrete transfer *)

Definition transferred : list Z := quiet_to (addr_of 32).
Definition transfer_B : world := with_node (storage_world (with_hbh node2 transferred)).

(** The acknowledgement in a buffer with eight zero bytes behind it. *)
Definition padded (bs : list Z) : pbuf :=
  mk_pbuf (bs ++ replicate 16 0) 0 (Z.of_nat (length bs)) (Z.of_nat (length bs)) PBUF_RAM 0 1 0.
Definition transfer_A (ack : list Z) : world :=
  set_pbufs (insert 2%positive (Node (padded ack) None)) (with_node (confirm_world transferred [])).
Definition transfer_ack (now : Z) : list Z :=
  report ICMP6_TYPE_DTN_PCK_RECEIVED ICMP6_CODE_DTN_NO_CONTACT now 0 (with_hbh node2 transferred) node2
    (ip6_of_bytes (ip6_bytes node2)).

Lemma padded_single h p bs :
  h !! p = Some (Node (padded bs) None) -> Forall is_byte bs -> Z.of_nat (length bs) < 60000 -> single h p (padded bs) bs.
Proof.
  intros Hp Hb Hl. split_and!; [done| |done|].
  - unfold seg_ok, padded. cbn [pb_payload pb_len pb_buf pb_tot_len]. rewrite length_app.
    split_and!; try lia. apply Forall_app. split; [done|decided].
  - unfold seg_bytes, padded, slice. cbn. rewrite Nat2Z.id, drop_0. by apply take_app_length.
Qed.

Lemma transfer_ack_bytes now : Forall is_byte (transfer_ack now) /\ length (transfer_ack now) = 105%nat.
Proof.
  assert (H48 : (48 <= length (with_hbh node2 transferred))%nat) by (vm_compute; lia).
  split; [|exact (report_length _ _ _ _ _ _ _ H48)]. unfold transfer_ack, report, report_icmp. rewrite !Forall_app.
  split_and!; [decided|decided|decided|decided|decided|].
  apply report_body_byte; [decided|decided|decided|decided].
Qed.

Lemma transfer_reached now : reached (transfer_A (transfer_ack now)) 2%positive (padded (transfer_ack now)) (transfer_ack now) None.
Proof.
  destruct (transfer_ack_bytes now) as [Hb Hl]. split; [|lia|done|].
  - split; [|done]. apply padded_single; [done|done|lia].
  - unfold custodian_in, behind. cbn [padded pb_payload pb_buf]. change (Z.to_nat 0) with 0%nat. rewrite drop_0.
    set (m := transfer_ack now ++ _). change extract_fuel with (S (S (S (pred (pred (pred extract_fuel)))))).
    change (hdr_nexth m) with 58.
    rewrite (oloop_step _ _ _ (200, 104)) by done. rewrite (oloop_step _ _ _ (0, 112)) by done.
    rewrite (oloop_exit _ _ _ (0, 112)) by done. done.
Qed.

Lemma calm_fine : @env_fine calm_env.
Proof. split_and!; [done|cbn; lia|done]. Qed.

Lemma transfer_B_node :
  node_ok transfer_B (replicate MAX_DESTINATIONS (mk_attempt ip6_addr_any 0 0 false)) [] []
    (mk_routing 0 (Some 1%positive)) [contact_32; contact_21].
Proof. apply with_node_ok, storage_world_stores. Qed.

Lemma transfer_A_node ack :
  node_ok (transfer_A ack) (replicate MAX_DESTINATIONS (mk_attempt ip6_addr_any 0 0 false))
    [(1%positive, mk_entry (Some 1%positive) node2 5 (str "f"))] [confirm_rec transferred]
    (mk_routing 0 (Some 1%positive)) [contact_32; contact_21].
Proof.
  destruct (with_node_ok (confirm_world transferred []) [(1%positive, mk_entry (Some 1%positive) node2 5 (str "f"))]
    [confirm_rec transferred]) as [H1 H2 H3 H4 H5]; [apply confirm_world_stores; [decided|done]|].
  split; [exact H1|exact H2| |exact H4|exact H5]. destruct H3 as [? ? HF ?]. split; [done|done| |done].
  eapply entries_rep_frame; [|exact HF]. intros q Hq. apply list_elem_of_singleton in Hq as [= ->]. done.
Qed.

Lemma custody_transfer_witness :
  wp (@dtn_controller_process_incoming calm_env discard_input (Some 1%positive) node1_netif) transfer_B (fun _ _ =>
    exists now, wp (@dtn_controller_process_incoming calm_env discard_input (Some 2%positive) node1_netif)
      (transfer_A (transfer_ack now)) (fun _ wA' => exists tA' lsA',
        node_ok wA' tA' lsA' [] (mk_routing 0 (Some 1%positive)) [contact_32; contact_21] /\ w_trace wA' = [])).
Proof.
  eapply wp_mono.
  - refine (custody_transfer calm_env calm_env discard_input discard_input transfer_B 1%positive
             (one_pbuf (with_hbh node2 transferred)) node2 transferred
             (replicate MAX_DESTINATIONS (mk_attempt ip6_addr_any 0 0 false)) [] []
             (mk_routing 0 (Some 1%positive)) [contact_32; contact_21] node1_netif node2
             quiet_packet _ _ _ transfer_B_node _ _ _ eq_refl _ _ _ calm_fine calm_all_ok calm_all_ok).
    + by vm_compute.
    + split; [|done]. apply one_pbuf_single; [done|decided|by vm_compute].
    + by vm_compute.
    + simpl. lia.
    + by vm_compute.
    + by vm_compute.
    + unfold ip6_wf, word32. by vm_compute.
    + by vm_compute.
    + by vm_compute.
  - cbn beta zeta. intros _ wB' (w2 & now & _ & _ & _ & HA). exists now.
    refine (HA (transfer_A (transfer_ack now)) 2%positive (padded (transfer_ack now)) None _ _ [] (confirm_rec transferred) []
              _ _ node1_netif (transfer_reached now) (transfer_A_node _) _ eq_refl _ _ _).
    + decided.
    + constructor.
    + decided.
    + decided.
Defined.
