(* ===== verification/Timeouts.v ===== *)
(** * Timers (core/timeouts.c, include/lwip/timeouts.h)

    The list of pending timeouts, ordered by a 32-bit due time that wraps
    round, the cyclic timers of the stack that put themselves back on it, and
    the two calls of the main loop.  The specification is a queue of due times
    on the clock of the machine, which does not wrap: [queue]. *)

From Stdlib Require Import Sorted.
From S2P Require Import Prelude LinkedList Ip6Addr World.

Definition LWIP_MAX_TIMEOUT : Z := 2147483647.
Definition LWIP_UINT32_MAX : Z := 4294967295.
Definition SYS_TIMEOUTS_SLEEPTIME_INFINITE : Z := 4294967295.
Definition ND6_TMR_INTERVAL : Z := 1000.
Definition MLD6_TMR_INTERVAL : Z := 100.

(** [LWIP_NUM_SYS_TIMEOUT_INTERNAL] with the node's configuration: one timeout
    for neighbour discovery and one for multicast listener discovery. *)
Definition MEMP_NUM_SYS_TIMEOUT : nat := 2.

Definition TIME_LESS_THAN (t compare_to : Z) : bool := LWIP_MAX_TIMEOUT <? u32 (t - compare_to).

(** ** The timer functions

    [nd6_tmr] and [mld6_tmr] are the timer functions of nd6.c and mld6.c;
    [app_handler] is what a handler registered by an application does (the node
    registers none). *)
Class TimerFunctions := {
  nd6_tmr : M world unit;
  mld6_tmr : M world unit;
  app_handler : Z -> Z -> M world unit
}.

(** The function pointer [lwip_cyclic_timer]. *)
Definition CYCLIC : Z := 0.

Record lwip_cyclic_timer_desc := mk_cyclic {
  interval_ms : Z;
  cy_handler : M world unit
}.

Section timeouts.
Context `{Env} `{TimerFunctions}.

(** What the configuration leaves of the array. *)
Definition lwip_cyclic_timers : list lwip_cyclic_timer_desc :=
  [mk_cyclic ND6_TMR_INTERVAL nd6_tmr; mk_cyclic MLD6_TMR_INTERVAL mld6_tmr].

(** *** Adding a timeout *)

(** The search for the place behind [t]. *)
Fixpoint link_after (timeout t : sys_timeo) (rest : list sys_timeo) : list sys_timeo :=
  match rest with
  | [] => [t; timeout]
  | n :: rest' =>
      if TIME_LESS_THAN (to_time timeout) (to_time n) then t :: timeout :: rest
      else t :: link_after timeout n rest'
  end.

(** The elements of the pool [MEMP_SYS_TIMEOUT] in use are those on the list. *)
Definition sys_timeout_abs (abs_time : Z) (handler : option Z) (arg : Z) : M world unit :=
  w ← get;
  let l := next_timeout (w_timers w) in
  c_assert (bool_decide (length l < MEMP_NUM_SYS_TIMEOUT)%nat);;
  let timeout := mk_timeo abs_time handler arg in
  let l' := match l with
            | [] => [timeout]
            | t :: rest => if TIME_LESS_THAN (to_time timeout) (to_time t) then timeout :: l
                           else link_after timeout t rest
            end in
  modify (set_timers (mk_timers l' (current_timeout_due_time (w_timers w)))).

Definition sys_timeout (msecs : Z) (handler : option Z) (arg : Z) : M world unit :=
  c_assert (msecs <=? LWIP_UINT32_MAX / 4);;
  now ← sys_now;
  sys_timeout_abs (u32 (now + msecs)) handler arg.

Fixpoint start_timers (i : Z) (ts : list lwip_cyclic_timer_desc) : M world unit :=
  match ts with
  | [] => mret tt
  | t :: ts' => sys_timeout (interval_ms t) (Some CYCLIC) i;; start_timers (i + 1) ts'
  end.
Definition sys_timeouts_init : M world unit := start_timers 0 lwip_cyclic_timers.

(** *** Taking a timeout back *)

Fixpoint unlink_first (handler : option Z) (arg : Z) (l : list sys_timeo) : list sys_timeo :=
  match l with
  | [] => []
  | t :: l' => if bool_decide (to_h t = handler) && (to_arg t =? arg) then l'
               else t :: unlink_first handler arg l'
  end.
Definition sys_untimeout (handler : option Z) (arg : Z) : M world unit :=
  modify (fun w => set_timers (mk_timers (unlink_first handler arg (next_timeout (w_timers w)))
                                         (current_timeout_due_time (w_timers w))) w).

(** *** Running the timeouts *)

Definition lwip_cyclic_timer (arg : Z) : M world unit :=
  cyclic ← lift (deref (lwip_cyclic_timers !! Z.to_nat arg));
  cy_handler cyclic;;
  now ← sys_now;
  w ← get;
  let next_timeout_time := u32 (current_timeout_due_time (w_timers w) + interval_ms cyclic) in
  if TIME_LESS_THAN next_timeout_time now
  then sys_timeout_abs (u32 (now + interval_ms cyclic)) (Some CYCLIC) arg
  else sys_timeout_abs next_timeout_time (Some CYCLIC) arg.

Definition call_handler (h arg : Z) : M world unit :=
  if h =? CYCLIC then lwip_cyclic_timer arg else app_handler h arg.

Definition check_body (now : Z) (_ : unit) : M world (unit + unit) :=
  w ← get;
  match next_timeout (w_timers w) with
  | [] => mret (inr tt)
  | tmptimeout :: rest =>
      if TIME_LESS_THAN now (to_time tmptimeout) then mret (inr tt) else
      modify (set_timers (mk_timers rest (to_time tmptimeout)));;
      match to_h tmptimeout with
      | Some h => call_handler h (to_arg tmptimeout)
      | None => mret tt
      end;;
      mret (inl tt)
  end.

(** Every cyclic timer runs at most twice in a call: [check_timeouts_spec]. *)
Definition sys_check_timeouts : M world unit :=
  now ← sys_now;
  loop (S (2 * MEMP_NUM_SYS_TIMEOUT)) (check_body now) tt.

Definition sys_restart_timeouts : M world unit :=
  w ← get;
  match next_timeout (w_timers w) with
  | [] => mret tt
  | t :: _ =>
      now ← sys_now;
      let base := to_time t in
      modify (fun w => set_timers
        (mk_timers ((fun t => mk_timeo (u32 (u32 (to_time t - base) + now)) (to_h t) (to_arg t))
                      <$> next_timeout (w_timers w))
                   (current_timeout_due_time (w_timers w))) w)
  end.

Definition sys_timeouts_sleeptime : M world Z :=
  w ← get;
  match next_timeout (w_timers w) with
  | [] => mret SYS_TIMEOUTS_SLEEPTIME_INFINITE
  | t :: _ =>
      now ← sys_now;
      if TIME_LESS_THAN (to_time t) now then mret 0 else
      let ret := u32 (to_time t - now) in
      c_assert (ret <=? LWIP_MAX_TIMEOUT);; mret ret
  end.
End timeouts.

(** ** The queue of due times *)

Record due := mk_due {
  d_time : Z;
  d_h : option Z;
  d_arg : Z
}.

Definition timeo_of (d : due) : sys_timeo := mk_timeo (u32 (d_time d)) (d_h d) (d_arg d).
Definition no_later (d e : due) : Prop := d_time d <= d_time e.
Definition near (c : Z) (d : due) : Prop := c - 1073741824 < d_time d <= c + 1073741824.

(** The list holds the due times of [q], in order, all within 2^30 ms of [c]. *)
Record queue (c : Z) (ts : timers) (q : list due) : Prop := {
  q_list : next_timeout ts = timeo_of <$> q;
  q_sorted : StronglySorted no_later q;
  q_near : Forall (near c) q
}.

(** Behind everything that is due no later. *)
Fixpoint enqueue (d : due) (q : list due) : list due :=
  match q with
  | [] => [d]
  | e :: q' => if d_time d <? d_time e then d :: q else e :: enqueue d q'
  end.

Lemma time_less_than a b : Z.abs (a - b) < 2147483648 -> TIME_LESS_THAN (u32 a) (u32 b) = (a <? b).
Proof.
  intros Hab. unfold TIME_LESS_THAN, LWIP_MAX_TIMEOUT.
  destruct (Z.ltb_spec a b); [apply Z.ltb_lt|apply Z.ltb_ge]; zlia.
Qed.

Lemma enqueue_elem d q e : e ∈ enqueue d q <-> e = d \/ e ∈ q.
Proof. induction q as [|f q IH]; simpl; [|destruct (_ <? _)]; set_solver. Qed.

Lemma enqueue_perm d q : enqueue d q ≡ₚ d :: q.
Proof.
  induction q as [|e q IH]; simpl; [done|]. destruct (_ <? _); [done|]. by rewrite IH, Permutation_swap.
Qed.

Lemma enqueue_sorted d q : StronglySorted no_later q -> StronglySorted no_later (enqueue d q).
Proof.
  induction 1 as [|e q Hs IH He]; simpl; [by repeat constructor|].
  destruct (Z.ltb_spec (d_time d) (d_time e)) as [Hlt|Hge].
  - constructor; [by constructor|]. constructor; [unfold no_later; lia|].
    eapply Forall_impl; [exact He|]. unfold no_later. intros; lia.
  - constructor; [done|]. rewrite Forall_forall in *. intros f [->|Hf]%enqueue_elem; [done|by apply He].
Qed.

(** Where the new element ends up. *)
Lemma enqueue_split d q :
  StronglySorted no_later q ->
  exists q1 q2, q = q1 ++ q2 /\ enqueue d q = q1 ++ d :: q2 /\
    Forall (fun e => d_time e <= d_time d) q1 /\ Forall (fun e => d_time d < d_time e) q2.
Proof.
  induction 1 as [|e q Hs IH He]; simpl; [by exists [], []|].
  destruct (Z.ltb_spec (d_time d) (d_time e)) as [Hlt|Hge].
  - exists [], (e :: q). split_and!; [done|done|constructor|]. constructor; [done|].
    eapply Forall_impl; [exact He|]. unfold no_later. intros; simpl; lia.
  - destruct IH as (q1 & q2 & -> & -> & H1 & H2). exists (e :: q1), q2. split_and!; try done. by constructor.
Qed.

Lemma near_less c d e : near c d -> near c e ->
  TIME_LESS_THAN (u32 (d_time d)) (u32 (d_time e)) = (d_time d <? d_time e).
Proof. unfold near. intros. apply time_less_than. lia. Qed.

Lemma link_after_enqueue c d e q :
  near c d -> Forall (near c) q ->
  link_after (timeo_of d) (timeo_of e) (timeo_of <$> q) = timeo_of <$> e :: enqueue d q.
Proof.
  intros Hd Hq. revert e. induction Hq as [|f q Hf Hq IH]; intros e; [done|].
  cbn [enqueue fmap list_fmap link_after to_time timeo_of]. rewrite (near_less c) by done.
  destruct (_ <? _); [done|]. by rewrite (IH f).
Qed.

(** ** Steps of the stack *)

(** What left through the raw sockets. *)
Definition is_tun (e : event) : bool := match e with EvTunWrite _ _ => true | _ => false end.
Definition raw_sends (w : world) : list event := filter (fun e => is_tun e = false) (w_trace w).

(** A step of lwIP of its own (timers): the buffers that are in use, the DTN
    components and the sockets stay; it may allocate, and send on the TUN. *)
Record stack_step (w w' : world) : Prop := {
  ss_pbufs : forall q, is_Some (w_pbufs w !! q) -> w_pbufs w' !! q = w_pbufs w !! q;
  ss_dtn : (w_entries w', w_storage w', w_controller w', w_routing w', w_contacts w', w_last_active w') =
           (w_entries w, w_storage w, w_controller w, w_routing w, w_contacts w, w_last_active w);
  ss_raw : w_raw w' = w_raw w;
  ss_trace : raw_sends w' = raw_sends w
}.

Lemma stack_step_ticks k w : stack_step w (add_ticks k w).
Proof. by split. Qed.
Lemma stack_step_timers ts w : stack_step w (set_timers ts w).
Proof. by split. Qed.
#[export] Instance stack_step_preorder : PreOrder stack_step.
Proof.
  split; [by split|]. intros w1 w2 w3 [P1 D1 R1 T1] [P2 D2 R2 T2].
  split; [|congruence|congruence|congruence]. intros q Hq. rewrite P2, P1; [done|done|by rewrite P1].
Qed.

(** ** The clock and the timer functions *)

Definition clock `{Env} (w : world) : Z := env_now (w_tick w).

(** The monotonic clock does not go back, and no request to the system takes
    longer than 2^24 ms (four and a half hours). *)
Class SteadyClock `{Env} : Prop :=
  clock_step t : env_now t <= env_now (S t) <= env_now t + 16777216.

(** The timer functions return within that time, and change no timeouts. *)
Definition timer_step `{Env} (w w' : world) : Prop :=
  stack_step w w' /\ w_timers w' = w_timers w /\ clock w <= clock w' <= clock w + 16777216.
Class TimerFunctionsOk `{Env} `{TimerFunctions} : Prop := {
  nd6_tmr_ok w : wp nd6_tmr w (fun _ w' => timer_step w w');
  mld6_tmr_ok w : wp mld6_tmr w (fun _ w' => timer_step w w')
}.

(** [ran w args w']: the node gets from [w] to [w'] by running the timer
    functions of [args] to their end, in this order, and apart from them only
    by reading the clock and by changes of the list of timeouts.  The argument
    of a cyclic timer is its place among the timers of the stack: neighbour
    discovery, then multicast listener discovery. *)
Inductive ran `{Env} `{TimerFunctions} (w : world) : list Z -> world -> Prop :=
| ran_nothing : ran w [] w
| ran_clock args w1 : ran w args w1 -> ran w args (add_ticks 1 w1)
| ran_timers args w1 ts : ran w args w1 -> ran w args (set_timers ts w1)
| ran_nd6 args w1 w2 : ran w args w1 -> nd6_tmr w1 = Ret (tt, w2) -> ran w (args ++ [0]) w2
| ran_mld6 args w1 w2 : ran w args w1 -> mld6_tmr w1 = Ret (tt, w2) -> ran w (args ++ [1]) w2.

(** An entry of [lwip_cyclic_timers]. *)
Definition cyclic (d : due) : Prop := d_h d = Some CYCLIC /\ (d_arg d = 0 \/ d_arg d = 1).
Definition interval_of (arg : Z) : Z := if arg =? 0 then ND6_TMR_INTERVAL else MLD6_TMR_INTERVAL.

Section specs.
Context `{Env} `{TimerFunctions}.

Lemma timeout_abs_exec c w q d :
  queue c (w_timers w) q -> near c d -> (length q < MEMP_NUM_SYS_TIMEOUT)%nat ->
  let ts' := mk_timers (timeo_of <$> enqueue d q) (current_timeout_due_time (w_timers w)) in
  sys_timeout_abs (u32 (d_time d)) (d_h d) (d_arg d) w = Ret (tt, set_timers ts' w) /\
  queue c ts' (enqueue d q).
Proof.
  intros [Hl Hs Hn] Hd Hlen ts'. split.
  - unfold sys_timeout_abs. rewrite (bind_exec get _ w w w), Hl by done. cbv zeta. rewrite length_fmap.
    unfold c_assert. rewrite bool_decide_true by done. rewrite (bind_exec (mret tt) _ w tt w) by done.
    unfold modify. subst ts'. do 4 f_equal. destruct Hn as [|e q He Hn]; [done|].
    change (mk_timeo (u32 (d_time d)) _ _) with (timeo_of d). cbn [enqueue fmap list_fmap to_time timeo_of].
    rewrite (near_less c) by done. destruct (d_time d <? d_time e); [done|]. by rewrite (link_after_enqueue c).
  - split; [done|by apply enqueue_sorted|]. rewrite enqueue_perm. by constructor.
Qed.

Lemma u32_add_l a b : u32 (u32 a + b) = u32 (a + b).
Proof. apply Zplus_mod_idemp_l. Qed.

Lemma now_near x : x <= x <= x + 268435456.
Proof. lia. Qed.

Lemma timeout_exec c w q ms h a :
  queue c (w_timers w) q -> (length q < MEMP_NUM_SYS_TIMEOUT)%nat ->
  c <= clock w <= c + 268435456 -> 0 <= ms <= 536870912 ->
  let ts := mk_timers (timeo_of <$> enqueue (mk_due (clock w + ms) h a) q)
              (current_timeout_due_time (w_timers w)) in
  sys_timeout ms h a w = Ret (tt, set_timers ts (add_ticks 1 w)) /\
  queue c ts (enqueue (mk_due (clock w + ms) h a) q).
Proof.
  intros Hq Hlen Hc Hms ts.
  destruct (timeout_abs_exec c (add_ticks 1 w) q (mk_due (clock w + ms) h a)) as [E Hq'];
    [done|unfold near; cbn; lia|done|]. split; [|done].
  etransitivity; [|exact E]. unfold sys_timeout, c_assert, LWIP_UINT32_MAX. rewrite (proj2 (Z.leb_le _ _)) by zlia.
  rewrite (bind_exec (mret tt) _ w tt w) by done.
  rewrite (bind_exec sys_now _ w (u32 (clock w)) (add_ticks 1 w)) by done. by rewrite u32_add_l.
Qed.

Context `{!SteadyClock} `{!TimerFunctionsOk}.

Lemma wp_now_clock w Q :
  (forall w', clock w <= clock w' <= clock w + 16777216 -> w' = add_ticks 1 w -> Q (u32 (clock w)) w') ->
  wp sys_now w Q.
Proof. intros HQ. apply wp_now, HQ; [apply clock_step|done]. Qed.

Lemma wp_cyclic_handler {A} w d (f : lwip_cyclic_timer_desc -> M world A) Q :
  cyclic d ->
  (forall c w', interval_ms c = interval_of (d_arg d) -> timer_step w w' ->
     (forall w0 args, ran w0 args w -> ran w0 (args ++ [d_arg d]) w') -> wp (f c) w' Q) ->
  wp (c ← lift (deref (lwip_cyclic_timers !! Z.to_nat (d_arg d))); cy_handler c;; f c) w Q.
Proof.
  intros [_ [Ha|Ha]] HQ; rewrite Ha in *; apply wp_bind; (eapply wp_lift; [done|]); apply wp_bind.
  - destruct (wp_elim _ _ _ (nd6_tmr_ok w)) as ([] & w' & E & Hs). eapply wp_exec; [exact E|].
    apply HQ; [done|done|]. intros w0 args Hr. by eapply ran_nd6.
  - destruct (wp_elim _ _ _ (mld6_tmr_ok w)) as ([] & w' & E & Hs). eapply wp_exec; [exact E|].
    apply HQ; [done|done|]. intros w0 args Hr. by eapply ran_mld6.
Qed.

Lemma interval_bounds arg : 100 <= interval_of arg <= 1000.
Proof. unfold interval_of, ND6_TMR_INTERVAL, MLD6_TMR_INTERVAL. destruct (_ =? _); lia. Qed.

(** When a timer due at [d] that has run until [now] is due again. *)
Definition due_again (now : Z) (d : due) : due :=
  mk_due (if d_time d + interval_of (d_arg d) <? now then now + interval_of (d_arg d)
          else d_time d + interval_of (d_arg d)) (Some CYCLIC) (d_arg d).

(** A cyclic timer runs and puts itself back. *)
Lemma wp_cyclic c w q d :
  queue c (w_timers w) q -> cyclic d -> near c d -> d_time d <= c -> (length q < MEMP_NUM_SYS_TIMEOUT)%nat ->
  current_timeout_due_time (w_timers w) = u32 (d_time d) ->
  c <= clock w <= c + 268435456 ->
  wp (lwip_cyclic_timer (d_arg d)) w (fun _ w' => exists now,
    clock w <= now <= clock w' /\ clock w' <= clock w + 33554432 /\ stack_step w w' /\
    (forall w0 args, ran w0 args w -> ran w0 (args ++ [d_arg d]) w') /\
    queue c (w_timers w') (enqueue (due_again now d) q)).
Proof.
  intros Hq Hcy Hn Hle Hlen Hdue Hc. unfold lwip_cyclic_timer. apply wp_cyclic_handler; [done|].
  intros cd w1 Hi (Hs1 & Ht1 & Hc1) Hran. apply wp_bind, wp_now_clock. intros w2 Hc2 ->. apply wp_bind, wp_get.
  set (now := clock w1) in *. set (w2 := add_ticks 1 w1) in *.
  assert (Hq2 : queue c (w_timers w2) q) by (change (w_timers w2) with (w_timers w1); by rewrite Ht1).
  assert (Hd' : near c (due_again now d)).
  { pose proof (interval_bounds (d_arg d)). unfold near, due_again in *. cbn [d_time].
    destruct (Z.ltb_spec (d_time d + interval_of (d_arg d)) now); lia. }
  destruct (timeout_abs_exec c w2 q (due_again now d) Hq2 Hd' Hlen) as [E Hq'].
  eapply wp_exec; [etransitivity; [|exact E]|].
  - cbv zeta. change (w_timers w2) with (w_timers w1). rewrite Ht1, Hdue, Hi, !u32_add_l.
    pose proof (interval_bounds (d_arg d)). unfold near in Hn. rewrite time_less_than by lia.
    unfold due_again. cbn [d_time d_h d_arg]. by destruct (_ <? now).
  - exists now. split_and!; [lia|unfold clock in *; cbn in *; lia|unfold clock in *; cbn in *; lia| | |exact Hq'].
    + etransitivity; [exact Hs1|]. etransitivity; [apply (stack_step_ticks 1)|apply stack_step_timers].
    + intros w0 args Hr. apply ran_timers, ran_clock. by apply Hran.
Qed.
(** *** One call of [sys_check_timeouts]

    [c] is the clock when it starts: a timer due before [c] can run twice, when
    the second time it is due is [c] itself. *)

Definition runs_left (c : Z) (d : due) : nat :=
  if d_time d <? c then 2 else if d_time d =? c then 1 else 0.
Definition pending (c : Z) (q : list due) : nat := sum_list_with (runs_left c) q.

Lemma pending_enqueue c d q : pending c (enqueue d q) = (runs_left c d + pending c q)%nat.
Proof.
  unfold pending. induction q as [|e q IH]; simpl; [lia|]. destruct (_ <? _); simpl; lia.
Qed.

Lemma pending_le c q : (pending c q <= 2 * length q)%nat.
Proof.
  unfold pending. induction q as [|e q IH]; simpl; [lia|]. unfold runs_left at 1. repeat case_match; lia.
Qed.

(** [d'] is [d], or what became of it by the time [c']. *)
Definition moved (c c' : Z) (d d' : due) : Prop :=
  d_arg d' = d_arg d /\
  (d_time d' = d_time d \/
   d_time d <= c <= d_time d' /\
   (d_time d' = d_time d + interval_of (d_arg d) \/
    c + interval_of (d_arg d) <= d_time d' <= c' + interval_of (d_arg d))).

Lemma moved_again c c1 c2 now d d1 :
  moved c c1 d d1 -> d_time d1 <= c -> c <= now <= c2 -> moved c c2 d (due_again now d1).
Proof.
  intros [Ha Hm] Hle Hnow. pose proof (interval_bounds (d_arg d)). split; [done|].
  unfold due_again. cbn [d_time]. rewrite Ha. right. destruct (Z.ltb_spec (d_time d1 + interval_of (d_arg d)) now); lia.
Qed.

Lemma moved_later c c1 c2 d d1 : moved c c1 d d1 -> c1 <= c2 -> moved c c2 d d1.
Proof. intros [Ha Hm] Hle. split; [done|]. lia. Qed.

Lemma runs_left_again c now d : d_time d <= c -> c <= now -> (runs_left c (due_again now d) < runs_left c d)%nat.
Proof.
  intros Hle Hnow. pose proof (interval_bounds (d_arg d)). unfold runs_left, due_again. cbn [d_time].
  destruct (Z.ltb_spec (d_time d + interval_of (d_arg d)) now); repeat case_match; lia.
Qed.

(** The state of the call: [runs] have run, [q1] is what is left of [q]. *)
Record checking (c : Z) (q : list due) (w w1 : world) (runs : list Z) (q1 : list due) : Prop := {
  ck_queue : queue c (w_timers w1) q1;
  ck_cyclic : Forall cyclic q1;
  ck_args : d_arg <$> q1 ≡ₚ d_arg <$> q;
  ck_moved : forall d1, d1 ∈ q1 -> exists d, d ∈ q /\ moved c (clock w1) d d1;
  ck_step : stack_step w w1;
  ck_clock : c <= clock w1 <= c + 16777216 + 33554432 * Z.of_nat (pending c q - pending c q1);
  ck_pending : (length runs + pending c q1 <= pending c q)%nat;
  ck_ran : ran w runs w1;
  ck_served : forall d, d ∈ q -> d ∈ q1 \/ d_arg d ∈ runs;
  ck_due : forall a, a ∈ runs -> exists d, d ∈ q /\ d_arg d = a /\ d_time d <= c
}.

Lemma check_step c q w w1 runs d q1 :
  (length q <= MEMP_NUM_SYS_TIMEOUT)%nat -> checking c q w w1 runs (d :: q1) -> d_time d <= c ->
  wp (check_body (u32 c) tt) w1 (fun r w2 => r = inl tt /\ exists runs2 q2, checking c q w w2 runs2 q2 /\
    (pending c q2 < pending c (d :: q1))%nat).
Proof.
  intros Hlen [Hq Hcy Hargs Hmv Hst Hck Hpd Hran Hsv Hdue] Hle. unfold check_body. apply wp_bind, wp_get.
  destruct Hq as [Hl Hs Hn]. rewrite Hl. cbn [fmap list_fmap]. cbn [to_time to_h to_arg timeo_of].
  apply Forall_cons in Hn as [Hnd Hn]. apply Forall_cons in Hcy as [Hcd Hcy]. apply StronglySorted_inv in Hs as [Hs _].
  rewrite time_less_than, (proj2 (Z.ltb_ge _ _)) by (unfold near in Hnd; lia).
  apply wp_bind, wp_modify. set (w1' := set_timers _ w1). destruct Hcd as [Hh Ha]. rewrite Hh.
  assert (Hp : (pending c q <= 4)%nat) by (pose proof (pending_le c q); unfold MEMP_NUM_SYS_TIMEOUT in Hlen; lia).
  assert (Hlq : S (length q1) = length q).
  { apply Permutation_length in Hargs. by rewrite !length_fmap in Hargs. }
  apply wp_bind. change (call_handler CYCLIC (d_arg d)) with (lwip_cyclic_timer (d_arg d)).
  eapply wp_mono; [apply (wp_cyclic c w1' q1 d)|].
  - by split.
  - by split.
  - done.
  - done.
  - unfold MEMP_NUM_SYS_TIMEOUT in *. lia.
  - done.
  - change (clock w1') with (clock w1). lia.
  - cbn beta. change (clock w1') with (clock w1). intros _ w2 (now & Hnow & Hc2 & Hs2 & Hr2 & Hq2). apply wp_ret.
    split; [done|]. exists (runs ++ [d_arg d]), (enqueue (due_again now d) q1).
    pose proof (runs_left_again c now d Hle ltac:(lia)) as Hr.
    assert (Hpe : (pending c (enqueue (due_again now d) q1) < pending c (d :: q1))%nat).
    { rewrite pending_enqueue. unfold pending at 2. simpl. fold (pending c q1). lia. }
    split; [|done]. split.
    + done.
    + rewrite enqueue_perm. constructor; [by split|done].
    + rewrite enqueue_perm. exact Hargs.
    + intros e [->|He]%enqueue_elem.
      * destruct (Hmv d) as (d0 & Hin & Hm); [by left|]. exists d0. split; [done|].
        apply (moved_again c (clock w1)); [done|done|lia].
      * destruct (Hmv e) as (d0 & Hin & Hm); [by right|]. exists d0. split; [done|].
        apply (moved_later c (clock w1)); [done|lia].
    + etransitivity; [exact Hst|]. etransitivity; [|exact Hs2]. apply stack_step_timers.
    + lia.
    + rewrite length_app. simpl length. lia.
    + by apply Hr2, ran_timers.
    + intros e He. rewrite enqueue_elem. specialize (Hsv e He). set_solver.
    + intros a [Ha'| ->%list_elem_of_singleton]%elem_of_app; [by apply Hdue|].
      destruct (Hmv d) as (d0 & Hin & Hm1 & Hm2); [by left|]. exists d0. split_and!; [done|done|lia].
Qed.

Lemma check_loop fuel c q w w1 runs q1 :
  (length q <= MEMP_NUM_SYS_TIMEOUT)%nat -> checking c q w w1 runs q1 -> (pending c q1 < fuel)%nat ->
  wp (loop fuel (check_body (u32 c)) tt) w1 (fun _ w' => exists runs' q', checking c q w w' runs' q' /\
    Forall (fun d => c < d_time d) q').
Proof.
  intros Hlen. revert w1 runs q1. induction fuel as [|fuel IH]; intros w1 runs q1 Hck Hf; [lia|]. unfold wp. rewrite loop_S.
  pose proof (ck_queue _ _ _ _ _ _ Hck) as [Hl Hs Hn]. destruct q1 as [|d q1].
  { apply wp_bind. eapply wp_exec.
    - unfold check_body. rewrite (bind_exec get _ w1 w1 w1), Hl by done. done.
    - apply wp_ret. by exists runs, []. }
  destruct (Z.leb_spec (d_time d) c) as [Hle|Hgt].
  - apply wp_bind. eapply wp_mono; [by apply (check_step c q w w1 runs d q1)|]. cbn beta.
    intros r w2 (-> & runs2 & q2 & Hck2 & Hp). apply (IH w2 runs2 q2); [done|lia].
  - apply wp_bind. apply Forall_cons in Hn as [Hnd _]. eapply wp_exec.
    + unfold check_body. rewrite (bind_exec get _ w1 w1 w1), Hl by done. cbn [fmap list_fmap to_time timeo_of].
      rewrite time_less_than, (proj2 (Z.ltb_lt _ _)) by (unfold near in Hnd; lia). done.
    + apply wp_ret. exists runs, (d :: q1). split; [done|]. constructor; [done|].
      apply StronglySorted_inv in Hs as [_ Hs]. eapply Forall_impl; [exact Hs|]. unfold no_later. intros; simpl; lia.
Qed.

Lemma check_timeouts_spec w q :
  queue (clock w) (w_timers w) q -> Forall cyclic q -> (length q <= MEMP_NUM_SYS_TIMEOUT)%nat ->
  wp sys_check_timeouts w (fun _ w' => exists q', stack_step w w' /\
    clock w <= clock w' <= clock w + 268435456 /\
    queue (clock w') (w_timers w') q' /\ Forall cyclic q' /\ d_arg <$> q' ≡ₚ d_arg <$> q /\
    (forall d', d' ∈ q' -> clock w < d_time d' /\ exists d, d ∈ q /\ moved (clock w) (clock w') d d') /\
    exists runs, ran w runs w' /\ (length runs <= 2 * length q)%nat /\
      forall a, a ∈ runs <-> exists d, d ∈ q /\ d_arg d = a /\ d_time d <= clock w).
Proof.
  intros Hq Hcy Hlen. unfold sys_check_timeouts. apply wp_bind, wp_now_clock. intros w1 Hc1 ->.
  eapply wp_mono; [apply (check_loop _ (clock w) q w _ [] q Hlen)|].
  - split; [done|done|done| |apply (stack_step_ticks 1)|lia|simpl; lia|apply ran_clock, ran_nothing|by left|set_solver].
    intros d Hd. exists d. split; [done|]. split; [done|]. by left.
  - pose proof (pending_le (clock w) q). lia.
  - cbn beta. intros _ w' (runs & q' & [[Hl Hs Hn] Hcy' Hargs Hmv Hst Hck Hpd Hran Hsv Hdue] & Hgt). exists q'.
    assert (Hp : (pending (clock w) q <= 4)%nat)
      by (pose proof (pending_le (clock w) q); unfold MEMP_NUM_SYS_TIMEOUT in Hlen; lia).
    rewrite Forall_forall in Hgt. split_and!; [done|lia|lia| |done|done| |].
    + split; [done|done|]. rewrite Forall_forall in *. intros d Hd. specialize (Hn d Hd). specialize (Hgt d Hd).
      unfold near in *. lia.
    + intros d' Hd'. split; [by apply Hgt|by apply Hmv].
    + exists runs. split_and!; [done|pose proof (pending_le (clock w) q); lia|]. intros a. split; [by apply Hdue|].
      intros (d & Hin & <- & Hle). destruct (Hsv d Hin) as [Hq1|]; [|done]. specialize (Hgt d Hq1). lia.
Qed.

(** *** The other operations *)

Lemma sleeptime_exec w q :
  queue (clock w) (w_timers w) q ->
  sys_timeouts_sleeptime w =
    match q with
    | [] => Ret (SYS_TIMEOUTS_SLEEPTIME_INFINITE, w)
    | d :: _ => Ret (Z.max 0 (d_time d - clock w), add_ticks 1 w)
    end.
Proof.
  intros [Hl Hs Hn]. unfold sys_timeouts_sleeptime. rewrite (bind_exec get _ w w w), Hl by done.
  destruct Hn as [|d q Hd Hn]; [done|]. cbn [fmap list_fmap to_time timeo_of].
  rewrite (bind_exec sys_now _ w (u32 (clock w)) (add_ticks 1 w)) by done. unfold near in Hd.
  rewrite time_less_than by lia. destruct (Z.ltb_spec (d_time d) (clock w)) as [Hlt|Hge].
  - by rewrite Z.max_l by lia.
  - cbv zeta. assert (E : u32 (u32 (d_time d) - u32 (clock w)) = d_time d - clock w) by zlia. rewrite E.
    unfold c_assert, LWIP_MAX_TIMEOUT. rewrite (proj2 (Z.leb_le _ _)) by lia.
    rewrite (bind_exec (mret tt) _ _ tt (add_ticks 1 w)) by done. by rewrite Z.max_r by lia.
Qed.

(** [sys_restart_timeouts] moves the whole queue, however late it is. *)
Definition shift (k : Z) (d : due) : due := mk_due (d_time d + k) (d_h d) (d_arg d).

Lemma restart_exec c w d q :
  queue c (w_timers w) (d :: q) -> Forall (fun e => d_time e <= d_time d + 1073741824) q ->
  exists w', sys_restart_timeouts w = Ret (tt, w') /\ stack_step w w' /\
    queue (clock w) (w_timers w') (shift (clock w - d_time d) <$> d :: q).
Proof.
  intros [Hl Hs Hn] Hw. unfold sys_restart_timeouts. rewrite (bind_exec get _ w w w), Hl by done.
  change (timeo_of <$> d :: q) with (timeo_of d :: (timeo_of <$> q)). cbv beta iota.
  rewrite (bind_exec sys_now _ w (u32 (clock w)) (add_ticks 1 w)) by done. eexists. split; [done|]. split.
  { etransitivity; [apply (stack_step_ticks 1)|apply stack_step_timers]. }
  cbv zeta. split.
  - cbn [w_timers set_timers add_ticks next_timeout]. rewrite Hl. clear. generalize (d :: q) as l. intros l.
    rewrite <-!list_fmap_compose. apply list_fmap_ext. intros _ e _. unfold compose, shift, timeo_of.
    cbn [to_time to_h to_arg d_time d_h d_arg]. f_equal. zlia.
  - clear -Hs. induction Hs as [|e l Hs IH He]; [constructor|]. cbn. constructor; [exact IH|].
    apply Forall_fmap. eapply Forall_impl; [exact He|]. unfold no_later, compose. cbn. intros; lia.
  - apply StronglySorted_inv in Hs as [_ Hs]. apply Forall_fmap, Forall_cons. unfold compose, near. cbn [shift d_time]. split; [lia|].
    rewrite Forall_forall in *. intros e He. specialize (Hs e He). specialize (Hw e He). unfold no_later in Hs. simpl in *. lia.
Qed.

Definition matches (handler : option Z) (arg : Z) (t : sys_timeo) : Prop := to_h t = handler /\ to_arg t = arg.

Lemma unlink_first_none h a l : Forall (fun t => ~ matches h a t) l -> unlink_first h a l = l.
Proof.
  unfold matches. induction 1 as [|t l Ht _ IH]; [done|]. simpl. rewrite IH.
  case_bool_decide; [|done]. destruct (Z.eqb_spec (to_arg t) a); naive_solver.
Qed.

Lemma unlink_first_app h a l1 t l2 :
  Forall (fun t => ~ matches h a t) l1 -> matches h a t -> unlink_first h a (l1 ++ t :: l2) = l1 ++ l2.
Proof.
  intros Hl [Hh Ha]. unfold matches in Hl. induction Hl as [|u l1 Hu _ IH]; simpl.
  - by rewrite bool_decide_true, Ha, Z.eqb_refl by done.
  - rewrite IH. case_bool_decide; [|done]. destruct (Z.eqb_spec (to_arg u) a); naive_solver.
Qed.

Lemma wp_sys_timeout c w q ms h a Q :
  queue c (w_timers w) q -> (length q < MEMP_NUM_SYS_TIMEOUT)%nat ->
  c <= clock w <= c + 268435456 -> 0 <= ms <= 536870912 ->
  (forall w', (exists ts, w' = set_timers ts (add_ticks 1 w)) -> clock w <= clock w' <= clock w + 16777216 ->
     queue c (w_timers w') (enqueue (mk_due (clock w + ms) h a) q) -> Q tt w') ->
  wp (sys_timeout ms h a) w Q.
Proof.
  intros Hq Hlen Hc Hms HQ. destruct (timeout_exec c w q ms h a Hq Hlen Hc Hms) as [E Hq'].
  eapply wp_exec; [exact E|]. apply HQ; [by eexists|apply clock_step|done].
Qed.

Lemma timeouts_init_spec w :
  next_timeout (w_timers w) = [] ->
  wp sys_timeouts_init w (fun _ w' => exists q, (exists ts, w' = set_timers ts (add_ticks 2 w)) /\
    clock w <= clock w' <= clock w + 33554432 /\
    queue (clock w') (w_timers w') q /\ Forall cyclic q /\ d_arg <$> q ≡ₚ [0; 1] /\
    Forall (fun d => clock w + interval_of (d_arg d) <= d_time d <= clock w' + interval_of (d_arg d)) q).
Proof.
  intros Hl. assert (Hq : queue (clock w) (w_timers w) []) by (split; [done|constructor|constructor]).
  unfold sys_timeouts_init, lwip_cyclic_timers. cbn [start_timers interval_ms].
  unfold ND6_TMR_INTERVAL, MLD6_TMR_INTERVAL. apply wp_bind.
  eapply (wp_sys_timeout (clock w)); [exact Hq|unfold MEMP_NUM_SYS_TIMEOUT; simpl; lia|lia|lia|].
  intros w1 [ts1 Hs1] Hc1 Hq1. apply wp_bind.
  eapply (wp_sys_timeout (clock w)); [exact Hq1|unfold MEMP_NUM_SYS_TIMEOUT; simpl; lia|lia|lia|].
  intros w2 [ts2 Hs2] Hc2 [Hl2 Hso2 Hn2]. apply wp_ret. eexists.
  split_and!; [by exists ts2; rewrite Hs2, Hs1|lia|lia|..].
  - split; [exact Hl2|exact Hso2|]. rewrite enqueue_perm. constructor; [|constructor; [|constructor]];
      unfold near; cbn [d_time]; lia.
  - rewrite enqueue_perm. constructor; [by split; [|right]|]. constructor; [by split; [|left]|constructor].
  - rewrite enqueue_perm. apply Permutation_swap.
  - rewrite enqueue_perm. constructor; [|constructor; [|constructor]]; cbn [d_time d_arg].
    + change (interval_of (0 + 1)) with 100. lia.
    + change (interval_of 0) with 1000. lia.
Qed.
End specs.

(** ** Properties *)

(** C20: a new timeout.  With a pool element left it is put behind every pending
    timeout that is due no later and before every later one, although the due
    times are compared in 32 bits that wrap round; without one the process
    aborts, which is what an application's timeout meets while the two timers
    of the stack are pending. *)
Theorem timeout_ordered `{Env} w q ms h a :
  queue (clock w) (w_timers w) q -> 0 <= ms <= 536870912 ->
  if bool_decide (length q < MEMP_NUM_SYS_TIMEOUT)%nat then
    exists q1 q2 w', sys_timeout ms h a w = Ret (tt, w') /\ stack_step w w' /\ q = q1 ++ q2 /\
      queue (clock w) (w_timers w') (q1 ++ mk_due (clock w + ms) h a :: q2) /\
      Forall (fun d => d_time d <= clock w + ms) q1 /\ Forall (fun d => clock w + ms < d_time d) q2
  else sys_timeout ms h a w = Stuck.
Proof.
  intros Hq Hms. case_bool_decide as Hlen.
  - destruct (timeout_exec (clock w) w q ms h a Hq Hlen (now_near _) Hms) as [E Hq'].
    destruct (enqueue_split (mk_due (clock w + ms) h a) q (q_sorted _ _ _ Hq)) as (q1 & q2 & Hsp & Eq & H1 & H2).
    exists q1, q2. eexists. split; [exact E|]. split_and!; [|done| |done|done].
    + etransitivity; [apply (stack_step_ticks 1)|apply stack_step_timers].
    + cbn [w_timers set_timers]. by rewrite <-Eq.
  - unfold sys_timeout, c_assert, LWIP_UINT32_MAX. rewrite (proj2 (Z.leb_le _ _)) by zlia.
    rewrite (bind_exec (mret tt) _ w tt w) by done.
    rewrite (bind_exec sys_now _ w (u32 (clock w)) (add_ticks 1 w)) by done.
    unfold sys_timeout_abs. rewrite (bind_exec get _ _ (add_ticks 1 w) (add_ticks 1 w)) by done.
    cbn [w_timers add_ticks]. rewrite (q_list _ _ _ Hq), length_fmap. cbv zeta. unfold c_assert. by rewrite bool_decide_false.
Qed.

(** [sys_untimeout] takes back what [sys_timeout] added: if no timeout with
    this handler and argument was pending, the list is as before. *)
Theorem untimeout_undoes `{Env} w q ms h a :
  queue (clock w) (w_timers w) q -> 0 <= ms <= 536870912 -> (length q < MEMP_NUM_SYS_TIMEOUT)%nat ->
  Forall (fun t => ~ matches h a t) (next_timeout (w_timers w)) ->
  wp (sys_timeout ms h a;; sys_untimeout h a) w (fun _ w' => w_timers w' = w_timers w).
Proof.
  intros Hq Hms Hlen Hno. destruct (timeout_exec (clock w) w q ms h a Hq Hlen (now_near _) Hms) as [E _].
  apply wp_bind. eapply wp_exec; [exact E|]. apply wp_modify. cbn [w_timers set_timers next_timeout current_timeout_due_time].
  destruct (enqueue_split (mk_due (clock w + ms) h a) q (q_sorted _ _ _ Hq)) as (q1 & q2 & -> & -> & _).
  pose proof (q_list _ _ _ Hq) as Hl. rewrite Hl, fmap_app in Hno. apply Forall_app in Hno as [Hno _].
  rewrite fmap_app, fmap_cons, unlink_first_app, <-fmap_app, <-Hl by done. by destruct (w_timers w).
Qed.

(** C19: [sys_check_timeouts].  From a queue of at most two of the stack's
    cyclic timers, all within 2^30 ms of the clock, it returns, and the node has
    gone from [w] to [w'] by running timer functions ([ran]): [nd6_tmr] ran
    exactly if the timer of neighbour discovery was due when the call began,
    [mld6_tmr] exactly if that of multicast listener discovery was, and in all
    there were at most twice as many calls as timers pending; between these calls
    only the clock was read and the list of timeouts changed.  A timer that was not due is left
    alone; one that was due is due again, one interval after it was due or, if
    it was late, one interval after it ran; none is lost and all are due after
    the time the call began.  The clock takes no more than 2^24 ms for one
    request, and the timer functions return and set no timeouts themselves. *)
Theorem check_timeouts_runs `{Env} `{TimerFunctions} `{!SteadyClock} `{!TimerFunctionsOk} w q :
  queue (clock w) (w_timers w) q -> Forall cyclic q -> (length q <= MEMP_NUM_SYS_TIMEOUT)%nat ->
  wp sys_check_timeouts w (fun _ w' => exists runs q',
    ran w runs w' /\ (length runs <= 2 * length q)%nat /\
    (forall a, a ∈ runs <-> exists d, d ∈ q /\ d_arg d = a /\ d_time d <= clock w) /\
    stack_step w w' /\ queue (clock w') (w_timers w') q' /\ d_arg <$> q' ≡ₚ d_arg <$> q /\
    Forall (fun d' => clock w < d_time d' /\ exists d, d ∈ q /\ d_arg d = d_arg d' /\
      if clock w <? d_time d then d_time d' = d_time d
      else d_time d' = d_time d + interval_of (d_arg d) \/
           clock w + interval_of (d_arg d) <= d_time d' <= clock w' + interval_of (d_arg d)) q').
Proof.
  intros Hq Hcy Hlen. eapply wp_mono; [by apply check_timeouts_spec|]. cbn beta.
  intros _ w' (q' & Hst & _ & Hq' & _ & Hargs & Hd & runs & Hran & Hn & Hdue). exists runs, q'.
  split_and!; [done|done|done|done|done|done|].
  rewrite Forall_forall. intros d' (Hgt & d & Hin & Ha & Hm)%Hd. split; [done|]. exists d. split_and!; [done|done|].
  destruct (Z.ltb_spec (clock w) (d_time d)); lia.
Qed.

(** How long the main loop may sleep: exactly until the next timeout is
    due, and not at all if it is late. *)
Theorem sleeptime_exact `{Env} w q :
  queue (clock w) (w_timers w) q ->
  sys_timeouts_sleeptime w =
    match q with
    | [] => Ret (SYS_TIMEOUTS_SLEEPTIME_INFINITE, w)
    | d :: _ => Ret (Z.max 0 (d_time d - clock w), add_ticks 1 w)
    end.
Proof. apply sleeptime_exec. Qed.

(** [sys_restart_timeouts]: the next timeout is due at once and the distances
    between the timeouts stay, however late the queue was. *)
Lemma restart_rebases `{Env} c w d q :
  queue c (w_timers w) (d :: q) -> Forall (fun e => d_time e <= d_time d + 1073741824) q ->
  wp sys_restart_timeouts w (fun _ w' => stack_step w w' /\
    queue (clock w) (w_timers w') (shift (clock w - d_time d) <$> d :: q)).
Proof.
  intros Hq Hw. destruct (restart_exec c w d q Hq Hw) as (w' & E & ? & ?). by eapply wp_exec; [exact E|].
Qed.

(** *** Concrete runs

    The clock is about to pass 2^32 ms; the timer of multicast listener
    discovery is due, that of neighbour discovery is due after the wrap. *)
Definition wrap_env : Env :=
  calm_env_with (fun t => 4294967200 + 30 * Z.of_nat t) (fun _ _ => CgrNoCandidate).
Definition idle_functions : TimerFunctions :=
  {| nd6_tmr := mret tt; mld6_tmr := mret tt; app_handler := fun _ _ => mret tt |}.
Definition mld6_due : due := mk_due 4294967150 (Some CYCLIC) 1.
Definition nd6_due : due := mk_due 4294968000 (Some CYCLIC) 0.
Definition timers_world (q : list due) : world := set_timers (mk_timers (timeo_of <$> q) 0) empty_world.

Lemma wrap_steady : @SteadyClock wrap_env.
Proof. intros t. cbn. lia. Qed.
Lemma idle_functions_ok `{Env} : @TimerFunctionsOk _ idle_functions.
Proof. split; intros w; apply wp_ret; (split_and!; [by split|done|lia|lia]). Qed.

Lemma wrap_queue : queue (@clock wrap_env (timers_world [mld6_due; nd6_due]))
  (w_timers (timers_world [mld6_due; nd6_due])) [mld6_due; nd6_due].
Proof.
  split; [done| |].
  - constructor; [constructor; constructor|]. constructor; [vm_compute; discriminate|constructor].
  - constructor; [|constructor; [|constructor]]; (split; vm_compute; [reflexivity|discriminate]).
Qed.
Lemma wrap_queue_1 : queue (@clock wrap_env (timers_world [nd6_due])) (w_timers (timers_world [nd6_due])) [nd6_due].
Proof.
  split; [done|constructor; constructor|]. constructor; [|constructor]. split; vm_compute; [reflexivity|discriminate].
Qed.

Example wrapped_run :
  (fun r => match r with Ret (_, w') => Some (next_timeout (w_timers w')) | _ => None end)
    (@sys_check_timeouts wrap_env idle_functions (timers_world [mld6_due; nd6_due])) =
  Some [timeo_of (mk_due 4294967250 (Some CYCLIC) 1); timeo_of nd6_due].
Proof. by vm_compute. Qed.

Lemma timeout_ordered_witness :
  exists q1 q2 w', @sys_timeout wrap_env 100 (Some CYCLIC) 1 (timers_world [nd6_due]) = Ret (tt, w') /\
    stack_step (timers_world [nd6_due]) w' /\ [nd6_due] = q1 ++ q2 /\
    queue (@clock wrap_env (timers_world [nd6_due])) (w_timers w')
      (q1 ++ mk_due (@clock wrap_env (timers_world [nd6_due]) + 100) (Some CYCLIC) 1 :: q2) /\
    Forall (fun d => d_time d <= @clock wrap_env (timers_world [nd6_due]) + 100) q1 /\
    Forall (fun d => @clock wrap_env (timers_world [nd6_due]) + 100 < d_time d) q2.
Proof.
  refine (@timeout_ordered wrap_env (timers_world [nd6_due]) [nd6_due] 100 (Some CYCLIC) 1 wrap_queue_1 _).
  lia.
Defined.

Lemma untimeout_undoes_witness :
  wp (@sys_timeout wrap_env 100 (Some CYCLIC) 1;; sys_untimeout (Some CYCLIC) 1) (timers_world [nd6_due])
    (fun _ w' => w_timers w' = w_timers (timers_world [nd6_due])).
Proof.
  refine (@untimeout_undoes wrap_env (timers_world [nd6_due]) [nd6_due] 100 (Some CYCLIC) 1 wrap_queue_1 _ _ _).
  - lia.
  - unfold MEMP_NUM_SYS_TIMEOUT. simpl. lia.
  - constructor; [|constructor]. intros [_ E]. discriminate E.
Defined.

(** Timer functions that leave a mark on the TUN device: here the timer of
    multicast listener discovery runs once and that of neighbour discovery not. *)
Definition marking_functions : TimerFunctions :=
  {| nd6_tmr := modify (add_event (EvTunWrite 0 [])); mld6_tmr := modify (add_event (EvTunWrite 1 [])); app_handler := fun _ _ => mret tt |}.
Lemma marking_functions_ok `{Env} : @TimerFunctionsOk _ marking_functions.
Proof.
  split; intros w; (apply wp_modify; split_and!; [split; [done|done|done|]|done|unfold clock; simpl; lia|unfold clock; simpl; lia]);
    unfold raw_sends; cbn [w_trace add_event]; rewrite filter_app; simpl; by rewrite ?app_nil_r.
Qed.

Lemma check_timeouts_runs_witness :
  let w := timers_world [mld6_due; nd6_due] in
  wp (@sys_check_timeouts wrap_env marking_functions) w (fun _ w' => exists runs q',
    @ran wrap_env marking_functions w runs w' /\ (length runs <= 4)%nat /\
    (forall a, a ∈ runs <-> exists d, d ∈ [mld6_due; nd6_due] /\ d_arg d = a /\ d_time d <= @clock wrap_env w) /\
    stack_step w w' /\ queue (@clock wrap_env w') (w_timers w') q' /\ d_arg <$> q' ≡ₚ d_arg <$> [mld6_due; nd6_due] /\
    Forall (fun d' => @clock wrap_env w < d_time d' /\
        exists d, d ∈ [mld6_due; nd6_due] /\ d_arg d = d_arg d' /\
        if @clock wrap_env w <? d_time d then d_time d' = d_time d
        else d_time d' = d_time d + interval_of (d_arg d) \/
             @clock wrap_env w + interval_of (d_arg d) <= d_time d' <=
               @clock wrap_env w' + interval_of (d_arg d)) q').
Proof.
  refine (@check_timeouts_runs wrap_env marking_functions wrap_steady marking_functions_ok
            (timers_world [mld6_due; nd6_due]) [mld6_due; nd6_due] wrap_queue _ _).
  - constructor; [by split; [|right]|]. constructor; [by split; [|left]|constructor].
  - unfold MEMP_NUM_SYS_TIMEOUT. simpl. lia.
Defined.

Lemma sleeptime_exact_witness :
  @sys_timeouts_sleeptime wrap_env (timers_world [nd6_due]) = Ret (800, add_ticks 1 (timers_world [nd6_due])).
Proof. exact (@sleeptime_exact wrap_env (timers_world [nd6_due]) [nd6_due] wrap_queue_1). Defined.
