(* ===== verification/Main.v ===== *)
(** * The node: start-up, TUN device and main loop (src/main.c, src/dtn_module.c)

    The module that holds the three DTN components, the TUN interface lwIP
    sees, one round of the main loop, start-up up to the interface and
    shut-down.  The theorems: start-up leaves the three components well-formed
    with the timers pending, or nothing; what the TUN device reads reaches the
    controller byte for byte; and what rounds of the loop without a packet do. *)

From Stdlib Require Import Sorted.
From S2P Require Import Prelude LinkedList Ip6Addr World Netif Pbuf Ip6Hdr Custody Storage StorageSpec Routing RoutingSpec InetChksum RawSocket Ip6Spec Tracking DtnIcmp Controller ControllerSpec Timeouts.

Definition TUN_IFNAME : list Z := str "tun0".
Definition PACKET_BUF_SIZE : Z := 2048.
Definition CONTACT_CHECK_INTERVAL_MS : Z := 1000.

(** ** src/dtn_module.c *)

Section module.
Context `{Env}.

(** [dtn_module_cleanup] on a module that exists. *)
Definition dtn_module_cleanup : M world unit :=
  dtn_controller_destroy;;
  dtn_routing_destroy;;
  dtn_storage_destroy.

(** [true] stands for the module, [false] for NULL. *)
Definition dtn_module_init : M world bool :=
  ok ← malloc_ok;
  if negb ok then mret false
  else
    modify (set_controller None);;
    modify (set_routing None);;
    modify (set_storage None);;
    c ← dtn_controller_create;
    modify (set_controller c);;
    dtn_routing_create;;
    dtn_storage_create;;
    w ← get;
    match w_controller w, w_routing w, w_storage w with
    | Some _, Some _, Some _ => mret true
    | _, _, _ => dtn_module_cleanup;; mret false
    end.
End module.

(** ** The TUN interface *)

Section tun.
Context `{Env} `{Ip6Input}.

(** [open], [TUNSETIFF]; the name the kernel chose is only printed. *)
Definition tun_alloc : M world Z :=
  t ← next_tick;
  let fd := env_open t in
  if fd <? 0 then mret fd
  else
    modify (fun w => set_raw (w_raw w) (fd :: w_fds w) w);;
    t' ← next_tick;
    if negb (env_ioctl t') then sys_close fd;; mret (-1)
    else mret fd.

Definition tunif_output (nif : option netif) (p : option loc) : M world err_t :=
  match nif, p with
  | Some n, Some pl =>
      match nif_state n with
      | None => mret ERR_ARG
      | Some tun_fd =>
          nd ← pb_node pl;
          let tot_len := pb_tot_len (n_val nd) in
          if PACKET_BUF_SIZE <? tot_len then mret ERR_MEM
          else
            w ← get;
            buffer ← lift (pbuf_copy_partial (w_pbufs w) (Some pl) tot_len 0);
            if negb (Z.of_nat (length buffer) =? tot_len) then mret ERR_BUF
            else
              t ← next_tick;
              match env_write t tot_len with
              | WriteAgain => mret ERR_WOULDBLOCK
              | WriteError => mret ERR_IF
              | Written written =>
                  modify (add_event (EvTunWrite tun_fd (take (Z.to_nat written) buffer)));;
                  mret (if negb (written =? tot_len) then ERR_IF else ERR_OK)
              end
      end
  | _, _ => mret ERR_ARG
  end.

(** [tunif_input] after a successful [read] of [data]. *)
Definition input_bytes (n : netif) (data : list Z) : M world err_t :=
  let buf := u8 <$> take (Z.to_nat PACKET_BUF_SIZE) data in
  let len := Z.of_nat (length buf) in
  if len =? 0 then mret ERR_CONN
  else
    p ← pbuf_alloc PBUF_RAW len PBUF_POOL;
    match p with
    | None => mret ERR_MEM
    | Some pl =>
        w ← get;
        r ← lift (pbuf_take (w_pbufs w) (Some pl) buf);
        modify (set_pbufs (fun _ => r.2));;
        if decide (r.1 <> ERR_OK) then pbuf_free_m pl;; mret r.1
        else
          dtn_controller_process_incoming (Some pl) n;;
          mret ERR_OK
    end.

Definition tunif_input (nif : option netif) : M world err_t :=
  match nif with
  | None => mret ERR_ARG
  | Some n =>
      match nif_state n with
      | None => mret ERR_ARG
      | Some _ =>
          w ← get;
          match w_controller w with
          | None => _ ← next_tick; mret ERR_IF
          | Some _ =>
              t ← next_tick;
              match env_read t with
              | ReadAgain => mret ERR_OK
              | ReadError => mret ERR_IF
              | ReadBytes data => input_bytes n data
              end
          end
      end
  end.

(** [netif->linkoutput] is [tunif_output] from [tunif_init] on. *)
Definition tunif_ip6_output (nif : option netif) (p : option loc) (ipaddr : ip6_addr) : M world err_t :=
  tunif_output nif p.

(** The fields of the model's [netif]; the three function pointers are fixed. *)
Definition tunif_init (nif : option netif) : err_t * option netif :=
  match nif with
  | None => (ERR_ARG, None)
  | Some n =>
      (ERR_OK, Some (mk_netif (ip6_addrs n) (ip6_addr_state n) (ip6_addr_valid_life n) (ip6_addr_pref_life n)
                       (str "tn") 1500 (nif_mtu6 n) (Z.lor NETIF_FLAG_UP NETIF_FLAG_LINK_UP) (nif_num n)
                       (nif_state n) (nif_hwaddr n) (nif_hwaddr_len n) (nif_status_callback n) (nif_link_callback n)))
  end.
End tun.

(** ** The main loop *)

Section loop.
Context `{Env} `{Ip6Input} `{TimerFunctions}.

(** The time [select] may wait, as [tv_sec] and [tv_usec]. *)
Definition select_timeout (lwip_timeout_ms : Z) : Z * Z :=
  let app_timeout_ms :=
    if negb (lwip_timeout_ms =? SYS_TIMEOUTS_SLEEPTIME_INFINITE) &&
       (lwip_timeout_ms <? CONTACT_CHECK_INTERVAL_MS)
    then lwip_timeout_ms else CONTACT_CHECK_INTERVAL_MS in
  (app_timeout_ms / 1000, (app_timeout_ms mod 1000) * 1000).

(** The end of a round: contacts, then the stored packets. *)
Definition check_contacts (tun_netif : netif) : M world unit :=
  w ← get;
  cont ← match w_routing w with
         | Some _ => dtn_routing_update_contacts
         | None => mret false
         end;
  w ← get;
  match w_controller w with
  | Some _ => if (cont : bool) then dtn_controller_attempt_forward_stored tun_netif else mret tt
  | None => mret tt
  end.

(** One round of [while (1)]: [inl] to go round again, [inr] to leave. *)
Definition main_round (tun_netif : netif) : M world (unit + unit) :=
  lwip_timeout_ms ← sys_timeouts_sleeptime;
  let tv := select_timeout lwip_timeout_ms in
  t ← next_tick;
  match env_select t with
  | SelectIntr => mret (inl tt)
  | SelectError => mret (inr tt)
  | SelectOk readable =>
      sys_check_timeouts;;
      closed ← (if (readable : bool) then r ← tunif_input (Some tun_netif); mret (bool_decide (r = ERR_CONN))
                else mret false);
      if (closed : bool) then mret (inr tt)
      else check_contacts tun_netif;; mret (inl tt)
  end.

(** ** Start-up and shut-down *)

Definition release_all (tun_fd : Z) : M world (option Z) :=
  sys_close tun_fd;; dtn_module_cleanup;; mret None.

(** Of the initialisations, [sys_timeouts_init] is the one with an effect on this
    state; the others set up the allocators and the list of interfaces. *)
Definition lwip_init : M world unit := sys_timeouts_init.

(** [main] up to the two [fcntl] calls: the descriptor of the TUN device, or
    [exit(EXIT_FAILURE)].  The [netif_remove] on the way out is a call on an
    interface that is not registered yet. *)
Definition main_start : M world (option Z) :=
  lwip_init;;
  t ← next_tick;
  ready ← (if env_stat t then mret true else t' ← next_tick; mret (env_mkdir t'));
  if negb (ready : bool) then mret None
  else
    ok ← dtn_module_init;
    if negb (ok : bool) then mret None
    else
      tun_fd ← tun_alloc;
      if tun_fd <? 0 then dtn_module_cleanup;; mret None
      else
        r ← raw_socket_init (str "enp0s8") (str "enp0s9");
        if r <? 0 then release_all tun_fd
        else
          t1 ← next_tick;
          if negb (env_fcntl t1) then release_all tun_fd
          else
            t2 ← next_tick;
            if negb (env_fcntl t2) then release_all tun_fd else mret (Some tun_fd).

(** After the loop; taking the interface down is lwIP's. *)
Definition main_shutdown (tun_fd : Z) : M world unit :=
  sys_close tun_fd;;
  dtn_module_cleanup;;
  raw_socket_cleanup.
End loop.

(** ** What the TUN device reads *)

Section tun_spec.
Context `{Env} `{Ip6Input}.

(** [p] is a fresh packet with the bytes [bs] that only the caller holds, and
    nothing else of [w] has changed. *)
Record received (w w1 : world) (p : loc) (ls : list (loc * pbuf)) (bs : list Z) : Prop := {
  rv_pkt : pkt (w_pbufs w1) p ls bs;
  rv_full : no_empty ls;
  rv_refs : Forall (fun x => pb_ref x.2 = 1) ls;
  rv_fresh : Forall (fun l => w_pbufs w !! l = None) ls.*1;
  rv_frame : forall q, q ∉ ls.*1 -> w_pbufs w1 !! q = w_pbufs w !! q;
  rv_rest : exists k, w1 = set_pbufs (fun _ => w_pbufs w1) (add_ticks k w);
  rv_one : (length bs <= 1536)%nat -> exists b, owned w1 p b bs /\ ((length bs <= 1534)%nat -> stack_packet b bs)
}.

Lemma same_shape_locs ls ls' : same_shape ls ls' -> ls'.*1 = ls.*1.
Proof. induction 1 as [|x y ? ? (E & _) _ IH]; [done|]. rewrite !fmap_cons. congruence. Qed.

Lemma same_shape_refs ls ls' :
  same_shape ls ls' -> Forall (fun x => pb_ref x.2 = 1) ls -> Forall (fun x => pb_ref x.2 = 1) ls'.
Proof.
  induction 1 as [|x y ? ? (_ & E & _) _ IH]; intros HF; [done|]. apply Forall_cons in HF as [? ?].
  constructor; [|by apply IH]. rewrite E. done.
Qed.

Lemma same_shape_full ls ls' : same_shape ls ls' -> no_empty ls -> no_empty ls'.
Proof.
  induction 1 as [|x y ? ? (_ & E & _) _ IH]; intros HF; [done|]. apply Forall_cons in HF as [? ?].
  constructor; [|by apply IH]. rewrite E. done.
Qed.

(** The pool has the one or two buffers a packet of [n] bytes takes. *)
Definition room_for (w : world) (n : nat) : Prop :=
  (pool_live [PBUF_POOL] (w_pbufs w) < PBUF_POOL_SIZE)%nat /\
  ((1536 < n)%nat -> (S (pool_live [PBUF_POOL] (w_pbufs w)) < PBUF_POOL_SIZE)%nat).

Lemma room_for_two w n : (S (pool_live [PBUF_POOL] (w_pbufs w)) < PBUF_POOL_SIZE)%nat -> room_for w n.
Proof. unfold room_for. lia. Qed.

(** Allocating from the pool for [bs] and copying them in. *)
Lemma pool_fill w bs k w0 :
  w0 = add_ticks k w -> (0 < length bs <= 2048)%nat -> Forall is_byte bs -> room_for w (length bs) ->
  exists p wa h ls, pbuf_alloc PBUF_RAW (Z.of_nat (length bs)) PBUF_POOL w0 = Ret (Some p, wa) /\
    pbuf_take (w_pbufs wa) (Some p) bs = Ret (ERR_OK, h) /\
    received w (set_pbufs (fun _ => h) wa) p ls bs.
Proof.
  intros -> Hl Hb [Hroom Hroom2]. set (w0 := add_ticks k w). set (n := Z.of_nat (length bs)).
  assert (exists p wa ls j, pbuf_alloc PBUF_RAW n PBUF_POOL w0 = Ret (Some p, wa) /\
    pool_chain w0 n p wa ls /\ wa = set_pbufs (fun _ => w_pbufs wa) (add_ticks j w0)) as
    (p & wa & ls & j & Ha & ((old & Hp & Hlen) & Hfull & Hrefs & Hfresh & Hframe & Hone & Hpool) & Hwa).
  { destruct (decide (n <= 1536)).
    - destruct (pool_alloc_one w0 n) as [Ha Hc]; [lia|unfold pool_has_room; cbn; lia|].
      eexists _, _, _, 1%nat. split_and!; [exact Ha|exact Hc|done].
    - destruct (pool_alloc_two w0 n) as (wa & ls & Ha & Hc & Hw); [lia|apply Hroom2; lia|].
      eexists _, _, _, 2%nat. split_and!; [exact Ha|exact Hc|exact Hw]. }
  destruct (pbuf_take_ok (w_pbufs wa) p ls old bs Hp Hb) as (h & ls' & Ht & Hp' & Hsh & Hfr); [lia|].
  rewrite drop_ge, app_nil_r in Hp' by lia. pose proof (same_shape_locs _ _ Hsh) as Hlocs.
  exists p, wa, h, ls'. split_and!; [done|done|]. split.
  - exact Hp'.
  - by eapply same_shape_full.
  - by eapply same_shape_refs.
  - by rewrite Hlocs.
  - intros q Hq. rewrite Hlocs in Hq. cbn. rewrite Hfr by done. by apply Hframe.
  - exists (j + k)%nat. rewrite Hwa. apply world_eq; try reflexivity. cbn. lia.
  - intros Hsm. specialize (Hone ltac:(lia)). apply Forall2_length in Hsh as Hl2. rewrite Hone in Hl2.
    destruct ls' as [|[l b] [|? ?]]; try done. exists b.
    assert (l = p) as -> by (destruct Hp' as [[E _] _]; congruence).
    pose proof (same_shape_refs _ _ Hsh Hrefs) as [Hr _]%Forall_cons.
    split; [by split; [apply single_pkt|exact Hr]|]. intros Hsl. destruct ls as [|x0 [|? ?]]; try done.
    apply Forall2_cons_1 in Hsh as [(_ & Eb & El) _]. apply Forall_cons in Hpool as [(Et & Epl & Ebl) _].
    destruct Hp' as (_ & Hc' & Hfl). pose proof (flat_length _ Hc') as Hfl'. rewrite Hfl in Hfl'. cbn in Hc', Hfl', Eb, El.
    split; [by rewrite Eb|lia|lia|]. rewrite El, Ebl. cbn [snd] in *.
    assert (pb_payload b = 0) as -> by (by rewrite Eb). lia.
Qed.

Lemma input_bytes_exec w n data k :
  data <> [] -> room_for w (length data) ->
  exists p ls w1, received w w1 p ls (u8 <$> take 2048 data) /\
    input_bytes n data (add_ticks k w) = (dtn_controller_process_incoming (Some p) n;; mret ERR_OK) w1.
Proof.
  intros Hd Hroom. unfold input_bytes. change (Z.to_nat PACKET_BUF_SIZE) with 2048%nat.
  set (bs := u8 <$> take 2048 data).
  assert (Hl : (0 < length bs <= 2048)%nat).
  { unfold bs. rewrite length_fmap, length_take. destruct data; [done|]. cbn [length]. lia. }
  assert (Hb : Forall is_byte bs) by (apply Forall_fmap, Forall_true; intros x; apply u8_range).
  assert (Hroom' : room_for w (length bs)).
  { destruct Hroom as [Hr1 Hr2]. split; [done|]. intros Hbig. apply Hr2.
    unfold bs in Hbig. rewrite length_fmap, length_take in Hbig. lia. }
  clearbody bs. destruct (pool_fill w bs k _ eq_refl Hl Hb Hroom') as (p & wa & h & ls & Ha & Ht & Hrv).
  exists p, ls, (set_pbufs (fun _ => h) wa). split; [exact Hrv|]. cbv zeta.
  destruct (Z.eqb_spec (Z.of_nat (length bs)) 0); [lia|].
  rewrite (bind_exec _ _ _ _ _ Ha), (bind_exec get _ wa wa wa) by done.
  rewrite (bind_exec (lift _) _ wa (ERR_OK, h) wa) by (unfold lift; by rewrite Ht).
  rewrite (bind_exec (modify _) _ wa tt (set_pbufs (fun _ => h) wa)) by done. done.
Qed.

Lemma fmap_bytes bs : Forall is_byte bs -> u8 <$> bs = bs.
Proof. induction 1 as [|x bs Hx _ IH]; [done|]. cbn. by rewrite u8_small, IH by done. Qed.

(** The node is as well-formed with the received packet as without. *)
Lemma received_node w w1 p lp bs t ls recs rt cs :
  received w w1 p lp bs -> node_ok w t ls recs rt cs -> node_ok w1 t ls recs rt cs.
Proof.
  intros Hrv [Hk1 Hk2 [Hst Hbd HF Hnd] Hk4 Hk5]. destruct (rv_rest _ _ _ _ _ Hrv) as [k Hw1].
  rewrite Hw1. split; try done. split; [done|done| |done]. cbn.
  eapply entries_rep_frame; [|exact HF]. intros q Hq. apply (rv_frame _ _ _ _ _ Hrv). intros Hin.
  pose proof (rv_fresh _ _ _ _ _ Hrv) as Hf. rewrite Forall_forall in Hf. specialize (Hf q Hin).
  destruct (entries_rep_live _ _ _ _ HF Hq). congruence.
Qed.

(** Releasing it gives the node back. *)
Lemma received_released w w1 p lp bs b es k :
  received w w1 p lp bs -> owned w1 p b bs ->
  w_raw w1 = w_raw w /\ exists k', del_pbuf p (logged es k w1) = logged es k' w.
Proof.
  intros Hrv [Hs _]. destruct (rv_rest _ _ _ _ _ Hrv) as [j Hw1]. split; [by rewrite Hw1|].
  exists (k + j)%nat. rewrite Hw1. apply world_eq; try reflexivity; [|cbn; lia]. cbn.
  assert (Hlp : lp = [(p, b)]).
  { destruct (rv_pkt _ _ _ _ _ Hrv) as [Hll _]. apply single_pkt in Hs as [Hll' _]. by eapply llist_det. }
  pose proof (rv_frame _ _ _ _ _ Hrv) as Hfr. pose proof (rv_fresh _ _ _ _ _ Hrv) as Hf. subst lp.
  apply Forall_cons in Hf as [Hf _]. cbn in Hf. apply map_eq. intros q.
  destruct (decide (q = p)) as [->|Hq]; [by rewrite lookup_delete_eq|].
  rewrite lookup_delete_ne by done. apply Hfr. cbn. set_solver.
Qed.
End tun_spec.

(** ** The module *)

Section module_spec.
Context `{Env}.

Lemma controller_create_exec w :
  dtn_controller_create w =
    Ret (if env_malloc (w_tick w) then Some (replicate MAX_DESTINATIONS (mk_attempt ip6_addr_any 0 0 false))
         else None, add_ticks 1 w).
Proof. done. Qed.

(** What the three destructors free: the contacts, the entries and the stored
    packets, and nothing else. *)
Definition released (ls : list (loc * Stored_Packet_Entry)) (lc : list loc) (w w' : world) : Prop :=
  w_controller w' = None /\ w_routing w' = None /\ w_storage w' = None /\ w_files w' = w_files w /\
  w_fds w' = w_fds w /\ w_raw w' = w_raw w /\ w_trace w' = w_trace w /\ w_timers w' = w_timers w /\
  w_last_active w' = w_last_active w /\
  (forall l, w_contacts w' !! l = if decide (l ∈ lc) then None else w_contacts w !! l) /\
  (forall l, w_entries w' !! l = if decide (l ∈ ls.*1) then None else w_entries w !! l) /\
  (forall p, w_pbufs w' !! p = if decide (Some p ∈ entry_pbufs ls) then None else w_pbufs w !! p).

(** The list of contacts and of entries, empty without the component. *)
Definition held_contacts (w : world) (lc : list loc) : Prop :=
  match w_routing w with
  | None => lc = []
  | Some r => exists ls, llist (w_contacts w) (contact_list_head r) ls /\ ls.*1 = lc
  end.
Definition held_packets (w : world) (ls : list (loc * Stored_Packet_Entry)) : Prop :=
  match w_storage w with None => ls = [] | Some _ => exists recs, stores w ls recs end.

Lemma routing_destroy_held w lc :
  held_contacts w lc ->
  wp dtn_routing_destroy w (fun _ w' => rest_but_contacts w' = rest_but_contacts w /\ w_routing w' = None /\
    forall l, w_contacts w' !! l = if decide (l ∈ lc) then None else w_contacts w !! l).
Proof.
  unfold held_contacts. destruct (w_routing w) as [r|] eqn:Er.
  - intros (ls & Hl & <-). eapply wp_mono; [by apply (routing_destroy_spec w r ls)|].
    cbn beta. by intros _ w' (Hr & Hn & _ & Hk).
  - intros ->. unfold dtn_routing_destroy. apply wp_bind, wp_get. rewrite Er. by apply wp_ret.
Qed.

Lemma storage_destroy_held w ls :
  held_packets w ls ->
  wp dtn_storage_destroy w (fun _ w' =>
    w_storage w' = None /\ w_files w' = w_files w /\ rest_of w' = rest_of w /\
    (forall l, w_entries w' !! l = if decide (l ∈ ls.*1) then None else w_entries w !! l) /\
    (forall p, w_pbufs w' !! p = if decide (Some p ∈ entry_pbufs ls) then None else w_pbufs w !! p)).
Proof.
  unfold held_packets. destruct (w_storage w) eqn:Es.
  - intros [recs Hst]. by apply (destroy_spec w ls recs).
  - intros ->. unfold dtn_storage_destroy. apply wp_bind, wp_get. rewrite Es. apply wp_ret. by split_and!.
Qed.

Lemma cleanup_spec w ls lc :
  held_contacts w lc -> held_packets w ls ->
  wp dtn_module_cleanup w (fun _ w' => released ls lc w w').
Proof.
  intros Hc Hp. unfold dtn_module_cleanup. apply wp_bind. unfold dtn_controller_destroy. apply wp_modify.
  apply wp_bind. eapply wp_mono; [by apply routing_destroy_held|]. cbn beta.
  intros _ w1 (Hr & Hn & Hk). unfold rest_but_contacts in Hr. cbn in Hr. simplify_eq.
  eapply wp_mono; [apply (storage_destroy_held w1 ls)|].
  - unfold held_packets in *. destruct (w_storage w) eqn:Es.
    + destruct Hp as [recs Hp]. replace (w_storage w1) with (Some s). exists recs.
      apply (same_store_stores w); [unfold same_store; split_and!; congruence|done].
    + by replace (w_storage w1) with (@None Storage_Function).
  - cbn beta. intros _ w2 (Hs2 & Hf2 & Hr2 & He2 & Hp2). unfold rest_of in Hr2. cbn in *. simplify_eq.
    unfold released. split_and!; try congruence.
    + intros l. replace (w_contacts w2) with (w_contacts w1) by congruence. apply Hk.
    + intros l. rewrite He2. by replace (w_entries w1) with (w_entries w) by congruence.
    + intros l. rewrite Hp2. by replace (w_pbufs w1) with (w_pbufs w) by congruence.
Qed.
End module_spec.

Section module_init_spec.
Context `{Env}.

Definition fresh_table : DTN_Controller := replicate MAX_DESTINATIONS (mk_attempt ip6_addr_any 0 0 false).

(** What [dtn_routing_create] leaves behind. *)
Lemma routing_create_held w :
  wp dtn_routing_create w (fun _ w' => rest_but_contacts w' = rest_but_contacts w /\
    (exists lc, held_contacts w' lc) /\
    forall rt, w_routing w' = Some rt -> exists cs, contacts w' cs /\
      cs `sublist_of` plan_contacts (base_time rt) (default [] (w_files w !! CONTACTS_FILE))).
Proof.
  eapply wp_mono; [apply routing_create_spec|]. cbn beta. intros _ w' [Hr Hc]. split; [done|].
  destruct (env_malloc (w_tick w)).
  - destruct Hc as (cs & Hc & Hb & Hs). pose proof Hc as (rt & ls & Ert & Hl & _). split.
    + exists ls.*1. unfold held_contacts. rewrite Ert. by exists ls.
    + intros rt' E. exists cs. rewrite E in Hb. simpl in Hb. injection Hb as ->. done.
  - destruct Hc as [Hn _]. split; [exists []; unfold held_contacts; by rewrite Hn|]. congruence.
Qed.

Definition initialised (w : world) (ok : bool) (w' : world) : Prop :=
  w_fds w' = w_fds w /\ w_raw w' = w_raw w /\ w_trace w' = w_trace w /\ w_timers w' = w_timers w /\
  w_last_active w' = w_last_active w /\
  if ok then exists ls recs rt cs lc,
    node_ok w' fresh_table ls recs rt cs /\
    cs `sublist_of` plan_contacts (base_time rt) (default [] (w_files w !! CONTACTS_FILE)) /\
    held_contacts w' lc /\ held_packets w' ls
  else w_controller w' = None /\ w_routing w' = None /\ w_storage w' = None.

(** The last step of the initialisation: keep all three or none. *)
Lemma keep_or_clean w w2 lc :
  rest_but_contacts w2 = rest_but_contacts w ->
  (w_controller w = Some fresh_table \/ w_controller w = None) ->
  held_contacts w2 lc ->
  (forall rt, w_routing w2 = Some rt -> exists cs, contacts w2 cs /\
     cs `sublist_of` plan_contacts (base_time rt) (default [] (w_files w !! CONTACTS_FILE))) ->
  files_ok w2 ->
  wp (dtn_storage_create;;
      w ← get;
      match w_controller w, w_routing w, w_storage w with
      | Some _, Some _, Some _ => mret true
      | _, _, _ => dtn_module_cleanup;; mret false
      end) w2 (initialised w).
Proof.
  intros Hr Hc Hlc Hcs Hf. apply wp_bind. eapply wp_mono; [by apply create_spec|]. cbn beta.
  intros _ w3 [Hr3 Hs3]. apply wp_bind, wp_get.
  unfold rest_but_contacts in Hr. unfold rest_of in Hr3. simplify_eq.
  assert (Hlc3 : held_contacts w3 lc).
  { unfold held_contacts in *. replace (w_routing w3) with (w_routing w2).
    by replace (w_contacts w3) with (w_contacts w2). }
  assert (exists ls, held_packets w3 ls) as [ls Hls].
  { unfold held_packets. destruct Hs3 as [->|(ls & recs & Hst)]; [by exists []|].
    pose proof Hst as [(st & -> & _) _ _ _]. by exists ls, recs. }
  assert (Hclean : wp (dtn_module_cleanup;; mret false) w3 (initialised w)).
  { apply wp_bind. eapply wp_mono; [by apply (cleanup_spec w3 ls lc)|]. cbn beta.
    intros _ w4 (? & ? & ? & ? & ? & ? & ? & ? & ? & _). apply wp_ret. unfold initialised. split_and!; congruence. }
  destruct (w_controller w3) as [t|] eqn:Et; [|exact Hclean].
  destruct (w_routing w3) as [rt|] eqn:Ert; [|exact Hclean].
  destruct (w_storage w3) as [st|] eqn:Est; [|exact Hclean].
  apply wp_ret. unfold initialised. split_and!; try congruence.
  destruct (Hcs rt) as (cs & Hct & Hsub); [congruence|].
  destruct Hs3 as [?|(ls' & recs & Hst)]; [congruence|].
  assert (t = fresh_table) as -> by (destruct Hc; congruence).
  exists ls', recs, rt, cs, lc. split_and!; [|done|done|].
  - split; [done| |done|done|].
    + apply table_ok_fresh.
    + destruct Hct as (r & lsc & Hr2 & Hl2 & Hcs2). exists r, lsc.
      split_and!; [congruence| |done]. by replace (w_contacts w3) with (w_contacts w2).
  - unfold held_packets. rewrite Est. by exists recs.
Qed.

Lemma module_init_spec w :
  files_ok w -> w_controller w = None -> w_routing w = None -> w_storage w = None ->
  wp dtn_module_init w (initialised w).
Proof.
  intros Hf Hc Hr Hs. unfold dtn_module_init. apply wp_bind, wp_malloc.
  destruct (env_malloc (w_tick w)); cbn [negb]; [|by apply wp_ret].
  apply wp_bind, wp_modify, wp_bind, wp_modify, wp_bind, wp_modify. set (w0 := set_storage None _).
  apply wp_bind. eapply wp_exec; [apply controller_create_exec|].
  apply wp_bind, wp_modify, wp_bind. set (w1 := set_controller _ _).
  eapply wp_mono; [apply (routing_create_held w1)|]. cbn beta. intros _ w2 (Hr2 & [lc Hlc] & Hcs).
  eapply wp_mono; [apply (keep_or_clean w1 w2 lc); [done| |done|done|]|].
  - unfold w1. cbn [w_controller set_controller]. destruct (env_malloc _); auto.
  - unfold files_ok. unfold rest_but_contacts in Hr2. simplify_eq. by replace (w_files w2) with (w_files w).
  - done.
Qed.
End module_init_spec.

(** ** One round of the loop *)

Section round_spec.
Context `{Env} `{Ip6Input} `{TimerFunctions}.

Lemma stack_step_node w w' t ls recs rt cs :
  stack_step w w' -> node_ok w t ls recs rt cs -> node_ok w' t ls recs rt cs.
Proof.
  intros [Hp Hd _ _] [Hk1 Hk2 [(st & Hw & Hle & Hn) Hbd HF Hnd] Hk4 (r & lc & Hr & Hll & Hcs)].
  injection Hd as He Hs Hc Hrt Hct _. split; [congruence|done| |congruence|].
  - split; [exists st; by rewrite Hs, He|done| |done].
    eapply entries_rep_frame; [|exact HF]. intros q Hq. apply Hp. by eapply entries_rep_live.
  - exists r, lc. by rewrite Hrt, Hct.
Qed.

Lemma update_contacts_node w t ls recs rt cs :
  node_ok w t ls recs rt cs -> length (w_last_active w) = 100%nat ->
  let now := u32 (env_now (w_tick w)) in
  let w1 := set_update_statics now (new_states now cs (w_last_active w)) (add_ticks 1 w) in
  dtn_routing_update_contacts w = Ret (became_active now cs (w_last_active w), w1) /\
  node_ok w1 t ls recs rt cs.
Proof.
  intros Hnk Hact now w1. split; [apply update_contacts_exec; [apply Hnk|done]|].
  destruct Hnk. split; try done. by apply (same_store_stores w).
Qed.

Context (nif : netif) (src : ip6_addr) (Hsrc : ip6_addrs nif !! 1%nat = Some src).
Context (Hcgr : forall t q, env_cgr t q <> CgrNull).

(** The invariant of the loop. *)
Record running (w : world) (recs : list stored_rec) : Prop := {
  rn_node : exists t ls rt cs, node_ok w t ls recs rt cs;
  rn_states : length (w_last_active w) = 100%nat;
  rn_sendable : Forall (fun r => sendable (r_data r)) recs
}.

Lemma running_stack_step w w' recs : stack_step w w' -> running w recs -> running w' recs.
Proof.
  intros Hs [(t & ls & rt & cs & Hnk) Hact Hsd]. split; [|destruct Hs; congruence|done].
  exists t, ls, rt, cs. by eapply stack_step_node.
Qed.

(** The recorded contact states agree with every reading of the clock. *)
Definition stable (w : world) : Prop :=
  exists cs, contacts w cs /\
    forall k, new_states (u32 (env_now k)) cs (w_last_active w) = w_last_active w.

Lemma stable_no_opening now cs states :
  new_states now cs states = states -> became_active now cs states = false.
Proof.
  revert states. induction cs as [|c cs IH]; intros [|s states]; simpl; try done.
  intros [= E1 E2]. rewrite E1, (IH _ E2). by destruct s.
Qed.

Lemma stable_stack_step w w' : stack_step w w' -> stable w -> stable w'.
Proof.
  intros [_ Hd _ _] (cs & (r & lc & Hr & Hll & Hcs) & Hst). injection Hd as _ _ _ Hrt Hct Hla.
  exists cs. rewrite Hla. split; [|done]. exists r, lc. by rewrite Hrt, Hct.
Qed.

(** What a round leaves as it was while the contact states are stable. *)
Definition untouched (recs recs' : list stored_rec) (w w' : world) : Prop :=
  recs' = recs /\ w_controller w' = w_controller w /\ raw_sends w' = raw_sends w /\ stable w'.

Lemma untouched_stack_step w w' recs : stack_step w w' -> stable w -> untouched recs recs w w'.
Proof.
  intros Hs Hst. split_and!; [done| |apply Hs|by eapply stable_stack_step].
  destruct Hs as [_ Hd _ _]. congruence.
Qed.

Lemma untouched_trans r1 r2 r3 w1 w2 w3 : untouched r1 r2 w1 w2 -> untouched r2 r3 w2 w3 -> untouched r1 r3 w1 w3.
Proof. intros (-> & E1 & E2 & _) (-> & E3 & E4 & ?). split_and!; congruence || done. Qed.

Lemma check_contacts_spec w recs :
  running w recs ->
  wp (check_contacts nif) w (fun _ w' => exists recs', running w' recs' /\ recs' `sublist_of` recs /\
    w_timers w' = w_timers w /\ (stable w -> untouched recs recs' w w')).
Proof.
  intros [(t & ls & rt & cs & Hnk) Hact Hsd]. unfold check_contacts. apply wp_bind, wp_get.
  rewrite (nk_routing _ _ _ _ _ _ Hnk).
  destruct (update_contacts_node w t ls recs rt cs Hnk Hact) as [He Hnk1].
  apply wp_bind. eapply wp_exec; [exact He|]. apply wp_bind, wp_get.
  set (w1 := set_update_statics _ _ _) in *. rewrite (nk_controller _ _ _ _ _ _ Hnk1).
  assert (Hact1 : length (w_last_active w1) = 100%nat) by (cbn; by rewrite new_states_length).
  assert (Hstab : stable w -> forall k, new_states (u32 (env_now k)) cs (w_last_active w) = w_last_active w).
  { intros (cs' & Hcs' & Hst) k. by rewrite (contacts_det _ _ _ (nk_contacts _ _ _ _ _ _ Hnk) Hcs'). }
  destruct (became_active _ cs _) eqn:Hb.
  - eapply wp_mono; [by apply (attempt_pass_spec nif src w1 t ls recs rt cs)|]. cbn beta.
    intros _ w' (t' & ls' & recs' & ess & Hnk' & [_ Hsub] & (_ & Htm & Hact') & _ & _ & Htr).
    exists recs'. split_and!; [|done|done|].
    + split; [by exists t', ls', rt, cs|done|]. by eapply Forall_sublist.
    + intros Hst. rewrite (stable_no_opening _ _ _ (Hstab Hst _)) in Hb. done.
  - apply wp_ret. exists recs. split_and!; [|done|done|].
    + split; [by exists t, ls, rt, cs|done|done].
    + intros Hst. split_and!; [done|done|done|]. exists cs. split; [apply Hnk1|].
      unfold w1. cbn. rewrite (Hstab Hst). by apply Hstab.
Qed.

(** The timers of the stack are pending, none more than 2^29 ms (six days) late. *)
Definition on_time (w : world) : Prop :=
  exists q, next_timeout (w_timers w) = timeo_of <$> q /\ StronglySorted no_later q /\ Forall cyclic q /\
    (length q <= MEMP_NUM_SYS_TIMEOUT)%nat /\
    Forall (fun d => clock w - 536870912 < d_time d <= clock w + 536870912) q.

(** A round that takes less than 2^28 ms. *)
Definition in_time (w w' : world) : Prop := clock w <= clock w' <= clock w + 268435456.

(** [select] reports no packet on the TUN device, and no signal interrupts it. *)
Definition quiet_select : Prop := forall t, env_select t <> SelectOk true /\ env_select t <> SelectIntr.

Context `{!SteadyClock} `{!TimerFunctionsOk}.

Lemma on_time_queue w w1 :
  on_time w -> w_timers w1 = w_timers w -> clock w <= clock w1 <= clock w + 33554432 ->
  exists q, queue (clock w1) (w_timers w1) q /\ Forall cyclic q /\ (length q <= MEMP_NUM_SYS_TIMEOUT)%nat /\
    Forall (fun d => d_time d <= clock w + 536870912) q.
Proof.
  intros (q & Hl & Hs & Hcy & Hlen & Hn) Ht Hc. exists q. rewrite Ht. split_and!; [split; [done|done|]|done|done|].
  - eapply Forall_impl; [exact Hn|]. unfold near. intros; simpl in *; lia.
  - eapply Forall_impl; [exact Hn|]. intros; simpl in *; lia.
Qed.

Lemma wp_sleeptime w :
  on_time w -> wp sys_timeouts_sleeptime w (fun _ w' => stack_step w w' /\ w_timers w' = w_timers w /\
    clock w <= clock w' <= clock w + 16777216).
Proof.
  intros Ho. destruct (on_time_queue w w Ho) as (q & Hq & _); [done|lia|].
  assert (Hw : wp sys_timeouts_sleeptime w (fun _ w' => w' = w \/ w' = add_ticks 1 w)).
  { unfold wp. rewrite (sleeptime_exec w q Hq). destruct q; auto. }
  eapply wp_mono; [exact Hw|]. intros ms w' [-> | ->].
  - split_and!; [done|done|lia|lia].
  - split_and!; [apply stack_step_ticks|done|apply clock_step|apply clock_step].
Qed.

(** The timers run, and stay pending for the rest of a round that started at [w]. *)
Lemma wp_timers_run w w2 :
  on_time w -> w_timers w2 = w_timers w -> clock w <= clock w2 <= clock w + 33554432 ->
  wp sys_check_timeouts w2 (fun _ w3 => stack_step w2 w3 /\
    forall w4, w_timers w4 = w_timers w3 -> in_time w w4 -> on_time w4).
Proof.
  intros Hon Ht Hc. destruct (on_time_queue w w2 Hon) as (q & Hq & Hcy & Hlen & Hup); [done|lia|].
  eapply wp_mono; [by apply (check_timeouts_spec w2 q)|]. cbn beta.
  intros _ w3 (q' & Hs3 & Hc3 & [Hl3 Hso3 _] & Hcy3 & Hargs & Hd3 & _). split; [done|].
  intros w4 Ht4 Hit. exists q'. rewrite Ht4. split_and!; [done|done|done| |].
  - apply Permutation_length in Hargs. rewrite !length_fmap in Hargs. lia.
  - rewrite Forall_forall in *. intros d' Hin. destruct (Hd3 d' Hin) as (Hgt & d & Hind & Ha & Hm).
    specialize (Hup d Hind). pose proof (interval_bounds (d_arg d)). unfold in_time in Hit. simpl in Hup. lia.
Qed.

Lemma round_spec w recs :
  quiet_select -> running w recs -> on_time w ->
  wp (main_round nif) w (fun r w' => exists recs', running w' recs' /\ recs' `sublist_of` recs /\
    (stable w -> untouched recs recs' w w') /\ (r = inl tt -> in_time w w' -> on_time w')).
Proof.
  intros Hno Hrun Hon. unfold main_round. apply wp_bind. eapply wp_mono; [by apply wp_sleeptime|]. cbn beta zeta.
  intros ms w1 (Hs1 & Ht1 & Hc1). apply wp_bind, wp_tick. set (w2 := add_ticks 1 w1).
  assert (Hc2 : clock w1 <= clock w2 <= clock w1 + 16777216) by apply clock_step.
  assert (Hs2 : stack_step w w2) by (etransitivity; [exact Hs1|apply stack_step_ticks]).
  pose proof (running_stack_step _ _ _ Hs2 Hrun) as Hrun2.
  destruct (Hno (w_tick w1)) as [Hn1 Hn2].
  destruct (env_select (w_tick w1)) as [| |[]]; [|done|done|].
  { apply wp_ret. exists recs. split_and!; [done|done|by apply untouched_stack_step|done]. }
  apply wp_bind. eapply wp_mono; [apply (wp_timers_run w w2); [done|done|lia]|]. cbn beta.
  intros _ w3 [Hs3 Hon3]. apply wp_bind, wp_ret.
  apply wp_bind. eapply wp_mono; [by apply (check_contacts_spec w3 recs), (running_stack_step w2)|]. cbn beta.
  intros _ w4 (recs' & Hrun4 & Hsub & Ht4 & Hst). apply wp_ret. exists recs'. split_and!; [done|done| |].
  - intros Hst0. pose proof (untouched_stack_step _ _ recs Hs2 Hst0) as Hu2.
    pose proof (untouched_stack_step _ _ recs Hs3 (stable_stack_step _ _ Hs2 Hst0)) as Hu3.
    eapply untouched_trans; [exact Hu2|]. eapply untouched_trans; [exact Hu3|]. apply Hst, Hu3.
  - intros _ Hit. by apply Hon3.
Qed.

(** Successive rounds, each of less than 2^28 ms. *)
Inductive rounds : world -> world -> Prop :=
| rounds_none w : rounds w w
| rounds_more w w1 w2 : rounds w w1 -> main_round nif w1 = Ret (inl tt, w2) -> in_time w1 w2 -> rounds w w2.

Lemma rounds_running w w' recs :
  quiet_select -> running w recs -> on_time w -> rounds w w' ->
  exists recs', running w' recs' /\ on_time w' /\ recs' `sublist_of` recs /\ (stable w -> untouched recs recs' w w').
Proof.
  intros Hno Hrun Hon Hr. induction Hr as [w|w w1 w2 _ IH Hstep Hit].
  - exists recs. by split_and!.
  - destruct IH as (recs1 & Hrun1 & Hon1 & Hsub & Hu); [done|done|].
    destruct (wp_elim _ _ _ (round_spec w1 recs1 Hno Hrun1 Hon1)) as (r & w3 & E & recs2 & Hrun2 & Hsub2 & Hu2 & Hon2).
    rewrite Hstep in E. simplify_eq. exists recs2. split_and!; [done|by apply Hon2|by etransitivity|].
    intros Hst. specialize (Hu Hst). eapply untouched_trans; [exact Hu|]. apply Hu2, Hu.
Qed.
End round_spec.

(** ** Properties *)

(** Start-up of the module.  In every environment it returns: either with
    the three components, a fresh retry table, a storage that satisfies its
    invariant and contacts of the plan in order, all of which
    [dtn_module_cleanup] frees again and nothing else; or without any of them. *)
Theorem module_lifecycle `{Env} w :
  files_ok w -> w_controller w = None -> w_routing w = None -> w_storage w = None ->
  wp dtn_module_init w (fun ok w' =>
    w_fds w' = w_fds w /\ w_raw w' = w_raw w /\ w_trace w' = w_trace w /\
    if ok then exists ls recs rt cs lc,
      node_ok w' fresh_table ls recs rt cs /\
      cs `sublist_of` plan_contacts (base_time rt) (default [] (w_files w !! CONTACTS_FILE)) /\
      held_contacts w' lc /\ wp dtn_module_cleanup w' (fun _ w2 => released ls lc w' w2)
    else w_controller w' = None /\ w_routing w' = None /\ w_storage w' = None).
Proof.
  intros Hf Hc Hr Hs. eapply wp_mono; [by apply module_init_spec|]. cbn beta.
  intros ok w' (H1 & H2 & H3 & _ & _ & H4). split_and!; [done|done|done|]. destruct ok; [|done].
  destruct H4 as (ls & recs & rt & cs & lc & ? & ? & ? & ?).
  exists ls, recs, rt, cs, lc. split_and!; try done. by apply cleanup_spec.
Qed.

(** The kernel hands out descriptors that are not open. *)
Definition fresh_descriptors `{Env} : Prop :=
  (forall t t', t <> t' -> 0 <= env_socket t -> env_socket t <> env_socket t') /\
  (forall t t', 0 <= env_open t' -> env_socket t <> env_open t').

(** The timers as [sys_timeouts_init] started them at [c]. *)
Definition ticking_since (c : Z) (ts : timers) : Prop :=
  exists q, next_timeout ts = timeo_of <$> q /\ StronglySorted no_later q /\ Forall cyclic q /\
    d_arg <$> q ≡ₚ [0; 1] /\ Forall (fun d => c <= d_time d <= c + 33555432) q.

Lemma ticking_in_time `{Env} w0 w : ticking_since (clock w0) (w_timers w) -> in_time w0 w -> on_time w.
Proof.
  intros (q & Hl & Hs & Hcy & Hargs & Hd) Hit. exists q. split_and!; [done|done|done| |].
  - apply Permutation_length in Hargs. rewrite length_fmap in Hargs. by rewrite Hargs.
  - eapply Forall_impl; [exact Hd|]. unfold in_time in Hit. intros; simpl in *; lia.
Qed.

(** What start-up has reached once the module is there, from [w0]. *)
Record started `{Env} (w0 w : world) : Prop := {
  sd_node : exists ls recs rt cs lc, node_ok w fresh_table ls recs rt cs /\
    cs `sublist_of` plan_contacts (base_time rt) (default [] (w_files w0 !! CONTACTS_FILE)) /\
    held_contacts w lc /\ held_packets w ls;
  sd_active : w_last_active w = w_last_active w0;
  sd_trace : w_trace w = w_trace w0;
  sd_timers : ticking_since (clock w0) (w_timers w)
}.

Section start_spec.
Context `{Env} `{TimerFunctions}.

Lemma started_raw w0 w raw fds k : started w0 w -> started w0 (set_raw raw fds (add_ticks k w)).
Proof.
  intros [(ls & recs & rt & cs & lc & Hnk & Hcs & Hlc & Hls) Ha Ht Htm]. split; [|done|done|done].
  exists ls, recs, rt, cs, lc. split_and!; [|done|done|].
  - destruct Hnk. split; try done. by apply (same_store_stores w).
  - unfold held_packets in *. cbn. destruct (w_storage w); [|done]. destruct Hls as [recs' Hst].
    exists recs'. by apply (same_store_stores w).
Qed.

Definition gone (w0 w : world) : Prop :=
  w_controller w = None /\ w_routing w = None /\ w_storage w = None /\ w_trace w = w_trace w0.

Lemma wp_clean_up w0 w Q :
  started w0 w -> (forall w', gone w0 w' -> w_fds w' = w_fds w -> Q None w') ->
  wp (dtn_module_cleanup;; mret (@None Z)) w Q.
Proof.
  intros [(ls & recs & rt & cs & lc & _ & _ & Hlc & Hls) _ Ht _] HQ. apply wp_bind.
  eapply wp_mono; [by apply (cleanup_spec w ls lc)|]. cbn beta. intros _ w' (? & ? & ? & ? & ? & ? & ? & _).
  apply wp_ret, HQ; [|done]. split_and!; congruence.
Qed.

Lemma wp_release_all w0 w fd Q :
  started w0 w -> (forall w', gone w0 w' -> fd ∉ w_fds w' -> Q None w') -> wp (release_all fd) w Q.
Proof.
  intros Hst HQ. unfold release_all. apply wp_bind. unfold sys_close. apply wp_modify.
  eapply (wp_clean_up w0); [by apply (started_raw w0 (add_ticks 0 w) _ _ 0); rewrite add_ticks_0|].
  intros w' Hg Hf. apply HQ; [done|]. rewrite Hf. cbn. intros [? _]%list_elem_of_filter. done.
Qed.

Lemma wp_tun_alloc w Q :
  (forall fd k, fd < 0 -> w_fds w = [] -> Q fd (set_raw (w_raw w) [] (add_ticks k w))) ->
  (forall t k, 0 <= env_open t -> Q (env_open t) (set_raw (w_raw w) [env_open t] (add_ticks k w))) ->
  w_fds w = [] -> wp tun_alloc w Q.
Proof.
  intros Hbad Hgood Hf. unfold tun_alloc. apply wp_bind, wp_tick.
  destruct (Z.ltb_spec (env_open (w_tick w)) 0) as [Hlt|Hge].
  - apply wp_ret. replace (add_ticks 1 w) with (set_raw (w_raw w) [] (add_ticks 1 w)); [by apply Hbad|].
    apply world_eq; done.
  - apply wp_bind, wp_modify. cbn [w_raw w_fds add_ticks]. rewrite Hf. apply wp_bind, wp_tick.
    destruct (env_ioctl _); cbn [negb].
    + apply wp_ret. apply (Hgood _ 2%nat Hge).
    + apply wp_bind. unfold sys_close. apply wp_modify. apply wp_ret. cbn [w_fds w_raw set_raw add_ticks].
      rewrite filter_cons_False by auto. apply (Hbad _ 2%nat); [lia|done].
Qed.

Lemma lwip_init_spec `{!SteadyClock} w :
  next_timeout (w_timers w) = [] ->
  wp lwip_init w (fun _ w' => exists ts, w' = set_timers ts (add_ticks 2 w) /\ ticking_since (clock w) ts).
Proof.
  intros Hl. eapply wp_mono; [by apply timeouts_init_spec|]. cbn beta.
  intros _ w' (q & [ts ->] & Hc & [Hq Hs _] & Hcy & Ha & Hd). exists ts. split; [done|]. exists q.
  split_and!; [done|done|done|done|]. eapply Forall_impl; [exact Hd|]. intros d Hdd. simpl in Hdd.
  pose proof (interval_bounds (d_arg d)). lia.
Qed.

(** The end of start-up, with the module and the TUN descriptor [fd]. *)
Definition main_sockets (fd : Z) : M world (option Z) :=
  r ← raw_socket_init (str "enp0s8") (str "enp0s9");
  if r <? 0 then release_all fd
  else
    t1 ← next_tick;
    if negb (env_fcntl t1) then release_all fd
    else
      t2 ← next_tick;
      if negb (env_fcntl t2) then release_all fd else mret (Some fd).

Definition up (w0 : world) (r : option Z) (w : world) : Prop :=
  match r with
  | Some fd => started w0 w /\
      w_fds w = [raw_socket_enp0s9 (w_raw w); raw_socket_enp0s8 (w_raw w); fd] /\
      (0 <= raw_socket_enp0s8 (w_raw w) /\ 0 <= raw_socket_enp0s9 (w_raw w)) /\
      if_name_1_global (w_raw w) = str "enp0s8" /\ if_name_2_global (w_raw w) = str "enp0s9"
  | None => gone w0 w
  end.

Lemma main_sockets_spec w0 w t :
  fresh_descriptors -> 0 <= env_open t -> started w0 w -> w_fds w = [env_open t] ->
  wp (main_sockets (env_open t)) w (up w0).
Proof.
  intros [Hss Hso] Ht Hst Hf. unfold main_sockets. apply wp_bind.
  assert (Hn : forall k, env_socket k ∉ w_fds w) by (intros k; rewrite Hf; specialize (Hso k t Ht); set_solver).
  destruct (raw_init_cases w (Hn _)) with (n1 := str "enp0s8") (n2 := str "enp0s9") as (r & w1 & E & [k Hk] & Hc).
  { intros Hp. apply not_elem_of_cons. split; [|apply Hn]. apply not_eq_sym. apply Hss; [lia|done]. }
  eapply wp_exec; [exact E|].
  assert (Hst1 : forall j, started w0 (add_ticks j w1)).
  { intros j. rewrite Hk. change (add_ticks j (set_raw ?r ?f ?x)) with (set_raw r f (add_ticks j x)).
    rewrite add_ticks_add. by apply started_raw. }
  pose proof (Hst1 0%nat) as Hst10. rewrite add_ticks_0 in Hst10.
  destruct Hc as [[-> _]|(-> & Hp1 & Hp2 & Hf1 & i1 & i2 & _ & _ & Hr)]; cbn [Z.ltb Z.compare].
  { apply (wp_release_all w0); [done|]. by intros. }
  apply wp_bind, wp_tick. destruct (env_fcntl _); cbn [negb]; [|by apply (wp_release_all w0)].
  apply wp_bind, wp_tick. rewrite add_ticks_add.
  destruct (env_fcntl _); cbn [negb]; [|by apply (wp_release_all w0)].
  apply wp_ret. split; [apply Hst1|]. cbn [w_fds w_raw add_ticks]. by rewrite Hf1, Hr, Hf.
Qed.

(** Shutting down a node that is up closes every descriptor. *)
Lemma main_shutdown_spec w0 w fd :
  up w0 (Some fd) w -> wp (main_shutdown fd) w (fun _ w' => w_fds w' = [] /\ gone w0 w').
Proof.
  intros (Hst & Hf & [H8 H9] & _). pose proof Hst as [(ls & recs & rt & cs & lc & _ & _ & Hlc & Hls) _ Ht _].
  unfold main_shutdown. apply wp_bind. unfold sys_close. apply wp_modify, wp_bind.
  eapply wp_mono; [apply (cleanup_spec _ ls lc); [exact Hlc|]|].
  { unfold held_packets in *. cbn. destruct (w_storage w); [|done]. destruct Hls as [recs' Hst'].
    exists recs'. by apply (same_store_stores w). }
  cbn beta. intros _ w2 (Hc & Hr & Hs & _ & Hf2 & Hraw & Htr & _). cbn in Hf2, Hraw, Htr.
  assert (Hg : forall r f, gone w0 (set_raw r f w2)) by (intros r f; split_and!; cbn; congruence).
  unfold raw_socket_cleanup. apply wp_bind, wp_get. rewrite Hraw, (proj2 (Z.leb_le _ _) H8). apply wp_bind, wp_bind.
  unfold sys_close, upd_raw. apply wp_modify, wp_modify, wp_bind, wp_get. cbn [w_raw set_raw]. rewrite Hraw.
  cbn [raw_socket_enp0s9 set_socket_1]. rewrite (proj2 (Z.leb_le _ _) H9). apply wp_bind, wp_modify, wp_modify.
  split; [|apply Hg]. cbn [w_fds set_raw w_raw raw_socket_enp0s9 set_socket_1]. rewrite Hf2, Hf.
  apply elem_of_nil_inv. intros x. rewrite !list_elem_of_filter. set_solver.
Qed.

Lemma main_start_spec `{!SteadyClock} w :
  files_ok w -> w_controller w = None -> w_routing w = None -> w_storage w = None ->
  next_timeout (w_timers w) = [] -> w_fds w = [] -> fresh_descriptors ->
  wp main_start w (up w).
Proof.
  intros Hf Hc Hr Hs Hl Hfd Hfresh. unfold main_start. apply wp_bind.
  eapply wp_mono; [by apply lwip_init_spec|]. cbn beta. intros _ w1 (ts & -> & Hts).
  apply wp_bind, wp_tick. set (w1 := add_ticks 1 _).
  apply wp_bind, (wp_mono _ _ (fun _ w2 => exists k, w2 = add_ticks k w1)).
  { destruct (env_stat _); [apply wp_ret; exists 0%nat; by rewrite add_ticks_0|].
    apply wp_bind, wp_tick, wp_ret. by exists 1%nat. }
  intros ready w2 [k Hk]. assert (Hgone : gone w w2) by (by subst w2).
  destruct ready; cbn [negb]; [|by apply wp_ret].
  apply wp_bind. eapply wp_mono; [apply (module_init_spec w2); by subst w2|].
  intros ok w3 (Hi1 & Hi2 & Hi3 & Hi4 & Hi5 & Hi6).
  assert (Htr : w_trace w3 = w_trace w) by (rewrite Hi3; by subst w2).
  destruct ok; cbn [negb]; [|apply wp_ret; destruct Hi6 as (? & ? & ?); by split_and!].
  assert (Hst : started w w3).
  { destruct Hi6 as (ls & recs & rt & cs & lc & ? & Hsub & ? & ?). split; [|rewrite Hi5; by subst w2|done|].
    - exists ls, recs, rt, cs, lc. split_and!; try done. by subst w2.
    - rewrite Hi4. by subst w2. }
  apply wp_bind, wp_tun_alloc; [| |rewrite Hi1; by subst w2].
  - intros fd j Hneg _. rewrite (proj2 (Z.ltb_lt _ _)) by done.
    eapply (wp_clean_up w); [by apply started_raw|]. by intros w' Hg _.
  - intros t j Hpos. rewrite (proj2 (Z.ltb_ge _ _)) by done.
    apply (main_sockets_spec w _ t); [done|done|by apply started_raw|done].
Qed.
End start_spec.

(** C36: start-up of the node.  In every environment [main] returns from it:
    either with the three components as [module_lifecycle] describes them, the
    TUN descriptor and the two raw sockets open and nothing else, and the timers
    of the stack pending, which is where [main_loop_invariant] starts, and from
    there shutting down closes every descriptor and frees the components; or,
    before [exit], without any of the components. *)
Theorem main_starts `{Env} `{TimerFunctions} `{!SteadyClock} w :
  files_ok w -> w_controller w = None -> w_routing w = None -> w_storage w = None ->
  next_timeout (w_timers w) = [] -> w_fds w = [] -> fresh_descriptors ->
  wp main_start w (fun r w' => w_trace w' = w_trace w /\
    match r with
    | Some fd => exists ls recs rt cs, node_ok w' fresh_table ls recs rt cs /\
        cs `sublist_of` plan_contacts (base_time rt) (default [] (w_files w !! CONTACTS_FILE)) /\
        w_last_active w' = w_last_active w /\ (in_time w w' -> on_time w') /\
        w_fds w' = [raw_socket_enp0s9 (w_raw w'); raw_socket_enp0s8 (w_raw w'); fd] /\
        if_name_1_global (w_raw w') = str "enp0s8" /\ if_name_2_global (w_raw w') = str "enp0s9" /\
        wp (main_shutdown fd) w' (fun _ w2 => w_fds w2 = [] /\
          w_controller w2 = None /\ w_routing w2 = None /\ w_storage w2 = None)
    | None => w_controller w' = None /\ w_routing w' = None /\ w_storage w' = None
    end).
Proof.
  intros Hf Hc Hr Hs Hl Hfd Hfresh. eapply wp_mono; [by apply (main_start_spec w)|]. cbn beta.
  intros [fd|] w'; simpl.
  - intros Hup. pose proof Hup as ([(ls & recs & rt & cs & lc & ? & ? & _ & _) ? ? Htm] & ? & ? & ? & ?). split; [done|].
    exists ls, recs, rt, cs. split_and!; try done; [intros Hit; by apply (ticking_in_time w)|].
    eapply wp_mono; [by apply (main_shutdown_spec w)|]. cbn beta. intros _ w2 (? & ? & ? & ? & _). done.
  - intros (? & ? & ? & ?). done.
Qed.

(** The main loop without traffic.  From a state in which the three
    components are well-formed, the stored packets can be handled and the timers
    of the stack are pending, every state reached by any number of rounds is such
    a state again, also when the 32-bit time wraps round, stored packets only ever
    leave, and the next round returns: the loop never gets stuck. *)
Theorem main_loop_invariant `{Env} `{Ip6Input} `{TimerFunctions} `{!SteadyClock} `{!TimerFunctionsOk} nif src w w' recs :
  ip6_addrs nif !! 1%nat = Some src -> (forall t q, env_cgr t q <> CgrNull) -> quiet_select ->
  running w recs -> on_time w -> rounds nif w w' ->
  exists recs', running w' recs' /\ on_time w' /\ recs' `sublist_of` recs /\
    wp (main_round nif) w' (fun _ w2 => exists recs2, running w2 recs2 /\ recs2 `sublist_of` recs').
Proof.
  intros Hsrc Hcgr Hno Hrun Hon Hr.
  destruct (rounds_running nif src Hsrc Hcgr w w' recs Hno Hrun Hon Hr) as (recs' & Hrun' & Hon' & Hsub & _).
  exists recs'. split_and!; [done|done|done|].
  eapply wp_mono; [by apply (round_spec nif src Hsrc Hcgr)|]. cbn beta. intros _ w2 (recs2 & ? & ? & _). eauto.
Qed.

(** Stored packets are only tried when a contact opens.  As long as the
    recorded contact states agree with the clock (for instance because the
    contact a packet waits for is open all the time), no number of rounds sends
    anything on the raw sockets, takes a packet out of the storage or changes
    the retry table, however much time passes: the retry after
    [FORWARDING_RETRY_DELAY_MS] never happens. *)
Theorem main_retries_only_on_opening `{Env} `{Ip6Input} `{TimerFunctions} `{!SteadyClock} `{!TimerFunctionsOk}
    nif src w w' recs :
  ip6_addrs nif !! 1%nat = Some src -> (forall t q, env_cgr t q <> CgrNull) -> quiet_select ->
  running w recs -> on_time w -> stable w -> rounds nif w w' ->
  running w' recs /\ w_controller w' = w_controller w /\ raw_sends w' = raw_sends w.
Proof.
  intros Hsrc Hcgr Hno Hrun Hon Hst Hr.
  destruct (rounds_running nif src Hsrc Hcgr w w' recs Hno Hrun Hon Hr) as (recs' & Hrun' & _ & _ & Hu).
  by destruct (Hu Hst) as (-> & ? & ? & _).
Qed.

(** Input from the TUN device.  What [read] returns decides: nothing to
    read gives [ERR_OK], an error [ERR_IF], the end of the stream [ERR_CONN];
    a packet (at most 2048 bytes of it) is handed to the controller byte for
    byte in fresh pool buffers that nothing else refers to, in a single buffer
    if it fits one (1536 bytes), with the rest of the node as it was. *)
Theorem tun_input_hands_over `{Env} `{Ip6Input} w nif fd t :
  nif_state nif = Some fd -> w_controller w = Some t ->
  (S (pool_live [PBUF_POOL] (w_pbufs w)) < PBUF_POOL_SIZE)%nat ->
  match env_read (w_tick w) with
  | ReadAgain => tunif_input (Some nif) w = Ret (ERR_OK, add_ticks 1 w)
  | ReadError => tunif_input (Some nif) w = Ret (ERR_IF, add_ticks 1 w)
  | ReadBytes [] => tunif_input (Some nif) w = Ret (ERR_CONN, add_ticks 1 w)
  | ReadBytes data =>
      exists p ls w1, received w w1 p ls (u8 <$> take 2048 data) /\
        tunif_input (Some nif) w = (dtn_controller_process_incoming (Some p) nif;; mret ERR_OK) w1
  end.
Proof.
  intros Hfd Hc Hroom.
  assert (E : tunif_input (Some nif) w = match env_read (w_tick w) with
    | ReadAgain => Ret (ERR_OK, add_ticks 1 w)
    | ReadError => Ret (ERR_IF, add_ticks 1 w)
    | ReadBytes data => input_bytes nif data (add_ticks 1 w) end).
  { unfold tunif_input. rewrite Hfd, (bind_exec get _ w w w), Hc by done.
    rewrite (bind_exec next_tick _ w (w_tick w) (add_ticks 1 w)) by done. by destruct (env_read _). }
  rewrite E. destruct (env_read (w_tick w)) as [| |[|c data]]; [done|done|done|].
  apply (input_bytes_exec w nif (c :: data) 1); [done|by apply room_for_two].
Qed.

(** Output to the TUN device.  The call returns, sends the whole packet
    (of any number of buffers) exactly when it reports [ERR_OK], and refuses
    packets of more than 2048 bytes; nothing else of the node changes.  The
    hypothesis is [write]'s contract. *)
Theorem tun_output_complete `{Env} w nif fd p ls bs :
  pkt (w_pbufs w) p ls bs -> nif_state nif = Some fd ->
  (forall t n m, 0 <= n -> env_write t n = Written m -> 0 <= m <= n) ->
  exists err es k, tunif_output (Some nif) (Some p) w = Ret (err, logged es k w) /\
    (err = ERR_OK <-> es = [EvTunWrite fd bs]) /\
    (PACKET_BUF_SIZE < Z.of_nat (length bs) -> err = ERR_MEM /\ es = []).
Proof.
  intros Hp Hfd Hw. destruct (pkt_tot _ _ _ _ Hp) as (nd & Hl & Ht & Hb). unfold tunif_output. rewrite Hfd.
  rewrite (bind_exec (pb_node p) _ w nd w) by (unfold pb_node, get, mbind, M_bind; by rewrite Hl).
  cbv zeta. rewrite Ht. destruct (Z.ltb_spec PACKET_BUF_SIZE (Z.of_nat (length bs))) as [Hbig|Hsm].
  { exists ERR_MEM, [], 0%nat. by rewrite logged_nil, add_ticks_0. }
  rewrite (bind_exec get _ w w w) by done.
  rewrite (bind_exec (lift _) _ w bs w) by (unfold lift; by rewrite (pbuf_copy_out _ _ _ _ Hp)).
  rewrite Z.eqb_refl. cbn [negb]. rewrite (bind_exec next_tick _ w (w_tick w) (add_ticks 1 w)) by done.
  destruct (env_write (w_tick w) (Z.of_nat (length bs))) as [| |m] eqn:Em.
  - exists ERR_IF, [], 1%nat. rewrite logged_nil. split_and!; [done|done|lia].
  - exists ERR_WOULDBLOCK, [], 1%nat. rewrite logged_nil. split_and!; [done|done|lia].
  - apply Hw in Em; [|lia]. eexists _, [EvTunWrite fd (take (Z.to_nat m) bs)], 1%nat.
    split; [reflexivity|]. split; [|lia]. destruct (Z.eqb_spec m (Z.of_nat (length bs))) as [->|Hne]; cbn [negb].
    + by rewrite Nat2Z.id, take_ge by lia.
    + split; [done|]. intros [= E]. apply (f_equal length) in E. rewrite length_take in E. lia.
Qed.

(** A packet of at most one buffer, from [read] to the controller. *)
Lemma wp_tun_reads `{Env} `{Ip6Input} w t ls recs rt cs nif fd data Q :
  node_ok w t ls recs rt cs -> nif_state nif = Some fd ->
  (pool_live [PBUF_POOL] (w_pbufs w) < PBUF_POOL_SIZE)%nat ->
  env_read (w_tick w) = ReadBytes data -> Forall is_byte data -> (0 < length data <= 1536)%nat ->
  (forall p lp b w1, received w w1 p lp data -> owned w1 p b data ->
     ((length data <= 1534)%nat -> stack_packet b data) -> node_ok w1 t ls recs rt cs ->
     wp (dtn_controller_process_incoming (Some p) nif) w1 (fun _ w' => Q ERR_OK w')) ->
  wp (tunif_input (Some nif)) w Q.
Proof.
  intros Hnk Hfd Hroom Hrd Hb Hl HQ. unfold tunif_input. rewrite Hfd.
  apply wp_bind, wp_get. rewrite (nk_controller _ _ _ _ _ _ Hnk). apply wp_bind, wp_tick. rewrite Hrd.
  destruct (input_bytes_exec w nif data 1) as (p & lp & w1 & Hrv & E);
    [by destruct data; [simpl in Hl; lia|]|split; [done|lia]|].
  unfold wp. rewrite E. clear E. rewrite take_ge, (fmap_bytes data Hb) in Hrv by lia.
  destruct (rv_one _ _ _ _ _ Hrv ltac:(lia)) as (b & Ho & Hsk). apply wp_bind.
  eapply wp_mono; [apply (HQ p lp b w1 Hrv Ho Hsk); by eapply received_node|]. intros r w' Hw. by apply wp_ret.
Qed.

(** C5: through the node.  An IPv6 packet of 44 to 1536 bytes read from the TUN device, not
    ICMPv6, for a destination that is neither the node nor behind a DTN contact, with two
    free buffers in the pool, on which the custodian walk ends inside the packet
    ([custodian_in] answers; on other packets, ordinary UDP ones among them, the node may
    hang).  The call returns, the buffer is released and the node is as before but for
    its output: if memory, [setsockopt] and [sendto] do not fail, the packet leaves on the
    raw socket of its destination, byte for byte; if they fail, nothing or a beginning of
    it. *)
Theorem tun_relays `{Env} `{Ip6Input} w t ls recs rt cs nif fd data c :
  node_ok w t ls recs rt cs -> nif_state nif = Some fd ->
  (S (pool_live [PBUF_POOL] (w_pbufs w)) < PBUF_POOL_SIZE)%nat ->
  env_read (w_tick w) = ReadBytes data -> Forall is_byte data -> (44 <= length data <= 1536)%nat ->
  hdr_version data = 6 -> custodian_in data = Ret c -> hdr_nexth data <> IP6_NEXTH_ICMP6 ->
  is_local (hdr_dest data) = false -> existsb (serves (hdr_dest data)) cs = false ->
  wp (tunif_input (Some nif)) w (fun r w' => r = ERR_OK /\ exists es k,
    transmitted (w_raw w) (hdr_dest data) data es /\ w' = logged es k w).
Proof.
  intros Hnk Hfd Hroom Hrd Hb Hl Hv Hc Hnx Hloc Hsv. eapply wp_tun_reads; [exact Hnk|exact Hfd|lia|exact Hrd|done|lia|].
  intros p lp b w1 Hrv Ho _ Hnk1.
  eapply wp_mono; [apply (incoming_direct w1 p b data c t ls recs rt cs nif); [|exact Hnk1|done|done|done]|].
  { split; [done|lia|done|done]. }
  cbn beta. intros _ w' (es & k & Ht & ->). split; [done|].
  destruct (received_released w w1 p lp data b es k Hrv Ho) as (Hraw & k' & ->). rewrite Hraw in Ht. eauto.
Qed.

(** *** Concrete runs *)

Lemma module_lifecycle_witness :
  wp (@dtn_module_init calm_env) empty_world (fun ok w' =>
    w_fds w' = [] /\ w_raw w' = w_raw empty_world /\ w_trace w' = [] /\
    if ok then exists ls recs rt cs lc,
      node_ok w' fresh_table ls recs rt cs /\
      cs `sublist_of` plan_contacts (base_time rt) (default [] (w_files empty_world !! CONTACTS_FILE)) /\
      held_contacts w' lc /\ wp dtn_module_cleanup w' (fun _ w2 => released ls lc w' w2)
    else w_controller w' = None /\ w_routing w' = None /\ w_storage w' = None).
Proof. exact (@module_lifecycle calm_env empty_world (map_Forall_empty _) eq_refl eq_refl eq_refl). Defined.

Lemma pass_running : running pass_world [confirm_rec (quiet_to (addr_of 32))].
Proof.
  split.
  - eexists _, stored_quiet, _, _. apply with_node_ok, confirm_world_stores; [decided|done].
  - reflexivity.
  - constructor; [|constructor]. split_and!; [apply quiet_packet|decided|by vm_compute| |by vm_compute].
    exists None. by vm_compute.
Qed.

Lemma calm_descriptors : @fresh_descriptors calm_env.
Proof. split; cbn; lia. Qed.
Lemma calm_steady : @SteadyClock calm_env.
Proof. intros t. cbn. lia. Qed.

Lemma main_starts_witness :
  wp (@main_start calm_env idle_functions) empty_world (fun r w' => w_trace w' = [] /\
    match r with
    | Some fd => exists ls recs rt cs, node_ok w' fresh_table ls recs rt cs /\
        cs `sublist_of` plan_contacts (base_time rt) (default [] (w_files empty_world !! CONTACTS_FILE)) /\
        w_last_active w' = [] /\ (@in_time calm_env empty_world w' -> @on_time calm_env w') /\
        w_fds w' = [raw_socket_enp0s9 (w_raw w'); raw_socket_enp0s8 (w_raw w'); fd] /\
        if_name_1_global (w_raw w') = str "enp0s8" /\ if_name_2_global (w_raw w') = str "enp0s9" /\
        wp (main_shutdown fd) w' (fun _ w2 => w_fds w2 = [] /\
          w_controller w2 = None /\ w_routing w2 = None /\ w_storage w2 = None)
    | None => w_controller w' = None /\ w_routing w' = None /\ w_storage w' = None
    end).
Proof.
  exact (@main_starts calm_env idle_functions calm_steady empty_world (map_Forall_empty _)
           eq_refl eq_refl eq_refl eq_refl eq_refl calm_descriptors).
Defined.

(** With the two timers of the stack pending. *)
Definition mld6_at (t : Z) : due := mk_due t (Some CYCLIC) 1.
Definition nd6_at (t : Z) : due := mk_due t (Some CYCLIC) 0.
Definition ticking (w : world) : world :=
  set_timers (mk_timers (timeo_of <$> [mld6_at 99950; nd6_at 100500]) 0) w.

Lemma ticking_on_time w : @on_time env_21 (ticking w).
Proof.
  exists [mld6_at 99950; nd6_at 100500]. split_and!.
  - done.
  - constructor; [constructor; constructor|]. constructor; [vm_compute; discriminate|constructor].
  - constructor; [by split; [|right]|]. constructor; [by split; [|left]|constructor].
  - unfold MEMP_NUM_SYS_TIMEOUT. simpl. lia.
  - constructor; [|constructor; [|constructor]]; (split; vm_compute; [reflexivity|discriminate]).
Qed.

Lemma env_21_steady : @SteadyClock env_21.
Proof. intros t. cbn. lia. Qed.
Lemma env_21_quiet : @quiet_select env_21.
Proof. intros t. split; discriminate. Qed.

Definition end_of {A} (w : world) (r : outcome (A * world)) : world :=
  match r with Ret (_, w') => w' | _ => w end.
Definition round_from (w : world) : outcome ((unit + unit) * world) :=
  @main_round env_21 discard_input idle_functions node1_netif w.
Definition after_round (w : world) : world := end_of w (round_from w).
Definition goes_on (r : outcome ((unit + unit) * world)) : bool :=
  match r with Ret (inl tt, _) => true | _ => false end.

Lemma goes_on_round w :
  goes_on (round_from w) = true -> @rounds env_21 discard_input idle_functions node1_netif w (after_round w).
Proof.
  intros E. apply (@rounds_more env_21 discard_input idle_functions _ _ w); [apply rounds_none| |split; cbn; lia].
  fold (round_from w). unfold after_round. by destruct (round_from w) as [[[[]|] w']| |].
Qed.

Lemma env_21_never_null t q : @env_cgr env_21 t q <> CgrNull.
Proof. simpl. by destruct (q_dest_node q =? 32). Qed.

Lemma ticking_running w recs : running w recs -> running (ticking w) recs.
Proof. apply running_stack_step, stack_step_timers. Qed.

Lemma main_loop_invariant_witness :
  exists recs', running (after_round (ticking pass_world)) recs' /\ @on_time env_21 (after_round (ticking pass_world)) /\
    recs' `sublist_of` [confirm_rec (quiet_to (addr_of 32))] /\
    wp (@main_round env_21 discard_input idle_functions node1_netif) (after_round (ticking pass_world))
      (fun _ w2 => exists recs2, running w2 recs2 /\ recs2 `sublist_of` recs').
Proof.
  refine (@main_loop_invariant env_21 discard_input idle_functions env_21_steady idle_functions_ok node1_netif node2
            (ticking pass_world) (after_round (ticking pass_world)) _ eq_refl env_21_never_null env_21_quiet
            (ticking_running _ _ pass_running) (ticking_on_time _) _).
  apply goes_on_round. by vm_compute.
Defined.

(** Both contacts are open, and recorded so. *)
Definition open_world : world :=
  ticking (set_update_statics 0 ([true; true] ++ replicate 98 false) pass_world).

Lemma open_running : running open_world [confirm_rec (quiet_to (addr_of 32))].
Proof.
  apply ticking_running.
  destruct pass_running as [(t & ls & rt & cs & [? ? Hst ? ?]) _ Hs]. split; [|done|done].
  exists t, ls, rt, cs. split; try done. by apply (same_store_stores pass_world).
Qed.

Lemma open_stable : @stable env_21 open_world.
Proof.
  exists [contact_32; contact_21]. split; [|intros k; by vm_compute].
  eexists _, [(1%positive, contact_32); (2%positive, contact_21)]. split_and!; [done| |done].
  split; [done|]. exists (Some 2%positive). split; [done|]. split; [done|]. by exists None.
Qed.

Lemma main_retries_only_on_opening_witness :
  running (after_round open_world) [confirm_rec (quiet_to (addr_of 32))] /\
  w_controller (after_round open_world) = w_controller open_world /\
  raw_sends (after_round open_world) = raw_sends open_world.
Proof.
  refine (@main_retries_only_on_opening env_21 discard_input idle_functions env_21_steady idle_functions_ok
            node1_netif node2 open_world (after_round open_world) _ eq_refl env_21_never_null env_21_quiet
            open_running (ticking_on_time _) open_stable _).
  apply goes_on_round. by vm_compute.
Defined.

Definition relay_env : Env :=
  calm_env_reading (fun _ => 100000) (fun _ _ => CgrNoCandidate) (fun _ => ReadBytes (quiet_to far_away)).
Lemma relay_node_ok :
  node_ok (with_node (storage_world [])) fresh_table [] [] (mk_routing 0 (Some 1%positive)) [contact_32; contact_21].
Proof. apply with_node_ok, storage_world_stores. Qed.

Lemma tun_input_hands_over_witness :
  exists p ls w1, received (with_node (storage_world [])) w1 p ls (u8 <$> take 2048 (quiet_to far_away)) /\
    @tunif_input relay_env discard_input (Some node1_netif) (with_node (storage_world [])) =
      (@dtn_controller_process_incoming relay_env discard_input (Some p) node1_netif;; mret ERR_OK) w1.
Proof.
  refine (@tun_input_hands_over relay_env discard_input (with_node (storage_world [])) node1_netif 3 fresh_table
            eq_refl eq_refl _). vm_compute. lia.
Defined.

Lemma tun_output_complete_witness :
  exists err es k, @tunif_output calm_env (Some node1_netif) (Some 1%positive) (one_packet quiet_udp)
      = Ret (err, logged es k (one_packet quiet_udp)) /\
    (err = ERR_OK <-> es = [EvTunWrite 3 quiet_udp]) /\
    (PACKET_BUF_SIZE < Z.of_nat (length quiet_udp) -> err = ERR_MEM /\ es = []).
Proof.
  eapply (@tun_output_complete calm_env (one_packet quiet_udp) node1_netif 3 1%positive _ quiet_udp).
  - apply single_pkt, one_packet_owned; [decided|done].
  - reflexivity.
  - intros t n m Hn E. injection E as <-. lia.
Defined.

Lemma tun_relays_witness :
  wp (@tunif_input relay_env discard_input (Some node1_netif)) (with_node (storage_world [])) (fun r w' =>
    r = ERR_OK /\ exists es k,
      @transmitted relay_env two_sockets (hdr_dest (quiet_to far_away)) (quiet_to far_away) es /\
      w' = logged es k (with_node (storage_world []))).
Proof.
  refine (@tun_relays relay_env discard_input _ fresh_table [] [] _ _ node1_netif 3 (quiet_to far_away) None
            relay_node_ok eq_refl _ eq_refl _ _ _ _ _ _ _).
  - vm_compute. lia.
  - decided.
  - vm_compute. lia.
  - by vm_compute.
  - by vm_compute.
  - by vm_compute.
  - by vm_compute.
  - by vm_compute.
Defined.
