(* ===== verification/Setup.v ===== *)
(** * Configuring the interface (src/main.c, from netif_add to the main loop)

    [main] registers the TUN interface with lwIP, gives it a link-local and
    three unique-local addresses, all preferred, and adds a default route.
    The theorems: what the interface, the interface list and the route table
    are when the main loop starts, and that shutting down takes the interface
    out again. *)

From S2P Require Import Prelude LinkedList Ip6Addr RouteTable World Netif Pbuf Ip6Hdr Custody Storage StorageSpec Routing RoutingSpec InetChksum RawSocket Tracking DtnIcmp Controller ControllerSpec Main.

Definition HOST_TUN_IPV6_ADDR : list Z := str "fd00::1".
Definition HOST_LWIP_IPV6_ADDR : list Z := str "fd00::2".
Definition HOST_enp0s9_IPV6_ADDR : list Z := str "fd00:01::2".
Definition HOST_enp0s8_IPV6_ADDR : list Z := str "fd00:12::1".

(** [memset(&tun_netif, 0, sizeof(tun_netif))]. *)
Definition zero_netif : netif :=
  mk_netif (replicate 5 ip6_addr_any) (replicate 5 0) (replicate 5 0) (replicate 5 0) [0; 0] 0 0 0 0 None
    (replicate 6 0) 0 false false.

(** The loop over the slots after [netif_create_ip6_linklocal_address]: link-local
    addresses become preferred. *)
Definition prefer_linklocal (n : netif) (i : nat) : calls netif :=
  andthen (pure (netif_ip6_addr_state n i)) (fun st =>
  if st =? IP6_ADDR_INVALID then returns n
  else
    andthen (pure (netif_ip6_addr n i)) (fun a =>
    if ip6_addr_islinklocal a && negb (ip6_addr_ispreferred st)
    then netif_ip6_addr_set_state n i IP6_ADDR_PREFERRED else returns n)).

(** One of the three blocks that add an address and make it preferred. *)
Definition add_preferred (n : netif) (a : ip6_addr) : calls netif :=
  andthen (netif_add_ip6_address n a) (fun r =>
  let '(err, idx, n) := r in
  if bool_decide (err = ERR_OK) then
    match idx with
    | None => returns n
    | Some i =>
        andthen (pure (netif_ip6_addr_state n i)) (fun st =>
        if st =? IP6_ADDR_INVALID then returns n else netif_ip6_addr_set_state n i IP6_ADDR_PREFERRED)
    end
  else
    andthen (pure (netif_get_ip6_addr_match n a)) (fun m =>
    match m with
    | None => returns n
    | Some i =>
        andthen (pure (netif_ip6_addr_state n i)) (fun st =>
        if negb (st =? IP6_ADDR_INVALID) && negb (ip6_addr_ispreferred st)
        then netif_ip6_addr_set_state n i IP6_ADDR_PREFERRED else returns n)
    end)).

(** [tunif_init] as the [init] argument of [netif_add]. *)
Definition tun_driver (n : netif) : err_t * netif :=
  match tunif_init (Some n) with (e, Some n) => (e, n) | (e, None) => (e, n) end.

Record configured := mk_configured {
  cf_netif : netif;
  cf_netifs : netif_globals;
  cf_routes : list ip6_route_entry
}.

(** [p] is the address of [tun_netif], [state] that of [tun_fd], [gw] that of
    [gw_addr]; [junk] is what the uninitialised address variables hold.  [None]
    is [exit(EXIT_FAILURE)]. *)
Definition main_configure (p : loc) (state gw : Z) (junk : ip6_addr) (g : netif_globals)
    (routes : list ip6_route_entry) : calls (option configured) :=
  andthen (pure (netif_add g p zero_netif (Some state) tun_driver)) (fun r =>
  match r.1 with
  | None => returns None
  | Some n =>
      let g := netif_set_default (Some p) r.2 in
      andthen (netif_set_up n) (fun n =>
      andthen (netif_create_ip6_linklocal_address n true) (fun n =>
      andthen (foldl (fun m i => andthen m (fun n => prefer_linklocal n i)) (returns n)
                 (seq 0 LWIP_IPV6_NUM_ADDRESSES)) (fun n =>
      andthen (pure (ip6addr_aton HOST_LWIP_IPV6_ADDR junk)) (fun a1 =>
      if negb a1.1 then
        andthen (netif_remove g p n) (fun _ => returns None)
      else
      andthen (add_preferred n a1.2) (fun n =>
      andthen (pure (ip6addr_aton HOST_enp0s9_IPV6_ADDR junk)) (fun a2 =>
      andthen (add_preferred n a2.2) (fun n =>
      andthen (pure (ip6addr_aton HOST_enp0s8_IPV6_ADDR junk)) (fun a3 =>
      andthen (add_preferred n a3.2) (fun n =>
      andthen (pure (ip6addr_aton HOST_TUN_IPV6_ADDR junk)) (fun a4 =>
      andthen (if (a4.1 : bool)
               then pure (ip6_add_route_entry (mk_prefix ip6_addr_any 0) (Some (Z.pos p)) (Some gw) routes)
               else returns (ERR_ARG, None, routes)) (fun rt =>
      returns (Some (mk_configured n (mk_netifs ((p, n) :: tail (netif_list g)) (netif_default g) (netif_num g))
                       rt.2)))))))))))))
  end).

(** [netif_set_down] and [netif_remove] after the loop. *)
Definition main_deconfigure (p : loc) (g : netif_globals) (n : netif) : calls (netif * netif_globals) :=
  andthen (netif_set_down n) (fun n => netif_remove g p n).

(** The interface as the main loop finds it. *)
Definition tun_configured (state : Z) : netif :=
  mk_netif [mk_ip6 (PP_HTONL 0xfe800000) 0 (PP_HTONL 0x020000ff) (PP_HTONL 0xfe000000) 1;
            IP6_ADDR (PP_HTONL 0xfd000000) 0 0 (PP_HTONL 2); IP6_ADDR (PP_HTONL 0xfd000001) 0 0 (PP_HTONL 2);
            IP6_ADDR (PP_HTONL 0xfd000012) 0 0 (PP_HTONL 1); ip6_addr_any]
    [IP6_ADDR_PREFERRED; IP6_ADDR_PREFERRED; IP6_ADDR_PREFERRED; IP6_ADDR_PREFERRED; IP6_ADDR_INVALID]
    (replicate 5 0) (replicate 5 0) (str "tn") 1500 1500 5 0 (Some state) (replicate 6 0) 0 false false.

Definition default_route (p : loc) (gw : Z) : ip6_route_entry :=
  mk_route (mk_prefix ip6_addr_any 0) (Some (Z.pos p)) (Some gw).

Lemma tun_configured_wf state : netif_wf (tun_configured state).
Proof. by split. Qed.

Lemma default_route_wf p gw : table_wf (default_route p gw :: replicate 7 empty_route) [default_route p gw] 7.
Proof.
  split; [done|done| | |].
  - repeat constructor. done.
  - repeat constructor.
  - apply NoDup_singleton.
Qed.

(** Whatever the uninitialised variables hold, the configuration of [main]
    succeeds: the interface is up with the addresses FE80::200:FF:FE00:0, FD00::2,
    FD00:1::2 and FD00:12::1, all preferred, in the slots 0 to 3; it is the only and
    the default interface; and the route table holds the default route to it. *)
Theorem main_configured p state gw junk :
  main_configure p state gw junk no_netifs empty_table =
    Ret (replicate 4 MldReport,
         Some (mk_configured (tun_configured state) (mk_netifs [(p, tun_configured state)] (Some p) 1)
                 (default_route p gw :: replicate 7 empty_route))) /\
  ((fun a => ip6addr_ntoa_r a IP6ADDR_STRLEN_MAX) <$> ip6_addrs (tun_configured state)) =
    [Some (str "FE80::200:FF:FE00:0"); Some (str "FD00::2"); Some (str "FD00:1::2"); Some (str "FD00:12::1");
     Some (str "::")] /\
  netifs_ok (mk_netifs [(p, tun_configured state)] (Some p) 1) /\
  table_wf (default_route p gw :: replicate 7 empty_route) [default_route p gw] 7.
Proof.
  split_and!; [by vm_compute|by vm_compute| |apply default_route_wf].
  split; simpl; [apply NoDup_singleton|apply NoDup_singleton|repeat constructor; lia|lia].
Qed.

(** Shutting down takes the interface down and out of the list. *)
Lemma main_deconfigured p state :
  main_deconfigure p (mk_netifs [(p, tun_configured state)] (Some p) 1) (tun_configured state) =
    Ret ([Nd6Cleanup; MldStop], (with_flags NETIF_FLAG_LINK_UP (tun_configured state), mk_netifs [] None 1)).
Proof.
  unfold main_deconfigure. cbn. unfold netif_remove. cbn. rewrite decide_True by done. cbn. by rewrite decide_True.
Qed.
