(* ===== verification/Stack.v ===== *)
(** * The IPv6 stack on the TUN interface

    lwIP's [ip6_input] as the controller's input interface, with the TUN driver
    below it.  The theorems: the stack keeps the contract the controller's
    theorems rely on, an echo request for the node is answered on the TUN
    device, and so is one that comes in through the whole node. *)

From S2P Require Import Prelude LinkedList Ip6Addr RouteTable World Netif Pbuf Ip6Hdr Custody Buffer Storage StorageSpec Routing RoutingSpec InetChksum RawSocket Ip6Out Icmp6 Ip6In Ip6Spec Tracking DtnIcmp Controller ControllerSpec Offer Main Setup.

(** ** The TUN driver below the stack *)

(** Whatever [write] does, the driver only sends. *)
Lemma tun_sends `{Env} w n p ls bs d :
  pkt (w_pbufs w) p ls bs -> wp (tunif_ip6_output (Some n) (Some p) d) w (fun _ w' => sends w w').
Proof.
  intros Hp. destruct (pkt_tot _ _ _ _ Hp) as (nd & Hl & Ht & Hb). unfold tunif_ip6_output, tunif_output.
  destruct (nif_state n) as [fd|]; [|by apply wp_ret]. apply wp_bind.
  eapply wp_exec; [unfold pb_node, get, mbind, M_bind; by rewrite Hl|]. rewrite Ht.
  destruct (_ <? _); [by apply wp_ret|]. apply wp_bind, wp_get, wp_bind.
  eapply wp_lift; [by apply (pbuf_copy_out _ _ _ _ Hp)|]. rewrite Z.eqb_refl. cbn [negb]. apply wp_bind, wp_tick.
  destruct (env_write _ _) as [| |m]; [apply wp_ret; auto|apply wp_ret; auto|]. apply wp_bind, wp_modify, wp_ret.
  by exists [EvTunWrite fd (take (Z.to_nat m) bs)], 1%nat.
Qed.

(** A packet that fits is written as a whole, if [write] takes it. *)
Lemma tun_writes_pkt `{Env} w n fd p ls bs d Q :
  pkt (w_pbufs w) p ls bs -> nif_state n = Some fd -> Z.of_nat (length bs) <= PACKET_BUF_SIZE ->
  (forall t k, env_write t k = Written k) ->
  Q ERR_OK (logged [EvTunWrite fd bs] 1 w) -> wp (tunif_ip6_output (Some n) (Some p) d) w Q.
Proof.
  intros Hp Hfd Hl Hw HQ. destruct (pkt_tot _ _ _ _ Hp) as (nd & Hnd & Ht & _). unfold tunif_ip6_output, tunif_output. rewrite Hfd.
  apply wp_bind. eapply wp_exec; [unfold pb_node, get, mbind, M_bind; by rewrite Hnd|]. cbn [n_val]. rewrite Ht.
  rewrite (proj2 (Z.ltb_ge _ _)) by lia. apply wp_bind, wp_get, wp_bind.
  eapply wp_lift; [by apply (pbuf_copy_out _ _ _ _ Hp)|]. rewrite Z.eqb_refl. cbn [negb]. apply wp_bind, wp_tick.
  rewrite Hw. apply wp_bind, wp_modify, wp_ret. rewrite Z.eqb_refl. cbn [negb].
  rewrite Nat2Z.id, take_ge by lia. exact HQ.
Qed.
Lemma tun_writes `{Env} w n fd p b bs d Q :
  single (w_pbufs w) p b bs -> nif_state n = Some fd -> Z.of_nat (length bs) <= PACKET_BUF_SIZE ->
  (forall t k, env_write t k = Written k) ->
  Q ERR_OK (logged [EvTunWrite fd bs] 1 w) -> wp (tunif_ip6_output (Some n) (Some p) d) w Q.
Proof. intros Hs. apply single_pkt in Hs. by eapply tun_writes_pkt. Qed.

(** ** The contract *)

Section stack.
Context `{Env} `{LowerLayersOk} (sn : stack_netifs).
Hypothesis Hsn : Forall netif_sane (sn_list sn).

Definition stack_input : Ip6Input := ip6_input_impl sn.

Lemma stack_input_ok : @Ip6InputOk _ stack_input.
Proof. intros w p b bs nif Ho Hsk Hn. eapply wp_ip6_input; eauto. Qed.
End stack.

(** ** Echo requests *)

(** A message with its checksum verifies. *)
Lemma with_checksum_verifies s d G h q lq :
  (4 <= length G)%nat -> Forall is_byte G -> ip6_wf s -> ip6_wf d -> Z.of_nat (length G) < 65536 ->
  pkt h q lq (with_checksum s d G) ->
  ip6_chksum_pseudo h (Some q) IP6_NEXTH_ICMP6 (Z.of_nat (length G)) s d = Ret 0.
Proof.
  intros Hl Hb Hs Hd Hmax Hp. set (Z0 := splice 2 [0; 0] G) in *.
  assert (HZb : Forall is_byte Z0).
  { apply Forall_splice; [exact Hb|]. apply (le_bytes_byte 2 0). }
  assert (HZl : length Z0 = length G) by (unfold Z0; rewrite length_splice; simpl; lia).
  assert (Hpd : pkt (w_pbufs (one_packet Z0)) 1%positive [(1%positive, one_pbuf Z0)] Z0).
  { apply single_pkt, (one_packet_owned Z0); [done|lia]. }
  destruct (checksum_fill _ _ _ Z0 s d IP6_NEXTH_ICMP6 Hpd) as (ck & Hck & _ & Hv);
    [lia|unfold Z0; do 4 (destruct G as [|? G]; [simpl in Hl; lia|]); reflexivity|done|done|done|].
  pose proof (chksum_pseudo_eq _ _ _ Z0 s d IP6_NEXTH_ICMP6 (Z.of_nat (length Z0)) Hpd Hs Hd
                ltac:(by vm_compute) ltac:(lia)) as E.
  rewrite E in Hck. apply Ret_inj in Hck. rewrite <-HZl. apply (Hv h q lq). rewrite <-Hck.
  rewrite HZl. exact Hp.
Qed.

(** What a node expects of an answer to [m]. *)
Lemma echo_reply_spec src dest m :
  (8 <= length m)%nat -> Forall is_byte m -> ip6_wf src -> ip6_wf dest -> Z.of_nat (length m) < 65536 ->
  length (echo_reply src dest m) = length m /\ byte_at 0 (echo_reply src dest m) = ICMP6_TYPE_EREP /\
  drop 4 (echo_reply src dest m) = drop 4 m /\
  forall h q lq, pkt h q lq (echo_reply src dest m) ->
    ip6_chksum_pseudo h (Some q) IP6_NEXTH_ICMP6 (Z.of_nat (length m)) dest src = Ret 0.
Proof.
  intros Hl Hb Hs Hd Hmax. set (G := splice 0 [ICMP6_TYPE_EREP] m).
  assert (HG : length G = length m) by (unfold G; rewrite length_splice; simpl; lia).
  assert (HGb : Forall is_byte G).
  { apply Forall_splice; [exact Hb|]. apply Forall_singleton. by vm_compute. }
  split; [unfold echo_reply; fold G; rewrite length_with_checksum; lia|].
  split; [by do 4 (destruct m as [|? m]; [simpl in Hl; lia|])|].
  split; [by do 4 (destruct m as [|? m]; [simpl in Hl; lia|])|]. intros h q lq Hp.
  rewrite <-HG. eapply with_checksum_verifies; [lia|done|done|done|lia|exact Hp].
Qed.

(** A message that verifies, for the node. *)
Definition verifies (src dest : ip6_addr) (m : list Z) : Prop :=
  oc (word_sum (pseudo_header src dest (Z.of_nat (length m)) IP6_NEXTH_ICMP6 ++ m)) = 65535.

(** An echo request in [bs] for the address the stack knows as its own: the header is
    sound, the message after it verifies, and no extension header is between. *)
Record echo_request (inp : netif) (bs : list Z) : Prop := {
  er_len : (48 <= length bs)%nat;
  er_checked : input_checked bs = true;
  er_next : hdr_nexth bs = IP6_NEXTH_ICMP6;
  er_plen : 8 <= hdr_plen bs;
  er_type : byte_at 40 bs = ICMP6_TYPE_EREQ;
  er_unicast : ip6_addr_ismulticast (hdr_dest bs) = false;
  er_src : ip6_addr_isany (hdr_src bs) = false;
  er_dest : ip6_addr_isany (hdr_dest bs) = false;
  er_accept : ip6_input_accept (ip6_addr_assign_zone (hdr_dest bs) IP6_UNKNOWN inp) inp = Ret true;
  er_verifies : verifies (hdr_src bs) (hdr_dest bs) (slice 40 (Z.to_nat (hdr_plen bs)) bs)
}.
(** The message of a packet. *)
Definition message_of (bs : list Z) : list Z := slice 40 (Z.to_nat (hdr_plen bs)) bs.

Section echo.
Context `{Env} `{LowerLayersOk} (sn : stack_netifs) (inp : netif) (fd : Z).
Hypotheses (Hout : forall n p d, output_ip6 n p d = tunif_ip6_output (Some n) (Some p) d).
Hypotheses (Hmtu : forall d w, nd6_get_destination_mtu d inp w = Ret (nif_mtu6 inp, w)).
Hypotheses (Hwrite : forall t k, env_write t k = Written k) (Hmem : forall t, env_mem_malloc t = true).
Hypotheses (Hfd : nif_state inp = Some fd) (Hin : netif_sane inp).

(** The interface is handed the packet and writes it. *)
Lemma wp_tun_transmit w q b bs d Q :
  single (w_pbufs w) q b bs -> Z.of_nat (length bs) <= nif_mtu6 inp -> Z.of_nat (length bs) <= PACKET_BUF_SIZE ->
  Q ERR_OK (logged [EvTunWrite fd bs] 1 w) -> wp (ip6_transmit q d inp) w Q.
Proof.
  intros Hs Hl Hl' HQ. pose proof (single_length _ _ _ _ Hs) as Hlen. pose proof Hs as (_ & _ & Ht & _).
  unfold ip6_transmit. apply wp_bind. eapply wp_exec; [by eapply pb_node_exec|]. cbn [n_val]. apply wp_bind.
  assert (Hsend : wp (output_ip6 inp q d) w Q) by (rewrite Hout; by eapply tun_writes).
  destruct (nif_mtu6 inp =? 0); [apply wp_ret; exact Hsend|]. apply wp_bind. eapply wp_exec; [apply Hmtu|]. apply wp_ret.
  rewrite (proj2 (Z.ltb_ge _ _)) by lia. exact Hsend.
Qed.

Lemma at_silent w q b G w1 :
  at_pbuf w q b G w1 -> w_trace w1 = w_trace w -> exists k, w1 = put_pbuf q b (add_ticks k w).
Proof.
  intros [(es & k & ->) _] Ht. cbn in Ht. exists k. destruct es; [by rewrite logged_nil|].
  apply (f_equal length) in Ht. rewrite length_app in Ht. simpl in Ht. lia.
Qed.

(** The whole message for an echo request. *)
Definition reply_packet (src dest : ip6_addr) (m : list Z) : list Z :=
  ip6_header dest src LWIP_ICMP6_HL 0 IP6_NEXTH_ICMP6 (Z.of_nat (length m)) ++ echo_reply src dest m.

Lemma wp_echo_tun w p b m Q :
  owned w p b m -> (8 <= length m)%nat -> Z.of_nat (length m) + 40 <= nif_mtu6 inp -> Z.of_nat (length m) <= 2008 ->
  ip6_wf (w_cur_src w) -> ip6_wf (w_cur_dest w) ->
  ip6_addr_ismulticast (w_cur_dest w) = false -> ip6_addr_isany (w_cur_dest w) = false ->
  (forall k, Q true (logged [EvTunWrite fd (reply_packet (w_cur_src w) (w_cur_dest w) m)] k w)) ->
  wp (icmp6_echo p (pb_tot_len b) inp) w Q.
Proof.
  intros Ho Hl Hm6 Hmax Hs Hd Hmc Hany HQ. eapply wp_echo_with; [exact Ho|lia|done|done| |].
  { rewrite Hmem, Hmc. by intros [|]. }
  intros _ r br w1 Hq Hne Hat Hr Hc Hp Htr. destruct (at_silent _ _ _ _ _ Hat Htr) as [k Hw1].
  assert (HlG : length (echo_reply (w_cur_src w) (w_cur_dest w) m) = length m).
  { unfold echo_reply. rewrite length_with_checksum; rewrite length_splice; simpl; lia. }
  apply wp_bind. unfold ip6_output_if. rewrite Hany.
  eapply wp_output_if_src; [split; eauto|done|done|lia|by vm_compute|]. intros b' dz _ [Hs' Hr'].
  rewrite HlG in Hs'.
  apply (wp_tun_transmit _ r b' _ dz _ Hs'); [rewrite length_app, length_ip6_header, HlG; lia| |].
  { rewrite length_app, length_ip6_header, HlG. unfold PACKET_BUF_SIZE. lia. }
  apply wp_bind. eapply wp_exec; [eapply pbuf_free_m_exec; [exact Hs'|exact Hr']|]. apply wp_ret.
  rewrite Hw1, put_pbuf_put. rewrite copy_released by exact Hq. apply HQ.
Qed.

Lemma wp_echo_request w p b m Q :
  owned w p b m -> (8 <= length m)%nat -> Z.of_nat (length m) + 40 <= nif_mtu6 inp -> Z.of_nat (length m) <= 2008 ->
  ip6_wf (w_cur_src w) -> ip6_wf (w_cur_dest w) ->
  ip6_addr_ismulticast (w_cur_dest w) = false -> ip6_addr_isany (w_cur_dest w) = false ->
  byte_at 0 m = ICMP6_TYPE_EREQ -> verifies (w_cur_src w) (w_cur_dest w) m ->
  (forall k, Q tt (del_pbuf p (logged [EvTunWrite fd (reply_packet (w_cur_src w) (w_cur_dest w) m)] k w))) ->
  wp (icmp6_input p inp) w Q.
Proof.
  intros Ho Hl Hm6 Hmax Hs Hd Hmc Hany Hty Hv HQ. pose proof Ho as [Hsg Hr].
  pose proof (single_length _ _ _ _ Hsg) as Hlen. pose proof Hsg as (_ & _ & Ht & _).
  unfold icmp6_input. apply wp_bind. eapply wp_exec; [by eapply pb_node_exec|]. cbn [n_val].
  rewrite (proj2 (Z.ltb_ge _ _)) by (unfold ICMP6_HLEN; lia). apply wp_bind, wp_get, wp_bind. eapply wp_lift.
  { apply (chksum_pseudo_eq _ p [(p, b)]); [by apply single_pkt|done|done|by vm_compute|lia]. }
  rewrite Ht, <-Hlen. rewrite Hv. cbn [negb Z.eqb Z.sub].
  apply wp_bind. eapply wp_exec; [apply (pread8_exec _ _ _ _ 0 Hsg); lia|].
  change (Z.to_nat 0) with 0%nat. rewrite Hty. cbn -[icmp6_echo]. apply wp_bind. rewrite Hlen, <-Ht.
  eapply wp_echo_tun; [exact Ho|done..|]. intros k. cbn [negb].
  apply wp_bind. eapply wp_exec; [eapply pbuf_free_m_exec; [exact Hsg|exact Hr]|]. apply wp_ret, HQ.
Qed.

(** An ICMPv6 message without extension headers for an address of [inp]. *)
Lemma wp_dispatch_icmp6 w p b bs Q :
  owned w p b bs -> (40 <= length bs)%nat -> hdr_nexth bs = IP6_NEXTH_ICMP6 ->
  ip6_addr_ismulticast (w_cur_dest w) = false -> ip6_addr_isany (w_cur_src w) = false ->
  ip6_input_accept (w_cur_dest w) inp = Ret true ->
  wp (icmp6_input p inp) (put_pbuf p (shifted 40 b) w) Q ->
  wp (ip6_dispatch sn p (pb_payload b) inp) w Q.
Proof.
  intros [Hs Hr] Hl Hnx Hmc Hany Hacc HQ. pose proof (single_length _ _ _ _ Hs) as Hlen.
  pose proof Hs as (_ & (Hp0 & _ & Hb0 & _) & _ & Hseg). unfold ip6_dispatch, accepting_netif. apply wp_bind, wp_get, wp_bind.
  rewrite Hmc, Hany. apply wp_bind. eapply wp_lift; [exact Hacc|]. apply wp_ret. cbn [andb].
  apply wp_bind. eapply wp_exec; [by eapply pb_node_exec|]. cbn [n_val].
  destruct (remove_header_exec w p b bs IP6_HLEN) as [E Hs2]; [done|unfold IP6_HLEN; lia|by vm_compute|].
  apply wp_bind. eapply wp_exec; [exact E|]. change (shifted IP6_HLEN b) with (shifted 40 b) in *.
  set (w1 := put_pbuf p (shifted 40 b) w) in *.
  assert (Hrd : pread8_at p (pb_payload b + OFF_NEXTH) w1 = Ret (IP6_NEXTH_ICMP6, w1)).
  { unfold pread8_at, pread_at. rewrite (bind_exec _ _ w1 (slice (Z.to_nat (pb_payload b + OFF_NEXTH)) 1 (pb_buf b)) w1).
    - rewrite byte_at_of_slice by lia. rewrite <-Hnx, <-Hseg. unfold hdr_nexth, seg_bytes.
      rewrite byte_at_of_slice by lia. unfold mret, M_ret. do 3 f_equal. unfold OFF_NEXTH. lia.
    - rewrite (bind_exec _ _ _ _ _ (pb_node_exec _ _ _ _ Hs2)). cbn [n_val]. unfold lift.
      rewrite rd_ok by (cbn; unfold OFF_NEXTH; lia). done. }
  apply wp_bind. unfold walk_headers. apply (wp_exec _ _ (Some (pb_payload b + OFF_NEXTH, IP6_HLEN)) w1).
  { rewrite loop_S. unfold headers_body. rewrite (bind_exec _ _ w1 (inr (Some (pb_payload b + OFF_NEXTH, IP6_HLEN))) w1); [done|].
    rewrite (bind_exec _ _ _ _ _ Hrd). cbn -[payload_pos]. unfold payload_pos.
    by rewrite (bind_exec _ _ _ _ _ (bind_exec _ _ _ _ _ (pb_node_exec _ _ _ _ Hs2))). }
  cbn [fst snd]. unfold upper_layer. apply wp_bind. eapply wp_exec; [exact Hrd|]. exact HQ.
Qed.
Lemma wp_input_echo w p b bs Q :
  owned w p b bs -> stack_packet b bs -> echo_request inp bs ->
  40 + hdr_plen bs <= nif_mtu6 inp -> hdr_plen bs <= 2008 ->
  (forall k, Q ERR_OK (del_pbuf p (set_current ip6_addr_any ip6_addr_any
     (logged [EvTunWrite fd (reply_packet (hdr_src bs) (hdr_dest bs) (message_of bs))] k w)))) ->
  wp (ip6_input_impl sn p inp) w Q.
Proof.
  intros Ho Hsk [Hl Hck Hnx Hpl Hty Hmc Hsa Hda Hacc Hv] Hm6 Hmax HQ.
  eapply wp_input_to_dispatch; [exact Ho|exact Hsk|rewrite Hck; intros [|]; [done|lia]|]. intros _ Hl40.
  pose proof Ho as [Hs Hr]. pose proof (single_bytes _ _ _ _ Hs) as Hb. pose proof Hsk as [Htp _ _ _].
  pose proof (single_length _ _ _ _ Hs) as Hlen.
  assert (Hfit : 40 + hdr_plen bs <= Z.of_nat (length bs)).
  { unfold input_checked in Hck. apply andb_true_iff in Hck as [[_ Hp]%andb_true_iff _]. by apply Z.leb_le in Hp. }
  destruct (realloc_exec w p b bs (40 + hdr_plen bs) Hs Htp ltac:(lia)) as [_ Hs2].
  set (b2 := cut (40 + hdr_plen bs) b) in *. set (bs2 := take (Z.to_nat (40 + hdr_plen bs)) bs) in *.
  assert (Hl2 : length bs2 = Z.to_nat (40 + hdr_plen bs)) by (unfold bs2; rewrite length_take; lia).
  assert (Hr2 : pb_ref b2 = 1) by (unfold b2, cut; destruct (_ <=? _); exact Hr).
  replace (pb_payload b) with (pb_payload b2) by (unfold b2, cut; by destruct (_ <=? _)).
  assert (Hm : drop 40 bs2 = message_of bs).
  { unfold bs2, message_of, slice. rewrite skipn_firstn_comm. f_equal. lia. }
  assert (Hwf : forall o, (o + 16 <= 40)%nat -> ip6_wf (ip6_of_bytes (slice o 16 bs))).
  { intros o Hov. apply ip6_of_bytes_wf; [rewrite length_slice; lia|by apply Forall_slice]. }
  assert (Hlm : Z.of_nat (length (message_of bs)) = hdr_plen bs) by (rewrite <-Hm, length_drop; lia).
  set (w2 := dispatched w p b bs inp). assert (Ho2 : owned w2 p b2 bs2) by (by split).
  eapply wp_dispatch_icmp6; [exact Ho2|lia| |exact Hmc|exact Hsa|exact Hacc|].
  { rewrite <-Hnx. unfold hdr_nexth. apply (byte_at_of_slice 6 0). lia. }
  destruct (remove_header_exec w2 p b2 bs2 40) as [_ Hs3]; [apply Ho2|lia|lia|].
  change (Z.to_nat 40) with 40%nat in Hs3. rewrite Hm in Hs3.
  eapply wp_echo_request; [split; [exact Hs3|exact Hr2]|lia|lia|lia|apply assign_zone_wf, Hwf; lia|apply assign_zone_wf, Hwf; lia
    |exact Hmc|exact Hda| |exact Hv|].
  { rewrite <-Hty. unfold message_of. rewrite byte_at_of_slice by lia. done. }
  intros k. eapply eq_ind; [exact (HQ k)|]. apply world_eq; try reflexivity. cbn. by rewrite !delete_insert_eq.
Qed.

(** The same through the controller: an ICMPv6 message that is no DTN report, to one of
    the node's own addresses. *)
Lemma wp_incoming_echo w p b bs c t ls recs rt cs src Q :
  arrived w p b bs c -> node_ok w t ls recs rt cs -> stack_packet b bs -> echo_request inp bs ->
  is_local (hdr_dest bs) = true -> 40 + hdr_plen bs <= nif_mtu6 inp -> hdr_plen bs <= 2008 ->
  ip6_addrs inp !! 1%nat = Some src ->
  (forall es k, acknowledged src (w_raw w) ICMP6_CODE_DTN_NO_INFO bs c es ->
     Q tt (del_pbuf p (set_current ip6_addr_any ip6_addr_any
       (logged (es ++ [EvTunWrite fd (reply_packet (hdr_src bs) (hdr_dest bs) (message_of bs))]) k w)))) ->
  wp (@dtn_controller_process_incoming _ (stack_input sn) (Some p) inp) w Q.
Proof.
  intros Har Hnk Hsk Her Hloc Hm6 Hmax Hsrc HQ. pose proof Hnk as [Hc _ Hst _ _].
  destruct (st_list _ _ _ Hst) as (st & Hw & _). pose proof Har as [Ho _ _ Hcu].
  pose proof Her as [Hl _ Hnx _ Hty _ _ _ _ _]. pose proof (sk_max _ _ Hsk).
  eapply incoming_reads; [by apply arrived_reached|exact Hnk|]. rewrite Hnx, Z.eqb_refl. apply wp_bind.
  eapply (wp_offer_foreign (add_ticks 1 w) p b bs); [exact Ho|exact Hc|exact Hw|lia|lia| | |].
  { rewrite Hty. left. by vm_compute. } { by rewrite Hmem. }
  intros _. rewrite add_ticks_add. unfold route_incoming. apply wp_bind. eapply wp_exec; [apply for_this_stack_exec|].
  change (is_local (temp_dest_addr (header_of bs))) with (is_local (hdr_dest bs)). rewrite Hloc, add_ticks_add.
  eapply wp_deliver_local; [by apply arrived_ticks|lia|lia|exact Hsrc| |].
  { eapply Forall_lookup_1; [apply Hin|exact Hsrc]. }
  intros es k Hack. rewrite logged_ticks. unfold ip6_input, stack_input.
  eapply (wp_input_echo _ p b bs); [exact Ho|exact Hsk|exact Her|done|done|]. intros k'. rewrite logged_logged. by apply HQ.
Qed.
End echo.

(** C13: the IPv6 stack consumes what it is given.  For every packet of 1 to 60000 bytes in
    one pool buffer that has two more bytes behind the packet, every interface list and
    every behaviour of the layers below that keeps their contract, [ip6_input] returns
    [ERR_OK], releases the packet and every buffer it allocates, and changes nothing else
    of the node but the output and the current addresses; in particular the walk over the
    extension headers terminates and reads inside the buffer.  The two bytes are needed:
    the length of an extension header is read before it is known to be in the packet, so
    a packet that fills its buffer (of 1536 bytes here) can be read out of bounds. *)
Theorem ip6_input_releases `{Env} `{LowerLayersOk} sn w p b bs inp :
  Forall netif_sane (sn_list sn) -> netif_sane inp -> owned w p b bs -> stack_packet b bs ->
  wp (ip6_input_impl sn p inp) w (fun err w' =>
    err = ERR_OK /\ exists es k s d, w' = del_pbuf p (set_current s d (logged es k w))).
Proof. intros Hsn Hin Ho Hsk. eapply wp_ip6_input; eauto. Qed.

(** C12: the node answers pings.  An echo request of at most 1534 bytes and the interface's
    MTU, without extension headers and with a verifying checksum, is read from the TUN
    device for an address that both the controller and the stack take for the node's, with
    two free buffers in the pool, and the custodian walk over its bytes, which runs on
    ICMPv6 packets too, ends inside the packet (requests whose bytes make a header of
    length zero hang the node).  The writes to the device are complete and the heap has
    memory.  Then the call returns, an echo reply of the same identifier, sequence number
    and data whose checksum verifies is written to the device, and afterwards the node is
    as before.  Before that the node tries to acknowledge the request on the raw sockets:
    the report is complete if [setsockopt] and [sendto] do not fail, and may be missing or
    cut short if they do. *)
Theorem ping_answered `{Env} `{LowerLayersOk} sn inp fd w t ls recs rt cs data c src :
  (forall n p d, output_ip6 n p d = tunif_ip6_output (Some n) (Some p) d) ->
  (forall d w, nd6_get_destination_mtu d inp w = Ret (nif_mtu6 inp, w)) ->
  (forall t k, env_write t k = Written k) -> (forall t, env_mem_malloc t = true) ->
  nif_state inp = Some fd -> netif_sane inp -> ip6_addrs inp !! 1%nat = Some src ->
  node_ok w t ls recs rt cs -> (S (pool_live [PBUF_POOL] (w_pbufs w)) < PBUF_POOL_SIZE)%nat ->
  env_read (w_tick w) = ReadBytes data -> Forall is_byte data -> (length data <= 1534)%nat ->
  echo_request inp data -> custodian_in data = Ret c -> is_local (hdr_dest data) = true ->
  40 + hdr_plen data <= nif_mtu6 inp ->
  let reply := echo_reply (hdr_src data) (hdr_dest data) (message_of data) in
  wp (@tunif_input _ (stack_input sn) (Some inp)) w (fun r w' => r = ERR_OK /\ exists es k,
    acknowledged src (w_raw w) ICMP6_CODE_DTN_NO_INFO data c es /\
    w' = set_current ip6_addr_any ip6_addr_any (logged (es ++
      [EvTunWrite fd (ip6_header (hdr_dest data) (hdr_src data) 255 0 IP6_NEXTH_ICMP6 (hdr_plen data) ++ reply)]) k w)) /\
  byte_at 0 reply = ICMP6_TYPE_EREP /\ drop 4 reply = drop 4 (message_of data) /\
  forall h q lq, pkt h q lq reply ->
    ip6_chksum_pseudo h (Some q) IP6_NEXTH_ICMP6 (hdr_plen data) (hdr_dest data) (hdr_src data) = Ret 0.
Proof.
  intros Hout Hmtu Hwrite Hmem Hfd Hin Hsrc Hnk Hroom Hrd Hb Hl Her Hc Hloc Hm6 reply.
  pose proof Her as [Hl48 Hck _ Hp8 _ _ _ _ _ _].
  assert (Hfit : 40 + hdr_plen data <= Z.of_nat (length data)).
  { unfold input_checked in Hck. apply andb_true_iff in Hck as [[_ Hp]%andb_true_iff _]. by apply Z.leb_le in Hp. }
  assert (Hlm : Z.of_nat (length (message_of data)) = hdr_plen data) by (unfold message_of; rewrite length_slice; lia).
  assert (Hwf : forall o, (o + 16 <= 40)%nat -> ip6_wf (ip6_of_bytes (slice o 16 data))).
  { intros o Hov. apply ip6_of_bytes_wf; [rewrite length_slice; lia|by apply Forall_slice]. }
  destruct (echo_reply_spec (hdr_src data) (hdr_dest data) (message_of data)) as (_ & R1 & R2 & R3);
    [lia|by apply Forall_slice|apply Hwf; lia|apply Hwf; lia|lia|]. rewrite Hlm in R3.
  split; [|done]. assert (Hver : hdr_version data = 6).
  { unfold input_checked in Hck. apply andb_true_iff in Hck as [[Hp _]%andb_true_iff _]. by apply Z.eqb_eq in Hp. }
  eapply (@wp_tun_reads _ (stack_input sn)); [exact Hnk|exact Hfd|lia|exact Hrd|done|lia|].
  intros p lp b w1 Hrv Ho Hsk Hnk1.
  eapply (wp_incoming_echo sn inp fd Hout Hmtu Hwrite Hmem Hfd Hin w1 p b data c);
    [split; [done|lia|done|done]|exact Hnk1|by apply Hsk|done|done|done|lia|exact Hsrc|].
  intros es k Hack. split; [done|]. unfold reply_packet. rewrite Hlm. fold reply.
  set (es' := es ++ _). destruct (received_released w w1 p lp data b es' k Hrv Ho) as (Hraw & k' & Hrel).
  rewrite Hraw in Hack. exists es, k'. split; [exact Hack|].
  transitivity (set_current ip6_addr_any ip6_addr_any (logged es' k' w)); [by rewrite <-Hrel|done].
Qed.

(** *** Concrete runs *)

(** Neighbour and multicast listener discovery that know nothing and discard what they
    are given. *)
Definition tun_layers `{Env} : LowerLayers := {|
  output_ip6 := fun n p d => tunif_ip6_output (Some n) (Some p) d;
  ip6_frag := fun _ _ _ => mret ERR_VAL;
  nd6_find_route := fun _ => mret None;
  nd6_get_destination_mtu := fun _ n => mret (nif_mtu6 n);
  nd6_input := fun p _ => pbuf_free_m p;; mret tt;
  mld6_input := fun p _ => pbuf_free_m p;; mret tt;
  mld6_lookfor_group := fun _ _ => mret false
|}.

Lemma tun_layers_ok `{Env} : @LowerLayersOk tun_layers.
Proof.
  split.
  - intros w n p ls bs d Hp. by eapply tun_sends.
  - intros w n p b bs d [Hs Hr] _. apply wp_ret. exists b, bs. split; [by apply at_start|done].
  - intros w d. by apply wp_ret.
  - intros w d n. by apply wp_ret.
  - intros w n d. by apply wp_ret.
  - intros w n p b bs [Hs Hr]. eapply wp_drop; [by apply at_start|done|done].
  - intros w n p b bs [Hs Hr]. eapply wp_drop; [by apply at_start|done|done].
Qed.

Lemma tun_configured_sane state : netif_sane (tun_configured state).
Proof. split; [apply tun_configured_wf|]. repeat constructor; by vm_compute. Qed.

Definition tun_only : stack_netifs := mk_stack_netifs [tun_configured 3] (Some (tun_configured 3)).

Lemma ip6_input_releases_witness :
  wp (@ip6_input_impl calm_env (@tun_layers calm_env) tun_only 1%positive (tun_configured 3))
    (tun_world (quiet_to local_1)) (fun err w' =>
    err = ERR_OK /\ exists es k s d, w' = del_pbuf 1%positive (set_current s d (logged es k (tun_world (quiet_to local_1))))).
Proof.
  refine (@ip6_input_releases calm_env _ (@tun_layers_ok calm_env) tun_only _ _ (tun_pbuf (quiet_to local_1)) (quiet_to local_1)
            (tun_configured 3) _ (tun_configured_sane 3) _ _).
  - constructor; [apply tun_configured_sane|constructor].
  - apply tun_owned; [decided|by vm_compute].
  - apply tun_stack_packet; [vm_compute; lia|by vm_compute].
Defined.

(** An echo request from fd00:1::1 to fd00:1::2. *)
Definition ping_src : ip6_addr := ip6_of_bytes [253; 0; 0; 1; 0; 0; 0; 0; 0; 0; 0; 0; 0; 0; 0; 1].
Definition ping : list Z :=
  ip6_header ping_src local_1 64 0 IP6_NEXTH_ICMP6 16 ++
  with_checksum ping_src local_1 [128; 0; 0; 0; 1; 2; 0; 1; 59; 0; 10; 11; 12; 13; 14; 15].
Definition ping_env : Env := calm_env_reading (fun _ => 100000) (fun _ _ => CgrNoCandidate) (fun _ => ReadBytes ping).

Lemma ping_request : echo_request (tun_configured 3) ping.
Proof. split; try (by vm_compute); vm_compute; lia. Qed.

Lemma ping_node_ok :
  node_ok (with_node (storage_world [])) fresh_table [] [] (mk_routing 0 (Some 1%positive)) [contact_32; contact_21].
Proof. apply with_node_ok, storage_world_stores. Qed.

Lemma ping_answered_witness :
  let reply := echo_reply ping_src local_1 (drop 40 ping) in
  wp (@tunif_input ping_env (@stack_input ping_env (@tun_layers ping_env) tun_only) (Some (tun_configured 3)))
    (with_node (storage_world [])) (fun r w' => r = ERR_OK /\ exists es k,
      w' = set_current ip6_addr_any ip6_addr_any (logged (es ++
        [EvTunWrite 3 (ip6_header local_1 ping_src 255 0 IP6_NEXTH_ICMP6 16 ++ reply)]) k (with_node (storage_world [])))).
Proof.
  intros reply. eapply wp_mono.
  - refine (proj1 (@ping_answered ping_env _ (@tun_layers_ok ping_env) tun_only (tun_configured 3) 3 (with_node (storage_world []))
              fresh_table [] [] (mk_routing 0 (Some 1%positive)) [contact_32; contact_21] ping None node2
              _ _ _ _ _ _ _ ping_node_ok _ _ _ _ ping_request _ _ _)).
    + reflexivity.
    + reflexivity.
    + reflexivity.
    + reflexivity.
    + reflexivity.
    + apply tun_configured_sane.
    + reflexivity.
    + vm_compute. lia.
    + reflexivity.
    + decided.
    + vm_compute. lia.
    + by vm_compute.
    + by vm_compute.
    + by vm_compute.
  - cbn beta. intros r w' (Hr & es & k & _ & Hw). split; [exact Hr|]. exists es, k. exact Hw.
Defined.
