(* ===== verification/MldSpec.v ===== *)
(** * Multicast listener discovery on the TUN interface

    What the groups of [Mld6] promise: joining and leaving count the uses of an
    address, every state that can be reached is well formed, and the query of a
    router is answered in time with reports that other nodes can verify. *)

From S2P Require Import Prelude LinkedList Ip6Addr World Netif Pbuf Ip6Hdr Custody Buffer InetChksum RawSocket Ip6Out Icmp6 Ip6In Ip6Spec Mld6 ControllerSpec Main Setup Stack.

(** ** The timer *)

(** One tick of a group; [sent] is what holds once its report is sent. *)
Definition ticked (sent : world -> ip6_addr -> Prop) (w : world) (g g' : mld_group) : Prop :=
  (g_timer g = 0 /\ g' = g) \/
  (1 < g_timer g /\ g' = with_timer (g_timer g - 1) MLD6_GROUP_DELAYING_MEMBER g) \/
  (g_timer g = 1 /\ sent w (group_address g) /\
   exists f, (f = 1 \/ f = last_reporter_flag g) /\ g' = with_flag f (with_timer 0 MLD6_GROUP_IDLE_MEMBER g)).

Lemma put_group_ok s L k l1 l g l2 q g' w :
  mld_ok s L -> groups_of L k = l1 ++ (l, g) :: l2 -> groups s !! l = Some (Node g q) ->
  group_address g' = group_address g -> good_group g' ->
  mld_ok (mk_mld w (<[l := Node g' q]> (groups s)) (client_data s)) (<[k := l1 ++ (l, g') :: l2]> L).
Proof.
  intros Hok E Hq Ha Hg. destruct (upd_group_ok s L k Hok l1 l g l2 (fun _ => g') E Ha Hg) as (s1 & E1 & _ & Hok1).
  rewrite (upd_group_exec _ _ _ _ _ Hq) in E1. injection E1 as <-. exact (mld_ok_world _ _ w Hok1).
Qed.

Section ticks.
Context `{Env} `{LowerLayersOk} (n : netif).

(** What becomes of a report, whenever one is sent. *)
Context (sent : world -> ip6_addr -> Prop).
Hypothesis Hmono : forall w w' a, sent w a -> sends w w' -> sent w' a.
Hypothesis Hsend : forall s l g q, groups s !! l = Some (Node g q) -> ip6_wf (group_address g) ->
  wp (mld6_send n l ICMP6_TYPE_MLR) s (fun _ s' => sends (mw s) (mw s') /\ sent (mw s') (group_address g) /\
    client_data s' = client_data s /\ exists f, (f = 1 \/ f = last_reporter_flag g) /\
    groups s' = <[l := Node (with_flag f g) q]> (groups s)).

Lemma tmr_group_ok s L k l1 l g l2 :
  mld_ok s L -> groups_of L k = l1 ++ (l, g) :: l2 -> good_group g ->
  wp (tmr_group n l) s (fun _ s' => exists g', ticked sent (mw s') g g' /\
    mld_ok s' (<[k := l1 ++ (l, g') :: l2]> L) /\ sends (mw s) (mw s')).
Proof.
  intros Hok E Hg. destruct (group_lookup s L k Hok _ _ _ _ E) as [q Hq]. pose proof Hg as [Hga Hgf Hgt Hgu].
  unfold tmr_group. apply wp_bind. eapply wp_exec; [by apply group_at_exec|]. cbn [n_val].
  destruct (Z.ltb_spec 0 (g_timer g)) as [Ht|Ht].
  2: { apply wp_ret. exists g. split; [by left; destruct Hgt as [[? ?]|[? ?]]; [|lia]|].
       split; [by apply mld_ok_same|apply sends_refl]. }
  destruct Hgt as [[? ?]|[Est Htr]]; [lia|].
  apply wp_bind. eapply wp_exec; [by apply upd_group_exec|]. set (g1 := with_timer (g_timer g - 1) (group_state g) g).
  apply wp_bind. eapply wp_exec; [apply group_at_exec; apply lookup_insert_eq|]. cbn [n_val].
  change (g_timer g1) with (g_timer g - 1). change (group_state g1) with (group_state g). rewrite Est.
  destruct (Z.eqb_spec (g_timer g - 1) 0) as [E1|E1]; cbn [andb Z.eqb Pos.eqb].
  - apply wp_bind. eapply wp_mono; [apply (Hsend _ l g1 q); [apply lookup_insert_eq|exact Hga]|].
    cbn beta. intros _ s2 (Hw & Hs & Hc & f & Hf & Hgr). cbn [groups client_data mw] in Hgr, Hc, Hw. rewrite insert_insert_eq in Hgr.
    eapply wp_exec; [apply upd_group_exec; rewrite Hgr; apply lookup_insert_eq|]. cbn [mw].
    set (g' := with_flag f (with_timer 0 MLD6_GROUP_IDLE_MEMBER g)). exists g'. split.
    { right. right. split; [lia|]. split; [exact Hs|]. exists f. by split. }
    split; [|done]. rewrite Hgr, insert_insert_eq, Hc.
    replace (with_timer _ MLD6_GROUP_IDLE_MEMBER _) with g' by (unfold g', g1, with_flag, with_timer; cbn; f_equal; lia).
    eapply put_group_ok; [exact Hok|exact E|exact Hq|done|]. split; [done|cbn; destruct Hf as [->| ->]; auto|by left|done].
  - apply wp_ret. exists g1. split; [right; left; split; [lia|]; by unfold g1; rewrite Est|]. split; [|apply sends_refl].
    eapply put_group_ok; [exact Hok|exact E|exact Hq|done|]. split; [done|done|right; simpl; split; [done|lia]|done].
Qed.

Lemma ticked_mono w w' g g' : ticked sent w g g' -> sends w w' -> ticked sent w' g g'.
Proof. unfold ticked. intros [?|[?|(? & ? & ?)]] Hw; [auto..|]. right. right. split_and!; [done|by eapply Hmono|done]. Qed.

Lemma tmr_ok s L :
  mld_ok s L ->
  wp (mld6_tmr [n]) s (fun _ s' => exists ls,
    Forall2 (fun x y => y.1 = x.1 /\ ticked sent (mw s') x.2 y.2) (groups_of L (nif_num n)) ls /\
    mld_ok s' (<[nif_num n := ls]> L) /\ sends (mw s) (mw s')).
Proof.
  intros Hok. unfold mld6_tmr. apply wp_bind. eapply (wp_exec _ _ (data_of (nif_num n) s)); [done|].
  apply wp_bind. eapply wp_mono; [apply (wp_over_groups (ticked sent)); [apply ticked_mono| |exact Hok]|].
  - intros s1 L1 l1 l g l2 Hok1 E _ Hg. by apply tmr_group_ok.
  - cbn beta. intros _ s' Hs'. by apply wp_ret.
Qed.

(** [m] ticks. *)
Fixpoint ticks (m : nat) : M mld_world unit :=
  match m with O => mret tt | S m => mld6_tmr [n];; ticks m end.

(** A group whose timer runs is reported by the time it has run out. *)
Lemma ticks_ok m : forall s L,
  mld_ok s L ->
  wp (ticks m) s (fun _ s' => sends (mw s) (mw s') /\ (exists L', mld_ok s' L') /\
    forall l g, (l, g) ∈ groups_of L (nif_num n) -> 0 < g_timer g <= Z.of_nat m -> sent (mw s') (group_address g)).
Proof.
  induction m as [|m IH]; intros s L Hok; cbn [ticks].
  { apply wp_ret. split; [apply sends_refl|]. split; [by exists L|]. intros. lia. }
  apply wp_bind. eapply wp_mono; [by apply tmr_ok|]. cbn beta. intros _ s1 (ls & HF & Hok1 & Hw1).
  eapply wp_mono; [by apply (IH _ _ Hok1)|]. cbn beta. intros _ s2 (Hw2 & Hok2 & Hs2).
  split; [by eapply sends_trans|]. split; [done|]. intros l g Hin Ht. rewrite groups_of_insert in Hs2.
  apply list_elem_of_lookup in Hin as [i Hi]. destruct (Forall2_lookup_l _ _ _ _ _ HF Hi) as ([l' g'] & Hi' & _ & Htick).
  apply list_elem_of_lookup_2 in Hi'. cbn [snd] in Htick. destruct Htick as [[? ?]|[[Hgt ->]|(_ & Hsent & _)]].
  - lia.
  - apply (Hs2 l' _ Hi'). cbn. lia.
  - by eapply Hmono.
Qed.
End ticks.

(** However the driver fares. *)
Lemma send_any `{Env} `{LowerLayersOk} n s l g q :
  netif_sane n -> groups s !! l = Some (Node g q) -> ip6_wf (group_address g) ->
  wp (mld6_send n l ICMP6_TYPE_MLR) s (fun _ s' => sends (mw s) (mw s') /\ True /\
    client_data s' = client_data s /\ exists f, (f = 1 \/ f = last_reporter_flag g) /\
    groups s' = <[l := Node (with_flag f g) q]> (groups s)).
Proof.
  intros Hn Hq Ha. eapply wp_mld_send; [exact Hq|done|done|by vm_compute| |]; intros w' Hw; (split; [done|]); (split; [done|]); (split; [done|]).
  - exists (last_reporter_flag g). split; [by right|]. cbn [groups with_world]. rewrite insert_id; [done|].
    rewrite Hq. by destruct g.
  - exists 1. split; [by left|done].
Qed.

(** ** Reports on the TUN interface *)

Definition report_packet (src a : ip6_addr) : list Z :=
  ip6_header (if ip6_addr_isany src then ip6_addr_any else src) a MLD6_HL 0 IP6_NEXTH_HOPBYHOP 32 ++
  router_alert ++ mld_message ICMP6_TYPE_MLR src a.

Section tun.
Context `{Env} `{LowerLayersOk} (n : netif) (fd : Z) (src : ip6_addr).
Hypotheses (Hout : forall n p d, output_ip6 n p d = tunif_ip6_output (Some n) (Some p) d).
Hypotheses (Hmtu : forall d w, nd6_get_destination_mtu d n w = Ret (nif_mtu6 n, w)).
Hypotheses (Hwrite : forall t k, env_write t k = Written k) (Hmem : forall t, env_mem_malloc t = true).
Hypotheses (Hfd : nif_state n = Some fd) (Hn : netif_sane n) (Hm6 : 72 <= nif_mtu6 n) (Hsrc : mld_source n = Ret src).

Definition on_tun (w : world) (a : ip6_addr) : Prop := EvTunWrite fd (report_packet src a) ∈ w_trace w.

Lemma on_tun_mono w w' a : on_tun w a -> sends w w' -> on_tun w' a.
Proof. intros Ha (es & k & ->). apply elem_of_app. by left. Qed.

Lemma send_tun s l g q :
  groups s !! l = Some (Node g q) -> ip6_wf (group_address g) ->
  wp (mld6_send n l ICMP6_TYPE_MLR) s (fun _ s' => sends (mw s) (mw s') /\ on_tun (mw s') (group_address g) /\
    client_data s' = client_data s /\ exists f, (f = 1 \/ f = last_reporter_flag g) /\
    groups s' = <[l := Node (with_flag f g) q]> (groups s)).
Proof.
  intros Hq Ha. destruct (mld_source_ok n Hn) as (src' & Hsrc' & Hsw). rewrite Hsrc in Hsrc'. injection Hsrc' as <-.
  eapply wp_mld_send_with; [exact Hq|done|exact Hsrc|done|by vm_compute|by rewrite Hmem|].
  intros p b w1 Hp Hat Hr Hc Hpl Htr. destruct (at_silent _ _ _ _ _ Hat Htr) as [k Hw1].
  apply wp_bind. rewrite output_if_any.
  eapply wp_output_if_src; [split; eauto|done|done|rewrite length_app, length_mld_message; done|by vm_compute|].
  intros b' dz _ [Hs' Hr'].
  assert (Hl : length (ip6_header (if ip6_addr_isany src then ip6_addr_any else src) (group_address g) MLD6_HL 0 IP6_NEXTH_HOPBYHOP
    (Z.of_nat (length (router_alert ++ mld_message ICMP6_TYPE_MLR src (group_address g)))) ++
    router_alert ++ mld_message ICMP6_TYPE_MLR src (group_address g)) = 72%nat).
  { rewrite !length_app, length_ip6_header, length_mld_message. done. }
  apply (wp_tun_transmit n fd Hout Hmtu Hwrite Hfd _ p b' _ dz _ Hs'); [rewrite Hl; lia|rewrite Hl; unfold PACKET_BUF_SIZE; lia|].
  apply wp_bind. eapply wp_exec; [eapply pbuf_free_m_exec; [exact Hs'|exact Hr']|]. apply wp_ret. cbn [mw groups client_data].
  rewrite Hw1, put_pbuf_put, copy_released by exact Hp.
  assert (Hpk : forall es, es = [EvTunWrite fd (report_packet src (group_address g))] ->
    sends (mw s) (logged es (1 + k) (mw s)) /\ on_tun (logged es (1 + k) (mw s)) (group_address g)).
  { intros es ->. split; [by eexists _, _|]. apply elem_of_app. right. apply list_elem_of_here. }
  destruct (Hpk [EvTunWrite fd (ip6_header (if ip6_addr_isany src then ip6_addr_any else src) (group_address g) MLD6_HL 0 IP6_NEXTH_HOPBYHOP
    (Z.of_nat (length (router_alert ++ mld_message ICMP6_TYPE_MLR src (group_address g)))) ++
    router_alert ++ mld_message ICMP6_TYPE_MLR src (group_address g))]) as [Hs1 Hs2].
  { unfold report_packet. rewrite length_app, length_mld_message. done. }
  split; [exact Hs1|]. split; [exact Hs2|]. split; [done|]. exists 1. split; [by left|done].
Qed.
End tun.

(** ** Input *)

Definition query_delay (bs : list Z) : Z := lwip_htons (le_val (slice 4 2 bs)).
(** A query for all groups. *)
Definition general_query (dest : ip6_addr) (bs : list Z) : bool :=
  ip6_addr_isallnodes_linklocal dest && ip6_addr_isany (ip6_of_bytes (slice 8 16 bs)).
Definition exempt (a : ip6_addr) : bool := ip6_addr_ismulticast_iflocal a || ip6_addr_isallnodes_linklocal a.
(** Another node has reported the group. *)
Definition cancelled (g : mld_group) : mld_group :=
  if group_state g =? MLD6_GROUP_DELAYING_MEMBER then with_flag 0 (with_timer 0 MLD6_GROUP_IDLE_MEMBER g) else g.

(** What the message [bs] to [dest] does to a group. *)
Definition heard (dest : ip6_addr) (bs : list Z) (g g' : mld_group) : Prop :=
  if (length bs <? 24)%nat then g' = g
  else if byte_at 0 bs =? ICMP6_TYPE_MLQ then
    if general_query dest bs then if exempt (group_address g) then g' = g else scheduled (query_delay bs) g g'
    else if has_addr dest g then scheduled (query_delay bs) g g' else g' = g
  else if byte_at 0 bs =? ICMP6_TYPE_MLR then
    if has_addr dest g then g' = cancelled g else g' = g
  else g' = g.

Lemma sends_pbufs w w' : sends w w' -> w_pbufs w' = w_pbufs w.
Proof. by intros (es & k & ->). Qed.

Lemma Forall2_unchanged {A B} (R : B -> B -> Prop) (l : list (A * B)) :
  Forall (fun x => R x.2 x.2) l -> Forall2 (fun x y => y.1 = x.1 /\ R x.2 y.2) l l.
Proof. intros H. induction H; constructor; auto. Qed.

Section input.
Context `{Env} `{LowerLayersOk} (lwip_rand : nat -> Z) (inp : netif).

Lemma max_delay_ok s p b bs Q :
  single (w_pbufs (mw s)) p b bs -> (24 <= length bs)%nat -> Q (query_delay bs) s -> wp (mld_max_delay p) s Q.
Proof.
  intros Hs Hl HQ. unfold mld_max_delay. apply wp_bind, wp_in_world.
  eapply wp_exec; [apply (pread_exec _ _ _ _ 4 2 Hs); lia|]. apply wp_ret. by destruct s.
Qed.

Lemma query_delay_range bs : 0 <= query_delay bs < 65536.
Proof. apply lwip_htons_range. Qed.

(** One group, where it is. *)
Lemma wp_found s L a (R : mld_group -> mld_group -> Prop) (m : loc -> M mld_world unit) :
  mld_ok s L ->
  (forall l1 l g l2, groups_of L (nif_num inp) = l1 ++ (l, g) :: l2 -> has_addr a g = true ->
     wp (m l) s (fun _ s' => exists g', R g g' /\ mld_ok s' (<[nif_num inp := l1 ++ (l, g') :: l2]> L) /\ sends (mw s) (mw s'))) ->
  (forall g, has_addr a g = false -> R g g) ->
  wp (group ← mld6_lookfor_group inp a; match group with Some l => m l | None => mret tt end) s (fun _ s' => exists ls,
    Forall2 (fun x y => y.1 = x.1 /\ R x.2 y.2) (groups_of L (nif_num inp)) ls /\
    mld_ok s' (<[nif_num inp := ls]> L) /\ sends (mw s) (mw s')).
Proof.
  intros Hok Hm Hno. set (k := nif_num inp) in *. apply wp_bind. eapply wp_exec; [by apply (lookfor_exec s L k Hok)|].
  assert (Hun : forall ls, find_first (has_addr a) ls = None -> Forall2 (fun x y : loc * mld_group => y.1 = x.1 /\ R x.2 y.2) ls ls).
  { intros ls [Hls _]%find_first_None. apply Forall2_unchanged. eapply Forall_impl; [exact Hls|]. intros x Hx. by apply Hno. }
  destruct (find_first (has_addr a) (groups_of L k)) as [[l g]|] eqn:Ef; cbn [fmap option_fmap option_map fst].
  - destruct (found_split a _ l g (mo_addr _ _ Hok k) Ef) as (l1 & l2 & E & Hag & F1 & F2).
    eapply wp_mono; [apply (Hm l1 l g l2 E); by apply addr_cmp_eq|]. cbn beta. intros _ s' (g' & HR & Hok' & Hw).
    exists (l1 ++ (l, g') :: l2). split; [|done]. rewrite E. apply Forall2_app; [by apply Hun|]. constructor; [done|by apply Hun].
  - apply wp_ret. exists (groups_of L k). split; [by apply Hun|]. split; [by apply mld_ok_same|apply sends_refl].
Qed.

Lemma query_ok s L p b bs :
  mld_ok s L -> single (w_pbufs (mw s)) p b bs -> (24 <= length bs)%nat -> byte_at 0 bs = ICMP6_TYPE_MLQ ->
  wp (mld_query lwip_rand p inp) s (fun _ s' => exists ls,
    Forall2 (fun x y => y.1 = x.1 /\ heard (w_cur_dest (mw s)) bs x.2 y.2) (groups_of L (nif_num inp)) ls /\
    mld_ok s' (<[nif_num inp := ls]> L) /\ sends (mw s) (mw s')).
Proof.
  intros Hok Hs Hl Hty. set (k := nif_num inp) in *. set (dest := w_cur_dest (mw s)).
  assert (Hh : forall g g', heard dest bs g g' <->
    if general_query dest bs then if exempt (group_address g) then g' = g else scheduled (query_delay bs) g g'
    else if has_addr dest g then scheduled (query_delay bs) g g' else g' = g).
  { intros g g'. unfold heard. rewrite (proj2 (Nat.ltb_ge _ _)) by lia. rewrite Hty. done. }
  unfold mld_query. apply wp_bind, wp_get. fold dest. apply wp_bind.
  apply (wp_exec _ _ (general_query dest bs) s).
  { unfold general_query. destruct (ip6_addr_isallnodes_linklocal dest); [|done]. unfold in_world at 1, mbind, M_bind.
    rewrite (pread_exec _ _ _ _ 8 16 Hs) by lia. by destruct s. }
  destruct (general_query dest bs).
  - apply wp_bind. eapply (wp_exec _ _ (data_of k s)); [done|].
    eapply wp_mono; [apply (wp_over_groups (fun _ => heard dest bs)); [done| |exact Hok]|].
    2: { intros _ s' (ls & HF & Hrest). exists ls. by split. }
    intros s1 L1 l1 l g l2 Hok1 E1 Hw1 Hg. destruct (group_lookup s1 L1 k Hok1 _ _ _ _ E1) as [q Hq].
    apply wp_bind. eapply wp_exec; [by apply group_at_exec|]. cbn [n_val].
    specialize (Hh g). unfold exempt in Hh. rewrite <-negb_orb. destruct (_ || _); cbn [negb].
    + apply wp_ret. exists g. split; [by apply Hh|]. split; [by apply mld_ok_same|apply sends_refl].
    + apply wp_bind. eapply max_delay_ok; [by rewrite (sends_pbufs _ _ Hw1)|done|].
      eapply wp_mono; [apply (delayed_report_ok lwip_rand s1 L1 k l1 l g l2); [done|done|apply query_delay_range]|].
      intros _ s2 (g' & Hg' & Hrest). exists g'. split; [by apply Hh|done].
  - apply (wp_found s L dest (heard dest bs)); [done| |intros g Hg; apply Hh; by rewrite Hg].
    intros l1 l g l2 E Hg. apply wp_bind. eapply max_delay_ok; [exact Hs|done|].
    eapply wp_mono; [apply (delayed_report_ok lwip_rand s L k l1 l g l2); [done|done|apply query_delay_range]|].
    intros _ s2 (g' & Hg' & Hrest). exists g'. split; [|done]. apply Hh. by rewrite Hg.
Qed.

Lemma report_ok s L bs :
  mld_ok s L -> (24 <= length bs)%nat -> byte_at 0 bs = ICMP6_TYPE_MLR ->
  wp (mld_report inp) s (fun _ s' => exists ls,
    Forall2 (fun x y => y.1 = x.1 /\ heard (w_cur_dest (mw s)) bs x.2 y.2) (groups_of L (nif_num inp)) ls /\
    mld_ok s' (<[nif_num inp := ls]> L) /\ sends (mw s) (mw s')).
Proof.
  intros Hok Hl Hty. set (k := nif_num inp) in *. set (dest := w_cur_dest (mw s)).
  assert (Hh : forall g g', heard dest bs g g' <-> if has_addr dest g then g' = cancelled g else g' = g).
  { intros g g'. unfold heard. rewrite (proj2 (Nat.ltb_ge _ _)) by lia. rewrite Hty. done. }
  unfold mld_report. apply wp_bind, wp_get. fold dest. apply (wp_found s L dest (heard dest bs)); [done| |intros g Hg; apply Hh; by rewrite Hg].
  intros l1 l g l2 E Hg. fold k in E. destruct (group_lookup s L k Hok _ _ _ _ E) as [q Hq]. specialize (Hh g). rewrite Hg in Hh. unfold cancelled in Hh.
  apply wp_bind. eapply wp_exec; [by apply group_at_exec|]. cbn [n_val].
  assert (Hgd : good_group g).
  { pose proof (mo_good _ _ Hok k) as Hgd. rewrite E in Hgd. by apply Forall_app in Hgd as [_ [? _]%Forall_cons]. }
  destruct (group_state g =? MLD6_GROUP_DELAYING_MEMBER).
  - destruct (upd_group_ok s L k Hok l1 l g l2 (fun g => with_flag 0 (with_timer 0 MLD6_GROUP_IDLE_MEMBER g)) E) as (s1 & E1 & Ew & Hok1);
      [done|destruct Hgd; split; [done|by left|by left|done]|].
    eapply wp_exec; [exact E1|]. eexists. split; [by apply Hh|]. split; [exact Hok1|]. rewrite Ew. apply sends_refl.
  - apply wp_ret. exists g. split; [by apply Hh|]. split; [by apply mld_ok_same|apply sends_refl].
Qed.

Lemma input_ok s L p b bs :
  mld_ok s L -> owned (mw s) p b bs ->
  wp (mld6_input lwip_rand p inp) s (fun _ s' => Ip6Spec.gone (mw s) p (mw s') /\ exists ls,
    Forall2 (fun x y => y.1 = x.1 /\ heard (w_cur_dest (mw s)) bs x.2 y.2) (groups_of L (nif_num inp)) ls /\
    mld_ok s' (<[nif_num inp := ls]> L)).
Proof.
  intros Hok [Hs Hr]. pose proof (single_length _ _ _ _ Hs) as Hl. set (k := nif_num inp) in *. set (dest := w_cur_dest (mw s)).
  assert (Hfree : forall s1 Q, sends (mw s) (mw s1) -> (forall w', Ip6Spec.gone (mw s) p w' -> Q tt (with_world w' s1)) ->
    wp (in_world (pbuf_free_m p);; mret tt) s1 Q).
  { intros s1 Q Hw HQ. apply wp_bind, wp_in_world.
    eapply wp_free; [eapply at_sends; [apply at_start; exact Hs|exact Hw]|done|]. intros r w' Hg. apply wp_ret. by apply HQ. }
  assert (Hsame : (forall g, heard dest bs g g) -> forall w', Ip6Spec.gone (mw s) p w' ->
    Ip6Spec.gone (mw s) p (mw (with_world w' s)) /\ exists ls, Forall2 (fun x y => y.1 = x.1 /\ heard dest bs x.2 y.2) (groups_of L k) ls /\
      mld_ok (with_world w' s) (<[k := ls]> L)).
  { intros Hh w' Hg. split; [done|]. exists (groups_of L k). split; [apply Forall2_unchanged, Forall_true; auto|].
    apply mld_ok_same; [done|by apply mld_ok_world]. }
  unfold mld6_input. apply wp_bind, wp_in_world. eapply wp_exec; [by eapply pb_node_exec|]. cbn [n_val].
  replace (with_world (mw s) s) with s by (by destruct s). unfold sizeof_mld_header. destruct (Z.ltb_spec (pb_len b) 24).
  { apply Hfree; [apply sends_refl|]. apply Hsame. intros g. unfold heard. by rewrite (proj2 (Nat.ltb_lt _ _)) by lia. }
  apply wp_bind, wp_in_world. eapply wp_exec; [apply (pread8_exec _ _ _ _ 0 Hs); lia|]. change (Z.to_nat 0) with 0%nat.
  replace (with_world (mw s) s) with s by (by destruct s). apply wp_bind.
  assert (Hfin : forall m : M mld_world unit, wp m s (fun _ s' => exists ls,
    Forall2 (fun x y => y.1 = x.1 /\ heard dest bs x.2 y.2) (groups_of L k) ls /\ mld_ok s' (<[k := ls]> L) /\ sends (mw s) (mw s')) ->
    wp m s (fun _ s1 => wp (in_world (pbuf_free_m p);; mret tt) s1 (fun _ s' => Ip6Spec.gone (mw s) p (mw s') /\ exists ls,
      Forall2 (fun x y => y.1 = x.1 /\ heard dest bs x.2 y.2) (groups_of L k) ls /\ mld_ok s' (<[k := ls]> L)))).
  { intros m Hm. eapply wp_mono; [exact Hm|]. cbn beta. intros _ s1 (ls & HF & Hok1 & Hw). apply Hfree; [done|].
    intros w' Hg. split; [done|]. exists ls. split; [done|by apply mld_ok_world]. }
  destruct (Z.eqb_spec (byte_at 0 bs) ICMP6_TYPE_MLQ) as [Eq|Nq]; [apply Hfin, (query_ok s L p b bs); [done|done|lia|done]|].
  destruct (Z.eqb_spec (byte_at 0 bs) ICMP6_TYPE_MLR) as [Er|Nr]; [apply Hfin, (report_ok s L bs); [done|lia|done]|].
  apply wp_ret. apply Hfree; [apply sends_refl|]. apply Hsame. intros g. unfold heard.
  rewrite (proj2 (Nat.ltb_ge _ _)), (proj2 (Z.eqb_neq _ _) Nq), (proj2 (Z.eqb_neq _ _) Nr) by lia. done.
Qed.
End input.

(** ** The other operations *)

Lemma selects_ok src n : netif_wf n -> exists b, selects src n = Ret b.
Proof.
  intros Hwf. unfold selects. destruct (ip6_addr_isany src); [by exists true|]. unfold netif_get_ip6_addr_match.
  destruct (_ && _); [by eexists|].
  assert (Hm : forall i, (i < 5)%nat -> exists b, slot_matches n src i = Ret b).
  { intros i Hi. unfold slot_matches, netif_ip6_addr_state, netif_ip6_addr. rewrite (state_lookup n Hwf i) by lia. cbn [deref mbind outcome_bind].
    destruct (ip6_addr_isinvalid _); [by eexists|]. rewrite (addr_lookup n Hwf i) by lia. by eexists. }
  assert (Hs : forall k i, (i + k = 5)%nat -> exists r, first_slot k i (slot_matches n src) = Ret r).
  { induction k as [|k IH]; intros i Hi; cbn [first_slot]; [by eexists|]. destruct (Hm i) as [b Hb]; [lia|]. rewrite Hb.
    cbn [mbind outcome_bind]. destruct b; [by eexists|apply IH; lia]. }
  destruct (Hs 5%nat 0%nat) as [r Hr]; [done|]. change LWIP_IPV6_NUM_ADDRESSES with 5%nat. rewrite Hr. by eexists.
Qed.

Section whole.
Context `{Env} `{LowerLayersOk}.
Context (lwip_rand : nat -> Z).
Context (mld_mac_filter : netif -> option (ip6_addr -> Z -> M world unit)).
Hypothesis Hfilter : forall n f a act w, mld_mac_filter n = Some f -> wp (f a act) w (fun _ w' => sends w w').

Lemma report_groups_ok s L n :
  mld_ok s L ->
  wp (mld6_report_groups lwip_rand n) s (fun _ s' => exists ls,
    Forall2 (fun x y => y.1 = x.1 /\ scheduled MLD6_JOIN_DELAYING_MEMBER_TMR_MS x.2 y.2) (groups_of L (nif_num n)) ls /\
    mld_ok s' (<[nif_num n := ls]> L) /\ sends (mw s) (mw s')).
Proof.
  intros Hok. unfold mld6_report_groups. apply wp_bind. eapply (wp_exec _ _ (data_of (nif_num n) s)); [done|].
  apply (wp_over_groups (fun _ => scheduled MLD6_JOIN_DELAYING_MEMBER_TMR_MS)); [done| |exact Hok].
  intros s1 L1 l1 l g l2 Hok1 E _ Hg. by apply delayed_report_ok.
Qed.

(** The groups are freed one after the other. *)
Lemma stop_loop n s c : forall rest before s1 cur fuel,
  client_data s1 = c -> sends (mw s) (mw s1) ->
  (forall x, groups s1 !! x = if decide (x ∈ before) then None else groups s !! x) ->
  llist (groups s) cur rest -> NoDup (before ++ rest.*1) -> (length rest < fuel)%nat ->
  wp (loop fuel (stop_body mld_mac_filter n) cur) s1 (fun _ s' => sends (mw s) (mw s') /\ client_data s' = c /\
    forall x, groups s' !! x = if decide (x ∈ before ++ rest.*1) then None else groups s !! x).
Proof.
  induction rest as [|[l g] rest IH]; intros before s1 cur fuel Hc Hw Hg Hl Hnd Hf; (destruct fuel as [|fuel]; [simpl in Hf; lia|]);
    cbn [loop]; apply wp_bind; cbn [llist] in Hl.
  - subst cur. apply wp_ret. apply wp_ret. cbn [fmap list_fmap]. by rewrite app_nil_r.
  - destruct Hl as [-> (q & Hq & Hl)]. cbn [fmap list_fmap fst] in Hnd |- *.
    pose proof Hnd as Hnd'. apply NoDup_app in Hnd' as (_ & Hd & _).
    assert (Hlb : l ∉ before) by (intros Hx; apply (Hd l Hx); by left).
    cbn [stop_body]. apply wp_bind. eapply wp_exec; [apply group_at_exec; rewrite Hg, decide_False by done; exact Hq|]. cbn [n_val n_next].
    apply wp_bind, (wp_filter mld_mac_filter Hfilter). intros w' Hw'. apply wp_bind, wp_modify, wp_ret.
    eapply wp_mono; [apply (IH (before ++ [l])); [exact Hc|by eapply sends_trans| |exact Hl|by rewrite <-app_assoc|simpl in Hf; lia]|].
    + intros x. cbn [groups with_world]. destruct (decide (x = l)) as [->|Hx].
      * rewrite lookup_delete_eq, decide_True; [done|set_solver].
      * rewrite lookup_delete_ne, Hg by done. destruct (decide (x ∈ before)), (decide (x ∈ before ++ [l])); set_solver.
    + cbn beta. intros _ s2 (? & ? & H2). split; [done|]. split; [done|]. intros x. by rewrite H2, <-app_assoc.
Qed.

Lemma stop_ok s L n :
  mld_ok s L ->
  wp (mld6_stop mld_mac_filter n) s (fun e s' => e = ERR_OK /\ sends (mw s) (mw s') /\ mld_ok s' (<[nif_num n := []]> L)).
Proof.
  intros Hok. set (k := nif_num n). pose proof (mo_list _ _ Hok k) as Hll. pose proof (llist_NoDup _ _ _ Hll) as Hnd.
  unfold mld6_stop. apply wp_bind. eapply (wp_exec _ _ (data_of k s)); [done|]. apply wp_bind, wp_modify, wp_bind, wp_get.
  cbn [groups]. apply wp_bind.
  eapply wp_mono; [apply (stop_loop n s (<[k := None]> (client_data s)) (groups_of L k) []); [done|apply sends_refl|done|exact Hll|done|]|].
  { pose proof (llist_length _ _ _ Hll). lia. }
  cbn beta. intros _ s' (Hw & Hc & Hg). apply wp_ret. split; [done|]. split; [done|]. cbn [app] in Hg.
  eapply mld_ok_set; [exact Hok| | | | |set_solver|constructor|constructor|].
  - unfold data_of. rewrite Hc, lookup_insert_eq. done.
  - intros j Hj. unfold data_of. by rewrite Hc, lookup_insert_ne.
  - intros j x Hj Hx. rewrite Hg, decide_False; [done|]. intros Hx'. apply Hj. by eapply (mo_apart _ _ Hok).
  - intros x nd. rewrite Hg. destruct (decide _) as [|Hx]; [done|]. intros Hx'. destruct (mo_own _ _ Hok _ _ Hx') as [j Hj].
    right. exists j. split; [congruence|done].
  - etransitivity; [|apply (mo_size _ _ Hok)]. apply map_subseteq_size. apply map_subseteq_spec. intros x nd. rewrite Hg. by destruct (decide _).
Qed.

Lemma tmr_all_ok l : forall s L, Forall netif_sane l -> mld_ok s L ->
  wp (mld6_tmr l) s (fun _ s' => (exists L', mld_ok s' L') /\ sends (mw s) (mw s')).
Proof.
  induction l as [|n l IH]; intros s L Hsane Hok; cbn [mld6_tmr].
  { apply wp_ret. split; [by exists L|apply sends_refl]. }
  apply Forall_cons in Hsane as [Hn Hsane]. apply wp_bind. eapply (wp_exec _ _ (data_of (nif_num n) s)); [done|]. apply wp_bind.
  eapply wp_mono; [apply (wp_over_groups (ticked (fun _ _ => True))); [by intros; eapply ticked_mono| |exact Hok]|].
  - intros s1 L1 l1 l0 g l2 Hok1 E _ Hg. eapply tmr_group_ok; [|done|done|done]. intros. by apply send_any.
  - cbn beta. intros _ s1 (ls & _ & Hok1 & Hw1). eapply wp_mono; [by apply (IH _ _ Hsane Hok1)|]. cbn beta.
    intros _ s2 [? ?]. split; [done|by eapply sends_trans].
Qed.

(** [mld6_joingroup] and [mld6_leavegroup] on every interface the source address means. *)
Lemma join_all_ok l src a : forall s L err, Forall netif_sane l -> ip6_wf a -> mld_ok s L ->
  wp (join_netifs lwip_rand mld_mac_filter l src a err) s (fun _ s' => (exists L', mld_ok s' L') /\ sends (mw s) (mw s')).
Proof.
  induction l as [|n l IH]; intros s L err Hsane Ha Hok; cbn [join_netifs].
  { apply wp_ret. split; [by exists L|apply sends_refl]. }
  apply Forall_cons in Hsane as [Hn Hsane]. apply wp_bind. destruct (selects_ok src n (proj1 Hn)) as [b Hb].
  eapply wp_lift; [exact Hb|]. destruct b; [|by eapply IH]. apply wp_bind.
  eapply wp_mono; [by apply (join_ok lwip_rand mld_mac_filter Hfilter s L n a)|]. cbn beta. intros e s1 He.
  assert ((exists L1, mld_ok s1 L1) /\ sends (mw s) (mw s1)) as [[L1 Hok1] Hw1].
  { destruct (_ || _); [destruct He as (_ & ? & L1 & ? & _); split; [by exists L1|done]|].
    destruct He as [_ ->]. split; [by exists L|apply sends_refl]. }
  destruct (bool_decide _); [apply wp_ret; split; [by exists L1|done]|].
  eapply wp_mono; [by apply (IH s1 L1)|]. cbn beta. intros _ s2 [? ?]. split; [done|by eapply sends_trans].
Qed.

Lemma leave_all_ok l src a : forall s L err, Forall netif_sane l -> mld_ok s L ->
  wp (leave_netifs mld_mac_filter l src a err) s (fun _ s' => (exists L', mld_ok s' L') /\ sends (mw s) (mw s')).
Proof.
  induction l as [|n l IH]; intros s L err Hsane Hok; cbn [leave_netifs].
  { apply wp_ret. split; [by exists L|apply sends_refl]. }
  apply Forall_cons in Hsane as [Hn Hsane]. apply wp_bind. destruct (selects_ok src n (proj1 Hn)) as [b Hb].
  eapply wp_lift; [exact Hb|]. destruct b; [|by eapply IH]. apply wp_bind.
  eapply wp_mono; [by apply (leave_ok mld_mac_filter Hfilter s L n a)|]. cbn beta. intros e s1 He.
  assert ((exists L1, mld_ok s1 L1) /\ sends (mw s) (mw s1)) as [[L1 Hok1] Hw1].
  { destruct (is_member _ _ _); [destruct He as (_ & ? & L1 & ? & _); split; [by exists L1|done]|].
    destruct He as [_ ->]. split; [by exists L|apply sends_refl]. }
  eapply wp_mono; [by apply (IH s1 L1)|]. cbn beta. intros _ s2 [? ?]. split; [done|by eapply sends_trans].
Qed.
End whole.

(** ** What the module promises *)

Section promises.
Context `{Env} `{LowerLayersOk}.
Context (lwip_rand : nat -> Z).
Context (mld_mac_filter : netif -> option (ip6_addr -> Z -> M world unit)).

(** The calls into the module. *)
Inductive mld_op :=
  | JoinNetif (n : netif) (a : ip6_addr)
  | LeaveNetif (n : netif) (a : ip6_addr)
  | Join (l : list netif) (src a : ip6_addr)
  | Leave (l : list netif) (src a : ip6_addr)
  | Tick (l : list netif)
  | Input (p : loc) (n : netif)
  | Report (n : netif)
  | Stop (n : netif).

Definition run_op (o : mld_op) : M mld_world unit :=
  match o with
  | JoinNetif n a => mld6_joingroup_netif lwip_rand mld_mac_filter n a;; mret tt
  | LeaveNetif n a => mld6_leavegroup_netif mld_mac_filter n a;; mret tt
  | Join l src a => mld6_joingroup lwip_rand mld_mac_filter l src a;; mret tt
  | Leave l src a => mld6_leavegroup mld_mac_filter l src a;; mret tt
  | Tick l => mld6_tmr l
  | Input p n => mld6_input lwip_rand p n
  | Report n => mld6_report_groups lwip_rand n
  | Stop n => mld6_stop mld_mac_filter n;; mret tt
  end.

Definition op_allowed (o : mld_op) (s : mld_world) : Prop :=
  match o with
  | JoinNetif n a => netif_sane n /\ ip6_wf a
  | LeaveNetif n a => netif_sane n
  | Join l _ a => Forall netif_sane l /\ ip6_wf a
  | Leave l _ _ | Tick l => Forall netif_sane l
  | Input p _ => exists b bs, owned (mw s) p b bs
  | Report _ | Stop _ => True
  end.

(** The states the module can be in: no group at the start, then its calls, with
    anything happening to the rest of the node between them. *)
Inductive mld_reachable : mld_world -> Prop :=
  | mld_start w : mld_reachable (mk_mld w ∅ ∅)
  | mld_elsewhere s w : mld_reachable s -> mld_reachable (with_world w s)
  | mld_called s o s' : mld_reachable s -> op_allowed o s -> run_op o s = Ret (tt, s') -> mld_reachable s'.

Hypothesis Hfilter : forall n f a act w, mld_mac_filter n = Some f -> wp (f a act) w (fun _ w' => sends w w').

Lemma mld_ok_start w : mld_ok (mk_mld w ∅ ∅) ∅.
Proof.
  assert (Hg : forall k, groups_of ∅ k = []) by done.
  split; intros; rewrite ?Hg in *; cbn [groups] in *; try done; [set_solver|constructor|].
  rewrite map_size_empty. unfold MEMP_NUM_MLD6_GROUP. lia.
Qed.

(** Every call returns, and leaves the groups well formed. *)
Lemma run_op_ok o s L : mld_ok s L -> op_allowed o s -> wp (run_op o) s (fun _ s' => exists L', mld_ok s' L').
Proof.
  intros Hok Ha. destruct o as [n a|n a|l src a|l src a|l|p n|n|n]; cbn [run_op op_allowed] in *.
  - apply wp_bind. eapply wp_mono; [apply (join_ok lwip_rand mld_mac_filter Hfilter s L); [done|apply Ha|apply Ha]|]. cbn beta. intros e s' He. apply wp_ret.
    destruct (_ || _); [by destruct He as (_ & _ & L' & ? & _); exists L'|destruct He as [_ ->]; by exists L].
  - apply wp_bind. eapply wp_mono; [by apply (leave_ok mld_mac_filter Hfilter s L)|]. cbn beta. intros e s' He. apply wp_ret.
    destruct (is_member _ _ _); [by destruct He as (_ & _ & L' & ? & _); exists L'|destruct He as [_ ->]; by exists L].
  - apply wp_bind. eapply wp_mono; [apply (join_all_ok lwip_rand mld_mac_filter Hfilter l src a s L); [apply Ha|apply Ha|done]|]. cbn beta. intros e s' [? _]. by apply wp_ret.
  - apply wp_bind. eapply wp_mono; [by apply (leave_all_ok mld_mac_filter Hfilter l src a s L)|]. cbn beta. intros e s' [? _]. by apply wp_ret.
  - eapply wp_mono; [by apply (tmr_all_ok l s L)|]. by intros _ s' [? _].
  - destruct Ha as (b & bs & Ho). eapply wp_mono; [by apply (input_ok lwip_rand n s L p b bs)|]. cbn beta. intros _ s' (_ & ls & _ & ?). by eexists.
  - eapply wp_mono; [by apply (report_groups_ok lwip_rand s L n)|]. cbn beta. intros _ s' (ls & _ & ? & _). by eexists.
  - apply wp_bind. eapply wp_mono; [by apply (stop_ok lwip_rand mld_mac_filter Hfilter s L n)|]. cbn beta. intros e s' (_ & _ & ?). apply wp_ret. by eexists.
Qed.

Lemma reachable_ok s : mld_reachable s -> exists L, mld_ok s L.
Proof.
  induction 1 as [w|s w _ [L HL]|s o s' _ [L HL] Ha E].
  - exists ∅. apply mld_ok_start.
  - exists L. by apply mld_ok_world.
  - pose proof (run_op_ok o s L HL Ha) as Hw. unfold wp in Hw. by rewrite E in Hw.
Qed.
End promises.

Lemma bump_cons a d b u m :
  bump a d ((b, u) :: m) = (if ip6_addr_cmp b a then (b, u8 (u + d)) else (b, u)) :: bump a d m.
Proof. done. Qed.

(** Joining what is not at its last use is undone by leaving. *)
Lemma parted_joined a m :
  NoDup m.*1 -> Forall (fun x => 1 <= x.2 < 255) m -> parted a (joined a m) = m.
Proof.
  intros Hn Hu. unfold joined. destruct (existsb (is_addr a) m) eqn:Em.
  - unfold parted. assert (Hb : existsb (fun x => is_addr a x && (x.2 <=? 1)) (bump a 1 m) = false /\ bump a (-1) (bump a 1 m) = m).
    { clear Hn Em. induction Hu as [|[b u] m [Hu1 Hu2] _ [IH1 IH2]]; [done|]. cbn [snd] in Hu1, Hu2. rewrite !bump_cons.
      destruct (ip6_addr_cmp b a) eqn:Eb; rewrite bump_cons, IH2, Eb; cbn [existsb fst snd]; unfold is_addr at 1; cbn [fst]; rewrite Eb, IH1.
      - rewrite (u8_small (u + 1)), u8_small by lia. rewrite (proj2 (Z.leb_gt _ 1)) by lia. split; [done|]. do 2 f_equal. lia.
      - done. }
    destruct Hb as [-> ->]. done.
  - unfold parted. cbn [existsb]. unfold is_addr at 1. cbn [fst snd]. rewrite (proj2 (addr_cmp_eq a a) eq_refl). change (1 <=? 1) with true. cbn [andb orb].
    rewrite filter_cons_False by (unfold is_addr; cbn [fst]; by rewrite (proj2 (addr_cmp_eq a a) eq_refl)).
    clear Hn Hu. induction m as [|x m IH]; [done|]. cbn [existsb] in Em. apply orb_false_iff in Em as [E1 E2].
    rewrite filter_cons_True by done. by rewrite IH.
Qed.

(** The use count has eight bits: after 256 joins a single leave drops the group. *)
Lemma use_count_wraps a : Nat.iter 256 (joined a) [] = [(a, 0)] /\ parted a [(a, 0)] = [].
Proof.
  assert (Hc : ip6_addr_cmp a a = true) by by apply addr_cmp_eq.
  assert (Hj : forall u, joined a [(a, u)] = [(a, u8 (u + 1))]).
  { intros u. unfold joined, bump, is_addr. cbn [existsb fmap list_fmap fst snd]. by rewrite Hc. }
  split; [|unfold parted, is_addr; cbn [existsb fst snd]; rewrite Hc; cbn; unfold is_addr; cbn; by rewrite Hc].
  assert (Hi : forall k, Nat.iter (S k) (joined a) [] = [(a, u8 (Z.of_nat (S k)))]); [|apply (Hi 255%nat)].
  induction k as [|k IH]; [done|]. change (joined a (Nat.iter (S k) (joined a) []) = [(a, u8 (Z.of_nat (S (S k))))]). rewrite IH, Hj. unfold u8. do 2 f_equal. rewrite Zplus_mod_idemp_l. f_equal. lia.
Qed.

(** ** The contract of the IPv6 layer

    What ip6.c asks of this module, with the groups as they are in [s]. *)
Section contract.
Context `{Env} `{LowerLayers} (lwip_rand : nat -> Z) (s : mld_world).

(** A call into the module, as the rest of the node sees it. *)
Definition seen {A B} (f : A -> B) (m : M mld_world A) : M world B :=
  fun w => match m (with_world w s) with
           | Ret (a, s') => Ret (f a, mw s')
           | Stuck => Stuck
           | Hang => Hang
           end.

Definition mld_layers : LowerLayers := {|
  output_ip6 := output_ip6;
  Ip6Out.ip6_frag := Ip6Out.ip6_frag;
  nd6_find_route := nd6_find_route;
  nd6_get_destination_mtu := nd6_get_destination_mtu;
  nd6_input := nd6_input;
  Ip6Out.mld6_input := fun p n => seen id (Mld6.mld6_input lwip_rand p n);
  Ip6Out.mld6_lookfor_group := fun n a => seen (fun r => bool_decide (is_Some r)) (Mld6.mld6_lookfor_group n a)
|}.

Lemma wp_seen {A B} (f : A -> B) (m : M mld_world A) w Q :
  wp m (with_world w s) (fun a s' => Q (f a) (mw s')) -> wp (seen f m) w Q.
Proof. unfold wp, seen. destruct (m (with_world w s)) as [[a s']| |]; done. Qed.

Lemma mld_layers_ok `{!LowerLayersOk} L : mld_ok s L -> @LowerLayersOk mld_layers.
Proof.
  intros Hok. split; cbn.
  - apply output_ok.
  - apply frag_ok.
  - apply find_route_ok.
  - apply mtu_ok.
  - intros w n d. apply wp_seen. eapply wp_exec; [by apply (lookfor_exec _ L (nif_num n) (mld_ok_world _ _ w Hok))|]. apply sends_refl.
  - apply nd6_input_ok.
  - intros w n p b bs Ho. apply wp_seen.
    eapply wp_mono; [by apply (input_ok lwip_rand n (with_world w s) L p b bs (mld_ok_world _ _ w Hok))|]. by intros _ s' [Hg _].
Qed.
End contract.

(** ** The claims *)

(** C25: joining and leaving count uses.  On well-formed groups [mld6_joingroup_netif] returns
    [ERR_OK] and adds one use of the address (zoned for the interface), a first use where
    the interface had none, unless that takes a group more than the pool has, when it
    returns [ERR_MEM] and changes nothing; [mld6_leavegroup_netif] takes one use back and
    drops the address with its last, or returns [ERR_VAL] and changes nothing where the
    address is not joined.  The groups of the other interfaces stay. *)
Theorem mld_members `{Env} `{LowerLayersOk} lwip_rand mld_mac_filter s L n a :
  (forall n f a act w, mld_mac_filter n = Some f -> wp (f a act) w (fun _ w' => sends w w')) ->
  mld_ok s L -> ip6_wf a -> netif_sane n ->
  let k := nif_num n in
  let za := zoned n a in
  wp (mld6_joingroup_netif lwip_rand mld_mac_filter n a) s (fun e s' =>
    if is_member za L k || room s then
      e = ERR_OK /\ sends (mw s) (mw s') /\
      exists L', mld_ok s' L' /\ only k L L' /\ members L' k = joined za (members L k)
    else e = ERR_MEM /\ s' = s) /\
  wp (mld6_leavegroup_netif mld_mac_filter n a) s (fun e s' =>
    if is_member za L k then
      e = ERR_OK /\ sends (mw s) (mw s') /\
      exists L', mld_ok s' L' /\ only k L L' /\ members L' k = parted za (members L k)
    else e = ERR_VAL /\ s' = s) /\
  (Forall (fun x => 1 <= x.2 < 255) (members L k) -> parted za (joined za (members L k)) = members L k).
Proof.
  intros Hf Hok Ha Hn k za. split; [by apply join_ok|]. split; [by apply (leave_ok mld_mac_filter)|].
  apply parted_joined. unfold members. rewrite <-list_fmap_compose. apply (mo_addr _ _ Hok k).
Qed.

(** C26: in every state the module can reach, by any sequence of its calls with anything
    happening to the rest of the node between them, the groups are well formed: each
    interface has an acyclic list of its own, no address twice, a timer that runs exactly
    while a report is due, and no more groups than the pool holds; and every further call
    returns. *)
Theorem mld_invariant `{Env} `{LowerLayersOk} lwip_rand mld_mac_filter s o :
  (forall n f a act w, mld_mac_filter n = Some f -> wp (f a act) w (fun _ w' => sends w w')) ->
  mld_reachable lwip_rand mld_mac_filter s -> op_allowed o s ->
  (exists L, mld_ok s L) /\ exists s', run_op lwip_rand mld_mac_filter o s = Ret (tt, s') /\ exists L', mld_ok s' L'.
Proof.
  intros Hf Hr Ha. destruct (reachable_ok lwip_rand mld_mac_filter Hf s Hr) as [L HL]. split; [by exists L|].
  destruct (wp_elim _ _ _ (run_op_ok lwip_rand mld_mac_filter Hf o s L HL Ha)) as ([] & s' & E & ?). by exists s'.
Qed.

(** C27: a router that asks is answered.  After a general query the node writes, for every
    group of the interface that is to be reported, a report to the TUN device within the
    maximum response delay of the query, counted in calls of [mld6_tmr] (at least one),
    whatever the random numbers are; and the report's checksum verifies. *)
Theorem mld_query_answered `{Env} `{LowerLayersOk} lwip_rand n fd src s L p b bs :
  (forall n p d, output_ip6 n p d = tunif_ip6_output (Some n) (Some p) d) ->
  (forall d w, nd6_get_destination_mtu d n w = Ret (nif_mtu6 n, w)) ->
  (forall t k, env_write t k = Written k) -> (forall t, env_mem_malloc t = true) ->
  nif_state n = Some fd -> netif_sane n -> 72 <= nif_mtu6 n -> mld_source n = Ret src ->
  mld_ok s L -> owned (mw s) p b bs ->
  (24 <= length bs)%nat -> byte_at 0 bs = ICMP6_TYPE_MLQ -> general_query (w_cur_dest (mw s)) bs = true ->
  wp (mld6_input lwip_rand p n;; ticks n (Z.to_nat (Z.max 1 (query_delay bs / MLD6_TMR_MS)))) s (fun _ s' =>
    forall a u, (a, u) ∈ members L (nif_num n) -> exempt a = false ->
      EvTunWrite fd (report_packet src a) ∈ w_trace (mw s')) /\
  forall a u h q lq, (a, u) ∈ members L (nif_num n) -> pkt h q lq (mld_message ICMP6_TYPE_MLR src a) ->
    ip6_chksum_pseudo h (Some q) IP6_NEXTH_ICMP6 24 src a = Ret 0.
Proof.
  intros Hout Hmtu Hwrite Hmem Hfd Hn Hm6 Hsrc Hok Ho Hl Hty Hgq. split.
  - apply wp_bind. eapply wp_mono; [by apply (input_ok lwip_rand n s L p b bs)|]. cbn beta. intros _ s1 (_ & ls & HF & Hok1).
    eapply wp_mono; [apply (ticks_ok n (on_tun fd src) (on_tun_mono fd src)); [by intros; apply send_tun|exact Hok1]|].
    cbn beta. intros _ s2 (_ & _ & Hs2) a u Hin Hex. rewrite groups_of_insert in Hs2.
    apply list_elem_of_fmap in Hin as ([l g] & [= -> ->] & Hin). apply list_elem_of_lookup in Hin as [i Hi].
    destruct (Forall2_lookup_l _ _ _ _ _ HF Hi) as ([l' g'] & Hi' & _ & Hh). apply list_elem_of_lookup_2 in Hi'. cbn [snd] in Hh.
    unfold heard in Hh. rewrite (proj2 (Nat.ltb_ge _ _)), Hty, Hgq in Hh by lia. cbn [snd] in Hex. rewrite Hex in Hh.
    destruct Hh as (Hg' & Ht & _). cbn [snd]. replace (group_address g) with (group_address g') by (by rewrite Hg').
    apply (Hs2 l' g' Hi'). lia.
  - intros a u h q lq Hin Hp. destruct (mld_source_ok n Hn) as (src' & Hs' & Hsw). rewrite Hsrc in Hs'. injection Hs' as <-.
    apply list_elem_of_fmap in Hin as ([l g] & [= -> ->] & Hin). cbn [snd] in *.
    assert (Hg : good_group g) by (pose proof (mo_good _ _ Hok (nif_num n)) as Hg; rewrite Forall_forall in Hg; apply (Hg _ Hin)).
    refine (with_checksum_verifies src (group_address g) ([ICMP6_TYPE_MLR; 0; 0; 0; 0; 0; 0; 0] ++ ip6_bytes (group_address g)) h q lq _ _ Hsw (gg_addr _ Hg) _ Hp); [cbn; lia| |done].
    apply Forall_app_2; [repeat constructor; by vm_compute|apply ip6_bytes_byte].
Qed.

(** ** Concrete runs *)

Lemma mld_ok_one w k g :
  good_group g -> mld_ok (mk_mld w {[1%positive := Node g None]} {[k := Some 1%positive]}) {[k := [(1%positive, g)]]}.
Proof.
  intros Hg. assert (Hk : forall j, j = k /\ groups_of {[k := [(1%positive, g)]]} j = [(1%positive, g)] \/ j <> k /\ groups_of {[k := [(1%positive, g)]]} j = []).
  { intros j. unfold groups_of. destruct (decide (j = k)) as [->|Hj]; [left|right]; split; try done.
    - by rewrite lookup_singleton_eq.
    - by rewrite lookup_singleton_ne. }
  split; cbn [groups].
  - intros j. unfold data_of. cbn [client_data]. destruct (Hk j) as [[-> ->]|[Hj ->]].
    + rewrite lookup_singleton_eq. cbn. split; [done|]. exists None. by rewrite lookup_singleton_eq.
    + by rewrite lookup_singleton_ne.
  - intros l nd [<- _]%lookup_singleton_Some. exists k. destruct (Hk k) as [[_ ->]|[? _]]; [apply list_elem_of_here|done].
  - intros i j l. destruct (Hk i) as [[-> ->]|[Hi ->]], (Hk j) as [[-> ->]|[Hj ->]]; set_solver.
  - intros j. destruct (Hk j) as [[_ ->]|[_ ->]]; [apply NoDup_singleton|constructor].
  - intros j. destruct (Hk j) as [[_ ->]|[_ ->]]; [by apply Forall_singleton|constructor].
  - rewrite map_size_singleton. unfold MEMP_NUM_MLD6_GROUP. lia.
Qed.

(** The group ff02::1:ff00:2 on the TUN interface, and a query that gives ten seconds. *)
Definition all_nodes : ip6_addr := ip6_of_bytes [255; 2; 0; 0; 0; 0; 0; 0; 0; 0; 0; 0; 0; 0; 0; 1].
Definition some_group : ip6_addr := ip6_of_bytes [255; 2; 0; 0; 0; 0; 0; 0; 0; 0; 0; 1; 255; 0; 0; 2].
Definition ten_seconds : list Z := [130; 0; 0; 0; 39; 16; 0; 0] ++ replicate 16 0.
Definition one_use : mld_group := mk_group (zoned (tun_configured 3) some_group) 0 MLD6_GROUP_IDLE_MEMBER 0 1.
Definition one_member : mld_world :=
  mk_mld (set_current ip6_addr_any all_nodes (tun_world ten_seconds)) {[1%positive := Node one_use None]}
    {[nif_num (tun_configured 3) := Some 1%positive]}.

Lemma one_use_good : good_group one_use.
Proof. split; [by vm_compute|by left|by left|by vm_compute]. Qed.

Lemma one_member_ok : mld_ok one_member {[nif_num (tun_configured 3) := [(1%positive, one_use)]]}.
Proof. apply mld_ok_one, one_use_good. Qed.

Lemma ten_seconds_owned : owned (mw one_member) 1%positive (tun_pbuf ten_seconds) ten_seconds.
Proof. apply tun_owned; [decided|by vm_compute]. Qed.

Lemma mld_members_witness :
  wp (@mld6_leavegroup_netif calm_env (@tun_layers calm_env) (fun _ => None) (tun_configured 3) some_group) one_member
    (fun e s' => e = ERR_OK /\ exists L', mld_ok s' L' /\ members L' (nif_num (tun_configured 3)) = []).
Proof.
  eapply wp_mono.
  - refine (proj1 (proj2 (@mld_members calm_env _ (@tun_layers_ok calm_env) (fun _ => 7) (fun _ => None) one_member _ (tun_configured 3) some_group
      _ one_member_ok _ (tun_configured_sane 3)))); [discriminate|by vm_compute].
  - cbn beta. change (is_member _ _ _) with true. intros e s' (He & _ & L' & Hok & _ & Hm). split; [exact He|].
    exists L'. split; [exact Hok|exact Hm].
Defined.

Lemma mld_invariant_witness :
  exists s', @run_op calm_env (@tun_layers calm_env) (fun _ => 7) (fun _ => None) (JoinNetif (tun_configured 3) some_group)
    (mk_mld (tun_world []) ∅ ∅) = Ret (tt, s').
Proof.
  destruct (@mld_invariant calm_env _ (@tun_layers_ok calm_env) (fun _ => 7) (fun _ => None) (mk_mld (tun_world []) ∅ ∅)
    (JoinNetif (tun_configured 3) some_group)) as [_ (s' & E & _)].
  - discriminate.
  - apply mld_start.
  - split; [apply tun_configured_sane|by vm_compute].
  - exists s'. exact E.
Defined.

(** The link-local address of the node. *)
Definition tun_source : ip6_addr := mk_ip6 33022 0 4278190082 254 1.

Lemma mld_query_answered_witness :
  wp (mld6_input (fun _ => 7) 1%positive (tun_configured 3);; @ticks calm_env (@tun_layers calm_env) (tun_configured 3) 100) one_member
    (fun _ s' => EvTunWrite 3 (report_packet tun_source (zoned (tun_configured 3) some_group)) ∈ w_trace (mw s')).
Proof.
  eapply wp_mono.
  - refine (proj1 (@mld_query_answered calm_env _ (@tun_layers_ok calm_env) (fun _ => 7) (tun_configured 3) 3 tun_source one_member _
      1%positive _ ten_seconds _ _ _ _ _ (tun_configured_sane 3) _ _ one_member_ok ten_seconds_owned _ _ _)).
    + reflexivity.
    + reflexivity.
    + reflexivity.
    + reflexivity.
    + reflexivity.
    + by vm_compute.
    + reflexivity.
    + vm_compute. lia.
    + reflexivity.
    + reflexivity.
  - cbn beta. intros _ s' Hs. eapply (Hs _ 1); [apply list_elem_of_here|by vm_compute].
Defined.
