(* ===== verification/Nd6Inv.v ===== *)
(** * Neighbour discovery: the tables stay well formed

    The invariant of the tables of [Nd6] and of the interfaces, and that the functions
    of [Nd6] return and keep it. *)

From S2P Require Import Prelude LinkedList Ip6Addr World Netif Pbuf Ip6Hdr Custody Buffer InetChksum RawSocket Ip6Out Icmp6 Ip6In Ip6Spec Mld6 Nd6 Nd6Send.

(** ** The invariant *)

Definition u32_ok (x : Z) : Prop := 0 <= x < 4294967296.

(** An entry of the neighbour cache; [ks] are the numbers of the interfaces.  The states
    looked at are those in which no packet waits for an address to be resolved: the TUN
    interface resolves none, and [Nd6Spec.nd_reachable] stops where one would wait. *)
Record neighbor_ok (ks : list Z) (e : nd6_neighbor_cache_entry) : Prop := {
  nb_addr : ip6_wf (next_hop_address e);
  nb_netif k : nc_netif e = Some k -> k ∈ ks;
  nb_active : nc_state e <> ND6_NO_ENTRY -> is_Some (nc_netif e);
  nb_unused : nc_state e = ND6_NO_ENTRY -> next_hop_address e = ip6_addr_any /\ isrouter e = 0;
  nb_q : nc_q e = None;
  nb_lladdr : length (lladdr e) = 6%nat;
  nb_counter : u32_ok (counter e);
  nb_router : isrouter e = 0 \/ isrouter e = 1
}.

Record destination_ok (d : nd6_destination_cache_entry) : Prop := {
  ds_addr : ip6_wf (destination_addr d);
  ds_next : ip6_wf (next_hop_addr d);
  ds_pmtu : 0 <= pmtu d < 65536;
  ds_idx : (cached_neighbor_idx d < LWIP_ND6_NUM_NEIGHBORS)%nat;
  ds_age : u32_ok (age d)
}.

Record prefix_ok (ks : list Z) (e : nd6_prefix_list_entry) : Prop := {
  px_addr : ip6_wf (prefix e);
  px_netif k : pl_netif e = Some k -> k ∈ ks;
  px_timer : u32_ok (pl_timer e)
}.

(** No two neighbours have the same address, but for the unspecified one. *)
Definition distinct_neighbors (c : list nd6_neighbor_cache_entry) : Prop :=
  forall i j e e', c !! i = Some e -> c !! j = Some e' -> next_hop_address e = next_hop_address e' ->
    i = j \/ next_hop_address e = ip6_addr_any.

(** The default routers are exactly the neighbours that are marked as routers, each once. *)
Record routers_ok (rs : list nd6_router_list_entry) (c : list nd6_neighbor_cache_entry) : Prop := {
  ro_once i i' r r' j : rs !! i = Some r -> rs !! i' = Some r' -> neighbor_entry r = Some j -> neighbor_entry r' = Some j -> i = i';
  ro_marked i r j : rs !! i = Some r -> neighbor_entry r = Some j -> exists e, c !! j = Some e /\ isrouter e = 1;
  ro_listed j e : c !! j = Some e -> isrouter e = 1 -> exists i r, rs !! i = Some r /\ neighbor_entry r = Some j;
  ro_timer : Forall (fun r => u32_ok (rl_timer r)) rs
}.

Record tables_ok (ks : list Z) (t : nd_state) : Prop := {
  to_neighbors_len : length (neighbor_cache t) = LWIP_ND6_NUM_NEIGHBORS;
  to_destinations_len : length (destination_cache t) = LWIP_ND6_NUM_DESTINATIONS;
  to_prefixes_len : length (prefix_list t) = LWIP_ND6_NUM_PREFIXES;
  to_routers_len : length (default_router_list t) = LWIP_ND6_NUM_ROUTERS;
  to_neighbors : Forall (neighbor_ok ks) (neighbor_cache t);
  to_distinct : distinct_neighbors (neighbor_cache t);
  to_routers : routers_ok (default_router_list t) (neighbor_cache t);
  to_destinations : Forall destination_ok (destination_cache t);
  to_prefixes : Forall (prefix_ok ks) (prefix_list t);
  to_cached : (nd6_cached_destination_index t < LWIP_ND6_NUM_DESTINATIONS)%nat;
  to_last : (last_router t < LWIP_ND6_NUM_ROUTERS)%nat;
  to_reach : u32_ok (reachable_time t);
  to_retrans : u32_ok (retrans_timer t);
  to_reduction : 0 <= nd6_tmr_rs_reduction t < 256
}.

Record nd_netif_ok (x : nd_netif) : Prop := {
  nn_sane : netif_sane (ndn x);
  nn_pref : length (ip6_addr_pref_life (ndn x)) = LWIP_IPV6_NUM_ADDRESSES;
  nn_valid_life : Forall u32_ok (ip6_addr_valid_life (ndn x));
  nn_pref_life : Forall u32_ok (ip6_addr_pref_life (ndn x));
  nn_hw : hwaddr_ok (ndn x);
  nn_mtu : 0 <= nif_mtu (ndn x) < 65536 /\ 0 <= nif_mtu6 (ndn x) < 65536;
  nn_rs : 0 <= rs_count x < 256
}.

Definition numbers (s : nd_world) : list Z := (fun x => nif_num (ndn x)) <$> nd_netifs s.

Record nd_ok (s : nd_world) : Prop := {
  no_tables : tables_ok (numbers s) (nds s);
  no_netifs : Forall nd_netif_ok (nd_netifs s);
  no_numbers : NoDup (numbers s);
  no_mld : exists L, mld_ok (nd_mld s) L
}.

(** ** Operations on well-formed tables *)

Section tables.
Context (ks : list Z) (t : nd_state) (Ht : tables_ok ks t).

Lemma neighbor_lookup i : (i < LWIP_ND6_NUM_NEIGHBORS)%nat -> exists e, neighbor_cache t !! i = Some e.
Proof. intros Hi. apply lookup_lt_is_Some. rewrite (to_neighbors_len _ _ Ht). exact Hi. Qed.
Lemma neighbor_bound i e : neighbor_cache t !! i = Some e -> (i < LWIP_ND6_NUM_NEIGHBORS)%nat.
Proof. intros Hi. apply lookup_lt_Some in Hi. by rewrite (to_neighbors_len _ _ Ht) in Hi. Qed.
Lemma neighbor_entry_ok i e : neighbor_cache t !! i = Some e -> neighbor_ok ks e.
Proof. apply Forall_lookup_1, Ht. Qed.
Lemma destination_lookup i : (i < LWIP_ND6_NUM_DESTINATIONS)%nat -> exists d, destination_cache t !! i = Some d.
Proof. intros Hi. apply lookup_lt_is_Some. rewrite (to_destinations_len _ _ Ht). exact Hi. Qed.

(** A changed neighbour. *)
Lemma set_neighbor_ok i e e' :
  neighbor_cache t !! i = Some e -> neighbor_ok ks e' -> isrouter e' = isrouter e ->
  (next_hop_address e' = next_hop_address e \/ next_hop_address e' = ip6_addr_any \/
   forall j e1, neighbor_cache t !! j = Some e1 -> next_hop_address e1 <> next_hop_address e') ->
  tables_ok ks (with_neighbors (<[i := e']> (neighbor_cache t)) t).
Proof.
  intros Hi He' Hr Ha. destruct Ht as [L1 L2 L3 L4 Hn Hd Ho]. split; cbn; try done.
  - by rewrite length_insert.
  - by apply Forall_insert.
  - intros j1 j2 e1 e2 H1 H2 E.
    apply list_lookup_insert_Some in H1 as [(<- & <- & _)|[N1 H1]]; apply list_lookup_insert_Some in H2 as [(<- & <- & _)|[N2 H2]].
    + by left.
    + destruct Ha as [Ha|[Ha|Ha]]; [|by right|by edestruct Ha].
      destruct (Hd i j2 e e2 Hi H2) as [?|?]; [congruence|by left|right; congruence].
    + destruct Ha as [Ha|[Ha|Ha]]; [|right; congruence|by edestruct Ha].
      destruct (Hd j1 i e1 e H1 Hi) as [?|?]; [congruence|by left|by right].
    + by apply (Hd j1 j2 e1 e2).
  - destruct Ho as [R1 R2 R3 R4]. split; [done| | |done].
    + intros j r n Hj Hn'. destruct (R2 j r n Hj Hn') as (e1 & He1 & Hm). destruct (decide (i = n)) as [<-|Hin].
      * exists e'. rewrite list_lookup_insert_eq by (by eapply lookup_lt_Some). split; [done|congruence].
      * exists e1. by rewrite list_lookup_insert_ne.
    + intros j e1 [(<- & <- & _)|[N1 H1]]%list_lookup_insert_Some Hm; [by apply (R3 i e); [|congruence]|by apply (R3 j e1)].
Qed.

(** A list of which every entry is as it should be. *)
Lemma set_destinations_ok l :
  length l = LWIP_ND6_NUM_DESTINATIONS -> Forall destination_ok l -> tables_ok ks (with_destinations l t).
Proof. intros. destruct Ht. by split. Qed.
Lemma set_prefixes_ok l : length l = LWIP_ND6_NUM_PREFIXES -> Forall (prefix_ok ks) l -> tables_ok ks (with_prefixes l t).
Proof. intros. destruct Ht. by split. Qed.
Lemma set_routers_ok l :
  length l = LWIP_ND6_NUM_ROUTERS -> neighbor_entry <$> l = neighbor_entry <$> default_router_list t ->
  Forall (fun r => u32_ok (rl_timer r)) l -> tables_ok ks (with_routers l t).
Proof.
  intros Hl E Hr. destruct Ht as [L1 L2 L3 L4 Hn Hd [R1 R2 R3 R4]]. split; cbn; try done.
  assert (Hback : forall i r, l !! i = Some r -> exists r', default_router_list t !! i = Some r' /\ neighbor_entry r' = neighbor_entry r).
  { intros i r Hi. assert (Hi' : (neighbor_entry <$> l) !! i = Some (neighbor_entry r)) by (by rewrite list_lookup_fmap, Hi).
    rewrite E, list_lookup_fmap in Hi'. destruct (default_router_list t !! i) as [r'|]; [|done]. exists r'. split; [done|]. by injection Hi'. }
  split; [| | |done].
  - intros i i' r r' j H1 H2 E1 E2. destruct (Hback _ _ H1) as (x & Hx & ?), (Hback _ _ H2) as (y & Hy & ?). eapply (R1 i i' x y j); congruence.
  - intros i r j H1 E1. destruct (Hback _ _ H1) as (x & Hx & ?). eapply (R2 i x j); congruence.
  - intros j e Hj Hm. destruct (R3 j e Hj Hm) as (i & r & Hi & Hj').
    assert (Hi' : (neighbor_entry <$> default_router_list t) !! i = Some (Some j)) by (by rewrite list_lookup_fmap, Hi, <-Hj').
    rewrite <-E, list_lookup_fmap in Hi'. destruct (l !! i) as [r'|] eqn:Hr'; [|done]. exists i, r'. split; [done|]. by injection Hi'.
Qed.

(** A neighbour becomes a default router. *)
Lemma mark_router_ok i e r x :
  neighbor_cache t !! i = Some e -> nc_state e <> ND6_NO_ENTRY -> isrouter e = 0 ->
  default_router_list t !! r = Some x -> neighbor_entry x = None ->
  tables_ok ks (with_routers (<[r := mk_router (Some i) (rl_timer x) (rl_flags x)]> (default_router_list t))
    (with_neighbors (<[i := with_isrouter 1 e]> (neighbor_cache t)) t)).
Proof.
  intros Hi Hst He Hr Hx. pose proof (neighbor_entry_ok _ _ Hi) as He0. destruct Ht as [L1 L2 L3 L4 Hn Hd [R1 R2 R3 R4]].
  assert (Hno : forall i' r', default_router_list t !! i' = Some r' -> neighbor_entry r' <> Some i).
  { intros i' r' H1 H2. destruct (R2 _ _ _ H1 H2) as (e1 & He1 & Hm). congruence. }
  split; cbn; try done; rewrite ?length_insert; try done.
  - apply Forall_insert; [done|]. destruct He0. split; cbn; auto. by intros ?.
  - intros j1 j2 e1 e2 H1 H2 E.
    apply list_lookup_insert_Some in H1 as [(<- & <- & _)|[N1 H1]]; apply list_lookup_insert_Some in H2 as [(<- & <- & _)|[N2 H2]];
      [by left|by apply (Hd i j2 e e2)|by apply (Hd j1 i e1 e)|by apply (Hd j1 j2 e1 e2)].
  - split.
    + intros i1 i2 r1 r2 j H1 H2 E1 E2.
      apply list_lookup_insert_Some in H1 as [(<- & <- & _)|[N1 H1]]; apply list_lookup_insert_Some in H2 as [(<- & <- & _)|[N2 H2]].
      * done.
      * cbn in E1. injection E1 as <-. by destruct (Hno _ _ H2).
      * cbn in E2. injection E2 as <-. by destruct (Hno _ _ H1).
      * by apply (R1 i1 i2 r1 r2 j).
    + intros i1 r1 j [(<- & <- & _)|[N1 H1]]%list_lookup_insert_Some E1.
      * cbn in E1. injection E1 as <-. exists (with_isrouter 1 e). by rewrite list_lookup_insert_eq by (by eapply lookup_lt_Some).
      * destruct (R2 _ _ _ H1 E1) as (e1 & He1 & Hm). exists e1. rewrite list_lookup_insert_ne; [done|]. intros <-. by destruct (Hno _ _ H1).
    + intros j e1 [(<- & <- & _)|[N1 H1]]%list_lookup_insert_Some Hm.
      * exists r. eexists. by rewrite list_lookup_insert_eq by (by eapply lookup_lt_Some).
      * destruct (R3 _ _ H1 Hm) as (i1 & r1 & Hi1 & Hr1). exists i1, r1. rewrite list_lookup_insert_ne; [done|]. intros <-. congruence.
    + apply Forall_insert; [done|]. by apply (Forall_lookup_1 _ _ _ _ R4 Hr).
Qed.

(** A router becomes a plain neighbour; [rs] is the list of routers without it. *)
Lemma unmark_router_ok i e rs :
  neighbor_cache t !! i = Some e -> length rs = length (default_router_list t) ->
  (forall r x, rs !! r = Some x -> exists y, default_router_list t !! r = Some y /\ u32_ok (rl_timer x) /\
     neighbor_entry x = if decide (neighbor_entry y = Some i) then None else neighbor_entry y) ->
  tables_ok ks (with_routers rs (with_neighbors (<[i := with_isrouter 0 e]> (neighbor_cache t)) t)).
Proof.
  intros Hi Hl Hrs. pose proof (neighbor_entry_ok _ _ Hi) as He0. destruct Ht as [L1 L2 L3 L4 Hn Hd [R1 R2 R3 R4]].
  assert (Hback : forall r x j, rs !! r = Some x -> neighbor_entry x = Some j ->
    j <> i /\ exists y, default_router_list t !! r = Some y /\ neighbor_entry y = Some j).
  { intros r x j Hr Hx. destruct (Hrs _ _ Hr) as (y & Hy & _ & E). rewrite Hx in E. destruct (decide _) as [|N]; [done|].
    split; [intros ->; congruence|by exists y]. }
  split; cbn; try done; rewrite ?length_insert, ?Hl; try done.
  - apply Forall_insert; [done|]. destruct He0. split; cbn; auto. intros E. split; [by apply nb_unused0|done].
  - intros j1 j2 e1 e2 H1 H2 E.
    apply list_lookup_insert_Some in H1 as [(<- & <- & _)|[N1 H1]]; apply list_lookup_insert_Some in H2 as [(<- & <- & _)|[N2 H2]];
      [by left|by apply (Hd i j2 e e2)|by apply (Hd j1 i e1 e)|by apply (Hd j1 j2 e1 e2)].
  - split.
    + intros i1 i2 r1 r2 j H1 H2 E1 E2. destruct (Hback _ _ _ H1 E1) as (_ & y1 & ? & ?), (Hback _ _ _ H2 E2) as (_ & y2 & ? & ?).
      by apply (R1 i1 i2 y1 y2 j).
    + intros i1 r1 j H1 E1. destruct (Hback _ _ _ H1 E1) as (Hj & y & Hy & Ey). rewrite list_lookup_insert_ne by done. by apply (R2 i1 y j).
    + intros j e1 [(<- & <- & _)|[N1 H1]]%list_lookup_insert_Some Hm; [done|].
      destruct (R3 _ _ H1 Hm) as (i1 & r1 & Hi1 & Hr1). destruct (lookup_lt_is_Some_2 rs i1) as [x Hx]; [rewrite Hl; by eapply lookup_lt_Some|].
      destruct (Hrs _ _ Hx) as (y & Hy & _ & E). exists i1, x. split; [done|]. rewrite E. replace y with r1 by congruence.
      rewrite decide_False; [done|congruence].
    + apply Forall_lookup. intros r x Hx. by destruct (Hrs _ _ Hx) as (y & _ & ? & _).
Qed.
End tables.

(** ** Steps that keep the invariant *)

(** What the rest of the node sees: output, and the same interfaces. *)
Definition link (x : nd_netif) : Z * Z := (nif_num (ndn x), nif_hwaddr_len (ndn x)).
Definition evolves (s s' : nd_world) : Prop := sends (host s) (host s') /\ link <$> nd_netifs s' = link <$> nd_netifs s.

Lemma numbers_link s : numbers s = fst <$> (link <$> nd_netifs s).
Proof. unfold numbers. by rewrite <-list_fmap_compose. Qed.
Lemma evolves_num s s' : evolves s s' -> numbers s' = numbers s.
Proof. intros [_ E]. by rewrite !numbers_link, E. Qed.
Lemma evolves_refl s : evolves s s.
Proof. split; [apply sends_refl|done]. Qed.
Lemma evolves_trans s1 s2 s3 : evolves s1 s2 -> evolves s2 s3 -> evolves s1 s3.
Proof. intros [? E1] [? E2]. split; [by eapply sends_trans|congruence]. Qed.
Create HintDb nd.
#[export] Hint Resolve evolves_refl : nd.

(** [m] returns, keeps the invariant, and its result has [P]. *)
Definition ok {A} (m : M nd_world A) (s : nd_world) (P : A -> nd_world -> Prop) : Prop :=
  wp m s (fun a s' => nd_ok s' /\ evolves s s' /\ P a s').
(** No matter what the result is. *)
Definition fine {A} (m : M nd_world A) (s : nd_world) : Prop := ok m s (fun _ _ => True).

Section rules.
Context {A B : Type}.
Implicit Types (m : M nd_world A) (f : A -> M nd_world B) (s : nd_world).

Lemma ok_ret (a : A) s (P : A -> nd_world -> Prop) : nd_ok s -> P a s -> ok (mret a) s P.
Proof. intros. apply wp_ret. auto with nd. Qed.
Lemma ok_mono m s (P P' : A -> nd_world -> Prop) :
  ok m s P -> (forall a s', nd_ok s' -> evolves s s' -> P a s' -> P' a s') -> ok m s P'.
Proof. intros Hm HP. eapply wp_mono; [exact Hm|]. cbn beta. intros a s' (? & ? & ?). auto. Qed.
Lemma ok_bind m f s (P : A -> nd_world -> Prop) (P' : B -> nd_world -> Prop) :
  ok m s P -> (forall a s', nd_ok s' -> evolves s s' -> P a s' -> ok (f a) s' P') -> ok (m ≫= f) s P'.
Proof.
  intros Hm Hf. apply wp_bind. eapply wp_mono; [exact Hm|]. cbn beta. intros a s1 (Hok & Hev & HP).
  eapply wp_mono; [by apply Hf|]. cbn beta. intros b s2 (? & ? & ?). split; [done|]. split; [by eapply evolves_trans|done].
Qed.
(** A step that only reads. *)
Lemma ok_read m f s a (P' : B -> nd_world -> Prop) :
  m s = Ret (a, s) -> ok (f a) s P' -> ok (m ≫= f) s P'.
Proof. intros E Hf. apply wp_bind. by eapply wp_exec. Qed.
Lemma ok_get_nd (f : nd_state -> M nd_world B) s P' : ok (f (nds s)) s P' -> ok (get_nd ≫= f) s P'.
Proof. intros Hf. apply wp_bind. exact Hf. Qed.
Lemma ok_lift (o : outcome A) f a s P' : o = Ret a -> ok (f a) s P' -> ok (lift o ≫= f) s P'.
Proof. intros -> Hf. apply wp_bind. exact Hf. Qed.
Lemma ok_exec m s a s' (P : A -> nd_world -> Prop) : m s = Ret (a, s') -> nd_ok s' -> evolves s s' -> P a s' -> ok m s P.
Proof. intros E ? ? ?. by eapply wp_exec. Qed.
End rules.
Lemma fine_any {A} (m : M nd_world A) s P : ok m s P -> fine m s.
Proof. intros Hm. by eapply ok_mono. Qed.

Lemma fine_seq {A B} (m : M nd_world A) (f : A -> M nd_world B) s P :
  fine m s -> (forall a s', nd_ok s' -> evolves s s' -> ok (f a) s' P) -> ok (m ≫= f) s P.
Proof. intros Hm Hf. eapply ok_bind; [exact Hm|]. intros. by apply Hf. Qed.
Lemma fine_if {A} (b : bool) (m m' : M nd_world A) s P :
  (b = true -> ok m s P) -> (b = false -> ok m' s P) -> ok (if b then m else m') s P.
Proof. destruct b; auto. Qed.

(** *** Reading *)

Lemma neighbor_exec s i e : neighbor_cache (nds s) !! i = Some e -> neighbor i s = Ret (e, s).
Proof. intros E. unfold neighbor, get_nd, gets, mbind, M_bind, lift. by rewrite E. Qed.
Lemma destination_exec s i d : destination_cache (nds s) !! i = Some d -> destination i s = Ret (d, s).
Proof. intros E. unfold destination, get_nd, gets, mbind, M_bind, lift. by rewrite E. Qed.
Lemma find_nd_num k l x : find_nd k l = Some x -> x ∈ l /\ nif_num (ndn x) = k.
Proof.
  unfold find_nd. destruct (list_find _ l) as [[i y]|] eqn:E; [|done]. intros [= ->]. apply list_find_Some in E as (E & Hk & _).
  split; [by eapply list_elem_of_lookup_2|done].
Qed.
Lemma find_nd_some k l : k ∈ (fun x => nif_num (ndn x)) <$> l -> exists x, find_nd k l = Some x.
Proof.
  intros (x & -> & Hx)%list_elem_of_fmap. unfold find_nd. destruct (list_find _ l) as [[i y]|] eqn:E; [by exists y|].
  apply list_find_None in E. rewrite Forall_forall in E. by destruct (E x).
Qed.
Lemma netif_at_exec s k x : find_nd k (nd_netifs s) = Some x -> netif_at k s = Ret (x, s).
Proof. intros E. unfold netif_at, get, mbind, M_bind, lift. by rewrite E. Qed.

Section reading.
Context {B : Type}.
Implicit Types (s : nd_world) (P : B -> nd_world -> Prop).

Lemma ok_neighbor s i (f : _ -> M nd_world B) P :
  nd_ok s -> (i < LWIP_ND6_NUM_NEIGHBORS)%nat ->
  (forall e, neighbor_cache (nds s) !! i = Some e -> neighbor_ok (numbers s) e -> ok (f e) s P) -> ok (neighbor i ≫= f) s P.
Proof.
  intros Hok Hi Hf. destruct (neighbor_lookup _ _ (no_tables _ Hok) i Hi) as [e He].
  eapply ok_read; [by apply neighbor_exec|]. apply Hf; [done|]. by eapply neighbor_entry_ok; [apply Hok|].
Qed.
Lemma ok_destination s i (f : _ -> M nd_world B) P :
  nd_ok s -> (i < LWIP_ND6_NUM_DESTINATIONS)%nat ->
  (forall d, destination_cache (nds s) !! i = Some d -> destination_ok d -> ok (f d) s P) -> ok (destination i ≫= f) s P.
Proof.
  intros Hok Hi Hf. destruct (destination_lookup _ _ (no_tables _ Hok) i Hi) as [d Hd].
  eapply ok_read; [by apply destination_exec|]. apply Hf; [done|]. apply (Forall_lookup_1 _ _ _ _ (to_destinations _ _ (no_tables _ Hok)) Hd).
Qed.
Lemma ok_netif_at s k (f : _ -> M nd_world B) P :
  nd_ok s -> k ∈ numbers s ->
  (forall x, find_nd k (nd_netifs s) = Some x -> x ∈ nd_netifs s -> nif_num (ndn x) = k -> nd_netif_ok x -> ok (f x) s P) ->
  ok (netif_at k ≫= f) s P.
Proof.
  intros Hok Hk Hf. destruct (find_nd_some k _ Hk) as [x Hx]. destruct (find_nd_num _ _ _ Hx) as [Hin Hnum].
  eapply ok_read; [by apply netif_at_exec|]. apply Hf; [done..|]. pose proof (no_netifs _ Hok) as Hall. rewrite Forall_forall in Hall. by apply Hall.
Qed.
(** Reading from the node. *)
Lemma ok_node_read {A} (m : M world A) a s (f : A -> M nd_world B) P :
  m (host s) = Ret (a, host s) -> ok (f a) s P -> ok (in_node m ≫= f) s P.
Proof.
  intros E Hf. apply wp_bind, wp_in_node. eapply wp_exec; [exact E|]. rewrite put_host_id. exact Hf.
Qed.
End reading.

(** *** Writing *)

Definition put_nds (t : nd_state) (s : nd_world) : nd_world := mk_nd (nd_mld s) (nd_netifs s) t.
Definition put_netifs (l : list nd_netif) (s : nd_world) : nd_world := mk_nd (nd_mld s) l (nds s).

Lemma put_nds_ok t s : nd_ok s -> tables_ok (numbers s) t -> nd_ok (put_nds t s).
Proof. intros [? ? ? ?] Ht. by split. Qed.
Lemma put_nds_evolves t s : evolves s (put_nds t s).
Proof. split; [apply sends_refl|done]. Qed.
#[export] Hint Resolve put_nds_ok put_nds_evolves : nd.

Lemma ok_modify_nd g s (P : unit -> nd_world -> Prop) :
  nd_ok s -> tables_ok (numbers s) (g (nds s)) -> P tt (put_nds (g (nds s)) s) -> ok (modify_nd g) s P.
Proof. intros. eapply ok_exec; [done| |by apply put_nds_evolves|done]. by apply put_nds_ok. Qed.

Lemma alter_some {A} (f : A -> A) (i : nat) (l : list A) x : l !! i = Some x -> alter f i l = <[i := f x]> l.
Proof.
  intros E. apply list_eq. intros j. destruct (decide (i = j)) as [<-|N].
  - rewrite list_lookup_alter_eq, E, list_lookup_insert_eq by (by eapply lookup_lt_Some). done.
  - by rewrite list_lookup_alter_ne, list_lookup_insert_ne.
Qed.
Lemma upd_neighbor_exec s i f e :
  neighbor_cache (nds s) !! i = Some e ->
  upd_neighbor i f s = Ret (tt, put_nds (with_neighbors (<[i := f e]> (neighbor_cache (nds s))) (nds s)) s).
Proof.
  intros E. unfold upd_neighbor. rewrite (bind_exec _ _ _ _ _ (neighbor_exec _ _ _ E)). unfold modify_nd, modify. by rewrite (alter_some _ _ _ _ E).
Qed.
Lemma upd_destination_exec s i f d :
  destination_cache (nds s) !! i = Some d ->
  upd_destination i f s = Ret (tt, put_nds (with_destinations (<[i := f d]> (destination_cache (nds s))) (nds s)) s).
Proof.
  intros E. unfold upd_destination. rewrite (bind_exec _ _ _ _ _ (destination_exec _ _ _ E)). unfold modify_nd, modify. by rewrite (alter_some _ _ _ _ E).
Qed.

(** Two writes to one entry. *)
Lemma upd_neighbor_twice {A} s i f g (m : unit -> M nd_world A) e :
  neighbor_cache (nds s) !! i = Some e ->
  (upd_neighbor i f;; upd_neighbor i g ≫= m) s = (upd_neighbor i (fun e => g (f e)) ≫= m) s.
Proof.
  intros E. rewrite (bind_exec _ _ _ _ _ (upd_neighbor_exec _ _ _ _ E)), (bind_exec _ _ _ _ _ (upd_neighbor_exec s i (fun e => g (f e)) _ E)).
  erewrite bind_exec. 2: { apply upd_neighbor_exec. cbn. rewrite list_lookup_insert_eq by (by eapply lookup_lt_Some). done. }
  cbn. by rewrite list_insert_insert_eq.
Qed.

Lemma ok_upd_neighbor s i f e (P : unit -> nd_world -> Prop) :
  nd_ok s -> neighbor_cache (nds s) !! i = Some e -> neighbor_ok (numbers s) (f e) -> isrouter (f e) = isrouter e ->
  (next_hop_address (f e) = next_hop_address e \/ next_hop_address (f e) = ip6_addr_any \/
   forall j e1, neighbor_cache (nds s) !! j = Some e1 -> next_hop_address e1 <> next_hop_address (f e)) ->
  P tt (put_nds (with_neighbors (<[i := f e]> (neighbor_cache (nds s))) (nds s)) s) -> ok (upd_neighbor i f) s P.
Proof.
  intros Hok Hi He Hr Ha HP. eapply ok_exec; [by apply upd_neighbor_exec| |apply put_nds_evolves|done].
  apply put_nds_ok; [done|]. eapply set_neighbor_ok; [apply Hok|done..].
Qed.
Lemma ok_upd_destination s i f (P : unit -> nd_world -> Prop) :
  nd_ok s -> (i < LWIP_ND6_NUM_DESTINATIONS)%nat -> (forall d, destination_ok d -> destination_ok (f d)) ->
  (forall l, P tt (put_nds (with_destinations l (nds s)) s)) -> ok (upd_destination i f) s P.
Proof.
  intros Hok Hi Hf HP. pose proof (no_tables _ Hok) as Ht. destruct (destination_lookup _ _ Ht i Hi) as [d Hd].
  eapply ok_exec; [by apply upd_destination_exec| |apply put_nds_evolves|apply HP].
  apply put_nds_ok; [done|]. apply set_destinations_ok; [done|by rewrite length_insert, (to_destinations_len _ _ Ht)|].
  apply Forall_insert; [apply Ht|]. apply Hf. apply (Forall_lookup_1 _ _ _ _ (to_destinations _ _ Ht) Hd).
Qed.

(** The interface [k] changed. *)
Definition upd_list (k : Z) (f : nd_netif -> nd_netif) (l : list nd_netif) : list nd_netif :=
  (fun x => if nif_num (ndn x) =? k then f x else x) <$> l.
Lemma upd_links k f (l : list nd_netif) : (forall x, link (f x) = link x) -> link <$> upd_list k f l = link <$> l.
Proof. intros Hf. unfold upd_list. rewrite <-list_fmap_compose. apply list_fmap_ext. intros i x _. cbn. destruct (_ =? k); [apply Hf|done]. Qed.
Lemma ok_upd_netif s k f (P : unit -> nd_world -> Prop) :
  nd_ok s -> (forall x, link (f x) = link x) ->
  (forall x, nif_num (ndn x) = k -> x ∈ nd_netifs s -> nd_netif_ok x -> nd_netif_ok (f x)) ->
  P tt (put_netifs (upd_list k f (nd_netifs s)) s) -> ok (upd_netif k f) s P.
Proof.
  intros [Ht Hn Hnum Hm] Hf Hgood HP. unfold upd_netif.
  assert (Hev : evolves s (put_netifs (upd_list k f (nd_netifs s)) s)) by (split; [apply sends_refl|by apply upd_links]).
  eapply (ok_exec _ _ tt (put_netifs (upd_list k f (nd_netifs s)) s)); [done| |exact Hev|apply HP].
  pose proof (evolves_num _ _ Hev) as E. split; [by rewrite E| |by rewrite E|exact Hm].
  apply Forall_fmap. rewrite Forall_forall in Hn |- *. intros x Hx. cbn. destruct (Z.eqb_spec (nif_num (ndn x)) k); [apply Hgood; auto|auto].
Qed.
Lemma find_upd k f l x : (forall x, nif_num (ndn (f x)) = nif_num (ndn x)) -> find_nd k l = Some x -> find_nd k (upd_list k f l) = Some (f x).
Proof.
  intros Hf. unfold find_nd, upd_list. induction l as [|y l IH]; [done|]. cbn [list_find fmap list_fmap].
  destruct (Z.eqb_spec (nif_num (ndn y)) k) as [E|E].
  - rewrite decide_True by done. intros [= ->]. rewrite decide_True by (by rewrite Hf). done.
  - rewrite !decide_False by done. intros Hx. destruct (list_find _ l) as [[i z]|]; [|done]. cbn in Hx, IH. specialize (IH Hx).
    destruct (list_find _ (_ <$> l)) as [[i' z']|]; [|done]. exact IH.
Qed.
(** Two interfaces with one number are the same. *)
Lemma same_netif s k x x' : nd_ok s -> find_nd k (nd_netifs s) = Some x -> x' ∈ nd_netifs s -> nif_num (ndn x') = k -> x' = x.
Proof.
  intros Hok Hx Hin Hk. pose proof (no_numbers _ Hok) as Hnd. destruct (find_nd_num _ _ _ Hx) as [Hx' Hk'].
  apply list_elem_of_lookup in Hin as [i Hi], Hx' as [j Hj]. unfold numbers in Hnd.
  assert (i = j); [|congruence]. eapply NoDup_lookup; [exact Hnd|by rewrite list_lookup_fmap, Hi|rewrite list_lookup_fmap, Hj; cbn; congruence].
Qed.

Lemma upd_list_id s k f x : nd_ok s -> find_nd k (nd_netifs s) = Some x -> f x = x -> upd_list k f (nd_netifs s) = nd_netifs s.
Proof.
  intros Hok Hx Hf. unfold upd_list. rewrite <-(list_fmap_id (nd_netifs s)) at 2. apply list_fmap_ext. intros i y Hy. cbn.
  destruct (Z.eqb_spec (nif_num (ndn y)) k); [|done]. rewrite (same_netif s k x y); [done|done|done|by eapply list_elem_of_lookup_2|done].
Qed.

(** *** Sending *)

Lemma outputs_ok s s' : nd_ok s -> outputs s s' -> nd_ok s' /\ evolves s s'.
Proof.
  intros [Ht Hn Hnum [L Hm]] (w & -> & Hw). split; [split; [done..|]|by split]. exists L. by apply mld_ok_world.
Qed.
Lemma outputs_ok_wp {A} (m : M nd_world A) s : nd_ok s -> wp m s (fun _ s' => outputs s s') -> ok m s (fun _ s' => outputs s s').
Proof. intros Hok Hm. eapply wp_mono; [exact Hm|]. cbn beta. intros a s' Ho. destruct (outputs_ok _ _ Hok Ho). auto. Qed.
Lemma outputs_tables s s' : outputs s s' -> nds s' = nds s /\ nd_netifs s' = nd_netifs s.
Proof. by intros (w & -> & _). Qed.

(** ** The entries that are taken *)

(** The loops that keep the best entry so far. *)
Lemma least_spec c :
  match least_reachable c with
  | Some j => exists e, c !! j = Some e /\ spare ND6_REACHABLE e = true /\ counter e < 0xffffffff /\
      forall i e', c !! i = Some e' -> spare ND6_REACHABLE e' = true -> counter e <= counter e'
  | None => forall i e', c !! i = Some e' -> spare ND6_REACHABLE e' = true -> 0xffffffff <= counter e'
  end.
Proof.
  unfold least_reachable. set (acc := foldl _ _ _).
  assert (H : match acc.1 with
              | Some j => exists e, c !! j = Some e /\ spare ND6_REACHABLE e = true /\ counter e = acc.2 /\ acc.2 < 0xffffffff
              | None => acc.2 = 0xffffffff
              end /\ forall i e', c !! i = Some e' -> spare ND6_REACHABLE e' = true -> acc.2 <= counter e').
  { subst acc. induction c as [|e c IH] using rev_ind; [done|]. rewrite imap_app, foldl_app. cbn [imap foldl].
    destruct (foldl _ _ (imap pair c)) as [o z]. cbn [fst snd] in IH |- *. destruct IH as [H1 H2].
    unfold compose. rewrite Nat.add_0_r.
    assert (Hz : z <= 0xffffffff) by (destruct o; [destruct H1 as (? & ? & ? & ? & ?)|]; lia).
    assert (Hup : forall j x, c !! j = Some x -> (c ++ [e]) !! j = Some x) by (intros; by apply lookup_app_l_Some).
    assert (Hlast : (c ++ [e]) !! length c = Some e) by (rewrite lookup_app_r, Nat.sub_diag by lia; done).
    destruct (spare ND6_REACHABLE e) eqn:Es; [destruct (Z.ltb_spec (counter e) z)|]; cbn [andb fst snd]; (split; [|intros i e' Hi Hs']).
    - exists e. split_and!; [done..|lia].
    - apply lookup_snoc_Some in Hi as [[_ Hi]|[_ <-]]; [|lia]. specialize (H2 _ _ Hi Hs'). lia.
    - destruct o as [j|]; [|done]. destruct H1 as (x & Hx & ?). exists x. auto.
    - apply lookup_snoc_Some in Hi as [[_ Hi]|[_ <-]]; [by apply (H2 i)|lia].
    - destruct o as [j|]; [|done]. destruct H1 as (x & Hx & ?). exists x. auto.
    - apply lookup_snoc_Some in Hi as [[_ Hi]|[_ <-]]; [by apply (H2 i)|congruence]. }
  destruct H as [H1 H2]. destruct (acc.1) as [j|].
  - destruct H1 as (e & ? & ? & E & ?). rewrite <-E in *. by exists e.
  - by rewrite H1 in H2.
Qed.

Definition waiting (unqueued : bool) (e : nd6_neighbor_cache_entry) : bool :=
  (negb unqueued || bool_decide (nc_q e = None)) && spare ND6_INCOMPLETE e.
Lemma oldest_spec unqueued c :
  Forall (fun e => 0 <= counter e) c ->
  match oldest_incomplete unqueued c with
  | Some j => exists e, c !! j = Some e /\ waiting unqueued e = true /\
      forall i e', c !! i = Some e' -> waiting unqueued e' = true -> counter e' <= counter e
  | None => forall i e', c !! i = Some e' -> waiting unqueued e' = false
  end.
Proof.
  intros Hc. unfold oldest_incomplete. fold (waiting unqueued). set (acc := foldl _ _ _).
  assert (H : match acc.1 with
              | Some j => exists e, c !! j = Some e /\ waiting unqueued e = true /\ counter e = acc.2 /\
                  forall i e', c !! i = Some e' -> waiting unqueued e' = true -> counter e' <= acc.2
              | None => acc.2 = 0 /\ forall i e', c !! i = Some e' -> waiting unqueued e' = false
              end).
  { subst acc. induction c as [|e c IH] using rev_ind; [done|]. rewrite imap_app, foldl_app. cbn [imap foldl].
    apply Forall_app in Hc as [Hc He]. rewrite Forall_singleton in He. specialize (IH Hc).
    destruct (foldl _ _ (imap pair c)) as [o z]. cbn [fst snd] in IH |- *.
    unfold compose. rewrite Nat.add_0_r. fold (waiting unqueued e).
    assert (Hup : forall j x, c !! j = Some x -> (c ++ [e]) !! j = Some x) by (intros; by apply lookup_app_l_Some).
    assert (Hlast : (c ++ [e]) !! length c = Some e) by (rewrite lookup_app_r, Nat.sub_diag by lia; done).
    destruct (waiting unqueued e) eqn:Es; [destruct (Z.leb_spec z (counter e))|]; cbn [andb fst snd].
    - exists e. split_and!; [done..|]. intros i e' [[_ Hi]|[_ <-]]%lookup_snoc_Some Hs'; [|lia].
      destruct o as [j|]; [destruct IH as (x & _ & _ & _ & H2); specialize (H2 _ _ Hi Hs'); lia|destruct IH as [_ H2]; specialize (H2 _ _ Hi); congruence].
    - destruct o as [j|]; [|destruct IH as [-> _]; lia]. destruct IH as (x & ? & ? & ? & H2). exists x. split_and!; auto.
      intros i e' [[_ Hi]|[_ <-]]%lookup_snoc_Some Hs'; [by apply (H2 i)|lia].
    - destruct o as [j|].
      + destruct IH as (x & ? & ? & ? & H2). exists x. split_and!; auto.
        intros i e' [[_ Hi]|[_ <-]]%lookup_snoc_Some Hs'; [by apply (H2 i)|congruence].
      + destruct IH as [H1 H2]. split; [done|]. intros i e' [[_ Hi]|[_ <-]]%lookup_snoc_Some; [by apply (H2 i)|done]. }
  destruct acc.1 as [j|]; [|apply H]. destruct H as (e & ? & ? & E & Hmax). rewrite <-E in Hmax. by exists e.
Qed.

Lemma index_of_spec {A} (f : A -> bool) l :
  match index_of f l with
  | Some i => exists x, l !! i = Some x /\ f x = true /\ forall j y, (j < i)%nat -> l !! j = Some y -> f y = false
  | None => forall j y, l !! j = Some y -> f y = false
  end.
Proof.
  unfold index_of. destruct (list_find _ l) as [[i x]|] eqn:E; cbn.
  - apply list_find_Some in E as (Hi & Hx & Hmin). exists x. split; [done|]. split; [done|]. intros j y Hj Hy.
    apply not_true_is_false. intros Hf. by apply (Hmin j y).
  - apply list_find_None in E. intros j y Hy. apply not_true_is_false. by eapply (Forall_lookup_1 _ _ _ _ E).
Qed.

(** The order in which neighbours are given up; 6 is never. *)
Definition rank (e : nd6_neighbor_cache_entry) : Z :=
  match nc_state e with
  | ND6_STALE => 0
  | ND6_PROBE => 1
  | ND6_DELAY => 2
  | ND6_REACHABLE => if counter e <? 0xffffffff then 3 else 6
  | ND6_INCOMPLETE => if bool_decide (nc_q e = None) then 4 else 5
  | ND6_NO_ENTRY => 6
  end.
(** [e] goes before [e']: by rank, then the one that expires first or was probed most. *)
Definition goes_before (e e' : nd6_neighbor_cache_entry) : Prop :=
  rank e < rank e' \/ rank e = rank e' /\
  (nc_state e = ND6_REACHABLE -> counter e <= counter e') /\ (nc_state e = ND6_INCOMPLETE -> counter e' <= counter e).

Lemma spare_true st e : spare st e = true <-> nc_state e = st /\ isrouter e = 0.
Proof. unfold spare. by rewrite andb_true_iff, bool_decide_eq_true, Z.eqb_eq. Qed.
Lemma waiting_true u e : waiting u e = true <-> nc_state e = ND6_INCOMPLETE /\ isrouter e = 0 /\ (u = true -> nc_q e = None).
Proof. unfold waiting. rewrite andb_true_iff, spare_true, orb_true_iff, negb_true_iff, bool_decide_eq_true. destruct u; naive_solver. Qed.

(** A loop for one state found its first entry, or there is none left. *)
Lemma first_spare st c :
  match index_of (spare st) c with
  | Some i => exists e, c !! i = Some e /\ nc_state e = st /\ isrouter e = 0
  | None => forall i e, c !! i = Some e -> isrouter e = 0 -> nc_state e <> st
  end.
Proof.
  pose proof (index_of_spec (spare st) c) as Hs. destruct (index_of _ _) as [i|].
  - destruct Hs as (e & He & [? ?]%spare_true & _). by exists e.
  - intros i e He Hr E. specialize (Hs i e He). by rewrite (proj2 (spare_true st e) (conj E Hr)) in Hs.
Qed.

Ltac ranks Est := unfold goes_before, rank; rewrite Est;
  repeat case_match; try done; try (left; lia); right; split; [lia|split; [try done|try done]].

Lemma recycled_spec c :
  Forall (fun e => u32_ok (counter e) /\ nc_state e <> ND6_NO_ENTRY) c ->
  match recycled c with
  | Some j => exists e, c !! j = Some e /\ isrouter e = 0 /\ nc_state e <> ND6_NO_ENTRY /\
      forall i e', c !! i = Some e' -> isrouter e' = 0 -> goes_before e e'
  | None => forall i e', c !! i = Some e' -> isrouter e' = 0 -> nc_state e' = ND6_REACHABLE /\ counter e' = 0xffffffff
  end.
Proof.
  intros Hc. unfold recycled.
  assert (Hall : forall i e, c !! i = Some e -> u32_ok (counter e) /\ nc_state e <> ND6_NO_ENTRY) by (intros i e; apply (Forall_lookup_1 _ _ _ _ Hc)).
  assert (Hpos : Forall (fun e => 0 <= counter e) c) by (eapply Forall_impl; [exact Hc|]; intros e [[? ?] ?]; done).
  pose proof (first_spare ND6_STALE c) as H0. destruct (index_of (spare ND6_STALE) c) as [i|].
  { destruct H0 as (e & He & Est & Hr). exists e. split_and!; [done|done|congruence|]. intros i' e' _ _. ranks Est. }
  pose proof (first_spare ND6_PROBE c) as H1. destruct (index_of (spare ND6_PROBE) c) as [i|].
  { destruct H1 as (e & He & Est & Hr). exists e. split_and!; [done|done|congruence|]. intros i' e' Hi' Hr'. specialize (H0 _ _ Hi' Hr'). ranks Est. }
  pose proof (first_spare ND6_DELAY c) as H2. destruct (index_of (spare ND6_DELAY) c) as [i|].
  { destruct H2 as (e & He & Est & Hr). exists e. split_and!; [done|done|congruence|]. intros i' e' Hi' Hr'.
    specialize (H0 _ _ Hi' Hr'). specialize (H1 _ _ Hi' Hr'). ranks Est. }
  pose proof (least_spec c) as H3. destruct (least_reachable c) as [j|].
  { destruct H3 as (e & He & [Est Hr]%spare_true & Hlt & Hmin). exists e. split_and!; [done|done|congruence|]. intros i' e' Hi' Hr'.
    specialize (H0 _ _ Hi' Hr'). specialize (H1 _ _ Hi' Hr'). specialize (H2 _ _ Hi' Hr'). specialize (Hmin _ _ Hi'). rewrite spare_true in Hmin.
    ranks Est; rewrite ?Z.ltb_lt, ?Z.ltb_ge in *; try lia. intros _. auto. }
  assert (Hrest : forall i e', c !! i = Some e' -> isrouter e' = 0 ->
    nc_state e' = ND6_INCOMPLETE \/ nc_state e' = ND6_REACHABLE /\ counter e' = 0xffffffff).
  { intros i' e' Hi' Hr'. specialize (H0 _ _ Hi' Hr'). specialize (H1 _ _ Hi' Hr'). specialize (H2 _ _ Hi' Hr'). specialize (H3 _ _ Hi').
    rewrite spare_true in H3. destruct (Hall _ _ Hi') as [Hu Hn]. unfold u32_ok in Hu. destruct (nc_state e') eqn:Est'; try done; [by left|right].
    split; [done|]. specialize (H3 (conj eq_refl Hr')). lia. }
  pose proof (oldest_spec true c Hpos) as H4. destruct (oldest_incomplete true c) as [j|].
  { destruct H4 as (e & He & (Est & Hr & Hq)%waiting_true & Hmax). exists e. split_and!; [done|done|congruence|]. intros i' e' Hi' Hr'.
    specialize (Hmax _ _ Hi'). rewrite waiting_true in Hmax. unfold goes_before, rank. rewrite Est, (bool_decide_true _ (Hq eq_refl)).
    destruct (Hrest _ _ Hi' Hr') as [E'|[E' Ec]]; rewrite E'; [|left; rewrite Ec; done].
    case_bool_decide as Eq; [|left; lia]. right. split; [done|]. split; [done|]. intros _. apply Hmax. done. }
  pose proof (oldest_spec false c Hpos) as H5. destruct (oldest_incomplete false c) as [j|].
  { destruct H5 as (e & He & (Est & Hr & _)%waiting_true & Hmax). exists e. split_and!; [done|done|congruence|]. intros i' e' Hi' Hr'.
    specialize (Hmax _ _ Hi'). rewrite waiting_true in Hmax. unfold goes_before, rank. rewrite Est.
    assert (Hq : forall i x, c !! i = Some x -> isrouter x = 0 -> nc_state x = ND6_INCOMPLETE -> nc_q x <> None).
    { intros i x Hi Hx Ex Eq. pose proof (H4 _ _ Hi) as Hw. rewrite (proj2 (waiting_true true x)) in Hw; done. }
    rewrite (bool_decide_false _ (Hq _ _ He Hr Est)).
    destruct (Hrest _ _ Hi' Hr') as [E'|[E' Ec]]; rewrite E'; [|left; rewrite Ec; done].
    rewrite (bool_decide_false _ (Hq _ _ Hi' Hr' E')). right. split; [done|]. split; [done|]. intros _. apply Hmax. done. }
  intros i' e' Hi' Hr'. destruct (Hrest _ _ Hi' Hr') as [E'|?]; [|done]. pose proof (H5 _ _ Hi') as Hw.
  rewrite (proj2 (waiting_true false e')) in Hw; done.
Qed.

(** A freed entry. *)
Definition freed (e : nd6_neighbor_cache_entry) : nd6_neighbor_cache_entry := mk_neighbor ip6_addr_any None (lladdr e) None ND6_NO_ENTRY 0 0.

Lemma any_wf : ip6_wf ip6_addr_any.
Proof. by split_and!. Qed.
#[export] Hint Resolve any_wf : nd.
Lemma freed_neighbor_ok ks e : length (lladdr e) = 6%nat -> neighbor_ok ks (freed e).
Proof. intros Hl. split; cbn; auto with nd; done. Qed.

Section entries.
Context `{Env} `{LowerLayers}.

Lemma nd_free_exec s i e :
  (i < LWIP_ND6_NUM_NEIGHBORS)%nat -> neighbor_cache (nds s) !! i = Some e -> nc_q e = None -> isrouter e = 0 ->
  nd6_free_neighbor_cache_entry i s = Ret (tt, put_nds (with_neighbors (<[i := freed e]> (neighbor_cache (nds s))) (nds s)) s).
Proof.
  intros Hi He Hq Hr. unfold nd6_free_neighbor_cache_entry. rewrite decide_False by lia. rewrite (bind_exec _ _ _ _ _ (neighbor_exec _ _ _ He)).
  rewrite Hr. cbn [Z.eqb negb]. rewrite Hq. change (mret tt;; ?m) with m. rewrite (upd_neighbor_exec _ _ _ _ He). by rewrite Hq.
Qed.

(** Freeing leaves a router alone and everything else well formed. *)
Lemma ok_free s i : nd_ok s -> fine (nd6_free_neighbor_cache_entry i) s.
Proof.
  intros Hok. destruct (decide (i < LWIP_ND6_NUM_NEIGHBORS)%nat) as [Hi|Hi].
  2: { unfold nd6_free_neighbor_cache_entry. rewrite decide_True by lia. by apply ok_ret. }
  destruct (neighbor_lookup _ _ (no_tables _ Hok) i Hi) as [e He]. pose proof (neighbor_entry_ok _ _ (no_tables _ Hok) _ _ He) as Hn.
  destruct (nb_router _ _ Hn) as [Hr|Hr].
  - eapply ok_exec; [by apply nd_free_exec; [| |apply Hn|]| |apply put_nds_evolves|done]. apply put_nds_ok; [done|].
    eapply set_neighbor_ok; [apply Hok|done|apply freed_neighbor_ok, Hn|done|]. right. by left.
  - unfold nd6_free_neighbor_cache_entry. rewrite decide_False by lia. eapply ok_read; [by apply neighbor_exec|]. rewrite Hr. by apply ok_ret.
Qed.

(** A new entry is unused, and no other entry changes. *)
Definition entry_taken (s : nd_world) (r : option nat) (s' : nd_world) : Prop :=
  exists c', s' = put_nds (with_neighbors c' (nds s)) s /\
    forall i, r = Some i -> exists e, c' !! i = Some e /\ nc_state e = ND6_NO_ENTRY /\ (i < LWIP_ND6_NUM_NEIGHBORS)%nat /\
      forall j e', c' !! j = Some e' -> j = i \/ neighbor_cache (nds s) !! j = Some e'.

Lemma ok_new_neighbor s : nd_ok s -> ok nd6_new_neighbor_cache_entry s (entry_taken s).
Proof.
  intros Hok. pose proof (no_tables _ Hok) as Ht. unfold nd6_new_neighbor_cache_entry. apply ok_get_nd.
  assert (Esame : s = put_nds (with_neighbors (neighbor_cache (nds s)) (nds s)) s) by (by destruct s as [? ? []]).
  pose proof (index_of_spec (fun e => bool_decide (nc_state e = ND6_NO_ENTRY)) (neighbor_cache (nds s))) as Hi. destruct (index_of _ _) as [i|].
  { destruct Hi as (e & He & Hst%bool_decide_eq_true & _). apply ok_ret; [done|]. exists (neighbor_cache (nds s)). split; [done|].
    intros i' [= <-]. exists e. split_and!; [done|done|by eapply neighbor_bound|]. auto. }
  assert (Hall : Forall (fun e => u32_ok (counter e) /\ nc_state e <> ND6_NO_ENTRY) (neighbor_cache (nds s))).
  { apply Forall_lookup. intros i e He. split; [apply (nb_counter _ _ (neighbor_entry_ok _ _ Ht _ _ He))|].
    specialize (Hi _ _ He). by apply bool_decide_eq_false in Hi. }
  pose proof (recycled_spec _ Hall) as Hrec. destruct (recycled _) as [j|].
  2: { apply ok_ret; [done|]. by exists (neighbor_cache (nds s)). }
  destruct Hrec as (e & He & Hr & Hst & _). pose proof (neighbor_bound _ _ Ht _ _ He) as Hj.
  pose proof (neighbor_entry_ok _ _ Ht _ _ He) as Hn.
  eapply ok_bind; [eapply (ok_exec _ _ tt _ (fun _ s' => s' = put_nds (with_neighbors (<[j := freed e]> (neighbor_cache (nds s))) (nds s)) s));
    [by apply nd_free_exec; [| |apply Hn|]| |apply put_nds_evolves|done]|].
  { apply put_nds_ok; [done|]. eapply set_neighbor_ok; [done|done|apply freed_neighbor_ok, Hn|done|]. right. by left. }
  intros _ s1 Hok1 _ ->. apply ok_ret; [done|]. eexists. split; [done|]. intros i [= <-]. exists (freed e).
  rewrite list_lookup_insert_eq by (by eapply lookup_lt_Some). split_and!; [done..|]. intros j' e' [(<- & _)|[_ ?]]%list_lookup_insert_Some; auto.
Qed.

Lemma neighbor_none s s' : nd6_new_neighbor_cache_entry s = Ret (None, s') -> s' = s.
Proof.
  unfold nd6_new_neighbor_cache_entry, get_nd, gets, mbind at 1, M_bind at 1. destruct (index_of _ _); [done|].
  destruct (recycled _) as [j|]; [|by intros [= <-]]. unfold mbind, M_bind. by destruct (nd6_free_neighbor_cache_entry j s) as [[[] ?]| |].
Qed.

(** No entry has an address that was not found. *)
Lemma not_found s a : nd6_find_neighbor_cache_entry (nds s) a = None ->
  forall j e, neighbor_cache (nds s) !! j = Some e -> next_hop_address e <> a.
Proof.
  unfold nd6_find_neighbor_cache_entry. pose proof (index_of_spec (fun e => ip6_addr_cmp a (next_hop_address e)) (neighbor_cache (nds s))) as Hi.
  intros E j e He Ea. rewrite E in Hi. specialize (Hi j e He). cbn beta in Hi. rewrite Ea, (proj2 (addr_cmp_eq a a) eq_refl) in Hi. done.
Qed.
Lemma found s a i : nd6_find_neighbor_cache_entry (nds s) a = Some i ->
  exists e, neighbor_cache (nds s) !! i = Some e /\ next_hop_address e = a.
Proof.
  unfold nd6_find_neighbor_cache_entry. pose proof (index_of_spec (fun e => ip6_addr_cmp a (next_hop_address e)) (neighbor_cache (nds s))) as Hi.
  intros E. rewrite E in Hi. destruct Hi as (e & He & Ha & _). exists e. split; [done|]. symmetry. by apply addr_cmp_eq.
Qed.
End entries.

(** Filling the entry that was taken: its address is new. *)
Lemma taken_entry_ok s r s' i f a e :
  nd_ok s' -> entry_taken s r s' -> r = Some i -> nd6_find_neighbor_cache_entry (nds s) a = None ->
  neighbor_cache (nds s') !! i = Some e -> next_hop_address (f e) = a -> isrouter (f e) = 0 -> neighbor_ok (numbers s') (f e) ->
  tables_ok (numbers s') (with_neighbors (<[i := f e]> (neighbor_cache (nds s'))) (nds s')).
Proof.
  intros Hok (c' & -> & Hc) -> Hno He Ha Hr Hn. destruct (Hc _ eq_refl) as (e1 & He1 & Hst & Hi & Hoth). cbn in He.
  replace e1 with e in * by congruence. pose proof (neighbor_entry_ok _ _ (no_tables _ Hok) _ _ He) as Hne.
  destruct (nb_unused _ _ Hne Hst) as [Hany Hr0]. eapply set_neighbor_ok; [apply Hok|done|done|congruence|].
  destruct (decide (a = ip6_addr_any)) as [->|Hna]; [right; by left|]. right. right. intros j e2 Hj E2.
  destruct (Hoth j e2 Hj) as [->|Hj']; [cbn in Hj; congruence|]. eapply not_found; [exact Hno|exact Hj'|congruence].
Qed.

(** ** Routers and next hops *)

(** An entry in use has an interface. *)
Lemma entry_netif s e :
  nd_ok s -> neighbor_ok (numbers s) e -> nc_state e <> ND6_NO_ENTRY ->
  exists k x, nc_netif e = Some k /\ find_nd k (nd_netifs s) = Some x /\ nd_netif_ok x.
Proof.
  intros Hok Hn Hst. destruct (nb_active _ _ Hn Hst) as [k Hk]. destruct (find_nd_some k (nd_netifs s) (nb_netif _ _ Hn k Hk)) as [x Hx].
  exists k, x. split_and!; [done..|]. destruct (find_nd_num _ _ _ Hx) as [Hin _]. pose proof (no_netifs _ Hok) as Hall. rewrite Forall_forall in Hall. auto.
Qed.

Section selecting.
Context (s : nd_world) (Hok : nd_ok s).
Let c := neighbor_cache (nds s).

Lemma router_neighbor i r j : default_router_list (nds s) !! i = Some r -> neighbor_entry r = Some j ->
  exists e, c !! j = Some e /\ neighbor_ok (numbers s) e /\ isrouter e = 1 /\ nc_state e <> ND6_NO_ENTRY.
Proof.
  intros Hi Hj. destruct (ro_marked _ _ (to_routers _ _ (no_tables _ Hok)) _ _ _ Hi Hj) as (e & He & Hm).
  pose proof (neighbor_entry_ok _ _ (no_tables _ Hok) _ _ He) as Hn. exists e. split_and!; [done..|].
  intros Hst. destruct (nb_unused _ _ Hn Hst). congruence.
Qed.

Lemma suits_total n e : neighbor_ok (numbers s) e -> exists b, router_suits (nd_netifs s) n e = Ret b.
Proof.
  intros Hn. unfold router_suits. destruct (nc_netif e) as [k|] eqn:Ek; [|by eexists]. destruct n; [by eexists|].
  destruct (find_nd_some k (nd_netifs s) (nb_netif _ _ Hn k Ek)) as [x Hx]. rewrite Hx. by eexists.
Qed.

Definition has_router (i : nat) : Prop := exists r j, default_router_list (nds s) !! i = Some r /\ neighbor_entry r = Some j.

Lemma valid_total n : forall rs pre valid,
  default_router_list (nds s) = pre ++ rs -> (forall v, valid = Some v -> has_router v) ->
  exists r, valid_routers (nd_netifs s) c n rs (length pre) valid = Ret r /\ forall i, r = Some i -> has_router i.
Proof.
  induction rs as [|r rs IH]; intros pre valid E Hv; cbn [valid_routers]; [by exists valid|].
  assert (Hr : default_router_list (nds s) !! length pre = Some r) by (rewrite E, lookup_app_r, Nat.sub_diag by lia; done).
  assert (E' : default_router_list (nds s) = (pre ++ [r]) ++ rs) by (by rewrite <-app_assoc).
  assert (El : length (pre ++ [r]) = S (length pre)) by (rewrite length_app; cbn; lia).
  rewrite <-El. destruct (neighbor_entry r) as [j|] eqn:Ej; [|by apply IH].
  destruct (router_neighbor _ _ _ Hr Ej) as (e & He & Hn & _). rewrite He. cbn [deref mbind outcome_bind].
  destruct (suits_total n e Hn) as [b Hb]. rewrite Hb. cbn [mbind outcome_bind]. assert (Hhas : has_router (length pre)) by (by exists r, j).
  destruct (b && _); [|by apply IH]. destruct (bool_decide _); [eexists; split; [done|]; by intros i [= <-]|].
  apply IH; [done|]. intros v. destruct valid; [apply Hv|]. by intros [= <-].
Qed.
Lemma any_total n : forall k i, (i < LWIP_ND6_NUM_ROUTERS)%nat ->
  exists r, any_router (nd_netifs s) c n (default_router_list (nds s)) k i = Ret r /\ forall i, r = Some i -> has_router i.
Proof.
  induction k as [|k IH]; intros i Hi; cbn [any_router]; [by eexists|].
  destruct (lookup_lt_is_Some_2 (default_router_list (nds s)) i) as [r Hr]; [rewrite (to_routers_len _ _ (no_tables _ Hok)); lia|].
  rewrite Hr. cbn [deref mbind outcome_bind]. set (next := if decide _ then O else S i).
  assert (Hnx : (next < LWIP_ND6_NUM_ROUTERS)%nat) by (unfold next, LWIP_ND6_NUM_ROUTERS; case_decide; lia).
  destruct (neighbor_entry r) as [j|] eqn:Ej; [|by apply IH].
  destruct (router_neighbor _ _ _ Hr Ej) as (e & He & Hn & _). rewrite He. cbn [deref mbind outcome_bind].
  destruct (suits_total n e Hn) as [b Hb]. rewrite Hb. cbn [mbind outcome_bind]. destruct b; [|by apply IH].
  eexists. split; [done|]. intros i' [= <-]. by exists r, j.
Qed.
Lemma router_index_total a k : forall rs pre, default_router_list (nds s) = pre ++ rs ->
  exists r, router_index c a k rs (length pre) = Ret r /\ forall i, r = Some i -> has_router i.
Proof.
  induction rs as [|r rs IH]; intros pre E; cbn [router_index]; [by eexists|].
  assert (Hr : default_router_list (nds s) !! length pre = Some r) by (rewrite E, lookup_app_r, Nat.sub_diag by lia; done).
  assert (E' : default_router_list (nds s) = (pre ++ [r]) ++ rs) by (by rewrite <-app_assoc).
  assert (El : length (pre ++ [r]) = S (length pre)) by (rewrite length_app; cbn; lia).
  rewrite <-El. destruct (neighbor_entry r) as [j|] eqn:Ej; [|by apply IH].
  destruct (router_neighbor _ _ _ Hr Ej) as (e & He & _). rewrite He. cbn [deref mbind outcome_bind].
  destruct (_ && _); [|by apply IH]. eexists. split; [done|]. intros i' [= <-]. by exists r, j.
Qed.
Lemma prefix_route_total a : forall ps, Forall (prefix_ok (numbers s)) ps -> exists r, prefix_route (nd_netifs s) a ps = Ret r.
Proof.
  induction 1 as [|p ps Hp _ IH]; cbn [prefix_route]; [by eexists|]. destruct (pl_netif p) as [k|] eqn:Ek; [|done].
  destruct (ip6_addr_net_eq _ _); [|done]. destruct (find_nd_some k (nd_netifs s) (px_netif _ _ Hp k Ek)) as [x Hx]. rewrite Hx. cbn.
  destruct (_ && _); [by eexists|done].
Qed.
End selecting.

(** Only the counter of the round robin changes. *)
Definition turned (s s' : nd_world) : Prop := exists i, s' = put_nds (with_last_router i (nds s)) s.
Lemma turned_id s : turned s s.
Proof. exists (last_router (nds s)). by destruct s as [? ? []]. Qed.
Lemma turned_router s s' i : turned s s' -> has_router s i <-> has_router s' i.
Proof. by intros [j ->]. Qed.

Lemma ok_select_router s n : nd_ok s -> ok (nd6_select_router n) s (fun r s' => turned s s' /\ forall i, r = Some i -> has_router s' i).
Proof.
  intros Hok. unfold nd6_select_router. eapply ok_read; [done|]. cbv zeta.
  destruct (valid_total s Hok n (default_router_list (nds s)) [] None) as (v & Ev & Hv); [done|done|]. eapply ok_lift; [exact Ev|].
  destruct v as [i|]; [apply ok_ret; [done|]; split; [apply turned_id|done]|].
  eapply (ok_bind _ _ _ (fun _ s' => turned s s')).
  - destruct n; [apply ok_ret; [done|apply turned_id]|]. apply ok_modify_nd; [done| |by eexists].
    destruct (no_tables _ Hok). split; cbn; try done. unfold LWIP_ND6_NUM_ROUTERS in *. case_decide; lia.
  - intros _ s' Hok' _ Ht. apply ok_get_nd. destruct (any_total s' Hok' n LWIP_ND6_NUM_ROUTERS (last_router (nds s'))) as (r & Er & Hr).
    { apply (to_last _ _ (no_tables _ Hok')). }
    replace (nd_netifs s) with (nd_netifs s') by (by destruct Ht as [? ->]). unfold ok. eapply wp_lift; [exact Er|].
    split; [done|]. split; [apply evolves_refl|]. done.
Qed.

Lemma fine_find_route s a : nd_ok s -> fine (nd6_find_route a) s.
Proof.
  intros Hok. unfold nd6_find_route. eapply ok_read; [done|].
  destruct (prefix_route_total s a _ (to_prefixes _ _ (no_tables _ Hok))) as [r Hr]. eapply ok_lift; [exact Hr|].
  destruct r as [k|]; [by apply ok_ret|]. eapply ok_bind; [by apply ok_select_router|]. intros i s' Hok' _ [_ Hi].
  destruct i as [i|]; [|by apply ok_ret]. destruct (Hi i eq_refl) as (r & j & Er & Ej). apply ok_get_nd. eapply ok_lift; [by rewrite Er|].
  eapply ok_lift; [by rewrite Ej|]. destruct (router_neighbor s' Hok' _ _ _ Er Ej) as (e & He & _).
  eapply ok_read; [by apply neighbor_exec|]. by apply ok_ret.
Qed.
Lemma ok_get_router s a k : nd_ok s -> ok (nd6_get_router a k) s (fun r s' => s' = s /\ forall i, r = Some i -> has_router s i).
Proof.
  intros Hok. unfold nd6_get_router. apply ok_get_nd. destruct (router_index_total s Hok a k (default_router_list (nds s)) []) as (r & Er & Hr); [done|].
  eapply wp_lift; [exact Er|]. auto with nd.
Qed.

(** The slot of a router: the one that has the neighbour, or one that is free. *)
Lemma router_slot_spec i rs :
  match router_slot i rs with
  | inl r => exists x, rs !! r = Some x /\ neighbor_entry x = Some i
  | inr o => (forall r x, rs !! r = Some x -> neighbor_entry x <> Some i) /\
             forall r, o = Some r -> exists x, rs !! r = Some x /\ neighbor_entry x = None
  end.
Proof.
  unfold router_slot. pose proof (index_of_spec (fun r => bool_decide (neighbor_entry r = Some i)) (reverse rs)) as H1.
  destruct (index_of _ (reverse rs)) as [j|].
  - destruct H1 as (x & Hx & E%bool_decide_eq_true & _). exists x. split; [|done]. pose proof (lookup_lt_Some _ _ _ Hx) as Hj. rewrite length_reverse in Hj.
    rewrite reverse_lookup in Hx by done. rewrite <-Hx. f_equal. lia.
  - pose proof (index_of_spec (fun r => bool_decide (neighbor_entry r = None)) rs) as H2. split.
    + intros r x Hx E. assert (Hin : x ∈ reverse rs) by (apply elem_of_reverse; by eapply list_elem_of_lookup_2).
      apply list_elem_of_lookup in Hin as [j Hj]. specialize (H1 _ _ Hj). by apply bool_decide_eq_false in H1.
    + intros r E. rewrite E in H2. destruct H2 as (x & Hx & Hn%bool_decide_eq_true & _). by exists x.
Qed.

Section hops.
Context `{Env} `{LowerLayersOk}.
Implicit Types s : nd_world.

Lemma ok_send_ns s n a flags : nd_ok s -> netif_sane n -> hwaddr_ok n -> ip6_wf a -> ok (nd6_send_ns n a flags) s (fun _ s' => outputs s s').
Proof. intros. apply outputs_ok_wp; [done|]. by apply wp_send_ns. Qed.
Lemma ok_send_rs s n : nd_ok s -> netif_sane n -> hwaddr_ok n -> ok (nd6_send_rs n) s (fun _ s' => outputs s s').
Proof. intros. apply outputs_ok_wp; [done|]. by apply wp_send_rs. Qed.
Lemma ok_send_na s n a flags :
  nd_ok s -> netif_sane n -> hwaddr_ok n -> is_byte (Z.land flags 0xf0) -> ip6_wf a -> ip6_wf (w_cur_src (host s)) ->
  ok (nd6_send_na n a flags) s (fun _ s' => outputs s s').
Proof. intros. apply outputs_ok_wp; [done|]. by apply wp_send_na. Qed.

Lemma ok_probe s i e flags :
  nd_ok s -> neighbor_cache (nds s) !! i = Some e -> nc_state e <> ND6_NO_ENTRY ->
  ok (nd6_send_neighbor_cache_probe i flags) s (fun _ s' => outputs s s').
Proof.
  intros Hok He Hst. pose proof (neighbor_entry_ok _ _ (no_tables _ Hok) _ _ He) as Hn.
  destruct (entry_netif s e Hok Hn Hst) as (k & x & Hk & Hx & Hxok). unfold nd6_send_neighbor_cache_probe.
  eapply ok_read; [by apply neighbor_exec|]. eapply ok_lift; [by rewrite Hk|]. eapply ok_read; [by apply netif_at_exec|].
  apply ok_send_ns; [done|apply Hxok..|apply Hn].
Qed.

(** A new neighbour that is to be resolved. *)
Lemma ok_resolve s r s1 i f k a :
  nd_ok s1 -> entry_taken s r s1 -> r = Some i -> nd6_find_neighbor_cache_entry (nds s) a = None -> k ∈ numbers s1 -> ip6_wf a ->
  (forall e, isrouter e = 0 -> nc_q e = None -> f e = mk_neighbor a (Some k) (lladdr e) None ND6_INCOMPLETE 0 1) ->
  ok (upd_neighbor i f;; nd6_send_neighbor_cache_probe i ND6_SEND_FLAG_MULTICAST_DEST) s1 (fun _ s' => exists e,
    neighbor_cache (nds s') !! i = Some e /\ next_hop_address e = a /\ nc_state e <> ND6_NO_ENTRY).
Proof.
  intros Hok Ht -> Hno Hk Ha Hf. pose proof Ht as (c' & E1 & Hc). destruct (Hc _ eq_refl) as (e & He & Hst & Hi & _).
  assert (He1 : neighbor_cache (nds s1) !! i = Some e) by (by rewrite E1).
  pose proof (neighbor_entry_ok _ _ (no_tables _ Hok) _ _ He1) as Hn. destruct (nb_unused _ _ Hn Hst) as [_ Hr].
  assert (Efe : f e = mk_neighbor a (Some k) (lladdr e) None ND6_INCOMPLETE 0 1) by (by apply Hf; [|apply Hn]).
  set (s2 := put_nds (with_neighbors (<[i := f e]> (neighbor_cache (nds s1))) (nds s1)) s1).
  assert (He2 : neighbor_cache (nds s2) !! i = Some (f e)) by (cbn; by rewrite list_lookup_insert_eq by (by eapply lookup_lt_Some)).
  eapply (ok_bind _ _ _ (fun _ s' => s' = s2)).
  - eapply ok_exec; [by apply upd_neighbor_exec| |apply put_nds_evolves|done]. apply put_nds_ok; [done|].
    eapply taken_entry_ok; [done|exact Ht|done|exact Hno|done|by rewrite Efe|by rewrite Efe|]. rewrite Efe.
    split; cbn; [done|by intros k' [= <-]|by eexists|done|done|apply Hn|done|by left].
  - intros _ s' Hok2 _ ->. eapply ok_mono; [eapply ok_probe; [done|exact He2|by rewrite Efe]|]. cbn beta. intros _ s3 _ _ Ho.
    exists (f e). destruct (outputs_tables _ _ Ho) as [-> _]. by rewrite Efe in *.
Qed.

(** The neighbour of a new router: found, or taken. *)
Lemma ok_router_neighbor s a k :
  nd_ok s -> k ∈ numbers s -> ip6_wf a -> a <> ip6_addr_any ->
  ok (match nd6_find_neighbor_cache_entry (nds s) a with
      | Some i => mret (Some i)
      | None =>
          io ← nd6_new_neighbor_cache_entry;
          match io with
          | None => mret None
          | Some i =>
              upd_neighbor i (fun e => mk_neighbor a (Some k) (lladdr e) None ND6_INCOMPLETE (isrouter e) 1);;
              nd6_send_neighbor_cache_probe i ND6_SEND_FLAG_MULTICAST_DEST;;
              mret (Some i)
          end
      end) s (fun r s' => forall i, r = Some i -> exists e, neighbor_cache (nds s') !! i = Some e /\ nc_state e <> ND6_NO_ENTRY).
Proof.
  intros Hok Hk Ha Hna. destruct (nd6_find_neighbor_cache_entry (nds s) a) as [i|] eqn:Ef.
  - apply ok_ret; [done|]. intros i' [= <-]. destruct (found s a i Ef) as (e & He & Ea). exists e. split; [done|]. intros Hst.
    destruct (nb_unused _ _ (neighbor_entry_ok _ _ (no_tables _ Hok) _ _ He) Hst). congruence.
  - eapply ok_bind; [by apply ok_new_neighbor|]. intros [i|] s1 Hok1 Hev Htk; [|by apply ok_ret].
    assert (Hk1 : k ∈ numbers s1) by (by rewrite (evolves_num _ _ Hev)).
    pose proof (ok_resolve s (Some i) s1 i (fun e => mk_neighbor a (Some k) (lladdr e) None ND6_INCOMPLETE (isrouter e) 1) k a) as Hres.
    specialize (Hres Hok1 Htk eq_refl Ef Hk1 Ha). specialize (Hres (fun e Hr0 _ => f_equal (fun r => mk_neighbor a (Some k) (lladdr e) None ND6_INCOMPLETE r 1) Hr0)).
    unfold ok in *. apply wp_bind. apply wp_elim in Hres as ([] & s2 & E2 & Hok2 & Hev2 & e & He & Hae & Hst).
    unfold mbind, M_bind in E2. destruct (upd_neighbor i _ s1) as [[[] s1']| |] eqn:E1; [|done..]. eapply wp_exec; [exact E1|].
    apply wp_bind. eapply wp_exec; [exact E2|]. apply wp_ret. split; [done|]. split; [done|]. intros i' [= <-]. by exists e.
Qed.

Lemma isrouter_same e r : isrouter e = r -> with_isrouter r e = e.
Proof. intros <-. by destruct e. Qed.
Lemma put_nds_same s c : c = neighbor_cache (nds s) -> put_nds (with_neighbors c (nds s)) s = s.
Proof. intros ->. by destruct s as [? ? []]. Qed.

Lemma ok_new_router s a k :
  nd_ok s -> k ∈ numbers s -> ip6_wf a -> a <> ip6_addr_any ->
  ok (nd6_new_router a k) s (fun r s' => forall i, r = Some i -> has_router s' i).
Proof.
  intros Hok Hk Ha Hna. unfold nd6_new_router. apply ok_get_nd. eapply ok_bind; [by apply ok_router_neighbor|].
  intros [i|] s1 Hok1 Hev Hi; [|by apply ok_ret]. destruct (Hi i eq_refl) as (e & He & Hst). clear Hi.
  pose proof (no_tables _ Hok1) as Ht. pose proof (neighbor_entry_ok _ _ Ht _ _ He) as Hn. pose proof (lookup_lt_Some _ _ _ He) as Hlt.
  apply wp_bind. eapply wp_exec; [by apply upd_neighbor_exec|]. apply wp_bind. eapply (wp_exec _ _ (nds _)); [done|]. cbn [nds put_nds].
  change (default_router_list (with_neighbors _ (nds s1))) with (default_router_list (nds s1)).
  pose proof (router_slot_spec i (default_router_list (nds s1))) as Hsl. destruct (router_slot _ _) as [r|[r|]].
  - destruct Hsl as (x & Hx & Ex). destruct (ro_marked _ _ (to_routers _ _ Ht) _ _ _ Hx Ex) as (e1 & He1 & Hm).
    rewrite put_nds_same by (apply list_insert_id; rewrite isrouter_same; congruence). apply wp_ret. split; [done|]. split; [apply evolves_refl|].
    intros r' [= <-]. by exists x, i.
  - destruct Hsl as [Hno Hsl]. destruct (Hsl r eq_refl) as (x & Hx & Ex).
    assert (Hr0 : isrouter e = 0).
    { destruct (nb_router _ _ Hn) as [?|Hm]; [done|]. destruct (ro_listed _ _ (to_routers _ _ Ht) _ _ He Hm) as (j & y & Hy & Ey). by destruct (Hno _ _ Hy). }
    apply wp_bind, wp_modify, wp_ret. cbn [nds put_nds nd_mld nd_netifs default_router_list with_neighbors].
    rewrite (alter_some _ _ _ _ Hx). pose proof (mark_router_ok _ _ Ht i e r x He Hst Hr0 Hx Ex) as Hmk.
    split; [exact (put_nds_ok _ _ Hok1 Hmk)|]. split; [by split|].
    intros r' [= <-]. eexists _, i. cbn. rewrite list_lookup_insert_eq by (by eapply lookup_lt_Some). done.
  - destruct Hsl as [Hno _].
    assert (Hr0 : isrouter e = 0).
    { destruct (nb_router _ _ Hn) as [?|Hm]; [done|]. destruct (ro_listed _ _ (to_routers _ _ Ht) _ _ He Hm) as (j & y & Hy & Ey). by destruct (Hno _ _ Hy). }
    apply wp_bind. eapply wp_exec; [apply upd_neighbor_exec; cbn; by rewrite list_lookup_insert_eq|]. apply wp_ret. cbn [nds put_nds neighbor_cache with_neighbors].
    rewrite list_insert_insert_eq, list_insert_id by (rewrite He; f_equal; symmetry; exact (isrouter_same e 0 Hr0)).
    change (put_nds (with_neighbors (neighbor_cache (nds s1)) (with_neighbors ?c (nds s1))) (put_nds ?t s1)) with
      (put_nds (with_neighbors (neighbor_cache (nds s1)) (nds s1)) s1).
    rewrite put_nds_same by done. split; [done|]. split; [apply evolves_refl|done].
Qed.

(** *** Destinations *)

Lemma aged_last_lt l : (length l = LWIP_ND6_NUM_DESTINATIONS)%nat -> (aged_last l < LWIP_ND6_NUM_DESTINATIONS)%nat.
Proof.
  intros Hl. unfold aged_last. assert (Hall : Forall (fun ie : nat * nd6_destination_cache_entry => (ie.1 < LWIP_ND6_NUM_DESTINATIONS)%nat) (imap pair l)).
  { apply Forall_lookup. intros i [j d] Hi. rewrite list_lookup_imap in Hi. destruct (l !! i) eqn:E; [|done]. injection Hi as <- _.
    cbn. apply lookup_lt_Some in E. lia. }
  generalize (LWIP_ND6_NUM_DESTINATIONS - 1)%nat, (ltac:(unfold LWIP_ND6_NUM_DESTINATIONS; lia) : (LWIP_ND6_NUM_DESTINATIONS - 1 < LWIP_ND6_NUM_DESTINATIONS)%nat).
  induction Hall as [|x l' Hx _ IH]; intros j Hj; [done|]. cbn [foldl]. apply IH. by destruct (0 <? _).
Qed.
Lemma new_destination_lt ks t : tables_ok ks t -> (nd6_new_destination_cache_entry t < LWIP_ND6_NUM_DESTINATIONS)%nat.
Proof.
  intros Ht. unfold nd6_new_destination_cache_entry.
  pose proof (index_of_spec (fun e => ip6_addr_isany (destination_addr e)) (destination_cache t)) as Hi. destruct (index_of _ _) as [i|].
  - destruct Hi as (d & Hd & _). apply lookup_lt_Some in Hd. by rewrite (to_destinations_len _ _ Ht) in Hd.
  - apply aged_last_lt, Ht.
Qed.
Lemma find_destination_lt ks t a i : tables_ok ks t -> nd6_find_destination_cache_entry t a = Some i -> (i < LWIP_ND6_NUM_DESTINATIONS)%nat.
Proof.
  intros Ht E. unfold nd6_find_destination_cache_entry in E.
  pose proof (index_of_spec (fun e => ip6_addr_cmp a (destination_addr e)) (destination_cache t)) as Hi. rewrite E in Hi.
  destruct Hi as (d & Hd & _). apply lookup_lt_Some in Hd. by rewrite (to_destinations_len _ _ Ht) in Hd.
Qed.
Lemma fine_upd_destination s i f :
  nd_ok s -> (i < LWIP_ND6_NUM_DESTINATIONS)%nat -> (forall d, destination_ok d -> destination_ok (f d)) -> fine (upd_destination i f) s.
Proof. intros. by apply ok_upd_destination. Qed.

Lemma static_total n a : netif_wf n -> exists b, some_slot (static_slot n a) = Ret b.
Proof.
  intros Hwf. apply some_slot_total. intros j Hj. unfold static_slot, netif_ip6_addr_state, netif_ip6_addr, netif_ip6_addr_isstatic.
  rewrite (state_lookup n Hwf j Hj), (addr_lookup n Hwf j Hj). simpl. destruct (ip6_addr_isvalid _); [|by eexists].
  destruct (lookup_lt_is_Some_2 (ip6_addr_valid_life n) j) as [x ->]; [rewrite (nw_lives _ Hwf); done|]. simpl. destruct (_ =? _); by eexists.
Qed.

Lemma ok_new_destination s i a n :
  nd_ok s -> (i < LWIP_ND6_NUM_DESTINATIONS)%nat -> ip6_wf a -> netif_wf n -> 0 <= nif_mtu6 n < 65536 -> fine (new_destination i a n) s.
Proof.
  intros Hok Hi Ha Hn Hm. unfold new_destination. apply fine_seq; [apply fine_upd_destination; [done..|]; intros d []; by split|].
  intros _ s1 Hok1 _. apply ok_get_nd.
  assert (exists b, (if ip6_addr_islinklocal a then Ret true else nd6_is_prefix_in_netif (nds s1) a n) = Ret b) as [b Hb].
  { destruct (ip6_addr_islinklocal a); [by eexists|]. unfold nd6_is_prefix_in_netif. destruct (existsb _ _); [by eexists|]. by apply static_total. }
  eapply ok_lift; [exact Hb|]. destruct b.
  - apply fine_seq; [apply fine_upd_destination; [done..|]; intros d []; by split|]. intros _ s2 Hok2 _. by apply ok_ret.
  - eapply ok_bind; [by apply ok_select_router|]. intros [r|] s2 Hok2 _ [_ Hr].
    + destruct (Hr r eq_refl) as (x & j & Hx & Hj). apply ok_get_nd. eapply ok_lift; [by rewrite Hx|]. eapply ok_lift; [by rewrite Hj|].
      destruct (router_neighbor s2 Hok2 _ _ _ Hx Hj) as (e & He & Hne & _). eapply ok_read; [by apply neighbor_exec|].
      apply fine_seq; [apply fine_upd_destination; [done..|]; intros d []; split; try done; apply Hne|]. intros _ s3 Hok3 _. by apply ok_ret.
    + apply fine_seq; [apply fine_upd_destination; [done..|]; intros d []; by split|]. intros _ s3 Hok3 _. by apply ok_ret.
Qed.

Lemma set_cached_ok s i : nd_ok s -> (i < LWIP_ND6_NUM_DESTINATIONS)%nat -> fine (modify_nd (with_cached i)) s.
Proof. intros Hok Hi. apply ok_modify_nd; [done| |done]. destruct (no_tables _ Hok). by split. Qed.

Lemma ok_find_destination s a n :
  nd_ok s -> ip6_wf a -> netif_wf n -> 0 <= nif_mtu6 n < 65536 ->
  ok (find_destination a n) s (fun r _ => forall i, r = Some i -> (i < LWIP_ND6_NUM_DESTINATIONS)%nat).
Proof.
  intros Hok Ha Hn Hm. pose proof (no_tables _ Hok) as Ht. unfold find_destination. apply ok_get_nd. apply ok_destination; [done|apply Ht|]. intros d Hd _.
  apply fine_if; intros _.
  { apply ok_ret; [done|]. intros i [= <-]. apply Ht. }
  destruct (nd6_find_destination_cache_entry (nds s) a) as [i|] eqn:Ef.
  - pose proof (find_destination_lt _ _ _ _ Ht Ef). apply fine_seq; [by apply set_cached_ok|]. intros _ s1 Hok1 _. apply ok_ret; [done|]. by intros ? [= <-].
  - pose proof (new_destination_lt _ _ Ht) as Hlt. apply fine_seq; [by apply set_cached_ok|]. intros _ s1 Hok1 _.
    apply fine_seq; [by apply ok_new_destination|]. intros b s2 Hok2 _. apply ok_ret; [done|]. intros i. destruct b; [|done]. by intros [= <-].
Qed.

Lemma ok_find_next_hop s i k :
  nd_ok s -> (i < LWIP_ND6_NUM_DESTINATIONS)%nat -> k ∈ numbers s ->
  ok (find_next_hop i k) s (fun r _ => forall j, r = Some j -> (j < LWIP_ND6_NUM_NEIGHBORS)%nat).
Proof.
  intros Hok Hi Hk. unfold find_next_hop. apply ok_destination; [done..|]. intros d Hd Hdok. apply ok_neighbor; [done|apply Hdok|]. intros e He _.
  apply fine_if; intros _.
  { apply ok_ret; [done|]. intros j [= <-]. apply Hdok. }
  apply ok_get_nd. destruct (nd6_find_neighbor_cache_entry (nds s) (next_hop_addr d)) as [j|] eqn:Ef.
  - destruct (found _ _ _ Ef) as (e1 & He1 & _). pose proof (neighbor_bound _ _ (no_tables _ Hok) _ _ He1).
    apply fine_seq; [apply fine_upd_destination; [done..|]; intros d' []; by split|]. intros _ s1 Hok1 _. apply ok_ret; [done|]. by intros ? [= <-].
  - eapply ok_bind; [by apply ok_new_neighbor|]. intros [j|] s1 Hok1 Hev Htk; [|by apply ok_ret].
    assert (Hj : (j < LWIP_ND6_NUM_NEIGHBORS)%nat) by (destruct Htk as (c & _ & Hc); by destruct (Hc j eq_refl) as (? & _ & _ & ? & _)).
    eapply (ok_bind _ _ _ (fun _ s' => exists l, s' = put_nds (with_destinations l (nds s1)) s1)).
    { apply ok_upd_destination; [done..| |by eexists]. intros d' []. by split. }
    intros _ s2 Hok2 Hev2 [l ->].
    assert (Htk2 : entry_taken (put_nds (with_destinations l (nds s)) s) (Some j) (put_nds (with_destinations l (nds s1)) s1)).
    { destruct Htk as (c & -> & Hc). exists c. split; [done|exact Hc]. }
    pose proof (ok_resolve _ _ _ j (fun e => mk_neighbor (next_hop_addr d) (Some k) (lladdr e) (nc_q e) ND6_INCOMPLETE 0 1) k (next_hop_addr d) Hok2 Htk2 eq_refl Ef) as Hres.
    specialize (Hres ltac:(by rewrite <-(evolves_num _ _ Hev) in Hk) (ds_next _ Hdok)).
    specialize (Hres (fun e _ Hq => f_equal (fun q => mk_neighbor (next_hop_addr d) (Some k) (lladdr e) q ND6_INCOMPLETE 0 1) Hq)).
    unfold ok in *. apply wp_bind. apply wp_elim in Hres as ([] & s3 & E3 & Hok3 & Hev3 & _).
    unfold mbind, M_bind in E3. destruct (upd_neighbor j _ _) as [[[] s2']| |] eqn:E2; [|done..]. eapply wp_exec; [exact E2|].
    apply wp_bind. eapply wp_exec; [exact E3|]. apply wp_ret. split; [done|]. split; [done|]. by intros ? [= <-].
Qed.

Lemma ok_next_hop_entry s a x :
  nd_ok s -> ip6_wf a -> x ∈ nd_netifs s ->
  ok (nd6_get_next_hop_entry a (ndn x)) s (fun r _ => forall i, r = inr i -> (i < LWIP_ND6_NUM_NEIGHBORS)%nat).
Proof.
  intros Hok Ha Hx. pose proof (no_netifs _ Hok) as Hall. rewrite Forall_forall in Hall. destruct (Hall x Hx) as [Hs _ _ _ _ Hm _].
  unfold nd6_get_next_hop_entry. eapply ok_bind; [by apply ok_find_destination; [| |apply Hs|apply Hm]|]. intros [i|] s1 Hok1 Hev Hi; [|by apply ok_ret].
  specialize (Hi i eq_refl). eapply ok_bind; [apply ok_find_next_hop; [done..|]|].
  { rewrite (evolves_num _ _ Hev). apply list_elem_of_fmap. by exists x. }
  intros [j|] s2 Hok2 _ Hj; [|by apply ok_ret]. apply fine_seq; [apply fine_upd_destination; [done..|]; intros d []; by split|].
  intros _ s3 Hok3 _. apply ok_ret; [done|]. intros j' [= <-]. by apply Hj.
Qed.

Lemma reachable_entry s i e :
  nd_ok s -> neighbor_cache (nds s) !! i = Some e -> nc_state e <> ND6_NO_ENTRY ->
  fine (upd_neighbor i (with_nc_state ND6_REACHABLE (reachable_time (nds s)))) s.
Proof.
  intros Hok He Hst. pose proof (neighbor_entry_ok _ _ (no_tables _ Hok) _ _ He) as Hn.
  eapply ok_upd_neighbor; [done|exact He| |done|by left|done]. destruct Hn. split; cbn; try done; [by intros _; apply nb_active0|apply (no_tables _ Hok)].
Qed.

Lemma fine_hint s a : nd_ok s -> fine (nd6_reachability_hint a) s.
Proof.
  intros Hok. pose proof (no_tables _ Hok) as Ht. unfold nd6_reachability_hint. apply ok_get_nd. apply ok_destination; [done|apply Ht|]. intros d Hd _.
  destruct (if ip6_addr_cmp a (destination_addr d) then _ else _) as [i|] eqn:Ei; [|by apply ok_ret].
  assert (Hi : (i < LWIP_ND6_NUM_DESTINATIONS)%nat).
  { destruct (ip6_addr_cmp a _); [injection Ei as <-; apply Ht|by eapply find_destination_lt]. }
  apply ok_destination; [done..|]. intros d1 Hd1 Hdok. apply ok_neighbor; [done|apply Hdok|]. intros e He _.
  destruct (if ip6_addr_cmp (next_hop_addr d1) (next_hop_address e) then _ else _) as [j|] eqn:Ej; [|by apply ok_ret].
  assert (Hj : (j < LWIP_ND6_NUM_NEIGHBORS)%nat).
  { clear Ei; destruct (ip6_addr_cmp _ _); [injection Ej as <-; apply Hdok|]. destruct (found _ _ _ Ej) as (e1 & He1 & _). by eapply neighbor_bound. }
  apply ok_neighbor; [done..|]. intros e1 He1 _. apply fine_if; [by intros _; apply ok_ret|]. intros Hst.
  apply orb_false_iff in Hst as [_ Hst%bool_decide_eq_false]. by eapply reachable_entry.
Qed.
End hops.
