(* ===== verification/Nd6Spec.v ===== *)
(** * Neighbour discovery: what it promises

    Every function of [Nd6In] returns and keeps the invariant of [Nd6Inv]; how entries
    of the neighbour cache are recycled and given up; duplicate address detection; the
    answer to a solicitation. *)

From S2P Require Import Prelude LinkedList Ip6Addr World Netif Pbuf Ip6Hdr Custody Buffer InetChksum RawSocket Ip6Out Icmp6 Ip6In Ip6Spec Mld6 Nd6 Nd6Send Nd6In ControllerSpec Main Setup Stack MldSpec Nd6Inv.

(** Nothing changes but the rest of the node. *)
Definition same_tables (s s' : nd_world) : Prop := nds s' = nds s /\ nd_netifs s' = nd_netifs s.
Lemma same_tables_refl s : same_tables s s.
Proof. done. Qed.
#[export] Hint Resolve same_tables_refl : nd.

Lemma wp_in_mld {A} (m : M mld_world A) s Q :
  wp m (nd_mld s) (fun a x => Q a (mk_nd x (nd_netifs s) (nds s))) -> wp (in_mld m) s Q.
Proof. unfold wp, in_mld. by destruct (m (nd_mld s)) as [[a x]| |]. Qed.
(** A call into the multicast module. *)
Lemma ok_in_mld {A} (m : M mld_world A) s :
  nd_ok s -> (forall L, mld_ok (nd_mld s) L -> wp m (nd_mld s) (fun _ x => (exists L', mld_ok x L') /\ sends (mw (nd_mld s)) (mw x))) ->
  ok (in_mld m) s (fun _ s' => same_tables s s').
Proof.
  intros [Ht Hn Hnum [L Hm]] Hcall. apply wp_in_mld. eapply wp_mono; [by apply (Hcall L)|]. cbn beta. intros a x [Hx Hw].
  split; [by split|]. split; [by split|done].
Qed.

(** Loops over a list. *)
Lemma fine_each {A} (f : A -> M nd_world unit) : forall l s, nd_ok s ->
  (forall x s', x ∈ l -> nd_ok s' -> evolves s s' -> fine (f x) s') -> fine (each l f) s.
Proof.
  induction l as [|x l IH]; intros s Hok Hf; cbn [each]; [by apply ok_ret|].
  apply fine_seq; [apply Hf; [by left|done|apply evolves_refl]|]. intros _ s1 Hok1 Hev. apply IH; [done|]. intros y s2 Hy Hok2 Hev2.
  apply Hf; [by right|done|by eapply evolves_trans].
Qed.

Lemma evolves_numbers s s' k : evolves s s' -> k ∈ numbers s -> k ∈ numbers s'.
Proof. by intros ->%evolves_num. Qed.
#[export] Hint Resolve evolves_numbers : nd.

(** Reading the slots of an interface. *)
Section slots.
Context (x : nd_netif) (Hx : nd_netif_ok x) (i : nat) (Hi : (i < LWIP_IPV6_NUM_ADDRESSES)%nat).

Lemma slot_state : netif_ip6_addr_state (ndn x) i = Ret (state_at (ndn x) i).
Proof. unfold netif_ip6_addr_state. by rewrite (state_lookup _ (proj1 (nn_sane _ Hx)) i). Qed.
Lemma slot_addr : netif_ip6_addr (ndn x) i = Ret (addr_at (ndn x) i) /\ ip6_wf (addr_at (ndn x) i).
Proof.
  destruct (nn_sane _ Hx) as [Hwf Hall]. unfold netif_ip6_addr. rewrite (addr_lookup _ Hwf i) by done. split; [done|].
  eapply Forall_lookup_1; [exact Hall|]. by apply addr_lookup.
Qed.
Lemma slot_valid_life : exists v, netif_ip6_addr_valid_life (ndn x) i = Ret v /\ u32_ok v /\ netif_ip6_addr_isstatic (ndn x) i = Ret (v =? IP6_ADDR_LIFE_STATIC).
Proof.
  destruct (lookup_lt_is_Some_2 (ip6_addr_valid_life (ndn x)) i) as [v Hv]; [by rewrite (nw_lives _ (proj1 (nn_sane _ Hx)))|].
  exists v. unfold netif_ip6_addr_valid_life, netif_ip6_addr_isstatic. rewrite Hv. split_and!; [done| |done].
  apply (Forall_lookup_1 _ _ _ _ (nn_valid_life _ Hx) Hv).
Qed.
Lemma slot_pref_life : exists v, netif_ip6_addr_pref_life (ndn x) i = Ret v /\ u32_ok v.
Proof.
  destruct (lookup_lt_is_Some_2 (ip6_addr_pref_life (ndn x)) i) as [v Hv]; [by rewrite (nn_pref _ Hx)|].
  exists v. unfold netif_ip6_addr_pref_life. rewrite Hv. split; [done|]. apply (Forall_lookup_1 _ _ _ _ (nn_pref_life _ Hx) Hv).
Qed.
Lemma slot_set {A} (a : A) l : length l = LWIP_IPV6_NUM_ADDRESSES -> set_slot i a l = Ret (<[i := a]> l).
Proof. intros Hl. destruct (lookup_lt_is_Some_2 l i) as [v Hv]; [by rewrite Hl|]. unfold set_slot. by rewrite Hv. Qed.
End slots.

Lemma first_slot_find k i test :
  (forall j, (i <= j < i + k)%nat -> exists b, test j = Ret b) ->
  exists r, first_slot k i test = Ret r /\ forall j, r = Some j -> (i <= j < i + k)%nat /\ test j = Ret true.
Proof.
  revert i. induction k as [|k IH]; intros i Ht; cbn [first_slot]; [by eexists|]. destruct (Ht i ltac:(lia)) as [b Hb]. rewrite Hb. cbn [mbind outcome_bind].
  destruct b; [eexists; split; [done|]; intros j [= <-]; split; [lia|done]|].
  destruct (IH (S i)) as (r & Er & Hr); [intros; apply Ht; lia|]. exists r. split; [done|]. intros j Hj. destruct (Hr j Hj). split; [lia|done].
Qed.

Lemma in_node_read {A} (m : M world A) a s : m (host s) = Ret (a, host s) -> in_node m s = Ret (a, s).
Proof. intros E. unfold in_node, in_mld, in_world. unfold host in E. rewrite E. by destruct s as [[? ? ?] ? ?]. Qed.

Section module.
Context `{Env} `{LowerLayersOk}.
Context (lwip_rand : nat -> Z).
Context (mld_mac_filter : netif -> option (ip6_addr -> Z -> M world unit)).
Context (status_callback : netif -> M world unit).
Hypothesis Hfilter : forall n f a act w, mld_mac_filter n = Some f -> wp (f a act) w (fun _ w' => sends w w').
Hypothesis Hstatus : forall n w, wp (status_callback n) w (fun _ w' => sends w w').
Implicit Types s : nd_world.

(** ** Addresses *)

Lemma ok_adjust s k i st :
  nd_ok s -> k ∈ numbers s -> (i < LWIP_IPV6_NUM_ADDRESSES)%nat ->
  ok (nd6_adjust_mld_membership lwip_rand mld_mac_filter k i st) s (fun _ s' => same_tables s s').
Proof.
  intros Hok Hk Hi. unfold nd6_adjust_mld_membership. apply ok_netif_at; [done..|]. intros x Hx Hin Hnum Hxok. cbv zeta.
  eapply ok_lift; [by apply slot_state|]. apply fine_if; intros _; [|by apply ok_ret]. destruct (slot_addr x Hxok i Hi) as [Ea Hwf].
  eapply ok_lift; [exact Ea|]. apply ok_get_nd. eapply (ok_bind _ _ _ (fun _ s' => same_tables s s')); [|intros _ s' Hok' _ Hs; by apply ok_ret].
  apply fine_if; intros _; apply ok_in_mld; try done; intros L HL.
  - eapply wp_mono; [apply (@join_ok _ _ (nd_layers_ok (nds s)) lwip_rand mld_mac_filter Hfilter _ L);
      [done|by apply solicitednode_wf|apply Hxok]|]. cbn beta. intros e y Hy.
    destruct (_ || _); [destruct Hy as (_ & ? & L' & ? & _); split; [by exists L'|done]|destruct Hy as [_ ->]; split; [by exists L|apply sends_refl]].
  - eapply wp_mono; [apply (@leave_ok _ _ (nd_layers_ok (nds s)) mld_mac_filter Hfilter _ L); [done|apply Hxok]|]. cbn beta. intros e y Hy.
    destruct (is_member _ _ _); [destruct Hy as (_ & ? & L' & ? & _); split; [by exists L'|done]|destruct Hy as [_ ->]; split; [by exists L|apply sends_refl]].
Qed.

Lemma ok_report s n : nd_ok s -> ok (in_mld (mld6_report_groups lwip_rand n)) s (fun _ s' => same_tables s s').
Proof.
  intros Hok. apply ok_in_mld; [done|]. intros L HL. eapply wp_mono; [by apply (report_groups_ok lwip_rand _ L)|]. cbn beta.
  intros _ x (ls & _ & ? & ?). split; [by eexists|done].
Qed.
Lemma ok_status s n : nd_ok s -> ok (in_node (status_callback n)) s (fun _ s' => same_tables s s').
Proof.
  intros Hok. eapply (ok_mono _ _ (fun _ s' => outputs s s')); [|intros _ s' _ _ Ho; by apply outputs_tables].
  apply outputs_ok_wp; [done|]. apply wp_in_node. eapply wp_mono; [apply Hstatus|]. cbn beta. intros _ w Hw. by exists w.
Qed.

(** The state of slot [i] of interface [k] is [st] afterwards. *)
Definition put_state (i : nat) (st : Z) (x : nd_netif) : nd_netif := on_ndn (with_addr_states (<[i := st]> (ip6_addr_state (ndn x)))) x.
Lemma put_state_ok i st x : nd_netif_ok x -> nd_netif_ok (put_state i st x).
Proof.
  intros [[[W1 W2 W3] Ha] P V R [A1 A2 A3] Hm Hr]. split; cbn; try done. split; [split; cbn; [done|by rewrite length_insert|done]|done].
Qed.
Definition address_set (k : Z) (i : nat) (st : Z) (s s' : nd_world) : Prop :=
  nds s' = nds s /\ nd_netifs s' = upd_list k (put_state i st) (nd_netifs s).

Lemma ok_set_state s k i st :
  nd_ok s -> k ∈ numbers s -> (i < LWIP_IPV6_NUM_ADDRESSES)%nat ->
  ok (set_addr_state lwip_rand mld_mac_filter status_callback k i st) s (fun _ s' => address_set k i st s s').
Proof.
  intros Hok Hk Hi. unfold set_addr_state. apply ok_netif_at; [done..|]. intros x Hx Hin Hnum Hxok.
  eapply ok_lift; [by apply slot_state|]. destruct (Z.eqb_spec (state_at (ndn x) i) st) as [E|E].
  { apply ok_ret; [done|]. split; [done|]. symmetry. eapply upd_list_id; [done|exact Hx|]. unfold put_state.
    rewrite list_insert_id; [by destruct x as [[] ? ?]|]. rewrite <-E. by apply state_lookup; [apply Hxok|]. }
  eapply (ok_bind _ _ _ (fun _ s' => same_tables s s')).
  { apply fine_if; intros _; [by apply ok_adjust|by apply ok_ret]. }
  intros _ s1 Hok1 Hev1 [Et1 En1]. pose proof (nw_states _ (proj1 (nn_sane _ Hxok))) as Hl.
  eapply ok_lift; [by apply slot_set|].
  eapply (ok_bind _ _ _ (fun _ s' => address_set k i st s s')).
  { apply ok_upd_netif; [done|done| |].
    - intros y Hy Hyin Hyok. rewrite En1 in Hyin. rewrite (same_netif s k x y) in Hyok |- * by done. by apply put_state_ok.
    - split; [done|]. cbn [nd_netifs put_netifs]. rewrite En1. unfold upd_list. apply list_fmap_ext. intros j y Hy. cbn beta.
      destruct (Z.eqb_spec (nif_num (ndn y)) k); [|done]. rewrite (same_netif s k x y); [done|done|done|by eapply list_elem_of_lookup_2|done]. }
  intros _ s2 Hok2 Hev2 Hset. assert (Hk2 : k ∈ numbers s2) by eauto with nd. apply ok_netif_at; [done..|]. intros y Hy Hyin Hynum Hyok. cbv zeta.
  eapply (ok_bind _ _ _ (fun _ s' => same_tables s2 s')).
  { apply fine_if; intros _; [by apply ok_report|by apply ok_ret]. }
  intros _ s3 Hok3 _ [Et3 En3]. assert (Hset3 : address_set k i st s s3) by (destruct Hset; split; congruence).
  apply fine_if; intros _; [by apply ok_ret|]. apply fine_if; intros _; [|by apply ok_ret].
  eapply ok_mono; [by apply ok_status|]. cbn beta. intros _ s4 _ _ [Et4 En4]. destruct Hset3. split; congruence.
Qed.

Lemma fine_set_state s k i st :
  nd_ok s -> k ∈ numbers s -> (i < LWIP_IPV6_NUM_ADDRESSES)%nat ->
  fine (set_addr_state lwip_rand mld_mac_filter status_callback k i st) s.
Proof. intros. eapply fine_any. by apply ok_set_state. Qed.

Lemma fine_duplicate s k i :
  nd_ok s -> k ∈ numbers s -> (i < LWIP_IPV6_NUM_ADDRESSES)%nat ->
  fine (nd6_duplicate_addr_detected lwip_rand mld_mac_filter status_callback k i) s.
Proof.
  intros Hok Hk Hi. unfold nd6_duplicate_addr_detected. apply fine_seq; [by apply fine_set_state|]. intros _ s1 Hok1 Hev1.
  destruct (decide (i = 0)%nat); [|by apply ok_ret]. apply fine_each; [done|]. intros j s2 Hj Hok2 Hev2. apply elem_of_seq in Hj.
  assert (Hk2 : k ∈ numbers s2) by eauto with nd. assert (Hj' : (j < LWIP_IPV6_NUM_ADDRESSES)%nat) by (unfold LWIP_IPV6_NUM_ADDRESSES in *; lia).
  apply ok_netif_at; [done..|]. intros x _ _ _ Hx. eapply ok_lift; [by apply slot_state|]. apply fine_if; intros _; [by apply ok_ret|].
  destruct (slot_valid_life x Hx j Hj') as (v & _ & _ & Hs). eapply ok_lift; [exact Hs|]. apply fine_if; intros _; [by apply ok_ret|].
  by apply fine_set_state.
Qed.

(** *** Lifetimes *)

Definition put_valid (i : nat) (v : Z) (x : nd_netif) : nd_netif := on_ndn (with_valid_lives (<[i := v]> (ip6_addr_valid_life (ndn x)))) x.
Lemma ok_set_valid s k i v : nd_ok s -> k ∈ numbers s -> (i < LWIP_IPV6_NUM_ADDRESSES)%nat -> u32_ok v ->
  ok (set_valid_life k i v) s (fun _ s' => exists x, find_nd k (nd_netifs s) = Some x /\ find_nd k (nd_netifs s') = Some (put_valid i v x)).
Proof.
  intros Hok Hk Hi Hv. unfold set_valid_life. apply ok_netif_at; [done..|]. intros x Hx _ _ Hxok.
  pose proof (nw_lives _ (proj1 (nn_sane _ Hxok))) as Hl. eapply ok_lift; [by apply slot_set|]. apply ok_upd_netif; [done|done| |].
  - intros y Hy Hyin _. rewrite (same_netif s k x y) by done.
    destruct Hxok as [[[W1 W2 W3] Ha] P V R [A1 A2 A3] Hm Hr]. split; cbn; try done; [|by apply Forall_insert].
    split; [split; cbn; [done|done|by rewrite length_insert]|done].
  - exists x. split; [done|]. cbn [nd_netifs put_netifs]. by rewrite (find_upd k _ _ x).
Qed.
Lemma fine_set_valid s k i v : nd_ok s -> k ∈ numbers s -> (i < LWIP_IPV6_NUM_ADDRESSES)%nat -> u32_ok v -> fine (set_valid_life k i v) s.
Proof. intros. eapply fine_any. by apply ok_set_valid. Qed.
Lemma fine_set_pref s k i v : nd_ok s -> k ∈ numbers s -> (i < LWIP_IPV6_NUM_ADDRESSES)%nat -> u32_ok v -> fine (set_pref_life k i v) s.
Proof.
  intros Hok Hk Hi Hv. unfold set_pref_life. apply ok_netif_at; [done..|]. intros x Hx _ _ Hxok.
  eapply ok_lift; [apply slot_set; [done|apply Hxok]|]. apply ok_upd_netif; [done|done| |done].
  intros y Hy Hyin _. rewrite (same_netif s k x y) by done.
  destruct Hxok as [[[W1 W2 W3] Ha] P V R [A1 A2 A3] Hm Hr]. split; cbn; try done; [by rewrite length_insert|by apply Forall_insert].
Qed.
Lemma fine_rs_count s k r : nd_ok s -> 0 <= r < 256 -> fine (upd_netif k (with_rs_count r)) s.
Proof. intros Hok Hr. apply ok_upd_netif; [done|done| |done]. intros x _ _ []. by split. Qed.

Lemma fine_restart s k : nd_ok s -> fine (nd6_restart_netif k) s.
Proof. intros Hok. by apply fine_rs_count. Qed.

(** *** An interface that goes away *)

(** The router is dropped with its mark. *)
Lemma ok_drop_router s i e rs :
  nd_ok s -> neighbor_cache (nds s) !! i = Some e -> length rs = length (default_router_list (nds s)) ->
  (forall r x, rs !! r = Some x -> exists y, default_router_list (nds s) !! r = Some y /\ u32_ok (rl_timer x) /\
     neighbor_entry x = if decide (neighbor_entry y = Some i) then None else neighbor_entry y) ->
  nd_ok (put_nds (with_routers rs (with_neighbors (<[i := with_isrouter 0 e]> (neighbor_cache (nds s))) (nds s))) s).
Proof. intros Hok He Hl Hrs. apply put_nds_ok; [done|]. by apply unmark_router_ok; [apply Hok|..]. Qed.

(** One neighbour of the interface [k] after the other is freed. *)
Definition cleaned (k : Z) (i : nat) (s s' : nd_world) : Prop :=
  prefix_list (nds s') = prefix_list (nds s) /\
  exists e, neighbor_cache (nds s') = <[i := e]> (neighbor_cache (nds s)) /\ nc_netif e <> Some k.

(** The body of the second loop. *)
Definition clean_neighbor (k : Z) (i : nat) : M nd_world unit :=
  e ← neighbor i;
  if bool_decide (nc_netif e = Some k) then
    modify_nd (fun t => with_routers ((fun r => if bool_decide (neighbor_entry r = Some i) then mk_router None (rl_timer r) 0 else r)
                                        <$> default_router_list t) t);;
    upd_neighbor i (with_isrouter 0);;
    nd6_free_neighbor_cache_entry i
  else mret tt.

Lemma ok_clean_neighbor s k i :
  nd_ok s -> (i < LWIP_ND6_NUM_NEIGHBORS)%nat -> ok (clean_neighbor k i) s (fun _ s' => cleaned k i s s').
Proof.
  intros Hok Hi. apply ok_neighbor; [done..|]. intros e He Hn. pose proof (lookup_lt_Some _ _ _ He) as Hlt. apply fine_if; intros Hk.
  2: { apply bool_decide_eq_false in Hk. apply ok_ret; [done|]. split; [done|]. exists e. by rewrite list_insert_id. }
  set (rs := (fun r => if bool_decide (neighbor_entry r = Some i) then mk_router None (rl_timer r) 0 else r) <$> default_router_list (nds s)).
  assert (Hok1 : nd_ok (put_nds (with_routers rs (with_neighbors (<[i := with_isrouter 0 e]> (neighbor_cache (nds s))) (nds s))) s)).
  { apply ok_drop_router; [done..|by unfold rs; rewrite length_fmap|]. intros r x Hx. unfold rs in Hx. rewrite list_lookup_fmap in Hx.
    destruct (default_router_list (nds s) !! r) as [y|] eqn:Ey; [|done]. injection Hx as <-. exists y. split; [done|].
    pose proof (Forall_lookup_1 _ _ _ _ (ro_timer _ _ (to_routers _ _ (no_tables _ Hok))) Ey). destruct (decide _); [rewrite bool_decide_true|rewrite bool_decide_false]; done. }
  apply wp_bind, wp_modify, wp_bind. eapply wp_exec; [by apply upd_neighbor_exec|].
  set (s1 := put_nds (with_routers rs (with_neighbors (<[i := with_isrouter 0 e]> (neighbor_cache (nds s))) (nds s))) s) in *.
  assert (He1 : neighbor_cache (nds s1) !! i = Some (with_isrouter 0 e)) by (cbn; by rewrite list_lookup_insert_eq).
  pose proof (neighbor_entry_ok _ _ (no_tables _ Hok1) _ _ He1) as Hn1.
  eapply wp_exec; [exact (nd_free_exec s1 i _ Hi He1 (nb_q _ _ Hn1) eq_refl)|].
  split; [apply put_nds_ok; [done|]; eapply set_neighbor_ok; [apply Hok1|done|apply freed_neighbor_ok, Hn1|done|right; by left]|].
  split; [by split; [apply sends_refl|]|]. split; [done|]. exists (freed (with_isrouter 0 e)). split; [|done]. cbn. by rewrite list_insert_insert_eq.
Qed.

(** Nothing in the tables names the interface [k]. *)
Definition forgotten (k : Z) (s : nd_world) : Prop :=
  Forall (fun e => nc_netif e <> Some k) (neighbor_cache (nds s)) /\ Forall (fun e => pl_netif e <> Some k) (prefix_list (nds s)).

Lemma ok_clean_neighbors k n : forall i s,
  (i + n = LWIP_ND6_NUM_NEIGHBORS)%nat -> nd_ok s ->
  (forall j e, (j < i)%nat -> neighbor_cache (nds s) !! j = Some e -> nc_netif e <> Some k) ->
  Forall (fun e => pl_netif e <> Some k) (prefix_list (nds s)) -> ok (each (seq i n) (clean_neighbor k)) s (fun _ s' => forgotten k s').
Proof.
  induction n as [|n IH]; intros i s Hin Hok Hd Hp; cbn [seq each].
  - apply ok_ret; [done|]. split; [|done]. apply Forall_lookup. intros j e Hj. apply (Hd j); [|done].
    pose proof (neighbor_bound _ _ (no_tables _ Hok) _ _ Hj). lia.
  - eapply ok_bind; [apply ok_clean_neighbor; [done|lia]|]. intros _ s1 Hok1 _ (E1 & e & E2 & He). apply IH; [lia|done| |by rewrite E1].
    intros j e' Hj Hl. rewrite E2 in Hl. apply list_lookup_insert_Some in Hl as [(<- & <- & _)|[Hne Hl]]; [done|]. apply (Hd j); [lia|done].
Qed.
Lemma ok_cleanup s k : nd_ok s -> ok (nd6_cleanup_netif k) s (fun _ s' => forgotten k s').
Proof.
  intros Hok. pose proof (no_tables _ Hok) as Ht. unfold nd6_cleanup_netif.
  eapply (ok_bind _ _ _ (fun _ s' => Forall (fun e => pl_netif e <> Some k) (prefix_list (nds s')))).
  { apply ok_modify_nd; [done| |].
    - apply set_prefixes_ok; [done|by rewrite length_fmap, (to_prefixes_len _ _ Ht)|].
      apply Forall_fmap. eapply Forall_impl; [apply Ht|]. intros e []. cbn. destruct (bool_decide _); by split.
    - cbn. apply Forall_fmap, Forall_true. intros e. cbn. case_bool_decide; done. }
  intros _ s1 Hok1 _ Hpx.
  eapply (ok_bind _ _ _ (fun _ s' => forgotten k s')).
  - by apply (ok_clean_neighbors k LWIP_ND6_NUM_NEIGHBORS 0%nat); [done|done|lia|].
  - intros _ s2 Hok2 _ Hf. pose proof (no_tables _ Hok2) as Ht2. apply ok_modify_nd; [done| |done].
    apply set_destinations_ok; [done|by rewrite length_fmap, (to_destinations_len _ _ Ht2)|].
    apply Forall_fmap. eapply Forall_impl; [apply Ht2|]. intros d []. split; auto with nd.
Qed.

(** What was forgotten can go. *)
Lemma forgotten_ok ks ks' k t :
  tables_ok ks t -> Forall (fun e => nc_netif e <> Some k) (neighbor_cache t) -> Forall (fun e => pl_netif e <> Some k) (prefix_list t) ->
  (forall k', k' ∈ ks -> k' <> k -> k' ∈ ks') -> tables_ok ks' t.
Proof.
  intros [L1 L2 L3 L4 Hn Hd Ho Hds Hp ? ? ? ? ?] Fn Fp Hks. split; try done.
  - rewrite Forall_forall in *. intros e He. specialize (Fn e He). pose proof (Hn e He) as Hne. split; try apply Hne.
    intros k' E. apply Hks; [by apply (nb_netif _ _ Hne)|congruence].
  - rewrite Forall_forall in *. intros e He. specialize (Fp e He). pose proof (Hp e He) as Hpe. split; try apply Hpe.
    intros k' E. apply Hks; [by apply (px_netif _ _ Hpe)|congruence].
Qed.

(** *** Addresses from advertised prefixes *)

Lemma generated_total x a i : nd_netif_ok x -> (i < LWIP_IPV6_NUM_ADDRESSES)%nat ->
  exists b, generated_slot (ndn x) a i = Ret b /\ (b = true -> netif_ip6_addr_isstatic (ndn x) i = Ret false).
Proof.
  intros Hx Hi. unfold generated_slot. rewrite (slot_state x Hx i Hi). cbn [mbind outcome_bind]. destruct (ip6_addr_isinvalid _); [by eexists|].
  destruct (slot_valid_life x Hx i Hi) as (v & _ & _ & ->). cbn [mbind outcome_bind]. destruct (_ =? _); [by eexists|].
  destruct (slot_addr x Hx i Hi) as [-> _]. by eexists.
Qed.

Lemma fine_update_lifetimes s k i v p :
  nd_ok s -> k ∈ numbers s -> (i < LWIP_IPV6_NUM_ADDRESSES)%nat -> u32_ok v -> u32_ok p ->
  (forall x, find_nd k (nd_netifs s) = Some x -> netif_ip6_addr_isstatic (ndn x) i = Ret false) ->
  fine (update_lifetimes lwip_rand mld_mac_filter status_callback k i v p) s.
Proof.
  intros Hok Hk Hi Hv Hp Hst. unfold update_lifetimes. apply ok_netif_at; [done..|]. intros x Hx Hin Hnum Hxok. specialize (Hst x Hx).
  eapply ok_lift; [by apply slot_state|]. destruct (slot_valid_life x Hxok i Hi) as (r & Er & Hr & Es). eapply ok_lift; [exact Er|].
  rewrite Es in Hst. injection Hst as Hst.
  eapply (ok_bind _ _ _ (fun _ s' => exists x', find_nd k (nd_netifs s') = Some x' /\ netif_ip6_addr_isstatic (ndn x') i = Ret false)).
  { assert (Hput : forall v', u32_ok v' -> v' <> 0 -> ok (set_valid_life k i v') s (fun _ s' => exists x', find_nd k (nd_netifs s') = Some x' /\
      netif_ip6_addr_isstatic (ndn x') i = Ret false)).
    { intros v' Hv' Hne. eapply ok_mono; [by apply ok_set_valid|]. cbn beta. intros _ s' _ _ (y & Hy0 & Hy). exists (put_valid i v' y). split; [done|].
      rewrite Hx in Hy0. injection Hy0 as <-. unfold netif_ip6_addr_isstatic. cbn.
      rewrite list_lookup_insert_eq by (rewrite (nw_lives _ (proj1 (nn_sane _ Hxok))); done). cbn. by rewrite (proj2 (Z.eqb_neq v' _)). }
    unfold u32_ok in *. apply fine_if; intros Hc; [|apply fine_if; intros Hc'].
    - apply Hput; [done|]. apply orb_true_iff in Hc as [Hc%Z.ltb_lt|Hc%Z.ltb_lt]; unfold ND6_2HRS in *; lia.
    - by apply Hput.
    - apply ok_ret; [done|]. exists x. split; [done|]. by rewrite Es, Hst. }
  intros _ s1 Hok1 Hev1 (x1 & Hx1 & Hst1). eapply ok_read; [by apply netif_at_exec|]. eapply ok_lift; [exact Hst1|].
  assert (Hk1 : k ∈ numbers s1) by eauto with nd. apply fine_seq; [by apply ok_ret|]. intros _ s1' Hok1' Hev1'.
  apply fine_seq; [apply fine_if; intros _; [|by apply ok_ret]; apply fine_set_state; eauto with nd|].
  intros _ s2 Hok2 Hev2. apply fine_set_pref; eauto with nd.
Qed.

Lemma new_slot_total x a : nd_netif_ok x -> forall slots free,
  Forall (fun i => i < LWIP_IPV6_NUM_ADDRESSES)%nat slots -> (free < LWIP_IPV6_NUM_ADDRESSES)%nat ->
  exists r, new_slot (ndn x) a slots free = Ret r /\ forall i, r = Some i -> (i < LWIP_IPV6_NUM_ADDRESSES)%nat.
Proof.
  intros Hx slots free Hs. revert free. induction Hs as [|i slots Hi _ IH]; intros free Hf; cbn [new_slot].
  { eexists. split; [done|]. intros i. destruct (decide _); [done|]. by intros [= <-]. }
  rewrite (slot_state x Hx i Hi). cbn [mbind outcome_bind]. destruct (ip6_addr_isinvalid _); [apply IH; by destruct (decide _)|].
  destruct (slot_addr x Hx i Hi) as [-> _]. cbn [mbind outcome_bind]. destruct (ip6_addr_cmp _ _); [by eexists|by apply IH].
Qed.

Lemma fine_add_generated s k a v p :
  nd_ok s -> k ∈ numbers s -> ip6_wf a -> u32_ok v -> u32_ok p ->
  fine (add_generated lwip_rand mld_mac_filter status_callback k a v p) s.
Proof.
  intros Hok Hk Ha Hv Hp. unfold add_generated. apply ok_netif_at; [done..|]. intros x Hx Hin Hnum Hxok. cbv zeta.
  assert (H0i : (0 < LWIP_IPV6_NUM_ADDRESSES)%nat) by (unfold LWIP_IPV6_NUM_ADDRESSES; lia).
  eapply ok_lift; [by apply slot_state|]. apply fine_if; intros _; [by apply ok_ret|].
  destruct (slot_addr x Hxok 0 H0i) as [-> Hll]. eapply ok_lift; [done|]. set (ad := ip6_addr_assign_zone _ _ _).
  assert (Had : ip6_wf ad) by (apply assign_zone_wf; destruct Ha as (? & ? & _), Hll as (_ & _ & ? & ?); by split_and!).
  destruct (new_slot_total x ad Hxok (seq 1 (LWIP_IPV6_NUM_ADDRESSES - 1)) 0) as (r & Er & Hr); [|done|].
  { apply Forall_forall. intros j Hj%elem_of_seq. unfold LWIP_IPV6_NUM_ADDRESSES in *. lia. }
  eapply ok_lift; [exact Er|]. destruct r as [i|]; [|by apply ok_ret]. specialize (Hr i eq_refl).
  pose proof (nw_addrs _ (proj1 (nn_sane _ Hxok))) as Hl. eapply ok_lift; [by apply slot_set|]. apply fine_seq.
  { apply ok_upd_netif; [done|done| |done]. intros y Hy Hyin _. rewrite (same_netif s k x y) by done.
    destruct Hxok as [[[W1 W2 W3] Hall] P V R [A1 A2 A3] Hm Hrs]. split; cbn; try done.
    split; [split; cbn; [by rewrite length_insert|done|done]|]. by apply Forall_insert. }
  intros _ s1 Hok1 Hev1. apply fine_seq; [apply fine_set_valid; eauto with nd|]. intros _ s2 Hok2 Hev2.
  apply fine_seq; [apply fine_set_pref; eauto with nd|]. intros _ s3 Hok3 Hev3. apply fine_set_state; eauto with nd.
Qed.

Lemma fine_autoconfig s k o a :
  nd_ok s -> k ∈ numbers s -> ip6_wf a -> fine (nd6_process_autoconfig_prefix lwip_rand mld_mac_filter status_callback k o a) s.
Proof.
  intros Hok Hk Ha. unfold nd6_process_autoconfig_prefix. cbv zeta. apply fine_if; intros _; [by apply ok_ret|].
  assert (Hv : forall z, u32_ok (lwip_htonl z)) by (intros z; apply lwip_htonl_range).
  apply ok_netif_at; [done..|]. intros x Hx Hin Hnum Hxok.
  destruct (first_slot_find (LWIP_IPV6_NUM_ADDRESSES - 1) 1 (generated_slot (ndn x) a)) as (r & Er & Hr).
  { intros j Hj. destruct (generated_total x a j Hxok) as (b & Hb & _); [unfold LWIP_IPV6_NUM_ADDRESSES in *; lia|]. by exists b. }
  eapply ok_lift; [exact Er|]. destruct r as [i|]; [|by apply fine_add_generated]. destruct (Hr i eq_refl) as [Hi Ht].
  assert (Hi' : (i < LWIP_IPV6_NUM_ADDRESSES)%nat) by (unfold LWIP_IPV6_NUM_ADDRESSES in *; lia).
  apply fine_update_lifetimes; [done..|]. intros y Hy. rewrite Hx in Hy. injection Hy as <-.
  destruct (generated_total x a i Hxok Hi') as (b & Hb & Hst). apply Hst. congruence.
Qed.

(** ** The packet *)

(** A message of at least eight bytes in one buffer, its header at [hdr], from the
    interface [k].  Where an interface has link-layer addresses the buffer has room for
    one behind the packet: the option is copied by the length of the address, not by its
    own. *)
Record arrived (hdr : Z) (p : loc) (b : pbuf) (bs : list Z) (k : Z) (s : nd_world) : Prop := {
  ar_owned : owned (host s) p b bs;
  ar_len : (8 <= length bs)%nat;
  ar_hdr : 0 <= hdr /\ hdr + 8 <= Z.of_nat (length (pb_buf b));
  ar_src : ip6_wf (w_cur_src (host s));
  ar_netif : k ∈ numbers s;
  ar_room : Forall (fun y => pb_payload b + pb_len b + y.2 <= Z.of_nat (length (pb_buf b))) (link <$> nd_netifs s)
}.
Lemma arrived_evolves hdr p b bs k s s' : arrived hdr p b bs k s -> evolves s s' -> arrived hdr p b bs k s'.
Proof.
  intros [Ho Hl Hh Hs Hk Hr] Hev. pose proof (evolves_num _ _ Hev) as En. destruct Hev as [(es & n & Ew) El].
  split; [by rewrite Ew|done|done|by rewrite Ew|by rewrite En|by rewrite El].
Qed.
Hint Resolve arrived_evolves : nd.

Section packet.
Context (hdr : Z) (p : loc) (b : pbuf) (bs : list Z) (k : Z).
Abbreviation arr := (arrived hdr p b bs k).

Lemma arr_single s : arr s -> single (w_pbufs (host s)) p b bs.
Proof. by intros [[? _] _ _ _ _ _]. Qed.

Lemma ok_pn {B} s (f : node pbuf -> M nd_world B) P : arr s -> ok (f (Node b None)) s P -> ok (in_node (pb_node p) ≫= f) s P.
Proof. intros Ha Hf. eapply ok_node_read; [by eapply pb_node_exec, arr_single|done]. Qed.
Lemma ok_bytes {B} s off n (f : list Z -> M nd_world B) P :
  arr s -> 0 <= off -> 0 <= n -> off + n <= Z.of_nat (length bs) ->
  ok (f (slice (Z.to_nat off) (Z.to_nat n) bs)) s P -> ok (in_node (pread p off n) ≫= f) s P.
Proof. intros Ha ? ? ? Hf. eapply ok_node_read; [by eapply pread_exec; [by apply arr_single|..]|done]. Qed.
Lemma ok_byte {B} s off (f : Z -> M nd_world B) P :
  arr s -> 0 <= off < Z.of_nat (length bs) -> ok (f (byte_at (Z.to_nat off) bs)) s P -> ok (in_node (pread8 p off) ≫= f) s P.
Proof. intros Ha ? Hf. eapply ok_node_read; [by eapply pread8_exec; [by apply arr_single|..]|done]. Qed.
Lemma arr_length s : arr s -> Z.of_nat (length bs) = pb_len b.
Proof. intros Ha. eapply single_length, arr_single, Ha. Qed.
Lemma arr_bytes s : arr s -> Forall is_byte bs.
Proof. intros Ha. destruct (arr_single s Ha) as (_ & Hb & _ & <-). by apply seg_bytes_byte. Qed.

Lemma ok_addr {B} s off (f : ip6_addr -> M nd_world B) P :
  arr s -> 0 <= off -> off + 16 <= Z.of_nat (length bs) ->
  (forall a, ip6_wf a -> a = ip6_of_bytes (slice (Z.to_nat off) 16 bs) -> ok (f a) s P) -> ok (packed_addr p off ≫= f) s P.
Proof.
  intros Ha Ho Hl Hf. eapply (ok_read _ _ _ (ip6_of_bytes (slice (Z.to_nat off) 16 bs))).
  - unfold packed_addr. erewrite bind_exec; [done|]. apply in_node_read. eapply pread_exec; [by apply arr_single|lia..].
  - apply Hf; [|done]. apply ip6_of_bytes_wf; [rewrite length_slice; lia|apply Forall_slice; by eapply arr_bytes].
Qed.
Lemma hoplim_exec s : arr s -> current_hoplim hdr p s = Ret (byte_at (Z.to_nat (hdr + OFF_HOPLIM)) (pb_buf b), s).
Proof.
  intros Ha. destruct (ar_hdr _ _ _ _ _ _ Ha) as [Hh1 Hh2]. apply in_node_read. unfold pread8_at, pread_at.
  rewrite (bind_exec _ _ (host s) (slice (Z.to_nat (hdr + OFF_HOPLIM)) 1 (pb_buf b)) (host s)).
  - unfold OFF_HOPLIM. by rewrite byte_at_slice by lia.
  - rewrite (bind_exec _ _ _ _ _ (pb_node_exec _ _ _ _ (arr_single s Ha))). unfold lift. cbn [n_val].
    rewrite rd_ok by (unfold OFF_HOPLIM; lia). done.
Qed.
Lemma ok_hoplim {B} s (f : Z -> M nd_world B) P : arr s -> (forall hl, ok (f hl) s P) -> ok (current_hoplim hdr p ≫= f) s P.
Proof. intros Ha Hf. eapply ok_read; [by apply hoplim_exec|apply Hf]. Qed.
Lemma ok_current {B} s (f : ip6_addr * ip6_addr -> M nd_world B) P :
  ok (f (w_cur_src (host s), w_cur_dest (host s))) s P -> ok (current_addrs ≫= f) s P.
Proof. intros Hf. eapply ok_read; [|exact Hf]. unfold current_addrs. erewrite bind_exec; [done|]. by apply in_node_read. Qed.

Lemma fits_exec s size : arr s -> 0 <= size -> lladdr_fits p size s =
  Ret ((size + 2 <=? pb_len b) && negb (pb_len b <? size + Z.shiftl (byte_at (Z.to_nat (size + 1)) bs) 3), s).
Proof.
  intros Ha Hz. pose proof (arr_length s Ha) as Hl. pose proof (pb_node_exec _ _ _ _ (arr_single s Ha)) as En. apply in_node_read in En.
  unfold lladdr_fits. rewrite (bind_exec _ _ _ _ _ En). cbn [n_val]. destruct (Z.ltb_spec (pb_len b) (size + 2)).
  - by rewrite (proj2 (Z.leb_gt _ _)) by lia.
  - rewrite (proj2 (Z.leb_le _ _)) by lia. erewrite bind_exec; [done|]. apply in_node_read. eapply pread8_exec; [by apply arr_single|lia].
Qed.
(** The option that fits is at least two bytes. *)
Lemma ok_fits {B} s size (f : bool -> M nd_world B) P :
  arr s -> 0 <= size -> (forall fits : bool, (fits = true -> size + 2 <= pb_len b) -> ok (f fits) s P) -> ok (lladdr_fits p size ≫= f) s P.
Proof.
  intros Ha Hz Hf. eapply ok_read; [by apply fits_exec|]. apply Hf. intros [Hle%Z.leb_le _]%andb_true_iff. done.
Qed.

(** The link-layer address is read. *)
Lemma ok_copy s i size e (P : unit -> nd_world -> Prop) :
  nd_ok s -> arr s -> 0 <= size -> size + 2 <= pb_len b -> neighbor_cache (nds s) !! i = Some e ->
  (forall l, length l = 6%nat ->
    let e' := mk_neighbor (next_hop_address e) (nc_netif e) l (nc_q e) (nc_state e) (isrouter e) (counter e) in
    nd_ok (put_nds (with_neighbors (<[i := e']> (neighbor_cache (nds s))) (nds s)) s) ->
    P tt (put_nds (with_neighbors (<[i := e']> (neighbor_cache (nds s))) (nds s)) s)) ->
  ok (copy_lladdr i p size k) s P.
Proof.
  intros Hok Ha Hz Hfit He HP. unfold copy_lladdr. apply ok_netif_at; [done|apply Ha|]. intros x Hx Hin Hnum Hxok.
  pose proof (hw_len _ (nn_hw _ Hxok)) as Hhl. pose proof (neighbor_entry_ok _ _ (no_tables _ Hok) _ _ He) as Hn.
  assert (Hroom : pb_payload b + pb_len b + nif_hwaddr_len (ndn x) <= Z.of_nat (length (pb_buf b))).
  { pose proof (ar_room _ _ _ _ _ _ Ha) as Hr. rewrite Forall_fmap, Forall_forall in Hr. exact (Hr x Hin). }
  destruct (arr_single s Ha) as (Hp & Hseg & Ht & Hbs). pose proof Hseg as (? & ? & ? & ? & _).
  eapply ok_node_read.
  { unfold pread. rewrite (bind_exec _ _ _ _ _ (pb_node_exec _ _ _ _ (arr_single s Ha))). unfold lift, payload_rd. cbn [n_val]. rewrite rd_ok by lia. done. }
  set (addr := slice _ _ _). assert (Hal : (length addr <= 6)%nat) by (unfold addr; rewrite length_slice by lia; lia).
  assert (Hok' : nd_ok (put_nds (with_neighbors (<[i := with_lladdr addr e]> (neighbor_cache (nds s))) (nds s)) s)).
  { apply put_nds_ok; [done|]. eapply set_neighbor_ok; [apply Hok|exact He| |done|by left]. pose proof (nb_lladdr _ _ Hn) as Hl6.
    destruct Hn. split; cbn; try done. by rewrite length_splice by (rewrite Hl6; lia). }
  eapply ok_exec; [by apply upd_neighbor_exec|done|apply put_nds_evolves|].
  apply (HP (splice 0 addr (lladdr e))); [|done]. rewrite length_splice by (rewrite (nb_lladdr _ _ Hn); lia). apply Hn.
Qed.

(** A change of an entry that keeps its address and whether it is a router. *)
Lemma ok_change s i f e :
  nd_ok s -> neighbor_cache (nds s) !! i = Some e -> neighbor_ok (numbers s) (f e) -> isrouter (f e) = isrouter e ->
  next_hop_address (f e) = next_hop_address e -> ok (upd_neighbor i f) s (fun _ s' => neighbor_cache (nds s') !! i = Some (f e)).
Proof.
  intros Hok He Hn Hr Ha. eapply ok_upd_neighbor; [done|exact He|done|done|by left|]. cbn.
  by rewrite list_lookup_insert_eq by (by eapply lookup_lt_Some).
Qed.
Lemma netif_set_ok ks e : neighbor_ok ks e -> k ∈ ks -> neighbor_ok ks (with_nc_netif (Some k) e).
Proof. intros [] Hk. split; cbn; try done. by intros ? [= <-]. Qed.
Lemma state_set_ok ks e st c : neighbor_ok ks e -> is_Some (nc_netif e) -> st <> ND6_NO_ENTRY -> u32_ok c -> neighbor_ok ks (with_nc_state st c e).
Proof. intros [] Hk Hst Hc. by split. Qed.

(** A copied address in an entry of any kind. *)
Lemma ok_copy_entry s i size e :
  nd_ok s -> arr s -> 0 <= size -> size + 2 <= pb_len b -> neighbor_cache (nds s) !! i = Some e ->
  ok (copy_lladdr i p size k) s (fun _ s' => exists e', neighbor_cache (nds s') !! i = Some e' /\ nc_netif e' = nc_netif e /\ nc_state e' = nc_state e).
Proof.
  intros Hok Ha Hz Hf He. eapply ok_copy; [done..|]. intros l Hl e' _. exists e'. cbn.
  by rewrite list_lookup_insert_eq by (by eapply lookup_lt_Some).
Qed.

(** An entry that was not reachable is delayed. *)
Lemma fine_delay s i e :
  nd_ok s -> neighbor_cache (nds s) !! i = Some e -> is_Some (nc_netif e) -> fine (upd_neighbor i delay_entry) s.
Proof.
  intros Hok He Hk. pose proof (neighbor_entry_ok _ _ (no_tables _ Hok) _ _ He) as Hn.
  eapply fine_any, ok_change; [done|exact He|by apply state_set_ok|done|done].
Qed.

(** Only the neighbours changed, and entry [i] is [a] in a state. *)
Definition known_as (a : ip6_addr) (st : nd6_neighbor_cache_entry_state) (i : nat) (s s' : nd_world) : Prop :=
  exists c e, s' = put_nds (with_neighbors c (nds s)) s /\ c !! i = Some e /\ next_hop_address e = a /\ nc_state e = st.

(** A neighbour that was heard for the first time. *)
Lemma ok_heard s0 s i size a :
  nd_ok s -> arr s -> entry_taken s0 (Some i) s -> nd6_find_neighbor_cache_entry (nds s0) a = None -> ip6_wf a ->
  0 <= size -> size + 2 <= pb_len b -> ok (heard_neighbor i p size k a) s (fun _ s' => known_as a ND6_DELAY i s s').
Proof.
  intros Hok Ha Htk Hno Hwf Hz Hf. pose proof Htk as (c & E & Hc). destruct (Hc i eq_refl) as (e & He & Hst & Hi & Hoth).
  assert (He0 : neighbor_cache (nds s) !! i = Some e) by (by rewrite E). pose proof (neighbor_entry_ok _ _ (no_tables _ Hok) _ _ He0) as Hn.
  destruct (nb_unused _ _ Hn Hst) as [_ Hr]. unfold heard_neighbor.
  assert (Hlt : (i < length c)%nat) by (by eapply lookup_lt_Some).
  assert (Hput : forall e', nc_state e' = ND6_NO_ENTRY -> entry_taken s0 (Some i) (put_nds (with_neighbors (<[i := e']> c) (nds s)) s)).
  { intros e' Hst'. exists (<[i := e']> c). split; [by rewrite E|]. intros i' [= <-]. exists e'.
    rewrite list_lookup_insert_eq by done. split_and!; [done..|]. intros j e1 [(<- & _)|[_ Hj]]%list_lookup_insert_Some; [by left|by apply Hoth]. }
  eapply (ok_bind _ _ _ (fun _ s1 => s1 = put_nds (with_neighbors (<[i := with_nc_netif (Some k) e]> c) (nds s)) s)).
  { eapply ok_upd_neighbor; [done|exact He0|apply netif_set_ok; [done|apply Ha]|done|by left|]. do 3 f_equal. by rewrite E. }
  intros _ s1 Hok1 Hev1 E1. assert (Ha1 : arr s1) by eauto with nd.
  eapply (ok_bind _ _ _ (fun _ s2 => exists e2, s2 = put_nds (with_neighbors (<[i := e2]> c) (nds s)) s /\ nc_netif e2 = Some k /\ nc_state e2 = ND6_NO_ENTRY)).
  { eapply ok_copy; [done|done|done|done|rewrite E1; cbn; by rewrite list_lookup_insert_eq|]. intros l Hl e2 _. exists e2.
    split; [|done]. rewrite E1. cbn. by rewrite list_insert_insert_eq. }
  intros _ s2 Hok2 Hev2 (e2 & E2 & Hk2 & Hst2). assert (He2 : neighbor_cache (nds s2) !! i = Some e2) by (rewrite E2; cbn; by rewrite list_lookup_insert_eq).
  assert (Ht2 : entry_taken s0 (Some i) s2) by (rewrite E2; by apply Hput).
  pose proof (neighbor_entry_ok _ _ (no_tables _ Hok2) _ _ He2) as Hn2. destruct (nb_unused _ _ Hn2 Hst2) as [_ Hr2].
  assert (Htab : tables_ok (numbers s2) (with_neighbors (<[i := delay_entry (with_next_hop a e2)]> (neighbor_cache (nds s2))) (nds s2))).
  { eapply (taken_entry_ok s0 (Some i) s2 i (fun e => delay_entry (with_next_hop a e)) a e2); [done|done|done|done|done|done|done|].
    destruct Hn2. split; cbn; done. }
  apply wp_bind. eapply wp_exec; [by apply upd_neighbor_exec|]. eapply wp_exec.
  { apply upd_neighbor_exec. cbn. rewrite list_lookup_insert_eq by (by eapply lookup_lt_Some). done. }
  cbn [nds put_nds with_neighbors neighbor_cache]. rewrite list_insert_insert_eq.
  split; [exact (put_nds_ok _ _ Hok2 Htab)|]. split; [by split|]. rewrite E2. cbn. rewrite list_insert_insert_eq.
  exists (<[i := delay_entry (with_next_hop a e2)]> c), (delay_entry (with_next_hop a e2)). rewrite list_lookup_insert_eq by done. done.
Qed.
Lemma fine_heard s0 s i size a :
  nd_ok s -> arr s -> entry_taken s0 (Some i) s -> nd6_find_neighbor_cache_entry (nds s0) a = None -> ip6_wf a ->
  0 <= size -> size + 2 <= pb_len b -> fine (heard_neighbor i p size k a) s.
Proof. intros. eapply fine_any. by eapply ok_heard. Qed.

(** *** Advertisements of neighbours *)

Lemma conflicting_total x a i : nd_netif_ok x -> (i < LWIP_IPV6_NUM_ADDRESSES)%nat -> exists r, conflicting_slot (ndn x) a i = Ret r.
Proof.
  intros Hx Hi. unfold conflicting_slot. rewrite (slot_state x Hx i Hi). cbn [mbind outcome_bind].
  destruct (_ && _); [|by eexists]. destruct (slot_addr x Hx i Hi) as [-> _]. by eexists.
Qed.

Lemma fine_unsolicited s a flags :
  nd_ok s -> arr s -> fine (unsolicited_na lwip_rand mld_mac_filter status_callback p k a flags) s.
Proof.
  intros Hok Ha. pose proof (ar_netif _ _ _ _ _ _ Ha) as Hk. unfold unsolicited_na. apply ok_netif_at; [done..|]. intros x Hx _ _ Hxok.
  destruct (first_slot_find LWIP_IPV6_NUM_ADDRESSES 0 (conflicting_slot (ndn x) a)) as (r & Er & Hr).
  { intros j Hj. apply conflicting_total; [done|lia]. }
  eapply ok_lift; [exact Er|]. destruct r as [i|]; [destruct (Hr i eq_refl); apply fine_duplicate; [done|done|lia]|].
  apply ok_fits; [done|by vm_compute|]. intros fits Hfit. apply fine_if; intros Hneg; [by apply ok_ret|]. apply negb_false_iff in Hneg.
  apply ok_get_nd. destruct (nd6_find_neighbor_cache_entry (nds s) a) as [i|] eqn:Ef; [|by apply ok_ret].
  apply fine_if; intros _; [|by apply ok_ret]. destruct (found _ _ _ Ef) as (e & He & _). eapply fine_any, ok_copy_entry; eauto; by vm_compute.
Qed.

Lemma fine_solicited s a flags : nd_ok s -> arr s -> fine (solicited_na p k a flags) s.
Proof.
  intros Hok Ha. pose proof (ar_netif _ _ _ _ _ _ Ha) as Hk. unfold solicited_na. apply ok_get_nd.
  destruct (nd6_find_neighbor_cache_entry (nds s) a) as [i|] eqn:Ef; [|by apply ok_ret].
  destruct (found _ _ _ Ef) as (e & He & _). pose proof (neighbor_bound _ _ (no_tables _ Hok) _ _ He) as Hi.
  eapply ok_read; [by apply neighbor_exec|]. apply fine_seq.
  { apply fine_if; intros _; [|by apply ok_ret]. apply ok_fits; [done|by vm_compute|]. intros fits Hfit.
    apply fine_if; intros Hneg; [by apply ok_ret|]. apply negb_false_iff in Hneg.
    apply fine_seq; [eapply fine_any, ok_copy_entry; eauto; by vm_compute|]. intros _ s1 Hok1 _. by apply ok_ret. }
  intros ok1 s1 Hok1 Hev1. apply fine_if; intros _; [by apply ok_ret|]. assert (Ha1 : arr s1) by eauto with nd.
  destruct (neighbor_lookup _ _ (no_tables _ Hok1) i Hi) as [e1 He1]. pose proof (neighbor_entry_ok _ _ (no_tables _ Hok1) _ _ He1) as Hn1.
  eapply ok_bind; [eapply ok_change; [done|exact He1|apply netif_set_ok; [done|apply Ha1]|done|done]|]. intros [] s2 Hok2 Hev2 He2. apply ok_get_nd.
  pose proof (neighbor_entry_ok _ _ (no_tables _ Hok2) _ _ He2) as Hn2.
  eapply ok_bind; [eapply ok_change; [done|exact He2|apply state_set_ok; [done|by eexists|done|apply (no_tables _ Hok2)]|done|done]|].
  intros [] s3 Hok3 Hev3 He3. pose proof (neighbor_entry_ok _ _ (no_tables _ Hok3) _ _ He3) as Hn3.
  eapply ok_read; [by apply neighbor_exec|]. rewrite (nb_q _ _ Hn3). by apply ok_ret.
Qed.

Lemma fine_na s : nd_ok s -> arr s -> fine (nd6_input_na lwip_rand mld_mac_filter status_callback hdr p k) s.
Proof.
  intros Hok Ha. pose proof (arr_length s Ha) as Hl. unfold nd6_input_na, sizeof_na_header. apply ok_pn; [done|]. cbn [n_val].
  destruct (Z.ltb_spec (pb_len b) 24); [by apply ok_ret|]. apply ok_netif_at; [done|apply Ha|]. intros x _ _ _ Hxok.
  apply ok_addr; [done|lia|lia|]. intros a Hwf _. cbv zeta. apply ok_hoplim; [done|]. intros hl. apply ok_byte; [done|lia|].
  apply fine_if; intros _; [by apply ok_ret|]. apply ok_byte; [done|lia|]. apply ok_current.
  apply fine_if; intros _; [by apply fine_unsolicited|by apply fine_solicited].
Qed.

(** *** Solicitations *)

Lemma accepting_total x src a i : nd_netif_ok x -> (i < LWIP_IPV6_NUM_ADDRESSES)%nat -> exists r, accepting_slot (ndn x) src a i = Ret r.
Proof.
  intros Hx Hi. unfold accepting_slot. rewrite (slot_state x Hx i Hi). cbn [mbind outcome_bind].
  destruct (_ || _); [|by eexists]. destruct (slot_addr x Hx i Hi) as [-> _]. by eexists.
Qed.

Lemma fine_send_na s x a flags :
  nd_ok s -> arr s -> nd_netif_ok x -> is_byte (Z.land flags 0xf0) -> ip6_wf a -> fine (nd6_send_na (ndn x) a flags) s.
Proof. intros Hok Ha Hx Hfl Hwf. eapply fine_any, ok_send_na; try done; [apply Hx..|apply Ha]. Qed.

Lemma fine_dad s a : nd_ok s -> arr s -> fine (ns_dad lwip_rand mld_mac_filter status_callback k a) s.
Proof.
  intros Hok Ha. apply fine_each; [done|]. intros i s1 Hi Hok1 Hev1. apply elem_of_seq in Hi. assert (Ha1 : arr s1) by eauto with nd.
  assert (Hi' : (i < LWIP_IPV6_NUM_ADDRESSES)%nat) by lia. apply ok_netif_at; [done|apply Ha1|]. intros x _ _ _ Hx.
  eapply ok_lift; [by apply slot_state|]. apply fine_if; intros _; [by apply ok_ret|]. destruct (slot_addr x Hx i Hi') as [-> Hwf]. eapply ok_lift; [done|].
  apply fine_if; intros _; [|by apply ok_ret]. apply fine_seq; [apply fine_send_na; try done; by vm_compute|]. intros _ s2 Hok2 Hev2.
  apply fine_if; intros _; [|by apply ok_ret]. pose proof (ar_netif _ _ _ _ _ _ Ha1). apply fine_duplicate; eauto with nd.
Qed.

(** The sender of a solicitation is known afterwards, unless there is no room for it. *)
Definition sender_known (src : ip6_addr) (r : bool) (s s' : nd_world) : Prop :=
  if r then exists i st, st <> ND6_NO_ENTRY /\ st <> ND6_INCOMPLETE /\ known_as src st i s s'
  else s' = s /\ nd6_find_neighbor_cache_entry (nds s) src = None /\ nd6_new_neighbor_cache_entry s = Ret (None, s).

Lemma ok_sender s src :
  nd_ok s -> arr s -> ip6_wf src -> src <> ip6_addr_any -> sizeof_ns_header + 2 <= pb_len b ->
  ok (match nd6_find_neighbor_cache_entry (nds s) src with
      | Some i =>
          e ← neighbor i;
          (if bool_decide (nc_state e = ND6_INCOMPLETE) then
             upd_neighbor i (with_nc_netif (Some k));;
             copy_lladdr i p sizeof_ns_header k;;
             upd_neighbor i delay_entry
           else mret tt);;
          mret true
      | None =>
          io ← nd6_new_neighbor_cache_entry;
          match io with
          | None => mret false
          | Some i => heard_neighbor i p sizeof_ns_header k src;; mret true
          end
      end) s (fun r s' => sender_known src r s s').
Proof.
  intros Hok Ha Hsrc Hany Hfit. destruct (nd6_find_neighbor_cache_entry (nds s) src) as [i|] eqn:Ef.
  - destruct (found _ _ _ Ef) as (e & He & Hae). eapply ok_read; [by apply neighbor_exec|].
    pose proof (neighbor_entry_ok _ _ (no_tables _ Hok) _ _ He) as Hn. pose proof (lookup_lt_Some _ _ _ He) as Hlt.
    assert (Hact : nc_state e <> ND6_NO_ENTRY) by (intros Hst; destruct (nb_unused _ _ Hn Hst); congruence).
    eapply (ok_bind _ _ _ (fun _ s' => exists st, st <> ND6_NO_ENTRY /\ st <> ND6_INCOMPLETE /\ known_as src st i s s')).
    2: { intros _ s' Hok' _ (st & ? & ? & Hk). apply ok_ret; [done|]. by exists i, st. }
    apply fine_if; intros Hst.
    + eapply (ok_bind _ _ _ (fun _ s1 => s1 = put_nds (with_neighbors (<[i := with_nc_netif (Some k) e]> (neighbor_cache (nds s))) (nds s)) s)).
      { eapply ok_upd_neighbor; [done|exact He|apply netif_set_ok; [done|apply Ha]|done|by left|done]. }
      intros _ s1 Hok1 Hev1 E1. assert (He1 : neighbor_cache (nds s1) !! i = Some (with_nc_netif (Some k) e)) by (rewrite E1; by apply list_lookup_insert_eq).
      eapply (ok_bind _ _ _ (fun _ s2 => exists e2, s2 = put_nds (with_neighbors (<[i := e2]> (neighbor_cache (nds s))) (nds s)) s /\
        nc_netif e2 = Some k /\ next_hop_address e2 = src)).
      { eapply ok_copy; [done|eauto with nd|by vm_compute|done|exact He1|]. intros l Hl e2 _. exists e2. split; [|done].
        rewrite E1. cbn. by rewrite list_insert_insert_eq. }
      intros _ s2 Hok2 Hev2 (e2 & E2 & Hk2 & Ha2). assert (He2 : neighbor_cache (nds s2) !! i = Some e2) by (rewrite E2; by apply list_lookup_insert_eq).
      pose proof (neighbor_entry_ok _ _ (no_tables _ Hok2) _ _ He2) as Hn2.
      eapply ok_upd_neighbor; [done|exact He2|by apply state_set_ok|done|by left|]. exists ND6_DELAY. split; [done|]. split; [done|].
      rewrite E2. cbn. rewrite list_insert_insert_eq. eexists _, (delay_entry e2). split; [done|]. by rewrite list_lookup_insert_eq.
    + apply bool_decide_eq_false in Hst. apply ok_ret; [done|]. exists (nc_state e). split; [done|]. split; [done|].
      exists (neighbor_cache (nds s)), e. split; [by destruct s as [? ? []]|done].
  - destruct (wp_elim _ _ _ (ok_new_neighbor s Hok)) as (r & s1 & E1 & Hok1 & Hev1 & Htk). eapply ok_bind; [by eapply (ok_exec _ _ _ _ (fun r' s' => r' = r /\ s' = s1))|].
    intros r' s1' _ _ [-> ->]. destruct r as [i|].
    + eapply ok_bind; [eapply ok_heard; [done|eauto with nd|exact Htk|done|done|by vm_compute|done]|]. intros [] s2 Hok2 _ (c & e & E2 & Hc & Hea & Hst).
      apply ok_ret; [done|]. exists i, ND6_DELAY. split; [done|]. split; [done|]. exists c, e. split; [|done]. destruct Htk as (c1 & -> & _). exact E2.
    + apply ok_ret; [done|]. pose proof (neighbor_none s s1 E1) as ->. done.
Qed.

Lemma fine_resolve s src a :
  nd_ok s -> arr s -> ip6_wf src -> src <> ip6_addr_any -> ip6_wf a -> sizeof_ns_header + 2 <= pb_len b -> fine (ns_resolve p k src a) s.
Proof.
  intros Hok Ha Hsrc Hany Hwf Hfit. unfold ns_resolve. apply ok_get_nd. apply fine_seq; [by eapply fine_any, ok_sender|].
  intros ok1 s1 Hok1 Hev1. assert (Ha1 : arr s1) by eauto with nd. apply fine_if; intros _; [|by apply ok_ret].
  apply ok_netif_at; [done|apply Ha1|]. intros x _ _ _ Hx. apply fine_send_na; done.
Qed.

Lemma fine_ns s : nd_ok s -> arr s -> fine (nd6_input_ns lwip_rand mld_mac_filter status_callback hdr p k) s.
Proof.
  intros Hok Ha. pose proof (arr_length s Ha) as Hl. unfold nd6_input_ns. change sizeof_ns_header with 24. apply ok_pn; [done|]. cbn [n_val].
  destruct (Z.ltb_spec (pb_len b) 24); [by apply ok_ret|]. apply ok_netif_at; [done|apply Ha|]. intros x _ _ _ Hxok.
  apply ok_addr; [done|lia|lia|]. intros a Hwf _. cbv zeta. apply ok_hoplim; [done|]. intros hl. apply ok_byte; [done|lia|].
  apply fine_if; intros _; [by apply ok_ret|]. apply ok_fits; [done|lia|]. intros fits Hfit. apply ok_current. cbn [fst].
  destruct (first_slot_find LWIP_IPV6_NUM_ADDRESSES 0 (accepting_slot (ndn x) (w_cur_src (host s)) (ip6_addr_assign_zone a IP6_UNICAST (ndn x)))) as (r & Er & _).
  { intros j Hj. apply accepting_total; [done|lia]. }
  eapply ok_lift; [exact Er|]. destruct r as [i|]; [|by apply ok_ret]. apply fine_if; intros Hsa; [by apply fine_dad|].
  apply fine_if; intros Hneg; [by apply ok_ret|]. apply negb_false_iff in Hneg.
  apply fine_resolve; [done|done|apply Ha|by intros E; rewrite E in Hsa|by apply assign_zone_wf|by apply Hfit].
Qed.

(** *** Redirects and packets that were too big *)

Lemma fine_redirect_lladdr s a :
  nd_ok s -> arr s -> ip6_wf a -> sizeof_redirect_header + 2 <= pb_len b -> fine (redirect_lladdr p k a) s.
Proof.
  intros Hok Ha Hwf Hfit. pose proof (arr_length s Ha) as Hl. unfold redirect_lladdr. unfold sizeof_redirect_header in Hfit.
  apply ok_byte; [done|unfold sizeof_redirect_header; lia|].
  apply fine_if; intros _; [|by apply ok_ret]. apply ok_get_nd.
  eapply (ok_bind _ _ _ (fun r _ => forall i, r = Some i -> (i < LWIP_ND6_NUM_NEIGHBORS)%nat)).
  - destruct (nd6_find_neighbor_cache_entry (nds s) a) as [i|] eqn:Ef.
    + apply ok_ret; [done|]. intros i' [= <-]. destruct (found _ _ _ Ef) as (e & He & _). by eapply neighbor_bound, He; apply Hok.
    + eapply ok_bind; [by apply ok_new_neighbor|]. intros [i|] s1 Hok1 Hev1 Htk; [|by apply ok_ret].
      apply fine_seq; [eapply fine_heard; [done|eauto with nd|exact Htk|done|done|by vm_compute|done]|]. intros _ s2 Hok2 _. apply ok_ret; [done|].
      intros i' [= <-]. destruct Htk as (c & _ & Hc). by destruct (Hc i eq_refl) as (? & _ & _ & ? & _).
  - intros [i|] s1 Hok1 Hev1 Hi; [|by apply ok_ret]. specialize (Hi i eq_refl). apply ok_neighbor; [done..|]. intros e He Hn.
    apply fine_if; intros Hst; [|by apply ok_ret]. apply bool_decide_eq_true in Hst.
    eapply ok_bind; [eapply ok_copy_entry; [done|eauto with nd|by vm_compute|done|exact He]|]. intros [] s2 Hok2 Hev2 (e2 & He2 & Hk2 & _).
    eapply fine_delay; [done|exact He2|]. rewrite Hk2. apply Hn. congruence.
Qed.

Lemma fine_rd s : nd_ok s -> arr s -> fine (nd6_input_rd hdr p k) s.
Proof.
  intros Hok Ha. pose proof (arr_length s Ha) as Hl. unfold nd6_input_rd. change sizeof_redirect_header with 40. apply ok_pn; [done|]. cbn [n_val].
  destruct (Z.ltb_spec (pb_len b) 40); [by apply ok_ret|]. apply ok_netif_at; [done|apply Ha|]. intros x _ _ _ Hxok.
  apply ok_addr; [done|lia|lia|]. intros d _ _. cbv zeta. apply ok_current. apply ok_hoplim; [done|]. intros hl. apply ok_byte; [done|lia|].
  apply fine_if; intros _; [by apply ok_ret|]. apply ok_fits; [done|lia|]. intros fits Hfit. apply ok_get_nd.
  destruct (nd6_find_destination_cache_entry (nds s) _) as [di|] eqn:Ed; [|by apply ok_ret].
  apply ok_addr; [done|lia|lia|]. intros a Hwf _. pose proof (assign_zone_wf a IP6_UNICAST (ndn x) Hwf) as Hz.
  pose proof (find_destination_lt _ _ _ _ (no_tables _ Hok) Ed) as Hdi.
  apply fine_seq; [apply fine_upd_destination; [done|done|]; intros e []; by split|]. intros _ s1 Hok1 Hev1.
  apply fine_if; intros Hf; [|by apply ok_ret]. apply fine_redirect_lladdr; [done|eauto with nd|done|by apply Hfit].
Qed.

Lemma fine_ptb s : nd_ok s -> arr s -> fine (nd6_input_ptb p k) s.
Proof.
  intros Hok Ha. pose proof (arr_length s Ha) as Hl. unfold nd6_input_ptb. change (ICMP6_HLEN + IP6_HLEN) with 48. apply ok_pn; [done|]. cbn [n_val].
  destruct (Z.ltb_spec (pb_len b) 48); [by apply ok_ret|]. apply ok_netif_at; [done|apply Ha|]. intros x _ _ _ Hxok.
  apply ok_addr; [done|by vm_compute|change (ICMP6_HLEN + OFF_DEST) with 32; lia|]. intros d _ _. cbv zeta. apply ok_get_nd.
  destruct (nd6_find_destination_cache_entry (nds s) _) as [di|] eqn:Ed; [|by apply ok_ret]. apply ok_bytes; [done|lia|lia|lia|].
  apply fine_upd_destination; [done|by eapply find_destination_lt; [apply Hok|]|]. intros e []. split; try done. apply u16_range.
Qed.

(** *** Advertisements of routers *)

Lemma fine_stop_soliciting s : nd_ok s -> k ∈ numbers s -> fine (ra_stop_soliciting k) s.
Proof.
  intros Hok Hk. unfold ra_stop_soliciting. apply ok_netif_at; [done..|]. intros x _ _ _ Hx. apply fine_seq.
  - apply fine_if; intros _; [by apply ok_ret|]. apply fine_seq; [eapply fine_any, ok_send_rs; [done|apply Hx..]|]. intros e s1 Hok1 _. by apply ok_ret.
  - intros ok1 s1 Hok1 _. apply fine_rs_count; [done|]. destruct ok1; lia.
Qed.

(** Changing what else is known of a router. *)
Lemma fine_set_router s i f :
  nd_ok s -> (forall r, neighbor_entry (f r) = neighbor_entry r /\ (u32_ok (rl_timer r) -> u32_ok (rl_timer (f r)))) ->
  fine (modify_nd (fun t => with_routers (alter f i (default_router_list t)) t)) s.
Proof.
  intros Hok Hf. pose proof (no_tables _ Hok) as Ht. apply ok_modify_nd; [done| |done]. apply set_routers_ok; [done|by rewrite length_alter, (to_routers_len _ _ Ht)| |].
  - apply list_eq. intros j. rewrite !list_lookup_fmap. destruct (decide (i = j)) as [<-|N]; [|by rewrite list_lookup_alter_ne].
    rewrite list_lookup_alter_eq. destruct (_ !! i) as [r|]; [|done]. cbn. f_equal. apply Hf.
  - apply Forall_alter; [apply (ro_timer _ _ (to_routers _ _ Ht))|]. intros r _ Hr. by apply Hf.
Qed.

Lemma fine_ra_lladdr s i o : nd_ok s -> k ∈ numbers s -> (i < LWIP_ND6_NUM_ROUTERS)%nat -> fine (ra_lladdr i k o) s.
Proof.
  intros Hok Hk Hi. unfold ra_lladdr. apply ok_netif_at; [done..|]. intros x _ _ _ Hx. apply fine_if; intros _; [by apply ok_ret|]. apply ok_get_nd.
  destruct (lookup_lt_is_Some_2 (default_router_list (nds s)) i) as [r Hr]; [by rewrite (to_routers_len _ _ (no_tables _ Hok))|].
  eapply ok_lift; [by rewrite Hr|]. apply fine_seq; [|intros _ s1 Hok1 _; by apply ok_ret].
  destruct (neighbor_entry r) as [j|] eqn:Ej; [|by apply ok_ret]. destruct (router_neighbor s Hok _ _ _ Hr Ej) as (e & He & Hn & _ & Hst).
  eapply ok_read; [by apply neighbor_exec|]. apply fine_if; intros _; [|by apply ok_ret].
  pose proof (hw_len _ (nn_hw _ Hx)) as Hhl. set (a := slice _ _ _).
  assert (Hal : (length a <= 6)%nat) by (unfold a, slice; rewrite length_take; lia).
  eapply ok_bind; [eapply ok_change; [done|exact He| |done|done]|].
  { pose proof (nb_lladdr _ _ Hn) as Hl6. destruct Hn. split; cbn; try done. by rewrite length_splice by (rewrite Hl6; lia). }
  intros [] s1 Hok1 Hev1 He1. pose proof (neighbor_entry_ok _ _ (no_tables _ Hok1) _ _ He1) as Hn1.
  eapply fine_any, ok_change; [done|exact He1| |done|done]. apply state_set_ok; [done|by apply (nb_active _ _ Hn1)|done|apply (no_tables _ Hok)].
Qed.

Lemma fine_ra_mtu s o : nd_ok s -> fine (ra_mtu k o) s.
Proof.
  intros Hok. unfold ra_mtu. apply fine_if; intros _; [by apply ok_ret|]. cbv zeta. apply fine_seq; [|intros _ s1 Hok1 _; by apply ok_ret].
  apply fine_if; intros _; [|by apply ok_ret]. apply ok_upd_netif; [done|done| |done]. intros x _ _ [[[W1 W2 W3] Hall] P V R [A1 A2 A3] [M1 M2] Hr].
  pose proof (u16_range (lwip_htonl (le_val (slice 4 4 o)))). split; cbn; try done. split; [done|]. destruct (negb _); lia.
Qed.

Lemma fine_on_link s a v : nd_ok s -> k ∈ numbers s -> ip6_wf a -> u32_ok v -> fine (ra_on_link k a v) s.
Proof.
  intros Hok Hk Ha Hv. unfold ra_on_link. apply ok_get_nd. apply fine_seq.
  - destruct (nd6_get_onlink_prefix _ _ _); [by apply ok_ret|]. apply fine_if; intros _; [|by apply ok_ret]. unfold nd6_new_onlink_prefix. apply ok_get_nd.
    destruct (index_of _ _) as [i|]; [|by apply ok_ret]. apply fine_seq; [|intros _ s1 Hok1 _; by apply ok_ret].
    pose proof (no_tables _ Hok) as Ht. apply ok_modify_nd; [done| |done]. apply set_prefixes_ok; [done|by rewrite length_alter, (to_prefixes_len _ _ Ht)|].
    apply Forall_alter; [apply Ht|]. intros e _ []. split; cbn; try done. by intros ? [= <-].
  - intros [i|] s1 Hok1 _; [|by apply ok_ret]. pose proof (no_tables _ Hok1) as Ht. apply ok_modify_nd; [done| |done].
    apply set_prefixes_ok; [done|by rewrite length_alter, (to_prefixes_len _ _ Ht)|]. apply Forall_alter; [apply Ht|]. intros e _ []. by split.
Qed.

Lemma fine_ra_prefix s o :
  nd_ok s -> k ∈ numbers s -> Forall is_byte o -> fine (ra_prefix lwip_rand mld_mac_filter status_callback k o) s.
Proof.
  intros Hok Hk Hb. unfold ra_prefix, sizeof_prefix_option. destruct (Z.ltb_spec (Z.of_nat (length o)) 32); [by apply ok_ret|].
  apply ok_netif_at; [done..|]. intros x _ _ _ Hx. cbv zeta. set (a := ip6_addr_assign_zone _ _ _).
  assert (Ha : ip6_wf a) by (apply assign_zone_wf, ip6_of_bytes_wf; [rewrite length_slice; lia|by apply Forall_slice]).
  apply fine_seq; [|intros _ s1 Hok1 _; by apply ok_ret]. apply fine_if; intros _; [|by apply ok_ret]. apply fine_seq.
  - apply fine_if; intros _; [|by apply ok_ret]. apply fine_on_link; try done. apply lwip_htonl_range.
  - intros _ s1 Hok1 Hev1. apply fine_if; intros _; [|by apply ok_ret]. apply fine_autoconfig; eauto with nd.
Qed.

Lemma fine_ra_option s i o :
  nd_ok s -> k ∈ numbers s -> (i < LWIP_ND6_NUM_ROUTERS)%nat -> Forall is_byte o ->
  fine (ra_option lwip_rand mld_mac_filter status_callback i k o) s.
Proof.
  intros Hok Hk Hi Hb. unfold ra_option. cbv zeta. apply fine_if; intros _; [by apply fine_ra_lladdr|].
  apply fine_if; intros _; [by apply fine_ra_mtu|]. apply fine_if; intros _; [by apply fine_ra_prefix|by apply ok_ret].
Qed.

(** A byte of the packet by its position. *)
Lemma try_get_exec s off : arr s -> 0 <= off < pb_len b ->
  exists v, pbuf_try_get_at (w_pbufs (host s)) (Some p) off = Ret v /\ 0 <= v < 256.
Proof.
  intros Ha Ho. destruct (arr_single s Ha) as (Hp & (? & ? & ? & ? & Hbytes) & _ & _). unfold pbuf_try_get_at, pbuf_skip.
  erewrite oloop_exit by (cbn [fst snd]; rewrite Hp; cbn; by rewrite (proj2 (Z.leb_gt _ _)) by lia). cbn [mbind outcome_bind fst snd].
  rewrite Hp. cbn [deref mbind outcome_bind n_val]. rewrite (proj2 (Z.ltb_lt _ _)) by lia. unfold payload_rd. rewrite rd_ok by lia. cbn [mbind outcome_bind].
  eexists. split; [done|]. set (v := slice _ _ _). assert (Hv : Forall is_byte v) by by apply Forall_slice.
  pose proof (le_val_range v Hv) as Hr. assert (Hl : length v = 1%nat) by (unfold v; rewrite length_slice; lia). rewrite Hl in Hr. cbn in Hr. lia.
Qed.

Lemma ra_bytes_exec s off n : arr s -> 0 <= off -> 0 <= n -> off + n <= pb_len b ->
  ra_bytes p off n s = Ret (Some (slice (Z.to_nat off) (Z.to_nat n) bs), s).
Proof.
  intros Ha ? ? ?. pose proof (arr_length s Ha) as Hl. destruct (arr_single s Ha) as (_ & _ & Ht & _). unfold ra_bytes.
  rewrite (bind_exec _ _ _ _ _ (in_node_read _ _ _ (pb_node_exec _ _ _ _ (arr_single s Ha)))). cbn [n_val]. rewrite Ht, Z.eqb_refl.
  erewrite bind_exec; [done|]. apply in_node_read. eapply pread_exec; [by apply arr_single|lia..].
Qed.

(** The options are gone through one by one and the loop ends. *)
Lemma fine_options s i :
  nd_ok s -> arr s -> (i < LWIP_ND6_NUM_ROUTERS)%nat -> sizeof_ra_header <= pb_tot_len b ->
  fine (loop (S (Z.to_nat (pb_tot_len b))) (ra_body lwip_rand mld_mac_filter status_callback i p k) sizeof_ra_header) s.
Proof.
  intros Hok Ha Hi Hmin. destruct (arr_single s Ha) as (_ & Hseg & Ht & _). pose proof Hseg as (_ & _ & _ & Htot & _).
  unfold fine, ok. apply (wp_loop (fun off s1 => nd_ok s1 /\ evolves s s1 /\ 0 <= off <= pb_tot_len b) (fun off _ => Z.to_nat (pb_tot_len b - off))).
  { split; [done|]. split; [apply evolves_refl|]. unfold sizeof_ra_header in *. lia. }
  { unfold sizeof_ra_header in *. lia. }
  intros off s1 (Hok1 & Hev1 & Hoff). assert (Ha1 : arr s1) by eauto with nd. pose proof (ar_netif _ _ _ _ _ _ Ha1) as Hk1.
  apply (wp_mono _ _ (fun r s2 => nd_ok s2 /\ evolves s1 s2 /\ forall off', r = inl off' -> off < off' <= pb_tot_len b)).
  - change (ok (ra_body lwip_rand mld_mac_filter status_callback i p k off) s1 (fun r _ => forall off', r = inl off' -> off < off' <= pb_tot_len b)).
    unfold ra_body. apply ok_pn; [done|]. cbn [n_val]. cbv zeta. destruct (Z.ltb_spec (pb_tot_len b - off) 2); [by apply ok_ret|].
    eapply ok_read; [by apply in_node_read|]. destruct (try_get_exec s1 (off + 1) Ha1) as (v & Ev & Hv); [lia|]. eapply ok_lift; [exact Ev|].
    rewrite (u8_small v), Z.shiftl_mul_pow2 by lia. change (2 ^ 3) with 8.
    destruct (Z.leb_spec v 0); [by apply ok_ret|]. cbn [orb]. destruct (Z.ltb_spec (pb_tot_len b - off) (v * 8)); [by apply ok_ret|].
    eapply ok_read; [apply ra_bytes_exec; [done|lia..]|]. apply fine_seq.
    { apply fine_ra_option; [done..|]. apply Forall_slice. by eapply arr_bytes. }
    intros good s2 Hok2 _. apply ok_ret; [done|]. intros off'. destruct good; [|done]. intros [= <-]. rewrite u16_small by lia. lia.
  - intros [off'|[]] s2 (Hok2 & Hev2 & Hr); cbn beta.
    + specialize (Hr off' eq_refl). split; [split; [done|]; split; [by eapply evolves_trans|lia]|lia].
    + split; [done|]. split; [by eapply evolves_trans|done].
Qed.

Lemma linklocal_not_any a : ip6_addr_islinklocal a = true -> a <> ip6_addr_any.
Proof. by intros Hl ->. Qed.
Lemma has_router_lt s i : nd_ok s -> has_router s i -> (i < LWIP_ND6_NUM_ROUTERS)%nat.
Proof. intros Hok (r & j & Hr & _). apply lookup_lt_Some in Hr. by rewrite (to_routers_len _ _ (no_tables _ Hok)) in Hr. Qed.

Lemma fine_ra s : nd_ok s -> arr s -> fine (nd6_input_ra lwip_rand mld_mac_filter status_callback hdr p k) s.
Proof.
  intros Hok Ha. pose proof (arr_length s Ha) as Hl. unfold nd6_input_ra. change (pb_len (n_val ?x) <? sizeof_ra_header) with (pb_len (n_val x) <? 16).
  apply ok_pn; [done|]. cbn [n_val]. destruct (Z.ltb_spec (pb_len b) 16); [by apply ok_ret|]. apply ok_current. apply ok_hoplim; [done|]. intros hl.
  apply ok_byte; [done|lia|]. cbn [fst]. apply fine_if; intros Hc; [by apply ok_ret|].
  assert (Hll : ip6_addr_islinklocal (w_cur_src (host s)) = true) by (by destruct (ip6_addr_islinklocal _)). apply linklocal_not_any in Hll.
  set (src := w_cur_src (host s)) in *. assert (Hsw : ip6_wf src) by apply Ha.
  apply fine_seq; [apply fine_stop_soliciting; [done|apply Ha]|]. intros _ s1 Hok1 Hev1. assert (Ha1 : arr s1) by eauto with nd.
  eapply ok_bind; [by apply ok_get_router|]. intros io s1' Hok1' _ [-> Hio].
  eapply (ok_bind _ _ _ (fun r s2 => forall i, r = Some i -> has_router s2 i)).
  { destruct io as [i|]; [by apply ok_ret|]. apply ok_new_router; try done. apply Ha1. }
  intros [i|] s2 Hok2 Hev2 Hi; [|by apply ok_ret]. pose proof (has_router_lt _ _ Hok2 (Hi i eq_refl)) as Hlt. assert (Ha2 : arr s2) by eauto with nd.
  apply ok_bytes; [done|lia..|]. apply ok_bytes; [done|lia..|]. apply ok_bytes; [done|lia..|]. apply ok_byte; [done|lia|].
  apply fine_seq.
  { apply fine_set_router; [done|]. intros r. split; [done|]. intros _. cbn. pose proof (lwip_htons_range (le_val (slice (Z.to_nat 6) (Z.to_nat 2) bs))). unfold u32_ok. lia. }
  intros _ s3 Hok3 Hev3. apply fine_seq.
  { apply ok_modify_nd; [done| |done]. destruct (no_tables _ Hok3). split; cbn; try done; (destruct (0 <? _); [apply lwip_htonl_range|done]). }
  intros _ s4 Hok4 Hev4. apply fine_seq; [apply fine_set_router; [done|]; by intros r|].
  intros _ s5 Hok5 Hev5. assert (Ha5 : arr s5) by eauto 6 with nd. destruct (arr_single s Ha) as (_ & _ & Ht & _).
  apply fine_options; [done|done|done|unfold sizeof_ra_header; lia].
Qed.

(** The whole of [nd6_input]: the invariant is kept and the packet released. *)
Lemma input_fine s :
  nd_ok s -> arr s ->
  wp (Nd6In.nd6_input lwip_rand mld_mac_filter status_callback hdr p k) s (fun _ s' =>
    nd_ok s' /\ numbers s' = numbers s /\ Ip6Spec.gone (host s) p (host s')).
Proof.
  intros Hok Ha. pose proof (ar_len _ _ _ _ _ _ Ha) as Hl. unfold Nd6In.nd6_input. apply wp_bind.
  eapply wp_exec; [apply in_node_read; eapply pread8_exec; [by apply arr_single|lia]|]. change (Z.to_nat 0) with 0%nat. apply wp_bind.
  eapply wp_mono; [apply (fine_if _ _ _ _ (fun _ _ => True)); intros _; [by apply fine_na|]; apply fine_if; intros _; [by apply fine_ns|];
    apply fine_if; intros _; [by apply fine_ra|]; apply fine_if; intros _; [by apply fine_rd|]; apply fine_if; intros _; [by apply fine_ptb|by apply ok_ret]|].
  cbn beta. intros _ s1 (Hok1 & Hev1 & _). pose proof (arrived_evolves _ _ _ _ _ _ _ Ha Hev1) as Ha1.
  apply wp_bind, wp_in_node. destruct Hev1 as [Hw El].
  eapply wp_free; [eapply at_sends; [apply at_start, (arr_single s Ha)|exact Hw]|apply Ha|]. intros r w' Hg. apply wp_ret.
  destruct Hok1 as [? ? ? [L HL]]. split; [split; [done..|]; exists L; by apply mld_ok_world|].
  split; [|done]. exact (evolves_num s s1 (conj Hw El)).
Qed.
End packet.

(** ** The timer *)

Lemma fine_counter s i e c :
  nd_ok s -> neighbor_cache (nds s) !! i = Some e -> u32_ok c -> ok (upd_neighbor i (with_counter c)) s (fun _ s' => neighbor_cache (nds s') !! i = Some (with_counter c e)).
Proof.
  intros Hok He Hc. pose proof (neighbor_entry_ok _ _ (no_tables _ Hok) _ _ He) as Hn. eapply ok_change; [done|exact He| |done|done].
  destruct Hn. by split.
Qed.

Lemma fine_tmr_probe s i e flags :
  nd_ok s -> neighbor_cache (nds s) !! i = Some e -> nc_state e <> ND6_NO_ENTRY -> fine (tmr_probe i e flags) s.
Proof.
  intros Hok He Hst. unfold tmr_probe. apply fine_if; intros _; [by apply ok_free|].
  eapply ok_bind; [eapply fine_counter; [done|exact He|apply u32_range]|]. intros [] s1 Hok1 _ He1. eapply fine_any, ok_probe; [done|exact He1|done].
Qed.

Lemma fine_tmr_neighbor s i : nd_ok s -> (i < LWIP_ND6_NUM_NEIGHBORS)%nat -> fine (tmr_neighbor i) s.
Proof.
  intros Hok Hi. unfold tmr_neighbor. apply ok_neighbor; [done..|]. intros e He Hn. pose proof (nb_counter _ _ Hn) as Hc. unfold u32_ok in Hc.
  destruct (nc_state e) eqn:Est.
  - by apply ok_ret.
  - apply fine_tmr_probe; congruence.
  - rewrite (nb_q _ _ Hn). eapply ok_read; [done|].
    eapply fine_any, ok_change; [done|exact He| |by destruct (_ <=? _)|by destruct (_ <=? _)].
    destruct (Z.leb_spec (counter e) ND6_TMR_INTERVAL); apply state_set_ok; try done; try (apply Hn; congruence); [congruence|].
    unfold u32_ok, ND6_TMR_INTERVAL in *. lia.
  - eapply fine_any, fine_counter; [done|done|apply u32_range].
  - apply fine_if; intros Hle.
    + eapply fine_any, ok_change; [done|exact He|apply state_set_ok; [done|apply Hn; congruence|done|done]|done|done].
    + apply Z.leb_gt in Hle. eapply fine_any, fine_counter; [done|done|]. unfold u32_ok. lia.
  - apply fine_tmr_probe; congruence.
Qed.

Lemma fine_tmr_destinations s : nd_ok s -> fine tmr_destinations s.
Proof.
  intros Hok. pose proof (no_tables _ Hok) as Ht. apply ok_modify_nd; [done| |done]. apply set_destinations_ok; [done|by rewrite length_fmap, (to_destinations_len _ _ Ht)|].
  apply Forall_fmap. eapply Forall_impl; [apply Ht|]. intros d []. split; try done. apply u32_range.
Qed.

Lemma fine_tmr_prefixes s : nd_ok s -> fine tmr_prefixes s.
Proof.
  intros Hok. pose proof (no_tables _ Hok) as Ht. apply ok_modify_nd; [done| |done]. apply set_prefixes_ok; [done|by rewrite length_fmap, (to_prefixes_len _ _ Ht)|].
  apply Forall_fmap. eapply Forall_impl; [apply Ht|]. intros e [Pa Pk Pt]. cbn. destruct (pl_netif e) as [k|] eqn:Ek; [|by split; rewrite ?Ek].
  destruct (Z.leb_spec (pl_timer e) (ND6_TMR_INTERVAL / 1000)); [by split|]. split; cbn; [done|by intros ? [= <-]; apply Pk|].
  change (ND6_TMR_INTERVAL / 1000) with 1 in *. unfold u32_ok in *. lia.
Qed.

Lemma fine_tmr_router s i : nd_ok s -> (i < LWIP_ND6_NUM_ROUTERS)%nat -> fine (tmr_router i) s.
Proof.
  intros Hok Hi. pose proof (no_tables _ Hok) as Ht. unfold tmr_router. apply ok_get_nd. change (ND6_TMR_INTERVAL / 1000) with 1.
  destruct (lookup_lt_is_Some_2 (default_router_list (nds s)) i) as [r Hr]; [by rewrite (to_routers_len _ _ Ht)|].
  eapply ok_lift; [by rewrite Hr|]. destruct (neighbor_entry r) as [j|] eqn:Ej; [|by apply ok_ret].
  pose proof (Forall_lookup_1 _ _ _ _ (ro_timer _ _ (to_routers _ _ Ht)) Hr) as Htm. cbn beta in Htm. unfold u32_ok in Htm.
  destruct (router_neighbor s Hok _ _ _ Hr Ej) as (e & He & Hn & _ & _). destruct (Z.leb_spec (rl_timer r) 1).
  - eapply ok_read; [by apply neighbor_exec|]. eapply (ok_bind _ _ _ (fun _ s1 => exists l, s1 = put_nds (with_destinations l (nds s)) s)).
    { apply ok_modify_nd; [done| |by eexists]. apply set_destinations_ok; [done|by rewrite length_fmap, (to_destinations_len _ _ Ht)|].
      apply Forall_fmap. eapply Forall_impl; [apply Ht|]. intros d []. cbn. destruct (ip6_addr_cmp _ _); split; auto with nd. }
    intros _ s1 Hok1 Hev1 [l E1]. assert (He1 : neighbor_cache (nds s1) !! j = Some e) by (by rewrite E1).
    assert (Hr1 : default_router_list (nds s1) !! i = Some r) by (by rewrite E1).
    unfold set_router. apply wp_bind. eapply wp_exec; [by apply upd_neighbor_exec|]. apply wp_modify. cbn [nds put_nds nd_mld nd_netifs].
    refine (conj (ok_drop_router s1 j e (<[i := mk_router None 0 0]> (default_router_list (nds s1))) Hok1 He1 _ _) (conj _ I)).
    + by rewrite length_insert.
    + intros r0 x [(<- & <- & _)|[N Hx]]%list_lookup_insert_Some.
      * exists r. split; [done|]. split; [done|]. by rewrite decide_True.
      * exists x. split; [done|]. pose proof (to_routers _ _ (no_tables _ Hok1)) as Hro.
        split; [apply (Forall_lookup_1 _ _ _ _ (ro_timer _ _ Hro) Hx)|]. rewrite decide_False; [done|]. intros Ex. apply N.
        by eapply (ro_once _ _ Hro).
    + by split.
  - apply ok_modify_nd; [done| |done]. apply set_routers_ok; [done|by rewrite length_insert, (to_routers_len _ _ Ht)| |].
    + rewrite list_fmap_insert, list_insert_id; [done|]. by rewrite list_lookup_fmap, Hr, <-Ej.
    + apply Forall_insert; [apply (ro_timer _ _ (to_routers _ _ Ht))|]. cbn. unfold u32_ok. lia.
Qed.

(** *** Addresses *)

Lemma fine_tmr_lifetimes s k i :
  nd_ok s -> k ∈ numbers s -> (i < LWIP_IPV6_NUM_ADDRESSES)%nat ->
  fine (tmr_lifetimes lwip_rand mld_mac_filter status_callback k i) s.
Proof.
  intros Hok Hk Hi. unfold tmr_lifetimes. change (ND6_TMR_INTERVAL / 1000) with 1. apply ok_netif_at; [done..|]. intros x _ _ _ Hx.
  eapply ok_lift; [by apply slot_state|]. destruct (slot_valid_life x Hx i Hi) as (v & Ev & Hv & Es). eapply ok_lift; [exact Es|].
  apply fine_if; intros _; [by apply ok_ret|]. eapply ok_lift; [exact Ev|]. unfold u32_ok in Hv. destruct (Z.leb_spec v 1).
  { apply fine_seq; [by apply fine_set_valid|]. intros _ s1 Hok1 Hev1. apply fine_seq; [apply fine_set_pref; eauto with nd; done|].
    intros _ s2 Hok2 Hev2. apply fine_set_state; eauto with nd. }
  apply fine_seq.
  { apply fine_if; intros _; [by apply ok_ret|]. cbv zeta. unfold IP6_ADDR_LIFE_STATIC. rewrite (proj2 (Z.eqb_neq (v - 1) 0)) by lia.
    eapply ok_read; [done|]. apply fine_set_valid; [done..|]. unfold u32_ok. lia. }
  intros _ s1 Hok1 Hev1. assert (Hk1 : k ∈ numbers s1) by eauto with nd. apply ok_netif_at; [done..|]. intros x1 _ _ _ Hx1.
  destruct (slot_pref_life x1 Hx1 i Hi) as (w & Ew & Hw). eapply ok_lift; [exact Ew|]. unfold u32_ok in Hw. destruct (Z.leb_spec w 1).
  { apply fine_seq; [apply fine_set_pref; try done|]. intros _ s2 Hok2 Hev2. apply fine_if; intros _; [|by apply ok_ret]. apply fine_set_state; eauto with nd. }
  apply fine_if; intros _; [by apply ok_ret|]. apply fine_set_pref; [done..|]. unfold u32_ok. lia.
Qed.

Lemma fine_tmr_dad s k i :
  nd_ok s -> k ∈ numbers s -> (i < LWIP_IPV6_NUM_ADDRESSES)%nat ->
  fine (tmr_dad lwip_rand mld_mac_filter status_callback k i) s.
Proof.
  intros Hok Hk Hi. unfold tmr_dad. apply ok_netif_at; [done..|]. intros x _ _ _ Hx. cbv zeta. eapply ok_lift; [by apply slot_state|].
  apply fine_if; intros _; [|by apply ok_ret]. apply fine_if; intros _.
  { destruct (slot_valid_life x Hx i Hi) as (v & _ & _ & Es). eapply ok_lift; [exact Es|].
    destruct (slot_pref_life x Hx i Hi) as (w & Ew & _). eapply ok_lift; [exact Ew|]. by apply fine_set_state. }
  apply fine_if; intros _; [|by apply ok_ret]. apply fine_seq; [by apply fine_set_state|]. intros _ s1 Hok1 Hev1.
  apply ok_netif_at; [done|eauto with nd|]. intros x1 _ _ _ Hx1. destruct (slot_addr x1 Hx1 i Hi) as [Ea Hwf]. eapply ok_lift; [exact Ea|].
  eapply fine_any, ok_send_ns; [done|apply Hx1..|done].
Qed.

Lemma fine_tmr_solicit s k : nd_ok s -> k ∈ numbers s -> fine (tmr_solicit k) s.
Proof.
  intros Hok Hk. unfold tmr_solicit. apply ok_netif_at; [done..|]. intros x _ _ _ Hx. cbv zeta.
  assert (H0i : (0 < LWIP_IPV6_NUM_ADDRESSES)%nat) by (unfold LWIP_IPV6_NUM_ADDRESSES; lia).
  eapply ok_lift; [by apply slot_state|]. destruct (Z.ltb_spec 0 (rs_count x)); [|by apply ok_ret].
  apply fine_if; intros _; [|by apply ok_ret]. apply fine_seq; [eapply fine_any, ok_send_rs; [done|apply Hx..]|]. intros e s1 Hok1 _.
  apply fine_if; intros _; [|by apply ok_ret]. apply fine_rs_count; [done|]. pose proof (nn_rs _ Hx). lia.
Qed.

(** The part of the timer behind the tables of neighbours and routers. *)
Definition tmr_rest : M nd_world unit :=
  tmr_prefixes;;
  s ← get;
  let netifs := (fun x => nif_num (ndn x)) <$> nd_netifs s in
  each netifs (fun k => each (seq 0 LWIP_IPV6_NUM_ADDRESSES) (tmr_address lwip_rand mld_mac_filter status_callback k));;
  t ← get_nd;
  if nd6_tmr_rs_reduction t =? 0 then
    modify_nd (with_rs_reduction (ND6_RTR_SOLICITATION_INTERVAL / ND6_TMR_INTERVAL - 1));;
    each netifs tmr_solicit
  else modify_nd (with_rs_reduction (nd6_tmr_rs_reduction t - 1)).

Lemma fine_tmr_rest s : nd_ok s -> fine tmr_rest s.
Proof.
  intros Hok. unfold tmr_rest. apply fine_seq; [by apply fine_tmr_prefixes|]. intros _ s4 Hok4 _. eapply ok_read; [done|]. cbv zeta. fold (numbers s4). apply fine_seq.
  { apply fine_each; [done|]. intros k s5 Hk Hok5 Hev5. apply fine_each; [done|]. intros i s6 Hi%elem_of_seq Hok6 Hev6. unfold tmr_address.
    apply fine_seq; [apply fine_tmr_lifetimes; eauto with nd; lia|]. intros _ s7 Hok7 Hev7. apply fine_tmr_dad; eauto with nd; lia. }
  intros _ s5 Hok5 Hev5. apply ok_get_nd. pose proof (to_reduction _ _ (no_tables _ Hok5)) as Hred.
  assert (Hset : forall s r, nd_ok s -> 0 <= r < 256 -> fine (modify_nd (with_rs_reduction r)) s).
  { intros s' r Hok' Hr. apply ok_modify_nd; [done| |done]. destruct (no_tables _ Hok'). by split. }
  destruct (Z.eqb_spec (nd6_tmr_rs_reduction (nds s5)) 0); [|apply Hset; [done|lia]].
  apply fine_seq; [by apply Hset|]. intros _ s6 Hok6 Hev6. apply fine_each; [done|]. intros k s7 Hk Hok7 Hev7. apply fine_tmr_solicit; eauto with nd.
Qed.

Lemma fine_tmr s : nd_ok s -> fine (nd6_tmr lwip_rand mld_mac_filter status_callback) s.
Proof.
  intros Hok. unfold nd6_tmr. fold tmr_rest. apply fine_seq; [apply fine_each; [done|]; intros i s1 Hi%elem_of_seq Hok1 _; apply fine_tmr_neighbor; [done|lia]|].
  intros _ s1 Hok1 _. apply fine_seq; [by apply fine_tmr_destinations|]. intros _ s2 Hok2 _.
  apply fine_seq; [apply fine_each; [done|]; intros i s3 Hi%elem_of_seq Hok3 _; apply fine_tmr_router; [done|lia]|]. intros _ s3 Hok3 _.
  by apply fine_tmr_rest.
Qed.

(** ** Sending to a neighbour *)

(** A packet in one buffer that others hold and that need not be copied. *)
Definition to_send (q : loc) (s : nd_world) : Prop :=
  exists b, w_pbufs (host s) !! q = Some (Node b None) /\ PBUF_NEEDS_COPY b = false /\ 1 <= pb_ref b < 255.
(** Every neighbour's queue is empty. *)
Definition nothing_queued (s : nd_world) : Prop := Forall (fun e => nc_q e = None) (neighbor_cache (nds s)).
(** [s'] is a well-formed state in which, then, [q] was put in the queue of a neighbour that has no
    link-layer address yet, and is held once more. *)
Definition queued (q : loc) (s s' : nd_world) : Prop :=
  exists s1 i e b, nd_ok s1 /\ evolves s s1 /\ neighbor_cache (nds s1) !! i = Some e /\
    (nc_state e = ND6_INCOMPLETE \/ nc_state e = ND6_NO_ENTRY) /\ w_pbufs (host s) !! q = Some (Node b None) /\
    s' = put_nds (with_neighbors (<[i := with_q (Some q) e]> (neighbor_cache (nds s1))) (nds s1))
           (put_host (set_pbufs (fun h => <[q := Node (with_ref (pb_ref b + 1) b) None]> h) (host s1)) s1).

Lemma to_send_evolves q b s s' : evolves s s' -> w_pbufs (host s) !! q = Some (Node b None) -> w_pbufs (host s') !! q = Some (Node b None).
Proof. by intros [(es & k & ->) _]. Qed.

Lemma queue_exec s i e q b :
  (i < LWIP_ND6_NUM_NEIGHBORS)%nat -> neighbor_cache (nds s) !! i = Some e -> nc_q e = None ->
  w_pbufs (host s) !! q = Some (Node b None) -> PBUF_NEEDS_COPY b = false -> 1 <= pb_ref b < 255 ->
  nd6_queue_packet i q s = Ret (ERR_OK, put_nds (with_neighbors (<[i := with_q (Some q) e]> (neighbor_cache (nds s))) (nds s))
    (put_host (set_pbufs (fun h => <[q := Node (with_ref (pb_ref b + 1) b) None]> h) (host s)) s)).
Proof.
  intros Hi He Hq Hb Hc Hr. unfold nd6_queue_packet. rewrite decide_False by lia.
  rewrite (bind_exec get _ s s s) by done.
  assert (Ec : copy_needed (w_pbufs (mw (nd_mld s))) q = Ret false).
  { unfold copy_needed. change (w_pbufs (mw (nd_mld s))) with (w_pbufs (host s)). destruct (size (w_pbufs (host s))) as [|n] eqn:En.
    { apply map_size_empty_inv in En. by rewrite En in Hb. }
    rewrite !oloop_S. cbn beta iota. rewrite Hb. cbn. by rewrite Hc. }
  rewrite (bind_exec (lift _) _ s false s) by (unfold lift; by rewrite Ec). cbv iota.
  set (h := <[q := Node (with_ref (pb_ref b + 1) b) None]> (w_pbufs (host s))). set (s1 := put_host (set_pbufs (fun _ => h) (host s)) s).
  assert (Er : pbuf_ref (w_pbufs (host s)) (Some q) = Ret h).
  { cbn [pbuf_ref]. rewrite Hb. cbn [deref mbind outcome_bind n_val]. rewrite u8_small by lia. cbv zeta.
    by rewrite (proj2 (Z.ltb_lt _ _)) by lia. }
  erewrite bind_exec; [|rewrite (bind_exec (in_node get) _ s (host s) s) by (by apply in_node_read);
    rewrite (bind_exec (lift _) _ s h s) by (unfold lift; by rewrite Er);
    rewrite (bind_exec (in_node _) _ s tt s1) by done; reflexivity].
  cbv iota. assert (He1 : neighbor_cache (nds s1) !! i = Some e) by done.
  rewrite (bind_exec _ _ _ _ _ (neighbor_exec _ _ _ He1)), Hq. rewrite (bind_exec (mret tt) _ s1 tt s1) by done.
  by rewrite (bind_exec _ _ _ _ _ (upd_neighbor_exec _ _ _ _ He1)).
Qed.

Lemma send_spec s a x q :
  nd_ok s -> ip6_wf a -> x ∈ nd_netifs s -> to_send q s ->
  wp (nd6_get_next_hop_addr_or_queue (ndn x) q a) s (fun r s' => numbers s' = numbers s /\ (nd_ok s' \/ r = (ERR_OK, None) /\ queued q s s')).
Proof.
  intros Hok Ha Hx (b & Hb & Hc & Hr). unfold nd6_get_next_hop_addr_or_queue. apply wp_bind.
  eapply wp_mono; [by apply ok_next_hop_entry|]. cbn beta. intros [err|i] s1 (Hok1 & Hev & Hi).
  { apply wp_ret. split; [by apply evolves_num|by left]. }
  specialize (Hi i eq_refl). destruct (neighbor_lookup _ _ (no_tables _ Hok1) i Hi) as [e He].
  assert (Hstale : ok (if bool_decide (nc_state e = ND6_STALE)
      then upd_neighbor i (with_nc_state ND6_DELAY (LWIP_ND6_DELAY_FIRST_PROBE_TIME / ND6_TMR_INTERVAL)) else mret tt) s1
      (fun _ s' => forall e', neighbor_cache (nds s') !! i = Some e' -> nc_state e' <> ND6_STALE)).
  { apply fine_if; intros Hst; [apply bool_decide_eq_true in Hst|apply bool_decide_eq_false in Hst].
    2: { apply ok_ret; [done|]. intros e'. rewrite He. by intros [= <-]. }
    pose proof (neighbor_entry_ok _ _ (no_tables _ Hok1) _ _ He) as Hn. eapply ok_upd_neighbor; [done|exact He| |done|by left|].
    2: { cbn. rewrite list_lookup_insert_eq by (by eapply lookup_lt_Some). by intros e' [= <-]. }
    split; cbn; try apply Hn; [intros _; apply (nb_active _ _ Hn); by rewrite Hst|done|by vm_compute]. }
  apply wp_bind. eapply wp_exec; [by apply neighbor_exec|]. apply wp_bind. eapply wp_mono; [exact Hstale|]. cbn beta. intros _ s2 (Hok2 & Hev2 & Hns).
  destruct (neighbor_lookup _ _ (no_tables _ Hok2) i Hi) as [e2 He2]. apply wp_bind. eapply wp_exec; [by apply neighbor_exec|].
  pose proof (evolves_trans _ _ _ Hev Hev2) as Hev3. destruct (_ || _ || _) eqn:Est.
  { apply wp_ret. split; [by apply evolves_num|by left]. }
  pose proof (neighbor_entry_ok _ _ (no_tables _ Hok2) _ _ He2) as Hn2. apply wp_bind.
  eapply wp_exec; [apply (queue_exec s2 i e2 q b); [done|done|apply Hn2|by eapply to_send_evolves|done|done]|]. apply wp_ret.
  split; [by apply (evolves_num s s2)|]. right. split; [done|]. exists s2, i, e2, b. split_and!; [done|done|done| |done|done].
  specialize (Hns e2 He2). rewrite !orb_false_iff, !bool_decide_eq_false in Est. destruct Est as [[? ?] ?].
  destruct (nc_state e2); try done; auto.
Qed.

(** ** The calls into the module *)

Inductive nd_op :=
  | NdInput (hdr : Z) (p : loc) (k : Z)
  | NdTimer
  | NdRoute (a : ip6_addr)
  | NdSend (a : ip6_addr) (x : nd_netif) (q : loc)
  | NdHint (a : ip6_addr)
  | NdAddress (k : Z) (i : nat) (st : Z)
  | NdCleanup (k : Z)
  | NdRestart (k : Z).

Definition run_nd (o : nd_op) : M nd_world unit :=
  match o with
  | NdInput hdr p k => Nd6In.nd6_input lwip_rand mld_mac_filter status_callback hdr p k
  | NdTimer => nd6_tmr lwip_rand mld_mac_filter status_callback
  | NdRoute a => Nd6.nd6_find_route a;; mret tt
  | NdSend a x q => nd6_get_next_hop_addr_or_queue (ndn x) q a;; mret tt
  | NdHint a => nd6_reachability_hint a
  | NdAddress k i st => set_addr_state lwip_rand mld_mac_filter status_callback k i st
  | NdCleanup k => nd6_cleanup_netif k
  | NdRestart k => nd6_restart_netif k
  end.

Definition nd_allowed (o : nd_op) (s : nd_world) : Prop :=
  match o with
  | NdInput hdr p k => exists b bs, arrived hdr p b bs k s
  | NdSend a x q => ip6_wf a /\ x ∈ nd_netifs s /\ to_send q s
  | NdAddress k i _ => k ∈ numbers s /\ (i < LWIP_IPV6_NUM_ADDRESSES)%nat
  | _ => True
  end.

(** What a call may leave behind: well-formed tables and, after [nd6_get_next_hop_addr_or_queue],
    possibly the packet in the queue of the neighbour. *)
Definition nd_done (o : nd_op) (s s' : nd_world) : Prop :=
  nd_ok s' \/ match o with NdSend _ _ q => queued q s s' | _ => False end.

(** The list of interfaces without the interface [k]. *)
Definition without_netif (k : Z) (l : list nd_netif) : list nd_netif := filter (fun x => nif_num (ndn x) <> k) l.

(** The states the module can be in: empty tables at the start, then its calls, with
    anything happening between them to the rest of the node and, within their
    well-formedness, to the interfaces; interfaces are added ([netif_add]) and, after the
    module has been told so, removed ([netif_remove], by way of [netif_set_down]).  The
    sequence is followed until a packet has to be queued. *)
Inductive nd_reachable : nd_world -> Prop :=
  | nd_begin w l : Forall nd_netif_ok l -> NoDup ((fun x => nif_num (ndn x)) <$> l) -> nd_reachable (mk_nd (mk_mld w ∅ ∅) l nd_start)
  | nd_elsewhere s w : nd_reachable s -> nd_reachable (put_host w s)
  | nd_netifs_changed s l : nd_reachable s -> Forall nd_netif_ok l -> (fun x => nif_num (ndn x)) <$> l = numbers s -> nd_reachable (put_netifs l s)
  | nd_netif_added s x : nd_reachable s -> nd_netif_ok x -> nif_num (ndn x) ∉ numbers s -> nd_reachable (put_netifs (x :: nd_netifs s) s)
  | nd_netif_removed s s' k : nd_reachable s -> run_nd (NdCleanup k) s = Ret (tt, s') -> nd_reachable (put_netifs (without_netif k (nd_netifs s')) s')
  | nd_called s o s' : nd_reachable s -> nd_allowed o s -> run_nd o s = Ret (tt, s') -> nothing_queued s' -> nd_reachable s'.

Lemma nd_start_ok ks : tables_ok ks nd_start.
Proof.
  split; try done.
  - apply Forall_replicate. split; cbn; auto with nd; try done.
  - intros i j e e' [-> _]%lookup_replicate [-> _]%lookup_replicate _. by right.
  - split.
    + intros i i' r r' j [-> _]%lookup_replicate _. done.
    + intros i r j [-> _]%lookup_replicate. done.
    + intros j e [-> _]%lookup_replicate. done.
    + by apply Forall_replicate.
  - apply Forall_replicate. split; cbn; auto with nd; try done. unfold LWIP_ND6_NUM_NEIGHBORS. lia.
  - apply Forall_replicate. split; cbn; auto with nd; try done.
  - cbn. unfold LWIP_ND6_NUM_DESTINATIONS. lia.
  - cbn. unfold LWIP_ND6_NUM_ROUTERS. lia.
Qed.

Lemma run_nd_ok o s : nd_ok s -> nd_allowed o s -> wp (run_nd o) s (fun _ s' => nd_done o s s' /\ numbers s' = numbers s).
Proof.
  intros Hok Ha. assert (Hfine : forall m : M nd_world unit, fine m s -> wp m s (fun _ s' => nd_done o s s' /\ numbers s' = numbers s)).
  { intros m Hm. eapply wp_mono; [exact Hm|]. cbn beta. intros _ s' (? & Hev & _). split; [by left|by apply evolves_num]. }
  assert (Hret : forall {A} (m : M nd_world A), fine m s -> fine (m;; mret tt) s).
  { intros A m Hm. apply fine_seq; [done|]. intros _ s' Hok' _. by apply ok_ret. }
  destruct o as [hdr p k| |a|a x q|a|k i st|k|k]; cbn [run_nd nd_allowed] in *.
  - destruct Ha as (b & bs & Ha). eapply wp_mono; [by apply (input_fine hdr p b bs k)|]. cbn beta. intros _ s' (? & ? & _). split; [by left|done].
  - by apply Hfine, fine_tmr.
  - by apply Hfine, Hret, fine_find_route.
  - destruct Ha as (? & ? & ?). apply wp_bind. eapply wp_mono; [by apply send_spec|]. cbn beta. intros r s' [Hn Hs]. apply wp_ret.
    split; [|done]. destruct Hs as [?|[_ ?]]; [by left|by right].
  - by apply Hfine, fine_hint.
  - destruct Ha. by apply Hfine, fine_set_state.
  - eapply Hfine, fine_any. by apply ok_cleanup.
  - by apply Hfine, fine_restart.
Qed.

Lemma queued_something q s s' : queued q s s' -> nothing_queued s' -> False.
Proof.
  intros (s1 & i & e & b & _ & _ & He & _ & _ & ->) Hn. unfold nothing_queued in Hn. cbn in Hn.
  assert (Hq : (<[i := with_q (Some q) e]> (neighbor_cache (nds s1))) !! i = Some (with_q (Some q) e))
    by (rewrite list_lookup_insert_eq by (by eapply lookup_lt_Some); done).
  by apply (Forall_lookup_1 _ _ _ _ Hn) in Hq.
Qed.

(** An interface the tables do not name goes. *)
Lemma removed_ok s k : nd_ok s -> forgotten k s -> nd_ok (put_netifs (without_netif k (nd_netifs s)) s).
Proof.
  intros [Ht Hl Hnd Hm] [Fn Fp]. split; [| | |done].
  - eapply forgotten_ok; [exact Ht|exact Fn|exact Fp|]. intros k' (x & -> & Hx)%list_elem_of_fmap Hk. apply list_elem_of_fmap.
    exists x. split; [done|]. by apply list_elem_of_filter.
  - cbn. rewrite Forall_forall in *. intros x [_ Hx]%list_elem_of_filter. by apply Hl.
  - eapply sublist_NoDup; [exact Hnd|]. apply fmap_sublist, sublist_filter.
Qed.
Lemma added_ok s x : nd_ok s -> nd_netif_ok x -> nif_num (ndn x) ∉ numbers s -> nd_ok (put_netifs (x :: nd_netifs s) s).
Proof.
  intros [Ht Hl Hnd Hm] Hx Hk. split; [|by constructor|by constructor|done].
  destruct Ht as [L1 L2 L3 L4 Hn Hd Ho Hds Hp ? ? ? ? ?]. split; try done.
  - eapply Forall_impl; [exact Hn|]. intros e He. split; try apply He. intros k E. right. by apply (nb_netif _ _ He).
  - eapply Forall_impl; [exact Hp|]. intros e He. split; try apply He. intros k E. right. by apply (px_netif _ _ He).
Qed.

Lemma nd_reachable_ok s : nd_reachable s -> nd_ok s.
Proof.
  induction 1 as [w l Hl Hnd|s w _ [? ? ? [L HL]]|s l _ [Ht ? Hnum ?] Hl E|s x _ Hok Hx Hk|s s' k _ Hok Er|s o s' _ Hok Ha Er Hnq].
  - split; [apply nd_start_ok|done|done|]. exists ∅. apply (mld_ok_start mld_mac_filter Hfilter).
  - split; [done..|]. exists L. by apply mld_ok_world.
  - assert (En : numbers (put_netifs l s) = numbers s) by exact E. split; [by rewrite En|done|by rewrite En|done].
  - by apply added_ok.
  - pose proof (ok_cleanup s k Hok) as Hw. unfold ok, wp in Hw. cbn [run_nd] in Er. rewrite Er in Hw. destruct Hw as (Hok' & _ & Hf). by apply removed_ok.
  - pose proof (run_nd_ok o s Hok Ha) as Hw. unfold wp in Hw. rewrite Er in Hw. destruct Hw as [[?|Hd] _]; [done|].
    destruct o; try done. by destruct (queued_something _ _ _ Hd Hnq).
Qed.
End module.

(** ** The claims *)

(** C28: in every state neighbour discovery can reach by any sequence of its calls (messages
    of any content in one buffer, the timer, routes, packets to be sent, reachability hints,
    changes of addresses, interfaces added, changed and, after [nd6_cleanup_netif], removed)
    with anything happening to the rest of the node between them, the tables are well
    formed: their sizes, every interface they name is still there, no two neighbours have
    one address, the default routers are exactly the neighbours marked as routers, each
    once, and all values are in range; and every further call returns in such a state.
    The sequences are those in which no packet has been queued so far: a packet whose
    neighbour has no link-layer address yet is put in its queue, as the last part says of
    [nd6_get_next_hop_addr_or_queue] (for a packet in one buffer that need not be copied),
    and what happens to queued packets afterwards is not covered.  In this node none is:
    that function is only called by ethip6.c, which LWIP_ETHERNET 0 leaves empty, and by
    lowpan6.c, which is not built. *)
Theorem nd_invariant `{Env} `{LowerLayersOk} lwip_rand mld_mac_filter status_callback s o :
  (forall n f a act w, mld_mac_filter n = Some f -> wp (f a act) w (fun _ w' => sends w w')) ->
  (forall n w, wp (status_callback n) w (fun _ w' => sends w w')) ->
  nd_reachable lwip_rand mld_mac_filter status_callback s -> nd_allowed o s ->
  nd_ok s /\ exists s', run_nd lwip_rand mld_mac_filter status_callback o s = Ret (tt, s') /\ numbers s' = numbers s /\
    (nd_ok s' \/ match o with NdSend _ _ q => queued q s s' | _ => False end).
Proof.
  intros Hf Hs Hr Ha. pose proof (nd_reachable_ok _ _ _ Hf Hs s Hr) as Hok. split; [done|].
  destruct (wp_elim _ _ _ (run_nd_ok lwip_rand mld_mac_filter status_callback Hf Hs o s Hok Ha)) as ([] & s' & E & Hd & Hn). by exists s'.
Qed.

(** C29: how a neighbour is chosen to make room.  With an unused entry the first one is taken
    and nothing changes.  Without one, an entry that is not a router is freed, and among
    those that are not routers none should go before it: stale ones go first, then probed,
    delayed and reachable ones (the one that expires first) and those still unresolved (the
    one probed longest).  There is no entry only when every neighbour is a router or
    reachable for the longest time there is. *)
Theorem neighbor_recycling s :
  nd_ok s ->
  let c := neighbor_cache (nds s) in
  match nd6_new_neighbor_cache_entry s with
  | Ret (Some i, s') =>
      exists e, c !! i = Some e /\
        if bool_decide (nc_state e = ND6_NO_ENTRY)
        then s' = s /\ forall j e', (j < i)%nat -> c !! j = Some e' -> nc_state e' <> ND6_NO_ENTRY
        else isrouter e = 0 /\ s' = put_nds (with_neighbors (<[i := freed e]> c) (nds s)) s /\
          forall j e', c !! j = Some e' -> nc_state e' <> ND6_NO_ENTRY /\ (isrouter e' = 0 -> goes_before e e')
  | Ret (None, s') =>
      s' = s /\ forall j e', c !! j = Some e' -> isrouter e' = 1 \/ nc_state e' = ND6_REACHABLE /\ counter e' = 0xffffffff
  | _ => False
  end.
Proof.
  intros Hok c. pose proof (no_tables _ Hok) as Ht. unfold nd6_new_neighbor_cache_entry. unfold get_nd, gets, mbind at 1, M_bind at 1.
  pose proof (index_of_spec (fun e => bool_decide (nc_state e = ND6_NO_ENTRY)) c) as Hi. fold c. destruct (index_of _ _) as [i|].
  { destruct Hi as (e & He & Hst & Hmin). exists e. split; [done|]. rewrite Hst. split; [done|]. intros j e' Hj He'.
    specialize (Hmin j e' Hj He'). by apply bool_decide_eq_false in Hmin. }
  assert (Hno : forall j e', c !! j = Some e' -> nc_state e' <> ND6_NO_ENTRY) by (intros j e' He'; specialize (Hi _ _ He'); by apply bool_decide_eq_false in Hi).
  pose proof (recycled_spec c) as Hrec. destruct (recycled c) as [j|].
  - destruct Hrec as (e & He & Hr & Hst & Hbest).
    { apply Forall_lookup. intros i e He. split; [apply (nb_counter _ _ (neighbor_entry_ok _ _ Ht _ _ He))|by eapply Hno]. }
    rewrite (bind_exec _ _ _ _ _ (nd_free_exec s j e (neighbor_bound _ _ Ht _ _ He) He (nb_q _ _ (neighbor_entry_ok _ _ Ht _ _ He)) Hr)).
    exists e. split; [done|]. rewrite bool_decide_false by done. split; [done|]. split; [done|]. intros i e' He'. split; [by eapply Hno|]. by apply (Hbest i).
  - split; [done|]. intros i e' He'. destruct (nb_router _ _ (neighbor_entry_ok _ _ Ht _ _ He')) as [Hr|Hr]; [right|by left].
    apply (Hrec ltac:(apply Forall_lookup; intros i0 e0 He0; split; [apply (nb_counter _ _ (neighbor_entry_ok _ _ Ht _ _ He0))|by eapply Hno]) i e' He' Hr).
Qed.

(** ** Concrete runs *)

(** Tables with ten neighbours and no router. *)
Lemma neighbors_only_ok ks l :
  length l = LWIP_ND6_NUM_NEIGHBORS -> Forall (neighbor_ok ks) l -> Forall (fun e => isrouter e = 0) l -> NoDup (next_hop_address <$> l) ->
  tables_ok ks (with_neighbors l nd_start).
Proof.
  intros Hl Hok Hr Hnd. destruct (nd_start_ok ks) as [L1 L2 L3 L4 Hn Hd Ho]. rewrite Forall_forall in Hr. split; cbn; try done.
  - intros i j e e' Hi Hj E. left. eapply (NoDup_lookup _ i j (next_hop_address e) Hnd); rewrite list_lookup_fmap; [by rewrite Hi|by rewrite Hj, E].
  - destruct Ho as [O1 O2 O3 O4]. split; [exact O1| | |exact O4].
    + intros i r j Hi. change (replicate LWIP_ND6_NUM_ROUTERS (mk_router None 0 0) !! i = Some r) in Hi. by apply lookup_replicate in Hi as [-> _].
    + intros j e Hj%list_elem_of_lookup_2 E. rewrite (Hr e Hj) in E. done.
Qed.

(** The TUN interface, and neighbours FD00::10 and so on behind it. *)
Definition tun_nd_netif : nd_netif := mk_ndn (tun_configured 3) 0 0.
Definition tun_nd (bs : list Z) (t : nd_state) : nd_world := mk_nd (mk_mld (tun_world bs) ∅ ∅) [tun_nd_netif] t.
Definition peer (i : Z) (st : nd6_neighbor_cache_entry_state) (c : Z) : nd6_neighbor_cache_entry :=
  mk_neighbor (IP6_ADDR (PP_HTONL 0xfd000000) 0 0 (PP_HTONL (16 + i))) (Some 0) (replicate 6 0) None st 0 c.
Definition crowd : list nd6_neighbor_cache_entry :=
  [peer 0 ND6_REACHABLE 20000; peer 1 ND6_INCOMPLETE 1; peer 2 ND6_DELAY 3; peer 3 ND6_STALE 2; peer 4 ND6_STALE 7;
   peer 5 ND6_PROBE 2; peer 6 ND6_REACHABLE 4000; peer 7 ND6_REACHABLE 0xffffffff; peer 8 ND6_DELAY 5; peer 9 ND6_STALE 7].

Lemma tun_nd_netif_ok : nd_netif_ok tun_nd_netif.
Proof.
  split; [apply tun_configured_sane|done|decided|decided| |by vm_compute|by vm_compute]. split; [done|decided|by vm_compute].
Qed.
Lemma tun_nd_ok bs t : tables_ok [0] t -> nd_ok (tun_nd bs t).
Proof.
  intros Ht. split; [exact Ht|apply Forall_singleton, tun_nd_netif_ok|apply NoDup_singleton|].
  exists ∅. unshelve eapply (mld_ok_start (fun _ => None)); [exact (@tun_layers calm_env)|apply tun_layers_ok|discriminate].
Qed.
Lemma peer_ok i st c : ip6_wf (next_hop_address (peer i st c)) -> st <> ND6_NO_ENTRY -> u32_ok c -> neighbor_ok [0] (peer i st c).
Proof. intros Ha Hst Hc. split; try done; [intros k [= <-]; by left|by left]. Qed.
Lemma crowd_ok : nd_ok (tun_nd [] (with_neighbors crowd nd_start)).
Proof.
  apply tun_nd_ok, neighbors_only_ok; [done| |by repeat constructor|decided].
  repeat apply Forall_cons_2; [apply peer_ok; by vm_compute..|constructor].
Qed.

Lemma nd_invariant_witness :
  exists s', @run_nd calm_env (@tun_layers calm_env) (fun _ => 7) (fun _ => None) (fun _ => mret tt) NdTimer (tun_nd [] nd_start) = Ret (tt, s') /\ nd_ok s'.
Proof.
  destruct (@nd_invariant calm_env _ (@tun_layers_ok calm_env) (fun _ => 7) (fun _ => None) (fun _ => mret tt) (tun_nd [] nd_start) NdTimer)
    as [_ (s' & E & _ & [Hok|[]])].
  - discriminate.
  - intros n w. apply wp_ret. by apply sends_refl.
  - apply nd_begin; [apply Forall_singleton, tun_nd_netif_ok|apply NoDup_singleton].
  - exact I.
  - exists s'. split; [exact E|exact Hok].
Defined.

(** The first stale neighbour goes. *)
Lemma neighbor_recycling_witness :
  exists s', nd6_new_neighbor_cache_entry (tun_nd [] (with_neighbors crowd nd_start)) = Ret (Some 3%nat, s') /\
    forall j e', crowd !! j = Some e' -> isrouter e' = 0 -> goes_before (peer 3 ND6_STALE 2) e'.
Proof.
  pose proof (neighbor_recycling (tun_nd [] (with_neighbors crowd nd_start)) crowd_ok) as Hrec.
  cbv zeta in Hrec. destruct (nd6_new_neighbor_cache_entry _) as [[o s']| |] eqn:E; [|done..].
  assert (o = Some 3%nat) as ->.
  { apply (f_equal (fun r => match r with Ret (o, _) => o | _ => None end)) in E. cbv beta iota in E. rewrite <-E. by vm_compute. }
  exists s'. split; [reflexivity|]. destruct Hrec as (e & He & Hif). cbn in He. injection He as <-.
  destruct (bool_decide _) eqn:Eb; [by apply bool_decide_eq_true in Eb|].
  intros j e' Hj Hr. by apply (proj2 (proj2 Hif) j e' Hj).
Defined.
