(* ===== verification/Nd6Live.v ===== *)
(** * Neighbour discovery over time

    What [nd6_tmr] does to a neighbour and to an address from tick to tick: a neighbour
    that does not answer is given up, one that was reachable becomes stale, and an
    address is probed and then used.  And the answer to a solicitation on the TUN
    interface. *)

From S2P Require Import Prelude LinkedList Ip6Addr World Netif Pbuf Ip6Hdr Custody Buffer InetChksum RawSocket Ip6Out Icmp6 Ip6In Ip6Spec Mld6 Nd6 Nd6Send Nd6In ControllerSpec Main Setup Stack MldSpec Nd6Inv Nd6Spec.

(** ** What a function leaves alone *)

Definition keeps {A T} (v : nd_world -> T) (m : M nd_world A) : Prop := forall s a s', m s = Ret (a, s') -> v s' = v s.

Section keeps.
Context {T : Type} (v : nd_world -> T).

Lemma keeps_ret {A} (a : A) : keeps v (mret a).
Proof. by intros s a' s' [= <- <-]. Qed.
Lemma keeps_bind {A B} (m : M nd_world A) (f : A -> M nd_world B) : keeps v m -> (forall a, keeps v (f a)) -> keeps v (m ≫= f).
Proof.
  intros Hm Hf s b s' E. unfold mbind, M_bind in E. destruct (m s) as [[a s1]| |] eqn:Em; [|done..].
  rewrite (Hf a s1 b s' E). by eapply Hm.
Qed.
Lemma keeps_lift {A} (o : outcome A) : keeps v (lift o).
Proof. intros s a s' E. unfold lift in E. destruct o; [|done..]. by injection E as <- <-. Qed.
Lemma keeps_get : keeps v get.
Proof. by intros s a s' [= <- <-]. Qed.
Lemma keeps_get_nd : keeps v get_nd.
Proof. by intros s a s' [= <- <-]. Qed.
Lemma keeps_assert (b : bool) : keeps v (c_assert b).
Proof. destruct b; [apply keeps_ret|done]. Qed.
Lemma keeps_each {A} (l : list A) f : (forall x, x ∈ l -> keeps v (f x)) -> keeps v (each l f).
Proof.
  induction l as [|x l IH]; intros Hf; cbn [each]; [apply keeps_ret|].
  apply keeps_bind; [apply Hf; by left|]. intros _. apply IH. intros y Hy. apply Hf. by right.
Qed.
Lemma keeps_netif_at k : keeps v (netif_at k).
Proof. apply keeps_bind; [apply keeps_get|]. intros s. apply keeps_lift. Qed.
Lemma keeps_neighbor i : keeps v (neighbor i).
Proof. apply keeps_bind; [apply keeps_get_nd|]. intros t. apply keeps_lift. Qed.
Lemma keeps_mld {A} (m : M mld_world A) : (forall x s, v (mk_nd x (nd_netifs s) (nds s)) = v s) -> keeps v (in_mld m).
Proof. intros Hv s a s' E. unfold in_mld in E. destruct (m (nd_mld s)) as [[? ?]| |]; [|done..]. injection E as <- <-. apply Hv. Qed.
Lemma keeps_modify_nd g : (forall s, v (put_nds (g (nds s)) s) = v s) -> keeps v (modify_nd g).
Proof. intros Hv s a s' [= <- <-]. apply Hv. Qed.
Lemma keeps_upd_netif k f : (forall s, v (put_netifs (upd_list k f (nd_netifs s)) s) = v s) -> keeps v (upd_netif k f).
Proof. intros Hv s a s' [= <- <-]. apply Hv. Qed.
End keeps.

Create HintDb keeps.
#[export] Hint Resolve keeps_ret keeps_lift keeps_get keeps_get_nd keeps_assert keeps_netif_at keeps_neighbor : keeps.
(** Through the structure of a function; [tac] for the steps that matter. *)
Ltac keep tac := repeat first
  [ solve [eauto with keeps] | progress cbv zeta | apply keeps_bind; [|intros] | apply keeps_mld; done | tac
  | match goal with |- keeps _ (match ?x with _ => _ end) => destruct x end ].

(** *** The tables *)

Section tables.
Context `{Env} `{LowerLayers}.
Context (lwip_rand : nat -> Z).
Context (mld_mac_filter : netif -> option (ip6_addr -> Z -> M world unit)).
Context (status_callback : netif -> M world unit).
Abbreviation cache := (fun s => neighbor_cache (nds s)).

Lemma cache_in_node {A} (m : M world A) : keeps cache (in_node m).
Proof. by apply keeps_mld. Qed.
Lemma cache_output p src dest n : keeps cache (output_nd p src dest n).
Proof. unfold output_nd. keep fail. Qed.
Hint Resolve cache_in_node cache_output : keeps.
Lemma cache_send_ns n a fl : keeps cache (nd6_send_ns n a fl).
Proof. unfold nd6_send_ns. keep fail. Qed.
Lemma cache_send_rs n : keeps cache (nd6_send_rs n).
Proof. unfold nd6_send_rs. keep fail. Qed.
Lemma cache_upd_netif k f : keeps cache (upd_netif k f).
Proof. by apply keeps_upd_netif. Qed.
Hint Resolve cache_send_ns cache_send_rs cache_upd_netif : keeps.
Lemma cache_set_state k i st : keeps cache (set_addr_state lwip_rand mld_mac_filter status_callback k i st).
Proof. unfold set_addr_state, nd6_adjust_mld_membership. keep fail. Qed.
Lemma cache_set_valid k i x : keeps cache (set_valid_life k i x).
Proof. unfold set_valid_life. keep fail. Qed.
Lemma cache_set_pref k i x : keeps cache (set_pref_life k i x).
Proof. unfold set_pref_life. keep fail. Qed.
Hint Resolve cache_set_state cache_set_valid cache_set_pref : keeps.
Lemma cache_tmr_address k i : keeps cache (tmr_address lwip_rand mld_mac_filter status_callback k i).
Proof. unfold tmr_address, tmr_lifetimes, tmr_dad. keep fail. Qed.
Lemma cache_tmr_solicit k : keeps cache (tmr_solicit k).
Proof. unfold tmr_solicit. keep fail. Qed.
Hint Resolve cache_tmr_address cache_tmr_solicit : keeps.
Lemma cache_tmr_destinations : keeps cache tmr_destinations.
Proof. by apply keeps_modify_nd. Qed.
Lemma cache_tmr_rest : keeps cache (tmr_rest lwip_rand mld_mac_filter status_callback).
Proof. unfold tmr_rest, tmr_prefixes. keep ltac:(first [apply keeps_modify_nd; done | apply keeps_each; intros]). Qed.
End tables.

(** ** A neighbour from tick to tick *)

Definition aged (e : nd6_neighbor_cache_entry) : nd6_neighbor_cache_entry :=
  match nc_state e with
  | ND6_NO_ENTRY => e
  | ND6_INCOMPLETE | ND6_PROBE =>
      if (LWIP_ND6_MAX_MULTICAST_SOLICIT <=? counter e) && (isrouter e =? 0) then freed e else with_counter (u32 (counter e + 1)) e
  | ND6_REACHABLE =>
      if counter e <=? ND6_TMR_INTERVAL then with_nc_state ND6_STALE 0 e else with_counter (counter e - ND6_TMR_INTERVAL) e
  | ND6_STALE => with_counter (u32 (counter e + 1)) e
  | ND6_DELAY => if counter e <=? 1 then with_nc_state ND6_PROBE 0 e else with_counter (counter e - 1) e
  end.

Section aging.
Context `{Env} `{LowerLayersOk}.
Context (lwip_rand : nat -> Z).
Context (mld_mac_filter : netif -> option (ip6_addr -> Z -> M world unit)).
Context (status_callback : netif -> M world unit).
Hypothesis Hfilter : forall n f a act w, mld_mac_filter n = Some f -> wp (f a act) w (fun _ w' => sends w w').
Hypothesis Hstatus : forall n w, wp (status_callback n) w (fun _ w' => sends w w').
Implicit Types s : nd_world.

(** A function that returns and leaves [v] alone. *)
Lemma fine_keeps {A T} (v : nd_world -> T) (m : M nd_world A) s : fine m s -> keeps v m -> ok m s (fun _ s' => v s' = v s).
Proof.
  intros Hm Hv. unfold fine, ok, wp in *. specialize (Hv s). destruct (m s) as [[a s']| |]; [|done..]. destruct Hm as (? & ? & _).
  split; [done|]. split; [done|]. by eapply Hv.
Qed.

(** A change of one entry, exactly. *)
Lemma ok_put s i f e e' :
  nd_ok s -> neighbor_cache (nds s) !! i = Some e -> f e = e' -> neighbor_ok (numbers s) e' -> isrouter e' = isrouter e ->
  next_hop_address e' = next_hop_address e ->
  ok (upd_neighbor i f) s (fun _ s' => neighbor_cache (nds s') = <[i := e']> (neighbor_cache (nds s))).
Proof. intros Hok He <- Hn Hr Ha. eapply ok_upd_neighbor; [done|exact He|done|done|by left|done]. Qed.

Lemma aged_probe s i e flags :
  nd_ok s -> neighbor_cache (nds s) !! i = Some e -> nc_state e = ND6_INCOMPLETE \/ nc_state e = ND6_PROBE ->
  ok (tmr_probe i e flags) s (fun _ s' => neighbor_cache (nds s') = <[i := aged e]> (neighbor_cache (nds s))).
Proof.
  intros Hok He Hst. pose proof (no_tables _ Hok) as Ht. pose proof (neighbor_entry_ok _ _ Ht _ _ He) as Hn.
  assert (Hact : nc_state e <> ND6_NO_ENTRY) by (destruct Hst; congruence).
  assert (Ea : aged e = if (LWIP_ND6_MAX_MULTICAST_SOLICIT <=? counter e) && (isrouter e =? 0) then freed e else with_counter (u32 (counter e + 1)) e)
    by (unfold aged; by destruct Hst as [-> | ->]).
  rewrite Ea. unfold tmr_probe. destruct (_ && (isrouter e =? 0)) eqn:Ec.
  - apply andb_true_iff in Ec as [_ Hr%Z.eqb_eq]. eapply ok_exec; [apply nd_free_exec; [by eapply neighbor_bound|done|apply Hn|done]| |apply put_nds_evolves|done].
    apply put_nds_ok; [done|]. eapply set_neighbor_ok; [done|done|apply freed_neighbor_ok, Hn|done|]. right. by left.
  - eapply ok_bind; [eapply ok_put; [done|exact He|reflexivity| |done|done]|]. { destruct Hn. split; try done. apply u32_range. }
    intros [] s1 Hok1 _ E1. eapply ok_mono; [eapply ok_probe; [done|rewrite E1; by apply list_lookup_insert_eq, (lookup_lt_Some _ _ _ He)|done]|].
    cbn beta. intros _ s2 _ _ Ho. destruct (outputs_tables _ _ Ho) as [-> _]. done.
Qed.

Lemma aged_neighbor s i e :
  nd_ok s -> neighbor_cache (nds s) !! i = Some e ->
  ok (tmr_neighbor i) s (fun _ s' => neighbor_cache (nds s') = <[i := aged e]> (neighbor_cache (nds s))).
Proof.
  intros Hok He. pose proof (neighbor_entry_ok _ _ (no_tables _ Hok) _ _ He) as Hn. pose proof (nb_counter _ _ Hn) as Hc. unfold u32_ok in Hc.
  unfold tmr_neighbor. eapply ok_read; [by apply neighbor_exec|]. unfold aged. destruct (nc_state e) eqn:Est.
  - apply ok_ret; [done|]. by rewrite list_insert_id.
  - pose proof (aged_probe s i e ND6_SEND_FLAG_MULTICAST_DEST Hok He (or_introl Est)) as Hp. unfold aged in Hp. by rewrite Est in Hp.
  - rewrite (nb_q _ _ Hn). eapply ok_read; [done|]. eapply ok_put; [done|exact He|reflexivity| |by destruct (_ <=? _)|by destruct (_ <=? _)].
    destruct (Z.leb_spec (counter e) ND6_TMR_INTERVAL); apply state_set_ok; try done; try (apply Hn; congruence); [congruence|].
    unfold u32_ok, ND6_TMR_INTERVAL in *. lia.
  - eapply ok_put; [done|exact He|reflexivity| |done|done]. destruct Hn. split; try done. apply u32_range.
  - destruct (Z.leb_spec (counter e) 1).
    + eapply ok_put; [done|exact He|reflexivity|apply state_set_ok; [done|apply Hn; congruence|done|done]|done|done].
    + eapply ok_put; [done|exact He|reflexivity| |done|done]. destruct Hn. split; try done. unfold u32_ok. cbn. lia.
  - pose proof (aged_probe s i e 0 Hok He (or_intror Est)) as Hp. unfold aged in Hp. by rewrite Est in Hp.
Qed.

Lemma aged_neighbors : forall n j s, (j + n <= LWIP_ND6_NUM_NEIGHBORS)%nat -> nd_ok s ->
  ok (each (seq j n) tmr_neighbor) s (fun _ s' => forall i e, neighbor_cache (nds s) !! i = Some e ->
    neighbor_cache (nds s') !! i = Some (if decide (j <= i < j + n)%nat then aged e else e)).
Proof.
  induction n as [|n IH]; intros j s Hj Hok; cbn [seq each].
  { apply ok_ret; [done|]. intros i e He. rewrite decide_False by lia. done. }
  destruct (neighbor_lookup _ _ (no_tables _ Hok) j) as [e0 He0]; [lia|].
  eapply ok_bind; [by apply (aged_neighbor s j e0)|]. intros [] s1 Hok1 Hev1 E1.
  eapply ok_mono; [apply IH; [lia|done]|]. cbn beta. intros _ s2 _ _ H2 i e He. destruct (decide (i = j)) as [->|Hij].
  - rewrite (H2 j (aged e0)) by (rewrite E1; apply list_lookup_insert_eq; by eapply lookup_lt_Some).
    rewrite decide_False, decide_True by lia. congruence.
  - rewrite (H2 i e) by (by rewrite E1, list_lookup_insert_ne). f_equal. destruct (decide (S j <= i < S j + n)%nat), (decide (j <= i < j + S n)%nat); try done; lia.
Qed.

(** Expiring routers leave the other neighbours alone. *)
Definition others_kept (s s' : nd_world) : Prop :=
  forall i e, neighbor_cache (nds s) !! i = Some e -> isrouter e = 0 -> neighbor_cache (nds s') !! i = Some e.
Lemma others_router s i : nd_ok s -> (i < LWIP_ND6_NUM_ROUTERS)%nat -> ok (tmr_router i) s (fun _ s' => others_kept s s').
Proof.
  intros Hok Hi. pose proof (fine_tmr_router s i Hok Hi) as Hf. unfold fine, ok in *. pose proof Hf as Hw.
  apply wp_elim in Hf as ([] & s' & E & Hok' & Hev & _). eapply wp_exec; [exact E|]. split; [done|]. split; [done|]. clear Hw Hok' Hev.
  destruct (lookup_lt_is_Some_2 (default_router_list (nds s)) i) as [r Hr]; [by rewrite (to_routers_len _ _ (no_tables _ Hok))|].
  unfold tmr_router in E. unfold get_nd, gets, mbind at 1, M_bind at 1 in E. rewrite Hr in E. unfold lift, mbind at 1, M_bind at 1 in E. cbn [deref] in E.
  destruct (neighbor_entry r) as [j|] eqn:Ej; [|injection E as <-; by intros i' e' He' _].
  destruct (router_neighbor s Hok _ _ _ Hr Ej) as (e & He & _ & Hm & _). destruct (rl_timer r <=? _).
  - rewrite (bind_exec _ _ _ _ _ (neighbor_exec _ _ _ He)) in E. unfold modify_nd at 1, modify, mbind at 1, M_bind at 1 in E.
    erewrite bind_exec in E; [|apply upd_neighbor_exec; exact He]. injection E as <-. intros i' e' He' Hr'. cbn.
    rewrite list_lookup_insert_ne; [done|]. intros <-. congruence.
  - injection E as <-. by intros i' e' He' _.
Qed.
Lemma others_routers : forall l s, Forall (fun i => i < LWIP_ND6_NUM_ROUTERS)%nat l -> nd_ok s -> ok (each l tmr_router) s (fun _ s' => others_kept s s').
Proof.
  induction l as [|i l IH]; intros s Hl Hok; cbn [each]; [apply ok_ret; [done|]; by intros i e|]. apply Forall_cons in Hl as [Hi Hl].
  eapply ok_bind; [by apply others_router|]. intros [] s1 Hok1 _ G1. eapply ok_mono; [by apply IH|]. cbn beta. intros _ s2 _ _ G2 j e He Hr. auto.
Qed.

(** One tick. *)
Lemma aged_tick s :
  nd_ok s -> ok (nd6_tmr lwip_rand mld_mac_filter status_callback) s (fun _ s' =>
    forall i e, neighbor_cache (nds s) !! i = Some e -> isrouter e = 0 -> neighbor_cache (nds s') !! i = Some (aged e)).
Proof.
  intros Hok. unfold nd6_tmr. eapply ok_bind; [by apply aged_neighbors|]. intros [] s1 Hok1 _ G1.
  eapply (ok_bind _ _ _ (fun _ s' => neighbor_cache (nds s') = neighbor_cache (nds s1))).
  { apply (fine_keeps (fun s => neighbor_cache (nds s))); [by apply fine_tmr_destinations|apply cache_tmr_destinations]. }
  intros [] s2 Hok2 _ G2.
  eapply ok_bind; [apply others_routers; [apply Forall_forall; intros i Hi%elem_of_seq; lia|done]|]. intros [] s3 Hok3 _ G3.
  fold (tmr_rest lwip_rand mld_mac_filter status_callback).
  eapply (ok_mono _ _ (fun _ s' => neighbor_cache (nds s') = neighbor_cache (nds s3))).
  { apply (fine_keeps (fun s => neighbor_cache (nds s))); [by apply fine_tmr_rest|apply cache_tmr_rest]. }
  cbn beta. intros _ s4 _ _ G4 i e He Hr. rewrite G4. apply G3.
  - rewrite G2, (G1 i e He), decide_True; [done|]. apply (neighbor_bound _ _ (no_tables _ Hok)) in He. lia.
  - unfold aged. repeat case_match; done.
Qed.

(** [n] ticks. *)
Fixpoint nd_ticks (n : nat) : M nd_world unit :=
  match n with O => mret tt | S n => nd6_tmr lwip_rand mld_mac_filter status_callback;; nd_ticks n end.
Lemma aged_router e : isrouter e = 0 -> isrouter (aged e) = 0.
Proof. intros Hr. unfold aged. repeat case_match; done. Qed.
Lemma aged_ticks n : forall s, nd_ok s -> ok (nd_ticks n) s (fun _ s' =>
  forall i e, neighbor_cache (nds s) !! i = Some e -> isrouter e = 0 -> neighbor_cache (nds s') !! i = Some (Nat.iter n aged e)).
Proof.
  induction n as [|n IH]; intros s Hok; cbn [nd_ticks]; [by apply ok_ret|]. eapply ok_bind; [by apply aged_tick|]. intros [] s1 Hok1 _ G1.
  eapply ok_mono; [by apply IH|]. cbn beta. intros _ s2 _ _ G2 i e He Hr. rewrite (G2 i (aged e)); [|by apply G1|by apply aged_router].
  by rewrite Nat.iter_succ_r.
Qed.
End aging.

(** *** How long it takes *)

Definition probing (e : nd6_neighbor_cache_entry) : Prop := nc_state e = ND6_INCOMPLETE \/ nc_state e = ND6_PROBE.
(** The ticks after which a neighbour that does not answer is given up. *)
Definition given_up_in (e : nd6_neighbor_cache_entry) : nat :=
  match nc_state e with
  | ND6_INCOMPLETE | ND6_PROBE => Z.to_nat (Z.max 1 (4 - counter e))
  | ND6_DELAY => Z.to_nat (Z.max 1 (counter e)) + 4
  | _ => 0
  end.
(** The ticks after which a reachable neighbour is stale. *)
Definition stale_in (e : nd6_neighbor_cache_entry) : nat := Z.to_nat (Z.max 1 ((counter e + 999) / 1000)).

Lemma with_counter_id e : with_counter (counter e) e = e.
Proof. by destruct e. Qed.

Lemma probe_iter n : forall e, probing e -> isrouter e = 0 -> 0 <= counter e -> counter e + Z.of_nat n <= 3 ->
  Nat.iter n aged e = with_counter (counter e + Z.of_nat n) e.
Proof.
  induction n as [|n IH]; intros e Hp Hr Hc Hn; [by rewrite Z.add_0_r, with_counter_id|].
  change (aged (Nat.iter n aged e) = with_counter (counter e + Z.of_nat (S n)) e). rewrite IH by (done || lia).
  unfold aged. change (nc_state (with_counter ?c e)) with (nc_state e). change (counter (with_counter ?c e)) with c.
  unfold LWIP_ND6_MAX_MULTICAST_SOLICIT. rewrite (proj2 (Z.leb_gt 3 _)) by lia. cbn [andb].
  assert (E : with_counter (u32 (counter e + Z.of_nat n + 1)) (with_counter (counter e + Z.of_nat n) e) = with_counter (counter e + Z.of_nat (S n)) e).
  { rewrite u32_small by lia. unfold with_counter, with_nc_state. cbn. f_equal. lia. }
  destruct Hp as [-> | ->]; exact E.
Qed.

Lemma probe_given_up e : probing e -> isrouter e = 0 -> 0 <= counter e ->
  nc_state (Nat.iter (given_up_in e) aged e) = ND6_NO_ENTRY /\
  forall n, (n < given_up_in e)%nat -> nc_state (Nat.iter n aged e) <> ND6_NO_ENTRY.
Proof.
  intros Hp Hr Hc. assert (Eg : given_up_in e = S (Z.to_nat (3 - counter e))) by (unfold given_up_in; destruct Hp as [-> | ->]; lia).
  set (m := Z.to_nat (3 - counter e)) in *. rewrite Eg.
  assert (Hlast : forall e', probing e' -> isrouter e' = 0 -> 3 <= counter e' -> nc_state (aged e') = ND6_NO_ENTRY).
  { intros e' Hp' Hr' Hc'. unfold aged. rewrite Hr'. unfold LWIP_ND6_MAX_MULTICAST_SOLICIT. rewrite (proj2 (Z.leb_le 3 _)) by lia. by destruct Hp' as [-> | ->]. }
  destruct (Z.le_gt_cases 3 (counter e)) as [Hge|Hlt].
  - assert (m = 0%nat) as -> by lia. split; [by apply Hlast|]. intros n Hn. assert (n = 0%nat) as -> by lia. destruct Hp as [Hp|Hp]; cbn; congruence.
  - split.
    + change (nc_state (aged (Nat.iter m aged e)) = ND6_NO_ENTRY). rewrite (probe_iter m) by (done || lia). apply Hlast; [done|done|]. cbn. lia.
    + intros n Hn. rewrite (probe_iter n) by (done || lia). destruct Hp as [Hp|Hp]; cbn; congruence.
Qed.

Lemma iter_add {A} (f : A -> A) n m x : Nat.iter (n + m) f x = Nat.iter n f (Nat.iter m f x).
Proof. apply Nat.iter_add. Qed.

Lemma delay_iter n : forall e, nc_state e = ND6_DELAY -> Z.of_nat n <= Z.max 0 (counter e - 1) ->
  Nat.iter n aged e = with_counter (counter e - Z.of_nat n) e.
Proof.
  induction n as [|n IH]; intros e Hp Hn; [by rewrite Z.sub_0_r, with_counter_id|].
  change (aged (Nat.iter n aged e) = with_counter (counter e - Z.of_nat (S n)) e). rewrite IH by (done || lia).
  unfold aged. change (nc_state (with_counter ?c e)) with (nc_state e). rewrite Hp. change (counter (with_counter ?c e)) with c.
  rewrite (proj2 (Z.leb_gt _ 1)) by lia. unfold with_counter, with_nc_state. cbn. f_equal. lia.
Qed.

Lemma delay_given_up e : nc_state e = ND6_DELAY -> isrouter e = 0 -> 0 <= counter e ->
  nc_state (Nat.iter (given_up_in e) aged e) = ND6_NO_ENTRY /\
  forall n, (n < given_up_in e)%nat -> nc_state (Nat.iter n aged e) <> ND6_NO_ENTRY.
Proof.
  intros Hst Hr Hc. set (m := Z.to_nat (Z.max 0 (counter e - 1))).
  assert (Eg : given_up_in e = (4 + S m)%nat) by (unfold given_up_in; rewrite Hst; lia). rewrite Eg.
  assert (Ep : Nat.iter (S m) aged e = with_nc_state ND6_PROBE 0 e).
  { change (aged (Nat.iter m aged e) = with_nc_state ND6_PROBE 0 e). rewrite delay_iter by (done || lia).
    unfold aged. change (nc_state (with_counter ?c e)) with (nc_state e). rewrite Hst. change (counter (with_counter ?c e)) with c.
    rewrite (proj2 (Z.leb_le _ 1)) by lia. done. }
  pose proof (probe_given_up (with_nc_state ND6_PROBE 0 e) (or_intror eq_refl) Hr ltac:(done)) as [G1 G2].
  change (given_up_in (with_nc_state ND6_PROBE 0 e)) with 4%nat in G1, G2. rewrite iter_add, Ep. split; [exact G1|].
  intros n Hn. destruct (decide (n < S m)%nat) as [Hlt|Hge].
  - rewrite delay_iter by (done || lia). cbn. congruence.
  - replace n with (n - S m + S m)%nat by lia. rewrite iter_add, Ep. apply G2. lia.
Qed.

Lemma reach_iter n : forall e, nc_state e = ND6_REACHABLE -> 1000 * Z.of_nat n < Z.max 1 (counter e) ->
  Nat.iter n aged e = with_counter (counter e - 1000 * Z.of_nat n) e.
Proof.
  induction n as [|n IH]; intros e Hst Hn; [by rewrite Z.sub_0_r, with_counter_id|].
  change (aged (Nat.iter n aged e) = with_counter (counter e - 1000 * Z.of_nat (S n)) e). rewrite IH by (done || lia).
  unfold aged. change (nc_state (with_counter ?c e)) with (nc_state e). rewrite Hst. change (counter (with_counter ?c e)) with c.
  unfold ND6_TMR_INTERVAL. rewrite (proj2 (Z.leb_gt _ 1000)) by lia. unfold with_counter, with_nc_state. cbn. f_equal. lia.
Qed.
Lemma reach_stale e : nc_state e = ND6_REACHABLE -> 0 <= counter e ->
  nc_state (Nat.iter (stale_in e) aged e) = ND6_STALE /\ forall n, (n < stale_in e)%nat -> nc_state (Nat.iter n aged e) = ND6_REACHABLE.
Proof.
  intros Hst Hc. unfold stale_in. set (m := Z.to_nat (Z.max 1 ((counter e + 999) / 1000))).
  assert (Hm : (1 <= m)%nat /\ 1000 * (Z.of_nat m - 1) < Z.max 1 (counter e) <= 1000 * Z.of_nat m).
  { subst m. pose proof (Z.div_mod (counter e + 999) 1000 ltac:(lia)). pose proof (Z.mod_pos_bound (counter e + 999) 1000 ltac:(lia)). lia. }
  destruct m as [|m]; [lia|]. split.
  - change (nc_state (aged (Nat.iter m aged e)) = ND6_STALE). rewrite reach_iter by (done || lia).
    unfold aged. change (nc_state (with_counter ?c e)) with (nc_state e). rewrite Hst. change (counter (with_counter ?c e)) with c.
    unfold ND6_TMR_INTERVAL. rewrite (proj2 (Z.leb_le _ 1000)) by lia. done.
  - intros n Hn. rewrite reach_iter by (done || lia). cbn. congruence.
Qed.

(** Unused and stale entries stay so. *)
Lemma settled st e : st = ND6_NO_ENTRY \/ st = ND6_STALE -> nc_state e = st -> nc_state (aged e) = st.
Proof. intros Hst He. unfold aged. rewrite He. by destruct Hst as [-> | ->]. Qed.
Lemma settled_iter st e n : st = ND6_NO_ENTRY \/ st = ND6_STALE -> nc_state e = st -> nc_state (Nat.iter n aged e) = st.
Proof. intros Hst He. induction n as [|n IH]; [done|]. by apply (settled st (Nat.iter n aged e)). Qed.
Lemma settled_after st e m n : st = ND6_NO_ENTRY \/ st = ND6_STALE -> nc_state (Nat.iter m aged e) = st -> (m <= n)%nat -> nc_state (Nat.iter n aged e) = st.
Proof. intros Hst He Hle. replace n with (n - m + m)%nat by lia. rewrite iter_add. by apply settled_iter. Qed.

(** C30: what becomes of a neighbour nobody hears of.  Over any number of ticks [nd6_tmr]
    returns with well-formed tables; an entry that is not a router and is being resolved,
    delayed or probed stays in the cache exactly until [given_up_in] ticks have passed
    (after three solicitations, at most nine ticks with the values the code sets) and is
    unused from then on, and a reachable one stays reachable exactly until its time is up
    and is stale from then on. *)
Theorem neighbor_given_up `{Env} `{LowerLayersOk} lwip_rand mld_mac_filter status_callback s i e n :
  (forall n f a act w, mld_mac_filter n = Some f -> wp (f a act) w (fun _ w' => sends w w')) ->
  (forall n w, wp (status_callback n) w (fun _ w' => sends w w')) ->
  nd_ok s -> neighbor_cache (nds s) !! i = Some e -> isrouter e = 0 ->
  wp (nd_ticks lwip_rand mld_mac_filter status_callback n) s (fun _ s' => nd_ok s' /\ exists e', neighbor_cache (nds s') !! i = Some e' /\
    (nc_state e = ND6_INCOMPLETE \/ nc_state e = ND6_DELAY \/ nc_state e = ND6_PROBE ->
     if decide (n < given_up_in e)%nat then nc_state e' <> ND6_NO_ENTRY else nc_state e' = ND6_NO_ENTRY) /\
    (nc_state e = ND6_REACHABLE -> nc_state e' = if decide (n < stale_in e)%nat then ND6_REACHABLE else ND6_STALE)).
Proof.
  intros Hf Hs Hok He Hr. pose proof (nb_counter _ _ (neighbor_entry_ok _ _ (no_tables _ Hok) _ _ He)) as [Hc _].
  eapply wp_mono; [by apply (aged_ticks lwip_rand mld_mac_filter status_callback Hf Hs n s Hok)|]. cbn beta. intros _ s' (Hok' & _ & Hall).
  split; [done|]. exists (Nat.iter n aged e). split; [by apply Hall|]. split.
  - intros Hst. assert (Hg : nc_state (Nat.iter (given_up_in e) aged e) = ND6_NO_ENTRY /\
      forall n, (n < given_up_in e)%nat -> nc_state (Nat.iter n aged e) <> ND6_NO_ENTRY).
    { destruct Hst as [?|[?|?]]; [apply probe_given_up; [by left|done|done]|by apply delay_given_up|apply probe_given_up; [by right|done|done]]. }
    destruct (decide _) as [Hlt|Hge]; [by apply Hg|]. eapply settled_after; [by left|apply Hg|lia].
  - intros Hst. destruct (reach_stale e Hst Hc) as [Hg1 Hg2]. destruct (decide _) as [Hlt|Hge]; [by apply Hg2|].
    eapply settled_after; [by right|apply Hg1|lia].
Qed.

(** ** Messages on the TUN interface *)

(** No destination is known to take less than a message of neighbour discovery. *)
Definition paths_fit (t : nd_state) : Prop := Forall (fun d => pmtu d = 0 \/ 72 <= pmtu d) (destination_cache t).
Lemma mtu_fits t d n : paths_fit t -> 72 <= nif_mtu6 n -> 72 <= Nd6.nd6_get_destination_mtu t d (Some n).
Proof.
  intros Hp Hm. unfold Nd6.nd6_get_destination_mtu. destruct (nd6_find_destination_cache_entry t d) as [i|]; [|done].
  destruct (destination_cache t !! i) as [e|] eqn:Ee; [|done]. destruct (Forall_lookup_1 _ _ _ _ Hp Ee) as [-> |Hpm]; [done|].
  by rewrite (proj2 (Z.ltb_lt 0 _)) by lia.
Qed.

(** A message as the interface writes it. *)
Definition nd_packet (src dest : ip6_addr) (msg : list Z) : list Z :=
  ip6_header src dest ND6_HOPLIM 0 IP6_NEXTH_ICMP6 (Z.of_nat (length msg)) ++ msg.

Section tun.
Context `{Env} `{LowerLayersOk} (n : netif) (fd : Z).
Hypotheses (Hout : forall n p d, output_ip6 n p d = tunif_ip6_output (Some n) (Some p) d).
Hypotheses (Hwrite : forall t k, env_write t k = Written k) (Hmem : forall t, env_mem_malloc t = true).
Hypotheses (Hfd : nif_state n = Some fd) (Hm6 : 72 <= nif_mtu6 n).

Lemma wp_nd_transmit t w q b bs d Q :
  paths_fit t -> single (w_pbufs w) q b bs -> Z.of_nat (length bs) <= 72 ->
  Q ERR_OK (logged [EvTunWrite fd bs] 1 w) -> wp (@ip6_transmit (nd_layers t) q d n) w Q.
Proof.
  intros Hp Hs Hl HQ. pose proof (single_length _ _ _ _ Hs) as Hlen. pose proof Hs as (_ & _ & Ht & _).
  unfold ip6_transmit. apply wp_bind. eapply wp_exec; [by eapply pb_node_exec|]. cbn [n_val]. apply wp_bind.
  assert (Hsend : wp (output_ip6 n q d) w Q) by (rewrite Hout; eapply tun_writes; eauto; unfold PACKET_BUF_SIZE; lia).
  destruct (nif_mtu6 n =? 0); [apply wp_ret; exact Hsend|]. apply wp_bind. cbn [Ip6Out.nd6_get_destination_mtu nd_layers]. apply wp_ret, wp_ret.
  pose proof (mtu_fits t d n Hp Hm6). rewrite (proj2 (Z.ltb_ge _ _)) by lia. exact Hsend.
Qed.

(** The source is null for the unspecified address. *)
Lemma wp_nd_write s p w1 msg src dest Q :
  ready (host s) p msg w1 -> Z.of_nat (length msg) <= 32 -> paths_fit (nds s) ->
  (forall k, Q tt (put_host (logged [EvTunWrite fd (nd_packet (if ip6_addr_isany src then ip6_addr_any else src) dest msg)] k (host s)) s)) ->
  wp (output_nd p (if ip6_addr_isany src then None else Some src) dest n;; in_node (pbuf_free_m p);; mret tt) (put_host w1 s) Q.
Proof.
  intros (Hp & Htr & b & Hat & Hr & Hc & Hpl) Hl Hpf HQ. destruct (at_silent _ _ _ _ _ Hat Htr) as [k Hw1].
  apply wp_bind. unfold output_nd. apply wp_bind. eapply (wp_exec _ _ (nds s)); [done|]. apply wp_in_node. rewrite output_if_any.
  eapply wp_output_if_src; [split; eauto|done|done|lia|by vm_compute|]. intros b' dz _ [Hs' Hr'].
  eapply wp_nd_transmit; [exact Hpf|exact Hs'|rewrite length_app, length_ip6_header; lia|].
  apply wp_bind, wp_in_node. eapply wp_exec; [eapply pbuf_free_m_exec; [exact Hs'|exact Hr']|]. apply wp_ret.
  specialize (HQ (1 + k)%nat). rewrite <-(copy_released (host s) p b' _ 1 k Hp), <-(put_pbuf_put p b b'), <-Hw1 in HQ. exact HQ.
Qed.

(** The advertisement that answers: what the interface has no link-layer address for is
    not written. *)
Definition answer (target src : ip6_addr) (junk : list Z) : list Z :=
  with_checksum target src (na_bytes (Z.lor ND6_FLAG_SOLICITED ND6_FLAG_OVERRIDE) target (lladdr_option ND6_OPTION_TYPE_TARGET_LLADDR n junk)).

Lemma length_answer target src junk : hwaddr_ok n -> length junk = 6%nat -> length (answer target src junk) = 32%nat.
Proof.
  intros Hn Hj. unfold answer. rewrite length_with_checksum by (cbn; lia). cbn [length na_bytes app]. rewrite length_app, (length_option n Hn) by done. done.
Qed.

Lemma wp_answer s target Q :
  hwaddr_ok n -> ip6_wf target -> ip6_addr_isany target = false -> ip6_wf (w_cur_src (host s)) -> paths_fit (nds s) ->
  (forall k junk, length junk = 6%nat -> Forall is_byte junk ->
     Q tt (put_host (logged [EvTunWrite fd (nd_packet target (w_cur_src (host s)) (answer target (w_cur_src (host s)) junk))] k (host s)) s)) ->
  wp (nd6_send_na n target (Z.lor ND6_FLAG_SOLICITED ND6_FLAG_OVERRIDE)) s Q.
Proof.
  intros Hn Hta Hany Hsrc Hpf HQ. eapply wp_send_na_with; [done|done|done|done|by rewrite Hmem|]. intros p w1 junk Hj Hjb Hrd.
  change (has_flag (Z.lor ND6_FLAG_SOLICITED ND6_FLAG_OVERRIDE) ND6_SEND_FLAG_MULTICAST_DEST) with false in Hrd |- *.
  change (has_flag (Z.lor ND6_FLAG_SOLICITED ND6_FLAG_OVERRIDE) ND6_SEND_FLAG_ALLNODES_DEST) with false in Hrd |- *.
  cbv beta iota in Hrd |- *. fold (answer target (w_cur_src (host s)) junk) in Hrd.
  pose proof (wp_nd_write s p w1 _ target (w_cur_src (host s)) Q Hrd) as Hw. rewrite Hany in Hw. apply Hw; [|done|].
  - by rewrite (length_answer target (w_cur_src (host s)) junk Hn Hj).
  - intros k. by apply HQ.
Qed.

Lemma answer_verifies target src junk h q lq :
  hwaddr_ok n -> ip6_wf target -> ip6_wf src -> length junk = 6%nat -> Forall is_byte junk ->
  pkt h q lq (answer target src junk) -> ip6_chksum_pseudo h (Some q) IP6_NEXTH_ICMP6 32 target src = Ret 0.
Proof.
  intros Hn Hta Hsrc Hj Hb Hp. set (G := na_bytes (Z.lor ND6_FLAG_SOLICITED ND6_FLAG_OVERRIDE) target (lladdr_option ND6_OPTION_TYPE_TARGET_LLADDR n junk)).
  assert (HlG : length G = 32%nat) by (unfold G; cbn [length na_bytes app]; rewrite length_app, (length_option n Hn) by done; done).
  replace 32 with (Z.of_nat (length G)) by (by rewrite HlG). eapply with_checksum_verifies; [lia| |done|done|lia|exact Hp].
  unfold G, na_bytes, lladdr_option. 
  apply Forall_app_2; [repeat constructor; by vm_compute|]. apply Forall_app_2; [apply ip6_bytes_byte|].
  apply Forall_app_2; [repeat constructor; by vm_compute|]. apply Forall_app_2; [apply Forall_take, Hn|by apply Forall_drop].
Qed.
End tun.

(** ** A solicitation is answered *)

Section solicited.
Context `{Env} `{LowerLayersOk}.
Context (lwip_rand : nat -> Z).
Context (mld_mac_filter : netif -> option (ip6_addr -> Z -> M world unit)).
Context (status_callback : netif -> M world unit).

(** A valid solicitation for an address of the interface, from a node that asks for it. *)
Record solicitation (hdr : Z) (p : loc) (b : pbuf) (bs : list Z) (x : nd_netif) (target : ip6_addr) (s : nd_world) : Prop := {
  so_arrived : arrived hdr p b bs (nif_num (ndn x)) s;
  so_netif : find_nd (nif_num (ndn x)) (nd_netifs s) = Some x;
  so_type : byte_at 0 bs = ICMP6_TYPE_NS;
  so_code : byte_at 1 bs = 0;
  so_hoplim : byte_at (Z.to_nat (hdr + OFF_HOPLIM)) (pb_buf b) = ND6_HOPLIM;
  so_target : target = ip6_addr_assign_zone (ip6_of_bytes (slice 8 16 bs)) IP6_UNICAST (ndn x);
  so_unicast : ip6_addr_ismulticast target = false /\ ip6_addr_isany target = false;
  so_option : (26 <= length bs)%nat /\ 24 + Z.shiftl (byte_at 25 bs) 3 <= Z.of_nat (length bs);
  so_ours : exists j, (j < LWIP_IPV6_NUM_ADDRESSES)%nat /\ ip6_addr_isvalid (state_at (ndn x) j) = true /\ addr_at (ndn x) j = target;
  so_sender : ip6_addr_isany (w_cur_src (host s)) = false
}.

Lemma accepted hdr p b bs x target s :
  nd_netif_ok x -> solicitation hdr p b bs x target s ->
  exists i, first_slot LWIP_IPV6_NUM_ADDRESSES 0 (accepting_slot (ndn x) (w_cur_src (host s)) target) = Ret (Some i).
Proof.
  intros Hx Hso. destruct (so_ours _ _ _ _ _ _ _ Hso) as (j & Hj & Hv & Ha).
  pose proof (first_slot_spec LWIP_IPV6_NUM_ADDRESSES 0 (accepting_slot (ndn x) (w_cur_src (host s)) target)
    (fun j => (ip6_addr_isvalid (state_at (ndn x) j) || (ip6_addr_istentative (state_at (ndn x) j) && ip6_addr_isany (w_cur_src (host s)))) &&
       ip6_addr_cmp target (addr_at (ndn x) j))) as Hf.
  assert (Hex : forall j, (0 <= j < 0 + LWIP_IPV6_NUM_ADDRESSES)%nat -> accepting_slot (ndn x) (w_cur_src (host s)) target j =
    Ret ((ip6_addr_isvalid (state_at (ndn x) j) || (ip6_addr_istentative (state_at (ndn x) j) && ip6_addr_isany (w_cur_src (host s)))) &&
       ip6_addr_cmp target (addr_at (ndn x) j))).
  { intros i Hi. unfold accepting_slot. rewrite (slot_state x Hx i) by lia. cbn [mbind outcome_bind]. destruct (_ || _); [|done].
    destruct (slot_addr x Hx i) as [-> _]; [lia|done]. }
  specialize (Hf Hex). destruct (first_slot _ _ _) as [[i|]| |]; [by exists i| |done|done].
  specialize (Hf j ltac:(lia)). rewrite Hv, Ha, (proj2 (addr_cmp_eq target target) eq_refl) in Hf. done.
Qed.

(** There is room for the sender. *)
Definition sender_fits (s : nd_world) : Prop :=
  is_Some (nd6_find_neighbor_cache_entry (nds s) (w_cur_src (host s))) \/
  exists i e, neighbor_cache (nds s) !! i = Some e /\ isrouter e = 0 /\ ~ (nc_state e = ND6_REACHABLE /\ counter e = 0xffffffff).

Lemma room_taken s i e s' :
  nd_ok s -> neighbor_cache (nds s) !! i = Some e -> isrouter e = 0 -> ~ (nc_state e = ND6_REACHABLE /\ counter e = 0xffffffff) ->
  nd6_new_neighbor_cache_entry s <> Ret (None, s').
Proof.
  intros Hok He Hr Hn E. pose proof (no_tables _ Hok) as Ht. unfold nd6_new_neighbor_cache_entry, get_nd, gets, mbind at 1, M_bind at 1 in E.
  pose proof (index_of_spec (fun e => bool_decide (nc_state e = ND6_NO_ENTRY)) (neighbor_cache (nds s))) as Hi. destruct (index_of _ _); [done|].
  assert (Hall : Forall (fun e => u32_ok (counter e) /\ nc_state e <> ND6_NO_ENTRY) (neighbor_cache (nds s))).
  { apply Forall_lookup. intros j e' He'. split; [apply (nb_counter _ _ (neighbor_entry_ok _ _ Ht _ _ He'))|].
    specialize (Hi _ _ He'). by apply bool_decide_eq_false in Hi. }
  pose proof (recycled_spec _ Hall) as Hrec. destruct (recycled _) as [j|]; [|by apply Hn, (Hrec i e)].
  unfold mbind, M_bind in E. by destruct (nd6_free_neighbor_cache_entry j s) as [[[] ?]| |].
Qed.

Lemma ns_exec hdr p b bs x target s :
  nd_ok s -> solicitation hdr p b bs x target s ->
  Nd6In.nd6_input lwip_rand mld_mac_filter status_callback hdr p (nif_num (ndn x)) s =
  (ns_resolve p (nif_num (ndn x)) (w_cur_src (host s)) target;; in_node (pbuf_free_m p);; mret tt) s.
Proof.
  intros Hok Hso. pose proof (so_arrived _ _ _ _ _ _ _ Hso) as Ha. pose proof (so_netif _ _ _ _ _ _ _ Hso) as Hx.
  destruct (find_nd_num _ _ _ Hx) as [Hin _]. pose proof (no_netifs _ Hok) as Hall. rewrite Forall_forall in Hall. specialize (Hall x Hin).
  destruct (so_option _ _ _ _ _ _ _ Hso) as [Hl26 Hlo]. pose proof (arr_length _ _ _ _ _ _ Ha) as Hl. pose proof (arr_single _ _ _ _ _ _ Ha) as Hsg.
  unfold Nd6In.nd6_input. erewrite bind_exec by (apply in_node_read; eapply pread8_exec; [exact Hsg|lia]).
  change (Z.to_nat 0) with 0%nat. rewrite (so_type _ _ _ _ _ _ _ Hso).
  change (ICMP6_TYPE_NS =? ICMP6_TYPE_NA) with false. change (ICMP6_TYPE_NS =? ICMP6_TYPE_NS) with true. cbv iota.
  unfold mbind at 1, M_bind at 1. unfold mbind at 3, M_bind at 3.
  replace (nd6_input_ns lwip_rand mld_mac_filter status_callback hdr p (nif_num (ndn x)) s) with
    (ns_resolve p (nif_num (ndn x)) (w_cur_src (host s)) target s); [done|]. symmetry.
  unfold nd6_input_ns. erewrite bind_exec by (apply in_node_read; by eapply pb_node_exec). cbn [n_val]. unfold sizeof_ns_header.
  rewrite (proj2 (Z.ltb_ge _ _)) by lia. erewrite bind_exec by (by apply netif_at_exec).
  erewrite bind_exec by (unfold packed_addr; erewrite bind_exec; [reflexivity|]; apply in_node_read; eapply pread_exec; [exact Hsg|lia..]).
  cbv zeta. change (Z.to_nat 8) with 8%nat. change (Z.to_nat 16) with 16%nat. rewrite <-(so_target _ _ _ _ _ _ _ Hso).
  erewrite bind_exec by (by eapply hoplim_exec). rewrite (so_hoplim _ _ _ _ _ _ _ Hso).
  erewrite bind_exec by (apply in_node_read; eapply pread8_exec; [exact Hsg|lia]). change (Z.to_nat 1) with 1%nat.
  rewrite (so_code _ _ _ _ _ _ _ Hso). destruct (so_unicast _ _ _ _ _ _ _ Hso) as [Hmc _]. rewrite Hmc, Z.eqb_refl. cbn [negb orb Z.eqb].
  erewrite bind_exec by (by eapply fits_exec). rewrite (proj2 (Z.leb_le _ _)) by lia. change (Z.to_nat (24 + 1)) with 25%nat.
  rewrite (proj2 (Z.ltb_ge _ _)) by lia. cbn [andb negb].
  erewrite bind_exec by (unfold current_addrs; erewrite bind_exec; [reflexivity|]; by apply in_node_read). cbn [fst].
  destruct (accepted hdr p b bs x target s Hall Hso) as [i Hi]. rewrite Hi. unfold lift at 1, mbind at 1, M_bind at 1.
  by rewrite (so_sender _ _ _ _ _ _ _ Hso).
Qed.
End solicited.

(** C31: address resolution.  A solicitation for an address of the TUN interface, from any node
    the cache has room for, is answered: the sender is a known neighbour that is no longer
    being resolved, exactly one advertisement of the address is written to the device, sent
    to the sender with hop limit 255, the packet is released, and the checksum of the
    advertisement verifies. *)
Theorem solicitation_answered `{Env} `{LowerLayersOk} lwip_rand mld_mac_filter status_callback hdr p b bs x fd target s :
  (forall n p d, output_ip6 n p d = tunif_ip6_output (Some n) (Some p) d) ->
  (forall t k, env_write t k = Written k) -> (forall t, env_mem_malloc t = true) ->
  nif_state (ndn x) = Some fd -> 72 <= nif_mtu6 (ndn x) ->
  nd_ok s -> paths_fit (nds s) -> solicitation hdr p b bs x target s -> sender_fits s ->
  let src := w_cur_src (host s) in
  wp (Nd6In.nd6_input lwip_rand mld_mac_filter status_callback hdr p (nif_num (ndn x))) s (fun _ s' =>
    (exists i e, neighbor_cache (nds s') !! i = Some e /\ next_hop_address e = src /\
       nc_state e <> ND6_NO_ENTRY /\ nc_state e <> ND6_INCOMPLETE) /\
    exists k junk, length junk = 6%nat /\
      host s' = del_pbuf p (logged [EvTunWrite fd (nd_packet target src (answer (ndn x) target src junk))] k (host s)) /\
      forall h q lq, pkt h q lq (answer (ndn x) target src junk) -> ip6_chksum_pseudo h (Some q) IP6_NEXTH_ICMP6 32 target src = Ret 0).
Proof.
  intros Hout Hwrite Hmem Hfd Hm6 Hok Hpf Hso Hroom src. pose proof (so_arrived _ _ _ _ _ _ _ Hso) as Ha.
  pose proof (so_netif _ _ _ _ _ _ _ Hso) as Hx. destruct (find_nd_num _ _ _ Hx) as [Hin _].
  pose proof (no_netifs _ Hok) as Hall. rewrite Forall_forall in Hall. specialize (Hall x Hin).
  destruct (so_option _ _ _ _ _ _ _ Hso) as [Hl26 _]. pose proof (arr_length _ _ _ _ _ _ Ha) as Hl.
  assert (Hta : ip6_wf target).
  { rewrite (so_target _ _ _ _ _ _ _ Hso). apply assign_zone_wf, ip6_of_bytes_wf; [rewrite length_slice; lia|]. apply Forall_slice. by eapply arr_bytes. }
  assert (Hsrc : ip6_wf src) by apply Ha. assert (Hne : src <> ip6_addr_any) by (intros E; pose proof (so_sender _ _ _ _ _ _ _ Hso) as Hs; unfold src in E; by rewrite E in Hs).
  unfold wp. rewrite (ns_exec _ _ _ hdr p b bs x target s Hok Hso). fold (wp (ns_resolve p (nif_num (ndn x)) src target;; in_node (pbuf_free_m p);; mret tt) s).
  apply wp_bind. unfold ns_resolve. apply wp_bind. eapply (wp_exec _ _ (nds s)); [done|]. apply wp_bind.
  eapply wp_mono; [eapply (ok_sender hdr p b bs (nif_num (ndn x)) s src); [done|done|done|done|unfold sizeof_ns_header; lia]|].
  cbn beta. intros r s1 (Hok1 & Hev1 & Hk). destruct r; cbn [sender_known] in Hk.
  2: { exfalso. destruct Hk as (_ & Hnf & Hnone). destruct Hroom as [[i Hi]|(i & e & He & Hr & Hc)]; [unfold src in Hnf; congruence|exact (room_taken s i e s Hok He Hr Hc Hnone)]. }
  destruct Hk as (i & st & Hst1 & Hst2 & c & e & E1 & Hc & Hea & Hest).
  apply wp_bind. eapply wp_exec; [apply netif_at_exec; rewrite E1; exact Hx|].
  assert (Eh : host s1 = host s) by (by rewrite E1).
  apply (wp_answer (ndn x) fd Hout Hwrite Hmem Hfd Hm6 s1 target); [apply Hall|done|apply (so_unicast _ _ _ _ _ _ _ Hso)|by rewrite Eh|by rewrite E1|].
  rewrite Eh. fold src. intros k junk Hj Hjb. apply wp_bind, wp_in_node.
  destruct (ar_owned _ _ _ _ _ _ Ha) as [Hsg Href].
  eapply wp_exec; [eapply (pbuf_free_m_exec p b bs); [exact Hsg|exact Href]|]. apply wp_ret. split.
  - exists i, e. rewrite E1. split; [exact Hc|]. split; [done|]. by rewrite Hest.
  - exists k, junk. split; [done|]. split; [done|]. intros h q lq Hp. by apply (answer_verifies (ndn x) target src junk h q lq (nn_hw _ Hall)).
Qed.

(** ** Concrete runs *)

(** Three ticks after its first probe the neighbour is gone. *)
Lemma neighbor_given_up_witness :
  wp (@nd_ticks calm_env (@tun_layers calm_env) (fun _ => 7) (fun _ => None) (fun _ => mret tt) 3) (tun_nd [] (with_neighbors crowd nd_start))
    (fun _ s' => exists e', neighbor_cache (nds s') !! 1%nat = Some e' /\ nc_state e' = ND6_NO_ENTRY).
Proof.
  eapply wp_mono.
  - refine (@neighbor_given_up calm_env _ (@tun_layers_ok calm_env) (fun _ => 7) (fun _ => None) (fun _ => mret tt) _ 1 (peer 1 ND6_INCOMPLETE 1) 3 _ _ crowd_ok _ _).
    + discriminate.
    + intros n w. apply wp_ret. apply sends_refl.
    + reflexivity.
    + reflexivity.
  - cbn beta. intros _ s' (_ & e' & He' & Hgone & _). exists e'. split; [exact He'|]. apply Hgone. by left.
Defined.

(** The neighbour FD00::14 asks for FD00::2. *)
Definition ns_header : list Z :=
  [96; 0; 0; 0; 0; 32; 58; 255] ++ [253; 0; 0; 0; 0; 0; 0; 0; 0; 0; 0; 0; 0; 0; 0; 20] ++ [255; 2; 0; 0; 0; 0; 0; 0; 0; 0; 0; 1; 255; 0; 0; 2].
Definition ns_message : list Z := [135; 0; 0; 0; 0; 0; 0; 0] ++ [253; 0; 0; 0; 0; 0; 0; 0; 0; 0; 0; 0; 0; 0; 0; 2] ++ [1; 1; 0; 0; 0; 0; 0; 0].
Definition ns_pbuf : pbuf := mk_pbuf (ns_header ++ ns_message) 40 32 32 PBUF_POOL 0 1 0.
Definition asked : nd_world :=
  put_host (set_current (IP6_ADDR (PP_HTONL 0xfd000000) 0 0 (PP_HTONL 20)) all_nodes
    (set_pbufs (fun _ => {[1%positive := Node ns_pbuf None]}) (tun_world []))) (tun_nd [] (with_neighbors crowd nd_start)).

Lemma asked_ok : nd_ok asked.
Proof. destruct crowd_ok as [Ht Hn Hd [L HL]]. split; [exact Ht|exact Hn|exact Hd|]. exists L. by apply mld_ok_world. Qed.
Lemma asked_owned : owned (host asked) 1%positive ns_pbuf ns_message.
Proof.
  split; [|done]. split_and!; [apply lookup_singleton_eq| |done|by vm_compute]. unfold seg_ok. cbn [ns_pbuf pb_payload pb_len pb_tot_len pb_buf].
  split_and!; try (by vm_compute). decided.
Qed.
Lemma asked_solicitation : solicitation 0 1%positive ns_pbuf ns_message tun_nd_netif (IP6_ADDR (PP_HTONL 0xfd000000) 0 0 (PP_HTONL 2)) asked.
Proof.
  split; try (by vm_compute).
  - split; [apply asked_owned|cbn; lia|by vm_compute|by vm_compute|by left|]. apply Forall_singleton. by vm_compute.
  - split; [cbn; lia|by vm_compute].
  - exists 1%nat. split; [unfold LWIP_IPV6_NUM_ADDRESSES; lia|]. by vm_compute.
Qed.

Lemma solicitation_answered_witness :
  let src := w_cur_src (host asked) in
  let target := IP6_ADDR (PP_HTONL 0xfd000000) 0 0 (PP_HTONL 2) in
  wp (@Nd6In.nd6_input calm_env (@tun_layers calm_env) (fun _ => 7) (fun _ => None) (fun _ => mret tt) 0 1%positive (nif_num (ndn tun_nd_netif))) asked
    (fun _ s' => exists k junk, length junk = 6%nat /\
      host s' = del_pbuf 1%positive (logged [EvTunWrite 3 (nd_packet target src (answer (ndn tun_nd_netif) target src junk))] k (host asked))).
Proof.
  intros src target.
  assert (Hpf : paths_fit (nds asked)) by (apply Forall_replicate; by left).
  assert (Hroom : sender_fits asked) by (left; exists 4%nat; by vm_compute).
  pose proof (@solicitation_answered calm_env _ (@tun_layers_ok calm_env) (fun _ => 7) (fun _ => None) (fun _ => mret tt) 0 1%positive ns_pbuf ns_message
    tun_nd_netif 3 target asked (fun _ _ _ => eq_refl) (fun _ _ => eq_refl) (fun _ => eq_refl) eq_refl ltac:(by vm_compute) asked_ok Hpf asked_solicitation Hroom) as Hw.
  cbv zeta in Hw. eapply wp_mono; [exact Hw|]. cbn beta. intros _ s' (_ & k & junk & Hj & E & _). exists k, junk. split; [exact Hj|exact E].
Defined.
