(* ===== verification/Nd6Dad.v ===== *)
(** * Duplicate address detection

    From tick to tick of [nd6_tmr] a tentative address of an interface that is up is
    first announced by a solicitation and then used; and a conflicting advertisement
    makes it a duplicate that is not used. *)

From S2P Require Import Prelude LinkedList Ip6Addr World Netif Pbuf Ip6Hdr Custody Buffer InetChksum RawSocket Ip6Out Icmp6 Ip6In Ip6Spec Mld6 Nd6 Nd6Send Nd6In ControllerSpec Main Setup Stack MldSpec Nd6Inv Nd6Spec Nd6Live.

(** ** One address *)

(** What matters of slot [i] of interface [k]. *)
Record slot_view := mk_slot {
  sl_state : Z;
  sl_addr : ip6_addr;
  sl_life : option Z;
  sl_flags : Z;
  sl_fd : option Z;
  sl_mtu : Z
}.
Definition view (i : nat) (x : nd_netif) : slot_view :=
  mk_slot (state_at (ndn x) i) (addr_at (ndn x) i) (ip6_addr_valid_life (ndn x) !! i) (nif_flags (ndn x)) (nif_state (ndn x)) (nif_mtu6 (ndn x)).
Definition slot (k : Z) (i : nat) (s : nd_world) : option slot_view := view i <$> find_nd k (nd_netifs s).

Lemma find_upd_ne k k' f l : k <> k' -> (forall x, nif_num (ndn (f x)) = nif_num (ndn x)) -> find_nd k (upd_list k' f l) = find_nd k l.
Proof.
  intros Hk Hf. unfold find_nd, upd_list. induction l as [|y l IH]; [done|]. cbn [list_find fmap list_fmap].
  destruct (Z.eqb_spec (nif_num (ndn y)) k') as [E|E].
  - rewrite !decide_False by (rewrite ?Hf; congruence). destruct (list_find _ l) as [[? ?]|], (list_find _ (_ <$> l)) as [[? ?]|]; exact IH.
  - destruct (decide (nif_num (ndn y) = k)); [done|]. destruct (list_find _ l) as [[? ?]|], (list_find _ (_ <$> l)) as [[? ?]|]; exact IH.
Qed.
Lemma find_upd_map k f l : (forall x, nif_num (ndn (f x)) = nif_num (ndn x)) -> find_nd k (upd_list k f l) = f <$> find_nd k l.
Proof.
  intros Hf. destruct (find_nd k l) as [x|] eqn:Ex; [by rewrite (find_upd k f l x)|]. revert Ex. unfold find_nd, upd_list.
  induction l as [|y l IH]; [done|]. cbn [list_find fmap list_fmap]. destruct (decide (nif_num (ndn y) = k)) as [|N]; [done|].
  rewrite (proj2 (Z.eqb_neq _ _) N), decide_False by done. intros Hn.
  destruct (list_find _ l) as [[? ?]|]; [done|]. specialize (IH eq_refl). destruct (list_find _ (_ <$> l)) as [[? ?]|]; done.
Qed.
(** Changing one interface. *)
Lemma slot_upd k i k' f s l x :
  l = upd_list k' f (nd_netifs s) -> (forall x, nif_num (ndn (f x)) = nif_num (ndn x)) -> find_nd k' (nd_netifs s) = Some x ->
  (k = k' -> view i (f x) = view i x) -> slot k i (put_netifs l s) = slot k i s.
Proof.
  intros -> Hf Hx Hv. unfold slot. cbn [nd_netifs put_netifs]. destruct (decide (k = k')) as [->|Hk]; [|by rewrite find_upd_ne].
  rewrite (find_upd k' f _ x Hf Hx), Hx. cbn. by rewrite Hv.
Qed.

Lemma bind_inv {A B} (m : M nd_world A) (f : A -> M nd_world B) s b s' :
  (m ≫= f) s = Ret (b, s') -> exists a s1, m s = Ret (a, s1) /\ f a s1 = Ret (b, s').
Proof. unfold mbind, M_bind. destruct (m s) as [[a s1]| |]; [|done..]. eauto. Qed.
Lemma netif_at_inv k s x s' : netif_at k s = Ret (x, s') -> s' = s /\ find_nd k (nd_netifs s) = Some x.
Proof. unfold netif_at, get, mbind, M_bind, lift. destruct (find_nd k (nd_netifs s)) eqn:E; [|done]. by intros [= -> ->]. Qed.
Lemma lift_inv {A} (o : outcome A) (s : nd_world) a s' : lift o s = Ret (a, s') -> s' = s /\ o = Ret a.
Proof. unfold lift. destruct o; [|done..]. by intros [= -> ->]. Qed.
Lemma set_slot_inv {A} i (a : A) l l' : set_slot i a l = Ret l' -> l' = <[i := a]> l.
Proof. unfold set_slot. destruct (l !! i); [|done]. by intros [= <-]. Qed.

Lemma nth_insert_ne {A} (l : list A) (a d : A) i' j : j <> i' -> nth j (<[i' := a]> l) d = nth j l d.
Proof.
  intros Hj. rewrite !nth_lookup. destruct (decide (i' < length l)%nat); [by rewrite list_lookup_insert_ne|]. by rewrite list_insert_ge by lia.
Qed.

Section frames.
Context `{Env} `{LowerLayers}.
Context (lwip_rand : nat -> Z).
Context (mld_mac_filter : netif -> option (ip6_addr -> Z -> M world unit)).
Context (status_callback : netif -> M world unit).

(** *** The interfaces *)

Lemma netifs_in_node {A} (m : M world A) : keeps nd_netifs (in_node m).
Proof. by apply keeps_mld. Qed.
Lemma netifs_modify g : keeps nd_netifs (modify_nd g).
Proof. by apply keeps_modify_nd. Qed.
Hint Resolve netifs_in_node netifs_modify : keeps.
Lemma netifs_adjust k i st : keeps nd_netifs (nd6_adjust_mld_membership lwip_rand mld_mac_filter k i st).
Proof. unfold nd6_adjust_mld_membership. keep fail. Qed.
Lemma netifs_output p src dest n : keeps nd_netifs (output_nd p src dest n).
Proof. unfold output_nd. keep fail. Qed.
Hint Resolve netifs_adjust netifs_output : keeps.
Lemma netifs_send_ns n a fl : keeps nd_netifs (nd6_send_ns n a fl).
Proof. unfold nd6_send_ns. keep fail. Qed.
Lemma netifs_send_rs n : keeps nd_netifs (nd6_send_rs n).
Proof. unfold nd6_send_rs. keep fail. Qed.
Lemma netifs_upd_neighbor i f : keeps nd_netifs (upd_neighbor i f).
Proof. unfold upd_neighbor. keep fail. Qed.
Hint Resolve netifs_send_ns netifs_send_rs netifs_upd_neighbor : keeps.
Lemma netifs_free i : keeps nd_netifs (nd6_free_neighbor_cache_entry i).
Proof. unfold nd6_free_neighbor_cache_entry. keep fail. Qed.
Lemma netifs_probe i fl : keeps nd_netifs (nd6_send_neighbor_cache_probe i fl).
Proof. unfold nd6_send_neighbor_cache_probe. keep fail. Qed.
Lemma netifs_send_q i : keeps nd_netifs (nd6_send_q i).
Proof. unfold nd6_send_q. keep fail. Qed.
Hint Resolve netifs_free netifs_probe netifs_send_q : keeps.
Lemma netifs_tmr_neighbor i : keeps nd_netifs (tmr_neighbor i).
Proof. unfold tmr_neighbor, tmr_probe. keep fail. Qed.
Lemma netifs_tmr_router i : keeps nd_netifs (tmr_router i).
Proof. unfold tmr_router, set_router. keep fail. Qed.

(** *** The other addresses *)

Section other.
Context (k : Z) (i : nat) (k' : Z) (i' : nat) (Hne : k <> k' \/ i <> i').

Lemma keeps_netifs {A} (m : M nd_world A) : keeps nd_netifs m -> keeps (slot k i) m.
Proof. intros Hm s a s' E. unfold slot. by rewrite (Hm _ _ _ E). Qed.

Lemma slot_set_state st : keeps (slot k i) (set_addr_state lwip_rand mld_mac_filter status_callback k' i' st).
Proof.
  intros s a s' E. unfold set_addr_state in E. apply bind_inv in E as (x & s1 & [-> Hx]%netif_at_inv & E).
  apply bind_inv in E as (old & s1 & [-> _]%lift_inv & E). destruct (old =? st); [by injection E as _ <-|].
  apply bind_inv in E as ([] & s1 & E1 & E). assert (En : nd_netifs s1 = nd_netifs s).
  { revert E1. destruct (has_flag _ _); intros E1; [by apply netifs_adjust in E1|by injection E1 as <-]. }
  apply bind_inv in E as (l & s2 & [-> Hl]%lift_inv & E). apply set_slot_inv in Hl as ->.
  apply bind_inv in E as ([] & s2 & E2 & E). injection E2 as <-.
  assert (Hs2 : slot k i (put_netifs (upd_list k' (on_ndn (with_addr_states (<[i' := st]> (ip6_addr_state (ndn x))))) (nd_netifs s1)) s1) = slot k i s).
  { etransitivity; [eapply slot_upd; [done|done|rewrite En; exact Hx|]|unfold slot; by rewrite En]. intros ->. destruct Hne as [?|Hi]; [done|].
    unfold view. f_equal. unfold state_at. cbn. by apply nth_insert_ne. }
  etransitivity; [|exact Hs2]. eapply keeps_netifs; [|exact E]. keep fail.
Qed.
Lemma slot_set_valid v : keeps (slot k i) (set_valid_life k' i' v).
Proof.
  intros s a s' E. unfold set_valid_life in E. apply bind_inv in E as (x & s1 & [-> Hx]%netif_at_inv & E).
  apply bind_inv in E as (l & s1 & [-> Hl]%lift_inv & E). apply set_slot_inv in Hl as ->. injection E as _ <-.
  eapply slot_upd; [done|done|exact Hx|]. intros ->. destruct Hne as [?|Hi]; [done|]. unfold view. f_equal. cbn. by apply list_lookup_insert_ne.
Qed.
Lemma slot_set_pref v : keeps (slot k i) (set_pref_life k' i' v).
Proof.
  intros s a s' E. unfold set_pref_life in E. apply bind_inv in E as (x & s1 & [-> Hx]%netif_at_inv & E).
  apply bind_inv in E as (l & s1 & [-> _]%lift_inv & E). injection E as _ <-. by eapply slot_upd.
Qed.
Hint Resolve slot_set_state slot_set_valid slot_set_pref : keeps.
Lemma slot_tmr_address : keeps (slot k i) (tmr_address lwip_rand mld_mac_filter status_callback k' i').
Proof. unfold tmr_address, tmr_lifetimes, tmr_dad. keep ltac:(apply keeps_netifs; solve [eauto with keeps]). Qed.
Lemma slot_rs_count r : keeps (slot k i) (upd_netif k' (with_rs_count r)).
Proof.
  intros s a s' E. injection E as _ <-. change (slot k i (put_netifs (upd_list k' (with_rs_count r) (nd_netifs s)) s) = slot k i s).
  unfold slot. cbn [nd_netifs put_netifs]. destruct (decide (k = k')) as [->|Hk]; [|by rewrite find_upd_ne].
  rewrite find_upd_map by done. by destruct (find_nd k' (nd_netifs s)).
Qed.
Hint Resolve slot_rs_count : keeps.
Lemma slot_tmr_solicit : keeps (slot k i) (tmr_solicit k').
Proof. unfold tmr_solicit. keep ltac:(apply keeps_netifs; solve [eauto with keeps]). Qed.
End other.
End frames.

(** ** The path MTUs *)

Definition paths (s : nd_world) : list Z := pmtu <$> destination_cache (nds s).
Lemma paths_fit_paths s : paths_fit (nds s) <-> Forall (fun m => m = 0 \/ 72 <= m) (paths s).
Proof. unfold paths_fit, paths. by rewrite Forall_fmap. Qed.

Section path_frames.
Context `{Env} `{LowerLayers}.
Context (lwip_rand : nat -> Z).
Context (mld_mac_filter : netif -> option (ip6_addr -> Z -> M world unit)).
Context (status_callback : netif -> M world unit).

Lemma paths_in_node {A} (m : M world A) : keeps paths (in_node m).
Proof. by apply keeps_mld. Qed.
Lemma paths_upd_netif k f : keeps paths (upd_netif k f).
Proof. by apply keeps_upd_netif. Qed.
Lemma paths_upd_neighbor i f : keeps paths (upd_neighbor i f).
Proof. unfold upd_neighbor. keep ltac:(by apply keeps_modify_nd). Qed.
Hint Resolve paths_in_node paths_upd_netif paths_upd_neighbor : keeps.
Lemma paths_send_ns n a fl : keeps paths (nd6_send_ns n a fl).
Proof. unfold nd6_send_ns, output_nd. keep fail. Qed.
Lemma paths_send_rs n : keeps paths (nd6_send_rs n).
Proof. unfold nd6_send_rs, output_nd. keep fail. Qed.
Hint Resolve paths_send_ns paths_send_rs : keeps.
Lemma paths_tmr_neighbor i : keeps paths (tmr_neighbor i).
Proof. unfold tmr_neighbor, tmr_probe, nd6_free_neighbor_cache_entry, nd6_send_neighbor_cache_probe, nd6_send_q. keep fail. Qed.
Lemma paths_tmr_destinations : keeps paths tmr_destinations.
Proof. apply keeps_modify_nd. intros s. unfold paths. cbn. by rewrite <-list_fmap_compose. Qed.
Lemma paths_tmr_router i : keeps paths (tmr_router i).
Proof.
  unfold tmr_router, set_router. keep ltac:(apply keeps_modify_nd; first [done | intros s; unfold paths; cbn; rewrite <-list_fmap_compose;
    apply list_fmap_ext; intros j d _; cbn; by destruct (ip6_addr_cmp _ _)]).
Qed.
Lemma paths_tmr_address k i : keeps paths (tmr_address lwip_rand mld_mac_filter status_callback k i).
Proof. unfold tmr_address, tmr_lifetimes, tmr_dad, set_addr_state, set_valid_life, set_pref_life, nd6_adjust_mld_membership. keep fail. Qed.
End path_frames.

(** ** A loop that comes by one element once *)

Lemma each_app {A} (f : A -> M nd_world unit) l1 l2 s : each (l1 ++ l2) f s = (each l1 f;; each l2 f) s.
Proof.
  revert s. induction l1 as [|x l1 IH]; intros s; [done|]. cbn [each app]. unfold mbind, M_bind in *.
  destruct (f x s) as [[[] s1]| |]; [|done..]. apply IH.
Qed.
Lemma ok_each {A} (f : A -> M nd_world unit) (P : nd_world -> Prop) l : forall s,
  nd_ok s -> P s -> (forall x s, x ∈ l -> nd_ok s -> P s -> ok (f x) s (fun _ s' => P s')) -> ok (each l f) s (fun _ s' => P s').
Proof.
  induction l as [|x l IH]; intros s Hok HP Hf; cbn [each]; [by apply ok_ret|].
  eapply ok_bind; [apply Hf; [by left|done|done]|]. intros [] s1 Hok1 _ HP1. apply IH; [done|done|]. intros y s2 Hy. apply Hf. by right.
Qed.
Lemma each_once {A} (f : A -> M nd_world unit) (P Q : nd_world -> Prop) l x s :
  NoDup l -> x ∈ l -> nd_ok s -> P s ->
  (forall y s, y ∈ l -> y <> x -> nd_ok s -> P s -> ok (f y) s (fun _ s' => P s')) ->
  (forall s, nd_ok s -> P s -> ok (f x) s (fun _ s' => Q s')) ->
  (forall y s, y ∈ l -> y <> x -> nd_ok s -> Q s -> ok (f y) s (fun _ s' => Q s')) ->
  ok (each l f) s (fun _ s' => Q s').
Proof.
  intros Hnd Hx Hok HP Hbefore Hat Hafter. apply list_elem_of_split in Hx as (l1 & l2 & ->).
  apply NoDup_app in Hnd as (_ & Hd & Hnd2). apply NoDup_cons in Hnd2 as [Hx2 _].
  unfold ok, wp. rewrite each_app. change (ok (each l1 f;; each (x :: l2) f) s (fun _ s' => Q s')).
  eapply ok_bind; [apply (ok_each f P l1 s Hok HP)|].
  { intros y s1 Hy. apply Hbefore; [set_solver|]. intros ->. apply (Hd x Hy). by left. }
  intros [] s1 Hok1 _ HP1. cbn [each]. eapply ok_bind; [by apply Hat|]. intros [] s2 Hok2 _ HQ2. apply ok_each; [done|done|].
  intros y s3 Hy. apply Hafter; [set_solver|]. by intros ->.
Qed.

(** ** The address itself *)

(** The solicitation for an address, from the unspecified address. *)
Definition probe_dest (n : netif) (a : ip6_addr) : ip6_addr := ip6_addr_assign_zone (ip6_addr_set_solicitednode (addr3 a)) IP6_MULTICAST n.
Definition probe (n : netif) (a : ip6_addr) : list Z :=
  nd_packet ip6_addr_any (probe_dest n a) (with_checksum ip6_addr_any (probe_dest n a) (ns_bytes a [])).
Lemma probe_num n n' a : nif_num n = nif_num n' -> probe n a = probe n' a.
Proof. intros E. unfold probe, probe_dest, ip6_addr_assign_zone, netif_get_index. by rewrite E. Qed.

Definition with_state (st : Z) (v : slot_view) : slot_view := mk_slot st (sl_addr v) (sl_life v) (sl_flags v) (sl_fd v) (sl_mtu v).

Lemma static_life i x : netif_ip6_addr_isstatic (ndn x) i = Ret true -> sl_life (view i x) = Some IP6_ADDR_LIFE_STATIC.
Proof.
  unfold netif_ip6_addr_isstatic. cbn. destruct (ip6_addr_valid_life (ndn x) !! i) as [l|]; [|done]. cbn. intros [= E%Z.eqb_eq]. by rewrite E.
Qed.

Section self.
Context `{Env} `{LowerLayersOk}.
Context (lwip_rand : nat -> Z).
Context (mld_mac_filter : netif -> option (ip6_addr -> Z -> M world unit)).
Context (status_callback : netif -> M world unit).
Hypothesis Hfilter : forall n f a act w, mld_mac_filter n = Some f -> wp (f a act) w (fun _ w' => sends w w').
Hypothesis Hstatus : forall n w, wp (status_callback n) w (fun _ w' => sends w w').
Hypotheses (Hout : forall n p d, output_ip6 n p d = tunif_ip6_output (Some n) (Some p) d).
Hypotheses (Hwrite : forall t k, env_write t k = Written k) (Hmem : forall t, env_mem_malloc t = true).
Context (n0 : netif) (i : nat) (Hi : (i < LWIP_IPV6_NUM_ADDRESSES)%nat) (v : slot_view) (fd : Z).
Let k := nif_num n0.
(** A static address of an interface that is up. *)
Hypotheses (Hlife : sl_life v = Some IP6_ADDR_LIFE_STATIC) (Hfd : sl_fd v = Some fd) (Hmtu : 72 <= sl_mtu v).
Hypotheses (Hup : Z.land (sl_flags v) NETIF_FLAG_UP <> 0 /\ Z.land (sl_flags v) NETIF_FLAG_LINK_UP <> 0).

(** The address in state [st], and all that is needed to go on. *)
Definition addr_is (st : Z) (s : nd_world) : Prop := k ∈ numbers s /\ paths_fit (nds s) /\ slot k i s = Some (with_state st v).
Definition announced (s : nd_world) : Prop := EvTunWrite fd (probe n0 (sl_addr v)) ∈ w_trace (host s).

Lemma slot_netif st s : addr_is st s -> exists x, find_nd k (nd_netifs s) = Some x /\ view i x = with_state st v /\ nif_num (ndn x) = k.
Proof.
  intros (_ & _ & E). unfold slot in E. destruct (find_nd k (nd_netifs s)) as [x|] eqn:Ex; [|done].
  change (Some (view i x) = Some (with_state st v)) in E. apply (inj Some) in E.
  exists x. split; [done|]. split; [done|]. by apply find_nd_num in Ex as [_ ?].
Qed.
Lemma set_state_slot st st' s s' : nd_ok s -> addr_is st s -> address_set k i st' s s' -> evolves s s' -> addr_is st' s'.
Proof.
  intros Hok Ha [Et En] Hev. destruct (slot_netif st s Ha) as (x & Hx & Hv & Hn). destruct Ha as (Hk & Hp & _).
  split; [by rewrite (evolves_num _ _ Hev)|]. split; [by rewrite Et|]. unfold slot. rewrite En, (find_upd k (put_state i st') _ x) by done. cbn. f_equal.
  unfold view, with_state in *. injection Hv as V1 V2 V3 V4 V5 V6. f_equal; try done. unfold state_at. cbn. rewrite nth_lookup, list_lookup_insert_eq; [done|].
  destruct (find_nd_num _ _ _ Hx) as [Hin _]. pose proof (no_netifs _ Hok) as Hall. rewrite Forall_forall in Hall.
  by rewrite (nw_states _ (proj1 (nn_sane _ (Hall x Hin)))).
Qed.

Lemma lifetimes_static st s : nd_ok s -> addr_is st s -> tmr_lifetimes lwip_rand mld_mac_filter status_callback k i s = Ret (tt, s).
Proof.
  intros Hok Ha. destruct (slot_netif st s Ha) as (x & Hx & Hv & Hn). destruct (find_nd_num _ _ _ Hx) as [Hin _].
  pose proof (no_netifs _ Hok) as Hall. rewrite Forall_forall in Hall. specialize (Hall x Hin). unfold tmr_lifetimes.
  rewrite (bind_exec _ _ _ _ _ (netif_at_exec _ _ _ Hx)). rewrite (slot_state x Hall i Hi). unfold lift at 1, mbind at 1, M_bind at 1.
  unfold view, with_state in Hv. injection Hv as V1 V2 V3 V4 V5 V6. unfold netif_ip6_addr_isstatic. rewrite V3, Hlife. cbn.
  by destruct (ip6_addr_isinvalid _).
Qed.

(** The solicitation that announces it. *)
Lemma ok_probe_sent st s x :
  nd_ok s -> addr_is st s -> find_nd k (nd_netifs s) = Some x ->
  ok (nd6_send_ns (ndn x) (addr_at (ndn x) i) (Z.lor ND6_SEND_FLAG_MULTICAST_DEST ND6_SEND_FLAG_ANY_SRC)) s (fun _ s' => addr_is st s' /\ announced s').
Proof.
  intros Hok Ha Hx. destruct (slot_netif st s Ha) as (x' & Hx' & Hv & Hn). rewrite Hx in Hx'. injection Hx' as <-.
  destruct (find_nd_num _ _ _ Hx) as [Hin _]. pose proof (no_netifs _ Hok) as Hall. rewrite Forall_forall in Hall. specialize (Hall x Hin).
  destruct (slot_addr x Hall i Hi) as [_ Hwf]. unfold view, with_state in Hv. injection Hv as V1 V2 V3 V4 V5 V6. destruct Ha as (Hk & Hp & Hs).
  assert (Hpost : forall j, let w := logged [EvTunWrite fd (probe (ndn x) (addr_at (ndn x) i))] j (host s) in
    nd_ok (put_host w s) /\ evolves s (put_host w s) /\ addr_is st (put_host w s) /\ announced (put_host w s)).
  { intros j w. assert (Ho : outputs s (put_host w s)) by (exists w; split; [done|by eexists _, _]). destruct (outputs_ok _ _ Hok Ho).
    split; [done|]. split; [done|]. split; [by split|]. unfold announced. rewrite <-V2, (probe_num n0 (ndn x)) by (by rewrite Hn).
    apply elem_of_app. right. apply list_elem_of_here. }
  unfold ok. eapply (wp_send_ns_with s (ndn x) _ _ None); [apply Hall|done|done|apply any_wf|by rewrite Hmem|].
  intros p w1 junk Hj Hrd. change (bool_decide (is_Some None)) with false in Hj, Hrd. cbn [source_option] in Hrd.
  change (has_flag (Z.lor ND6_SEND_FLAG_MULTICAST_DEST ND6_SEND_FLAG_ANY_SRC) ND6_SEND_FLAG_MULTICAST_DEST) with true in Hrd |- *. cbv iota in Hrd |- *.
  fold (probe_dest (ndn x) (addr_at (ndn x) i)) in Hrd |- *. cbn [default] in Hrd.
  apply (wp_nd_write (ndn x) fd Hout Hwrite ltac:(by rewrite V5) ltac:(by rewrite V6) s p w1 _ ip6_addr_any (probe_dest (ndn x) (addr_at (ndn x) i)) _ Hrd).
  - rewrite length_with_checksum by (cbn; lia). done.
  - done.
  - intros j. exact (Hpost j).
Qed.

(** The first step announces the address, the second one makes it usable. *)
Lemma dad_announce s :
  nd_ok s -> addr_is IP6_ADDR_TENTATIVE s ->
  ok (tmr_address lwip_rand mld_mac_filter status_callback k i) s (fun _ s' => addr_is (IP6_ADDR_TENTATIVE + 1) s' /\ announced s').
Proof.
  intros Hok Ha. unfold tmr_address. eapply ok_read; [by eapply lifetimes_static|]. unfold tmr_dad.
  destruct (slot_netif _ s Ha) as (x & Hx & Hv & Hn). destruct (find_nd_num _ _ _ Hx) as [Hin _].
  pose proof (no_netifs _ Hok) as Hall. rewrite Forall_forall in Hall. specialize (Hall x Hin). unfold view, with_state in Hv. injection Hv as V1 V2 V3 V4 V5 V6.
  eapply ok_read; [by apply netif_at_exec|]. cbv zeta. eapply ok_lift; [by apply slot_state|]. rewrite V1.
  change (ip6_addr_istentative IP6_ADDR_TENTATIVE) with true. change (_ <=? Z.land IP6_ADDR_TENTATIVE _) with false. cbv iota.
  unfold netif_is_up, netif_is_link_up. rewrite V4, (proj2 (Z.eqb_neq _ _) (proj1 Hup)), (proj2 (Z.eqb_neq _ _) (proj2 Hup)). cbn [negb andb].
  eapply ok_bind; [apply (ok_set_state lwip_rand mld_mac_filter status_callback Hfilter Hstatus s k i); [done|apply Ha|done]|].
  intros [] s1 Hok1 Hev1 Hset. pose proof (set_state_slot _ _ _ _ Hok Ha Hset Hev1) as Ha1. destruct (slot_netif _ s1 Ha1) as (x1 & Hx1 & Hv1 & Hn1).
  eapply ok_read; [by apply netif_at_exec|]. destruct (find_nd_num _ _ _ Hx1) as [Hin1 _].
  pose proof (no_netifs _ Hok1) as Hall1. rewrite Forall_forall in Hall1. destruct (slot_addr x1 (Hall1 x1 Hin1) i Hi) as [Ea _].
  eapply ok_lift; [exact Ea|]. by apply ok_probe_sent.
Qed.
Lemma dad_prefer s :
  nd_ok s -> addr_is (IP6_ADDR_TENTATIVE + 1) s ->
  ok (tmr_address lwip_rand mld_mac_filter status_callback k i) s (fun _ s' => addr_is IP6_ADDR_PREFERRED s').
Proof.
  intros Hok Ha. unfold tmr_address. eapply ok_read; [by eapply lifetimes_static|]. unfold tmr_dad.
  destruct (slot_netif _ s Ha) as (x & Hx & Hv & Hn). destruct (find_nd_num _ _ _ Hx) as [Hin _].
  pose proof (no_netifs _ Hok) as Hall. rewrite Forall_forall in Hall. specialize (Hall x Hin). unfold view, with_state in Hv. injection Hv as V1 V2 V3 V4 V5 V6.
  eapply ok_read; [by apply netif_at_exec|]. cbv zeta. eapply ok_lift; [by apply slot_state|]. rewrite V1.
  change (ip6_addr_istentative (IP6_ADDR_TENTATIVE + 1)) with true. change (_ <=? Z.land (IP6_ADDR_TENTATIVE + 1) _) with true. cbv iota.
  eapply ok_lift; [unfold netif_ip6_addr_isstatic; rewrite V3, Hlife; reflexivity|].
  destruct (slot_pref_life x Hall i Hi) as (w & Ew & _). eapply ok_lift; [exact Ew|]. cbn [negb andb].
  eapply ok_mono; [apply (ok_set_state lwip_rand mld_mac_filter status_callback Hfilter Hstatus s k i); [done|apply Ha|done]|].
  cbn beta. intros _ s1 _ Hev Hset. by eapply set_state_slot.
Qed.

(** *** A tick *)

(** A step that returns and leaves the address and the path MTUs alone. *)
Lemma addr_kept {A} (m : M nd_world A) s st :
  fine m s -> keeps (slot k i) m -> keeps paths m -> addr_is st s -> ok m s (fun _ s' => addr_is st s').
Proof.
  intros Hm Hs Hp (Hk & Hpf & Hsl). unfold fine, ok, wp in *. specialize (Hs s). specialize (Hp s). destruct (m s) as [[a s']| |]; [|done..].
  destruct Hm as (? & Hev & _). split; [done|]. split; [done|]. split; [by rewrite (evolves_num _ _ Hev)|].
  split; [apply paths_fit_paths; rewrite (Hp a s' eq_refl); by apply paths_fit_paths|]. by rewrite (Hs a s' eq_refl).
Qed.
Lemma announced_kept {A} (m : M nd_world A) s P : ok m s P -> announced s -> ok m s (fun a s' => P a s' /\ announced s').
Proof.
  intros Hm Ha. eapply ok_mono; [exact Hm|]. cbn beta. intros a s' _ [(es & j & E) _] HP. split; [done|]. unfold announced in *.
  rewrite E. apply elem_of_app. by left.
Qed.

Lemma other_address_kept st k' i' s :
  nd_ok s -> k' ∈ numbers s -> (i' < LWIP_IPV6_NUM_ADDRESSES)%nat -> k <> k' \/ i <> i' -> addr_is st s ->
  ok (tmr_address lwip_rand mld_mac_filter status_callback k' i') s (fun _ s' => addr_is st s').
Proof.
  intros Hok Hk' Hi' Hne Ha. apply addr_kept; [|by apply slot_tmr_address|apply paths_tmr_address|done]. unfold tmr_address.
  apply fine_seq; [by apply fine_tmr_lifetimes|]. intros _ s1 Hok1 Hev1. apply fine_tmr_dad; eauto with nd.
Qed.

(** [P] holds while the address is in state [st], [Q] from the step of the address on. *)
Lemma tick_slot st (Q : nd_world -> Prop) s :
  nd_ok s -> addr_is st s ->
  (forall s, nd_ok s -> addr_is st s -> ok (tmr_address lwip_rand mld_mac_filter status_callback k i) s (fun _ s' => Q s')) ->
  (forall A (m : M nd_world A) s, fine m s -> keeps (slot k i) m -> keeps paths m -> Q s -> ok m s (fun _ s' => Q s')) ->
  ok (nd6_tmr lwip_rand mld_mac_filter status_callback) s (fun _ s' => Q s').
Proof.
  intros Hok Ha Hstep Hkeep. unfold nd6_tmr.
  assert (Hpre : forall A (m : M nd_world A) s, fine m s -> keeps nd_netifs m -> keeps paths m -> addr_is st s -> ok m s (fun _ s' => addr_is st s')).
  { intros A m s' Hm Hn Hp Ha'. apply addr_kept; try done. by apply keeps_netifs. }
  eapply ok_bind; [apply Hpre; [| | |exact Ha]|].
  { apply fine_each; [done|]. intros j s1 Hj%elem_of_seq Hok1 _. apply fine_tmr_neighbor; [done|lia]. }
  { apply keeps_each. intros. apply netifs_tmr_neighbor. } { apply keeps_each. intros. apply paths_tmr_neighbor. }
  intros [] s1 Hok1 _ Ha1. eapply ok_bind; [apply Hpre; [by apply fine_tmr_destinations|by apply keeps_modify_nd|apply paths_tmr_destinations|exact Ha1]|].
  intros [] s2 Hok2 _ Ha2. eapply ok_bind; [apply Hpre; [| | |exact Ha2]|].
  { apply fine_each; [done|]. intros j s3 Hj%elem_of_seq Hok3 _. apply fine_tmr_router; [done|lia]. }
  { apply keeps_each. intros. apply netifs_tmr_router. } { apply keeps_each. intros. apply paths_tmr_router. }
  intros [] s3 Hok3 _ Ha3. eapply ok_bind; [apply Hpre; [by apply fine_tmr_prefixes|by apply keeps_modify_nd|by apply keeps_modify_nd|exact Ha3]|].
  intros [] s4 Hok4 _ Ha4. eapply ok_read; [done|]. cbv zeta. fold (numbers s4).
  set (P := fun s => numbers s = numbers s4 /\ addr_is st s). set (Q' := fun s => numbers s = numbers s4 /\ Q s).
  assert (Hnum : forall A (m : M nd_world A) s (R : nd_world -> Prop), numbers s = numbers s4 -> ok m s (fun _ s' => R s') ->
    ok m s (fun _ s' => numbers s' = numbers s4 /\ R s')).
  { intros A m s' R E Hm. eapply ok_mono; [exact Hm|]. cbn beta. intros _ s'' _ Hev HR. split; [by rewrite (evolves_num _ _ Hev)|done]. }
  assert (Hfine : forall k' i' s, nd_ok s -> numbers s = numbers s4 -> k' ∈ numbers s4 -> (i' < LWIP_IPV6_NUM_ADDRESSES)%nat ->
    fine (tmr_address lwip_rand mld_mac_filter status_callback k' i') s).
  { intros k' i' s' Hok' E Hk' Hi'. unfold tmr_address. rewrite <-E in Hk'. apply fine_seq; [by apply fine_tmr_lifetimes|].
    intros _ s'' Hok'' Hev''. apply fine_tmr_dad; eauto with nd. }
  eapply (ok_bind _ _ _ (fun _ s' => Q' s')).
  { apply (each_once _ P Q' (numbers s4) k); [apply (no_numbers _ Hok4)|apply Ha4|done|done| | |].
    - intros k' s' Hk' Hne Hok' [E Ha']. apply Hnum; [done|].
      eapply ok_mono; [apply (ok_each _ P); [done|done|]|by intros _ s'' _ _ [_ ?]].
      intros i' s'' Hi'%elem_of_seq Hok'' [E'' Ha'']. apply Hnum; [done|]. apply other_address_kept; [done|by rewrite E''|lia|by left|done].
    - intros s' Hok' [E Ha']. apply (each_once _ P Q' _ i); [apply NoDup_seq|apply elem_of_seq; lia|done|done| | |].
      + intros i' s'' Hi'%elem_of_seq Hne Hok'' [E'' Ha'']. apply Hnum; [done|]. apply other_address_kept; [done|apply Ha''|lia|by right|done].
      + intros s'' Hok'' [E'' Ha'']. apply Hnum; [done|]. by apply Hstep.
      + intros i' s'' Hi'%elem_of_seq Hne Hok'' [E'' HQ'']. apply Hnum; [done|].
        apply Hkeep; [apply Hfine; [done|done|apply Ha4|lia]|apply slot_tmr_address; by right|apply paths_tmr_address|done].
    - intros k' s' Hk' Hne Hok' HQ. apply (ok_each _ Q'); [done|done|]. intros i' s'' Hi'%elem_of_seq Hok'' [E'' HQ'']. apply Hnum; [done|].
      apply Hkeep; [apply Hfine; [done|done|done|lia]|apply slot_tmr_address; by left|apply paths_tmr_address|done]. }
  intros [] s5 Hok5 _ [E5 HQ5]. apply ok_get_nd. pose proof (to_reduction _ _ (no_tables _ Hok5)) as Hred.
  assert (Hset : forall s r, nd_ok s -> 0 <= r < 256 -> Q s -> ok (modify_nd (with_rs_reduction r)) s (fun _ s' => Q s')).
  { intros s' r Hok' Hr HQ'. apply Hkeep; [|by apply keeps_modify_nd|by apply keeps_modify_nd|done].
    apply ok_modify_nd; [done| |done]. destruct (no_tables _ Hok'). by split. }
  destruct (Z.eqb_spec (nd6_tmr_rs_reduction (nds s5)) 0); [|apply Hset; [done|lia|done]].
  eapply ok_bind; [by apply Hset|]. intros [] s6 Hok6 Hev6 HQ6. eapply ok_mono; [apply (ok_each _ Q'); [done|by split; [rewrite (evolves_num _ _ Hev6)|]|]|by intros _ s' _ _ [_ ?]].
  intros k' s' Hk' Hok' [E' HQ']. apply Hnum; [done|]. apply Hkeep; [by apply fine_tmr_solicit; [|rewrite E']|apply (slot_tmr_solicit k i k' (S i)); right; lia| |done].
  unfold tmr_solicit. keep ltac:(first [apply paths_send_rs | apply paths_upd_netif]).
Qed.

(** Both ticks. *)
Lemma tick_announced s :
  nd_ok s -> addr_is IP6_ADDR_TENTATIVE s ->
  ok (nd6_tmr lwip_rand mld_mac_filter status_callback) s (fun _ s' => addr_is (IP6_ADDR_TENTATIVE + 1) s' /\ announced s').
Proof.
  intros Hok Ha. apply (tick_slot IP6_ADDR_TENTATIVE); [done|done|by apply dad_announce|].
  intros A m s' Hm Hs Hp [Ha' Hn]. apply announced_kept; [by apply addr_kept|done].
Qed.
Lemma tick_preferred s :
  nd_ok s -> addr_is (IP6_ADDR_TENTATIVE + 1) s ->
  ok (nd6_tmr lwip_rand mld_mac_filter status_callback) s (fun _ s' => addr_is IP6_ADDR_PREFERRED s').
Proof.
  intros Hok Ha. apply (tick_slot (IP6_ADDR_TENTATIVE + 1)); [done|done|by apply dad_prefer|]. intros A m s' Hm Hs Hp Ha'. by apply addr_kept.
Qed.

(** *** Duplicates *)

Lemma duplicate_slot st s :
  nd_ok s -> addr_is st s -> ok (nd6_duplicate_addr_detected lwip_rand mld_mac_filter status_callback k i) s (fun _ s' => addr_is IP6_ADDR_DUPLICATED s').
Proof.
  intros Hok Ha. unfold nd6_duplicate_addr_detected.
  eapply ok_bind; [apply (ok_set_state lwip_rand mld_mac_filter status_callback Hfilter Hstatus s k i); [done|apply Ha|done]|].
  intros [] s1 Hok1 Hev1 Hset. pose proof (set_state_slot _ _ _ _ Hok Ha Hset Hev1) as Ha1. destruct (decide (i = 0)%nat) as [E|]; [|by apply ok_ret].
  apply ok_each; [done|done|]. intros j s2 Hj%elem_of_seq Hok2 Ha2. unfold LWIP_IPV6_NUM_ADDRESSES in Hj.
  destruct (slot_netif _ s2 Ha2) as (x & Hx & _ & _). destruct (find_nd_num _ _ _ Hx) as [Hin _].
  pose proof (no_netifs _ Hok2) as Hall. rewrite Forall_forall in Hall. specialize (Hall x Hin).
  assert (Hj' : (j < LWIP_IPV6_NUM_ADDRESSES)%nat) by (unfold LWIP_IPV6_NUM_ADDRESSES; lia).
  eapply ok_read; [by apply netif_at_exec|]. eapply ok_lift; [by apply slot_state|]. destruct (ip6_addr_isinvalid _); [by apply ok_ret|].
  destruct (slot_valid_life x Hall j Hj') as (l & _ & _ & Hs). eapply ok_lift; [exact Hs|]. destruct (l =? IP6_ADDR_LIFE_STATIC); [by apply ok_ret|].
  apply addr_kept; [apply (fine_set_state lwip_rand mld_mac_filter status_callback Hfilter Hstatus); [done|apply Ha2|done]|apply slot_set_state; right; lia| |done].
  unfold set_addr_state, nd6_adjust_mld_membership. keep ltac:(first [apply paths_in_node | apply paths_upd_netif]).
Qed.
Lemma ticks_duplicate n : forall s,
  nd_ok s -> addr_is IP6_ADDR_DUPLICATED s ->
  ok (nd_ticks lwip_rand mld_mac_filter status_callback n) s (fun _ s' => addr_is IP6_ADDR_DUPLICATED s').
Proof.
  induction n as [|n IH]; intros s Hok Ha; cbn [nd_ticks]; [by apply ok_ret|]. eapply (ok_bind _ _ _ (fun _ s' => addr_is IP6_ADDR_DUPLICATED s')); [|intros [] s1 Hok1 _ Ha1; by apply IH].
  apply (tick_slot IP6_ADDR_DUPLICATED); [done|done| |by intros A m s' Hm Hs Hp Ha'; apply addr_kept].
  clear s Hok Ha. intros s Hok Ha. unfold tmr_address. eapply ok_read; [by eapply lifetimes_static|]. unfold tmr_dad.
  destruct (slot_netif _ s Ha) as (x & Hx & Hv & Hn). destruct (find_nd_num _ _ _ Hx) as [Hin _].
  pose proof (no_netifs _ Hok) as Hall. rewrite Forall_forall in Hall. specialize (Hall x Hin). unfold view, with_state in Hv. injection Hv as V1 V2 V3 V4 V5 V6.
  eapply ok_read; [by apply netif_at_exec|]. cbv zeta. eapply ok_lift; [by apply slot_state|]. rewrite V1. by apply ok_ret.
Qed.
End self.

(** ** An advertisement of the same address *)

(** An unsolicited advertisement of the address in slot [i]. *)
Record conflict (hdr : Z) (p : loc) (b : pbuf) (bs : list Z) (x : nd_netif) (i : nat) (s : nd_world) : Prop := {
  cf_arrived : arrived hdr p b bs (nif_num (ndn x)) s;
  cf_netif : find_nd (nif_num (ndn x)) (nd_netifs s) = Some x;
  cf_length : (24 <= length bs)%nat;
  cf_type : byte_at 0 bs = ICMP6_TYPE_NA;
  cf_code : byte_at 1 bs = 0;
  cf_hoplim : byte_at (Z.to_nat (hdr + OFF_HOPLIM)) (pb_buf b) = ND6_HOPLIM;
  cf_slot : (i < LWIP_IPV6_NUM_ADDRESSES)%nat;
  cf_target : addr_at (ndn x) i = ip6_addr_assign_zone (ip6_of_bytes (slice 8 16 bs)) IP6_UNICAST (ndn x);
  cf_unicast : ip6_addr_ismulticast (addr_at (ndn x) i) = false;
  cf_dest : ip6_addr_ismulticast (w_cur_dest (host s)) = true;
  cf_ours : ip6_addr_isinvalid (state_at (ndn x) i) = false /\ ip6_addr_isduplicated (state_at (ndn x) i) = false;
  cf_first j : (j < i)%nat -> addr_at (ndn x) j <> addr_at (ndn x) i
}.

Lemma conflict_found hdr p b bs x i s :
  nd_netif_ok x -> conflict hdr p b bs x i s ->
  first_slot LWIP_IPV6_NUM_ADDRESSES 0 (conflicting_slot (ndn x) (addr_at (ndn x) i)) = Ret (Some i).
Proof.
  intros Hx Hc. pose proof (cf_slot _ _ _ _ _ _ _ Hc) as Hi. destruct (cf_ours _ _ _ _ _ _ _ Hc) as [Hv Hd].
  set (mine j := negb (ip6_addr_isinvalid (state_at (ndn x) j)) && negb (ip6_addr_isduplicated (state_at (ndn x) j)) &&
    ip6_addr_cmp (addr_at (ndn x) i) (addr_at (ndn x) j)).
  assert (Hmine : mine i = true) by (unfold mine; rewrite Hv, Hd; by apply addr_cmp_eq).
  pose proof (first_slot_spec LWIP_IPV6_NUM_ADDRESSES 0 (conflicting_slot (ndn x) (addr_at (ndn x) i)) mine) as Hf.
  assert (Hex : forall j, (0 <= j < 0 + LWIP_IPV6_NUM_ADDRESSES)%nat -> conflicting_slot (ndn x) (addr_at (ndn x) i) j = Ret (mine j)).
  { intros j Hj. unfold conflicting_slot, mine. rewrite (slot_state x Hx j) by lia. cbn [mbind outcome_bind]. destruct (_ && _); [|done].
    destruct (slot_addr x Hx j) as [-> _]; [lia|done]. }
  specialize (Hf Hex). destruct (first_slot _ _ _) as [[j|]| |]; [|rewrite (Hf i ltac:(lia)) in Hmine; done|done|done].
  destruct Hf as (Hj & Hmj & Hmin). destruct (lt_eq_lt_dec j i) as [[Hlt| ->]|Hgt]; [|done|rewrite (Hmin i ltac:(lia)) in Hmine; done].
  apply andb_true_iff in Hmj as [_ E%addr_cmp_eq]. by destruct (cf_first _ _ _ _ _ _ _ Hc j Hlt).
Qed.

Section conflicts.
Context `{Env} `{LowerLayersOk}.
Context (lwip_rand : nat -> Z).
Context (mld_mac_filter : netif -> option (ip6_addr -> Z -> M world unit)).
Context (status_callback : netif -> M world unit).

Lemma na_exec hdr p b bs x i s :
  nd_ok s -> conflict hdr p b bs x i s ->
  Nd6In.nd6_input lwip_rand mld_mac_filter status_callback hdr p (nif_num (ndn x)) s =
  (nd6_duplicate_addr_detected lwip_rand mld_mac_filter status_callback (nif_num (ndn x)) i;; in_node (pbuf_free_m p);; mret tt) s.
Proof.
  intros Hok Hc. pose proof (cf_arrived _ _ _ _ _ _ _ Hc) as Ha. pose proof (cf_netif _ _ _ _ _ _ _ Hc) as Hx.
  destruct (find_nd_num _ _ _ Hx) as [Hin _]. pose proof (no_netifs _ Hok) as Hall. rewrite Forall_forall in Hall. specialize (Hall x Hin).
  pose proof (cf_length _ _ _ _ _ _ _ Hc) as Hl24. pose proof (arr_length _ _ _ _ _ _ Ha) as Hl. pose proof (arr_single _ _ _ _ _ _ Ha) as Hsg.
  unfold Nd6In.nd6_input. erewrite bind_exec by (apply in_node_read; eapply pread8_exec; [exact Hsg|lia]).
  change (Z.to_nat 0) with 0%nat. rewrite (cf_type _ _ _ _ _ _ _ Hc), Z.eqb_refl.
  unfold mbind at 1, M_bind at 1. unfold mbind at 3, M_bind at 3.
  replace (nd6_input_na lwip_rand mld_mac_filter status_callback hdr p (nif_num (ndn x)) s) with
    (nd6_duplicate_addr_detected lwip_rand mld_mac_filter status_callback (nif_num (ndn x)) i s); [done|]. symmetry.
  unfold nd6_input_na. erewrite bind_exec by (apply in_node_read; by eapply pb_node_exec). cbn [n_val]. unfold sizeof_na_header.
  rewrite (proj2 (Z.ltb_ge _ _)) by lia. erewrite bind_exec by (by apply netif_at_exec).
  erewrite bind_exec by (unfold packed_addr; erewrite bind_exec; [reflexivity|]; apply in_node_read; eapply pread_exec; [exact Hsg|lia..]).
  cbv zeta. change (Z.to_nat 8) with 8%nat. change (Z.to_nat 16) with 16%nat. rewrite <-(cf_target _ _ _ _ _ _ _ Hc).
  erewrite bind_exec by (by eapply hoplim_exec). rewrite (cf_hoplim _ _ _ _ _ _ _ Hc).
  erewrite bind_exec by (apply in_node_read; eapply pread8_exec; [exact Hsg|lia]). change (Z.to_nat 1) with 1%nat.
  rewrite (cf_code _ _ _ _ _ _ _ Hc), (cf_unicast _ _ _ _ _ _ _ Hc), Z.eqb_refl. cbn [negb orb Z.eqb].
  erewrite bind_exec by (apply in_node_read; eapply pread8_exec; [exact Hsg|lia]).
  erewrite bind_exec by (unfold current_addrs; erewrite bind_exec; [reflexivity|]; by apply in_node_read). cbn [snd].
  rewrite (cf_dest _ _ _ _ _ _ _ Hc). unfold unsolicited_na. erewrite bind_exec by (by apply netif_at_exec).
  by rewrite (conflict_found _ _ _ _ _ _ _ Hall Hc).
Qed.
End conflicts.

(** C32: a duplicate address is not used.  A neighbour advertisement (code 0, hop limit 255)
    that was sent to a multicast address arrives; its target is a unicast address that a
    static slot of the interface holds in any state but invalid or duplicated, and no
    earlier slot holds it too.  Then this slot becomes a duplicate, and no number of
    ticks of the timer makes it usable again.  An advertisement sent to the node's own
    address is taken for an answer and not looked at for duplicates, in the code as in
    the model. *)
Theorem duplicate_refused `{Env} `{LowerLayersOk} lwip_rand mld_mac_filter status_callback hdr p b bs x i s n :
  (forall n f a act w, mld_mac_filter n = Some f -> wp (f a act) w (fun _ w' => sends w w')) ->
  (forall n w, wp (status_callback n) w (fun _ w' => sends w w')) ->
  nd_ok s -> paths_fit (nds s) -> conflict hdr p b bs x i s -> netif_ip6_addr_isstatic (ndn x) i = Ret true ->
  wp (Nd6In.nd6_input lwip_rand mld_mac_filter status_callback hdr p (nif_num (ndn x));; nd_ticks lwip_rand mld_mac_filter status_callback n) s
    (fun _ s' => sl_state <$> slot (nif_num (ndn x)) i s' = Some IP6_ADDR_DUPLICATED).
Proof.
  intros Hf Hs Hok Hpf Hc Hst. pose proof (cf_slot _ _ _ _ _ _ _ Hc) as Hi. pose proof (cf_netif _ _ _ _ _ _ _ Hc) as Hx.
  pose proof (cf_arrived _ _ _ _ _ _ _ Hc) as Harr. set (v := view i x).
  assert (Hlife : sl_life v = Some IP6_ADDR_LIFE_STATIC) by (by apply static_life).
  assert (Ha : addr_is (ndn x) i v (state_at (ndn x) i) s).
  { split; [apply (ar_netif _ _ _ _ _ _ Harr)|]. split; [done|]. unfold slot. by rewrite Hx. }
  apply wp_bind. unfold wp. rewrite (na_exec _ _ _ hdr p b bs x i s Hok Hc). fold (wp (A := unit) (S := nd_world)).
  apply wp_bind. eapply wp_mono; [exact (duplicate_slot lwip_rand mld_mac_filter status_callback Hf Hs (ndn x) i Hi v _ s Hok Ha)|].
  cbn beta. intros _ s1 (Hok1 & Hev1 & Ha1). apply wp_bind, wp_in_node. destruct Hev1 as [Hw El].
  eapply wp_free; [eapply at_sends; [apply at_start, (arr_single _ _ _ _ _ s Harr)|exact Hw]|apply Harr|]. intros r w' _. apply wp_ret.
  eapply wp_mono; [apply (ticks_duplicate lwip_rand mld_mac_filter status_callback Hf Hs (ndn x) i Hi v Hlife n)|].
  - destruct Hok1 as [? ? ? [L HL]]. split; [done..|]. exists L. by apply mld_ok_world.
  - exact Ha1.
  - cbn beta. intros _ s2 (_ & _ & (_ & _ & E)). by rewrite E.
Qed.

(** C33: a new address becomes usable.  On an interface that is up, a static address in the
    tentative state is announced by the next tick of the timer: a solicitation for it, from
    the unspecified address, is written to the TUN device, and the address is still not
    usable; the tick after that makes it preferred.  The interfaces, the caches and the
    other addresses may be in any well-formed state. *)
Theorem address_preferred `{Env} `{LowerLayersOk} lwip_rand mld_mac_filter status_callback s x i fd :
  (forall n f a act w, mld_mac_filter n = Some f -> wp (f a act) w (fun _ w' => sends w w')) ->
  (forall n w, wp (status_callback n) w (fun _ w' => sends w w')) ->
  (forall n p d, output_ip6 n p d = tunif_ip6_output (Some n) (Some p) d) ->
  (forall t k, env_write t k = Written k) -> (forall t, env_mem_malloc t = true) ->
  nd_ok s -> paths_fit (nds s) -> x ∈ nd_netifs s -> (i < LWIP_IPV6_NUM_ADDRESSES)%nat ->
  netif_is_up (ndn x) = true -> netif_is_link_up (ndn x) = true -> nif_state (ndn x) = Some fd -> 72 <= nif_mtu6 (ndn x) ->
  netif_ip6_addr_isstatic (ndn x) i = Ret true -> state_at (ndn x) i = IP6_ADDR_TENTATIVE ->
  let tick := nd6_tmr lwip_rand mld_mac_filter status_callback in
  let state s := sl_state <$> slot (nif_num (ndn x)) i s in
  wp tick s (fun _ s1 =>
    EvTunWrite fd (probe (ndn x) (addr_at (ndn x) i)) ∈ w_trace (host s1) /\
    (exists st, state s1 = Some st /\ ip6_addr_istentative st = true /\ ip6_addr_isvalid st = false) /\
    wp tick s1 (fun _ s2 => state s2 = Some IP6_ADDR_PREFERRED)).
Proof.
  intros Hf Hs Hout Hwrite Hmem Hok Hpf Hx Hi Hup Hlink Hfd Hm6 Hst Ht tick state. set (v := view i x).
  assert (Hlife : sl_life v = Some IP6_ADDR_LIFE_STATIC) by (by apply static_life).
  apply negb_true_iff, Z.eqb_neq in Hup, Hlink.
  assert (Hnum : nif_num (ndn x) ∈ numbers s) by (by apply (list_elem_of_fmap_2 (fun x => nif_num (ndn x)))).
  assert (Ha : addr_is (ndn x) i v IP6_ADDR_TENTATIVE s).
  { split; [done|]. split; [done|]. unfold slot. destruct (find_nd_some _ _ Hnum) as [x' Hx'].
    rewrite Hx', <-(same_netif s _ x' x Hok Hx' Hx eq_refl). cbn. f_equal. unfold with_state, v, view. cbn. by rewrite <-Ht. }
  eapply wp_mono; [apply (tick_announced lwip_rand mld_mac_filter status_callback Hf Hs Hout Hwrite Hmem (ndn x) i Hi v fd Hlife Hfd Hm6 (conj Hup Hlink)); done|].
  cbn beta. intros _ s1 (Hok1 & _ & Ha1 & Hn1). split; [exact Hn1|]. split.
  - exists (IP6_ADDR_TENTATIVE + 1). split; [|done]. destruct Ha1 as (_ & _ & E). unfold state. by rewrite E.
  - eapply wp_mono; [exact (tick_preferred lwip_rand mld_mac_filter status_callback Hf Hs (ndn x) i Hi v Hlife s1 Hok1 Ha1)|].
    cbn beta. intros _ s2 (_ & _ & (_ & _ & E)). unfold state. by rewrite E.
Qed.

(** The address FD00:12::1 of the TUN interface while it is tentative. *)
Definition new_address : nd_netif := put_state 3 IP6_ADDR_TENTATIVE tun_nd_netif.
Definition starting : nd_world := put_netifs [new_address] (tun_nd [] (with_neighbors crowd nd_start)).
Lemma starting_ok : nd_ok starting.
Proof.
  destruct crowd_ok as [Ht Hn Hd Hm]. split; [exact Ht| |exact Hd|exact Hm]. apply Forall_singleton, put_state_ok, tun_nd_netif_ok.
Qed.

Lemma address_preferred_witness :
  let tick := @nd6_tmr calm_env (@tun_layers calm_env) (fun _ => 7) (fun _ => None) (fun _ => mret tt) in
  wp tick starting (fun _ s1 => EvTunWrite 3 (probe (ndn new_address) (addr_at (ndn new_address) 3)) ∈ w_trace (host s1) /\
    wp tick s1 (fun _ s2 => sl_state <$> slot (nif_num (ndn new_address)) 3 s2 = Some IP6_ADDR_PREFERRED)).
Proof.
  intros tick. assert (Hpf : paths_fit (nds starting)) by (apply Forall_replicate; by left).
  assert (Hf : forall (n : netif) (f : ip6_addr -> Z -> M world unit) a act w, None = Some f -> wp (f a act) w (fun _ w' => sends w w')) by discriminate.
  assert (Hs : forall (n : netif) w, wp (mret tt : M world unit) w (fun _ w' => sends w w')) by (intros n w; apply wp_ret, sends_refl).
  pose proof (@address_preferred calm_env _ (@tun_layers_ok calm_env) (fun _ => 7) (fun _ => None) (fun _ => mret tt) starting new_address 3 3 Hf Hs
    (fun _ _ _ => eq_refl) (fun _ _ => eq_refl) (fun _ => eq_refl) starting_ok Hpf (list_elem_of_here _ _) ltac:(unfold LWIP_IPV6_NUM_ADDRESSES; lia)
    eq_refl eq_refl eq_refl ltac:(by vm_compute) eq_refl eq_refl) as Hw.
  cbv zeta in Hw. eapply wp_mono; [exact Hw|]. cbn beta. intros _ s1 (Ha & _ & Hp). split; [exact Ha|exact Hp].
Defined.

(** Another node advertises FD00:12::1. *)
Definition na_header : list Z :=
  [96; 0; 0; 0; 0; 24; 58; 255] ++ [253; 0; 0; 18; 0; 0; 0; 0; 0; 0; 0; 0; 0; 0; 0; 1] ++ [255; 2; 0; 0; 0; 0; 0; 0; 0; 0; 0; 0; 0; 0; 0; 1].
Definition na_message : list Z := [136; 0; 0; 0; 32; 0; 0; 0] ++ [253; 0; 0; 18; 0; 0; 0; 0; 0; 0; 0; 0; 0; 0; 0; 1].
Definition na_pbuf : pbuf := mk_pbuf (na_header ++ na_message) 40 24 24 PBUF_POOL 0 1 0.
Definition contested : nd_world :=
  put_host (set_current (IP6_ADDR (PP_HTONL 0xfd000012) 0 0 (PP_HTONL 1)) all_nodes
    (set_pbufs (fun _ => {[1%positive := Node na_pbuf None]}) (tun_world []))) starting.

Lemma contested_ok : nd_ok contested.
Proof. destruct starting_ok as [Ht Hn Hd [L HL]]. split; [exact Ht|exact Hn|exact Hd|]. exists L. by apply mld_ok_world. Qed.
Lemma contested_owned : owned (host contested) 1%positive na_pbuf na_message.
Proof.
  split; [|done]. split_and!; [apply lookup_singleton_eq| |done|by vm_compute]. unfold seg_ok. cbn [na_pbuf pb_payload pb_len pb_tot_len pb_buf].
  split_and!; try (by vm_compute). decided.
Qed.
Lemma contested_conflict : conflict 0 1%positive na_pbuf na_message new_address 3 contested.
Proof.
  split; try (by vm_compute).
  - split; [apply contested_owned|cbn; lia|by vm_compute|by vm_compute|by left|]. apply Forall_singleton. by vm_compute.
  - unfold LWIP_IPV6_NUM_ADDRESSES. lia.
  - intros j Hj. destruct j as [|[|[|j]]]; [by vm_compute..|lia].
Qed.

Lemma duplicate_refused_witness :
  wp (@Nd6In.nd6_input calm_env (@tun_layers calm_env) (fun _ => 7) (fun _ => None) (fun _ => mret tt) 0 1%positive (nif_num (ndn new_address));;
      @nd_ticks calm_env (@tun_layers calm_env) (fun _ => 7) (fun _ => None) (fun _ => mret tt) 5) contested
    (fun _ s' => sl_state <$> slot (nif_num (ndn new_address)) 3 s' = Some IP6_ADDR_DUPLICATED).
Proof.
  assert (Hpf : paths_fit (nds contested)) by (apply Forall_replicate; by left).
  assert (Hf : forall (n : netif) (f : ip6_addr -> Z -> M world unit) a act w, None = Some f -> wp (f a act) w (fun _ w' => sends w w')) by discriminate.
  assert (Hs : forall (n : netif) w, wp (mret tt : M world unit) w (fun _ w' => sends w w')) by (intros n w; apply wp_ret, sends_refl).
  exact (@duplicate_refused calm_env _ (@tun_layers_ok calm_env) (fun _ => 7) (fun _ => None) (fun _ => mret tt) 0 1%positive na_pbuf na_message new_address 3
    contested 5 Hf Hs contested_ok Hpf contested_conflict eq_refl).
Defined.
