(* ===== verification/FragSpec.v ===== *)
(** * What fragmentation sends

    The fragments of a packet, their reassembly, and that [ip6_frag] sends exactly
    them on the TUN device, in order; and the path MTUs with which it does not end. *)

From S2P Require Import Prelude LinkedList Ip6Addr World Netif Pbuf Ip6Hdr Custody Buffer InetChksum RawSocket Ip6Out Icmp6 Ip6In Ip6Spec Mld6 Nd6 Nd6Send Nd6In Nd6Inv Ip6Frag ControllerSpec Main Setup Stack.

(** ** Fragments *)

(** The fragment of the packet with header [hdr] that has [data] from [off] on. *)
Definition frag_header (nexth id off : Z) (last : bool) : list Z :=
  [nexth; 0] ++ be16 (Z.lor off (if last then 0 else IP6_FRAG_MORE_FLAG)) ++ le_bytes 4 (lwip_htonl id).
Definition fragment (hdr : list Z) (id off : Z) (last : bool) (data : list Z) : list Z :=
  set_hdr IP6_NEXTH_FRAGMENT (Z.of_nat (length data) + IP6_FRAG_HLEN) hdr ++ frag_header (hdr_nexth hdr) id off last ++ data.

(** [data] in pieces of [nfb] bytes. *)
Fixpoint frags_from (fuel : nat) (hdr : list Z) (id nfb off : Z) (data : list Z) : list (list Z) :=
  match fuel, data with
  | S fuel, _ :: _ =>
      if Z.of_nat (length data) <=? nfb then [fragment hdr id off true data]
      else fragment hdr id off false (take (Z.to_nat nfb) data) :: frags_from fuel hdr id nfb (off + nfb) (drop (Z.to_nat nfb) data)
  | _, _ => []
  end.
Definition fragments (id nfb : Z) (bs : list Z) : list (list Z) :=
  frags_from (length bs) (take 40 bs) id nfb 0 (drop 40 bs).

Lemma frags_step fuel hdr id nfb off data :
  data <> [] -> 0 < nfb -> let k := if Z.of_nat (length data) <=? nfb then length data else Z.to_nat nfb in
  frags_from (S fuel) hdr id nfb off data =
    fragment hdr id off (Z.of_nat (length data) <=? nfb) (take k data) :: frags_from fuel hdr id nfb (off + Z.of_nat k) (drop k data).
Proof.
  intros Hne Hn k. destruct data as [|x data']; [done|]. cbn [frags_from]. set (data := x :: data') in *. subst k.
  destruct (Z.of_nat (length data) <=? nfb); [|by rewrite Z2Nat.id by lia]. rewrite firstn_all, drop_all. by destruct fuel.
Qed.
Lemma frags_fuel hdr id nfb f1 : forall f2 off data, 0 < nfb -> (length data <= f1)%nat -> (length data <= f2)%nat ->
  frags_from f1 hdr id nfb off data = frags_from f2 hdr id nfb off data.
Proof.
  induction f1 as [|f1 IH]; intros f2 off data Hn H1 H2; (destruct data as [|x data']; [by destruct f2|]); [cbn in H1; lia|].
  destruct f2 as [|f2]; [cbn in H2; lia|]. rewrite !frags_step by done. f_equal. apply IH; [done|rewrite length_drop..]; cbn [length] in *; case_match; lia.
Qed.

(** ** Reassembly (RFC 8200, 4.5), of fragments in order *)

Definition frag_field (f : list Z) : Z := lwip_htons (le_val (slice 42 2 f)).
Fixpoint gather (id : list Z) (off : Z) (fs : list (list Z)) : option (list Z) :=
  match fs with
  | [] => None
  | f :: fs =>
      if (Z.land (frag_field f) IP6_FRAG_OFFSET_MASK =? off) && bool_decide (slice 44 4 f = id) then
        if Z.testbit (frag_field f) 0
        then data ← gather id (off + Z.of_nat (length (drop 48 f))) fs; Some (drop 48 f ++ data)
        else match fs with [] => Some (drop 48 f) | _ :: _ => None end
      else None
  end.
Definition reassemble (fs : list (list Z)) : option (list Z) :=
  match fs with
  | [] => None
  | f :: _ =>
      data ← gather (slice 44 4 f) 0 fs;
      Some (set_hdr (byte_at 40 f) (Z.of_nat (length data)) (take 40 f) ++ data)
  end.

Lemma land_offset x : 0 <= x < 65536 -> Z.land x IP6_FRAG_OFFSET_MASK = 8 * (x / 8).
Proof.
  intros Hx. change IP6_FRAG_OFFSET_MASK with (Z.ldiff (Z.ones 16) (Z.ones 3)).
  replace (Z.land x (Z.ldiff (Z.ones 16) (Z.ones 3))) with (Z.ldiff (Z.land x (Z.ones 16)) (Z.ones 3)).
  - rewrite Z.land_ones, Z.ldiff_ones_r, Z.shiftr_div_pow2, Z.shiftl_mul_pow2 by lia. rewrite Z.mod_small by (change (2 ^ 16) with 65536; lia). change (2 ^ 3) with 8. lia.
  - apply Z.bits_inj'. intros i Hi. rewrite Z.ldiff_spec, !Z.land_spec, Z.ldiff_spec. by rewrite andb_assoc.
Qed.
Lemma offset_field off (last : bool) :
  0 <= off < 65536 -> off mod 8 = 0 ->
  let x := Z.lor off (if last then 0 else IP6_FRAG_MORE_FLAG) in
  0 <= x < 65536 /\ Z.land x IP6_FRAG_OFFSET_MASK = off /\ Z.testbit x 0 = negb last.
Proof.
  intros Ho Hm x. assert (Hx : x = off + (if last then 0 else 1)).
  { subst x. destruct last; [by rewrite Z.lor_0_r, Z.add_0_r|]. unfold IP6_FRAG_MORE_FLAG.
    assert (E : Z.land off 1 = 0) by (change 1 with (Z.ones 1); rewrite Z.land_ones by lia; zlia).
    by rewrite Z.add_nocarry_lxor, Z.lxor_lor by exact E. }
  split; [rewrite Hx; destruct last; zlia|]. split.
  - rewrite land_offset; rewrite Hx; destruct last; zlia.
  - rewrite Hx, Z.bit0_odd. replace off with (2 * (off / 2)) by zlia. rewrite Z.odd_add, Z.odd_mul. by destruct last.
Qed.

(** What is read from a fragment. *)
Section fields.
Context (hdr : list Z) (id off : Z) (last : bool) (data : list Z) (Hh : length hdr = 40%nat).
Let f := fragment hdr id off last data.

Lemma fragment_parts : take 40 f = set_hdr IP6_NEXTH_FRAGMENT (Z.of_nat (length data) + IP6_FRAG_HLEN) hdr /\
  byte_at 40 f = hdr_nexth hdr /\ slice 44 4 f = le_bytes 4 (lwip_htonl id) /\ drop 48 f = data.
Proof.
  pose proof (set_hdr_length IP6_NEXTH_FRAGMENT (Z.of_nat (length data) + IP6_FRAG_HLEN) hdr Hh) as Hl. unfold f, fragment.
  revert Hl. generalize (set_hdr IP6_NEXTH_FRAGMENT (Z.of_nat (length data) + IP6_FRAG_HLEN) hdr). intros H Hl.
  do 40 (destruct H as [|? H]; [done|]). by destruct H.
Qed.
Lemma fragment_field : 0 <= off < 65536 -> off mod 8 = 0 ->
  Z.land (frag_field f) IP6_FRAG_OFFSET_MASK = off /\ Z.testbit (frag_field f) 0 = negb last.
Proof.
  intros Ho Hm. destruct (offset_field off last Ho Hm) as (Hr & Hoff & Hmore).
  enough (E : frag_field f = Z.lor off (if last then 0 else IP6_FRAG_MORE_FLAG)) by (rewrite E; done).
  unfold frag_field. rewrite <-(be16_val (Z.lor off (if last then 0 else IP6_FRAG_MORE_FLAG)) Hr). do 2 f_equal.
  pose proof (set_hdr_length IP6_NEXTH_FRAGMENT (Z.of_nat (length data) + IP6_FRAG_HLEN) hdr Hh) as Hl. unfold f, fragment.
  revert Hl. generalize (set_hdr IP6_NEXTH_FRAGMENT (Z.of_nat (length data) + IP6_FRAG_HLEN) hdr). intros H Hl.
  do 40 (destruct H as [|? H]; [done|]). by destruct H.
Qed.
Lemma length_fragment : length f = (48 + length data)%nat.
Proof. unfold f, fragment. by rewrite !length_app, set_hdr_length. Qed.
End fields.

Lemma frags_small fuel hdr id nfb : forall off data, length hdr = 40%nat -> 0 < nfb ->
  Forall (fun f => Z.of_nat (length f) <= nfb + 48) (frags_from fuel hdr id nfb off data).
Proof.
  induction fuel as [|fuel IH]; intros off data Hh Hn; [constructor|]. destruct (decide (data = [])) as [->|Hne]; [constructor|].
  rewrite frags_step by done. constructor; [|by apply IH]. rewrite length_fragment, length_take by done.
  case_match eqn:E; [apply Z.leb_le in E|]; lia.
Qed.

Lemma gather_frags hdr id nfb fuel : forall off data,
  length hdr = 40%nat -> 0 < nfb -> nfb mod 8 = 0 -> 0 <= off -> off mod 8 = 0 -> off + Z.of_nat (length data) < 65536 ->
  data <> [] -> (length data <= fuel)%nat ->
  gather (le_bytes 4 (lwip_htonl id)) off (frags_from fuel hdr id nfb off data) = Some data.
Proof.
  induction fuel as [|fuel IH]; intros off data Hh Hn Hn8 Ho Ho8 Hl Hne Hf; [destruct data; [done|cbn in Hf; lia]|].
  destruct data as [|x data']; [done|]. cbn [frags_from]. set (data := x :: data') in *.
  destruct (Z.leb_spec (Z.of_nat (length data)) nfb) as [Hle|Hgt].
  - destruct (fragment_parts hdr id off true data Hh) as (_ & _ & Ei & Ed). destruct (fragment_field hdr id off true data Hh) as [Eo Em]; [lia|done|].
    cbn [gather]. by rewrite Eo, Em, Ei, Ed, Z.eqb_refl, bool_decide_true.
  - set (piece := take (Z.to_nat nfb) data). assert (Hp : Z.of_nat (length piece) = nfb) by (unfold piece; rewrite length_take; lia).
    destruct (fragment_parts hdr id off false piece Hh) as (_ & _ & Ei & Ed). destruct (fragment_field hdr id off false piece Hh) as [Eo Em]; [lia|done|].
    cbn [gather]. rewrite Eo, Em, Ei, Ed, Z.eqb_refl, bool_decide_true by done. cbn [andb negb]. rewrite Hp, IH; try done; try lia.
    + cbn. unfold piece. by rewrite take_drop.
    + zlia.
    + rewrite length_drop. lia.
    + intros E. apply (f_equal length) in E. rewrite length_drop in E. cbn [length] in E. lia.
    + rewrite length_drop. lia.
Qed.

Lemma reassemble_fragments id nfb bs :
  ip6_packet bs -> (40 < length bs)%nat -> Z.of_nat (length bs) < 65536 -> 0 < nfb -> nfb mod 8 = 0 ->
  reassemble (fragments id nfb bs) = Some bs.
Proof.
  intros (Hl & Hb & Hpl) Hlt Hmax Hn Hn8. assert (Hh : length (take 40 bs) = 40%nat) by (rewrite length_take; lia).
  assert (Hd : (0 < length (drop 40 bs) < length bs)%nat) by (rewrite length_drop; lia).
  pose proof (gather_frags (take 40 bs) id nfb (length bs) 0 (drop 40 bs) Hh Hn Hn8 ltac:(lia) ltac:(done) ltac:(lia)
    ltac:(intros E; rewrite E in Hd; cbn in Hd; lia) ltac:(lia)) as Hg.
  assert (Hfirst : exists off last data rest, fragments id nfb bs = fragment (take 40 bs) id off last data :: rest).
  { unfold fragments. destruct (length bs) as [|m]; [lia|]. destruct (drop 40 bs) as [|x l]; [cbn in Hd; lia|]. cbn [frags_from].
    destruct (_ <=? _); by do 4 eexists. }
  destruct Hfirst as (off & last & data & rest & E). unfold reassemble. fold (fragments id nfb bs) in Hg. rewrite E in Hg |- *.
  destruct (fragment_parts (take 40 bs) id off last data Hh) as (Et & Eb & Ei & _). rewrite Ei, Hg. cbn [mbind option_bind].
  rewrite Et, Eb, set_hdr_set by done. f_equal.
  replace (Z.of_nat (length (drop 40 bs))) with (hdr_plen (take 40 bs)).
  - rewrite set_hdr_id by (done || by apply Forall_take). apply take_drop.
  - rewrite hdr_plen_take by lia. rewrite length_drop. lia.
Qed.

(** ** One round *)

Lemma wp_in_fr {A} (m : M world A) s Q :
  wp m (fr_world s) (fun a w => Q a (mk_frag w (customs s) (identification s))) -> wp (in_fr m) s Q.
Proof. unfold wp, in_fr. by destruct (m (fr_world s)) as [[a w]| |]. Qed.

Lemma wp_node w p nd Q : w_pbufs w !! p = Some nd -> Q nd w -> wp (pb_node p) w Q.
Proof. intros Hp HQ. eapply wp_exec; [|exact HQ]. unfold pb_node, get, mbind, M_bind. by rewrite Hp. Qed.

(** Writing into the first buffer of a chain: [q] is in front of [m] and holds [G]. *)
Definition head_is (w0 : world) (q : loc) (b : pbuf) (m : option loc) (G : list Z) (w : world) : Prop :=
  exists b', w = set_pbufs (insert q (Node b' m)) w0 /\ seg_ok b' /\ seg_bytes b' = G /\ refilled b b'.

Lemma wp_head_write w0 q b m G w off new Q :
  head_is w0 q b m G w -> Forall is_byte new -> 0 <= off -> off + Z.of_nat (length new) <= pb_len b ->
  (forall w', head_is w0 q b m (splice (Z.to_nat off) new G) w' -> Q tt w') -> wp (pwrite q off new) w Q.
Proof.
  intros (b1 & -> & Hok & HG & Hr) Hn Ho Hl HQ. unfold pwrite. apply wp_bind. eapply wp_node; [apply lookup_insert_eq|]. cbn [n_val n_next].
  destruct (payload_wr_ok b1 off new Hok Hn Ho) as (b2 & E & Hok2 & HG2 & Hb2 & Hl2).
  { destruct Hr as [-> _]. exact Hl. }
  apply wp_bind. eapply wp_lift; [exact E|]. apply wp_modify. apply HQ. exists b2. split_and!; [|done|by rewrite HG2, HG|].
  - apply world_eq; try reflexivity. cbn. by rewrite insert_insert_eq.
  - eapply refilled_trans; [exact Hr|]. by split.
Qed.

Lemma built_fragment hdr F id off (last : bool) n :
  length hdr = 40%nat -> length F = 48%nat ->
  splice 4 (be16 n) (splice 6 [IP6_NEXTH_FRAGMENT] (splice 44 (le_bytes 4 (lwip_htonl id)) (splice 42 (be16 (Z.lor off (if last then 0 else IP6_FRAG_MORE_FLAG)))
    (splice 41 [0] (splice 40 [hdr_nexth hdr] (splice 0 hdr F)))))) =
  set_hdr IP6_NEXTH_FRAGMENT n hdr ++ frag_header (hdr_nexth hdr) id off last.
Proof.
  intros Hh HF. do 40 (destruct hdr as [|? hdr]; [done|]). destruct hdr; [|done].
  do 48 (destruct F as [|? F]; [done|]). by destruct F.
Qed.

Lemma wp_fill_frag w0 q b m hdr F w id off cop (last : bool) Q :
  head_is w0 q b m (splice 0 hdr F) w -> pb_len b = 48 -> length hdr = 40%nat -> length F = 48%nat -> Forall is_byte hdr ->
  0 <= off < 65536 -> off mod 8 = 0 -> 0 <= cop < 65528 ->
  (forall w', head_is w0 q b m (set_hdr IP6_NEXTH_FRAGMENT (cop + IP6_FRAG_HLEN) hdr ++ frag_header (hdr_nexth hdr) id off last) w' -> Q tt w') ->
  wp (fill_frag q (hdr_nexth hdr) off cop last id) w Q.
Proof.
  intros Hb Hl Hh HF Hby Ho Ho8 Hc HQ. unfold fill_frag. destruct (offset_field off last Ho Ho8) as (Hr & _ & _).
  rewrite land_offset by done. replace (8 * (off / 8)) with off by zlia. rewrite (u16_small (Z.lor _ _)) by exact Hr. rewrite (u16_small (cop + _)) by (unfold IP6_FRAG_HLEN; lia).
  apply wp_bind. eapply wp_head_write; [exact Hb|apply Forall_singleton; by apply byte_at_byte|by vm_compute|rewrite Hl; by vm_compute|]. clear Hb w. intros w Hb.
  apply wp_bind. eapply wp_head_write; [exact Hb|by apply Forall_singleton|by vm_compute|rewrite Hl; by vm_compute|]. clear Hb w. intros w Hb.
  apply wp_bind. eapply wp_head_write; [exact Hb|apply le_bytes_byte|by vm_compute|rewrite Hl; by vm_compute|]. clear Hb w. intros w Hb.
  apply wp_bind. eapply wp_head_write; [exact Hb|apply le_bytes_byte|by vm_compute|rewrite Hl; by vm_compute|]. clear Hb w. intros w Hb.
  apply wp_bind. eapply wp_head_write; [exact Hb|by apply Forall_singleton|by vm_compute|rewrite Hl; by vm_compute|]. clear Hb w. intros w Hb.
  eapply wp_head_write; [exact Hb|apply be16_byte|by vm_compute|rewrite Hl; by vm_compute|]. clear Hb w. intros w Hb.
  apply HQ. rewrite <-(built_fragment hdr F id off last (cop + IP6_FRAG_HLEN)) by done. exact Hb.
Qed.

(** The buffer that mirrors [data]. *)
Definition mirror (data : list Z) : pbuf :=
  mk_pbuf data 0 (Z.of_nat (length data)) (Z.of_nat (length data)) PBUF_REF PBUF_FLAG_IS_CUSTOM 1 0.

Lemma cat_one (h : pheap) q bq m nm :
  h !! q = Some (Node bq None) -> pb_tot_len bq = pb_len bq -> h !! m = Some nm -> q <> m ->
  pbuf_cat h (Some q) (Some m) = Ret (<[q := Node (add_tot (pb_tot_len (n_val nm)) bq) (Some m)]> h).
Proof.
  intros Hq Ht Hm Hne. unfold pbuf_cat. rewrite decide_False by done. apply oloop_exit. unfold pbuf_cat_body. rewrite Hq. cbn [deref mbind outcome_bind].
  rewrite Hm. cbn [deref mbind outcome_bind n_next n_val]. by rewrite Ht, Z.eqb_refl.
Qed.

Lemma wp_mirror w cs id q bq p bp data cop fuel Q :
  w_pbufs w !! q = Some (Node bq None) -> pb_tot_len bq = pb_len bq -> q <> p ->
  single (w_pbufs w) p bp data -> pb_ref bp = 1 -> (0 < cop <= length data)%nat -> (size cs < MEMP_NUM_FRAG_PBUF)%nat ->
  let m := new_loc (w_pbufs w) in
  Q (Some (p, Z.of_nat cop)) (mk_frag (set_pbufs (insert q (Node (add_tot (Z.of_nat cop) bq) (Some m)))
    (put_pbuf p (with_ref 2 bp) (put_pbuf m (mirror (take cop data)) w))) (<[m := p]> cs) id) ->
  wp (loop (S (S fuel)) (mirror_body q) (p, Z.of_nat cop, 0)) (mk_frag w cs id) Q.
Proof.
  intros Hq Ht Hqp Hs Hr Hc Hcs m HQ. pose proof (single_length _ _ _ _ Hs) as Hl. pose proof Hs as (Hp & Hok & Htp & Hbs).
  assert (Hm : w_pbufs w !! m = None) by apply new_loc_fresh. assert (Hmq : m <> q) by congruence. assert (Hmp : m <> p) by congruence.
  assert (Hmax : Z.of_nat cop < 65536) by (destruct Hok as (_ & _ & _ & ? & _); lia).
  cbn [loop]. apply wp_bind. unfold mirror_body at 1. rewrite (proj2 (Z.eqb_neq _ _)) by lia.
  apply wp_bind, wp_in_fr. eapply wp_node; [exact Hp|]. cbn [n_val n_next].
  replace (if Z.of_nat cop <? pb_len bp then Z.of_nat cop else pb_len bp) with (Z.of_nat cop) by (destruct (Z.ltb_spec (Z.of_nat cop) (pb_len bp)); lia).
  rewrite (proj2 (Z.eqb_neq _ _)) by lia. apply wp_bind, wp_in_fr. eapply wp_exec; [eapply pread_exec; [exact Hs|lia..]|].
  rewrite Nat2Z.id. change (slice (Z.to_nat 0) cop data) with (take cop data).
  assert (Hlt : length (take cop data) = cop) by (rewrite length_take; lia).
  apply wp_bind. unfold ip6_frag_alloc_pbuf_custom_ref. apply wp_bind, wp_get. cbn [customs fr_world]. rewrite bool_decide_true by done. apply wp_ret.
  apply wp_bind, wp_in_fr. unfold pbuf_alloced_custom. change (LWIP_MEM_ALIGN_SIZE (u16 PBUF_RAW)) with 0. rewrite Hlt, (proj2 (Z.ltb_ge _ _)) by lia.
  apply wp_bind, wp_get, wp_bind, wp_modify, wp_ret.
  apply wp_bind, wp_in_fr. apply wp_bind, wp_get, wp_bind. cbn [fr_world customs identification set_customs w_pbufs set_pbufs].
  fold m. eapply wp_lift.
  { unfold pbuf_ref. rewrite lookup_insert_ne, Hp by done. cbn. by rewrite Hr. }
  apply wp_modify. apply wp_bind, wp_modify. cbn [fr_world customs identification set_customs].
  apply wp_bind, wp_in_fr, wp_bind, wp_get, wp_bind. unfold set_customs; cbn [fr_world customs identification w_pbufs set_pbufs].
  eapply wp_lift.
  { eapply cat_one; [by rewrite !lookup_insert_ne|done|by rewrite lookup_insert_ne, lookup_insert_eq|done]. }
  apply wp_modify. rewrite Z.sub_diag. change (u16 0) with 0. rewrite Z.eqb_refl. apply wp_bind, wp_ret, wp_ret.
  apply wp_bind. unfold mirror_body at 1. rewrite Z.eqb_refl. apply wp_ret, wp_ret.
  cbn [n_val pbuf_init_alloced_pbuf pb_tot_len]. unfold mirror in HQ. rewrite Hlt in HQ. exact HQ.
Qed.

(** Releasing a fragment also drops the reference of its mirror. *)
Lemma wp_release w id q bq m bm p bp Q :
  w_pbufs w !! q = Some (Node bq (Some m)) -> pb_ref bq = 1 -> pb_flags bq = 0 ->
  w_pbufs w !! m = Some (Node bm None) -> pb_ref bm = 1 -> pb_flags bm = PBUF_FLAG_IS_CUSTOM ->
  w_pbufs w !! p = Some (Node bp None) -> pb_ref bp = 2 -> q <> m -> q <> p -> m <> p ->
  (forall c, Q c (mk_frag (set_pbufs (delete m) (put_pbuf p (with_ref 1 bp) (del_pbuf q w))) ∅ id)) ->
  wp (pbuf_free_f q) (mk_frag w (<[m := p]> ∅) id) Q.
Proof.
  intros Hq Hqr Hqf Hm Hmr Hmf Hp Hpr Hqm Hqp Hmp HQ. unfold pbuf_free_f. apply wp_bind, wp_get. cbn [fr_world Nat.add pbuf_free_custom].
  apply wp_bind, wp_in_fr. eapply wp_node; [exact Hq|]. cbn [n_val n_next fr_world customs identification]. rewrite Hqr, Hqf. cbn [Z.ltb Z.compare].
  change (u8 (1 - 1) =? 0) with true. cbv iota. change (has_flag 0 PBUF_FLAG_IS_CUSTOM) with false. cbv iota. apply wp_bind, wp_ret.
  apply wp_bind, wp_in_fr, wp_modify. cbn [fr_world customs identification].
  apply wp_bind, wp_in_fr. eapply wp_node; [cbn; by rewrite lookup_delete_ne|]. cbn [n_val n_next fr_world customs identification]. rewrite Hmr, Hmf.
  cbn [Z.ltb Z.compare]. change (u8 (1 - 1) =? 0) with true. cbv iota. change (has_flag PBUF_FLAG_IS_CUSTOM PBUF_FLAG_IS_CUSTOM) with true. cbv iota.
  apply wp_bind. unfold ip6_frag_free_pbuf_custom. apply wp_bind, wp_get, wp_bind. cbn [customs]. eapply wp_lift; [by rewrite lookup_insert_eq|]. apply wp_bind.
  apply wp_bind, wp_in_fr. eapply wp_node; [cbn; by rewrite lookup_delete_ne|]. cbn [n_val n_next fr_world customs identification]. rewrite Hpr.
  cbn [Z.ltb Z.compare]. change (u8 (2 - 1)) with 1. cbn [Z.eqb]. apply wp_bind, wp_in_fr, wp_modify, wp_ret. apply wp_modify.
  cbn [fr_world customs identification set_customs]. apply wp_bind, wp_in_fr, wp_modify. apply wp_ret.
  unfold set_customs. cbn [fr_world customs identification]. rewrite delete_insert_id by done. apply HQ.
Qed.

Section sending.
Context `{Env} `{LowerLayers} (n : netif) (dest : ip6_addr) (limit : Z).
(** What the interface does with a packet of at most [limit] bytes: what is sent, and how far the clock goes. *)
Context (sent : list Z -> list event -> nat -> Prop).
Hypothesis Hsent : forall w q ls f, pkt (w_pbufs w) q ls f -> Z.of_nat (length f) <= limit ->
  wp (output_ip6 n q dest) w (fun _ w' => exists es k, sent f es k /\ w' = logged es k w).
Context (p : loc) (b0 : pbuf) (bs : list Z) (nfb : Z).
Hypotheses (Hseg : seg_ok b0) (Hbs : seg_bytes b0 = bs) (Hlen : (40 <= length bs)%nat) (Hmax : Z.of_nat (length bs) < 65536) (Hnfb : 0 <= nfb <= 65480 /\ nfb + 48 <= limit) (Hnfb8 : nfb mod 8 = 0).
Let hdr := take 40 bs.
Let data := drop 40 bs.

(** The packet before the round for its bytes from [off] on, of which there are [rest]. *)
Record waiting_at (off rest poff : nat) (b : pbuf) : Prop := {
  wa_ok : seg_ok b;
  wa_buf : pb_buf b = pb_buf b0;
  wa_ref : pb_ref b = 1;
  wa_tot : pb_tot_len b = pb_len b;
  wa_len : pb_len b = Z.of_nat (rest + poff);
  wa_pos : pb_payload b + Z.of_nat poff = pb_payload b0 + 40 + Z.of_nat off;
  wa_sum : (off + rest = length data)%nat
}.

Lemma original_header w b : w_pbufs w !! p = Some (Node b None) -> pb_buf b = pb_buf b0 ->
  pread_at p (pb_payload b0) IP6_HLEN w = Ret (hdr, w) /\ pread8_at p (pb_payload b0 + OFF_NEXTH) w = Ret (hdr_nexth hdr, w).
Proof.
  intros Hp Hb. destruct Hseg as (H1 & H2 & H3 & _). assert (Hl : Z.of_nat (length bs) = pb_len b0) by (rewrite <-Hbs; by apply seg_bytes_length).
  assert (Hrd : forall pos k, 0 <= k -> 0 <= pos -> pos + k <= pb_len b0 ->
    pread_at p (pb_payload b0 + pos) k w = Ret (slice (Z.to_nat pos) (Z.to_nat k) bs, w)).
  { intros pos k Hk Hpos Hle. unfold pread_at. rewrite (bind_exec (pb_node p) _ w (Node b None) w) by (unfold pb_node, get, mbind, M_bind; by rewrite Hp).
    unfold lift. cbn [n_val]. rewrite Hb, rd_ok by lia. rewrite <-Hbs. unfold seg_bytes. rewrite slice_slice by lia. do 3 f_equal. lia. }
  split.
  - specialize (Hrd 0 IP6_HLEN). rewrite Z.add_0_r in Hrd. apply Hrd; unfold IP6_HLEN; lia.
  - unfold pread8_at. erewrite bind_exec by (apply Hrd; unfold OFF_NEXTH; lia). unfold mret, M_ret. do 2 f_equal.
    unfold hdr_nexth, hdr. rewrite byte_at_of_slice by (unfold OFF_NEXTH; cbn; lia). unfold byte_at. rewrite !nth_lookup, lookup_take_lt by lia. done.
Qed.

(** Moving on by what the round before used. *)
Lemma waiting_moved off rest poff b : waiting_at off rest poff b ->
  seg_ok (shifted (Z.of_nat poff) b) /\ seg_bytes (shifted (Z.of_nat poff) b) = drop off data /\
  with_window (pb_payload b + Z.of_nat poff) (u16 (pb_tot_len b - Z.of_nat poff)) (u16 (pb_len b - Z.of_nat poff)) b = shifted (Z.of_nat poff) b.
Proof.
  intros [(H1 & H2 & H3 & H4 & H5) Hb Hr Ht Hl Hpos Hsum]. pose proof Hseg as (S1 & S2 & S3 & _).
  assert (Hl0 : Z.of_nat (length bs) = pb_len b0) by (rewrite <-Hbs; by apply seg_bytes_length).
  assert (Hd : length data = (length bs - 40)%nat) by (unfold data; by rewrite length_drop). split_and!.
  - unfold seg_ok, shifted. cbn [pb_payload pb_len pb_tot_len pb_buf with_window]. split_and!; try lia. done.
  - unfold data. rewrite drop_drop. rewrite <-Hbs. unfold seg_bytes, slice, shifted. cbn [pb_payload pb_len pb_buf with_window]. rewrite Hb.
    rewrite skipn_firstn_comm, drop_drop. f_equal; [lia|f_equal; lia].
  - unfold shifted. by rewrite !u16_small by lia.
Qed.
Lemma waiting_next off rest poff b cop : waiting_at off rest poff b -> (cop <= rest)%nat ->
  waiting_at (off + cop) (rest - cop) cop (shifted (Z.of_nat poff) b).
Proof.
  intros Hw Hc. destruct (waiting_moved _ _ _ _ Hw) as (Hok & _ & _). destruct Hw as [_ Hb Hr Ht Hl Hpos Hsum].
  split; try done; unfold shifted; cbn [pb_len pb_tot_len pb_payload with_window]; lia.
Qed.

Lemma hdr_facts : length hdr = 40%nat /\ Forall is_byte hdr.
Proof. split; [unfold hdr; rewrite length_take; lia|]. apply Forall_take. rewrite <-Hbs. by apply seg_bytes_byte. Qed.

(** The first buffer of a fragment, in front of [m]. *)
Record frag_started (q : loc) (m : option loc) (extra : Z) (w : world) (bq : pbuf) (F : list Z) : Prop := {
  st_at : w_pbufs w !! q = Some (Node bq m);
  st_ok : seg_ok bq;
  st_bytes : seg_bytes bq = splice 0 hdr F;
  st_len : pb_len bq = 48 /\ pb_tot_len bq = 48 + extra /\ pb_ref bq = 1 /\ pb_flags bq = 0 /\ length F = 48%nat
}.

Lemma wp_frag_ram b w Q :
  w_pbufs w !! p = Some (Node b None) -> pb_buf b = pb_buf b0 ->
  (env_mem_malloc (w_tick w) = false -> Q None (add_ticks 1 w)) ->
  (forall bq F, let q := new_loc (w_pbufs w) in let w' := put_pbuf q bq (add_ticks 1 w) in
     env_mem_malloc (w_tick w) = true -> frag_started q None 0 w' bq F -> Q (Some q) w') ->
  wp (frag_ram p (pb_payload b0)) w Q.
Proof.
  intros Hp Hb Hno Hyes. destruct hdr_facts as [Hh Hhb]. set (q := new_loc (w_pbufs w)) in *. assert (Hq : w_pbufs w !! q = None) by apply new_loc_fresh.
  assert (Hqp : q <> p) by congruence. unfold frag_ram. apply wp_bind. unfold wp at 1. rewrite pbuf_alloc_ram_eq by (by vm_compute).
  change (ram_fits PBUF_LINK (IP6_HLEN + IP6_FRAG_HLEN)) with true. cbv iota.
  destruct (env_mem_malloc (w_tick w)) eqn:Em; [|by apply wp_ret, Hno]. fold q.
  set (br := ram_pbuf (w_tick w) PBUF_LINK (IP6_HLEN + IP6_FRAG_HLEN)). set (w1 := alloc_world (w_tick w) PBUF_LINK (IP6_HLEN + IP6_FRAG_HLEN) (add_ticks 1 w)).
  assert (Hs1 : single (w_pbufs w1) q br (seg_bytes br)) by (apply (alloc_single (w_tick w) PBUF_LINK _ (add_ticks 1 w)); by vm_compute).
  assert (HF : length (seg_bytes br) = 48%nat) by (pose proof (single_length _ _ _ _ Hs1) as E; change (pb_len br) with 48 in E; lia).
  apply wp_bind. eapply wp_node; [apply Hs1|]. cbn [n_val]. apply wp_bind. change (IP6_HLEN <=? pb_len br) with true. apply wp_ret.
  assert (Hp1 : w_pbufs w1 !! p = Some (Node b None)) by (unfold w1; cbn; by rewrite lookup_insert_ne).
  apply wp_bind. eapply wp_exec; [by apply (original_header w1 b)|]. apply wp_bind.
  destruct (pwrite_exec q br (seg_bytes br) w1 0 hdr Hs1 Hhb ltac:(done) ltac:(rewrite Hh, HF; done)) as (br2 & E & (Hq2 & Hok2 & Ht2 & HG2) & Hr2).
  eapply wp_exec; [exact E|]. apply wp_ret. change (put_pbuf q br2 w1) with (put_pbuf q br2 (put_pbuf q br (add_ticks 1 w))). rewrite put_pbuf_put.
  apply (Hyes br2 (seg_bytes br)); [done|]. destruct Hr2 as [Eb _]. split; [apply lookup_insert_eq|done|exact HG2|]. rewrite Eb. by split_and!.
Qed.

(** Sending: the headers are completed, the fragment written and released. *)
Lemma wp_send_head w cs id q bq F m k bp off cop (last : bool) Q :
  frag_started q m k w bq F -> w_pbufs w !! p = Some (Node bp None) -> pb_buf bp = pb_buf b0 -> 0 <= off < 65536 -> off mod 8 = 0 -> 0 <= cop < 65528 ->
  (forall bq', seg_ok bq' -> seg_bytes bq' = set_hdr IP6_NEXTH_FRAGMENT (cop + IP6_FRAG_HLEN) hdr ++ frag_header (hdr_nexth hdr) id off last ->
     bq' = with_buf (pb_buf bq') bq ->
     wp (in_fr (output_ip6 n q dest);; pbuf_free_f q;; mret tt) (mk_frag (set_pbufs (insert q (Node bq' m)) w) cs id) Q) ->
  wp (send_frag n dest p (pb_payload b0) q off cop last) (mk_frag w cs id) Q.
Proof.
  intros [Hq Hok HG (Hql & Hqt & Hqr & Hqf & HF)] Hp Hb Ho Ho8 Hc HQ. destruct hdr_facts as [Hh Hhb].
  unfold send_frag. apply wp_bind, wp_in_fr. cbn [fr_world customs identification]. eapply wp_exec; [by apply (original_header w bp)|].
  apply wp_bind, wp_get. apply wp_bind, wp_in_fr. cbn [fr_world customs identification].
  assert (Hhead : head_is w q bq m (splice 0 hdr F) w).
  { exists bq. split_and!; [|done|done|split; [by destruct bq|done]]. apply world_eq; try reflexivity. cbn. by rewrite insert_id. }
  eapply wp_fill_frag; [exact Hhead|done|done|done|done|done|done|lia|]. intros w' (bq' & -> & Hok' & HG' & Eb & _). by apply HQ.
Qed.
Lemma wp_send_frag w id q bq F m piece bp off (last : bool) Q :
  frag_started q (Some m) (Z.of_nat (length piece)) w bq F -> w_pbufs w !! m = Some (Node (mirror piece) None) ->
  w_pbufs w !! p = Some (Node bp None) -> pb_buf bp = pb_buf b0 -> pb_ref bp = 2 -> q <> m -> q <> p -> m <> p ->
  Forall is_byte piece -> Z.of_nat (length piece) <= nfb -> 0 <= off < 65536 -> off mod 8 = 0 ->
  (forall es k, sent (fragment hdr id off last piece) es k ->
    Q tt (mk_frag (set_pbufs (delete m) (put_pbuf p (with_ref 1 bp) (del_pbuf q (logged es k w)))) ∅ id)) ->
  wp (send_frag n dest p (pb_payload b0) q off (Z.of_nat (length piece)) last) (mk_frag w (<[m := p]> ∅) id) Q.
Proof.
  intros [Hq Hok HG (Hql & Hqt & Hqr & Hqf & HF)] Hm Hp Hb Hr Hqm Hqp Hmp Hby Hl Ho Ho8 HQ. destruct hdr_facts as [Hh Hhb].
  eapply wp_send_head; [by split|exact Hp|done|done|done|lia|]. intros bq' Hok' HG' Eb.
  assert (Hpk : pkt (w_pbufs (set_pbufs <[q := Node bq' (Some m)]> w)) q [(q, bq'); (m, mirror piece)] (fragment hdr id off last piece)).
  { split_and!.
    - cbn. split; [done|]. exists (Some m). rewrite lookup_insert_eq. split; [done|]. split; [done|]. exists None. by rewrite lookup_insert_ne.
    - cbn. split; [done|]. rewrite Eb. cbn [pb_tot_len pb_len with_buf]. split; [rewrite Hqt, Hql; cbn; lia|]. split; [|split; [cbn; lia|done]].
      unfold seg_ok. cbn. split_and!; (lia || done).
    - unfold flat. cbn. rewrite HG', app_nil_r. unfold seg_bytes, fragment. cbn. rewrite Nat2Z.id, slice_all by done. by rewrite <-app_assoc. }
  apply wp_bind, wp_in_fr. cbn [fr_world customs identification].
  eapply wp_mono; [eapply Hsent; [exact Hpk|rewrite length_fragment by done; lia]|]. intros _ w' (es & k & Hes & ->).
  apply wp_bind. eapply (wp_release _ _ q bq' m (mirror piece) p bp); cbn [w_pbufs logged set_pbufs]; try done.
  - apply lookup_insert_eq.
  - by rewrite Eb.
  - by rewrite Eb.
  - by rewrite lookup_insert_ne.
  - by rewrite lookup_insert_ne.
  - intros _. apply wp_ret. refine (eq_ind _ (Q tt) (HQ es k Hes) _ _). f_equal. apply world_eq; try reflexivity. cbn. by rewrite delete_insert_eq.
Qed.

(** One round: there is no memory for the headers, or the next fragment is sent and nothing else is left of it. *)
Definition piece_of (rest : nat) : nat := if Z.of_nat rest <=? nfb then rest else Z.to_nat nfb.

Lemma round_world w bq bq' m q (b : pbuf) piece es k :
  w_pbufs w !! q = None -> w_pbufs w !! m = None -> q <> p -> m <> p -> q <> m -> pb_ref b = 1 ->
  set_pbufs (delete m) (put_pbuf p (with_ref 1 (with_ref 2 b)) (del_pbuf q (logged es k
    (set_pbufs (insert q (Node bq' (Some m))) (put_pbuf p (with_ref 2 b) (put_pbuf m (mirror piece)
      (put_pbuf p b (put_pbuf q bq (add_ticks 1 w))))))))) = put_pbuf p b (logged es (S k) w).
Proof.
  intros Hq Hm Hqp Hmp Hqm Hr. apply world_eq; try reflexivity; [|cbn; lia]. cbn. replace (with_ref 1 (with_ref 2 b)) with b by (destruct b; cbn in *; by subst).
  apply map_eq. intros l. destruct (decide (l = m)) as [->|]; [by rewrite lookup_delete_eq, lookup_insert_ne|].
  rewrite lookup_delete_ne by done. destruct (decide (l = p)) as [->|]; [by rewrite !lookup_insert_eq|].
  rewrite !(lookup_insert_ne _ p) by done. destruct (decide (l = q)) as [->|]; [by rewrite lookup_delete_eq|].
  by rewrite lookup_delete_ne, !lookup_insert_ne by done.
Qed.
Lemma started_more w w' q bq F m k : frag_started q None 0 w bq F -> 0 <= k <= 65480 ->
  w_pbufs w' !! q = Some (Node (add_tot k bq) (Some m)) -> frag_started q (Some m) k w' (add_tot k bq) F.
Proof.
  intros [_ Hok HG (Hl & Ht & Hr & Hf & HF)] Hk Hq. assert (E : pb_tot_len (add_tot k bq) = 48 + k) by (unfold add_tot; cbn; rewrite u16_small; lia).
  split; [done| |done|by split_and!]. destruct Hok as (? & ? & ? & ? & ?). unfold seg_ok. rewrite E. cbn. split_and!; (done || lia).
Qed.

Lemma wp_round off rest poff b w id Q :
  waiting_at off rest poff b -> w_pbufs w !! p = Some (Node b None) -> (0 < rest)%nat -> 0 < nfb -> Z.of_nat off mod 8 = 0 ->
  (env_mem_malloc (w_tick w) = false -> Q (inr ERR_MEM) (mk_frag (add_ticks 1 w) ∅ id)) ->
  (let cop := piece_of rest in env_mem_malloc (w_tick w) = true ->
   forall es k, sent (fragment hdr id (Z.of_nat off) (Z.of_nat rest <=? nfb) (take cop (drop off data))) es k ->
   Q (inl (p, Z.of_nat (rest - cop), Z.of_nat (off + cop), Z.of_nat cop))
     (mk_frag (put_pbuf p (shifted (Z.of_nat poff) b) (logged es (S k) w)) ∅ id)) ->
  wp (frag_body n dest nfb p (pb_payload b0) (p, Z.of_nat rest, Z.of_nat off, Z.of_nat poff)) (mk_frag w ∅ id) Q.
Proof.
  intros Hw Hp Hrest Hn Ho8 Hno Hyes. unfold frag_body. rewrite (proj2 (Z.eqb_neq _ _)) by lia.
  replace (if Z.of_nat rest <=? nfb then Z.of_nat rest else nfb) with (Z.of_nat (piece_of rest)) by (unfold piece_of; destruct (Z.of_nat rest <=? nfb); lia).
  assert (Hd : length data = (length bs - 40)%nat) by (unfold data; by rewrite length_drop). pose proof (wa_sum _ _ _ _ Hw) as Hsum.
  assert (Hc : (0 < piece_of rest <= rest)%nat /\ Z.of_nat (piece_of rest) <= nfb) by (unfold piece_of; destruct (Z.leb_spec (Z.of_nat rest) nfb); lia).
  revert Hyes Hc. generalize (piece_of rest). intros cop Hyes [Hc Hc2]. cbv zeta in Hyes.
  destruct (waiting_moved _ _ _ _ Hw) as (Hok & Hby & Hwin). assert (Hb : pb_buf b = pb_buf b0) by apply Hw.
  apply wp_bind, wp_in_fr. cbn [fr_world customs identification]. eapply wp_frag_ram; [exact Hp|done|by intros; apply wp_ret, Hno|].
  cbv zeta. intros bq F Hm Hst. set (q := new_loc (w_pbufs w)) in *. assert (Hq : w_pbufs w !! q = None) by apply new_loc_fresh.
  assert (Hqp : q <> p) by congruence. apply wp_bind, wp_in_fr. eapply wp_node; [cbn; by rewrite lookup_insert_ne|].
  cbn [fr_world customs identification n_val n_next]. apply wp_bind, wp_in_fr, wp_modify. unfold upd_pbuf. cbn [n_val n_next]. rewrite Hwin.
  apply wp_bind, wp_get. cbn [fr_world customs identification]. apply wp_bind.
  fold (put_pbuf p (shifted (Z.of_nat poff) b) (put_pbuf q bq (add_ticks 1 w))).
  set (w2 := put_pbuf p (shifted (Z.of_nat poff) b) (put_pbuf q bq (add_ticks 1 w))).
  set (bm := shifted (Z.of_nat poff) b) in *. assert (Hbr : pb_ref bm = 1) by apply Hw.
  assert (Hq2 : w_pbufs w2 !! q = Some (Node bq None)) by (cbn; by rewrite lookup_insert_ne, lookup_insert_eq).
  assert (Hs2 : single (w_pbufs w2) p bm (drop off data)).
  { split_and!; try done; [cbn; apply lookup_insert_eq|]. unfold bm, shifted. cbn. by rewrite (wa_tot _ _ _ _ Hw). }
  destruct (st_len _ _ _ _ _ _ Hst) as (Hql & Hqt & _).
  eapply (wp_mirror w2 ∅ id q bq p bm (drop off data) cop); try done; [lia|rewrite length_drop; lia|rewrite map_size_empty; unfold MEMP_NUM_FRAG_PBUF; lia|]. cbv zeta.
  set (m := new_loc (w_pbufs w2)). assert (Hm2 : w_pbufs w2 !! m = None) by apply new_loc_fresh.
  assert (Hmq : m <> q) by congruence. assert (Hmp : m <> p) by (destruct Hs2 as [? _]; congruence).
  set (piece := take cop (drop off data)) in *. assert (Hlp : length piece = cop) by (unfold piece; rewrite length_take, length_drop; lia).
  apply wp_bind. replace (Z.of_nat cop) with (Z.of_nat (length piece)) by (by rewrite Hlp).
  eapply (wp_send_frag _ _ q _ F m piece (with_ref 2 bm)); try done; cbn [w_pbufs put_pbuf set_pbufs].
  - eapply started_more; [exact Hst|lia|]. apply lookup_insert_eq.
  - by rewrite lookup_insert_ne, lookup_insert_ne, lookup_insert_eq.
  - by rewrite lookup_insert_ne, lookup_insert_eq.
  - unfold piece. rewrite <-Hby. by apply Forall_take, seg_bytes_byte.
  - lia.
  - lia.
  - assert (Hm0 : w_pbufs w !! m = None) by (cbn in Hm2; by rewrite !lookup_insert_ne in Hm2).
    intros es k Hes. unfold w2. rewrite round_world by done.
    apply wp_ret. rewrite !u16_small by lia. rewrite Hlp, <-Nat2Z.inj_sub, <-Nat2Z.inj_add by lia. by apply (Hyes Hm es k).
Qed.

(** Sending fragments from the clock [t] on: [es] and [k] are what is sent and how far the clock
    goes; a failed allocation ends the sending. *)
Inductive sending : nat -> list (list Z) -> list event -> nat -> bool -> Prop :=
| sending_done t : sending t [] [] 0 true
| sending_stops t f fs : env_mem_malloc t = false -> sending t (f :: fs) [] 1 false
| sending_more t f fs es k es' k' all : env_mem_malloc t = true -> sent f es k -> sending (S k + t) fs es' k' all ->
    sending t (f :: fs) (es ++ es') (k' + S k) all.

(** How the sending of [fs] ends. *)
Definition sending_ends (w : world) (id : Z) (fs : list (list Z)) (r : err_t) (s : frag_world) : Prop :=
  exists b es k (all : bool), sending (w_tick w) fs es k all /\ r = (if all then ERR_OK else ERR_MEM) /\
  seg_ok b /\ pb_ref b = 1 /\ pb_tot_len b = pb_len b /\ s = mk_frag (put_pbuf p b (logged es k w)) ∅ id.

Lemma ends_more w id f fs b es k r s : env_mem_malloc (w_tick w) = true -> sent f es k ->
  sending_ends (put_pbuf p b (logged es (S k) w)) id fs r s -> sending_ends w id (f :: fs) r s.
Proof.
  intros Hm Hf (b' & es' & k' & all & Hs & Hr & Hok & Href & Ht & ->). exists b', (es ++ es'), (k' + S k)%nat, all. split_and!; try done.
  - by eapply sending_more.
  - f_equal. rewrite <-logged_logged. apply world_eq; try reflexivity. cbn. by rewrite insert_insert_eq.
Qed.

Lemma wp_rounds id fuel : forall off rest poff b w,
  waiting_at off rest poff b -> w_pbufs w !! p = Some (Node b None) -> 0 < nfb -> Z.of_nat off mod 8 = 0 \/ rest = O -> (rest < fuel)%nat ->
  wp (loop fuel (frag_body n dest nfb p (pb_payload b0)) (p, Z.of_nat rest, Z.of_nat off, Z.of_nat poff)) (mk_frag w ∅ id)
     (sending_ends w id (frags_from fuel hdr id nfb (Z.of_nat off) (drop off data))).
Proof.
  induction fuel as [|fuel IH]; intros off rest poff b w Hw Hp Hn Ho8 Hf; [lia|].
  pose proof (wa_sum _ _ _ _ Hw) as Hsum. assert (Hld : length (drop off data) = rest) by (rewrite length_drop; lia).
  cbn [loop]. apply wp_bind. destruct (decide (rest = O)) as [->|Hr].
  { apply nil_length_inv in Hld. rewrite Hld. cbn [frags_from]. unfold frag_body. apply wp_ret, wp_ret. exists b.
    exists [], 0%nat, true. split_and!; try apply Hw; try done; [constructor|]. f_equal. apply world_eq; try reflexivity; cbn; [by rewrite insert_id|by rewrite app_nil_r]. }
  destruct Ho8 as [Ho8|]; [|done]. eapply wp_round; [exact Hw|exact Hp|lia|exact Hn|exact Ho8|..].
  - intros Hm. apply wp_ret. rewrite frags_step by (done || (intros E; rewrite E in Hld; cbn in Hld; lia)). exists b.
    exists [], 1%nat, false. split_and!; try apply Hw; try done; [by constructor|]. f_equal.
    apply world_eq; try reflexivity; cbn; [by rewrite insert_id|by rewrite app_nil_r].
  - intros cop Hm es k Hes. assert (Hc : (cop <= rest)%nat) by (unfold cop, piece_of; destruct (Z.leb_spec (Z.of_nat rest) nfb); lia).
    eapply wp_mono; [apply (IH _ _ _ _ _ (waiting_next _ _ _ _ cop Hw Hc)); [apply lookup_insert_eq|done| |unfold cop, piece_of; case_match; lia]|].
    + unfold cop, piece_of. destruct (Z.leb_spec (Z.of_nat rest) nfb); [right; lia|left]. rewrite Nat2Z.inj_add, Z2Nat.id by lia. zlia.
    + intros r s Hend. rewrite frags_step by (done || (intros E; rewrite E in Hld; cbn in Hld; lia)). rewrite Hld. fold (piece_of rest). fold cop.
      eapply ends_more; [done|exact Hes|]. rewrite drop_drop, <-Nat2Z.inj_add. exact Hend.
Qed.

(** *** No room for data *)

(** With no room for data every round sends the same empty fragment. *)
Lemma wp_send_empty w id q bq F bp off Q :
  frag_started q None 0 w bq F -> w_pbufs w !! p = Some (Node bp None) -> pb_buf bp = pb_buf b0 -> q <> p -> 0 <= off < 65536 -> off mod 8 = 0 ->
  (forall es k, sent (fragment hdr id off false []) es k -> Q tt (mk_frag (del_pbuf q (logged es k w)) ∅ id)) ->
  wp (send_frag n dest p (pb_payload b0) q off 0 false) (mk_frag w ∅ id) Q.
Proof.
  intros [Hq Hok HG (Hql & Hqt & Hqr & Hqf & HF)] Hp Hb Hqp Ho Ho8 HQ. destruct hdr_facts as [Hh Hhb].
  eapply wp_send_head; [by split|exact Hp|done|done|done|lia|]. intros bq' Hok' HG' Eb.
  assert (Hs : single (w_pbufs (set_pbufs <[q := Node bq' None]> w)) q bq' (fragment hdr id off false [])).
  { split_and!; [apply lookup_insert_eq|done|rewrite Eb; cbn; lia|]. rewrite HG'. unfold fragment. by rewrite app_nil_r. }
  apply wp_bind, wp_in_fr. cbn [fr_world customs identification].
  eapply wp_mono; [eapply Hsent; [by apply single_pkt|rewrite length_fragment by done; cbn; lia]|]. intros _ w' (es & k & Hes & ->).
  apply wp_bind. unfold pbuf_free_f. apply wp_bind, wp_get. cbn [fr_world Nat.add pbuf_free_custom].
  apply wp_bind, wp_in_fr. eapply wp_node; [apply Hs|]. cbn [n_val n_next fr_world customs identification].
  replace (pb_ref bq') with 1 by (by rewrite Eb). replace (pb_flags bq') with 0 by (by rewrite Eb). cbn [Z.ltb Z.compare].
  change (u8 (1 - 1) =? 0) with true. cbv iota. change (has_flag 0 PBUF_FLAG_IS_CUSTOM) with false. cbv iota. apply wp_bind, wp_ret.
  apply wp_bind, wp_in_fr, wp_modify. cbn [fr_world customs identification]. apply wp_ret. apply wp_ret.
  refine (eq_ind _ (Q tt) (HQ es k Hes) _ _). f_equal. apply world_eq; try reflexivity. cbn. by rewrite delete_insert_eq.
Qed.

Lemma wp_empty_round off rest poff b w id Q :
  waiting_at off rest poff b -> w_pbufs w !! p = Some (Node b None) -> (0 < rest)%nat -> nfb = 0 -> Z.of_nat off mod 8 = 0 ->
  env_mem_malloc (w_tick w) = true ->
  (forall es k, Q (inl (p, Z.of_nat rest, Z.of_nat off, 0)) (mk_frag (put_pbuf p (shifted (Z.of_nat poff) b) (logged es (S k) w)) ∅ id)) ->
  wp (frag_body n dest nfb p (pb_payload b0) (p, Z.of_nat rest, Z.of_nat off, Z.of_nat poff)) (mk_frag w ∅ id) Q.
Proof.
  intros Hw Hp Hrest Hn Ho8 Hmem HQ. unfold frag_body. rewrite (proj2 (Z.eqb_neq _ _)) by lia. rewrite Hn, (proj2 (Z.leb_gt _ _)) by lia.
  assert (Hd : length data = (length bs - 40)%nat) by (unfold data; by rewrite length_drop). pose proof (wa_sum _ _ _ _ Hw) as Hsum.
  destruct (waiting_moved _ _ _ _ Hw) as (_ & _ & Hwin). assert (Hb : pb_buf b = pb_buf b0) by apply Hw.
  apply wp_bind, wp_in_fr. cbn [fr_world customs identification]. eapply wp_frag_ram; [exact Hp|done|by rewrite Hmem|].
  cbv zeta. intros bq F _ Hst. set (q := new_loc (w_pbufs w)) in *. assert (Hq : w_pbufs w !! q = None) by apply new_loc_fresh.
  assert (Hqp : q <> p) by congruence. apply wp_bind, wp_in_fr. eapply wp_node; [cbn; by rewrite lookup_insert_ne|].
  cbn [fr_world customs identification n_val n_next]. apply wp_bind, wp_in_fr, wp_modify. unfold upd_pbuf. cbn [n_val n_next]. rewrite Hwin.
  apply wp_bind, wp_get. cbn [fr_world customs identification]. apply wp_bind. cbn [Nat.add loop]. apply wp_bind. apply wp_ret, wp_ret.
  apply wp_bind. destruct Hst as [Hsq Hsok HsG Hsl]. eapply (wp_send_empty _ _ q bq F (shifted (Z.of_nat poff) b)); [split; try done| |done|done|lia|done|].
  - cbn. by rewrite lookup_insert_ne, lookup_insert_eq.
  - apply lookup_insert_eq.
  - intros es k _. apply wp_ret. rewrite Z.sub_0_r, Z.add_0_r, !u16_small by lia. refine (eq_ind _ (Q _) (HQ es k) _ _). f_equal. apply world_eq; try reflexivity; [|cbn; lia]. cbn.
    by rewrite delete_insert_ne, delete_insert_id by done.
Qed.

Lemma empty_rounds id fuel : forall rest poff b w,
  waiting_at 0 rest poff b -> w_pbufs w !! p = Some (Node b None) -> (0 < rest)%nat -> nfb = 0 -> (forall t, env_mem_malloc t = true) ->
  loop fuel (frag_body n dest nfb p (pb_payload b0)) (p, Z.of_nat rest, 0, Z.of_nat poff) (mk_frag w ∅ id) = Hang.
Proof.
  induction fuel as [|fuel IH]; intros rest poff b w Hw Hp Hr Hn Hm; [done|].
  set (Q := fun (r : loc * Z * Z * Z + err_t) s' => r = inl (p, Z.of_nat rest, 0, 0) /\ exists w', s' = mk_frag w' ∅ id /\ w_pbufs w' !! p = Some (Node (shifted (Z.of_nat poff) b) None)).
  assert (H1 : wp (frag_body n dest nfb p (pb_payload b0) (p, Z.of_nat rest, Z.of_nat 0, Z.of_nat poff)) (mk_frag w ∅ id) Q).
  { eapply wp_empty_round; [exact Hw|exact Hp|done|done|done|apply Hm|]. intros es k. split; [done|]. eexists. split; [done|]. apply lookup_insert_eq. }
  unfold wp in H1. change (Z.of_nat 0) with 0 in H1. rewrite loop_S. destruct (frag_body _ _ _ _ _ _ _) as [[r s']| |] eqn:E; [|done|done].
  rewrite (bind_exec _ _ _ _ _ E). destruct H1 as (-> & w' & -> & Hp'). change 0 with (Z.of_nat 0) at 2.
  apply (IH rest 0%nat (shifted (Z.of_nat poff) b)); [|done..]. pose proof (waiting_next _ _ _ _ 0 Hw ltac:(lia)) as Hw'. by rewrite Nat.add_0_r, Nat.sub_0_r in Hw'.
Qed.
End sending.

(** ** What [ip6_frag] does *)

Definition frag_data (mtu : Z) : Z := 8 * ((mtu - 48) / 8).
Lemma frag_data_code mtu : 48 <= mtu < 65536 -> u16 (Z.land (mtu - (IP6_HLEN + IP6_FRAG_HLEN)) IP6_FRAG_OFFSET_MASK) = frag_data mtu.
Proof. intros Hm. change (IP6_HLEN + IP6_FRAG_HLEN) with 48. rewrite land_offset by lia. unfold frag_data. rewrite u16_small; [done|zlia]. Qed.

Lemma wp_ip6_frag `{Env} `{LowerLayers} n dest limit sent p b bs mtu w0 w id :
  (forall w q ls f, pkt (w_pbufs w) q ls f -> Z.of_nat (length f) <= limit ->
     wp (output_ip6 n q dest) w (fun _ w' => exists es k, sent f es k /\ w' = logged es k w)) ->
  Ip6Out.nd6_get_destination_mtu dest n w0 = Ret (mtu, w) -> 56 <= mtu < 65536 -> mtu <= limit ->
  owned w p b bs -> (40 <= length bs)%nat ->
  wp (ip6_frag p n dest) (mk_frag w0 ∅ id) (sending_ends sent p w (u32 (id + 1)) (fragments (u32 (id + 1)) (frag_data mtu) bs)).
Proof.
  intros Hsent Hmtu Hm Hlim [Hs Hr] Hlen. pose proof (single_length _ _ _ _ Hs) as Hl. destruct Hs as (Hp & Hok & Ht & Hbs).
  assert (Hmax : Z.of_nat (length bs) < 65536) by (destruct Hok as (_ & _ & _ & ? & _); lia).
  assert (Hd : 0 < frag_data mtu <= 65480 /\ frag_data mtu <= mtu - 48 /\ frag_data mtu mod 8 = 0) by (unfold frag_data; zlia). destruct Hd as (Hd0 & Hdm & Hd8).
  unfold ip6_frag, ip6_frag_with. apply wp_bind, wp_in_fr. eapply wp_exec; [apply Hmtu|]. rewrite frag_data_code by lia. cbn [fr_world customs identification].
  apply wp_bind, wp_modify. cbn [fr_world customs identification]. apply wp_bind, wp_in_fr. eapply wp_node; [exact Hp|].
  cbn [fr_world customs identification n_val]. apply wp_bind. rewrite (proj2 (Z.leb_le _ _)) by (unfold IP6_HLEN; lia). apply wp_ret.
  set (k := (length bs - 40)%nat). replace (u16 (pb_tot_len b - IP6_HLEN)) with (Z.of_nat k) by (unfold IP6_HLEN; rewrite u16_small; lia).
  assert (Hdl : length (drop 40 bs) = k) by (by rewrite length_drop).
  eapply wp_mono; [apply (wp_rounds n dest limit sent Hsent p b bs (frag_data mtu) Hok Hbs Hlen Hmax ltac:(lia) Hd8 (u32 (id + 1)) _ 0 k 40 b); [|done|lia|by left|lia]|].
  - split; try done; rewrite ?Hdl; unfold k; lia.
  - intros r s Hend. unfold fragments. by rewrite drop_0, (frags_fuel _ _ _ _ (length bs)) in Hend by lia.
Qed.

(** *** On the TUN interface *)

Definition frag_on_tun (fd : Z) (f : list Z) (es : list event) (k : nat) : Prop := es = [EvTunWrite fd f] /\ k = 1%nat.
Lemma wp_on_tun `{Env} `{LowerLayers} n fd dest w q ls f :
  (forall n p d, output_ip6 n p d = tunif_ip6_output (Some n) (Some p) d) -> (forall t k, env_write t k = Written k) -> nif_state n = Some fd ->
  pkt (w_pbufs w) q ls f -> Z.of_nat (length f) <= PACKET_BUF_SIZE ->
  wp (output_ip6 n q dest) w (fun _ w' => exists es k, frag_on_tun fd f es k /\ w' = logged es k w).
Proof. intros Hout Hwrite Hfd Hpk Hl. rewrite Hout. eapply tun_writes_pkt; [done..|]. by exists [EvTunWrite fd f], 1%nat. Qed.

(** The fragments for which there is memory, from the clock [t] on. *)
Fixpoint affordable `{Env} (t : nat) (fs : list (list Z)) : list (list Z) :=
  match fs with
  | [] => []
  | f :: fs => if env_mem_malloc t then f :: affordable (2 + t) fs else []
  end.
Lemma sending_on_tun `{Env} fd t fs es k all : sending (frag_on_tun fd) t fs es k all ->
  es = EvTunWrite fd <$> affordable t fs /\ all = bool_decide (affordable t fs = fs).
Proof.
  induction 1 as [t|t f fs Hm|t f fs es k es' k' all Hm [-> ->] _ [-> ->]]; [done|cbn; by rewrite Hm|].
  cbn [affordable]. rewrite Hm. split; [done|]. apply bool_decide_ext. change (1 + 1 + t)%nat with (2 + t)%nat. split; congruence.
Qed.

(** C34: A packet that is larger than the path MTU leaves the node as its fragments, in order
    and each within the MTU, which RFC 8200's reassembly puts together to the packet again:
    all of them and [ERR_OK], or those before the first one there is no memory for and
    [ERR_MEM].  The packet keeps its one reference, and no buffer is left behind. *)
Theorem fragments_sent `{Env} `{LowerLayers} n fd dest p b bs mtu w id :
  (forall n p d, output_ip6 n p d = tunif_ip6_output (Some n) (Some p) d) -> (forall t k, env_write t k = Written k) -> nif_state n = Some fd ->
  (forall w, Ip6Out.nd6_get_destination_mtu dest n w = Ret (mtu, w)) -> 56 <= mtu <= PACKET_BUF_SIZE ->
  owned w p b bs -> ip6_packet bs -> (40 < length bs)%nat ->
  wp (ip6_frag p n dest) (mk_frag w ∅ id) (fun r s =>
    let fs := fragments (u32 (id + 1)) (frag_data mtu) bs in
    let out := affordable (w_tick w) fs in
    r = (if bool_decide (out = fs) then ERR_OK else ERR_MEM) /\
    (exists b' k, s = mk_frag (put_pbuf p b' (logged (EvTunWrite fd <$> out) k w)) ∅ (u32 (id + 1)) /\
                  seg_ok b' /\ pb_tot_len b' = pb_len b' /\ pb_ref b' = 1) /\
    Forall (fun f => Z.of_nat (length f) <= mtu) fs /\ reassemble fs = Some bs).
Proof.
  intros Hout Hwrite Hfd Hmtu Hm Ho Hpk Hlen. change PACKET_BUF_SIZE with 2048 in Hm. assert (Hmax : Z.of_nat (length bs) < 65536) by (destruct Ho as [Hs _]; pose proof (single_length _ _ _ _ Hs); destruct Hs as (_ & (_ & _ & _ & ? & _) & ? & _); lia).
  assert (Hd : 0 < frag_data mtu /\ frag_data mtu + 48 <= mtu /\ frag_data mtu mod 8 = 0) by (unfold frag_data; zlia).
  eapply wp_mono; [eapply (wp_ip6_frag n dest PACKET_BUF_SIZE (frag_on_tun fd)); [intros; by eapply wp_on_tun|apply Hmtu|lia|change PACKET_BUF_SIZE with 2048; lia|exact Ho|lia]|].
  intros r s (b' & es & k & all & Hs & Hr & Hok & Href & Ht & ->). destruct (sending_on_tun _ _ _ _ _ _ Hs) as [-> ->]. cbv zeta. split_and!; [done|by exists b', k| |].
  - eapply Forall_impl; [apply frags_small; [rewrite length_take; lia|lia]|]. cbn beta. lia.
  - apply reassemble_fragments; (done || lia).
Qed.

(** With a path MTU from 48 to 55 there is no room for data in a fragment, and
    [ip6_frag] does not end: it sends empty fragments for as long as there is memory.
    Nothing keeps such an MTU out: see [too_big_believed]. *)
Theorem tiny_mtu_never_ends `{Env} `{LowerLayers} n fd dest p b bs mtu w id fuel :
  (forall n p d, output_ip6 n p d = tunif_ip6_output (Some n) (Some p) d) -> (forall t k, env_write t k = Written k) -> nif_state n = Some fd ->
  (forall w, Ip6Out.nd6_get_destination_mtu dest n w = Ret (mtu, w)) -> 48 <= mtu < 56 -> (forall t, env_mem_malloc t = true) ->
  owned w p b bs -> (40 < length bs)%nat ->
  ip6_frag_with fuel p n dest (mk_frag w ∅ id) = Hang.
Proof.
  intros Hout Hwrite Hfd Hmtu Hm Hmem [Hs Hr] Hlen. pose proof (single_length _ _ _ _ Hs) as Hl. destruct Hs as (Hp & Hok & Ht & Hbs).
  assert (Hmax : Z.of_nat (length bs) < 65536) by (destruct Hok as (_ & _ & _ & ? & _); lia).
  assert (Hd : frag_data mtu = 0) by (unfold frag_data; zlia). assert (Hdl : length (drop 40 bs) = (length bs - 40)%nat) by apply length_drop.
  unfold ip6_frag_with. erewrite bind_exec by (unfold in_fr; cbn [fr_world]; by rewrite Hmtu). rewrite frag_data_code, Hd by lia.
  erewrite bind_exec by reflexivity. erewrite bind_exec by (unfold in_fr, pb_node, get, mbind, M_bind; cbn [fr_world]; by rewrite Hp).
  cbn [n_val fr_world customs identification]. rewrite (proj2 (Z.leb_le _ _)) by (unfold IP6_HLEN; lia). erewrite bind_exec by reflexivity.
  replace (u16 (pb_tot_len b - IP6_HLEN)) with (Z.of_nat (length bs - 40)) by (unfold IP6_HLEN; rewrite u16_small; lia).
  apply (empty_rounds n dest PACKET_BUF_SIZE (frag_on_tun fd) (fun _ _ _ _ => wp_on_tun _ _ _ _ _ _ _ Hout Hwrite Hfd) p b bs 0 Hok Hbs ltac:(lia) Hmax ltac:(by vm_compute) _ fuel _ 40 b); try done; [|lia].
  split; try done; rewrite ?Hdl; lia.
Qed.

(** *** The contract with the IPv6 output *)

(** The layers below with this fragmentation; [id] is the identification so far. *)
Definition frag_layers `{Env} `{LowerLayers} (id : Z) : LowerLayers := {|
  output_ip6 := output_ip6;
  Ip6Out.ip6_frag := fun p n d w =>
    match ip6_frag p n d (mk_frag w ∅ id) with Ret (r, s) => Ret (r, fr_world s) | Stuck => Stuck | Hang => Hang end;
  Ip6Out.nd6_find_route := Ip6Out.nd6_find_route;
  Ip6Out.nd6_get_destination_mtu := Ip6Out.nd6_get_destination_mtu;
  Ip6Out.nd6_input := Ip6Out.nd6_input;
  Ip6Out.mld6_input := Ip6Out.mld6_input;
  Ip6Out.mld6_lookfor_group := Ip6Out.mld6_lookfor_group
|}.

(** C35: With path MTUs of 56 and more [ip6_frag] keeps the law that the theorems on ip6.c ask of
    it, in every environment and on every interface. *)
Theorem frag_layers_ok `{Env} `{LowerLayersOk} id :
  (forall d n w, wp (Ip6Out.nd6_get_destination_mtu d n) w (fun mtu _ => 56 <= mtu < 65536)) -> @LowerLayersOk (frag_layers id).
Proof.
  intros Hmtu. split; cbn; [apply output_ok| |apply find_route_ok|apply mtu_ok|apply group_ok|apply nd6_input_ok|apply mld6_input_ok].
  intros w n p b bs d [Hs Hr] Hlen. pose proof (Hmtu d n w) as Hm. pose proof (mtu_ok w d n) as Hw. unfold wp in Hm, Hw.
  destruct (Ip6Out.nd6_get_destination_mtu d n w) as [[mtu w1]| |] eqn:E; [|done|done]. pose proof (at_sends _ _ _ _ _ _ (at_start _ _ _ _ Hs) Hw) as Hat.
  assert (Hfrag : wp (ip6_frag p n d) (mk_frag w ∅ id) (sending_ends (fun _ _ _ => True) p w1 (u32 (id + 1)) (fragments (u32 (id + 1)) (frag_data mtu) bs))).
  { eapply (wp_ip6_frag n d 65535); [|exact E|lia|lia|split; [by eapply at_single|exact Hr]|done].
    intros w2 q ls f Hpk _. eapply wp_mono; [by eapply output_ok|]. intros _ w3 (es & k & ->). by exists es, k. }
  unfold wp in *. destruct (ip6_frag p n d (mk_frag w ∅ id)) as [[r s]| |]; [|done|done].
  destruct Hfrag as (b' & es & k & all & _ & _ & Hok & Href & Ht & ->). exists b', (seg_bytes b'). split; [|done]. eapply at_trans; [exact Hat|].
  split; [by exists es, k|]. cbn. split_and!; [apply lookup_insert_eq|done|done|done].
Qed.

(** ** The MTU that a Packet Too Big message reports *)

Lemma index_of_alter {A} (f : A -> bool) (g : A -> A) l : forall i, (forall x, f (g x) = f x) -> index_of f (alter g i l) = index_of f l.
Proof.
  unfold index_of. induction l as [|x l IH]; intros i Hg; [done|]. destruct i as [|i]; cbn.
  - destruct (decide (f x = true)) as [E|E]; [by rewrite decide_True by (by rewrite Hg)|by rewrite decide_False by (by rewrite Hg)].
  - destruct (decide (f x = true)); [done|]. specialize (IH i Hg). change (list_alter g i l) with (alter g i l).
    destruct (list_find _ (alter g i l)) as [[? ?]|], (list_find _ l) as [[? ?]|]; cbn in *; congruence.
Qed.

(** The path MTU of a destination in the cache is then what the message says, however small. *)
Theorem too_big_believed p b bs k x i s :
  owned (host s) p b bs -> (48 <= length bs)%nat -> find_nd k (nd_netifs s) = Some x ->
  let dest := ip6_addr_assign_zone (ip6_of_bytes (slice 32 16 bs)) IP6_UNKNOWN (ndn x) in
  let v := lwip_htonl (le_val (slice 4 4 bs)) in
  nd6_find_destination_cache_entry (nds s) dest = Some i -> 0 < v < 65536 ->
  wp (nd6_input_ptb p k) s (fun _ s' => forall n, Nd6.nd6_get_destination_mtu (nds s') dest n = v).
Proof.
  intros [Hs Hr] Hl Hx dest v Hi Hv. pose proof (single_length _ _ _ _ Hs) as Hlen. unfold nd6_input_ptb.
  apply wp_bind, wp_in_node. eapply wp_node; [apply Hs|]. cbn [n_val]. rewrite (proj2 (Z.ltb_ge _ _)) by (unfold ICMP6_HLEN, IP6_HLEN; lia).
  rewrite put_host_id. apply wp_bind. unfold netif_at. apply wp_bind, wp_get. eapply wp_lift; [by rewrite Hx|].
  apply wp_bind. unfold packed_addr. apply wp_bind, wp_in_node. eapply wp_exec; [eapply pread_exec; [exact Hs|unfold ICMP6_HLEN, OFF_DEST; lia..]|].
  rewrite put_host_id. apply wp_ret. change (slice (Z.to_nat (ICMP6_HLEN + OFF_DEST)) (Z.to_nat 16) bs) with (slice 32 16 bs). fold dest.
  apply wp_bind. eapply wp_exec; [reflexivity|]. rewrite Hi. apply wp_bind, wp_in_node.
  eapply wp_exec; [eapply pread_exec; [exact Hs|lia..]|]. rewrite put_host_id. change (slice (Z.to_nat 4) (Z.to_nat 4) bs) with (slice 4 4 bs). fold v.
  pose proof (index_of_spec (fun e => ip6_addr_cmp dest (destination_addr e)) (destination_cache (nds s))) as Hsp.
  pose proof Hi as Hi'. unfold nd6_find_destination_cache_entry in Hi. rewrite Hi in Hsp. destruct Hsp as (e & He & _).
  unfold upd_destination, destination. apply wp_bind. apply wp_bind. eapply wp_exec; [reflexivity|]. eapply wp_lift; [by rewrite He|].
  apply wp_modify. intros n. unfold Nd6.nd6_get_destination_mtu, nd6_find_destination_cache_entry. cbn [nds with_destinations destination_cache].
  rewrite index_of_alter by done. rewrite Hi, list_lookup_alter_eq, He. cbn [fmap option_fmap option_map pmtu].
  rewrite Z.min_l, u16_small by lia. by rewrite (proj2 (Z.ltb_lt _ _)) by lia.
Qed.

(** *** Concrete runs *)

(** A node that knows [mtu] as the path MTU to the sender of [ping]. *)
Definition narrow (mtu : Z) : nd_state :=
  with_destinations (mk_destination ping_src ping_src mtu 0 0 :: drop 1 (destination_cache nd_start)) nd_start.
Definition narrow_layers (mtu : Z) : LowerLayers := @nd_layers (@tun_layers calm_env) (narrow mtu).

Lemma fragments_sent_witness :
  wp (@ip6_frag calm_env (narrow_layers 60) 1%positive (tun_configured 3) ping_src) (mk_frag (tun_world ping) ∅ 6) (fun r s =>
    r = ERR_OK /\ w_trace (fr_world s) = w_trace (tun_world ping) ++
      [EvTunWrite 3 (fragment (take 40 ping) 7 0 false (slice 40 8 ping)); EvTunWrite 3 (fragment (take 40 ping) 7 8 true (drop 48 ping))]).
Proof.
  eapply wp_mono.
  - refine (@fragments_sent calm_env (narrow_layers 60) (tun_configured 3) 3 ping_src 1%positive (tun_pbuf ping) ping 60 (tun_world ping) 6 _ _ _ _ _ _ _ _).
    + reflexivity.
    + reflexivity.
    + reflexivity.
    + reflexivity.
    + split; discriminate.
    + apply tun_owned; [decided|by vm_compute].
    + split_and!; [vm_compute; lia|by vm_compute|decided].
    + vm_compute. lia.
  - cbn beta zeta. intros r s (Hr & (b & k & -> & _) & _). split; [rewrite Hr|]; by vm_compute.
Defined.
Lemma tiny_mtu_never_ends_witness :
  @ip6_frag calm_env (narrow_layers 50) 1%positive (tun_configured 3) ping_src (mk_frag (tun_world ping) ∅ 6) = Hang.
Proof.
  refine (@tiny_mtu_never_ends calm_env (narrow_layers 50) (tun_configured 3) 3 ping_src 1%positive (tun_pbuf ping) ping 50 (tun_world ping) 6 _ _ _ _ _ _ _ _ _).
  - reflexivity.
  - reflexivity.
  - reflexivity.
  - reflexivity.
  - split; [discriminate|reflexivity].
  - reflexivity.
  - apply tun_owned; [decided|by vm_compute].
  - vm_compute. lia.
Defined.

(** The TUN interface with a path MTU of 1280 everywhere. *)
Definition wide_layers `{Env} : LowerLayers := {|
  output_ip6 := fun n p d => tunif_ip6_output (Some n) (Some p) d;
  Ip6Out.ip6_frag := fun _ _ _ => mret ERR_VAL;
  Ip6Out.nd6_find_route := fun _ => mret None;
  Ip6Out.nd6_get_destination_mtu := fun _ _ => mret IP6_MIN_MTU_LENGTH;
  Ip6Out.nd6_input := fun p _ => pbuf_free_m p;; mret tt;
  Ip6Out.mld6_input := fun p _ => pbuf_free_m p;; mret tt;
  Ip6Out.mld6_lookfor_group := fun _ _ => mret false
|}.
Lemma wide_layers_ok `{Env} : @LowerLayersOk wide_layers.
Proof. destruct tun_layers_ok as [H1 H2 H3 H4 H5 H6 H7]. split; [exact H1|exact H2|exact H3| |exact H5|exact H6|exact H7]. intros w d n. by apply wp_ret. Qed.

Lemma frag_layers_ok_witness : @LowerLayersOk (@frag_layers calm_env (@wide_layers calm_env) 6).
Proof. apply (@frag_layers_ok calm_env (@wide_layers calm_env) (@wide_layers_ok calm_env) 6). intros d n w. apply wp_ret. split; [discriminate|reflexivity]. Defined.
