(* ===== verification/Traffic.v ===== *)
(** * The main loop under traffic

    The packets the node copes with, and that it does: whatever sequence of
    them the TUN device delivers, every round of the main loop returns and
    leaves the three components well-formed and the timers pending.  The proof
    puts together the TUN driver, the controller on each of its branches, the
    storage, the routing decision, the reports, lwIP's input path and its
    timers. *)

From Stdlib Require Import Sorted.
From S2P Require Import Prelude LinkedList Ip6Addr RouteTable World Netif Pbuf Ip6Hdr Custody Buffer Storage StorageSpec Routing RoutingSpec InetChksum RawSocket Ip6Out Icmp6 Ip6In Ip6Spec Tracking DtnIcmp Controller ControllerSpec Offer Timeouts Main Setup Stack.

(** ** The packets *)

(** A packet that no defect of the code turns into a hang or an access outside
    a buffer: a sound length, a custodian walk that ends, at most one custody
    header in front, and a quoted packet that can be compared with the stored
    ones.  For the last there are two regimes.  In one ([short = true]) the
    reports may quote packets with a custody header, as those of the neighbours
    do, and what is to be stored is below 280 bytes: the code compares 240 bytes
    from the report, which has not that many.  In the other packets have any
    length and the reports quote packets without the header. *)
Definition fit (short : bool) (data : list Z) : Prop :=
  hdr_nexth data <> 0 /\ (short = true -> Z.of_nat (length data) < 280).

Record admissible (short : bool) (bs : list Z) : Prop := {
  ad_len : (48 <= length bs <= 1534)%nat;
  ad_version : hdr_version bs = 6;
  ad_packet : ip6_packet bs;
  ad_custodian : exists c, custodian_in bs = Ret c;
  ad_custody : hdr_nexth bs = 0 -> exists c0 inner, bs = with_hbh c0 inner /\ ip6_packet inner;
  ad_stored : is_local (hdr_dest bs) = false -> sendable (stripped bs) /\ fit short (stripped bs);
  ad_report : hdr_nexth bs = IP6_NEXTH_ICMP6 ->
    ICMP6_TYPE_DTN_PCK_RECEIVED <= byte_at 40 bs <= ICMP6_TYPE_DTN_PCK_DELETED ->
    (105 <= length bs)%nat /\
    (hdr_nexth (quoted_packet (drop 40 bs)) <> 0 \/ short = true /\ byte_at 41 (quoted_packet (drop 40 bs)) = 2)
}.

(** What is not IPv6 is dropped. *)
Definition coped (short : bool) (bs : list Z) : Prop :=
  (length bs <= 1534)%nat /\ ((length bs < 40)%nat \/ hdr_version bs <> 6 \/ admissible short bs).

Lemma admissible_storable short bs : admissible short bs -> storable bs.
Proof.
  intros [Hl _ [H40 [Hp Hb]] _ Hc _ _]. split_and!; [done|done|]. intros E. split; [done|].
  destruct (Hc E) as (c0 & inner & -> & Hi). rewrite (with_hbh_length inner c0 Hi). destruct Hi. lia.
Qed.

Lemma admissible_passable short bs : admissible short bs -> passable bs.
Proof. intros [Hl _ Hp _ Hc _ _]. split_and!; [done|lia|done]. Qed.

(** ** One packet *)

(** The timers and the recorded contact states stay. *)
Definition kept (w w' : world) : Prop :=
  w_timers w' = w_timers w /\ w_last_active w' = w_last_active w.

Lemma kept_trans w1 w2 w3 : kept w1 w2 -> kept w2 w3 -> kept w1 w3.
Proof. unfold kept. intros [? ?] [? ?]. split; congruence. Qed.

Lemma rest_kept w w' : rest_of w' = rest_of w -> kept w w'.
Proof. unfold rest_of, kept. intros [=]. done. Qed.

Section packets.
Context `{Env} `{Ip6Input} `{!Ip6InputOk} (nif : netif) (src : ip6_addr).
Context (Hnif : netif_sane nif) (Hsrc : ip6_addrs nif !! 1%nat = Some src).
Context (Hcgr : forall t q, env_cgr t q <> CgrNull) (Hall : env_all_ok) (short : bool).

Lemma src_wf : ip6_wf src.
Proof. eapply Forall_lookup_1; [apply Hnif|exact Hsrc]. Qed.

(** The node after a packet with the bytes [bs]: the store is as it was, or the
    packet without its custody header has been added. *)
Definition handled (bs : list Z) (w : world) (recs : list stored_rec) (rt : Routing_Function)
    (cs : list Contact_Info) (w' : world) : Prop :=
  kept w w' /\ exists t' ls' recs', node_ok w' t' ls' recs' rt cs /\
    (recs' `sublist_of` recs \/
     exists r, recs' = recs ++ [r] /\ r_data r = stripped bs /\ sendable (stripped bs) /\ fit short (stripped bs)).

Lemma handled_gone bs w p w' t ls recs rt cs :
  node_ok w t ls recs rt cs -> Some p ∉ entry_pbufs ls -> consumed w p w' -> handled bs w recs rt cs w'.
Proof.
  intros Hnk Hp Hc. pose proof (node_ok_consumed _ _ _ _ _ _ _ _ Hnk Hp Hc) as Hnk'.
  destruct Hc as (es & k & s & d & ->). split; [done|]. exists t, ls, recs. split; [done|by left].
Qed.

Lemma consumed_logged w p es k : consumed w p (del_pbuf p (logged es k w)).
Proof. exists es, k, (w_cur_src w), (w_cur_dest w). done. Qed.

(** A new store in a node that is otherwise the same. *)
Lemma node_ok_store w w' t ls recs rt cs ls' recs' :
  node_ok w t ls recs rt cs -> rest_of w' = rest_of w -> stores w' ls' recs' -> node_ok w' t ls' recs' rt cs.
Proof.
  intros [? ? _ Hr (r & lc & ? & ? & ?)] Hrest Hst. injection Hrest as E1 E2 E3 _ _ _ _ _ _ _ _.
  split; [congruence|done|done|congruence|]. exists r, lc. split_and!; congruence.
Qed.

Lemma node_ok_logged es k w t ls recs rt cs :
  node_ok w t ls recs rt cs -> node_ok (logged es k w) t ls recs rt cs.
Proof. intros [? ? Hst ? ?]. split; try done. by apply (same_store_stores w). Qed.

Lemma route_handles w p b bs c t ls recs rt cs sndr :
  arrived w p b bs c -> node_ok w t ls recs rt cs -> admissible short bs -> stack_packet b bs ->
  Some p ∉ entry_pbufs ls ->
  wp (route_incoming p nif (header_of bs) sndr) w (fun _ w' => handled bs w recs rt cs w').
Proof.
  intros Har Hnk Had Hsk Hp. pose proof (ad_len _ _ Had) as Hl.
  destruct (is_local (hdr_dest bs)) eqn:Hloc.
  { unfold route_incoming. apply wp_bind. eapply wp_exec; [apply for_this_stack_exec|].
    change (is_local (temp_dest_addr (header_of bs))) with (is_local (hdr_dest bs)). rewrite Hloc.
    eapply wp_deliver_local; [by apply arrived_ticks|lia|lia|exact Hsrc|apply src_wf|]. intros es k _.
    rewrite logged_ticks. eapply wp_mono; [apply (ip6_input_ok (logged es (k + 2) w) p b bs nif); [apply Har|done|done]|].
    intros err w' (_ & es' & k' & s & d & ->). rewrite logged_logged. eapply handled_gone; [done|done|].
    by eexists _, _, _, _. }
  destruct (existsb (serves (hdr_dest bs)) cs) eqn:Hsv.
  - eapply (wp_route_dtn _ p bs nif); [done|done|done|apply Hcgr| |].
    + intros nh z a k _. eapply wp_forward_now; [by apply arrived_ticks|exact Hsrc|by eapply admissible_passable|].
      intros bs' es n _ _. rewrite logged_ticks. eapply handled_gone; [done|done|apply consumed_logged].
    + intros k _. eapply (wp_store_incoming (add_ticks k w) p b bs c);
        [by apply arrived_ticks|by apply node_ok_ticks|exact Hsrc|apply src_wf|by eapply admissible_storable|lia|lia| |].
      * intros w2 data es n Hrest _ Hone _ Hd _ _. rewrite (Hd Hall) in Hone.
        split; [by apply rest_kept in Hrest|]. destruct Hone as (e & q & b' & time & _ & _ & _ & Hst & _).
        exists t. do 2 eexists. split; [apply (node_ok_logged es n), (node_ok_store w w2 t ls recs rt cs); eassumption|].
        right. eexists. split; [reflexivity|]. split; [done|by apply Had].
      * intros w2 n Hun _. split; [apply rest_kept, Hun|]. exists t, ls, recs. split; [|by left].
        apply (node_ok_consumed w2 p _ t ls recs rt cs); [|done|rewrite <-logged_nil; apply consumed_logged].
        apply (node_ok_store w w2 t ls recs rt cs ls recs Hnk); [apply Hun|by apply (unchanged_stores w), Hnk].
  - unfold route_incoming. apply wp_bind. eapply wp_exec; [apply for_this_stack_exec|].
    change (is_local (temp_dest_addr (header_of bs))) with (is_local (hdr_dest bs)). rewrite Hloc.
    apply wp_bind. eapply wp_exec; [apply (is_dtn_exec _ cs), Hnk|].
    change (serves (temp_dest_addr (header_of bs))) with (serves (hdr_dest bs)). rewrite Hsv.
    eapply wp_send_direct; [by apply arrived_ticks|]. intros es k _. rewrite logged_ticks.
    eapply handled_gone; [done|done|apply consumed_logged].
Qed.

(** A report that is only logged. *)
Lemma wp_offer_logged w p b bs t st Q :
  owned w p b bs -> w_controller w = Some t -> w_storage w = Some st ->
  (57 <= length bs)%nat -> Z.of_nat (length bs) <= 60000 ->
  ICMP6_TYPE_DTN_PCK_FORWARDED <= byte_at 40 bs <= ICMP6_TYPE_DTN_PCK_DELETED ->
  Q true (del_pbuf p (add_ticks 1 w)) -> wp (offer_icmpv6 p) w Q.
Proof.
  intros Ho Hc Hst Hl Hmax Hty HQ. unfold ICMP6_TYPE_DTN_PCK_FORWARDED, ICMP6_TYPE_DTN_PCK_DELETED in Hty.
  eapply wp_offer; [exact Ho|lia|done|done|]. intros _ q bq w1 Hne Hq -> Hs Hr.
  set (w1 := put_pbuf q bq (add_ticks 1 w)) in *.
  assert (Hb0 : byte_at 0 (drop 40 bs) = byte_at 40 bs) by (unfold byte_at; by rewrite nth_skipn).
  unfold dtn_controller_process_icmpv6. apply wp_bind, wp_get. cbn [w_controller w1 put_pbuf set_pbufs add_ticks].
  rewrite Hc. eapply wp_exec.
  { apply (process_other_exec w1 q bq (drop 40 bs) st t Hst Hc Hs); [rewrite length_drop; lia|].
    rewrite Hb0. unfold ICMP6_TYPE_DTN_PCK_RECEIVED. lia. }
  rewrite Hb0, (proj2 (Z.leb_le _ _)), (proj2 (Z.leb_le _ _)) by lia. cbn [andb negb Z.eqb].
  apply wp_bind. eapply wp_exec; [by eapply pbuf_free_m_exec|]. apply wp_bind.
  replace (set_pbufs _ _) with (add_ticks 1 w)
    by (apply world_eq; try reflexivity; cbn; by rewrite delete_insert_id).
  eapply wp_exec; [by eapply (pbuf_free_m_exec p b bs); apply Ho|]. by apply wp_ret.
Qed.

Lemma incoming_handles w p b bs t ls recs rt cs :
  owned w p b bs -> node_ok w t ls recs rt cs -> coped short bs -> ((length bs <= 1534)%nat -> stack_packet b bs) ->
  Some p ∉ entry_pbufs ls -> Forall (fun r => fit short (r_data r)) recs ->
  wp (dtn_controller_process_incoming (Some p) nif) w (fun _ w' => handled bs w recs rt cs w').
Proof.
  intros Ho Hnk [Hmax Hcp] Hsk Hp Hpl. specialize (Hsk Hmax).
  destruct (decide ((length bs < 40)%nat \/ hdr_version bs <> 6)) as [Hbad|Hgood].
  { eapply wp_exec; [eapply incoming_dropped; [exact Ho|tauto]|].
    eapply handled_gone; [exact Hnk|exact Hp|].
    rewrite <-(add_ticks_0 w) at 2. rewrite <-(logged_nil 0). apply consumed_logged. }
  assert (Had : admissible short bs) by tauto. clear Hcp Hgood. destruct (ad_custodian _ _ Had) as [c Hc].
  pose proof (ad_len _ _ Had) as Hl. assert (Har : arrived w p b bs c).
  { split; [done|lia|by apply Had|done]. }
  assert (Hroute : forall k, wp (route_incoming p nif (header_of bs) (sender w bs c)) (add_ticks k w)
                               (fun _ w' => handled bs w recs rt cs w')).
  { intros k. by eapply (route_handles (add_ticks k w)); [apply arrived_ticks|apply node_ok_ticks|..]. }
  destruct (Z.eqb_spec (hdr_nexth bs) IP6_NEXTH_ICMP6) as [Hnx|Hnx].
  2: { eapply incoming_routes; [by apply arrived_reached|exact Hnk|done|apply (Hroute 1%nat)]. }
  destruct (decide (byte_at 40 bs = ICMP6_TYPE_DTN_PCK_RECEIVED)) as [Hr|Hr].
  { destruct (ad_report _ _ Had Hnx) as [H105 Hq]; [unfold ICMP6_TYPE_DTN_PCK_RECEIVED, ICMP6_TYPE_DTN_PCK_DELETED in *; lia|].
    assert (Hno : no_hbh_from (slice 8 16 (quoted_packet (drop 40 bs))) recs).
    { eapply Forall_impl; [exact Hpl|]. by intros r [Hx _] _. }
    assert (Hcf : confirmable (drop 40 bs) recs).
    { destruct (Z.eq_dec (hdr_nexth (quoted_packet (drop 40 bs))) 0) as [Hz|]; [|by apply confirmable_plain].
      destruct Hq as [Hq|[Hsh H2]]; [by destruct Hq|]. apply confirmable_custody; [exact Hz|exact H2|].
      eapply Forall_impl; [exact Hpl|]. intros r [_ Hx]. exact (Hx Hsh). }
    assert (H2088 : Z.of_nat (length bs) <= 2088) by lia.
    eapply wp_mono; [exact (report_spec w p b bs c t ls recs rt cs nif (arrived_reached _ _ _ _ _ Har) Hnk Hp Hnx Hr H105 H2088 Hcf Hno)|].
    cbn beta. intros _ w'. destruct (Hall (S (w_tick w))) as (_ & -> & _).
    intros (t' & ls' & Hnk' & _ & _ & _ & Hrest & _).
    injection Hrest as _ _ _ Hla _ _ _ _ _ Htm. split; [by split|]. do 3 eexists. split; [exact Hnk'|].
    left. apply remaining_sublist. }
  eapply incoming_reads; [by apply arrived_reached|exact Hnk|]. rewrite Hnx, Z.eqb_refl. apply wp_bind.
  destruct (nk_stores _ _ _ _ _ _ Hnk) as [(st & Hst & _) _ _ _].
  destruct (decide (ICMP6_TYPE_DTN_PCK_RECEIVED <= byte_at 40 bs <= ICMP6_TYPE_DTN_PCK_DELETED)) as [Hin|Hout].
  - destruct (ad_report _ _ Had Hnx Hin) as [H105 _].
    eapply (wp_offer_logged (add_ticks 1 w)); [exact Ho|by apply Hnk|exact Hst|lia|lia| |].
    { unfold ICMP6_TYPE_DTN_PCK_RECEIVED, ICMP6_TYPE_DTN_PCK_FORWARDED, ICMP6_TYPE_DTN_PCK_DELETED in *. lia. }
    apply wp_ret. rewrite add_ticks_add. eapply handled_gone; [exact Hnk|exact Hp|].
    rewrite <-logged_nil. apply consumed_logged.
  - eapply (wp_offer_foreign (add_ticks 1 w)); [exact Ho|by apply Hnk|exact Hst|lia|lia|lia| |].
    + intros Hm. destruct (Hall (w_tick (add_ticks 1 w))) as (_ & Hm' & _). congruence.
    + intros _. rewrite add_ticks_add. apply (Hroute 2%nat).
Qed.

(** ** Reading from the TUN device *)

(** The loop's invariant, with packets that can be confirmed. *)
Definition serving (w : world) (recs : list stored_rec) : Prop :=
  running w recs /\ Forall (fun r => fit short (r_data r)) recs.

Lemma handled_serving bs w t ls recs rt cs w' :
  serving w recs -> node_ok w t ls recs rt cs -> handled bs w recs rt cs w' -> exists recs', serving w' recs'.
Proof.
  intros [[_ Hact Hsd] Hpl] _ ([_ Hla] & t' & ls' & recs' & Hnk' & Hcase). exists recs'.
  assert (Forall (fun r => sendable (r_data r)) recs' /\ Forall (fun r => fit short (r_data r)) recs') as [? ?].
  { destruct Hcase as [Hsub|(r & -> & Hd & Hs & Hn)].
    - split; (eapply Forall_sublist; [exact Hsub|]); done.
    - rewrite !Forall_app, !Forall_singleton, Hd. done. }
  split; [|done]. split; [by exists t', ls', rt, cs|by rewrite Hla|done].
Qed.

Context (fd : Z) (Hfd : nif_state nif = Some fd).
Context (Hread : forall t data, env_read t = ReadBytes data -> Forall is_byte data /\ coped short data).

Lemma pool_full w n :
  (PBUF_POOL_SIZE <= pool_live [PBUF_POOL] (w_pbufs w))%nat -> pbuf_alloc PBUF_RAW n PBUF_POOL w = Ret (None, w).
Proof.
  intros Hful. unfold pbuf_alloc. rewrite loop_S. unfold pool_body. rewrite (bind_exec _ _ w (inr None) w); [done|].
  rewrite (bind_exec get _ w w w) by done. rewrite decide_False by lia. done.
Qed.

Lemma tun_input_serves w recs :
  serving w recs ->
  wp (tunif_input (Some nif)) w (fun _ w' => w_timers w' = w_timers w /\ exists recs', serving w' recs').
Proof.
  intros Hsv. pose proof Hsv as [[(t & ls & rt & cs & Hnk) Hact Hsd] Hpl].
  assert (Hidle : forall k, exists recs', serving (add_ticks k w) recs').
  { intros k. exists recs. split; [|done]. split; [|done|done]. exists t, ls, rt, cs. by apply node_ok_ticks. }
  destruct (env_read (w_tick w)) as [| |data] eqn:Hrd.
  1, 2: unfold tunif_input; rewrite Hfd; apply wp_bind, wp_get; rewrite (nk_controller _ _ _ _ _ _ Hnk);
    apply wp_bind, wp_tick; rewrite Hrd; apply wp_ret; by split; [|apply (Hidle 1%nat)].
  destruct (Hread _ _ Hrd) as [Hb Hcp]. pose proof (proj1 Hcp) as Hmax.
  destruct (decide (data = [])) as [->|Hne].
  { unfold tunif_input. rewrite Hfd. apply wp_bind, wp_get. rewrite (nk_controller _ _ _ _ _ _ Hnk).
    apply wp_bind, wp_tick. rewrite Hrd. apply wp_ret. by split; [|apply (Hidle 1%nat)]. }
  assert (Hl0 : (0 < length data)%nat) by (destruct data; [done|simpl; lia]).
  destruct (decide (pool_live [PBUF_POOL] (w_pbufs w) < PBUF_POOL_SIZE)%nat) as [Hroom|Hful].
  - eapply wp_tun_reads; [exact Hnk|exact Hfd|exact Hroom|exact Hrd|done|lia|].
    intros p lp b w1 Hrv Ho Hsk Hnk1.
    assert (Hkept : kept w w1).
    { destruct (rv_rest _ _ _ _ _ Hrv) as [k Hw]. rewrite Hw. done. }
    assert (Hp : Some p ∉ entry_pbufs ls).
    { eapply fresh_not_stored; [apply Hnk|]. pose proof (rv_fresh _ _ _ _ _ Hrv) as Hf.
      destruct (rv_pkt _ _ _ _ _ Hrv) as [Hll _]. destruct lp as [|[p' b'] lp]; simpl in Hll; [done|].
      destruct Hll as [[= ->] _]. by apply Forall_cons in Hf as [Hf _]. }
    assert (Hsv1 : serving w1 recs).
    { split; [|done]. split; [by exists t, ls, rt, cs| |done]. by destruct Hkept as [_ ->]. }
    eapply wp_mono; [by apply (incoming_handles w1 p b data t ls recs rt cs)|]. cbn beta. intros _ w' Hh.
    split; [|by eapply handled_serving]. destruct Hh as [[Htm _] _]. rewrite Htm. apply Hkept.
  - unfold tunif_input. rewrite Hfd. apply wp_bind, wp_get. rewrite (nk_controller _ _ _ _ _ _ Hnk).
    apply wp_bind, wp_tick. rewrite Hrd. unfold input_bytes. cbv zeta.
    destruct (Z.eqb_spec (Z.of_nat (length (u8 <$> take (Z.to_nat PACKET_BUF_SIZE) data))) 0) as [E|_].
    { rewrite length_fmap, length_take in E. change (Z.to_nat PACKET_BUF_SIZE) with 2048%nat in E. lia. }
    apply wp_bind. eapply wp_exec; [apply pool_full; cbn; lia|]. apply wp_ret. by split; [|apply (Hidle 1%nat)].
Qed.

(** ** Rounds *)

Context `{TimerFunctions} `{!SteadyClock} `{!TimerFunctionsOk}.

Lemma serving_step w w' recs : stack_step w w' -> serving w recs -> serving w' recs.
Proof. intros Hs [Hrun Hpl]. split; [by eapply running_stack_step|done]. Qed.

Lemma traffic_round w recs :
  (forall t, env_select t <> SelectIntr) -> serving w recs -> on_time w ->
  wp (main_round nif) w (fun r w' => (exists recs', serving w' recs') /\ (r = inl tt -> in_time w w' -> on_time w')).
Proof.
  intros Hsig Hsv Hon. unfold main_round. apply wp_bind. eapply wp_mono; [by apply wp_sleeptime|]. cbn beta zeta.
  intros ms w1 (Hs1 & Ht1 & Hc1). apply wp_bind, wp_tick. set (w2 := add_ticks 1 w1).
  assert (Hc2 : clock w1 <= clock w2 <= clock w1 + 16777216) by apply clock_step.
  assert (Hsv2 : serving w2 recs) by (eapply serving_step; [|exact Hsv]; etransitivity; [exact Hs1|apply stack_step_ticks]).
  specialize (Hsig (w_tick w1)). destruct (env_select (w_tick w1)) as [| |readable]; [|done|].
  { apply wp_ret. split; [by exists recs|done]. }
  apply wp_bind. eapply wp_mono; [apply (wp_timers_run w w2); [done|done|lia]|]. cbn beta.
  intros _ w3 [Hs3 Hon3]. assert (Hsv3 : serving w3 recs) by (by eapply serving_step).
  apply wp_bind, (wp_mono _ _ (fun _ w4 => w_timers w4 = w_timers w3 /\ exists recs4, serving w4 recs4)).
  { destruct readable; [|apply wp_ret; by split; [|exists recs]]. apply wp_bind.
    eapply wp_mono; [by apply (tun_input_serves w3 recs)|]. intros r w4 Hw4. by apply wp_ret. }
  intros closed w4 (Ht4 & recs4 & [Hrun4 Hpl4]). destruct closed; [by apply wp_ret; split; [exists recs4|]|].
  apply wp_bind. eapply wp_mono; [by apply (check_contacts_spec nif src Hsrc Hcgr w4 recs4)|]. cbn beta.
  intros _ w5 (recs5 & Hrun5 & Hsub & Ht5 & _). apply wp_ret. split.
  - exists recs5. split; [done|]. by eapply Forall_sublist.
  - intros _ Hit. apply Hon3; [congruence|done].
Qed.

Lemma traffic_rounds w w' recs :
  (forall t, env_select t <> SelectIntr) -> serving w recs -> on_time w -> rounds nif w w' ->
  exists recs', serving w' recs' /\ on_time w'.
Proof.
  intros Hsig Hsv Hon Hr. revert recs Hsv. induction Hr as [w|w w1 w2 _ IH Hstep Hit]; intros recs Hsv; [by exists recs|].
  destruct (IH Hon recs Hsv) as (recs1 & Hsv1 & Hon1).
  destruct (wp_elim _ _ _ (traffic_round w1 recs1 Hsig Hsv1 Hon1)) as (r & w3 & E & [recs2 Hsv2] & Hon2).
  rewrite Hstep in E. simplify_eq. exists recs2. split; [done|by apply Hon2].
Qed.
End packets.


(** ** Properties *)

(** C7: the node under traffic.  Whatever sequence of packets it copes with the
    TUN device delivers, mixed with rounds in which nothing or an error comes,
    every state any number of rounds of the main loop reaches is well-formed
    again: at most five stored packets, each fit to be sent on and to be
    confirmed, a sound retry table, contacts and timers; and the next round
    returns, also when a packet finds the buffer pool exhausted.  Here lwIP is
    the modelled IPv6 stack.  The hypotheses: memory and files are available,
    the route computation gives an answer, no signal interrupts [select]. *)
Theorem main_loop_serves `{Env} `{LowerLayersOk} `{TimerFunctions} `{!SteadyClock} `{!TimerFunctionsOk}
    short sn nif src fd w w' recs :
  Forall netif_sane (sn_list sn) -> netif_sane nif -> ip6_addrs nif !! 1%nat = Some src -> nif_state nif = Some fd ->
  (forall t q, env_cgr t q <> CgrNull) -> env_all_ok -> (forall t, env_select t <> SelectIntr) ->
  (forall t data, env_read t = ReadBytes data -> Forall is_byte data /\ coped short data) ->
  serving short w recs -> on_time w -> @rounds _ (stack_input sn) _ nif w w' ->
  exists recs', serving short w' recs' /\ (length recs' <= 5)%nat /\ on_time w' /\
    wp (@main_round _ (stack_input sn) _ nif) w' (fun _ w2 => exists recs2, serving short w2 recs2).
Proof.
  intros Hsn Hnif Hsrc Hfd Hcgr Hall Hsig Hread Hsv Hon Hr.
  pose proof (stack_input_ok sn Hsn) as Hin.
  destruct (@traffic_rounds _ _ Hin nif src Hnif Hsrc Hcgr Hall short fd Hfd Hread _ _ _ w w' recs Hsig Hsv Hon Hr)
    as (recs' & Hsv' & Hon').
  exists recs'. split_and!; [done| |done|].
  - destruct Hsv' as [[(t & ls & rt & cs & Hnk) _ _] _]. pose proof (nk_stores _ _ _ _ _ _ Hnk) as [_ Hb Hf _].
    apply Forall2_length in Hf. lia.
  - eapply wp_mono; [by apply (@traffic_round _ _ Hin nif src Hnif Hsrc Hcgr Hall short fd Hfd Hread _ _ _ w' recs')|].
    cbn beta. by intros r w2 [? _].
Qed.

(** *** A concrete run: pings, packets for a DTN node and their acknowledgements *)

(** The acknowledgement of a packet this node has sent with its custody header. *)
Definition custody_ack : list Z := report 200 0 0 0 (with_hbh local_1 (quiet_to (addr_of 32))) (addr_of 32) local_1.

Definition busy_env : Env :=
  calm_env_selecting (fun _ => 100000) (fun _ _ => CgrNoCandidate)
    (fun t => ReadBytes (if Nat.even t then ping else if Nat.even (Nat.div2 t) then quiet_to (addr_of 32) else custody_ack)) (fun _ => SelectOk true).
Definition busy_input : Ip6Input := @stack_input busy_env (@tun_layers busy_env) tun_only.
Definition busy_round (w : world) : outcome ((unit + unit) * world) :=
  @main_round busy_env busy_input idle_functions (tun_configured 3) w.
Definition busy_world : world :=
  ticking (set_update_statics 0 (replicate 100 false) (with_node (storage_world []))).

Lemma ping_admissible : admissible true ping.
Proof.
  split.
  - vm_compute. lia.
  - by vm_compute.
  - split_and!; [vm_compute; lia|by vm_compute|decided].
  - exists None. by vm_compute.
  - intros E. by vm_compute in E.
  - intros E. by vm_compute in E.
  - intros _ [E _]. by vm_compute in E.
Qed.

Lemma quiet_admissible : admissible true (quiet_to (addr_of 32)).
Proof.
  split.
  - vm_compute. lia.
  - by vm_compute.
  - apply quiet_packet.
  - exists None. by vm_compute.
  - intros E. by vm_compute in E.
  - intros _. split; [|split; [by vm_compute|by intros _; vm_compute]]. split_and!; [apply quiet_packet|decided|by vm_compute| |by vm_compute].
    exists None. by vm_compute.
  - intros E. by vm_compute in E.
Qed.

Lemma custody_ack_admissible : admissible true custody_ack.
Proof.
  split.
  - vm_compute. lia.
  - by vm_compute.
  - split_and!; [vm_compute; lia|by vm_compute|decided].
  - exists None. by vm_compute.
  - intros E. by vm_compute in E.
  - intros E. by vm_compute in E.
  - intros _ _. split; [vm_compute; lia|]. right. split; by vm_compute.
Qed.

Lemma busy_all_ok : @env_all_ok busy_env.
Proof. intros t. split_and!; [done|done|done|cbn; lia|done]. Qed.

Lemma busy_serving : serving true busy_world [].
Proof.
  split; [|constructor]. apply ticking_running. split; [|done|constructor].
  eexists _, [], _, _. destruct (with_node_ok (storage_world []) [] []) as [H1 H2 H3 H4 H5]; [apply storage_world_stores|].
  split; [exact H1|exact H2|by apply (same_store_stores (with_node (storage_world [])))|exact H4|exact H5].
Qed.

Lemma busy_goes_on w :
  goes_on (busy_round w) = true ->
  @rounds busy_env busy_input idle_functions (tun_configured 3) w (end_of w (busy_round w)).
Proof.
  intros E. apply (@rounds_more busy_env busy_input idle_functions _ _ w); [apply rounds_none| |split; cbn; lia].
  unfold busy_round in *. by destruct (main_round _ w) as [[[[]|] w']| |].
Qed.

Lemma main_loop_serves_witness :
  exists recs', serving true (end_of busy_world (busy_round busy_world)) recs' /\ (length recs' <= 5)%nat /\
    @on_time busy_env (end_of busy_world (busy_round busy_world)) /\
    wp (@main_round busy_env busy_input idle_functions (tun_configured 3)) (end_of busy_world (busy_round busy_world))
      (fun _ w2 => exists recs2, serving true w2 recs2).
Proof.
  refine (@main_loop_serves busy_env (@tun_layers busy_env) tun_layers_ok idle_functions _ idle_functions_ok
            true tun_only (tun_configured 3) node2 3 busy_world _ [] _ (tun_configured_sane 3) eq_refl eq_refl _ busy_all_ok _ _
            busy_serving _ _).
  - intros t. cbn. lia.
  - constructor; [apply tun_configured_sane|constructor].
  - discriminate.
  - discriminate.
  - intros t data [= <-]. destruct (Nat.even t); [|destruct (Nat.even (Nat.div2 t))].
    + split; [decided|]. split; [vm_compute; lia|]. right. right. exact ping_admissible.
    + split; [decided|]. split; [vm_compute; lia|]. right. right. exact quiet_admissible.
    + split; [decided|]. split; [vm_compute; lia|]. right. right. exact custody_ack_admissible.
  - apply ticking_on_time.
  - apply busy_goes_on. by vm_compute.
Defined.
